(* ===== verification/_CoqProject ===== *)
-Q . S2P
Prelude.v
CString.v
Buffer.v
Flash.v
Sysparam.v
SysparamLog.v
SysparamPairs.v
SysparamFlash.v
SysparamWrite.v
SysparamCompact.v
SysparamSpec.v
SysparamSet.v
SysparamInit.v
SysparamTotal.v
SysparamTheorems.v
FlashTheorems.v
MqttPacket.v
MqttMessages.v
MqttCodec.v
MqttWire.v
MqttStream.v
MqttTheorems.v
MqttClient.v
MqttTopic.v
MqttNet.v
MqttSession.v
MqttEsp.v
MqttClientTheorems.v
FrList.v
FrListSpec.v
FrSeq.v
FrSeqRefine.v
FrListTheorems.v
FrKernel.v
FrTasks.v
FrTasksInv.v
FrTasksMove.v
FrTasksTick.v
FrTasksSched.v
FrTasksApi.v
FrTasksLife.v
FrTasksPrio.v
FrNotify.v
FrTasksSteps.v
FrTasksTime.v
FrTasksTheorems.v
FrQueue.v
FrQueueData.v
FrQueueSched.v
FrQueueBlock.v
FrQueueWait.v
FrQueueTheorems.v
FrNotifyTheorems.v
FrEvent.v
FrEventSpec.v
FrEventTheorems.v
FrTimer.v
FrTimerSpec.v
FrTimerDaemon.v
FrTimerCommands.v
FrTimerExpiry.v
FrTimerTheorems.v
OneWire.v
OneWireSpec.v
OneWireRead.v
OneWireData.v
OneWireSeq.v
OneWireTheorems.v
Rboot.v
RbootLoader.v
RbootSpec.v
RbootWrite.v
RbootImage.v
RbootBoot.v
RbootTheorems.v
Tftp.v
TftpSpec.v
TftpTheorems.v
Dhcp.v
DhcpTheorems.v
