(* ===== verification/Prelude.v ===== *)
(** * A verification of esp-rtos-tests

    The repository is an operating system for the ESP8266: the FreeRTOS kernel
    (src/FreeRTOS), the flash driver and the parameter store of the core
    (src/open_esplibs/libmain/spi_flash.c, src/core/sysparam.c), an MQTT client
    (src/extras/paho_mqtt_c), a 1-Wire temperature driver (src/extras/onewire),
    updates over the air with their boot loader (src/extras/rboot-ota,
    src/bootloader/rboot), a DHCP server (src/extras/dhcpserver) and other drivers,
    over a vendored lwIP and binary
    radio libraries.  This development models the parts below as executable
    definitions, one per C function, and proves what makes them correct.

    ** The parts and their files

    - Shared: Prelude (machine words with their wrap-around, byte lists,
      tactics and the hint databases), CString (string.h and the number
      conversions the sources use), Buffer (writing and reading through a moving
      pointer; an access outside of the allocation is [None]).
    - SPI flash driver, src/open_esplibs/libmain/spi_flash.c: Flash.v, its
      theorems in FlashTheorems.v.  The routines of the mask ROM are the class
      [SpiRom], what the driver relies on the class [SpiRomSpec]; the driver is
      an instance of [FlashDev]/[FlashSpec]/[FlashReadSpec], which sysparam and the
      boot configuration use.
    - Parameter store, src/core/sysparam.c: Sysparam.v (every function, over a
      world of flash, static variables, mutex and heap), SysparamLog and
      SysparamPairs (the log of entries as a list and the finite map it means),
      SysparamFlash, SysparamWrite, SysparamCompact, SysparamSpec,
      SysparamSet, SysparamInit (the refinement), SysparamTotal (any flash, any
      heap), SysparamTheorems.
    - MQTT, src/extras/paho_mqtt_c: MqttPacket and MqttMessages (codec),
      MqttCodec, MqttWire, MqttStream (what it writes and reads),
      MqttTheorems; MqttClient (MQTTClient.c over the class [NetOps]), MqttTopic,
      MqttNet, MqttSession (over any network with [NetSpec]), MqttEsp (the network
      over sockets, MQTTESP8266.c), MqttClientTheorems.
    - Kernel lists, src/FreeRTOS/Source/list.c: FrList (items and lists with
      their pointers in one store), FrListSpec, FrSeq (the same lists as
      sequences: the interface for the clients), FrSeqRefine, FrListTheorems.
    - Scheduler, src/FreeRTOS/Source/tasks.c and the interrupts of
      portable/esp8266/port.c: FrKernel (the variables), FrTasks (one definition
      per function), FrTasksInv (invariant), FrTasksMove, FrTasksTick,
      FrTasksSched, FrTasksApi, FrTasksLife, FrTasksPrio (each function keeps it),
      FrNotify (task notifications), FrTasksSteps (the start, the transition system
      and its reachable states), FrTasksTime (delays), FrTasksTheorems.  The
      invariant [kinv] has two versions, chosen by the class [Urgency]: with
      [prompt] it says that the running task has the highest priority whenever no
      switch is pending, without (loose) only that it is ready.
    - Queues, semaphores and mutexes, src/FreeRTOS/Source/queue.c: FrQueue (every
      function, over the bytes of a queue and the scheduler), FrQueueData (the
      ring buffer is a sequence), FrQueueSched (critical sections and the
      scheduler), FrQueueBlock and FrQueueWait (blocking, with interrupts),
      FrQueueTheorems.
    - Task notifications and stack checks of tasks.c: FrNotify, FrNotifyTheorems.
    - Event groups, src/FreeRTOS/Source/event_groups.c: FrEvent (every function),
      FrEventSpec (the bits and the waiting tasks), FrEventTheorems.
    - Software timers, src/FreeRTOS/Source/timers.c: FrTimer (every function, over
      the command queue and the scheduler; the callbacks are the class
      [TimerCallback]), FrTimerSpec (absolute deadlines), FrTimerDaemon (the
      overflow of the tick count), FrTimerCommands, FrTimerExpiry,
      FrTimerTheorems.
    - 1-Wire temperature sensor, src/extras/onewire, hw_timer and crc: OneWire (the
      driver, the timer interrupt that runs it and the checksum, over the class
      of the device on the line), OneWireSpec and OneWireRead (what the line
      shows), OneWireData (the checksum as a shift register and the decimal
      text), OneWireSeq (the whole sequence), OneWireTheorems.
    - Boot configuration and update, src/extras/rboot-ota/rboot-api.c, and the boot
      loader, src/bootloader/rboot: Rboot (the API), RbootLoader (image check,
      choice of the rom, second stage), RbootSpec (layout of the configuration and
      the cells of the chip), RbootWrite (chunks), RbootImage (what is a valid
      image), RbootBoot (the search for a rom), RbootTheorems.
    - Updates over TFTP, src/extras/rboot-ota/ota-tftp.c: Tftp (server and client; what
      lwIP delivers is a list of events), TftpSpec (what a transfer may touch and
      what it stores), TftpTheorems.
    - The DHCP server, src/extras/dhcpserver/dhcpserver.c: Dhcp (the server over the packets
      that lwIP delivers), DhcpTheorems.
    ** How the code is modelled

    A C integer is a [Z] with the wrap-around of its type written out ([u8],
    [u16], [u32], [s8], [s32]).  A routine that touches memory outside of its
    object, follows a null pointer or links a list item twice is [None], so a
    theorem that a routine gives [Some] says that none of this happens.  State is
    passed explicitly; sysparam and the MQTT client have a monad of their own.
    Library code that is not in the repository (mask ROM, heap, sockets) is a
    parameter, and what is assumed of it is a class or a hypothesis with an
    instance that has it.

    The kernel runs in steps: a function of tasks.c is one step (it runs under
    the suspended scheduler or with interrupts masked, but for short stretches
    in which only the counting of pended ticks could interleave), an interrupt is one
    step.  The functions of queue.c that block are split where they enable
    interrupts: a [gap] between two critical sections runs any list of
    interrupts, and between the phases of a blocking call the rest of the system
    runs ([env]).  Addresses of blocks come from the heap as arguments.

    ** What the theorems show

    - sysparam: set, delete, get, iterate, compact, init refine a finite map that
      survives a reset, as long as the parameters fit, no scan marked the log as
      damaged and a set that compacts is not of a key whose value was deleted; on any device it
      terminates, releases its mutex and leaks nothing.  Three theorems pin down
      where it loses data.
    - flash: reads of any alignment and length, and writes at addresses that are a
      multiple of 4, whose length is rounded up to 4, do what a NOR chip can
      do, and the bracket of critical section and cache holds on every path.
    - MQTT: the serializers write the wire format inside of the buffer or refuse,
      deserializers invert them, the reader assembles packets from any
      fragmentation, the client never leaves its buffers whatever the network
      sends, dispatches a message to exactly the matching handlers and answers
      it, and detects a dead connection.
    - lists: any allowed program of list operations on the linked structure gives
      the results that it gives on sequences.
    - scheduler: in every reachable state the structural invariant holds and every allowed
      step succeeds; the steps are those of kcall in FrTasksSteps, allowed is what
      the documentation and the assertions of the code ask for (a task that waits is in no
      event list yet, a task that is notified while it waits is in none).  As long as the gives
      of mutexes keep the switches they owe (keeps_switch), the running task is a ready task of the highest priority
      whenever no switch is pending.  Delays end at the right tick over the
      overflow of the tick count; time-outs are exact; ticks under a suspended
      scheduler are made up for; priorities are inherited; deleted tasks are
      freed.
    - queues: any program of non-blocking calls gives on the ring buffer what it
      gives on a bounded sequence; a task that blocks misses no message that
      interrupts bring in any gap; a mutex has one holder.  Three computed
      examples show limits of the code: the 32-bit size of a queue, the 8-bit
      lock counts, and a mutex that is given back without the switch that the
      lost priority asks for.
    - notifications: a task that takes notifications gets all of them, those from before and
      those that came while it waited, woken or timed out, and the actions deliver their value.  Two computed examples: vTaskResume ends a wait for a
      notification, and a resume and a notification from interrupts under the
      suspended scheduler corrupt a list.
    - event groups: setting bits wakes exactly the tasks whose condition (all or any of
      their bits, written down independently of its encoding) is met,
      a wait returns the bits at once, those that met it or those at its time-out, a rendezvous lets all go on together,
      deleting releases everybody.
    - software timers: commands refine a table of absolute deadlines over the
      overflow of the tick count; timers expire in order, never early and without
      drift; the timer task sleeps until the next deadline and misses no command.
      Computed examples show a reload that a full command queue loses, and a stop
      and a delete in a callback that a late start undoes.
    - 1-Wire: with an answering device the driver publishes exactly the text of its
      temperature; corrupted data are not published; the device receives the
      command bytes; without a device the sequence ends; the table of the checksum
      is that of the polynomial.
    - update and boot: an image that arrives in chunks is written, verified,
      selected and started; an update that is cut off leaves the old rom bootable;
      verification and boot loader are characterised for images with one header (0xe9) and with two
      (0xea, with an irom section between them); they differ in the irom
      section, which only the boot loader puts into the checksum, so that the update
      theorems are about images with one header and about those with two whose irom bytes have the exclusive or
      0: the two-header images that the build makes (-iromchksum) are otherwise refused by
      rboot_verify_image.  The search of the boot loader ends and
      starts the first good rom; the configuration is read back as stored.  Three
      theorems pin down departures: the checksum of irom sections, temporary roms
      that never reach the boot loader, and a table without roms.
    - TFTP: as long as packets are made of whole words, whatever the network brings, a transfer stays in its slot and in its
      packets and frees what it takes, but for one packet after ERR_VAL; a request and the blocks of an image, with repetitions and
      timeouts, end in a restart into the new image.  Two theorems show a packet
      that is not deleted and a packet that overruns its buffer.
    - DHCP: a lease stays with its client until it ends or is released, whatever
      other clients send whose requests give hlen 6, and the server does not fault while memory
      can be allocated; options are found as they were
      written.  Theorems show where the server departs from the protocol: leases
      that end with the first hour, requests with a short address, pad bytes,
      and memory that a restart loses.
    ** Bounds and fuel

    Loops over the flash, the log and the lists recurse on a length or an address
    with fuel that their theorems show to be enough; the MQTT loops take fuel and
    answer [OutOfFuel], and the theorems say how much is enough.  The blocking
    theorems of queues allow 127 interrupts in the locked part of one call, the
    range of the int8_t lock counts.  The loops of xQueueGenericSend and
    xQueueGenericReceive take one unit of fuel per round; their phases are total.

    ** Not modelled

    The stack frames, register windows and interrupt controller of the port;
    vendored and binary code (lwIP, the SDK libraries, newlib); drivers that are
    register accesses and bit timing (GPIO, SPI, PWM, LED strips); examples, tests
    and host tools.  The SNTP client, which is
    callbacks of lwIP. *)

From Stdlib Require Export ZArith Lia.
From stdpp Require Export base numbers option gmap list list_numbers.

Declare Scope esp_scope.
Delimit Scope esp_scope with esp.
Global Open Scope Z_scope.

(** ** Machine words

    A C integer of width w is a [Z]; the wrap-around of a conversion or of an
    unsigned operation is written out where the source performs it. *)

Definition u8 (x : Z) : Z := x `mod` 2 ^ 8.
Definition u16 (x : Z) : Z := x `mod` 2 ^ 16.
Definition u32 (x : Z) : Z := x `mod` 2 ^ 32.
Definition s8 (x : Z) : Z := (x + 2 ^ 7) `mod` 2 ^ 8 - 2 ^ 7.
Definition s32 (x : Z) : Z := (x + 2 ^ 31) `mod` 2 ^ 32 - 2 ^ 31.

Definition is_byte (b : Z) : Prop := 0 ≤ b < 256.
Definition is_u16 (x : Z) : Prop := 0 ≤ x < 65536.

(** A word-aligned size: ROUND_TO_WORD_BOUNDARY of the sources. *)
Definition round4 (x : Z) : Z := Z.land (x + 3) 0xfffffffc.

(** ** Little-endian buffers *)

Definition le16 (x : Z) : list Z := [u8 x; u8 (x / 256)].
Definition le32 (x : Z) : list Z := le16 x ++ le16 (x / 65536).

Definition at_ (l : list Z) (i : Z) : Z := default 0 (l !! Z.to_nat i).
Definition get16 (l : list Z) (i : Z) : Z := at_ l i + 256 * at_ l (i + 1).
Definition get32 (l : list Z) (i : Z) : Z := get16 l i + 65536 * get16 l (i + 2).

(** [zlength] is the C length of a buffer. *)
Abbreviation zlength l := (Z.of_nat (length l)).

(** [sub_list l off n]: the [n] bytes of [l] at offset [off]. *)
Definition sub_list (l : list Z) (off n : Z) : list Z :=
  take (Z.to_nat n) (drop (Z.to_nat off) l).

(** ** Automation *)

Create HintDb esp.

#[export] Hint Unfold u8 u16 u32 s8 s32 is_byte is_u16 : esp.

(** Integer goals with constant divisors. *)
Ltac zsolve :=
  unfold is_byte, is_u16, u8, u16, u32, s8, s32 in *;
  change (2 ^ 7) with 128 in *; change (2 ^ 8) with 256 in *;
  change (2 ^ 16) with 65536 in *; change (2 ^ 31) with 2147483648 in *;
  change (2 ^ 32) with 4294967296 in *;
  Z.div_mod_to_equations; lia.

(** Splits the boolean comparisons of a goal into their two cases. *)
Ltac zbool :=
  repeat match goal with
  | |- context [?a =? ?b] => destruct (Z.eqb_spec a b)
  | |- context [?a <? ?b] => destruct (Z.ltb_spec a b)
  | |- context [?a <=? ?b] => destruct (Z.leb_spec a b)
  | H : context [?a =? ?b] |- _ => destruct (Z.eqb_spec a b)
  | H : context [?a <? ?b] |- _ => destruct (Z.ltb_spec a b)
  | H : context [?a <=? ?b] |- _ => destruct (Z.leb_spec a b)
  end.

(** Destructs the scrutinee of the innermost [match] in the goal. *)
Ltac case_step :=
  match goal with
  | |- context [match ?x with _ => _ end] =>
      lazymatch x with
      | context [match _ with _ => _ end] => fail
      | _ => let E := fresh "E" in destruct x eqn:E
      end
  end.

(** [field_setter eta proj]: the function that replaces the field [proj] of a
    record, from the eta expansion [eta] of the record. *)
Ltac field_setter eta proj :=
  let v := fresh "v" in let r := fresh "r" in intros v r;
  let t := eval cbv beta delta [eta] in (eta r) in
  match eval pattern (proj r) in t with
  | ?F _ => let b := eval cbv beta in (F v) in exact b
  end.

(** ** Words *)

Lemma u8_byte x : is_byte (u8 x).
Proof. zsolve. Qed.

Lemma u8_small x : is_byte x → u8 x = x.
Proof. intros; zsolve. Qed.

Lemma u16_small x : is_u16 x → u16 x = x.
Proof. intros; zsolve. Qed.

Lemma u32_small x : 0 ≤ x < 2 ^ 32 → u32 x = x.
Proof. intros; zsolve. Qed.

Lemma s32_small x : - 2 ^ 31 ≤ x < 2 ^ 31 → s32 x = x.
Proof. intros; zsolve. Qed.

#[export] Hint Resolve u8_byte u8_small u16_small u32_small s32_small : esp.

Lemma round4_spec x : 0 ≤ x < 2 ^ 32 - 4 → round4 x = 4 * ((x + 3) / 4).
Proof.
  intros Hx. unfold round4.
  replace 0xfffffffc with (Z.shiftl (Z.ones 30) 2) by reflexivity.
  apply Z.bits_inj'; intros n Hn.
  rewrite Z.land_spec, (Z.mul_comm 4).
  change 4 with (2 ^ 2).
  rewrite <- Z.shiftl_mul_pow2, <- Z.shiftr_div_pow2 by lia.
  rewrite !Z.shiftl_spec by lia.
  destruct (decide (n < 2)).
  - rewrite !(Z.testbit_neg_r _ (n - 2)) by lia. apply andb_false_r.
  - rewrite Z.shiftr_spec by lia. replace (n - 2 + 2) with n by lia.
    destruct (decide (n < 32)).
    + rewrite Z.ones_spec_low by lia. apply andb_true_r.
    + rewrite Z.ones_spec_high by lia.
      rewrite andb_false_r. symmetry.
      apply Z.bits_above_log2; [lia|]. apply Z.log2_lt_pow2; [lia|].
      assert (2 ^ 32 ≤ 2 ^ n) by (apply Z.pow_le_mono_r; lia). lia.
Qed.

Lemma round4_bounds x :
  0 ≤ x < 2 ^ 32 - 4 → x ≤ round4 x < x + 4 ∧ round4 x `mod` 4 = 0.
Proof. intros. rewrite round4_spec by done. zsolve. Qed.

(** ** Bits of words *)

Lemma testbit_above n x i : 0 ≤ x < 2 ^ n → n ≤ i → Z.testbit x i = false.
Proof.
  intros Hx Hi. destruct (decide (x = 0)) as [->|H]; [apply Z.testbit_0_l|]. apply Z.bits_above_log2; [lia|].
  destruct (decide (0 ≤ n)); [|rewrite Z.pow_neg_r in Hx by lia; lia].
  assert (Z.log2 x < n); [|lia]. apply Z.log2_lt_pow2; lia.
Qed.

Lemma bits_below n x : 0 ≤ n → 0 ≤ x → (∀ i, n ≤ i → Z.testbit x i = false) → 0 ≤ x < 2 ^ n.
Proof.
  intros Hn Hx H. split; [done|]. destruct (decide (x = 0)) as [->|Hz]; [lia|]. apply Z.log2_lt_pow2; [lia|].
  destruct (decide (Z.log2 x < n)) as [|L]; [done|]. specialize (H (Z.log2 x) ltac:(lia)).
  rewrite Z.bit_log2 in H by lia. done.
Qed.

Lemma lor_range n x y : 0 ≤ n → 0 ≤ x < 2 ^ n → 0 ≤ y < 2 ^ n → 0 ≤ Z.lor x y < 2 ^ n.
Proof.
  intros Hn Hx Hy. apply bits_below; [done|by apply Z.lor_nonneg; lia|]. intros i Hi.
  rewrite Z.lor_spec, !(testbit_above n) by lia. done.
Qed.

Lemma land_range n x y : 0 ≤ n → 0 ≤ x < 2 ^ n → 0 ≤ Z.land x y < 2 ^ n.
Proof.
  intros Hn Hx. apply bits_below; [done|by apply Z.land_nonneg; lia|]. intros i Hi.
  by rewrite Z.land_spec, (testbit_above n) by lia.
Qed.

(** [x & ~y] of 32-bit words. *)
Definition andnot (x y : Z) : Z := Z.land x (Z.lxor (u32 y) 0xffffffff).

Lemma testbit_andnot x y i : 0 ≤ x < 2 ^ 32 → 0 ≤ i →
  Z.testbit (andnot x y) i = Z.testbit x i && negb (Z.testbit y i).
Proof.
  intros Hx Hi. unfold andnot, u32. rewrite Z.land_spec, Z.lxor_spec.
  change 0xffffffff with (Z.ones 32). destruct (decide (i < 32)).
  - rewrite Z.ones_spec_low, Z.mod_pow2_bits_low by lia. by rewrite xorb_true_r.
  - rewrite (testbit_above 32 x) by lia. done.
Qed.

Lemma andnot_range x y : 0 ≤ x < 2 ^ 32 → 0 ≤ andnot x y < 2 ^ 32.
Proof. intros. apply land_range; lia. Qed.

(** ** State passing

    [ST S A] is a C function that reads and writes the state [S] and always
    returns; the monad notation is the one of stdpp. *)

Definition ST (S A : Type) : Type := S → A * S.

#[export] Instance ST_ret S : MRet (ST S) := λ A a s, (a, s).
#[export] Instance ST_bind S : MBind (ST S) :=
  λ A B f m s, let '(a, s') := m s in f a s'.

Lemma ST_bind_eq {S A B} (f : A → ST S B) (m : ST S A) s a s' :
  m s = (a, s') → (m ≫= f) s = f a s'.
Proof. intros E. unfold mbind, ST_bind. by rewrite E. Qed.

(** ** Buffers *)

Lemma at_lookup l i b : l !! Z.to_nat i = Some b → at_ l i = b.
Proof. unfold at_. by intros ->. Qed.

Lemma at_byte l i : Forall is_byte l → is_byte (at_ l i).
Proof.
  intros Hl. unfold at_. destruct (l !! Z.to_nat i) as [b|] eqn:E; simpl.
  - by eapply Forall_lookup_1.
  - zsolve.
Qed.

Lemma at_app_l l k i : 0 ≤ i < zlength l → at_ (l ++ k) i = at_ l i.
Proof. intros. unfold at_. by rewrite lookup_app_l by lia. Qed.

Lemma at_app_r l k i : zlength l ≤ i → at_ (l ++ k) i = at_ k (i - zlength l).
Proof.
  intros. unfold at_. rewrite lookup_app_r by lia. do 2 f_equal. lia.
Qed.

Lemma at_drop l n i : 0 ≤ n → 0 ≤ i → at_ (drop (Z.to_nat n) l) i = at_ l (n + i).
Proof.
  intros. unfold at_. rewrite lookup_drop. do 2 f_equal. lia.
Qed.

Lemma at_cons_0 x l : at_ (x :: l) 0 = x.
Proof. done. Qed.

Lemma at_cons x l i : 0 < i → at_ (x :: l) i = at_ l (i - 1).
Proof.
  intros. unfold at_. replace (Z.to_nat i) with (S (Z.to_nat (i - 1))) by lia. done.
Qed.

(** A buffer is determined by its length and its bytes. *)
Lemma at_ext l k :
  length l = length k → (∀ i, 0 ≤ i < zlength l → at_ l i = at_ k i) → l = k.
Proof.
  intros Hlen H. apply list_eq_same_length with (n := length l); [done..|].
  intros i x y Hi Hx Hy. specialize (H (Z.of_nat i)).
  unfold at_ in H. rewrite Nat2Z.id, Hx, Hy in H. simpl in H. apply H. lia.
Qed.

(** The [n] values of [f] from [a] on, as a read of [n] bytes returns them. *)
Definition range (f : Z → Z) (a n : Z) : list Z := f <$> seqZ a n.

Lemma length_range f a n : length (range f a n) = Z.to_nat n.
Proof. unfold range. by rewrite length_fmap, length_seqZ. Qed.

Lemma at_range f a n i : 0 ≤ i < n → at_ (range f a n) i = f (a + i).
Proof.
  intros. unfold at_, range. rewrite list_lookup_fmap, lookup_seqZ_lt by lia.
  simpl. f_equal. lia.
Qed.

Lemma range_ext f g a n : (∀ x, a ≤ x < a + n → f x = g x) → range f a n = range g a n.
Proof.
  intros H. apply at_ext; rewrite !length_range; [done|].
  intros i Hi. rewrite !at_range by lia. apply H. lia.
Qed.

Lemma range_bytes f a n : (∀ x, is_byte (f x)) → Forall is_byte (range f a n).
Proof. intros H. apply Forall_fmap, Forall_forall. intros; apply H. Qed.

Lemma range_eq f a l :
  (∀ i, 0 ≤ i < zlength l → f (a + i) = at_ l i) → range f a (zlength l) = l.
Proof.
  intros H. apply at_ext; rewrite length_range; [lia|].
  intros i Hi. rewrite at_range by lia. apply H. lia.
Qed.

(** ** Little-endian encodings *)

Lemma le16_bytes x : Forall is_byte (le16 x).
Proof. repeat constructor; apply u8_byte. Qed.

Lemma get16_le16 x l : is_u16 x → get16 (le16 x ++ l) 0 = x.
Proof. intros. change (u8 x + 256 * u8 (x / 256) = x). zsolve. Qed.

Lemma get16_skip x l i : 2 ≤ i → get16 (le16 x ++ l) i = get16 l (i - 2).
Proof.
  intros. unfold get16, le16. cbn [app]. rewrite !at_cons by lia.
  by replace (i + 1 - 1 - 1) with (i - 2 + 1) by lia; replace (i - 1 - 1) with (i - 2) by lia.
Qed.

Lemma get32_le32 x l : 0 ≤ x < 2 ^ 32 → get32 (le32 x ++ l) 0 = x.
Proof.
  intros. unfold get32, le32. rewrite <- (assoc_L (++)), (get16_skip _ _ (0 + 2)) by lia.
  change (0 + 2 - 2) with 0.
  change (u8 x + 256 * u8 (x / 256)
          + 65536 * (u8 (x / 65536) + 256 * u8 (x / 65536 / 256)) = x). zsolve.
Qed.

#[export] Hint Resolve at_byte range_bytes le16_bytes : esp.
