(* ===== verification/CString.v ===== *)
(** CString: the C library functions on strings that the sources use.

    A C string is the list of its bytes, without the terminating zero; [atz]
    reads it as the code does, the terminator included. *)

From S2P Require Import Prelude.

Definition chr_0 : Z := 48.
Definition chr_9 : Z := 57.
Definition chr_minus : Z := 45.
Definition chr_plus : Z := 43.

Definition is_digit (c : Z) : bool := (chr_0 <=? c) && (c <=? chr_9).
Definition is_upper (c : Z) : bool := (65 <=? c) && (c <=? 90).
Definition is_lower (c : Z) : bool := (97 <=? c) && (c <=? 122).
Definition is_space (c : Z) : bool := (c =? 32) || ((9 <=? c) && (c <=? 13)).
Definition tolower (c : Z) : Z := if is_upper c then c + 32 else c.

(** The string that starts at the buffer: up to the first zero byte. *)
Fixpoint cstring (buf : list Z) : list Z :=
  match buf with
  | [] => []
  | c :: buf' => if c =? 0 then [] else c :: cstring buf'
  end.

(** strcmp / strcasecmp against a literal, as an equality test. *)
Definition streq (a b : list Z) : bool := bool_decide (a = b).
Definition strcaseeq (a b : list Z) : bool := bool_decide (tolower <$> a = tolower <$> b).

(** ** strtol *)

Definition digit_value (c : Z) : Z :=
  if is_digit c then c - 48
  else if is_upper c then c - 55
  else if is_lower c then c - 87
  else 99.

(** Accumulates the digits of [base]; returns the value and what is left. *)
Fixpoint strtol_digits (base acc : Z) (s : list Z) : Z * list Z :=
  match s with
  | [] => (acc, [])
  | c :: s' =>
      if digit_value c <? base then strtol_digits base (acc * base + digit_value c) s'
      else (acc, s)
  end.

Fixpoint skip_space (s : list Z) : list Z :=
  match s with
  | [] => []
  | c :: s' => if is_space c then skip_space s' else s
  end.

Definition LONG_MAX : Z := 2 ^ 31 - 1.
Definition LONG_MIN : Z := - 2 ^ 31.

(** The base of [strtol(.., 0)] and the string its digits start at: "0x" only
    counts as a prefix when a hexadecimal digit follows. *)
Definition strtol_base0 (s : list Z) : Z * list Z :=
  match s with
  | c0 :: s1 =>
      if c0 =? chr_0 then
        match s1 with
        | c1 :: c :: s' =>
            if ((c1 =? 120) || (c1 =? 88)) && (digit_value c <? 16)
            then (16, c :: s') else (8, s)
        | _ => (8, s)
        end
      else (10, s)
  | [] => (10, s)
  end.

Definition strtol_sign (s : list Z) : bool * list Z :=
  match s with
  | c :: r => if c =? chr_minus then (true, r) else if c =? chr_plus then (false, r) else (false, s)
  | [] => (false, s)
  end.

(** [strtol(s, &endptr, 0)] of a 32-bit [long]: the value, saturated, and the
    string at [endptr] ([s] itself when there is no digit). *)
Definition strtol0 (s : list Z) : Z * list Z :=
  let s1 := skip_space s in
  let '(neg, s2) := strtol_sign s1 in
  let '(base, s3) := strtol_base0 s2 in
  match s3 with
  | c :: _ =>
      if digit_value c <? base then
        let '(v, rest) := strtol_digits base 0 s3 in
        let v := if neg then - v else v in
        (Z.max LONG_MIN (Z.min LONG_MAX v), rest)
      else (0, s)
  | [] => (0, s)
  end.

(** ** printf("%d") *)

Fixpoint print_nat_aux (fuel : nat) (n : Z) (acc : list Z) : list Z :=
  match fuel with
  | O => acc
  | S fuel =>
      let acc := (chr_0 + n `mod` 10) :: acc in
      if n / 10 =? 0 then acc else print_nat_aux fuel (n / 10) acc
  end.

(** Decimal digits of a non-negative number below 10^20. *)
Definition print_nat (n : Z) : list Z := print_nat_aux 20 n [].

Definition print_int (n : Z) : list Z :=
  if n <? 0 then chr_minus :: print_nat (- n) else print_nat n.

(** ** atoi on a string of digits *)

Definition atoi_digits (s : list Z) : Z := (strtol_digits 10 0 s).1.

(** ** Properties *)

Lemma digit_value_digit d : 0 ≤ d < 10 → digit_value (chr_0 + d) = d.
Proof.
  intros. unfold digit_value, is_digit, chr_0, chr_9. zbool; simpl; lia.
Qed.

(** The digits printed so far are a suffix: reading them continues the
    accumulation of the number still to be printed. *)
Lemma print_nat_aux_digits fuel n acc :
  0 ≤ n < 10 ^ Z.of_nat fuel →
  strtol_digits 10 0 (print_nat_aux fuel n acc) = strtol_digits 10 n acc.
Proof.
  revert n acc. induction fuel as [|fuel IH]; intros n acc Hn.
  - assert (n = 0) as -> by lia. done.
  - cbn [print_nat_aux].
    assert (0 ≤ n `mod` 10 < 10) by zsolve.
    rewrite Nat2Z.inj_succ, Z.pow_succ_r in Hn by lia.
    destruct (Z.eqb_spec (n / 10) 0) as [Hz|Hnz].
    + cbn [strtol_digits]. rewrite digit_value_digit by done.
      rewrite (proj2 (Z.ltb_lt _ _)) by lia. f_equal. zsolve.
    + rewrite IH by zsolve. cbn [strtol_digits]. rewrite digit_value_digit by done.
      rewrite (proj2 (Z.ltb_lt _ _)) by lia. f_equal. zsolve.
Qed.

(** The first character printed: a non-zero digit unless the number is 0. *)
Lemma print_nat_aux_head fuel n acc :
  0 < n < 10 ^ Z.of_nat fuel →
  ∃ d s, print_nat_aux fuel n acc = (chr_0 + d) :: s ∧ 1 ≤ d ≤ 9.
Proof.
  revert n acc. induction fuel as [|fuel IH]; intros n acc Hn.
  - lia.
  - rewrite Nat2Z.inj_succ, Z.pow_succ_r in Hn by lia. cbn [print_nat_aux].
    destruct (Z.eqb_spec (n / 10) 0) as [Hz|Hnz].
    + exists (n `mod` 10), acc. split; [done|]. zsolve.
    + apply IH. zsolve.
Qed.

(** How strtol starts on a string that begins with a non-zero digit. *)
Lemma strtol_head d s :
  1 ≤ d ≤ 9 →
  strtol_base0 ((chr_0 + d) :: s) = (10, (chr_0 + d) :: s)
  ∧ skip_space ((chr_0 + d) :: s) = (chr_0 + d) :: s
  ∧ (digit_value (chr_0 + d) <? 10) = true
  ∧ strtol_sign ((chr_0 + d) :: s) = (false, (chr_0 + d) :: s).
Proof.
  intros Hd.
  assert (d = 1 ∨ d = 2 ∨ d = 3 ∨ d = 4 ∨ d = 5 ∨ d = 6 ∨ d = 7 ∨ d = 8 ∨ d = 9) as Hc by lia.
  by destruct Hc as [->|[->|[->|[->|[->|[->|[->|[->| ->]]]]]]]].
Qed.

Lemma print_nat_strtol m :
  0 < m ≤ 2 ^ 31 →
  ∃ d s, print_nat m = (chr_0 + d) :: s ∧ 1 ≤ d ≤ 9 ∧
         strtol_digits 10 0 ((chr_0 + d) :: s) = (m, []).
Proof.
  intros Hm.
  assert (Hb : 0 < m < 10 ^ Z.of_nat 20)
    by (change (10 ^ Z.of_nat 20) with 100000000000000000000; lia).
  destruct (print_nat_aux_head 20 m [] Hb) as (d & s & E & Hd).
  exists d, s. split; [done|]. split; [done|]. rewrite <- E.
  rewrite print_nat_aux_digits; [done|lia].
Qed.

(** strtol reads back what printf wrote. *)
Lemma strtol0_print_int n :
  - 2 ^ 31 ≤ n < 2 ^ 31 → strtol0 (print_int n) = (n, []).
Proof.
  intros Hn. unfold print_int.
  destruct (Z.ltb_spec n 0) as [Hneg|Hge].
  - destruct (print_nat_strtol (- n)) as (d & s & E & Hr & Hv); [lia|].
    destruct (strtol_head d s Hr) as (Hb & _ & Hdig & _).
    rewrite E. unfold strtol0.
    change (skip_space (chr_minus :: (chr_0 + d) :: s)) with (chr_minus :: (chr_0 + d) :: s).
    change (strtol_sign (chr_minus :: (chr_0 + d) :: s)) with (true, (chr_0 + d) :: s).
    cbv iota beta. rewrite Hb, Hdig, Hv. f_equal. unfold LONG_MIN, LONG_MAX. lia.
  - destruct (decide (n = 0)) as [->|Hnz]; [done|].
    destruct (print_nat_strtol n) as (d & s & E & Hr & Hv); [lia|].
    destruct (strtol_head d s Hr) as (Hb & Hsk & Hdig & Hsgn).
    rewrite E. unfold strtol0. rewrite Hsk, Hsgn, Hb, Hdig, Hv.
    f_equal. unfold LONG_MIN, LONG_MAX. lia.
Qed.

(** What printf writes: digits and a sign, at most 21 of them, at least one. *)
Lemma print_nat_aux_shape fuel n acc :
  0 ≤ n → Forall (λ c, 45 ≤ c ≤ 57) acc →
  Forall (λ c, 45 ≤ c ≤ 57) (print_nat_aux fuel n acc) ∧
  (length acc ≤ length (print_nat_aux fuel n acc) ≤ length acc + fuel)%nat ∧
  ((0 < fuel)%nat → (length acc < length (print_nat_aux fuel n acc))%nat).
Proof.
  revert n acc. induction fuel as [|fuel IH]; intros n acc Hn Hacc; cbn [print_nat_aux].
  { split; [done|]. lia. }
  assert (Hc : Forall (λ c, 45 ≤ c ≤ 57) (chr_0 + n `mod` 10 :: acc)).
  { constructor; [|done]. unfold chr_0. zsolve. }
  case_match; cbn [length]; [split; [done|lia]|].
  destruct (IH (n / 10) (chr_0 + n `mod` 10 :: acc)) as (H1 & H2 & H3); [zsolve|done|].
  cbn [length] in *. split; [done|]. lia.
Qed.

Lemma print_int_shape n :
  Forall (λ c, 45 ≤ c ≤ 57) (print_int n) ∧ (1 ≤ length (print_int n) ≤ 21)%nat.
Proof.
  unfold print_int, print_nat. destruct (Z.ltb_spec n 0).
  - destruct (print_nat_aux_shape 20 (- n) []) as (H1 & H2 & H3); [lia|constructor|].
    cbn [length] in *. split; [constructor; [unfold chr_minus; lia|done]|lia].
  - destruct (print_nat_aux_shape 20 n []) as (H1 & H2 & H3); [lia|constructor|].
    cbn [length] in *. split; [done|lia].
Qed.

Lemma cstring_terminated s : Forall (λ c, c ≠ 0) s → cstring (s ++ [0]) = s.
Proof.
  induction 1 as [|c s Hc _ IH]; [done|]. cbn. rewrite (proj2 (Z.eqb_neq c 0)) by done.
  by rewrite IH.
Qed.
