(* ===== verification/Buffer.v ===== *)
(** Buffer: writing to and reading from a C buffer through a moving pointer.

    A buffer is the list of the bytes that were allocated for it and a pointer
    is its offset.  An access outside of the allocation is undefined behaviour
    in C and [None] here, so a theorem that a routine returns [Some] also says
    that the routine stays inside its buffer. *)

From S2P Require Import Prelude CString.

(** A buffer and the pointer [*pptr] into it. *)
Definition cursor : Type := list Z * Z.

(** **pptr = c; ( *pptr )++ *)
Definition poke (s : cursor) (c : Z) : option cursor :=
  let '(m, p) := s in
  if (0 <=? p) && (p <? zlength m) then Some (<[Z.to_nat p := u8 c]> m, p + 1) else None.

(** c = **pptr *)
Definition peek (m : list Z) (p : Z) : option Z :=
  if 0 <=? p then m !! Z.to_nat p else None.

(** memcpy( *pptr, src, n); *pptr += n *)
Definition copy (s : cursor) (src : list Z) (n : Z) : option cursor :=
  let '(m, p) := s in
  if (0 <=? n) && (n <=? zlength src) && (0 <=? p) && (p + n <=? zlength m)
  then Some (take (Z.to_nat p) m ++ take (Z.to_nat n) src ++ drop (Z.to_nat (p + n)) m, p + n)
  else None.

(** ** What a sequence of writes does

    [put s bs] stores the bytes [bs] at the pointer; every writing routine is
    shown equal to a [put], and [put]s compose. *)

Definition put (s : cursor) (bs : list Z) : option cursor :=
  let '(m, p) := s in
  if decide (0 ≤ p ∧ p + zlength bs ≤ zlength m)
  then Some (take (Z.to_nat p) m ++ bs ++ drop (Z.to_nat p + length bs) m, p + zlength bs)
  else None.

Lemma put_nil m p : 0 ≤ p ≤ zlength m → put (m, p) [] = Some (m, p).
Proof.
  intros. unfold put. rewrite decide_True by (simpl; lia). simpl.
  rewrite Nat.add_0_r, take_drop. do 2 f_equal. lia.
Qed.

Lemma put_app s bs cs :
  put s (bs ++ cs) = s' ← put s bs; put s' cs.
Proof.
  destruct s as [m p]. unfold put at 1 3. rewrite length_app.
  destruct (decide (0 ≤ p ∧ p + zlength bs ≤ zlength m)) as [[Hp Hb]|Hn].
  2:{ rewrite decide_False by lia. done. }
  simpl. unfold put. rewrite !length_app, length_take, length_drop.
  destruct (decide (0 ≤ p ∧ p + Z.of_nat (length bs + length cs) ≤ zlength m)).
  - rewrite decide_True by lia.
    set (hd := take (Z.to_nat p) m).
    assert (La : length hd = Z.to_nat p) by (unfold hd; rewrite length_take; lia).
    f_equal. f_equal; [|lia].
    rewrite (assoc_L (++) hd bs (drop _ m)), take_app_le by (rewrite length_app; lia).
    rewrite (take_ge (hd ++ bs)) by (rewrite length_app; lia).
    rewrite drop_app_ge by (rewrite length_app; lia).
    rewrite drop_drop, !length_app, La, <- !(assoc_L (++)).
    do 3 f_equal. f_equal. lia.
  - rewrite decide_False by lia. done.
Qed.

Lemma poke_put s c : poke s c = put s [u8 c].
Proof.
  destruct s as [m p]. unfold poke, put. simpl (length [_]). change (Z.of_nat 1) with 1.
  destruct (Z.leb_spec 0 p), (Z.ltb_spec p (zlength m)); simpl;
    try (rewrite decide_False by lia; done).
  rewrite decide_True by lia. do 2 f_equal.
  rewrite insert_take_drop by lia. simpl. do 3 f_equal. lia.
Qed.

Lemma copy_put s src n :
  0 ≤ n ≤ zlength src → copy s src n = put s (take (Z.to_nat n) src).
Proof.
  intros Hn. destruct s as [m p]. unfold copy, put.
  rewrite length_take_le by lia. rewrite Z2Nat.id by lia.
  destruct (Z.leb_spec 0 n), (Z.leb_spec n (zlength src)); try lia. simpl.
  destruct (Z.leb_spec 0 p), (Z.leb_spec (p + n) (zlength m)); simpl;
    try (rewrite decide_False by lia; done).
  rewrite decide_True by lia. do 4 f_equal. f_equal. lia.
Qed.

(** A [put] at the start of the buffer. *)
Lemma put_0 m bs :
  zlength bs ≤ zlength m → put (m, 0) bs = Some (bs ++ drop (length bs) m, zlength bs).
Proof. intros. unfold put. rewrite decide_True by lia. done. Qed.

Lemma put_0_none m bs : zlength m < zlength bs → put (m, 0) bs = None.
Proof. intros. unfold put. rewrite decide_False by lia. done. Qed.

(** ** Reading *)

Lemma peek_at l1 b l2 p : p = zlength l1 → peek (l1 ++ b :: l2) p = Some b.
Proof.
  intros ->. unfold peek. destruct (Z.leb_spec 0 (zlength l1)); [|lia].
  by rewrite Nat2Z.id, list_lookup_middle.
Qed.

Lemma peek_cons b l : peek (b :: l) 0 = Some b.
Proof. done. Qed.

Lemma peek_drop m p k : 0 ≤ p → 0 ≤ k → peek m (p + k) = peek (drop (Z.to_nat p) m) k.
Proof.
  intros. unfold peek. destruct (Z.leb_spec 0 (p + k)), (Z.leb_spec 0 k); try lia.
  rewrite lookup_drop. f_equal. lia.
Qed.

Lemma peek_is_Some m p : 0 ≤ p < zlength m → is_Some (peek m p).
Proof.
  intros. unfold peek. destruct (Z.leb_spec 0 p); [|lia]. apply lookup_lt_is_Some. lia.
Qed.

Lemma peek_None m p : zlength m ≤ p → peek m p = None.
Proof.
  intros. unfold peek. destruct (Z.leb_spec 0 p); [|done].
  apply lookup_ge_None. lia.
Qed.


Lemma drop_exact (k : Z) (l1 l2 : list Z) : k = zlength l1 → drop (Z.to_nat k) (l1 ++ l2) = l2.
Proof. intros ->. by rewrite Nat2Z.id, drop_app_length. Qed.

Lemma app_split (l1 l2 k1 k2 : list Z) :
  l1 ++ l2 = k1 ++ k2 → zlength k1 ≤ zlength l1 → ∃ k, l1 = k1 ++ k ∧ k2 = k ++ l2.
Proof.
  intros E Hl. apply app_eq_inv in E as [(k & -> & ->)|(k & -> & ->)].
  - by exists k.
  - destruct k; [|rewrite length_app in Hl; simpl in Hl; lia].
    exists []. by rewrite !app_nil_r.
Qed.
