(* ===== verification/Flash.v ===== *)
(** Flash: the SPI flash driver (src/open_esplibs/libmain/spi_flash.c).

    The mask-ROM routines the driver calls (SPI_page_program, SPI_read_data,
    SPI_write_enable, SPI_sector_erase and the status routines) are not part
    of the sources: they are the operations of the class [SpiRom], and what
    the driver relies on is the class [SpiRomSpec].  The driver in turn is the
    implementation of the interface [FlashDev]/[FlashSpec] that the storage
    components are proved against. *)

From S2P Require Import Prelude.

(** ** Data *)

Inductive sdk_SpiFlashOpResult :=
  | SPI_FLASH_RESULT_OK
  | SPI_FLASH_RESULT_ERR
  | SPI_FLASH_RESULT_TIMEOUT.

#[export] Instance sdk_SpiFlashOpResult_eq_dec : EqDecision sdk_SpiFlashOpResult.
Proof. solve_decision. Defined.

Record sdk_flashchip_t := {
  device_id : Z;
  chip_size : Z;
  block_size : Z;
  sector_size : Z;
  page_size : Z;
  status_mask : Z
}.

Definition sdk_flashchip : sdk_flashchip_t := {|
  device_id := 0x001640ef;
  chip_size := 4 * 1024 * 1024;
  block_size := 65536;
  sector_size := 4096;
  page_size := 256;
  status_mask := 0x0000ffff
|}.

(** ** The mask ROM *)

Class SpiRom (D : Type) := {
  SPI_page_program : D → Z → list Z → Z * D;
  SPI_read_data : D → Z → Z → (Z * list Z) * D;
  SPI_write_enable : D → Z * D;
  SPI_sector_erase : D → Z → Z * D
}.

(** Byte found [k] bytes past the start of a buffer whose contents are the
    list: the driver rounds a write up to whole words, so it reads memory the
    caller did not fill in. *)
Class Memory := {
  beyond : list Z → Z → Z;
  beyond_byte : ∀ l k, is_byte (beyond l k)
}.

Definition mem_at `{Memory} (src : list Z) (k : Z) : Z :=
  if (0 <=? k) && (k <? zlength src) then at_ src k else beyond src k.

(** The cache and interrupt state the entry points bracket their work with. *)
Record spi_state (D : Type) := {
  st_rom : D;
  st_critical : Z;
  st_cache : bool
}.
Arguments st_rom {_} _.
Arguments st_critical {_} _.
Arguments st_cache {_} _.
Arguments Build_spi_state {_} _ _ _.

Section driver.
  Context {D : Type} {Rom : SpiRom D} {Mem : Memory}.

  Implicit Types d : D.

(** One call of SPI_page_program on [n] bytes of the source from byte offset
    [off]. *)
Definition page_program (d : D) (addr : Z) (src : list Z) (off n : Z) : Z * D :=
  SPI_page_program d addr (range (mem_at src) off n).

(** The loop over the full pages of sdk_SPIWrite; returns the final [pos]. *)
Fixpoint write_full_pages (d : D) (des_addr : Z) (src : list Z) (pos : Z) (full_pages : nat)
  : (sdk_SpiFlashOpResult * Z) * D :=
  match full_pages with
  | O => ((SPI_FLASH_RESULT_OK, pos), d)
  | S k =>
      let '(rc, d') :=
        page_program d (u32 (des_addr + pos)) src (4 * (pos / 4)) (page_size sdk_flashchip) in
      if negb (rc =? 0) then ((SPI_FLASH_RESULT_ERR, pos), d')
      else write_full_pages d' des_addr src (u32 (pos + page_size sdk_flashchip)) k
  end.

(** [src_addr + (pos / 4)] is arithmetic on a [uint32_t *]: the byte offset of
    the source is [4 * (pos / 4)]. *)
Definition sdk_SPIWrite (des_addr : Z) (src : list Z) (size : Z) (d : D)
  : sdk_SpiFlashOpResult * D :=
  if u32 (des_addr + size) <=? chip_size sdk_flashchip then
    let first_page_portion :=
      page_size sdk_flashchip - des_addr `mod` page_size sdk_flashchip in
    if size <? first_page_portion then
      let '(rc, d') := page_program d des_addr src 0 size in
      (if negb (rc =? 0) then SPI_FLASH_RESULT_ERR else SPI_FLASH_RESULT_OK, d')
    else
      let '(rc, d1) := page_program d des_addr src 0 first_page_portion in
      if negb (rc =? 0) then (SPI_FLASH_RESULT_ERR, d1) else
      let bytes_remaining := size - first_page_portion in
      let full_pages := bytes_remaining / page_size sdk_flashchip in
      let '((r, pos), d2) :=
        write_full_pages d1 des_addr src first_page_portion (Z.to_nat full_pages) in
      if decide (r = SPI_FLASH_RESULT_OK) then
        let bytes_remaining :=
          if full_pages =? 0 then bytes_remaining else u32 (size - pos) in
        let '(rc, d3) :=
          page_program d2 (u32 (des_addr + pos)) src (4 * (pos / 4)) bytes_remaining in
        (if negb (rc =? 0) then SPI_FLASH_RESULT_ERR else SPI_FLASH_RESULT_OK, d3)
      else (r, d2)
  else (SPI_FLASH_RESULT_ERR, d).

Definition sdk_SPIRead (src_addr size : Z) (d : D) : (sdk_SpiFlashOpResult * list Z) * D :=
  let '((rc, bs), d') := SPI_read_data d src_addr size in
  if negb (rc =? 0) then ((SPI_FLASH_RESULT_ERR, bs), d')
  else ((SPI_FLASH_RESULT_OK, bs), d').

Definition sdk_SPIEraseSector (sec : Z) (d : D) : sdk_SpiFlashOpResult * D :=
  if chip_size sdk_flashchip / sector_size sdk_flashchip <=? sec then
    (SPI_FLASH_RESULT_ERR, d)
  else
    let '(rc, d1) := SPI_write_enable d in
    if negb (rc =? 0) then (SPI_FLASH_RESULT_ERR, d1) else
    let '(rc, d2) := SPI_sector_erase d1 (u32 (sector_size sdk_flashchip * sec)) in
    if negb (rc =? 0) then (SPI_FLASH_RESULT_ERR, d2)
    else (SPI_FLASH_RESULT_OK, d2).

(** portENTER_CRITICAL, Cache_Read_Disable, the operation, Cache_Read_Enable,
    portEXIT_CRITICAL: the bracket every entry point has. *)
Definition locked {A} (op : D → A * D) (s : spi_state D) : A * spi_state D :=
  let s1 := Build_spi_state (st_rom s) (st_critical s + 1) (st_cache s) in
  let s2 := Build_spi_state (st_rom s1) (st_critical s1) false in
  let '(r, d') := op (st_rom s2) in
  let s3 := Build_spi_state d' (st_critical s2) true in
  (r, Build_spi_state (st_rom s3) (st_critical s3 - 1) (st_cache s3)).

Definition sdk_spi_flash_erase_sector (sec : Z) : ST (spi_state D) sdk_SpiFlashOpResult :=
  locked (sdk_SPIEraseSector (u16 sec)).

Definition sdk_spi_flash_write (des_addr : Z) (src_addr : option (list Z)) (size : Z)
  : ST (spi_state D) sdk_SpiFlashOpResult := λ s,
  match src_addr with
  | None => (SPI_FLASH_RESULT_ERR, s)
  | Some src =>
      let size :=
        if negb (Z.land size 3 =? 0) then u32 (Z.land size (Z.lnot 3) + 4) else size in
      locked (sdk_SPIWrite des_addr src size) s
  end.

Definition sdk_spi_flash_read (src_addr : Z) (des_null : bool) (size : Z)
  : ST (spi_state D) (sdk_SpiFlashOpResult * list Z) := λ s,
  if des_null then ((SPI_FLASH_RESULT_ERR, []), s)
  else locked (sdk_SPIRead src_addr size) s.

End driver.

(** ** The interfaces the storage components use *)

(** [malloc_ok k n]: whether the [k]-th allocation of the run, of [n] bytes,
    succeeds. *)
Class Heap := { malloc_ok : nat → Z → bool }.

Class FlashDev (D : Type) := {
  spi_flash_read : Z → Z → ST D (sdk_SpiFlashOpResult * list Z);
  spi_flash_write : Z → list Z → Z → ST D sdk_SpiFlashOpResult;
  spi_flash_erase_sector : Z → ST D sdk_SpiFlashOpResult
}.

(** What a working NOR flash chip promises: reads return the cells, a write
    clears bits, an erase sets a whole sector to 0xff.  A write of [n] bytes
    may also program the rest of its last word. *)
Class FlashSpec (D : Type) `{FlashDev D} := {
  cell : D → Z → Z;
  cell_byte : ∀ d a, is_byte (cell d a);
  read_spec : ∀ d a n,
    0 ≤ a → 0 ≤ n → a `mod` 4 = 0 → a + n ≤ chip_size sdk_flashchip →
    ∃ d', spi_flash_read a n d = ((SPI_FLASH_RESULT_OK, range (cell d) a n), d') ∧
          ∀ x, cell d' x = cell d x;
  write_spec : ∀ d a src n,
    0 ≤ a → 0 ≤ n ≤ zlength src → a `mod` 4 = 0 →
    a + n ≤ chip_size sdk_flashchip → Forall is_byte src →
    ∃ d', spi_flash_write a src n d = (SPI_FLASH_RESULT_OK, d') ∧
          (∀ x, a ≤ x < a + n → cell d' x = Z.land (cell d x) (at_ src (x - a))) ∧
          (∀ x, ¬ (a ≤ x < a + round4 n) → cell d' x = cell d x);
  erase_spec : ∀ d s,
    0 ≤ s < chip_size sdk_flashchip / sector_size sdk_flashchip →
    ∃ d', spi_flash_erase_sector s d = (SPI_FLASH_RESULT_OK, d') ∧
          ∀ x, cell d' x =
            if (s * sector_size sdk_flashchip <=? x) &&
               (x <? (s + 1) * sector_size sdk_flashchip) then 0xff else cell d x
}.

(** A chip whose reads need no alignment; a read of any address changes nothing, and its
    result depends on the cells only. *)
Class FlashReadSpec (D : Type) `{FlashSpec D} := {
  read_keeps : ∀ d a n x, cell (spi_flash_read a n d).2 x = cell d x;
  read_same : ∀ d d' a n, (∀ x, cell d x = cell d' x) →
    (spi_flash_read a n d).1 = (spi_flash_read a n d').1;
  read_any_spec : ∀ d a n,
    0 ≤ a → 0 ≤ n → a + n ≤ chip_size sdk_flashchip →
    ∃ d', spi_flash_read a n d = ((SPI_FLASH_RESULT_OK, range (cell d) a n), d') ∧
          ∀ x, cell d' x = cell d x
}.

(** ** What the driver relies on from the ROM

    SPI_page_program wraps around inside a page, so it is only specified for a
    range that lies in one page. *)
Class SpiRomSpec (D : Type) `{SpiRom D} := {
  rcell : D → Z → Z;
  rcell_byte : ∀ d a, is_byte (rcell d a);
  page_program_spec : ∀ d a bs,
    0 ≤ a → a + zlength bs ≤ chip_size sdk_flashchip →
    a `mod` page_size sdk_flashchip + zlength bs ≤ page_size sdk_flashchip →
    Forall is_byte bs →
    ∃ d', SPI_page_program d a bs = (0, d') ∧
          ∀ x, rcell d' x =
            if (a <=? x) && (x <? a + zlength bs)
            then Z.land (rcell d x) (at_ bs (x - a)) else rcell d x;
  read_data_spec : ∀ d a n,
    0 ≤ a → 0 ≤ n → a + n ≤ chip_size sdk_flashchip →
    ∃ d', SPI_read_data d a n = ((0, range (rcell d) a n), d') ∧
          ∀ x, rcell d' x = rcell d x;
  read_data_keeps : ∀ d a n x, rcell (SPI_read_data d a n).2 x = rcell d x;
  read_data_same : ∀ d d' a n, (∀ x, rcell d x = rcell d' x) →
    (SPI_read_data d a n).1 = (SPI_read_data d' a n).1;
  write_enable_spec : ∀ d,
    ∃ d', SPI_write_enable d = (0, d') ∧ ∀ x, rcell d' x = rcell d x;
  sector_erase_spec : ∀ d s,
    0 ≤ s < chip_size sdk_flashchip / sector_size sdk_flashchip →
    ∃ d', SPI_sector_erase d (sector_size sdk_flashchip * s) = (0, d') ∧
          ∀ x, rcell d' x =
            if (sector_size sdk_flashchip * s <=? x) &&
               (x <? sector_size sdk_flashchip * (s + 1)) then 0xff else rcell d x
}.

(** ** Correctness of the driver *)

Section driver_correct.
  Context {D : Type} {Rom : SpiRom D} {RomOk : SpiRomSpec D} {Mem : Memory}.

  Implicit Types d : D.

Lemma mem_at_byte src k : Forall is_byte src → is_byte (mem_at src k).
Proof.
  intros Hs. unfold mem_at. case_match; [by apply at_byte | apply beyond_byte].
Qed.

(** [programs d d' a n src b]: the bytes [a, a+n) of [d'] are those of [d]
    with the bits cleared that are 0 in the source (whose byte 0 goes to
    address [b]); every other byte is unchanged. *)
Definition programs (d d' : D) (a n : Z) (src : list Z) (b : Z) : Prop :=
  ∀ x, rcell d' x =
    if (a <=? x) && (x <? a + n) then Z.land (rcell d x) (mem_at src (x - b)) else rcell d x.

Lemma programs_trans d1 d2 d3 a n m src b :
  0 ≤ n → 0 ≤ m → programs d1 d2 a n src b → programs d2 d3 (a + n) m src b →
  programs d1 d3 a (n + m) src b.
Proof.
  intros Hn Hm H1 H2 x. rewrite (H2 x), (H1 x).
  zbool; simpl; try lia; done.
Qed.

Lemma page_program_ok d addr src off n :
  Forall is_byte src → 0 ≤ addr → 0 ≤ n → addr + n ≤ chip_size sdk_flashchip →
  addr `mod` page_size sdk_flashchip + n ≤ page_size sdk_flashchip →
  ∃ d', page_program d addr src off n = (0, d') ∧ programs d d' addr n src (addr - off).
Proof.
  intros Hs Ha Hn Hc Hp.
  destruct (page_program_spec d addr (range (mem_at src) off n)) as (d' & E & Hd');
    rewrite ?length_range, ?Z2Nat.id by lia; try done.
  { apply range_bytes. intros x. by apply mem_at_byte. }
  exists d'. split; [done|]. intros x. rewrite Hd', length_range, Z2Nat.id by lia.
  zbool; simpl; try done. rewrite at_range by lia. do 2 f_equal. lia.
Qed.

Lemma write_full_pages_ok d des src pos k :
  Forall is_byte src → 0 ≤ des → 0 ≤ pos → pos `mod` 4 = 0 →
  (des + pos) `mod` page_size sdk_flashchip = 0 →
  des + pos + page_size sdk_flashchip * Z.of_nat k ≤ chip_size sdk_flashchip →
  ∃ d', write_full_pages d des src pos k =
          ((SPI_FLASH_RESULT_OK, pos + page_size sdk_flashchip * Z.of_nat k), d') ∧
        programs d d' (des + pos) (page_size sdk_flashchip * Z.of_nat k) src des.
Proof.
  intros Hs Hdes. revert d pos. induction k as [|k IH]; intros d pos Hpos Hal Hpg Hend;
    cbn [write_full_pages].
  - exists d. split; [do 2 f_equal; lia|]. intros x. zbool; simpl; try done; lia.
  - change (page_size sdk_flashchip) with 256 in *.
    change (chip_size sdk_flashchip) with 4194304 in *.
    rewrite (u32_small (des + pos)) by lia.
    destruct (page_program_ok d (des + pos) src (4 * (pos / 4)) 256) as (d1 & E1 & P1);
      [done | lia | lia | cbn; lia | cbn; lia |].
    rewrite E1. cbn [Z.eqb negb]. rewrite (u32_small (pos + 256)) by lia.
    destruct (IH d1 (pos + 256)) as (d2 & E2 & P2); [lia | zsolve | zsolve | lia |].
    exists d2. split; [rewrite E2; do 2 f_equal; lia|].
    replace (256 * Z.of_nat (S k)) with (256 + 256 * Z.of_nat k) by lia.
    replace (des + pos - 4 * (pos / 4)) with des in P1 by zsolve.
    eapply programs_trans; [lia | lia | exact P1 |].
    by replace (des + pos + 256) with (des + (pos + 256)) by lia.
Qed.

(** A write of a word-aligned address that fits on the chip succeeds and
    programs exactly [size] bytes, whatever page boundaries it crosses. *)
Lemma sdk_SPIWrite_programs d des src size :
  Forall is_byte src → 0 ≤ des → 0 ≤ size → des `mod` 4 = 0 →
  des + size ≤ chip_size sdk_flashchip →
  ∃ d', sdk_SPIWrite des src size d = (SPI_FLASH_RESULT_OK, d') ∧
        programs d d' des size src des.
Proof.
  intros Hs Hdes Hsz Hal Hend. unfold sdk_SPIWrite.
  change (page_size sdk_flashchip) with 256 in *.
  change (chip_size sdk_flashchip) with 4194304 in *.
  rewrite u32_small by lia.
  rewrite (proj2 (Z.leb_le _ _)) by lia.
  set (fpp := 256 - des `mod` 256).
  assert (0 < fpp ≤ 256) by (subst fpp; zsolve).
  assert (fpp `mod` 4 = 0) by (subst fpp; zsolve).
  destruct (Z.ltb_spec size fpp) as [Hlt|Hge].
  { destruct (page_program_ok d des src 0 size) as (d' & E & P);
      [done | lia | lia | cbn; lia | cbn; subst fpp; lia |].
    rewrite E. exists d'. split; [done|]. by rewrite Z.sub_0_r in P. }
  destruct (page_program_ok d des src 0 fpp) as (d1 & E1 & P1);
    [done | lia | lia | cbn; lia | cbn; subst fpp; lia |].
  rewrite E1. cbn [Z.eqb negb]. rewrite Z.sub_0_r in P1.
  set (q := (size - fpp) / 256).
  assert (0 ≤ q ∧ 256 * q ≤ size - fpp < 256 * q + 256) by (subst q; zsolve).
  destruct (write_full_pages_ok d1 des src fpp (Z.to_nat q)) as (d2 & E2 & P2);
    [done | lia | lia | done | cbn; subst fpp; zsolve | cbn; lia |].
  change (page_size sdk_flashchip) with 256 in *. rewrite Z2Nat.id in * by lia.
  rewrite E2, decide_True by done.
  replace (if q =? 0 then size - fpp else u32 (size - (fpp + 256 * q)))
    with (size - fpp - 256 * q) by (zbool; [lia|]; rewrite u32_small; lia).
  rewrite u32_small by lia.
  destruct (page_program_ok d2 (des + (fpp + 256 * q)) src (4 * ((fpp + 256 * q) / 4))
              (size - fpp - 256 * q)) as (d3 & E3 & P3);
    [done | lia | lia | cbn; lia | cbn; subst fpp; zsolve |].
  rewrite E3. exists d3. split; [done|].
  replace (des + (fpp + 256 * q) - 4 * ((fpp + 256 * q) / 4)) with des in P3 by zsolve.
  replace size with (fpp + (256 * q + (size - fpp - 256 * q))) by lia.
  eapply programs_trans; [lia | lia | exact P1 |].
  eapply programs_trans; [lia | lia | exact P2 |].
  by replace (des + fpp + 256 * q) with (des + (fpp + 256 * q)) by lia.
Qed.

(** The size sdk_spi_flash_write really programs: the next multiple of 4. *)
Lemma write_size_round4 n :
  0 ≤ n ≤ chip_size sdk_flashchip →
  (if negb (Z.land n 3 =? 0) then u32 (Z.land n (Z.lnot 3) + 4) else n) = round4 n.
Proof.
  intros Hn. change (chip_size sdk_flashchip) with 4194304 in Hn.
  rewrite round4_spec by lia.
  replace (Z.land n 3) with (n `mod` 4)
    by (change 3 with (Z.ones 2); by rewrite Z.land_ones by lia).
  replace (Z.land n (Z.lnot 3)) with (4 * (n / 4)).
  2: { rewrite <- Z.ldiff_land. change 3 with (Z.ones 2).
       rewrite Z.ldiff_ones_r, Z.shiftl_mul_pow2, Z.shiftr_div_pow2 by lia.
       change (2 ^ 2) with 4. lia. }
  zbool; cbn [negb]; [zsolve | rewrite u32_small by zsolve; zsolve].
Qed.

Lemma locked_rom {A} (op : D → A * D) s r d' :
  op (st_rom s) = (r, d') →
  locked op s = (r, Build_spi_state d' (st_critical s) true).
Proof. intros E. unfold locked. cbn. rewrite E. do 2 f_equal. lia. Qed.

(** The driver is a [FlashDev] and keeps the [FlashSpec] promise. *)
#[export] Instance sdk_flash_dev : FlashDev (spi_state D) := {|
  spi_flash_read := λ a n, sdk_spi_flash_read a false n;
  spi_flash_write := λ a src n, sdk_spi_flash_write a (Some src) n;
  spi_flash_erase_sector := sdk_spi_flash_erase_sector
|}.

Lemma sdk_write_cells s a src n :
  0 ≤ a → 0 ≤ n ≤ zlength src → a `mod` 4 = 0 →
  a + n ≤ chip_size sdk_flashchip → Forall is_byte src →
  ∃ d', sdk_spi_flash_write a (Some src) n s =
          (SPI_FLASH_RESULT_OK, Build_spi_state d' (st_critical s) true) ∧
        programs (st_rom s) d' a (round4 n) src a.
Proof.
  intros Ha Hn Hal Hend Hs.
  change (chip_size sdk_flashchip) with 4194304 in *.
  assert (Hr : n ≤ round4 n < n + 4 ∧ round4 n `mod` 4 = 0) by (apply round4_bounds; lia).
  destruct (sdk_SPIWrite_programs (st_rom s) a src (round4 n)) as (d' & E & P);
    [done | lia | lia | done | cbn; zsolve |].
  exists d'. split; [|done].
  unfold sdk_spi_flash_write. rewrite write_size_round4 by (cbn; lia).
  by apply locked_rom.
Qed.

Lemma sdk_erase_cells s sec :
  0 ≤ sec < chip_size sdk_flashchip / sector_size sdk_flashchip →
  ∃ d', sdk_spi_flash_erase_sector sec s =
          (SPI_FLASH_RESULT_OK, Build_spi_state d' (st_critical s) true) ∧
        ∀ x, rcell d' x =
          if (sec * sector_size sdk_flashchip <=? x) &&
             (x <? (sec + 1) * sector_size sdk_flashchip)
          then 0xff else rcell (st_rom s) x.
Proof.
  intros Hs. destruct (write_enable_spec (st_rom s)) as (d1 & E1 & C1).
  destruct (sector_erase_spec d1 sec Hs) as (d2 & E2 & C2).
  change (chip_size sdk_flashchip / sector_size sdk_flashchip) with 1024 in *.
  change (sector_size sdk_flashchip) with 4096 in *.
  exists d2. split.
  - apply locked_rom. unfold sdk_SPIEraseSector. rewrite u16_small by (unfold is_u16; lia).
    change (chip_size sdk_flashchip / sector_size sdk_flashchip) with 1024.
    change (sector_size sdk_flashchip) with 4096 in *.
    rewrite (proj2 (Z.leb_gt _ _)), E1 by lia. cbn [Z.eqb negb].
    by rewrite u32_small, E2 by lia.
  - intros x. rewrite C2, C1. zbool; simpl; try done; lia.
Qed.

Lemma sdk_read_cells s a n :
  0 ≤ a → 0 ≤ n → a + n ≤ chip_size sdk_flashchip →
  ∃ d', sdk_spi_flash_read a false n s =
          ((SPI_FLASH_RESULT_OK, range (rcell (st_rom s)) a n),
           Build_spi_state d' (st_critical s) true) ∧
        ∀ x, rcell d' x = rcell (st_rom s) x.
Proof.
  intros Ha Hn Hend. destruct (read_data_spec (st_rom s) a n Ha Hn Hend) as (d' & E & C).
  exists d'. split; [|done]. apply locked_rom. unfold sdk_SPIRead. by rewrite E.
Qed.

#[export] Program Instance sdk_flash_spec : FlashSpec (spi_state D) := {|
  cell := λ s, rcell (st_rom s)
|}.
Next Obligation. intros; apply rcell_byte. Qed.
Next Obligation.
  intros s a n Ha Hn _ Hend. destruct (sdk_read_cells s a n) as (d' & E & C); eauto.
Qed.
Next Obligation.
  intros s a src n Ha Hn Hal Hend Hs.
  destruct (sdk_write_cells s a src n) as (d' & E & P); try done.
  change (chip_size sdk_flashchip) with 4194304 in *.
  assert (n ≤ round4 n) by (apply round4_bounds; lia).
  exists (Build_spi_state d' (st_critical s) true).
  split; [exact E|]. split; intros x Hx; cbn [st_rom]; rewrite (P x).
  - zbool; simpl; try lia. unfold mem_at. zbool; simpl; try lia.
  - zbool; simpl; try lia; done.
Qed.
Next Obligation.
  intros s sec Hs. destruct (sdk_erase_cells s sec Hs) as (d' & E & C); eauto.
Qed.

#[export] Program Instance sdk_flash_read_spec : FlashReadSpec (spi_state D).
Next Obligation.
  intros s a n x. change (cell (locked (sdk_SPIRead a n) s).2 x = cell s x). unfold locked, sdk_SPIRead. cbn [st_rom].
  assert (H := read_data_keeps (st_rom s) a n x). destruct (SPI_read_data (st_rom s) a n) as [[rc bs] d']. by destruct (negb _).
Qed.
Next Obligation.
  intros s s' a n H. change ((locked (sdk_SPIRead a n) s).1 = (locked (sdk_SPIRead a n) s').1). unfold locked, sdk_SPIRead. cbn [st_rom].
  assert (Hs := read_data_same (st_rom s) (st_rom s') a n H). destruct (SPI_read_data (st_rom s) a n) as [[rc bs] d'].
  destruct (SPI_read_data (st_rom s') a n) as [[rc' bs'] d'']. cbn in Hs. injection Hs as -> ->. by destruct (negb _).
Qed.
Next Obligation.
  intros s a n Ha Hn Hend. destruct (sdk_read_cells s a n) as (d' & E & C); eauto.
Qed.

End driver_correct.

(** ** A concrete chip

    A memory-backed ROM: absent cells are erased.  It satisfies [SpiRomSpec],
    so the specification classes are inhabited, and it makes every storage
    component executable. *)

Definition rom_get (m : gmap Z Z) (a : Z) : Z := u8 (default 0xff (m !! a)).

Fixpoint rom_program (m : gmap Z Z) (a : Z) (bs : list Z) : gmap Z Z :=
  match bs with
  | [] => m
  | b :: bs' => rom_program (<[a := Z.land (rom_get m a) b]> m) (a + 1) bs'
  end.

Definition rom_erase (m : gmap Z Z) (a : Z) : gmap Z Z :=
  filter (λ kv : Z * Z, ¬ (a ≤ kv.1 < a + sector_size sdk_flashchip)) m.

Definition in_chip (a n : Z) : bool :=
  (0 <=? a) && (a + n <=? chip_size sdk_flashchip).

#[export] Instance memory_rom : SpiRom (gmap Z Z) := {|
  SPI_page_program := λ m a bs,
    if in_chip a (zlength bs) then (0, rom_program m a bs) else (1, m);
  SPI_read_data := λ m a n,
    if in_chip a n then ((0, range (rom_get m) a n), m) else ((1, []), m);
  SPI_write_enable := λ m, (0, m);
  SPI_sector_erase := λ m a, (0, rom_erase m a)
|}.

Lemma land_byte a b : is_byte a → is_byte b → is_byte (Z.land a b).
Proof.
  intros Ha Hb. unfold is_byte in *. split; [apply Z.land_nonneg; lia|].
  destruct (decide (Z.land a b = 0)); [lia|].
  apply (Z.log2_lt_cancel _ 256). eapply Z.le_lt_trans; [apply Z.log2_land; lia|].
  change (Z.log2 256) with 8. apply Z.min_lt_iff. left.
  destruct (decide (a = 0)) as [->|]; [done|]. apply Z.log2_lt_pow2; lia.
Qed.

Lemma rom_get_insert m a v x :
  rom_get (<[a := v]> m) x = if decide (a = x) then u8 v else rom_get m x.
Proof. unfold rom_get. rewrite lookup_insert. by case_decide. Qed.

Lemma rom_program_get m a bs x :
  Forall is_byte bs →
  rom_get (rom_program m a bs) x =
    if (a <=? x) && (x <? a + zlength bs)
    then Z.land (rom_get m x) (at_ bs (x - a)) else rom_get m x.
Proof.
  intros Hbs. revert m a. induction Hbs as [|b bs Hb Hbs IH]; intros m a; cbn [rom_program].
  - cbn [length]. zbool; simpl; try lia; done.
  - rewrite IH, rom_get_insert. cbn [length]. case_decide as Hax.
    + subst x. rewrite Z.sub_diag, at_cons_0. zbool; simpl; try lia.
      apply u8_small, land_byte; [apply u8_byte | done].
    + zbool; simpl; try lia; rewrite at_cons by lia; do 2 f_equal; lia.
Qed.

#[export] Program Instance memory_rom_spec : SpiRomSpec (gmap Z Z) := {| rcell := rom_get |}.
Next Obligation. intros; apply u8_byte. Qed.
Next Obligation.
  intros m a bs Ha Hc _ Hb. exists (rom_program m a bs). split.
  - cbn. unfold in_chip. by rewrite !(proj2 (Z.leb_le _ _)) by lia.
  - intros x. by apply rom_program_get.
Qed.
Next Obligation.
  intros m a n Ha Hn Hc. exists m. split; [|done].
  cbn. unfold in_chip. by rewrite !(proj2 (Z.leb_le _ _)) by lia.
Qed.
Next Obligation. intros m a n x. cbn. by destruct (in_chip a n). Qed.
Next Obligation.
  intros m m' a n H. cbn. destruct (in_chip a n); [|done]. cbn. f_equal. apply range_ext. intros x _. apply H.
Qed.
Next Obligation. intros m. by exists m. Qed.
Next Obligation.
  intros m s Hs. eexists. split; [done|]. intros x.
  unfold rom_erase, rom_get. rewrite map_lookup_filter.
  change (sector_size sdk_flashchip) with 4096.
  destruct (m !! x) as [v|] eqn:E; cbn.
  - case_guard; zbool; simpl; try lia; done.
  - zbool; simpl; done.
Qed.
