(* ===== verification/Sysparam.v ===== *)
(** Sysparam: the parameter store of src/core/sysparam.c.

    Every routine of the file is a definition over the world [world]: the
    flash device, the file's static [_sysparam_info], the mutex, and the heap.
    [M A] is a routine that returns an [A]; [None] means the routine does not
    return (a loop that does not end, or a mutex that is never released). *)

From S2P Require Import Prelude CString Flash.

(** ** Constants *)

Definition SYSPARAM_MAGIC : Z := 0x70524f45.
Definition DEFAULT_ITER_BUF_SIZE : Z := 64.
Definition SCAN_BUFFER_SIZE : Z := 8.
Definition VERIFY_BUF_SIZE : Z := 64.
Definition REGION_HEADER_SIZE : Z := 8.
Definition ENTRY_HEADER_SIZE : Z := 4.
Definition MAX_KEY_LEN : Z := 0xffff.
Definition MAX_VALUE_LEN : Z := 0xffff.
Definition MAX_KEY_ID : Z := 0x0ffe.
Definition REGION_FLAG_SECOND : Z := 0x8000.
Definition REGION_FLAG_ACTIVE : Z := 0x4000.
Definition REGION_MASK_SIZE : Z := 0x0fff.
Definition ENTRY_FLAG_ALIVE : Z := 0x8000.
Definition ENTRY_FLAG_INVALID : Z := 0x4000.
Definition ENTRY_FLAG_VALUE : Z := 0x2000.
Definition ENTRY_FLAG_BINARY : Z := 0x1000.
Definition ENTRY_MASK_ID : Z := 0xfff.
Definition ENTRY_ID_END : Z := 0xfff.
Definition ENTRY_ID_ANY : Z := 0x1000.

Definition ROUND_TO_WORD_BOUNDARY (x : Z) : Z := round4 x.
Definition ENTRY_SIZE (payload_len : Z) : Z :=
  ENTRY_HEADER_SIZE + ROUND_TO_WORD_BOUNDARY payload_len.

(** ** Data *)

Inductive sysparam_status_t :=
  | SYSPARAM_OK
  | SYSPARAM_NOTFOUND
  | SYSPARAM_PARSEFAILED
  | SYSPARAM_ERR_NOINIT
  | SYSPARAM_ERR_BADVALUE
  | SYSPARAM_ERR_FULL
  | SYSPARAM_ERR_IO
  | SYSPARAM_ERR_CORRUPT
  | SYSPARAM_ERR_NOMEM.

#[export] Instance sysparam_status_eq_dec : EqDecision sysparam_status_t.
Proof. solve_decision. Defined.

(** The numeric values of the enum; [status < 0] is the error test. *)
Definition status_code (s : sysparam_status_t) : Z :=
  match s with
  | SYSPARAM_OK => 0 | SYSPARAM_NOTFOUND => 1 | SYSPARAM_PARSEFAILED => 2
  | SYSPARAM_ERR_NOINIT => -1 | SYSPARAM_ERR_BADVALUE => -2 | SYSPARAM_ERR_FULL => -3
  | SYSPARAM_ERR_IO => -4 | SYSPARAM_ERR_CORRUPT => -5 | SYSPARAM_ERR_NOMEM => -6
  end.

Definition is_err (s : sysparam_status_t) : bool := status_code s <? 0.

Record region_header := { magic : Z; flags_size : Z; reserved : Z }.

Record entry_header := { idflags : Z; len : Z }.

Record sysparam_context := {
  addr : Z;
  entry : entry_header;
  unused_keys : Z;
  compactable : Z;
  max_key_id : Z
}.

Record sysparam_info := {
  cur_base : Z;
  alt_base : Z;
  end_addr : Z;
  region_size : Z;
  force_compact : bool
}.

(** The iterator: [it_key] and [it_value] are the bytes at [iter->key] and
    [iter->value] (two parts of one heap block of [it_bufsize] bytes). *)
Record sysparam_iter_t := {
  it_key : list Z;
  it_value : list Z;
  it_key_len : Z;
  it_value_len : Z;
  it_binary : bool;
  it_bufsize : Z;
  it_ctx : sysparam_context
}.

Definition region_header_bytes (h : region_header) : list Z :=
  le32 (magic h) ++ le16 (flags_size h) ++ le16 (reserved h).
Definition parse_region_header (bs : list Z) : region_header :=
  {| magic := get32 bs 0; flags_size := get16 bs 4; reserved := get16 bs 6 |}.

Definition entry_header_bytes (h : entry_header) : list Z := le16 (idflags h) ++ le16 (len h).
Definition parse_entry_header (bs : list Z) : entry_header :=
  {| idflags := get16 bs 0; len := get16 bs 2 |}.

Definition ctx_set_addr (c : sysparam_context) (a : Z) : sysparam_context :=
  {| addr := a; entry := entry c; unused_keys := unused_keys c;
     compactable := compactable c; max_key_id := max_key_id c |}.
Definition ctx_set_entry (c : sysparam_context) (e : entry_header) : sysparam_context :=
  {| addr := addr c; entry := e; unused_keys := unused_keys c;
     compactable := compactable c; max_key_id := max_key_id c |}.
Definition ctx_saw_key (c : sysparam_context) (id : Z) : sysparam_context :=
  {| addr := addr c; entry := entry c; unused_keys := s32 (unused_keys c + 1);
     compactable := compactable c; max_key_id := id |}.
Definition ctx_saw_value (c : sysparam_context) : sysparam_context :=
  {| addr := addr c; entry := entry c; unused_keys := s32 (unused_keys c - 1);
     compactable := compactable c; max_key_id := max_key_id c |}.
Definition ctx_add_compactable (c : sysparam_context) (n : Z) : sysparam_context :=
  {| addr := addr c; entry := entry c; unused_keys := unused_keys c;
     compactable := u32 (compactable c + n); max_key_id := max_key_id c |}.

(** memset(ctx, 0, sizeof *ctx) *)
Definition zero_context : sysparam_context :=
  {| addr := 0; entry := {| idflags := 0; len := 0 |}; unused_keys := 0;
     compactable := 0; max_key_id := 0 |}.

Definition info_set_end (i : sysparam_info) (a : Z) : sysparam_info :=
  {| cur_base := cur_base i; alt_base := alt_base i; end_addr := a;
     region_size := region_size i; force_compact := force_compact i |}.
Definition info_set_force (i : sysparam_info) (b : bool) : sysparam_info :=
  {| cur_base := cur_base i; alt_base := alt_base i; end_addr := end_addr i;
     region_size := region_size i; force_compact := b |}.

(** memset(&_sysparam_info, 0, sizeof _sysparam_info) *)
Definition zero_info : sysparam_info :=
  {| cur_base := 0; alt_base := 0; end_addr := 0; region_size := 0; force_compact := false |}.

(** ** The world and the monad *)

Record world (D : Type) := {
  w_dev : D;
  w_info : sysparam_info;
  w_sem : bool;       (* the mutex is taken *)
  w_nalloc : nat;     (* allocations asked for so far *)
  w_live : Z          (* blocks allocated and not freed *)
}.
Arguments w_dev {_} _.
Arguments w_info {_} _.
Arguments w_sem {_} _.
Arguments w_nalloc {_} _.
Arguments w_live {_} _.
Arguments Build_world {_} _ _ _ _ _.

Definition w_set_dev {D} (w : world D) (d : D) : world D :=
  Build_world d (w_info w) (w_sem w) (w_nalloc w) (w_live w).
Definition w_set_info {D} (w : world D) (i : sysparam_info) : world D :=
  Build_world (w_dev w) i (w_sem w) (w_nalloc w) (w_live w).
Definition w_set_sem {D} (w : world D) (b : bool) : world D :=
  Build_world (w_dev w) (w_info w) b (w_nalloc w) (w_live w).

Definition M (D A : Type) : Type := world D → option (A * world D).

#[export] Instance M_ret D : MRet (M D) := λ A a w, Some (a, w).
#[export] Instance M_bind D : MBind (M D) :=
  λ A B f m w, match m w with Some (a, w') => f a w' | None => None end.

Section sysparam.
  Context {D : Type} {Dev : FlashDev D} {Hp : Heap}.

Definition get_info : M D sysparam_info := λ w, Some (w_info w, w).
Definition put_info (i : sysparam_info) : M D unit := λ w, Some (tt, w_set_info w i).
Definition diverge {A} : M D A := λ _, None.

Definition flash_read (a n : Z) : M D (sdk_SpiFlashOpResult * list Z) := λ w,
  let '(r, d') := spi_flash_read a n (w_dev w) in Some (r, w_set_dev w d').
Definition flash_write (a : Z) (data : list Z) (n : Z) : M D sdk_SpiFlashOpResult := λ w,
  let '(r, d') := spi_flash_write a data n (w_dev w) in Some (r, w_set_dev w d').
Definition flash_erase (s : Z) : M D sdk_SpiFlashOpResult := λ w,
  let '(r, d') := spi_flash_erase_sector s (w_dev w) in Some (r, w_set_dev w d').

Definition malloc (n : Z) : M D bool := λ w,
  let ok := malloc_ok (w_nalloc w) n in
  Some (ok, Build_world (w_dev w) (w_info w) (w_sem w) (S (w_nalloc w))
              (if ok then w_live w + 1 else w_live w)).
Definition realloc (n : Z) : M D bool := λ w,
  Some (malloc_ok (w_nalloc w) n,
        Build_world (w_dev w) (w_info w) (w_sem w) (S (w_nalloc w)) (w_live w)).
Definition free : M D unit := λ w,
  Some (tt, Build_world (w_dev w) (w_info w) (w_sem w) (w_nalloc w) (w_live w - 1)).

(** xSemaphoreTake with portMAX_DELAY on a mutex that is already taken never
    returns. *)
Definition xSemaphoreTake : M D unit := λ w,
  if w_sem w then None else Some (tt, w_set_sem w true).
Definition xSemaphoreGive : M D unit := λ w, Some (tt, w_set_sem w false).
Definition xSemaphoreCreateMutex : M D unit := λ w, Some (tt, w_set_sem w false).

(** CHECK_FLASH_OP: return SYSPARAM_ERR_IO unless the operation succeeded. *)
Definition CHECK_FLASH_OP (op : M D sdk_SpiFlashOpResult) (k : M D sysparam_status_t)
  : M D sysparam_status_t :=
  r ← op; if decide (r = SPI_FLASH_RESULT_OK) then k else mret SYSPARAM_ERR_IO.

(** ** Internal routines *)

Definition _do_write (addr : Z) (data : list Z) (data_size : Z) : M D sysparam_status_t :=
  CHECK_FLASH_OP (flash_write addr data data_size) (mret SYSPARAM_OK).

Definition _do_verify (addr : Z) (data : list Z) (n : Z) : M D sysparam_status_t :=
  '(r, buffer) ← flash_read addr n;
  if decide (r = SPI_FLASH_RESULT_OK) then
    if decide (take (Z.to_nat n) data = take (Z.to_nat n) buffer)
    then mret SYSPARAM_OK else mret SYSPARAM_ERR_IO
  else mret SYSPARAM_ERR_IO.

(** The verify loop of _write_and_verify, from offset [i]; [fuel] bounds the
    number of chunks. *)
Fixpoint _verify_loop (fuel : nat) (addr : Z) (data : list Z) (data_size i : Z)
  : M D sysparam_status_t :=
  if i <? data_size then
    match fuel with
    | O => diverge
    | S fuel =>
        let count := Z.min (data_size - i) VERIFY_BUF_SIZE in
        status ← _do_verify (u32 (addr + i)) (drop (Z.to_nat i) data) count;
        if decide (status = SYSPARAM_OK)
        then _verify_loop fuel addr data data_size (i + VERIFY_BUF_SIZE)
        else mret status
    end
  else mret SYSPARAM_OK.

Definition _write_and_verify (addr : Z) (data : list Z) (data_size : Z)
  : M D sysparam_status_t :=
  verify_buf ← malloc VERIFY_BUF_SIZE;
  if negb verify_buf then mret SYSPARAM_ERR_NOMEM else
  status ← _do_write addr data data_size;
  status ← (if decide (status = SYSPARAM_OK)
            then _verify_loop (Z.to_nat (data_size / VERIFY_BUF_SIZE + 1)) addr data data_size 0
            else mret status);
  _ ← free;
  mret status.

Fixpoint _format_loop (sector : Z) (n : nat) (i : Z) : M D sysparam_status_t :=
  match n with
  | O => mret SYSPARAM_OK
  | S n => CHECK_FLASH_OP (flash_erase (sector + i)) (_format_loop sector n (i + 1))
  end.

Definition _format_region (addr num_sectors : Z) : M D sysparam_status_t :=
  let sector := u16 (addr / sector_size sdk_flashchip) in
  _format_loop sector (Z.to_nat num_sectors) 0.

Definition _write_region_header (addr other : Z) (active : bool) : M D sysparam_status_t :=
  let flags :=
    if addr <? other then
      Z.land (u16 ((other - addr) / sector_size sdk_flashchip)) REGION_MASK_SIZE
    else
      Z.lor (Z.land (u16 ((addr - other) / sector_size sdk_flashchip)) REGION_MASK_SIZE)
            REGION_FLAG_SECOND in
  let flags := if active then Z.lor flags REGION_FLAG_ACTIVE else flags in
  let header := {| magic := SYSPARAM_MAGIC; flags_size := flags; reserved := 0 |} in
  status ← _write_and_verify addr (region_header_bytes header) REGION_HEADER_SIZE;
  if decide (status = SYSPARAM_OK) then mret SYSPARAM_OK else
  _ ← _write_and_verify addr
        (region_header_bytes {| magic := 0; flags_size := 0; reserved := 0 |})
        REGION_HEADER_SIZE;
  mret SYSPARAM_ERR_IO.

Definition _init_context : M D sysparam_context :=
  i ← get_info; mret (ctx_set_addr zero_context (cur_base i)).

Definition init_write_context : M D (sysparam_status_t * sysparam_context) :=
  i ← get_info;
  let ctx := ctx_set_addr zero_context (end_addr i) in
  '(r, bs) ← flash_read (addr ctx) ENTRY_HEADER_SIZE;
  let ctx := ctx_set_entry ctx (parse_entry_header bs) in
  mret (if decide (r = SPI_FLASH_RESULT_OK) then SYSPARAM_OK else SYSPARAM_ERR_IO, ctx).

(** What _find_entry returns after its loop. *)
Definition _find_entry_end (ctx : sysparam_context) (match_id : Z)
  : sysparam_status_t * sysparam_context :=
  if match_id =? ENTRY_ID_END then (SYSPARAM_OK, ctx)
  else (SYSPARAM_NOTFOUND, ctx_set_entry ctx {| idflags := 0; len := 0 |}).

(** The [while (true)] of _find_entry. *)
Fixpoint _find_entry_loop (fuel : nat) (ctx : sysparam_context) (match_id : Z)
    (find_value : bool) : M D (sysparam_status_t * sysparam_context) :=
  match fuel with
  | O => diverge
  | S fuel =>
      i ← get_info;
      let region_end := u32 (cur_base i + region_size i) in
      let next_addr := u32 (addr ctx + ENTRY_SIZE (len (entry ctx))) in
      if negb (addr ctx =? cur_base i) && (region_end <? next_addr) then
        _ ← put_info (info_set_force i true);
        mret (_find_entry_end ctx match_id)
      else if negb (addr ctx =? cur_base i) && (next_addr =? region_end) then
        mret (_find_entry_end (ctx_set_addr ctx next_addr) match_id)
      else
        let a := if addr ctx =? cur_base i then u32 (addr ctx + REGION_HEADER_SIZE)
                 else next_addr in
        '(r, bs) ← flash_read a ENTRY_HEADER_SIZE;
        let ctx := ctx_set_entry (ctx_set_addr ctx a) (parse_entry_header bs) in
        if decide (r ≠ SPI_FLASH_RESULT_OK) then mret (SYSPARAM_ERR_IO, ctx) else
        let f := idflags (entry ctx) in
        if f =? 0xffff then mret (_find_entry_end ctx match_id) else
        let id := Z.land f ENTRY_MASK_ID in
        let is_match := (id =? match_id) || (match_id =? ENTRY_ID_ANY) in
        if Z.land f (Z.lor ENTRY_FLAG_ALIVE ENTRY_FLAG_INVALID) =? ENTRY_FLAG_ALIVE then
          if Z.land f ENTRY_FLAG_VALUE =? 0 then
            let ctx := ctx_saw_key ctx id in
            if negb find_value && is_match then mret (SYSPARAM_OK, ctx)
            else _find_entry_loop fuel ctx match_id find_value
          else
            let ctx := ctx_saw_value ctx in
            if find_value && is_match then mret (SYSPARAM_OK, ctx)
            else _find_entry_loop fuel ctx match_id find_value
        else
          _find_entry_loop fuel (ctx_add_compactable ctx (ENTRY_SIZE (len (entry ctx))))
            match_id find_value
  end.

(** Every iteration advances by at least one word of the region. *)
Definition scan_fuel (i : sysparam_info) : nat := Z.to_nat (region_size i / 4 + 2).

Definition _find_entry (ctx : sysparam_context) (match_id : Z) (find_value : bool)
  : M D (sysparam_status_t * sysparam_context) :=
  i ← get_info; _find_entry_loop (scan_fuel i) ctx match_id find_value.

Definition _read_payload (ctx : sysparam_context) (buffer_size : Z)
  : M D (sysparam_status_t * list Z) :=
  '(r, bs) ← flash_read (u32 (addr ctx + ENTRY_HEADER_SIZE))
               (Z.min buffer_size (len (entry ctx)));
  mret (if decide (r = SPI_FLASH_RESULT_OK) then SYSPARAM_OK else SYSPARAM_ERR_IO, bs).

(** The [while (true)] of _find_key; [key = None] is the NULL pointer. *)
Fixpoint _find_key_loop (fuel : nat) (ctx : sysparam_context) (key : option (list Z))
    (key_len : Z) : M D (sysparam_status_t * sysparam_context) :=
  match fuel with
  | O => diverge
  | S fuel =>
      '(status, ctx) ← _find_entry ctx ENTRY_ID_ANY false;
      if decide (status ≠ SYSPARAM_OK) then mret (status, ctx) else
      match key with
      | None => mret (SYSPARAM_OK, ctx)
      | Some k =>
          if len (entry ctx) =? key_len then
            '(status, buffer) ← _read_payload ctx key_len;
            if is_err status then mret (status, ctx) else
            if decide (take (Z.to_nat key_len) k = take (Z.to_nat key_len) buffer)
            then mret (SYSPARAM_OK, ctx)
            else _find_key_loop fuel ctx key key_len
          else _find_key_loop fuel ctx key key_len
      end
  end.

Definition _find_key (ctx : sysparam_context) (key : option (list Z)) (key_len : Z)
  : M D (sysparam_status_t * sysparam_context) :=
  i ← get_info; _find_key_loop (scan_fuel i) ctx key (u16 key_len).

Definition _find_value (ctx : sysparam_context) (id_field : Z)
  : M D (sysparam_status_t * sysparam_context) :=
  _find_entry ctx (Z.land id_field ENTRY_MASK_ID) true.

(** [_sysparam_info.end_addr += n] when the entry was written at the end. *)
Definition bump_end_addr (addr n : Z) : M D unit :=
  i ← get_info;
  if end_addr i =? addr then put_info (info_set_end i (u32 (end_addr i + n))) else mret tt.

Definition _write_entry (addr id : Z) (payload : list Z) (len : Z) : M D sysparam_status_t :=
  let entry := {| idflags := Z.lor (Z.lor (u16 id) ENTRY_FLAG_ALIVE) ENTRY_FLAG_INVALID;
                  len := u16 len |} in
  status ← _write_and_verify addr (entry_header_bytes entry) ENTRY_HEADER_SIZE;
  if decide (status = SYSPARAM_ERR_IO) then
    (* zero the failed header so that it reads as a deleted, empty entry *)
    status ← _write_and_verify addr (entry_header_bytes {| idflags := 0; len := 0 |})
               ENTRY_HEADER_SIZE;
    if decide (status ≠ SYSPARAM_OK) then mret status else
    _ ← bump_end_addr addr ENTRY_HEADER_SIZE;
    mret SYSPARAM_ERR_IO
  else if decide (status ≠ SYSPARAM_OK) then mret status else
  _ ← bump_end_addr addr (ENTRY_SIZE (u16 len));
  status ← _write_and_verify (u32 (addr + ENTRY_HEADER_SIZE)) payload (u16 len);
  if decide (status ≠ SYSPARAM_OK) then mret status else
  let entry := {| idflags := Z.land (idflags entry) (Z.lnot ENTRY_FLAG_INVALID);
                  len := u16 len |} in
  _write_and_verify addr (entry_header_bytes entry) ENTRY_HEADER_SIZE.

Definition _delete_entry (addr : Z) : M D sysparam_status_t :=
  '(r, bs) ← flash_read addr ENTRY_HEADER_SIZE;
  if decide (r ≠ SPI_FLASH_RESULT_OK) then mret SYSPARAM_ERR_IO else
  let e := parse_entry_header bs in
  let e := {| idflags := Z.land (idflags e) (Z.lnot ENTRY_FLAG_ALIVE); len := len e |} in
  CHECK_FLASH_OP (flash_write addr (entry_header_bytes e) ENTRY_HEADER_SIZE)
    (mret SYSPARAM_OK).

(** ** Iteration *)

Definition iter_zero : sysparam_iter_t :=
  {| it_key := []; it_value := []; it_key_len := 0; it_value_len := 0; it_binary := false;
     it_bufsize := 0; it_ctx := zero_context |}.

(** sizeof(struct sysparam_context) *)
Definition CONTEXT_SIZE : Z := 20.

Definition sysparam_iter_start : M D (sysparam_status_t * sysparam_iter_t) :=
  i ← get_info;
  if cur_base i =? 0 then mret (SYSPARAM_ERR_NOINIT, iter_zero) else
  ok ← malloc DEFAULT_ITER_BUF_SIZE;
  if negb ok then mret (SYSPARAM_ERR_NOMEM, iter_zero) else
  ok ← malloc CONTEXT_SIZE;
  if negb ok then (_ ← free; mret (SYSPARAM_ERR_NOMEM, iter_zero)) else
  ctx ← _init_context;
  mret (SYSPARAM_OK,
        {| it_key := []; it_value := []; it_key_len := 0; it_value_len := 0;
           it_binary := false; it_bufsize := DEFAULT_ITER_BUF_SIZE; it_ctx := ctx |}).

Definition iter_set_ctx (it : sysparam_iter_t) (c : sysparam_context) : sysparam_iter_t :=
  {| it_key := it_key it; it_value := it_value it; it_key_len := it_key_len it;
     it_value_len := it_value_len it; it_binary := it_binary it;
     it_bufsize := it_bufsize it; it_ctx := c |}.
Definition iter_set_bufsize (it : sysparam_iter_t) (n : Z) : sysparam_iter_t :=
  {| it_key := it_key it; it_value := it_value it; it_key_len := it_key_len it;
     it_value_len := it_value_len it; it_binary := it_binary it;
     it_bufsize := n; it_ctx := it_ctx it |}.

(** The part of sysparam_iter_next after a key with a value was found. *)
Definition _iter_fill (it : sysparam_iter_t) (value_ctx : sysparam_context)
  : M D (sysparam_status_t * sysparam_iter_t) :=
  let ctx := it_ctx it in
  let key_space := ROUND_TO_WORD_BOUNDARY (len (entry ctx) + 1) in
  let required_len := key_space + len (entry value_ctx) + 1 in
  ok ← (if it_bufsize it <? required_len then realloc required_len else mret true);
  if negb ok then mret (SYSPARAM_ERR_NOMEM, it) else
  let it := if it_bufsize it <? required_len then iter_set_bufsize it required_len else it in
  '(status, key) ← _read_payload ctx (it_bufsize it);
  if is_err status then mret (status, it) else
  '(status, value) ← _read_payload value_ctx (it_bufsize it - key_space);
  if is_err status then mret (status, it) else
  mret (SYSPARAM_OK,
        {| it_key := key; it_value := value; it_key_len := len (entry ctx);
           it_value_len := len (entry value_ctx);
           it_binary := negb (Z.land (idflags (entry value_ctx)) ENTRY_FLAG_BINARY =? 0);
           it_bufsize := it_bufsize it; it_ctx := ctx |}).

Fixpoint _iter_next_loop (fuel : nat) (it : sysparam_iter_t)
  : M D (sysparam_status_t * sysparam_iter_t) :=
  match fuel with
  | O => diverge
  | S fuel =>
      '(status, ctx) ← _find_key (it_ctx it) None 0;
      let it := iter_set_ctx it ctx in
      if decide (status ≠ SYSPARAM_OK) then mret (status, it) else
      '(status, value_ctx) ← _find_value ctx (idflags (entry ctx));
      if is_err status then mret (status, it) else
      if decide (status = SYSPARAM_NOTFOUND) then _iter_next_loop fuel it else
      _iter_fill it value_ctx
  end.

Definition sysparam_iter_next (it : sysparam_iter_t)
  : M D (sysparam_status_t * sysparam_iter_t) :=
  i ← get_info; _iter_next_loop (scan_fuel i) it.

(** Frees the key buffer and the context. *)
Definition sysparam_iter_end : M D unit := _ ← free; free.

(** ** Compaction *)

(** The [while (true)] of _compact_params: returns the last status, the next
    free address, the last id given out and the (possibly updated) key id. *)
Fixpoint _compact_loop (fuel : nat) (it : sysparam_iter_t) (addr current_key_id key_id : Z)
  : M D (sysparam_status_t * Z * Z * Z) :=
  match fuel with
  | O => diverge
  | S fuel =>
      '(status, it) ← sysparam_iter_next it;
      if decide (status ≠ SYSPARAM_OK) then mret (status, addr, current_key_id, key_id) else
      let current_key_id := u16 (current_key_id + 1) in
      status ← _write_entry addr current_key_id (it_key it) (it_key_len it);
      if is_err status then mret (status, addr, current_key_id, key_id) else
      let addr := u32 (addr + ENTRY_SIZE (it_key_len it)) in
      if Z.land (idflags (entry (it_ctx it))) ENTRY_MASK_ID =? key_id then
        _compact_loop fuel it addr current_key_id current_key_id
      else
        let binary_flag := if it_binary it then ENTRY_FLAG_BINARY else 0 in
        status ← _write_entry addr
                   (Z.lor (Z.lor current_key_id ENTRY_FLAG_VALUE) binary_flag)
                   (it_value it) (it_value_len it);
        if is_err status then mret (status, addr, current_key_id, key_id) else
        let addr := u32 (addr + ENTRY_SIZE (it_value_len it)) in
        _compact_loop fuel it addr current_key_id key_id
  end.

Definition _compact_params (ctx : sysparam_context) (key_id : Z)
  : M D (sysparam_status_t * sysparam_context * Z) :=
  i ← get_info;
  let new_base := alt_base i in
  let addr := u32 (new_base + REGION_HEADER_SIZE) in
  let num_sectors := u16 (region_size i / sector_size sdk_flashchip) in
  status ← _format_region new_base num_sectors;
  if is_err status then mret (status, ctx, key_id) else
  '(status, it) ← sysparam_iter_start;
  if is_err status then mret (status, ctx, key_id) else
  '(status, addr, current_key_id, key_id) ← _compact_loop (scan_fuel i) it addr 0 key_id;
  _ ← sysparam_iter_end;
  if is_err status then mret (status, ctx, key_id) else
  i ← get_info;
  status ← _write_region_header new_base (cur_base i) true;
  if is_err status then mret (status, ctx, key_id) else
  status ← _write_region_header (cur_base i) new_base false;
  if is_err status then mret (status, ctx, key_id) else
  i ← get_info;
  _ ← put_info {| cur_base := new_base; alt_base := cur_base i; end_addr := addr;
                  region_size := region_size i; force_compact := false |};
  mret (SYSPARAM_OK,
        {| Sysparam.addr := addr; entry := {| idflags := 0; len := 0 |}; unused_keys := 0;
           compactable := 0; max_key_id := current_key_id |}, key_id).

(** ** Public functions *)

(** The loop of sysparam_init that looks for a region header; [None] when
    [top_addr] is reached, otherwise the address and header found. *)
Fixpoint _init_scan (fuel : nat) (addr0 top_addr : Z)
  : M D (sysparam_status_t * option (Z * region_header)) :=
  if addr0 <? top_addr then
    match fuel with
    | O => diverge
    | S fuel =>
        '(r, bs) ← flash_read addr0 REGION_HEADER_SIZE;
        if decide (r ≠ SPI_FLASH_RESULT_OK) then mret (SYSPARAM_ERR_IO, None) else
        let header0 := parse_region_header bs in
        if magic header0 =? SYSPARAM_MAGIC then mret (SYSPARAM_OK, Some (addr0, header0))
        else _init_scan fuel (u32 (addr0 + sector_size sdk_flashchip)) top_addr
    end
  else mret (SYSPARAM_NOTFOUND, None).

(** The recovery of a missing other half of the area. *)
Definition _init_other_half (addr0 addr1 num_sectors : Z) (header0 header1 : region_header)
  : M D sysparam_status_t :=
  if magic header1 =? SYSPARAM_MAGIC then
    if Z.land (flags_size header0) REGION_FLAG_SECOND =?
       Z.land (flags_size header1) REGION_FLAG_SECOND
    then mret SYSPARAM_ERR_CORRUPT else mret SYSPARAM_OK
  else if negb (Z.land (flags_size header0) REGION_FLAG_ACTIVE =? 0) then
    status ← _format_region addr1 num_sectors;
    if decide (status ≠ SYSPARAM_OK) then mret status else
    _write_region_header addr1 addr0 false
  else mret SYSPARAM_ERR_CORRUPT.

Definition sysparam_init (base_addr top_addr : Z) : M D sysparam_status_t :=
  let base_addr := base_addr - base_addr `mod` sector_size sdk_flashchip in
  let top_addr :=
    if (top_addr =? 0) || (top_addr =? base_addr)
    then u32 (base_addr + sector_size sdk_flashchip) else top_addr in
  '(status, found) ←
    _init_scan (Z.to_nat ((top_addr - base_addr) / sector_size sdk_flashchip + 1))
      base_addr top_addr;
  match found with
  | None => mret status
  | Some (addr0, header0) =>
      let num_sectors := Z.land (flags_size header0) REGION_MASK_SIZE in
      let addr1 :=
        if negb (Z.land (flags_size header0) REGION_FLAG_SECOND =? 0)
        then u32 (addr0 - num_sectors * sector_size sdk_flashchip)
        else u32 (addr0 + num_sectors * sector_size sdk_flashchip) in
      '(r, bs) ← flash_read addr1 REGION_HEADER_SIZE;
      if decide (r ≠ SPI_FLASH_RESULT_OK) then mret SYSPARAM_ERR_IO else
      let header1 := parse_region_header bs in
      status ← _init_other_half addr0 addr1 num_sectors header0 header1;
      if decide (status ≠ SYSPARAM_OK) then mret status else
      let size := num_sectors * sector_size sdk_flashchip in
      let active0 := negb (Z.land (flags_size header0) REGION_FLAG_ACTIVE =? 0) in
      let base := if active0 then addr0 else addr1 in
      let other := if active0 then addr1 else addr0 in
      _ ← put_info {| cur_base := base; alt_base := other; end_addr := u32 (base + size);
                      region_size := size; force_compact := false |};
      ctx ← _init_context;
      '(status, ctx) ← _find_entry ctx ENTRY_ID_END false;
      i ← get_info;
      if is_err status then
        _ ← put_info {| cur_base := 0; alt_base := 0; end_addr := 0;
                        region_size := region_size i; force_compact := force_compact i |};
        mret status
      else
        _ ← (if decide (status = SYSPARAM_OK) then put_info (info_set_end i (addr ctx))
             else mret tt);
        _ ← xSemaphoreCreateMutex;
        mret SYSPARAM_OK
  end.

(** The scan of sysparam_create_area, [SCAN_BUFFER_SIZE] bytes at a time over
    reads of [SCAN_BUFFER_SIZE] words; OK when everything read is blank. *)
Fixpoint _area_scan (fuel : nat) (addr top : Z) : M D sysparam_status_t :=
  if addr <? top then
    match fuel with
    | O => diverge
    | S fuel =>
        '(r, buffer) ← flash_read addr (SCAN_BUFFER_SIZE * 4);
        if decide (r ≠ SPI_FLASH_RESULT_OK) then mret SYSPARAM_ERR_IO else
        if forallb (λ i, get32 buffer (4 * i) =? 0xffffffff) (seqZ 0 SCAN_BUFFER_SIZE)
        then _area_scan fuel (u32 (addr + SCAN_BUFFER_SIZE)) top
        else mret SYSPARAM_NOTFOUND
    end
  else mret SYSPARAM_OK.

Definition sysparam_create_area (base_addr num_sectors : Z) (force : bool)
  : M D sysparam_status_t :=
  if (num_sectors <? 1) || negb (Z.land num_sectors 1 =? 0) then mret SYSPARAM_ERR_BADVALUE
  else
    let num_sectors := Z.shiftr num_sectors 1 in
    let region_size := num_sectors * sector_size sdk_flashchip in
    status ← (if force then mret SYSPARAM_OK
              else _area_scan (Z.to_nat (region_size * 2 / SCAN_BUFFER_SIZE + 1)) base_addr
                     (u32 (base_addr + region_size * 2)));
    if decide (status ≠ SYSPARAM_OK) then mret status else
    i ← get_info;
    _ ← (if (cur_base i =? base_addr) || (alt_base i =? base_addr)
         then put_info zero_info else mret tt);
    status ← _format_region base_addr num_sectors;
    if is_err status then mret status else
    status ← _format_region (u32 (base_addr + region_size)) num_sectors;
    if is_err status then mret status else
    status ← _write_region_header base_addr (u32 (base_addr + region_size)) true;
    if is_err status then mret status else
    status ← _write_region_header (u32 (base_addr + region_size)) base_addr false;
    if is_err status then mret status else
    mret SYSPARAM_OK.

Definition sysparam_get_info : M D (sysparam_status_t * option (Z * Z)) :=
  i ← get_info;
  if cur_base i =? 0 then mret (SYSPARAM_ERR_NOINIT, None) else
  mret (SYSPARAM_OK,
        Some (Z.min (cur_base i) (alt_base i),
              region_size i / sector_size sdk_flashchip * 2)).

(** The returned triple is [*destptr] (the terminating zero included),
    [*actual_length] and [*is_binary]. *)
Definition sysparam_get_data (key : list Z)
  : M D (sysparam_status_t * option (list Z * Z * bool)) :=
  i ← get_info;
  if cur_base i =? 0 then mret (SYSPARAM_ERR_NOINIT, None) else
  ok ← malloc (zlength key + 2);
  if negb ok then mret (SYSPARAM_ERR_NOMEM, None) else
  ctx ← _init_context;
  '(status, ctx) ← _find_key ctx (Some key) (zlength key);
  if decide (status ≠ SYSPARAM_OK) then (_ ← free; mret (status, None)) else
  '(status, ctx) ← _find_value ctx (idflags (entry ctx));
  if decide (status ≠ SYSPARAM_OK) then (_ ← free; mret (status, None)) else
  ok ← realloc (len (entry ctx) + 1);
  if negb ok then (_ ← free; mret (SYSPARAM_ERR_NOMEM, None)) else
  '(status, buffer) ← _read_payload ctx (len (entry ctx));
  if decide (status ≠ SYSPARAM_OK) then (_ ← free; mret (status, None)) else
  mret (SYSPARAM_OK,
        Some (buffer ++ [0], len (entry ctx),
              negb (Z.land (idflags (entry ctx)) ENTRY_FLAG_BINARY =? 0))).

(** [Some (bytes, actual_length, is_binary)]: [bytes] are the bytes stored in
    the caller's buffer. *)
Definition sysparam_get_data_static (key : list Z) (buffer_size : Z)
  : M D (sysparam_status_t * option (list Z * Z * bool)) :=
  i ← get_info;
  if cur_base i =? 0 then mret (SYSPARAM_ERR_NOINIT, None) else
  if buffer_size <? Z.max (zlength key) 2 then mret (SYSPARAM_ERR_NOMEM, None) else
  ctx ← _init_context;
  '(status, ctx) ← _find_key ctx (Some key) (zlength key);
  if decide (status ≠ SYSPARAM_OK) then mret (status, None) else
  '(status, ctx) ← _find_value ctx (idflags (entry ctx));
  if decide (status ≠ SYSPARAM_OK) then mret (status, None) else
  '(status, buffer) ← _read_payload ctx buffer_size;
  if decide (status ≠ SYSPARAM_OK) then mret (status, None) else
  mret (SYSPARAM_OK,
        Some (buffer, len (entry ctx),
              negb (Z.land (idflags (entry ctx)) ENTRY_FLAG_BINARY =? 0))).

(** *** sysparam_set_data

    Its body is a [do { ... } while (false)] in four parts; each part returns
    [inl status] where the source has a [break] and [inr] with the variables
    it leaves otherwise. *)

(** Look the key and its current value up: status, context, [key_id],
    [old_value_addr]. *)
Definition set_data_locate (key : list Z) (key_len : Z)
  : M D (sysparam_status_t * sysparam_context * Z * Z) :=
  ctx ← _init_context;
  '(status, ctx) ← _find_key ctx (Some key) key_len;
  if decide (status = SYSPARAM_OK) then
    let key_id := Z.land (idflags (entry ctx)) ENTRY_MASK_ID in
    '(status, ctx) ← _find_value ctx key_id;
    mret (status, ctx, key_id, if decide (status = SYSPARAM_OK) then addr ctx else 0)
  else mret (status, ctx, -1, 0).

(** Is the value already there?  [inl] also when a buffer or a read fails. *)
Definition set_data_same (ctx : sysparam_context) (value : list Z) (value_len key_len : Z)
    (binary_flag : Z) : M D (sysparam_status_t + unit) :=
  if (Z.land (idflags (entry ctx)) ENTRY_FLAG_BINARY =? binary_flag) &&
     (len (entry ctx) =? value_len) then
    ok ← (if key_len <? value_len then realloc value_len else mret true);
    if negb ok then mret (inl SYSPARAM_ERR_NOMEM) else
    '(status, buffer) ← _read_payload ctx value_len;
    if is_err status then mret (inl status) else
    if decide (take (Z.to_nat value_len) buffer = take (Z.to_nat value_len) value)
    then mret (inl SYSPARAM_OK) else mret (inr tt)
  else mret (inr tt).

Definition free_space (i : sysparam_info) : Z :=
  u32 (cur_base i + region_size i - end_addr i).

(** Compact, and forget the address of the old value. *)
Definition compact_step (ctx : sysparam_context) (key_id : Z)
  : M D (sysparam_status_t + (sysparam_context * Z * Z)) :=
  '(status, ctx, key_id) ← _compact_params ctx key_id;
  if is_err status then mret (inl status) else mret (inr (ctx, key_id, 0)).

(** Make sure there is room for the value (and the key, when it is new). *)
Definition set_data_make_room (key : list Z) (ctx : sysparam_context)
    (key_id old_value_addr value_len : Z)
  : M D (sysparam_status_t + (sysparam_context * Z * Z)) :=
  i ← get_info;
  let needed_space :=
    ENTRY_SIZE value_len + if key_id <? 0 then ENTRY_SIZE (u16 (zlength key)) else 0 in
  r ← (if free_space i <? needed_space then
         '(_, ctx) ← _find_entry ctx ENTRY_ID_END false;
         if (needed_space <=? u32 (free_space i + compactable ctx)) || (0 <? unused_keys ctx)
         then compact_step ctx key_id
         else mret (inr (ctx, key_id, old_value_addr))
       else mret (inr (ctx, key_id, old_value_addr)));
  match r with
  | inl status => mret (inl status)
  | inr (ctx, key_id, old_value_addr) =>
      i ← get_info;
      if free_space i <? needed_space then mret (inl SYSPARAM_ERR_FULL) else
      r ← (if (key_id <? 0) && (MAX_KEY_ID <=? max_key_id ctx) then
             if 0 <? unused_keys ctx then compact_step ctx key_id
             else mret (inl SYSPARAM_ERR_FULL)
           else mret (inr (ctx, key_id, old_value_addr)));
      match r with
      | inl status => mret (inl status)
      | inr (ctx, key_id, old_value_addr) =>
          i ← get_info;
          if force_compact i then
            '(status, ctx, key_id) ← _compact_params ctx key_id;
            if is_err status then mret (inl status)
            else mret (inr (ctx, key_id, old_value_addr))
          else mret (inr (ctx, key_id, old_value_addr))
      end
  end.

(** Write the key (when it is new) and the value at the end of the region. *)
Definition set_data_append (key : list Z) (key_len : Z) (ctx : sysparam_context) (key_id : Z)
    (value : list Z) (value_len binary_flag : Z) : M D (sysparam_status_t + unit) :=
  '(_, write_ctx) ← init_write_context;
  let w := addr write_ctx in
  '(status, w, key_id) ←
    (if key_id <? 0 then
       let key_id := max_key_id ctx + 1 in
       status ← _write_entry w key_id key key_len;
       mret (status, u32 (w + ENTRY_SIZE key_len), key_id)
     else mret (SYSPARAM_OK, w, key_id));
  if is_err status then mret (inl status) else
  status ← _write_entry w (Z.lor (Z.lor key_id ENTRY_FLAG_VALUE) binary_flag) value value_len;
  if is_err status then mret (inl status) else
  i ← get_info;
  _ ← put_info (info_set_end i (u32 (w + ENTRY_SIZE value_len)));
  mret (inr tt).

Definition set_data_finish (status : sysparam_status_t) (old_value_addr : Z)
  : M D sysparam_status_t :=
  if negb (old_value_addr =? 0) then _delete_entry old_value_addr else mret status.

(** The value is not there yet: make room, append, delete the old value. *)
Definition set_data_write (key : list Z) (ctx : sysparam_context) (key_id old_value_addr : Z)
    (value : list Z) (value_len binary_flag : Z) : M D sysparam_status_t :=
  r ← set_data_make_room key ctx key_id old_value_addr value_len;
  match r with
  | inl status => mret status
  | inr (ctx, key_id, old_value_addr) =>
      let key_len := u16 (zlength key) in
      r ← set_data_append key key_len ctx key_id value value_len binary_flag;
      match r with
      | inl status => mret status
      | inr _ => set_data_finish SYSPARAM_OK old_value_addr
      end
  end.

(** The [do { ... } while (false)]. *)
Definition set_data_body (key : list Z) (key_len : Z) (value : list Z) (value_len : Z)
    (is_binary : bool) : M D sysparam_status_t :=
  '(status, ctx, key_id, old_value_addr) ← set_data_locate key key_len;
  if is_err status then mret status else
  let binary_flag := if is_binary then ENTRY_FLAG_BINARY else 0 in
  if value_len =? 0 then set_data_finish status old_value_addr else
  r ← (if negb (old_value_addr =? 0)
       then set_data_same ctx value value_len key_len binary_flag else mret (inr tt));
  match r with
  | inl status => mret status
  | inr _ =>
      let ctx := if negb (old_value_addr =? 0)
                 then ctx_add_compactable ctx (ENTRY_SIZE (len (entry ctx))) else ctx in
      set_data_write key ctx key_id old_value_addr value value_len binary_flag
  end.

(** [aligned]: whether [value] is word-aligned; [value = None] is NULL. *)
Definition sysparam_set_data (key : list Z) (value : option (list Z)) (value_len : Z)
    (aligned is_binary : bool) : M D sysparam_status_t :=
  let key_len := u16 (zlength key) in
  i ← get_info;
  if cur_base i =? 0 then mret SYSPARAM_ERR_NOINIT else
  if key_len =? 0 then mret SYSPARAM_ERR_BADVALUE else
  if MAX_KEY_LEN <? key_len then mret SYSPARAM_ERR_BADVALUE else
  if MAX_VALUE_LEN <? value_len then mret SYSPARAM_ERR_BADVALUE else
  _ ← xSemaphoreTake;
  let value_len := match value with Some _ => value_len | None => 0 end in
  let data := default [] value in
  let copy := negb (value_len =? 0) && negb aligned in
  ok ← (if copy then malloc value_len else mret true);
  if negb ok then (_ ← xSemaphoreGive; mret SYSPARAM_ERR_NOMEM) else
  ok ← malloc key_len;
  if negb ok then
    _ ← (if copy then free else mret tt);
    _ ← xSemaphoreGive;
    mret SYSPARAM_ERR_NOMEM
  else
    status ← set_data_body key key_len data value_len is_binary;
    _ ← (if copy then free else mret tt);
    _ ← free;
    _ ← xSemaphoreGive;
    mret status.

(** *** Typed access *)

(** [Some s]: the returned buffer, with the terminator sysparam_get_data adds. *)
Definition sysparam_get_string (key : list Z) : M D (sysparam_status_t * option (list Z)) :=
  '(status, r) ← sysparam_get_data key;
  match r with
  | Some (buf, _, is_binary) =>
      if decide (status ≠ SYSPARAM_OK) then mret (status, None) else
      if is_binary : bool then (_ ← free; mret (SYSPARAM_PARSEFAILED, None))
      else mret (SYSPARAM_OK, Some buf)
  | None => mret (status, None)
  end.

Definition sysparam_get_int32 (key : list Z) : M D (sysparam_status_t * option Z) :=
  '(status, r) ← sysparam_get_string key;
  match r with
  | Some buffer =>
      let '(value, endptr) := strtol0 (cstring buffer) in
      match endptr with
      | [] => _ ← free; mret (SYSPARAM_OK, Some value)
      | _ => _ ← free; mret (SYSPARAM_PARSEFAILED, None)
      end
  | None => mret (status, None)
  end.

Definition sysparam_get_int8 (key : list Z) : M D (sysparam_status_t * option Z) :=
  '(status, value) ← sysparam_get_int32 key;
  if decide (status = SYSPARAM_OK) then mret (status, s8 <$> value)
  else mret (status, None).

Definition str_y : list Z := [121].
Definition str_yes : list Z := [121; 101; 115].
Definition str_t : list Z := [116].
Definition str_true : list Z := [116; 114; 117; 101].
Definition str_1 : list Z := [49].
Definition str_n : list Z := [110].
Definition str_no : list Z := [110; 111].
Definition str_f : list Z := [102].
Definition str_false : list Z := [102; 97; 108; 115; 101].
Definition str_0 : list Z := [48].

(** The boolean a string stands for. *)
Definition parse_bool (s : list Z) : option bool :=
  if strcaseeq s str_y || strcaseeq s str_yes || strcaseeq s str_t || strcaseeq s str_true
     || streq s str_1 then Some true
  else if strcaseeq s str_n || strcaseeq s str_no || strcaseeq s str_f
     || strcaseeq s str_false || streq s str_0 then Some false
  else None.

Definition sysparam_get_bool (key : list Z) : M D (sysparam_status_t * option bool) :=
  '(status, r) ← sysparam_get_string key;
  match r with
  | Some buffer =>
      _ ← free;
      match parse_bool (cstring buffer) with
      | Some b => mret (SYSPARAM_OK, Some b)
      | None => mret (SYSPARAM_PARSEFAILED, None)
      end
  | None => mret (status, None)
  end.

Definition sysparam_set_string (key value : list Z) (aligned : bool) : M D sysparam_status_t :=
  sysparam_set_data key (Some value) (zlength value) aligned false.

Definition sysparam_set_int32 (key : list Z) (value : Z) (aligned : bool)
  : M D sysparam_status_t :=
  let buffer := print_int value in
  sysparam_set_data key (Some buffer) (zlength buffer) aligned false.

Definition sysparam_set_int8 (key : list Z) (value : Z) (aligned : bool)
  : M D sysparam_status_t := sysparam_set_int32 key value aligned.

Definition sysparam_set_bool (key : list Z) (value aligned : bool) : M D sysparam_status_t :=
  '(status, old) ← sysparam_get_bool key;
  if decide (status = SYSPARAM_OK ∧ old = Some value) then mret SYSPARAM_OK else
  let buf := [if value then 121 else 110; 0xff; 0xff; 0xff] in
  sysparam_set_data key (Some buf) 1 aligned false.

End sysparam.
