(* ===== verification/SysparamLog.v ===== *)
(** SysparamLog: the log of entries a sysparam region holds, as a list.

    A region is a header followed by entries; an entry is live (alive and
    valid) or not, and is a key or a value.  This file is the abstract side:
    what a log means (a finite map from keys to values), the invariant
    [log_ok] that sysparam keeps, and how appending an entry and clearing an
    "alive" flag change the meaning. *)

From stdpp Require Import sorting.
From S2P Require Import Prelude CString Flash Sysparam.

(** ** Entries *)

Record log_entry := LogEntry { e_flags : Z; e_data : list Z }.

#[export] Instance log_entry_eq_dec : EqDecision log_entry.
Proof. solve_decision. Defined.

(** The tests the code makes on a flag word. *)
Definition f_live (f : Z) : bool :=
  Z.land f (Z.lor ENTRY_FLAG_ALIVE ENTRY_FLAG_INVALID) =? ENTRY_FLAG_ALIVE.
Definition f_is_value (f : Z) : bool := negb (Z.land f ENTRY_FLAG_VALUE =? 0).
Definition f_id (f : Z) : Z := Z.land f ENTRY_MASK_ID.
Definition f_binary (f : Z) : bool := negb (Z.land f ENTRY_FLAG_BINARY =? 0).

Definition e_live (e : log_entry) : bool := f_live (e_flags e).
Definition e_is_value (e : log_entry) : bool := f_is_value (e_flags e).
Definition e_id (e : log_entry) : Z := f_id (e_flags e).
Definition e_binary (e : log_entry) : bool := f_binary (e_flags e).
Definition e_size (e : log_entry) : Z := ENTRY_SIZE (zlength (e_data e)).
Definition e_header (e : log_entry) : entry_header :=
  {| idflags := e_flags e; len := zlength (e_data e) |}.

Definition live_key (e : log_entry) : bool := e_live e && negb (e_is_value e).
Definition live_value (e : log_entry) : bool := e_live e && e_is_value e.

(** An entry that can be stored: 0xffff is reserved for unwritten space. *)
Record entry_ok (e : log_entry) : Prop := {
  ok_flags : 0 ≤ e_flags e < 0xffff;
  ok_len : zlength (e_data e) ≤ 0xffff;
  ok_bytes : Forall is_byte (e_data e)
}.

(** The flags _write_entry leaves for a key and for a value. *)
Definition written_flags (id : Z) : Z :=
  Z.land (Z.lor (Z.lor (u16 id) ENTRY_FLAG_ALIVE) ENTRY_FLAG_INVALID) (Z.lnot ENTRY_FLAG_INVALID).
Definition written (id : Z) (data : list Z) : log_entry := LogEntry (written_flags id) data.
Definition value_id (id : Z) (binary : bool) : Z :=
  Z.lor (Z.lor id ENTRY_FLAG_VALUE) (if binary then ENTRY_FLAG_BINARY else 0).

(** The entry _delete_entry leaves. *)
Definition killed (e : log_entry) : log_entry :=
  LogEntry (Z.land (e_flags e) (Z.lnot ENTRY_FLAG_ALIVE)) (e_data e).

(** ** What a log means *)

(** Live keys (id, name) and live values (id, contents), in log order. *)
Definition log_keys (es : list log_entry) : list (Z * list Z) :=
  (λ e, (e_id e, e_data e)) <$> filter live_key es.
Definition log_values (es : list log_entry) : list (Z * (list Z * bool)) :=
  (λ e, (e_id e, (e_data e, e_binary e))) <$> filter live_value es.

(** The id of a key, and the value stored under an id: the first of the log. *)
Fixpoint key_id_of (ks : list (Z * list Z)) (key : list Z) : option Z :=
  match ks with
  | [] => None
  | (id, k) :: ks' => if decide (k = key) then Some id else key_id_of ks' key
  end.

Fixpoint value_of {A} (vs : list (Z * A)) (id : Z) : option A :=
  match vs with
  | [] => None
  | (j, v) :: vs' => if decide (j = id) then Some v else value_of vs' id
  end.

Definition log_get (es : list log_entry) (key : list Z) : option (list Z * bool) :=
  id ← key_id_of (log_keys es) key; value_of (log_values es) id.

(** The finite map a log stands for. *)
Definition log_map (es : list log_entry) : gmap (list Z) (list Z * bool) :=
  list_to_map (omap (λ p, (p.2,.) <$> value_of (log_values es) p.1) (log_keys es)).

(** The id of the last live key, 0 when there is none: [ctx->max_key_id]. *)
Definition last_key_id (es : list log_entry) : Z :=
  from_option fst 0 (last (log_keys es)).

(** ** The invariant *)

Record log_ok (es : list log_entry) : Prop := {
  (* ids are handed out in increasing order, from 1 *)
  lo_ids : StronglySorted Z.lt (log_keys es).*1;
  lo_pos : Forall (λ id, 1 ≤ id ≤ MAX_KEY_ID) (log_keys es).*1;
  (* a name has one key, an id at most one value *)
  lo_names : NoDup (log_keys es).*2;
  lo_vals : NoDup (log_values es).*1;
  (* a value comes after its key *)
  lo_after : ∀ pre e post, es = pre ++ e :: post → live_value e = true →
    e_id e ∈ (log_keys pre).*1
}.

(** ** Flags

    The bit-level facts about flag words are checked on every word. *)

Fixpoint check_from (P : Z → bool) (n : nat) (z : Z) : bool :=
  match n with
  | O => true
  | S n => P z && check_from P n (z + 1)
  end.

Lemma check_from_spec P n z :
  check_from P n z = true → ∀ x, z ≤ x < z + Z.of_nat n → P x = true.
Proof.
  revert z. induction n as [|n IH]; intros z Hc x Hx; [lia|].
  cbn [check_from] in Hc. apply andb_true_iff in Hc as [Hz Hc].
  destruct (decide (x = z)) as [->|]; [done|]. apply (IH (z + 1)); [done|lia].
Qed.

(** A flag word and the entry kind it denotes. *)
Definition flags_are (f : Z) (live value : bool) (id : Z) (binary : bool) : Prop :=
  0 ≤ f < 0xffff ∧ f_live f = live ∧ f_is_value f = value ∧ f_id f = id ∧ f_binary f = binary.

Definition flags_areb (f : Z) (live value : bool) (id : Z) (binary : bool) : bool :=
  (0 <=? f) && (f <? 0xffff) && eqb (f_live f) live && eqb (f_is_value f) value &&
  (f_id f =? id) && eqb (f_binary f) binary.

Lemma flags_areb_spec f l v i b : flags_areb f l v i b = true → flags_are f l v i b.
Proof.
  unfold flags_areb, flags_are. rewrite !andb_true_iff, !eqb_true_iff, Z.eqb_eq, Z.leb_le, Z.ltb_lt.
  tauto.
Qed.

(** Decides a boolean statement about all words below [n] by evaluation. *)
Ltac flag_check n z x :=
  apply flags_areb_spec;
  match goal with
  | |- ?b = true =>
      let b' := eval pattern x in b in
      match b' with ?P _ => apply (check_from_spec P n z); [vm_compute; reflexivity | lia] end
  end.

Lemma written_key_flags id :
  1 ≤ id ≤ MAX_KEY_ID → flags_are (written_flags id) true false id false.
Proof. unfold MAX_KEY_ID. intros Hid. flag_check 4094%nat 1 id. Qed.

Lemma written_value_flags id b :
  1 ≤ id ≤ MAX_KEY_ID → flags_are (written_flags (value_id id b)) true true id b.
Proof. unfold MAX_KEY_ID. intros Hid. destruct b; flag_check 4094%nat 1 id. Qed.

Lemma killed_flags f :
  0 ≤ f < 0xffff →
  flags_are (Z.land f (Z.lnot ENTRY_FLAG_ALIVE)) false (f_is_value f) (f_id f) (f_binary f).
Proof. intros Hf. flag_check (Z.to_nat 65535) 0 f. Qed.

(** The header _write_entry writes first is not live. *)
Lemma invalid_flags id :
  0 ≤ id < 0x3fff →
  flags_are (Z.lor (Z.lor (u16 id) ENTRY_FLAG_ALIVE) ENTRY_FLAG_INVALID) false
    (f_is_value id) (f_id id) (f_binary id).
Proof. intros Hf. flag_check (Z.to_nat 0x3fff) 0 id. Qed.

(** ** Appending to a log *)

Lemma log_keys_app es es' : log_keys (es ++ es') = log_keys es ++ log_keys es'.
Proof. unfold log_keys. by rewrite filter_app, fmap_app. Qed.

Lemma log_values_app es es' : log_values (es ++ es') = log_values es ++ log_values es'.
Proof. unfold log_values. by rewrite filter_app, fmap_app. Qed.

Lemma log_keys_cons e es :
  log_keys (e :: es) = if live_key e then (e_id e, e_data e) :: log_keys es else log_keys es.
Proof. unfold log_keys. rewrite filter_cons. by destruct (live_key e). Qed.

Lemma log_values_cons e es :
  log_values (e :: es) =
    if live_value e then (e_id e, (e_data e, e_binary e)) :: log_values es else log_values es.
Proof. unfold log_values. rewrite filter_cons. by destruct (live_value e). Qed.

Lemma live_key_value e : live_key e = true → live_value e = false.
Proof. unfold live_key, live_value. destruct (e_live e), (e_is_value e); done. Qed.

Lemma live_value_key e : live_value e = true → live_key e = false.
Proof. unfold live_key, live_value. destruct (e_live e), (e_is_value e); done. Qed.

Lemma key_id_of_app ks ks' key :
  key_id_of (ks ++ ks') key =
    match key_id_of ks key with Some id => Some id | None => key_id_of ks' key end.
Proof. induction ks as [|[id k] ks IH]; [done|]. cbn. by case_decide. Qed.

Lemma key_id_of_elem ks key id : key_id_of ks key = Some id → (id, key) ∈ ks.
Proof.
  induction ks as [|[j k] ks IH]; [done|]. cbn. case_decide; intros.
  - simplify_eq. left.
  - right. auto.
Qed.

Lemma key_id_of_None ks key : key_id_of ks key = None ↔ key ∉ ks.*2.
Proof.
  induction ks as [|[j k] ks IH]; cbn; [split; [set_solver|done]|].
  case_decide; set_solver.
Qed.

(** Different names have different ids. *)
Lemma key_id_of_inj ks k1 k2 id :
  NoDup ks.*1 → key_id_of ks k1 = Some id → key_id_of ks k2 = Some id → k1 = k2.
Proof.
  intros Hnd H1%key_id_of_elem H2%key_id_of_elem.
  apply list_elem_of_lookup in H1 as [i Hi], H2 as [j Hj].
  assert (i = j) as ->; [|congruence].
  eapply NoDup_lookup; [exact Hnd| |]; rewrite list_lookup_fmap; [by rewrite Hi|by rewrite Hj].
Qed.

Section value_of.
  Context {A : Type}.
  Implicit Types vs : list (Z * A).

Lemma value_of_app vs vs' id :
  value_of (vs ++ vs') id =
    match value_of vs id with Some v => Some v | None => value_of vs' id end.
Proof. induction vs as [|[j v] vs IH]; [done|]. cbn. by case_decide. Qed.

Lemma value_of_None vs id : value_of vs id = None ↔ id ∉ vs.*1.
Proof.
  induction vs as [|[j v] vs IH]; cbn; [split; [set_solver|done]|].
  case_decide; set_solver.
Qed.
End value_of.

Lemma sorted_NoDup (l : list Z) : StronglySorted Z.lt l → NoDup l.
Proof.
  induction 1 as [|x l Hl IH Hx]; constructor; [|done].
  intros Hin. rewrite Forall_forall in Hx. specialize (Hx x Hin). lia.
Qed.

Lemma sorted_snoc (l : list Z) x :
  StronglySorted Z.lt l → Forall (λ y, y < x) l → StronglySorted Z.lt (l ++ [x]).
Proof.
  induction 1 as [|y l Hl IH Hy]; intros Hx; cbn; [repeat constructor|].
  apply Forall_cons in Hx as [? ?]. constructor; [by apply IH|].
  apply Forall_app; split; [done|]. by repeat constructor.
Qed.

Lemma log_ids_NoDup es : log_ok es → NoDup (log_keys es).*1.
Proof. intros H. apply sorted_NoDup, H. Qed.

Lemma log_key_inj es k1 k2 id :
  log_ok es → key_id_of (log_keys es) k1 = Some id → key_id_of (log_keys es) k2 = Some id → k1 = k2.
Proof. intros Hok. by apply key_id_of_inj, log_ids_NoDup. Qed.

(** Splitting [es ++ [x]] at an entry: the entry is [x] or lies in [es]. *)
Lemma app_snoc_split {A} (es : list A) x pre e post :
  es ++ [x] = pre ++ e :: post →
  (pre = es ∧ e = x ∧ post = []) ∨ ∃ post', post = post' ++ [x] ∧ es = pre ++ e :: post'.
Proof.
  destruct post as [|y post _] using rev_ind; intros H.
  - apply app_inj_tail in H as [-> ->]. by left.
  - right. exists post. change (e :: post ++ [y]) with ((e :: post) ++ [y]) in H.
    rewrite (assoc_L (++)) in H. apply app_inj_tail in H as [-> ->]. done.
Qed.

(** An entry that is not live changes neither the meaning nor the invariant. *)
Lemma log_append_dead es e :
  e_live e = false → log_keys (es ++ [e]) = log_keys es ∧ log_values (es ++ [e]) = log_values es.
Proof.
  intros Hd. rewrite log_keys_app, log_values_app, log_keys_cons, log_values_cons.
  unfold live_key, live_value. by rewrite Hd, !app_nil_r.
Qed.

Lemma log_ok_append_dead es e : log_ok es → e_live e = false → log_ok (es ++ [e]).
Proof.
  intros [H1 H2 H3 H4 H5] Hd. destruct (log_append_dead es e Hd) as [Hk Hv].
  split; rewrite ?Hk, ?Hv; try done.
  intros pre e' post E Hl. destruct (app_snoc_split _ _ _ _ _ E) as [(-> & -> & ->)|(p & -> & E')].
  - unfold live_value in Hl. by rewrite Hd in Hl.
  - eauto.
Qed.

Lemma log_ok_append_key es e :
  log_ok es → live_key e = true → last_key_id es < e_id e ≤ MAX_KEY_ID →
  key_id_of (log_keys es) (e_data e) = None → log_ok (es ++ [e]).
Proof.
  intros [H1 H2 H3 H4 H5] Hk Hid Hname.
  assert (Hlt : Forall (λ y, y < e_id e) (log_keys es).*1 ∧ 1 ≤ e_id e).
  { unfold last_key_id in Hid. revert H1 H2 Hid.
    destruct (log_keys es) as [|[j k] ks _] using rev_ind; cbn; [split; [constructor|lia]|].
    rewrite last_snoc, fmap_app. cbn. intros Hs [Hp1 Hp2]%Forall_app Hid.
    apply Forall_cons in Hp2 as [Hj _]. split; [|lia].
    apply Forall_app; split; [|repeat constructor; lia].
    clear -Hs Hid. revert Hs. induction ks.*1 as [|y l IH]; cbn; [constructor|].
    intros Hs. inversion Hs as [|? ? Hs' Hy]; subst. constructor; [|auto].
    rewrite Forall_forall in Hy. assert (y < j) by (apply Hy; set_solver). lia. }
  destruct Hlt as [Hlt Hge].
  assert (Hv := live_key_value _ Hk).
  split; rewrite ?log_keys_app, ?log_values_app, ?log_keys_cons, ?log_values_cons, ?Hk, ?Hv,
    ?fmap_app; cbn.
  - by apply sorted_snoc.
  - apply Forall_app; split; [done|]. repeat constructor; lia.
  - apply NoDup_app; split; [done|]. split; [|apply NoDup_singleton].
    intros k Hin Hk'%list_elem_of_singleton. subst k.
    by apply key_id_of_None in Hname.
  - by rewrite app_nil_r.
  - intros pre e' post E Hl. destruct (app_snoc_split _ _ _ _ _ E) as [(-> & -> & ->)|(p & -> & E')].
    + by rewrite Hv in Hl.
    + eauto.
Qed.

Lemma log_ok_append_value es e :
  log_ok es → live_value e = true → e_id e ∈ (log_keys es).*1 →
  value_of (log_values es) (e_id e) = None → log_ok (es ++ [e]).
Proof.
  intros [H1 H2 H3 H4 H5] Hv Hid Hnone. assert (Hk := live_value_key _ Hv).
  split; rewrite ?log_keys_app, ?log_values_app, ?log_keys_cons, ?log_values_cons, ?Hk, ?Hv,
    ?fmap_app; cbn; rewrite ?app_nil_r; try done.
  - apply NoDup_app; split; [done|]. split; [|apply NoDup_singleton].
    intros k Hin Hk'%list_elem_of_singleton. subst k. by apply value_of_None in Hnone.
  - intros pre e' post E Hl. destruct (app_snoc_split _ _ _ _ _ E) as [(-> & -> & ->)|(p & -> & E')].
    + done.
    + eauto.
Qed.

Lemma log_get_append_key es e k :
  log_ok es → live_key e = true → key_id_of (log_keys es) (e_data e) = None →
  last_key_id es < e_id e ≤ MAX_KEY_ID →
  log_get (es ++ [e]) k = log_get es k.
Proof.
  intros Hok Hk Hname Hid. assert (Hv := live_key_value _ Hk). unfold log_get.
  rewrite log_keys_app, log_values_app, log_keys_cons, log_values_cons, Hk, Hv, app_nil_r.
  rewrite key_id_of_app. destruct (key_id_of (log_keys es) k) as [j|] eqn:Ek; [done|].
  cbn. case_decide; [|done]. cbn. apply value_of_None. intros Hin.
  (* every value id is the id of an earlier key, hence below the new one *)
  assert (Hin' : e_id e ∈ (log_keys es).*1).
  { unfold log_values in Hin. apply list_elem_of_fmap in Hin as [[i d] [-> Hin]].
    apply list_elem_of_fmap in Hin as [v [Ev Hin]]. injection Ev as -> _.
    apply list_elem_of_filter in Hin as [Hlv%Is_true_true Hin].
    apply list_elem_of_split in Hin as (p & q & ->).
    assert (Hp := lo_after _ Hok p v q eq_refl Hlv). cbn in Hp |- *.
    rewrite log_keys_app, fmap_app. apply elem_of_app. by left. }
  assert (log_ok (es ++ [e])) as Hok' by by apply log_ok_append_key.
  apply log_ids_NoDup in Hok'. rewrite log_keys_app, log_keys_cons, Hk, fmap_app in Hok'.
  apply NoDup_app in Hok' as (_ & Hd & _). apply (Hd (e_id e) Hin'). cbn. by left.
Qed.

Lemma log_get_append_value es e k :
  live_value e = true → value_of (log_values es) (e_id e) = None →
  log_get (es ++ [e]) k =
    if decide (key_id_of (log_keys es) k = Some (e_id e))
    then Some (e_data e, e_binary e) else log_get es k.
Proof.
  intros Hv Hnone. assert (Hk := live_value_key _ Hv). unfold log_get.
  rewrite log_keys_app, log_values_app, log_keys_cons, log_values_cons, Hk, Hv, app_nil_r.
  destruct (key_id_of (log_keys es) k) as [j|] eqn:Ek; cbn; [|by case_decide].
  rewrite value_of_app. case_decide as Hj.
  - injection Hj as ->. rewrite Hnone. cbn. by case_decide.
  - destruct (value_of (log_values es) j); [done|]. cbn. case_decide; [congruence|done].
Qed.

(** ** Clearing an "alive" flag *)

Lemma killed_dead e : entry_ok e → e_live (killed e) = false.
Proof. intros [Hf _ _]. by apply killed_flags. Qed.

Lemma log_keys_kill pre e post :
  entry_ok e → live_value e = true →
  log_keys (pre ++ killed e :: post) = log_keys (pre ++ e :: post).
Proof.
  intros Hok Hv. rewrite !log_keys_app, !log_keys_cons, (live_value_key _ Hv).
  unfold live_key. by rewrite killed_dead.
Qed.

Lemma log_values_kill pre e post :
  entry_ok e → log_values (pre ++ killed e :: post) = log_values pre ++ log_values post.
Proof.
  intros Hok. rewrite !log_values_app, !log_values_cons. unfold live_value.
  by rewrite killed_dead.
Qed.

Lemma log_values_split pre e post :
  live_value e = true →
  log_values (pre ++ e :: post) =
    log_values pre ++ (e_id e, (e_data e, e_binary e)) :: log_values post.
Proof. intros Hv. by rewrite log_values_app, log_values_cons, Hv. Qed.

Lemma log_ok_kill pre e post :
  entry_ok e → live_value e = true → log_ok (pre ++ e :: post) →
  log_ok (pre ++ killed e :: post).
Proof.
  intros He Hv [H1 H2 H3 H4 H5].
  split; rewrite ?log_keys_kill, ?log_values_kill by done; try done.
  - rewrite log_values_split, fmap_app, fmap_cons in H4 by done.
    rewrite fmap_app. apply NoDup_app in H4 as (Ha & Hd & Hb).
    apply NoDup_cons in Hb as [Hn Hb]. apply NoDup_app; split; [done|]. split; [|done].
    intros x Hx Hx'. apply (Hd x Hx). by right.
  - intros pre' e' post' E Hl.
    assert (Hne : e' ≠ killed e).
    { intros ->. unfold live_value in Hl. by rewrite killed_dead in Hl. }
    apply app_eq_inv in E as [(k & -> & Ek)|(k & -> & Ek)]; destruct k as [|x k];
      cbn in Ek; injection Ek as ? ?; subst; try done.
    + apply (H5 pre' x (k ++ e :: post)); [by rewrite <- (assoc_L (++))|done].
    + rewrite log_keys_kill by done.
      apply (H5 (pre ++ e :: k) e' post'); [by rewrite <- (assoc_L (++))|done].
Qed.

Lemma log_get_kill pre e post k :
  entry_ok e → live_value e = true → log_ok (pre ++ e :: post) →
  log_get (pre ++ killed e :: post) k =
    if decide (key_id_of (log_keys (pre ++ e :: post)) k = Some (e_id e))
    then None else log_get (pre ++ e :: post) k.
Proof.
  intros He Hv Hok. unfold log_get.
  rewrite log_keys_kill, log_values_kill, log_values_split by done.
  destruct (key_id_of _ k) as [j|]; cbn; [|by case_decide].
  rewrite !value_of_app. cbn. case_decide as Hj.
  - injection Hj as ->. assert (Hnd := lo_vals _ Hok).
    rewrite log_values_split, fmap_app, fmap_cons in Hnd by done.
    apply NoDup_app in Hnd as (_ & Hd & Hb). apply NoDup_cons in Hb as [Hn _].
    rewrite (proj2 (value_of_None (log_values pre) (e_id e))) by (intros Hx; by eapply Hd; [|left]).
    by apply value_of_None.
  - destruct (value_of (log_values pre) j); [done|]. case_decide; [congruence|done].
Qed.

(** ** The map *)

Lemma log_map_lookup es k : log_ok es → log_map es !! k = log_get es k.
Proof.
  intros Hok. unfold log_map, log_get. assert (Hnd := lo_names _ Hok).
  induction (log_keys es) as [|[id name] ks IH]; [done|].
  cbn in Hnd. apply NoDup_cons in Hnd as [Hn Hnd]. specialize (IH Hnd).
  cbn [omap list_omap key_id_of]. cbn.
  destruct (value_of (log_values es) id) as [v|] eqn:Ev; cbn.
  - case_decide as Hk.
    + subst. cbn. by rewrite lookup_insert_eq.
    + by rewrite lookup_insert_ne.
  - case_decide as Hk; [|done]. subst. cbn. rewrite Ev, IH.
    by rewrite (proj2 (key_id_of_None ks k) Hn).
Qed.

(** ** Searching a log *)

Definition key_named (key : list Z) (e : log_entry) : bool :=
  live_key e && bool_decide (e_data e = key).
Definition value_with (id : Z) (e : log_entry) : bool := live_value e && (e_id e =? id).

Lemma key_id_of_split key pre e post :
  Forall (λ e, key_named key e = false) pre → key_named key e = true →
  key_id_of (log_keys (pre ++ e :: post)) key = Some (e_id e).
Proof.
  intros Hpre He. unfold key_named in *. apply andb_true_iff in He as [Hk Hd%bool_decide_eq_true].
  induction Hpre as [|x pre Hx _ IH]; cbn [app]; rewrite log_keys_cons.
  - rewrite Hk. cbn. by rewrite decide_True.
  - destruct (live_key x); [|done]. cbn in Hx |- *.
    rewrite decide_False by (by apply bool_decide_eq_false in Hx). done.
Qed.

Lemma key_id_of_none key es :
  Forall (λ e, key_named key e = false) es → key_id_of (log_keys es) key = None.
Proof.
  induction 1 as [|x es Hx _ IH]; [done|]. rewrite log_keys_cons. unfold key_named in Hx.
  destruct (live_key x); [|done]. cbn in Hx |- *.
  by rewrite decide_False by (by apply bool_decide_eq_false in Hx).
Qed.

Lemma value_of_split id pre e post :
  Forall (λ e, value_with id e = false) pre → value_with id e = true →
  value_of (log_values (pre ++ e :: post)) id = Some (e_data e, e_binary e).
Proof.
  intros Hpre He. unfold value_with in *. apply andb_true_iff in He as [Hv Hd%Z.eqb_eq].
  induction Hpre as [|x pre Hx _ IH]; cbn [app]; rewrite log_values_cons.
  - rewrite Hv. cbn. by rewrite decide_True.
  - destruct (live_value x); [|done]. cbn in Hx |- *.
    rewrite decide_False by (by apply Z.eqb_neq in Hx). done.
Qed.

Lemma value_of_none id es :
  Forall (λ e, value_with id e = false) es → value_of (log_values es) id = None.
Proof.
  induction 1 as [|x es Hx _ IH]; [done|]. rewrite log_values_cons. unfold value_with in Hx.
  destruct (live_value x); [|done]. cbn in Hx |- *.
  by rewrite decide_False by (by apply Z.eqb_neq in Hx).
Qed.

(** No value of a key lies before the key. *)
Lemma value_after pre e post :
  log_ok (pre ++ e :: post) → live_key e = true →
  Forall (λ x, value_with (e_id e) x = false) (pre ++ [e]).
Proof.
  intros Hok Hk. apply Forall_app; split.
  2: { constructor; [|constructor]. unfold value_with. by rewrite (live_key_value _ Hk). }
  apply Forall_forall. intros x Hx. unfold value_with.
  destruct (live_value x) eqn:Hv; [|done]. cbn. apply Z.eqb_neq. intros Hid.
  apply list_elem_of_split in Hx as (p & q & ->).
  assert (Hin := lo_after _ Hok p x (q ++ e :: post)).
  rewrite <- (assoc_L (++)) in Hin. specialize (Hin eq_refl Hv). rewrite Hid in Hin.
  apply log_ids_NoDup in Hok.
  rewrite log_keys_app, log_keys_cons, Hk, fmap_app in Hok.
  apply NoDup_app in Hok as (_ & Hd & _). apply (Hd (e_id e)); [|cbn; by left].
  rewrite log_keys_app, fmap_app. apply elem_of_app. by left.
Qed.

Lemma value_of_after pre e post :
  log_ok (pre ++ e :: post) → live_key e = true →
  value_of (log_values (pre ++ e :: post)) (e_id e) = value_of (log_values post) (e_id e).
Proof.
  intros Hok Hk. change (e :: post) with ([e] ++ post). rewrite (assoc_L (++)), log_values_app.
  rewrite value_of_app, value_of_none; [done|]. by eapply value_after.
Qed.

Lemma e_id_bounds e : entry_ok e → 0 ≤ e_id e < 4096.
Proof.
  intros [Hf _ _]. unfold e_id, f_id, ENTRY_MASK_ID. change 0xfff with (Z.ones 12).
  rewrite Z.land_ones by lia. zsolve.
Qed.

Lemma log_key_id pre e post :
  log_ok (pre ++ e :: post) → live_key e = true → 1 ≤ e_id e ≤ MAX_KEY_ID.
Proof.
  intros Hok Hk. assert (Hp := lo_pos _ Hok). rewrite Forall_forall in Hp. apply Hp.
  rewrite log_keys_app, log_keys_cons, Hk, fmap_app. apply elem_of_app. right. by left.
Qed.

(** The comparison of the binary flag in sysparam_set_data. *)
Lemma binary_flag_eqb (f : Z) (b : bool) :
  0 ≤ f < 0xffff →
  (Z.land f ENTRY_FLAG_BINARY =? (if b then ENTRY_FLAG_BINARY else 0)) = eqb (f_binary f) b.
Proof.
  intros Hf. apply eqb_prop.
  apply (check_from_spec (λ f : Z, eqb (Z.land f ENTRY_FLAG_BINARY =?
    (if b then ENTRY_FLAG_BINARY else 0)) (eqb (f_binary f) b)) (Z.to_nat 65535) 0); [|lia].
  destruct b; vm_compute; reflexivity.
Qed.

(** ** Setting and deleting a value *)

(** A value's entry: [value_entry id (v, b)]. *)
Definition value_entry (id : Z) (v : list Z * bool) : log_entry :=
  written (value_id id v.2) v.1.

Lemma key_entry_ok id key :
  1 ≤ id ≤ MAX_KEY_ID → Forall is_byte key → zlength key ≤ 0xffff →
  entry_ok (written id key) ∧ live_key (written id key) = true ∧ e_id (written id key) = id.
Proof.
  intros Hid Hb Hl. destruct (written_key_flags id Hid) as (F1 & F2 & F3 & F4 & F5).
  split; [by split|]. unfold live_key, e_live, e_is_value, e_id. cbn [e_flags written].
  by rewrite F2, F3, F4.
Qed.

Lemma value_entry_ok id v :
  1 ≤ id ≤ MAX_KEY_ID → Forall is_byte v.1 → zlength v.1 ≤ 0xffff →
  entry_ok (value_entry id v) ∧ live_value (value_entry id v) = true ∧
  e_id (value_entry id v) = id ∧ (e_data (value_entry id v), e_binary (value_entry id v)) = v.
Proof.
  intros Hid Hb Hl. destruct (written_value_flags id v.2 Hid) as (F1 & F2 & F3 & F4 & F5).
  split; [by split|]. unfold live_value, e_live, e_is_value, e_id, e_binary.
  cbn [e_flags written e_data value_entry]. rewrite F2, F3, F4, F5. by destruct v.
Qed.

Lemma value_id_bounds (id : Z) (b : bool) : 1 ≤ id ≤ MAX_KEY_ID → 0 ≤ value_id id b < 0x3fff.
Proof.
  unfold MAX_KEY_ID. intros Hid. cut ((0 <=? value_id id b) && (value_id id b <? 0x3fff) = true).
  { rewrite andb_true_iff, Z.leb_le, Z.ltb_lt. done. }
  apply (check_from_spec (λ id, (0 <=? value_id id b) && (value_id id b <? 0x3fff)) 4094%nat 1);
    [|lia]. destruct b; vm_compute; reflexivity.
Qed.

Lemma log_map_ext (es' : list log_entry) (m : gmap (list Z) (list Z * bool)) :
  log_ok es' → (∀ k, log_get es' k = m !! k) → log_map es' = m.
Proof. intros Hok H. apply map_eq. intros k. by rewrite log_map_lookup. Qed.

(** A live value appended for a key that has none. *)
Lemma log_set_value es id key v :
  log_ok es → key_id_of (log_keys es) key = Some id → value_of (log_values es) id = None →
  Forall is_byte v.1 → zlength v.1 ≤ 0xffff →
  log_ok (es ++ [value_entry id v]) ∧
  log_map (es ++ [value_entry id v]) = <[key := v]> (log_map es).
Proof.
  intros Hok Hid Hno Hb Hl.
  assert (Hin : id ∈ (log_keys es).*1).
  { apply key_id_of_elem in Hid. apply list_elem_of_fmap. by exists (id, key). }
  assert (Hr : 1 ≤ id ≤ MAX_KEY_ID).
  { assert (Hp := lo_pos _ Hok). rewrite Forall_forall in Hp. by apply Hp. }
  destruct (value_entry_ok id v Hr Hb Hl) as (_ & Hlv & Hi & Hd).
  assert (Hok' : log_ok (es ++ [value_entry id v])) by (apply log_ok_append_value; by rewrite ?Hi).
  split; [done|]. apply log_map_ext; [done|]. intros k.
  rewrite log_get_append_value by (by rewrite ?Hi). rewrite Hi, Hd. case_decide as Hk.
  - assert (k = key) as -> by (eapply (log_key_inj _ _ _ _ Hok); eassumption).
    by rewrite lookup_insert_eq.
  - rewrite lookup_insert_ne by congruence. by rewrite log_map_lookup.
Qed.

(** A key appended with the next id. *)
Lemma log_add_key es key :
  let id := last_key_id es + 1 in
  log_ok es → key_id_of (log_keys es) key = None → 1 ≤ id ≤ MAX_KEY_ID →
  Forall is_byte key → zlength key ≤ 0xffff →
  log_ok (es ++ [written id key]) ∧ log_map (es ++ [written id key]) = log_map es ∧
  key_id_of (log_keys (es ++ [written id key])) key = Some id ∧
  value_of (log_values (es ++ [written id key])) id = None.
Proof.
  intros id Hok Hno Hid Hb Hl. destruct (key_entry_ok id key Hid Hb Hl) as (_ & Hlk & Hi).
  assert (Hlt : last_key_id es < e_id (written id key) ≤ MAX_KEY_ID) by (rewrite Hi; lia).
  assert (Hok' : log_ok (es ++ [written id key])) by by apply log_ok_append_key.
  split; [done|]. split; [|split].
  - apply log_map_ext; [done|]. intros k. rewrite log_map_lookup by done.
    by apply log_get_append_key.
  - rewrite log_keys_app, key_id_of_app, Hno, log_keys_cons, Hlk, Hi. cbn. by rewrite decide_True.
  - pose proof (value_of_after es (written id key) []) as Hv. rewrite Hi in Hv. by apply Hv.
Qed.

Lemma last_key_id_ge es : log_ok es → 0 ≤ last_key_id es.
Proof.
  intros Hok. unfold last_key_id. assert (Hp := lo_pos _ Hok). revert Hp.
  destruct (log_keys es) as [|k ks _] using rev_ind; [done|].
  rewrite last_snoc, fmap_app, Forall_app. cbn. intros [_ [? _]%Forall_cons]. lia.
Qed.

(** The value of a key killed. *)
Lemma log_del_value pre e p v q key :
  let es := pre ++ e :: p ++ v :: q in
  let es' := pre ++ e :: p ++ killed v :: q in
  log_ok es → Forall entry_ok es →
  Forall (λ e, key_named key e = false) pre → key_named key e = true →
  value_with (e_id e) v = true →
  log_ok es' ∧ log_map es' = delete key (log_map es) ∧
  key_id_of (log_keys es') key = Some (e_id e) ∧ value_of (log_values es') (e_id e) = None.
Proof.
  intros es es' Hok Hen Hpre He Hv.
  assert (Eq : ∀ x : log_entry, pre ++ e :: p ++ x :: q = (pre ++ e :: p) ++ x :: q)
    by (intros; by rewrite <- (assoc_L (++))).
  unfold value_with in Hv. apply andb_true_iff in Hv as [Hlv Hid%Z.eqb_eq].
  assert (Hk := key_id_of_split key pre e (p ++ v :: q) Hpre He).
  subst es es'. rewrite !Eq in *. 
  assert (Hvok : entry_ok v) by by apply Forall_app in Hen as [_ [? _]%Forall_cons].
  assert (Hok' := log_ok_kill _ _ _ Hvok Hlv Hok).
  split; [done|]. split; [|split].
  - apply log_map_ext; [done|]. intros k. rewrite log_get_kill, Hid by done.
    case_decide as Hk'.
    + assert (k = key) as -> by (eapply (log_key_inj _ _ _ _ Hok); eassumption).
      by rewrite lookup_delete_eq.
    + rewrite lookup_delete_ne by congruence. by rewrite log_map_lookup.
  - rewrite log_keys_kill by done. done.
  - rewrite log_values_kill by done. apply value_of_None. rewrite fmap_app.
    assert (Hnd := lo_vals _ Hok). rewrite log_values_split, fmap_app, fmap_cons in Hnd by done.
    cbn in Hnd. rewrite Hid in Hnd. apply NoDup_app in Hnd as (_ & Hd & Hb).
    apply NoDup_cons in Hb as [Hn _]. intros [Hx|Hx]%elem_of_app; [|done].
    eapply Hd; [exact Hx|]. by left.
Qed.
