(* ===== verification/SysparamPairs.v ===== *)
(** SysparamPairs: the parameters of a log (its keys with a value), and the log
    that compaction makes of them.

    [compacted] is what _compact_params writes: the keys that have a value,
    numbered from 1, each followed by its value.  It satisfies the invariant
    and stands for the same map, less the key whose value is being replaced. *)

From stdpp Require Import sorting.
From S2P Require Import Prelude CString Flash Sysparam SysparamLog.

(** ** The parameters of a log *)

(** The keys of [rest] that have a value in the log [es]. *)
Definition pairs_in (es rest : list log_entry) : list (log_entry * (list Z * bool)) :=
  omap (λ e, if live_key e then (e,.) <$> value_of (log_values es) (e_id e) else None) rest.

Lemma pairs_in_app es r1 r2 : pairs_in es (r1 ++ r2) = pairs_in es r1 ++ pairs_in es r2.
Proof. apply omap_app. Qed.

Lemma pairs_in_cons es e r :
  pairs_in es (e :: r) =
    match (if live_key e then value_of (log_values es) (e_id e) else None) with
    | Some v => (e, v) :: pairs_in es r
    | None => pairs_in es r
    end.
Proof.
  unfold pairs_in. cbn. destruct (live_key e); [|done].
  by destruct (value_of (log_values es) (e_id e)).
Qed.

Lemma pairs_in_no_key es r : Forall (λ e, live_key e = false) r → pairs_in es r = [].
Proof. induction 1 as [|e r He _ IH]; [done|]. by rewrite pairs_in_cons, He, IH. Qed.

(** What compaction writes for one parameter, when [n] ids were given out so
    far.  The value of the key with id [key_id] is left out: it is about to be
    replaced. *)
Definition pair_entries (n key_id : Z) (p : log_entry * (list Z * bool)) : list log_entry :=
  written (n + 1) (e_data p.1) ::
  if e_id p.1 =? key_id then [] else [value_entry (n + 1) p.2].

(** What becomes of [key_id]. *)
Definition next_key_id (n key_id : Z) (p : log_entry * (list Z * bool)) : Z :=
  if e_id p.1 =? key_id then n + 1 else key_id.

Fixpoint compacted (n key_id : Z) (ps : list (log_entry * (list Z * bool))) : list log_entry :=
  match ps with
  | [] => []
  | p :: ps' => pair_entries n key_id p ++ compacted (n + 1) (next_key_id n key_id p) ps'
  end.

Fixpoint compacted_id (n key_id : Z) (ps : list (log_entry * (list Z * bool))) : Z :=
  match ps with
  | [] => key_id
  | p :: ps' => compacted_id (n + 1) (next_key_id n key_id p) ps'
  end.

(** Parameters that can be stored. *)
Definition pair_ok (p : log_entry * (list Z * bool)) : Prop :=
  entry_ok p.1 ∧ Forall is_byte p.2.1 ∧ zlength p.2.1 ≤ 0xffff.

Lemma value_of_ok es id v :
  Forall entry_ok es → value_of (log_values es) id = Some v →
  Forall is_byte v.1 ∧ zlength v.1 ≤ 0xffff.
Proof.
  induction 1 as [|e es [_ Hl Hb] _ IH]; [done|]. rewrite log_values_cons.
  destruct (live_value e); [|done]. cbn. case_decide; [|done]. by intros [= <-].
Qed.

Lemma pairs_in_ok es rest :
  Forall entry_ok es → Forall entry_ok rest → Forall pair_ok (pairs_in es rest).
Proof.
  intros Hes. induction 1 as [|e rest He _ IH]; [constructor|]. rewrite pairs_in_cons.
  case_match eqn:Hv; [|done]. constructor; [|done]. split; [done|].
  destruct (live_key e); [|done]. by eapply value_of_ok.
Qed.

Lemma pair_entries_ok n key_id p :
  0 ≤ n < MAX_KEY_ID → pair_ok p → Forall entry_ok (pair_entries n key_id p).
Proof.
  intros Hn [He [Hvb Hvl]]. constructor; [apply key_entry_ok; [lia | apply He | apply He]|].
  case_match; [constructor|]. constructor; [|constructor]. apply value_entry_ok; [lia|done|done].
Qed.

Lemma compacted_ok n key_id ps :
  0 ≤ n → n + zlength ps ≤ MAX_KEY_ID → Forall pair_ok ps → Forall entry_ok (compacted n key_id ps).
Proof.
  intros Hn Hlen Hps. revert n key_id Hn Hlen.
  induction Hps as [|p ps Hp Hps IH]; intros n key_id Hn Hlen; cbn [compacted length] in *;
    [constructor|].
  apply Forall_app. split; [apply pair_entries_ok; [lia|done]|]. apply IH; lia.
Qed.

(** ** What the compacted log means *)

Abbreviation pair := (log_entry * (list Z * bool))%type.

Definition pair_ids (ps : list pair) : list Z := (λ p, e_id p.1) <$> ps.
Definition pair_names (ps : list pair) : list (list Z) := (λ p, e_data p.1) <$> ps.

(** The map of the parameters, without the one with id [kid]. *)
Definition pairs_map (kid : Z) (ps : list pair) : gmap (list Z) (list Z * bool) :=
  list_to_map (omap (λ p, if e_id p.1 =? kid then None else Some (e_data p.1, p.2)) ps).

Lemma pairs_map_cons kid p ps :
  pairs_map kid (p :: ps) =
    if e_id p.1 =? kid then pairs_map kid ps else <[e_data p.1 := p.2]> (pairs_map kid ps).
Proof. unfold pairs_map. cbn. by destruct (e_id p.1 =? kid). Qed.

Lemma pairs_map_miss kid ps k : k ∉ pair_names ps → pairs_map kid ps !! k = None.
Proof.
  induction ps as [|p ps IH]; [done|].
  unfold pair_names. rewrite fmap_cons. intros [Hne Hni]%not_elem_of_cons.
  rewrite pairs_map_cons. case_match; [auto|]. rewrite lookup_insert_ne by done. auto.
Qed.

(** Only the ids that occur matter. *)
Lemma pairs_map_absent kid kid' ps :
  kid ∉ pair_ids ps → kid' ∉ pair_ids ps → pairs_map kid ps = pairs_map kid' ps.
Proof.
  induction ps as [|p ps IH]; [done|]. unfold pair_ids. rewrite fmap_cons.
  intros [H1 H2]%not_elem_of_cons [H3 H4]%not_elem_of_cons. rewrite !pairs_map_cons.
  rewrite !(proj2 (Z.eqb_neq _ _)) by done. by rewrite IH.
Qed.

Lemma last_key_id_key es e : live_key e = true → last_key_id (es ++ [e]) = e_id e.
Proof.
  intros Hk. unfold last_key_id. rewrite log_keys_app, log_keys_cons, Hk.
  change (log_keys []) with (@nil (Z * list Z)). by rewrite last_snoc.
Qed.

Lemma last_key_id_value es e : live_value e = true → last_key_id (es ++ [e]) = last_key_id es.
Proof.
  intros Hv. unfold last_key_id.
  by rewrite log_keys_app, log_keys_cons, (live_value_key _ Hv), app_nil_r.
Qed.

(** What is needed of parameters that are to be numbered from [n + 1] on. *)
Record pairs_ok (n : Z) (ps : list pair) : Prop := {
  po_pairs : Forall pair_ok ps;
  po_sorted : StronglySorted Z.lt (pair_ids ps);
  po_above : Forall (λ id, n < id) (pair_ids ps);
  po_names : NoDup (pair_names ps);
  po_room : 0 ≤ n ∧ n + zlength ps ≤ MAX_KEY_ID
}.

Lemma pairs_ok_cons n p ps :
  pairs_ok n (p :: ps) →
  pair_ok p ∧ pairs_ok (n + 1) ps ∧ n < e_id p.1 ∧ Forall (λ id, e_id p.1 < id) (pair_ids ps) ∧
  e_data p.1 ∉ pair_names ps.
Proof.
  intros [H1 H2 H3 H4 H5]. apply Forall_cons in H1 as [H1 H1'].
  apply Forall_cons in H3 as [H3 H3']. apply NoDup_cons in H4 as [H4 H4'].
  inversion H2 as [|? ? H2' H2'']; subst. cbn [length] in H5.
  split; [done|]. split; [|done]. split; try done; [|lia].
  eapply Forall_impl; [exact H2''|]. cbn. lia.
Qed.

Lemma not_in_above (l : list Z) x y : Forall (λ id, x < id) l → y ≤ x → y ∉ l.
Proof. rewrite Forall_forall. intros H Hy Hin. specialize (H _ Hin). lia. Qed.

(** Neither id of a parameter that was found occurs again. *)
Lemma pairs_map_next n kid p ps :
  pairs_ok n (p :: ps) → pairs_map (next_key_id n kid p) ps = pairs_map kid ps.
Proof.
  intros H. destruct (pairs_ok_cons _ _ _ H) as (_ & _ & Hlt & Hab & _).
  unfold next_key_id. destruct (Z.eqb_spec (e_id p.1) kid); [|done].
  apply pairs_map_absent; (eapply not_in_above; [exact Hab|lia]).
Qed.

Lemma compacted_spec ps base n kid :
  pairs_ok n ps → log_ok base → last_key_id base = n →
  (∀ k, k ∈ pair_names ps → key_id_of (log_keys base) k = None) →
  let new := base ++ compacted n kid ps in
  log_ok new ∧ last_key_id new = n + zlength ps ∧ log_map new = pairs_map kid ps ∪ log_map base.
Proof.
  revert base n kid. induction ps as [|p ps IH]; intros base n kid Hps Hok Hlast Hnew; cbn [compacted].
  { rewrite app_nil_r. split; [done|]. split; [cbn; lia|]. symmetry. apply (left_id_L ∅ (∪)). }
  destruct (pairs_ok_cons _ _ _ Hps) as ([He [Hvb Hvl]] & Hps' & _ & _ & Hnin).
  destruct (po_room _ _ Hps) as [Hn Hroom]. cbn [length] in Hroom.
  destruct (log_add_key base (e_data p.1) Hok) as (Hok1 & Hm1 & Hk1 & Hv1);
    [apply Hnew; by left | rewrite Hlast; lia | apply He | apply He |]. rewrite Hlast in *.
  destruct (key_entry_ok (n + 1) (e_data p.1)) as (_ & Hlk & Hid); [lia | apply He..|].
  assert (Hl1 := last_key_id_key base _ Hlk). rewrite Hid in Hl1.
  set (base1 := base ++ [written (n + 1) (e_data p.1)]) in *.
  assert (Hnew1 : ∀ k, k ∈ pair_names ps → key_id_of (log_keys base1) k = None).
  { intros k Hk. subst base1. rewrite log_keys_app, key_id_of_app, Hnew by (by right).
    rewrite log_keys_cons, Hlk. cbn. rewrite decide_False; [done|]. congruence. }
  assert (Hlen : n + zlength (p :: ps) = n + 1 + zlength ps) by (cbn [length]; lia).
  rewrite Hlen, pairs_map_cons. unfold pair_entries, next_key_id. destruct (e_id p.1 =? kid) eqn:Eid.
  - replace (base ++ [written (n + 1) (e_data p.1)] ++ compacted (n + 1) (n + 1) ps)
      with (base1 ++ compacted (n + 1) (n + 1) ps) by (subst base1; by rewrite <- (assoc_L (++))).
    assert (Hnx := pairs_map_next n kid p ps Hps). unfold next_key_id in Hnx. rewrite Eid in Hnx.
    rewrite <- Hnx, <- Hm1. by apply IH.
  - destruct (log_set_value base1 (n + 1) (e_data p.1) p.2 Hok1 Hk1 Hv1 Hvb Hvl) as [Hok2 Hm2].
    destruct (value_entry_ok (n + 1) p.2) as (_ & Hlv & _); [lia | done | done |].
    assert (Hl2 := last_key_id_value base1 _ Hlv).
    set (base2 := base1 ++ [value_entry (n + 1) p.2]) in *.
    replace (base ++ [written (n + 1) (e_data p.1); value_entry (n + 1) p.2] ++
             compacted (n + 1) kid ps) with (base2 ++ compacted (n + 1) kid ps)
      by (subst base2 base1; by rewrite <- !(assoc_L (++))).
    destruct (IH base2 (n + 1) kid Hps' Hok2) as (H1 & H2 & H3); [congruence| |].
    { intros k Hk. subst base2. rewrite log_keys_app, log_keys_cons, (live_value_key _ Hlv), app_nil_r.
      auto. }
    split; [done|]. split; [done|]. rewrite H3, Hm2, Hm1.
    rewrite <- insert_union_l, <- insert_union_r; [done|]. by apply pairs_map_miss.
Qed.

(** ** The parameters of a log are such parameters *)

Lemma pairs_in_sublist es rest :
  (λ p, (e_id p.1, e_data p.1)) <$> pairs_in es rest `sublist_of` log_keys rest.
Proof.
  induction rest as [|e rest IH]; [constructor|]. rewrite pairs_in_cons, log_keys_cons.
  destruct (live_key e); [|done]. destruct (value_of (log_values es) (e_id e)).
  - by constructor.
  - by constructor.
Qed.

Lemma sorted_sublist (l k : list Z) :
  l `sublist_of` k → StronglySorted Z.lt k → StronglySorted Z.lt l.
Proof.
  induction 1 as [|x l k Hlk IH|x l k Hlk IH]; intros Hs; [constructor| |];
    inversion Hs as [|? ? Hs' Hx]; subst; [|auto].
  constructor; [auto|]. eapply Forall_impl; [|done].
  rewrite Forall_forall in Hx |- *. intros y Hy. apply Hx. by eapply elem_of_sublist.
Qed.

Lemma sorted_length (l : list Z) n m :
  StronglySorted Z.lt l → Forall (λ x, n < x ≤ m) l → n ≤ m → n + zlength l ≤ m.
Proof.
  intros Hs. revert n. induction Hs as [|x l Hs IH Hx]; intros n Hf Hn; cbn [length]; [lia|].
  apply Forall_cons in Hf as [Hxn Hf]. specialize (IH x).
  assert (x + zlength l ≤ m); [|lia]. apply IH; [|lia].
  rewrite Forall_forall in Hx, Hf |- *. intros y Hy. specialize (Hx y Hy). specialize (Hf y Hy).
  lia.
Qed.

Lemma log_pairs_ok es : log_ok es → Forall entry_ok es → pairs_ok 0 (pairs_in es es).
Proof.
  intros Hok Hen. assert (Hsub := pairs_in_sublist es es).
  assert (H1 : pair_ids (pairs_in es es) `sublist_of` (log_keys es).*1).
  { apply (fmap_sublist fst) in Hsub. by rewrite <- list_fmap_compose in Hsub. }
  assert (H2 : pair_names (pairs_in es es) `sublist_of` (log_keys es).*2).
  { apply (fmap_sublist snd) in Hsub. by rewrite <- list_fmap_compose in Hsub. }
  assert (Hs := sorted_sublist _ _ H1 (lo_ids _ Hok)).
  assert (Hb : Forall (λ x, 0 < x ≤ MAX_KEY_ID) (pair_ids (pairs_in es es))).
  { assert (Hpos := lo_pos _ Hok). rewrite Forall_forall in Hpos |- *. intros x Hx.
    specialize (Hpos x). assert (x ∈ (log_keys es).*1) by (by eapply elem_of_sublist). 
    specialize (Hpos ltac:(done)). lia. }
  split; try done.
  - by apply pairs_in_ok.
  - eapply Forall_impl; [exact Hb|]. cbn. lia.
  - eapply sublist_NoDup; [apply Hok|done].
  - split; [lia|]. assert (Hl := sorted_length _ 0 MAX_KEY_ID Hs Hb). unfold pair_ids in Hl.
    rewrite length_fmap in Hl. unfold MAX_KEY_ID in *. lia.
Qed.

Lemma pairs_map_lookup kid es rest k :
  NoDup (log_keys rest).*2 →
  pairs_map kid (pairs_in es rest) !! k =
    id ← key_id_of (log_keys rest) k;
    if id =? kid then None else value_of (log_values es) id.
Proof.
  induction rest as [|e rest IH]; [done|]. rewrite pairs_in_cons, log_keys_cons.
  destruct (live_key e); [|done]. cbn [fmap list_fmap snd]. intros [Hn Hnd]%NoDup_cons.
  specialize (IH Hnd). cbn [key_id_of].
  assert (Hmiss : k = e_data e → pairs_map kid (pairs_in es rest) !! k = None).
  { intros ->. rewrite IH. by rewrite (proj2 (key_id_of_None (log_keys rest) (e_data e)) Hn). }
  destruct (value_of (log_values es) (e_id e)) as [v|] eqn:Ev.
  - rewrite pairs_map_cons. cbn [fst snd]. case_decide as Hk.
    + subst k. cbn. rewrite Ev. destruct (e_id e =? kid); [auto|]. by rewrite lookup_insert_eq.
    + destruct (e_id e =? kid); [done|]. by rewrite lookup_insert_ne.
  - case_decide as Hk; [|done]. cbn. rewrite Ev. rewrite Hmiss by done. by case_match.
Qed.

Lemma compacted_names n kid ps :
  pairs_ok n ps → (log_keys (compacted n kid ps)).*2 = pair_names ps.
Proof.
  revert n kid. induction ps as [|p ps IH]; intros n kid Hps; [done|].
  destruct (pairs_ok_cons _ _ _ Hps) as ([He [Hvb Hvl]] & Hps' & _).
  destruct (po_room _ _ Hps) as [Hn Hroom]. cbn [length] in Hroom.
  destruct (key_entry_ok (n + 1) (e_data p.1)) as (_ & Hlk & Hid); [lia | apply He..|].
  destruct (value_entry_ok (n + 1) p.2) as (_ & Hlv & _); [lia | done | done |].
  cbn [compacted]. rewrite log_keys_app, fmap_app, IH by done. unfold pair_entries.
  rewrite log_keys_cons, Hlk. case_match; [done|].
  by rewrite log_keys_cons, (live_value_key _ Hlv).
Qed.

Lemma compacted_id_miss n kid ps : kid ∉ pair_ids ps → compacted_id n kid ps = kid.
Proof.
  revert n. induction ps as [|p ps IH]; intros n; [done|].
  unfold pair_ids. rewrite fmap_cons. intros [Hne Hni]%not_elem_of_cons.
  cbn [compacted_id]. unfold next_key_id. rewrite (proj2 (Z.eqb_neq _ _)) by done. by apply IH.
Qed.

Lemma compacted_id_found n kid ps p :
  pairs_ok n ps → p ∈ ps → e_id p.1 = kid →
  key_id_of (log_keys (compacted n kid ps)) (e_data p.1) = Some (compacted_id n kid ps).
Proof.
  revert n. induction ps as [|p0 ps IH]; intros n Hps Hin Hid; [by apply elem_of_nil in Hin|].
  destruct (pairs_ok_cons _ _ _ Hps) as ([He [Hvb Hvl]] & Hps' & Hlt & Hab & Hnin).
  destruct (po_room _ _ Hps) as [Hn Hroom]. cbn [length] in Hroom.
  destruct (key_entry_ok (n + 1) (e_data p0.1)) as (_ & Hlk & Hid0); [lia | apply He..|].
  destruct (value_entry_ok (n + 1) p0.2) as (_ & Hlv & _); [lia | done | done |].
  cbn [compacted compacted_id]. unfold pair_entries, next_key_id. cbn [app].
  rewrite log_keys_cons, Hlk. cbn [key_id_of e_data written]. rewrite Hid0.
  apply elem_of_cons in Hin as [->|Hin].
  - rewrite Hid, Z.eqb_refl, decide_True by done. f_equal. symmetry. apply compacted_id_miss.
    eapply not_in_above; [exact Hab|lia].
  - rewrite decide_False.
    2: { intros Heq. apply Hnin. rewrite Heq. by apply (list_elem_of_fmap_2 (λ p, e_data p.1)). }
    assert (Hne : e_id p0.1 ≠ kid).
    { rewrite Forall_forall in Hab. specialize (Hab (e_id p.1)).
      assert (e_id p0.1 < e_id p.1); [|lia].
      apply Hab. by apply (list_elem_of_fmap_2 (λ p, e_id p.1)). }
    rewrite (proj2 (Z.eqb_neq _ _)) by done. cbn [app].
    rewrite log_keys_cons, (live_value_key _ Hlv). by apply IH.
Qed.

Lemma pairs_in_elem es rest e v :
  e ∈ rest → live_key e = true → value_of (log_values es) (e_id e) = Some v →
  (e, v) ∈ pairs_in es rest.
Proof.
  intros Hin Hk Hv. apply list_elem_of_omap. exists e. split; [done|]. by rewrite Hk, Hv.
Qed.

Lemma log_key_entry es key id :
  key_id_of (log_keys es) key = Some id →
  ∃ e, e ∈ es ∧ live_key e = true ∧ e_id e = id ∧ e_data e = key.
Proof.
  intros H%key_id_of_elem. unfold log_keys in H. apply list_elem_of_fmap in H as (e & [= -> ->] & He).
  apply list_elem_of_filter in He as [Hk%Is_true_true He]. by exists e.
Qed.

Lemma log_ok_nil : log_ok [].
Proof. split; try constructor. intros [|? ?] ? ? [=]. Qed.

(** Compaction in one statement. *)
Lemma compact_log es kid :
  log_ok es → Forall entry_ok es →
  let ps := pairs_in es es in let new := compacted 0 kid ps in
  log_ok new ∧ last_key_id new = zlength ps ∧
  ∀ k, log_map new !! k =
    if decide (key_id_of (log_keys es) k = Some kid) then None else log_map es !! k.
Proof.
  intros Hok Hen ps new. assert (Hps := log_pairs_ok _ Hok Hen).
  destruct (compacted_spec ps [] 0 kid Hps log_ok_nil eq_refl) as (H1 & H2 & H3); [done|].
  split; [exact H1|]. split; [exact H2|]. intros k. cbn [app] in H3. fold new in H3.
  rewrite H3. change (log_map []) with (∅ : gmap (list Z) (list Z * bool)).
  rewrite (right_id_L ∅ (∪)). rewrite log_map_lookup by done. unfold ps, log_get.
  rewrite pairs_map_lookup by apply Hok. destruct (key_id_of (log_keys es) k) as [id|]; cbn.
  - destruct (Z.eqb_spec id kid) as [->|Hne]; [by rewrite decide_True|].
    by rewrite decide_False by congruence.
  - by rewrite decide_False.
Qed.

(** Compaction while the value of [key] is replaced. *)
Lemma compact_log_value es key id v :
  log_ok es → Forall entry_ok es →
  key_id_of (log_keys es) key = Some id → value_of (log_values es) id = Some v →
  let ps := pairs_in es es in let new := compacted 0 id ps in
  log_map new = delete key (log_map es) ∧
  key_id_of (log_keys new) key = Some (compacted_id 0 id ps) ∧
  value_of (log_values new) (compacted_id 0 id ps) = None.
Proof.
  intros Hok Hen Hk Hv ps new. destruct (compact_log es id Hok Hen) as (Hok' & _ & Hm).
  fold ps new in Hok', Hm.
  destruct (log_key_entry _ _ _ Hk) as (e & Hin & Hlk & Hid & Hd).
  assert (Hk' : key_id_of (log_keys new) key = Some (compacted_id 0 id ps)).
  { rewrite <- Hd. apply (compacted_id_found 0 id ps (e, v)); [by apply log_pairs_ok| |done].
    apply pairs_in_elem; [done|done|]. by rewrite Hid. }
  split; [|split; [done|]].
  - apply map_eq. intros k. rewrite Hm. case_decide as Hkk.
    + assert (k = key) as -> by (eapply (log_key_inj _ _ _ _ Hok); eassumption).
      by rewrite lookup_delete_eq.
    + by rewrite lookup_delete_ne by congruence.
  - specialize (Hm key). rewrite decide_True, log_map_lookup in Hm by done.
    unfold log_get in Hm. by rewrite Hk' in Hm.
Qed.

(** Compaction while a new key is added. *)
Lemma compact_log_new es key :
  log_ok es → Forall entry_ok es → key_id_of (log_keys es) key = None →
  let ps := pairs_in es es in let new := compacted 0 (-1) ps in
  log_map new = log_map es ∧ key_id_of (log_keys new) key = None ∧ compacted_id 0 (-1) ps = -1.
Proof.
  intros Hok Hen Hk ps new. destruct (compact_log es (-1) Hok Hen) as (Hok' & _ & Hm).
  fold ps new in Hok', Hm. assert (Hps := log_pairs_ok _ Hok Hen). fold ps in Hps.
  assert (Hneg : ∀ k, key_id_of (log_keys es) k ≠ Some (-1)).
  { intros k H%key_id_of_elem. assert (Hpos := lo_pos _ Hok). rewrite Forall_forall in Hpos.
    specialize (Hpos (-1)). assert (-1 ∈ (log_keys es).*1).
    { apply list_elem_of_fmap. by exists (-1, k). }
    specialize (Hpos ltac:(done)). lia. }
  split; [|split].
  - apply map_eq. intros k. rewrite Hm. by rewrite decide_False.
  - apply key_id_of_None. subst new. rewrite compacted_names by done. intros Hin.
    apply key_id_of_None in Hk. apply Hk. eapply elem_of_sublist; [exact Hin|].
    assert (Hsub := pairs_in_sublist es es). apply (fmap_sublist snd) in Hsub.
    by rewrite <- list_fmap_compose in Hsub.
  - apply compacted_id_miss. intros Hin. assert (Hab := po_above _ _ Hps).
    rewrite Forall_forall in Hab. specialize (Hab _ Hin). lia.
Qed.

(** The ids given out after compaction are no larger than before. *)
Lemma ids_le_last es : log_ok es → Forall (λ id, id ≤ last_key_id es) (log_keys es).*1.
Proof.
  intros Hok. unfold last_key_id. assert (Hs := lo_ids _ Hok). revert Hs.
  destruct (log_keys es) as [|[j k] ks _] using rev_ind; [constructor|].
  rewrite last_snoc, fmap_app. cbn. intros Hs. apply Forall_app. split; [|by repeat constructor].
  revert Hs. induction ks.*1 as [|y l IH]; cbn; [constructor|].
  intros Hs. inversion Hs as [|? ? Hs' Hy]; subst. constructor; [|auto].
  rewrite Forall_forall in Hy. assert (y < j) by (apply Hy; set_solver). lia.
Qed.

Lemma pairs_count es :
  log_ok es → Forall entry_ok es → zlength (pairs_in es es) ≤ last_key_id es.
Proof.
  intros Hok Hen. assert (Hps := log_pairs_ok _ Hok Hen). assert (H0 := last_key_id_ge _ Hok).
  assert (Hl := sorted_length _ 0 (last_key_id es) (po_sorted _ _ Hps)).
  unfold pair_ids in Hl. rewrite length_fmap in Hl. apply Hl; [|done].
  assert (Hab := po_above _ _ Hps). assert (Hle := ids_le_last _ Hok).
  rewrite Forall_forall in Hab, Hle |- *. intros x Hx. split; [by apply Hab|]. apply Hle.
  assert (Hsub := pairs_in_sublist es es). apply (fmap_sublist fst) in Hsub.
  rewrite <- list_fmap_compose in Hsub. by eapply elem_of_sublist.
Qed.
