(* ===== verification/SysparamFlash.v ===== *)
(** SysparamFlash: how a log lies in flash, and what the internal routines of
    sysparam do to it.

    [region_at] says that a region of the device holds a log.  The routines
    that read (_find_entry, _find_key, _find_value, _read_payload) are shown
    to compute the list functions of SysparamLog on that log; the routines
    that write (_write_entry, _delete_entry) to append an entry or clear its
    "alive" flag, and to touch nothing else. *)

From stdpp Require Import sorting.
From S2P Require Import Prelude CString Flash Sysparam SysparamLog.

(** ** Layout *)

Definition entry_at (f : Z → Z) (a : Z) (e : log_entry) : Prop :=
  range f a ENTRY_HEADER_SIZE = entry_header_bytes (e_header e) ∧
  range f (a + ENTRY_HEADER_SIZE) (zlength (e_data e)) = e_data e.

Fixpoint log_at (f : Z → Z) (a : Z) (es : list log_entry) : Prop :=
  match es with
  | [] => True
  | e :: es' => entry_at f a e ∧ log_at f (a + e_size e) es'
  end.

Fixpoint log_end (a : Z) (es : list log_entry) : Z :=
  match es with
  | [] => a
  | e :: es' => log_end (a + e_size e) es'
  end.

Definition blank (f : Z → Z) (a b : Z) : Prop := ∀ x, a ≤ x < b → f x = 0xff.

(** A region of [size] bytes at [base] holds the log [es] and is unwritten
    from its end on. *)
Record region_at (f : Z → Z) (base size : Z) (es : list log_entry) : Prop := {
  rg_base : 0 < base;
  rg_base_al : base `mod` sector_size sdk_flashchip = 0;
  rg_size : 0 < size;
  rg_size_al : size `mod` sector_size sdk_flashchip = 0;
  rg_chip : base + size ≤ chip_size sdk_flashchip;
  rg_entries : Forall entry_ok es;
  rg_log : log_at f (base + REGION_HEADER_SIZE) es;
  rg_fit : log_end (base + REGION_HEADER_SIZE) es ≤ base + size;
  rg_blank : blank f (log_end (base + REGION_HEADER_SIZE) es) (base + size)
}.

(** The flags of the header of the region at [base] whose other half is at
    [other]. *)
Definition region_flags (base other : Z) (active : bool) : Z :=
  let flags :=
    if base <? other then
      Z.land (u16 ((other - base) / sector_size sdk_flashchip)) REGION_MASK_SIZE
    else
      Z.lor (Z.land (u16 ((base - other) / sector_size sdk_flashchip)) REGION_MASK_SIZE)
            REGION_FLAG_SECOND in
  if active then Z.lor flags REGION_FLAG_ACTIVE else flags.

Definition region_header_of (base other : Z) (active : bool) : region_header :=
  {| magic := SYSPARAM_MAGIC; flags_size := region_flags base other active; reserved := 0 |}.

Definition header_at (f : Z → Z) (base other : Z) (active : bool) : Prop :=
  range f base REGION_HEADER_SIZE = region_header_bytes (region_header_of base other active).

Lemma header_at_ext f g base other active :
  (∀ x, base ≤ x < base + REGION_HEADER_SIZE → g x = f x) →
  header_at f base other active → header_at g base other active.
Proof. unfold header_at. intros H <-. by apply range_ext. Qed.

(** ** Arithmetic of entries *)

Lemma e_size_bounds e :
  entry_ok e → zlength (e_data e) + 4 ≤ e_size e < zlength (e_data e) + 8 ∧ e_size e `mod` 4 = 0.
Proof.
  intros [_ Hl _]. unfold e_size, ENTRY_SIZE, ENTRY_HEADER_SIZE, ROUND_TO_WORD_BOUNDARY.
  destruct (round4_bounds (zlength (e_data e))); [lia|]. zsolve.
Qed.

Lemma log_end_app a es es' : log_end a (es ++ es') = log_end (log_end a es) es'.
Proof. revert a. induction es as [|e es IH]; intros a; [done|]. apply IH. Qed.

Lemma log_end_ge a es : Forall entry_ok es → a + 4 * zlength es ≤ log_end a es.
Proof.
  intros H. revert a. induction H as [|e es He Hes IH]; intros a; cbn [log_end length]; [lia|].
  specialize (IH (a + e_size e)). destruct (e_size_bounds e He). lia.
Qed.

Lemma log_end_al a es : Forall entry_ok es → a `mod` 4 = 0 → log_end a es `mod` 4 = 0.
Proof.
  intros H. revert a. induction H as [|e es He Hes IH]; intros a Ha; cbn [log_end]; [done|].
  apply IH. destruct (e_size_bounds e He). zsolve.
Qed.

Lemma log_at_app f a es es' :
  log_at f a (es ++ es') ↔ log_at f a es ∧ log_at f (log_end a es) es'.
Proof.
  revert a. induction es as [|e es IH]; intros a; cbn; [tauto|]. rewrite IH. tauto.
Qed.

Lemma entry_at_ext f g a e :
  (∀ x, a ≤ x < a + ENTRY_HEADER_SIZE + zlength (e_data e) → g x = f x) →
  entry_at f a e → entry_at g a e.
Proof.
  unfold ENTRY_HEADER_SIZE. intros H [H1 H2]. split.
  - etrans; [|exact H1]. apply range_ext. intros x Hx. apply H. unfold ENTRY_HEADER_SIZE in Hx. lia.
  - etrans; [|exact H2]. apply range_ext. intros x Hx. apply H. unfold ENTRY_HEADER_SIZE in Hx. lia.
Qed.

Lemma log_at_ext f g a es :
  Forall entry_ok es → (∀ x, a ≤ x < log_end a es → g x = f x) →
  log_at f a es → log_at g a es.
Proof.
  intros Hok. revert a. induction Hok as [|e es He Hes IH]; intros a H; cbn [log_at log_end] in *;
    [done|]. destruct (e_size_bounds e He) as [Hs _].
  assert (Hge := log_end_ge (a + e_size e) es Hes).
  intros [H1 H2]. split.
  - eapply entry_at_ext; [|done]. unfold ENTRY_HEADER_SIZE. intros x Hx. apply H. lia.
  - apply IH; [|done]. intros x Hx. apply H. lia.
Qed.

Lemma blank_ext f g a b : (∀ x, a ≤ x < b → g x = f x) → blank f a b → blank g a b.
Proof. intros H Hb x Hx. rewrite H by done. by apply Hb. Qed.

Lemma region_at_ext f g base size es :
  (∀ x, base + REGION_HEADER_SIZE ≤ x < base + size → g x = f x) →
  region_at f base size es → region_at g base size es.
Proof.
  intros H []. split; try done.
  - eapply log_at_ext; [done| |done]. intros x Hx. apply H. lia.
  - eapply blank_ext; [|done]. intros x Hx. apply H.
    assert (Hge := log_end_ge (base + REGION_HEADER_SIZE) es rg_entries0). lia.
Qed.

(** The header of an entry, as _find_entry reads it. *)
Lemma parse_entry_header_at f a e :
  entry_ok e → entry_at f a e → parse_entry_header (range f a ENTRY_HEADER_SIZE) = e_header e.
Proof.
  intros [Hf Hl _] [H _]. rewrite H. unfold parse_entry_header, entry_header_bytes, e_header.
  cbn [idflags len]. rewrite (get16_skip _ _ 2) by lia. change (2 - 2) with 0.
  rewrite <- (app_nil_r (le16 (zlength (e_data e)))), !get16_le16 by (unfold is_u16; lia).
  done.
Qed.

Lemma parse_blank_header f a :
  blank f a (a + 4) →
  parse_entry_header (range f a ENTRY_HEADER_SIZE) = {| idflags := 0xffff; len := 0xffff |}.
Proof.
  intros H. unfold parse_entry_header, get16, ENTRY_HEADER_SIZE.
  rewrite !at_range by lia. rewrite !H by lia. done.
Qed.

(** ** Scanning a log *)

(** What _find_entry does to its context when it passes an entry. *)
Definition note_entry (ctx : sysparam_context) (e : log_entry) : sysparam_context :=
  if e_live e then
    if e_is_value e then ctx_saw_value ctx else ctx_saw_key ctx (e_id e)
  else ctx_add_compactable ctx (e_size e).

Definition visit (ctx : sysparam_context) (a : Z) (e : log_entry) : sysparam_context :=
  note_entry (ctx_set_entry (ctx_set_addr ctx a) (e_header e)) e.

(** The context after all of [es], which starts at [a], was passed. *)
Fixpoint visit_all (ctx : sysparam_context) (a : Z) (es : list log_entry) : sysparam_context :=
  match es with
  | [] => ctx
  | e :: es' => visit_all (visit ctx a e) (a + e_size e) es'
  end.

Definition e_matches (m : Z) (fv : bool) (e : log_entry) : bool :=
  e_live e && eqb (e_is_value e) fv && ((e_id e =? m) || (m =? ENTRY_ID_ANY)).

(** The context at the end of a log that ends at [a] in a region that ends at
    [limit]: past the last entry, or on the unwritten header. *)
Definition end_ctx (limit : Z) (ctx : sysparam_context) (a : Z) : sysparam_context :=
  if a =? limit then ctx_set_addr ctx a
  else ctx_set_entry (ctx_set_addr ctx a) {| idflags := 0xffff; len := 0xffff |}.

(** _find_entry as a function on the log: the first entry that satisfies
    [p].  [m] only tells whether the end of the log is what was looked for. *)
Fixpoint scan (limit m : Z) (p : log_entry → bool) (ctx : sysparam_context) (a : Z)
    (es : list log_entry) : sysparam_status_t * sysparam_context :=
  match es with
  | [] => _find_entry_end (end_ctx limit ctx a) m
  | e :: es' =>
      if p e then (SYSPARAM_OK, visit ctx a e)
      else scan limit m p (visit ctx a e) (a + e_size e) es'
  end.

(** The next entry the context leads to starts at [a]. *)
Definition next_at (base : Z) (ctx : sysparam_context) (a : Z) : Prop :=
  (addr ctx = base ∧ a = base + REGION_HEADER_SIZE) ∨
  (base < addr ctx ∧ addr ctx + ENTRY_SIZE (len (entry ctx)) = a).

Lemma visit_addr ctx a e : addr (visit ctx a e) = a ∧ entry (visit ctx a e) = e_header e.
Proof. unfold visit, note_entry. by destruct (e_live e), (e_is_value e). Qed.

Lemma visit_next base ctx a e : base < a → next_at base (visit ctx a e) (a + e_size e).
Proof. intros. right. destruct (visit_addr ctx a e) as [-> ->]. done. Qed.

Lemma visit_all_app ctx a es es' :
  visit_all ctx a (es ++ es') = visit_all (visit_all ctx a es) (log_end a es) es'.
Proof. revert ctx a. induction es as [|e es IH]; intros; [done|]. apply IH. Qed.

Lemma visit_all_snoc ctx a es e :
  visit_all ctx a (es ++ [e]) = visit (visit_all ctx a es) (log_end a es) e.
Proof. by rewrite visit_all_app. Qed.

(** The scan stops at the first match, or at the end of the log. *)
Lemma scan_cases limit m p ctx a es :
  (∃ pre e post, es = pre ++ e :: post ∧ Forall (λ e, p e = false) pre ∧ p e = true ∧
     scan limit m p ctx a es = (SYSPARAM_OK, visit_all ctx a (pre ++ [e]))) ∨
  (Forall (λ e, p e = false) es ∧
     scan limit m p ctx a es =
       _find_entry_end (end_ctx limit (visit_all ctx a es) (log_end a es)) m).
Proof.
  revert ctx a. induction es as [|e es IH]; intros ctx a; [by right|].
  cbn [scan]. destruct (p e) eqn:Em.
  { left. exists [], e, es. repeat split; auto. }
  destruct (IH (visit ctx a e) (a + e_size e)) as
    [(pre & e' & post & -> & Hpre & He' & ->)|[Hes ->]].
  - left. exists (e :: pre), e', post. repeat split; auto.
  - right. split; auto.
Qed.

Lemma scan_ext limit m p q ctx a es :
  (∀ e, p e = q e) → scan limit m p ctx a es = scan limit m q ctx a es.
Proof.
  intros H. revert ctx a. induction es as [|e es IH]; intros; [done|].
  cbn [scan]. rewrite H. by rewrite IH.
Qed.

(** Scanning past a prefix without a match. *)
Lemma scan_skip limit m p ctx a pre es :
  Forall (λ e, p e = false) pre →
  scan limit m p ctx a (pre ++ es) = scan limit m p (visit_all ctx a pre) (log_end a pre) es.
Proof.
  intros H. revert ctx a. induction H as [|e pre He _ IH]; intros; [done|].
  cbn [app scan]. by rewrite He, IH.
Qed.

(** ** Running the routines on a working chip *)

(** Every allocation succeeds. *)
Class HeapOk `{Heap} := { heap_ok : ∀ k n, malloc_ok k n = true }.

(** The unwrapped step of the monad. *)
Lemma bind_run {D A B} (m : M D A) (k : A → M D B) w a w' :
  m w = Some (a, w') → (m ≫= k) w = k a w'.
Proof. intros E. unfold mbind, M_bind. by rewrite E. Qed.

Lemma bind_ret {D A B} (a : A) (k : A → M D B) w : (mret a ≫= k) w = k a w.
Proof. done. Qed.

Lemma bind_assoc_run {D A B C} (m : M D A) (k : A → M D B) (k' : B → M D C) w :
  ((m ≫= k) ≫= k') w = (m ≫= λ a, k a ≫= k') w.
Proof. unfold mbind, M_bind. by destruct (m w) as [[a w']|]. Qed.

Lemma bind_get_info {D B} (k : sysparam_info → M D B) w :
  (get_info ≫= k) w = k (w_info w) w.
Proof. done. Qed.

(** [run E]: replace the first call of the goal by its result [E]. *)
Ltac run E := rewrite (bind_run _ _ _ _ _ E); cbv beta iota.

(** Where the log of the current region starts, and where the region ends. *)
Abbreviation log_start w := (cur_base (w_info w) + REGION_HEADER_SIZE).
Abbreviation region_limit w := (cur_base (w_info w) + region_size (w_info w)).

Section run.
  Context {D : Type} {Dev : FlashDev D} {Fl : FlashSpec D} {Hp : Heap} {HpOk : HeapOk}.

  Implicit Types w : world D.

(** Reading leaves everything but the heap as it was. *)
Record keeps (w w' : world D) : Prop := {
  kp_cells : ∀ x, cell (w_dev w') x = cell (w_dev w) x;
  kp_info : w_info w' = w_info w;
  kp_sem : w_sem w' = w_sem w
}.

#[export] Instance keeps_refl : Reflexive keeps.
Proof. by split. Qed.

#[export] Instance keeps_trans : Transitive keeps.
Proof. intros w1 w2 w3 [] []. split; intros; congruence. Qed.

Lemma keeps_region w w' base size es :
  keeps w w' → region_at (cell (w_dev w)) base size es → region_at (cell (w_dev w')) base size es.
Proof. intros [Hc _ _]. apply region_at_ext. intros; apply Hc. Qed.

Lemma flash_read_run w a n :
  0 ≤ a → 0 ≤ n → a `mod` 4 = 0 → a + n ≤ chip_size sdk_flashchip →
  ∃ w', flash_read a n w = Some ((SPI_FLASH_RESULT_OK, range (cell (w_dev w)) a n), w') ∧
        keeps w w'.
Proof.
  intros Ha Hn Hal Hc. destruct (read_spec (w_dev w) a n Ha Hn Hal Hc) as (d' & E & Hd').
  exists (w_set_dev w d'). unfold flash_read. rewrite E. by repeat split.
Qed.

(** The part of a region from an entry boundary [a] on. *)
Record tail_at (f : Z → Z) (base size a : Z) (rest : list log_entry) : Prop := {
  tl_base : 0 < base ∧ base `mod` 4 = 0;
  tl_size : size `mod` 4 = 0 ∧ base + size ≤ chip_size sdk_flashchip;
  tl_addr : base + REGION_HEADER_SIZE ≤ a ∧ a `mod` 4 = 0;
  tl_entries : Forall entry_ok rest;
  tl_log : log_at f a rest;
  tl_fit : log_end a rest ≤ base + size;
  tl_blank : blank f (log_end a rest) (base + size)
}.

Lemma region_tail f base size es :
  region_at f base size es → tail_at f base size (base + REGION_HEADER_SIZE) es.
Proof.
  intros []. change (sector_size sdk_flashchip) with 4096 in *.
  split; unfold REGION_HEADER_SIZE in *; try done; zsolve.
Qed.

Lemma tail_cons f base size a e rest :
  tail_at f base size a (e :: rest) → tail_at f base size (a + e_size e) rest.
Proof.
  intros [H1 H2 H3 H4 H5 H6 H7]. apply Forall_cons in H4 as [He H4]. destruct H5 as [_ H5].
  destruct (e_size_bounds e He). split; try done. unfold REGION_HEADER_SIZE in *. zsolve.
Qed.

Lemma tail_app f base size a pre post :
  tail_at f base size a (pre ++ post) → tail_at f base size (log_end a pre) post.
Proof.
  revert a. induction pre as [|e pre IH]; intros a H; [done|]. apply IH. by apply tail_cons.
Qed.

Lemma tail_ext f g base size a rest :
  (∀ x, g x = f x) → tail_at f base size a rest → tail_at g base size a rest.
Proof.
  intros H [H1 H2 H3 H4 H5 H6 H7]. split; try done.
  - eapply log_at_ext; [done| |exact H5]. intros; apply H.
  - eapply blank_ext; [|exact H7]. intros; apply H.
Qed.

Lemma keeps_tail w w' base size a rest :
  keeps w w' → tail_at (cell (w_dev w)) base size a rest →
  tail_at (cell (w_dev w')) base size a rest.
Proof. intros [Hc _ _]. by apply tail_ext. Qed.

(** The entry header at [a] can be read unless the region ends there. *)
Lemma tail_header w base size a rest :
  tail_at (cell (w_dev w)) base size a rest → a ≠ base + size →
  ∃ w', flash_read a ENTRY_HEADER_SIZE w =
          Some ((SPI_FLASH_RESULT_OK, range (cell (w_dev w)) a ENTRY_HEADER_SIZE), w') ∧
        keeps w w' ∧
        parse_entry_header (range (cell (w_dev w)) a ENTRY_HEADER_SIZE) =
          match rest with [] => {| idflags := 0xffff; len := 0xffff |} | e :: _ => e_header e end.
Proof.
  intros [H1 H2 H3 H4 H5 H6 H7] Hne.
  assert (Hge := log_end_ge a rest H4). unfold REGION_HEADER_SIZE in *.
  destruct (flash_read_run w a ENTRY_HEADER_SIZE) as (w' & E & K);
    [lia | unfold ENTRY_HEADER_SIZE; lia | tauto | unfold ENTRY_HEADER_SIZE; zsolve |].
  exists w'. split; [done|]. split; [done|]. destruct rest as [|e rest].
  - apply parse_blank_header. intros x Hx. apply H7. cbn [log_end]. zsolve.
  - apply Forall_cons in H4 as [He _]. destruct H5 as [H5 _]. by apply parse_entry_header_at.
Qed.

(** _find_entry on a region is [scan] on its log. *)
Lemma find_entry_loop_run fuel w ctx m fv a rest base size :
  cur_base (w_info w) = base → region_size (w_info w) = size →
  tail_at (cell (w_dev w)) base size a rest →
  next_at base ctx a → (addr ctx = base → a < base + size) →
  (length rest < fuel)%nat →
  ∃ w', _find_entry_loop fuel ctx m fv w = Some (scan (base + size) m (e_matches m fv) ctx a rest, w') ∧
        keeps w w'.
Proof.
  revert w ctx a rest. induction fuel as [|fuel IH];
    intros w ctx a rest Hb Hs Htl Hnx Hst Hfuel; [lia|].
  cbn [_find_entry_loop]. rewrite bind_get_info, Hb, Hs.
  destruct Htl as [H1 H2 H3 H4 H5 H6 H7] eqn:Htl'. clear Htl'.
  change (chip_size sdk_flashchip) with 4194304 in *. unfold REGION_HEADER_SIZE in *.
  assert (Hae := log_end_ge a rest H4).
  rewrite (u32_small (base + size)) by lia.
  assert (Hcase :
    ((addr ctx =? base) = true ∧ u32 (addr ctx + 8) = a ∧ a ≠ base + size) ∨
    ((addr ctx =? base) = false ∧ u32 (addr ctx + ENTRY_SIZE (len (entry ctx))) = a)).
  { destruct Hnx as [[E1 E2]|[E1 E2]]; unfold REGION_HEADER_SIZE in *; [left|right].
    - rewrite E1, Z.eqb_refl, u32_small by (specialize (Hst E1); lia).
      specialize (Hst E1). auto with lia.
    - rewrite E2, u32_small by lia. split; [lia|done]. }
  (* the region ends right here *)
  destruct (decide ((addr ctx =? base) = false ∧ a = base + size)) as [[E0 Ea]|Hne].
  { destruct Hcase as [(Hc & _)|(_ & ->)]; [congruence|]. rewrite E0. cbn [negb andb].
    rewrite (proj2 (Z.ltb_ge _ _)), (proj2 (Z.eqb_eq _ _)) by lia.
    destruct rest as [|e rest].
    - exists w. split; [|done]. cbn [scan]. unfold end_ctx.
      by rewrite (proj2 (Z.eqb_eq a (base + size))) by lia.
    - exfalso. apply Forall_cons in H4 as [He H4]. cbn [log_end] in H6.
      assert (H := log_end_ge (a + e_size e) rest H4). destruct (e_size_bounds e He). lia. }
  assert (Hane : a ≠ base + size) by (destruct Hcase as [(? & ? & ?)|[? ?]]; [done|tauto]).
  destruct (tail_header w base size a rest Htl Hane) as (w1 & E1 & K1 & P1).
  replace (if addr ctx =? base then u32 (addr ctx + 8)
           else u32 (addr ctx + ENTRY_SIZE (len (entry ctx)))) with a
    by (destruct Hcase as [(-> & <- & _)|(-> & <-)]; done).
  replace (negb (addr ctx =? base) &&
           (base + size <? u32 (addr ctx + ENTRY_SIZE (len (entry ctx))))) with false
    by (destruct Hcase as [(-> & _)|(-> & ->)]; [done|];
        rewrite (proj2 (Z.ltb_ge _ _)) by lia; done).
  replace (negb (addr ctx =? base) &&
           (u32 (addr ctx + ENTRY_SIZE (len (entry ctx))) =? base + size)) with false
    by (destruct Hcase as [(-> & _)|(-> & ->)]; [done|];
        rewrite (proj2 (Z.eqb_neq _ _)) by lia; done).
  run E1. rewrite P1. rewrite decide_False by auto. cbn [entry ctx_set_entry ctx_set_addr].
  destruct rest as [|e rest].
  { cbn [idflags Z.eqb Pos.eqb]. exists w1. split; [|done]. cbn [scan]. unfold end_ctx.
    by rewrite (proj2 (Z.eqb_neq a (base + size))) by lia. }
  apply Forall_cons in H4 as [He H4]. cbn [e_header idflags len].
  rewrite (proj2 (Z.eqb_neq _ _)) by (destruct He; lia).
  assert (Htl1 := keeps_tail _ _ _ _ _ _ K1 Htl). apply tail_cons in Htl1.
  assert (Hnext : ∃ w', _find_entry_loop fuel (visit ctx a e) m fv w1 =
                    Some (scan (base + size) m (e_matches m fv) (visit ctx a e) (a + e_size e) rest, w')
                    ∧ keeps w w').
  { destruct (IH w1 (visit ctx a e) (a + e_size e) rest) as (w2 & E2 & K2).
    - by rewrite (kp_info _ _ K1).
    - by rewrite (kp_info _ _ K1).
    - done.
    - apply visit_next. lia.
    - destruct (visit_addr ctx a e) as [-> _]. lia.
    - cbn in Hfuel. lia.
    - exists w2. split; [done|]. by etrans. }
  change (Z.land (e_flags e) (Z.lor ENTRY_FLAG_ALIVE ENTRY_FLAG_INVALID) =? ENTRY_FLAG_ALIVE)
    with (e_live e).
  change (Z.land (e_flags e) ENTRY_MASK_ID) with (e_id e).
  assert ((Z.land (e_flags e) ENTRY_FLAG_VALUE =? 0) = negb (e_is_value e)) as ->
    by (unfold e_is_value, f_is_value; by rewrite negb_involutive).
  cbn [scan]. unfold e_matches at 1. unfold visit, note_entry, e_size in *.
  destruct (e_live e), (e_is_value e), fv, ((e_id e =? m) || (m =? ENTRY_ID_ANY));
    cbn [negb andb eqb]; try exact Hnext; by exists w1.
Qed.

Lemma find_entry_run w ctx m fv a rest :
  tail_at (cell (w_dev w)) (cur_base (w_info w)) (region_size (w_info w)) a rest →
  next_at (cur_base (w_info w)) ctx a →
  (addr ctx = cur_base (w_info w) → a < cur_base (w_info w) + region_size (w_info w)) →
  ∃ w', _find_entry ctx m fv w =
          Some (scan (cur_base (w_info w) + region_size (w_info w)) m (e_matches m fv) ctx a rest,
                w') ∧
        keeps w w'.
Proof.
  intros Htl Hnx Hst. unfold _find_entry. rewrite bind_get_info.
  eapply find_entry_loop_run; eauto.
  destruct Htl as [H1 H2 H3 H4 H5 H6 H7]. assert (Hge := log_end_ge a rest H4).
  unfold scan_fuel, REGION_HEADER_SIZE in *. zsolve.
Qed.

(** The payload of the entry a context points at. *)
Lemma read_payload_run w ctx base size a e post n :
  tail_at (cell (w_dev w)) base size a (e :: post) →
  addr ctx = a → entry ctx = e_header e → zlength (e_data e) ≤ n →
  ∃ w', _read_payload ctx n w = Some ((SYSPARAM_OK, e_data e), w') ∧ keeps w w'.
Proof.
  intros Htl Ha He Hn. destruct Htl as [H1 H2 H3 H4 H5 H6 H7].
  apply Forall_cons in H4 as [Hok H4]. destruct H5 as [[_ H5] _].
  destruct (e_size_bounds e Hok) as [Hsz _]. cbn [log_end] in H6.
  assert (Hge := log_end_ge (a + e_size e) post H4).
  unfold _read_payload. rewrite Ha, He. cbn [e_header len]. rewrite Z.min_r by lia.
  change (chip_size sdk_flashchip) with 4194304 in *.
  unfold REGION_HEADER_SIZE, ENTRY_HEADER_SIZE in *. rewrite u32_small by lia.
  destruct (flash_read_run w (a + 4) (zlength (e_data e))) as (w' & E & K);
    [lia | lia | zsolve | cbn; lia |].
  run E. exists w'. split; [|done]. rewrite H5. by rewrite decide_True.
Qed.

Lemma e_matches_any e : e_matches ENTRY_ID_ANY false e = live_key e.
Proof.
  unfold e_matches, live_key. rewrite Z.eqb_refl, orb_true_r, andb_true_r.
  by destruct (e_is_value e).
Qed.

Lemma e_matches_value id e :
  0 ≤ id < 4096 → e_matches id true e = value_with id e.
Proof.
  intros Hid. unfold e_matches, value_with, live_value, ENTRY_ID_ANY.
  rewrite (proj2 (Z.eqb_neq id 0x1000)), orb_false_r by lia. by destruct (e_is_value e).
Qed.

(** Where a context stands that has just passed [pre ++ [e]]. *)
Lemma visit_all_at ctx a pre e :
  addr (visit_all ctx a (pre ++ [e])) = log_end a pre ∧
  entry (visit_all ctx a (pre ++ [e])) = e_header e.
Proof. rewrite visit_all_snoc. apply visit_addr. Qed.

Lemma tail_app_snoc f base size a pre e post :
  tail_at f base size a (pre ++ e :: post) → tail_at f base size (log_end a (pre ++ [e])) post.
Proof. intros H. apply (tail_app _ _ _ _ (pre ++ [e])). by rewrite <- (assoc_L (++)). Qed.

Lemma next_after ctx base size f a pre e post :
  tail_at f base size a (pre ++ e :: post) →
  next_at base (visit_all ctx a (pre ++ [e])) (log_end a (pre ++ [e])) ∧
  addr (visit_all ctx a (pre ++ [e])) ≠ base.
Proof.
  intros Htl. destruct (visit_all_at ctx a pre e) as [Ha He].
  assert (Hge : base + 8 ≤ log_end a pre) by (apply tail_app, tl_addr in Htl as [? _]; done).
  split; [right|lia]. rewrite Ha, He, log_end_app. split; [lia|done].
Qed.

(** _find_key is the scan for a live key with that name. *)
Lemma find_key_loop_run fuel w ctx key a rest :
  let base := cur_base (w_info w) in let size := region_size (w_info w) in
  tail_at (cell (w_dev w)) base size a rest →
  next_at base ctx a → (addr ctx = base → a < base + size) →
  (length rest < fuel)%nat →
  ∃ w', _find_key_loop fuel ctx (Some key) (zlength key) w =
          Some (scan (base + size) ENTRY_ID_ANY (key_named key) ctx a rest, w') ∧
        keeps w w'.
Proof.
  revert w ctx a rest. induction fuel as [|fuel IH]; intros w ctx a rest base size Htl Hnx Hst Hf;
    [lia|]. cbn [_find_key_loop].
  destruct (find_entry_run w ctx ENTRY_ID_ANY false a rest Htl Hnx Hst) as (w1 & E1 & K1).
  rewrite (scan_ext _ _ _ live_key) in E1 by apply e_matches_any.
  fold base size in E1.
  destruct (scan_cases (base + size) ENTRY_ID_ANY live_key ctx a rest) as
    [(pre & e & post & -> & Hpre & He & Hr)|[Hno Hr]]; rewrite Hr in E1.
  2: { (* no live key is left *)
    run E1. cbn. exists w1. split; [|done]. do 2 f_equal.
    assert (Hsk : Forall (λ e, key_named key e = false) rest).
    { eapply Forall_impl; [exact Hno|]. intros e He. unfold key_named. by rewrite He. }
    apply (scan_skip (base + size) ENTRY_ID_ANY _ ctx a _ []) in Hsk.
    rewrite app_nil_r in Hsk. by rewrite Hsk. }
  run E1. rewrite decide_False by auto.
  assert (Hskip : Forall (λ e, key_named key e = false) pre).
  { eapply Forall_impl; [exact Hpre|]. intros x Hx. unfold key_named. by rewrite Hx. }
  rewrite scan_skip by done. cbn [scan]. unfold key_named at 1. rewrite He. cbn [andb].
  rewrite <- visit_all_snoc. destruct (visit_all_at ctx a pre e) as [Ha Hen].
  rewrite Hen. cbn [e_header len].
  (* when the entry is not the key: go on after it *)
  assert (Hnext : ∀ w1, keeps w w1 → ∃ w',
    _find_key_loop fuel (visit_all ctx a (pre ++ [e])) (Some key) (zlength key) w1
    = Some (scan (base + size) ENTRY_ID_ANY (key_named key) (visit_all ctx a (pre ++ [e]))
              (log_end a pre + e_size e) post, w') ∧ keeps w w').
  { clear K1 E1 w1. intros w1 K1. assert (Htl1 := keeps_tail _ _ _ _ _ _ K1 Htl).
    destruct (next_after ctx _ _ _ _ _ _ _ Htl1) as [Hn1 Hn2].
    apply tail_app_snoc in Htl1. rewrite log_end_app in Htl1, Hn1. cbn [log_end] in Htl1, Hn1.
    destruct (IH w1 (visit_all ctx a (pre ++ [e])) (log_end a pre + e_size e) post)
      as (w2 & E2 & K2); rewrite ?(kp_info _ _ K1); try done.
    - rewrite length_app in Hf. cbn in Hf. lia.
    - exists w2. rewrite (kp_info _ _ K1) in E2. split; [done|]. by etrans. }
  destruct (Z.eqb_spec (zlength (e_data e)) (zlength key)) as [Hlen|Hlen].
  2: { rewrite bool_decide_false by congruence. auto. }
  assert (Htl1 := keeps_tail _ _ _ _ _ _ K1 Htl).
  destruct (read_payload_run w1 (visit_all ctx a (pre ++ [e])) base size (log_end a pre) e post
              (zlength key)) as (w2 & E2 & K2); [by apply tail_app | done | done | lia |].
  run E2. cbn [is_err status_code Z.ltb Z.compare].
  rewrite !firstn_all2 by lia. case_bool_decide as Hkey.
  - rewrite decide_True by done. exists w2. split; [done|]. by etrans.
  - rewrite decide_False by done. apply Hnext. by etrans.
Qed.

Lemma malloc_run w n : ∃ w', malloc n w = Some (true, w') ∧ keeps w w'.
Proof. unfold malloc. rewrite heap_ok. eexists. split; [done|]. by split. Qed.

Lemma realloc_run w n : ∃ w', realloc n w = Some (true, w') ∧ keeps w w'.
Proof. unfold realloc. rewrite heap_ok. eexists. split; [done|]. by split. Qed.

Lemma free_run w : ∃ w', free w = Some (tt, w') ∧ keeps w w'.
Proof. eexists. split; [done|]. by split. Qed.

Lemma scan_fuel_ok w a rest :
  tail_at (cell (w_dev w)) (cur_base (w_info w)) (region_size (w_info w)) a rest →
  (length rest < scan_fuel (w_info w))%nat.
Proof.
  intros [H1 H2 H3 H4 H5 H6 H7]. assert (Hge := log_end_ge a rest H4).
  unfold scan_fuel, REGION_HEADER_SIZE in *. zsolve.
Qed.

Lemma find_key_run w ctx key a rest :
  let base := cur_base (w_info w) in let size := region_size (w_info w) in
  tail_at (cell (w_dev w)) base size a rest →
  next_at base ctx a → (addr ctx = base → a < base + size) → zlength key ≤ 0xffff →
  ∃ w', _find_key ctx (Some key) (zlength key) w =
          Some (scan (base + size) ENTRY_ID_ANY (key_named key) ctx a rest, w') ∧ keeps w w'.
Proof.
  intros base size Htl Hnx Hst Hk. unfold _find_key. rewrite bind_get_info, u16_small by zsolve.
  apply find_key_loop_run; try done. by eapply scan_fuel_ok.
Qed.

(** With a NULL key, the next live key. *)
Lemma find_any_key_run w ctx a rest :
  let base := cur_base (w_info w) in let size := region_size (w_info w) in
  tail_at (cell (w_dev w)) base size a rest →
  next_at base ctx a → (addr ctx = base → a < base + size) →
  ∃ w', _find_key ctx None 0 w =
          Some (scan (base + size) ENTRY_ID_ANY live_key ctx a rest, w') ∧ keeps w w'.
Proof.
  intros base size Htl Hnx Hst. unfold _find_key. rewrite bind_get_info.
  assert (Hf := scan_fuel_ok _ _ _ Htl).
  destruct (scan_fuel (w_info w)) as [|fuel]; [lia|]. cbn [_find_key_loop].
  destruct (find_entry_run w ctx ENTRY_ID_ANY false a rest Htl Hnx Hst) as (w1 & E1 & K1).
  rewrite (scan_ext _ _ _ live_key) in E1 by apply e_matches_any. run E1. exists w1.
  split; [|done]. fold base size.
  destruct (scan (base + size) ENTRY_ID_ANY live_key ctx a rest) as [st c]. by case_decide; subst.
Qed.

Lemma find_value_run w ctx f a rest :
  let base := cur_base (w_info w) in let size := region_size (w_info w) in
  tail_at (cell (w_dev w)) base size a rest →
  next_at base ctx a → (addr ctx = base → a < base + size) →
  ∃ w', _find_value ctx f w =
          Some (scan (base + size) (f_id f) (value_with (f_id f)) ctx a rest, w') ∧ keeps w w'.
Proof.
  intros base size Htl Hnx Hst. unfold _find_value.
  destruct (find_entry_run w ctx (f_id f) true a rest Htl Hnx Hst) as (w1 & E1 & K1).
  exists w1. split; [|done]. fold (f_id f). rewrite E1. do 2 f_equal. apply scan_ext.
  intros e. apply e_matches_value. unfold f_id, ENTRY_MASK_ID. change 0xfff with (Z.ones 12).
  rewrite Z.land_ones by lia. zsolve.
Qed.

(** ** The state of an initialised store *)

(** Where the two regions of the area lie. *)
Record area_ok (cur alt size : Z) : Prop := {
  ar_alt : 0 < alt;
  ar_chip : alt + size ≤ chip_size sdk_flashchip;
  ar_adj : alt = cur + size ∨ alt + size = cur
}.

(** The flash of an initialised store, and what [_sysparam_info] says of it. *)
Record laid_out (w : world D) (es : list log_entry) : Prop := {
  la_region : region_at (cell (w_dev w)) (cur_base (w_info w)) (region_size (w_info w)) es;
  la_end : end_addr (w_info w) = log_end (cur_base (w_info w) + REGION_HEADER_SIZE) es;
  la_area : area_ok (cur_base (w_info w)) (alt_base (w_info w)) (region_size (w_info w));
  la_cur : header_at (cell (w_dev w)) (cur_base (w_info w)) (alt_base (w_info w)) true;
  la_alt : header_at (cell (w_dev w)) (alt_base (w_info w)) (cur_base (w_info w)) false
}.

(** The representation invariant. *)
Record store (w : world D) (es : list log_entry) : Prop := {
  st_lay : laid_out w es;
  st_log : log_ok es
}.

Lemma st_region w es : store w es →
  region_at (cell (w_dev w)) (cur_base (w_info w)) (region_size (w_info w)) es.
Proof. intros H. apply H. Qed.

(** The same flash contents and the same [_sysparam_info]. *)
Record like (w w' : world D) : Prop := {
  lk_cells : ∀ x, cell (w_dev w') x = cell (w_dev w) x;
  lk_info : w_info w' = w_info w
}.

Lemma keeps_like w w' : keeps w w' → like w w'.
Proof. intros []. by split. Qed.

Lemma like_trans w1 w2 w3 : like w1 w2 → like w2 w3 → like w1 w3.
Proof. intros [H1 H2] [H3 H4]. split; [|congruence]. intros x. by rewrite H3, H1. Qed.

Lemma like_laid_out w w' es : like w w' → laid_out w es → laid_out w' es.
Proof.
  intros [Hc Hi] [H1 H2 H3 H4 H5]. split; rewrite ?Hi; try done.
  - eapply region_at_ext; [|done]. intros; apply Hc.
  - eapply header_at_ext; [|done]. intros; apply Hc.
  - eapply header_at_ext; [|done]. intros; apply Hc.
Qed.

Lemma like_store w w' es : like w w' → store w es → store w' es.
Proof. intros L [H1 H2]. split; [by eapply like_laid_out|done]. Qed.

Lemma keeps_store w w' es : keeps w w' → store w es → store w' es.
Proof. intros K. by apply like_store, keeps_like. Qed.

Lemma keeps_laid_out w w' es : keeps w w' → laid_out w es → laid_out w' es.
Proof. intros K. by apply like_laid_out, keeps_like. Qed.

(** The context sysparam starts a search with. *)
Definition start_ctx (w : world D) : sysparam_context :=
  ctx_set_addr zero_context (cur_base (w_info w)).

Lemma start_next w es :
  store w es →
  let base := cur_base (w_info w) in
  tail_at (cell (w_dev w)) base (region_size (w_info w)) (base + REGION_HEADER_SIZE) es ∧
  next_at base (start_ctx w) (base + REGION_HEADER_SIZE) ∧
  (addr (start_ctx w) = base → base + REGION_HEADER_SIZE < base + region_size (w_info w)).
Proof.
  intros [[H1 _ _ _ _] _] base. split; [by apply region_tail|]. split; [by left|].
  intros _. destruct H1. change (sector_size sdk_flashchip) with 4096 in *.
  unfold REGION_HEADER_SIZE. zsolve.
Qed.

(** The context after an unsuccessful search. *)
Definition lost_ctx (limit : Z) (ctx : sysparam_context) (a : Z) : sysparam_context :=
  ctx_set_entry (end_ctx limit ctx a) {| idflags := 0; len := 0 |}.

Lemma find_key_cases w es key :
  store w es → zlength key ≤ 0xffff →
  ∃ w', keeps w w' ∧
  ((∃ pre e post, es = pre ++ e :: post ∧ Forall (λ e, key_named key e = false) pre ∧
      key_named key e = true ∧
      _find_key (start_ctx w) (Some key) (zlength key) w =
        Some ((SYSPARAM_OK, visit_all (start_ctx w) (log_start w) (pre ++ [e])), w')) ∨
   (Forall (λ e, key_named key e = false) es ∧
      _find_key (start_ctx w) (Some key) (zlength key) w =
        Some ((SYSPARAM_NOTFOUND,
               lost_ctx (region_limit w) (visit_all (start_ctx w) (log_start w) es)
                 (log_end (log_start w) es)), w'))).
Proof.
  intros Hst Hk. destruct (start_next w es Hst) as (Htl & Hnx & Hlt).
  destruct (find_key_run w (start_ctx w) key _ es Htl Hnx Hlt Hk) as (w' & E & K).
  exists w'. split; [done|].
  destruct (scan_cases (region_limit w) ENTRY_ID_ANY (key_named key) (start_ctx w) (log_start w) es)
    as [(pre & e & post & -> & Hpre & He & Hr)|[Hno Hr]]; rewrite Hr in E.
  - left. by exists pre, e, post.
  - by right.
Qed.

(** The search for the value of a key that was found. *)
Lemma find_value_cases w es pre e post f :
  store w es → es = pre ++ e :: post → live_key e = true → f_id f = e_id e →
  let ctx := visit_all (start_ctx w) (log_start w) (pre ++ [e]) in
  let a := log_end (log_start w) (pre ++ [e]) in
  ∃ w', keeps w w' ∧
  ((∃ p v q, post = p ++ v :: q ∧ Forall (λ x, value_with (e_id e) x = false) p ∧
      value_with (e_id e) v = true ∧
      _find_value ctx f w = Some ((SYSPARAM_OK, visit_all ctx a (p ++ [v])), w')) ∨
   (Forall (λ x, value_with (e_id e) x = false) post ∧
      _find_value ctx f w =
        Some ((SYSPARAM_NOTFOUND,
               lost_ctx (region_limit w) (visit_all ctx a post) (log_end a post)), w'))).
Proof.
  intros Hst -> Hk Hf ctx a. subst a. destruct (start_next w _ Hst) as (Htl & _ & _).
  destruct (next_after (start_ctx w) _ _ _ _ _ _ _ Htl) as [Hnx Hne].
  apply tail_app_snoc in Htl.
  destruct (find_value_run w ctx f _ post Htl Hnx (λ H, False_ind _ (Hne H))) as (w' & E & K).
  exists w'. split; [done|]. rewrite Hf in E.
  destruct (scan_cases (region_limit w) (e_id e) (value_with (e_id e)) ctx
              (log_end (log_start w) (pre ++ [e])) post)
    as [(p & v & q & -> & Hpre & He & Hr)|[Hno Hr]]; rewrite Hr in E.
  - left. by exists p, v, q.
  - right. split; [done|]. rewrite E. unfold _find_entry_end, ENTRY_ID_END.
    (* an id of a live key is never ENTRY_ID_END *)
    destruct (Z.eqb_spec (e_id e) 0xfff) as [Hid|]; [|done].
    exfalso. assert (Hb := log_key_id _ _ _ (st_log _ _ Hst) Hk). unfold MAX_KEY_ID in Hb. lia.
Qed.

End run.
