(* ===== verification/SysparamWrite.v ===== *)
(** SysparamWrite: what the routines of sysparam that program the flash do.

    _write_and_verify stores data into cells whose bits allow it,
    _write_entry appends a live entry to blank flash, _delete_entry clears the
    "alive" flag of an entry; each leaves the rest of the chip alone. *)

From stdpp Require Import sorting.
From S2P Require Import Prelude CString Flash Sysparam SysparamLog SysparamPairs SysparamFlash.

(** ** Bits *)

Lemma land_ff b : is_byte b → Z.land 0xff b = b.
Proof.
  intros Hb. rewrite Z.land_comm. change 0xff with (Z.ones 8).
  rewrite Z.land_ones by lia. zsolve.
Qed.

(** Programming a word with some bits cleared over itself clears them. *)
Lemma land_bytes f m :
  0 ≤ f → Z.land (u8 f) (u8 (Z.land f m)) = u8 (Z.land f m) ∧
  Z.land (u8 (f / 256)) (u8 (Z.land f m / 256)) = u8 (Z.land f m / 256).
Proof.
  intros Hf. unfold u8. rewrite <- !Z.land_ones by lia.
  change 256 with (2 ^ 8). rewrite <- !Z.shiftr_div_pow2 by lia.
  split; apply Z.bits_inj'; intros n Hn;
    rewrite !Z.land_spec, ?Z.shiftr_spec, ?Z.land_spec by lia.
  - destruct (Z.testbit f n), (Z.testbit m n), (Z.testbit (Z.ones 8) n); done.
  - destruct (Z.testbit f (n + 8)), (Z.testbit m (n + 8)), (Z.testbit (Z.ones 8) n); done.
Qed.

(** [fits f a data]: programming [data] at [a] stores exactly [data]. *)
Definition fits (f : Z → Z) (a : Z) (data : list Z) : Prop :=
  ∀ i, 0 ≤ i < zlength data → Z.land (f (a + i)) (at_ data i) = at_ data i.

Lemma fits_blank f a data :
  Forall is_byte data → blank f a (a + zlength data) → fits f a data.
Proof. intros Hd Hb i Hi. rewrite Hb by lia. apply land_ff. by apply at_byte. Qed.

Lemma entry_header_bytes_ok h : Forall is_byte (entry_header_bytes h).
Proof. unfold entry_header_bytes. apply Forall_app; split; apply le16_bytes. Qed.

Lemma range_4 f a l :
  length l = 4%nat → range f a 4 = l → ∀ i, 0 ≤ i < 4 → f (a + i) = at_ l i.
Proof. intros Hl H i Hi. rewrite <- H. symmetry. apply at_range. lia. Qed.

(** A header may be overwritten by one with some flags cleared. *)
Lemma fits_flags f a h m :
  0 ≤ idflags h → range f a ENTRY_HEADER_SIZE = entry_header_bytes h →
  fits f a (entry_header_bytes {| idflags := Z.land (idflags h) m; len := len h |}).
Proof.
  intros Hf H i Hi. change (zlength (entry_header_bytes _)) with 4 in Hi.
  rewrite (range_4 f a (entry_header_bytes h)) by done.
  destruct (land_bytes (idflags h) m Hf) as [Hb1 Hb2].
  assert (i = 0 ∨ i = 1 ∨ i = 2 ∨ i = 3) as [->|[->|[->| ->]]] by lia.
  - exact Hb1.
  - exact Hb2.
  - apply Z.land_diag.
  - apply Z.land_diag.
Qed.

Section write.
  Context {D : Type} {Dev : FlashDev D} {Fl : FlashSpec D} {Hp : Heap} {HpOk : HeapOk}.

  Implicit Types w : world D.

(** [stores w w' a data n]: the cells from [a] on hold [data]; apart from
    them only the [n] bytes from [a] on may have changed. *)
Record stores (w w' : world D) (a : Z) (data : list Z) (n : Z) : Prop := {
  so_data : range (cell (w_dev w')) a (zlength data) = data;
  so_frame : ∀ x, ¬ (a ≤ x < a + n) → cell (w_dev w') x = cell (w_dev w) x;
  so_info : w_info w' = w_info w;
  so_sem : w_sem w' = w_sem w
}.

Lemma stores_keeps_l w w' w'' a data n :
  keeps w w' → stores w' w'' a data n → stores w w'' a data n.
Proof.
  intros [K1 K2 K3] [S1 S2 S3 S4]. split; try congruence.
  intros x Hx. by rewrite S2, K1.
Qed.

Lemma stores_keeps_r w w' w'' a data n :
  stores w w' a data n → keeps w' w'' → stores w w'' a data n.
Proof.
  intros [S1 S2 S3 S4] [K1 K2 K3]. split; try congruence.
  - etrans; [|exact S1]. apply range_ext. intros; apply K1.
  - intros x Hx. by rewrite K1, S2.
Qed.

Lemma do_write_run w a data :
  0 ≤ a → a `mod` 4 = 0 → a + zlength data ≤ chip_size sdk_flashchip →
  Forall is_byte data → fits (cell (w_dev w)) a data →
  ∃ w', _do_write a data (zlength data) w = Some (SYSPARAM_OK, w') ∧
        stores w w' a data (round4 (zlength data)).
Proof.
  intros Ha Hal Hc Hd Hf.
  destruct (write_spec (w_dev w) a data (zlength data)) as (d' & E & H1 & H2); try done; [lia|].
  exists (w_set_dev w d'). unfold _do_write, CHECK_FLASH_OP, flash_write.
  unfold mbind, M_bind. rewrite E, decide_True by done. split; [done|]. split; try done.
  apply range_eq. intros i Hi. cbn [w_dev w_set_dev]. rewrite H1 by lia.
  replace (a + i - a) with i by lia. by apply Hf.
Qed.

Lemma verify_loop_run fuel w a data i :
  0 ≤ a → a `mod` 4 = 0 → a + zlength data ≤ chip_size sdk_flashchip →
  0 ≤ i → i `mod` VERIFY_BUF_SIZE = 0 →
  range (cell (w_dev w)) a (zlength data) = data →
  (Z.to_nat ((zlength data - i) / VERIFY_BUF_SIZE + 1) ≤ fuel)%nat →
  ∃ w', _verify_loop fuel a data (zlength data) i w = Some (SYSPARAM_OK, w') ∧ keeps w w'.
Proof.
  intros Ha Hal Hc. revert w i. unfold VERIFY_BUF_SIZE.
  induction fuel as [|fuel IH]; intros w i Hi Him Hr Hf; cbn [_verify_loop];
    destruct (Z.ltb_spec i (zlength data)) as [Hlt|Hge];
    try (exists w; split; [done|reflexivity]).
  { exfalso. zsolve. }
  change (chip_size sdk_flashchip) with 4194304 in *. unfold VERIFY_BUF_SIZE.
  rewrite u32_small by lia. set (n := Z.min (zlength data - i) 64).
  destruct (flash_read_run w (a + i) n) as (w1 & E1 & K1);
    [lia | lia | zsolve | cbn; lia |].
  assert (Hv : _do_verify (a + i) (drop (Z.to_nat i) data) n w = Some (SYSPARAM_OK, w1)).
  { unfold _do_verify. run E1. rewrite decide_True by done. rewrite decide_True; [done|].
    apply at_ext.
    - rewrite !length_take, length_drop, length_range. lia.
    - intros j Hj. rewrite length_take, length_drop in Hj.
      rewrite (firstn_all2 (range _ _ _)) by (rewrite length_range; lia).
      rewrite at_range by lia. unfold at_ at 1. rewrite lookup_take_lt by lia.
      fold (at_ (drop (Z.to_nat i) data) j). rewrite at_drop by lia.
      rewrite <- Hr at 1. rewrite at_range by lia. f_equal. lia. }
  run Hv. rewrite decide_True by done.
  destruct (IH w1 (i + 64)) as (w2 & E2 & K2); [lia | zsolve | | zsolve |].
  { etrans; [|exact Hr]. apply range_ext. intros; apply K1. }
  exists w2. split; [done|]. by etrans.
Qed.

Lemma write_and_verify_run w a data :
  0 ≤ a → a `mod` 4 = 0 → a + zlength data ≤ chip_size sdk_flashchip →
  Forall is_byte data → fits (cell (w_dev w)) a data →
  ∃ w', _write_and_verify a data (zlength data) w = Some (SYSPARAM_OK, w') ∧
        stores w w' a data (round4 (zlength data)).
Proof.
  intros Ha Hal Hc Hd Hf. unfold _write_and_verify.
  destruct (malloc_run w VERIFY_BUF_SIZE) as (w1 & E1 & K1). run E1. cbn [negb].
  destruct (do_write_run w1 a data) as (w2 & E2 & S2); try done.
  { intros i Hi. rewrite (kp_cells _ _ K1). by apply Hf. }
  run E2. rewrite decide_True by done.
  destruct (verify_loop_run (Z.to_nat (zlength data / VERIFY_BUF_SIZE + 1)) w2 a data 0)
    as (w3 & E3 & K3); try done; [by apply S2 | unfold VERIFY_BUF_SIZE; zsolve |].
  run E3. destruct (free_run w3) as (w4 & E4 & K4). run E4.
  exists w4. split; [done|].
  eapply stores_keeps_l; [exact K1|]. eapply stores_keeps_r; [exact S2|]. by etrans.
Qed.

(** What the store's bookkeeping does when an entry of [n] bytes is written. *)
Definition bumped (i : sysparam_info) (a n : Z) : sysparam_info :=
  if end_addr i =? a then info_set_end i (u32 (end_addr i + n)) else i.

Lemma bump_end_addr_run w a n :
  bump_end_addr a n w = Some (tt, w_set_info w (bumped (w_info w) a n)).
Proof.
  unfold bump_end_addr, bumped. rewrite bind_get_info. case_match; [done|].
  unfold mret, M_ret. by destruct w.
Qed.

(** [appends w w' a e n i]: entry [e] was written at [a], in [n] bytes. *)
Record writes_entry (w w' : world D) (a : Z) (e : log_entry) : Prop := {
  we_entry : entry_at (cell (w_dev w')) a e;
  we_frame : ∀ x, ¬ (a ≤ x < a + e_size e) → cell (w_dev w') x = cell (w_dev w) x;
  we_info : w_info w' = bumped (w_info w) a (e_size e);
  we_sem : w_sem w' = w_sem w
}.

Lemma header_run w a h :
  0 ≤ a → a `mod` 4 = 0 → a + 4 ≤ chip_size sdk_flashchip →
  fits (cell (w_dev w)) a (entry_header_bytes h) →
  ∃ w', _write_and_verify a (entry_header_bytes h) ENTRY_HEADER_SIZE w = Some (SYSPARAM_OK, w') ∧
        stores w w' a (entry_header_bytes h) 4.
Proof.
  intros Ha Hal Hc Hf. apply (write_and_verify_run w a (entry_header_bytes h)); try done.
  apply entry_header_bytes_ok.
Qed.

Lemma write_entry_run w a id data :
  0 ≤ a → a `mod` 4 = 0 → a + ENTRY_SIZE (zlength data) ≤ chip_size sdk_flashchip →
  zlength data ≤ 0xffff → Forall is_byte data → 0 ≤ id < 0x3fff →
  blank (cell (w_dev w)) a (a + ENTRY_SIZE (zlength data)) →
  ∃ w', _write_entry a id data (zlength data) w = Some (SYSPARAM_OK, w') ∧
        writes_entry w w' a (written id data).
Proof.
  intros Ha Hal Hc Hn Hd Hid Hbl.
  assert (Hr := round4_bounds (zlength data)).
  unfold ENTRY_SIZE, ENTRY_HEADER_SIZE, ROUND_TO_WORD_BOUNDARY in *.
  change (chip_size sdk_flashchip) with 4194304 in *.
  destruct Hr as [Hr1 Hr2]; [lia|].
  destruct (invalid_flags id Hid) as [Hfl _].
  set (h1 := {| idflags := Z.lor (Z.lor (u16 id) ENTRY_FLAG_ALIVE) ENTRY_FLAG_INVALID;
                len := u16 (zlength data) |}) in *.
  unfold _write_entry. fold h1. cbv zeta.
  (* the invalid header *)
  destruct (header_run w a h1) as (w1 & E1 & S1); [done|done|cbn; lia| |].
  { apply fits_blank; [apply entry_header_bytes_ok|]. intros x Hx. apply Hbl.
    change (zlength (entry_header_bytes h1)) with 4 in Hx. lia. }
  run E1. rewrite decide_False, decide_False by (intros ?; done).
  rewrite (bind_run _ _ _ _ _ (bump_end_addr_run w1 a _)).
  rewrite (u16_small (zlength data)) by zsolve.
  set (w1' := w_set_info w1 _).
  (* the payload *)
  rewrite (u32_small (a + ENTRY_HEADER_SIZE)) by (unfold ENTRY_HEADER_SIZE; lia).
  unfold ENTRY_HEADER_SIZE.
  destruct (write_and_verify_run w1' (a + 4) data) as (w2 & E2 & S2);
    [lia | zsolve | cbn; lia | done | |].
  { apply fits_blank; [done|]. intros x Hx. subst w1'. cbn [w_dev w_set_info].
    rewrite (so_frame _ _ _ _ _ S1) by lia. apply Hbl. lia. }
  run E2. rewrite decide_False by (intros ?; done).
  (* the valid header *)
  destruct (header_run w2 a {| idflags := Z.land (idflags h1) (Z.lnot ENTRY_FLAG_INVALID);
                               len := len h1 |}) as (w3 & E3 & S3);
    [done | done | cbn; lia | |].
  { apply fits_flags; [cbn; lia|]. etrans; [|exact (so_data _ _ _ _ _ S1)].
    apply range_ext. intros x Hx. unfold ENTRY_HEADER_SIZE in Hx.
    change (zlength (entry_header_bytes h1)) with 4 in Hx.
    by rewrite (so_frame _ _ _ _ _ S2) by lia. }
  exists w3. split.
  { etrans; [|exact E3]. cbn [len h1]. by rewrite (u16_small (zlength data)) by zsolve. }
  destruct S1 as [D1 F1 I1 M1], S2 as [D2 F2 I2 M2], S3 as [D3 F3 I3 M3].
  assert (Hsz : e_size (written id data) = 4 + round4 (zlength data)) by done.
  split; rewrite ?Hsz.
  - split.
    + etrans; [exact D3|]. unfold e_header, written, h1. cbn [idflags len e_flags e_data].
      by rewrite (u16_small (zlength data)) by zsolve.
    + cbn [e_data written]. etrans; [|exact D2]. apply range_ext. intros x Hx.
      unfold ENTRY_HEADER_SIZE in Hx. by rewrite F3 by lia.
  - intros x Hx. rewrite F3, F2 by lia. subst w1'. cbn [w_dev w_set_info]. apply F1. lia.
  - rewrite I3, I2. subst w1'. cbn [w_info w_set_info]. rewrite I1.
    unfold ENTRY_SIZE, ENTRY_HEADER_SIZE, ROUND_TO_WORD_BOUNDARY. done.
  - rewrite M3, M2. subst w1'. done.
Qed.

Lemma delete_entry_run w a e :
  0 ≤ a → a `mod` 4 = 0 → a + 4 ≤ chip_size sdk_flashchip → entry_ok e →
  entry_at (cell (w_dev w)) a e →
  ∃ w', _delete_entry a w = Some (SYSPARAM_OK, w') ∧
        range (cell (w_dev w')) a ENTRY_HEADER_SIZE = entry_header_bytes (e_header (killed e)) ∧
        (∀ x, ¬ (a ≤ x < a + 4) → cell (w_dev w') x = cell (w_dev w) x) ∧
        w_info w' = w_info w ∧ w_sem w' = w_sem w.
Proof.
  intros Ha Hal Hc He Hat. unfold _delete_entry.
  destruct (flash_read_run w a ENTRY_HEADER_SIZE) as (w1 & E1 & K1);
    [done | done | done | unfold ENTRY_HEADER_SIZE; lia |].
  run E1. rewrite decide_False by auto. rewrite (parse_entry_header_at _ _ e) by done.
  set (h := {| idflags := Z.land (idflags (e_header e)) (Z.lnot ENTRY_FLAG_ALIVE);
               len := len (e_header e) |}).
  destruct (do_write_run w1 a (entry_header_bytes h)) as (w2 & E2 & S2); [done|done|done| | |].
  { apply entry_header_bytes_ok. }
  { apply (fits_flags _ _ (e_header e)).
    - cbn. destruct He. lia.
    - etrans; [|exact (proj1 Hat)]. apply range_ext. intros; apply K1. }
  exists w2. split; [exact E2|]. destruct S2 as [D2 F2 I2 M2], K1 as [C1 I1 M1].
  change (round4 (zlength (entry_header_bytes h))) with 4 in F2.
  split; [exact D2|]. split; [|split; congruence]. intros x Hx. by rewrite F2, C1.
Qed.

(** *** Regions *)

(** [erased w w' a b]: the sectors from [a] to [b] are blank, nothing else
    changed. *)
Record erased (w w' : world D) (a b : Z) : Prop := {
  er_cells : ∀ x, cell (w_dev w') x = if (a <=? x) && (x <? b) then 0xff else cell (w_dev w) x;
  er_info : w_info w' = w_info w;
  er_sem : w_sem w' = w_sem w
}.

Lemma format_loop_run w sector n i :
  0 ≤ sector + i → sector + i + Z.of_nat n ≤ 1024 →
  ∃ w', _format_loop sector n i w = Some (SYSPARAM_OK, w') ∧
        erased w w' (4096 * (sector + i)) (4096 * (sector + i + Z.of_nat n)).
Proof.
  revert w i. induction n as [|n IH]; intros w i H0 H1; cbn [_format_loop].
  { exists w. split; [done|]. split; try done. intros x. zbool; cbn [andb]; try done; lia. }
  unfold CHECK_FLASH_OP.
  destruct (erase_spec (w_dev w) (sector + i)) as (d' & E & Hd'); [change (chip_size sdk_flashchip / sector_size sdk_flashchip) with 1024; lia|].
  assert (E1 : flash_erase (sector + i) w = Some (SPI_FLASH_RESULT_OK, w_set_dev w d'))
    by (unfold flash_erase; by rewrite E).
  run E1. rewrite decide_True by done.
  destruct (IH (w_set_dev w d') (i + 1)) as (w' & E' & [C I S]); [lia | lia |].
  exists w'. split; [done|]. split; [|done|done]. intros x. rewrite C. cbn [w_dev w_set_dev].
  rewrite Hd'. change (sector_size sdk_flashchip) with 4096. zbool; cbn [andb]; try done; lia.
Qed.

Lemma format_region_run w base num_sectors :
  0 ≤ base → base `mod` 4096 = 0 → 0 ≤ num_sectors → base + 4096 * num_sectors ≤ 4194304 →
  ∃ w', _format_region base num_sectors w = Some (SYSPARAM_OK, w') ∧
        erased w w' base (base + 4096 * num_sectors).
Proof.
  intros H0 Hal Hn Hc. unfold _format_region. change (sector_size sdk_flashchip) with 4096.
  rewrite u16_small by zsolve.
  destruct (format_loop_run w (base / 4096) (Z.to_nat num_sectors) 0) as (w' & E & Er);
    [zsolve | zsolve |].
  exists w'. split; [done|]. rewrite Z2Nat.id in Er by done.
  by replace (4096 * (base / 4096 + 0)) with base in Er by zsolve;
     replace (4096 * (base / 4096 + 0 + num_sectors)) with (base + 4096 * num_sectors) in Er
       by zsolve.
Qed.

Lemma region_header_bytes_ok h : Forall is_byte (region_header_bytes h).
Proof.
  unfold region_header_bytes, le32. repeat (apply Forall_app; split); apply le16_bytes.
Qed.

Lemma write_region_header_run w base other (active : bool) :
  0 ≤ base → base `mod` 4 = 0 → base + 8 ≤ chip_size sdk_flashchip →
  fits (cell (w_dev w)) base (region_header_bytes (region_header_of base other active)) →
  ∃ w', _write_region_header base other active w = Some (SYSPARAM_OK, w') ∧
        stores w w' base (region_header_bytes (region_header_of base other active)) 8.
Proof.
  intros H0 Hal Hc Hf. unfold _write_region_header.
  destruct (write_and_verify_run w base (region_header_bytes (region_header_of base other active)))
    as (w' & E & S); [done | done | done | apply region_header_bytes_ok | done |].
  exists w'. split; [|exact S].
  change (zlength (region_header_bytes _)) with REGION_HEADER_SIZE in E. run E.
  by rewrite decide_True.
Qed.

End write.

(** A header may be overwritten by the one of the inactive region. *)
Lemma region_flags_deactivate base other :
  0 ≤ region_flags base other true ∧
  region_flags base other false = Z.land (region_flags base other true) (Z.lnot REGION_FLAG_ACTIVE).
Proof.
  assert (Hg : ∀ n second, 0 ≤ n < 4096 →
    let f := if second : bool then Z.lor n REGION_FLAG_SECOND else n in
    0 ≤ Z.lor f REGION_FLAG_ACTIVE ∧
    f = Z.land (Z.lor f REGION_FLAG_ACTIVE) (Z.lnot REGION_FLAG_ACTIVE)).
  { intros n second Hn.
    pose (P := λ n, let f := if second : bool then Z.lor n REGION_FLAG_SECOND else n in
      (0 <=? Z.lor f REGION_FLAG_ACTIVE) &&
      (f =? Z.land (Z.lor f REGION_FLAG_ACTIVE) (Z.lnot REGION_FLAG_ACTIVE))).
    assert (HP : P n = true).
    { apply (check_from_spec P 4096%nat 0); [|lia]. subst P. destruct second; by vm_compute. }
    subst P. cbv zeta beta in HP. by rewrite andb_true_iff, Z.leb_le, Z.eqb_eq in HP. }
  assert (Hm : ∀ x, 0 ≤ Z.land (u16 x) REGION_MASK_SIZE < 4096).
  { intros x. unfold REGION_MASK_SIZE. change 0x0fff with (Z.ones 12).
    rewrite Z.land_ones by lia. zsolve. }
  unfold region_flags. case_match.
  - by apply (Hg _ false).
  - by apply (Hg _ true).
Qed.

Lemma fits_deactivate f base other :
  header_at f base other true →
  fits f base (region_header_bytes (region_header_of base other false)).
Proof.
  intros H i Hi. change (zlength (region_header_bytes _)) with 8 in Hi.
  assert (Hf : f (base + i) = at_ (region_header_bytes (region_header_of base other true)) i).
  { rewrite <- H. symmetry. apply at_range. done. }
  destruct (region_flags_deactivate base other) as [H0 Hd].
  destruct (land_bytes _ (Z.lnot REGION_FLAG_ACTIVE) H0) as [Hb1 Hb2]. rewrite <- Hd in Hb1, Hb2.
  rewrite Hf.
  assert (i = 0 ∨ i = 1 ∨ i = 2 ∨ i = 3 ∨ i = 4 ∨ i = 5 ∨ i = 6 ∨ i = 7)
    as [->|[->|[->|[->|[->|[->|[->| ->]]]]]]] by lia; try exact Hb1; try exact Hb2;
    apply Z.land_diag.
Qed.

(** ** Logs *)

Lemma region_append f g base size es e :
  let a := log_end (base + REGION_HEADER_SIZE) es in
  region_at f base size es → entry_ok e → a + e_size e ≤ base + size →
  entry_at g a e → (∀ x, ¬ (a ≤ x < a + e_size e) → g x = f x) →
  region_at g base size (es ++ [e]).
Proof.
  intros a [] He Hfit Hat Hfr. destruct (e_size_bounds e He) as [Hsz _].
  assert (Hend : log_end (base + REGION_HEADER_SIZE) (es ++ [e]) = a + e_size e)
    by (rewrite log_end_app; done).
  split; rewrite ?Hend; try done.
  - apply Forall_app; split; [done|]. by constructor.
  - apply log_at_app; split; [|done]. eapply log_at_ext; [done| |exact rg_log].
    intros x Hx. apply Hfr. fold a in Hx. lia.
  - intros x Hx. rewrite Hfr by lia. apply rg_blank. fold a. lia.
Qed.

Lemma e_size_killed e : e_size (killed e) = e_size e.
Proof. done. Qed.

Lemma killed_ok e : entry_ok e → entry_ok (killed e).
Proof. intros [H1 H2 H3]. split; try done. cbn. by apply killed_flags. Qed.

Lemma log_end_kill a pre e post :
  log_end a (pre ++ killed e :: post) = log_end a (pre ++ e :: post).
Proof. by rewrite !log_end_app. Qed.

Lemma region_kill f g base size pre e post :
  let a := log_end (base + REGION_HEADER_SIZE) pre in
  region_at f base size (pre ++ e :: post) →
  range g a ENTRY_HEADER_SIZE = entry_header_bytes (e_header (killed e)) →
  (∀ x, ¬ (a ≤ x < a + 4) → g x = f x) →
  region_at g base size (pre ++ killed e :: post).
Proof.
  intros a [] Hh Hfr. apply Forall_app in rg_entries as [Hpre [He Hpost]%Forall_cons].
  destruct (e_size_bounds e He) as [Hsz _].
  apply log_at_app in rg_log as [L1 [[L2 L2'] L3]]. fold a in L2, L2', L3.
  rewrite !log_end_app in rg_fit, rg_blank. cbn [log_end] in rg_fit, rg_blank.
  fold a in rg_fit, rg_blank. assert (Hge := log_end_ge (a + e_size e) post Hpost).
  split; rewrite ?log_end_kill, ?log_end_app; cbn [log_end]; fold a; try done.
  - apply Forall_app; split; [done|]. constructor; [by apply killed_ok | done].
  - apply log_at_app; split; [|split; [split|]]; fold a.
    + eapply log_at_ext; [done| |exact L1]. intros x Hx. apply Hfr. fold a in Hx. lia.
    + done.
    + cbn [e_data killed]. etrans; [|exact L2']. apply range_ext. intros x Hx.
      unfold ENTRY_HEADER_SIZE in Hx. apply Hfr. lia.
    + rewrite e_size_killed. eapply log_at_ext; [done| |exact L3]. intros x Hx. apply Hfr. lia.
  - intros x Hx. rewrite Hfr by lia. by apply rg_blank.
Qed.

Lemma written_ok id data :
  0 ≤ written_flags id < 0xffff → zlength data ≤ 0xffff → Forall is_byte data →
  entry_ok (written id data).
Proof. by split. Qed.

(** ** Sizes

    How much room a log takes, what the counters of a scan say, and how much compaction
    recovers.  The scan of sysparam_set_data counts the bytes of deleted entries
    ([compactable]) and the keys without a value ([unused_keys]).  When there are none of
    the latter, the former is exactly what compaction frees. *)

Definition zsum {A} (f : A → Z) (l : list A) : Z := foldr (λ x s, f x + s) 0 l.

Lemma zsum_cons {A} (f : A → Z) x l : zsum f (x :: l) = f x + zsum f l.
Proof. done. Qed.

Lemma zsum_app {A} (f : A → Z) l k : zsum f (l ++ k) = zsum f l + zsum f k.
Proof. induction l as [|x l IH]; [done|]. cbn [app]. rewrite !zsum_cons, IH. lia. Qed.

Lemma zsum_perm {A} (f : A → Z) l k : l ≡ₚ k → zsum f l = zsum f k.
Proof.
  induction 1 as [|x l k _ IH|x y l|l k m _ IH1 _ IH2]; rewrite ?zsum_cons; [done| | |congruence].
  - lia.
  - lia.
Qed.

Lemma zsum_ext {A} (f g : A → Z) l : (∀ x, x ∈ l → f x = g x) → zsum f l = zsum g l.
Proof.
  induction l as [|x l IH]; intros H; [done|]. rewrite !zsum_cons, IH, H by set_solver. done.
Qed.

Definition log_size (es : list log_entry) : Z := zsum e_size es.
Definition dead_size (es : list log_entry) : Z :=
  zsum (λ e, if e_live e then 0 else e_size e) es.
Definition key_size (p : Z * list Z) : Z := ENTRY_SIZE (zlength p.2).
Definition value_size (v : list Z * bool) : Z := ENTRY_SIZE (zlength v.1).

Lemma log_end_size a es : log_end a es = a + log_size es.
Proof.
  revert a. induction es as [|e es IH]; intros a; [cbn; lia|].
  cbn [log_end]. rewrite IH. unfold log_size. rewrite zsum_cons. lia.
Qed.

Lemma log_size_split es :
  log_size es =
    zsum key_size (log_keys es) + zsum (λ v, value_size v.2) (log_values es) + dead_size es.
Proof.
  induction es as [|e es IH]; [done|]. unfold log_size, dead_size in *.
  rewrite !zsum_cons, log_keys_cons, log_values_cons, IH. unfold live_key, live_value.
  assert (Hk : key_size (e_id e, e_data e) = e_size e) by done.
  assert (Hv : value_size (e_data e, e_binary e) = e_size e) by done.
  destruct (e_live e), (e_is_value e); cbn [andb negb]; rewrite ?zsum_cons; cbn [snd];
    rewrite ?Hk, ?Hv; lia.
Qed.

(** ** What the scan counts *)

Lemma dead_size_bounds es : Forall entry_ok es → 0 ≤ dead_size es ≤ log_size es.
Proof.
  induction 1 as [|e es He _ IH]; [done|]. unfold dead_size, log_size in *. rewrite !zsum_cons.
  destruct (e_size_bounds e He). case_match; lia.
Qed.

Lemma visit_all_compactable es ctx a :
  Forall entry_ok es → 0 ≤ compactable ctx → compactable ctx + dead_size es < 2 ^ 32 →
  compactable (visit_all ctx a es) = compactable ctx + dead_size es.
Proof.
  intros Hen. revert ctx a. induction Hen as [|e es He Hen IH]; intros ctx a H0 Hlt;
    [cbn; lia|]. cbn [visit_all]. unfold dead_size in *. rewrite zsum_cons in *. cbv beta in *.
  assert (Hb := dead_size_bounds es Hen). unfold dead_size in Hb.
  destruct (e_size_bounds e He) as [Hsz _].
  assert (Hc : compactable (visit ctx a e) =
               compactable ctx + if e_live e then 0 else e_size e).
  { unfold visit, note_entry. destruct (e_live e).
    - destruct (e_is_value e); cbn; lia.
    - cbn [compactable ctx_add_compactable ctx_set_entry ctx_set_addr].
      apply u32_small. lia. }
  rewrite IH, Hc; [lia | rewrite Hc; case_match; lia | rewrite Hc; lia].
Qed.

Definition unused_count (es : list log_entry) : Z := zlength (log_keys es) - zlength (log_values es).

Lemma visit_all_unused es ctx a :
  - 2 ^ 31 + zlength es ≤ unused_keys ctx < 2 ^ 31 - zlength es →
  unused_keys (visit_all ctx a es) = unused_keys ctx + unused_count es.
Proof.
  revert ctx a. induction es as [|e es IH]; intros ctx a Hb; [unfold unused_count; cbn; lia|].
  cbn [visit_all length] in *. unfold unused_count in *. rewrite log_keys_cons, log_values_cons.
  assert (Hc : unused_keys (visit ctx a e) =
    unused_keys ctx + (if live_key e then 1 else 0) - (if live_value e then 1 else 0)).
  { unfold visit, note_entry, live_key, live_value. destruct (e_live e), (e_is_value e);
      cbn [andb negb unused_keys ctx_saw_value ctx_saw_key ctx_add_compactable ctx_set_entry ctx_set_addr];
      rewrite ?s32_small by lia; lia. }
  rewrite IH, Hc; [|rewrite Hc; destruct (live_key e), (live_value e); lia].
  destruct (live_key e), (live_value e); cbn [length]; lia.
Qed.

(** ** What compaction frees *)

Definition opt_value_size (v : option (list Z * bool)) : Z := from_option value_size 0 v.

(** Looking every value up by its id yields every value once. *)
Lemma values_once (vl : list (Z * (list Z * bool))) :
  NoDup vl.*1 → zsum (λ id, opt_value_size (value_of vl id)) vl.*1 = zsum (λ v, value_size v.2) vl.
Proof.
  intros Hnd. cut (∀ k, NoDup (k ++ vl).*1 →
    zsum (λ id, opt_value_size (value_of (k ++ vl) id)) vl.*1 = zsum (λ v, value_size v.2) vl).
  { intros H. by apply (H []). }
  clear Hnd. induction vl as [|[id v] vl IH]; intros k Hnd; [done|].
  rewrite fmap_cons, !zsum_cons. cbn [fst snd]. f_equal.
  - rewrite fmap_app, fmap_cons in Hnd. apply NoDup_app in Hnd as (_ & Hd & _).
    rewrite value_of_app, (proj2 (value_of_None k id)).
    + cbn. by rewrite decide_True.
    + intros Hin. by apply (Hd id Hin); left.
  - assert (Eq : k ++ (id, v) :: vl = (k ++ [(id, v)]) ++ vl) by by rewrite <- (assoc_L (++)).
    rewrite Eq. apply IH. by rewrite <- Eq.
Qed.

Definition pair_size (p : pair) : Z := ENTRY_SIZE (zlength (e_data p.1)) + value_size p.2.

Lemma pairs_in_size es rest :
  (∀ id, id ∈ (log_keys rest).*1 → value_of (log_values es) id ≠ None) →
  zsum pair_size (pairs_in es rest) =
    zsum key_size (log_keys rest) +
    zsum (λ id, opt_value_size (value_of (log_values es) id)) (log_keys rest).*1.
Proof.
  induction rest as [|e rest IH]; intros H; [done|]. rewrite pairs_in_cons, log_keys_cons in *.
  destruct (live_key e); [|auto]. rewrite fmap_cons, !zsum_cons in *. cbn [fst] in *.
  assert (Hv := H (e_id e)). destruct (value_of (log_values es) (e_id e)) as [v|] eqn:Ev.
  - rewrite zsum_cons, IH by (intros; apply H; by right).
    change (pair_size (e, v)) with (key_size (e_id e, e_data e) + value_size v).
    change (opt_value_size (Some v)) with (value_size v). lia.
  - exfalso. apply Hv; [left|done].
Qed.

(** When no key is without a value, the parameters are all of the live log. *)
Lemma pairs_all_size es :
  log_ok es → unused_count es ≤ 0 →
  zsum pair_size (pairs_in es es) + dead_size es = log_size es.
Proof.
  intros Hok Hun. assert (Hsub : (log_values es).*1 ⊆+ (log_keys es).*1).
  { apply NoDup_submseteq; [apply Hok|]. intros id Hin.
    unfold log_values in Hin. apply list_elem_of_fmap in Hin as [[i d] [-> Hin]].
    apply list_elem_of_fmap in Hin as [v [[= -> _] Hin]].
    apply list_elem_of_filter in Hin as [Hlv%Is_true_true Hin].
    apply list_elem_of_split in Hin as (p & q & ->).
    assert (Ha := lo_after _ Hok p v q eq_refl Hlv). cbn.
    rewrite log_keys_app, fmap_app. apply elem_of_app. by left. }
  assert (Hperm : (log_values es).*1 ≡ₚ (log_keys es).*1).
  { apply submseteq_length_Permutation; [done|]. rewrite !length_fmap. unfold unused_count in Hun.
    lia. }
  rewrite pairs_in_size, log_size_split.
  2: { intros id Hin Hn%value_of_None. apply Hn. by rewrite Hperm. }
  rewrite <- (zsum_perm _ _ _ Hperm), values_once by apply Hok. lia.
Qed.

Lemma pair_entries_size n kid p :
  log_size (pair_entries n kid p) = pair_size p - if e_id p.1 =? kid then value_size p.2 else 0.
Proof.
  unfold log_size, pair_entries, pair_size. rewrite zsum_cons.
  change (e_size (written (n + 1) (e_data p.1))) with (ENTRY_SIZE (zlength (e_data p.1))).
  case_match; [cbn; lia|]. rewrite zsum_cons.
  change (e_size (value_entry (n + 1) p.2)) with (value_size p.2). cbn. lia.
Qed.

Lemma compacted_size_miss n kid ps :
  kid ∉ pair_ids ps → log_size (compacted n kid ps) = zsum pair_size ps.
Proof.
  revert n. induction ps as [|p ps IH]; intros n; [done|].
  unfold pair_ids. rewrite fmap_cons. intros [Hne Hni]%not_elem_of_cons. cbn [compacted].
  unfold next_key_id. unfold log_size in *. rewrite zsum_app, zsum_cons.
  fold (log_size (pair_entries n kid p)). rewrite pair_entries_size.
  rewrite (proj2 (Z.eqb_neq _ _)), IH by done. lia.
Qed.

(** Replacing a value frees at most that value. *)
Lemma compacted_size_found n kid ps v :
  pairs_ok n ps → (∀ p, p ∈ ps → e_id p.1 = kid → p.2 = v) → 0 ≤ value_size v →
  zsum pair_size ps ≤ log_size (compacted n kid ps) + value_size v.
Proof.
  intros Hps Hv H0. revert n Hps Hv. induction ps as [|p ps IH]; intros n Hps Hv; [cbn; lia|].
  destruct (pairs_ok_cons _ _ _ Hps) as (_ & Hps' & Hlt & Hab & _).
  cbn [compacted]. unfold log_size in *. rewrite zsum_app, zsum_cons.
  fold (log_size (pair_entries n kid p)). rewrite pair_entries_size. unfold next_key_id.
  destruct (Z.eqb_spec (e_id p.1) kid) as [Hid|Hid].
  - rewrite (Hv p) by (done || left). fold (log_size (compacted (n + 1) (n + 1) ps)).
    rewrite compacted_size_miss; [lia|]. eapply not_in_above; [exact Hab|lia].
  - specialize (IH (n + 1) Hps'). assert (∀ p0, p0 ∈ ps → e_id p0.1 = kid → p0.2 = v) as Hv'.
    { intros p0 Hin. apply Hv. by right. }
    specialize (IH Hv'). lia.
Qed.
