(* ===== verification/SysparamCompact.v ===== *)
(** SysparamCompact: iteration over the parameters and compaction.

    sysparam_iter_next enumerates the keys that have a value, in log order;
    _compact_params copies them, renumbered, to the other region and switches
    over.  The log it leaves is [compacted], which stands for the same map. *)

From stdpp Require Import sorting.
From S2P Require Import Prelude CString Flash Sysparam SysparamLog SysparamPairs SysparamFlash SysparamWrite.

Section iter.
  Context {D : Type} {Dev : FlashDev D} {Fl : FlashSpec D} {Hp : Heap} {HpOk : HeapOk}.

  Implicit Types w : world D.

(** The iterator shows the parameter ([e], [v]). *)
Record shows (it : sysparam_iter_t) (e : log_entry) (v : list Z * bool) : Prop := {
  sh_key : it_key it = e_data e;
  sh_value : (it_value it, it_binary it) = v;
  sh_key_len : it_key_len it = zlength (e_data e);
  sh_value_len : it_value_len it = zlength v.1;
  sh_entry : entry (it_ctx it) = e_header e
}.

Lemma iter_fill_run w base size it vctx a e post b v q :
  tail_at (cell (w_dev w)) base size a (e :: post) →
  tail_at (cell (w_dev w)) base size b (v :: q) →
  addr (it_ctx it) = a → entry (it_ctx it) = e_header e →
  addr vctx = b → entry vctx = e_header v →
  ∃ w' it', _iter_fill it vctx w = Some ((SYSPARAM_OK, it'), w') ∧ keeps w w' ∧
    shows it' e (e_data v, e_binary v) ∧ it_ctx it' = it_ctx it.
Proof.
  intros Hte Htv Ha He Hb Hv. unfold _iter_fill. rewrite He, Hv. cbn [e_header len idflags].
  set (ks := ROUND_TO_WORD_BOUNDARY (zlength (e_data e) + 1)).
  set (req := ks + zlength (e_data v) + 1).
  assert (Hks : zlength (e_data e) + 1 ≤ ks).
  { assert (Hok := tl_entries _ _ _ _ _ Hte). apply Forall_cons in Hok as [[_ Hl _] _].
    subst ks. unfold ROUND_TO_WORD_BOUNDARY.
    destruct (round4_bounds (zlength (e_data e) + 1)); [lia|]. lia. }
  assert (Hal : ∃ w1, (if it_bufsize it <? req then realloc req else mret true) w = Some (true, w1) ∧
                      keeps w w1).
  { case_match; [apply realloc_run|]. by exists w. }
  destruct Hal as (w1 & E1 & K1). run E1. cbn [negb].
  set (it1 := if it_bufsize it <? req then iter_set_bufsize it req else it).
  assert (Hbuf : req ≤ it_bufsize it1).
  { subst it1. destruct (Z.ltb_spec (it_bufsize it) req); cbn; lia. }
  destruct (read_payload_run w1 (it_ctx it) base size a e post (it_bufsize it1))
    as (w2 & E2 & K2); [by eapply keeps_tail | done | done | subst req; lia |].
  run E2. cbn [is_err status_code Z.ltb Z.compare].
  destruct (read_payload_run w2 vctx base size b v q (it_bufsize it1 - ks)) as (w3 & E3 & K3);
    [eapply keeps_tail; [|exact Htv]; by etrans | done | done | subst req; lia |].
  run E3. cbn [is_err status_code Z.ltb Z.compare].
  do 2 eexists. split; [reflexivity|]. split; [etrans; [exact K1|]; by etrans|]. by split.
Qed.

(** What the iterator finds in the rest of the log. *)
Inductive iter_finds (w : world D) (es done rest : list log_entry)
  : sysparam_status_t → sysparam_iter_t → Prop :=
  | finds_none it : pairs_in es rest = [] → iter_finds w es done rest SYSPARAM_NOTFOUND it
  | finds_pair it p e q v :
      rest = p ++ e :: q → pairs_in es p = [] → live_key e = true →
      value_of (log_values es) (e_id e) = Some v → shows it e v →
      next_at (cur_base (w_info w)) (it_ctx it) (log_end (log_start w) (done ++ p ++ [e])) →
      addr (it_ctx it) ≠ cur_base (w_info w) →
      iter_finds w es done rest SYSPARAM_OK it.

Lemma iter_finds_skip w es done p e q st it :
  pairs_in es (p ++ [e]) = [] → iter_finds w es (done ++ p ++ [e]) q st it →
  iter_finds w es done (p ++ e :: q) st it.
Proof.
  intros Hno Hf.
  assert (Eq : p ++ e :: q = (p ++ [e]) ++ q) by by rewrite <- (assoc_L (++)).
  destruct Hf as [it H|it p' e' q' v -> Hp1 He' Hv Hs Hnx Hne].
  - constructor. by rewrite Eq, pairs_in_app, Hno.
  - apply (finds_pair _ _ _ _ it ((p ++ [e]) ++ p') e' q' v); try done.
    + by rewrite Eq, (assoc_L (++)).
    + by rewrite pairs_in_app, Hno.
    + by rewrite !(assoc_L (++)) in *.
Qed.

(** The search for the value of the key [e] the context [c] stands on: the
    iterator is filled in, or the key is passed over. *)
Lemma iter_value_run w es pre e q it c :
  let base := cur_base (w_info w) in let size := region_size (w_info w) in
  region_at (cell (w_dev w)) base size es → log_ok es → es = pre ++ e :: q →
  live_key e = true → addr c = log_end (log_start w) pre → entry c = e_header e →
  next_at base c (log_end (log_start w) (pre ++ [e])) → it_ctx it = c →
  ∃ w' st vctx, _find_value c (e_flags e) w = Some ((st, vctx), w') ∧ keeps w w' ∧
  ((st = SYSPARAM_NOTFOUND ∧ value_of (log_values es) (e_id e) = None) ∨
   (st = SYSPARAM_OK ∧ ∃ v w2 it', value_of (log_values es) (e_id e) = Some v ∧
      _iter_fill it vctx w' = Some ((SYSPARAM_OK, it'), w2) ∧ keeps w w2 ∧
      shows it' e v ∧ it_ctx it' = c)).
Proof.
  intros base size Hr Hok Hes Hlk Ha He Hnx Hit. subst base size.
  assert (Htl := region_tail _ _ _ _ Hr). rewrite Hes in Htl.
  assert (Hte := tail_app _ _ _ _ _ _ Htl). apply tail_app_snoc in Htl.
  assert (Hne : addr c ≠ cur_base (w_info w)).
  { rewrite Ha. destruct (tl_addr _ _ _ _ _ Hte) as [Hge _].
    unfold REGION_HEADER_SIZE in *. lia. }
  destruct (find_value_run w c (e_flags e) _ q Htl Hnx ltac:(done)) as (w1 & E1 & K1).
  change (f_id (e_flags e)) with (e_id e) in E1.
  assert (Hval : value_of (log_values es) (e_id e) = value_of (log_values q) (e_id e)).
  { rewrite Hes in Hok |- *. by apply value_of_after. }
  destruct (scan_cases (region_limit w) (e_id e) (value_with (e_id e)) c
              (log_end (log_start w) (pre ++ [e])) q)
    as [(p & v & q' & -> & Hp' & Hv & Hsc)|[Hno Hsc]]; rewrite Hsc in E1.
  - do 3 eexists. split; [exact E1|]. split; [done|]. right. split; [done|].
    destruct (visit_all_at c (log_end (log_start w) (pre ++ [e])) p v) as [Hva Hve].
    destruct (iter_fill_run w1 (cur_base (w_info w)) (region_size (w_info w)) it
      (visit_all c (log_end (log_start w) (pre ++ [e])) (p ++ [v]))
      (log_end (log_start w) pre) e (p ++ v :: q')
      (log_end (log_end (log_start w) (pre ++ [e])) p) v q')
      as (w3 & it' & E3 & K3 & Hs & Hc); rewrite ?Hit; try done.
    { by eapply keeps_tail. }
    { eapply keeps_tail; [done|]. by apply tail_app. }
    exists (e_data v, e_binary v), w3, it'. rewrite Hval, (value_of_split (e_id e)) by done.
    split; [done|]. split; [done|]. split; [by etrans|]. split; [done|]. congruence.
  - unfold _find_entry_end in E1. rewrite (proj2 (Z.eqb_neq (e_id e) ENTRY_ID_END)) in E1.
    2: { rewrite Hes in Hok. assert (Hb := log_key_id _ _ _ Hok Hlk).
         unfold MAX_KEY_ID, ENTRY_ID_END in *. lia. }
    do 3 eexists. split; [exact E1|]. split; [done|]. left. split; [done|].
    rewrite Hval. by apply value_of_none.
Qed.

Lemma iter_next_loop_run fuel w es done rest it :
  let base := cur_base (w_info w) in let size := region_size (w_info w) in
  region_at (cell (w_dev w)) base size es → log_ok es → es = done ++ rest →
  next_at base (it_ctx it) (log_end (log_start w) done) →
  (addr (it_ctx it) = base → log_end (log_start w) done < base + size) →
  (length rest < fuel)%nat →
  ∃ w' st it', _iter_next_loop fuel it w = Some ((st, it'), w') ∧ keeps w w' ∧
               iter_finds w es done rest st it'.
Proof.
  revert w done rest it. induction fuel as [|fuel IH]; intros w done rest it base size Hr Hok Hes
    Hnx Hlt Hf; [lia|]. cbn [_iter_next_loop].
  assert (Htl : tail_at (cell (w_dev w)) base size (log_end (log_start w) done) rest).
  { apply tail_app. rewrite <- Hes. by apply region_tail. }
  destruct (find_any_key_run w (it_ctx it) _ rest Htl Hnx Hlt) as (w1 & E1 & K1). run E1.
  destruct (scan_cases (region_limit w) ENTRY_ID_ANY live_key (it_ctx it)
              (log_end (log_start w) done) rest)
    as [(p & e & q & -> & Hpre & He & ->)|[Hno ->]].
  2: { cbn [_find_entry_end]. do 3 eexists. split; [reflexivity|]. split; [done|].
       constructor. by apply pairs_in_no_key. }
  rewrite decide_False by auto. set (c := visit_all _ _ (p ++ [e])).
  destruct (visit_all_at (it_ctx it) (log_end (log_start w) done) p e) as [Hca Hce].
  fold c in Hca, Hce. rewrite Hce. cbn [e_header idflags].
  destruct (next_after (it_ctx it) _ _ _ _ _ _ _ Htl) as [Hn1 Hn2]. fold c in Hn1, Hn2.
  rewrite <- log_end_app in Hn1, Hca. rewrite (assoc_L (++)) in Hn1.
  assert (Hi1 := kp_info _ _ K1). rewrite (assoc_L (++)) in Hes.
  assert (Hnil : pairs_in es p = []) by by apply pairs_in_no_key.
  destruct (iter_value_run w1 es (done ++ p) e q (iter_set_ctx it c) c)
    as (w2 & st & vctx & E2 & K2 & Hcase); rewrite ?Hi1; try done; [by eapply keeps_region|].
  run E2. destruct Hcase as [[-> Hv]|[-> (v & w3 & it' & Hv & E3 & K3 & Hs & Hc)]];
    cbn [is_err status_code Z.ltb Z.compare].
  - (* no value: go on *)
    rewrite decide_True by done. assert (K12 : keeps w w2) by by etrans.
    assert (Hi2 := kp_info _ _ K12).
    destruct (IH w2 (done ++ p ++ [e]) q (iter_set_ctx it c)) as (w3 & st & it' & E3 & K3 & Hfd);
      rewrite ?Hi2; cbn [it_ctx iter_set_ctx]; rewrite ?(assoc_L (++)) in *; try done.
    + by eapply keeps_region.
    + by rewrite Hes, <- !(assoc_L (++)).
    + rewrite length_app in Hf. cbn in Hf. lia.
    + do 3 eexists. split; [exact E3|]. split; [by etrans|]. apply iter_finds_skip.
      * by rewrite pairs_in_app, Hnil, pairs_in_cons, He, Hv.
      * rewrite (assoc_L (++)). destruct Hfd; [by constructor|]. rewrite Hi2 in *.
        by eapply finds_pair.
  - rewrite decide_False by done. do 3 eexists. split; [exact E3|]. split; [by etrans|].
    eapply finds_pair; try done; rewrite Hc; [|done]. by rewrite (assoc_L (++)).
Qed.

Lemma iter_next_run w es done rest it :
  let base := cur_base (w_info w) in let size := region_size (w_info w) in
  region_at (cell (w_dev w)) base size es → log_ok es → es = done ++ rest →
  next_at base (it_ctx it) (log_end (log_start w) done) →
  (addr (it_ctx it) = base → log_end (log_start w) done < base + size) →
  ∃ w' st it', sysparam_iter_next it w = Some ((st, it'), w') ∧ keeps w w' ∧
               iter_finds w es done rest st it'.
Proof.
  intros base size Hr Hok Hes Hnx Hlt. unfold sysparam_iter_next. rewrite bind_get_info.
  apply iter_next_loop_run; try done. assert (Hf := scan_fuel_ok _ _ _ (region_tail _ _ _ _ Hr)).
  rewrite Hes, length_app in Hf. lia.
Qed.

(** *** Copying to the other region *)

(** [copied w w' a es]: the entries [es] were written from [a] on, and nothing
    else changed. *)
Record copied (w w' : world D) (a : Z) (es : list log_entry) : Prop := {
  cp_log : log_at (cell (w_dev w')) a es;
  cp_frame : ∀ x, ¬ (a ≤ x < log_end a es) → cell (w_dev w') x = cell (w_dev w) x;
  cp_info : w_info w' = w_info w;
  cp_sem : w_sem w' = w_sem w
}.

Lemma copied_nil w w' a : keeps w w' → copied w w' a [].
Proof. by intros []. Qed.

Lemma copied_keeps w w1 w' a es : keeps w w1 → copied w1 w' a es → copied w w' a es.
Proof.
  intros [C I S] [H1 H2 H3 H4]. split; try congruence. intros x Hx. by rewrite H2, C.
Qed.

Lemma copied_app w w1 w' a es1 es2 :
  Forall entry_ok es1 → Forall entry_ok es2 →
  copied w w1 a es1 → copied w1 w' (log_end a es1) es2 → copied w w' a (es1 ++ es2).
Proof.
  intros H1 H2 [L1 F1 I1 S1] [L2 F2 I2 S2].
  assert (Hge1 := log_end_ge a es1 H1). assert (Hge2 := log_end_ge (log_end a es1) es2 H2).
  split; try congruence; rewrite ?log_end_app.
  - apply log_at_app. split; [|done]. eapply log_at_ext; [done| |exact L1].
    intros x Hx. apply F2. lia.
  - intros x Hx. rewrite F2, F1 by lia. done.
Qed.

Lemma copy_entry_run w a nid data limit :
  0 < a → a `mod` 4 = 0 → limit ≤ chip_size sdk_flashchip →
  a + ENTRY_SIZE (zlength data) ≤ limit → end_addr (w_info w) ≠ a →
  entry_ok (written nid data) → 0 ≤ nid < 0x3fff → blank (cell (w_dev w)) a limit →
  ∃ w', _write_entry a nid data (zlength data) w = Some (SYSPARAM_OK, w') ∧
        copied w w' a [written nid data] ∧ u32 (a + ENTRY_SIZE (zlength data)) = a + ENTRY_SIZE (zlength data)
        ∧ blank (cell (w_dev w')) (a + ENTRY_SIZE (zlength data)) limit.
Proof.
  intros Ha Hal Hlim Hfit Hne Hok Hid Hbl.
  assert (Hs : e_size (written nid data) = ENTRY_SIZE (zlength data)) by done.
  destruct (e_size_bounds _ Hok) as [Hsz _]. rewrite Hs in Hsz.
  destruct (write_entry_run w a nid data) as (w' & E & [W1 W2 W3 W4]);
    [lia | done | lia | apply Hok | apply Hok | done | |].
  { intros x Hx. apply Hbl. lia. }
  rewrite Hs in W2. exists w'. split; [done|]. split; [|split].
  - split; cbn [log_at log_end]; rewrite ?Hs; try done. rewrite W3. unfold bumped.
    by rewrite (proj2 (Z.eqb_neq _ _)).
  - change (chip_size sdk_flashchip) with 4194304 in *. apply u32_small. lia.
  - intros x Hx. rewrite W2 by lia. apply Hbl. lia.
Qed.

Lemma copied_region w w' cur alt size a new es :
  area_ok cur alt size → alt ≤ a → log_end a new ≤ alt + size → copied w w' a new →
  region_at (cell (w_dev w)) cur size es → region_at (cell (w_dev w')) cur size es.
Proof.
  intros [_ _ Hadj] Ha Hb [_ F _ _]. apply region_at_ext. intros x Hx. apply F.
  unfold REGION_HEADER_SIZE in Hx. lia.
Qed.

(** Copying one parameter. *)
Lemma compact_pair_run {A} w a n kid e v limit (fail : sysparam_status_t → Z → A)
    (k : Z → Z → M D A) :
  let new := pair_entries n kid (e, v) in
  0 < a → a `mod` 4 = 0 → limit ≤ chip_size sdk_flashchip → log_end a new ≤ limit →
  (end_addr (w_info w) < a ∨ limit < end_addr (w_info w)) →
  0 ≤ n < MAX_KEY_ID → pair_ok (e, v) → blank (cell (w_dev w)) a limit →
  ∃ w', copied w w' a new ∧ blank (cell (w_dev w')) (log_end a new) limit ∧
  (status ← _write_entry a (n + 1) (e_data e) (zlength (e_data e));
   if is_err status then mret (fail status a) else
   let a1 := u32 (a + ENTRY_SIZE (zlength (e_data e))) in
   if e_id e =? kid then k a1 (n + 1) else
   status ← _write_entry a1 (Z.lor (Z.lor (n + 1) ENTRY_FLAG_VALUE)
                               (if v.2 then ENTRY_FLAG_BINARY else 0)) v.1 (zlength v.1);
   if is_err status then mret (fail status a1) else
   k (u32 (a1 + ENTRY_SIZE (zlength v.1))) kid) w =
  k (log_end a new) (next_key_id n kid (e, v)) w'.
Proof.
  intros new Ha Hal Hlim Hfit Hend Hn Hpok Hbl.
  assert (Hnok := pair_entries_ok n kid (e, v) Hn Hpok). fold new in Hnok.
  assert (HM : MAX_KEY_ID = 4094) by done.
  unfold new, pair_entries, next_key_id in *. cbn [fst snd log_end] in *.
  apply Forall_cons in Hnok as [Hkok Hnok]. destruct (e_size_bounds _ Hkok) as [Hksz Hkal].
  change (e_size (written (n + 1) (e_data e))) with (ENTRY_SIZE (zlength (e_data e))) in *.
  assert (Hge := log_end_ge (a + ENTRY_SIZE (zlength (e_data e))) _ Hnok).
  destruct (copy_entry_run w a (n + 1) (e_data e) limit) as (w1 & E1 & C1 & U1 & B1);
    [done | done | done | lia | lia | done | lia | done |].
  run E1. cbn [is_err status_code Z.ltb Z.compare]. rewrite U1.
  destruct (Z.eqb_spec (e_id e) kid) as [Hid|Hid]; [by exists w1|].
  cbn [log_end] in *. apply Forall_cons in Hnok as [Hvok _].
  destruct (e_size_bounds _ Hvok) as [Hvsz _].
  change (e_size (value_entry (n + 1) v)) with (ENTRY_SIZE (zlength v.1)) in *.
  fold (value_id (n + 1) v.2).
  destruct (copy_entry_run w1 (a + ENTRY_SIZE (zlength (e_data e))) (value_id (n + 1) v.2) v.1 limit)
    as (w2 & E2 & C2 & U2 & B2);
    [lia | zsolve | done | lia | rewrite (cp_info _ _ _ _ C1); lia | done | | done |].
  { apply value_id_bounds. lia. }
  run E2. cbn [is_err status_code Z.ltb Z.compare]. rewrite U2. exists w2.
  split; [|done]. apply (copied_app w w1 w2 a [_] [_]); [by constructor | by constructor | done |].
  exact C2.
Qed.

(** The loop of _compact_params copies the parameters of the rest of the log. *)
Lemma compact_loop_run fuel w es done rest it a n kid :
  let cur := cur_base (w_info w) in let alt := alt_base (w_info w) in
  let size := region_size (w_info w) in
  let ps := pairs_in es rest in
  region_at (cell (w_dev w)) cur size es → log_ok es → area_ok cur alt size →
  log_start w ≤ end_addr (w_info w) ≤ region_limit w → es = done ++ rest →
  next_at cur (it_ctx it) (log_end (log_start w) done) →
  (addr (it_ctx it) = cur → log_end (log_start w) done < cur + size) →
  alt + REGION_HEADER_SIZE ≤ a → a `mod` 4 = 0 → blank (cell (w_dev w)) a (alt + size) →
  log_end a (compacted n kid ps) ≤ alt + size → 0 ≤ n → n + zlength ps ≤ MAX_KEY_ID →
  (length rest < fuel)%nat →
  ∃ w', _compact_loop fuel it a n kid w =
          Some ((SYSPARAM_NOTFOUND, log_end a (compacted n kid ps), n + zlength ps,
                 compacted_id n kid ps), w') ∧
        copied w w' a (compacted n kid ps) ∧
        blank (cell (w_dev w')) (log_end a (compacted n kid ps)) (alt + size).
Proof.
  revert w done rest it a n kid. induction fuel as [|fuel IH]; [lia|].
  intros w done rest it a n kid cur alt size ps Hr Hok Har Hend Hes Hnx Hlt Ha Hal Hbl Hfit Hn Hids
    Hf. cbn [_compact_loop].
  destruct (iter_next_run w es done rest it Hr Hok Hes Hnx Hlt) as (w1 & st & it1 & E1 & K1 & Hfd).
  run E1. assert (Hi1 := kp_info _ _ K1).
  destruct Hfd as [it1 Hno|it1 p e q v -> Hnil He Hv Hs Hnx1 Hne1].
  { rewrite decide_True by done. subst ps. rewrite Hno in *. exists w1.
    cbn [compacted log_end compacted_id length]. rewrite Z.add_0_r. split; [done|].
    split; [by apply copied_nil|]. eapply blank_ext; [|done]. intros; apply K1. }
  rewrite decide_False by auto.
  assert (Hps : ps = (e, v) :: pairs_in es q).
  { subst ps. by rewrite pairs_in_app, Hnil, pairs_in_cons, He, Hv. }
  assert (Hpok : Forall pair_ok ps).
  { subst ps. assert (Hen := rg_entries _ _ _ _ Hr). apply pairs_in_ok; [done|].
    rewrite Hes in Hen. by apply Forall_app in Hen as [_ ?]. }
  rewrite Hps in *. clear Hps ps. apply Forall_cons in Hpok as [Hpe Hpok].
  cbn [compacted compacted_id length] in *. rewrite Nat2Z.inj_succ in *.
  rewrite log_end_app in Hfit |- *.
  destruct Hs as [Hsk Hsv Hskl Hsvl Hse]. rewrite Hsk, Hskl, Hse, Hsvl.
  replace (it_value it1) with v.1 by by rewrite <- Hsv.
  replace (it_binary it1) with v.2 by by rewrite <- Hsv. cbn [e_header idflags].
  change (Z.land (e_flags e) ENTRY_MASK_ID) with (e_id e).
  assert (HM : MAX_KEY_ID = 4094) by done.
  rewrite (u16_small (n + 1)) by (unfold is_u16; lia).
  subst cur alt size. destruct Har as [Har0 Hch Hadj]. unfold REGION_HEADER_SIZE in Ha.
  assert (Hpe' := pair_entries_ok n kid (e, v) ltac:(lia) Hpe).
  assert (Hge := log_end_ge a _ Hpe').
  assert (Hcok : Forall entry_ok (compacted (n + 1) (next_key_id n kid (e, v)) (pairs_in es q)))
    by (apply compacted_ok; [lia | lia | done]).
  assert (Hge2 := log_end_ge (log_end a (pair_entries n kid (e, v))) _ Hcok).
  destruct (compact_pair_run w1 a n kid e v (alt_base (w_info w) + region_size (w_info w))
    (λ st a, (st, a, n + 1, kid)) (λ a' kid', _compact_loop fuel it1 a' (n + 1) kid'))
    as (w2 & C2 & B2 & E2); rewrite ?Hi1; try done; try lia.
  { unfold REGION_HEADER_SIZE in *. lia. }
  { eapply blank_ext; [|exact Hbl]. intros; apply K1. }
  assert (C12 := copied_keeps _ _ _ _ _ K1 C2). assert (Hi2 := cp_info _ _ _ _ C12).
  destruct (IH w2 (done ++ p ++ [e]) q it1 (log_end a (pair_entries n kid (e, v))) (n + 1)
    (next_key_id n kid (e, v))) as (w' & E' & C' & B');
    rewrite ?Hi2; unfold REGION_HEADER_SIZE in *; try done; try lia.
  - eapply copied_region; [by split | | | exact C12 | done]; lia.
  - by rewrite Hes, <- !(assoc_L (++)).
  - by apply log_end_al.
  - rewrite length_app in Hf. cbn in Hf. lia.
  - exists w'. split; [rewrite <- E2 in E'; etrans; [exact E'|]; do 4 f_equal; lia|].
    rewrite Hi2 in B'. split; [by eapply copied_app|done].
Qed.

Lemma iter_start_run w :
  (cur_base (w_info w) =? 0) = false →
  ∃ w' it, sysparam_iter_start w = Some ((SYSPARAM_OK, it), w') ∧ keeps w w' ∧
           it_ctx it = start_ctx w.
Proof.
  intros Hb. unfold sysparam_iter_start. rewrite bind_get_info, Hb.
  destruct (malloc_run w DEFAULT_ITER_BUF_SIZE) as (w1 & E1 & K1). run E1. cbn [negb].
  destruct (malloc_run w1 CONTEXT_SIZE) as (w2 & E2 & K2). run E2. cbn [negb].
  assert (K : keeps w w2) by by etrans.
  do 2 eexists. split; [reflexivity|]. split; [done|]. cbn. unfold start_ctx.
  by rewrite (kp_info _ _ K).
Qed.

Lemma iter_end_run w : ∃ w', sysparam_iter_end w = Some (tt, w') ∧ keeps w w'.
Proof.
  unfold sysparam_iter_end. destruct (free_run w) as (w1 & E1 & K1). run E1.
  destruct (free_run w1) as (w2 & E2 & K2). exists w2. split; [done|]. by etrans.
Qed.

(** The switch to the new region: both headers are rewritten. *)
Lemma switch_run w cur alt size new :
  0 < cur → cur `mod` 4096 = 0 → alt `mod` 4096 = 0 → 0 < size → size `mod` 4096 = 0 →
  cur + size ≤ chip_size sdk_flashchip → area_ok cur alt size →
  Forall entry_ok new → log_end (alt + REGION_HEADER_SIZE) new ≤ alt + size →
  log_at (cell (w_dev w)) (alt + REGION_HEADER_SIZE) new →
  blank (cell (w_dev w)) (log_end (alt + REGION_HEADER_SIZE) new) (alt + size) →
  blank (cell (w_dev w)) alt (alt + REGION_HEADER_SIZE) →
  header_at (cell (w_dev w)) cur alt true →
  ∃ w1 w2, _write_region_header alt cur true w = Some (SYSPARAM_OK, w1) ∧
    _write_region_header cur alt false w1 = Some (SYSPARAM_OK, w2) ∧
    w_info w1 = w_info w ∧ w_info w2 = w_info w ∧ w_sem w2 = w_sem w ∧
    region_at (cell (w_dev w2)) alt size new ∧
    header_at (cell (w_dev w2)) alt cur true ∧ header_at (cell (w_dev w2)) cur alt false.
Proof.
  unfold REGION_HEADER_SIZE.
  intros Hc0 Hcal Haal Hs0 Hsal Hcc [Ha0 Hac Hadj] Hen Hfit Hlog Hbl Hbl0 Hh.
  assert (Hs8 : 8 ≤ size) by zsolve.
  assert (Hsep : alt + 8 ≤ cur ∨ cur + 8 ≤ alt) by lia.
  change (chip_size sdk_flashchip) with 4194304 in *.
  destruct (write_region_header_run w alt cur true) as (w1 & E1 & [D1 F1 I1 S1]);
    [lia | zsolve | cbn; lia | |].
  { apply fits_blank; [apply region_header_bytes_ok | exact Hbl0]. }
  destruct (write_region_header_run w1 cur alt false) as (w2 & E2 & [D2 F2 I2 S2]);
    [lia | zsolve | cbn; lia | |].
  { apply fits_deactivate. eapply header_at_ext; [|exact Hh]. unfold REGION_HEADER_SIZE.
    intros x Hx. apply F1. lia. }
  exists w1, w2. split; [done|]. split; [done|]. do 3 (split; [congruence|]).
  split; [|split; [|exact D2]].
  - assert (Hge := log_end_ge (alt + 8) new Hen).
    apply (region_at_ext (cell (w_dev w))).
    { unfold REGION_HEADER_SIZE. intros x Hx. rewrite F2, F1 by lia. done. }
    split; unfold REGION_HEADER_SIZE; try done.
  - eapply header_at_ext; [|exact D1]. unfold REGION_HEADER_SIZE. intros x Hx. apply F2. lia.
Qed.

(** The info and the context compaction leaves. *)
Definition compacted_info (i : sysparam_info) (end_addr : Z) : sysparam_info :=
  {| cur_base := alt_base i; alt_base := cur_base i; end_addr := end_addr;
     region_size := region_size i; force_compact := false |}.

(** Erasing the other region. *)
Lemma format_alt_run w es :
  store w es →
  let i := w_info w in
  ∃ w', _format_region (alt_base i) (u16 (region_size i / sector_size sdk_flashchip)) w =
          Some (SYSPARAM_OK, w') ∧
    w_info w' = i ∧ w_sem w' = w_sem w ∧
    region_at (cell (w_dev w')) (cur_base i) (region_size i) es ∧
    header_at (cell (w_dev w')) (cur_base i) (alt_base i) true ∧
    blank (cell (w_dev w')) (alt_base i) (alt_base i + region_size i).
Proof.
  intros Hst i. assert (Hr := st_region _ _ Hst). assert (Hhc := la_cur _ _ (st_lay _ _ Hst)).
  destruct (la_area _ _ (st_lay _ _ Hst)) as [Har0 Hach Hadj]. fold i in Hr, Hhc, Har0, Hach, Hadj.
  assert (Hr' := Hr). destruct Hr' as [Hc0 Hcal Hs0 Hsal Hcc _ _ _ _].
  change (chip_size sdk_flashchip) with 4194304 in *.
  change (sector_size sdk_flashchip) with 4096 in *. rewrite u16_small by zsolve.
  destruct (format_region_run w (alt_base i) (region_size i / 4096)) as (w1 & E1 & [C1 I1 S1]);
    [lia | zsolve | zsolve | zsolve |].
  replace (4096 * (region_size i / 4096)) with (region_size i) in C1 by zsolve.
  assert (Hframe : ∀ x, cur_base i ≤ x < cur_base i + region_size i →
    cell (w_dev w1) x = cell (w_dev w) x).
  { intros x Hx. rewrite C1. zbool; cbn; try done; lia. }
  exists w1. do 3 (split; [done|]). unfold REGION_HEADER_SIZE in *. split; [|split].
  - eapply region_at_ext; [|exact Hr]. unfold REGION_HEADER_SIZE. intros x Hx. apply Hframe. lia.
  - eapply header_at_ext; [|exact Hhc]. unfold REGION_HEADER_SIZE. intros x Hx. apply Hframe. zsolve.
  - intros x Hx. rewrite C1. by rewrite (proj2 (Z.leb_le _ _)), (proj2 (Z.ltb_lt _ _)) by lia.
Qed.

Lemma compact_params_run w es ctx kid :
  store w es →
  let ps := pairs_in es es in
  let a := log_end (alt_base (w_info w) + REGION_HEADER_SIZE) (compacted 0 kid ps) in
  zlength ps ≤ MAX_KEY_ID → a ≤ alt_base (w_info w) + region_size (w_info w) →
  ∃ w' ctx', _compact_params ctx kid w = Some ((SYSPARAM_OK, ctx', compacted_id 0 kid ps), w') ∧
    laid_out w' (compacted 0 kid ps) ∧ w_info w' = compacted_info (w_info w) a ∧
    w_sem w' = w_sem w ∧ max_key_id ctx' = zlength ps.
Proof.
  intros Hst ps a Hids Hfit.
  destruct (format_alt_run w es Hst) as (w1 & E1 & I1 & S1 & Hr1 & Hh1 & B1).
  destruct Hst as [[Hr Hend Har _ _] Hok].
  assert (Hpok : Forall pair_ok ps) by (apply pairs_in_ok; apply Hr).
  assert (Hnew := compacted_ok 0 kid ps ltac:(lia) ltac:(lia) Hpok).
  assert (Hr' := Hr). destruct Hr' as [Hc0 Hcal Hs0 Hsal Hcc Hen _ Hle _].
  assert (Hge := log_end_ge (log_start w) es Hen).
  assert (Hgen := log_end_ge (alt_base (w_info w) + REGION_HEADER_SIZE) _ Hnew). fold a in Hgen.
  assert (Har' := Har). destruct Har' as [Har0 Hach Hadj]. unfold REGION_HEADER_SIZE in *.
  change (chip_size sdk_flashchip) with 4194304 in *.
  assert (Haal : alt_base (w_info w) `mod` 4096 = 0)
    by (change (sector_size sdk_flashchip) with 4096 in *; zsolve).
  unfold _compact_params. rewrite bind_get_info. unfold REGION_HEADER_SIZE.
  rewrite u32_small by lia. run E1. cbn [is_err status_code Z.ltb Z.compare].
  destruct (iter_start_run w1) as (w2 & it & E2 & K2 & Hit); [rewrite I1; apply Z.eqb_neq; lia|].
  run E2. cbn [is_err status_code Z.ltb Z.compare]. assert (I2 := kp_info _ _ K2).
  destruct (compact_loop_run (scan_fuel (w_info w)) w2 es [] es it (alt_base (w_info w) + 8) 0 kid)
    as (w3 & E3 & C3 & B3); rewrite ?I2, ?I1; unfold REGION_HEADER_SIZE in *; try done; try lia.
  { by eapply keeps_region. }
  { rewrite Hit. left. unfold start_ctx. by rewrite I1. }
  { intros _. cbn. change (sector_size sdk_flashchip) with 4096 in *. zsolve. }
  { zsolve. }
  { intros x Hx. rewrite (kp_cells _ _ K2). apply B1. lia. }
  { eapply scan_fuel_ok, region_tail, Hr. }
  run E3. fold ps a in C3, B3 |- *.
  destruct (iter_end_run w3) as (w4 & E4 & K4). run E4.
  cbn [is_err status_code Z.ltb Z.compare]. rewrite bind_get_info.
  assert (I3 := cp_info _ _ _ _ C3). assert (I4 := kp_info _ _ K4).
  assert (Iw : w_info w4 = w_info w) by congruence. rewrite Iw.
  assert (Hfr : ∀ x, ¬ (alt_base (w_info w) + 8 ≤ x < a) → cell (w_dev w4) x = cell (w_dev w1) x).
  { intros x Hx. rewrite (kp_cells _ _ K4), (cp_frame _ _ _ _ C3) by done. apply K2. }
  destruct (switch_run w4 (cur_base (w_info w)) (alt_base (w_info w)) (region_size (w_info w))
    (compacted 0 kid ps)) as (w5 & w6 & E5 & E6 & I5 & I6 & S6 & Hr6 & Hh6 & Hh6');
    unfold REGION_HEADER_SIZE in *; try done.
  { eapply log_at_ext; [done| |exact (cp_log _ _ _ _ C3)]. intros; apply K4. }
  { intros x Hx. rewrite (kp_cells _ _ K4). rewrite I2, I1 in B3. by apply B3. }
  { intros x Hx. rewrite Hfr by lia. apply B1. lia. }
  { eapply header_at_ext; [|exact Hh1]. unfold REGION_HEADER_SIZE. intros x Hx. apply Hfr.
    change (sector_size sdk_flashchip) with 4096 in *. zsolve. }
  run E5. cbn [is_err status_code Z.ltb Z.compare]. run E6.
  cbn [is_err status_code Z.ltb Z.compare]. rewrite bind_get_info, I6, Iw.
  do 2 eexists. split; [reflexivity|].
  split; [|split; [done|split; [|cbn; lia]]].
  - split; cbn; try done. destruct Hadj; by split; cbn; auto; lia.
  - cbn. rewrite S6, (kp_sem _ _ K4), (cp_sem _ _ _ _ C3), (kp_sem _ _ K2). done.
Qed.

End iter.
