(* ===== verification/SysparamSpec.v ===== *)
(** SysparamSpec: the public functions of sysparam against their contract.

    The contract is a finite map from keys to (value, is_binary): a get looks
    a key up, a set inserts it, a set of nothing deletes it.  [store w es] is
    the representation invariant and [log_map es] the map it represents. *)

From stdpp Require Import sorting.
From S2P Require Import Prelude CString Flash Sysparam SysparamLog SysparamFlash SysparamWrite.

Section spec.
  Context {D : Type} {Dev : FlashDev D} {Fl : FlashSpec D} {Hp : Heap} {HpOk : HeapOk}.

  Implicit Types w : world D.

(** ** Reading *)

Definition get_result (r : option (list Z * bool))
  : sysparam_status_t * option (list Z * Z * bool) :=
  match r with
  | Some (v, b) => (SYSPARAM_OK, Some (v ++ [0], zlength v, b))
  | None => (SYSPARAM_NOTFOUND, None)
  end.

Lemma key_named_live key e : key_named key e = true → live_key e = true ∧ e_data e = key.
Proof.
  unfold key_named. intros [H1 H2%bool_decide_eq_true]%andb_true_iff. done.
Qed.

Lemma log_get_found pre e post p v q key :
  log_ok (pre ++ e :: post) → post = p ++ v :: q →
  Forall (λ e, key_named key e = false) pre → key_named key e = true →
  Forall (λ x, value_with (e_id e) x = false) p → value_with (e_id e) v = true →
  log_get (pre ++ e :: post) key = Some (e_data v, e_binary v).
Proof.
  intros Hok -> Hpre He Hp1 Hv. unfold log_get. rewrite (key_id_of_split key) by done. cbn.
  destruct (key_named_live _ _ He) as [Hlk _].
  rewrite value_of_after by done. by apply value_of_split.
Qed.

Lemma log_get_no_value pre e post key :
  log_ok (pre ++ e :: post) →
  Forall (λ e, key_named key e = false) pre → key_named key e = true →
  Forall (λ x, value_with (e_id e) x = false) post →
  log_get (pre ++ e :: post) key = None.
Proof.
  intros Hok Hpre He Hno. unfold log_get. rewrite (key_id_of_split key) by done. cbn.
  destruct (key_named_live _ _ He) as [Hlk _].
  rewrite value_of_after by done. by apply value_of_none.
Qed.

Lemma log_get_no_key es key :
  Forall (λ e, key_named key e = false) es → log_get es key = None.
Proof. intros H. unfold log_get. by rewrite key_id_of_none. Qed.

Lemma init_context_run w : _init_context w = Some (start_ctx w, w).
Proof. done. Qed.

Lemma store_base w es : store w es → (cur_base (w_info w) =? 0) = false.
Proof. intros Hst. destruct (st_region _ _ Hst). apply Z.eqb_neq. lia. Qed.

Lemma keeps_start_ctx w w' : keeps w w' → start_ctx w' = start_ctx w.
Proof. intros [_ Hi _]. unfold start_ctx. by rewrite Hi. Qed.

(** The payload of an entry of the log, read through a context that stands
    on it. *)
Lemma read_entry_run w es pre v post ctx n :
  store w es → es = pre ++ v :: post → addr ctx = log_end (log_start w) pre →
  entry ctx = e_header v → zlength (e_data v) ≤ n →
  ∃ w', _read_payload ctx n w = Some ((SYSPARAM_OK, e_data v), w') ∧ keeps w w'.
Proof.
  intros Hst -> Ha He Hn. destruct (start_next w _ Hst) as (Htl & _ & _).
  apply tail_app in Htl. by eapply read_payload_run.
Qed.

Lemma get_data_run w es key :
  store w es → zlength key ≤ 0xffff →
  ∃ w', sysparam_get_data key w = Some (get_result (log_get es key), w') ∧ keeps w w'.
Proof.
  intros Hst Hk. unfold sysparam_get_data. rewrite bind_get_info, (store_base _ _ Hst).
  destruct (malloc_run w (zlength key + 2)) as (w1 & E1 & K1). run E1. cbn [negb].
  assert (Hst1 := keeps_store _ _ _ K1 Hst).
  rewrite (bind_run _ _ _ _ _ (init_context_run w1)).
  destruct (find_key_cases w1 es key Hst1 Hk) as (w2 & K2 & Hf).
  assert (Hst2 := keeps_store _ _ _ K2 Hst1).
  destruct Hf as [(pre & e & post & -> & Hpre & He & E2)|[Hno E2]]; run E2; cycle 1.
  { destruct (free_run w2) as (w3 & E3 & K3). rewrite decide_True by done. run E3.
    exists w3. rewrite log_get_no_key by done. split; [done|]. by repeat (etrans; [eassumption|]). }
  rewrite decide_False by auto.
  destruct (key_named_live _ _ He) as [Hlk _].
  destruct (visit_all_at (start_ctx w1) (log_start w1) pre e) as [Hca Hce].
  rewrite Hce. cbn [e_header idflags].
  rewrite <- (keeps_start_ctx _ _ K2), <- (kp_info _ _ K2) in *.
  destruct (find_value_cases w2 _ pre e post (e_flags e) Hst2 eq_refl Hlk eq_refl)
    as (w3 & K3 & Hv).
  assert (Hst3 := keeps_store _ _ _ K3 Hst2).
  destruct Hv as [(p & v & q & -> & Hp1 & Hv & E3)|[Hno E3]]; run E3; cycle 1.
  { destruct (free_run w3) as (w4 & E4 & K4). rewrite decide_True by done. run E4.
    exists w4. rewrite log_get_no_value by (done || apply Hst).
    split; [done|]. by repeat (etrans; [eassumption|]). }
  rewrite decide_False by auto.
  set (ctx := visit_all _ _ (p ++ [v])).
  assert (Hc : addr ctx = log_end (log_start w3) (pre ++ e :: p) ∧ entry ctx = e_header v).
  { subst ctx. rewrite (kp_info _ _ K3).
    destruct (visit_all_at (visit_all (start_ctx w2) (log_start w2) (pre ++ [e]))
                (log_end (log_start w2) (pre ++ [e])) p v) as [-> ->].
    split; [|done]. by rewrite <- log_end_app, <- (assoc_L (++)). }
  destruct Hc as [Ha Hh].
  destruct (realloc_run w3 (len (entry ctx) + 1)) as (w4 & E4 & K4). run E4. cbn [negb].
  rewrite Hh. cbn [e_header len idflags].
  destruct (read_entry_run w4 _ (pre ++ e :: p) v q ctx (zlength (e_data v))
              (keeps_store _ _ _ K4 Hst3)) as (w5 & E5 & K5).
  { by rewrite <- (assoc_L (++)). }
  { by rewrite (kp_info _ _ K4). }
  { done. }
  { done. }
  run E5. rewrite decide_False by auto. exists w5.
  rewrite (log_get_found _ _ _ p v q) by (done || apply Hst).
  split; [done|]. by repeat (etrans; [eassumption|]).
Qed.

(** ** Writing *)

(** max_key_id after a scan is the id of the last live key passed. *)
Lemma visit_all_max_key_id ctx a es :
  max_key_id (visit_all ctx a es) = from_option fst (max_key_id ctx) (last (log_keys es)).
Proof.
  revert ctx a. induction es as [|e es IH]; intros ctx a; [done|].
  cbn [visit_all]. rewrite IH, log_keys_cons.
  assert (Hm : max_key_id (visit ctx a e) = if live_key e then e_id e else max_key_id ctx).
  { unfold visit, note_entry, live_key. by destruct (e_live e), (e_is_value e). }
  rewrite Hm. destruct (live_key e); [|done].
  destruct (log_keys es) as [|k ks _] using rev_ind; [done|].
  change ((e_id e, e_data e) :: ks ++ [k]) with (((e_id e, e_data e) :: ks) ++ [k]).
  by rewrite !last_snoc.
Qed.

(** What set_data_locate finds out about a key. *)
Inductive located (w : world D) (es : list log_entry) (key : list Z)
  : sysparam_status_t → sysparam_context → Z → Z → Prop :=
  | loc_value pre e p v q ctx :
      es = pre ++ e :: p ++ v :: q → Forall (λ e, key_named key e = false) pre →
      key_named key e = true → Forall (λ x, value_with (e_id e) x = false) p →
      value_with (e_id e) v = true →
      ctx = visit_all (start_ctx w) (log_start w) ((pre ++ e :: p) ++ [v]) →
      located w es key SYSPARAM_OK ctx (e_id e) (log_end (log_start w) (pre ++ e :: p))
  | loc_key pre e post ctx :
      es = pre ++ e :: post → Forall (λ e, key_named key e = false) pre →
      key_named key e = true → Forall (λ x, value_with (e_id e) x = false) post →
      located w es key SYSPARAM_NOTFOUND ctx (e_id e) 0
  | loc_none ctx :
      Forall (λ e, key_named key e = false) es →
      ctx = lost_ctx (region_limit w) (visit_all (start_ctx w) (log_start w) es)
              (log_end (log_start w) es) →
      located w es key SYSPARAM_NOTFOUND ctx (-1) 0.

Lemma lost_ctx_max_key_id w es limit a :
  max_key_id (lost_ctx limit (visit_all (start_ctx w) (log_start w) es) a) = last_key_id es.
Proof. unfold lost_ctx, end_ctx. case_match; cbn; by rewrite visit_all_max_key_id. Qed.

Lemma f_id_idem e : f_id (e_id e) = e_id e.
Proof.
  unfold f_id, e_id, f_id. by rewrite <- Z.land_assoc, Z.land_diag.
Qed.

Lemma locate_run w es key :
  store w es → zlength key ≤ 0xffff →
  ∃ w' st ctx id old, set_data_locate key (zlength key) w = Some ((st, ctx, id, old), w') ∧
    keeps w w' ∧ located w es key st ctx id old.
Proof.
  intros Hst Hk. unfold set_data_locate.
  rewrite (bind_run _ _ _ _ _ (init_context_run w)).
  destruct (find_key_cases w es key Hst Hk) as (w1 & K1 & Hf).
  assert (Hst1 := keeps_store _ _ _ K1 Hst).
  destruct Hf as [(pre & e & post & -> & Hpre & He & E1)|[Hno E1]]; run E1; cycle 1.
  { rewrite decide_False by done. do 5 eexists. split; [done|]. split; [done|].
    by apply loc_none. }
  rewrite decide_True by done. destruct (key_named_live _ _ He) as [Hlk _].
  destruct (visit_all_at (start_ctx w) (log_start w) pre e) as [Hca Hce].
  rewrite Hce. cbn [e_header idflags]. change (Z.land (e_flags e) ENTRY_MASK_ID) with (e_id e).
  rewrite <- (keeps_start_ctx _ _ K1), <- (kp_info _ _ K1).
  destruct (find_value_cases w1 _ pre e post (e_id e) Hst1 eq_refl Hlk (f_id_idem e))
    as (w2 & K2 & Hv).
  destruct Hv as [(p & v & q & -> & Hp1 & Hv & E2)|[Hno E2]]; run E2; cycle 1.
  { rewrite decide_False by done. do 5 eexists. split; [done|]. split; [by etrans|].
    by eapply loc_key. }
  rewrite decide_True by done. do 5 eexists. split; [done|]. split; [by etrans|].
  assert (Ec : visit_all (visit_all (start_ctx w1) (log_start w1) (pre ++ [e]))
                 (log_end (log_start w1) (pre ++ [e])) (p ++ [v]) =
               visit_all (start_ctx w) (log_start w) ((pre ++ e :: p) ++ [v])).
  { rewrite <- visit_all_app, (keeps_start_ctx _ _ K1), (kp_info _ _ K1).
    by rewrite <- !(assoc_L (++)). }
  rewrite Ec, (proj1 (visit_all_at _ _ _ _)). by eapply loc_value.
Qed.

Lemma same_run w es pre v post ctx value (b : bool) key_len :
  store w es → es = pre ++ v :: post → addr ctx = log_end (log_start w) pre →
  entry ctx = e_header v →
  ∃ w', set_data_same ctx value (zlength value) key_len (if b then ENTRY_FLAG_BINARY else 0) w =
          Some (if decide ((e_data v, e_binary v) = (value, b)) then inl SYSPARAM_OK else inr tt, w')
        ∧ keeps w w'.
Proof.
  intros Hst -> Ha He. unfold set_data_same. rewrite He. cbn [e_header idflags len].
  assert (Hv : entry_ok v).
  { assert (H := rg_entries _ _ _ _ (st_region _ _ Hst)). by apply Forall_app in H as [_ [? _]%Forall_cons]. }
  rewrite binary_flag_eqb by apply Hv. fold (e_binary v).
  destruct (eqb (e_binary v) b) eqn:Eb; cbn [andb]; cycle 1.
  { exists w. rewrite decide_False; [by split|]. intros [= _ ?]. subst. by rewrite eqb_reflx in Eb. }
  apply eqb_prop in Eb.
  destruct (Z.eqb_spec (zlength (e_data v)) (zlength value)) as [El|El]; cycle 1.
  { exists w. rewrite decide_False; [by split|]. congruence. }
  assert (Hr : ∃ w1, (if key_len <? zlength value then realloc (zlength value) else mret true) w =
                 Some (true, w1) ∧ keeps w w1).
  { case_match; [apply realloc_run|]. by exists w. }
  destruct Hr as (w1 & E1 & K1). run E1. cbn [negb].
  destruct (read_entry_run w1 _ pre v post ctx (zlength value) (keeps_store _ _ _ K1 Hst))
    as (w2 & E2 & K2); [done | by rewrite (kp_info _ _ K1) | done | lia |].
  run E2. cbn [is_err status_code Z.ltb Z.compare].
  rewrite !firstn_all2 by lia. exists w2. split; [|by etrans].
  case_decide as Hd.
  - by rewrite decide_True by congruence.
  - by rewrite decide_False by congruence.
Qed.

Lemma store_laid_out w es : store w es ↔ laid_out w es ∧ log_ok es.
Proof. split; [intros []; by split|]. intros []. by split. Qed.

(** What an operation on an initialised store leaves as it was. *)
Record same_store (w w' : world D) : Prop := {
  ss_sem : w_sem w' = w_sem w;
  ss_force : force_compact (w_info w') = force_compact (w_info w);
  ss_base : cur_base (w_info w') = cur_base (w_info w);
  ss_alt : alt_base (w_info w') = alt_base (w_info w);
  ss_size : region_size (w_info w') = region_size (w_info w)
}.

#[global] Instance same_store_preorder : PreOrder same_store.
Proof.
  split; [by intros w|]. intros w1 w2 w3 [] []. split; congruence.
Qed.

Lemma keeps_same_store w w' : keeps w w' → same_store w w'.
Proof. intros [K1 K2 K3]. by split; rewrite ?K2, ?K3. Qed.

Lemma laid_out_bounds w es :
  laid_out w es →
  0 < cur_base (w_info w) ∧ log_start w ≤ end_addr (w_info w) ≤ region_limit w ∧
  region_limit w ≤ 4194304 ∧ end_addr (w_info w) `mod` 4 = 0.
Proof.
  intros [Hr He _ _ _]. assert (Hge := log_end_ge (log_start w) es (rg_entries _ _ _ _ Hr)).
  assert (Hfit := rg_fit _ _ _ _ Hr). assert (Hchip := rg_chip _ _ _ _ Hr).
  assert (Hb := rg_base _ _ _ _ Hr). change (chip_size sdk_flashchip) with 4194304 in *.
  split; [lia|]. split; [unfold REGION_HEADER_SIZE in *; lia|]. split; [lia|].
  rewrite He. apply log_end_al; [apply Hr|]. apply region_tail in Hr as [? ? ? ? ? ? ?]. tauto.
Qed.

(** Changing the log inside the current region leaves the headers alone. *)
Lemma laid_out_update w w' es es' :
  laid_out w es → same_store w w' →
  region_at (cell (w_dev w')) (cur_base (w_info w)) (region_size (w_info w)) es' →
  (∀ x, ¬ (log_start w ≤ x < region_limit w) → cell (w_dev w') x = cell (w_dev w) x) →
  end_addr (w_info w') = log_end (log_start w) es' →
  laid_out w' es'.
Proof.
  intros [Hr He Ha Hc Hl] [_ _ Sb Sa Ss] Hr' Hfr He'.
  assert (Hfr' : ∀ base act other, base = cur_base (w_info w) ∨ base = alt_base (w_info w) →
    header_at (cell (w_dev w)) base other act → header_at (cell (w_dev w')) base other act).
  { intros base act other Hbase. apply header_at_ext. intros x Hx. apply Hfr.
    destruct Ha as [_ _ Hadj], Hr as [_ _ ? ? _ _ _ _ _].
    change (sector_size sdk_flashchip) with 4096 in *.
    unfold REGION_HEADER_SIZE in *. destruct Hbase as [-> | ->]; zsolve. }
  split; rewrite ?Sb, ?Sa, ?Ss; auto.
Qed.

(** Writing an entry at the end of the log appends it. *)
Lemma append_run w es nid data :
  laid_out w es → 0 ≤ nid < 0x3fff → entry_ok (written nid data) →
  ENTRY_SIZE (zlength data) ≤ region_limit w - end_addr (w_info w) →
  ∃ w', _write_entry (end_addr (w_info w)) nid data (zlength data) w = Some (SYSPARAM_OK, w') ∧
        laid_out w' (es ++ [written nid data]) ∧ same_store w w' ∧
        end_addr (w_info w') = end_addr (w_info w) + ENTRY_SIZE (zlength data).
Proof.
  intros Hst Hid Hok Hroom. assert (Hb := laid_out_bounds _ _ Hst). destruct Hst as [Hr He Ha Hc Hl].
  assert (Hs : e_size (written nid data) = ENTRY_SIZE (zlength data)) by done.
  destruct (e_size_bounds _ Hok) as [Hsz _]. rewrite Hs in Hsz. unfold REGION_HEADER_SIZE in *.
  destruct (write_entry_run w (end_addr (w_info w)) nid data) as (w' & E & W);
    [lia | tauto | cbn; lia | apply Hok | apply Hok | done | |].
  { intros x Hx. apply (rg_blank _ _ _ _ Hr). unfold REGION_HEADER_SIZE. lia. }
  exists w'. split; [done|]. destruct W as [W1 W2 W3 W4].
  assert (Hi : w_info w' = info_set_end (w_info w) (end_addr (w_info w) + ENTRY_SIZE (zlength data))).
  { rewrite W3. unfold bumped. rewrite Z.eqb_refl, Hs. by rewrite u32_small by lia. }
  assert (S : same_store w w') by by split; rewrite ?Hi.
  split; [|split; [done | by rewrite Hi]].
  eapply laid_out_update; [by split | done | | |]; unfold REGION_HEADER_SIZE.
  - eapply region_append; [exact Hr | done | | |];
      unfold REGION_HEADER_SIZE; rewrite <- He; rewrite ?Hs; try done. lia.
  - intros x Hx. apply W2. rewrite Hs. lia.
  - rewrite Hi, log_end_app, <- He. done.
Qed.

(** Deleting an entry clears its "alive" flag. *)
Lemma kill_run w pre e post :
  laid_out w (pre ++ e :: post) →
  ∃ w', _delete_entry (log_end (log_start w) pre) w = Some (SYSPARAM_OK, w') ∧
        laid_out w' (pre ++ killed e :: post) ∧ same_store w w'.
Proof.
  intros Hst. assert (Hb := laid_out_bounds _ _ Hst). destruct Hst as [Hr He Ha Hc Hl].
  assert (Htl := region_tail _ _ _ _ Hr). apply tail_app in Htl.
  assert (Hen := tl_entries _ _ _ _ _ Htl). apply Forall_cons in Hen as [Hok Hpost].
  destruct Htl as [T1 T2 T3 _ T5 T6 T7]. destruct T5 as [Hat _].
  destruct (e_size_bounds _ Hok) as [Hsz _]. cbn [log_end] in T6.
  assert (Hge := log_end_ge (log_end (log_start w) pre + e_size e) post Hpost).
  unfold REGION_HEADER_SIZE in *.
  destruct (delete_entry_run w (log_end (log_start w) pre) e) as (w' & E & R1 & R2 & R3 & R4);
    unfold REGION_HEADER_SIZE in *; [lia | tauto | cbn; lia | done | done |].
  assert (S : same_store w w') by by split; rewrite ?R3, ?R4.
  exists w'. split; [done|]. split; [|done].
  eapply laid_out_update; [by split | done | | |]; unfold REGION_HEADER_SIZE.
  - by eapply region_kill.
  - intros x Hx. apply R2. lia.
  - by rewrite R3, log_end_kill.
Qed.

Lemma read_end_run w es :
  laid_out w es → end_addr (w_info w) + 4 ≤ region_limit w →
  ∃ w' ctx, init_write_context w = Some ((SYSPARAM_OK, ctx), w') ∧ keeps w w' ∧
            addr ctx = end_addr (w_info w).
Proof.
  intros Hst Hroom. assert (Htl := region_tail _ _ _ _ (la_region _ _ Hst)).
  rewrite <- (app_nil_r es) in Htl. apply tail_app in Htl.
  rewrite <- (la_end _ _ Hst) in Htl.
  destruct (tail_header _ _ _ _ _ Htl) as (w' & E & K & _); [lia|].
  unfold init_write_context. rewrite bind_get_info. cbn [addr ctx_set_addr]. run E.
  rewrite decide_True by done. do 2 eexists. split; [done|]. done.
Qed.

(** The last part of set_data_append: the value is written and the end of the
    log recorded. *)
Lemma append_value_run w es id (value : list Z) (b : bool) :
  laid_out w es → 1 ≤ id ≤ MAX_KEY_ID → Forall is_byte value → zlength value ≤ 0xffff →
  ENTRY_SIZE (zlength value) ≤ region_limit w - end_addr (w_info w) →
  let a := end_addr (w_info w) in
  ∃ w',
    (status ← _write_entry a (Z.lor (Z.lor id ENTRY_FLAG_VALUE) (if b then ENTRY_FLAG_BINARY else 0))
                value (zlength value);
     if is_err status then mret (inl status) else
     i ← get_info;
     _ ← put_info (info_set_end i (u32 (a + ENTRY_SIZE (zlength value))));
     mret (inr tt)) w = Some (inr tt : sysparam_status_t + unit, w') ∧
    laid_out w' (es ++ [value_entry id (value, b)]) ∧ same_store w w'.
Proof.
  intros Hst Hid Hb Hl Hroom a. assert (Hbd := laid_out_bounds _ _ Hst).
  destruct (value_entry_ok id (value, b) Hid Hb Hl) as (Hok & _).
  destruct (e_size_bounds _ Hok) as [Hsz _].
  change (e_size _) with (ENTRY_SIZE (zlength value)) in Hsz. unfold REGION_HEADER_SIZE in *.
  destruct (append_run w es (value_id id b) value Hst (value_id_bounds id b Hid) Hok Hroom)
    as (w1 & E1 & L1 & S1 & A1).
  fold (value_id id b). run E1. cbn [is_err status_code Z.ltb Z.compare].
  rewrite bind_get_info. eexists. split; [reflexivity|].
  assert (Hi : info_set_end (w_info w1) (u32 (a + ENTRY_SIZE (zlength value))) = w_info w1).
  { rewrite u32_small by (subst a; lia). subst a. rewrite <- A1. by destruct (w_info w1). }
  rewrite Hi. replace (w_set_info w1 (w_info w1)) with w1 by by destruct w1. done.
Qed.

Lemma append_old_run w es key key_len ctx id (value : list Z) (b : bool) :
  laid_out w es → 1 ≤ id ≤ MAX_KEY_ID → Forall is_byte value → zlength value ≤ 0xffff →
  ENTRY_SIZE (zlength value) ≤ region_limit w - end_addr (w_info w) →
  ∃ w', set_data_append key key_len ctx id value (zlength value)
          (if b then ENTRY_FLAG_BINARY else 0) w = Some (inr tt, w') ∧
    laid_out w' (es ++ [value_entry id (value, b)]) ∧ same_store w w'.
Proof.
  intros Hst Hid Hb Hl Hroom. unfold set_data_append.
  destruct (value_entry_ok id (value, b) Hid Hb Hl) as (Hok & _).
  destruct (e_size_bounds _ Hok) as [Hsz _].
  change (e_size _) with (ENTRY_SIZE (zlength value)) in Hsz.
  destruct (read_end_run w es Hst) as (w1 & c & E1 & K1 & Ha); [lia|]. run E1.
  rewrite Ha, (proj2 (Z.ltb_ge _ _)) by lia. cbn [mret M_ret].
  rewrite <- (kp_info _ _ K1) in *.
  destruct (append_value_run w1 es id value b (keeps_laid_out _ _ _ K1 Hst) Hid Hb Hl Hroom)
    as (w2 & E2 & L2 & S2).
  exists w2. split; [exact E2|]. split; [done|]. etrans; [|done]. by apply keeps_same_store.
Qed.

Lemma append_new_run w es key ctx (value : list Z) (b : bool) :
  let id := max_key_id ctx + 1 in
  laid_out w es → 1 ≤ id ≤ MAX_KEY_ID → Forall is_byte key → zlength key ≤ 0xffff →
  Forall is_byte value → zlength value ≤ 0xffff →
  ENTRY_SIZE (zlength value) + ENTRY_SIZE (zlength key) ≤ region_limit w - end_addr (w_info w) →
  ∃ w', set_data_append key (zlength key) ctx (-1) value (zlength value)
          (if b then ENTRY_FLAG_BINARY else 0) w = Some (inr tt, w') ∧
    laid_out w' ((es ++ [written id key]) ++ [value_entry id (value, b)]) ∧ same_store w w'.
Proof.
  intros id Hst Hid Hkb Hkl Hb Hl Hroom. unfold set_data_append.
  assert (Hbd := laid_out_bounds _ _ Hst).
  destruct (key_entry_ok id key Hid Hkb Hkl) as (Hkok & _).
  destruct (value_entry_ok id (value, b) Hid Hb Hl) as (Hok & _).
  destruct (e_size_bounds _ Hok) as [Hsz _]. destruct (e_size_bounds _ Hkok) as [Hksz _].
  change (e_size (value_entry _ _)) with (ENTRY_SIZE (zlength value)) in Hsz.
  change (e_size (written _ _)) with (ENTRY_SIZE (zlength key)) in Hksz.
  destruct (read_end_run w es Hst) as (w1 & c & E1 & K1 & Ha); [lia|]. run E1.
  rewrite Ha. cbn [Z.ltb Z.compare]. rewrite <- (kp_info _ _ K1) in *.
  assert (Hst1 := keeps_laid_out _ _ _ K1 Hst).
  destruct (append_run w1 es id key Hst1) as (w2 & E2 & L2 & S2 & A2);
    [unfold MAX_KEY_ID in Hid; lia | done | lia |].
  rewrite bind_assoc_run. run E2. rewrite bind_ret. cbn [is_err status_code Z.ltb Z.compare].
  unfold REGION_HEADER_SIZE in *.
  rewrite (u32_small (end_addr (w_info w1) + ENTRY_SIZE (zlength key))) by lia. rewrite <- A2.
  destruct (append_value_run w2 _ id value b L2 Hid Hb Hl) as (w3 & E3 & L3 & S3).
  { destruct S2 as [_ _ -> _ ->]. lia. }
  exists w3. split; [exact E3|]. split; [done|]. etrans; [by apply keeps_same_store|].
  by etrans.
Qed.

(** ** sysparam_set_data *)

(** The space a set needs at the end of the log. *)
Definition room_needed (es : list log_entry) (key value : list Z) : Z :=
  ENTRY_SIZE (zlength value) +
  match key_id_of (log_keys es) key with Some _ => 0 | None => ENTRY_SIZE (zlength key) end.

(** Keys and values the interface accepts. *)
Record key_ok (key : list Z) : Prop := {
  ko_bytes : Forall is_byte key;
  ko_len : 1 ≤ zlength key ≤ 0xffff
}.
Record value_ok (value : list Z) : Prop := {
  vo_bytes : Forall is_byte value;
  vo_len : 1 ≤ zlength value ≤ 0xffff
}.

Lemma make_room_run w key ctx key_id old value_len :
  let needed := ENTRY_SIZE value_len +
                if key_id <? 0 then ENTRY_SIZE (u16 (zlength key)) else 0 in
  needed ≤ free_space (w_info w) → force_compact (w_info w) = false →
  (key_id < 0 → max_key_id ctx < MAX_KEY_ID) →
  set_data_make_room key ctx key_id old value_len w = Some (inr (ctx, key_id, old), w).
Proof.
  intros needed Hroom Hforce Hid. unfold set_data_make_room. rewrite bind_get_info.
  fold needed. rewrite (proj2 (Z.ltb_ge _ _)) by done. rewrite bind_ret, bind_get_info.
  fold needed. rewrite (proj2 (Z.ltb_ge _ _)) by done.
  replace ((key_id <? 0) && (MAX_KEY_ID <=? max_key_id ctx)) with false.
  2: { destruct (Z.ltb_spec key_id 0); [|done]. cbn. symmetry. apply Z.leb_gt. auto. }
  rewrite bind_ret, bind_get_info. by rewrite Hforce.
Qed.

Lemma free_space_eq w es :
  laid_out w es → free_space (w_info w) = region_limit w - end_addr (w_info w).
Proof.
  intros Hst. assert (Hb := laid_out_bounds _ _ Hst). unfold free_space, REGION_HEADER_SIZE in *.
  apply u32_small. lia.
Qed.

(** What a set has to achieve. *)
Definition sets (w : world D) (es : list log_entry) (key : list Z) (v : list Z * bool)
    (r : option (sysparam_status_t * world D)) : Prop :=
  ∃ w' es', r = Some (SYSPARAM_OK, w') ∧ store w' es' ∧ w_sem w' = w_sem w ∧
            force_compact (w_info w') = false ∧ log_map es' = <[key := v]> (log_map es).

Section write.
  Context (w : world D) (es : list log_entry) (key value : list Z) (b : bool).
  Hypothesis Hst : store w es.
  Hypothesis Hkey : key_ok key.
  Hypothesis Hval : value_ok value.
  Hypothesis Hforce : force_compact (w_info w) = false.
  Hypothesis Hroom : room_needed es key value ≤ region_limit w - end_addr (w_info w).

  Abbreviation flag := (if b then ENTRY_FLAG_BINARY else 0).

Lemma write_laid_out : laid_out w es.
Proof using Hst. by apply store_laid_out in Hst as [? _]. Qed.

(** The key is known: what make_room and append do. *)
Lemma write_known_run ctx id old :
  key_id_of (log_keys es) key = Some id →
  ∃ w', set_data_write key ctx id old value (zlength value) flag w =
          set_data_finish SYSPARAM_OK old w' ∧
        laid_out w' (es ++ [value_entry id (value, b)]) ∧ same_store w w'.
Proof using HpOk Hst Hval Hforce Hroom.
  intros Hk. assert (Hlay := write_laid_out). destruct Hval as [Hvb Hvl].
  assert (Hid : 1 ≤ id ≤ MAX_KEY_ID).
  { assert (Hpos := lo_pos _ (st_log _ _ Hst)). rewrite Forall_forall in Hpos. apply Hpos.
    apply key_id_of_elem in Hk. apply list_elem_of_fmap. by exists (id, key). }
  unfold room_needed in Hroom. rewrite Hk in Hroom. unfold set_data_write.
  assert (Emr := make_room_run w key ctx id old (zlength value)).
  rewrite (proj2 (Z.ltb_ge id 0)), (free_space_eq _ _ Hlay) in Emr by lia.
  rewrite (bind_run _ _ _ _ _ (Emr Hroom Hforce ltac:(lia))). cbv zeta.
  destruct (append_old_run w es key (u16 (zlength key)) ctx id value b)
    as (w1 & E1 & L1 & S1); [done | done | done | lia | lia |]. run E1.
  by exists w1.
Qed.

Lemma write_value_run pre e p v q ctx :
  es = pre ++ e :: p ++ v :: q → Forall (λ e, key_named key e = false) pre →
  key_named key e = true → value_with (e_id e) v = true →
  sets w es key (value, b)
    (set_data_write key ctx (e_id e) (log_end (log_start w) (pre ++ e :: p)) value
       (zlength value) flag w).
Proof using HpOk Hst Hval Hforce Hroom.
  intros Hes Hpre He Hv. assert (Hb := laid_out_bounds _ _ write_laid_out).
  assert (Hk := key_id_of_split key pre e (p ++ v :: q) Hpre He). rewrite <- Hes in Hk.
  destruct (write_known_run ctx _ (log_end (log_start w) (pre ++ e :: p)) Hk)
    as (w1 & -> & L1 & S1).
  assert (Hen := rg_entries _ _ _ _ (st_region _ _ Hst)). assert (Hok := st_log _ _ Hst).
  rewrite Hes in L1, Hen, Hok.
  replace ((pre ++ e :: p ++ v :: q) ++ [value_entry (e_id e) (value, b)])
    with ((pre ++ e :: p) ++ v :: (q ++ [value_entry (e_id e) (value, b)])) in L1
    by (rewrite <- !(assoc_L (++)); cbn; by rewrite <- (assoc_L (++))).
  unfold set_data_finish. rewrite (proj2 (Z.eqb_neq _ _)).
  2: { change (pre ++ e :: p ++ v :: q) with (pre ++ (e :: p) ++ v :: q) in Hen.
       rewrite (assoc_L (++)) in Hen. apply Forall_app in Hen as [Hen _].
       assert (Hge := log_end_ge (log_start w) _ Hen). unfold REGION_HEADER_SIZE in *. lia. }
  cbn [negb]. rewrite <- (ss_base _ _ S1).
  destruct (kill_run w1 _ _ _ L1) as (w2 & E2 & L2 & S2).
  destruct (log_del_value pre e p v q key Hok Hen Hpre He Hv) as (Hok' & Hm & Hk' & Hv').
  destruct (log_set_value _ _ key (value, b) Hok' Hk' Hv') as [Hok'' Hm''];
    [apply Hval | destruct Hval; cbn; lia |].
  exists w2, ((pre ++ e :: p ++ killed v :: q) ++ [value_entry (e_id e) (value, b)]).
  assert (S := transitivity S1 S2).
  split; [exact E2|]. split; [|split; [apply S|split; [by rewrite (ss_force _ _ S)|]]].
  - apply store_laid_out. split; [|done].
    replace ((pre ++ e :: p ++ killed v :: q) ++ [value_entry (e_id e) (value, b)])
      with ((pre ++ e :: p) ++ killed v :: (q ++ [value_entry (e_id e) (value, b)])); [done|].
    rewrite <- !(assoc_L (++)); cbn; by rewrite <- (assoc_L (++)).
  - rewrite Hm'', Hm, Hes. apply insert_delete_eq.
Qed.

Lemma write_key_run pre e post ctx :
  es = pre ++ e :: post → Forall (λ e, key_named key e = false) pre →
  key_named key e = true → Forall (λ x, value_with (e_id e) x = false) post →
  sets w es key (value, b) (set_data_write key ctx (e_id e) 0 value (zlength value) flag w).
Proof using HpOk Hst Hval Hforce Hroom.
  intros Hes Hpre He Hno. assert (Hok := st_log _ _ Hst).
  assert (Hk := key_id_of_split key pre e post Hpre He). rewrite <- Hes in Hk.
  assert (Hlk := proj1 (key_named_live _ _ He)).
  assert (Hv : value_of (log_values es) (e_id e) = None).
  { rewrite Hes in Hok |- *. rewrite value_of_after by done. by apply value_of_none. }
  destruct (write_known_run ctx _ 0 Hk) as (w1 & -> & L1 & S1).
  destruct (log_set_value _ _ key (value, b) Hok Hk Hv) as [Hok'' Hm''];
    [apply Hval | destruct Hval; cbn; lia |].
  do 2 eexists. split; [done|]. split; [by apply store_laid_out|]. split; [apply S1|].
  by rewrite (ss_force _ _ S1).
Qed.

Lemma write_new_run ctx :
  Forall (λ e, key_named key e = false) es → max_key_id ctx = last_key_id es →
  last_key_id es < MAX_KEY_ID →
  sets w es key (value, b) (set_data_write key ctx (-1) 0 value (zlength value) flag w).
Proof using HpOk Hst Hkey Hval Hforce Hroom.
  intros Hno Hmax Hlast. assert (Hlay := write_laid_out). assert (Hok := st_log _ _ Hst).
  assert (H0 := last_key_id_ge _ Hok). destruct Hval as [Hvb Hvl], Hkey as [Hkb Hkl].
  assert (Hk := key_id_of_none key es Hno). unfold room_needed in Hroom. rewrite Hk in Hroom.
  assert (Emr := make_room_run w key ctx (-1) 0 (zlength value)).
  rewrite u16_small, (free_space_eq _ _ Hlay) in Emr by (unfold is_u16; lia).
  unfold set_data_write. rewrite (bind_run _ _ _ _ _ (Emr Hroom Hforce ltac:(lia))).
  cbv zeta. rewrite u16_small by (unfold is_u16; lia).
  destruct (append_new_run w es key ctx value b) as (w1 & E1 & L1 & S1);
    [done | lia | done | lia | done | lia | lia |]. run E1.
  destruct (log_add_key es key Hok Hk) as (Hok1 & Hm1 & Hk1 & Hv1); [lia | done | lia |].
  rewrite Hmax in L1.
  destruct (log_set_value _ _ key (value, b) Hok1 Hk1 Hv1 Hvb) as [Hok'' Hm'']; [cbn; lia|].
  do 2 eexists. split; [done|]. split; [by apply store_laid_out|]. split; [apply S1|].
  rewrite (ss_force _ _ S1). by rewrite Hm'', Hm1.
Qed.

End write.

Lemma sets_keeps w w1 es key v r : keeps w w1 → sets w1 es key v r → sets w es key v r.
Proof.
  intros K (w' & es' & ? & ? & ? & ?). exists w', es'. do 2 (split; [done|]).
  split; [|done]. by rewrite <- (kp_sem _ _ K).
Qed.

(** The address of an entry is never 0. *)
Lemma log_end_pos w es pre post :
  store w es → es = pre ++ post → log_end (log_start w) pre ≠ 0.
Proof.
  intros Hst ->. assert (Hf := rg_entries _ _ _ _ (st_region _ _ Hst)).
  apply Forall_app in Hf as [Hf _]. assert (Hge := log_end_ge (log_start w) _ Hf).
  assert (H0 := rg_base _ _ _ _ (st_region _ _ Hst)). unfold REGION_HEADER_SIZE in *. lia.
Qed.

Lemma body_set_run w es key value (b : bool) :
  store w es → key_ok key → value_ok value → force_compact (w_info w) = false →
  room_needed es key value ≤ region_limit w - end_addr (w_info w) →
  (key_id_of (log_keys es) key = None → last_key_id es < MAX_KEY_ID) →
  sets w es key (value, b) (set_data_body key (zlength key) value (zlength value) b w).
Proof.
  intros Hst Hkey Hval Hforce Hroom Hlast. unfold set_data_body.
  destruct (locate_run w es key Hst) as (w1 & st & ctx & id & old & E1 & K1 & Hloc);
    [apply Hkey|]. run E1.
  replace (is_err st) with false by (by destruct Hloc).
  rewrite (proj2 (Z.eqb_neq (zlength value) 0)) by (destruct Hval; lia).
  apply (sets_keeps w w1); [done|]. assert (Hst1 := keeps_store _ _ _ K1 Hst).
  rewrite <- (kp_info _ _ K1) in *.
  destruct Hloc as [pre e p v q ctx Hes Hpre He Hp1 Hv Hctx
                   |pre e post ctx Hes Hpre He Hno|ctx Hno Hctx].
  - assert (Hes' : es = (pre ++ e :: p) ++ v :: q) by (by rewrite Hes, <- (assoc_L (++))).
    destruct (visit_all_at (start_ctx w) (log_start w) (pre ++ e :: p) v) as [Ha Hen].
    rewrite <- Hctx in Ha, Hen.
    assert (H0 := log_end_pos w1 es _ _ Hst1 Hes'). rewrite (kp_info _ _ K1) in H0.
    rewrite (proj2 (Z.eqb_neq _ _)) by done. cbn [negb]. rewrite <- (kp_info _ _ K1) in *.
    destruct (same_run w1 es _ v q ctx value b (zlength key) Hst1 Hes' Ha Hen) as (w2 & E2 & K2).
    run E2. case_decide as Hsame.
    + exists w2, es. split; [done|]. split; [by eapply keeps_store|].
      split; [apply K2|]. split; [by rewrite (kp_info _ _ K2)|]. symmetry. apply insert_id.
      rewrite log_map_lookup, <- Hsame, Hes by apply Hst.
      eapply log_get_found; try done. rewrite <- Hes. apply Hst.
    + apply (sets_keeps w1 w2); [done|]. assert (Hst2 := keeps_store _ _ _ K2 Hst1).
      rewrite <- (kp_info _ _ K2) in *. by eapply write_value_run.
  - cbn [Z.eqb negb]. rewrite bind_ret. by eapply write_key_run.
  - cbn [Z.eqb negb]. rewrite bind_ret. apply write_new_run; try done.
    { rewrite Hctx. apply lost_ctx_max_key_id. }
    by apply Hlast, key_id_of_none.
Qed.

Lemma body_delete_run w es key data b :
  store w es → key_ok key →
  ∃ w' es', set_data_body key (zlength key) data 0 b w =
    Some (match log_get es key with Some _ => SYSPARAM_OK | None => SYSPARAM_NOTFOUND end, w') ∧
    store w' es' ∧ same_store w w' ∧ log_map es' = delete key (log_map es).
Proof.
  intros Hst Hkey. unfold set_data_body.
  destruct (locate_run w es key Hst) as (w1 & st & ctx & id & old & E1 & K1 & Hloc);
    [apply Hkey|]. run E1. assert (Hok := st_log _ _ Hst).
  replace (is_err st) with false by (by destruct Hloc). cbn [Z.eqb].
  assert (Hst1 := keeps_store _ _ _ K1 Hst). assert (S1 := keeps_same_store _ _ K1).
  assert (Hgone : log_get es key = None → log_map es = delete key (log_map es)).
  { intros Hn. symmetry. apply delete_id. by rewrite log_map_lookup. }
  destruct Hloc as [pre e p v q ctx Hes Hpre He Hp1 Hv Hctx
                   |pre e post ctx Hes Hpre He Hno|ctx Hno Hctx]; unfold set_data_finish.
  - assert (Hes' : es = (pre ++ e :: p) ++ v :: q) by (by rewrite Hes, <- (assoc_L (++))).
    rewrite (proj2 (Z.eqb_neq _ _)) by by eapply log_end_pos. cbn [negb].
    rewrite <- (kp_info _ _ K1) in *.
    assert (L1 := proj1 (proj1 (store_laid_out _ _) Hst1)). rewrite Hes' in L1.
    destruct (kill_run w1 _ _ _ L1) as (w2 & E2 & L2 & S2).
    assert (Hen' := rg_entries _ _ _ _ (st_region _ _ Hst)). rewrite Hes in Hen', Hok.
    destruct (log_del_value pre e p v q key Hok Hen' Hpre He Hv) as (Hok' & Hm & _).
    exists w2, (pre ++ e :: p ++ killed v :: q).
    rewrite Hes, (log_get_found pre e _ p v q key) by done.
    split; [exact E2|]. split; [|split; [by etrans|done]]. apply store_laid_out. split; [|done].
    by rewrite <- (assoc_L (++)) in L2.
  - exists w1, es.
    assert (Hg : log_get es key = None) by (subst es; by eapply log_get_no_value).
    rewrite Hg. split; [done|]. by split; [|split; [|apply Hgone]].
  - exists w1, es. assert (Hg := log_get_no_key _ _ Hno). rewrite Hg. split; [done|].
    by split; [|split; [|apply Hgone]].
Qed.

Lemma malloc_if_run (c : bool) w n :
  ∃ w', (if c then malloc n else mret true) w = Some (true, w') ∧ keeps w w'.
Proof. destruct c; [apply malloc_run|]. by exists w. Qed.

Lemma free_if_run (c : bool) w :
  ∃ w', (if c then free else mret tt) w = Some (tt, w') ∧ keeps w w'.
Proof. destruct c; [apply free_run|]. by exists w. Qed.

(** The mutex and the two buffers around the body. *)
Lemma set_data_wrap w es key (value : option (list Z)) value_len aligned (b : bool) :
  store w es → w_sem w = false → key_ok key → value_len ≤ MAX_VALUE_LEN →
  ∃ w1, like w w1 ∧ w_sem w1 = true ∧
  ∀ st w2,
    set_data_body key (zlength key) (default [] value)
      (match value with Some _ => value_len | None => 0 end) b w1 = Some (st, w2) →
    ∃ w3, sysparam_set_data key value value_len aligned b w = Some (st, w3) ∧
          like w2 w3 ∧ w_sem w3 = false.
Proof.
  intros Hst Hsem [Hkb Hkl] Hvl. unfold sysparam_set_data.
  rewrite bind_get_info, (store_base _ _ Hst), u16_small by (unfold is_u16; lia).
  rewrite (proj2 (Z.eqb_neq (zlength key) 0)) by lia.
  rewrite (proj2 (Z.ltb_ge MAX_KEY_LEN (zlength key))) by (unfold MAX_KEY_LEN; lia).
  rewrite (proj2 (Z.ltb_ge MAX_VALUE_LEN value_len)) by done.
  assert (Et : xSemaphoreTake w = Some (tt, w_set_sem w true))
    by (unfold xSemaphoreTake; by rewrite Hsem).
  run Et. set (vl := match value with Some _ => value_len | None => 0 end).
  destruct (malloc_if_run (negb (vl =? 0) && negb aligned) (w_set_sem w true) vl)
    as (w1 & E1 & K1).
  run E1. cbn [negb].
  destruct (malloc_run w1 (zlength key)) as (w2 & E2 & K2). run E2. cbn [negb].
  assert (K : keeps (w_set_sem w true) w2) by by etrans.
  exists w2. split; [|split].
  { apply keeps_like in K. eapply like_trans; [|exact K]. by split. }
  { by rewrite (kp_sem _ _ K). }
  intros st w3 E3. run E3.
  destruct (free_if_run (negb (vl =? 0) && negb aligned) w3) as (w4 & E4 & K4). run E4.
  destruct (free_run w4) as (w5 & E5 & K5). run E5.
  eexists. split; [reflexivity|]. split; [|done].
  assert (K' : keeps w3 w5) by by etrans. destruct K' as [C I _]. by split.
Qed.

(** ** The contract *)

(** What the public functions promise of a state [w'] reached from [w]. *)
Record represents (w : world D) (m : gmap (list Z) (list Z * bool)) : Prop := {
  rp_log : ∃ es, store w es ∧ log_map es = m;
  rp_sem : w_sem w = false
}.

Lemma set_data_sets w es key value aligned b :
  store w es → w_sem w = false → force_compact (w_info w) = false →
  key_ok key → value_ok value →
  room_needed es key value ≤ region_limit w - end_addr (w_info w) →
  (key_id_of (log_keys es) key = None → last_key_id es < MAX_KEY_ID) →
  ∃ w', sysparam_set_data key (Some value) (zlength value) aligned b w = Some (SYSPARAM_OK, w') ∧
        represents w' (<[key := (value, b)]> (log_map es)) ∧ force_compact (w_info w') = false.
Proof.
  intros Hst Hsem Hforce Hkey Hval Hroom Hlast.
  destruct (set_data_wrap w es key (Some value) (zlength value) aligned b Hst Hsem Hkey)
    as (w1 & L1 & _ & Hwrap); [apply Hval|].
  assert (Hst1 := like_store _ _ _ L1 Hst). rewrite <- (lk_info _ _ L1) in *.
  destruct (body_set_run w1 es key value b Hst1 Hkey Hval Hforce Hroom Hlast)
    as (w2 & es' & E2 & Hst2 & _ & Hf2 & Hm).
  destruct (Hwrap _ _ E2) as (w3 & E3 & L3 & Hs3). exists w3. split; [done|]. split.
  - split; [|done]. exists es'. split; [by eapply like_store|done].
  - by rewrite (lk_info _ _ L3).
Qed.

Lemma set_data_deletes w es key value value_len aligned b :
  store w es → w_sem w = false → key_ok key →
  value_len ≤ MAX_VALUE_LEN → match value with Some _ => value_len | None => 0 end = 0 →
  ∃ w', sysparam_set_data key value value_len aligned b w =
          Some (match log_get es key with
                | Some _ => SYSPARAM_OK | None => SYSPARAM_NOTFOUND end, w') ∧
        represents w' (delete key (log_map es)) ∧
        force_compact (w_info w') = force_compact (w_info w).
Proof.
  intros Hst Hsem Hkey Hvl Hv0.
  destruct (set_data_wrap w es key value value_len aligned b Hst Hsem Hkey Hvl)
    as (w1 & L1 & _ & Hwrap). rewrite Hv0 in Hwrap.
  assert (Hst1 := like_store _ _ _ L1 Hst).
  destruct (body_delete_run w1 es key (default [] value) b Hst1 Hkey)
    as (w2 & es' & E2 & Hst2 & S2 & Hm).
  destruct (Hwrap _ _ E2) as (w3 & E3 & L3 & Hs3). exists w3. split; [done|]. split.
  - split; [|done]. exists es'. split; [by eapply like_store|done].
  - by rewrite (lk_info _ _ L3), (ss_force _ _ S2), (lk_info _ _ L1).
Qed.

End spec.
