(* ===== verification/SysparamSet.v ===== *)
(** SysparamSet: sysparam_set_data when the region is full.

    The scan that measures the region, the compaction it leads to, and the
    append that follows: a set succeeds whenever the parameters it leaves fit
    into a region. *)

From stdpp Require Import sorting.
From S2P Require Import Prelude CString Flash Sysparam SysparamLog SysparamPairs SysparamFlash SysparamWrite SysparamCompact SysparamSpec.

Section set.
  Context {D : Type} {Dev : FlashDev D} {Fl : FlashSpec D} {Hp : Heap} {HpOk : HeapOk}.

  Implicit Types w : world D.

(** Nothing but [force_compact] (and the heap) changed. *)
Record scanned (w w' : world D) : Prop := {
  sc_cells : ∀ x, cell (w_dev w') x = cell (w_dev w) x;
  sc_info : w_info w' = info_set_force (w_info w) (force_compact (w_info w'));
  sc_sem : w_sem w' = w_sem w
}.

Lemma keeps_scanned w w' : keeps w w' → scanned w w'.
Proof. intros [H1 H2 H3]. split; try done. rewrite H2. by destruct (w_info w). Qed.

Lemma scanned_store w w' es : scanned w w' → store w es → store w' es.
Proof.
  intros [Hc Hi _] Hst. apply (like_store (w_set_info w (w_info w')) w'); [by split|].
  rewrite Hi. destruct Hst as [[H1 H2 H3 H4 H5] H6]. by split; [split|].
Qed.

(** No live key has the id that stands for the end of the log. *)
Lemma no_end_id es rest pre :
  log_ok es → es = pre ++ rest → Forall (λ e, e_matches ENTRY_ID_END false e = false) rest.
Proof.
  intros Hok ->. apply Forall_forall. intros e Hin. apply list_elem_of_split in Hin as (p & q & ->).
  unfold e_matches. destruct (e_live e) eqn:El; [|done]. destruct (e_is_value e) eqn:Ev; [done|].
  assert (Hk : live_key e = true) by (unfold live_key; by rewrite El, Ev).
  rewrite (assoc_L (++)) in Hok. assert (Hb := log_key_id _ _ _ Hok Hk).
  unfold MAX_KEY_ID, ENTRY_ID_END, ENTRY_ID_ANY in *. cbn [andb eqb].
  by rewrite (proj2 (Z.eqb_neq _ _)) by lia.
Qed.

(** The measuring scan, from a context that has passed [pre]. *)
Lemma scan_rest_run w es pre v q ctx :
  store w es → es = pre ++ v :: q →
  addr ctx = log_end (log_start w) pre → entry ctx = e_header v →
  ∃ w' ctx', _find_entry ctx ENTRY_ID_END false w = Some ((SYSPARAM_OK, ctx'), w') ∧ keeps w w' ∧
    compactable ctx' = compactable (visit_all ctx (log_end (log_start w) (pre ++ [v])) q) ∧
    unused_keys ctx' = unused_keys (visit_all ctx (log_end (log_start w) (pre ++ [v])) q).
Proof.
  intros Hst Hes Ha He. destruct (start_next w _ Hst) as (Htl & _ & _).
  rewrite Hes in Htl. assert (Hge := tl_addr _ _ _ _ _ (tail_app _ _ _ _ _ _ Htl)).
  apply tail_app_snoc in Htl. unfold REGION_HEADER_SIZE in Hge.
  destruct (find_entry_run w ctx ENTRY_ID_END false (log_end (log_start w) (pre ++ [v])) q Htl)
    as (w' & E & K).
  { right. rewrite Ha, He. split; [unfold REGION_HEADER_SIZE; lia|]. by rewrite log_end_app. }
  { rewrite Ha. unfold REGION_HEADER_SIZE. lia. }
  assert (Hno := no_end_id es q (pre ++ [v]) (st_log _ _ Hst)).
  rewrite <- (assoc_L (++)) in Hno. specialize (Hno Hes).
  destruct (scan_cases (region_limit w) ENTRY_ID_END (e_matches ENTRY_ID_END false) ctx
              (log_end (log_start w) (pre ++ [v])) q)
    as [(p & e & r & -> & _ & Hm & _)|[_ Hsc]].
  { apply Forall_app in Hno as [_ [Hm' _]%Forall_cons]. congruence. }
  rewrite Hsc in E. do 2 eexists. split; [exact E|]. split; [done|].
  unfold end_ctx. by case_match.
Qed.

(** The measuring scan after an unsuccessful search. *)
Lemma scan_end_run w es ctx :
  store w es → addr ctx = end_addr (w_info w) → entry ctx = {| idflags := 0; len := 0 |} →
  ∃ w' ctx', _find_entry ctx ENTRY_ID_END false w = Some ((SYSPARAM_OK, ctx'), w') ∧ scanned w w' ∧
    compactable ctx' = compactable ctx ∧ unused_keys ctx' = unused_keys ctx.
Proof.
  intros Hst Ha He. assert (Hlay := st_lay _ _ Hst).
  destruct (laid_out_bounds _ _ Hlay) as (H0 & H1 & H2 & Hal). unfold REGION_HEADER_SIZE in H1.
  destruct (decide (end_addr (w_info w) = region_limit w)) as [Hfull|Hroom].
  - (* the region is full: the scan steps over its end *)
    unfold _find_entry. rewrite bind_get_info. unfold scan_fuel.
    replace (Z.to_nat (region_size (w_info w) / 4 + 2))
      with (S (Z.to_nat (region_size (w_info w) / 4 + 1)))
      by (assert (Hs := rg_size _ _ _ _ (st_region _ _ Hst)); zsolve).
    cbn [_find_entry_loop]. rewrite bind_get_info, Ha, He. cbn [len].
    change (ENTRY_SIZE 0) with 4.
    rewrite !u32_small by lia. rewrite (proj2 (Z.eqb_neq (end_addr (w_info w)) _)) by lia.
    rewrite (proj2 (Z.ltb_lt (region_limit w) _)) by lia. cbn [negb andb].
    do 2 eexists. split; [reflexivity|]. split; [|done]. by split.
  - assert (Htl := region_tail _ _ _ _ (la_region _ _ Hlay)).
    rewrite <- (app_nil_r es) in Htl. apply tail_app in Htl.
    rewrite <- (la_end _ _ Hlay) in Htl. destruct Htl as [T1 T2 T3 T4 T5 T6 T7].
    destruct (find_entry_run w ctx ENTRY_ID_END false (end_addr (w_info w) + 4) [])
      as (w' & E & K).
    { assert (end_addr (w_info w) + 4 ≤ region_limit w).
      { destruct (la_region _ _ Hlay) as [_ Rb _ Rs _ _ _ _ _].
        change (sector_size sdk_flashchip) with 4096 in *. zsolve. }
      split; cbn [log_end log_at] in *; try done.
      - unfold REGION_HEADER_SIZE. zsolve.
      - intros x Hx. apply T7. lia. }
    { right. rewrite Ha, He. split; [lia|done]. }
    { rewrite Ha. lia. }
    do 2 eexists. split; [exact E|]. split; [by apply keeps_scanned|].
    unfold end_ctx. by case_match.
Qed.

(** Making room by compaction. *)
Lemma room_compact_run w es key ctx kid old vlen w1 ctx1 :
  let ps := pairs_in es es in
  let new := compacted 0 kid ps in
  let needed := ENTRY_SIZE vlen + if kid <? 0 then ENTRY_SIZE (u16 (zlength key)) else 0 in
  store w es →
  _find_entry ctx ENTRY_ID_END false w = Some ((SYSPARAM_OK, ctx1), w1) → scanned w w1 →
  free_space (w_info w) < needed →
  needed ≤ u32 (free_space (w_info w) + compactable ctx1) ∨ 0 < unused_keys ctx1 →
  0 ≤ needed → REGION_HEADER_SIZE + log_size new + needed ≤ region_size (w_info w) →
  (compacted_id 0 kid ps < 0 → zlength ps < MAX_KEY_ID) →
  ∃ w' ctx', set_data_make_room key ctx kid old vlen w =
               Some (inr (ctx', compacted_id 0 kid ps, 0), w') ∧
    laid_out w' new ∧ w_sem w' = w_sem w ∧ force_compact (w_info w') = false ∧
    needed ≤ region_limit w' - end_addr (w_info w') ∧ max_key_id ctx' = zlength ps.
Proof.
  intros ps new needed Hst Escan Hsc Hfull Hgo H0 Hfit Hids.
  assert (Hst1 := scanned_store _ _ _ Hsc Hst). assert (Hi := sc_info _ _ Hsc).
  assert (Hlen : zlength ps ≤ MAX_KEY_ID).
  { apply (po_room 0). apply log_pairs_ok; [apply Hst|]. apply (st_region _ _ Hst). }
  destruct (compact_params_run w1 es ctx1 kid Hst1) as (w2 & ctx2 & E2 & L2 & I2 & S2 & Hmax);
    [done | rewrite log_end_size, Hi; cbn [alt_base region_size info_set_force]; fold ps new; lia |].
  fold ps new in E2, L2, I2, Hmax.
  rewrite log_end_size, Hi in I2.
  assert (Hroom : needed ≤ region_limit w2 - end_addr (w_info w2)) 
    by (rewrite I2; cbn [cur_base region_size end_addr compacted_info alt_base info_set_force]; lia).
  assert (Hfree := free_space_eq _ _ L2).
  unfold set_data_make_room. rewrite bind_get_info. fold needed.
  rewrite (proj2 (Z.ltb_lt _ _)) by done. rewrite bind_assoc_run. run Escan.
  replace ((needed <=? u32 (free_space (w_info w) + compactable ctx1)) || (0 <? unused_keys ctx1))
    with true.
  2: { symmetry. apply orb_true_iff. rewrite Z.leb_le, Z.ltb_lt. done. }
  unfold compact_step. rewrite bind_assoc_run. run E2. cbn [is_err status_code Z.ltb Z.compare].
  rewrite bind_ret, bind_get_info. fold needed. rewrite (proj2 (Z.ltb_ge _ _)) by lia.
  replace ((compacted_id 0 kid ps <? 0) && (MAX_KEY_ID <=? max_key_id ctx2)) with false.
  2: { symmetry. apply andb_false_iff. rewrite Z.ltb_ge, Z.leb_gt. lia. }
  assert (Hforce : force_compact (w_info w2) = false) by by rewrite I2.
  rewrite bind_ret, bind_get_info, Hforce.
  exists w2, ctx2. split; [done|]. split; [done|].
  split; [by rewrite S2, (sc_sem _ _ Hsc)|]. split; [by rewrite I2|]. done.
Qed.

(** The size of a region with the parameters a set leaves. *)
Definition final_size (es : list log_entry) (key value : list Z) : Z :=
  REGION_HEADER_SIZE +
  log_size (compacted 0 (default (-1) (key_id_of (log_keys es) key)) (pairs_in es es)) +
  room_needed es key value.

Lemma dead_size_app es es' : dead_size (es ++ es') = dead_size es + dead_size es'.
Proof. apply zsum_app. Qed.

Lemma unused_count_app es es' : unused_count (es ++ es') = unused_count es + unused_count es'.
Proof. unfold unused_count. rewrite log_keys_app, log_values_app, !length_app. lia. Qed.

Lemma unused_count_bounds es : - zlength es ≤ unused_count es ≤ zlength es.
Proof.
  unfold unused_count, log_keys, log_values. rewrite !length_fmap.
  assert (H1 := length_filter live_key es). assert (H2 := length_filter live_value es). lia.
Qed.

Lemma store_sizes w es :
  store w es →
  end_addr (w_info w) = log_start w + log_size es ∧
  0 ≤ dead_size es ≤ log_size es ∧ 4 * zlength es ≤ log_size es ∧ log_size es ≤ 4194304.
Proof.
  intros Hst. assert (Hlay := st_lay _ _ Hst). destruct (laid_out_bounds _ _ Hlay) as (H0 & H1 & H2 & _).
  assert (Hen := rg_entries _ _ _ _ (la_region _ _ Hlay)).
  assert (Hend := la_end _ _ Hlay). rewrite log_end_size in Hend.
  assert (Hge := log_end_ge 0 es Hen). rewrite log_end_size in Hge.
  assert (Hd := dead_size_bounds _ Hen). unfold REGION_HEADER_SIZE in *. lia.
Qed.

Lemma entry_size_pos n : 0 ≤ n ≤ 0xffff → 4 ≤ ENTRY_SIZE n < n + 8.
Proof.
  intros Hn. unfold ENTRY_SIZE, ENTRY_HEADER_SIZE, ROUND_TO_WORD_BOUNDARY.
  destruct (round4_bounds n); lia.
Qed.

Section full.
  Context (w : world D) (es : list log_entry) (key value : list Z) (b : bool).
  Hypothesis Hst : store w es.
  Hypothesis Hkey : key_ok key.
  Hypothesis Hval : value_ok value.
  Hypothesis Hforce : force_compact (w_info w) = false.
  Hypothesis Hfit : final_size es key value ≤ region_size (w_info w).

  Abbreviation flag := (if b then ENTRY_FLAG_BINARY else 0).
  Abbreviation ps := (pairs_in es es).

Lemma full_entries : Forall entry_ok es.
Proof using Hst. apply (st_region _ _ Hst). Qed.

(** The counters of the scan when the key has a value. *)
Lemma scan_value_run pre e p v q :
  es = pre ++ e :: p ++ v :: q → live_value v = true →
  let ctx := visit_all (start_ctx w) (log_start w) ((pre ++ e :: p) ++ [v]) in
  ∃ w1 ctx1, _find_entry (ctx_add_compactable ctx (e_size v)) ENTRY_ID_END false w =
               Some ((SYSPARAM_OK, ctx1), w1) ∧ scanned w w1 ∧
    compactable ctx1 = dead_size es + e_size v ∧ unused_keys ctx1 = unused_count es.
Proof using Hst HpOk.
  intros Hes Hlv ctx. assert (Hes' : es = (pre ++ e :: p) ++ v :: q) by by rewrite Hes, <- (assoc_L (++)).
  assert (Hes'' : es = ((pre ++ e :: p) ++ [v]) ++ q) by by rewrite Hes', <- !(assoc_L (++)).
  destruct (store_sizes _ _ Hst) as (_ & Hd & Hl & Hm). assert (Hen := full_entries).
  assert (Hen' := Hen). rewrite Hes'' in Hen'. apply Forall_app in Hen' as [Hen1 Hen2].
  assert (Hv : entry_ok v) by by apply Forall_app in Hen1 as [_ [? _]%Forall_cons].
  destruct (e_size_bounds v Hv) as [Hsz _]. assert (Hvl := ok_len _ Hv).
  assert (Hdd : dead_size es = dead_size ((pre ++ e :: p) ++ [v]) + dead_size q)
    by by rewrite <- dead_size_app, <- Hes''.
  assert (Hd1 := dead_size_bounds _ Hen1). assert (Hd2 := dead_size_bounds _ Hen2).
  assert (Hc : compactable ctx = dead_size ((pre ++ e :: p) ++ [v])).
  { apply visit_all_compactable; cbn; [done|lia|lia]. }
  destruct (visit_all_at (start_ctx w) (log_start w) (pre ++ e :: p) v) as [Ha He]. fold ctx in Ha, He.
  destruct (scan_rest_run w es (pre ++ e :: p) v q (ctx_add_compactable ctx (e_size v)) Hst Hes' Ha He)
    as (w1 & ctx1 & E1 & K1 & C1 & U1).
  exists w1, ctx1. split; [done|]. split; [by apply keeps_scanned|].
  assert (Hcc : compactable (ctx_add_compactable ctx (e_size v)) = compactable ctx + e_size v)
    by (cbn; apply u32_small; lia).
  assert (Hlen : zlength es = zlength ((pre ++ e :: p) ++ [v]) + zlength q)
    by (rewrite Hes'' at 1; rewrite (length_app ((pre ++ e :: p) ++ [v])); lia).
  split.
  - rewrite C1, visit_all_compactable, Hcc; [lia | done | lia | lia].
  - assert (Hu : unused_keys ctx = unused_count ((pre ++ e :: p) ++ [v])).
    { subst ctx. rewrite visit_all_unused by (cbn [start_ctx ctx_set_addr zero_context unused_keys]; lia).
      done. }
    assert (Hub : - zlength ((pre ++ e :: p) ++ [v]) ≤ unused_count ((pre ++ e :: p) ++ [v])
                  ≤ zlength ((pre ++ e :: p) ++ [v])).
    { apply unused_count_bounds. }
    rewrite U1, visit_all_unused; cbn [unused_keys ctx_add_compactable]; rewrite Hu; [|lia].
    by rewrite <- unused_count_app, <- Hes''.
Qed.

(** When no key is without a value, the scan counts what compaction frees. *)
Lemma recovered_value id v :
  value_of (log_values es) id = Some v → unused_count es ≤ 0 →
  region_size (w_info w) - REGION_HEADER_SIZE - log_size (compacted 0 id ps) ≤
  u32 (free_space (w_info w) + (dead_size es + value_size v)).
Proof using Hst.
  intros Hv Hun. assert (Hok := st_log _ _ Hst). assert (Hall := pairs_all_size es Hok Hun).
  assert (Hfree := free_space_eq _ _ (st_lay _ _ Hst)).
  destruct (store_sizes _ _ Hst) as (Hend & Hd & _ & Hmax).
  destruct (laid_out_bounds _ _ (st_lay _ _ Hst)) as (Hb1 & Hb2 & Hb3 & _).
  destruct (value_of_ok _ _ _ full_entries Hv) as [_ Hvl].
  assert (Hpos := entry_size_pos (zlength v.1)). fold (value_size v) in Hpos.
  assert (Hcs : zsum pair_size ps ≤ log_size (compacted 0 id ps) + value_size v).
  { apply compacted_size_found; [by apply log_pairs_ok, full_entries| |lia].
    intros [e' v'] Hin Hide. cbn in Hide |- *. apply list_elem_of_omap in Hin as (e0 & _ & Hin).
    destruct (live_key e0); [|done].
    destruct (value_of (log_values es) (e_id e0)) eqn:Ev; [|done]. cbn in Hin.
    injection Hin as -> ->. rewrite Hide in Ev. congruence. }
  unfold REGION_HEADER_SIZE in *. rewrite u32_small by lia. lia.
Qed.

(** The compaction that replaces a value. *)
Lemma write_value_compact pre e p v q :
  es = pre ++ e :: p ++ v :: q → Forall (λ e, key_named key e = false) pre →
  key_named key e = true → Forall (λ x, value_with (e_id e) x = false) p →
  value_with (e_id e) v = true →
  free_space (w_info w) < room_needed es key value →
  let ctx := visit_all (start_ctx w) (log_start w) ((pre ++ e :: p) ++ [v]) in
  sets w es key (value, b)
    (set_data_write key (ctx_add_compactable ctx (e_size v)) (e_id e)
       (log_end (log_start w) (pre ++ e :: p)) value (zlength value) flag w).
Proof using Hst Hval Hfit HpOk.
  intros Hes Hpre He Hp1 Hv Hfull ctx. assert (Hok := st_log _ _ Hst).
  assert (Hk := key_id_of_split key pre e (p ++ v :: q) Hpre He). rewrite <- Hes in Hk.
  assert (Hlk := proj1 (key_named_live _ _ He)).
  assert (Hval' : value_of (log_values es) (e_id e) = Some (e_data v, e_binary v)).
  { rewrite Hes in Hok |- *. rewrite value_of_after by done. by apply value_of_split. }
  assert (Hlv : live_value v = true) by (unfold value_with in Hv; by apply andb_true_iff in Hv as [? _]).
  destruct (scan_value_run pre e p v q Hes Hlv) as (w1 & ctx1 & E1 & Hsc & C1 & U1).
  fold ctx in E1. unfold final_size, room_needed in *. rewrite Hk in *.
  change (default (-1) (Some (e_id e))) with (e_id e) in Hfit.
  destruct Hval as [Hvb Hvl]. assert (Hpos := entry_size_pos (zlength value)).
  destruct (store_sizes _ _ Hst) as (Hend & Hd & _ & Hmax). assert (Hps := log_pairs_ok _ Hok full_entries).
  assert (Hid : 1 ≤ e_id e ≤ MAX_KEY_ID) by (rewrite Hes in Hok; by eapply log_key_id).
  destruct (compact_log_value es key _ _ Hok full_entries Hk Hval') as (Hm & Hk' & Hv').
  destruct (compact_log es (e_id e) Hok full_entries) as (Hok' & _ & _).
  assert (Hid' : 1 ≤ compacted_id 0 (e_id e) ps ≤ MAX_KEY_ID).
  { assert (Hpp := lo_pos _ Hok'). rewrite Forall_forall in Hpp. apply Hpp.
    apply key_id_of_elem in Hk'. apply list_elem_of_fmap. by exists (compacted_id 0 (e_id e) ps, key). }
  assert (Hneg : (e_id e <? 0) = false) by (apply Z.ltb_ge; lia).
  destruct (room_compact_run w es key (ctx_add_compactable ctx (e_size v)) (e_id e)
    (log_end (log_start w) (pre ++ e :: p)) (zlength value) w1 ctx1)
    as (w2 & ctx2 & E2 & L2 & S2 & F2 & R2 & _); rewrite ?Hneg in *; try done; try lia.
  { destruct (decide (unused_count es ≤ 0)) as [Hun|]; [|right; lia]. left.
    rewrite C1. assert (Hr := recovered_value _ _ Hval' Hun). change (value_size _) with (e_size v) in Hr.
    lia. }
  unfold set_data_write. run E2. cbv zeta.
  destruct (append_old_run w2 _ key (u16 (zlength key)) ctx2 (compacted_id 0 (e_id e) ps) value b L2)
    as (w3 & E3 & L3 & S3); [done | done | lia | lia |]. run E3.
  destruct (log_set_value _ _ key (value, b) Hok' Hk' Hv' Hvb) as [Hok'' Hm'']; [cbn; lia|].
  do 2 eexists. split; [reflexivity|]. split; [by apply store_laid_out|].
  split; [by rewrite (ss_sem _ _ S3)|]. split; [by rewrite (ss_force _ _ S3)|].
  rewrite Hm'', Hm. apply insert_delete_eq.
Qed.

(** The counters when the key is not there. *)
Lemma scan_none_run :
  let ctx := lost_ctx (region_limit w) (visit_all (start_ctx w) (log_start w) es)
               (log_end (log_start w) es) in
  ∃ w1 ctx1, _find_entry ctx ENTRY_ID_END false w = Some ((SYSPARAM_OK, ctx1), w1) ∧ scanned w w1 ∧
    compactable ctx1 = dead_size es ∧ unused_keys ctx1 = unused_count es.
Proof using Hst HpOk.
  intros ctx. destruct (store_sizes _ _ Hst) as (_ & Hd & Hl & Hm).
  destruct (scan_end_run w es ctx Hst) as (w1 & ctx1 & E1 & Hsc & C1 & U1).
  { rewrite (la_end _ _ (st_lay _ _ Hst)). subst ctx. unfold lost_ctx, end_ctx. by case_match. }
  { done. }
  exists w1, ctx1. split; [done|]. split; [done|]. rewrite C1, U1.
  assert (Hc : compactable ctx = compactable (visit_all (start_ctx w) (log_start w) es))
    by (subst ctx; unfold lost_ctx, end_ctx; by case_match).
  assert (Hu : unused_keys ctx = unused_keys (visit_all (start_ctx w) (log_start w) es))
    by (subst ctx; unfold lost_ctx, end_ctx; by case_match).
  rewrite Hc, Hu. split.
  - apply visit_all_compactable; [apply full_entries | done | cbn [start_ctx ctx_set_addr zero_context compactable]; lia].
  - rewrite visit_all_unused; [done|]. cbn [start_ctx ctx_set_addr zero_context unused_keys]. lia.
Qed.

Lemma recovered_none :
  unused_count es ≤ 0 →
  region_size (w_info w) - REGION_HEADER_SIZE - log_size (compacted 0 (-1) ps) ≤
  u32 (free_space (w_info w) + dead_size es).
Proof using Hst.
  intros Hun. assert (Hok := st_log _ _ Hst). assert (Hall := pairs_all_size es Hok Hun).
  assert (Hfree := free_space_eq _ _ (st_lay _ _ Hst)).
  destruct (store_sizes _ _ Hst) as (Hend & Hd & _ & Hmax).
  destruct (laid_out_bounds _ _ (st_lay _ _ Hst)) as (Hb1 & Hb2 & Hb3 & _).
  rewrite compacted_size_miss.
  2: { eapply not_in_above; [apply (log_pairs_ok _ Hok full_entries)|lia]. }
  unfold REGION_HEADER_SIZE in *. rewrite u32_small by lia. lia.
Qed.

(** The compaction that makes room for a new key. *)
Lemma write_new_compact :
  Forall (λ e, key_named key e = false) es → last_key_id es < MAX_KEY_ID →
  free_space (w_info w) < room_needed es key value →
  let ctx := lost_ctx (region_limit w) (visit_all (start_ctx w) (log_start w) es)
               (log_end (log_start w) es) in
  sets w es key (value, b) (set_data_write key ctx (-1) 0 value (zlength value) flag w).
Proof using Hst Hkey Hval Hfit HpOk.
  intros Hno Hlast Hfull ctx. assert (Hok := st_log _ _ Hst).
  assert (Hk := key_id_of_none key es Hno).
  destruct scan_none_run as (w1 & ctx1 & E1 & Hsc & C1 & U1). fold ctx in E1.
  unfold final_size, room_needed in *. rewrite Hk in *. change (default (-1) None) with (-1) in Hfit.
  destruct Hval as [Hvb Hvl], Hkey as [Hkb Hkl]. assert (Hpos := entry_size_pos (zlength value)).
  assert (Hpos' := entry_size_pos (zlength key)).
  assert (Hcount := pairs_count es Hok full_entries).
  destruct (compact_log_new es key Hok full_entries Hk) as (Hm & Hk' & Hid').
  destruct (compact_log es (-1) Hok full_entries) as (Hok' & Hlast' & _).
  destruct (room_compact_run w es key ctx (-1) 0 (zlength value) w1 ctx1)
    as (w2 & ctx2 & E2 & L2 & S2 & F2 & R2 & Hmax);
    rewrite ?(u16_small (zlength key)) in * by (unfold is_u16; lia); cbn [Z.ltb Z.compare] in *;
    try done; try lia.
  { destruct (decide (unused_count es ≤ 0)) as [Hun|]; [|right; lia]. left.
    rewrite C1. assert (Hr := recovered_none Hun). lia. }
  rewrite Hid' in E2. unfold set_data_write. run E2. cbv zeta.
  rewrite u16_small by (unfold is_u16; lia).
  destruct (append_new_run w2 _ key ctx2 value b L2) as (w3 & E3 & L3 & S3);
    [lia | done | lia | done | lia | lia |]. run E3.
  destruct (log_add_key _ key Hok' Hk') as (Hok1 & Hm1 & Hk1 & Hv1); [lia | done | lia |].
  rewrite Hlast' in *. rewrite Hmax in L3.
  destruct (log_set_value _ _ key (value, b) Hok1 Hk1 Hv1 Hvb) as [Hok'' Hm'']; [cbn; lia|].
  do 2 eexists. split; [reflexivity|]. split; [by apply store_laid_out|].
  split; [by rewrite (ss_sem _ _ S3)|]. split; [by rewrite (ss_force _ _ S3)|].
  by rewrite Hm'', Hm1, Hm.
Qed.

End full.

(** A set of a key that has a value, or that is new, succeeds whenever the
    parameters it leaves fit into a region. *)
Lemma body_set_full w es key value (b : bool) :
  store w es → key_ok key → value_ok value → force_compact (w_info w) = false →
  final_size es key value ≤ region_size (w_info w) →
  (key_id_of (log_keys es) key = None → last_key_id es < MAX_KEY_ID) →
  (log_get es key = None → key_id_of (log_keys es) key = None) →
  sets w es key (value, b) (set_data_body key (zlength key) value (zlength value) b w).
Proof.
  intros Hst Hkey Hval Hforce Hfit Hlast Hdang.
  assert (Hfree := free_space_eq _ _ (st_lay _ _ Hst)).
  destruct (decide (room_needed es key value ≤ free_space (w_info w))) as [Hroom|Hfull].
  { rewrite Hfree in Hroom. by apply body_set_run. }
  unfold set_data_body.
  destruct (locate_run w es key Hst) as (w1 & st & ctx & id & old & E1 & K1 & Hloc);
    [apply Hkey|]. run E1.
  replace (is_err st) with false by (by destruct Hloc).
  rewrite (proj2 (Z.eqb_neq (zlength value) 0)) by (destruct Hval; lia).
  apply (sets_keeps w w1); [done|]. assert (Hst1 := keeps_store _ _ _ K1 Hst).
  assert (Hsw := keeps_start_ctx _ _ K1). rewrite <- (kp_info _ _ K1) in *.
  destruct Hloc as [pre e p v q ctx Hes Hpre He Hp1 Hv Hctx
                   |pre e post ctx Hes Hpre He Hno|ctx Hno Hctx].
  - assert (Hes' : es = (pre ++ e :: p) ++ v :: q) by (by rewrite Hes, <- (assoc_L (++))).
    rewrite <- (kp_info _ _ K1), <- Hsw in Hctx.
    destruct (visit_all_at (start_ctx w1) (log_start w1) (pre ++ e :: p) v) as [Ha Hen].
    rewrite <- Hctx in Ha, Hen. assert (H0 := log_end_pos w1 es _ _ Hst1 Hes').
    rewrite (kp_info _ _ K1) in H0. rewrite (proj2 (Z.eqb_neq _ _)) by done. cbn [negb].
    rewrite <- (kp_info _ _ K1) in *.
    destruct (same_run w1 es _ v q ctx value b (zlength key) Hst1 Hes' Ha Hen) as (w2 & E2 & K2).
    run E2. case_decide as Hsame.
    + exists w2, es. split; [done|]. split; [by eapply keeps_store|].
      split; [apply K2|]. split; [by rewrite (kp_info _ _ K2)|]. symmetry. apply insert_id.
      rewrite log_map_lookup, <- Hsame, Hes by apply Hst.
      eapply log_get_found; try done. rewrite <- Hes. apply Hst.
    + apply (sets_keeps w1 w2); [done|]. assert (Hst2 := keeps_store _ _ _ K2 Hst1).
      assert (Hsw2 := keeps_start_ctx _ _ K2). rewrite <- (kp_info _ _ K2) in *.
      rewrite Hen, Hctx, <- Hsw2. cbn [e_header len].
      apply (write_value_compact w2 es key value b Hst2 Hval Hfit pre e p v q); try done. lia.
  - exfalso. assert (Hk := key_id_of_split key pre e post Hpre He). rewrite <- Hes in Hk.
    rewrite Hdang in Hk; [done|]. rewrite Hes. apply log_get_no_value; try done.
    rewrite <- Hes. apply Hst.
  - cbn [Z.eqb negb]. rewrite bind_ret. rewrite Hctx, <- (kp_info _ _ K1), <- Hsw.
    apply write_new_compact; try done; [by apply Hlast, key_id_of_none | lia].
Qed.

Lemma set_data_full w es key value aligned b :
  store w es → w_sem w = false → force_compact (w_info w) = false →
  key_ok key → value_ok value →
  final_size es key value ≤ region_size (w_info w) →
  (key_id_of (log_keys es) key = None → last_key_id es < MAX_KEY_ID) →
  (log_get es key = None → key_id_of (log_keys es) key = None) →
  ∃ w', sysparam_set_data key (Some value) (zlength value) aligned b w = Some (SYSPARAM_OK, w') ∧
        represents w' (<[key := (value, b)]> (log_map es)) ∧ force_compact (w_info w') = false.
Proof.
  intros Hst Hsem Hforce Hkey Hval Hfit Hlast Hdang.
  destruct (set_data_wrap w es key (Some value) (zlength value) aligned b Hst Hsem Hkey)
    as (w1 & L1 & _ & Hwrap); [apply Hval|].
  assert (Hst1 := like_store _ _ _ L1 Hst). rewrite <- (lk_info _ _ L1) in *.
  destruct (body_set_full w1 es key value b Hst1 Hkey Hval Hforce Hfit Hlast Hdang)
    as (w2 & es' & E2 & Hst2 & _ & Hf2 & Hm).
  destruct (Hwrap _ _ E2) as (w3 & E3 & L3 & Hs3). exists w3. split; [done|]. split.
  - split; [|done]. exists es'. split; [by eapply like_store|done].
  - by rewrite (lk_info _ _ L3).
Qed.

End set.
