(* ===== verification/SysparamInit.v ===== *)
(** SysparamInit: creating a parameter area and opening one.

    sysparam_create_area leaves an empty store on the flash; sysparam_init
    finds the area again, whichever half is active, and recovers the state
    that was there before: parameters survive a reboot.  At the end the
    iteration interface seen from a client: [iter_all] is the loop the header
    file documents (iter_start, iter_next until it is not SYSPARAM_OK,
    iter_end); it lists the parameters. *)

From stdpp Require Import sorting.
From S2P Require Import Prelude CString Flash Sysparam SysparamLog SysparamPairs SysparamFlash SysparamWrite SysparamCompact SysparamSpec SysparamSet.

(** ** Region headers *)

(** What a header says: its size in sectors, which half it is, and whether it
    is the active one. *)
Definition header_says (f n : Z) (second active : bool) : Prop :=
  0 ≤ f < 0x10000 ∧ Z.land f REGION_MASK_SIZE = n ∧
  Z.land f REGION_FLAG_SECOND = (if second then REGION_FLAG_SECOND else 0) ∧
  negb (Z.land f REGION_FLAG_ACTIVE =? 0) = active.

Lemma region_flags_say lo n (second active : bool) :
  0 < n ≤ 1024 →
  let hi := lo + 4096 * n in
  header_says (if second then region_flags hi lo active else region_flags lo hi active) n second active.
Proof.
  intros Hn hi.
  pose (F := λ (second active : bool) n,
    let f := Z.land (u16 n) REGION_MASK_SIZE in
    let f := if second then Z.lor f REGION_FLAG_SECOND else f in
    if active then Z.lor f REGION_FLAG_ACTIVE else f).
  assert (HF : (if second then region_flags hi lo active else region_flags lo hi active) =
               F second active n).
  { subst F. unfold region_flags. change (sector_size sdk_flashchip) with 4096. destruct second.
    - rewrite (proj2 (Z.ltb_ge hi lo)) by (subst hi; lia).
      replace ((hi - lo) / 4096) with n by (subst hi; zsolve). done.
    - rewrite (proj2 (Z.ltb_lt lo hi)) by (subst hi; lia).
      replace ((hi - lo) / 4096) with n by (subst hi; zsolve). done. }
  rewrite HF. unfold header_says.
  pose (P := λ n, let f := F second active n in
    (0 <=? f) && (f <? 0x10000) && (Z.land f REGION_MASK_SIZE =? n) &&
    (Z.land f REGION_FLAG_SECOND =? (if second then REGION_FLAG_SECOND else 0)) &&
    eqb (negb (Z.land f REGION_FLAG_ACTIVE =? 0)) active).
  assert (HP : P n = true).
  { apply (check_from_spec P 1025%nat 0); [|lia]. subst P F.
    destruct second, active; vm_compute; reflexivity. }
  subst P. cbv zeta beta in HP.
  by rewrite !andb_true_iff, Z.leb_le, Z.ltb_lt, !Z.eqb_eq, eqb_true_iff in HP;
    destruct HP as [[[[? ?] ?] ?] ?].
Qed.

Lemma parse_region_header_bytes h :
  0 ≤ magic h < 2 ^ 32 → is_u16 (flags_size h) → is_u16 (reserved h) →
  parse_region_header (region_header_bytes h) = h.
Proof.
  destruct h as [m f r]. cbn [magic flags_size reserved]. intros Hm Hf Hr.
  unfold parse_region_header, region_header_bytes. cbn [magic flags_size reserved]. f_equal.
  - by apply get32_le32.
  - change (u8 f + 256 * u8 (f / 256) = f). zsolve.
  - change (u8 r + 256 * u8 (r / 256) = r). zsolve.
Qed.

Lemma parse_header_at f base other active n second :
  header_at f base other active →
  header_says (region_flags base other active) n second active →
  parse_region_header (range f base REGION_HEADER_SIZE) = region_header_of base other active.
Proof.
  intros -> [Hf _]. apply parse_region_header_bytes; cbn [magic flags_size reserved region_header_of].
  - done.
  - done.
  - by split.
Qed.

Section init.
  Context {D : Type} {Dev : FlashDev D} {Fl : FlashSpec D} {Hp : Heap} {HpOk : HeapOk}.

  Implicit Types w : world D.

(** A store on the flash, without the RAM state that describes it. *)
Record on_flash (f : Z → Z) (cur alt size : Z) (es : list log_entry) : Prop := {
  of_region : region_at f cur size es;
  of_area : area_ok cur alt size;
  of_cur : header_at f cur alt true;
  of_alt : header_at f alt cur false;
  of_log : log_ok es
}.

Lemma store_on_flash w es :
  store w es → on_flash (cell (w_dev w)) (cur_base (w_info w)) (alt_base (w_info w))
                 (region_size (w_info w)) es.
Proof. intros [[] ?]. by split. Qed.

(** The headers of the lower and the upper half. *)
Lemma on_flash_headers f cur alt size es :
  on_flash f cur alt size es →
  let lo := Z.min cur alt in let hi := lo + size in let n := size / 4096 in
  0 < n ≤ 1024 ∧ size = 4096 * n ∧ 0 < lo ∧ lo `mod` 4096 = 0 ∧ hi + size ≤ 4194304 ∧
  (cur = lo ∧ alt = hi ∨ alt = lo ∧ cur = hi) ∧
  ∃ a1 a2 : bool, a1 = bool_decide (cur = lo) ∧ a2 = negb a1 ∧
    header_at f lo hi a1 ∧ header_at f hi lo a2.
Proof.
  intros [Hr [Ha Hac Hadj] Hc Hl _] lo hi n. destruct Hr as [Hb Hbal Hs Hsal Hch _ _ _ _].
  change (chip_size sdk_flashchip) with 4194304 in *.
  change (sector_size sdk_flashchip) with 4096 in *.
  split; [subst n; zsolve|]. split; [subst n; zsolve|].
  destruct Hadj as [Hadj|Hadj].
  - assert (Hlo : lo = cur) by (subst lo; lia). assert (Hhi : hi = alt) by (subst hi; lia).
    rewrite Hlo, Hhi. do 3 (split; [lia|]). split; [by left|].
    exists true, false. rewrite bool_decide_true by done. done.
  - assert (Hlo : lo = alt) by (subst lo; lia). assert (Hhi : hi = cur) by (subst hi; lia).
    rewrite Hlo, Hhi. split; [lia|]. split; [zsolve|]. split; [lia|]. split; [by right|].
    exists false, true. rewrite bool_decide_false by lia. done.
Qed.

Lemma read_header_run w base other active n second :
  0 ≤ base → base `mod` 4096 = 0 → base + 8 ≤ 4194304 →
  header_at (cell (w_dev w)) base other active →
  header_says (region_flags base other active) n second active →
  ∃ w' bs, flash_read base REGION_HEADER_SIZE w = Some ((SPI_FLASH_RESULT_OK, bs), w') ∧
           parse_region_header bs = region_header_of base other active ∧ keeps w w'.
Proof.
  intros H0 Hal Hc Hh Hs.
  destruct (flash_read_run w base REGION_HEADER_SIZE) as (w' & E & K);
    [done | done | zsolve | exact Hc |].
  do 2 eexists. split; [exact E|]. split; [by eapply parse_header_at|done].
Qed.

(** The scan for the end of the log that sysparam_init makes. *)
Lemma find_end_run w es :
  region_at (cell (w_dev w)) (cur_base (w_info w)) (region_size (w_info w)) es → log_ok es →
  ∃ w' ctx, _find_entry (start_ctx w) ENTRY_ID_END false w = Some ((SYSPARAM_OK, ctx), w') ∧
            keeps w w' ∧ addr ctx = log_end (log_start w) es.
Proof.
  intros Hr Hok.
  destruct (find_entry_run w (start_ctx w) ENTRY_ID_END false (log_start w) es) as (w' & E & K).
  { by apply region_tail. }
  { by left. }
  { intros _. destruct Hr. change (sector_size sdk_flashchip) with 4096 in *.
    unfold REGION_HEADER_SIZE. zsolve. }
  assert (Hno := no_end_id es es [] Hok eq_refl).
  destruct (scan_cases (region_limit w) ENTRY_ID_END (e_matches ENTRY_ID_END false) (start_ctx w)
              (log_start w) es) as [(p & e & r & -> & _ & Hm & _)|[_ Hsc]].
  { apply Forall_app in Hno as [_ [Hm' _]%Forall_cons]. congruence. }
  rewrite Hsc in E. do 2 eexists. split; [exact E|]. split; [done|].
  unfold end_ctx. by case_match.
Qed.

(** The end of sysparam_init, once the two halves are known. *)
Lemma init_finish_run w cur alt size es :
  on_flash (cell (w_dev w)) cur alt size es →
  ∃ w', (_ ← put_info {| cur_base := cur; alt_base := alt; end_addr := u32 (cur + size);
                         region_size := size; force_compact := false |};
         ctx ← _init_context;
         '(status, ctx) ← _find_entry ctx ENTRY_ID_END false;
         i ← get_info;
         if is_err status then
           _ ← put_info {| cur_base := 0; alt_base := 0; end_addr := 0;
                           region_size := region_size i; force_compact := force_compact i |};
           mret status
         else
           _ ← (if decide (status = SYSPARAM_OK) then put_info (info_set_end i (addr ctx))
                else mret tt);
           _ ← xSemaphoreCreateMutex;
           mret SYSPARAM_OK) w = Some (SYSPARAM_OK, w') ∧
    store w' es ∧ w_sem w' = false ∧ force_compact (w_info w') = false ∧
    cur_base (w_info w') = cur ∧ alt_base (w_info w') = alt.
Proof.
  intros [Hr Ha Hc Hl Hok]. set (i := {| cur_base := cur; region_size := size |}).
  destruct (find_end_run (w_set_info w i) es Hr Hok) as (w1 & ctx & E1 & [C1 I1 S1] & Hend).
  rewrite (bind_run _ _ _ _ (w_set_info w i)) by reflexivity.
  rewrite (bind_run _ _ _ _ _ (init_context_run (w_set_info w i))). run E1.
  rewrite bind_get_info, I1. cbn [is_err status_code Z.ltb Z.compare].
  rewrite decide_True by done. eexists. split; [reflexivity|].
  split; [|done]. split; [|done]. cbn [w_info w_set_info] in Hend.
  split; cbn; try done.
  - eapply region_at_ext; [|exact Hr]. intros; apply C1.
  - eapply header_at_ext; [|exact Hc]. intros; apply C1.
  - eapply header_at_ext; [|exact Hl]. intros; apply C1.
Qed.

Lemma init_run w cur alt size es top :
  on_flash (cell (w_dev w)) cur alt size es →
  let lo := Z.min cur alt in
  top = 0 ∨ lo ≤ top →
  ∃ w', sysparam_init lo top w = Some (SYSPARAM_OK, w') ∧ store w' es ∧ w_sem w' = false ∧
        force_compact (w_info w') = false ∧
        cur_base (w_info w') = cur ∧ alt_base (w_info w') = alt.
Proof.
  intros Hof lo Htop. set (hi := lo + size). set (n := size / 4096).
  destruct (on_flash_headers _ _ _ _ _ Hof) as (Hn & Hsize & Hlo0 & Hlo & Hhi & Hcase & a1 & a2 & Ha1 & Ha2 & Hh1 & Hh2).
  fold lo in Hlo0, Hlo, Hhi, Hcase, Ha1, Hh1, Hh2. fold n in Hn, Hsize. fold hi in Hhi, Hcase, Hh1, Hh2.
  assert (Hhi' : hi = lo + 4096 * n) by (subst hi; lia).
  assert (F1 := region_flags_say lo n false a1 Hn). assert (F2 := region_flags_say lo n true a2 Hn).
  cbv zeta in F1, F2. rewrite <- Hhi' in F1, F2.
  unfold sysparam_init. change (sector_size sdk_flashchip) with 4096.
  rewrite Hlo, Z.sub_0_r, u32_small by lia.
  set (top' := if (top =? 0) || (top =? lo) then lo + 4096 else top).
  assert (Htop' : lo < top').
  { subst top'. destruct (Z.eqb_spec top 0), (Z.eqb_spec top lo); cbn; lia. }
  replace (Z.to_nat ((top' - lo) / 4096 + 1)) with (S (Z.to_nat ((top' - lo) / 4096))) by zsolve.
  cbn [_init_scan]. rewrite (proj2 (Z.ltb_lt lo top')) by done.
  destruct (read_header_run w lo hi a1 n false) as (w1 & bs & E1 & P1 & K1);
    [lia | done | lia | done | done |].
  rewrite bind_assoc_run. run E1. rewrite decide_False by auto. rewrite P1.
  cbn [magic region_header_of]. rewrite Z.eqb_refl, bind_ret.
  cbn [flags_size region_header_of]. destruct F1 as (F1 & N1 & S1 & A1).
  rewrite N1, S1. cbn [Z.eqb negb]. rewrite (u32_small (lo + n * 4096)) by lia.
  replace (lo + n * 4096) with hi by lia.
  destruct (read_header_run w1 hi lo a2 n true) as (w2 & bs2 & E2 & P2 & K2);
    [lia | zsolve | lia | | done |].
  { eapply header_at_ext; [|exact Hh2]. intros; apply K1. }
  run E2. rewrite decide_False by auto. rewrite P2. destruct F2 as (F2 & N2 & S2 & A2).
  unfold _init_other_half. cbn [magic flags_size region_header_of]. rewrite Z.eqb_refl, S1, S2.
  cbn [Z.eqb REGION_FLAG_SECOND]. rewrite bind_ret. rewrite decide_False by auto.
  rewrite A1. replace (n * 4096) with size by lia.
  assert (K : keeps w w2) by by etrans.
  assert (Hof2 : on_flash (cell (w_dev w2)) cur alt size es).
  { destruct Hof as [? ? ? ? ?]. split; try done.
    - by eapply keeps_region.
    - eapply header_at_ext; [|done]. intros; apply K.
    - eapply header_at_ext; [|done]. intros; apply K. }
  destruct (init_finish_run w2 cur alt size es Hof2) as (w3 & E3 & R3). exists w3.
  split; [|exact R3]. rewrite <- E3. rewrite Ha1.
  destruct Hcase as [[Hc Hl]|[Hl Hc]].
  - rewrite bool_decide_true by done. by rewrite <- Hc, <- Hl.
  - rewrite bool_decide_false by lia. by rewrite <- Hc, <- Hl.
Qed.

(** ** Creating an area *)

Lemma region_nil f base size :
  0 < base → base `mod` 4096 = 0 → 0 < size → size `mod` 4096 = 0 → base + size ≤ 4194304 →
  blank f (base + REGION_HEADER_SIZE) (base + size) → region_at f base size [].
Proof.
  intros H0 H1 H2 H3 H4 H5. split; cbn [log_end log_at]; try done.
  unfold REGION_HEADER_SIZE. zsolve.
Qed.

(** Erasing both halves and writing the two headers. *)
Lemma format_area_run w base k :
  0 < base → base `mod` 4096 = 0 → 0 < k → base + 4096 * k + 4096 * k ≤ 4194304 →
  let size := k * 4096 in
  ∃ w1 w2 w3 w4,
    _format_region base k w = Some (SYSPARAM_OK, w1) ∧
    _format_region (base + size) k w1 = Some (SYSPARAM_OK, w2) ∧
    _write_region_header base (base + size) true w2 = Some (SYSPARAM_OK, w3) ∧
    _write_region_header (base + size) base false w3 = Some (SYSPARAM_OK, w4) ∧
    on_flash (cell (w_dev w4)) base (base + size) size [] ∧
    (∀ x, ¬ (base ≤ x < base + size + size) → cell (w_dev w4) x = cell (w_dev w) x) ∧
    w_info w4 = w_info w ∧ w_sem w4 = w_sem w.
Proof.
  intros H0 Hal Hk Hc size.
  destruct (format_region_run w base k) as (w1 & E1 & [C1 I1 S1]); [lia | done | lia | lia |].
  destruct (format_region_run w1 (base + size) k) as (w2 & E2 & [C2 I2 S2]);
    [subst size; lia | subst size; zsolve | lia | subst size; lia |].
  assert (B : blank (cell (w_dev w2)) base (base + size + size)).
  { intros x Hx. rewrite C2, C1. subst size. zbool; cbn [andb]; try done; lia. }
  destruct (write_region_header_run w2 base (base + size) true) as (w3 & E3 & [D3 F3 I3 S3]);
    [lia | zsolve | change (chip_size sdk_flashchip) with 4194304; lia | |].
  { apply fits_blank; [apply region_header_bytes_ok|]. intros x Hx. apply B.
    change (zlength (region_header_bytes _)) with 8 in Hx. subst size. lia. }
  destruct (write_region_header_run w3 (base + size) base false) as (w4 & E4 & [D4 F4 I4 S4]);
    [lia | subst size; zsolve | change (chip_size sdk_flashchip) with 4194304; subst size; lia | |].
  { apply fits_blank; [apply region_header_bytes_ok|]. intros x Hx.
    change (zlength (region_header_bytes _)) with 8 in Hx. rewrite F3 by (subst size; lia).
    apply B. subst size. lia. }
  exists w1, w2, w3, w4. do 4 (split; [done|]). split; [|split; [|split; congruence]].
  - split.
    + apply region_nil; [done | done | subst size; lia | subst size; zsolve | subst size; lia |].
      unfold REGION_HEADER_SIZE. intros x Hx. rewrite F4, F3 by (subst size; lia). apply B.
      subst size. lia.
    + split; [subst size; lia | change (chip_size sdk_flashchip) with 4194304; subst size; lia | by left].
    + eapply header_at_ext; [|exact D3]. unfold REGION_HEADER_SIZE. intros x Hx. apply F4.
      subst size. lia.
    + exact D4.
    + apply log_ok_nil.
  - intros x Hx. rewrite F4, F3, C2, C1 by (subst size; lia). subst size.
    zbool; cbn [andb]; try done; lia.
Qed.

Lemma create_run w base k :
  0 < base → base `mod` 4096 = 0 → 0 < k → base + 4096 * k + 4096 * k ≤ 4194304 →
  let size := k * 4096 in
  ∃ w', sysparam_create_area base (2 * k) true w = Some (SYSPARAM_OK, w') ∧
    on_flash (cell (w_dev w')) base (base + size) size [] ∧
    (∀ x, ¬ (base ≤ x < base + size + size) → cell (w_dev w') x = cell (w_dev w) x) ∧
    w_sem w' = w_sem w.
Proof.
  intros H0 Hal Hk Hc size. unfold sysparam_create_area.
  rewrite (proj2 (Z.ltb_ge (2 * k) 1)) by lia.
  assert (Hland : Z.land (2 * k) 1 = 0).
  { change 1 with (Z.ones 1). rewrite Z.land_ones by lia. zsolve. }
  rewrite Hland. cbn [Z.eqb negb orb].
  assert (Hshift : Z.shiftr (2 * k) 1 = k) by (rewrite Z.shiftr_div_pow2 by lia; zsolve).
  rewrite Hshift. change (sector_size sdk_flashchip) with 4096. fold size.
  rewrite bind_ret, decide_False by auto. rewrite bind_get_info.
  assert (Hz : ∃ w0, (if (cur_base (w_info w) =? base) || (alt_base (w_info w) =? base)
                      then put_info zero_info else mret tt) w = Some (tt, w0) ∧
               w_dev w0 = w_dev w ∧ w_sem w0 = w_sem w).
  { case_match; eexists; by split. }
  destruct Hz as (w0 & E0 & D0 & S0). run E0.
  destruct (format_area_run w0 base k H0 Hal Hk Hc)
    as (w1 & w2 & w3 & w4 & E1 & E2 & E3 & E4 & Hof & Hfr & _ & Hs). fold size in E2, E3, E4, Hof, Hfr.
  run E1. cbn [is_err status_code Z.ltb Z.compare].
  rewrite u32_small by (subst size; lia).
  run E2. cbn [is_err status_code Z.ltb Z.compare].
  run E3. cbn [is_err status_code Z.ltb Z.compare].
  run E4. cbn [is_err status_code Z.ltb Z.compare].
  exists w4. split; [done|]. split; [done|]. rewrite D0 in Hfr. split; [done|]. congruence.
Qed.

End init.

(** ** Iteration *)

Section client.
  Context {D : Type} {Dev : FlashDev D} {Hp : Heap}.

(** What a client sees of the iterator. *)
Definition iter_item (it : sysparam_iter_t) : list Z * (list Z * bool) :=
  (it_key it, (it_value it, it_binary it)).

Fixpoint iter_loop (fuel : nat) (it : sysparam_iter_t)
  : M D (sysparam_status_t * list (list Z * (list Z * bool))) :=
  match fuel with
  | O => diverge
  | S fuel =>
      '(status, it) ← sysparam_iter_next it;
      if decide (status = SYSPARAM_OK) then
        '(status, l) ← iter_loop fuel it;
        mret (status, iter_item it :: l)
      else mret (status, [])
  end.

Definition iter_all (fuel : nat) : M D (sysparam_status_t * list (list Z * (list Z * bool))) :=
  '(status, it) ← sysparam_iter_start;
  if decide (status = SYSPARAM_OK) then
    r ← iter_loop fuel it;
    _ ← sysparam_iter_end;
    mret r
  else mret (status, []).

End client.

(** The parameters as pairs of a key and its value. *)
Definition pair_item (p : pair) : list Z * (list Z * bool) := (e_data p.1, p.2).

Lemma log_map_pairs es : log_map es = list_to_map (pair_item <$> pairs_in es es).
Proof.
  unfold log_map. f_equal. generalize es at 2 4. intros rest.
  induction rest as [|e rest IH]; [done|]. rewrite pairs_in_cons, log_keys_cons.
  destruct (live_key e); [|done]. cbn. destruct (value_of (log_values es) (e_id e)); [|done].
  cbn. by rewrite IH.
Qed.

Section iterate.
  Context {D : Type} {Dev : FlashDev D} {Fl : FlashSpec D} {Hp : Heap} {HpOk : HeapOk}.

  Implicit Types w : world D.

Lemma iter_loop_run fuel w es done rest it :
  let base := cur_base (w_info w) in
  store w es → es = done ++ rest →
  next_at base (it_ctx it) (log_end (log_start w) done) →
  (addr (it_ctx it) = base → log_end (log_start w) done < region_limit w) →
  (length rest < fuel)%nat →
  ∃ w', iter_loop fuel it w =
          Some ((SYSPARAM_NOTFOUND, pair_item <$> pairs_in es rest), w') ∧ keeps w w'.
Proof.
  revert w done rest it. induction fuel as [|fuel IH]; intros w done rest it base Hst Hes Hnx Hlt Hf;
    [lia|]. cbn [iter_loop].
  destruct (iter_next_run w es done rest it (st_region _ _ Hst) (st_log _ _ Hst) Hes Hnx Hlt)
    as (w1 & st & it1 & E1 & K1 & Hfd). run E1.
  destruct Hfd as [it1 Hno|it1 p e q v -> Hnil He Hv Hs Hnx1 Hne1].
  { rewrite decide_False by done. exists w1. by rewrite Hno. }
  rewrite decide_True by done. assert (Hi := kp_info _ _ K1).
  destruct (IH w1 (done ++ p ++ [e]) q it1) as (w2 & E2 & K2); rewrite ?Hi; try done.
  - by eapply keeps_store.
  - by rewrite Hes, <- !(assoc_L (++)).
  - rewrite length_app in Hf. cbn in Hf. lia.
  - run E2. exists w2. split; [|by etrans].
    rewrite pairs_in_app, Hnil, pairs_in_cons, He, Hv. cbn.
    destruct Hs as [H1 H2 _ _ _]. unfold iter_item, pair_item at 1. cbn. by rewrite H1, H2.
Qed.

Lemma iter_all_run w es :
  store w es →
  ∃ w', iter_all (S (length es)) w =
          Some ((SYSPARAM_NOTFOUND, pair_item <$> pairs_in es es), w') ∧ keeps w w'.
Proof.
  intros Hst. unfold iter_all.
  destruct (iter_start_run w (store_base _ _ Hst)) as (w1 & it & E1 & K1 & Hit). run E1.
  rewrite decide_True by done. destruct (start_next w es Hst) as (_ & Hnx & Hlt).
  assert (Hi := kp_info _ _ K1).
  destruct (iter_loop_run (S (length es)) w1 es [] es it) as (w2 & E2 & K2);
    rewrite ?Hi, ?Hit; try done; [by eapply keeps_store | lia |].
  run E2. destruct (iter_end_run w2) as (w3 & E3 & K3). run E3.
  exists w3. split; [done|]. etrans; [exact K1|]. by etrans.
Qed.

End iterate.
