(* ===== verification/SysparamTotal.v ===== *)
(** SysparamTotal: sysparam on any device and any heap.

    Nothing is assumed about the flash (it may fail, lie or hold garbage) nor
    about malloc (any call may fail).  Every routine returns (its loops end),
    leaves the mutex as it found it, and frees what it allocated. *)

From S2P Require Import Prelude CString Flash Sysparam SysparamFlash.

(** Where the two regions lie, as [_sysparam_info] says. *)
Record geometry := Geo { g_cur : Z; g_alt : Z; g_size : Z }.

Definition geo (i : sysparam_info) : geometry := Geo (cur_base i) (alt_base i) (region_size i).
Definition geo_swap (g : geometry) : geometry := Geo (g_alt g) (g_cur g) (g_size g).

(** The regions end well below the top of the address space, so that address
    arithmetic on entries does not wrap around. *)
Record geo_ok (g : geometry) : Prop := {
  go_cur : 0 ≤ g_cur g;
  go_alt : 0 ≤ g_alt g;
  go_size : REGION_HEADER_SIZE ≤ g_size g;
  go_cur_end : g_cur g + g_size g ≤ 2 ^ 32 - 2 ^ 17;
  go_alt_end : g_alt g + g_size g ≤ 2 ^ 32 - 2 ^ 17
}.

Lemma geo_ok_swap g : geo_ok g → geo_ok (geo_swap g).
Proof. by intros []. Qed.

Section total.
  Context {D : Type} {Dev : FlashDev D} {Hp : Heap}.

(** [tot G m n Q]: from any world whose geometry is in [G], [m] returns an [a]
    with [Q a], in a world whose geometry is in [G], with the mutex as before
    and [n a] more blocks allocated. *)
Definition tot {A} (G : geometry → Prop) (m : M D A) (n : A → Z) (Q : A → Prop) : Prop :=
  ∀ w, G (geo (w_info w)) →
  ∃ a w', m w = Some (a, w') ∧ G (geo (w_info w')) ∧ w_sem w' = w_sem w ∧
          w_live w' = w_live w + n a ∧ Q a.

(** ** Rules *)

Lemma tot_ret {A} G (a : A) n Q : n a = 0 → Q a → tot G (mret a) n Q.
Proof. intros Hn HQ w HG. exists a, w. rewrite Hn, Z.add_0_r. done. Qed.

Lemma tot_bind {A B} G (m : M D A) (k : A → M D B) n p R Q :
  tot G m n R → (∀ a, R a → tot G (k a) (λ b, p b - n a) Q) → tot G (m ≫= k) p Q.
Proof.
  intros Hm Hk w HG. destruct (Hm w HG) as (a & w1 & E1 & HG1 & S1 & L1 & HR).
  destruct (Hk a HR w1 HG1) as (b & w2 & E2 & HG2 & S2 & L2 & HQ).
  exists b, w2. rewrite (bind_run _ _ _ _ _ E1). split; [done|]. split; [done|].
  split; [congruence|]. split; [lia|done].
Qed.

Lemma tot_weaken {A} G (m : M D A) n n' (Q Q' : A → Prop) :
  tot G m n Q → (∀ a, Q a → n a = n' a ∧ Q' a) → tot G m n' Q'.
Proof.
  intros Hm H w HG. destruct (Hm w HG) as (a & w1 & E1 & HG1 & S1 & L1 & HQ).
  destruct (H a HQ) as [Hn ?]. rewrite Hn in L1. by exists a, w1.
Qed.

(** A routine that keeps every geometry of [G]. *)
Lemma tot_each {A} (G : geometry → Prop) (m : M D A) n Q :
  (∀ g, G g → tot (eq g) m n Q) → tot G m n Q.
Proof.
  intros H w HG. destruct (H _ HG w eq_refl) as (a & w' & E & Hg & S & L & HQ).
  exists a, w'. rewrite <- Hg. done.
Qed.

Lemma tot_get_info G : tot G get_info (λ _, 0) (λ i, G (geo i)).
Proof. intros w HG. exists (w_info w), w. rewrite Z.add_0_r. done. Qed.

Lemma tot_put_info (G : geometry → Prop) i : G (geo i) → tot G (put_info i) (λ _, 0) (λ _, True).
Proof. intros Hi w HG. exists tt, (w_set_info w i). cbn. rewrite Z.add_0_r. done. Qed.

Lemma tot_read G a n : tot G (flash_read a n) (λ _, 0) (λ _, True).
Proof.
  intros w HG. unfold flash_read. destruct (spi_flash_read a n (w_dev w)) as [r d].
  exists r, (w_set_dev w d). cbn. rewrite Z.add_0_r. done.
Qed.

Lemma tot_write G a data n : tot G (flash_write a data n) (λ _, 0) (λ _, True).
Proof.
  intros w HG. unfold flash_write. destruct (spi_flash_write a data n (w_dev w)) as [r d].
  exists r, (w_set_dev w d). cbn. rewrite Z.add_0_r. done.
Qed.

Lemma tot_erase G s : tot G (flash_erase s) (λ _, 0) (λ _, True).
Proof.
  intros w HG. unfold flash_erase. destruct (spi_flash_erase_sector s (w_dev w)) as [r d].
  exists r, (w_set_dev w d). cbn. rewrite Z.add_0_r. done.
Qed.

Lemma tot_malloc G n : tot G (malloc n) (λ ok, if ok then 1 else 0) (λ _, True).
Proof. intros w HG. do 2 eexists. split; [reflexivity|]. cbn. case_match; repeat split; try done; lia. Qed.

Lemma tot_realloc G n : tot G (realloc n) (λ _, 0) (λ _, True).
Proof. intros w HG. do 2 eexists. split; [reflexivity|]. cbn. repeat split; try done; lia. Qed.

Lemma tot_free G : tot G free (λ _, -1) (λ _, True).
Proof. intros w HG. do 2 eexists. split; [reflexivity|]. cbn. repeat split; try done; lia. Qed.

(** ** Writing *)

Lemma tot_check G op k n Q :
  tot G op (λ _, 0) (λ _, True) → tot G k n Q → n SYSPARAM_ERR_IO = 0 → Q SYSPARAM_ERR_IO →
  tot G (CHECK_FLASH_OP op k) n Q.
Proof.
  intros Ho Hk Hn HQ. eapply tot_bind; [exact Ho|]. intros r _. case_decide.
  - eapply tot_weaken; [exact Hk|]. intros a Ha. split; [lia|done].
  - apply tot_ret; [lia|done].
Qed.

Create HintDb tot.
#[local] Hint Resolve tot_read tot_write tot_erase tot_malloc tot_realloc tot_free tot_get_info : tot.

(** One step: a call is followed by its continuation. *)
Ltac tstep := eapply tot_bind; [solve [eauto with tot]|]; intros ? ?; cbv beta.
Ltac tdone := apply tot_ret; [cbn; lia | first [done | cbn; congruence]].

Lemma tot_do_write G a data n : tot G (_do_write a data n) (λ _, 0) (λ _, True).
Proof. apply tot_check; auto with tot. by apply tot_ret. Qed.

Lemma tot_do_verify G a data n : tot G (_do_verify a data n) (λ _, 0) (λ _, True).
Proof. tstep. destruct a0 as [r bs]. repeat case_decide; tdone. Qed.

#[local] Hint Resolve tot_do_write tot_do_verify : tot.

Lemma tot_verify_loop G fuel a data n i :
  (Z.to_nat ((n - i) / VERIFY_BUF_SIZE + 1) ≤ fuel)%nat →
  tot G (_verify_loop fuel a data n i) (λ _, 0) (λ _, True).
Proof.
  revert i. unfold VERIFY_BUF_SIZE. induction fuel as [|fuel IH]; intros i Hf; cbn [_verify_loop];
    destruct (Z.ltb_spec i n); try tdone.
  - exfalso. zsolve.
  - tstep. case_decide; [|tdone]. eapply tot_weaken; [apply IH|].
    + unfold VERIFY_BUF_SIZE. zsolve.
    + intros. split; [lia|done].
Qed.

Lemma tot_write_and_verify G a data n : tot G (_write_and_verify a data n) (λ _, 0) (λ _, True).
Proof.
  tstep. destruct a0; cbn [negb]; [|tdone]. tstep. eapply tot_bind.
  { instantiate (1 := λ _, True). instantiate (1 := λ _, 0). case_decide; [|tdone].
    apply tot_verify_loop. by rewrite Z.sub_0_r. }
  intros st _. tstep. tdone.
Qed.

#[local] Hint Resolve tot_write_and_verify : tot.

Lemma tot_format_region G a n : tot G (_format_region a n) (λ _, 0) (λ _, True).
Proof.
  cut (∀ k s i, tot G (_format_loop s k i) (λ _, 0) (λ _, True)); [intros H; apply H|].
  intros k. induction k as [|k IH]; intros s i; cbn [_format_loop]; [tdone|].
  apply tot_check; auto with tot.
Qed.

Lemma tot_write_region_header G a o act :
  tot G (_write_region_header a o act) (λ _, 0) (λ _, True).
Proof. tstep. case_decide; [tdone|]. tstep. tdone. Qed.

Lemma tot_bump (G : geometry → Prop) a n : tot G (bump_end_addr a n) (λ _, 0) (λ _, True).
Proof.
  eapply tot_bind; [apply tot_get_info|]. intros i Hi. case_match; [|tdone].
  eapply tot_weaken; [by apply tot_put_info|]. intros. split; [lia|done].
Qed.

#[local] Hint Resolve tot_format_region tot_write_region_header tot_bump : tot.

Lemma tot_write_entry G a id data n : tot G (_write_entry a id data n) (λ _, 0) (λ _, True).
Proof.
  tstep. case_decide; [|case_decide].
  - tstep. case_decide; [tdone|]. tstep. tdone.
  - tdone.
  - tstep. tstep. case_decide; [tdone|].
    eapply tot_weaken; [apply tot_write_and_verify|]. intros. split; [lia|done].
Qed.

Lemma tot_delete_entry G a : tot G (_delete_entry a) (λ _, 0) (λ _, True).
Proof.
  tstep. destruct a0 as [r bs]. case_decide; [tdone|].
  apply tot_check; [auto with tot | tdone | cbn; lia | done].
Qed.

#[local] Hint Resolve tot_write_entry tot_delete_entry : tot.

(** ** Reading

    What comes back from a read is bytes. *)

Hypothesis read_bytes : ∀ a n d, Forall is_byte (spi_flash_read a n d).1.2.

Lemma tot_read_bytes G a n : tot G (flash_read a n) (λ _, 0) (λ r, Forall is_byte r.2).
Proof using read_bytes.
  intros w HG. unfold flash_read. assert (Hb := read_bytes a n (w_dev w)).
  destruct (spi_flash_read a n (w_dev w)) as [r d].
  exists r, (w_set_dev w d). cbn. rewrite Z.add_0_r. done.
Qed.

Lemma get16_bounds bs i : Forall is_byte bs → 0 ≤ get16 bs i ≤ 0xffff.
Proof.
  intros Hb. unfold get16. assert (H1 := at_byte bs i Hb). assert (H2 := at_byte bs (i + 1) Hb).
  unfold is_byte in *. lia.
Qed.

(** A context that points into the region. *)
Definition ctx_ok (g : geometry) (c : sysparam_context) : Prop :=
  g_cur g ≤ addr c ≤ g_cur g + g_size g ∧ 0 ≤ len (entry c) ≤ 0xffff.

(** The number of entries that may still follow. *)
Definition ahead (g : geometry) (c : sysparam_context) : Z := (g_cur g + g_size g - addr c) / 4 + 1.

Definition scan_post (g : geometry) (m : Z) (c : sysparam_context)
    (r : sysparam_status_t * sysparam_context) : Prop :=
  ctx_ok g r.2 ∧ (r.1 = SYSPARAM_OK → m ≠ ENTRY_ID_END → addr c + 4 ≤ addr r.2).

Lemma entry_size_bounds n : 0 ≤ n ≤ 0xffff → 4 ≤ ENTRY_SIZE n ≤ 0x10008.
Proof.
  intros Hn. unfold ENTRY_SIZE, ENTRY_HEADER_SIZE, ROUND_TO_WORD_BOUNDARY.
  destruct (round4_bounds n); lia.
Qed.

Lemma find_entry_end_post g m c c' : ctx_ok g c' → scan_post g m c (_find_entry_end c' m).
Proof.
  intros [Ha Hl]. unfold _find_entry_end, scan_post. destruct (Z.eqb_spec m ENTRY_ID_END); cbn.
  - by split.
  - split; [by split|]. done.
Qed.

Lemma tot_find_entry_loop g fuel c m fv :
  geo_ok g → ctx_ok g c → (Z.to_nat (ahead g c) ≤ fuel)%nat →
  tot (eq g) (_find_entry_loop fuel c m fv) (λ _, 0) (scan_post g m c).
Proof using read_bytes.
  intros Hg. revert c. induction fuel as [|fuel IH]; intros c [Ha Hl] Hf.
  { exfalso. unfold ahead in Hf. zsolve. }
  cbn [_find_entry_loop]. eapply tot_bind; [apply tot_get_info|]. intros i Hi. cbv beta.
  rewrite Hi in *. cbn [geo g_cur g_size] in Ha. destruct Hg as [G1 G2 G3 G4 G5].
  cbn [geo g_cur g_alt g_size] in G1, G2, G3, G4, G5. unfold REGION_HEADER_SIZE in *.
  assert (Hs := entry_size_bounds _ Hl).
  rewrite (u32_small (cur_base i + region_size i)) by lia.
  rewrite (u32_small (addr c + ENTRY_SIZE (len (entry c)))), (u32_small (addr c + 8)) by lia.
  set (next := addr c + ENTRY_SIZE (len (entry c))) in *.
  assert (Hend : ∀ c', ctx_ok (geo i) c' →
    tot (eq (geo i)) (mret (_find_entry_end c' m)) (λ b, 0 - 0) (scan_post (geo i) m c)).
  { intros c' Hc'. apply tot_ret; [lia|]. by apply find_entry_end_post. }
  destruct (negb (addr c =? cur_base i) && (cur_base i + region_size i <? next)) eqn:E1.
  { eapply tot_bind; [by apply tot_put_info|]. intros [] _. cbv beta.
    eapply tot_weaken; [apply Hend; by split|]. intros; split; [lia|done]. }
  destruct (negb (addr c =? cur_base i) && (next =? cur_base i + region_size i)) eqn:E2.
  { apply Hend. split; [|done]. cbn. apply andb_true_iff in E2 as [_ E2%Z.eqb_eq]. lia. }
  set (a := if addr c =? cur_base i then addr c + 8 else next).
  assert (Hb : addr c + 4 ≤ a ≤ cur_base i + region_size i).
  { subst a. destruct (Z.eqb_spec (addr c) (cur_base i)); [lia|]. cbn [negb andb] in *.
    apply Z.ltb_ge in E1. lia. }
  eapply tot_bind; [apply tot_read_bytes|]. intros [r bs] Hbs. cbn in Hbs. cbv beta iota.
  set (c1 := ctx_set_entry (ctx_set_addr c a) (parse_entry_header bs)).
  assert (Hc1 : ctx_ok (geo i) c1) by (split; cbn; [lia|by apply get16_bounds]).
  assert (Hout : ∀ c2, addr c2 = a → entry c2 = entry c1 → scan_post (geo i) m c (SYSPARAM_OK, c2)).
  { intros c2 Ha2 He2. split; cbn; [|lia]. split; [rewrite Ha2; cbn; lia|]. rewrite He2. apply Hc1. }
  case_decide; [apply tot_ret; [lia|]; split; [done|]; done|].
  case_match; [apply tot_ret; [lia|]; by apply find_entry_end_post|].
  assert (Hrec : ∀ c2, addr c2 = a → entry c2 = entry c1 →
    tot (eq (geo i)) (_find_entry_loop fuel c2 m fv) (λ b, 0 - 0 - 0) (scan_post (geo i) m c)).
  { intros c2 Ha2 He2. eapply tot_weaken; [apply IH|].
    - split; [rewrite Ha2; cbn; lia|]. rewrite He2. apply Hc1.
    - unfold ahead in *. rewrite Ha2. cbn [geo g_cur g_size] in *. zsolve.
    - intros [st c3] [H1 H2]. split; [lia|]. split; [done|]. cbn in *. rewrite Ha2 in H2. intros H3 H4. specialize (H2 H3 H4). lia. }
  repeat (case_match; try (apply Hrec; done); try (apply tot_ret; [lia|by apply Hout])).
Qed.

Lemma scan_fuel_ahead i c :
  ctx_ok (geo i) c → geo_ok (geo i) → (Z.to_nat (ahead (geo i) c) < scan_fuel i)%nat.
Proof.
  intros [Ha _] [_ _ Hs _ _]. unfold ahead, scan_fuel, REGION_HEADER_SIZE in *.
  cbn [geo g_cur g_size] in *. zsolve.
Qed.

Lemma tot_find_entry g c m fv :
  geo_ok g → ctx_ok g c → tot (eq g) (_find_entry c m fv) (λ _, 0) (scan_post g m c).
Proof using read_bytes.
  intros Hg Hc. eapply tot_bind; [apply tot_get_info|]. intros i ->. cbv beta.
  eapply tot_weaken; [apply tot_find_entry_loop; try done|].
  - assert (H := scan_fuel_ahead i c Hc Hg). lia.
  - intros; split; [lia|done].
Qed.

Lemma tot_read_payload G c n : tot G (_read_payload c n) (λ _, 0) (λ _, True).
Proof. tstep. destruct a as [r bs]. tdone. Qed.

#[local] Hint Resolve tot_read_payload : tot.

Lemma tot_find_key_loop g fuel c key n :
  geo_ok g → ctx_ok g c → (Z.to_nat (ahead g c) < fuel)%nat →
  tot (eq g) (_find_key_loop fuel c key n) (λ _, 0) (scan_post g ENTRY_ID_ANY c).
Proof using read_bytes.
  intros Hg. revert c. induction fuel as [|fuel IH]; intros c Hc Hf; [lia|]. cbn [_find_key_loop].
  eapply tot_bind; [by apply tot_find_entry|]. intros [st c1] [Hc1 Hadv]. cbn in Hc1, Hadv.
  cbv beta iota. case_decide as Hst; [apply tot_ret; [lia|]; split; [done|]; by intros|].
  assert (st = SYSPARAM_OK) as -> by (by destruct (decide (st = SYSPARAM_OK))).
  specialize (Hadv eq_refl ltac:(done)).
  assert (Hok : scan_post g ENTRY_ID_ANY c (SYSPARAM_OK, c1)) by (split; cbn; [done|lia]).
  assert (Hrec : tot (eq g) (_find_key_loop fuel c1 key n) (λ b, 0) (scan_post g ENTRY_ID_ANY c)).
  { eapply tot_weaken; [apply IH; [done|]|].
    - destruct Hc, Hc1. unfold ahead in *. zsolve.
    - intros [st c2] [H1 H2]. split; [lia|]. split; [done|]. cbn in *. intros H3 H4.
      specialize (H2 H3 H4). lia. }
  destruct key as [k|]; [|by apply tot_ret]. case_match.
  - tstep. destruct a as [st bs]. case_match; [apply tot_ret; [lia|]; split; [done|cbn; lia]|].
    case_decide; [apply tot_ret; [lia|done]|]. eapply tot_weaken; [exact Hrec|]. intros; split; [lia|done].
  - eapply tot_weaken; [exact Hrec|]. intros; split; [lia|done].
Qed.

Lemma tot_find_key g c key n :
  geo_ok g → ctx_ok g c → tot (eq g) (_find_key c key n) (λ _, 0) (scan_post g ENTRY_ID_ANY c).
Proof using read_bytes.
  intros Hg Hc. eapply tot_bind; [apply tot_get_info|]. intros i ->. cbv beta.
  eapply tot_weaken; [apply tot_find_key_loop; try done; by apply scan_fuel_ahead|].
  intros; split; [lia|done].
Qed.

Lemma tot_find_value g c id :
  geo_ok g → ctx_ok g c → tot (eq g) (_find_value c id) (λ _, 0) (λ r, ctx_ok g r.2).
Proof using read_bytes.
  intros Hg Hc. eapply tot_weaken; [by apply tot_find_entry|]. intros r [? _]. done.
Qed.

Lemma tot_init_context g :
  geo_ok g → tot (eq g) _init_context (λ _, 0) (λ c, ctx_ok g c ∧ addr c = g_cur g).
Proof.
  intros [_ _ Hs _ _]. eapply tot_bind; [apply tot_get_info|]. intros i ->. cbv beta.
  unfold REGION_HEADER_SIZE in Hs. apply tot_ret; [lia|]. split; [|done]. split; cbn in *; lia.
Qed.

(** ** The public functions that read *)

Definition owned {A} (r : sysparam_status_t * option A) : Z := match r.2 with Some _ => 1 | None => 0 end.

Lemma tot_get_data g key :
  geo_ok g → tot (eq g) (sysparam_get_data key) owned (λ r, r.1 ≠ SYSPARAM_OK → r.2 = None).
Proof using read_bytes.
  intros Hg. tstep. case_match; [tdone|]. tstep. destruct a0; cbn [negb]; [|tdone].
  eapply tot_bind; [by apply tot_init_context|]. intros c [Hc _]. cbv beta.
  eapply tot_bind; [by apply tot_find_key|]. intros [st c1] [Hc1 _]. cbv beta iota.
  case_decide; [tstep; tdone|].
  eapply tot_bind; [by apply tot_find_value|]. intros [st2 c2] Hc2. cbv beta iota.
  case_decide; [tstep; tdone|]. tstep. destruct a0; cbn [negb]; [|tstep; tdone].
  tstep. destruct a0 as [st3 bs]. case_decide; [tstep; tdone|]. tdone.
Qed.

Lemma tot_get_data_static g key n :
  geo_ok g → tot (eq g) (sysparam_get_data_static key n) (λ _, 0) (λ _, True).
Proof using read_bytes.
  intros Hg. tstep. case_match; [tdone|]. case_match; [tdone|].
  eapply tot_bind; [by apply tot_init_context|]. intros c [Hc _]. cbv beta.
  eapply tot_bind; [by apply tot_find_key|]. intros [st c1] [Hc1 _]. cbv beta iota.
  case_decide; [tdone|].
  eapply tot_bind; [by apply tot_find_value|]. intros [st2 c2] Hc2. cbv beta iota.
  case_decide; [tdone|]. tstep. destruct a0 as [st3 bs]. case_decide; tdone.
Qed.

Lemma tot_get_string g key :
  geo_ok g → tot (eq g) (sysparam_get_string key) owned (λ _, True).
Proof using read_bytes.
  intros Hg. eapply tot_bind; [by apply tot_get_data|]. intros [st r] Hr. cbv beta iota.
  destruct r as [[[buf n] b]|]; [|tdone]. case_decide as Hst; [by apply Hr in Hst|].
  destruct b; [tstep; tdone|tdone].
Qed.

Lemma tot_get_int32 g key :
  geo_ok g → tot (eq g) (sysparam_get_int32 key) (λ _, 0) (λ _, True).
Proof using read_bytes.
  intros Hg. eapply tot_bind; [by apply tot_get_string|]. intros [st r] _. cbv beta iota.
  destruct r as [buf|]; [|tdone]. destruct (strtol0 (cstring buf)) as [v [|]]; tstep; tdone.
Qed.

Lemma tot_get_bool g key :
  geo_ok g → tot (eq g) (sysparam_get_bool key) (λ _, 0) (λ _, True).
Proof using read_bytes.
  intros Hg. eapply tot_bind; [by apply tot_get_string|]. intros [st r] _. cbv beta iota.
  destruct r as [buf|]; [|tdone]. tstep. destruct (parse_bool (cstring buf)); tdone.
Qed.

(** ** Iteration and compaction *)

Lemma tot_iter_start g :
  geo_ok g → tot (eq g) sysparam_iter_start (λ r, match r.1 with SYSPARAM_OK => 2 | _ => 0 end)
               (λ r, is_err r.1 = false → r.1 = SYSPARAM_OK ∧ ctx_ok g (it_ctx r.2)).
Proof.
  intros Hg. tstep. case_match; [tdone|]. tstep. destruct a0; cbn [negb]; [|tdone].
  tstep. destruct a0; cbn [negb]; [|tstep; tdone].
  eapply tot_bind; [by apply tot_init_context|]. intros c [Hc _]. cbv beta. apply tot_ret; [cbn; lia|].
  done.
Qed.

Lemma tot_iter_fill G it vctx :
  tot G (_iter_fill it vctx) (λ _, 0) (λ r, it_ctx r.2 = it_ctx it).
Proof.
  unfold _iter_fill. cbv zeta. set (req := _ + 1).
  eapply tot_bind.
  { instantiate (1 := λ _, True). instantiate (1 := λ _, 0). case_match; [auto with tot|tdone]. }
  intros ok _. cbv beta. destruct ok; cbn [negb]; [|tdone]. set (it1 := if it_bufsize it <? req then iter_set_bufsize it req else it).
  assert (Hit : it_ctx it1 = it_ctx it) by (subst it1; by case_match).
  tstep. destruct a as [st key]. case_match; [tdone|].
  tstep. destruct a as [st2 v]. case_match; [tdone|]. tdone.
Qed.

Definition iter_post (g : geometry) (it : sysparam_iter_t) (r : sysparam_status_t * sysparam_iter_t)
  : Prop :=
  ctx_ok g (it_ctx r.2) ∧ (r.1 = SYSPARAM_OK → addr (it_ctx it) + 4 ≤ addr (it_ctx r.2)).

Lemma tot_iter_next_loop g fuel it :
  geo_ok g → ctx_ok g (it_ctx it) → (Z.to_nat (ahead g (it_ctx it)) < fuel)%nat →
  tot (eq g) (_iter_next_loop fuel it) (λ _, 0) (iter_post g it).
Proof using read_bytes.
  intros Hg. revert it. induction fuel as [|fuel IH]; intros it Hc Hf; [lia|]. cbn [_iter_next_loop].
  eapply tot_bind; [by apply tot_find_key|]. intros [st c1] [Hc1 Hadv]. cbn in Hc1, Hadv.
  cbv beta iota. case_decide as Hst; [apply tot_ret; [lia|]; split; [done|]; by intros|].
  assert (st = SYSPARAM_OK) as -> by (by destruct (decide (st = SYSPARAM_OK))).
  specialize (Hadv eq_refl ltac:(done)).
  eapply tot_bind; [by apply tot_find_value|]. intros [st2 c2] Hc2. cbv beta iota.
  case_match; [apply tot_ret; [lia|]; split; [done|cbn; lia]|]. case_decide.
  - eapply tot_weaken; [apply IH; [done|]|].
    + destruct Hc, Hc1. unfold ahead in *. cbn [it_ctx iter_set_ctx]. zsolve.
    + intros [st3 it3] [H1 H2]. split; [lia|]. split; [done|]. cbn in *. intros H3.
      specialize (H2 H3). lia.
  - eapply tot_weaken; [apply tot_iter_fill|]. intros [st3 it3] Hit. cbn in Hit.
    split; [lia|]. split; cbn; rewrite Hit; [done|lia].
Qed.

Lemma tot_iter_next g it :
  geo_ok g → ctx_ok g (it_ctx it) →
  tot (eq g) (sysparam_iter_next it) (λ _, 0) (iter_post g it).
Proof using read_bytes.
  intros Hg Hc. eapply tot_bind; [apply tot_get_info|]. intros i ->. cbv beta.
  eapply tot_weaken; [apply tot_iter_next_loop; try done; by apply scan_fuel_ahead|].
  intros; split; [lia|done].
Qed.

Lemma tot_compact_loop g fuel it a n kid :
  geo_ok g → ctx_ok g (it_ctx it) → (Z.to_nat (ahead g (it_ctx it)) < fuel)%nat →
  tot (eq g) (_compact_loop fuel it a n kid) (λ _, 0) (λ _, True).
Proof using read_bytes.
  intros Hg. revert it a n kid. induction fuel as [|fuel IH]; intros it a n kid Hc Hf; [lia|].
  cbn [_compact_loop]. eapply tot_bind; [by apply tot_iter_next|]. intros [st it1] [Hc1 Hadv].
  cbn in Hc1, Hadv. cbv beta iota. case_decide as Hst; [tdone|].
  assert (st = SYSPARAM_OK) as -> by (by destruct (decide (st = SYSPARAM_OK))).
  specialize (Hadv eq_refl).
  assert (Hrec : ∀ a n kid, tot (eq g) (_compact_loop fuel it1 a n kid) (λ _, 0) (λ _, True)).
  { intros. apply IH; [done|]. destruct Hc, Hc1. unfold ahead in *. zsolve. }
  tstep. case_match; [tdone|]. case_match.
  - eapply tot_weaken; [apply Hrec|]. intros; split; [lia|done].
  - tstep. case_match; [tdone|]. eapply tot_weaken; [apply Hrec|]. intros; split; [lia|done].
Qed.

(** The geometries sysparam_set_data moves between. *)
Definition either (g g' : geometry) : Prop := g' = g ∨ g' = geo_swap g.

Lemma tot_iter_end G : tot G sysparam_iter_end (λ _, -2) (λ _, True).
Proof.
  tstep. eapply tot_weaken; [apply tot_free|]. intros; split; [lia|done].
Qed.

#[local] Hint Resolve tot_iter_end : tot.

Lemma geo_swap_either g g' : either g g' → either g (geo_swap g').
Proof. intros [-> | ->]; [by right|left; by destruct g]. Qed.

Lemma either_ok g g' : geo_ok g → either g g' → geo_ok g'.
Proof. intros Hg [-> | ->]; [done|by apply geo_ok_swap]. Qed.

(** [tot2 G G' m n Q]: like [tot], but the geometry moves from [G] to [G']. *)
Definition tot2 {A} (G G' : geometry → Prop) (m : M D A) (n : A → Z) (Q : A → Prop) : Prop :=
  ∀ w, G (geo (w_info w)) →
  ∃ a w', m w = Some (a, w') ∧ G' (geo (w_info w')) ∧ w_sem w' = w_sem w ∧
          w_live w' = w_live w + n a ∧ Q a.

Lemma tot2_bind {A B} G G' (m : M D A) (k : A → M D B) n p R Q :
  tot G m n R → (∀ a, R a → tot2 G G' (k a) (λ b, p b - n a) Q) → tot2 G G' (m ≫= k) p Q.
Proof.
  intros Hm Hk w HG. destruct (Hm w HG) as (a & w1 & E1 & HG1 & S1 & L1 & HR).
  destruct (Hk a HR w1 HG1) as (b & w2 & E2 & HG2 & S2 & L2 & HQ).
  exists b, w2. rewrite (bind_run _ _ _ _ _ E1). split; [done|]. split; [done|].
  split; [congruence|]. split; [lia|done].
Qed.

Lemma tot2_then {A B} G G' (m : M D A) (k : A → M D B) n p R Q :
  tot2 G G' m n R → (∀ a, R a → tot G' (k a) (λ b, p b - n a) Q) → tot2 G G' (m ≫= k) p Q.
Proof.
  intros Hm Hk w HG. destruct (Hm w HG) as (a & w1 & E1 & HG1 & S1 & L1 & HR).
  destruct (Hk a HR w1 HG1) as (b & w2 & E2 & HG2 & S2 & L2 & HQ).
  exists b, w2. rewrite (bind_run _ _ _ _ _ E1). split; [done|]. split; [done|].
  split; [congruence|]. split; [lia|done].
Qed.

Lemma tot2_weaken {A} (G1 G2 G G' : geometry → Prop) (m : M D A) n n' (Q Q' : A → Prop) :
  tot2 G1 G2 m n Q → (∀ g, G g → G1 g) → (∀ g, G2 g → G' g) →
  (∀ a, Q a → n a = n' a ∧ Q' a) → tot2 G G' m n' Q'.
Proof.
  intros Hm H1 H2 H w HG. destruct (Hm w (H1 _ HG)) as (a & w1 & E1 & HG1 & S1 & L1 & HQ).
  destruct (H a HQ) as [Hn ?]. rewrite Hn in L1. exists a, w1. repeat split; auto.
Qed.

Lemma tot2_ret {A} (G G' : geometry → Prop) (a : A) n Q :
  (∀ g, G g → G' g) → n a = 0 → Q a → tot2 G G' (mret a) n Q.
Proof. intros HG Hn HQ w Hw. exists a, w. rewrite Hn, Z.add_0_r. split; [done|]. auto. Qed.

(** The assignment that changes the geometry. *)
Lemma tot2_put_info {A} (G G' : geometry → Prop) i (a : A) n Q :
  G' (geo i) → n a = 0 → Q a → tot2 G G' (_ ← put_info i; mret a) n Q.
Proof.
  intros Hi Hn HQ w HG. exists a, (w_set_info w i). rewrite Hn, Z.add_0_r. done.
Qed.

Lemma tot_tot2 {A} (G : geometry → Prop) (m : M D A) n Q :
  (∀ g, G g → tot2 (eq g) G m n Q) → tot G m n Q.
Proof. intros H w HG. by apply (H _ HG). Qed.

Ltac tstep2 := eapply tot2_bind; [solve [eauto with tot]|]; intros ? ?; cbv beta.
Ltac tdone2 := apply tot2_ret; [by intros ? <- | cbn; lia | done].

Lemma tot_compact_params g g' ctx kid :
  geo_ok g → either g g' → tot2 (eq g') (either g) (_compact_params ctx kid) (λ _, 0) (λ _, True).
Proof using read_bytes.
  intros Hg Hg'. assert (Hok := either_ok _ _ Hg Hg').
  eapply tot2_bind; [apply tot_get_info|]. intros i Hi. cbv beta. tstep2. case_match; [tdone2|].
  eapply tot2_bind; [by apply tot_iter_start|]. intros [st it] Hit. cbn in Hit. cbv beta iota.
  destruct (is_err st) eqn:Eerr; [destruct st; cbn in Eerr; (done || tdone2)|].
  destruct (Hit eq_refl) as [-> Hc].
  eapply tot2_bind; [apply tot_compact_loop; try done; rewrite Hi in *; by apply scan_fuel_ahead|].
  intros [[[st1 a1] n1] kid1] _. cbv beta iota. tstep2. case_match; [tdone2|].
  eapply tot2_bind; [apply tot_get_info|]. intros i2 Hi2. cbv beta.
  tstep2. case_match; [tdone2|]. tstep2. case_match; [tdone2|].
  eapply tot2_bind; [apply tot_get_info|]. intros i3 Hi3. cbv beta.
  apply tot2_put_info; [|cbn; lia|done].
  replace (geo _) with (geo_swap (geo i3)).
  - rewrite <- Hi3. by apply geo_swap_either.
  - rewrite Hi in Hi3. injection Hi3 as _ Halt _. unfold geo_swap, geo. cbn. by rewrite Halt.
Qed.

(** ** sysparam_set_data *)

#[local] Hint Resolve tot_tot2 tot_compact_params : tot.

Lemma tot_compact g ctx kid :
  geo_ok g → tot (either g) (_compact_params ctx kid) (λ _, 0) (λ _, True).
Proof using read_bytes. intros Hg. apply tot_tot2. intros g' Hg'. by apply tot_compact_params. Qed.

Lemma tot_compact_step g ctx kid :
  geo_ok g → tot (either g) (compact_step ctx kid) (λ _, 0) (λ _, True).
Proof using read_bytes.
  intros Hg. eapply tot_bind; [by apply tot_compact|]. intros [[st c] k] _. cbv beta iota.
  case_match; tdone.
Qed.

Lemma either_refl g : either g g.
Proof. by left. Qed.

Lemma tot_room_check g ctx kid old needed :
  geo_ok g →
  tot (either g)
    (i ← get_info;
     if free_space i <? needed then mret (inl SYSPARAM_ERR_FULL) else
     r ← (if (kid <? 0) && (MAX_KEY_ID <=? max_key_id ctx) then
            if 0 <? unused_keys ctx then compact_step ctx kid
            else mret (inl SYSPARAM_ERR_FULL)
          else mret (inr (ctx, kid, old)));
     match r with
     | inl status => mret (inl status)
     | inr (ctx, key_id, old_value_addr) =>
         i ← get_info;
         if force_compact i then
           '(status, ctx, key_id) ← _compact_params ctx key_id;
           if is_err status then mret (inl status)
           else mret (inr (ctx, key_id, old_value_addr))
         else mret (inr (ctx, key_id, old_value_addr))
     end : M D (sysparam_status_t + (sysparam_context * Z * Z))) (λ _, 0) (λ _, True).
Proof using read_bytes.
  intros Hg. eapply tot_bind; [apply tot_get_info|]. intros i Hi. cbv beta. case_match; [tdone|].
  eapply tot_bind.
  { instantiate (1 := λ _, True). instantiate (1 := λ _, 0). case_match; [|tdone].
    case_match; [by apply tot_compact_step|tdone]. }
  intros [st|[[c k] o]] _; cbv beta iota; [tdone|].
  eapply tot_bind; [apply tot_get_info|]. intros i2 Hi2. cbv beta. case_match; [|tdone].
  eapply tot_bind; [by apply tot_compact|]. intros [[st c2] k2] _. cbv beta iota. case_match; tdone.
Qed.

Lemma tot_make_room g key ctx kid old n :
  geo_ok g → ctx_ok g ctx →
  tot2 (eq g) (either g) (set_data_make_room key ctx kid old n) (λ _, 0) (λ _, True).
Proof using read_bytes.
  intros Hg Hc. eapply tot2_bind; [apply tot_get_info|]. intros i Hi. cbv beta zeta.
  set (needed := ENTRY_SIZE n + _). eapply tot2_then.
  { instantiate (1 := λ _, True). instantiate (1 := λ _, 0).
    assert (Hid : ∀ r : sysparam_status_t + (sysparam_context * Z * Z),
      tot2 (eq g) (either g) (mret r) (λ _, 0) (λ _, True)).
    { intros r. apply tot2_ret; [intros ? <-; apply either_refl|done|done]. }
    destruct (free_space i <? needed); [|apply Hid].
    eapply tot2_bind; [by apply tot_find_entry|]. intros [st c] [Hc' _]. cbv beta iota.
    destruct (_ || _); [|eapply tot2_weaken; [apply Hid | auto | auto |]; intros; split; [lia|done]].
    intros w Hw. destruct (tot_compact_step g c kid Hg w) as (a & w' & E & H).
    { rewrite <- Hw. apply either_refl. }
    exists a, w'. split; [done|]. rewrite Z.sub_0_r. exact H. }
  intros r _. cbv beta. destruct r as [st|[[c k] o]]; [tdone|].
  eapply tot_weaken; [by apply (tot_room_check g c k o)|]. intros; split; [lia|done].
Qed.

Lemma tot_append G key kl ctx kid v n b :
  tot G (set_data_append key kl ctx kid v n b) (λ _, 0) (λ _, True).
Proof.
  eapply tot_bind.
  { instantiate (1 := λ _, True). instantiate (1 := λ _, 0).
    eapply tot_bind; [apply tot_get_info|]. intros i _. cbv beta. tstep. destruct a as [r bs]. tdone. }
  intros [st0 wc] _. cbv beta iota. eapply tot_bind.
  { instantiate (1 := λ _, True). instantiate (1 := λ _, 0). case_match; [tstep; tdone|tdone]. }
  intros [[st a] k] _. cbv beta iota. case_match; [tdone|]. tstep. case_match; [tdone|].
  eapply tot_bind; [apply tot_get_info|]. intros i Hi. cbv beta.
  eapply tot_bind; [by apply tot_put_info|]. intros [] _. cbv beta. tdone.
Qed.

Lemma tot_finish G st old : tot G (set_data_finish st old) (λ _, 0) (λ _, True).
Proof. unfold set_data_finish. case_match; [auto with tot|tdone]. Qed.

Lemma tot_set_write g key ctx kid old v n b :
  geo_ok g → ctx_ok g ctx →
  tot2 (eq g) (either g) (set_data_write key ctx kid old v n b) (λ _, 0) (λ _, True).
Proof using read_bytes.
  intros Hg Hc. eapply tot2_then; [by apply tot_make_room|].
  intros [st|[[c k] o]] _; cbv beta iota; [tdone|].
  eapply tot_bind; [apply tot_append|]. intros [st|[]] _; cbv beta iota; [tdone|].
  eapply tot_weaken; [apply tot_finish|]. intros; split; [lia|done].
Qed.

Lemma tot_set_body g key kl v n b :
  geo_ok g → tot2 (eq g) (either g) (set_data_body key kl v n b) (λ _, 0) (λ _, True).
Proof using read_bytes.
  intros Hg.
  assert (Hid : ∀ (st : sysparam_status_t) m, m = 0 → tot2 (eq g) (either g) (mret st) (λ _, m) (λ _, True)).
  { intros st m Hm. apply tot2_ret; [intros ? <-; apply either_refl|done|done]. }
  eapply tot2_bind.
  { instantiate (1 := λ r, ctx_ok g r.1.1.2). instantiate (1 := λ _, 0).
    eapply tot_bind; [by apply tot_init_context|]. intros c [Hc _]. cbv beta.
    eapply tot_bind; [by apply tot_find_key|]. intros [st c1] [Hc1 _]. cbv beta iota.
    case_decide; [|tdone]. eapply tot_bind; [by apply tot_find_value|]. intros [st2 c2] Hc2.
    cbv beta iota. tdone. }
  intros [[[st c] kid] old] Hc. cbn in Hc. cbv beta iota. case_match; [by apply Hid|].
  cbv zeta. generalize (if b then ENTRY_FLAG_BINARY else 0). intros bf. destruct (n =? 0).
  { eapply tot2_weaken; [intros w HG; apply (tot_finish (eq g) st old w HG)|auto|..].
    - intros ? <-. apply either_refl.
    - intros; split; [lia|done]. }
  eapply tot2_bind.
  { instantiate (1 := λ _, True). instantiate (1 := λ _, 0). case_match; [|tdone].
    unfold set_data_same. destruct (_ && _); [|tdone]. eapply tot_bind.
    { instantiate (1 := λ _, True). instantiate (1 := λ _, 0). case_match; [auto with tot|tdone]. }
    intros [|] _; cbn [negb]; [|tdone]. tstep. destruct a as [st1 bs]. case_match; [tdone|].
    case_decide; tdone. }
  intros [st1|[]] _; cbv beta iota; [by apply Hid|].
  eapply tot2_weaken; [apply tot_set_write; [exact Hg|]|auto|auto|intros; split; [lia|done]].
  destruct Hc as [H1 H2]. case_match; by split.
Qed.

(** The copy of an unaligned value. *)
Definition copies (copy : bool) : Z := if copy then 1 else 0.

Lemma tot_malloc_if G (copy : bool) n :
  tot G (if copy then malloc n else mret true) (λ ok, if ok then copies copy else 0) (λ _, True).
Proof. destruct copy; [apply tot_malloc|tdone]. Qed.

Lemma tot_free_if G (copy : bool) :
  tot G (if copy then free else mret tt) (λ _, - copies copy) (λ _, True).
Proof. destruct copy; [apply tot_free|tdone]. Qed.

(** Whatever the flash and the heap do, sysparam_set_data returns, with the
    mutex released and nothing leaked. *)
Lemma set_data_total w key value n aligned b :
  geo_ok (geo (w_info w)) → w_sem w = false →
  ∃ st w', sysparam_set_data key value n aligned b w = Some (st, w') ∧
           w_sem w' = false ∧ w_live w' = w_live w ∧ either (geo (w_info w)) (geo (w_info w')).
Proof using read_bytes.
  intros Hg Hsem. set (g := geo (w_info w)) in *.
  unfold sysparam_set_data. rewrite bind_get_info.
  do 4 (case_match; [by eexists _, w; split_and!; try done; left|]).
  assert (Et : xSemaphoreTake w = Some (tt, w_set_sem w true))
    by (unfold xSemaphoreTake; by rewrite Hsem).
  run Et. set (vl := match value with Some _ => n | None => 0 end).
  set (copy := negb (vl =? 0) && negb aligned). assert (Hg0 : either g g) by apply either_refl.
  destruct (tot_malloc_if (eq g) copy vl (w_set_sem w true) eq_refl) as (ok & w1 & E1 & G1 & S1 & L1 & _).
  run E1. cbn [w_sem w_live w_set_sem] in S1, L1.
  destruct ok; cbn [negb]; [|eexists _, (w_set_sem w1 false); split; [reflexivity|]; cbn;
    rewrite <- G1; split_and!; [done|lia|done]].
  destruct (tot_malloc (eq g) (u16 (zlength key)) w1 G1) as (ok & w2 & E2 & G2 & S2 & L2 & _).
  run E2. destruct ok; cbn [negb]; cycle 1.
  { destruct (tot_free_if (eq g) copy w2 G2) as ([] & w3 & E3 & G3 & S3 & L3 & _). run E3.
    eexists _, (w_set_sem w3 false). split; [reflexivity|]. cbn. rewrite <- G3. split_and!; [done|lia|done]. }
  destruct (tot_set_body g key (u16 (zlength key)) (default [] value) vl b Hg w2 G2)
    as (st & w3 & E3 & G3 & S3 & L3 & _). run E3.
  destruct (tot_free_if (either g) copy w3 G3) as ([] & w4 & E4 & G4 & S4 & L4 & _). run E4.
  destruct (tot_free (either g) w4 G4) as ([] & w5 & E5 & G5 & S5 & L5 & _). run E5.
  eexists _, (w_set_sem w5 false). split; [reflexivity|]. cbn. split_and!; [done|lia|done].
Qed.

End total.
