(* ===== verification/SysparamTheorems.v ===== *)
(** SysparamTheorems: the contract of src/core/sysparam.c.

    On a working chip ([FlashSpec]) the module is a persistent finite map;
    on any chip it terminates, releases its mutex and frees its memory. *)

From stdpp Require Import sorting.
From S2P Require Import Prelude CString Flash Sysparam SysparamLog SysparamPairs SysparamFlash SysparamWrite SysparamCompact SysparamSpec SysparamSet SysparamInit SysparamTotal.

(** ** A concrete chip with a parameter area on it

    The memory-backed ROM of Flash behind the driver, a heap that never runs
    out, and the worlds that sysparam_create_area and sysparam_init leave:
    concrete inputs for the theorems. *)

#[export] Program Instance demo_memory : Memory := {| beyond := λ _ _, 0 |}.
Next Obligation. intros. unfold is_byte. lia. Qed.

#[export] Instance demo_heap : Heap := {| malloc_ok := λ _ _, true |}.
#[export] Instance demo_heap_ok : HeapOk := {| heap_ok := λ _ _, eq_refl |}.

Abbreviation chip := (spi_state (gmap Z Z)).

(** A blank chip after reset. *)
Definition blank_world : world chip :=
  Build_world (Build_spi_state ∅ 0 true) zero_info false 0 0.

(** [run_from w m]: the world after [m]. *)
Definition run_from {A} (w : world chip) (m : M chip A) : world chip :=
  match m w with Some (_, w') => w' | None => w end.
Definition result_from {A} (w : world chip) (m : M chip A) : option A :=
  match m w with Some (a, _) => Some a | None => None end.

Definition area_base : Z := 0x10000.

(** An area of two sectors, created and opened. *)
Definition created_world : world chip :=
  run_from blank_world (sysparam_create_area area_base 2 true).
Definition demo_world : world chip := run_from created_world (sysparam_init area_base 0).

Lemma created_on_flash :
  on_flash (cell (w_dev created_world)) area_base (area_base + 4096) 4096 [].
Proof.
  destruct (create_run blank_world area_base 1) as (w' & E & H & _);
    [done | done | done | done |].
  unfold created_world, run_from. change (2 * 1) with 2 in E. by rewrite E.
Qed.

Lemma demo_store : store demo_world [].
Proof.
  destruct (init_run created_world _ _ _ _ 0 created_on_flash) as (w' & E & H & _); [by left|].
  unfold demo_world, run_from. change (Z.min area_base (area_base + 4096)) with area_base in E.
  by rewrite E.
Qed.

Lemma demo_sem : w_sem demo_world = false.
Proof. vm_compute. reflexivity. Qed.

Lemma demo_force : force_compact (w_info demo_world) = false.
Proof. vm_compute. reflexivity. Qed.

Lemma demo_size : region_size (w_info demo_world) = 4096.
Proof. vm_compute. reflexivity. Qed.

(** Keys and values of the examples. *)
Definition key_a : list Z := [97].
Definition key_b : list Z := [98].
Definition key_c : list Z := [99].

Lemma key_a_ok : key_ok key_a.
Proof. split; [|cbn; lia]. repeat constructor; unfold is_byte; lia. Qed.

Section contract.
  Context {D : Type} {Dev : FlashDev D} {Fl : FlashSpec D} {Hp : Heap} {HpOk : HeapOk}.

  Implicit Types w : world D.

(** A key that is in the log but whose value was deleted. *)
Definition value_deleted (es : list log_entry) (key : list Z) : Prop :=
  log_get es key = None ∧ is_Some (key_id_of (log_keys es) key).

(** There is room for a set: at the end of the log as it is, or, if the key is not one
    whose value was deleted, in a region that holds what is stored afterwards. *)
Definition has_room (w : world D) (es : list log_entry) (key value : list Z) : Prop :=
  room_needed es key value ≤ free_space (w_info w) ∨ final_size es key value ≤ region_size (w_info w) ∧ ¬ value_deleted es key.

Record can_set (w : world D) (es : list log_entry) (key value : list Z) : Prop := {
  cs_key : key_ok key;
  cs_value : value_ok value;
  cs_force : force_compact (w_info w) = false;
  cs_room : has_room w es key value;
  cs_id : key_id_of (log_keys es) key = None → last_key_id es < MAX_KEY_ID
}.

(** The same flash after a reset: RAM, heap and mutex are whatever they are. *)
Definition rebooted (w w' : world D) : Prop := ∀ x, cell (w_dev w') x = cell (w_dev w) x.

Definition area_start (w : world D) : Z := Z.min (cur_base (w_info w)) (alt_base (w_info w)).

Lemma rebooted_on_flash w w' es :
  store w es → rebooted w w' →
  on_flash (cell (w_dev w')) (cur_base (w_info w)) (alt_base (w_info w)) (region_size (w_info w)) es.
Proof.
  intros Hst Hre. destruct (store_on_flash _ _ Hst) as [H1 H2 H3 H4 H5]. split; try done.
  - eapply region_at_ext; [|done]. intros; apply Hre.
  - eapply header_at_ext; [|done]. intros; apply Hre.
  - eapply header_at_ext; [|done]. intros; apply Hre.
Qed.

Lemma reopen_run w w' es :
  store w es → rebooted w w' →
  ∃ w2, sysparam_init (area_start w) 0 w' = Some (SYSPARAM_OK, w2) ∧ store w2 es ∧
        w_sem w2 = false ∧ force_compact (w_info w2) = false.
Proof.
  intros Hst Hre.
  destruct (init_run w' _ _ _ es 0 (rebooted_on_flash _ _ _ Hst Hre)) as (w2 & E & H1 & H2 & H3 & _);
    [by left|]. by exists w2.
Qed.

Lemma set_run w es key value aligned b :
  store w es → w_sem w = false → can_set w es key value →
  ∃ w' es', sysparam_set_data key (Some value) (zlength value) aligned b w = Some (SYSPARAM_OK, w') ∧
    store w' es' ∧ w_sem w' = false ∧ force_compact (w_info w') = false ∧
    log_map es' = <[key := (value, b)]> (log_map es).
Proof.
  intros Hst Hsem [H1 H2 H3 [H4|[H4 H6]] H5].
  - rewrite (free_space_eq _ _ (st_lay _ _ Hst)) in H4.
    destruct (set_data_sets w es key value aligned b Hst Hsem H3 H1 H2 H4 H5)
      as (w' & E & [(es' & Hst' & Hm) Hs] & Hf). by exists w', es'.
  - assert (Hd : log_get es key = None → key_id_of (log_keys es) key = None).
    { intros Hg. destruct (key_id_of (log_keys es) key) eqn:Ek; [|done]. destruct H6. split; [done|]. by rewrite Ek. }
    destruct (set_data_full w es key value aligned b Hst Hsem H3 H1 H2 H4 H5 Hd)
      as (w' & E & [(es' & Hst' & Hm) Hs] & Hf). by exists w', es'.
Qed.

Lemma get_run w es key :
  store w es → zlength key ≤ 0xffff →
  ∃ w', sysparam_get_data key w = Some (get_result (log_map es !! key), w') ∧ keeps w w'.
Proof.
  intros Hst Hk. rewrite log_map_lookup by apply Hst. by apply get_data_run.
Qed.

(** C2: on an intact initialised store with the mutex free and memory for its buffers,
    sysparam_set_data of a non-empty value returns SYSPARAM_OK, releases the mutex, and leaves
    a store whose map is the old one with the key bound to the new value and flag, in each of
    two cases: the entry fits behind the log as it is; or what is stored afterwards fits
    into a region, which the code then compacts, and the key is not one whose value was
    deleted (set_of_deleted_key_is_lost shows that this is needed).  A new key needs an id
    that is free.  No scan has marked the log as damaged (force_compact), and none does. *)
Theorem sysparam_set_inserts w es key value aligned b :
  store w es → w_sem w = false → key_ok key → value_ok value → force_compact (w_info w) = false →
  room_needed es key value ≤ free_space (w_info w)
    ∨ final_size es key value ≤ region_size (w_info w) ∧ ¬ value_deleted es key →
  (key_id_of (log_keys es) key = None → last_key_id es < MAX_KEY_ID) →
  ∃ w', sysparam_set_data key (Some value) (zlength value) aligned b w = Some (SYSPARAM_OK, w') ∧
        represents w' (<[key := (value, b)]> (log_map es)) ∧ force_compact (w_info w') = false.
Proof.
  intros Hst Hsem H1 H2 H3 H4 H5. destruct (set_run w es key value aligned b Hst Hsem)
    as (w' & es' & E & Hst' & Hs & Hf & Hm); [by split|]. exists w'. split; [done|]. split; [|done]. split; [by exists es'|done].
Qed.

(** C14: setting a key to NULL or to an empty value
    deletes it; the status says whether it had a value, and every other
    parameter is as before. *)
Theorem sysparam_set_deletes w es key value value_len aligned b :
  store w es → w_sem w = false → key_ok key → value_len ≤ MAX_VALUE_LEN →
  match value with Some _ => value_len | None => 0 end = 0 →
  ∃ w', sysparam_set_data key value value_len aligned b w =
          Some (match log_map es !! key with
                | Some _ => SYSPARAM_OK | None => SYSPARAM_NOTFOUND end, w') ∧
        represents w' (delete key (log_map es)).
Proof.
  intros Hst Hsem Hkey Hn H0.
  destruct (set_data_deletes w es key value value_len aligned b Hst Hsem Hkey Hn H0)
    as (w' & E & R & _). exists w'. rewrite log_map_lookup by apply Hst. done.
Qed.

(** C15: sysparam_get_data returns the value the map
    has for the key (zero-terminated, with its length and binary flag), or
    SYSPARAM_NOTFOUND, and changes nothing. *)
Theorem sysparam_get_looks_up w es key :
  store w es → zlength key ≤ 0xffff →
  ∃ w', sysparam_get_data key w = Some (get_result (log_map es !! key), w') ∧ keeps w w'.
Proof. apply get_run. Qed.

(** After a reset, sysparam_init on the start of
    the area finds it again (whichever half is active) and recovers exactly
    the parameters that were stored. *)
Theorem sysparam_init_recovers w w' es :
  store w es → rebooted w w' →
  ∃ w2, sysparam_init (area_start w) 0 w' = Some (SYSPARAM_OK, w2) ∧ represents w2 (log_map es).
Proof.
  intros Hst Hre. destruct (reopen_run _ _ _ Hst Hre) as (w2 & E & Hst2 & Hs & _).
  exists w2. split; [done|]. split; [by exists es|done].
Qed.

(** C16: a value that was set on an intact initialised store, with memory for the buffers, is
    read back after a reset and a sysparam_init, under the conditions under which the set is
    promised to succeed: there is room for the entry as the log is, or after a compaction
    if the key is not one whose value was deleted. *)
Theorem sysparam_persists w es key value aligned b :
  store w es → w_sem w = false → key_ok key → value_ok value → force_compact (w_info w) = false →
  room_needed es key value ≤ free_space (w_info w)
    ∨ final_size es key value ≤ region_size (w_info w) ∧ ¬ value_deleted es key →
  (key_id_of (log_keys es) key = None → last_key_id es < MAX_KEY_ID) →
  ∃ w1, sysparam_set_data key (Some value) (zlength value) aligned b w = Some (SYSPARAM_OK, w1) ∧
  ∀ w2, rebooted w1 w2 →
  ∃ w3 w4, sysparam_init (area_start w1) 0 w2 = Some (SYSPARAM_OK, w3) ∧
    sysparam_get_data key w3 = Some ((SYSPARAM_OK, Some (value ++ [0], zlength value, b)), w4).
Proof.
  intros Hst Hsem H1 H2 H3 H4 H5. destruct (set_run w es key value aligned b Hst Hsem)
    as (w1 & es1 & E & Hst1 & _ & _ & Hm); [by split|]. exists w1. split; [done|]. intros w2 Hre.
  destruct (reopen_run _ _ _ Hst1 Hre) as (w3 & E3 & Hst3 & _).
  destruct (get_run w3 es1 key Hst3) as (w4 & E4 & _); [destruct H1; lia|].
  exists w3, w4. split; [done|]. rewrite E4, Hm, lookup_insert_eq. done.
Qed.

(** Sysparam_create_area (forced) followed by
    sysparam_init leaves an empty store, and touches nothing outside the area. *)
Theorem sysparam_create_then_init w base k :
  0 < base → base `mod` 4096 = 0 → 0 < k → base + 4096 * k + 4096 * k ≤ 4194304 →
  ∃ w1 w2, sysparam_create_area base (2 * k) true w = Some (SYSPARAM_OK, w1) ∧
    sysparam_init base 0 w1 = Some (SYSPARAM_OK, w2) ∧ represents w2 ∅ ∧
    ∀ x, ¬ (base ≤ x < base + 2 * k * 4096) → cell (w_dev w1) x = cell (w_dev w) x.
Proof.
  intros H0 Hal Hk Hc. destruct (create_run w base k H0 Hal Hk Hc) as (w1 & E1 & Hof & Hfr & _).
  destruct (init_run w1 _ _ _ [] 0 Hof) as (w2 & E2 & Hst & Hs & _); [by left|].
  rewrite Z.min_l in E2 by lia. exists w1, w2. split; [done|]. split; [done|]. split.
  - split; [by exists []|done].
  - intros x Hx. apply Hfr. lia.
Qed.

(** Iterating with sysparam_iter_start / _next / _end
    yields every parameter exactly once, and ends with SYSPARAM_NOTFOUND. *)
Theorem sysparam_iterates w es :
  store w es →
  ∃ l w', iter_all (S (length es)) w = Some ((SYSPARAM_NOTFOUND, l), w') ∧
          NoDup l.*1 ∧ list_to_map l = log_map es ∧ keeps w w'.
Proof.
  intros Hst. destruct (iter_all_run w es Hst) as (w' & E & K).
  exists (pair_item <$> pairs_in es es), w'. split; [done|].
  split; [|split; [by rewrite log_map_pairs|done]].
  rewrite <- list_fmap_compose.
  apply (po_names 0 _ (log_pairs_ok _ (st_log _ _ Hst) (rg_entries _ _ _ _ (st_region _ _ Hst)))).
Qed.

(** _compact_params moves the parameters to the other
    region without changing any; what is left is exactly the keys that have a
    value and their values. *)
Theorem sysparam_compacts w es ctx :
  store w es →
  REGION_HEADER_SIZE + zsum pair_size (pairs_in es es) ≤ region_size (w_info w) →
  ∃ w' ctx' es', _compact_params ctx (-1) w = Some ((SYSPARAM_OK, ctx', -1), w') ∧
    store w' es' ∧ log_map es' = log_map es ∧ log_size es' = zsum pair_size (pairs_in es es) ∧
    cur_base (w_info w') = alt_base (w_info w) ∧ alt_base (w_info w') = cur_base (w_info w).
Proof.
  intros Hst Hfit. assert (Hok := st_log _ _ Hst).
  assert (Hen := rg_entries _ _ _ _ (st_region _ _ Hst)). assert (Hps := log_pairs_ok _ Hok Hen).
  assert (Hmiss : -1 ∉ pair_ids (pairs_in es es)) by (eapply not_in_above; [apply Hps|lia]).
  assert (Hsz := compacted_size_miss 0 (-1) _ Hmiss).
  destruct (compact_log es (-1) Hok Hen) as (Hok' & _ & Hm).
  destruct (compact_params_run w es ctx (-1) Hst) as (w' & ctx' & E & L & I & _).
  { apply (po_room _ _ Hps). }
  { rewrite log_end_size, Hsz. lia. }
  rewrite compacted_id_miss in E by done.
  exists w', ctx', (compacted 0 (-1) (pairs_in es es)). split; [done|].
  split; [by apply store_laid_out|]. split; [|split; [done|by rewrite I]].
  apply map_eq. intros k. rewrite Hm. rewrite decide_False; [done|].
  intros Hk%key_id_of_elem. assert (Hpos := lo_pos _ Hok). rewrite Forall_forall in Hpos.
  specialize (Hpos (-1)). assert (-1 ∈ (log_keys es).*1).
  { apply list_elem_of_fmap. by exists (-1, k). }
  specialize (Hpos ltac:(done)). lia.
Qed.

(** A 32-bit integer stored with
    sysparam_set_int32 is what sysparam_get_int32 returns. *)
Theorem sysparam_int32_roundtrip w es key value aligned :
  - 2 ^ 31 ≤ value < 2 ^ 31 → store w es → w_sem w = false → can_set w es key (print_int value) →
  ∃ w1 w2, sysparam_set_int32 key value aligned w = Some (SYSPARAM_OK, w1) ∧
           sysparam_get_int32 key w1 = Some ((SYSPARAM_OK, Some value), w2).
Proof.
  intros Hv Hst Hsem Hcan. destruct (set_run w es key _ aligned false Hst Hsem Hcan)
    as (w1 & es1 & E & Hst1 & _ & _ & Hm).
  destruct (get_run w1 es1 key Hst1) as (w2 & E2 & _); [destruct Hcan as [[_ ?] _ _ _ _]; lia|].
  rewrite Hm, lookup_insert_eq in E2.
  unfold sysparam_get_int32, sysparam_get_string. exists w1. eexists. split; [exact E|].
  rewrite bind_assoc_run. run E2. cbn [get_result]. rewrite decide_False by auto.
  rewrite bind_ret, cstring_terminated.
  2: { destruct (print_int_shape value) as [Hs _]. eapply Forall_impl; [exact Hs|]. cbn. lia. }
  rewrite strtol0_print_int by done. reflexivity.
Qed.

End contract.

(** ** Any device, any heap *)

Section any_device.
  Context {D : Type} {Dev : FlashDev D} {Hp : Heap}.

(** C37: whatever the flash returns, however its
    operations fail, and whichever allocations fail, sysparam_set_data
    returns; the mutex is free again, everything it allocated is freed, and
    the current region is still one of the two halves of the area. *)
Theorem sysparam_set_total (w : world D) key value value_len aligned b :
  (∀ a n d, Forall is_byte (spi_flash_read a n d).1.2) →
  geo_ok (geo (w_info w)) → w_sem w = false →
  ∃ st w', sysparam_set_data key value value_len aligned b w = Some (st, w') ∧
           w_sem w' = false ∧ w_live w' = w_live w ∧ either (geo (w_info w)) (geo (w_info w')).
Proof. intros Hb. by apply set_data_total. Qed.

(** On any flash and heap sysparam_get_data returns,
    does not touch the mutex, and leaves one block allocated exactly when it
    hands one to the caller. *)
Theorem sysparam_get_total (w : world D) key :
  (∀ a n d, Forall is_byte (spi_flash_read a n d).1.2) → geo_ok (geo (w_info w)) →
  ∃ r w', sysparam_get_data key w = Some (r, w') ∧ w_sem w' = w_sem w ∧
          w_live w' = w_live w + owned r ∧ geo (w_info w') = geo (w_info w).
Proof.
  intros Hb Hg. destruct (tot_get_data Hb _ key Hg w eq_refl) as (r & w' & E & G & S & L & _).
  by exists r, w'.
Qed.

(** The typed getters free what they read: on
    any flash and heap sysparam_get_int32 returns with nothing left allocated. *)
Theorem sysparam_get_int32_total (w : world D) key :
  (∀ a n d, Forall is_byte (spi_flash_read a n d).1.2) → geo_ok (geo (w_info w)) →
  ∃ r w', sysparam_get_int32 key w = Some (r, w') ∧ w_sem w' = w_sem w ∧ w_live w' = w_live w.
Proof.
  intros Hb Hg. destruct (tot_get_int32 Hb _ key Hg w eq_refl) as (r & w' & E & _ & S & L & _).
  exists r, w'. rewrite Z.add_0_r in L. done.
Qed.

End any_device.

(** ** Witnesses *)

Lemma demo_can_set : can_set demo_world [] key_a [1; 2; 3].
Proof.
  split; [apply key_a_ok | | apply demo_force | | done].
  - split; [repeat constructor; unfold is_byte; lia|cbn; lia].
  - right. split; [rewrite demo_size; vm_compute; discriminate|]. by intros [_ [? ?]].
Qed.

Lemma sysparam_set_inserts_witness :
  ∃ w', sysparam_set_data key_a (Some [1; 2; 3]) (zlength [1; 2; 3]) false true demo_world =
          Some (SYSPARAM_OK, w') ∧
        represents w' (<[key_a := ([1; 2; 3], true)]> (log_map [])) ∧ force_compact (w_info w') = false.
Proof.
  destruct demo_can_set as [H1 H2 H3 H4 H5].
  exact (sysparam_set_inserts demo_world [] key_a [1; 2; 3] false true demo_store demo_sem H1 H2 H3 H4 H5).
Defined.

Lemma sysparam_set_deletes_witness :
  ∃ w', sysparam_set_data key_a None 5 false true demo_world =
          Some (match log_map [] !! key_a with
                | Some _ => SYSPARAM_OK | None => SYSPARAM_NOTFOUND end, w') ∧
        represents w' (delete key_a (log_map [])).
Proof.
  apply (sysparam_set_deletes demo_world [] key_a None 5 false true demo_store demo_sem key_a_ok);
    [unfold MAX_VALUE_LEN; lia | reflexivity].
Defined.

Lemma sysparam_get_looks_up_witness :
  ∃ w', sysparam_get_data key_a demo_world = Some (get_result (log_map [] !! key_a), w') ∧
        keeps demo_world w'.
Proof. apply (sysparam_get_looks_up demo_world [] key_a demo_store). cbn; lia. Defined.

(** The chip of [demo_world] after a reset in the middle of something. *)
Definition demo_reset : world chip := Build_world (w_dev demo_world) zero_info true 7 3.

Lemma sysparam_init_recovers_witness :
  ∃ w2, sysparam_init (area_start demo_world) 0 demo_reset = Some (SYSPARAM_OK, w2) ∧
        represents w2 (log_map []).
Proof. apply (sysparam_init_recovers demo_world demo_reset [] demo_store). intros x. reflexivity. Defined.

Lemma sysparam_persists_witness :
  ∃ w1, sysparam_set_data key_a (Some [1; 2; 3]) (zlength [1; 2; 3]) false true demo_world =
          Some (SYSPARAM_OK, w1) ∧
  ∀ w2, rebooted w1 w2 →
  ∃ w3 w4, sysparam_init (area_start w1) 0 w2 = Some (SYSPARAM_OK, w3) ∧
    sysparam_get_data key_a w3 =
      Some ((SYSPARAM_OK, Some ([1; 2; 3] ++ [0], zlength [1; 2; 3], true)), w4).
Proof.
  destruct demo_can_set as [H1 H2 H3 H4 H5].
  exact (sysparam_persists demo_world [] key_a [1; 2; 3] false true demo_store demo_sem H1 H2 H3 H4 H5).
Defined.

Lemma sysparam_create_then_init_witness :
  ∃ w1 w2 : world chip, sysparam_create_area 0x20000 (2 * 3) true blank_world = Some (SYSPARAM_OK, w1) ∧
    sysparam_init 0x20000 0 w1 = Some (SYSPARAM_OK, w2) ∧ represents w2 ∅ ∧
    ∀ x, ¬ (0x20000 ≤ x < 0x20000 + 2 * 3 * 4096) → cell (w_dev w1) x = cell (w_dev blank_world) x.
Proof. apply (sysparam_create_then_init blank_world 0x20000 3); (reflexivity || lia). Defined.

Lemma sysparam_iterates_witness :
  ∃ l w', iter_all 1 demo_world = Some ((SYSPARAM_NOTFOUND, l), w') ∧
          NoDup l.*1 ∧ list_to_map l = log_map [] ∧ keeps demo_world w'.
Proof. exact (sysparam_iterates demo_world [] demo_store). Defined.

Lemma sysparam_compacts_witness :
  ∃ w' ctx' es', _compact_params zero_context (-1) demo_world = Some ((SYSPARAM_OK, ctx', -1), w') ∧
    store w' es' ∧ log_map es' = log_map [] ∧ log_size es' = zsum pair_size (pairs_in [] []) ∧
    cur_base (w_info w') = alt_base (w_info demo_world) ∧
    alt_base (w_info w') = cur_base (w_info demo_world).
Proof.
  apply (sysparam_compacts demo_world [] zero_context demo_store). rewrite demo_size.
  vm_compute. discriminate.
Defined.

Lemma demo_can_set_int : can_set demo_world [] key_a (print_int (-1234)).
Proof.
  split; [apply key_a_ok | | apply demo_force | | done].
  - change (print_int (-1234)) with [45; 49; 50; 51; 52].
    split; [repeat constructor; unfold is_byte; lia|cbn; lia].
  - right. split; [rewrite demo_size; vm_compute; discriminate|]. by intros [_ [? ?]].
Qed.

Lemma sysparam_int32_roundtrip_witness :
  ∃ w1 w2, sysparam_set_int32 key_a (-1234) true demo_world = Some (SYSPARAM_OK, w1) ∧
           sysparam_get_int32 key_a w1 = Some ((SYSPARAM_OK, Some (-1234)), w2).
Proof.
  apply (sysparam_int32_roundtrip demo_world [] key_a (-1234) true); [lia | apply demo_store |
    apply demo_sem | apply demo_can_set_int].
Defined.

(** A flash that fails every operation, and a heap that never has a block. *)
#[local] Instance broken_dev : FlashDev unit := {|
  spi_flash_read := λ a n d, ((SPI_FLASH_RESULT_TIMEOUT, [0xff; 0x7f; 3]), d);
  spi_flash_write := λ a bs n d, (SPI_FLASH_RESULT_ERR, d);
  spi_flash_erase_sector := λ s d, (SPI_FLASH_RESULT_ERR, d)
|}.

Definition broken_world : world unit :=
  Build_world tt {| cur_base := 0x10000; alt_base := 0x11000; end_addr := 0x10008;
                    region_size := 0x1000; force_compact := true |} false 0 0.

Lemma broken_geo : geo_ok (geo (w_info broken_world)).
Proof. split; cbn; unfold REGION_HEADER_SIZE; lia. Qed.

Lemma broken_bytes a n d : Forall is_byte (spi_flash_read (D := unit) a n d).1.2.
Proof. cbn. repeat constructor; unfold is_byte; lia. Qed.

Lemma sysparam_set_total_witness :
  ∃ st w', sysparam_set_data key_a (Some [1]) 1 false true broken_world = Some (st, w') ∧
           w_sem w' = false ∧ w_live w' = w_live broken_world ∧
           either (geo (w_info broken_world)) (geo (w_info w')).
Proof. exact (sysparam_set_total broken_world key_a (Some [1]) 1 false true broken_bytes broken_geo eq_refl). Defined.

Lemma sysparam_get_total_witness :
  ∃ r w', sysparam_get_data key_a broken_world = Some (r, w') ∧ w_sem w' = w_sem broken_world ∧
          w_live w' = w_live broken_world + owned r ∧ geo (w_info w') = geo (w_info broken_world).
Proof. exact (sysparam_get_total broken_world key_a broken_bytes broken_geo). Defined.

Lemma sysparam_get_int32_total_witness :
  ∃ r w', sysparam_get_int32 key_a broken_world = Some (r, w') ∧ w_sem w' = w_sem broken_world ∧
          w_live w' = w_live broken_world.
Proof. exact (sysparam_get_int32_total broken_world key_a broken_bytes broken_geo). Defined.

(** ** What goes wrong

    Runs on the concrete chip that show where the module does not keep its
    contract. *)

Definition big (x : Z) : list Z := replicate 1500 x.

Definition set_bytes (key value : list Z) : M chip sysparam_status_t :=
  sysparam_set_data key (Some value) (zlength value) true false.
Definition del (key : list Z) : M chip sysparam_status_t :=
  sysparam_set_data key None 0 true false.

(** Setting a key whose value was deleted, when that needs a compaction: the
    status is SYSPARAM_OK, the value is not found, and it turns up under
    another key once that key's value is deleted.  _compact_params drops keys
    without a value and does not renumber [key_id]. *)
Example set_of_deleted_key_is_lost :
  result_from demo_world
    (_ ← set_bytes key_a [1]; _ ← set_bytes key_b (big 2); _ ← del key_a;
     _ ← set_bytes key_b (big 3);
     st ← set_bytes key_a (big 4);
     ga ← sysparam_get_data key_a;
     _ ← del key_b;
     gb ← sysparam_get_data key_b;
     mret (st, ga, gb)) =
  Some (SYSPARAM_OK, (SYSPARAM_NOTFOUND, None), (SYSPARAM_OK, Some (big 4 ++ [0], 1500, false))).
Proof. vm_compute. reflexivity. Qed.

(** A set that fails with SYSPARAM_ERR_FULL can lose the old value: the
    compaction that was tried has already dropped it. *)
Example failed_set_loses_old_value :
  result_from demo_world
    (_ ← set_bytes key_a [1]; _ ← set_bytes key_b (big 2); _ ← del key_a;
     st ← set_bytes key_b (replicate 4085 3);
     gb ← sysparam_get_data key_b;
     mret (st, gb)) =
  Some (SYSPARAM_ERR_FULL, (SYSPARAM_NOTFOUND, None)).
Proof. vm_compute. reflexivity. Qed.

(** Without [force], an area that is blank is refused when a byte right after
    it is not: the scan reads 32 bytes at every eighth address. *)
Example create_area_reads_past_the_area :
  result_from (Build_world (Build_spi_state {[ 0x12000 := 0 ]} 0 true) zero_info false 0 0)
    (sysparam_create_area area_base 2 false) = Some SYSPARAM_NOTFOUND ∧
  result_from blank_world (sysparam_create_area area_base 2 false) = Some SYSPARAM_OK.
Proof. vm_compute. split; reflexivity. Qed.

(** A supply that fails: only the first [n] writes and erases take effect. *)
#[local] Instance failing_power : FlashDev (chip * nat) := {|
  spi_flash_read := λ a n d, let '(r, c) := spi_flash_read a n d.1 in (r, (c, d.2));
  spi_flash_write := λ a bs n d,
    match d.2 with
    | O => (SPI_FLASH_RESULT_OK, d)
    | S k => let '(r, c) := spi_flash_write a bs n d.1 in (r, (c, k))
    end;
  spi_flash_erase_sector := λ s d,
    match d.2 with
    | O => (SPI_FLASH_RESULT_OK, d)
    | S k => let '(r, c) := spi_flash_erase_sector s d.1 in (r, (c, k))
    end
|}.

(** The chip after [m] ran on it and the power failed at its [n]-th write. *)
Definition cut_after {A} (n : nat) (w : world chip) (m : M (chip * nat) A) : world chip :=
  match m (Build_world (w_dev w, n) (w_info w) (w_sem w) (w_nalloc w) (w_live w)) with
  | Some (_, w') => Build_world (w_dev w').1 zero_info false 0 0
  | None => w
  end.

(** Power loss between the write of a new value and the deletion of the old
    one leaves two live values.  After the reset a set succeeds and deletes
    the older of the two, so that a get returns the other: not the value that
    was set. *)
Example set_after_power_loss_is_ignored :
  let w1 := run_from demo_world (set_bytes key_a [1]) in
  let w2 := cut_after 3 w1 (sysparam_set_data key_a (Some [2]) 1 true false) in
  result_from w2
    (_ ← sysparam_init area_base 0;
     st ← set_bytes key_a [3];
     ga ← sysparam_get_data key_a;
     mret (st, ga)) =
  Some (SYSPARAM_OK, (SYSPARAM_OK, Some ([2; 0], 1, false))).
Proof. vm_compute. reflexivity. Qed.
