(* ===== verification/FlashTheorems.v ===== *)
(** FlashTheorems: the SPI flash driver keeps the contract of a NOR chip, and
    its bracket of critical section and cache holds on every path. *)

From S2P Require Import Prelude Flash.

Section driver.
  Context {D : Type} {Rom : SpiRom D} {Mem : Memory}.

(** Whatever the ROM does, the three entry points leave
    the critical-section nesting as it was and never leave the cache off when
    it was on. *)
Theorem spi_ops_restore (s : spi_state D) a n sec src null :
  let keeps s' := st_critical s' = st_critical s ∧ (st_cache s' = true ∨ st_cache s' = st_cache s) in
  keeps (sdk_spi_flash_write a src n s).2 ∧
  keeps (sdk_spi_flash_read a null n s).2 ∧
  keeps (sdk_spi_flash_erase_sector sec s).2.
Proof.
  assert (Hl : ∀ A (op : D → A * D), st_critical (locked op s).2 = st_critical s ∧
                 st_cache (locked op s).2 = true).
  { intros A op. unfold locked. cbn. destruct (op (st_rom s)) as [r d]. cbn. split; [lia|done]. }
  cbv zeta. unfold sdk_spi_flash_write, sdk_spi_flash_read, sdk_spi_flash_erase_sector.
  split; [|split].
  - destruct src as [src|]; [|by split; [|right]]. destruct (Hl _ (sdk_SPIWrite a src
      (if negb (Z.land n 3 =? 0) then u32 (Z.land n (Z.lnot 3) + 4) else n))). by split; [|left].
  - destruct null; [by split; [|right]|]. destruct (Hl _ (sdk_SPIRead a n)). by split; [|left].
  - destruct (Hl _ (sdk_SPIEraseSector (u16 sec))). by split; [|left].
Qed.

(** A write whose last word lies past the end of
    the chip is refused with SPI_FLASH_RESULT_ERR, and an erase of a sector
    that does not exist too; the chip is not accessed. *)
Theorem spi_write_out_of_range (s : spi_state D) a src n sec :
  0 ≤ a → 0 ≤ n → a + n + 4 < 2 ^ 32 → chip_size sdk_flashchip < a + n → 1024 ≤ sec < 65536 →
  (sdk_spi_flash_write a (Some src) n s).1 = SPI_FLASH_RESULT_ERR ∧
  st_rom (sdk_spi_flash_write a (Some src) n s).2 = st_rom s ∧
  (sdk_spi_flash_erase_sector sec s).1 = SPI_FLASH_RESULT_ERR ∧
  st_rom (sdk_spi_flash_erase_sector sec s).2 = st_rom s.
Proof.
  intros Ha Hn Hlt Hout Hsec. unfold sdk_spi_flash_write, sdk_spi_flash_erase_sector, locked.
  cbn [st_rom]. rewrite u16_small by (unfold is_u16; lia).
  unfold sdk_SPIEraseSector. change (chip_size sdk_flashchip / sector_size sdk_flashchip) with 1024.
  rewrite (proj2 (Z.leb_le 1024 sec)) by lia.
  set (n' := if negb (Z.land n 3 =? 0) then u32 (Z.land n (Z.lnot 3) + 4) else n).
  assert (Hn' : n ≤ n' ≤ n + 4).
  { subst n'. destruct (Z.eqb_spec (Z.land n 3) 0) as [H0|H0]; cbn [negb]; [lia|].
    assert (Hl : Z.land n (Z.lnot 3) = n - n `mod` 4).
    { rewrite <- Z.ldiff_land. change 3 with (Z.ones 2).
      rewrite Z.ldiff_ones_r, Z.shiftr_div_pow2, Z.shiftl_mul_pow2 by lia.
      change (2 ^ 2) with 4. zsolve. }
    rewrite Hl, u32_small by zsolve. zsolve. }
  unfold sdk_SPIWrite. change (chip_size sdk_flashchip) with 4194304 in *.
  rewrite u32_small by lia. by rewrite (proj2 (Z.leb_gt _ _)) by lia.
Qed.

Context {RomOk : SpiRomSpec D}.

(** C36: on a working ROM a word-aligned write that fits
    the chip succeeds, however many pages it spans: exactly the bytes of the
    range (rounded up to a word) have the source's zero bits cleared, every
    other byte of the chip is untouched. *)
Theorem spi_write_programs (s : spi_state D) a src n :
  0 ≤ a → 0 ≤ n ≤ zlength src → a `mod` 4 = 0 → a + n ≤ chip_size sdk_flashchip →
  Forall is_byte src →
  ∃ d', sdk_spi_flash_write a (Some src) n s =
          (SPI_FLASH_RESULT_OK, Build_spi_state d' (st_critical s) true) ∧
        programs (st_rom s) d' a (round4 n) src a.
Proof. apply sdk_write_cells. Qed.

(** Erasing an existing sector sets exactly its 4096
    bytes to 0xff. *)
Theorem spi_erase_sets (s : spi_state D) sec :
  0 ≤ sec < chip_size sdk_flashchip / sector_size sdk_flashchip →
  ∃ d', sdk_spi_flash_erase_sector sec s =
          (SPI_FLASH_RESULT_OK, Build_spi_state d' (st_critical s) true) ∧
        ∀ x, rcell d' x =
          if (sec * sector_size sdk_flashchip <=? x) && (x <? (sec + 1) * sector_size sdk_flashchip)
          then 0xff else rcell (st_rom s) x.
Proof. apply sdk_erase_cells. Qed.

End driver.

(** ** Witnesses *)

#[local] Program Instance zero_memory : Memory := {| beyond := λ _ _, 0 |}.
Next Obligation. intros. unfold is_byte. lia. Qed.

(** A chip with something on it, in the middle of a nested critical section. *)
Definition some_chip : spi_state (gmap Z Z) := Build_spi_state {[ 258 := 0x0f ]} 2 false.

Lemma spi_write_out_of_range_witness :
  (sdk_spi_flash_write 0x3fffff (Some [1; 2]) 2 some_chip).1 = SPI_FLASH_RESULT_ERR ∧
  st_rom (sdk_spi_flash_write 0x3fffff (Some [1; 2]) 2 some_chip).2 = st_rom some_chip ∧
  (sdk_spi_flash_erase_sector 1024 some_chip).1 = SPI_FLASH_RESULT_ERR ∧
  st_rom (sdk_spi_flash_erase_sector 1024 some_chip).2 = st_rom some_chip.
Proof.
  apply (spi_write_out_of_range some_chip 0x3fffff [1; 2] 2 1024); cbn; lia.
Defined.

Lemma spi_write_programs_witness :
  ∃ d', sdk_spi_flash_write 252 (Some [1; 2; 3; 4; 5; 6; 7]) 7 some_chip =
          (SPI_FLASH_RESULT_OK, Build_spi_state d' (st_critical some_chip) true) ∧
        programs (st_rom some_chip) d' 252 (round4 7) [1; 2; 3; 4; 5; 6; 7] 252.
Proof.
  apply (spi_write_programs some_chip 252 [1; 2; 3; 4; 5; 6; 7] 7);
    [lia | cbn; lia | reflexivity | cbn; lia | repeat constructor; unfold is_byte; lia].
Defined.

Lemma spi_erase_sets_witness :
  ∃ d', sdk_spi_flash_erase_sector 0 some_chip =
          (SPI_FLASH_RESULT_OK, Build_spi_state d' (st_critical some_chip) true) ∧
        ∀ x, rcell d' x =
          if (0 * sector_size sdk_flashchip <=? x) && (x <? (0 + 1) * sector_size sdk_flashchip)
          then 0xff else rcell (st_rom some_chip) x.
Proof. apply (spi_erase_sets some_chip 0). vm_compute. split; [discriminate | reflexivity]. Defined.
