(* ===== verification/MqttPacket.v ===== *)
(** MqttPacket: the MQTT packet codec of extras/paho_mqtt_c.

    Models MQTTPacket.c, MQTTConnectClient.c, MQTTSubscribeClient.c,
    MQTTUnsubscribeClient.c, MQTTSerializePublish.c and
    MQTTDeserializePublish.c, one definition per function.  A buffer is the
    list of the bytes allocated for it ([Buffer]); a routine that reads or
    writes outside of it gives [None].  C [int]s are [Z] without wrap-around:
    the theorems bound the sizes they speak of below 2^31.  [char] is unsigned
    on the target. *)

From S2P Require Import Prelude CString Buffer.

(** ** MQTTPacket.h *)

Definition MQTTPACKET_BUFFER_TOO_SHORT : Z := -2.
Definition MQTTPACKET_READ_ERROR : Z := -1.

Definition MQTTPACKET_CONNECT : Z := 1.
Definition MQTTPACKET_CONNACK : Z := 2.
Definition MQTTPACKET_PUBLISH : Z := 3.
Definition MQTTPACKET_PUBACK : Z := 4.
Definition MQTTPACKET_PUBREC : Z := 5.
Definition MQTTPACKET_PUBREL : Z := 6.
Definition MQTTPACKET_PUBCOMP : Z := 7.
Definition MQTTPACKET_SUBSCRIBE : Z := 8.
Definition MQTTPACKET_SUBACK : Z := 9.
Definition MQTTPACKET_UNSUBSCRIBE : Z := 10.
Definition MQTTPACKET_UNSUBACK : Z := 11.
Definition MQTTPACKET_PINGREQ : Z := 12.
Definition MQTTPACKET_PINGRESP : Z := 13.
Definition MQTTPACKET_DISCONNECT : Z := 14.

(** The bit fields of a byte: [field b off w] reads [w] bits at [off], and
    [bits w x off] is what a store of [x] into such a field of a cleared byte
    gives. *)
Definition field (b off w : Z) : Z := Z.land (Z.shiftr b off) (Z.ones w).
Definition bits (w x off : Z) : Z := Z.shiftl (Z.land x (Z.ones w)) off.

(** mqtt_header_t: retain:1, qos:2, dup:1, type:4 from the low bit up. *)
Definition mqtt_header (type dup qos retain : Z) : Z :=
  Z.lor (bits 1 retain 0) (Z.lor (bits 2 qos 1) (Z.lor (bits 1 dup 3) (bits 4 type 4))).
Definition header_retain (b : Z) : Z := field b 0 1.
Definition header_qos (b : Z) : Z := field b 1 2.
Definition header_dup (b : Z) : Z := field b 3 1.
Definition header_type (b : Z) : Z := field b 4 4.

(** A pointer to bytes: [None] is NULL, [Some l] the bytes from the pointer to
    the end of the object it points into. *)
Definition pointer : Type := option (list Z).

Record mqtt_string_len_t := { len : Z; data : pointer }.

(** [cstring]: NULL or the characters before the terminator. *)
Record mqtt_string_t := { cstr : option (list Z); lenstring : mqtt_string_len_t }.

Definition mqtt_string_initializer : mqtt_string_t :=
  {| cstr := None; lenstring := {| len := 0; data := None |} |}.

(** ** MQTTPacket.c *)

(** The bytes [mqtt_packet_encode] stores.  An [int] has at most five base-128
    digits, so five iterations reach the end of the loop. *)
Fixpoint encode_loop (fuel : nat) (length : Z) : list Z :=
  match fuel with
  | O => []
  | S fuel' =>
      let d := u8 (Z.rem length 128) in
      let length' := Z.quot length 128 in
      if 0 <? length' then Z.lor d 0x80 :: encode_loop fuel' length' else [d]
  end.

Definition encode_bytes (length : Z) : list Z := encode_loop 5 length.

(** Stores the bytes one after the other. *)
Fixpoint store_bytes (s : cursor) (bs : list Z) : option cursor :=
  match bs with
  | [] => Some s
  | b :: bs' => s' ← poke s b; store_bytes s' bs'
  end.

(** Writes at the pointer and returns the pointer after the bytes, as every
    caller does with the count the code returns. *)
Definition mqtt_packet_encode (s : cursor) (length : Z) : option cursor :=
  store_bytes s (encode_bytes length).

Definition MAX_NO_OF_REMAINING_LENGTH_BYTES : Z := 4.

(** The callback [getfn(buf, count)] of a byte source with state [S]: the value
    it returns, the bytes it stored at its argument and the new state. *)
Definition getfn_t (S : Type) : Type := S → Z → Z * list Z * S.

(** [(value, multiplier, len, c)] are the variables of the loop; returns the
    [len] of the function and the value.  Four characters at most are read, so
    five iterations reach the exit. *)
Fixpoint decode_loop {S} (getcharfn : getfn_t S) (fuel : nat)
    (value multiplier len c : Z) (s : S) : Z * Z * S :=
  match fuel with
  | O => (len, value, s)
  | Datatypes.S fuel' =>
      let len := len + 1 in
      if MAX_NO_OF_REMAINING_LENGTH_BYTES <? len then (len, value, s) else
      let '(rc, bs, s) := getcharfn s 1 in
      let c := default c (head bs) in
      if negb (rc =? 1) then (len, value, s) else
      let value := value + Z.land c 127 * multiplier in
      let multiplier := multiplier * 128 in
      if negb (Z.land c 128 =? 0) then decode_loop getcharfn fuel' value multiplier len c s
      else (len, value, s)
  end.

Definition mqtt_packet_decode {S} (getcharfn : getfn_t S) (s : S) : Z * Z * S :=
  decode_loop getcharfn 5 0 1 0 0 s.

Definition mqtt_packet_len (rem_len : Z) : Z :=
  let rem_len := rem_len + 1 in
  if rem_len <? 128 then rem_len + 1
  else if rem_len <? 16384 then rem_len + 2
  else if rem_len <? 2097151 then rem_len + 3
  else rem_len + 4.

(** [mqtt_packet_decode] with the callback [bufchar], whose state is [bufptr]
    into [m]: the value of [len], the decoded value and whether every read was
    inside of the buffer. *)
Definition bufchar (m : list Z) : getfn_t (option Z) := λ s count,
  match s with
  | Some bufptr =>
      match peek m bufptr with
      | Some c => (count, [c], Some (bufptr + 1))
      | None => (count, [], None)
      end
  | None => (count, [], None)
  end.

Definition mqtt_packet_decode_buf (m : list Z) (buf : Z) : option (Z * Z) :=
  let '(len, value, s) := mqtt_packet_decode (bufchar m) (Some buf) in
  match s with Some _ => Some (len, value) | None => None end.

(** Reading at the pointer [p] of [m]: the value and the new pointer. *)
Definition mqtt_read_int (m : list Z) (p : Z) : option (Z * Z) :=
  hi ← peek m p; lo ← peek m (p + 1); Some (256 * hi + lo, p + 2).

Definition mqtt_read_char (m : list Z) (p : Z) : option (Z * Z) :=
  c ← peek m p; Some (c, p + 1).

Definition mqtt_write_char (s : cursor) (c : Z) : option cursor := poke s c.

Definition mqtt_write_int (s : cursor) (anInt : Z) : option cursor :=
  s ← poke s (Z.quot anInt 256); poke s (Z.rem anInt 256).

Definition mqtt_write_cstr (s : cursor) (string : list Z) : option cursor :=
  let len := zlength string in
  s ← mqtt_write_int s len; copy s string len.

Definition mqtt_write_mqqt_str (s : cursor) (mqttstring : mqtt_string_t) : option cursor :=
  if 0 <? mqttstring.(lenstring).(len) then
    s ← mqtt_write_int s mqttstring.(lenstring).(len);
    src ← mqttstring.(lenstring).(data);
    copy s src mqttstring.(lenstring).(len)
  else
    match mqttstring.(cstr) with
    | Some string => mqtt_write_cstr s string
    | None => mqtt_write_int s 0
    end.

(** Returns [rc], the string and the pointer; [s0] is the string on entry. *)
Definition mqtt_read_str_len (m : list Z) (p enddata : Z) (s0 : mqtt_string_t)
    : option (Z * mqtt_string_t * Z) :=
  if 1 <? enddata - p then
    '(n, p) ← mqtt_read_int m p;
    if p + n <=? enddata then
      Some (1, {| cstr := None; lenstring := {| len := n; data := Some (drop (Z.to_nat p) m) |} |}, p + n)
    else Some (0, {| cstr := None; lenstring := {| len := n; data := s0.(lenstring).(data) |} |}, p)
  else Some (0, {| cstr := None; lenstring := s0.(lenstring) |}, p).

Definition mqtt_strlen (mqttstring : mqtt_string_t) : Z :=
  match mqttstring.(cstr) with
  | Some s => zlength s
  | None => mqttstring.(lenstring).(len)
  end.

(** strncmp(a, b, n) == 0 where [b] is a C string of [n] characters: the first
    difference ends the comparison. *)
Fixpoint strncmp_eq (a b : list Z) {struct b} : option bool :=
  match b with
  | [] => Some true
  | y :: b' =>
      match a with
      | [] => None
      | x :: a' => if x =? y then strncmp_eq a' b' else Some false
      end
  end.

Definition mqtt_packet_equals (a : mqtt_string_t) (bptr : list Z) : option bool :=
  let '(aptr, alen) :=
    match a.(cstr) with
    | Some s => (Some (s ++ [0]), zlength s)
    | None => (a.(lenstring).(data), a.(lenstring).(len))
    end in
  if alen =? zlength bptr
  then match aptr with
       | Some aptr => strncmp_eq aptr bptr
       | None => if alen =? 0 then Some true else None
       end
  else Some false.

(** The callback stores what it read at [p]. *)
Definition get_into {S} (getfn : getfn_t S) (m : list Z) (p count : Z) (s : S)
    : option (Z * list Z * S) :=
  let '(rc, bs, s) := getfn s count in
  '(m, _) ← store_bytes (m, p) bs; Some (rc, m, s).

Definition mqtt_packet_read {S} (buf : list Z) (buflen : Z) (getfn : getfn_t S) (s : S)
    : option (Z * list Z * S) :=
  '(rc, buf, s) ← get_into getfn buf 0 1 s;
  if negb (rc =? 1) then Some (-1, buf, s) else
  let '(_, rem_len, s) := mqtt_packet_decode getfn s in
  '(buf, len) ← mqtt_packet_encode (buf, 1) rem_len;
  if buflen <? rem_len + len then Some (-1, buf, s) else
  '(rc, buf, s) ← get_into getfn buf len rem_len s;
  if negb (rc =? rem_len) then Some (-1, buf, s) else
  b ← peek buf 0;
  Some (header_type b, buf, s).

(** mqtt_transport_t; [sck] is the state of the callback. *)
Record mqtt_transport_t := { multiplier : Z; rem_len : Z; tlen : Z; state : Z }.

(** The iterations after the initialisation of [decodenb]: [rc], the transport
    and the source. *)
Fixpoint decodenb_loop {S} (getfn : getfn_t S) (fuel : nat) (c : Z)
    (trp : mqtt_transport_t) (s : S) : Z * mqtt_transport_t * S :=
  match fuel with
  | O => (MQTTPACKET_READ_ERROR, trp, s)
  | Datatypes.S fuel' =>
      let trp := {| multiplier := trp.(multiplier); rem_len := trp.(rem_len);
                    tlen := trp.(tlen) + 1; state := trp.(state) |} in
      if MAX_NO_OF_REMAINING_LENGTH_BYTES <? trp.(tlen)
      then (MQTTPACKET_READ_ERROR, trp, s) else
      let '(frc, bs, s) := getfn s 1 in
      let c := default c (head bs) in
      if frc =? -1 then (MQTTPACKET_READ_ERROR, trp, s) else
      if frc =? 0 then (0, trp, s) else
      let trp := {| multiplier := trp.(multiplier) * 128;
                    rem_len := trp.(rem_len) + Z.land c 127 * trp.(multiplier);
                    tlen := trp.(tlen); state := trp.(state) |} in
      if negb (Z.land c 128 =? 0) then decodenb_loop getfn fuel' c trp s
      else (trp.(tlen), trp, s)
  end.

Definition decodenb {S} (getfn : getfn_t S) (trp : mqtt_transport_t) (s : S)
    : Z * mqtt_transport_t * S :=
  let trp := if trp.(tlen) =? 0
             then {| multiplier := 1; rem_len := 0; tlen := trp.(tlen); state := trp.(state) |}
             else trp in
  decodenb_loop getfn 5 0 trp s.

Definition set_state (trp : mqtt_transport_t) (st : Z) : mqtt_transport_t :=
  {| multiplier := trp.(multiplier); rem_len := trp.(rem_len); tlen := trp.(tlen); state := st |}.

(** case 2 of the switch: the rest of the packet. *)
Definition readnb_body {S} (buf : list Z) (getfn : getfn_t S) (trp : mqtt_transport_t) (s : S)
    : option (Z * list Z * mqtt_transport_t * S) :=
  '(frc, buf, s) ← get_into getfn buf trp.(tlen) trp.(rem_len) s;
  if frc =? -1 then Some (-1, buf, set_state trp 0, s) else
  if frc =? 0 then Some (0, buf, trp, s) else
  let trp := {| multiplier := trp.(multiplier); rem_len := trp.(rem_len) - frc;
                tlen := trp.(tlen) + frc; state := trp.(state) |} in
  if negb (trp.(rem_len) =? 0) then Some (0, buf, trp, s) else
  b ← peek buf 0;
  Some (header_type b, buf, set_state trp 0, s).

(** case 1, falling through to case 2. *)
Definition readnb_length {S} (buf : list Z) (buflen : Z) (getfn : getfn_t S)
    (trp : mqtt_transport_t) (s : S) : option (Z * list Z * mqtt_transport_t * S) :=
  let '(frc, trp, s) := decodenb getfn trp s in
  if frc =? MQTTPACKET_READ_ERROR then Some (-1, buf, set_state trp 0, s) else
  if frc =? 0 then Some (0, buf, trp, s) else
  '(buf, len) ← mqtt_packet_encode (buf, 1) trp.(rem_len);
  let trp := {| multiplier := trp.(multiplier); rem_len := trp.(rem_len);
                tlen := len; state := trp.(state) |} in
  if buflen <? trp.(rem_len) + trp.(tlen) then Some (-1, buf, set_state trp 0, s) else
  readnb_body buf getfn (set_state trp (trp.(state) + 1)) s.

Definition mqtt_packet_readnb {S} (buf : list Z) (buflen : Z) (getfn : getfn_t S)
    (trp : mqtt_transport_t) (s : S) : option (Z * list Z * mqtt_transport_t * S) :=
  if trp.(state) =? 1 then readnb_length buf buflen getfn trp s
  else if trp.(state) =? 2 then readnb_body buf getfn trp s
  else
    let trp := set_state trp 0 in
    '(frc, buf, s) ← get_into getfn buf 0 1 s;
    if frc =? -1 then Some (-1, buf, set_state trp 0, s) else
    if frc =? 0 then Some (0, buf, trp, s) else
    readnb_length buf buflen getfn
      {| multiplier := trp.(multiplier); rem_len := trp.(rem_len); tlen := 0;
         state := trp.(state) + 1 |} s.
