(* ===== verification/MqttMessages.v ===== *)
(** MqttMessages: the MQTT control packets, built and taken apart.

    Models MQTTConnectClient.c, MQTTSubscribeClient.c, MQTTUnsubscribeClient.c,
    MQTTSerializePublish.c and MQTTDeserializePublish.c over the codec of
    [MqttPacket].  A serializer takes the buffer and returns the value of the
    function with the buffer it leaves; a deserializer takes the variables its
    pointer arguments point to and returns them updated. *)

From S2P Require Import Prelude CString Buffer MqttPacket.

(** A serializer's exit: [rc = ptr - buf]. *)
Definition ptr_written (s : option cursor) : option (Z * list Z) :=
  '(m, p) ← s; Some (p, m).

(** ** MQTTConnectClient.c *)

Record mqtt_packet_will_options_t := {
  topicName : mqtt_string_t;
  message : mqtt_string_t;
  retained : Z;
  will_qos : Z;
}.

Record mqtt_packet_connect_data_t := {
  MQTTVersion : Z;
  clientID : mqtt_string_t;
  keepAliveInterval : Z;
  cleansession : Z;
  willFlag : Z;
  will : mqtt_packet_will_options_t;
  username : mqtt_string_t;
  password : mqtt_string_t;
}.

Definition mqtt_packet_connect_data_initializer : mqtt_packet_connect_data_t := {|
  MQTTVersion := 4;
  clientID := mqtt_string_initializer;
  keepAliveInterval := 60;
  cleansession := 1;
  willFlag := 0;
  will := {| topicName := mqtt_string_initializer; message := mqtt_string_initializer;
             retained := 0; will_qos := 0 |};
  username := mqtt_string_initializer;
  password := mqtt_string_initializer;
|}.

(** s.cstring || s.lenstring.data *)
Definition supplied (s : mqtt_string_t) : bool :=
  bool_decide (is_Some s.(cstr)) || bool_decide (is_Some s.(lenstring).(data)).

Definition connect_length (options : mqtt_packet_connect_data_t) : Z :=
  let len := if options.(MQTTVersion) =? 3 then 12
             else if options.(MQTTVersion) =? 4 then 10 else 0 in
  let len := len + 2 in
  let len := if negb (options.(willFlag) =? 0)
             then len + (mqtt_strlen options.(will).(topicName) + 2
                         + mqtt_strlen options.(will).(message) + 2) else len in
  let len := if supplied options.(username) then len + (mqtt_strlen options.(username) + 2) else len in
  let len := if supplied options.(password) then len + (mqtt_strlen options.(password) + 2) else len in
  len.

(** mqtt_connect_flags_t: unused:1, cleansession:1, will:1, willQoS:2,
    willRetain:1, password:1, username:1 from the low bit up. *)
Definition connect_flags (options : mqtt_packet_connect_data_t) : Z :=
  let fwill := if negb (options.(willFlag) =? 0) then 1 else 0 in
  let fqos := if fwill =? 1 then options.(will).(will_qos) else 0 in
  let fretain := if fwill =? 1 then options.(will).(retained) else 0 in
  let fuser := if supplied options.(username) then 1 else 0 in
  let fpass := if supplied options.(password) then 1 else 0 in
  Z.lor (bits 1 options.(cleansession) 1)
    (Z.lor (bits 1 fwill 2) (Z.lor (bits 2 fqos 3) (Z.lor (bits 1 fretain 5)
      (Z.lor (bits 1 fpass 6) (bits 1 fuser 7))))).

Definition str_MQTT : list Z := [77; 81; 84; 84].
Definition str_MQIsdp : list Z := [77; 81; 73; 115; 100; 112].

Definition write_if (b : bool) (s : cursor) (str : mqtt_string_t) : option cursor :=
  if b then mqtt_write_mqqt_str s str else Some s.

Definition mqtt_serialize_connect (buf : list Z) (buflen : Z) (options : mqtt_packet_connect_data_t)
    : option (Z * list Z) :=
  let len := connect_length options in
  if buflen <? mqtt_packet_len len then Some (MQTTPACKET_BUFFER_TOO_SHORT, buf) else
  ptr_written (
    s ← mqtt_write_char (buf, 0) (mqtt_header MQTTPACKET_CONNECT 0 0 0);
    s ← mqtt_packet_encode s len;
    s ← (if options.(MQTTVersion) =? 4
         then s ← mqtt_write_cstr s str_MQTT; mqtt_write_char s 4
         else s ← mqtt_write_cstr s str_MQIsdp; mqtt_write_char s 3);
    let flags := connect_flags options in
    s ← mqtt_write_char s flags;
    s ← mqtt_write_int s options.(keepAliveInterval);
    s ← mqtt_write_mqqt_str s options.(clientID);
    s ← write_if (negb (options.(willFlag) =? 0)) s options.(will).(topicName);
    s ← write_if (negb (options.(willFlag) =? 0)) s options.(will).(message);
    s ← write_if (negb (field flags 7 1 =? 0)) s options.(username);
    write_if (negb (field flags 6 1 =? 0)) s options.(password)).

(** [rc], [*sessionPresent], [*connack_rc].  mqtt_conn_ack_flags_t: unused:7,
    sessionpresent:1 from the low bit up. *)
Definition mqtt_deserialize_connack (sessionPresent connack_rc : Z) (buf : list Z) (buflen : Z)
    : option (Z * Z * Z) :=
  '(b, curdata) ← mqtt_read_char buf 0;
  if negb (header_type b =? MQTTPACKET_CONNACK) then Some (0, sessionPresent, connack_rc) else
  '(rc, mylen) ← mqtt_packet_decode_buf buf curdata;
  let curdata := curdata + rc in
  let enddata := curdata + mylen in
  if enddata - curdata <? 2 then Some (rc, sessionPresent, connack_rc) else
  '(flags, curdata) ← mqtt_read_char buf curdata;
  '(c, curdata) ← mqtt_read_char buf curdata;
  Some (1, field flags 7 1, c).

Definition mqtt_serialize_zero (buf : list Z) (buflen packettype : Z) : option (Z * list Z) :=
  if buflen <? 2 then Some (MQTTPACKET_BUFFER_TOO_SHORT, buf) else
  ptr_written (
    s ← mqtt_write_char (buf, 0) (mqtt_header packettype 0 0 0);
    mqtt_packet_encode s 0).

Definition mqtt_serialize_disconnect (buf : list Z) (buflen : Z) : option (Z * list Z) :=
  mqtt_serialize_zero buf buflen MQTTPACKET_DISCONNECT.

Definition mqtt_serialize_pingreq (buf : list Z) (buflen : Z) : option (Z * list Z) :=
  mqtt_serialize_zero buf buflen MQTTPACKET_PINGREQ.

(** ** MQTTSubscribeClient.c

    The arrays [topicFilters] and [requestedQoSs] are one list of pairs; the
    argument [count] is its length. *)

Definition subscribe_length (filters : list (mqtt_string_t * Z)) : Z :=
  foldl (λ len f, len + (2 + mqtt_strlen f.1 + 1)) 2 filters.

Fixpoint write_filters (s : cursor) (filters : list (mqtt_string_t * Z)) : option cursor :=
  match filters with
  | [] => Some s
  | (topic, qos) :: filters' =>
      s ← mqtt_write_mqqt_str s topic;
      s ← mqtt_write_char s qos;
      write_filters s filters'
  end.

Definition mqtt_serialize_subscribe (buf : list Z) (buflen dup packetid : Z)
    (filters : list (mqtt_string_t * Z)) : option (Z * list Z) :=
  let rem_len := subscribe_length filters in
  if buflen <? mqtt_packet_len rem_len then Some (MQTTPACKET_BUFFER_TOO_SHORT, buf) else
  ptr_written (
    s ← mqtt_write_char (buf, 0) (mqtt_header MQTTPACKET_SUBSCRIBE dup 1 0);
    s ← mqtt_packet_encode s rem_len;
    s ← mqtt_write_int s packetid;
    write_filters s filters).

(** The loop over the granted QoS bytes; [grantedQoSs] is the caller's array,
    a store past its end is undefined. *)
Fixpoint suback_loop (buf : list Z) (fuel : nat) (curdata enddata maxcount count : Z)
    (grantedQoSs : list Z) : option (Z * Z * list Z) :=
  match fuel with
  | O => Some (1, count, grantedQoSs)
  | S fuel' =>
      if curdata <? enddata then
        if maxcount <? count then Some (-1, count, grantedQoSs) else
        '(c, curdata) ← mqtt_read_char buf curdata;
        if (0 <=? count) && (count <? zlength grantedQoSs)
        then suback_loop buf fuel' curdata enddata maxcount (count + 1)
               (<[Z.to_nat count := c]> grantedQoSs)
        else None
      else Some (1, count, grantedQoSs)
  end.

Record suback_out := { sa_packetid : Z; sa_count : Z; sa_grantedQoSs : list Z }.

Definition mqtt_deserialize_suback (o : suback_out) (maxcount : Z) (buf : list Z) (buflen : Z)
    : option (Z * suback_out) :=
  '(b, curdata) ← mqtt_read_char buf 0;
  if negb (header_type b =? MQTTPACKET_SUBACK) then Some (0, o) else
  '(rc, mylen) ← mqtt_packet_decode_buf buf curdata;
  let curdata := curdata + rc in
  let enddata := curdata + mylen in
  if enddata - curdata <? 2 then Some (rc, o) else
  '(packetid, curdata) ← mqtt_read_int buf curdata;
  '(rc, count, qs) ← suback_loop buf (Z.to_nat (enddata - curdata) + 1) curdata enddata maxcount 0
                       o.(sa_grantedQoSs);
  Some (rc, {| sa_packetid := packetid; sa_count := count; sa_grantedQoSs := qs |}).

(** ** MQTTUnsubscribeClient.c *)

Definition unsubscribe_length (topicFilters : list mqtt_string_t) : Z :=
  foldl (λ len f, len + (2 + mqtt_strlen f)) 2 topicFilters.

Fixpoint write_topics (s : cursor) (topicFilters : list mqtt_string_t) : option cursor :=
  match topicFilters with
  | [] => Some s
  | topic :: topicFilters' => s ← mqtt_write_mqqt_str s topic; write_topics s topicFilters'
  end.

Definition mqtt_serialize_unsubscribe (buf : list Z) (buflen dup packetid : Z)
    (topicFilters : list mqtt_string_t) : option (Z * list Z) :=
  let rem_len := unsubscribe_length topicFilters in
  if buflen <? mqtt_packet_len rem_len then Some (MQTTPACKET_BUFFER_TOO_SHORT, buf) else
  ptr_written (
    s ← mqtt_write_char (buf, 0) (mqtt_header MQTTPACKET_UNSUBSCRIBE dup 1 0);
    s ← mqtt_packet_encode s rem_len;
    s ← mqtt_write_int s packetid;
    write_topics s topicFilters).

(** ** MQTTSerializePublish.c *)

Definition publish_length (qos : Z) (topicName : mqtt_string_t) (payloadlen : Z) : Z :=
  let len := 2 + mqtt_strlen topicName + payloadlen in
  if 0 <? qos then len + 2 else len.

Definition mqtt_serialize_publish (buf : list Z) (buflen dup qos retained packetid : Z)
    (topicName : mqtt_string_t) (payload : list Z) (payloadlen : Z) : option (Z * list Z) :=
  let rem_len := publish_length qos topicName payloadlen in
  if buflen <? mqtt_packet_len rem_len then Some (MQTTPACKET_BUFFER_TOO_SHORT, buf) else
  ptr_written (
    s ← mqtt_write_char (buf, 0) (mqtt_header MQTTPACKET_PUBLISH dup qos retained);
    s ← mqtt_packet_encode s rem_len;
    s ← mqtt_write_mqqt_str s topicName;
    s ← (if 0 <? qos then mqtt_write_int s packetid else Some s);
    copy s payload payloadlen).

Definition mqtt_serialize_ack (buf : list Z) (buflen packettype dup packetid : Z)
    : option (Z * list Z) :=
  if buflen <? 4 then Some (MQTTPACKET_BUFFER_TOO_SHORT, buf) else
  ptr_written (
    s ← mqtt_write_char (buf, 0)
          (mqtt_header packettype dup (if packettype =? MQTTPACKET_PUBREL then 1 else 0) 0);
    s ← mqtt_packet_encode s 2;
    mqtt_write_int s packetid).

Definition mqtt_serialize_puback (buf : list Z) (buflen packetid : Z) : option (Z * list Z) :=
  mqtt_serialize_ack buf buflen MQTTPACKET_PUBACK 0 packetid.
Definition mqtt_serialize_pubrel (buf : list Z) (buflen dup packetid : Z) : option (Z * list Z) :=
  mqtt_serialize_ack buf buflen MQTTPACKET_PUBREL dup packetid.
Definition mqtt_serialize_pubcomp (buf : list Z) (buflen packetid : Z) : option (Z * list Z) :=
  mqtt_serialize_ack buf buflen MQTTPACKET_PUBCOMP 0 packetid.

(** ** MQTTDeserializePublish.c *)

Record publish_out := {
  po_dup : Z; po_qos : Z; po_retained : Z; po_packetid : Z;
  po_topicName : mqtt_string_t; po_payload : pointer; po_payloadlen : Z;
}.

Definition mqtt_deserialize_publish (o : publish_out) (buf : list Z) (buflen : Z)
    : option (Z * publish_out) :=
  '(b, curdata) ← mqtt_read_char buf 0;
  if negb (header_type b =? MQTTPACKET_PUBLISH) then Some (0, o) else
  let dup := header_dup b in
  let qos := header_qos b in
  let retained := header_retain b in
  '(rc, mylen) ← mqtt_packet_decode_buf buf curdata;
  let curdata := curdata + rc in
  let enddata := curdata + mylen in
  '(ok, topic, curdata) ← mqtt_read_str_len buf curdata enddata o.(po_topicName);
  if (ok =? 0) || (enddata - curdata <? 0) then
    Some (rc, {| po_dup := dup; po_qos := qos; po_retained := retained;
                 po_packetid := o.(po_packetid); po_topicName := topic;
                 po_payload := o.(po_payload); po_payloadlen := o.(po_payloadlen) |})
  else
  '(packetid, curdata) ← (if 0 <? qos then mqtt_read_int buf curdata
                          else Some (o.(po_packetid), curdata));
  Some (1, {| po_dup := dup; po_qos := qos; po_retained := retained;
              po_packetid := packetid; po_topicName := topic;
              po_payload := Some (drop (Z.to_nat curdata) buf);
              po_payloadlen := enddata - curdata |}).

Record ack_out := { ao_packettype : Z; ao_dup : Z; ao_packetid : Z }.

Definition mqtt_deserialize_ack (o : ack_out) (buf : list Z) (buflen : Z) : option (Z * ack_out) :=
  '(b, curdata) ← mqtt_read_char buf 0;
  let dup := header_dup b in
  let packettype := header_type b in
  '(rc, mylen) ← mqtt_packet_decode_buf buf curdata;
  let curdata := curdata + rc in
  let enddata := curdata + mylen in
  if enddata - curdata <? 2
  then Some (rc, {| ao_packettype := packettype; ao_dup := dup; ao_packetid := o.(ao_packetid) |})
  else
  '(packetid, curdata) ← mqtt_read_int buf curdata;
  Some (1, {| ao_packettype := packettype; ao_dup := dup; ao_packetid := packetid |}).

(** [rc] and [*packetid]. *)
Definition mqtt_deserialize_unsuback (packetid : Z) (buf : list Z) (buflen : Z) : option (Z * Z) :=
  '(rc, o) ← mqtt_deserialize_ack {| ao_packettype := 0; ao_dup := 0; ao_packetid := packetid |}
               buf buflen;
  let rc := if o.(ao_packettype) =? MQTTPACKET_UNSUBACK then 1 else rc in
  Some (rc, o.(ao_packetid)).
