(* ===== verification/MqttCodec.v ===== *)
(** MqttCodec: what the codec of [MqttPacket] writes and reads.

    Every writing routine is a [put] of bytes that are given in closed form
    ([encode_bytes], [be16], [utf]), and every reading routine inverts it. *)

From S2P Require Import Prelude CString Buffer MqttPacket MqttMessages.

(** ** Small integers, by evaluation *)

Lemma small_forall (n : Z) (P : Z → bool) :
  forallb P (seqZ 0 n) = true → ∀ x, 0 ≤ x < n → P x = true.
Proof.
  rewrite forallb_forall. intros H x Hx. apply H.
  apply list_elem_of_In, elem_of_seqZ. lia.
Qed.

Lemma digit_bits d : 0 ≤ d < 128 →
  Z.lor d 128 = d + 128 ∧ Z.land (Z.lor d 128) 127 = d ∧ Z.land (Z.lor d 128) 128 = 128
  ∧ Z.land d 127 = d ∧ Z.land d 128 = 0.
Proof.
  intros Hd.
  assert (H := small_forall 128 (λ d, (Z.lor d 128 =? d + 128) && (Z.land (Z.lor d 128) 127 =? d)
     && (Z.land (Z.lor d 128) 128 =? 128) && (Z.land d 127 =? d) && (Z.land d 128 =? 0))
     eq_refl d Hd).
  rewrite !andb_true_iff, !Z.eqb_eq in H. tauto.
Qed.

(** ** The header byte *)

Record header_ok (type dup qos retain : Z) : Prop := {
  hok_type : 0 ≤ type < 16;
  hok_dup : 0 ≤ dup < 2;
  hok_qos : 0 ≤ qos < 4;
  hok_retain : 0 ≤ retain < 2;
}.

Lemma header_fields type dup qos retain :
  header_ok type dup qos retain →
  let b := mqtt_header type dup qos retain in
  is_byte b ∧ header_type b = type ∧ header_dup b = dup ∧ header_qos b = qos
  ∧ header_retain b = retain.
Proof.
  intros [Ht Hd Hq Hr] b.
  assert (H := small_forall 16 (λ t, forallb (λ d, forallb (λ q, forallb (λ r,
    let b := mqtt_header t d q r in
    (0 <=? b) && (b <? 256) && (header_type b =? t) && (header_dup b =? d)
    && (header_qos b =? q) && (header_retain b =? r))
    (seqZ 0 2)) (seqZ 0 4)) (seqZ 0 2)) eq_refl type Ht). cbv beta in H.
  apply (small_forall 2) with (x := dup) in H; [|done].
  apply (small_forall 4) with (x := qos) in H; [|done].
  apply (small_forall 2) with (x := retain) in H; [|done].
  cbv zeta in H.
  rewrite !andb_true_iff, !Z.eqb_eq, Z.leb_le, Z.ltb_lt in H.
  unfold is_byte. subst b. tauto.
Qed.

(** ** Closed forms *)

Definition be16 (x : Z) : list Z := [u8 (Z.quot x 256); u8 (Z.rem x 256)].
Definition utf (s : list Z) : list Z := be16 (zlength s) ++ s.

(** A cursor inside of its buffer. *)
Definition inside (s : cursor) : Prop := 0 ≤ s.2 ≤ zlength s.1.

Lemma put_inside s bs s' : put s bs = Some s' → inside s'.
Proof.
  destruct s as [m p]. unfold put. case_decide as E; [|done]. intros [= <-].
  unfold inside. simpl. rewrite !length_app, length_take, length_drop. lia.
Qed.

Lemma put_bind s bs cs f :
  (∀ s', inside s' → f s' = put s' cs) → (put s bs ≫= f) = put s (bs ++ cs).
Proof.
  intros Hf. rewrite put_app. destruct (put s bs) as [s'|] eqn:E; [|done].
  simpl. apply Hf. by eapply put_inside.
Qed.

Lemma put_stay s : inside s → Some s = put s [].
Proof. destruct s. intros. by rewrite put_nil. Qed.

(** [s] stands for the characters [c]: its C string is [c], or it has none and
    its length-delimited part is [c]. *)
Definition str_is (s : mqtt_string_t) (c : list Z) : Prop :=
  match s.(cstr) with
  | Some s' => s' = c ∧ s.(lenstring).(len) ≤ 0
  | None => s.(lenstring).(len) = zlength c ∧ (c ≠ [] → ∃ rest, s.(lenstring).(data) = Some (c ++ rest))
  end.

Lemma str_is_len s c : str_is s c → mqtt_strlen s = zlength c.
Proof. unfold str_is, mqtt_strlen. destruct (cstr s); naive_solver. Qed.

Lemma write_int_put s x : mqtt_write_int s x = put s (be16 x).
Proof.
  unfold mqtt_write_int. rewrite poke_put.
  rewrite (put_bind _ _ [u8 (Z.rem x 256)]); [done|]. intros; apply poke_put.
Qed.

Lemma write_cstr_put s c : mqtt_write_cstr s c = put s (utf c).
Proof.
  unfold mqtt_write_cstr. rewrite write_int_put. apply put_bind. intros s' _.
  rewrite copy_put by lia. by rewrite Nat2Z.id, take_ge.
Qed.

Lemma write_str_put s str c : str_is str c → mqtt_write_mqqt_str s str = put s (utf c).
Proof.
  unfold str_is, mqtt_write_mqqt_str. destruct (cstr str) as [s'|].
  - intros [-> Hl]. destruct (Z.ltb_spec 0 (len (lenstring str))); [lia|]. apply write_cstr_put.
  - intros [-> Hd]. destruct (Z.ltb_spec 0 (zlength c)) as [Hc|Hc].
    + destruct Hd as [rest ->]; [by destruct c; simpl in Hc|].
      rewrite write_int_put. apply put_bind. intros s' _. simpl.
      rewrite copy_put by (rewrite length_app; lia). by rewrite Nat2Z.id, take_app_length.
    + destruct c; [|simpl in Hc; lia]. apply write_int_put.
Qed.

Lemma store_put s bs : inside s → Forall is_byte bs → store_bytes s bs = put s bs.
Proof.
  intros Hs Hb. revert s Hs. induction Hb as [|b bs Hb Hbs IH]; intros s Hs; simpl.
  - by apply put_stay.
  - rewrite poke_put, u8_small by done.
    apply (put_bind s [b] bs). intros s' Hs'. by apply IH.
Qed.

(** ** The remaining length *)

Lemma encode_loop_nonneg fuel n : 0 ≤ n →
  encode_loop (S fuel) n =
    if 128 <=? n then n `mod` 128 + 128 :: encode_loop fuel (n / 128) else [n].
Proof.
  intros Hn. cbn [encode_loop].
  rewrite Z.quot_div_nonneg, Z.rem_mod_nonneg by lia.
  rewrite u8_small by zsolve.
  destruct (Z.leb_spec 128 n), (Z.ltb_spec 0 (n / 128)); try (exfalso; zsolve).
  - f_equal. apply digit_bits. zsolve.
  - f_equal. zsolve.
Qed.

Lemma encode_loop_bytes fuel n : 0 ≤ n → Forall is_byte (encode_loop fuel n).
Proof.
  revert n. induction fuel as [|fuel IH]; intros n Hn; [constructor|].
  rewrite encode_loop_nonneg by done. destruct (Z.leb_spec 128 n).
  - constructor; [zsolve|]. apply IH. zsolve.
  - repeat constructor; lia.
Qed.

(** The number of bytes of the remaining length. *)
Definition varint_size (n : Z) : Z :=
  if n <? 128 then 1 else if n <? 16384 then 2 else if n <? 2097152 then 3
  else if n <? 268435456 then 4 else 5.

Lemma encode_size n : 0 ≤ n < 2 ^ 31 → zlength (encode_bytes n) = varint_size n.
Proof.
  intros Hn. unfold encode_bytes, varint_size.
  repeat (rewrite encode_loop_nonneg by zsolve;
    match goal with |- context [128 <=? ?e] => destruct (Z.leb_spec 128 e) end; cbn [length]);
  repeat match goal with |- context [n <? ?k] => destruct (Z.ltb_spec n k) end;
  simpl; zsolve.
Qed.

Lemma packet_len_bounds n : 0 ≤ n < 268435456 →
  1 + varint_size n + n ≤ mqtt_packet_len n ≤ 2 + varint_size n + n.
Proof. intros. unfold mqtt_packet_len, varint_size. zbool; lia. Qed.

Lemma encode_put s n : inside s → 0 ≤ n → mqtt_packet_encode s n = put s (encode_bytes n).
Proof. intros. apply store_put; [done|]. by apply encode_loop_bytes. Qed.

(** A source that hands out the bytes [bs] one by one, from state [s] to [s']. *)
Inductive delivers {S} (getfn : getfn_t S) : S → list Z → S → Prop :=
  | delivers_nil s : delivers getfn s [] s
  | delivers_cons s b s1 bs s' :
      getfn s 1 = (1, [b], s1) → delivers getfn s1 bs s' → delivers getfn s (b :: bs) s'.

Lemma div_128_lt k n : n < 128 ^ Z.of_nat (S k) → n / 128 < 128 ^ Z.of_nat k.
Proof.
  rewrite Nat2Z.inj_succ, Z.pow_succ_r by lia. apply Z.div_lt_upper_bound. lia.
Qed.

(** Decoding what [encode_loop] wrote, from any point of the loop. *)
Lemma decode_loop_encode {S} (getfn : getfn_t S) k : ∀ fuel n value multiplier len c s s',
  0 ≤ n < 128 ^ Z.of_nat k → (0 < k)%nat → len + Z.of_nat k ≤ 4 → (k ≤ fuel)%nat →
  let enc := encode_loop k n in
  delivers getfn s enc s' →
  decode_loop getfn fuel value multiplier len c s
  = (len + zlength enc, value + n * multiplier, s').
Proof.
  induction k as [|k IH]; intros fuel n value multiplier len c s s' Hn H0 Hlen Hk enc Hs; [lia|].
  destruct fuel as [|fuel]; [lia|]. cbn [decode_loop].
  destruct (Z.ltb_spec MAX_NO_OF_REMAINING_LENGTH_BYTES (len + 1)) as [Hmax|_].
  { unfold MAX_NO_OF_REMAINING_LENGTH_BYTES in Hmax; lia. }
  unfold enc in *. clear enc. rewrite encode_loop_nonneg in * by lia.
  destruct (Z.leb_spec 128 n) as [Hb|Hb]; inversion_clear Hs as [|? ? s1 ? ? Eg Hs1];
    rewrite Eg; cbn [head default id]; change (negb (1 =? 1)) with false; cbn [negb].
  - assert (Hd : 0 ≤ n `mod` 128 < 128) by zsolve.
    destruct (digit_bits _ Hd) as (E1 & E2 & E3 & _). rewrite E1 in E2, E3. rewrite E2, E3.
    change (negb (128 =? 0)) with true. cbn [negb].
    assert (k ≠ 0)%nat by (intros ->; simpl in Hn; lia).
    rewrite (IH fuel (n / 128) _ _ _ _ s1 s'); [|split; [zsolve|apply div_128_lt, Hn]|lia..|done].
    cbn [length]. do 2 f_equal; [lia|].
    replace (n * multiplier) with ((128 * (n / 128) + n `mod` 128) * multiplier)
      by (f_equal; symmetry; apply Z.div_mod; lia). ring.
  - destruct (digit_bits n) as (_ & _ & _ & -> & ->); [lia|].
    inversion_clear Hs1. cbn [negb Z.eqb length]. do 2 f_equal; lia.
Qed.

(** More fuel than digits does not change the bytes. *)
Lemma encode_loop_fuel k j n : 0 ≤ n < 128 ^ Z.of_nat (S k) →
  encode_loop (S k + j) n = encode_loop (S k) n.
Proof.
  revert n. induction k as [|k IH]; intros n Hn; rewrite Nat.add_succ_l, !encode_loop_nonneg by lia;
    destruct (Z.leb_spec 128 n); try done.
  - simpl in Hn; lia.
  - f_equal. apply IH. split; [zsolve|apply div_128_lt, Hn].
Qed.

Lemma decode_encode {S} (getfn : getfn_t S) s s' n : 0 ≤ n < 268435456 →
  delivers getfn s (encode_bytes n) s' →
  mqtt_packet_decode getfn s = (zlength (encode_bytes n), n, s').
Proof.
  intros Hn. unfold mqtt_packet_decode, encode_bytes.
  rewrite (encode_loop_fuel 3 1) by (simpl; lia). intros Hs.
  rewrite (decode_loop_encode getfn 4 5 n _ _ _ _ s s'); [|simpl; lia|lia..|done].
  do 2 f_equal; lia.
Qed.

Lemma bufchar_delivers pre bs post : delivers (bufchar (pre ++ bs ++ post))
  (Some (zlength pre)) bs (Some (zlength pre + zlength bs)).
Proof.
  revert pre. induction bs as [|b bs IH]; intros pre; simpl.
  - rewrite Z.add_0_r. constructor.
  - econstructor; [unfold bufchar; by rewrite peek_at|].
    replace (pre ++ b :: bs ++ post) with ((pre ++ [b]) ++ bs ++ post)
      by (by rewrite <- (assoc_L (++))).
    replace (zlength pre + 1) with (zlength (pre ++ [b])) by (rewrite length_app; simpl; lia).
    replace (zlength pre + Z.of_nat (S (length bs))) with (zlength (pre ++ [b]) + zlength bs)
      by (rewrite length_app; simpl; lia). apply IH.
Qed.

Lemma decode_buf_encode n pre post : 0 ≤ n < 268435456 →
  mqtt_packet_decode_buf (pre ++ encode_bytes n ++ post) (zlength pre)
  = Some (zlength (encode_bytes n), n).
Proof.
  intros Hn. unfold mqtt_packet_decode_buf.
  by rewrite (decode_encode _ _ _ n Hn (bufchar_delivers pre (encode_bytes n) post)).
Qed.

Lemma be16_read x pre post p : 0 ≤ x < 65536 → p = zlength pre →
  mqtt_read_int (pre ++ be16 x ++ post) p = Some (x, p + 2).
Proof.
  intros Hx ->. unfold mqtt_read_int, be16. cbn [app].
  rewrite (peek_at _ _ _ (zlength pre)) by done. simpl.
  replace (pre ++ u8 (Z.quot x 256) :: u8 (Z.rem x 256) :: post)
    with ((pre ++ [u8 (Z.quot x 256)]) ++ u8 (Z.rem x 256) :: post) by (by rewrite <- (assoc_L (++))).
  rewrite peek_at by (rewrite length_app; simpl; lia). simpl. do 2 f_equal.
  rewrite Z.quot_div_nonneg, Z.rem_mod_nonneg by lia. zsolve.
Qed.
