(* ===== verification/MqttWire.v ===== *)
(** MqttWire: the wire format of the MQTT control packets, and that the
    serializers of [MqttMessages] produce it.

    [wire] gives the bytes of MQTT 3.1.1 (a fixed header, the remaining length
    and the body) of a [request]; [serialize] runs the code's serializer of the
    request.  [serialize_wire] is the refinement between the two. *)

From S2P Require Import Prelude CString Buffer MqttPacket MqttMessages MqttCodec.

(** A packet: the fixed header byte, the length of the body and the body. *)
Definition frame (type dup qos retain : Z) (body : list Z) : list Z :=
  mqtt_header type dup qos retain :: encode_bytes (zlength body) ++ body.

(** What a client asks its serializers to build.  Strings are given as the
    code's structures. *)
Inductive request :=
  | Publish (dup qos retained packetid : Z) (topic : mqtt_string_t) (payload : list Z)
  | Ack (packettype dup packetid : Z)
  | Subscribe (dup packetid : Z) (filters : list (mqtt_string_t * Z))
  | Unsubscribe (dup packetid : Z) (filters : list mqtt_string_t)
  | Zero (packettype : Z).

(** The serializer of a request. *)
Definition serialize (r : request) (buf : list Z) (buflen : Z) : option (Z * list Z) :=
  match r with
  | Publish dup qos retained packetid topic payload =>
      mqtt_serialize_publish buf buflen dup qos retained packetid topic payload (zlength payload)
  | Ack packettype dup packetid => mqtt_serialize_ack buf buflen packettype dup packetid
  | Subscribe dup packetid filters => mqtt_serialize_subscribe buf buflen dup packetid filters
  | Unsubscribe dup packetid filters => mqtt_serialize_unsubscribe buf buflen dup packetid filters
  | Zero packettype => mqtt_serialize_zero buf buflen packettype
  end.

(** The characters of a string structure. *)
Definition chars (s : mqtt_string_t) : list Z :=
  match s.(cstr) with
  | Some c => c
  | None => take (Z.to_nat s.(lenstring).(len)) (default [] s.(lenstring).(data))
  end.

(** A string structure as the library's callers build it: not both a C string
    and a length-delimited one, and no longer than its data. *)
Definition str_ok (s : mqtt_string_t) : Prop := str_is s (chars s) ∧ zlength (chars s) < 65536.

Definition body (r : request) : list Z :=
  match r with
  | Publish _ qos _ packetid topic payload =>
      utf (chars topic) ++ (if 0 <? qos then be16 packetid else []) ++ payload
  | Ack _ _ packetid => be16 packetid
  | Subscribe _ packetid filters =>
      be16 packetid ++ concat ((λ f, utf (chars f.1) ++ [u8 f.2]) <$> filters)
  | Unsubscribe _ packetid filters => be16 packetid ++ concat ((λ f, utf (chars f)) <$> filters)
  | Zero _ => []
  end.

(** Type and flags: SUBSCRIBE, UNSUBSCRIBE and PUBREL carry QoS 1. *)
Definition wire (r : request) : list Z :=
  match r with
  | Publish dup qos retained _ _ _ => frame MQTTPACKET_PUBLISH dup qos retained (body r)
  | Ack packettype dup _ =>
      frame packettype dup (if packettype =? MQTTPACKET_PUBREL then 1 else 0) 0 (body r)
  | Subscribe dup _ _ => frame MQTTPACKET_SUBSCRIBE dup 1 0 (body r)
  | Unsubscribe dup _ _ => frame MQTTPACKET_UNSUBSCRIBE dup 1 0 (body r)
  | Zero packettype => frame packettype 0 0 0 (body r)
  end.

(** Arguments in the range of their C types and packets MQTT can frame. *)
Definition request_ok (r : request) : Prop :=
  zlength (body r) < 268435456 ∧
  match r with
  | Publish dup qos retained packetid topic payload =>
      0 ≤ dup < 2 ∧ 0 ≤ qos < 3 ∧ 0 ≤ retained < 2 ∧ is_u16 packetid ∧ str_ok topic
  | Ack packettype dup packetid => 0 ≤ packettype < 16 ∧ 0 ≤ dup < 2 ∧ is_u16 packetid
  | Subscribe dup packetid filters =>
      0 ≤ dup < 2 ∧ is_u16 packetid ∧ Forall (λ f, str_ok f.1) filters
  | Unsubscribe dup packetid filters => 0 ≤ dup < 2 ∧ is_u16 packetid ∧ Forall str_ok filters
  | Zero packettype => 0 ≤ packettype < 16
  end.

(** The size the serializer asks of the buffer. *)
Definition need (r : request) : Z :=
  match r with
  | Ack _ _ _ => 4
  | Zero _ => 2
  | _ => mqtt_packet_len (zlength (body r))
  end.

(** ** Sizes *)

Lemma length_utf s : zlength (utf s) = 2 + zlength s.
Proof. unfold utf. rewrite length_app. simpl. lia. Qed.

Lemma length_frame type dup qos retain b : zlength b < 2 ^ 31 →
  zlength (frame type dup qos retain b) = 1 + varint_size (zlength b) + zlength b.
Proof.
  intros. unfold frame. cbn [length]. rewrite length_app.
  assert (E := encode_size (zlength b)). lia.
Qed.

Lemma foldl_plus {A} (f : A → Z) (g : A → list Z) (n : Z) l :
  Forall (λ x, f x = zlength (g x)) l →
  foldl (λ n x, n + f x) n l = n + zlength (concat (g <$> l)).
Proof.
  intros H. revert n. induction H as [|x l Hx Hl IH]; intros n; simpl; [lia|].
  rewrite IH, length_app, Hx. unfold fmap. lia.
Qed.

Lemma publish_length_body dup qos retained packetid topic payload :
  str_ok topic →
  publish_length qos topic (zlength payload)
  = zlength (body (Publish dup qos retained packetid topic payload)).
Proof.
  intros [Hs _]. unfold publish_length, body. rewrite (str_is_len _ _ Hs), !length_app.
  rewrite !Nat2Z.inj_add, length_utf. destruct (0 <? qos); simpl; lia.
Qed.

Lemma subscribe_length_body dup packetid filters :
  Forall (λ f, str_ok f.1) filters →
  subscribe_length filters = zlength (body (Subscribe dup packetid filters)).
Proof.
  intros H. unfold subscribe_length, body.
  rewrite (foldl_plus _ (λ f : mqtt_string_t * Z, utf (chars f.1) ++ [u8 f.2])).
  - rewrite length_app. simpl. lia.
  - eapply Forall_impl; [done|]. intros f [Hs _]. rewrite (str_is_len _ _ Hs), length_app.
    rewrite Nat2Z.inj_add, length_utf. simpl. lia.
Qed.

Lemma unsubscribe_length_body dup packetid filters :
  Forall str_ok filters →
  unsubscribe_length filters = zlength (body (Unsubscribe dup packetid filters)).
Proof.
  intros H. unfold unsubscribe_length, body. rewrite (foldl_plus _ (λ f, utf (chars f))).
  - rewrite length_app. simpl. lia.
  - eapply Forall_impl; [done|]. intros f [Hs _]. rewrite (str_is_len _ _ Hs), length_utf. done.
Qed.

(** The frame of a request fits in the size its serializer asks for. *)
Lemma wire_need r : request_ok r → zlength (wire r) ≤ need r.
Proof.
  intros [Hb H]. assert (HN := packet_len_bounds (zlength (body r))).
  destruct r; unfold wire, need; rewrite length_frame by lia; try lia.
  - simpl. unfold varint_size. simpl. lia.
  - simpl. unfold varint_size. simpl. lia.
Qed.

(** ** The serializers write [wire] *)

Lemma write_frame m type dup qos retain b f :
  header_ok type dup qos retain →
  (∀ s, inside s → f s = put s b) →
  (s ← mqtt_write_char (m, 0) (mqtt_header type dup qos retain);
   s ← mqtt_packet_encode s (zlength b); f s)
  = put (m, 0) (frame type dup qos retain b).
Proof.
  intros Hok Hf. unfold mqtt_write_char. rewrite poke_put.
  rewrite u8_small by (by apply header_fields).
  apply (put_bind _ [_] (encode_bytes (zlength b) ++ b)). intros s Hs.
  rewrite encode_put by (done || lia). apply put_bind. auto.
Qed.

Lemma write_filters_put filters : Forall (λ f, str_ok f.1) filters → ∀ s, inside s →
  write_filters s filters = put s (concat ((λ f, utf (chars f.1) ++ [u8 f.2]) <$> filters)).
Proof.
  induction 1 as [|[topic qos] fs [Hs _] _ IH]; intros s Hin;
    cbn [write_filters write_topics fmap list_fmap concat]; [by apply put_stay|].
  rewrite (write_str_put _ _ _ Hs), <- (assoc_L (++)). apply put_bind. intros s1 Hs1.
  unfold mqtt_write_char. rewrite poke_put. apply put_bind. auto.
Qed.

Lemma write_topics_put filters : Forall str_ok filters → ∀ s, inside s →
  write_topics s filters = put s (concat ((λ f, utf (chars f)) <$> filters)).
Proof.
  induction 1 as [|topic fs [Hs _] _ IH]; intros s Hin;
    cbn [write_filters write_topics fmap list_fmap concat]; [by apply put_stay|].
  rewrite (write_str_put _ _ _ Hs). apply put_bind. auto.
Qed.

Lemma serialize_put r m buflen : request_ok r →
  serialize r m buflen =
    if buflen <? need r then Some (MQTTPACKET_BUFFER_TOO_SHORT, m)
    else ptr_written (put (m, 0) (wire r)).
Proof.
  intros [Hb H]. destruct r as [dup qos ret pid topic pl|ty dup pid|dup pid fs|dup pid fs|ty];
    unfold serialize, need, wire.
  - destruct H as (Hd & Hq & Hr & Hp & Hs).
    unfold mqtt_serialize_publish. rewrite (publish_length_body dup qos ret pid) by done.
    case_match; [done|]. f_equal. apply write_frame; [split; unfold MQTTPACKET_PUBLISH; lia|]. intros s Hin.
    rewrite (write_str_put _ _ _ (proj1 Hs)). apply put_bind. intros s1 Hs1.
    assert (Hcopy : ∀ s, copy s pl (zlength pl) = put s pl).
    { intros. rewrite copy_put by lia. by rewrite Nat2Z.id, take_ge. }
    destruct (0 <? qos).
    + rewrite write_int_put. apply put_bind. auto.
    + apply Hcopy.
  - destruct H as (Ht & Hd & Hp). unfold mqtt_serialize_ack. case_match; [done|]. f_equal.
    apply (write_frame m _ _ _ _ (be16 pid)); [|intros; apply write_int_put].
    split; try lia. case_match; lia.
  - destruct H as (Hd & Hp & Hs). unfold mqtt_serialize_subscribe.
    rewrite (subscribe_length_body dup pid) by done.
    case_match; [done|]. f_equal. apply write_frame; [split; unfold MQTTPACKET_SUBSCRIBE; lia|].
    intros s Hin. rewrite write_int_put. apply put_bind. by apply write_filters_put.
  - destruct H as (Hd & Hp & Hs). unfold mqtt_serialize_unsubscribe.
    rewrite (unsubscribe_length_body dup pid) by done.
    case_match; [done|]. f_equal. apply write_frame; [split; unfold MQTTPACKET_UNSUBSCRIBE; lia|].
    intros s Hin. rewrite write_int_put. apply put_bind. by apply write_topics_put.
  - unfold mqtt_serialize_zero. case_match; [done|]. f_equal.
    assert (Hz := write_frame m ty 0 0 0 [] Some). cbn [length] in Hz.
    change (body (Zero ty)) with (@nil Z). rewrite <- Hz; [|split; lia|apply put_stay].
    destruct (mqtt_write_char _ _) as [s|]; [|done]. simpl.
    change (Z.of_nat 0) with 0. by destruct (mqtt_packet_encode s 0).
Qed.

(** The refinement: the buffer is left alone or holds exactly the packet. *)
Lemma serialize_wire r m buflen : request_ok r → buflen ≤ zlength m →
  serialize r m buflen =
    if buflen <? need r then Some (MQTTPACKET_BUFFER_TOO_SHORT, m)
    else Some (zlength (wire r), wire r ++ drop (length (wire r)) m).
Proof.
  intros Hr Hm. rewrite serialize_put by done. destruct (Z.ltb_spec buflen (need r)); [done|].
  assert (HN := wire_need r Hr). by rewrite put_0 by lia.
Qed.

(** ** Taking packets apart *)

(** The front of every deserializer: the header byte and the remaining
    length of a frame. *)
Lemma read_frame type dup qos retain b rest :
  header_ok type dup qos retain → zlength b < 268435456 →
  let m := frame type dup qos retain b ++ rest in
  let n := zlength (encode_bytes (zlength b)) in
  let h := mqtt_header type dup qos retain :: encode_bytes (zlength b) in
  mqtt_read_char m 0 = Some (mqtt_header type dup qos retain, 1)
  ∧ mqtt_packet_decode_buf m 1 = Some (n, zlength b)
  ∧ m = h ++ b ++ rest ∧ 1 + n = zlength h.
Proof.
  intros Hok Hb m n h. split_and!.
  - done.
  - change m with ([mqtt_header type dup qos retain] ++ (encode_bytes (zlength b) ++ b) ++ rest).
    rewrite <- (assoc_L (++) (encode_bytes _)). by apply (decode_buf_encode _ [_]); lia.
  - unfold m, h, frame. cbn [app]. by rewrite <- (assoc_L (++)).
  - unfold n, h. cbn [length]. lia.
Qed.

Definition str_at (l : list Z) (n : Z) : mqtt_string_t :=
  {| cstr := None; lenstring := {| len := n; data := Some l |} |}.

Lemma read_str_utf pre s post p enddata s0 :
  zlength s < 65536 → p = zlength pre → p + 2 + zlength s ≤ enddata →
  mqtt_read_str_len (pre ++ utf s ++ post) p enddata s0
  = Some (1, str_at (s ++ post) (zlength s), p + 2 + zlength s).
Proof.
  intros Hs -> He. unfold mqtt_read_str_len. destruct (Z.ltb_spec 1 (enddata - zlength pre)); [|lia].
  unfold utf. rewrite <- (assoc_L (++)). rewrite be16_read by lia. simpl.
  destruct (Z.leb_spec (zlength pre + 2 + zlength s) enddata); [|lia].
  unfold str_at. do 6 f_equal.
  rewrite drop_app_ge by lia. by replace (_ - _)%nat with 2%nat by lia.
Qed.

(** What [mqtt_deserialize_publish] gives for a PUBLISH packet; a packet of QoS
    0 leaves [*packetid] alone. *)
Definition publish_result (dup qos retained packetid0 packetid : Z) (topic payload rest : list Z)
    : publish_out := {|
  po_dup := dup; po_qos := qos; po_retained := retained;
  po_packetid := if 0 <? qos then packetid else packetid0;
  po_topicName :=
    str_at (topic ++ (if 0 <? qos then be16 packetid else []) ++ payload ++ rest) (zlength topic);
  po_payload := Some (payload ++ rest);
  po_payloadlen := zlength payload;
|}.

Lemma deserialize_publish_wire o dup qos retained packetid topic payload rest buflen :
  let r := Publish dup qos retained packetid topic payload in
  request_ok r →
  mqtt_deserialize_publish o (wire r ++ rest) buflen
  = Some (1, publish_result dup qos retained o.(po_packetid) packetid (chars topic) payload rest).
Proof.
  intros r [Hb (Hd & Hq & Hr & Hp & [_ Hs])].
  assert (Hok : header_ok MQTTPACKET_PUBLISH dup qos retained) by (split; unfold MQTTPACKET_PUBLISH; lia).
  destruct (header_fields _ _ _ _ Hok) as (_ & Ht & Hdup & Hqos & Hret).
  destruct (read_frame _ _ _ _ (body r) rest Hok Hb) as (E1 & E2 & E3 & E4).
  unfold mqtt_deserialize_publish. change (wire r) with (frame MQTTPACKET_PUBLISH dup qos retained (body r)).
  rewrite E1. cbn [mbind option_bind]. rewrite Ht, Hdup, Hqos, Hret, E2, E3. cbn [mbind option_bind].
  change (negb (MQTTPACKET_PUBLISH =? MQTTPACKET_PUBLISH)) with false. cbn [mbind option_bind].
  set (h := _ :: encode_bytes _) in *. rewrite E4.
  set (pid := if 0 <? qos then be16 packetid else []) in *.
  assert (Eb : body r = utf (chars topic) ++ pid ++ payload) by done.
  assert (Lb : zlength (body r) = 2 + zlength (chars topic) + zlength pid + zlength payload).
  { rewrite Eb, !length_app, !Nat2Z.inj_add, length_utf. lia. }
  clear E1 E2 E3 E4 Hb. revert Lb. generalize (zlength (body r)). intros n Lb. rewrite Eb.
  rewrite <- !(assoc_L (++)), (read_str_utf h) by lia. cbn [mbind option_bind].
  replace (zlength h + n - (zlength h + 2 + zlength (chars topic)))
    with (zlength pid + zlength payload) by lia.
  destruct (Z.ltb_spec (zlength pid + zlength payload) 0); [lia|]. cbn [Z.eqb orb].
  unfold publish_result, pid in *. clearbody h.
  assert (Hdrop : ∀ k q, k = zlength h + 2 + zlength (chars topic) + zlength q →
    drop (Z.to_nat k) (h ++ utf (chars topic) ++ q ++ payload ++ rest) = payload ++ rest).
  { intros k q ->. rewrite !(assoc_L (++)), <- (assoc_L (++) _ payload).
    apply drop_exact. rewrite !length_app, !Nat2Z.inj_add, length_utf. lia. }
  destruct (0 <? qos) eqn:Eq.
  - replace (h ++ utf (chars topic) ++ be16 packetid ++ payload ++ rest)
      with ((h ++ utf (chars topic)) ++ be16 packetid ++ payload ++ rest)
      by (by rewrite <- (assoc_L (++))).
    rewrite be16_read; [|done|rewrite length_app, Nat2Z.inj_add, length_utf; lia].
    cbn [mbind option_bind]. rewrite <- (assoc_L (++) h), (Hdrop _ (be16 packetid)) by done.
    do 3 f_equal. simpl in Lb |- *. lia.
  - cbn [mbind option_bind]. rewrite (Hdrop _ []) by (simpl; lia).
    do 3 f_equal. simpl in Lb |- *. lia.
Qed.

Lemma deserialize_ack_wire o packettype dup packetid rest buflen :
  let r := Ack packettype dup packetid in
  request_ok r →
  mqtt_deserialize_ack o (wire r ++ rest) buflen
  = Some (1, {| ao_packettype := packettype; ao_dup := dup; ao_packetid := packetid |}).
Proof.
  intros r [Hb (Ht & Hd & Hp)].
  assert (Hok : header_ok packettype dup (if packettype =? MQTTPACKET_PUBREL then 1 else 0) 0).
  { split; try lia. case_match; lia. }
  destruct (header_fields _ _ _ _ Hok) as (_ & Ety & Edup & _).
  destruct (read_frame _ _ _ _ (body r) rest Hok Hb) as (E1 & E2 & E3 & E4).
  unfold mqtt_deserialize_ack.
  change (wire r) with (frame packettype dup (if packettype =? MQTTPACKET_PUBREL then 1 else 0) 0 (body r)).
  rewrite E1. cbn [mbind option_bind]. rewrite Ety, Edup, E2, E3. cbn [mbind option_bind].
  set (h := _ :: encode_bytes _) in *. rewrite E4. clearbody h.
  change (body r) with (be16 packetid). simpl (length (be16 _)).
  destruct (Z.ltb_spec (zlength h + Z.of_nat 2 - zlength h) 2); [lia|].
  by rewrite be16_read.
Qed.

(** ** CONNECT

    What [mqtt_serialize_connect] writes.  The body follows MQTT 3.1 and 3.1.1; the
    remaining length in front of it leaves the client identifier out. *)

Definition utf_if (b : bool) (s : mqtt_string_t) : list Z := if b then utf (chars s) else [].

(** The variable header and the payload of a CONNECT packet. *)
Definition connect_body (o : mqtt_packet_connect_data_t) : list Z :=
  (if o.(MQTTVersion) =? 4 then utf str_MQTT ++ [4] else utf str_MQIsdp ++ [3])
  ++ [connect_flags o] ++ be16 o.(keepAliveInterval) ++ utf (chars o.(clientID))
  ++ utf_if (negb (o.(willFlag) =? 0)) o.(will).(topicName)
  ++ utf_if (negb (o.(willFlag) =? 0)) o.(will).(message)
  ++ utf_if (supplied o.(username)) o.(username)
  ++ utf_if (supplied o.(password)) o.(password).

Record connect_ok (o : mqtt_packet_connect_data_t) : Prop := {
  co_version : o.(MQTTVersion) = 3 ∨ o.(MQTTVersion) = 4;
  co_keepalive : is_u16 o.(keepAliveInterval);
  co_clean : 0 ≤ o.(cleansession) < 2;
  co_retained : 0 ≤ o.(will).(retained) < 2;
  co_qos : 0 ≤ o.(will).(will_qos) < 3;
  co_client : str_ok o.(clientID);
  co_topic : str_ok o.(will).(topicName);
  co_message : str_ok o.(will).(message);
  co_user : str_ok o.(username);
  co_pass : str_ok o.(password);
}.

(** The flag byte and the two bits the code tests in it. *)
Lemma connect_flags_bits o : connect_ok o →
  is_byte (connect_flags o)
  ∧ negb (field (connect_flags o) 7 1 =? 0) = supplied o.(username)
  ∧ negb (field (connect_flags o) 6 1 =? 0) = supplied o.(password).
Proof.
  intros [_ _ Hc Hr Hq _ _ _ _ _]. unfold connect_flags.
  assert (H := small_forall 2 (λ c, forallb (λ r, forallb (λ q, forallb (λ w, forallb (λ u, forallb (λ p,
    let fl := Z.lor (bits 1 c 1) (Z.lor (bits 1 w 2) (Z.lor (bits 2 q 3) (Z.lor (bits 1 r 5)
      (Z.lor (bits 1 p 6) (bits 1 u 7))))) in
    (0 <=? fl) && (fl <? 256) && (field fl 7 1 =? u) && (field fl 6 1 =? p))
    (seqZ 0 2)) (seqZ 0 2)) (seqZ 0 2)) (seqZ 0 3)) (seqZ 0 2)) eq_refl _ Hc). cbv beta in H.
  set (w := if negb (willFlag o =? 0) then 1 else 0).
  set (r := if w =? 1 then retained (will o) else 0).
  set (q := if w =? 1 then will_qos (will o) else 0).
  set (u := if supplied (username o) then 1 else 0).
  set (p := if supplied (password o) then 1 else 0).
  apply (small_forall 2) with (x := r) in H; [|unfold r; case_match; lia].
  apply (small_forall 3) with (x := q) in H; [|unfold q; case_match; lia].
  apply (small_forall 2) with (x := w) in H; [|unfold w; case_match; lia].
  apply (small_forall 2) with (x := u) in H; [|unfold u; case_match; lia].
  apply (small_forall 2) with (x := p) in H; [|unfold p; case_match; lia].
  cbv zeta in H |- *. rewrite !andb_true_iff, !Z.eqb_eq, Z.leb_le, Z.ltb_lt in H.
  destruct H as [[[H1 H2] H3] H4]. rewrite H3, H4. unfold u, p.
  split_and!; [done|by destruct (supplied (username o))|by destruct (supplied (password o))].
Qed.

Lemma length_utf_if b s : str_ok s →
  zlength (utf_if b s) = if b then mqtt_strlen s + 2 else 0.
Proof.
  intros [Hs _]. unfold utf_if. destruct b; [|done]. rewrite length_utf, (str_is_len _ _ Hs). lia.
Qed.

(** The length the code computes is short by the client identifier. *)
Lemma connect_length_short o : connect_ok o →
  connect_length o + zlength (chars o.(clientID)) = zlength (connect_body o).
Proof.
  intros [Hv _ _ _ _ _ Ht Hm Hu Hp]. unfold connect_length, connect_body.
  rewrite !length_app, !Nat2Z.inj_add, !length_utf_if, length_utf by done.
  destruct (negb (willFlag o =? 0)), (supplied (username o)), (supplied (password o)),
    Hv as [-> | ->]; simpl; lia.
Qed.

Lemma write_if_put b str s : str_ok str → inside s → write_if b s str = put s (utf_if b str).
Proof.
  intros [Hs _] Hin. unfold write_if, utf_if. destruct b; [by apply write_str_put|by apply put_stay].
Qed.

Lemma serialize_connect_put o m buflen : connect_ok o →
  mqtt_serialize_connect m buflen o =
    if buflen <? mqtt_packet_len (connect_length o)
    then Some (MQTTPACKET_BUFFER_TOO_SHORT, m)
    else ptr_written (put (m, 0)
      (mqtt_header MQTTPACKET_CONNECT 0 0 0
       :: encode_bytes (zlength (connect_body o) - zlength (chars o.(clientID))) ++ connect_body o)).
Proof.
  intros Ho. unfold mqtt_serialize_connect. case_match; [done|]. f_equal.
  rewrite <- connect_length_short by done. rewrite Z.add_simpl_r.
  destruct (connect_flags_bits o Ho) as (Hfb & -> & ->). destruct Ho as [Hv Hk _ _ _ Hc Ht Hm Hu Hp].
  unfold mqtt_write_char at 1. rewrite poke_put.
  apply (put_bind _ [_]). intros s Hs.
  rewrite encode_put; [apply put_bind; intros s1 Hs1|done|].
  2:{ unfold connect_length, mqtt_strlen. assert (Hl := str_is_len).
      destruct Ht as [Ht _], Hm as [Hm _], Hu as [Hu _], Hp as [Hp _].
      apply Hl in Ht, Hm, Hu, Hp. unfold mqtt_strlen in *. repeat case_match; lia. }
  unfold connect_body, mqtt_write_char.
  assert (Hver : ∀ s, (if MQTTVersion o =? 4
      then s ← mqtt_write_cstr s str_MQTT; poke s 4 else s ← mqtt_write_cstr s str_MQIsdp; poke s 3)
    = put s (if MQTTVersion o =? 4 then utf str_MQTT ++ [4] else utf str_MQIsdp ++ [3])).
  { intros s2. case_match; rewrite write_cstr_put; apply put_bind; intros; apply poke_put. }
  rewrite Hver. apply put_bind. intros s2 Hs2. rewrite poke_put, u8_small by done.
  apply put_bind. intros s3 Hs3. rewrite write_int_put. apply put_bind. intros s4 Hs4.
  rewrite (write_str_put _ _ _ (proj1 Hc)).
  repeat (apply put_bind; intros; rewrite write_if_put by done). done.
Qed.
