(* ===== verification/MqttStream.v ===== *)
(** MqttStream: reading packets from a byte stream.

    [mqtt_packet_readnb] is a three-state machine that the application calls
    until it returns a packet; [poll] is that loop, and [chunked] a transport
    that hands out its input in pieces, as the comment on [getfn] in
    MQTTPacket.h asks of one. *)

From S2P Require Import Prelude CString Buffer MqttPacket MqttMessages MqttCodec MqttWire.

(** The input and the most bytes that each of the next calls may deliver; once
    the schedule is used up every call delivers what it is asked for. *)
Definition chunked : getfn_t (list Z * list Z) := λ s count,
  let '(input, sched) := s in
  let '(k, sched) := match sched with [] => (count, []) | k :: t => (k, t) end in
  let j := Z.max 0 (Z.min (Z.min count k) (zlength input)) in
  (j, take (Z.to_nat j) input, (drop (Z.to_nat j) input, sched)).

(** Calls [mqtt_packet_readnb] until it returns something else than 0. *)
Fixpoint poll {S} (fuel : nat) (buf : list Z) (buflen : Z) (getfn : getfn_t S)
    (trp : mqtt_transport_t) (s : S) : option (Z * list Z * mqtt_transport_t * S) :=
  '(rc, buf, trp, s) ← mqtt_packet_readnb buf buflen getfn trp s;
  match fuel with
  | Datatypes.S fuel' =>
      if rc =? 0 then poll fuel' buf buflen getfn trp s else Some (rc, buf, trp, s)
  | O => Some (rc, buf, trp, s)
  end.

(** A transport that always delivers something. *)
Definition steady (sched : list Z) : Prop := Forall (λ k, 1 ≤ k) sched.

Lemma chunked_step l sched n : steady sched → 1 ≤ n ≤ zlength l →
  ∃ bs rest sched', steady sched' ∧ bs ≠ [] ∧ l = bs ++ rest ∧ zlength bs ≤ n
    ∧ chunked (l, sched) n = (zlength bs, bs, (rest, sched')).
Proof.
  intros Hs Hn. unfold chunked.
  set (k := match sched with [] => n | k :: _ => k end).
  set (sched' := match sched with [] => [] | _ :: t => t end).
  replace (match sched with [] => (n, []) | k :: t => (k, t) end) with (k, sched')
    by (by destruct sched).
  assert (Hk : 1 ≤ k) by (destruct Hs; simpl in *; unfold k; lia).
  assert (steady sched') by (destruct Hs; [constructor|done]).
  set (j := Z.max 0 (Z.min (Z.min n k) (zlength l))).
  assert (Hj : 1 ≤ j ≤ n ∧ j ≤ zlength l) by lia.
  exists (take (Z.to_nat j) l), (drop (Z.to_nat j) l), sched'.
  assert (Hlen : zlength (take (Z.to_nat j) l) = j) by (rewrite length_take; lia).
  split_and!; [done| |by rewrite take_drop|lia|by rewrite Hlen].
  intros E. rewrite E in Hlen. simpl in Hlen. lia.
Qed.

Lemma chunked_byte b l sched : steady sched →
  ∃ sched', steady sched' ∧ chunked (b :: l, sched) 1 = (1, [b], (l, sched')).
Proof.
  intros Hs. destruct (chunked_step (b :: l) sched 1 Hs) as (bs & rest & s' & Hs' & Hne & E & Hl & ->).
  { simpl. lia. }
  destruct bs as [|c [|]]; simpl in *; simplify_eq; [eauto|lia].
Qed.

Lemma chunked_delivers bs l sched : steady sched →
  ∃ sched', steady sched' ∧ delivers chunked (bs ++ l, sched) bs (l, sched').
Proof.
  revert sched. induction bs as [|b bs IH]; intros sched Hs; simpl; [by eauto using @delivers|].
  destruct (chunked_byte b (bs ++ l) sched Hs) as (s1 & Hs1 & E).
  destruct (IH s1 Hs1) as (s2 & Hs2 & D). eauto using @delivers.
Qed.

(** Storing a chunk at the end of what was received. *)
Lemma get_into_chunk {S} (getfn : getfn_t S) (got free bs : list Z) count s s' p :
  getfn s count = (zlength bs, bs, s') → Forall is_byte bs → p = zlength got →
  zlength bs ≤ zlength free →
  get_into getfn (got ++ free) p count s
  = Some (zlength bs, (got ++ bs) ++ drop (length bs) free, s').
Proof.
  intros Eg Hb -> Hl. unfold get_into. rewrite Eg. rewrite store_put; [|split; simpl|done].
  - unfold put. rewrite decide_True by (rewrite length_app; lia). simpl.
    rewrite Nat2Z.id, take_app_length, drop_app_add. by rewrite (assoc_L (++)).
  - lia.
  - rewrite length_app. lia.
Qed.

(** Third state: [todo] is what is missing of the packet. *)
Lemma poll_body fuel : ∀ got free todo rest sched buflen trp b,
  trp.(state) = 2 → trp.(tlen) = zlength got → trp.(rem_len) = zlength todo →
  todo ≠ [] → zlength todo ≤ zlength free → (length todo ≤ fuel)%nat →
  Forall is_byte todo → steady sched → head got = Some b → header_type b ≠ 0 →
  ∃ trp' sched', steady sched' ∧ trp'.(state) = 0 ∧
    poll fuel (got ++ free) buflen chunked trp (todo ++ rest, sched)
    = Some (header_type b, (got ++ todo) ++ drop (length todo) free, trp', (rest, sched')).
Proof.
  induction fuel as [|fuel IH];
    intros got free todo rest sched buflen trp b Est Etl Erl Hne Hfit Hfuel Hb Hs Eh Hty.
  { destruct todo; [done|simpl in Hfuel; lia]. }
  destruct (chunked_step (todo ++ rest) sched (zlength todo) Hs) as
    (bs & rest' & sched' & Hs' & Hbs & E & Hl & Eg).
  { destruct todo; [done|]. rewrite length_app. simpl. lia. }
  apply app_split in E as (todo' & -> & ->); [|done].
  rewrite length_app in Hfit, Hfuel, Erl, Eg. apply Forall_app in Hb as [Hb1 Hb2].
  cbn [poll]. unfold mqtt_packet_readnb. rewrite Est.
  change (2 =? 1) with false. change (2 =? 2) with true. cbv iota.
  unfold readnb_body. rewrite Erl.
  rewrite (get_into_chunk chunked got free bs _ _ (todo' ++ rest, sched')) by (done || lia).
  cbn [mbind option_bind].
  assert (0 < length bs)%nat by (destruct bs; [done|simpl; lia]).
  destruct (Z.eqb_spec (zlength bs) (-1)); [lia|].
  destruct (Z.eqb_spec (zlength bs) 0); [lia|]. cbn [rem_len].
  destruct todo' as [|c todo'].
  - replace (Z.of_nat (length bs + length []) - zlength bs) with 0 by (simpl; lia).
    change (negb (0 =? 0)) with false. cbv iota.
    replace (peek _ 0) with (Some b) by (destruct got; [done|simpl in *; by simplify_eq]).
    cbn [mbind option_bind]. destruct (Z.eqb_spec (header_type b) 0); [done|].
    rewrite !app_nil_r. eexists _, sched'. split; [done|]. split; [|reflexivity]. done.
  - set (trp1 := Build_mqtt_transport_t _ _ _ _).
    destruct (Z.eqb_spec (Z.of_nat (length bs + length (c :: todo')) - zlength bs) 0);
      [simpl in *; lia|]. cbn [negb mbind option_bind].
    change (0 =? 0) with true. cbv iota.
    destruct (IH (got ++ bs) (drop (length bs) free) (c :: todo') rest sched' buflen trp1 b)
      as (trp' & sched'' & Hs'' & Hst & Ep);
      try (done || (unfold trp1; cbn [tlen rem_len]; rewrite ?length_app, ?length_drop; lia)).
    + by destruct got.
    + exists trp', sched''. split_and!; [done..|]. rewrite Ep, drop_drop, length_app.
      by rewrite <- !(assoc_L (++)).
Qed.

(** Second state: the loop of [decodenb] on a source that delivers the bytes
    of the remaining length without an empty read. *)
Lemma decodenb_loop_encode {S} (getfn : getfn_t S) k : ∀ fuel n c trp s s',
  0 ≤ n < 128 ^ Z.of_nat k → (0 < k)%nat → trp.(tlen) + Z.of_nat k ≤ 4 → (k ≤ fuel)%nat →
  0 ≤ trp.(tlen) →
  let enc := encode_loop k n in
  delivers getfn s enc s' →
  ∃ mult, decodenb_loop getfn fuel c trp s
  = (trp.(tlen) + zlength enc,
     {| multiplier := mult; rem_len := trp.(rem_len) + n * trp.(multiplier);
        tlen := trp.(tlen) + zlength enc; state := trp.(state) |}, s').
Proof.
  induction k as [|k IH]; intros fuel n c trp s s' Hn H0 Hlen Hk Ht enc Hs; [lia|].
  destruct fuel as [|fuel]; [lia|]. cbn [decodenb_loop tlen multiplier rem_len state].
  destruct (Z.ltb_spec MAX_NO_OF_REMAINING_LENGTH_BYTES (trp.(tlen) + 1)) as [Hmax|_].
  { unfold MAX_NO_OF_REMAINING_LENGTH_BYTES in Hmax; lia. }
  unfold enc in *. clear enc. rewrite encode_loop_nonneg in * by lia.
  destruct (Z.leb_spec 128 n) as [Hb|Hb]; inversion_clear Hs as [|? ? s1 ? ? Eg Hs1];
    rewrite Eg; cbn [head default id]; change (1 =? -1) with false;
    change (1 =? 0) with false; cbv iota.
  - assert (Hd : 0 ≤ n `mod` 128 < 128) by zsolve.
    destruct (digit_bits _ Hd) as (E1 & E2 & E3 & _). rewrite E1 in E2, E3. rewrite E2, E3.
    change (negb (128 =? 0)) with true. cbv iota.
    assert (k ≠ 0)%nat by (intros ->; simpl in Hn; lia).
    set (trp1 := Build_mqtt_transport_t _ _ _ _).
    destruct (IH fuel (n / 128) (n `mod` 128 + 128) trp1 s1 s') as (mult & ->);
      [split; [zsolve|apply div_128_lt, Hn]|unfold trp1; cbn [tlen]; lia..|done|].
    exists mult. unfold trp1. cbn [length tlen rem_len multiplier state].
    do 2 f_equal; [lia|]. f_equal; [|lia].
    replace (n * trp.(multiplier)) with ((128 * (n / 128) + n `mod` 128) * trp.(multiplier))
      by (f_equal; symmetry; apply Z.div_mod; lia). ring.
  - destruct (digit_bits n) as (_ & _ & _ & -> & ->); [lia|].
    inversion_clear Hs1. cbn [negb Z.eqb length tlen]. eexists. do 3 f_equal; lia.
Qed.

Lemma decodenb_encode {S} (getfn : getfn_t S) n trp s s' : 0 ≤ n < 268435456 → trp.(tlen) = 0 →
  delivers getfn s (encode_bytes n) s' →
  ∃ mult, decodenb getfn trp s
  = (zlength (encode_bytes n),
     {| multiplier := mult; rem_len := n; tlen := zlength (encode_bytes n);
        state := trp.(state) |}, s').
Proof.
  intros Hn Ht. unfold decodenb, encode_bytes. rewrite Ht. change (0 =? 0) with true. cbv iota.
  rewrite (encode_loop_fuel 3 1) by (simpl; lia). intros Hs.
  destruct (decodenb_loop_encode getfn 4 5 n 0
    {| multiplier := 1; rem_len := 0; tlen := 0; state := trp.(state) |} s s')
    as (mult & ->); cbn [tlen]; [simpl; lia|lia..|done|].
  exists mult. cbn [tlen rem_len multiplier state]. rewrite Z.mul_1_r. done.
Qed.

(** A whole packet: from the first state, the machine collects the frame and
    nothing else from the stream, however the stream is cut. *)
Lemma poll_frame type dup qos retain b rest sched m buflen trp fuel :
  header_ok type dup qos retain → type ≠ 0 → b ≠ [] → Forall is_byte b →
  zlength b < 268435456 → steady sched → trp.(state) = 0 → (length b ≤ fuel)%nat →
  let f := frame type dup qos retain b in
  zlength f ≤ buflen → buflen ≤ zlength m →
  ∃ trp' sched', steady sched' ∧ trp'.(state) = 0 ∧
    poll fuel m buflen chunked trp (f ++ rest, sched)
    = Some (type, f ++ drop (length f) m, trp', (rest, sched')).
Proof.
  intros Hok Hty Hne Hb Hlb Hs Hst Hfuel f Hf Hm.
  destruct (header_fields _ _ _ _ Hok) as (Hhb & Et & _).
  unfold f, frame in *. clear f. set (h := mqtt_header type dup qos retain) in *.
  set (n := zlength b) in *. assert (0 ≤ n) by lia.
  assert (Hn1 : 1 ≤ n) by (unfold n; destruct b; [done|simpl; lia]).
  cbn [length app] in *. rewrite length_app in Hf.
  destruct m as [|m0 m]; [simpl in Hm; lia|].
  destruct (chunked_byte h ((encode_bytes n ++ b) ++ rest) sched Hs) as (s1 & Hs1 & Eg).
  rewrite <- (assoc_L (++)) in Eg |- *.
  destruct (chunked_delivers (encode_bytes n) (b ++ rest) s1 Hs1) as (s2 & Hs2 & D).
  set (trp1 := {| multiplier := trp.(multiplier); rem_len := trp.(rem_len); tlen := 0; state := 0 + 1 |}).
  destruct (decodenb_encode chunked n trp1 _ _ ltac:(lia) eq_refl D) as (mult & Ed).
  assert (Hfit : zlength (encode_bytes n) + n ≤ zlength m) by (simpl in Hm; lia).
  assert (Hbytes : Forall is_byte (encode_bytes n)) by (apply encode_loop_bytes; lia).
  assert (Hread : mqtt_packet_readnb (m0 :: m) buflen chunked trp
                    (h :: encode_bytes n ++ b ++ rest, sched)
    = readnb_body ((h :: encode_bytes n) ++ drop (length (encode_bytes n)) m) chunked
        {| multiplier := mult; rem_len := n; tlen := 1 + zlength (encode_bytes n); state := 2 |}
        (b ++ rest, s2)).
  { unfold mqtt_packet_readnb. rewrite Hst. change (0 =? 1) with false. change (0 =? 2) with false.
    cbv iota. change (m0 :: m) with ([] ++ m0 :: m).
    rewrite (get_into_chunk chunked [] (m0 :: m) [h] 1 _ _ _ Eg)
      by (done || (repeat constructor; apply Hhb) || (simpl; lia)).
    cbn [mbind option_bind app length drop]. change (Z.of_nat 1 =? -1) with false.
    change (Z.of_nat 1 =? 0) with false. cbv iota. cbn [set_state multiplier rem_len tlen state].
    unfold readnb_length. fold trp1. rewrite Ed.
    assert (0 < length (encode_bytes n))%nat.
    { unfold encode_bytes. rewrite encode_loop_nonneg by done. case_match; simpl; lia. }
    destruct (Z.eqb_spec (zlength (encode_bytes n)) MQTTPACKET_READ_ERROR) as [E|_];
      [unfold MQTTPACKET_READ_ERROR in E; lia|].
    destruct (Z.eqb_spec (zlength (encode_bytes n)) 0) as [E|_]; [lia|].
    cbn [rem_len]. rewrite encode_put by (done || (split; simpl; lia)).
    unfold put. rewrite drop_0, decide_True by (cbn [length]; lia). cbn [mbind option_bind tlen rem_len].
    destruct (Z.ltb_spec buflen (n + (1 + zlength (encode_bytes n)))); [lia|].
    done. }
  destruct (poll_body fuel (h :: encode_bytes n) (drop (length (encode_bytes n)) m) b rest s2 buflen
    {| multiplier := mult; rem_len := n; tlen := 1 + zlength (encode_bytes n); state := 2 |} h)
    as (trp' & s3 & Hs3 & Hst3 & Ep); try done.
  - cbn [tlen length]. lia.
  - rewrite length_drop. lia.
  - by rewrite Et.
  - exists trp', s3. split_and!; [done..|]. rewrite Et in Ep.
    rewrite drop_drop in Ep. cbn [app] in Ep.
    rewrite <- (assoc_L (++)) in Ep. rewrite length_app.
    transitivity (poll fuel ((h :: encode_bytes n) ++ drop (length (encode_bytes n)) m) buflen chunked
       {| multiplier := mult; rem_len := n; tlen := 1 + zlength (encode_bytes n); state := 2 |}
       (b ++ rest, s2)); [|cbn [app]; rewrite Ep; by rewrite <- (assoc_L (++))].
    destruct fuel; cbn [poll]; rewrite Hread; done.
Qed.
