(* ===== verification/MqttTheorems.v ===== *)
(** MqttTheorems: the correctness of the MQTT packet codec.

    Serializers refine the wire format, deserializers invert it, the
    remaining length round-trips, the non-blocking reader assembles packets
    from any fragmentation; and the places where the codec departs from the
    protocol. *)

From S2P Require Import Prelude CString Buffer MqttPacket MqttMessages MqttCodec MqttWire MqttStream.

(** A topic as the client builds it: a C string. *)
Definition cstr_of (s : list Z) : mqtt_string_t :=
  {| cstr := Some s; lenstring := {| len := 0; data := None |} |}.

(** "a/b" and a message of QoS 1. *)
Definition demo_publish : request := Publish 0 1 0 7 (cstr_of [97; 47; 98]) [104; 105].
Definition demo_filters : list (mqtt_string_t * Z) := [(cstr_of [97; 47; 35], 1)].
Definition zeroes (n : nat) : list Z := replicate n 0.

(** C17: the serializers of PUBLISH, of the acknowledgements, of
    SUBSCRIBE, UNSUBSCRIBE and of the packets without a body refine the wire
    format.  In a buffer of [buflen] bytes either the packet does not fit, the
    result is MQTTPACKET_BUFFER_TOO_SHORT and the buffer is untouched, or the
    buffer starts with exactly the bytes of the packet, the result is their
    number, at most [buflen], and the rest of the buffer is as it was: no
    serializer writes outside of its buffer. *)
Theorem mqtt_serializers_write_packet r m buflen :
  request_ok r → buflen ≤ zlength m →
  serialize r m buflen =
    (if buflen <? need r then Some (MQTTPACKET_BUFFER_TOO_SHORT, m)
     else Some (zlength (wire r), wire r ++ drop (length (wire r)) m))
  ∧ zlength (wire r) ≤ need r ≤ 1 + zlength (wire r).
Proof.
  intros Hr Hm. split; [by apply serialize_wire|]. split; [by apply wire_need|].
  destruct Hr as [Hb _]. assert (HN := packet_len_bounds (zlength (body r))).
  destruct r; unfold need, wire; rewrite length_frame by lia; try lia;
    unfold varint_size; simpl; lia.
Qed.

Lemma demo_publish_ok : request_ok demo_publish.
Proof. split; [reflexivity|]. cbn. unfold is_u16, str_ok, str_is. cbn. split_and!; done || lia. Qed.

Example mqtt_serializers_write_packet_witness :
  request_ok demo_publish ∧
  serialize demo_publish (zeroes 12) 12
  = Some (11, [50; 9; 0; 3; 97; 47; 98; 0; 7; 104; 105; 0]).
Proof.
  split; [exact demo_publish_ok|].
  rewrite (proj1 (mqtt_serializers_write_packet demo_publish (zeroes 12) 12 demo_publish_ok ltac:(vm_compute; discriminate))).
  vm_compute. reflexivity.
Defined.

(** C18: a PUBLISH packet that [mqtt_serialize_publish] wrote is read back by
    [mqtt_deserialize_publish] with the same flags, QoS, packet identifier,
    topic and payload, whatever bytes follow it in the buffer. *)
Theorem mqtt_publish_roundtrip dup qos retained packetid topic payload m buflen o :
  let r := Publish dup qos retained packetid topic payload in
  request_ok r → need r ≤ buflen ≤ zlength m →
  ∃ n m', mqtt_serialize_publish m buflen dup qos retained packetid topic payload (zlength payload)
          = Some (n, m') ∧ 0 < n ≤ buflen ∧ length m' = length m ∧
    ∃ o', mqtt_deserialize_publish o m' buflen = Some (1, o')
      ∧ o'.(po_dup) = dup ∧ o'.(po_qos) = qos ∧ o'.(po_retained) = retained
      ∧ o'.(po_packetid) = (if 0 <? qos then packetid else o.(po_packetid))
      ∧ chars o'.(po_topicName) = chars topic
      ∧ o'.(po_payloadlen) = zlength payload
      ∧ take (length payload) (default [] o'.(po_payload)) = payload.
Proof.
  intros r Hr [Hn Hm]. assert (Hw := wire_need r Hr).
  exists (zlength (wire r)), (wire r ++ drop (length (wire r)) m). split_and!.
  - change (mqtt_serialize_publish _ _ _ _ _ _ _ _ _) with (serialize r m buflen).
    rewrite serialize_wire by done. destruct (Z.ltb_spec buflen (need r)); [lia|done].
  - cbn [wire r frame length]. lia.
  - lia.
  - rewrite length_app, length_drop. lia.
  - eexists. split; [by apply deserialize_publish_wire|].
    unfold publish_result. cbn -[Z.of_nat]. split_and!; try done.
    + unfold chars, str_at. cbn -[Z.of_nat]. by rewrite Nat2Z.id, take_app_length.
    + by rewrite take_app_length.
Qed.

Example mqtt_publish_roundtrip_witness :
  request_ok demo_publish ∧
  ∃ n m', mqtt_serialize_publish (zeroes 12) 12 0 1 0 7 (cstr_of [97; 47; 98]) [104; 105] 2
          = Some (n, m') ∧ 0 < n ≤ 12.
Proof.
  split; [exact demo_publish_ok|].
  destruct (mqtt_publish_roundtrip 0 1 0 7 (cstr_of [97; 47; 98]) [104; 105] (zeroes 12) 12
    (publish_result 0 0 0 0 0 [] [] []) demo_publish_ok ltac:(vm_compute; split; discriminate))
    as (n & m' & H1 & H2 & _). by exists n, m'.
Defined.

(** An acknowledgement (PUBACK, PUBREC, PUBREL, PUBCOMP, UNSUBACK) that
    [mqtt_serialize_ack] wrote is read back by [mqtt_deserialize_ack] with the
    same type, DUP flag and packet identifier, and takes four bytes. *)
Theorem mqtt_ack_roundtrip packettype dup packetid m buflen o :
  0 ≤ packettype < 16 → 0 ≤ dup < 2 → is_u16 packetid → 4 ≤ buflen ≤ zlength m →
  ∃ m', mqtt_serialize_ack m buflen packettype dup packetid = Some (4, m')
    ∧ length m' = length m
    ∧ mqtt_deserialize_ack o m' buflen
      = Some (1, {| ao_packettype := packettype; ao_dup := dup; ao_packetid := packetid |}).
Proof.
  intros Ht Hd Hp [Hb Hm]. set (r := Ack packettype dup packetid).
  assert (Hr : request_ok r) by (split; [simpl; lia|done]).
  exists (wire r ++ drop (length (wire r)) m). split_and!.
  - change (mqtt_serialize_ack m buflen packettype dup packetid) with (serialize r m buflen).
    rewrite serialize_wire by done. cbn [need r]. destruct (Z.ltb_spec buflen 4); [lia|done].
  - rewrite length_app, length_drop. assert (Hw := wire_need r Hr). cbn [need r] in Hw. lia.
  - by apply deserialize_ack_wire.
Qed.

Example mqtt_ack_roundtrip_witness :
  ∃ m', mqtt_serialize_ack (zeroes 8) 8 MQTTPACKET_PUBREL 0 513 = Some (4, m')
    ∧ length m' = 8%nat
    ∧ mqtt_deserialize_ack {| ao_packettype := 0; ao_dup := 0; ao_packetid := 0 |} m' 8
      = Some (1, {| ao_packettype := MQTTPACKET_PUBREL; ao_dup := 0; ao_packetid := 513 |}).
Proof.
  apply (mqtt_ack_roundtrip MQTTPACKET_PUBREL 0 513 (zeroes 8) 8);
    unfold MQTTPACKET_PUBREL, is_u16; simpl; lia.
Defined.

(** The remaining length of a packet, any length MQTT allows (at
    most 268435455), is written in [varint_size] bytes inside of the buffer
    and decoded to the same length, and [mqtt_packet_len] is never smaller
    than the packet and at most one byte larger. *)
Theorem mqtt_length_roundtrip n pre post :
  0 ≤ n < 268435456 → varint_size n ≤ zlength post →
  ∃ bs post', mqtt_packet_encode (pre ++ post, zlength pre) n
              = Some (pre ++ bs ++ post', zlength pre + varint_size n)
    ∧ zlength bs = varint_size n ∧ varint_size n ≤ 4
    ∧ mqtt_packet_decode_buf (pre ++ bs ++ post') (zlength pre) = Some (varint_size n, n)
    ∧ 1 + varint_size n + n ≤ mqtt_packet_len n ≤ 2 + varint_size n + n.
Proof.
  intros Hn Hp. assert (Hs := encode_size n ltac:(lia)).
  exists (encode_bytes n), (drop (length (encode_bytes n)) post). split_and!.
  - rewrite encode_put by (try split; simpl; rewrite ?length_app; lia).
    unfold put. rewrite decide_True by (rewrite length_app; lia).
    by rewrite Nat2Z.id, take_app_length, drop_app_add, Hs.
  - done.
  - unfold varint_size. zbool; lia.
  - by rewrite decode_buf_encode, Hs.
  - by apply packet_len_bounds.
  - by apply packet_len_bounds.
Qed.

Example mqtt_length_roundtrip_witness :
  ∃ bs post', mqtt_packet_encode ([16] ++ zeroes 4, 1) 321 = Some ([16] ++ bs ++ post', 1 + 2)
    ∧ mqtt_packet_decode_buf ([16] ++ bs ++ post') 1 = Some (2, 321).
Proof.
  destruct (mqtt_length_roundtrip 321 [16] (zeroes 4)) as (bs & post' & H1 & _ & _ & H2 & _).
  - lia.
  - vm_compute. discriminate.
  - exists bs, post'. split; [exact H1|exact H2].
Defined.

(** The non-blocking reader, called until it returns something
    else than 0, collects exactly one packet from the stream into the buffer,
    leaves what follows in the stream and ends in its initial state, however
    the transport cuts the stream into non-empty pieces; [length b] calls are
    enough.  The packet has a body ([b] is not empty). *)
Theorem mqtt_readnb_assembles type dup qos retain b rest sched m buflen trp :
  header_ok type dup qos retain → type ≠ 0 → b ≠ [] → Forall is_byte b →
  zlength b < 268435456 → steady sched → trp.(state) = 0 →
  let f := frame type dup qos retain b in
  zlength f ≤ buflen → buflen ≤ zlength m →
  ∃ trp' sched', trp'.(state) = 0 ∧
    poll (length b) m buflen chunked trp (f ++ rest, sched)
    = Some (type, f ++ drop (length f) m, trp', (rest, sched')).
Proof.
  intros Hok Hty Hne Hb Hlb Hs Hst f Hf Hm.
  destruct (poll_frame type dup qos retain b rest sched m buflen trp (length b))
    as (trp' & sched' & _ & H1 & H2); eauto.
Qed.

Example mqtt_readnb_assembles_witness :
  ∃ trp' sched', trp'.(state) = 0 ∧
    poll 4 (zeroes 8) 8 chunked {| multiplier := 0; rem_len := 0; tlen := 0; state := 0 |}
      (frame MQTTPACKET_SUBACK 0 0 0 [0; 1; 2; 1] ++ [48], [5; 1; 2])
    = Some (MQTTPACKET_SUBACK, [144; 4; 0; 1; 2; 1; 0; 0], trp', ([48], sched')).
Proof.
  apply (mqtt_readnb_assembles MQTTPACKET_SUBACK 0 0 0 [0; 1; 2; 1] [48] [5; 1; 2] (zeroes 8) 8).
  - split; unfold MQTTPACKET_SUBACK; lia.
  - discriminate.
  - discriminate.
  - repeat constructor; discriminate.
  - simpl; lia.
  - repeat constructor; lia.
  - reflexivity.
  - vm_compute; discriminate.
  - vm_compute; discriminate.
Defined.

(** A CONNECT packet carries the body of the protocol (name, level,
    flags, keep alive, client identifier, will, user name and password), but
    the remaining length in front of it is short by the length of the client
    identifier, and so is the size that is compared with the buffer: the
    packet is correct exactly for an empty client identifier. *)
Theorem mqtt_connect_omits_client_id o m buflen :
  connect_ok o → zlength (connect_body o) < 268435456 →
  let short := zlength (connect_body o) - zlength (chars o.(clientID)) in
  let pkt := mqtt_header MQTTPACKET_CONNECT 0 0 0 :: encode_bytes short ++ connect_body o in
  mqtt_serialize_connect m buflen o =
    (if buflen <? mqtt_packet_len short then Some (MQTTPACKET_BUFFER_TOO_SHORT, m)
     else if zlength m <? zlength pkt then None
     else Some (zlength pkt, pkt ++ drop (length pkt) m))
  ∧ (pkt = frame MQTTPACKET_CONNECT 0 0 0 (connect_body o) ↔ chars o.(clientID) = []).
Proof.
  intros Ho Hb short pkt.
  assert (Es := connect_length_short o Ho). unfold short in *.
  split.
  - rewrite serialize_connect_put by done. rewrite <- Es, Z.add_simpl_r.
    destruct (buflen <? _); [done|]. unfold pkt. rewrite <- Es, Z.add_simpl_r.
    destruct (Z.ltb_spec (zlength m) (zlength (mqtt_header MQTTPACKET_CONNECT 0 0 0
      :: encode_bytes (connect_length o) ++ connect_body o))).
    + by rewrite put_0_none.
    + by rewrite put_0.
  - unfold pkt, frame. split.
    + intros [= E]. apply app_inv_tail in E. apply nil_length_inv.
      assert (D1 := decode_buf_encode (zlength (connect_body o)) [] []).
      assert (D2 := decode_buf_encode (zlength (connect_body o) - zlength (chars (clientID o))) [] []).
      rewrite E in D2. assert (0 ≤ connect_length o).
      { unfold connect_length. destruct Ho as [_ _ _ _ _ _ [Ht _] [Hm _] [Hu _] [Hp _]].
        rewrite (str_is_len _ _ Ht), (str_is_len _ _ Hm), (str_is_len _ _ Hu), (str_is_len _ _ Hp).
        repeat case_match; lia. }
      rewrite D1 in D2 by lia. specialize (D2 ltac:(lia)). simplify_eq. lia.
    + intros ->. simpl (zlength []). by rewrite Z.sub_0_r.
Qed.

Definition demo_connect : mqtt_packet_connect_data_t := {|
  MQTTVersion := 4; clientID := cstr_of [101; 115; 112; 49]; keepAliveInterval := 10;
  cleansession := 1; willFlag := 0;
  will := will mqtt_packet_connect_data_initializer;
  username := mqtt_string_initializer; password := mqtt_string_initializer |}.

Lemma demo_connect_ok : connect_ok demo_connect.
Proof.
  split; cbn; try (unfold is_u16; lia); unfold str_ok, str_is; cbn; split_and!; done || lia.
Qed.

Example mqtt_connect_omits_client_id_witness :
  mqtt_serialize_connect (zeroes 20) 20 demo_connect
  = Some (18, [16; 12; 0; 4; 77; 81; 84; 84; 4; 2; 0; 10; 0; 4; 101; 115; 112; 49; 0; 0])
  ∧ mqtt_serialize_connect (zeroes 14) 14 demo_connect = None.
Proof.
  assert (Hb : zlength (connect_body demo_connect) < 268435456) by (vm_compute; reflexivity).
  rewrite (proj1 (mqtt_connect_omits_client_id demo_connect (zeroes 20) 20 demo_connect_ok Hb)).
  rewrite (proj1 (mqtt_connect_omits_client_id demo_connect (zeroes 14) 14 demo_connect_ok Hb)).
  vm_compute. split; reflexivity.
Defined.

(** PUBLISH packets that are too short are not rejected.  One that
    ends after its fixed header (remaining length 0) is reported as read: the
    function returns the number of bytes of the remaining length, which is 1,
    the value that stands for success, and leaves the packet identifier, the
    payload and its length unset.  One of QoS 1 that ends after its topic makes
    the function read the packet identifier behind the packet: past the end of
    a buffer that the packet fills, or with a payload length of -2. *)
Example truncated_publish_is_accepted o rest buflen :
  mqtt_deserialize_publish o (48 :: 0 :: rest) buflen
  = Some (1, {| po_dup := 0; po_qos := 0; po_retained := 0; po_packetid := o.(po_packetid);
       po_topicName := {| cstr := None; lenstring := o.(po_topicName).(lenstring) |};
       po_payload := o.(po_payload); po_payloadlen := o.(po_payloadlen) |})
  ∧ mqtt_deserialize_publish o [50; 5; 0; 3; 97; 98; 99] 7 = None
  ∧ (po_payloadlen ∘ snd <$> mqtt_deserialize_publish o [50; 5; 0; 3; 97; 98; 99; 0; 1] 9) = Some (-2).
Proof. split_and!; reflexivity. Qed.

(** A SUBACK with more return codes than the caller's array holds is
    written one element past the end of the array: the check lets [count] reach
    [maxcount].  [mqtt_subscribe] passes an array of one element. *)
Example suback_overruns_the_array o rest buflen :
  o.(sa_grantedQoSs) = [-1] →
  mqtt_deserialize_suback o 1 ([144; 4; 0; 1; 0; 0] ++ rest) buflen = None.
Proof. intros E. destruct o as [? ? q]. simpl in E. subst q. reflexivity. Qed.

Example suback_overruns_the_array_witness :
  mqtt_deserialize_suback {| sa_packetid := 0; sa_count := 0; sa_grantedQoSs := [-1] |} 1
    ([144; 4; 0; 1; 0; 0] ++ [0]) 7 = None.
Proof. apply suback_overruns_the_array. reflexivity. Defined.

(** The non-blocking reader counts an empty read as a byte of the
    remaining length, so a transport that has no data four times in that state
    makes it fail on a valid packet; and a packet without a body (PINGRESP) is
    never completed, since reading its 0 missing bytes looks like no data. *)
Example readnb_loses_packets fuel :
  let trp := {| multiplier := 0; rem_len := 0; tlen := 0; state := 0 |} in
  (∃ buf trp' s', poll 5 (zeroes 8) 8 chunked trp ([64; 2; 0; 1], [1; 0; 0; 0; 0])
                  = Some (-1, buf, trp', s'))
  ∧ (∃ buf trp' s', poll fuel (zeroes 8) 8 chunked trp ([208; 0], []) = Some (0, buf, trp', s')).
Proof.
  intros trp. split; [vm_compute; do 3 eexists; reflexivity|].
  assert (H : ∀ fuel, poll fuel [208; 0; 0; 0; 0; 0; 0; 0] 8 chunked
    {| multiplier := 128; rem_len := 0; tlen := 2; state := 2 |} ([], [])
    = Some (0, [208; 0; 0; 0; 0; 0; 0; 0],
        {| multiplier := 128; rem_len := 0; tlen := 2; state := 2 |}, ([], []))).
  { clear fuel. induction fuel as [|fuel IH]; [reflexivity|]. etransitivity; [|exact IH]. reflexivity. }
  exists [208; 0; 0; 0; 0; 0; 0; 0], {| multiplier := 128; rem_len := 0; tlen := 2; state := 2 |}, ([], []).
  destruct fuel as [|fuel]; [reflexivity|].
  etransitivity; [|exact (H fuel)]. reflexivity.
Qed.
