(* ===== verification/MqttClient.v ===== *)
(** MqttClient: the MQTT client of extras/paho_mqtt_c.

    Models MQTTClient.c and the timers of MQTTESP8266.c, one definition per
    function, over the network and the clock it is given ([NetOps]).  A
    function of the client is a state transformer of the client structure and
    of the world; it can also fault (an access outside of a buffer) or run out
    of the fuel that bounds its waiting loops. *)

From S2P Require Import Prelude CString Buffer MqttPacket MqttMessages.

(** ** The interface to the network and the tick counter

    [mqttread] and [mqttwrite] are the function pointers of mqtt_network_t;
    [mqttread w len timeout] gives the returned value and the bytes stored in
    the caller's buffer.  Reading the tick counter may take time. *)
Class NetOps (W : Type) := {
  xTaskGetTickCount : W → Z * W;
  mqttread : W → Z → Z → Z * list Z * W;
  mqttwrite : W → list Z → Z → Z * W;
}.

(** ** Results *)

Inductive result (A : Type) :=
  | Done (a : A)
  | Fault
  | OutOfFuel.
Arguments Done {A}.
Arguments Fault {A}.
Arguments OutOfFuel {A}.

Definition CM (S A : Type) : Type := S → result (A * S).

#[export] Instance CM_ret S : MRet (CM S) := λ A a s, Done (a, s).
#[export] Instance CM_bind S : MBind (CM S) := λ A B f m s,
  match m s with Done (a, s') => f a s' | Fault => Fault | OutOfFuel => OutOfFuel end.

(** ** MQTTClient.h *)

Definition MQTT_MAX_PACKET_ID : Z := 65535.
Definition MQTT_MAX_MESSAGE_HANDLERS : nat := 5.
Definition MQTT_MAX_FAIL_ALLOWED : Z := 2.

Definition MQTT_QOS0 : Z := 0.
Definition MQTT_QOS1 : Z := 1.
Definition MQTT_QOS2 : Z := 2.

Definition MQTT_READ_ERROR : Z := -4.
Definition MQTT_DISCONNECTED : Z := -3.
Definition MQTT_BUFFER_OVERFLOW : Z := -2.
Definition MQTT_FAILURE : Z := -1.
Definition MQTT_SUCCESS : Z := 0.

Record mqtt_message_t := {
  qos : Z; msg_retained : Z; dup : Z; id : Z; payload : pointer; payloadlen : Z;
}.

(** A message handler is a name for the application's function. *)
Definition handler_t : Type := Z.

(** An element of messageHandlers; [None] is a null pointer. *)
Record MessageHandler := { topicFilter : option (list Z); fp : option handler_t }.

Record mqtt_client := {
  next_packetid : Z;
  command_timeout_ms : Z;
  buf_size : Z;
  readbuf_size : Z;
  buf : list Z;
  readbuf : list Z;
  keepAlive : Z;
  ping_outstanding : Z;
  fail_count : Z;
  isconnected : bool;
  messageHandlers : list MessageHandler;
  defaultMessageHandler : option handler_t;
  ping_timer : Z;
}.

(** A call of a message handler. *)
Record delivery := { to : handler_t; d_topic : mqtt_string_t; d_message : mqtt_message_t }.

Definition portTICK_PERIOD_MS : Z := 10.

Definition set_next_packetid (v : Z) (c : mqtt_client) : mqtt_client := {|
  next_packetid := v; command_timeout_ms := c.(command_timeout_ms); buf_size := c.(buf_size);
  readbuf_size := c.(readbuf_size); buf := c.(buf); readbuf := c.(readbuf); keepAlive := c.(keepAlive);
  ping_outstanding := c.(ping_outstanding); fail_count := c.(fail_count); isconnected := c.(isconnected);
  messageHandlers := c.(messageHandlers); defaultMessageHandler := c.(defaultMessageHandler);
  ping_timer := c.(ping_timer) |}.
Definition set_buf (v : list Z) (c : mqtt_client) : mqtt_client := {|
  next_packetid := c.(next_packetid); command_timeout_ms := c.(command_timeout_ms); buf_size := c.(buf_size);
  readbuf_size := c.(readbuf_size); buf := v; readbuf := c.(readbuf); keepAlive := c.(keepAlive);
  ping_outstanding := c.(ping_outstanding); fail_count := c.(fail_count); isconnected := c.(isconnected);
  messageHandlers := c.(messageHandlers); defaultMessageHandler := c.(defaultMessageHandler);
  ping_timer := c.(ping_timer) |}.
Definition set_readbuf (v : list Z) (c : mqtt_client) : mqtt_client := {|
  next_packetid := c.(next_packetid); command_timeout_ms := c.(command_timeout_ms); buf_size := c.(buf_size);
  readbuf_size := c.(readbuf_size); buf := c.(buf); readbuf := v; keepAlive := c.(keepAlive);
  ping_outstanding := c.(ping_outstanding); fail_count := c.(fail_count); isconnected := c.(isconnected);
  messageHandlers := c.(messageHandlers); defaultMessageHandler := c.(defaultMessageHandler);
  ping_timer := c.(ping_timer) |}.
Definition set_keepAlive (v : Z) (c : mqtt_client) : mqtt_client := {|
  next_packetid := c.(next_packetid); command_timeout_ms := c.(command_timeout_ms); buf_size := c.(buf_size);
  readbuf_size := c.(readbuf_size); buf := c.(buf); readbuf := c.(readbuf); keepAlive := v;
  ping_outstanding := c.(ping_outstanding); fail_count := c.(fail_count); isconnected := c.(isconnected);
  messageHandlers := c.(messageHandlers); defaultMessageHandler := c.(defaultMessageHandler);
  ping_timer := c.(ping_timer) |}.
Definition set_ping (outstanding fails : Z) (c : mqtt_client) : mqtt_client := {|
  next_packetid := c.(next_packetid); command_timeout_ms := c.(command_timeout_ms); buf_size := c.(buf_size);
  readbuf_size := c.(readbuf_size); buf := c.(buf); readbuf := c.(readbuf); keepAlive := c.(keepAlive);
  ping_outstanding := outstanding; fail_count := fails; isconnected := c.(isconnected);
  messageHandlers := c.(messageHandlers); defaultMessageHandler := c.(defaultMessageHandler);
  ping_timer := c.(ping_timer) |}.
Definition set_connected (v : bool) (c : mqtt_client) : mqtt_client := {|
  next_packetid := c.(next_packetid); command_timeout_ms := c.(command_timeout_ms); buf_size := c.(buf_size);
  readbuf_size := c.(readbuf_size); buf := c.(buf); readbuf := c.(readbuf); keepAlive := c.(keepAlive);
  ping_outstanding := c.(ping_outstanding); fail_count := c.(fail_count); isconnected := v;
  messageHandlers := c.(messageHandlers); defaultMessageHandler := c.(defaultMessageHandler);
  ping_timer := c.(ping_timer) |}.
Definition set_handlers (v : list MessageHandler) (c : mqtt_client) : mqtt_client := {|
  next_packetid := c.(next_packetid); command_timeout_ms := c.(command_timeout_ms); buf_size := c.(buf_size);
  readbuf_size := c.(readbuf_size); buf := c.(buf); readbuf := c.(readbuf); keepAlive := c.(keepAlive);
  ping_outstanding := c.(ping_outstanding); fail_count := c.(fail_count); isconnected := c.(isconnected);
  messageHandlers := v; defaultMessageHandler := c.(defaultMessageHandler);
  ping_timer := c.(ping_timer) |}.
Definition set_ping_timer (v : Z) (c : mqtt_client) : mqtt_client := {|
  next_packetid := c.(next_packetid); command_timeout_ms := c.(command_timeout_ms); buf_size := c.(buf_size);
  readbuf_size := c.(readbuf_size); buf := c.(buf); readbuf := c.(readbuf); keepAlive := c.(keepAlive);
  ping_outstanding := c.(ping_outstanding); fail_count := c.(fail_count); isconnected := c.(isconnected);
  messageHandlers := c.(messageHandlers); defaultMessageHandler := c.(defaultMessageHandler);
  ping_timer := v |}.

(** ** Topic filters *)

Definition chr_slash : Z := 47.
Definition chr_wild : Z := 43.
Definition chr_hash : Z := 35.

(** The rest of a name from its next separator on. *)
Fixpoint to_slash (n : list Z) : list Z :=
  match n with
  | [] => []
  | x :: n' => if x =? chr_slash then n else to_slash n'
  end.

(** The loop of [is_topic_matched]: [curf] and [curn] are what is left of the
    filter and of the name when it ends. *)
Fixpoint match_loop (curf curn : list Z) : list Z * list Z :=
  match curf, curn with
  | f :: curf', n :: curn' =>
      if (n =? chr_slash) && negb (f =? chr_slash) then (curf, curn)
      else if negb (f =? chr_wild) && negb (f =? chr_hash) && negb (f =? n) then (curf, curn)
      else if f =? chr_wild then match_loop curf' (to_slash curn')
      else if f =? chr_hash then match_loop curf' []
      else match_loop curf' curn'
  | _, _ => (curf, curn)
  end.

(** [None]: the name is longer than its data. *)
Definition is_topic_matched (filter : list Z) (topicName : mqtt_string_t) : option bool :=
  let n := topicName.(lenstring).(len) in
  match topicName.(lenstring).(data) with
  | Some d =>
      if (0 <=? n) && (n <=? zlength d) then
        let '(curf, curn) := match_loop filter (take (Z.to_nat n) d) in
        Some (bool_decide (curn = []) && bool_decide (curf = []))
      else None
  | None => if n =? 0 then Some (bool_decide (filter = [])) else None
  end.

(** The condition on a message handler in [deliver_message]. *)
Definition handler_matches (h : MessageHandler) (topicName : mqtt_string_t) : option bool :=
  match h.(topicFilter) with
  | None => Some false
  | Some filter =>
      eq ← mqtt_packet_equals topicName filter;
      if eq : bool then Some true else is_topic_matched filter topicName
  end.

(** The calls that the loop over messageHandlers makes. *)
Fixpoint deliver_loop (hs : list MessageHandler) (topicName : mqtt_string_t)
    (message : mqtt_message_t) : option (list delivery) :=
  match hs with
  | [] => Some []
  | h :: hs' =>
      hit ← handler_matches h topicName;
      calls ← deliver_loop hs' topicName message;
      match hit : bool, h.(fp) with
      | true, Some f => Some ({| to := f; d_topic := topicName; d_message := message |} :: calls)
      | _, _ => Some calls
      end
  end.

Section Client.
Context {W : Type} `{!NetOps W}.

(** The client, the world and the handler calls so far. *)
Record cstate := { cl : mqtt_client; world : W; calls : list delivery }.

Local Abbreviation C := (CM cstate).

Definition get_cl : C mqtt_client := λ s, Done (s.(cl), s).
Definition mod_cl (f : mqtt_client → mqtt_client) : C () := λ s,
  Done ((), {| cl := f s.(cl); world := s.(world); calls := s.(calls) |}).
Definition in_world {A} (f : W → A * W) : C A := λ s,
  let '(a, w) := f s.(world) in Done (a, {| cl := s.(cl); world := w; calls := s.(calls) |}).
Definition call (ds : list delivery) : C () := λ s,
  Done ((), {| cl := s.(cl); world := s.(world); calls := s.(calls) ++ ds |}).
Definition lift {A} (o : option A) : C A := λ s,
  match o with Some a => Done (a, s) | None => Fault end.
Definition out_of_fuel {A} : C A := λ _, OutOfFuel.

(** ** Timers: MQTTESP8266.c *)

Definition mqtt_timer_expired (end_time : Z) : C bool :=
  now ← in_world xTaskGetTickCount;
  mret (s32 (end_time - now) <? 0).

(** The new [end_time]. *)
Definition mqtt_timer_countdown_ms (timeout : Z) : C Z :=
  now ← in_world xTaskGetTickCount;
  mret (u32 (now + timeout / portTICK_PERIOD_MS)).

Definition mqtt_timer_countdown (timeout : Z) : C Z := mqtt_timer_countdown_ms (u32 (timeout * 1000)).

Definition mqtt_timer_left_ms (end_time : Z) : C Z :=
  now ← in_world xTaskGetTickCount;
  let left := s32 (end_time - now) in
  mret (if left <? 0 then 0 else left / portTICK_PERIOD_MS).

Definition mqtt_timer_init : Z := 0.

(** ** MQTTClient.c *)

Definition get_next_packet_id : C Z :=
  c ← get_cl;
  let v := if c.(next_packetid) =? MQTT_MAX_PACKET_ID then 1 else u32 (c.(next_packetid) + 1) in
  mod_cl (set_next_packetid v);; mret v.

(** The loop of [send_packet]: the value of [sent] at its end. *)
Fixpoint send_loop (fuel : nat) (length sent timer : Z) : C Z :=
  if negb (sent <? length) then mret sent else
  expired ← mqtt_timer_expired timer;
  if expired : bool then mret sent else
  c ← get_cl;
  left ← mqtt_timer_left_ms timer;
  if negb ((0 <=? sent) && (length <=? zlength c.(buf))) then lift None else
  rc ← in_world (λ w, mqttwrite w (sub_list c.(buf) sent (length - sent)) left);
  if rc <? 0 then mret sent else
  match fuel with
  | O => out_of_fuel
  | S fuel' => send_loop fuel' length (sent + rc) timer
  end.

Definition send_packet (fuel : nat) (length timer : Z) : C Z :=
  sent ← send_loop fuel length 0 timer;
  if sent =? length then
    c ← get_cl;
    t ← mqtt_timer_countdown c.(keepAlive);
    mod_cl (set_ping_timer t);; mret MQTT_SUCCESS
  else mret MQTT_FAILURE.

(** [len] and [*value]. *)
Definition decode_packet (timeout : Z) : C (Z * Z) :=
  in_world (λ w, mqtt_packet_decode (λ w count, mqttread w count timeout) w).

(** c->ipstack->mqttread(c->ipstack, c->readbuf + p, count, timeout) *)
Definition read_into (p count timeout : Z) : C Z :=
  '(rc, bs) ← in_world (λ w, mqttread w count timeout);
  c ← get_cl;
  '(m, _) ← lift (store_bytes (c.(readbuf), p) bs);
  mod_cl (set_readbuf m);; mret rc.

Definition read_packet (timer : Z) : C Z :=
  left ← mqtt_timer_left_ms timer;
  rc ← read_into 0 1 left;
  if negb (rc =? 1) then mret MQTT_FAILURE else
  left ← mqtt_timer_left_ms timer;
  '(n, rem_len) ← decode_packet left;
  let len := 1 + n in
  c ← get_cl;
  if (len <=? 1) || (c.(readbuf_size) <? len + rem_len) then mret MQTT_READ_ERROR else
  '(m, _) ← lift (mqtt_packet_encode (c.(readbuf), 1) rem_len);
  mod_cl (set_readbuf m);;
  ok ← (if 0 <? rem_len then
          left ← mqtt_timer_left_ms timer;
          rc ← read_into len rem_len left;
          mret (rc =? rem_len)
        else mret true);
  if negb (ok : bool) then mret MQTT_READ_ERROR else
  c ← get_cl;
  b ← lift (peek c.(readbuf) 0);
  mret (header_type b).

Definition deliver_message (topicName : mqtt_string_t) (message : mqtt_message_t) : C Z :=
  c ← get_cl;
  ds ← lift (deliver_loop c.(messageHandlers) topicName message);
  call ds;;
  let rc := if bool_decide (ds = []) then MQTT_FAILURE else MQTT_SUCCESS in
  match c.(defaultMessageHandler) with
  | Some f =>
      if rc =? MQTT_FAILURE then
        call [{| to := f; d_topic := topicName; d_message := message |}];; mret MQTT_SUCCESS
      else mret rc
  | None => mret rc
  end.

Definition rearm_ping : C () :=
  c ← get_cl;
  t ← mqtt_timer_countdown c.(keepAlive);
  mod_cl (set_ping_timer t).

Definition keepalive (fuel : nat) : C Z :=
  c ← get_cl;
  if c.(keepAlive) =? 0 then mret MQTT_SUCCESS else
  expired ← mqtt_timer_expired c.(ping_timer);
  if expired : bool then
    if negb (c.(ping_outstanding) =? 0) then
      mod_cl (set_ping c.(ping_outstanding) (c.(fail_count) + 1));;
      if MQTT_MAX_FAIL_ALLOWED <=? c.(fail_count) + 1 then mret MQTT_DISCONNECTED else
      rearm_ping;; mret MQTT_SUCCESS
    else
      timer ← mqtt_timer_countdown_ms 1000;
      mod_cl (set_ping 1 c.(fail_count));;
      '(len, m) ← lift (mqtt_serialize_pingreq c.(buf) c.(buf_size));
      mod_cl (set_buf m);;
      (if 0 <? len then send_packet fuel len timer else mret 0);;
      rearm_ping;; mret MQTT_SUCCESS
  else mret MQTT_SUCCESS.

(** The answer to a message: PUBACK or PUBREC, or [len] unchanged (0) for
    another QoS. *)
Definition cycle_ack (fuel : nat) (qos id timer : Z) : C Z :=
  c ← get_cl;
  '(len, m) ← lift (
    if qos =? MQTT_QOS1 then mqtt_serialize_ack c.(buf) c.(buf_size) MQTTPACKET_PUBACK 0 id
    else if qos =? MQTT_QOS2 then mqtt_serialize_ack c.(buf) c.(buf_size) MQTTPACKET_PUBREC 0 id
    else Some (0, c.(buf)));
  mod_cl (set_buf m);;
  if len <=? 0 then mret MQTT_FAILURE else send_packet fuel len timer.

(** case MQTTPACKET_PUBLISH: [rc] and whether the code goes to exit.  [stack]
    is what the uninitialised locals hold. *)
Definition cycle_publish (stack : publish_out) (fuel : nat) (timer : Z) : C (Z * bool) :=
  c ← get_cl;
  '(r, o) ← lift (mqtt_deserialize_publish stack c.(readbuf) c.(readbuf_size));
  if negb (r =? 1) then mret (MQTT_SUCCESS, true) else
  let msg := {| qos := o.(po_qos); msg_retained := o.(po_retained); dup := o.(po_dup);
                id := u16 o.(po_packetid); payload := o.(po_payload); payloadlen := o.(po_payloadlen) |} in
  deliver_message o.(po_topicName) msg;;
  if negb (msg.(qos) =? MQTT_QOS0) then
    rc ← cycle_ack fuel msg.(qos) msg.(id) timer;
    mret (rc, rc =? MQTT_FAILURE)
  else mret (MQTT_SUCCESS, false).

(** case MQTTPACKET_PUBREC. *)
Definition cycle_pubrec (stack : ack_out) (fuel : nat) (timer : Z) : C (Z * bool) :=
  c ← get_cl;
  '(r, o) ← lift (mqtt_deserialize_ack stack c.(readbuf) c.(readbuf_size));
  if negb (r =? 1) then mret (MQTT_FAILURE, true) else
  '(len, m) ← lift (mqtt_serialize_ack c.(buf) c.(buf_size) MQTTPACKET_PUBREL 0 o.(ao_packetid));
  mod_cl (set_buf m);;
  if len <=? 0 then mret (MQTT_FAILURE, true) else
  rc ← send_packet fuel len timer;
  if negb (rc =? MQTT_SUCCESS) then mret (MQTT_FAILURE, true) else mret (rc, false).

(** The uninitialised locals of the callers of the deserializers. *)
Record locals := { stack_publish : publish_out; stack_ack : ack_out }.

(** The switch over the packet type. *)
Definition cycle_switch (stack : locals) (fuel : nat) (packet_type timer : Z) : C (Z * bool) :=
  if packet_type =? MQTTPACKET_PUBLISH then cycle_publish stack.(stack_publish) fuel timer
  else if packet_type =? MQTTPACKET_PUBREC then cycle_pubrec stack.(stack_ack) fuel timer
  else if packet_type =? MQTTPACKET_PINGRESP then
    mod_cl (set_ping 0 0);; mret (MQTT_SUCCESS, false)
  else if packet_type =? MQTT_READ_ERROR then
    mod_cl (set_connected false);; mret (MQTT_DISCONNECTED, false)
  else mret (MQTT_SUCCESS, false).

Definition cycle (stack : locals) (fuel : nat) (timer : Z) : C Z :=
  packet_type ← read_packet timer;
  '(rc, goto_exit) ← cycle_switch stack fuel packet_type timer;
  rc ← (if goto_exit : bool then mret rc else
        c ← get_cl;
        if c.(isconnected) then keepalive fuel else mret rc);
  mret (if rc =? MQTT_SUCCESS then packet_type else rc).

(** Sets every field but [next_packetid], [keepAliveInterval] and the functions
    of the handlers. *)
Definition mqtt_client_new (c : mqtt_client) (timeout_ms : Z) (m : list Z) (m_size : Z)
    (rm : list Z) (rm_size : Z) : mqtt_client := {|
  next_packetid := c.(next_packetid);
  command_timeout_ms := timeout_ms;
  buf_size := m_size; readbuf_size := rm_size; buf := m; readbuf := rm;
  keepAlive := c.(keepAlive);
  ping_outstanding := 0; fail_count := 0; isconnected := false;
  messageHandlers := (λ h, {| topicFilter := None; fp := h.(fp) |}) <$> c.(messageHandlers);
  defaultMessageHandler := None;
  ping_timer := mqtt_timer_init |}.

Fixpoint yield_loop (stack : locals) (fuel : nat) (rc timer : Z) : C Z :=
  expired ← mqtt_timer_expired timer;
  if expired : bool then mret rc else
  match fuel with
  | O => out_of_fuel
  | S fuel' =>
      rc ← cycle stack fuel timer;
      if rc =? MQTT_DISCONNECTED then mret rc else yield_loop stack fuel' MQTT_SUCCESS timer
  end.

Definition mqtt_yield (stack : locals) (fuel : nat) (timeout_ms : Z) : C Z :=
  timer ← mqtt_timer_countdown_ms (u32 timeout_ms);
  yield_loop stack fuel MQTT_SUCCESS timer.

Fixpoint waitfor_loop (stack : locals) (fuel : nat) (packet_type rc timer : Z) : C Z :=
  expired ← mqtt_timer_expired timer;
  if expired : bool then mret rc else
  match fuel with
  | O => out_of_fuel
  | S fuel' =>
      rc ← cycle stack fuel timer;
      if rc =? packet_type then mret rc else waitfor_loop stack fuel' packet_type rc timer
  end.

Definition waitfor (stack : locals) (fuel : nat) (packet_type timer : Z) : C Z :=
  waitfor_loop stack fuel packet_type MQTT_FAILURE timer.

(** A buffer that a serializer filled, and its return value. *)
Definition into_buf (r : list Z → Z → option (Z * list Z)) : C Z :=
  c ← get_cl;
  '(len, m) ← lift (r c.(buf) c.(buf_size));
  mod_cl (set_buf m);; mret len.

(** [options]: [None] for a null pointer. *)
Definition mqtt_connect (stack : locals) (fuel : nat) (options : option mqtt_packet_connect_data_t) : C Z :=
  c ← get_cl;
  timer ← mqtt_timer_countdown_ms c.(command_timeout_ms);
  rc ← (if c.(isconnected) then mret MQTT_FAILURE else
    let options := default mqtt_packet_connect_data_initializer options in
    mod_cl (set_keepAlive options.(keepAliveInterval));;
    rearm_ping;;
    len ← into_buf (λ m n, mqtt_serialize_connect m n options);
    if len <=? 0 then mret MQTT_FAILURE else
    rc ← send_packet fuel len timer;
    if negb (rc =? MQTT_SUCCESS) then mret rc else
    w ← waitfor stack fuel MQTTPACKET_CONNACK timer;
    if w =? MQTTPACKET_CONNACK then
      c ← get_cl;
      '(r, _, connack_rc) ← lift (mqtt_deserialize_connack 0 255 c.(readbuf) c.(readbuf_size));
      mret (if r =? 1 then connack_rc else MQTT_FAILURE)
    else mret MQTT_FAILURE);
  (if rc =? MQTT_SUCCESS then mod_cl (set_connected true) else mret ());;
  mret rc.

(** Takes the first free entry: whether there was one. *)
Fixpoint add_handler (hs : list MessageHandler) (topic : list Z) (handler : option handler_t)
    : list MessageHandler * bool :=
  match hs with
  | [] => ([], false)
  | h :: hs' =>
      match h.(topicFilter) with
      | None => ({| topicFilter := Some topic; fp := handler |} :: hs', true)
      | Some _ => let '(hs', ok) := add_handler hs' topic handler in (h :: hs', ok)
      end
  end.

(** mqtt_string_initializer with [cstring] set. *)
Definition cstr_topic (topic : list Z) : mqtt_string_t :=
  {| cstr := Some topic; lenstring := {| len := 0; data := None |} |}.

Definition mqtt_subscribe (stack : locals) (fuel : nat) (topic : list Z) (qos : Z)
    (handler : option handler_t) : C Z :=
  c ← get_cl;
  timer ← mqtt_timer_countdown_ms c.(command_timeout_ms);
  if negb c.(isconnected) then mret MQTT_FAILURE else
  id ← get_next_packet_id;
  len ← into_buf (λ m n, mqtt_serialize_subscribe m n 0 (u16 id) [(cstr_topic topic, qos)]);
  if len <=? 0 then mret MQTT_FAILURE else
  rc ← send_packet fuel len timer;
  if negb (rc =? MQTT_SUCCESS) then mret rc else
  w ← waitfor stack fuel MQTTPACKET_SUBACK timer;
  if w =? MQTTPACKET_SUBACK then
    c ← get_cl;
    '(r, o) ← lift (mqtt_deserialize_suback
      {| sa_packetid := 0; sa_count := 0; sa_grantedQoSs := [-1] |} 1 c.(readbuf) c.(readbuf_size));
    let rc := if r =? 1 then at_ o.(sa_grantedQoSs) 0 else rc in
    if negb (rc =? 0x80) then
      let '(hs, ok) := add_handler c.(messageHandlers) topic handler in
      mod_cl (set_handlers hs);; mret (if ok : bool then 0 else rc)
    else mret rc
  else mret MQTT_FAILURE.

Definition mqtt_unsubscribe (stack : locals) (fuel : nat) (topicFilter : list Z) : C Z :=
  c ← get_cl;
  timer ← mqtt_timer_countdown_ms c.(command_timeout_ms);
  if negb c.(isconnected) then mret MQTT_FAILURE else
  id ← get_next_packet_id;
  len ← into_buf (λ m n, mqtt_serialize_unsubscribe m n 0 (u16 id) [cstr_topic topicFilter]);
  if len <=? 0 then mret MQTT_FAILURE else
  rc ← send_packet fuel len timer;
  if negb (rc =? MQTT_SUCCESS) then mret rc else
  w ← waitfor stack fuel MQTTPACKET_UNSUBACK timer;
  if w =? MQTTPACKET_UNSUBACK then
    c ← get_cl;
    '(r, _) ← lift (mqtt_deserialize_unsuback 0 c.(readbuf) c.(readbuf_size));
    mret (if r =? 1 then 0 else rc)
  else mret MQTT_FAILURE.

(** Waits for the last packet of an exchange and reads its identifier. *)
Definition publish_wait (stack : locals) (fuel : nat) (packet_type timer : Z) : C Z :=
  w ← waitfor stack fuel packet_type timer;
  if w =? packet_type then
    c ← get_cl;
    mod_cl (set_ping c.(ping_outstanding) 0);;
    '(r, _) ← lift (mqtt_deserialize_ack stack.(stack_ack) c.(readbuf) c.(readbuf_size));
    mret (if r =? 1 then MQTT_SUCCESS else MQTT_FAILURE)
  else mret MQTT_FAILURE.

Definition set_id (v : Z) (m : mqtt_message_t) : mqtt_message_t := {|
  qos := m.(qos); msg_retained := m.(msg_retained); dup := m.(dup); id := v;
  payload := m.(payload); payloadlen := m.(payloadlen) |}.

(** The result and [*message]. *)
Definition mqtt_publish (stack : locals) (fuel : nat) (topic : list Z) (message : mqtt_message_t)
    : C (Z * mqtt_message_t) :=
  c ← get_cl;
  timer ← mqtt_timer_countdown_ms c.(command_timeout_ms);
  if negb c.(isconnected) then mret (MQTT_FAILURE, message) else
  message ← (if (message.(qos) =? MQTT_QOS1) || (message.(qos) =? MQTT_QOS2)
             then id ← get_next_packet_id; mret (set_id (u16 id) message)
             else mret message);
  len ← into_buf (λ m n, mqtt_serialize_publish m n 0 message.(qos) message.(msg_retained)
                           message.(id) (cstr_topic topic) (default [] message.(payload))
                           message.(payloadlen));
  if len <=? 0 then mret (MQTT_FAILURE, message) else
  rc ← send_packet fuel len timer;
  if negb (rc =? MQTT_SUCCESS) then mret (rc, message) else
  rc ← (if message.(qos) =? MQTT_QOS1 then publish_wait stack fuel MQTTPACKET_PUBACK timer
        else if message.(qos) =? MQTT_QOS2 then publish_wait stack fuel MQTTPACKET_PUBCOMP timer
        else mret rc);
  mret (rc, message).

Definition mqtt_disconnect (fuel : nat) : C Z :=
  len ← into_buf mqtt_serialize_disconnect;
  c ← get_cl;
  timer ← mqtt_timer_countdown_ms c.(command_timeout_ms);
  rc ← (if 0 <? len then send_packet fuel len timer else mret MQTT_FAILURE);
  mod_cl (set_connected false);; mret rc.

End Client.
Arguments cstate : clear implicits.
