(* ===== verification/MqttTopic.v ===== *)
(** MqttTopic: topic filters level by level.

    [is_topic_matched] walks over the characters of the filter and of the name;
    [levels_match] is what it decides, on the levels between the separators. *)

From S2P Require Import Prelude CString Buffer MqttPacket MqttMessages MqttWire MqttClient.

(** The text of a list of levels. *)
Fixpoint join (ls : list (list Z)) : list Z :=
  match ls with
  | [] => []
  | [l] => l
  | l :: ls' => l ++ chr_slash :: join ls'
  end.

Definition wild : list Z := [chr_wild].
Definition hash : list Z := [chr_hash].

(** The rules of MQTT: "+" stands for one level, a final "#" for one level or
    more, any other level for itself. *)
Fixpoint levels_match (fs ns : list (list Z)) : bool :=
  match fs, ns with
  | [], [] => true
  | f :: fs', n :: ns' =>
      if bool_decide (f = hash) then bool_decide (fs' = [])
      else if bool_decide (f = wild) then levels_match fs' ns'
      else bool_decide (f = n) && levels_match fs' ns'
  | _, _ => false
  end.

(** A level without wild cards. *)
Definition plain (f : list Z) : Prop := Forall (λ x, x ≠ chr_slash ∧ x ≠ chr_wild ∧ x ≠ chr_hash) f.

(** "assume topic filter and name is in correct format: # can only be at end, +
    and # can only be next to separator" *)
Fixpoint filter_ok (fs : list (list Z)) : Prop :=
  match fs with
  | [] => False
  | [f] => f = hash ∨ f = wild ∨ plain f
  | f :: fs' => (f = wild ∨ plain f) ∧ filter_ok fs'
  end.

(** A level of a name: not empty. *)
Definition name_level (n : list Z) : Prop := n ≠ [] ∧ Forall (λ x, x ≠ chr_slash) n.

(** The end of the loop is a match when both texts are used up. *)
Definition accepts (f n : list Z) : bool :=
  let '(curf, curn) := match_loop f n in bool_decide (curn = []) && bool_decide (curf = []).

(** What can follow a level. *)
Definition boundary (l : list Z) : Prop := l = [] ∨ ∃ l', l = chr_slash :: l'.

Lemma accepts_nil_l c n : accepts [] (c :: n) = false.
Proof. done. Qed.

Lemma accepts_nil_r c f : accepts (c :: f) [] = false.
Proof. done. Qed.

Lemma accepts_slash f n : accepts (chr_slash :: f) (chr_slash :: n) = accepts f n.
Proof. done. Qed.

Lemma accepts_same x f n :
  x ≠ chr_slash ∧ x ≠ chr_wild ∧ x ≠ chr_hash → accepts (x :: f) (x :: n) = accepts f n.
Proof.
  intros (H1 & H2 & H3). unfold accepts. cbn [match_loop].
  rewrite (proj2 (Z.eqb_neq x chr_slash)), (proj2 (Z.eqb_neq x chr_wild)),
    (proj2 (Z.eqb_neq x chr_hash)), Z.eqb_refl by done. done.
Qed.

Lemma accepts_differ x y f n :
  x ≠ chr_wild → x ≠ chr_hash → x ≠ y → accepts (x :: f) (y :: n) = false.
Proof.
  intros H1 H2 H3. unfold accepts. cbn [match_loop].
  rewrite (proj2 (Z.eqb_neq x chr_wild)), (proj2 (Z.eqb_neq x chr_hash)),
    (proj2 (Z.eqb_neq x y)) by done. by destruct (_ && _).
Qed.

(** A plain level of the filter against a level of the name. *)
Lemma accepts_plain f n rf rn : plain f → Forall (λ x, x ≠ chr_slash) n → boundary rf → boundary rn →
  accepts (f ++ rf) (n ++ rn) = bool_decide (f = n) && accepts rf rn.
Proof.
  intros Hf. revert n. induction Hf as [|x f Hx Hf IH]; intros n Hn Hrf Hrn.
  - destruct Hn as [|y n Hy Hn]; [done|]. rewrite bool_decide_eq_false_2 by done.
    destruct Hrf as [-> | [rf' ->]]; [done|]. apply accepts_differ; done.
  - destruct Hn as [|y n Hy Hn]; cbn [app].
    + rewrite bool_decide_eq_false_2 by done.
      destruct Hrn as [-> | [rn' ->]]; [done|]. apply accepts_differ; naive_solver.
    + destruct (decide (x = y)) as [->|Hxy].
      * rewrite accepts_same, IH by done. f_equal. apply bool_decide_ext. naive_solver.
      * rewrite (bool_decide_eq_false_2 (x :: f = y :: n)) by naive_solver.
        apply accepts_differ; naive_solver.
Qed.

Lemma to_slash_level n rn : Forall (λ x, x ≠ chr_slash) n → boundary rn → to_slash (n ++ rn) = rn.
Proof.
  induction 1 as [|x n Hx Hn IH]; intros Hrn; simpl.
  - destruct Hrn as [-> | [rn' ->]]; done.
  - rewrite (proj2 (Z.eqb_neq x chr_slash)) by done. auto.
Qed.

(** "+" against a level of the name. *)
Lemma accepts_wild n rf rn : name_level n → boundary rn →
  accepts (wild ++ rf) (n ++ rn) = accepts rf rn.
Proof.
  intros [Hne Hn] Hrn. destruct Hn as [|x n Hx Hn]; [done|].
  unfold accepts. simpl app. cbn [match_loop].
  rewrite (proj2 (Z.eqb_neq x chr_slash)) by done.
  change (chr_wild =? chr_wild) with true. cbn [andb negb].
  by rewrite to_slash_level.
Qed.

Lemma accepts_hash n rn : name_level n → accepts hash (n ++ rn) = true.
Proof.
  intros [Hne Hn]. destruct Hn as [|x n Hx Hn]; [done|].
  unfold accepts. simpl app. unfold hash. cbn [match_loop].
  by rewrite (proj2 (Z.eqb_neq x chr_slash)) by done.
Qed.

Lemma join_cons l ls : ∃ r, join (l :: ls) = l ++ r ∧ boundary r
  ∧ (ls = [] ∧ r = [] ∨ ls ≠ [] ∧ r = chr_slash :: join ls).
Proof.
  destruct ls as [|l' ls].
  - exists []. simpl. rewrite app_nil_r. unfold boundary. naive_solver.
  - exists (chr_slash :: join (l' :: ls)). split; [done|]. split; [right; eauto|].
    right. done.
Qed.

Lemma not_hash f : f = wild ∨ plain f → f ≠ hash.
Proof. intros [-> | H] E; [done|]. subst f. inversion H; naive_solver. Qed.

Lemma plain_not_wild f : plain f → f ≠ wild.
Proof. intros H E. subst f. inversion H; naive_solver. Qed.

(** The first level of a filter that is not "#", and what remains. *)
Lemma accepts_level f n rf rn : f = wild ∨ plain f → name_level n → boundary rf → boundary rn →
  accepts (f ++ rf) (n ++ rn)
  = (if bool_decide (f = wild) then true else bool_decide (f = n)) && accepts rf rn.
Proof.
  intros [-> | Hf] Hn Hrf Hrn.
  - rewrite bool_decide_eq_true_2 by done. by apply accepts_wild.
  - rewrite bool_decide_eq_false_2 by (by apply plain_not_wild).
    apply accepts_plain; [done|apply Hn|done..].
Qed.

Lemma accepts_levels fs : ∀ ns, filter_ok fs → Forall name_level ns → ns ≠ [] →
  accepts (join fs) (join ns) = levels_match fs ns.
Proof.
  induction fs as [|f fs IH]; intros ns Hf Hns Hne; [done|].
  destruct Hns as [|n ns Hn Hns]; [done|]. clear Hne.
  destruct (join_cons n ns) as (rn & -> & Hbn & Hrn).
  cbn [levels_match]. destruct (decide (f = hash)) as [->|Hh].
  { assert (fs = []) as ->.
    { destruct fs; [done|]. destruct Hf as [Hf _]. by apply not_hash in Hf. }
    by apply accepts_hash. }
  rewrite (bool_decide_eq_false_2 (f = hash)) by done.
  assert (Hf1 : f = wild ∨ plain f) by (destruct fs; simpl in Hf; tauto).
  destruct (join_cons f fs) as (rf & -> & Hbf & Hrf). rewrite accepts_level by done.
  assert (Hrest : accepts rf rn = levels_match fs ns).
  { destruct Hrf as [[-> ->]|[Hfs ->]], Hrn as [[-> ->]|[Hns' ->]].
    - done.
    - rewrite accepts_nil_l. by destruct ns.
    - rewrite accepts_nil_r. by destruct fs.
    - rewrite accepts_slash. apply IH; [|done..]. destruct fs; [done|apply Hf]. }
  rewrite Hrest. by destruct (bool_decide (f = wild)).
Qed.

(** The name as a string structure of the deserializer. *)
Lemma is_topic_matched_levels fs ns rest : filter_ok fs → Forall name_level ns → ns ≠ [] →
  is_topic_matched (join fs) (str_at (join ns ++ rest) (zlength (join ns)))
  = Some (levels_match fs ns).
Proof.
  intros Hf Hns Hne. unfold is_topic_matched, str_at. cbn [lenstring len data].
  rewrite (proj2 (Z.leb_le 0 (zlength (join ns)))) by lia.
  rewrite (proj2 (Z.leb_le _ _)) by (rewrite length_app; lia). cbn [andb].
  rewrite Nat2Z.id, take_app_length. rewrite <- accepts_levels by done.
  unfold accepts. by destruct (match_loop _ _).
Qed.

(** ** Equality of a name and a filter *)

Lemma strncmp_eq_spec b : ∀ l rest, length l = length b →
  strncmp_eq (l ++ rest) b = Some (bool_decide (l = b)).
Proof.
  induction b as [|y b IH]; intros [|x l] rest Hl; [done|done|done|].
  cbn [length app strncmp_eq] in *.
  destruct (Z.eqb_spec x y) as [->|Hxy].
  - rewrite IH by lia. f_equal. apply bool_decide_ext. naive_solver.
  - rewrite bool_decide_eq_false_2; naive_solver.
Qed.

Lemma packet_equals_str_at name rest b :
  mqtt_packet_equals (str_at (name ++ rest) (zlength name)) b = Some (bool_decide (name = b)).
Proof.
  unfold mqtt_packet_equals, str_at. cbn [cstr lenstring len data].
  destruct (Z.eqb_spec (zlength name) (zlength b)) as [E|E].
  - apply strncmp_eq_spec. lia.
  - rewrite bool_decide_eq_false_2; [done|]. by intros ->.
Qed.

(** ** Delivery *)

(** A subscription: the levels of its filter and its function. *)
Definition subscription : Type := list (list Z) * option handler_t.

(** An entry of the handler table; [None] is a free one. *)
Definition entry_of (e : option subscription) : MessageHandler :=
  match e with
  | Some (fs, f) => {| topicFilter := Some (join fs); fp := f |}
  | None => {| topicFilter := None; fp := None |}
  end.

(** A subscription takes a name whose text it equals or that it matches. *)
Definition takes (fs ns : list (list Z)) : bool :=
  bool_decide (join ns = join fs) || levels_match fs ns.

(** The functions of the subscriptions that take a name, in table order. *)
Fixpoint receivers (es : list (option subscription)) (ns : list (list Z)) : list handler_t :=
  match es with
  | [] => []
  | Some (fs, Some f) :: es' => if takes fs ns then f :: receivers es' ns else receivers es' ns
  | _ :: es' => receivers es' ns
  end.

Definition sub_ok (e : option subscription) : Prop :=
  match e with Some (fs, _) => filter_ok fs | None => True end.

Lemma deliver_loop_receivers es ns rest msg : Forall sub_ok es → Forall name_level ns → ns ≠ [] →
  let name := str_at (join ns ++ rest) (zlength (join ns)) in
  deliver_loop (entry_of <$> es) name msg
  = Some ((λ f, {| to := f; d_topic := name; d_message := msg |}) <$> receivers es ns).
Proof.
  intros Hes Hns Hne name. induction Hes as [|e es He Hes IH]; [done|].
  cbn [fmap list_fmap deliver_loop]. unfold fmap in IH |- *.
  destruct e as [[fs f]|]; [|cbn; by rewrite IH].
  unfold handler_matches, name in *. cbn [entry_of topicFilter fp].
  rewrite packet_equals_str_at, is_topic_matched_levels by done. cbn [mbind option_bind].
  cbn [receivers]. unfold takes.
  destruct (bool_decide (join ns = join fs)); cbn [mbind option_bind orb].
  - rewrite IH. cbn [mbind option_bind]. by destruct f.
  - rewrite IH. cbn [mbind option_bind]. by destruct (levels_match fs ns), f.
Qed.
