(* ===== verification/MqttNet.v ===== *)
(** MqttNet: what the client relies on from its network, and what its sending
    and receiving routines do over any such network. *)

From S2P Require Import Prelude CString Buffer MqttPacket MqttMessages MqttCodec MqttWire MqttClient.

(** ** The network's promise

    [pending w]: the received bytes that a read can take without waiting;
    [sent w]: all bytes written so far.  Time may bring more pending bytes.
    A read stores at most what it is asked for and returns how much, or a
    negative value; it is complete when enough bytes are pending.  A write
    takes a non-empty part of the bytes, or fails. *)
Class NetSpec (W : Type) `{!NetOps W} := {
  pending : W → list Z;
  sent : W → list Z;
  tick_spec w : let '(_, w') := xTaskGetTickCount w in
    pending w `prefix_of` pending w' ∧ sent w' = sent w;
  read_spec w n t : 0 ≤ n → let '(rc, bs, w') := mqttread w n t in
    zlength bs ≤ n ∧ Forall is_byte bs ∧ (rc < 0 ∨ rc = zlength bs) ∧ sent w' = sent w;
  read_pending w n t : 0 < n ≤ zlength (pending w) → let '(rc, bs, w') := mqttread w n t in
    rc = n ∧ bs = take (Z.to_nat n) (pending w)
    ∧ drop (Z.to_nat n) (pending w) `prefix_of` pending w';
  write_spec w bs t : bs ≠ [] → let '(rc, w') := mqttwrite w bs t in
    rc ≠ 0 ∧ rc ≤ zlength bs ∧ sent w' = sent w ++ take (Z.to_nat rc) bs
    ∧ pending w `prefix_of` pending w';
}.

(** ** Running a client function

    [runs m s Q]: [m] returns from [s], with a result and a state in [Q]. *)
Definition runs {S A} (m : CM S A) (s : S) (Q : A → S → Prop) : Prop :=
  match m s with Done (a, s') => Q a s' | _ => False end.

Section Rules.
Context {S : Type}.

Lemma runs_ret {A} (a : A) (s : S) (Q : A → S → Prop) : Q a s → runs (mret a) s Q.
Proof. done. Qed.

Lemma runs_bind {A B} (m : CM S A) (f : A → CM S B) s Q :
  runs m s (λ a s', runs (f a) s' Q) → runs (m ≫= f) s Q.
Proof. unfold runs, mbind, CM_bind. by destruct (m s) as [[]| |]. Qed.

Lemma runs_mono {A} (m : CM S A) s (P Q : A → S → Prop) :
  runs m s P → (∀ a s', P a s' → Q a s') → runs m s Q.
Proof. unfold runs. destruct (m s) as [[]| |]; auto. Qed.

Lemma runs_if {A} (b : bool) (m1 m2 : CM S A) s Q :
  (b = true → runs m1 s Q) → (b = false → runs m2 s Q) → runs (if b then m1 else m2) s Q.
Proof. destruct b; auto. Qed.
End Rules.

Section Net.
Context {W : Type} `{NetSpec W}.

Local Abbreviation cstate := (MqttClient.cstate W).

(** Only the world differs, and only by the time that passed. *)
Definition waited (s s' : cstate) : Prop :=
  s'.(cl) = s.(cl) ∧ s'.(calls) = s.(calls) ∧ sent s'.(world) = sent s.(world)
  ∧ pending s.(world) `prefix_of` pending s'.(world).

Lemma waited_trans s1 s2 s3 : waited s1 s2 → waited s2 s3 → waited s1 s3.
Proof. unfold waited. intros (->&->&->&?) (->&->&->&?). by split_and!; [..|etrans]. Qed.

Lemma waited_refl s : waited s s.
Proof. by split_and!. Qed.

Lemma runs_tick (s : cstate) Q :
  (∀ now s', waited s s' → Q now s') → runs (in_world xTaskGetTickCount) s Q.
Proof.
  intros HQ. unfold runs, in_world. assert (T := tick_spec s.(world)).
  destruct (xTaskGetTickCount (world s)) as [now w']. apply HQ. split_and!; naive_solver.
Qed.

Lemma runs_expired t (s : cstate) Q :
  (∀ b s', waited s s' → Q b s') → runs (mqtt_timer_expired t) s Q.
Proof. intros HQ. apply runs_bind, runs_tick. intros now s' Hs. apply runs_ret. auto. Qed.

Lemma runs_countdown_ms n (s : cstate) Q :
  (∀ t s', waited s s' → Q t s') → runs (mqtt_timer_countdown_ms n) s Q.
Proof. intros HQ. apply runs_bind, runs_tick. intros now s' Hs. apply runs_ret. auto. Qed.

Lemma runs_left_ms t (s : cstate) Q :
  (∀ n s', waited s s' → Q n s') → runs (mqtt_timer_left_ms t) s Q.
Proof. intros HQ. apply runs_bind, runs_tick. intros now s' Hs. apply runs_ret. auto. Qed.

Lemma runs_get_cl (s : cstate) Q : Q s.(cl) s → runs get_cl s Q.
Proof. done. Qed.

Definition upd (s : cstate) (c : mqtt_client) : cstate :=
  {| cl := c; world := s.(world); calls := s.(calls) |}.

Lemma runs_mod_cl f (s : cstate) Q : Q () (upd s (f s.(cl))) → runs (mod_cl f) s Q.
Proof. done. Qed.

Lemma runs_lift {A} (o : option A) a (s : cstate) (Q : A → cstate → Prop) :
  o = Some a → Q a s → runs (lift o) s Q.
Proof. intros ->. done. Qed.

(** ** Sending *)

Lemma send_loop_spec fuel : ∀ length sent0 timer (s : cstate),
  0 ≤ sent0 ≤ length → length ≤ zlength s.(cl).(buf) → (Z.to_nat (length - sent0) ≤ fuel)%nat →
  runs (send_loop fuel length sent0 timer) s (λ n s',
    sent0 ≤ n ≤ length ∧ s'.(cl) = s.(cl) ∧ s'.(calls) = s.(calls)
    ∧ sent s'.(world) = sent s.(world) ++ sub_list s.(cl).(buf) sent0 (n - sent0)
    ∧ pending s.(world) `prefix_of` pending s'.(world)).
Proof.
  induction fuel as [|fuel IH]; intros length sent0 timer s Hs0 Hlen Hfuel; cbn [send_loop];
    (destruct (Z.ltb_spec sent0 length) as [Hlt|Hge]; cbn [negb];
     [|apply runs_ret; rewrite Z.sub_diag; unfold sub_list; simpl; rewrite app_nil_r;
       split_and!; (done || lia)]); [lia|].
  apply runs_bind, runs_expired. intros b s1 Hw1.
  apply runs_if; intros ->.
  { destruct Hw1 as (Ec & Ecs & Es & Hp).
    apply runs_ret. rewrite Z.sub_diag; unfold sub_list; simpl; rewrite app_nil_r.
    split_and!; (done || lia). }
  apply runs_bind, runs_get_cl, runs_bind, runs_left_ms. intros left s2 Hw2.
  assert (Hw := waited_trans _ _ _ Hw1 Hw2). destruct Hw as (Ec & Ecs & Es & Hp).
  destruct Hw1 as (Ec1 & _). rewrite Ec1.
  rewrite (proj2 (Z.leb_le 0 sent0)), (proj2 (Z.leb_le _ _) Hlen) by lia. cbn [andb negb].
  set (bs := sub_list (buf (cl s)) sent0 (length - sent0)).
  assert (Hbs : zlength bs = length - sent0).
  { unfold bs, sub_list. rewrite length_take, length_drop. lia. }
  assert (Hne : bs ≠ []) by (intros E; rewrite E in Hbs; simpl in Hbs; lia).
  apply runs_bind. unfold runs at 1, in_world.
  assert (HW := write_spec (world s2) bs left Hne).
  destruct (mqttwrite (world s2) bs left) as [rc w']. destruct HW as (Hrc0 & Hrc & HS & HP).
  apply runs_if; intros Hneg.
  - apply Z.ltb_lt in Hneg. apply runs_ret. cbn. rewrite Z.sub_diag. unfold sub_list at 1. simpl.
    replace (Z.to_nat rc) with 0%nat in HS by lia. rewrite HS, Es. simpl. rewrite !app_nil_r.
    split_and!; (done || lia || by etrans).
  - apply Z.ltb_ge in Hneg. eapply runs_mono; [apply IH; cbn [cl]; [lia|by rewrite Ec|lia]|].
    cbn [cl calls world]. intros n s' (Hn & E1 & E2 & E3 & E4).
    split_and!; [lia|lia|congruence|congruence| |].
    2:{ etrans; [exact Hp|]. by etrans. }
    rewrite E3, HS, Es, Ec, <- (assoc_L (++)). f_equal.
    unfold bs, sub_list. rewrite take_take, Nat.min_l by lia.
    replace (drop (Z.to_nat (sent0 + rc)) (buf (cl s)))
      with (drop (Z.to_nat rc) (drop (Z.to_nat sent0) (buf (cl s))))
      by (rewrite drop_drop; f_equal; lia).
    rewrite take_take_drop. f_equal. lia.
Qed.

(** What [send_packet] does to the client: the ping timer, on success. *)
Lemma send_packet_spec fuel length timer (s : cstate) :
  0 ≤ length ≤ zlength s.(cl).(buf) → (Z.to_nat length ≤ fuel)%nat →
  runs (send_packet fuel length timer) s (λ rc s',
    s'.(calls) = s.(calls) ∧ pending s.(world) `prefix_of` pending s'.(world)
    ∧ (rc = MQTT_SUCCESS ∧ (∃ t, s'.(cl) = set_ping_timer t s.(cl))
         ∧ sent s'.(world) = sent s.(world) ++ sub_list s.(cl).(buf) 0 length
       ∨ rc = MQTT_FAILURE ∧ s'.(cl) = s.(cl)
         ∧ ∃ n, 0 ≤ n < length ∧ sent s'.(world) = sent s.(world) ++ sub_list s.(cl).(buf) 0 n)).
Proof.
  intros Hlen Hfuel. unfold send_packet. apply runs_bind.
  eapply runs_mono; [apply send_loop_spec; [lia|lia|by rewrite Z.sub_0_r]|].
  intros n s1 (Hn & E1 & E2 & E3 & E4). rewrite Z.sub_0_r in E3.
  apply runs_if; intros En.
  - apply Z.eqb_eq in En. subst n. apply runs_bind, runs_get_cl, runs_bind, runs_countdown_ms.
    intros t s2 (Ec & Ecs & Es & Hp). apply runs_bind, runs_mod_cl, runs_ret. cbn.
    split_and!; [congruence|by etrans|]. left. split_and!; [done|exists t; congruence|congruence].
  - apply Z.eqb_neq in En. apply runs_ret. split_and!; [done..|]. right.
    split_and!; [done..|]. exists n. split; [lia|done].
Qed.

(** ** Receiving *)

(** Only the receive buffer and the world differ; the buffer keeps its length. *)
Definition rx (s s' : cstate) : Prop := ∃ m,
  s'.(cl) = set_readbuf m s.(cl) ∧ length m = length s.(cl).(readbuf)
  ∧ (Forall is_byte s.(cl).(readbuf) → Forall is_byte m)
  ∧ s'.(calls) = s.(calls) ∧ sent s'.(world) = sent s.(world).

Lemma set_readbuf_eq c : set_readbuf (readbuf c) c = c.
Proof. by destruct c. Qed.

Lemma rx_waited s s' : waited s s' → rx s s'.
Proof. intros (E & ? & ? & _). exists (readbuf (cl s)). by rewrite set_readbuf_eq. Qed.

Lemma rx_trans s1 s2 s3 : rx s1 s2 → rx s2 s3 → rx s1 s3.
Proof.
  intros (m1 & E1 & L1 & B1 & C1 & S1) (m2 & E2 & L2 & B2 & C2 & S2). exists m2.
  rewrite E2, E1, C2, C1, S2, S1, L2. rewrite E1 in *. cbn in *. split_and!; auto.
Qed.

Lemma rx_length s s' : rx s s' → length s'.(cl).(readbuf) = length s.(cl).(readbuf).
Proof. intros (m & -> & ? & _). done. Qed.

Lemma rx_size s s' : rx s s' → s'.(cl).(readbuf_size) = s.(cl).(readbuf_size).
Proof. by intros (m & -> & _). Qed.

(** A read into the receive buffer stays inside of it and behind [p]. *)
Lemma read_into_safe p count timeout (s : cstate) :
  0 ≤ p → 0 ≤ count → p + count ≤ zlength s.(cl).(readbuf) →
  runs (read_into p count timeout) s (λ rc s', rx s s'
    ∧ take (Z.to_nat p) s'.(cl).(readbuf) = take (Z.to_nat p) s.(cl).(readbuf)
    ∧ (0 < count ≤ zlength (pending s.(world)) →
       rc = count
       ∧ s'.(cl).(readbuf) = take (Z.to_nat p) s.(cl).(readbuf)
            ++ take (Z.to_nat count) (pending s.(world))
            ++ drop (Z.to_nat (p + count)) s.(cl).(readbuf)
       ∧ drop (Z.to_nat count) (pending s.(world)) `prefix_of` pending s'.(world))).
Proof.
  intros Hp Hc Hfit. unfold read_into. apply runs_bind. unfold runs at 1, in_world.
  assert (HR := read_spec (world s) count timeout Hc).
  assert (HP := read_pending (world s) count timeout).
  destruct (mqttread (world s) count timeout) as [[rc bs] w']. destruct HR as (Hb & Hbs & Hrc & Hs).
  apply runs_bind, runs_get_cl. cbn [cl].
  set (m := take (Z.to_nat p) s.(cl).(readbuf) ++ bs ++ drop (Z.to_nat p + length bs) s.(cl).(readbuf)).
  assert (Hst : store_bytes (s.(cl).(readbuf), p) bs = Some (m, p + zlength bs)).
  { rewrite store_put by (done || (split; simpl; lia)). unfold put.
    rewrite decide_True by lia. done. }
  apply runs_bind. eapply runs_lift; [exact Hst|].
  apply runs_bind, runs_mod_cl, runs_ret. cbn. split_and!.
  - exists m. cbn. split_and!; try done.
    + unfold m. rewrite !length_app, length_take, length_drop. lia.
    + intros HF. unfold m. auto using Forall_app_2, Forall_take, Forall_drop.
  - unfold m. rewrite take_app_le by (rewrite length_take; lia). rewrite take_take. f_equal. lia.
  - intros Hpend. destruct (HP Hpend) as (-> & -> & HP3). split_and!; [done| |done].
    unfold m. rewrite length_take_le by lia. do 3 f_equal. lia.
Qed.

Lemma land_127 c : 0 ≤ Z.land c 127 < 128.
Proof. change 127 with (Z.ones 7). rewrite Z.land_ones by lia. apply Z.mod_pos_bound. lia. Qed.

(** The remaining length is bounded by the bytes that were counted. *)
Lemma decode_loop_bound {S} (getfn : getfn_t S) fuel : ∀ value len c s,
  0 ≤ len ≤ 4 → 0 ≤ value < 128 ^ len → (Z.to_nat (5 - len) ≤ fuel)%nat →
  let '(n, v, _) := decode_loop getfn fuel value (128 ^ len) len c s in
  len < n ≤ 5 ∧ 0 ≤ v < 128 ^ (Z.min n 4).
Proof.
  induction fuel as [|fuel IH]; intros value len c s Hlen Hv Hf; [lia|]. cbn [decode_loop].
  unfold MAX_NO_OF_REMAINING_LENGTH_BYTES.
  assert (Hpow : 128 ^ (len + 1) = 128 * 128 ^ len) by (rewrite Z.pow_add_r by lia; lia).
  assert (Hmon : ∀ a, len ≤ a → 128 ^ len ≤ 128 ^ a) by (intros; apply Z.pow_le_mono_r; lia).
  destruct (Z.ltb_spec 4 (len + 1)).
  { assert (Hm := Hmon (Z.min (len + 1) 4)). lia. }
  destruct (getfn s 1) as [[rc bs] s1]. set (c1 := default c (head bs)).
  destruct (negb (rc =? 1)).
  { assert (Hm := Hmon (Z.min (len + 1) 4)). lia. }
  assert (Hc := land_127 c1).
  assert (Hnew : 0 ≤ value + Z.land c1 127 * 128 ^ len < 128 ^ (len + 1)) by nia.
  destruct (negb (Z.land c1 128 =? 0)).
  - replace (128 ^ len * 128) with (128 ^ (len + 1)) by lia.
    assert (HI := IH (value + Z.land c1 127 * 128 ^ len) (len + 1) c1 s1).
    destruct (decode_loop _ _ _ _ _ _ _) as [[n v] s2].
    destruct HI as [HI1 HI2]; [lia|done|lia|]. lia.
  - rewrite Z.min_l by lia. lia.
Qed.

Lemma decode_bound {S} (getfn : getfn_t S) s :
  let '(n, v, _) := mqtt_packet_decode getfn s in
  1 ≤ n ≤ 5 ∧ 0 ≤ v < 268435456 ∧ zlength (encode_bytes v) ≤ n.
Proof.
  assert (HB := decode_loop_bound getfn 5 0 0 0 s). unfold mqtt_packet_decode.
  change (128 ^ 0) with 1 in HB.
  destruct (decode_loop getfn 5 0 1 0 0 s) as [[n v] s']. destruct HB as [Hn Hv]; [lia..|].
  assert (Hv4 : v < 128 ^ 4) by (eapply Z.lt_le_trans; [apply Hv|apply Z.pow_le_mono_r; lia]).
  change (128 ^ 4) with 268435456 in Hv4.
  split_and!; try lia. rewrite encode_size by lia. unfold varint_size.
  assert (n = 1 ∨ n = 2 ∨ n = 3 ∨ n = 4 ∨ n = 5) as Hcases by lia.
  destruct Hcases as [-> |[-> |[-> |[-> | ->]]]];
    [change (128 ^ Z.min 1 4) with 128 in Hv|change (128 ^ Z.min 2 4) with 16384 in Hv
    |change (128 ^ Z.min 3 4) with 2097152 in Hv|clear Hv|clear Hv]; zbool; lia.
Qed.

Lemma decode_loop_sent t fuel : ∀ value mult len c (w : W),
  let '(_, _, w') := decode_loop (λ w n, mqttread w n t) fuel value mult len c w in
  sent w' = sent w.
Proof.
  induction fuel as [|fuel IH]; intros value mult len c w; [done|]. cbn [decode_loop].
  destruct (MAX_NO_OF_REMAINING_LENGTH_BYTES <? len + 1); [done|].
  assert (HR := read_spec w 1 t). destruct (mqttread w 1 t) as [[rc bs] w1].
  destruct HR as (_ & _ & _ & <-); [lia|].
  destruct (negb (rc =? 1)); [done|]. destruct (negb _); [|done]. apply IH.
Qed.

Lemma header_type_range b : 0 ≤ header_type b < 16.
Proof.
  unfold header_type, field. rewrite Z.land_ones by lia. apply Z.mod_pos_bound. lia.
Qed.

(** Storing the remaining length again. *)
Lemma runs_encode_readbuf {A} n rem_len (k : CM cstate A) (s : cstate) Q :
  0 ≤ rem_len → zlength (encode_bytes rem_len) ≤ n → 1 + n ≤ zlength s.(cl).(readbuf) →
  (∀ s', rx s s' → s'.(world) = s.(world) →
     s'.(cl).(readbuf) = take 1 s.(cl).(readbuf) ++ encode_bytes rem_len
        ++ drop (1 + length (encode_bytes rem_len)) s.(cl).(readbuf) → runs k s' Q) →
  runs ('(m, _) ← lift (mqtt_packet_encode (s.(cl).(readbuf), 1) rem_len);
        mod_cl (set_readbuf m);; k) s Q.
Proof.
  intros Hr Hn Hfit HQ. apply runs_bind.
  assert (Hb := encode_loop_bytes 5 rem_len Hr).
  eapply runs_lift.
  { rewrite encode_put by (done || (split; simpl; lia)). unfold put.
    rewrite decide_True by lia. reflexivity. }
  apply runs_bind, runs_mod_cl. apply HQ; [|done|done].
  eexists. cbn [upd cl calls world set_readbuf readbuf]. split_and!; try done.
  - rewrite !length_app, length_take, length_drop. change (Z.to_nat 1) with 1%nat. lia.
  - intros HF. unfold encode_bytes. auto using Forall_app_2, Forall_take, Forall_drop.
Qed.

(** Whatever the network delivers, [read_packet] stays inside of the receive
    buffer, keeps its length and touches nothing else of the client. *)
Lemma read_packet_safe timer (s : cstate) :
  1 ≤ zlength s.(cl).(readbuf) → s.(cl).(readbuf_size) = zlength s.(cl).(readbuf) →
  runs (read_packet timer) s (λ rc s', rx s s'
    ∧ (rc = MQTT_FAILURE ∨ rc = MQTT_READ_ERROR ∨ 0 ≤ rc < 16)).
Proof.
  intros H1 Hsz. unfold read_packet.
  apply runs_bind, runs_left_ms. intros left s1 Hw1%rx_waited.
  apply runs_bind. eapply runs_mono;
    [apply read_into_safe; [done|done|rewrite (rx_length _ _ Hw1); lia]|].
  intros rc s2 (Hr2 & _). assert (R2 := rx_trans _ _ _ Hw1 Hr2).
  apply runs_if; intros _; [apply runs_ret; auto|].
  apply runs_bind, runs_left_ms. intros left2 s3 Hw3%rx_waited.
  assert (R3 := rx_trans _ _ _ R2 Hw3).
  apply runs_bind. unfold runs at 1, decode_packet, in_world.
  assert (HB := decode_bound (λ w n, mqttread w n left2) (world s3)).
  assert (HS := decode_loop_sent left2 5 0 1 0 0 (world s3)). unfold mqtt_packet_decode in *.
  destruct (decode_loop _ 5 0 1 0 0 (world s3)) as [[n rem] w']. destruct HB as (Hn & Hrem & Henc).
  set (s4 := {| cl := cl s3; world := w'; calls := calls s3 |}).
  assert (R4 : rx s s4).
  { destruct R3 as (m & ? & ? & ? & ? & ?). exists m. cbn. by rewrite HS. }
  assert (L4 := rx_length _ _ R4). assert (Z4 := rx_size _ _ R4).
  apply runs_bind, runs_get_cl. change (cl s3) with (cl s4).
  apply runs_if; [intros _; apply runs_ret; auto|]. intros Hcond.
  apply orb_false_iff in Hcond as [_ Hcond%Z.ltb_ge].
  eapply runs_encode_readbuf; [lia|exact Henc|lia|].
  intros s5 R5' _ _. assert (R5 := rx_trans _ _ _ R4 R5').
  assert (L5 := rx_length _ _ R5).
  apply runs_bind. apply runs_mono with (P := λ _ s6, rx s s6).
  { apply runs_if; [intros Hpos%Z.ltb_lt|intros _; by apply runs_ret].
    apply runs_bind, runs_left_ms. intros left3 s6 Hw6%rx_waited.
    assert (R6 := rx_trans _ _ _ R5 Hw6). assert (L6 := rx_length _ _ R6).
    apply runs_bind. eapply runs_mono; [apply read_into_safe; lia|].
    intros rc2 s7 (Hr7 & _). apply runs_ret. by eapply rx_trans. }
  intros ok s6 R6. apply runs_if; intros _; [apply runs_ret; auto|].
  apply runs_bind, runs_get_cl. apply runs_bind.
  destruct (peek_is_Some (readbuf (cl s6)) 0) as [b Eb].
  { rewrite (rx_length _ _ R6). lia. }
  eapply runs_lift; [exact Eb|]. apply runs_ret. split; [done|]. right. right.
  apply header_type_range.
Qed.

(** The bytes that are pending are delivered one by one. *)
Lemma pending_delivers t bs : ∀ (w : W) l, bs ++ l `prefix_of` pending w →
  ∃ w', delivers (λ w n, mqttread w n t) w bs w' ∧ l `prefix_of` pending w'.
Proof.
  induction bs as [|b bs IH]; intros w l Hp; [by eauto using @delivers|].
  destruct Hp as [k Ep].
  assert (HP := read_pending w 1 t). destruct (mqttread w 1 t) as [[rc r] w1] eqn:Er.
  destruct HP as (-> & Hr & Hp1); [rewrite Ep, !length_app; simpl; lia|].
  rewrite Ep in Hr, Hp1. simpl in Hr, Hp1. subst r.
  destruct (IH w1 l) as (w' & HD & Hl).
  { etrans; [|exact Hp1]. rewrite drop_0. apply prefix_app_r. done. }
  exists w'. split; [|done]. econstructor; [exact Er|done].
Qed.

(** Room for a packet in a buffer: its header, its length, its body. *)
Lemma buffer_room (m : list Z) p q : 0 ≤ p → 0 ≤ q → 1 + p + q ≤ zlength m →
  ∃ c m1 m2 m3, m = c :: m1 ++ m2 ++ m3 ∧ zlength m1 = p ∧ zlength m2 = q.
Proof.
  intros Hp Hq Hm. destruct m as [|c m]; [simpl in Hm; lia|]. cbn [length] in Hm.
  exists c, (take (Z.to_nat p) m), (take (Z.to_nat q) (drop (Z.to_nat p) m)),
    (drop (Z.to_nat q) (drop (Z.to_nat p) m)).
  rewrite !take_drop, !length_take, length_drop. split_and!; [done|lia..].
Qed.

Lemma take_exact (k : Z) (l1 l2 : list Z) : k = zlength l1 → take (Z.to_nat k) (l1 ++ l2) = l1.
Proof. intros ->. by rewrite Nat2Z.id, take_app_length. Qed.

(** A packet that is pending is received into the buffer. *)
Lemma read_packet_frame type dup qos retain b rest timer (s : cstate) :
  header_ok type dup qos retain → Forall is_byte b → zlength b < 268435456 →
  let f := frame type dup qos retain b in
  s.(cl).(readbuf_size) = zlength s.(cl).(readbuf) → zlength f ≤ s.(cl).(readbuf_size) →
  f ++ rest `prefix_of` pending s.(world) →
  runs (read_packet timer) s (λ rc s', rx s s' ∧ rc = type
    ∧ s'.(cl).(readbuf) = f ++ drop (length f) s.(cl).(readbuf)
    ∧ rest `prefix_of` pending s'.(world)).
Proof.
  intros Hok Hb Hlb f Hsz Hf Hp.
  destruct (header_fields _ _ _ _ Hok) as (Hhb & Et & _).
  assert (Ef : f = mqtt_header type dup qos retain :: encode_bytes (zlength b) ++ b) by done.
  clearbody f. set (h := mqtt_header type dup qos retain) in *. set (n := zlength b) in *.
  set (e := encode_bytes n) in *.
  assert (He : zlength e = varint_size n) by (apply encode_size; lia).
  assert (Lf : zlength f = 1 + zlength e + n) by (rewrite Ef; cbn [length]; rewrite length_app; lia).
  unfold read_packet.
  apply runs_bind, runs_left_ms. intros left s1 (C1 & K1 & S1 & P1).
  assert (P1' : f ++ rest `prefix_of` pending (world s1)) by (by etrans).
  destruct P1' as [k P1'].
  apply runs_bind. eapply runs_mono; [apply read_into_safe; rewrite ?C1; lia|].
  intros rc s2 (R2 & _ & HR2). destruct HR2 as (-> & B2 & P2).
  { rewrite P1', !length_app. lia. }
  rewrite C1 in B2. rewrite P1', Ef in B2, P2. simpl in B2, P2. rewrite !drop_0 in P2.
  cbn [negb]. change (1 =? 1) with true. cbn [negb]. cbv iota.
  apply runs_bind, runs_left_ms. intros left2 s3 (C3 & K3 & S3 & P3).
  destruct (pending_delivers left2 e (world s3) (b ++ rest)) as (w4 & HD & P4).
  { etrans; [|exact P3]. etrans; [|exact P2].
    rewrite <- !(assoc_L (++)). apply prefix_app, prefix_app, prefix_app_r. done. }
  apply runs_bind. unfold runs at 1, decode_packet, in_world.
  rewrite (decode_encode _ _ _ n ltac:(lia) HD). fold e.
  assert (HS := decode_loop_sent left2 5 0 1 0 0 (world s3)).
  assert (HDE := decode_encode _ _ _ n ltac:(lia) HD). unfold mqtt_packet_decode in HDE.
  rewrite HDE in HS. clear HDE HD.
  set (s4 := {| cl := cl s3; world := w4; calls := calls s3 |}).
  assert (R4 : rx s s4).
  { apply (rx_trans s s3); [|exists (readbuf (cl s3)); by rewrite set_readbuf_eq].
    apply (rx_trans s s2); [|by apply rx_waited].
    apply (rx_trans s s1); [by apply rx_waited|done]. }
  assert (L4 := rx_length _ _ R4). assert (Z4 := rx_size _ _ R4).
  destruct (buffer_room (readbuf (cl s)) (zlength e) n) as (c0 & m1 & m2 & m3 & Em & L1 & L2);
    [lia..|].
  assert (B4 : readbuf (cl s4) = h :: m1 ++ m2 ++ m3).
  { cbn [s4 cl]. rewrite C3, B2, Em. done. }
  assert (1 ≤ zlength e) by (rewrite He; unfold varint_size; zbool; lia).
  apply runs_bind, runs_get_cl. change (cl s3) with (cl s4).
  rewrite (proj2 (Z.leb_gt (1 + zlength e) 1)) by lia.
  rewrite (proj2 (Z.ltb_ge _ _)) by lia. cbn [orb]. cbv iota.
  eapply (runs_encode_readbuf (zlength e)); [lia|done|lia|]. fold e.
  intros s5 R5' W5 B5. assert (R5 := rx_trans _ _ _ R4 R5').
  rewrite B4 in B5. replace (length e) with (length m1) in B5 by lia.
  cbn [Nat.add skipn firstn app] in B5. rewrite drop_app_length, take_0 in B5. cbn [app] in B5.
  assert (P5 : b ++ rest `prefix_of` pending (world s5)) by (by rewrite W5).
  apply runs_bind. apply runs_mono with (P := λ (ok : bool) s6, rx s s6 ∧ ok = true
    ∧ readbuf (cl s6) = f ++ m3 ∧ rest `prefix_of` pending (world s6)).
  { destruct (Z.ltb_spec 0 n) as [Hpos|Hzero].
    - apply runs_bind, runs_left_ms. intros left3 s6 Hw6. assert (Hw6' := Hw6).
      destruct Hw6' as (C6 & K6 & S6 & P6). apply rx_waited in Hw6.
      assert (R6 := rx_trans _ _ _ R5 Hw6). assert (L6 := rx_length _ _ R6).
      apply runs_bind. eapply runs_mono; [apply read_into_safe; lia|].
      intros rc2 s7 (Hr7 & _ & HR7). apply runs_ret.
      assert (P6' : b ++ rest `prefix_of` pending (world s6)) by (by etrans). destruct P6' as [k6 P6'].
      destruct HR7 as (-> & B7 & P7); [rewrite P6', !length_app; lia|].
      split_and!; [by eapply rx_trans|by apply Z.eqb_refl| |].
      + rewrite B7, C6, B5, P6', Ef, <- !(assoc_L (++)), take_exact by done.
        change (h :: e ++ m2 ++ m3) with ((h :: e) ++ m2 ++ m3).
        rewrite take_exact by (cbn [length]; lia).
        rewrite (assoc_L (++) (h :: e) m2 m3), (drop_exact _ ((h :: e) ++ m2)) by (rewrite length_app; cbn [length]; lia).
        cbn [app]. by rewrite <- (assoc_L (++)).
      + etrans; [|exact P7]. rewrite P6', <- (assoc_L (++)), drop_exact by done.
        apply prefix_app_r. done.
    - apply runs_ret. assert (b = []) as -> by (destruct b; [done|simpl in *; lia]).
      assert (m2 = []) as -> by (destruct m2; [done|simpl in *; lia]).
      split_and!; [done|done| |done]. rewrite B5, Ef, app_nil_r. done. }
  intros ok s6 (R6 & -> & B6 & P6). cbn [negb]. cbv iota.
  apply runs_bind, runs_get_cl, runs_bind. eapply runs_lift; [by rewrite B6, Ef|].
  apply runs_ret. split_and!; [done|done| |done]. rewrite B6, Em. f_equal.
  symmetry. rewrite <- (Nat2Z.id (length f)).
  change (c0 :: m1 ++ m2 ++ m3) with ((c0 :: m1) ++ m2 ++ m3).
  rewrite (assoc_L (++)). apply drop_exact. rewrite length_app. cbn [length]. lia.
Qed.
End Net.
