(* ===== verification/MqttSession.v ===== *)
(** MqttSession: the client's own steps over any network: keep-alive, packet
    identifiers, publishing and the handling of an incoming message. *)

From S2P Require Import Prelude CString Buffer MqttPacket MqttMessages MqttCodec MqttWire MqttClient MqttTopic MqttNet.

Section Session.
Context {W : Type} `{NetSpec W}.

Local Abbreviation cstate := (MqttClient.cstate W).

(** The send buffer is as large as the client believes. *)
Definition buf_ok (c : mqtt_client) : Prop := c.(buf_size) = zlength c.(buf).

(** What the tick counter says of a timer. *)
Definition expired_at (s : cstate) (t : Z) : bool := s32 (t - (xTaskGetTickCount s.(world)).1) <? 0.

Lemma runs_expired_at t (s : cstate) Q :
  (∀ s', waited s s' → Q (expired_at s t) s') → runs (mqtt_timer_expired t) s Q.
Proof.
  intros HQ. unfold runs, mqtt_timer_expired, expired_at in *. unfold mbind, CM_bind, in_world.
  assert (T := tick_spec s.(world)).
  destruct (xTaskGetTickCount (world s)) as [now w']. cbn in *. apply HQ.
  split_and!; naive_solver.
Qed.

(** ** Filling the send buffer and sending it *)

(** A request is serialized into the send buffer, or refused. *)
Lemma runs_into_buf r (s : cstate) Q :
  request_ok r → buf_ok s.(cl) →
  (buf_size s.(cl) < need r → Q MQTTPACKET_BUFFER_TOO_SHORT s) →
  (need r ≤ buf_size s.(cl) →
     Q (zlength (wire r)) (upd s (set_buf (wire r ++ drop (length (wire r)) s.(cl).(buf)) s.(cl)))) →
  runs (into_buf (serialize r)) s Q.
Proof.
  intros Hr Hbuf Hno Hyes. unfold into_buf. apply runs_bind, runs_get_cl, runs_bind.
  assert (E := serialize_wire r (buf (cl s)) (buf_size (cl s)) Hr ltac:(unfold buf_ok in Hbuf; lia)).
  destruct (Z.ltb_spec (buf_size (cl s)) (need r));
    (eapply runs_lift; [exact E|]); apply runs_bind, runs_mod_cl, runs_ret; [|auto].
  replace (upd s (set_buf (buf (cl s)) (cl s))) with s by (by destruct s as [[]]). auto.
Qed.

(** Outcomes of sending the packet of [r] from a buffer that holds it. *)
Definition sends (r : request) (s : cstate) (rc : Z) (s' : cstate) : Prop :=
  s'.(calls) = s.(calls) ∧ pending s.(world) `prefix_of` pending s'.(world)
  ∧ (rc = MQTT_SUCCESS ∧ (∃ t, s'.(cl) = set_ping_timer t s.(cl))
       ∧ sent s'.(world) = sent s.(world) ++ wire r
     ∨ rc = MQTT_FAILURE ∧ s'.(cl) = s.(cl)
       ∧ ∃ p, p `prefix_of` wire r ∧ p ≠ wire r ∧ sent s'.(world) = sent s.(world) ++ p).

Lemma send_wire r rest fuel timer (s : cstate) :
  s.(cl).(buf) = wire r ++ rest → (length (wire r) ≤ fuel)%nat →
  runs (send_packet fuel (zlength (wire r)) timer) s (sends r s).
Proof.
  intros Eb Hf. eapply runs_mono; [apply send_packet_spec; [rewrite Eb, length_app; lia|lia]|].
  intros rc s' (E1 & E2 & E3). split_and!; [done..|]. rewrite Eb in E3. unfold sub_list in E3.
  rewrite drop_0, take_exact in E3 by done.
  destruct E3 as [E3|(-> & Ec & n & Hn & Es)]; [by left|]. right. split_and!; [done..|].
  rewrite Es, take_app_le by lia.
  exists (take (Z.to_nat n) (wire r)). split_and!; [apply prefix_take| |done].
  intros E. apply (f_equal length) in E. rewrite length_take in E. lia.
Qed.

(** ** Keep-alive *)

Definition pingreq : request := Zero MQTTPACKET_PINGREQ.

Lemma pingreq_ok : request_ok pingreq.
Proof. split; [simpl; lia|]. cbn. unfold MQTTPACKET_PINGREQ. lia. Qed.

Lemma runs_rearm (s : cstate) Q :
  (∀ t s', waited s s' → Q () (upd s' (set_ping_timer t s.(cl)))) → runs rearm_ping s Q.
Proof.
  intros HQ. apply runs_bind, runs_get_cl, runs_bind, runs_countdown_ms. intros t s' Hw.
  apply runs_mod_cl. destruct Hw as (E & ?). rewrite E. apply HQ. by split.
Qed.

(** The expired ping timer when no answer is outstanding: a PINGREQ goes out,
    if the buffer has room for it and the network takes it. *)
Lemma keepalive_pings fuel (s : cstate) :
  buf_ok s.(cl) → (2 ≤ fuel)%nat → s.(cl).(keepAlive) ≠ 0 →
  expired_at s s.(cl).(ping_timer) = true → s.(cl).(ping_outstanding) = 0 →
  runs (keepalive fuel) s (λ rc s', rc = MQTT_SUCCESS
    ∧ (∃ t m, s'.(cl) = set_ping_timer t (set_buf m (set_ping 1 s.(cl).(fail_count) s.(cl)))
              ∧ length m = length s.(cl).(buf))
    ∧ s'.(calls) = s.(calls) ∧ pending s.(world) `prefix_of` pending s'.(world)
    ∧ ∃ p, p `prefix_of` wire pingreq ∧ sent s'.(world) = sent s.(world) ++ p).
Proof.
  intros Hbuf Hf Hka Hexp Hpo. unfold keepalive. apply runs_bind, runs_get_cl.
  rewrite (proj2 (Z.eqb_neq _ _) Hka). apply runs_bind, runs_expired_at. intros s1 W1.
  rewrite Hexp, Hpo. change (negb (0 =? 0)) with false. cbv iota.
  apply runs_bind, runs_countdown_ms. intros t1 s2 W2.
  destruct (waited_trans _ _ _ W1 W2) as (C2 & K2 & S2 & P2).
  apply runs_bind, runs_mod_cl. cbn [upd cl]. rewrite C2.
  set (s3 := upd s2 (set_ping 1 (fail_count (cl s)) (cl s))).
  assert (Hser := serialize_wire pingreq (buf (cl s)) (buf_size (cl s)) pingreq_ok).
  unfold buf_ok in Hbuf. rewrite Hbuf in Hser at 1. specialize (Hser ltac:(lia)).
  change (serialize pingreq (buf (cl s)) (buf_size (cl s)))
    with (mqtt_serialize_pingreq (buf (cl s)) (buf_size (cl s))) in Hser.
  apply runs_bind. change (need pingreq) with 2 in *.
  destruct (Z.ltb_spec (buf_size (cl s)) 2) as [Hshort|Hroom];
    (eapply runs_lift; [exact Hser|]).
  - apply runs_bind, runs_mod_cl. cbn [Z.ltb Z.compare MQTTPACKET_BUFFER_TOO_SHORT].
    apply runs_bind, runs_ret, runs_bind, runs_rearm. intros t s4 (C4 & K4 & S4 & P4).
    apply runs_ret. cbn in *. split_and!; [done|eexists _, _; split; done|congruence|by etrans|].
    exists []. split; [apply prefix_nil|]. rewrite app_nil_r. congruence.
  - apply runs_bind, runs_mod_cl.
    set (s4 := upd s3 _).
    apply runs_bind. apply runs_mono with (P := sends pingreq s4).
    { apply (send_wire pingreq (drop 2 (buf (cl s))) fuel t1 s4); done. }
    intros rc s5 (K5 & P5 & H5). apply runs_bind, runs_rearm.
    intros t s6 (C6 & K6 & S6 & P6). apply runs_ret. cbn [upd cl calls world].
    assert (HL : length (wire pingreq ++ drop (length (wire pingreq)) (buf (cl s))) = length (buf (cl s))).
    { rewrite length_app, length_drop. change (length (wire pingreq)) with 2%nat. lia. }
    split_and!.
    + done.
    + exists t, (wire pingreq ++ drop (length (wire pingreq)) (buf (cl s))). split; [|done].
      destruct H5 as [(_ & [t' ->] & _)|(_ & -> & _)]; done.
    + rewrite K6, K5. exact K2.
    + etrans; [exact P2|]. etrans; [exact P5|done].
    + rewrite S6. cbn in S2. destruct H5 as [(_ & _ & ->)|(_ & _ & p & Hp & _ & ->)].
      * exists (wire pingreq). split; [done|]. cbn. by rewrite S2.
      * exists p. split; [done|]. cbn. by rewrite S2.
Qed.

(** The expired ping timer while an answer is outstanding. *)
Lemma keepalive_counts fuel (s : cstate) :
  s.(cl).(keepAlive) ≠ 0 → expired_at s s.(cl).(ping_timer) = true →
  s.(cl).(ping_outstanding) ≠ 0 →
  runs (keepalive fuel) s (λ rc s',
    s'.(calls) = s.(calls) ∧ sent s'.(world) = sent s.(world)
    ∧ pending s.(world) `prefix_of` pending s'.(world)
    ∧ let fails := s.(cl).(fail_count) + 1 in
      (MQTT_MAX_FAIL_ALLOWED ≤ fails ∧ rc = MQTT_DISCONNECTED
         ∧ s'.(cl) = set_ping s.(cl).(ping_outstanding) fails s.(cl)
       ∨ fails < MQTT_MAX_FAIL_ALLOWED ∧ rc = MQTT_SUCCESS
         ∧ ∃ t, s'.(cl) = set_ping_timer t (set_ping s.(cl).(ping_outstanding) fails s.(cl)))).
Proof.
  intros Hka Hexp Hpo. unfold keepalive. apply runs_bind, runs_get_cl.
  rewrite (proj2 (Z.eqb_neq _ _) Hka). apply runs_bind, runs_expired_at. intros s1 (C1 & K1 & S1 & P1).
  rewrite Hexp, (proj2 (Z.eqb_neq _ _) Hpo). cbn [negb]. cbv iota.
  apply runs_bind, runs_mod_cl. apply runs_if; intros Hf.
  - apply Z.leb_le in Hf. apply runs_ret. cbn. rewrite C1. naive_solver.
  - apply Z.leb_gt in Hf. apply runs_bind, runs_rearm. intros t s2 (C2 & K2 & S2 & P2).
    apply runs_ret. cbn in *. rewrite C1. split_and!; [congruence|congruence|by etrans|].
    right. split_and!; [done..|]. by exists t.
Qed.

Lemma keepalive_idle fuel (s : cstate) :
  s.(cl).(keepAlive) = 0 ∨ expired_at s s.(cl).(ping_timer) = false →
  runs (keepalive fuel) s (λ rc s', rc = MQTT_SUCCESS ∧ waited s s').
Proof.
  intros Hidle. unfold keepalive. apply runs_bind, runs_get_cl.
  destruct (Z.eqb_spec (keepAlive (cl s)) 0); [apply runs_ret; auto using waited_refl|].
  apply runs_bind, runs_expired_at. intros s1 W1. destruct Hidle as [?| ->]; [done|].
  by apply runs_ret.
Qed.

(** In every case: the answers, and what is kept. *)
Definition quiet (s s' : cstate) : Prop :=
  s'.(calls) = s.(calls) ∧ sent s.(world) `prefix_of` sent s'.(world)
  ∧ pending s.(world) `prefix_of` pending s'.(world)
  ∧ s'.(cl).(messageHandlers) = s.(cl).(messageHandlers)
  ∧ s'.(cl).(isconnected) = s.(cl).(isconnected).

Lemma keepalive_quiet fuel (s : cstate) : buf_ok s.(cl) → (2 ≤ fuel)%nat →
  runs (keepalive fuel) s (λ rc s',
    quiet s s' ∧ (rc = MQTT_SUCCESS ∨ rc = MQTT_DISCONNECTED)).
Proof.
  intros Hbuf Hf. unfold quiet.
  destruct (decide (s.(cl).(keepAlive) = 0)) as [Hka|Hka].
  { eapply runs_mono; [by apply keepalive_idle; left|].
    intros rc s' (-> & C & K & S & P). rewrite C, K, S. naive_solver. }
  destruct (expired_at s s.(cl).(ping_timer)) eqn:Hexp.
  2:{ eapply runs_mono; [by apply keepalive_idle; right|].
      intros rc s' (-> & C & K & S & P). rewrite C, K, S. naive_solver. }
  destruct (decide (s.(cl).(ping_outstanding) = 0)).
  - eapply runs_mono; [by apply keepalive_pings|].
    intros rc s' (-> & (t & m & C & _) & K & P & p & _ & S). rewrite C, K, S. cbn.
    split_and!; try done; [by apply prefix_app_r|by left].
  - eapply runs_mono; [by apply keepalive_counts|].
    intros rc s' (K & S & P & [(_ & -> & C)|(_ & -> & t & C)]); rewrite C, K, S; cbn; naive_solver.
Qed.

(** ** An incoming message *)

(** The answer to a message by its QoS. *)
Definition answer (qos packetid : Z) : option request :=
  if qos =? MQTT_QOS1 then Some (Ack MQTTPACKET_PUBACK 0 packetid)
  else if qos =? MQTT_QOS2 then Some (Ack MQTTPACKET_PUBREC 0 packetid)
  else None.

(** Who gets a message: the subscribers, or the default handler if none. *)
Definition addressees (es : list (option subscription)) (d : option handler_t) (ns : list (list Z))
    : list handler_t :=
  match receivers es ns, d with
  | [], Some f => [f]
  | rs, _ => rs
  end.

(** A handler call that carries the message. *)
Definition carries (topic payload : list Z) (q : Z) (d : delivery) : Prop :=
  chars d.(d_topic) = topic ∧ d.(d_message).(qos) = q
  ∧ d.(d_message).(payloadlen) = zlength payload
  ∧ take (length payload) (default [] d.(d_message).(MqttClient.payload)) = payload.

Lemma deliver_message_spec es ns rest msg (s : cstate) :
  s.(cl).(messageHandlers) = entry_of <$> es → Forall sub_ok es →
  Forall name_level ns → ns ≠ [] →
  let name := str_at (join ns ++ rest) (zlength (join ns)) in
  runs (deliver_message name msg) s (λ _ s',
    s' = {| cl := s.(cl); world := s.(world);
            calls := s.(calls) ++ ((λ f, {| to := f; d_topic := name; d_message := msg |})
                       <$> addressees es s.(cl).(defaultMessageHandler) ns) |}).
Proof.
  intros Hh Hes Hns Hne name. unfold deliver_message. apply runs_bind, runs_get_cl, runs_bind.
  eapply runs_lift; [rewrite Hh; by apply deliver_loop_receivers|].
  unfold addressees. destruct (receivers es ns) as [|f fs].
  - destruct (defaultMessageHandler (cl s)); unfold runs, mbind, CM_bind, call; cbn; by rewrite ?app_nil_r.
  - destruct (defaultMessageHandler (cl s)); done.
Qed.

(** The acknowledgement of a message. *)
Lemma cycle_ack_spec q pid r fuel timer (s : cstate) :
  answer q pid = Some r → is_u16 pid → buf_ok s.(cl) → 4 ≤ s.(cl).(buf_size) → (4 ≤ fuel)%nat →
  runs (cycle_ack fuel q pid timer) s (λ rc s', ∃ m,
    length m = length s.(cl).(buf) ∧ sends r (upd s (set_buf m s.(cl))) rc s').
Proof.
  intros Ha Hp Hbuf Hb4 Hf. unfold cycle_ack. apply runs_bind, runs_get_cl, runs_bind.
  assert (Hr : ∃ ty, r = Ack ty 0 pid ∧ request_ok r
    ∧ (if q =? MQTT_QOS1 then mqtt_serialize_ack (buf (cl s)) (buf_size (cl s)) MQTTPACKET_PUBACK 0 pid
       else if q =? MQTT_QOS2 then mqtt_serialize_ack (buf (cl s)) (buf_size (cl s)) MQTTPACKET_PUBREC 0 pid
       else Some (0, buf (cl s))) = serialize r (buf (cl s)) (buf_size (cl s))).
  { unfold answer in Ha. destruct (q =? MQTT_QOS1); [|destruct (q =? MQTT_QOS2); [|done]];
      injection Ha as <-; eexists; (split; [reflexivity|]);
      (split; [|reflexivity]); split; [simpl; lia| |simpl; lia|];
      unfold MQTTPACKET_PUBACK, MQTTPACKET_PUBREC; split_and!; (done || lia). }
  destruct Hr as (ty & -> & Hok & ->). set (r := Ack ty 0 pid) in *.
  assert (Hser := serialize_wire r (buf (cl s)) (buf_size (cl s)) Hok ltac:(unfold buf_ok in Hbuf; lia)).
  change (need r) with 4 in Hser. rewrite (proj2 (Z.ltb_ge _ _) Hb4) in Hser.
  eapply runs_lift; [exact Hser|]. apply runs_bind, runs_mod_cl.
  change (zlength (wire r)) with 4. cbn [Z.leb Z.compare]. cbv iota.
  eapply runs_mono; [apply (send_wire r (drop 4 (buf (cl s)))); done|].
  intros rc s' HS. eexists. split; [|exact HS].
  rewrite length_app, length_drop. unfold buf_ok in Hbuf. change (length (wire r)) with 4%nat. lia.
Qed.

(** After the switch: keep-alive, and the value of [cycle]. *)
Lemma cycle_tail fuel packet_type (s : cstate) :
  buf_ok s.(cl) → (2 ≤ fuel)%nat → s.(cl).(isconnected) = true →
  runs (rc ← (c ← get_cl; if c.(isconnected) then keepalive fuel else mret MQTT_SUCCESS);
        mret (if rc =? MQTT_SUCCESS then packet_type else rc)) s
    (λ rc s', quiet s s' ∧ (rc = packet_type ∨ rc = MQTT_DISCONNECTED)).
Proof.
  intros Hbuf Hf Hcon. apply runs_bind, runs_bind, runs_get_cl. rewrite Hcon.
  eapply runs_mono; [by apply keepalive_quiet|]. intros rc s' (HQ & [-> | ->]); apply runs_ret.
  - split; [done|by left].
  - split; [done|by right].
Qed.

(** The outcome of [cycle] on a message for [ns]: the handlers are called, and
    the answer goes out, or the call fails with a part of it sent. *)
Definition handled (es : list (option subscription)) (ns : list (list Z)) (payload : list Z)
    (q packetid : Z) (rest : list Z) (s : cstate) (rc : Z) (s' : cstate) : Prop :=
  (∃ ds, s'.(calls) = s.(calls) ++ ds
     ∧ to <$> ds = addressees es s.(cl).(defaultMessageHandler) ns
     ∧ Forall (carries (join ns) payload q) ds)
  ∧ rest `prefix_of` pending s'.(world)
  ∧ s'.(cl).(messageHandlers) = s.(cl).(messageHandlers)
  ∧ let reply := default [] (wire <$> answer q packetid) in
    ((rc = MQTTPACKET_PUBLISH ∨ rc = MQTT_DISCONNECTED)
       ∧ sent s.(world) ++ reply `prefix_of` sent s'.(world)
     ∨ rc = MQTT_FAILURE ∧ ∃ p, p `prefix_of` reply ∧ p ≠ reply
       ∧ sent s'.(world) = sent s.(world) ++ p).

Lemma handled_calls es d ns payload q name msg : chars name = join ns →
  carries (join ns) payload q {| to := 0; d_topic := name; d_message := msg |} →
  let ds := (λ f, {| to := f; d_topic := name; d_message := msg |}) <$> addressees es d ns in
  to <$> ds = addressees es d ns ∧ Forall (carries (join ns) payload q) ds.
Proof.
  intros Hname Hc. cbv zeta. split.
  - induction (addressees es d ns) as [|f fs IH]; [done|]. csimpl. by f_equal.
  - apply Forall_fmap. induction (addressees es d ns); constructor; done.
Qed.

Lemma answer_none q pid : 0 ≤ q < 3 → q = 0 ∨ ∃ ty, answer q pid = Some (Ack ty 0 pid).
Proof.
  intros. assert (q = 0 ∨ q = 1 ∨ q = 2) as [->|[-> | ->]] by lia; [by left|..];
    right; by eexists.
Qed.

Lemma cycle_publish_spec es ns payload dup q ret pid topic rest stack fuel timer (s : cstate) :
  let r := Publish dup q ret pid topic payload in
  request_ok r → Forall is_byte (body r) → chars topic = join ns →
  Forall name_level ns → ns ≠ [] →
  s.(cl).(messageHandlers) = entry_of <$> es → Forall sub_ok es →
  s.(cl).(readbuf_size) = zlength s.(cl).(readbuf) → zlength (wire r) ≤ s.(cl).(readbuf_size) →
  buf_ok s.(cl) → 4 ≤ s.(cl).(buf_size) → (4 ≤ fuel)%nat → s.(cl).(isconnected) = true →
  wire r ++ rest `prefix_of` pending s.(world) →
  runs (cycle stack fuel timer) s (handled es ns payload q pid rest s).
Proof.
  intros r Hr Hbytes Htopic Hns Hne Hh Hes Hsz Hfit Hbuf Hb4 Hf Hcon Hp.
  assert (Hr' := Hr). destruct Hr' as [Hbl (Hd & Hq & Hret & Hpid & Hstr)].
  unfold cycle. apply runs_bind. eapply runs_mono.
  { apply (read_packet_frame MQTTPACKET_PUBLISH dup q ret (body r) rest); try done.
    split; unfold MQTTPACKET_PUBLISH; lia. }
  intros ty s1 ((m1 & C1 & L1 & _ & K1 & S1) & -> & B1 & P1).
  apply runs_bind. unfold cycle_switch. rewrite Z.eqb_refl.
  unfold cycle_publish. apply runs_bind, runs_get_cl, runs_bind. rewrite B1.
  change (frame MQTTPACKET_PUBLISH dup q ret (body r)) with (wire r).
  eapply runs_lift; [by apply deserialize_publish_wire|].
  change (negb (1 =? 1)) with false. cbv iota. unfold publish_result.
  cbn [po_qos po_retained po_dup po_packetid po_payload po_payloadlen po_topicName].
  set (msg := Build_mqtt_message_t _ _ _ _ _ _). rewrite Htopic.
  apply runs_bind. eapply runs_mono.
  { apply deliver_message_spec; [rewrite C1; exact Hh|done..]. }
  intros _ s2 ->. rewrite C1. cbn [set_readbuf defaultMessageHandler]. rewrite K1.
  set (name := str_at _ _). set (ds := _ <$> addressees _ _ _).
  destruct (handled_calls es (defaultMessageHandler (cl s)) ns payload q name msg) as [Hto Hcar].
  { unfold chars, name, str_at. cbn -[Z.of_nat]. by rewrite take_exact. }
  { unfold carries, name, msg, chars, str_at. cbn -[Z.of_nat].
    rewrite take_exact by done. by rewrite take_app_length. }
  fold ds in Hto, Hcar. cbn [qos msg]. fold msg.
  set (s2 := Build_cstate _ _ _).
  destruct (Z.eqb_spec q MQTT_QOS0) as [Eq|Eq]; cbn [negb]; cbv iota.
  - apply runs_ret. eapply runs_mono; [apply cycle_tail; [done|lia|done]|].
    intros rc s3 ((K3 & S3 & P3 & H3 & _) & Hrc). unfold handled.
    split; [exists ds; by rewrite K3|]. split; [by etrans|]. split; [by rewrite H3|].
    left. split; [done|]. unfold answer. rewrite Eq. cbn [MQTT_QOS0 MQTT_QOS1 MQTT_QOS2].
    change (0 =? MQTT_QOS1) with false. change (0 =? MQTT_QOS2) with false. cbn.
    rewrite app_nil_r. cbn in S3. by rewrite S1 in S3.
  - destruct (answer_none q pid Hq) as [?|[ty Ha]]; [done|].
    assert (Eid : id msg = pid).
    { unfold msg. cbn [id]. destruct (Z.ltb_spec 0 q); [|unfold MQTT_QOS0 in Eq; lia].
      by apply u16_small. }
    rewrite Eid. apply runs_bind. eapply runs_mono; [by apply (cycle_ack_spec q pid _ fuel timer s2 Ha)|].
    intros rc s3 (m & Lm & K3 & P3 & H3). apply runs_ret. cbn in K3, P3, H3. rewrite S1 in H3.
    unfold handled. rewrite Ha. cbn [fmap option_fmap option_map default]. cbv zeta.
    destruct H3 as [(-> & [t C3] & S3)|(-> & C3 & p & Hpre & Hpne & S3)].
    + change (MQTT_SUCCESS =? MQTT_FAILURE) with false. cbv iota.
      eapply runs_mono; [apply cycle_tail; [rewrite C3|lia|by rewrite C3]|].
      { unfold buf_ok. cbn. by rewrite Lm. }
      intros rc s4 ((K4 & S4 & P4 & H4 & _) & Hrc).
      split; [exists ds; by rewrite K4, K3|].
      split; [etrans; [exact P1|]; by etrans|]. split; [by rewrite H4, C3|].
      left. split; [done|]. rewrite S3 in S4. exact S4.
    + change (MQTT_FAILURE =? MQTT_FAILURE) with true. cbv iota.
      apply runs_bind, runs_ret, runs_ret. change (MQTT_FAILURE =? MQTT_SUCCESS) with false. cbv iota.
      split; [exists ds; by rewrite K3|]. split; [by etrans|]. split; [by rewrite C3|].
      right. split; [done|]. by exists p.
Qed.

(** ** Publishing at QoS 0 *)

Definition publish_request (topic : list Z) (msg : mqtt_message_t) : request :=
  Publish 0 msg.(qos) msg.(msg_retained) msg.(id) (cstr_topic topic)
    (default [] msg.(MqttClient.payload)).

(** The three outcomes: the packet does not fit, it went out, or a part of it. *)
Lemma publish_qos0 topic msg stack fuel (s : cstate) :
  let r := publish_request topic msg in
  request_ok r → msg.(qos) = MQTT_QOS0 →
  msg.(payloadlen) = zlength (default [] msg.(MqttClient.payload)) →
  buf_ok s.(cl) → s.(cl).(isconnected) = true → (length (wire r) ≤ fuel)%nat →
  runs (mqtt_publish stack fuel topic msg) s (λ res s', res.2 = msg ∧ s'.(calls) = s.(calls)
    ∧ (if s.(cl).(buf_size) <? need r
       then res.1 = MQTT_FAILURE ∧ sent s'.(world) = sent s.(world)
       else res.1 = MQTT_SUCCESS ∧ sent s'.(world) = sent s.(world) ++ wire r
            ∨ res.1 = MQTT_FAILURE ∧ ∃ p, p `prefix_of` wire r ∧ p ≠ wire r
               ∧ sent s'.(world) = sent s.(world) ++ p)).
Proof.
  intros r Hr Hq Hpl Hbuf Hcon Hf. unfold mqtt_publish.
  apply runs_bind, runs_get_cl, runs_bind, runs_countdown_ms. intros timer s1 (C1 & K1 & S1 & P1).
  rewrite Hcon. cbn [negb]. cbv iota.
  replace ((qos msg =? MQTT_QOS1) || (qos msg =? MQTT_QOS2)) with false by (by rewrite Hq).
  apply runs_bind, runs_ret, runs_bind. rewrite Hpl.
  assert (Hw1 : zlength (wire r) > 0) by (cbn [wire r publish_request frame length]; lia).
  apply (runs_into_buf r); [done|by rewrite C1|..]; rewrite C1; intros Hneed.
  - rewrite (proj2 (Z.ltb_lt _ _) Hneed). cbn [MQTTPACKET_BUFFER_TOO_SHORT Z.leb Z.compare].
    apply runs_ret. done.
  - rewrite (proj2 (Z.ltb_ge _ _) Hneed), (proj2 (Z.leb_gt _ 0)) by lia.
    apply runs_bind. eapply runs_mono; [by apply (send_wire r (drop (length (wire r)) (buf (cl s))))|].
    intros rc s2 (K2 & P2 & H2). cbn in K2, H2. rewrite S1 in H2. rewrite K1 in K2.
    destruct H2 as [(-> & _ & S2)|(-> & _ & p & Hp & Hne & S2)].
    + change (negb (MQTT_SUCCESS =? MQTT_SUCCESS)) with false. cbv iota.
      replace (qos msg =? MQTT_QOS1) with false by (by rewrite Hq).
      replace (qos msg =? MQTT_QOS2) with false by (by rewrite Hq).
      apply runs_bind, runs_ret, runs_ret. split_and!; [done..|]. left. done.
    + change (negb (MQTT_FAILURE =? MQTT_SUCCESS)) with true. cbv iota.
      apply runs_ret. split_and!; [done..|]. right. split; [done|]. by exists p.
Qed.

(** ** Packet identifiers *)

(** The identifiers of the next [k] requests. *)
Fixpoint next_ids (k : nat) : CM cstate (list Z) :=
  match k with
  | O => mret []
  | S k' => v ← get_next_packet_id; vs ← next_ids k'; mret (v :: vs)
  end.

(** The [n]-th identifier, counted from 1, and the counter before any. *)
Definition nth_id (n : Z) : Z := if n =? 0 then 0 else (n - 1) `mod` 65535 + 1.

Lemma nth_id_succ n : 0 ≤ n →
  (if nth_id n =? MQTT_MAX_PACKET_ID then 1 else u32 (nth_id n + 1)) = nth_id (n + 1).
Proof. intros. unfold nth_id, MQTT_MAX_PACKET_ID. zbool; zsolve. Qed.

Lemma next_ids_spec k : ∀ n (s : cstate), 0 ≤ n → s.(cl).(next_packetid) = nth_id n →
  runs (next_ids k) s (λ ids s', ids = nth_id <$> seqZ (n + 1) (Z.of_nat k)).
Proof.
  induction k as [|k IH]; intros n s Hn0 Hn; [done|]. cbn [next_ids].
  apply runs_bind. unfold get_next_packet_id.
  apply runs_bind, runs_get_cl, runs_bind, runs_mod_cl, runs_ret. rewrite Hn, nth_id_succ by done.
  apply runs_bind. eapply runs_mono; [apply (IH (n + 1)); [lia|done]|]. intros ids s' ->.
  apply runs_ret. rewrite (seqZ_cons (n + 1)) by lia. csimpl. do 3 f_equal; lia.
Qed.
End Session.
