(* ===== verification/MqttEsp.v ===== *)
(** MqttEsp: the network of the MQTT client over lwIP sockets.

    Models mqtt_esp_read, mqtt_esp_write and the connection routines of
    extras/paho_mqtt_c/MQTTESP8266.c over the socket calls they make
    ([SocketOps]), and shows that over sockets that keep their promise
    ([SocketSpec]) they are a network the client can rely on ([NetSpec]). *)

From S2P Require Import Prelude CString Buffer MqttPacket MqttMessages MqttCodec MqttWire MqttClient MqttNet.

(** An address of the resolver, and the calls of the socket interface.
    [select w sock wr t] waits for [sock] to be readable or writable ([wr]) and
    returns its value and whether the descriptor is set. *)
Class SocketOps (W : Type) := {
  sk_tick : W → Z * W;
  select : W → Z → bool → Z → Z * bool * W;
  recv : W → Z → Z → Z * list Z * W;
  send : W → Z → list Z → Z * W;
  getaddrinfo : W → list Z → Z * list Z * W;
  socket : W → Z * W;
  connect : W → Z → Z → Z → Z * W;
  close : W → Z → W;
}.

(** mqtt_network_t, its function pointers aside, with the stack it runs on. *)
Record mqtt_network_t (W : Type) := { my_socket : Z; stack : W }.
Arguments my_socket {W}.
Arguments stack {W}.

Section Esp.
Context {W : Type} `{!SocketOps W}.

Definition with_stack (n : mqtt_network_t W) (w : W) : mqtt_network_t W :=
  {| my_socket := n.(my_socket); stack := w |}.

Definition mqtt_esp_read (n : mqtt_network_t W) (len timeout_ms : Z)
    : Z * list Z * mqtt_network_t W :=
  let '(rc, set, w) := select n.(stack) n.(my_socket) false (Z.quot timeout_ms portTICK_PERIOD_MS) in
  if (0 <? rc) && set then
    let '(rcvd, bs, w) := recv w n.(my_socket) len in (rcvd, bs, with_stack n w)
  else (-1, [], with_stack n w).

Definition mqtt_esp_write (n : mqtt_network_t W) (buffer : list Z) (timeout_ms : Z)
    : Z * mqtt_network_t W :=
  let '(rc, set, w) := select n.(stack) n.(my_socket) true (Z.quot timeout_ms portTICK_PERIOD_MS) in
  if (0 <? rc) && set then
    let '(rc, w) := send w n.(my_socket) buffer in (rc, with_stack n w)
  else (-1, with_stack n w).

Definition mqtt_network_new (n : mqtt_network_t W) : mqtt_network_t W :=
  {| my_socket := -1; stack := n.(stack) |}.

(** The returned value and the address: the loop keeps the last one. *)
Definition host2addr (w : W) (hostname : list Z) (addr : Z) : Z * Z * W :=
  let '(rv, servinfo, w) := getaddrinfo w hostname in
  if negb (rv =? 0) then (rv, addr, w)
  else (0, default addr (last servinfo), w).

Definition mqtt_network_connect (n : mqtt_network_t W) (host : list Z) (port addr0 : Z)
    : Z * mqtt_network_t W :=
  let '(rv, addr, w) := host2addr n.(stack) host addr0 in
  if negb (rv =? 0) then (-1, with_stack n w) else
  let '(sock, w) := socket w in
  let n := {| my_socket := sock; stack := w |} in
  if sock <? 0 then (-1, n) else
  let '(ret, w) := connect w sock addr port in
  if ret <? 0 then (ret, with_stack n (close w sock)) else (ret, with_stack n w).

Definition mqtt_network_disconnect (n : mqtt_network_t W) : Z * mqtt_network_t W :=
  (0, {| my_socket := -1; stack := close n.(stack) n.(my_socket) |}).

#[global] Instance esp_net : NetOps (mqtt_network_t W) := {
  xTaskGetTickCount := λ n, let '(t, w) := sk_tick n.(stack) in (t, with_stack n w);
  mqttread := mqtt_esp_read;
  mqttwrite := mqtt_esp_write;
}.
End Esp.

(** ** The promise of the sockets

    [sk_pending w] and [sk_sent w] are the stream of the connected socket.
    [select] only waits; it reports a socket with pending bytes as readable.
    [recv] and [send] behave as documented: a count or a negative value. *)
Class SocketSpec (W : Type) `{!SocketOps W} := {
  sk_pending : W → list Z;
  sk_sent : W → list Z;
  sk_tick_spec w : let '(_, w') := sk_tick w in
    sk_pending w `prefix_of` sk_pending w' ∧ sk_sent w' = sk_sent w;
  select_spec w sock wr t : let '(_, _, w') := select w sock wr t in
    sk_pending w `prefix_of` sk_pending w' ∧ sk_sent w' = sk_sent w;
  select_ready w sock t : sk_pending w ≠ [] → let '(rc, set, _) := select w sock false t in
    0 < rc ∧ set = true;
  recv_spec w sock n : 0 ≤ n → let '(rc, bs, w') := recv w sock n in
    zlength bs ≤ n ∧ Forall is_byte bs ∧ (rc < 0 ∨ rc = zlength bs) ∧ sk_sent w' = sk_sent w;
  recv_pending w sock n : 0 < n ≤ zlength (sk_pending w) → let '(rc, bs, w') := recv w sock n in
    rc = n ∧ bs = take (Z.to_nat n) (sk_pending w)
    ∧ drop (Z.to_nat n) (sk_pending w) `prefix_of` sk_pending w';
  send_spec w sock bs : bs ≠ [] → let '(rc, w') := send w sock bs in
    rc ≠ 0 ∧ rc ≤ zlength bs ∧ sk_sent w' = sk_sent w ++ take (Z.to_nat rc) bs
    ∧ sk_pending w `prefix_of` sk_pending w';
}.

Section EspSpec.
Context {W : Type} `{SocketSpec W}.

Lemma esp_read_spec (n : mqtt_network_t W) len t : 0 ≤ len →
  let '(rc, bs, n') := mqtt_esp_read n len t in
  zlength bs ≤ len ∧ Forall is_byte bs ∧ (rc < 0 ∨ rc = zlength bs)
  ∧ sk_sent n'.(stack) = sk_sent n.(stack).
Proof.
  intros Hl. unfold mqtt_esp_read.
  assert (HS := select_spec (stack n) (my_socket n) false (Z.quot t portTICK_PERIOD_MS)).
  destruct (select _ _ _ _) as [[rc set] w]. destruct HS as [_ HS].
  destruct ((0 <? rc) && set).
  - assert (HR := recv_spec w (my_socket n) len Hl).
    destruct (recv w (my_socket n) len) as [[rcvd bs] w']. cbn. by rewrite <- HS.
  - cbn. split_and!; [done|constructor|by left|done].
Qed.

Lemma esp_read_pending (n : mqtt_network_t W) len t : 0 < len ≤ zlength (sk_pending n.(stack)) →
  let '(rc, bs, n') := mqtt_esp_read n len t in
  rc = len ∧ bs = take (Z.to_nat len) (sk_pending n.(stack))
  ∧ drop (Z.to_nat len) (sk_pending n.(stack)) `prefix_of` sk_pending n'.(stack).
Proof.
  intros Hl. unfold mqtt_esp_read.
  assert (HS := select_spec (stack n) (my_socket n) false (Z.quot t portTICK_PERIOD_MS)).
  assert (HY := select_ready (stack n) (my_socket n) (Z.quot t portTICK_PERIOD_MS)).
  destruct (select _ _ _ _) as [[rc set] w]. destruct HS as [[k Hk] _].
  destruct HY as [Hrc ->]; [intros E; rewrite E in Hl; simpl in Hl; lia|].
  rewrite (proj2 (Z.ltb_lt _ _) Hrc). cbn [andb].
  assert (HR := recv_pending w (my_socket n) len).
  destruct (recv w (my_socket n) len) as [[rcvd bs] w'].
  destruct HR as (-> & -> & HR); [rewrite Hk, length_app; lia|]. cbn.
  rewrite Hk, take_app_le by lia. split_and!; [done..|].
  etrans; [|exact HR]. rewrite Hk, drop_app_le by lia. by apply prefix_app_r.
Qed.

Lemma esp_write_spec (n : mqtt_network_t W) bs t : bs ≠ [] →
  let '(rc, n') := mqtt_esp_write n bs t in
  rc ≠ 0 ∧ rc ≤ zlength bs
  ∧ sk_sent n'.(stack) = sk_sent n.(stack) ++ take (Z.to_nat rc) bs
  ∧ sk_pending n.(stack) `prefix_of` sk_pending n'.(stack).
Proof.
  intros Hb. unfold mqtt_esp_write.
  assert (HS := select_spec (stack n) (my_socket n) true (Z.quot t portTICK_PERIOD_MS)).
  destruct (select _ _ _ _) as [[rc set] w]. destruct HS as [HP HS].
  destruct ((0 <? rc) && set).
  - assert (HW := send_spec w (my_socket n) bs Hb).
    destruct (send w (my_socket n) bs) as [rc' w']. destruct HW as (H1 & H2 & H3 & H4). cbn.
    rewrite <- HS. split_and!; [done..|by etrans].
  - cbn. rewrite app_nil_r. split_and!; [done|lia|done|done].
Qed.

(** The sockets discharge the client's interface. *)
#[global] Program Instance esp_net_spec : NetSpec (mqtt_network_t W) := {
  pending := λ n, sk_pending n.(stack);
  sent := λ n, sk_sent n.(stack);
}.
Next Obligation.
  intros n. cbn. assert (T := sk_tick_spec (stack n)). by destruct (sk_tick (stack n)).
Qed.
Next Obligation. intros n len t Hl. apply (esp_read_spec n len t Hl). Qed.
Next Obligation. intros n len t Hl. apply (esp_read_pending n len t Hl). Qed.
Next Obligation. intros n bs t Hb. apply (esp_write_spec n bs t Hb). Qed.
End EspSpec.

(** ** A concrete network: a peer whose bytes are all there

    [input] is what the peer sends, [out] what it received, [clock] the tick
    counter, which every query advances. *)
Record tape := { input : list Z; out : list Z; clock : Z }.

#[global] Instance tape_sockets : SocketOps tape := {
  sk_tick := λ w, (w.(clock), {| input := w.(input); out := w.(out); clock := u32 (w.(clock) + 1) |});
  select := λ w _ wr _, if wr : bool then (1, true, w)
                        else if decide (w.(input) = []) then (0, false, w) else (1, true, w);
  recv := λ w _ n, if decide (Forall is_byte w.(input)) then
      (Z.max 0 (Z.min n (zlength w.(input))), take (Z.to_nat n) w.(input),
       {| input := drop (Z.to_nat n) w.(input); out := w.(out); clock := w.(clock) |})
      else (-1, [], w);
  send := λ w _ bs, (zlength bs, {| input := w.(input); out := w.(out) ++ bs; clock := w.(clock) |});
  getaddrinfo := λ w _, (0, [1], w);
  socket := λ w, (3, w);
  connect := λ w _ _ _, (0, w);
  close := λ w _, w;
}.

#[global] Program Instance tape_spec : SocketSpec tape := {
  sk_pending := λ w, if decide (Forall is_byte w.(input)) then w.(input) else [];
  sk_sent := out;
}.
Next Obligation. intros w. cbn. done. Qed.
Next Obligation. intros w sock wr t. cbn. by destruct wr, (decide (input w = [])). Qed.
Next Obligation.
  intros w sock t. cbn. intros Hne.
  destruct (decide (input w = [])) as [E|]; [|done]. rewrite E in Hne. done.
Qed.
Next Obligation.
  intros w sock n Hn. cbn. destruct (decide (Forall is_byte (input w))) as [Hb|]; cbn.
  - rewrite length_take. split_and!; [lia|by apply Forall_take|right; lia|done].
  - split_and!; [done|constructor|by left|done].
Qed.
Next Obligation.
  intros w sock n. cbn. destruct (decide (Forall is_byte (input w))) as [Hb|]; cbn; [|lia].
  intros Hn. rewrite decide_True by (by apply Forall_drop). split_and!; [lia|done|done].
Qed.
Next Obligation.
  intros w sock bs Hne. cbn. rewrite Nat2Z.id, take_ge by lia.
  split_and!; [|lia|done|done]. destruct bs; [done|]. simpl. lia.
Qed.
