(* ===== verification/MqttClientTheorems.v ===== *)
(** MqttClientTheorems: the correctness of the MQTT client over any network
    that keeps the promise of [NetSpec], with witnesses over sockets. *)

From S2P Require Import Prelude CString Buffer MqttPacket MqttMessages MqttCodec MqttWire MqttClient MqttTopic MqttNet MqttSession MqttEsp.

(** ** A client for the witnesses *)

Definition demo_levels : list (list Z) := [[97]; [98]].
Definition demo_table : list (option subscription) :=
  [Some ([[97]; hash], Some 1); Some ([[99]], Some 2); Some ([wild; [98]], Some 3); None; None].

Definition demo_client : mqtt_client := {|
  next_packetid := 0; command_timeout_ms := 5000; buf_size := 16; readbuf_size := 16;
  buf := replicate 16 0; readbuf := replicate 16 0; keepAlive := 10; ping_outstanding := 0;
  fail_count := 0; isconnected := true; messageHandlers := entry_of <$> demo_table;
  defaultMessageHandler := None; ping_timer := 100 |}.

(** A message for the topic "a/b" of QoS 1 is waiting in the socket. *)
Definition demo_incoming : request := Publish 0 1 0 7 (cstr_topic (join demo_levels)) [104; 105].

Definition demo_state (t : Z) : cstate (mqtt_network_t tape) := {|
  cl := demo_client;
  world := {| my_socket := 3; stack := {| input := wire demo_incoming; out := []; clock := t |} |};
  calls := [] |}.

Definition demo_locals : locals := {|
  stack_publish := {| po_dup := 0; po_qos := 0; po_retained := 0; po_packetid := 0;
     po_topicName := mqtt_string_initializer; po_payload := None; po_payloadlen := 0 |};
  stack_ack := {| ao_packettype := 0; ao_dup := 0; ao_packetid := 0 |} |}.

(** C11: a message that the broker sent is handled in one [cycle] of the
    client: its packet is taken off the stream and nothing more, every
    subscription whose filter takes the topic gets it, in table order, with
    its topic, QoS and payload (or the default handler does when there is
    none), and a message of QoS 1 or 2 is answered with the PUBACK or PUBREC of
    its identifier; when the answer cannot be sent whole, the result is
    MQTT_FAILURE.  This holds over any network, whatever it splits the answer
    into, and the call returns. *)
Theorem mqtt_cycle_handles_message {W : Type} `{NetSpec W}
    es ns payload dup q ret pid topic rest stack fuel timer (s : cstate W) :
  let r := Publish dup q ret pid topic payload in
  request_ok r → Forall is_byte (body r) → chars topic = join ns →
  Forall name_level ns → ns ≠ [] →
  s.(cl).(messageHandlers) = entry_of <$> es → Forall sub_ok es →
  s.(cl).(readbuf_size) = zlength s.(cl).(readbuf) → zlength (wire r) ≤ s.(cl).(readbuf_size) →
  buf_ok s.(cl) → 4 ≤ s.(cl).(buf_size) → (4 ≤ fuel)%nat → s.(cl).(isconnected) = true →
  wire r ++ rest `prefix_of` pending s.(world) →
  runs (cycle stack fuel timer) s (handled es ns payload q pid rest s).
Proof. apply cycle_publish_spec. Qed.

Lemma demo_incoming_ok : request_ok demo_incoming.
Proof. split; [reflexivity|]. cbn. unfold is_u16, str_ok, str_is. cbn. split_and!; done || lia. Qed.

Lemma plain_1 x : x ≠ chr_slash ∧ x ≠ chr_wild ∧ x ≠ chr_hash → plain [x].
Proof. intros H. constructor; [exact H|constructor]. Qed.

Lemma demo_table_ok : Forall sub_ok demo_table.
Proof.
  assert (Hp : ∀ x, x = 97 ∨ x = 98 ∨ x = 99 → plain [x]).
  { intros x Hx. apply plain_1. unfold chr_slash, chr_wild, chr_hash. lia. }
  constructor; [split; [right; auto|by left]|].
  constructor; [right; right; auto|].
  constructor; [split; [by left|right; right; auto]|].
  by repeat constructor.
Qed.

Lemma demo_levels_ok : Forall name_level demo_levels.
Proof. repeat constructor; done. Qed.

Example mqtt_cycle_handles_message_witness :
  runs (cycle demo_locals 4 600) (demo_state 0)
    (handled demo_table demo_levels [104; 105] 1 7 [] (demo_state 0))
  ∧ runs (cycle demo_locals 4 600) (demo_state 0) (λ rc s',
      to <$> s'.(calls) = [1; 3] ∧ s'.(world).(stack).(out) = [64; 2; 0; 7]).
Proof.
  split; [|vm_compute; split; reflexivity].
  exact (mqtt_cycle_handles_message demo_table demo_levels [104; 105] 0 1 0 7
    (cstr_topic (join demo_levels)) [] demo_locals 4 600 (demo_state 0)
    demo_incoming_ok ltac:(repeat constructor; vm_compute; congruence) eq_refl demo_levels_ok
    ltac:(discriminate) eq_refl demo_table_ok eq_refl ltac:(vm_compute; discriminate) eq_refl
    ltac:(vm_compute; discriminate) ltac:(lia) eq_refl
    ltac:(rewrite app_nil_r; vm_compute; exists []; reflexivity)).
Defined.

(** C19: whatever the network delivers (any bytes, cut anywhere, errors
    included), [read_packet] returns, stays inside of the receive buffer, keeps
    its length and changes nothing else of the client; its value is a packet
    type, MQTT_FAILURE or MQTT_READ_ERROR. *)
Theorem mqtt_read_packet_safe {W : Type} `{NetSpec W} timer (s : cstate W) :
  1 ≤ zlength s.(cl).(readbuf) → s.(cl).(readbuf_size) = zlength s.(cl).(readbuf) →
  runs (read_packet timer) s (λ rc s', rx s s'
    ∧ (rc = MQTT_FAILURE ∨ rc = MQTT_READ_ERROR ∨ 0 ≤ rc < 16)).
Proof. apply read_packet_safe. Qed.

Example mqtt_read_packet_safe_witness :
  runs (read_packet 600) (demo_state 0) (λ rc s', rx (demo_state 0) s'
    ∧ (rc = MQTT_FAILURE ∨ rc = MQTT_READ_ERROR ∨ 0 ≤ rc < 16)).
Proof. apply (mqtt_read_packet_safe 600 (demo_state 0)); [vm_compute; discriminate|reflexivity]. Defined.

(** Publishing a message of QoS 0 on a connected client returns, with
    fuel for the bytes of the packet, and sends exactly the PUBLISH packet of
    the message and reports success, or reports failure with nothing sent (the
    packet does not fit in the send buffer) or a proper part of it (the network
    failed or the command timed out). *)
Theorem mqtt_publish_sends {W : Type} `{NetSpec W} topic msg stack fuel (s : cstate W) :
  let r := publish_request topic msg in
  request_ok r → msg.(qos) = MQTT_QOS0 →
  msg.(payloadlen) = zlength (default [] msg.(MqttClient.payload)) →
  buf_ok s.(cl) → s.(cl).(isconnected) = true → (length (wire r) ≤ fuel)%nat →
  runs (mqtt_publish stack fuel topic msg) s (λ res s', res.2 = msg ∧ s'.(calls) = s.(calls)
    ∧ (if s.(cl).(buf_size) <? need r
       then res.1 = MQTT_FAILURE ∧ sent s'.(world) = sent s.(world)
       else res.1 = MQTT_SUCCESS ∧ sent s'.(world) = sent s.(world) ++ wire r
            ∨ res.1 = MQTT_FAILURE ∧ ∃ p, p `prefix_of` wire r ∧ p ≠ wire r
               ∧ sent s'.(world) = sent s.(world) ++ p)).
Proof. apply publish_qos0. Qed.

Definition demo_message : mqtt_message_t := {|
  qos := 0; msg_retained := 0; dup := 0; id := 0; payload := Some [50; 49]; payloadlen := 2 |}.

Lemma demo_message_ok : request_ok (publish_request [116] demo_message).
Proof. split; [reflexivity|]. cbn. unfold is_u16, str_ok, str_is. cbn. split_and!; done || lia. Qed.

Example mqtt_publish_sends_witness :
  runs (mqtt_publish demo_locals 16 [116] demo_message) (demo_state 0) (λ res s',
    res.2 = demo_message ∧ (res.1 = MQTT_SUCCESS ∨ res.1 = MQTT_FAILURE))
  ∧ runs (mqtt_publish demo_locals 16 [116] demo_message) (demo_state 0) (λ res s',
    res.1 = MQTT_SUCCESS ∧ s'.(world).(stack).(out) = [48; 5; 0; 1; 116; 50; 49]).
Proof.
  split; [|vm_compute; split; reflexivity].
  eapply runs_mono; [apply (mqtt_publish_sends [116] demo_message demo_locals 16 (demo_state 0)
    demo_message_ok eq_refl eq_refl eq_refl eq_refl ltac:(vm_compute; lia))|].
  cbn beta. intros res s' (H1 & _ & H2). split; [exact H1|].
  destruct (_ <? _); [right; apply H2|]. destruct H2 as [H2|H2]; [left|right]; apply H2.
Defined.

(** C38: a dead peer is detected.  From a state without an outstanding
    ping, the first expiry of the ping timer sends a PINGREQ, and when no
    answer resets the state, the third expiry makes [keepalive] return
    MQTT_DISCONNECTED, whatever time passes in between. *)
Theorem mqtt_keepalive_detects {W : Type} `{NetSpec W} fuel (s0 : cstate W) :
  buf_ok s0.(cl) → (2 ≤ fuel)%nat → s0.(cl).(keepAlive) ≠ 0 →
  s0.(cl).(ping_outstanding) = 0 → s0.(cl).(fail_count) = 0 →
  expired_at s0 s0.(cl).(ping_timer) = true →
  runs (keepalive fuel) s0 (λ rc1 s1, rc1 = MQTT_SUCCESS ∧
    ∀ s1', s1'.(cl) = s1.(cl) → expired_at s1' s1'.(cl).(ping_timer) = true →
    runs (keepalive fuel) s1' (λ rc2 s2, rc2 = MQTT_SUCCESS ∧
      ∀ s2', s2'.(cl) = s2.(cl) → expired_at s2' s2'.(cl).(ping_timer) = true →
      runs (keepalive fuel) s2' (λ rc3 s3, rc3 = MQTT_DISCONNECTED
        ∧ s3.(cl).(fail_count) = MQTT_MAX_FAIL_ALLOWED))).
Proof.
  intros Hbuf Hf Hka Hpo Hfc Hexp.
  eapply runs_mono; [by apply keepalive_pings|].
  intros rc1 s1 (-> & (t1 & m & C1 & _) & _). split; [done|]. intros s1' E1 Hexp1.
  rewrite C1 in E1.
  eapply runs_mono; [apply keepalive_counts; [by rewrite E1|done|by rewrite E1]|].
  intros rc2 s2 (_ & _ & _ & H2). rewrite E1 in H2. cbn in H2. rewrite Hfc in H2.
  unfold MQTT_MAX_FAIL_ALLOWED in H2. destruct H2 as [(? & _)|(_ & -> & t2 & C2)]; [lia|].
  split; [done|]. intros s2' E2 Hexp2. rewrite C2 in E2.
  eapply runs_mono; [apply keepalive_counts; [by rewrite E2|done|by rewrite E2]|].
  intros rc3 s3 (_ & _ & _ & H3). rewrite E2 in H3. cbn in H3.
  unfold MQTT_MAX_FAIL_ALLOWED in *. destruct H3 as [(_ & -> & ->)|(? & _)]; [done|lia].
Qed.

Example mqtt_keepalive_detects_witness :
  runs (keepalive 2) (demo_state 5000) (λ rc1 s1, rc1 = MQTT_SUCCESS)
  ∧ runs (keepalive 2) (demo_state 5000) (λ rc1 s1, s1.(world).(stack).(out) = [192; 0]).
Proof.
  split; [|vm_compute; reflexivity].
  eapply runs_mono; [apply (mqtt_keepalive_detects 2 (demo_state 5000) eq_refl ltac:(lia)
    ltac:(discriminate) eq_refl eq_refl eq_refl)|].
  intros rc1 s1 H. exact (proj1 H).
Defined.

(** C39: on a filter that is in the correct format and a topic name whose
    levels are not empty, [is_topic_matched] decides the MQTT rules level by
    level: "+" takes any one level, a final "#" all the levels that follow, at
    least one, and another level only itself. *)
Theorem mqtt_topic_matches fs ns rest :
  filter_ok fs → Forall name_level ns → ns ≠ [] →
  is_topic_matched (join fs) (str_at (join ns ++ rest) (zlength (join ns)))
  = Some (levels_match fs ns).
Proof. apply is_topic_matched_levels. Qed.

Example mqtt_topic_matches_witness :
  is_topic_matched [97; 47; 35] (str_at ([97; 47; 98] ++ [9]) 3) = Some true.
Proof.
  apply (mqtt_topic_matches [[97]; hash] demo_levels [9]); [|exact demo_levels_ok|discriminate].
  split; [right; by apply plain_1|by left].
Defined.

(** From a new client (next_packetid 0), the [i]-th packet identifier is
    (i - 1) mod 65535 + 1: never 0, always in 16 bits, and the same only after
    65535 other requests. *)
Theorem mqtt_packet_ids {W : Type} `{NetSpec W} k (s : cstate W) :
  s.(cl).(next_packetid) = 0 →
  runs (next_ids k) s (λ ids s',
    length ids = k
    ∧ (∀ i, 0 ≤ i < Z.of_nat k → ids !! Z.to_nat i = Some (i `mod` 65535 + 1))
    ∧ Forall (λ v, 1 ≤ v ≤ 65535) ids).
Proof.
  intros H0. eapply runs_mono; [apply (next_ids_spec k 0); [lia|by rewrite H0]|].
  intros ids s' ->. split_and!.
  - rewrite length_fmap, length_seqZ. lia.
  - intros i Hi. rewrite list_lookup_fmap, lookup_seqZ_lt by lia. simpl. f_equal.
    unfold nth_id. zbool; zsolve.
  - apply Forall_fmap, Forall_forall. intros n Hn%elem_of_seqZ. unfold compose, nth_id.
    zbool; zsolve.
Qed.

Example mqtt_packet_ids_witness :
  runs (next_ids 3) (demo_state 0) (λ ids s', length ids = 3%nat
    ∧ (∀ i, 0 ≤ i < 3 → ids !! Z.to_nat i = Some (i `mod` 65535 + 1))
    ∧ Forall (λ v, 1 ≤ v ≤ 65535) ids).
Proof. apply (mqtt_packet_ids 3 (demo_state 0)). reflexivity. Defined.
