(* ===== verification/FrList.v ===== *)
(** FrList: the linked lists of the FreeRTOS kernel.

    Models FreeRTOS/Source/list.c and the access macros of list.h over a store
    of list items and lists.  A list item is an [Item]; the marker xListEnd of
    the list [l] is [End l].  The fields of all items and lists are the
    functions of the record [heap], as the pointers alias freely. *)

From stdpp Require Import functions.
From S2P Require Import Prelude.

(** A ListItem_t pointer. *)
Inductive addr := Item (i : Z) | End (l : Z).

#[export] Instance addr_eq_dec : EqDecision addr.
Proof. solve_decision. Defined.

Definition portMAX_DELAY : Z := 0xffffffff.

Record heap := {
  xItemValue : addr → Z;
  pxNext : addr → addr;
  pxPrevious : addr → addr;
  pvOwner : addr → Z;
  pvContainer : addr → option Z;
  uxNumberOfItems : Z → Z;
  pxIndex : Z → addr;
}.

Definition set_value (a : addr) (v : Z) (h : heap) : heap := {|
  xItemValue := <[a := v]> h.(xItemValue); pxNext := h.(pxNext); pxPrevious := h.(pxPrevious);
  pvOwner := h.(pvOwner); pvContainer := h.(pvContainer);
  uxNumberOfItems := h.(uxNumberOfItems); pxIndex := h.(pxIndex) |}.
Definition set_next (a b : addr) (h : heap) : heap := {|
  xItemValue := h.(xItemValue); pxNext := <[a := b]> h.(pxNext); pxPrevious := h.(pxPrevious);
  pvOwner := h.(pvOwner); pvContainer := h.(pvContainer);
  uxNumberOfItems := h.(uxNumberOfItems); pxIndex := h.(pxIndex) |}.
Definition set_previous (a b : addr) (h : heap) : heap := {|
  xItemValue := h.(xItemValue); pxNext := h.(pxNext); pxPrevious := <[a := b]> h.(pxPrevious);
  pvOwner := h.(pvOwner); pvContainer := h.(pvContainer);
  uxNumberOfItems := h.(uxNumberOfItems); pxIndex := h.(pxIndex) |}.
Definition set_container (a : addr) (c : option Z) (h : heap) : heap := {|
  xItemValue := h.(xItemValue); pxNext := h.(pxNext); pxPrevious := h.(pxPrevious);
  pvOwner := h.(pvOwner); pvContainer := <[a := c]> h.(pvContainer);
  uxNumberOfItems := h.(uxNumberOfItems); pxIndex := h.(pxIndex) |}.
Definition set_number (l n : Z) (h : heap) : heap := {|
  xItemValue := h.(xItemValue); pxNext := h.(pxNext); pxPrevious := h.(pxPrevious);
  pvOwner := h.(pvOwner); pvContainer := h.(pvContainer);
  uxNumberOfItems := <[l := n]> h.(uxNumberOfItems); pxIndex := h.(pxIndex) |}.
Definition set_index (l : Z) (a : addr) (h : heap) : heap := {|
  xItemValue := h.(xItemValue); pxNext := h.(pxNext); pxPrevious := h.(pxPrevious);
  pvOwner := h.(pvOwner); pvContainer := h.(pvContainer);
  uxNumberOfItems := h.(uxNumberOfItems); pxIndex := <[l := a]> h.(pxIndex) |}.

(** ** list.c *)

Definition vListInitialise (pxList : Z) (h : heap) : heap :=
  let h := set_index pxList (End pxList) h in
  let h := set_value (End pxList) portMAX_DELAY h in
  let h := set_next (End pxList) (End pxList) h in
  let h := set_previous (End pxList) (End pxList) h in
  set_number pxList 0 h.

Definition vListInitialiseItem (pxItem : addr) (h : heap) : heap := set_container pxItem None h.

Definition vListInsertEnd (pxList : Z) (pxNewListItem : addr) (h : heap) : heap :=
  let index := h.(pxIndex) pxList in
  let h := set_next pxNewListItem index h in
  let h := set_previous pxNewListItem (h.(pxPrevious) index) h in
  let h := set_next (h.(pxPrevious) index) pxNewListItem h in
  let h := set_previous index pxNewListItem h in
  let h := set_container pxNewListItem (Some pxList) h in
  set_number pxList (u32 (h.(uxNumberOfItems) pxList + 1)) h.

(** The loop that looks for the place of a new item; [None]: out of fuel. *)
Fixpoint insert_position (fuel : nat) (h : heap) (pxIterator : addr) (xValueOfInsertion : Z)
    : option addr :=
  if h.(xItemValue) (h.(pxNext) pxIterator) <=? xValueOfInsertion then
    match fuel with
    | O => None
    | S fuel' => insert_position fuel' h (h.(pxNext) pxIterator) xValueOfInsertion
    end
  else Some pxIterator.

Definition vListInsert (fuel : nat) (pxList : Z) (pxNewListItem : addr) (h : heap) : option heap :=
  let xValueOfInsertion := h.(xItemValue) pxNewListItem in
  pxIterator ←
    (if xValueOfInsertion =? portMAX_DELAY then Some (h.(pxPrevious) (End pxList))
     else insert_position fuel h (End pxList) xValueOfInsertion);
  let h := set_next pxNewListItem (h.(pxNext) pxIterator) h in
  let h := set_previous (h.(pxNext) pxNewListItem) pxNewListItem h in
  let h := set_previous pxNewListItem pxIterator h in
  let h := set_next pxIterator pxNewListItem h in
  let h := set_container pxNewListItem (Some pxList) h in
  Some (set_number pxList (u32 (h.(uxNumberOfItems) pxList + 1)) h).

(** [None]: the item is in no list, a null pointer is followed. *)
Definition uxListRemove (pxItemToRemove : addr) (h : heap) : option (Z * heap) :=
  pxList ← h.(pvContainer) pxItemToRemove;
  let h := set_previous (h.(pxNext) pxItemToRemove) (h.(pxPrevious) pxItemToRemove) h in
  let h := set_next (h.(pxPrevious) pxItemToRemove) (h.(pxNext) pxItemToRemove) h in
  let h := if decide (h.(pxIndex) pxList = pxItemToRemove)
           then set_index pxList (h.(pxPrevious) pxItemToRemove) h else h in
  let h := set_container pxItemToRemove None h in
  let h := set_number pxList (u32 (h.(uxNumberOfItems) pxList - 1)) h in
  Some (h.(uxNumberOfItems) pxList, h).

(** ** list.h *)

Definition listLIST_IS_EMPTY (pxList : Z) (h : heap) : bool := h.(uxNumberOfItems) pxList =? 0.
Definition listGET_HEAD_ENTRY (pxList : Z) (h : heap) : addr := h.(pxNext) (End pxList).
Definition listGET_OWNER_OF_HEAD_ENTRY (pxList : Z) (h : heap) : Z :=
  h.(pvOwner) (h.(pxNext) (End pxList)).
Definition listGET_ITEM_VALUE_OF_HEAD_ENTRY (pxList : Z) (h : heap) : Z :=
  h.(xItemValue) (h.(pxNext) (End pxList)).

Definition listGET_OWNER_OF_NEXT_ENTRY (pxList : Z) (h : heap) : Z * heap :=
  let h := set_index pxList (h.(pxNext) (h.(pxIndex) pxList)) h in
  let h := if decide (h.(pxIndex) pxList = End pxList)
           then set_index pxList (h.(pxNext) (h.(pxIndex) pxList)) h else h in
  (h.(pvOwner) (h.(pxIndex) pxList), h).

(** ** The shape of a list

    [links h a l z]: the items [l] are linked in both directions between [a]
    and [z]. *)

Definition link (h : heap) (a b : addr) : Prop := h.(pxNext) a = b ∧ h.(pxPrevious) b = a.

Fixpoint links (h : heap) (a : addr) (l : list addr) (z : addr) : Prop :=
  match l with
  | [] => link h a z
  | b :: l' => link h a b ∧ links h b l' z
  end.

(** The list at [l] holds the items [xs], in this order. *)
Record is_list (h : heap) (l : Z) (xs : list Z) : Prop := {
  il_links : links h (End l) (Item <$> xs) (End l);
  il_nodup : NoDup xs;
  il_number : h.(uxNumberOfItems) l = zlength xs;
  il_small : zlength xs < 2 ^ 32 - 1;
  il_container : ∀ x, x ∈ xs → h.(pvContainer) (Item x) = Some l;
  il_end : h.(xItemValue) (End l) = portMAX_DELAY;
  il_index : h.(pxIndex) l = End l ∨ ∃ x, x ∈ xs ∧ h.(pxIndex) l = Item x;
}.

Lemma links_app h a l1 b l2 z :
  links h a (l1 ++ b :: l2) z ↔ links h a l1 b ∧ links h b l2 z.
Proof. revert a. induction l1 as [|c l1 IH]; intros a; simpl; [tauto|]. rewrite IH. tauto. Qed.

(** Links only depend on the next fields of the sources and on the previous
    fields of the targets. *)
Lemma links_ext h h' a l z :
  links h a l z →
  (∀ c, c ∈ a :: l → h'.(pxNext) c = h.(pxNext) c) →
  (∀ c, c ∈ l ++ [z] → h'.(pxPrevious) c = h.(pxPrevious) c) →
  links h' a l z.
Proof.
  revert a. induction l as [|b l IH]; intros a; simpl.
  - intros [H1 H2] Hn Hp. split; [rewrite Hn|rewrite Hp]; set_solver.
  - intros [[H1 H2] Hl] Hn Hp. split; [split; [rewrite Hn|rewrite Hp]; set_solver|].
    apply IH; [done|..]; set_solver.
Qed.

Lemma links_first h a l z : links h a l z → h.(pxNext) a = default z (head l).
Proof. destruct l; simpl; unfold link; naive_solver. Qed.

Lemma links_last h a l z : links h a l z → h.(pxPrevious) z = default a (last l).
Proof.
  revert a. induction l as [|b l IH]; intros a; simpl; [unfold link; naive_solver|].
  intros [_ Hl]. rewrite (IH _ Hl), last_cons. by destruct (last l).
Qed.

Lemma last_cons_default (a b : addr) l : default a (last (b :: l)) = default b (last l).
Proof. rewrite last_cons. by destruct (last l). Qed.

Lemma last_elem (a : addr) l : default a (last l) ∈ a :: l.
Proof.
  destruct (last l) eqn:E; simpl; [|set_solver]. apply last_Some in E as [k ->]. set_solver.
Qed.

Lemma head_elem (z : addr) l : default z (head l) ∈ l ++ [z].
Proof. destruct l; set_solver. Qed.

(** Membership goals, without the hypotheses that describe the heap. *)
Ltac not_in :=
  repeat match goal with
  | H : ∀ _, _ |- _ => clear H
  | H : links _ _ _ _ |- _ => clear H
  | H : NoDup _ |- _ => clear H
  end; set_solver.

(** Linking [x] in between two neighbours. *)
Lemma links_insert h h' x l1 : ∀ a l2 z,
  links h a (l1 ++ l2) z → NoDup (a :: l1 ++ l2) → NoDup (l1 ++ l2 ++ [z]) →
  x ∉ a :: l1 ++ l2 ++ [z] →
  let p := default a (last l1) in
  let n := default z (head l2) in
  (∀ c, h'.(pxNext) c = if decide (c = x) then n else if decide (c = p) then x else h.(pxNext) c) →
  (∀ c, h'.(pxPrevious) c = if decide (c = x) then p else if decide (c = n) then x else h.(pxPrevious) c) →
  links h' a (l1 ++ x :: l2) z.
Proof.
  induction l1 as [|c l1 IH]; intros a l2 z Hl Hnd1 Hnd2 Hx p n Hn Hp.
  - cbn [app links] in *. simpl in p. assert (Hhead := head_elem z l2). fold n in Hhead.
    assert (Hax : a ≠ x) by not_in.
    assert (Hnx : n ≠ x) by (clearbody n; not_in).
    split; [split; [by rewrite Hn, (decide_False), (decide_True)|by rewrite Hp, decide_True]|].
    destruct l2 as [|b l2]; cbn [links app head default] in *.
    + split; [by rewrite Hn, decide_True|]. by rewrite Hp, (decide_False), (decide_True).
    + destruct Hl as [[E1 E2] Hl]. apply NoDup_cons in Hnd1 as [Ha Hnd1].
      apply NoDup_cons in Hnd2 as [Hb Hnd2]. split.
      { split; [by rewrite Hn, decide_True|]. by rewrite Hp, (decide_False), (decide_True). }
      apply (links_ext h); [done|intros d Hd; rewrite Hn|intros d Hd; rewrite Hp].
      * rewrite !decide_False; [done|intros ->; not_in..].
      * rewrite !decide_False; [done|intros ->; not_in..].
  - cbn [app links] in *. unfold p in *. clear p. rewrite last_cons_default in Hn, Hp.
    destruct Hl as [[E1 E2] Hl].
    apply NoDup_cons in Hnd1 as [Ha Hnd1]. apply NoDup_cons in Hnd2 as [Hc Hnd2].
    assert (Hlast := last_elem c l1). assert (Hhead := head_elem z l2). fold n in Hhead.
    split; [|apply (IH c l2 z); [done..|not_in|done|done]]. split.
    + rewrite Hn, !decide_False; [done| |not_in]. intros ->. apply Ha.
      apply elem_of_cons in Hlast as [->|]; [left|right; apply elem_of_app; by left].
    + rewrite Hp, !decide_False; [done| |not_in]. intros ->. apply Hc.
      apply elem_of_app; by right.
Qed.

(** Taking [x] out of the chain. *)
Lemma links_remove h h' x l1 : ∀ a l2 z,
  links h a (l1 ++ x :: l2) z → NoDup (a :: l1 ++ x :: l2) → NoDup (l1 ++ x :: l2 ++ [z]) →
  let p := default a (last l1) in
  let n := default z (head l2) in
  (∀ c, c ≠ x → h'.(pxNext) c = if decide (c = p) then n else h.(pxNext) c) →
  (∀ c, c ≠ x → h'.(pxPrevious) c = if decide (c = n) then p else h.(pxPrevious) c) →
  links h' a (l1 ++ l2) z.
Proof.
  induction l1 as [|c l1 IH]; intros a l2 z Hl Hnd1 Hnd2 p n Hn Hp.
  - cbn [app links] in *. simpl in p. destruct Hl as [_ Hl].
    apply NoDup_cons in Hnd1 as [Ha Hnd1]. apply NoDup_cons in Hnd1 as [Hx1 Hnd1].
    apply NoDup_cons in Hnd2 as [Hx2 Hnd2].
    destruct l2 as [|b l2]; cbn [links app head default] in *.
    + split; [rewrite Hn, decide_True|rewrite Hp, decide_True]; not_in.
    + destruct Hl as [_ Hl]. apply NoDup_cons in Hnd2 as [Hb Hnd2]. split.
      { split; [rewrite Hn, decide_True|rewrite Hp, decide_True]; not_in. }
      apply (links_ext h); [done|intros d Hd; rewrite Hn|intros d Hd; rewrite Hp];
        rewrite ?decide_False; try done; intros ->; not_in.
  - cbn [app links] in *. unfold p in *. clear p. rewrite last_cons_default in Hn, Hp.
    destruct Hl as [[E1 E2] Hl].
    apply NoDup_cons in Hnd1 as [Ha Hnd1]. apply NoDup_cons in Hnd2 as [Hc Hnd2].
    assert (Hlast := last_elem c l1). assert (Hhead := head_elem z l2). fold n in Hhead.
    split; [|by apply (IH c l2 z)]. split.
    + rewrite Hn by not_in. rewrite decide_False; [done|]. intros ->. apply Ha.
      apply elem_of_cons in Hlast as [->|]; [left|right; apply elem_of_app; by left].
    + rewrite Hp by not_in. rewrite decide_False; [done|]. intros ->. apply Hc.
      apply elem_of_app; right. by right.
Qed.
