(* ===== verification/FrListSpec.v ===== *)
(** FrListSpec: the list operations of [FrList] on the lists they represent. *)

From stdpp Require Import functions sorting.
From S2P Require Import Prelude FrList.

(** ** Circles *)

Lemma NoDup_circle l xs : NoDup xs →
  NoDup (End l :: (Item <$> xs)) ∧ NoDup ((Item <$> xs) ++ [End l]).
Proof.
  intros Hnd. assert (Hf : NoDup (Item <$> xs)) by (by apply NoDup_fmap; [intros ?? [=]|]).
  assert (He : End l ∉ Item <$> xs) by (intros (? & ? & ?)%list_elem_of_fmap; done).
  split; [by apply NoDup_cons|].
  apply NoDup_app. split_and!; [done| |apply NoDup_singleton]. set_solver.
Qed.

(** The neighbours of the gap between [l1] and [l2]. *)
Definition before (l : Z) (l1 : list Z) : addr := default (End l) (last (Item <$> l1)).
Definition after (l : Z) (l2 : list Z) : addr := default (End l) (head (Item <$> l2)).

Lemma before_in l l1 : before l l1 = End l ∨ ∃ y, y ∈ l1 ∧ before l l1 = Item y.
Proof.
  assert (H := last_elem (End l) (Item <$> l1)). unfold before.
  apply elem_of_cons in H as [->|(y & -> & Hy)%list_elem_of_fmap]; eauto.
Qed.

Lemma after_in l l2 : after l l2 = End l ∨ ∃ y, y ∈ l2 ∧ after l l2 = Item y.
Proof. unfold after. destruct l2; simpl; [by left|right; set_solver]. Qed.

(** Neither neighbour of a gap in the list [l] is an item of another list. *)
Definition foreign (h : heap) (l l' : Z) (c : addr) : Prop :=
  match c with End e => e = l' | Item y => h.(pvContainer) (Item y) = Some l' end.

Lemma gap_foreign h l l' xs l1 l2 c : is_list h l xs → l1 ++ l2 = xs → l ≠ l' →
  foreign h l l' c → c ≠ before l l1 ∧ c ≠ after l l2.
Proof.
  intros Hl <- Hne Hc. assert (Hcon := il_container _ _ _ Hl).
  destruct (before_in l l1) as [-> | (y & Hy & ->)], (after_in l l2) as [-> | (z & Hz & ->)];
    unfold foreign in Hc; destruct c; split; intros [= ->];
    try congruence; rewrite Hcon in Hc; (congruence || set_solver).
Qed.

(** ** Inserting between neighbours *)

(** [h'] is [h] with the item [x] linked in between [l1] and [l2]. *)
Record linked_in (l : Z) (l1 l2 : list Z) (x : Z) (h h' : heap) : Prop := {
  li_next c : h'.(pxNext) c = if decide (c = Item x) then after l l2
                              else if decide (c = before l l1) then Item x else h.(pxNext) c;
  li_prev c : h'.(pxPrevious) c = if decide (c = Item x) then before l l1
                              else if decide (c = after l l2) then Item x else h.(pxPrevious) c;
  li_container : h'.(pvContainer) = <[Item x := Some l]> h.(pvContainer);
  li_number : h'.(uxNumberOfItems) = <[l := u32 (h.(uxNumberOfItems) l + 1)]> h.(uxNumberOfItems);
  li_index : h'.(pxIndex) = h.(pxIndex);
  li_value : h'.(xItemValue) = h.(xItemValue);
  li_owner : h'.(pvOwner) = h.(pvOwner);
}.

Lemma linked_in_list l l1 l2 x h h' :
  is_list h l (l1 ++ l2) → x ∉ l1 ++ l2 → zlength (l1 ++ l2) < 2 ^ 32 - 2 →
  linked_in l l1 l2 x h h' → is_list h' l (l1 ++ x :: l2).
Proof.
  intros [Hl Hnd Hnum Hsm Hcon Hend Hidx] Hx Hsz [En Ep Ec Em Ei Ev _].
  destruct (NoDup_circle l _ Hnd) as [Hnd1 Hnd2]. rewrite fmap_app in Hl, Hnd1, Hnd2.
  split.
  - rewrite fmap_app, fmap_cons. eapply (links_insert h h' (Item x)); eauto.
    + by rewrite <- (assoc_L (++)) in Hnd2.
    + set_solver.
  - rewrite <- Permutation_middle. by apply NoDup_cons.
  - rewrite Em, fn_lookup_insert, Hnum. rewrite !length_app in *. cbn [length].
    rewrite u32_small by lia. lia.
  - rewrite !length_app in *. cbn [length]. lia.
  - intros y Hy. rewrite Ec. destruct (decide (y = x)) as [->|Hyx].
    + by rewrite fn_lookup_insert.
    + rewrite fn_lookup_insert_ne by congruence. apply Hcon. set_solver.
  - by rewrite Ev.
  - rewrite Ei. destruct Hidx as [?|(y & Hy & E)]; [by left|right]. exists y. set_solver.
Qed.

(** Other lists are as before. *)
Lemma linked_in_frame l l1 l2 x h h' l' ys :
  is_list h l (l1 ++ l2) → linked_in l l1 l2 x h h' → l' ≠ l →
  is_list h l' ys → x ∉ ys → is_list h' l' ys.
Proof.
  intros Hlist [En Ep Ec Em Ei Ev _] Hne [Hl Hnd Hnum Hsm Hcon Hend Hidx] Hx.
  assert (Hgap : ∀ c, c ∈ End l' :: (Item <$> ys) →
    c ≠ Item x ∧ c ≠ before l l1 ∧ c ≠ after l l2).
  { intros c Hc. apply elem_of_cons in Hc as [->|(y & -> & Hy)%list_elem_of_fmap].
    - split; [done|]. by eapply gap_foreign.
    - split; [intros [= ->]; done|]. eapply gap_foreign; eauto. by apply Hcon. }
  split; try done.
  - eapply links_ext; [exact Hl|..]; intros c Hc.
    + destruct (Hgap c Hc) as (H1 & H2 & H3). by rewrite En, !decide_False.
    + destruct (Hgap c) as (H1 & H2 & H3); [set_solver|]. by rewrite Ep, !decide_False.
  - by rewrite Em, fn_lookup_insert_ne by congruence.
  - intros y Hy. rewrite Ec, fn_lookup_insert_ne; [by apply Hcon|]. intros [= ->]. done.
  - by rewrite Ev.
  - by rewrite Ei.
Qed.

(** The neighbours of a gap are linked to each other. *)
Lemma gap_link h l l1 l2 : is_list h l (l1 ++ l2) →
  h.(pxNext) (before l l1) = after l l2 ∧ h.(pxPrevious) (after l l2) = before l l1.
Proof.
  intros [Hl _ _ _ _ _ _]. rewrite fmap_app in Hl. unfold before, after.
  destruct l2 as [|y l2]; simpl in *.
  - rewrite app_nil_r in Hl. split; [|by apply (links_last _ _ _ _ Hl)].
    destruct l1 as [|z l1 _] using rev_ind; [by apply (links_first _ _ _ _ Hl)|].
    rewrite fmap_app in *. simpl in *. rewrite last_snoc. simpl.
    apply links_app in Hl as [_ Hl]. apply Hl.
  - apply links_app in Hl as [Hl _].
    split; [|by apply (links_last _ _ _ _ Hl)].
    destruct l1 as [|z l1 _] using rev_ind; [by apply (links_first _ _ _ _ Hl)|].
    rewrite fmap_app in *. simpl in *. rewrite last_snoc. simpl.
    apply links_app in Hl as [_ Hl]. apply Hl.
Qed.

Lemma before_not l l1 l2 x : x ∉ l1 ++ l2 → before l l1 ≠ Item x ∧ after l l2 ≠ Item x.
Proof.
  intros Hx. destruct (before_in l l1) as [-> | (y & Hy & ->)],
    (after_in l l2) as [-> | (z & Hz & ->)]; split; try done; intros [= ->]; set_solver.
Qed.

(** ** vListInitialise *)

Lemma initialise_spec l h : is_list (vListInitialise l h) l [].
Proof.
  split; cbn; rewrite ?fn_lookup_insert; try done.
  - split; cbn; by rewrite fn_lookup_insert.
  - constructor.
  - intros x Hx. set_solver.
  - by left.
Qed.

(** ** vListInsert *)

Lemma insert_position_spec l v h : h.(xItemValue) (End l) = portMAX_DELAY → v < portMAX_DELAY →
  ∀ ys a fuel, links h a (Item <$> ys) (End l) → (length ys ≤ fuel)%nat →
  ∃ l1 l2, ys = l1 ++ l2 ∧ Forall (λ y, h.(xItemValue) (Item y) ≤ v) l1
    ∧ (∀ y, head l2 = Some y → v < h.(xItemValue) (Item y))
    ∧ insert_position fuel h a v = Some (default a (last (Item <$> l1))).
Proof.
  intros Hend Hv. induction ys as [|y ys IH]; intros a fuel Hl Hf.
  - exists [], []. split_and!; try done. destruct Hl as [E _].
    destruct fuel; simpl; rewrite E, Hend; by destruct (Z.leb_spec portMAX_DELAY v); [lia|].
  - destruct fuel as [|fuel]; [simpl in Hf; lia|]. destruct Hl as [[E _] Hl].
    cbn [insert_position]. rewrite E.
    destruct (Z.leb_spec (xItemValue h (Item y)) v) as [Hle|Hgt].
    + destruct (IH (Item y) fuel Hl) as (l1 & l2 & -> & H1 & H2 & ->); [simpl in Hf; lia|].
      exists (y :: l1), l2. split_and!; [done|by constructor|done|].
      cbn [fmap list_fmap]. by rewrite last_cons_default.
    + exists [], (y :: ys). split_and!; try done. intros z [= <-]. done.
Qed.

(** The items in the order of their values. *)
Definition ordered (h : heap) : list Z → Prop :=
  StronglySorted (λ x y, h.(xItemValue) (Item x) ≤ h.(xItemValue) (Item y)).

Lemma insert_linked_in fuel l x h l1 l2 : is_list h l (l1 ++ l2) → x ∉ l1 ++ l2 →
  (if h.(xItemValue) (Item x) =? portMAX_DELAY then Some (h.(pxPrevious) (End l))
   else insert_position fuel h (End l) (h.(xItemValue) (Item x))) = Some (before l l1) →
  ∃ h', vListInsert fuel l (Item x) h = Some h' ∧ linked_in l l1 l2 x h h'.
Proof.
  intros Hlist Hx Hpos. unfold vListInsert. rewrite Hpos. cbn [mbind option_bind].
  destruct (gap_link _ _ _ _ Hlist) as [E1 E2]. destruct (before_not l l1 l2 x Hx) as [N1 N2].
  eexists. split; [reflexivity|]. split; try done; cbn; rewrite ?fn_lookup_insert, ?E1; intros c.
  - unfold insert, fn_insert. repeat case_decide; congruence.
  - unfold insert, fn_insert. repeat case_decide; congruence.
Qed.

Lemma insert_spec fuel l x xs h :
  is_list h l xs → x ∉ xs → ordered h xs → (length xs ≤ fuel)%nat →
  zlength xs < 2 ^ 32 - 2 → (∀ y, y ∈ x :: xs → 0 ≤ h.(xItemValue) (Item y) ≤ portMAX_DELAY) →
  ∃ l1 l2 h', xs = l1 ++ l2 ∧ vListInsert fuel l (Item x) h = Some h'
    ∧ linked_in l l1 l2 x h h'
    ∧ Forall (λ y, h.(xItemValue) (Item y) ≤ h.(xItemValue) (Item x)) l1
    ∧ Forall (λ y, h.(xItemValue) (Item x) < h.(xItemValue) (Item y)) l2
    ∧ ordered h (l1 ++ x :: l2).
Proof.
  intros Hlist Hx Hord Hf Hsz Hval.
  assert (Hpos : ∃ l1 l2, xs = l1 ++ l2
    ∧ Forall (λ y, h.(xItemValue) (Item y) ≤ h.(xItemValue) (Item x)) l1
    ∧ (∀ y, head l2 = Some y → h.(xItemValue) (Item x) < h.(xItemValue) (Item y))
    ∧ (if h.(xItemValue) (Item x) =? portMAX_DELAY then Some (h.(pxPrevious) (End l))
       else insert_position fuel h (End l) (h.(xItemValue) (Item x))) = Some (before l l1)).
  { destruct (Z.eqb_spec (h.(xItemValue) (Item x)) portMAX_DELAY) as [E|E].
    - exists xs, []. rewrite app_nil_r. split_and!; [done| |done|].
      + apply Forall_forall. intros y Hy. rewrite E. apply Hval. by right.
      + f_equal. apply links_last with (1 := il_links _ _ _ Hlist).
    - assert (H := Hval x ltac:(left)). unfold before.
      apply (insert_position_spec l); [apply Hlist|lia|apply Hlist|done]. }
  destruct Hpos as (l1 & l2 & -> & H1 & H2 & Hpos).
  destruct (insert_linked_in fuel l x h l1 l2 Hlist Hx Hpos) as (h' & Eh & Hin).
  apply StronglySorted_app in Hord as (Hall & Ho1 & Ho2).
  assert (H2' : Forall (λ y, h.(xItemValue) (Item x) < h.(xItemValue) (Item y)) l2).
  { destruct l2 as [|z l2]; [constructor|]. specialize (H2 z eq_refl).
    apply StronglySorted_inv in Ho2 as [_ Hz]. constructor; [done|].
    eapply Forall_impl; [exact Hz|]. simpl. lia. }
  exists l1, l2, h'. split_and!; [done..|].
  apply StronglySorted_app. split_and!; [|done|].
  - intros a b Ha Hb. apply elem_of_cons in Hb as [->|Hb]; [|by apply Hall].
    rewrite Forall_forall in H1. by apply H1.
  - constructor; [done|]. eapply Forall_impl; [exact H2'|]. simpl. lia.
Qed.

(** ** vListInsertEnd *)

(** The gap in front of the index: the end of the list when the index is at the
    marker. *)
Lemma index_gap h l xs : is_list h l xs →
  ∃ l1 l2, xs = l1 ++ l2 ∧ h.(pxIndex) l = after l l2 ∧ (h.(pxIndex) l = End l → l2 = []).
Proof.
  intros [_ _ _ _ _ _ [E|(y & Hy & E)]].
  - exists xs, []. by rewrite app_nil_r.
  - apply list_elem_of_split in Hy as (l1 & l2 & ->). exists l1, (y :: l2).
    split_and!; [done..|]. rewrite E. done.
Qed.

Lemma insert_end_linked_in l x h l1 l2 : is_list h l (l1 ++ l2) → x ∉ l1 ++ l2 →
  h.(pxIndex) l = after l l2 → linked_in l l1 l2 x h (vListInsertEnd l (Item x) h).
Proof.
  intros Hlist Hx Hidx. unfold vListInsertEnd. rewrite Hidx.
  destruct (gap_link _ _ _ _ Hlist) as [E1 E2]. destruct (before_not l l1 l2 x Hx) as [N1 N2].
  split; try done; cbn; intros c; rewrite ?fn_lookup_insert_ne, ?E2 by congruence;
    unfold insert, fn_insert; repeat case_decide; congruence.
Qed.

(** ** uxListRemove *)

Lemma in_list_neighbours h l l1 x l2 : is_list h l (l1 ++ x :: l2) →
  h.(pxPrevious) (Item x) = before l l1 ∧ h.(pxNext) (Item x) = after l l2.
Proof.
  intros Hlist. split.
  - destruct (gap_link h l l1 (x :: l2) Hlist) as [_ H]. exact H.
  - replace (l1 ++ x :: l2) with ((l1 ++ [x]) ++ l2) in Hlist by (by rewrite <- (assoc_L (++))).
    destruct (gap_link h l (l1 ++ [x]) l2 Hlist) as [H _].
    unfold before in H. rewrite fmap_app in H. simpl in H. by rewrite last_snoc in H.
Qed.

(** What the removal does: the item is out, the count is right, and the index
    moves back when it was at the item. *)
Record taken_out (l : Z) (l1 l2 : list Z) (x : Z) (h h' : heap) : Prop := {
  to_next c : h'.(pxNext) c = if decide (c = before l l1) then after l l2 else h.(pxNext) c;
  to_prev c : h'.(pxPrevious) c = if decide (c = after l l2) then before l l1 else h.(pxPrevious) c;
  to_container : h'.(pvContainer) = <[Item x := None]> h.(pvContainer);
  to_number : h'.(uxNumberOfItems) = <[l := u32 (h.(uxNumberOfItems) l - 1)]> h.(uxNumberOfItems);
  to_index k : h'.(pxIndex) k = if decide (k = l ∧ h.(pxIndex) l = Item x) then before l l1 else h.(pxIndex) k;
  to_value : h'.(xItemValue) = h.(xItemValue);
  to_owner : h'.(pvOwner) = h.(pvOwner);
}.

Lemma remove_taken_out l x h l1 l2 : is_list h l (l1 ++ x :: l2) →
  ∃ h', uxListRemove (Item x) h = Some (zlength (l1 ++ l2), h') ∧ taken_out l l1 l2 x h h'.
Proof.
  intros Hlist. destruct (in_list_neighbours _ _ _ _ _ Hlist) as [E1 E2].
  assert (Hc := il_container _ _ _ Hlist x ltac:(set_solver)).
  assert (Hn := il_number _ _ _ Hlist). assert (Hs := il_small _ _ _ Hlist).
  assert (Hnd := il_nodup _ _ _ Hlist). rewrite <- Permutation_middle in Hnd.
  apply NoDup_cons in Hnd as [Hx _]. destruct (before_not l l1 l2 x Hx) as [N1 N2].
  rewrite length_app in Hn, Hs. cbn [length] in Hn, Hs.
  unfold uxListRemove. rewrite Hc. cbn [mbind option_bind].
  set (h1 := set_previous _ _ h).
  assert (E1' : h1.(pxPrevious) (Item x) = before l l1).
  { unfold h1. cbn. unfold insert, fn_insert. case_decide; [congruence|done]. }
  rewrite E1'. replace (h1.(pxNext) (Item x)) with (after l l2) by done.
  set (h2 := set_next _ _ h1).
  assert (E2' : h2.(pxPrevious) (Item x) = before l l1) by done.
  set (h3 := if decide _ then _ else _).
  assert (Hnum : h3.(uxNumberOfItems) = h.(uxNumberOfItems)) by (unfold h3; by case_decide).
  eexists. split.
  { do 2 f_equal. cbn. rewrite fn_lookup_insert, Hnum, Hn, length_app.
    rewrite u32_small by lia. lia. }
  split; cbn.
  - intros c. unfold h3. case_decide; cbn; unfold insert, fn_insert; repeat case_decide; congruence.
  - intros c. unfold h3, h2, h1. case_decide; cbn; rewrite E2; unfold insert, fn_insert;
      repeat case_decide; congruence.
  - unfold h3. by case_decide.
  - by rewrite Hnum.
  - intros k. unfold h3. change (pxIndex h2) with (pxIndex h).
    destruct (decide (pxIndex h l = Item x)) as [E|E]; cbn [set_index pxIndex].
    + rewrite E2'. change (pxIndex h2) with (pxIndex h). unfold insert, fn_insert. repeat case_decide; naive_solver.
    + rewrite decide_False; naive_solver.
  - unfold h3. by case_decide.
  - unfold h3. by case_decide.
Qed.

Lemma taken_out_list l l1 l2 x h h' :
  is_list h l (l1 ++ x :: l2) → taken_out l l1 l2 x h h' → is_list h' l (l1 ++ l2).
Proof.
  intros [Hl Hnd Hnum Hsm Hcon Hend Hidx] [En Ep Ec Em Ei Ev _].
  destruct (NoDup_circle l _ Hnd) as [Hnd1 Hnd2]. rewrite fmap_app, fmap_cons in Hl, Hnd1, Hnd2.
  assert (Hnd' := Hnd). rewrite <- Permutation_middle in Hnd'. apply NoDup_cons in Hnd' as [Hx Hnd'].
  split; try done.
  - rewrite fmap_app. eapply (links_remove h h' (Item x)); eauto.
    by rewrite <- (assoc_L (++)) in Hnd2.
  - rewrite Em, fn_lookup_insert, Hnum. rewrite !length_app in *. cbn [length] in *.
    rewrite u32_small by lia. lia.
  - rewrite !length_app in *. cbn [length] in *. lia.
  - intros y Hy. rewrite Ec, fn_lookup_insert_ne by (intros [= ->]; done). apply Hcon. set_solver.
  - by rewrite Ev.
  - rewrite Ei. destruct (decide (l = l ∧ pxIndex h l = Item x)) as [E|E].
    + destruct (before_in l l1) as [->|(y & Hy & ->)]; [by left|right]. exists y. set_solver.
    + destruct Hidx as [->|(y & Hy & E')]; [by left|right]. exists y. split; [|done].
      assert (y ≠ x) by (intros ->; apply E; done). set_solver.
Qed.

Lemma taken_out_frame l l1 l2 x h h' l' ys :
  is_list h l (l1 ++ x :: l2) → taken_out l l1 l2 x h h' → l' ≠ l →
  is_list h l' ys → is_list h' l' ys.
Proof.
  intros Hlist [En Ep Ec Em Ei Ev _] Hne [Hl Hnd Hnum Hsm Hcon Hend Hidx].
  assert (Hcx := il_container _ _ _ Hlist x ltac:(set_solver)).
  assert (Hgap : ∀ c, c ∈ End l' :: (Item <$> ys) → c ≠ before l l1 ∧ c ≠ after l l2).
  { intros c Hc. assert (Hf : foreign h l l' c).
    { apply elem_of_cons in Hc as [->|(y & -> & Hy)%list_elem_of_fmap]; [done|by apply Hcon]. }
    split; [by eapply (gap_foreign h l l' _ l1 (x :: l2))|].
    eapply (gap_foreign h l l' _ (l1 ++ [x]) l2); eauto. by rewrite <- (assoc_L (++)). }
  split; try done.
  - eapply links_ext; [exact Hl|..]; intros c Hc.
    + destruct (Hgap c Hc) as (H1 & H2). by rewrite En, !decide_False.
    + destruct (Hgap c) as (H1 & H2); [set_solver|]. by rewrite Ep, !decide_False.
  - by rewrite Em, fn_lookup_insert_ne by congruence.
  - intros y Hy. rewrite Ec, fn_lookup_insert_ne; [by apply Hcon|].
    intros [= ->]. rewrite Hcon in Hcx by done. congruence.
  - by rewrite Ev.
  - rewrite Ei, decide_False; [done|naive_solver].
Qed.

(** ** listGET_OWNER_OF_NEXT_ENTRY: the turns of the items *)

(** Only the index of [l] differs. *)
Record moved (l : Z) (a : addr) (h h' : heap) : Prop := {
  mv_next : h'.(pxNext) = h.(pxNext);
  mv_prev : h'.(pxPrevious) = h.(pxPrevious);
  mv_container : h'.(pvContainer) = h.(pvContainer);
  mv_number : h'.(uxNumberOfItems) = h.(uxNumberOfItems);
  mv_value : h'.(xItemValue) = h.(xItemValue);
  mv_owner : h'.(pvOwner) = h.(pvOwner);
  mv_index k : h'.(pxIndex) k = if decide (k = l) then a else h.(pxIndex) k;
}.

Lemma links_same h h' a xs z : h'.(pxNext) = h.(pxNext) → h'.(pxPrevious) = h.(pxPrevious) →
  links h a xs z → links h' a xs z.
Proof. intros E1 E2 Hl. eapply links_ext; [exact Hl|..]; intros; by rewrite ?E1, ?E2. Qed.

Lemma moved_list l x h h' l' ys : moved l (Item x) h h' → (l' = l → x ∈ ys) →
  is_list h l' ys → is_list h' l' ys.
Proof.
  intros [E1 E2 E3 E4 E5 E6 E7] Hx [Hl Hnd Hnum Hsm Hcon Hend Hidx].
  split; rewrite ?E3, ?E4, ?E5; try done; [by eapply links_same|].
  rewrite E7. destruct (decide (l' = l)) as [->|]; [right; exists x; auto|done].
Qed.

(** It is the turn of the [t]-th item (modulo the length): the index is at the
    item before it. *)
Definition turn (h : heap) (l : Z) (xs : list Z) (t : nat) : Prop :=
  h.(pxIndex) l = End l ∧ (t `mod` length xs = 0)%nat
  ∨ ∃ p y, (t `mod` length xs = S p `mod` length xs)%nat ∧ xs !! p = Some y ∧ h.(pxIndex) l = Item y.

Lemma next_of h l xs p y : is_list h l xs → xs !! p = Some y →
  h.(pxNext) (Item y) = match xs !! S p with Some z => Item z | None => End l end.
Proof.
  intros Hlist Hp. assert (E := take_drop_middle xs p y Hp). rewrite <- E in Hlist.
  destruct (in_list_neighbours _ _ _ _ _ Hlist) as [_ ->]. unfold after.
  replace (xs !! S p) with (drop (S p) xs !! 0%nat) by (rewrite lookup_drop; f_equal; lia).
  by destruct (drop (S p) xs).
Qed.

Lemma first_of h l xs : is_list h l xs →
  h.(pxNext) (End l) = match xs !! 0%nat with Some z => Item z | None => End l end.
Proof. intros Hlist. rewrite (links_first _ _ _ _ (il_links _ _ _ Hlist)). by destruct xs. Qed.

Lemma next_entry_turn h l xs t x : is_list h l xs → turn h l xs t →
  xs !! (t `mod` length xs)%nat = Some x →
  ∃ h', listGET_OWNER_OF_NEXT_ENTRY l h = (h.(pvOwner) (Item x), h')
    ∧ moved l (Item x) h h' ∧ turn h' l xs (S t).
Proof.
  intros Hlist Ht Hx. assert (Hn : length xs ≠ 0%nat) by (destruct xs; [done|simpl; lia]).
  assert (Hfirst := first_of _ _ _ Hlist).
  assert (Hidx : (h.(pxNext) (h.(pxIndex) l) = Item x)
    ∨ h.(pxNext) (h.(pxIndex) l) = End l ∧ h.(pxNext) (End l) = Item x).
  { destruct Ht as [[-> E0]|(p & y & Ep & Hp & ->)].
    - left. rewrite Hfirst. by rewrite E0 in Hx; rewrite Hx.
    - rewrite (next_of _ _ _ _ _ Hlist Hp).
      assert (p < length xs)%nat by (by eapply lookup_lt_Some).
      destruct (decide (S p = length xs)) as [E|E].
      + right. rewrite (lookup_ge_None_2 xs (S p)) by lia. split; [done|].
        rewrite Hfirst. rewrite Ep, E, Nat.Div0.mod_same in Hx. by rewrite Hx.
      + left. rewrite Ep, Nat.mod_small in Hx by lia. by rewrite Hx. }
  assert (Hturn : ∀ h', h'.(pxIndex) l = Item x → turn h' l xs (S t)).
  { intros h' E. right. exists (t `mod` length xs)%nat, x. split_and!; [|done|done].
    by rewrite <- Nat.add_1_l, <- (Nat.add_1_l (_ `mod` _)), Nat.Div0.add_mod_idemp_r. }
  unfold listGET_OWNER_OF_NEXT_ENTRY. cbn [set_index pxIndex pxNext].
  rewrite fn_lookup_insert. destruct Hidx as [E|[E1 E2]].
  - rewrite E, decide_False by done.
    eexists. split; [cbn; rewrite fn_lookup_insert; reflexivity|].
    split; [|apply Hturn; cbn; by rewrite fn_lookup_insert].
    split; try done. intros k. cbn. unfold insert, fn_insert. repeat case_decide; congruence.
  - rewrite E1, decide_True by done. cbn [pxNext set_index pxIndex]. rewrite ?fn_lookup_insert, E2.
    eexists. split; [reflexivity|].
    split; [|apply Hturn; cbn; by rewrite fn_lookup_insert].
    split; try done. intros k. cbn. unfold insert, fn_insert. repeat case_decide; congruence.
Qed.

(** The owners of the next [k] entries. *)
Fixpoint next_owners (k : nat) (l : Z) (h : heap) : list Z * heap :=
  match k with
  | O => ([], h)
  | S k' => let '(o, h) := listGET_OWNER_OF_NEXT_ENTRY l h in
            let '(os, h) := next_owners k' l h in (o :: os, h)
  end.

Lemma next_owners_turns k : ∀ h l xs t, is_list h l xs → xs ≠ [] → turn h l xs t →
  ∃ os h', next_owners k l h = (os, h') ∧ is_list h' l xs ∧ turn h' l xs (t + k)
    ∧ os = (λ i, h.(pvOwner) (Item (default 0 (xs !! (i `mod` length xs)%nat)))) <$> seq t k.
Proof.
  induction k as [|k IH]; intros h l xs t Hlist Hne Ht.
  { exists [], h. by rewrite Nat.add_0_r. }
  assert (Hx : is_Some (xs !! (t `mod` length xs)%nat)).
  { apply lookup_lt_is_Some, Nat.mod_upper_bound. by destruct xs. }
  destruct Hx as [x Hx]. destruct (next_entry_turn _ _ _ _ _ Hlist Ht Hx) as (h1 & E & Hm & Ht1).
  assert (Hl1 : is_list h1 l xs).
  { eapply moved_list; [exact Hm| |done]. intros _. by eapply list_elem_of_lookup_2. }
  destruct (IH h1 l xs (S t) Hl1 Hne Ht1) as (os & h2 & E2 & Hl2 & Ht2 & ->).
  cbn [next_owners]. rewrite E, E2. eexists _, _. split; [reflexivity|].
  split; [done|]. split; [by rewrite Nat.add_succ_r|].
  cbn [seq fmap list_fmap]. rewrite Hx. cbn [default id]. by rewrite (mv_owner _ _ _ _ Hm).
Qed.

(** The items at consecutive turns, without and with a wrap-around. *)
Lemma items_seq (f : Z → Z) xs a b : (a + b ≤ length xs)%nat →
  (λ i, f (default 0 (xs !! (i `mod` length xs)%nat))) <$> seq a b = f <$> take b (drop a xs).
Proof.
  revert a. induction b as [|b IH]; intros a Hab; [done|]. cbn [seq fmap list_fmap].
  rewrite Nat.mod_small by lia.
  destruct (drop a xs) as [|x r] eqn:E.
  { apply (f_equal length) in E. rewrite length_drop in E. simpl in E. lia. }
  assert (Ex : xs !! a = Some x).
  { rewrite <- (Nat.add_0_r a), <- lookup_drop, E. done. }
  rewrite Ex. cbn [default id take fmap list_fmap]. f_equal.
  unfold fmap in IH. rewrite IH by lia.
  by rewrite <- Nat.add_1_r, <- drop_drop, E.
Qed.

Lemma items_wrap (f : Z → Z) xs a b : xs ≠ [] → (a ≤ length xs)%nat → (b ≤ length xs)%nat →
  (λ i, f (default 0 (xs !! (i `mod` length xs)%nat))) <$> seq a (length xs - a + b)
  = f <$> drop a xs ++ take b xs.
Proof.
  intros Hne Ha Hb. rewrite seq_app, !fmap_app, items_seq by lia. f_equal.
  - rewrite take_ge; [done|]. rewrite length_drop. lia.
  - assert (H0 := items_seq f xs 0 b ltac:(lia)). rewrite drop_0 in H0. rewrite <- H0.
    replace (a + (length xs - a))%nat with (length xs + 0)%nat by lia.
    rewrite <- fmap_add_seq, <- list_fmap_compose. apply list_fmap_ext. intros _ i _. unfold compose.
    do 3 f_equal. rewrite Nat.add_comm, <- (Nat.mul_1_l (length xs)) at 1.
    apply Nat.Div0.mod_add.
Qed.
