(* ===== verification/FrSeq.v ===== *)
(** FrSeq: the lists of the kernel as sequences.

    The promise of FrList to its clients: a list is the sequence of its items
    and the position of its walking index; an item has a value and knows the
    list it is in.  The operations fail where list.c would corrupt a list (an
    item is put in while it is in a list already) or follow a null pointer. *)

From stdpp Require Import functions sorting.
From S2P Require Import Prelude FrList FrListSpec.

(** ** The store of lists *)

Record store (item lid : Type) := Store {
  elems : lid → list item;
  index : lid → option item;   (** [None]: at the end marker *)
  value : item → Z;
  container : item → option lid;
}.
Arguments Store {_ _} _ _ _ _.
Arguments elems {_ _} _ _.
Arguments index {_ _} _ _.
Arguments value {_ _} _ _.
Arguments container {_ _} _ _.

Section Ops.
Context {item lid : Type} `{EqDecision item, EqDecision lid}.
Implicit Types (s : store item lid) (x y : item) (l : lid) (xs : list item).

(** Put [x] in front of the index. *)
Fixpoint put_before (i : option item) x xs : list item :=
  match xs with
  | [] => [x]
  | y :: xs' => if decide (i = Some y) then x :: y :: xs' else y :: put_before i x xs'
  end.

(** Put [x] behind the longest prefix of items with at most its value. *)
Fixpoint put_sorted (val : item → Z) x xs : list item :=
  match xs with
  | [] => [x]
  | y :: xs' => if val y <=? val x then y :: put_sorted val x xs' else x :: y :: xs'
  end.

(** The item in front of [x]; [None]: the end marker. *)
Fixpoint item_before (prev : option item) x xs : option item :=
  match xs with
  | [] => None
  | y :: xs' => if decide (x = y) then prev else item_before (Some y) x xs'
  end.

(** The item behind [x]; [None]: the end marker. *)
Fixpoint item_after x xs : option item :=
  match xs with
  | [] => None
  | y :: xs' => if decide (x = y) then head xs' else item_after x xs'
  end.

Definition take_out x xs : list item := filter (λ y, y ≠ x) xs.

Definition seq_initialise l s : store item lid :=
  Store (<[l := []]> s.(elems)) (<[l := None]> s.(index)) s.(value) s.(container).

Definition seq_initialise_item x s : store item lid :=
  Store s.(elems) s.(index) s.(value) (<[x := None]> s.(container)).

Definition seq_set_value x (v : Z) s : store item lid :=
  Store s.(elems) s.(index) (<[x := v]> s.(value)) s.(container).

Definition seq_insert_end l x s : option (store item lid) :=
  match s.(container) x with
  | Some _ => None
  | None => Some (Store (<[l := put_before (s.(index) l) x (s.(elems) l)]> s.(elems)) s.(index)
                   s.(value) (<[x := Some l]> s.(container)))
  end.

Definition seq_insert l x s : option (store item lid) :=
  match s.(container) x with
  | Some _ => None
  | None => Some (Store (<[l := put_sorted s.(value) x (s.(elems) l)]> s.(elems)) s.(index)
                   s.(value) (<[x := Some l]> s.(container)))
  end.

Definition seq_remove x s : option (Z * store item lid) :=
  l ← s.(container) x;
  let xs := take_out x (s.(elems) l) in
  let i := if decide (s.(index) l = Some x) then item_before None x (s.(elems) l)
           else s.(index) l in
  Some (zlength xs,
        Store (<[l := xs]> s.(elems)) (<[l := i]> s.(index)) s.(value) (<[x := None]> s.(container))).

Definition seq_length l s : Z := zlength (s.(elems) l).
Definition seq_head l s : option item := head (s.(elems) l).

(** The next item of the walk; [None]: the list is empty. *)
Definition seq_next l s : option (item * store item lid) :=
  let n := match s.(index) l with None => head (s.(elems) l) | Some y => item_after y (s.(elems) l) end in
  y ← match n with None => head (s.(elems) l) | Some y => Some y end;
  Some (y, Store s.(elems) (<[l := Some y]> s.(index)) s.(value) s.(container)).

(** ** The invariant of a store *)

Record store_ok s : Prop := {
  ok_nodup : ∀ l, NoDup (s.(elems) l);
  ok_in : ∀ x l, x ∈ s.(elems) l ↔ s.(container) x = Some l;
  ok_index : ∀ l y, s.(index) l = Some y → y ∈ s.(elems) l;
}.

Lemma put_before_perm i x xs : put_before i x xs ≡ₚ x :: xs.
Proof.
  induction xs as [|y xs IH]; simpl; [done|]. case_decide; [done|]. rewrite IH. constructor.
Qed.

Lemma put_sorted_perm val x xs : put_sorted val x xs ≡ₚ x :: xs.
Proof.
  induction xs as [|y xs IH]; simpl; [done|]. destruct (val y <=? val x); [|done].
  rewrite IH. constructor.
Qed.

Lemma elem_of_take_out x y xs : y ∈ take_out x xs ↔ y ≠ x ∧ y ∈ xs.
Proof. apply (list_elem_of_filter (λ y, y ≠ x)). Qed.

Lemma item_before_in prev x xs y :
  item_before prev x xs = Some y → prev = Some y ∨ y ∈ xs.
Proof.
  revert prev. induction xs as [|z xs IH]; intros prev; simpl; [done|].
  case_decide; [by left|]. intros [[= ->]|]%IH; right; set_solver.
Qed.

Lemma item_before_ne prev x xs y : prev ≠ Some x → item_before prev x xs = Some y → y ≠ x.
Proof.
  revert prev. induction xs as [|z xs IH]; intros prev; simpl; [done|].
  case_decide; [naive_solver|]. intros _ H2. eapply IH; [|done]. congruence.
Qed.

Lemma item_after_in x xs y : item_after x xs = Some y → y ∈ xs.
Proof.
  induction xs as [|z xs IH]; simpl; [done|]. case_decide; [|set_solver].
  destruct xs; simpl; [done|]. intros [= ->]. set_solver.
Qed.

Lemma seq_initialise_ok l s : store_ok s → s.(elems) l = [] → store_ok (seq_initialise l s).
Proof.
  intros [Hnd Hin Hix] He. split; simpl.
  - intros l'. unfold insert, fn_insert. case_decide; [constructor|done].
  - intros x l'. rewrite <- Hin. unfold insert, fn_insert. case_decide; [subst|done].
    by rewrite He.
  - intros l' y. unfold insert, fn_insert. case_decide; [done|auto].
Qed.

Lemma seq_set_value_ok x v s : store_ok s → store_ok (seq_set_value x v s).
Proof. intros [???]. by split. Qed.

(** Any operation that puts [x] somewhere into the list [l]. *)
Lemma put_in_ok l x s xs : store_ok s → s.(container) x = None → xs ≡ₚ x :: s.(elems) l →
  store_ok (Store (<[l := xs]> s.(elems)) s.(index) s.(value) (<[x := Some l]> s.(container))).
Proof.
  intros [Hnd Hin Hix] Hc Hp.
  assert (Hx : ∀ l', x ∉ s.(elems) l') by (intros l' ?%Hin; congruence).
  split; simpl.
  - intros l'. unfold insert, fn_insert. case_decide; [subst|done]. rewrite Hp. by constructor.
  - intros y l'. unfold insert at 1, fn_insert. case_decide; [subst|].
    + rewrite Hp, elem_of_cons, Hin. unfold insert, fn_insert. case_decide; naive_solver.
    + rewrite Hin. unfold insert, fn_insert. case_decide; naive_solver.
  - intros l' y Hy%Hix. unfold insert, fn_insert. case_decide; [subst|done]. rewrite Hp. set_solver.
Qed.

Lemma seq_insert_end_ok l x s s' : store_ok s → seq_insert_end l x s = Some s' → store_ok s'.
Proof.
  unfold seq_insert_end. destruct (container s x) eqn:E; [done|]. intros Hok [= <-].
  apply put_in_ok; [done..|apply put_before_perm].
Qed.

Lemma seq_insert_ok l x s s' : store_ok s → seq_insert l x s = Some s' → store_ok s'.
Proof.
  unfold seq_insert. destruct (container s x) eqn:E; [done|]. intros Hok [= <-].
  apply put_in_ok; [done..|apply put_sorted_perm].
Qed.

Lemma seq_remove_ok x s n s' : store_ok s → seq_remove x s = Some (n, s') → store_ok s'.
Proof.
  unfold seq_remove. destruct (container s x) as [l|] eqn:E; [|done]. simpl.
  intros [Hnd Hin Hix] [= _ <-]. split; simpl.
  - intros l'. unfold insert, fn_insert. case_decide; [apply NoDup_filter, Hnd|done].
  - intros y l'. unfold insert at 1, fn_insert. case_decide; [subst|].
    + rewrite elem_of_take_out, Hin. unfold insert, fn_insert. case_decide; naive_solver.
    + rewrite Hin. unfold insert, fn_insert. case_decide; naive_solver.
  - intros l' y. unfold insert, fn_insert. case_decide as D; [subst l'|apply Hix].
    rewrite elem_of_take_out. destruct (decide (index s l = Some x)) as [D|D].
    + intros H. split; [by apply (item_before_ne None x (elems s l))|].
      apply item_before_in in H as [|]; done.
    + intros H. split; [congruence|auto].
Qed.

Lemma seq_next_ok l s x s' : store_ok s → seq_next l s = Some (x, s') →
  store_ok s' ∧ x ∈ s.(elems) l ∧ s'.(elems) = s.(elems) ∧ s'.(container) = s.(container)
  ∧ s'.(value) = s.(value).
Proof.
  unfold seq_next. intros [Hnd Hin Hix] H.
  set (n := match index s l with None => _ | _ => _ end) in H.
  assert (Hn : ∀ y, n = Some y → y ∈ elems s l).
  { intros y. unfold n. destruct (index s l); [apply item_after_in|].
    destruct (elems s l); simpl; [done|]. intros [= ->]. set_solver. }
  destruct (match n with None => _ | _ => _ end) as [y|] eqn:E; [|done]. injection H as <- <-.
  assert (Hy : y ∈ elems s l).
  { destruct n as [z|]; [injection E as <-; auto|]. destruct (elems s l); simpl in E; [done|].
    injection E as <-. set_solver. }
  split_and!; [|done..]. split; simpl; [done..|].
  intros l' z. unfold insert, fn_insert. case_decide; [subst; congruence|auto].
Qed.

Lemma seq_next_some l s : s.(elems) l ≠ [] → is_Some (seq_next l s).
Proof.
  unfold seq_next. intros H. destruct (elems s l) as [|y xs]; [done|]. simpl.
  destruct (match index s l with None => _ | _ => _ end); simpl; eauto.
Qed.

(** ** Order *)

Definition by_value s : relation item := λ x y, s.(value) x ≤ s.(value) y.
Definition sorted_list s l : Prop := StronglySorted (by_value s) (s.(elems) l).

Lemma put_sorted_sorted (val : item → Z) x xs :
  StronglySorted (λ a b, val a ≤ val b) xs →
  StronglySorted (λ a b, val a ≤ val b) (put_sorted val x xs).
Proof.
  induction xs as [|y xs IH]; simpl; intros Hs; [repeat constructor|].
  apply StronglySorted_inv in Hs as [Hs Hy]. destruct (Z.leb_spec (val y) (val x)) as [L|L].
  - constructor; [auto|]. rewrite put_sorted_perm. by constructor.
  - constructor; [by constructor|]. constructor; [lia|].
    eapply Forall_impl; [done|]. simpl. lia.
Qed.

Lemma take_out_sorted (R : relation item) x xs : StronglySorted R xs → StronglySorted R (take_out x xs).
Proof.
  induction xs as [|y xs IH]; simpl; intros Hs; [done|].
  apply StronglySorted_inv in Hs as [Hs Hy]. unfold take_out. rewrite filter_cons.
  case_decide; [constructor; [auto|]|auto].
  apply Forall_forall. intros z [_ Hz]%list_elem_of_filter. by eapply Forall_forall in Hy.
Qed.

(** Sortedness only looks at the values of the items of the list. *)
Lemma sorted_ext (val val' : item → Z) xs : (∀ x, x ∈ xs → val' x = val x) →
  StronglySorted (λ a b, val a ≤ val b) xs → StronglySorted (λ a b, val' a ≤ val' b) xs.
Proof.
  intros He. induction xs as [|y xs IH]; intros Hs; [constructor|].
  apply StronglySorted_inv in Hs as [Hs Hy]. constructor; [apply IH; set_solver|].
  apply Forall_forall. intros z Hz. rewrite !He by set_solver. by eapply Forall_forall in Hy.
Qed.

End Ops.
