(* ===== verification/FrSeqRefine.v ===== *)
(** FrSeqRefine: the linked lists of FrList implement the sequences of FrSeq.

    [refines D h s]: the heap [h] represents the store [s] on the lists [D].
    Every operation of list.c on the heap does what the operation on the
    sequences does, so a client of FrSeq is a client of list.c. *)

From stdpp Require Import functions.
From S2P Require Import Prelude FrList FrListSpec FrSeq.

(** ** The gaps that the operations on sequences choose *)

Section Gaps.
Context {item : Type} `{EqDecision item}.
Implicit Types (x y : item) (xs : list item).

Lemma put_before_gap i x xs : (∀ y, i = Some y → y ∈ xs) →
  ∃ l1 l2, xs = l1 ++ l2 ∧ put_before i x xs = l1 ++ x :: l2
    ∧ head l2 = i.
Proof.
  induction xs as [|z xs IH]; intros Hi; simpl.
  - exists [], []. split_and!; try done. destruct i as [y|]; [|done]. specialize (Hi y eq_refl). set_solver.
  - case_decide as D; [by exists [], (z :: xs)|].
    destruct IH as (l1 & l2 & -> & -> & Hh).
    + intros y ->. specialize (Hi y eq_refl). set_solver.
    + by exists (z :: l1), l2.
Qed.

Lemma put_sorted_gap val x xs :
  ∃ l1 l2, xs = l1 ++ l2 ∧ put_sorted val x xs = l1 ++ x :: l2
    ∧ Forall (λ y, val y ≤ val x) l1 ∧ (∀ y, head l2 = Some y → val x < val y).
Proof.
  induction xs as [|z xs IH]; simpl; [by exists [], []|].
  destruct (Z.leb_spec (val z) (val x)) as [L|L].
  - destruct IH as (l1 & l2 & -> & -> & H1 & H2). exists (z :: l1), l2. split_and!; auto.
  - exists [], (z :: xs). split_and!; [done..|]. intros y [= <-]. done.
Qed.

(** The longest prefix of elements with a property is determined. *)
Lemma prefix_unique {A} (P : A → Prop) l1 : ∀ l2 k1 k2, l1 ++ l2 = k1 ++ k2 →
  Forall P l1 → Forall P k1 → (∀ z, head l2 = Some z → ¬ P z) → (∀ z, head k2 = Some z → ¬ P z) →
  l1 = k1.
Proof.
  induction l1 as [|x l1 IH]; intros l2 [|y k1] k2 E H1 K1 H2 K2; simpl in *; [done|..].
  - subst l2. apply Forall_cons in K1 as [Hy _]. by destruct (H2 y eq_refl).
  - subst k2. apply Forall_cons in H1 as [Hx _]. by destruct (K2 x eq_refl).
  - injection E as -> E. apply Forall_cons in H1 as [_ H1]. apply Forall_cons in K1 as [_ K1].
    f_equal. by eapply IH.
Qed.

Lemma item_before_split prev x l1 l2 : x ∉ l1 →
  item_before prev x (l1 ++ x :: l2) = match last l1 with Some y => Some y | None => prev end.
Proof.
  revert prev. induction l1 as [|y l1 IH]; intros prev Hx; simpl; [by rewrite decide_True|].
  rewrite decide_False by set_solver. rewrite IH by set_solver.
  destruct l1 as [|z l1]; [done|]. change (last (y :: z :: l1)) with (last (z :: l1)).
  by destruct (last (z :: l1)) eqn:E; [|apply last_None in E].
Qed.

Lemma item_after_split x l1 l2 : x ∉ l1 → item_after x (l1 ++ x :: l2) = head l2.
Proof.
  induction l1 as [|y l1 IH]; intros Hx; simpl; [by rewrite decide_True|].
  rewrite decide_False by set_solver. apply IH. set_solver.
Qed.

Lemma take_out_split x l1 l2 : x ∉ l1 ++ l2 → take_out x (l1 ++ x :: l2) = l1 ++ l2.
Proof.
  intros Hx. unfold take_out. rewrite filter_app, filter_cons, decide_False by naive_solver.
  rewrite <- filter_app. induction (l1 ++ l2) as [|y l IH]; [done|].
  rewrite filter_cons, decide_True by set_solver. f_equal. apply IH. set_solver.
Qed.

End Gaps.

Section Refine.
Context {item lid : Type} `{EqDecision item, EqDecision lid}.
Context (ci : item → Z) (cl : lid → Z) `{!Inj (=) (=) ci, !Inj (=) (=) cl}.
Context (owner : item → Z).
Implicit Types (s : store item lid) (D : lid → Prop).

Definition index_addr (l : lid) (i : option item) : addr :=
  match i with None => End (cl l) | Some x => Item (ci x) end.

Record refines D (h : heap) s : Prop := {
  rf_ok : store_ok s;
  rf_list l : D l → is_list h (cl l) (ci <$> s.(elems) l);
  rf_index l : D l → h.(pxIndex) (cl l) = index_addr l (s.(index) l);
  rf_value x : h.(xItemValue) (Item (ci x)) = s.(value) x;
  rf_owner x : h.(pvOwner) (Item (ci x)) = owner x;
  rf_container x : h.(pvContainer) (Item (ci x)) = cl <$> s.(container) x;
  rf_range x : 0 ≤ s.(value) x ≤ portMAX_DELAY;
  rf_dom x l : s.(container) x = Some l → D l;
}.

Lemma ci_elem x (xs : list item) : ci x ∈ ci <$> xs ↔ x ∈ xs.
Proof.
  rewrite list_elem_of_fmap. split; [intros (y & E & Hy)|eauto]. by apply (inj ci) in E as ->.
Qed.

Lemma free_item D h s x l : refines D h s → s.(container) x = None → ci x ∉ ci <$> s.(elems) l.
Proof. intros Hr Hc. rewrite ci_elem, (ok_in _ (rf_ok _ _ _ Hr)). congruence. Qed.

(** Linking an item in at the gap that the operation on the sequence chose. *)
Lemma put_in_refines D h s l x l1 l2 h' : refines D h s → D l → s.(container) x = None →
  s.(elems) l = l1 ++ l2 → zlength (s.(elems) l) < 2 ^ 32 - 2 →
  linked_in (cl l) (ci <$> l1) (ci <$> l2) (ci x) h h' →
  refines D h' (Store (<[l := l1 ++ x :: l2]> s.(elems)) s.(index) s.(value)
                  (<[x := Some l]> s.(container))).
Proof.
  intros Hr Hl Hc El Hsz Hin. assert (Hfree := free_item _ _ _ _ l Hr Hc).
  assert (Hlist := rf_list _ _ _ Hr l Hl). rewrite El, fmap_app in Hlist, Hfree.
  split; simpl.
  - apply put_in_ok; [by apply Hr|done|]. by rewrite El, Permutation_middle.
  - intros l' Hl'. destruct (decide (l' = l)) as [->|Hne].
    + rewrite fn_lookup_insert, fmap_app, fmap_cons. eapply linked_in_list; eauto.
      rewrite El, <- (length_fmap ci), fmap_app in Hsz. done.
    + rewrite fn_lookup_insert_ne by done.
      eapply linked_in_frame; [exact Hlist|exact Hin|by intros ?%(inj cl)|by apply Hr|].
      by eapply free_item.
  - intros l' Hl'. rewrite (li_index _ _ _ _ _ _ Hin). by apply Hr.
  - intros y. rewrite (li_value _ _ _ _ _ _ Hin). apply Hr.
  - intros y. rewrite (li_owner _ _ _ _ _ _ Hin). apply Hr.
  - intros y. rewrite (li_container _ _ _ _ _ _ Hin). destruct (decide (y = x)) as [->|Hne].
    + by rewrite !fn_lookup_insert.
    + rewrite !fn_lookup_insert_ne by (done || by intros [= E%(inj ci)]). apply Hr.
  - apply Hr.
  - intros y l'. unfold insert, fn_insert. case_decide; [by intros [= ->]|apply Hr].
Qed.

Lemma insert_end_refines D h s l x s' : refines D h s → D l → zlength (s.(elems) l) < 2 ^ 32 - 2 →
  seq_insert_end l x s = Some s' → refines D (vListInsertEnd (cl l) (Item (ci x)) h) s'.
Proof.
  unfold seq_insert_end. intros Hr Hl Hsz. destruct (container s x) eqn:Hc; [done|]. intros [= <-].
  destruct (put_before_gap (index s l) x (elems s l)) as (l1 & l2 & El & -> & Hh).
  { apply Hr. }
  eapply put_in_refines; try done. assert (Hfree := free_item _ _ _ _ l Hr Hc).
  assert (Hlist := rf_list _ _ _ Hr l Hl). rewrite El, fmap_app in Hlist, Hfree.
  apply insert_end_linked_in; [done..|]. rewrite (rf_index _ _ _ Hr l Hl), <- Hh.
  by destruct l2.
Qed.

Lemma insert_refines fuel D h s l x s' : refines D h s → D l → zlength (s.(elems) l) < 2 ^ 32 - 2 →
  (length (s.(elems) l) ≤ fuel)%nat → seq_insert l x s = Some s' →
  ∃ h', vListInsert fuel (cl l) (Item (ci x)) h = Some h' ∧ refines D h' s'.
Proof.
  unfold seq_insert. intros Hr Hl Hsz Hf. destruct (container s x) eqn:Hc; [done|]. intros [= <-].
  destruct (put_sorted_gap (value s) x (elems s l)) as (l1 & l2 & El & Hp & H1 & H2). rewrite Hp.
  assert (Hfree := free_item _ _ _ _ l Hr Hc). assert (Hlist := rf_list _ _ _ Hr l Hl).
  assert (Hv := rf_value _ _ _ Hr). assert (Hrg := rf_range _ _ _ Hr).
  rewrite El, fmap_app in Hlist, Hfree.
  destruct (insert_linked_in fuel (cl l) (ci x) h (ci <$> l1) (ci <$> l2) Hlist Hfree)
    as (h' & Eh & Hin); [|exists h'; split; [done|by eapply put_in_refines]].
  rewrite Hv. destruct (Z.eqb_spec (value s x) portMAX_DELAY) as [E|E].
  - f_equal. destruct l2 as [|y l2].
    + rewrite app_nil_r in Hlist. exact (links_last _ _ _ _ (il_links _ _ _ Hlist)).
    + specialize (H2 y eq_refl). specialize (Hrg y). lia.
  - specialize (Hrg x).
    destruct (insert_position_spec (cl l) (value s x) h ltac:(apply Hlist) ltac:(lia)
                (ci <$> l1 ++ l2) (End (cl l)) fuel) as (k1 & k2 & Ek & K1 & K2 & ->).
    + rewrite fmap_app. apply Hlist.
    + rewrite length_fmap, <- El. done.
    + rewrite fmap_app in Ek. unfold before. do 4 f_equal. symmetry.
      apply (prefix_unique (λ y, xItemValue h (Item y) ≤ value s x) _ _ _ _ Ek).
      * apply Forall_fmap. eapply Forall_impl; [exact H1|]. intros y. simpl. by rewrite Hv.
      * done.
      * intros y Hy. destruct l2 as [|z l2]; [done|]. injection Hy as <-. rewrite Hv.
        specialize (H2 z eq_refl). lia.
      * intros y Hy. specialize (K2 y Hy). lia.
Qed.

Lemma remove_refines D h s x n s' : refines D h s → seq_remove x s = Some (n, s') →
  ∃ h', uxListRemove (Item (ci x)) h = Some (n, h') ∧ refines D h' s'.
Proof.
  unfold seq_remove. intros Hr. destruct (container s x) as [l|] eqn:Hc; [|done]. simpl.
  intros [= <- <-]. assert (Hl := rf_dom _ _ _ Hr _ _ Hc). assert (Hok := rf_ok _ _ _ Hr).
  assert (Hx : x ∈ elems s l) by (by apply Hok).
  assert (Hnd := ok_nodup _ Hok l). assert (Hlist := rf_list _ _ _ Hr l Hl).
  assert (Hok' := seq_remove_ok x s _ _ Hok
    ltac:(unfold seq_remove; rewrite Hc; reflexivity)).
  apply list_elem_of_split in Hx as (l1 & l2 & El). rewrite El in Hnd.
  assert (Hnd' := Hnd). rewrite <- Permutation_middle in Hnd'. apply NoDup_cons in Hnd' as [Hx _].
  rewrite El in *. rewrite take_out_split, item_before_split in * by set_solver.
  rewrite fmap_app, fmap_cons in Hlist.
  destruct (remove_taken_out _ _ _ _ _ Hlist) as (h' & Eh & Ht). exists h'.
  rewrite <- fmap_app, length_fmap in Eh. split; [done|]. split; simpl; [done|..].
  - intros l' Hl'. destruct (decide (l' = l)) as [->|Hne].
    + rewrite fn_lookup_insert, fmap_app. by eapply taken_out_list.
    + rewrite fn_lookup_insert_ne by done.
      eapply taken_out_frame; [exact Hlist|exact Ht|by intros ?%(inj cl)|by apply Hr].
  - intros l' Hl'. rewrite (to_index _ _ _ _ _ _ Ht), !(rf_index _ _ _ Hr) by done.
    destruct (decide (l' = l)) as [->|Hne].
    + rewrite fn_lookup_insert. destruct (decide (index s l = Some x)) as [E|E].
      * rewrite decide_True by (rewrite E; done). unfold before.
        rewrite !fmap_last. by destruct (last l1).
      * rewrite decide_False; [done|]. intros [_ H]. apply E.
        destruct (index s l); [|done]. injection H as H. by apply (inj ci) in H as ->.
    + rewrite fn_lookup_insert_ne by done. rewrite decide_False; [done|].
      by intros [?%(inj cl) _].
  - intros y. rewrite (to_value _ _ _ _ _ _ Ht). apply Hr.
  - intros y. rewrite (to_owner _ _ _ _ _ _ Ht). apply Hr.
  - intros y. rewrite (to_container _ _ _ _ _ _ Ht). destruct (decide (y = x)) as [->|Hne].
    + by rewrite !fn_lookup_insert.
    + rewrite !fn_lookup_insert_ne by (done || by intros [= E%(inj ci)]). apply Hr.
  - apply Hr.
  - intros y l'. unfold insert, fn_insert. destruct (decide (x = y)); [done|apply Hr].
Qed.

Lemma set_value_refines D h s x v : refines D h s → 0 ≤ v ≤ portMAX_DELAY →
  refines D (set_value (Item (ci x)) v h) (seq_set_value x v s).
Proof.
  intros Hr Hv. split; simpl.
  - apply seq_set_value_ok, Hr.
  - intros l Hl. destruct (rf_list _ _ _ Hr l Hl) as [H1 H2 H3 H4 H5 H6 H7]. split; simpl; try done.
    eapply links_same; [..|exact H1]; done.
  - apply Hr.
  - intros y. destruct (decide (y = x)) as [->|Hne]; [by rewrite !fn_lookup_insert|].
    rewrite !fn_lookup_insert_ne by (done || by intros [= E%(inj ci)]). apply Hr.
  - apply Hr.
  - apply Hr.
  - intros y. unfold insert, fn_insert. case_decide; [done|apply Hr].
  - apply Hr.
Qed.

(** The index of a list is moved to one of its items. *)
Lemma moved_refines D h s l x h' : refines D h s → D l → x ∈ s.(elems) l →
  moved (cl l) (Item (ci x)) h h' →
  refines D h' (Store s.(elems) (<[l := Some x]> s.(index)) s.(value) s.(container)).
Proof.
  intros Hr Hl Hx Hm. split; simpl.
  - destruct (rf_ok _ _ _ Hr) as [H1 H2 H3]. split; simpl; [done..|].
    intros l' y. unfold insert, fn_insert. case_decide; [subst; congruence|auto].
  - intros l' Hl'. eapply moved_list; [exact Hm| |by apply Hr].
    intros ->%(inj cl). by apply ci_elem.
  - intros l' Hl'. rewrite (mv_index _ _ _ _ Hm). destruct (decide (l' = l)) as [->|Hne].
    + by rewrite decide_True, fn_lookup_insert.
    + rewrite decide_False by (by intros ?%(inj cl)). rewrite fn_lookup_insert_ne by done. by apply Hr.
  - intros y. rewrite (mv_value _ _ _ _ Hm). apply Hr.
  - intros y. rewrite (mv_owner _ _ _ _ Hm). apply Hr.
  - intros y. rewrite (mv_container _ _ _ _ Hm). apply Hr.
  - apply Hr.
  - apply Hr.
Qed.

Lemma next_refines D h s l x s' : refines D h s → D l → seq_next l s = Some (x, s') →
  ∃ h', listGET_OWNER_OF_NEXT_ENTRY (cl l) h = (owner x, h') ∧ refines D h' s'.
Proof.
  intros Hr Hl H. assert (Hlist := rf_list _ _ _ Hr l Hl).
  assert (Hi := rf_index _ _ _ Hr l Hl). assert (Hok := rf_ok _ _ _ Hr).
  destruct (seq_next_ok l s x s' Hok H) as (_ & Hy & _). unfold seq_next in H.
  assert (Hfirst : pxNext h (End (cl l)) = index_addr l (head (elems s l))).
  { rewrite (links_first _ _ _ _ (il_links _ _ _ Hlist)). by destruct (elems s l). }
  set (n := match index s l with None => _ | _ => _ end) in H.
  assert (Hn : pxNext h (pxIndex h (cl l)) = index_addr l n).
  { rewrite Hi. unfold n. destruct (index s l) as [y|] eqn:Ey; [|done].
    apply (ok_index _ Hok) in Ey. assert (Hnd := ok_nodup _ Hok l).
    apply list_elem_of_split in Ey as (l1 & l2 & El). rewrite El in *.
    rewrite <- Permutation_middle in Hnd. apply NoDup_cons in Hnd as [Hny _].
    rewrite item_after_split by set_solver. rewrite fmap_app, fmap_cons in Hlist.
    destruct (in_list_neighbours _ _ _ _ _ Hlist) as [_ E]. simpl. rewrite E. by destruct l2. }
  destruct (match n with None => _ | _ => _ end) as [y|] eqn:E; [|done]. injection H as <- <-.
  unfold listGET_OWNER_OF_NEXT_ENTRY. cbn [set_index pxIndex pxNext].
  rewrite fn_lookup_insert, Hn.
  set (h' := if decide _ then _ else _).
  assert (Hm : moved (cl l) (Item (ci y)) h h').
  { unfold h'. destruct n as [z|].
    - injection E as ->. rewrite decide_False by done.
      split; try done. intros k. cbn. unfold insert, fn_insert. repeat case_decide; congruence.
    - rewrite decide_True by done. cbn [set_index pxIndex pxNext]. rewrite ?fn_lookup_insert.
      simpl. rewrite Hfirst, E.
      split; try done. intros k. cbn. unfold insert, fn_insert. repeat case_decide; congruence. }
  exists h'. split; [|by eapply moved_refines].
  rewrite (mv_index _ _ _ _ Hm), decide_True, (mv_owner _ _ _ _ Hm) by done. by rewrite (rf_owner _ _ _ Hr).
Qed.

Lemma empty_refines D h s l : refines D h s → D l →
  listLIST_IS_EMPTY (cl l) h = (seq_length l s =? 0).
Proof.
  intros Hr Hl. unfold listLIST_IS_EMPTY, seq_length.
  by rewrite (il_number _ _ _ (rf_list _ _ _ Hr l Hl)), length_fmap.
Qed.

Lemma head_refines D h s l x : refines D h s → D l → seq_head l s = Some x →
  listGET_HEAD_ENTRY (cl l) h = Item (ci x) ∧ listGET_OWNER_OF_HEAD_ENTRY (cl l) h = owner x
  ∧ listGET_ITEM_VALUE_OF_HEAD_ENTRY (cl l) h = s.(value) x.
Proof.
  intros Hr Hl Hx. unfold listGET_OWNER_OF_HEAD_ENTRY, listGET_ITEM_VALUE_OF_HEAD_ENTRY, listGET_HEAD_ENTRY.
  rewrite (links_first _ _ _ _ (il_links _ _ _ (rf_list _ _ _ Hr l Hl))).
  unfold seq_head in Hx. destruct (elems s l); [done|]. injection Hx as ->. simpl.
  by rewrite (rf_owner _ _ _ Hr), (rf_value _ _ _ Hr).
Qed.

(** ** Programs of list operations *)

Inductive list_op :=
  | SetValue (x : item) (v : Z)
  | Insert (l : lid) (x : item)
  | InsertEnd (l : lid) (x : item)
  | Remove (x : item)
  | Next (l : lid)
  | IsEmpty (l : lid)
  | HeadOwner (l : lid).

(** One operation on the heap: its result and the new heap. *)
Definition run_heap (fuel : nat) (o : list_op) (h : heap) : option (Z * heap) :=
  match o with
  | SetValue x v => Some (0, set_value (Item (ci x)) (u32 v) h)
  | Insert l x => h ← vListInsert fuel (cl l) (Item (ci x)) h; Some (0, h)
  | InsertEnd l x => Some (0, vListInsertEnd (cl l) (Item (ci x)) h)
  | Remove x => uxListRemove (Item (ci x)) h
  | Next l => Some (listGET_OWNER_OF_NEXT_ENTRY (cl l) h)
  | IsEmpty l => Some (Z.b2z (listLIST_IS_EMPTY (cl l) h), h)
  | HeadOwner l => Some (listGET_OWNER_OF_HEAD_ENTRY (cl l) h, h)
  end.

(** The same on the sequences; [None]: the operation is not allowed. *)
Definition run_seq (o : list_op) s : option (Z * store item lid) :=
  match o with
  | SetValue x v => Some (0, seq_set_value x (u32 v) s)
  | Insert l x => s ← seq_insert l x s; Some (0, s)
  | InsertEnd l x => s ← seq_insert_end l x s; Some (0, s)
  | Remove x => seq_remove x s
  | Next l => '(x, s) ← seq_next l s; Some (owner x, s)
  | IsEmpty l => Some (Z.b2z (seq_length l s =? 0), s)
  | HeadOwner l => x ← seq_head l s; Some (owner x, s)
  end.

Definition on_list D (o : list_op) : Prop :=
  match o with
  | Insert l _ | InsertEnd l _ | Next l | IsEmpty l | HeadOwner l => D l
  | SetValue _ _ | Remove _ => True
  end.

Fixpoint run_all {S} (run : list_op → S → option (Z * S)) (os : list list_op) (s : S)
    : option (list Z * S) :=
  match os with
  | [] => Some ([], s)
  | o :: os => '(r, s) ← run o s; '(rs, s) ← run_all run os s; Some (r :: rs, s)
  end.

Lemma run_refines fuel o D h s r s' : refines D h s → on_list D o →
  (∀ l, zlength (s.(elems) l) < 2 ^ 32 - 2 ∧ (length (s.(elems) l) ≤ fuel)%nat) →
  run_seq o s = Some (r, s') →
  ∃ h', run_heap fuel o h = Some (r, h') ∧ refines D h' s'.
Proof.
  intros Hr Ho Hsz H. destruct o as [x v|l x|l x|x|l|l|l]; simpl in *.
  - injection H as <- <-. eexists. split; [done|]. apply set_value_refines; [done|].
    unfold portMAX_DELAY. zsolve.
  - destruct (seq_insert l x s) eqn:E; [|done]. simpl in H. injection H as <- <-.
    destruct (Hsz l) as [S1 S2].
    destruct (insert_refines fuel D h s l x s0 Hr Ho S1 S2 E) as (h' & -> & ?). simpl. eauto.
  - destruct (seq_insert_end l x s) eqn:E; [|done]. simpl in H. injection H as <- <-.
    eexists. split; [done|]. eapply insert_end_refines; eauto. apply Hsz.
  - eapply remove_refines; eauto.
  - destruct (seq_next l s) as [[x s1]|] eqn:E; [|done]. simpl in H. injection H as <- <-.
    edestruct next_refines as (h' & -> & ?); eauto.
  - injection H as <- <-. exists h. erewrite empty_refines; eauto.
  - destruct (seq_head l s) as [x|] eqn:E; [|done]. simpl in H. injection H as <- <-.
    exists h. by destruct (head_refines D h s l x) as (_ & -> & _).
Qed.

(** An operation makes a list longer by at most one. *)
Lemma run_grows o s r s' l : run_seq o s = Some (r, s') →
  (length (s'.(elems) l) ≤ S (length (s.(elems) l)))%nat.
Proof.
  intros H. destruct o as [x v|k x|k x|x|k|k|k]; simpl in H.
  - injection H as _ <-. simpl. lia.
  - unfold seq_insert in H. destruct (container s x); [done|]. injection H as _ <-. simpl.
    unfold insert, fn_insert. case_decide; [subst; rewrite put_sorted_perm; simpl|]; lia.
  - unfold seq_insert_end in H. destruct (container s x); [done|]. injection H as _ <-. simpl.
    unfold insert, fn_insert. case_decide; [subst; rewrite put_before_perm; simpl|]; lia.
  - unfold seq_remove in H. destruct (container s x) as [k|]; [|done]. injection H as _ <-. simpl.
    unfold insert at 1, fn_insert. case_decide; [subst|lia]. unfold take_out.
    assert (L := length_filter (λ y, y ≠ x) (elems s l)). lia.
  - unfold seq_next in H. destruct (match match index s k with None => _ | _ => _ end with None => _ | _ => _ end);
      [|done]. injection H as _ <-. simpl. lia.
  - injection H as _ <-. lia.
  - destruct (seq_head k s); [|done]. injection H as _ <-. lia.
Qed.

Lemma run_all_refines fuel D os : ∀ h s rs s', refines D h s → Forall (on_list D) os →
  (∀ l, zlength (s.(elems) l) + zlength os < 2 ^ 32 - 1
        ∧ (length (s.(elems) l) + length os ≤ fuel)%nat) →
  run_all run_seq os s = Some (rs, s') →
  ∃ h', run_all (run_heap fuel) os h = Some (rs, h') ∧ refines D h' s'.
Proof.
  induction os as [|o os IH]; intros h s rs s' Hr Ho Hsz H; simpl in *.
  { injection H as <- <-. eauto. }
  apply Forall_cons in Ho as [Ho Hos].
  destruct (run_seq o s) as [[r s1]|] eqn:E1; [|done]. simpl in H.
  destruct (run_all run_seq os s1) as [[rs1 s2]|] eqn:E2; [|done]. simpl in H. injection H as <- <-.
  destruct (run_refines fuel o D h s r s1) as (h1 & -> & Hr1); [done..| |done|].
  { intros l. specialize (Hsz l). lia. }
  simpl. destruct (IH h1 s1 rs1 s2) as (h2 & -> & Hr2); [done..| |done|].
  { intros l. specialize (Hsz l). assert (G := run_grows _ _ _ _ l E1). lia. }
  simpl. eauto.
Qed.

End Refine.
