(* ===== verification/FrListTheorems.v ===== *)
(** FrListTheorems: the correctness of the kernel's linked lists. *)

From stdpp Require Import functions sorting.
From S2P Require Import Prelude FrList FrListSpec FrSeq FrSeqRefine.

(** ** A list for the witnesses: the items 1, 2 and 3 with the values 5, 7, 7. *)

Definition blank_heap : heap := {|
  xItemValue := λ a, match a with Item 1 => 5 | Item 2 => 7 | Item 3 => 7 | Item 4 => 6 | _ => 0 end;
  pxNext := λ a, a; pxPrevious := λ a, a;
  pvOwner := λ a, match a with Item i => 100 + i | End _ => 0 end;
  pvContainer := λ _, None; uxNumberOfItems := λ _, 0; pxIndex := λ l, End l |}.

Definition insert_end_all (l : Z) (xs : list Z) (h : heap) : heap :=
  foldl (λ h x, vListInsertEnd l (Item x) h) h xs.

Definition demo_heap_list : heap := insert_end_all 0 [1; 2; 3] (vListInitialise 0 blank_heap).

Lemma demo_is_list : is_list demo_heap_list 0 [1; 2; 3].
Proof.
  split; [| | | | | |by left].
  - repeat split.
  - repeat (apply NoDup_cons; split; [set_solver|]). constructor.
  - reflexivity.
  - simpl; lia.
  - intros x Hx. repeat (apply elem_of_cons in Hx as [->|Hx]; [reflexivity|]). set_solver.
  - reflexivity.
Qed.

Lemma demo_ordered : ordered demo_heap_list [1; 2; 3].
Proof. repeat constructor; vm_compute; discriminate. Qed.

(** Inserting an item into an ordered list of the kernel terminates
    (with fuel for the items of the list) and gives the list with the item
    behind all items of a smaller or equal value and in front of all larger
    ones, so it stays ordered and items of one value keep their order of
    arrival; the count, the containers and both directions of links are right,
    the walking index stays, and every other list is as it was.  This includes
    the value portMAX_DELAY of the end marker. *)
Theorem list_insert_ordered fuel l x xs h :
  is_list h l xs → x ∉ xs → ordered h xs → (length xs ≤ fuel)%nat →
  zlength xs < 2 ^ 32 - 2 → (∀ y, y ∈ x :: xs → 0 ≤ h.(xItemValue) (Item y) ≤ portMAX_DELAY) →
  ∃ l1 l2 h', vListInsert fuel l (Item x) h = Some h' ∧ xs = l1 ++ l2
    ∧ is_list h' l (l1 ++ x :: l2) ∧ ordered h' (l1 ++ x :: l2)
    ∧ Forall (λ y, h.(xItemValue) (Item y) ≤ h.(xItemValue) (Item x)) l1
    ∧ Forall (λ y, h.(xItemValue) (Item x) < h.(xItemValue) (Item y)) l2
    ∧ h'.(pxIndex) = h.(pxIndex)
    ∧ ∀ l' ys, l' ≠ l → is_list h l' ys → x ∉ ys → is_list h' l' ys.
Proof.
  intros Hlist Hx Hord Hf Hsz Hval.
  destruct (insert_spec fuel l x xs h) as (l1 & l2 & h' & -> & E & Hin & H1 & H2 & Ho); try done.
  exists l1, l2, h'. split_and!; try done.
  - by eapply linked_in_list.
  - unfold ordered in *. by rewrite (li_value _ _ _ _ _ _ Hin).
  - apply Hin.
  - intros. by eapply linked_in_frame.
Qed.

Example list_insert_ordered_witness :
  ∃ l1 l2 h', vListInsert 3 0 (Item 4) demo_heap_list = Some h' ∧ [1; 2; 3] = l1 ++ l2
    ∧ is_list h' 0 (l1 ++ 4 :: l2).
Proof.
  destruct (list_insert_ordered 3 0 4 [1; 2; 3] demo_heap_list) as (l1 & l2 & h' & H1 & H2 & H3 & _).
  - exact demo_is_list.
  - set_solver.
  - exact demo_ordered.
  - simpl; lia.
  - simpl; lia.
  - intros y Hy. repeat (apply elem_of_cons in Hy as [->|Hy]; [vm_compute; split; discriminate|]).
    set_solver.
  - by exists l1, l2, h'.
Defined.

(** Removing an item from the list it is in returns the number of
    items that are left, takes exactly that item out of the chain, marks it as
    being in no list, moves the walking index back to its predecessor if it was
    at the item, and leaves every other list as it was. *)
Theorem list_remove_item l l1 x l2 h :
  is_list h l (l1 ++ x :: l2) →
  ∃ h', uxListRemove (Item x) h = Some (zlength (l1 ++ l2), h')
    ∧ is_list h' l (l1 ++ l2) ∧ h'.(pvContainer) (Item x) = None
    ∧ h'.(pxIndex) l = (if decide (h.(pxIndex) l = Item x) then before l l1 else h.(pxIndex) l)
    ∧ h'.(xItemValue) = h.(xItemValue) ∧ h'.(pvOwner) = h.(pvOwner)
    ∧ ∀ l' ys, l' ≠ l → is_list h l' ys → is_list h' l' ys.
Proof.
  intros Hlist. destruct (remove_taken_out l x h l1 l2 Hlist) as (h' & E & Hto).
  exists h'. split_and!; try done; try apply Hto.
  - by eapply taken_out_list.
  - rewrite (to_container _ _ _ _ _ _ Hto). by rewrite fn_lookup_insert.
  - rewrite (to_index _ _ _ _ _ _ Hto). repeat case_decide; naive_solver.
  - intros. by eapply taken_out_frame.
Qed.

Example list_remove_item_witness :
  ∃ h', uxListRemove (Item 2) demo_heap_list = Some (2, h') ∧ is_list h' 0 [1; 3].
Proof.
  destruct (list_remove_item 0 [1] 2 [3] demo_heap_list demo_is_list) as (h' & H1 & H2 & _).
  by exists h'.
Defined.

(** Walking through a list with listGET_OWNER_OF_NEXT_ENTRY takes the
    items round robin and skips the end marker: in as many steps as the list
    has items every item has exactly one turn, in list order, for any number
    of steps and wherever the walk starts. *)
Theorem list_round_robin k h l xs t :
  is_list h l xs → xs ≠ [] → turn h l xs t →
  ∃ os h', next_owners k l h = (os, h') ∧ is_list h' l xs ∧ turn h' l xs (t + k)
    ∧ os = (λ i, h.(pvOwner) (Item (default 0 (xs !! (i `mod` length xs)%nat)))) <$> seq t k.
Proof. apply next_owners_turns. Qed.

Example list_round_robin_witness :
  ∃ os h', next_owners 4 0 demo_heap_list = (os, h') ∧ os = [101; 102; 103; 101].
Proof.
  destruct (list_round_robin 4 demo_heap_list 0 [1; 2; 3] 0 demo_is_list) as (os & h' & H1 & _ & _ & H2).
  - discriminate.
  - left. split; reflexivity.
  - exists os, h'. split; [exact H1|]. rewrite H2. reflexivity.
Defined.

(** C12: the linked lists implement sequences.  Take any program of list
    operations (setting the value of an item, inserting by value or at the
    end, removing, taking the next entry of the walk, testing for emptiness,
    the owner of the head) that a sequence with an index allows: it never puts
    an item into a list while it is in one, and never takes one out that is in
    none.  Then the pointer operations of list.c return (with fuel for the
    items there can be), give the same results at every step, and end in a
    heap that represents the sequences the program ends in.  It holds for any
    number of lists at once, so no list disturbs another one. *)
Theorem list_ops_refine_sequences {item lid : Type} `{EqDecision item, EqDecision lid}
    (ci : item → Z) (cl : lid → Z) `{!Inj (=) (=) ci, !Inj (=) (=) cl} (owner : item → Z)
    fuel (D : lid → Prop) os h (s : store item lid) rs s' :
  refines ci cl owner D h s → Forall (on_list D) os →
  (∀ l, zlength (s.(elems) l) + zlength os < 2 ^ 32 - 1
        ∧ (length (s.(elems) l) + length os ≤ fuel)%nat) →
  run_all (run_seq owner) os s = Some (rs, s') →
  ∃ h', run_all (run_heap ci cl fuel) os h = Some (rs, h') ∧ refines ci cl owner D h' s'.
Proof. apply (run_all_refines ci cl owner). Qed.

Definition demo_store : store Z Z := {|
  elems := λ l, if decide (l = 0) then [1; 2; 3] else [];
  index := λ _, None;
  value := λ x, demo_heap_list.(xItemValue) (Item x);
  container := λ x, if decide (x ∈ [1; 2; 3]) then Some 0 else None |}.

Lemma demo_refines : refines id id (λ x, 100 + x) (λ l, l = 0) demo_heap_list demo_store.
Proof.
  assert (Hl := demo_is_list).
  assert (Hval : ∀ x, 0 ≤ demo_heap_list.(xItemValue) (Item x) ≤ portMAX_DELAY).
  { intros x. replace (demo_heap_list.(xItemValue) (Item x)) with (blank_heap.(xItemValue) (Item x)).
    - cbn. unfold portMAX_DELAY. destruct x as [|[[|[]|]|[|[]|]|]|]; lia.
    - unfold demo_heap_list. cbn. by rewrite fn_lookup_insert_ne. }
  split; try done.
  - split; simpl.
    + intros l. case_decide; [apply Hl|constructor].
    + intros x l. destruct (decide (l = 0)) as [->|], (decide (x ∈ [1; 2; 3])); split; intros; try done;
        try congruence; set_solver.
    + done.
  - intros l ->. exact Hl.
  - intros l ->. done.
  - intros x. simpl. destruct (decide (x ∈ [1; 2; 3])) as [Hx|Hx].
    + by apply Hl.
    + unfold demo_heap_list. cbn. unfold insert, fn_insert. repeat case_decide; set_solver.
  - intros x l. simpl. case_decide; naive_solver.
Qed.

Example list_ops_refine_sequences_witness :
  ∃ h', run_all (run_heap id id 10) [Next 0; Remove 2; Insert 0 2; HeadOwner 0; InsertEnd 0 4] demo_heap_list
        = Some ([101; 2; 0; 101; 0], h').
Proof.
  edestruct (list_ops_refine_sequences id id (λ x, 100 + x) 10 (λ l, l = 0)
    [Next 0; Remove 2; Insert 0 2; HeadOwner 0; InsertEnd 0 4] demo_heap_list demo_store)
    as (h' & E & _).
  - exact demo_refines.
  - repeat constructor.
  - intros l. simpl. destruct (decide (l = 0)); simpl; lia.
  - vm_compute. reflexivity.
  - exists h'. exact E.
Defined.
