(* ===== verification/FrKernel.v ===== *)
(** FrKernel: the data of the FreeRTOS scheduler.

    The static variables of FreeRTOS/Source/tasks.c, the task control blocks
    and the lists they are linked into, in the configuration of
    FreeRTOSConfig.h for the ESP8266: pre-emption, time slicing, mutexes, task
    notifications, vTaskSuspend and vTaskDelete are on; trace, statistics,
    tickless idle, static allocation, co-routines and configASSERT are off.

    A task is named by the address of its TCB.  The lists are the sequences of
    FrSeq.  A function of the kernel takes and returns the [kernel] state;
    [None] stands for a fault: a dangling or null TCB is used, or list.c is
    called in a way that corrupts a list. *)

From stdpp Require Import functions.
From S2P Require Import Prelude FrList FrSeq.

Definition configMAX_PRIORITIES : Z := 15.
Definition tskIDLE_PRIORITY : Z := 0.
Definition configTIMER_TASK_PRIORITY : Z := tskIDLE_PRIORITY + 2.
Definition configMAX_TASK_NAME_LEN : Z := 16.
Definition taskEVENT_LIST_ITEM_VALUE_IN_USE : Z := 0x80000000.
Definition taskNOT_WAITING_NOTIFICATION : Z := 0.
Definition taskWAITING_NOTIFICATION : Z := 1.
Definition taskNOTIFICATION_RECEIVED : Z := 2.
Definition pdFALSE : Z := 0.
Definition pdTRUE : Z := 1.
Definition pdPASS : Z := 1.
Definition pdFAIL : Z := 0.
Definition errCOULD_NOT_ALLOCATE_REQUIRED_MEMORY : Z := -1.

(** The two list items of a TCB. *)
Inductive item := xStateListItem (t : Z) | xEventListItem (t : Z).

(** The lists of the kernel; an [EventList] is a list of waiting tasks of a
    queue or an event group. *)
Inductive lid :=
  | pxReadyTasksLists (p : Z)
  | xDelayedTaskList1
  | xDelayedTaskList2
  | xPendingReadyList
  | xTasksWaitingTermination
  | xSuspendedTaskList
  | EventList (l : Z).

#[export] Instance item_eq_dec : EqDecision item.
Proof. solve_decision. Defined.
#[export] Instance lid_eq_dec : EqDecision lid.
Proof. solve_decision. Defined.

(** pvOwner of a list item. *)
Definition owner (x : item) : Z := match x with xStateListItem t | xEventListItem t => t end.

Record TCB := {
  uxPriority : Z;
  uxBasePriority : Z;
  uxMutexesHeld : Z;
  ulNotifiedValue : Z;
  ucNotifyState : Z;
  pcTaskName : list Z;      (** the characters in front of the terminator *)
  pxStack : Z;              (** the block of the stack *)
  stack_guard : list Z;     (** the four words at the far end of the stack *)
}.

Definition eta_TCB (c : TCB) : TCB := {|
  uxPriority := c.(uxPriority); uxBasePriority := c.(uxBasePriority);
  uxMutexesHeld := c.(uxMutexesHeld); ulNotifiedValue := c.(ulNotifiedValue);
  ucNotifyState := c.(ucNotifyState); pcTaskName := c.(pcTaskName);
  pxStack := c.(pxStack); stack_guard := c.(stack_guard) |}.

Definition set_uxPriority : Z → TCB → TCB := ltac:(field_setter eta_TCB uxPriority).
Definition set_uxBasePriority : Z → TCB → TCB := ltac:(field_setter eta_TCB uxBasePriority).
Definition set_uxMutexesHeld : Z → TCB → TCB := ltac:(field_setter eta_TCB uxMutexesHeld).
Definition set_ulNotifiedValue : Z → TCB → TCB := ltac:(field_setter eta_TCB ulNotifiedValue).
Definition set_ucNotifyState : Z → TCB → TCB := ltac:(field_setter eta_TCB ucNotifyState).

Record kernel := {
  tcbs : gmap Z TCB;                      (** the TCBs that are allocated *)
  lists : store item lid;
  pxCurrentTCB : option Z;
  pxDelayedTaskList : lid;
  pxOverflowDelayedTaskList : lid;
  uxDeletedTasksWaitingCleanUp : Z;
  uxCurrentNumberOfTasks : Z;
  xTickCount : Z;
  uxTopReadyPriority : Z;
  xSchedulerRunning : bool;
  uxPendedTicks : Z;
  xYieldPending : bool;
  xNumOfOverflows : Z;
  uxTaskNumber : Z;
  xNextTaskUnblockTime : Z;
  xIdleTaskHandle : option Z;
  uxSchedulerSuspended : Z;
  pending_soft_sv : bool;                 (** port.c: a context switch is pending *)
  blocks : gset Z;                        (** the heap blocks in use *)
  overflow_hook : list Z;                 (** calls of vApplicationStackOverflowHook *)
}.

Definition eta_kernel (k : kernel) : kernel := {|
  tcbs := k.(tcbs); lists := k.(lists); pxCurrentTCB := k.(pxCurrentTCB);
  pxDelayedTaskList := k.(pxDelayedTaskList);
  pxOverflowDelayedTaskList := k.(pxOverflowDelayedTaskList);
  uxDeletedTasksWaitingCleanUp := k.(uxDeletedTasksWaitingCleanUp);
  uxCurrentNumberOfTasks := k.(uxCurrentNumberOfTasks); xTickCount := k.(xTickCount);
  uxTopReadyPriority := k.(uxTopReadyPriority); xSchedulerRunning := k.(xSchedulerRunning);
  uxPendedTicks := k.(uxPendedTicks); xYieldPending := k.(xYieldPending);
  xNumOfOverflows := k.(xNumOfOverflows); uxTaskNumber := k.(uxTaskNumber);
  xNextTaskUnblockTime := k.(xNextTaskUnblockTime); xIdleTaskHandle := k.(xIdleTaskHandle);
  uxSchedulerSuspended := k.(uxSchedulerSuspended); pending_soft_sv := k.(pending_soft_sv);
  blocks := k.(blocks); overflow_hook := k.(overflow_hook) |}.

Definition set_tcbs : gmap Z TCB → kernel → kernel := ltac:(field_setter eta_kernel tcbs).
Definition set_lists : store item lid → kernel → kernel := ltac:(field_setter eta_kernel lists).
Definition set_pxCurrentTCB : option Z → kernel → kernel := ltac:(field_setter eta_kernel pxCurrentTCB).
Definition set_pxDelayedTaskList : lid → kernel → kernel := ltac:(field_setter eta_kernel pxDelayedTaskList).
Definition set_pxOverflowDelayedTaskList : lid → kernel → kernel :=
  ltac:(field_setter eta_kernel pxOverflowDelayedTaskList).
Definition set_uxDeletedTasksWaitingCleanUp : Z → kernel → kernel :=
  ltac:(field_setter eta_kernel uxDeletedTasksWaitingCleanUp).
Definition set_uxCurrentNumberOfTasks : Z → kernel → kernel :=
  ltac:(field_setter eta_kernel uxCurrentNumberOfTasks).
Definition set_xTickCount : Z → kernel → kernel := ltac:(field_setter eta_kernel xTickCount).
Definition set_uxTopReadyPriority : Z → kernel → kernel := ltac:(field_setter eta_kernel uxTopReadyPriority).
Definition set_xSchedulerRunning : bool → kernel → kernel := ltac:(field_setter eta_kernel xSchedulerRunning).
Definition set_uxPendedTicks : Z → kernel → kernel := ltac:(field_setter eta_kernel uxPendedTicks).
Definition set_xYieldPending : bool → kernel → kernel := ltac:(field_setter eta_kernel xYieldPending).
Definition set_xNumOfOverflows : Z → kernel → kernel := ltac:(field_setter eta_kernel xNumOfOverflows).
Definition set_uxTaskNumber : Z → kernel → kernel := ltac:(field_setter eta_kernel uxTaskNumber).
Definition set_xNextTaskUnblockTime : Z → kernel → kernel := ltac:(field_setter eta_kernel xNextTaskUnblockTime).
Definition set_xIdleTaskHandle : option Z → kernel → kernel := ltac:(field_setter eta_kernel xIdleTaskHandle).
Definition set_uxSchedulerSuspended : Z → kernel → kernel := ltac:(field_setter eta_kernel uxSchedulerSuspended).
Definition set_pending_soft_sv : bool → kernel → kernel := ltac:(field_setter eta_kernel pending_soft_sv).
Definition set_blocks : gset Z → kernel → kernel := ltac:(field_setter eta_kernel blocks).
Definition set_overflow_hook : list Z → kernel → kernel := ltac:(field_setter eta_kernel overflow_hook).

(** ** Access *)

Definition tcb (t : Z) (k : kernel) : option TCB := k.(tcbs) !! t.

(** Write to a TCB. *)
Definition upd_tcb (t : Z) (f : TCB → TCB) (k : kernel) : option kernel :=
  c ← tcb t k; Some (set_tcbs (<[t := f c]> k.(tcbs)) k).

(** list.c on the lists of the kernel. *)
Definition k_insert_end (l : lid) (x : item) (k : kernel) : option kernel :=
  s ← seq_insert_end l x k.(lists); Some (set_lists s k).
Definition k_insert (l : lid) (x : item) (k : kernel) : option kernel :=
  s ← seq_insert l x k.(lists); Some (set_lists s k).
Definition k_remove (x : item) (k : kernel) : option kernel :=
  '(_, s) ← seq_remove x k.(lists); Some (set_lists s k).
Definition k_initialise (l : lid) (k : kernel) : kernel := set_lists (seq_initialise l k.(lists)) k.
Definition k_initialise_item (x : item) (k : kernel) : kernel :=
  set_lists (seq_initialise_item x k.(lists)) k.
Definition k_set_value (x : item) (v : Z) (k : kernel) : kernel :=
  set_lists (seq_set_value x v k.(lists)) k.
Definition k_value (x : item) (k : kernel) : Z := k.(lists).(value) x.
Definition k_container (x : item) (k : kernel) : option lid := k.(lists).(container) x.
Definition is_empty (l : lid) (k : kernel) : bool := seq_length l k.(lists) =? 0.

(** listIS_CONTAINED_WITHIN. *)
Definition contained (l : lid) (x : item) (k : kernel) : bool :=
  bool_decide (k_container x k = Some l).

(** listGET_OWNER_OF_HEAD_ENTRY. *)
Definition head_owner (l : lid) (k : kernel) : option Z := owner <$> seq_head l k.(lists).

(** ** The port

    portYIELD_WITHIN_API is portYIELD: it pends a soft interrupt, whose
    handler switches the context as soon as interrupts are enabled. *)
Definition PendSV (k : kernel) : kernel := set_pending_soft_sv true k.
Abbreviation portYIELD_WITHIN_API := PendSV.
