(* ===== verification/FrTasks.v ===== *)
(** FrTasks: the scheduler, FreeRTOS/Source/tasks.c.

    One definition per function.  A function of the kernel runs as one step;
    where it waits for another task in its middle (the functions that wait for a
    notification) each half is a step.  Critical sections and the masking of
    interrupts are what makes a step one. *)

From stdpp Require Import functions.
From S2P Require Import Prelude FrList FrSeq FrKernel.

(** ** Ready lists and the selection of a task *)

Definition taskRECORD_READY_PRIORITY (p : Z) (k : kernel) : kernel :=
  if k.(uxTopReadyPriority) <? p then set_uxTopReadyPriority p k else k.

Definition prvAddTaskToReadyList (t : Z) (k : kernel) : option kernel :=
  c ← tcb t k;
  let k := taskRECORD_READY_PRIORITY c.(uxPriority) k in
  k_insert_end (pxReadyTasksLists c.(uxPriority)) (xStateListItem t) k.

(** The search from uxTopReadyPriority downwards; [None]: no ready list holds a
    task and the search leaves the array. *)
Fixpoint find_priority (n : nat) (k : kernel) : option nat :=
  if is_empty (pxReadyTasksLists (Z.of_nat n)) k then
    match n with O => None | S n' => find_priority n' k end
  else Some n.

Definition taskSELECT_HIGHEST_PRIORITY_TASK (k : kernel) : option kernel :=
  n ← find_priority (Z.to_nat k.(uxTopReadyPriority)) k;
  '(x, s) ← seq_next (pxReadyTasksLists (Z.of_nat n)) k.(lists);
  Some (set_uxTopReadyPriority (Z.of_nat n) (set_pxCurrentTCB (Some (owner x)) (set_lists s k))).

(** StackMacros.h: are the last words of the stack what they were filled with? *)
Definition taskCHECK_FOR_STACK_OVERFLOW (k : kernel) : option kernel :=
  t ← k.(pxCurrentTCB); c ← tcb t k;
  Some (if bool_decide (c.(stack_guard) = replicate 4 0xa5a5a5a5) then k
        else set_overflow_hook (k.(overflow_hook) ++ [t]) k).

Definition vTaskSwitchContext (k : kernel) : option kernel :=
  if negb (k.(uxSchedulerSuspended) =? 0) then Some (set_xYieldPending true k)
  else
    let k := set_xYieldPending false k in
    k ← taskCHECK_FOR_STACK_OVERFLOW k;
    taskSELECT_HIGHEST_PRIORITY_TASK k.

(** prvGetTCBFromHandle: the null handle is the calling task. *)
Definition prvGetTCBFromHandle (h : option Z) (k : kernel) : option Z :=
  match h with Some t => Some t | None => k.(pxCurrentTCB) end.

Definition current_priority (k : kernel) : option Z :=
  t ← k.(pxCurrentTCB); c ← tcb t k; Some c.(uxPriority).

(** ** Time *)

Definition prvResetNextTaskUnblockTime (k : kernel) : kernel :=
  match head_owner k.(pxDelayedTaskList) k with
  | None => set_xNextTaskUnblockTime portMAX_DELAY k
  | Some t => set_xNextTaskUnblockTime (k_value (xStateListItem t) k) k
  end.

Definition taskSWITCH_DELAYED_LISTS (k : kernel) : kernel :=
  let pxTemp := k.(pxDelayedTaskList) in
  let k := set_pxDelayedTaskList k.(pxOverflowDelayedTaskList) k in
  let k := set_pxOverflowDelayedTaskList pxTemp k in
  let k := set_xNumOfOverflows (s32 (k.(xNumOfOverflows) + 1)) k in
  prvResetNextTaskUnblockTime k.

Definition remove_event_item (t : Z) (k : kernel) : option kernel :=
  match k_container (xEventListItem t) k with
  | Some _ => k_remove (xEventListItem t) k
  | None => Some k
  end.

(** The loop of xTaskIncrementTick that wakes the tasks whose time has come. *)
Fixpoint unblock_loop (fuel : nat) (now : Z) (k : kernel) (switch : bool) : option (bool * kernel) :=
  match head_owner k.(pxDelayedTaskList) k with
  | None => Some (switch, set_xNextTaskUnblockTime portMAX_DELAY k)
  | Some t =>
      let v := k_value (xStateListItem t) k in
      if now <? v then Some (switch, set_xNextTaskUnblockTime v k)
      else
        match fuel with
        | O => None
        | S fuel' =>
            k ← k_remove (xStateListItem t) k;
            k ← remove_event_item t k;
            k ← prvAddTaskToReadyList t k;
            c ← tcb t k; p ← current_priority k;
            unblock_loop fuel' now k (switch || (p <=? c.(uxPriority)))
        end
  end.

Definition xTaskIncrementTick (k : kernel) : option (bool * kernel) :=
  '(switch, k) ←
    (if k.(uxSchedulerSuspended) =? 0 then
       let now := u32 (k.(xTickCount) + 1) in
       let k := set_xTickCount now k in
       let k := if now =? 0 then taskSWITCH_DELAYED_LISTS k else k in
       '(switch, k) ←
         (if k.(xNextTaskUnblockTime) <=? now then
            unblock_loop (length (k.(lists).(elems) k.(pxDelayedTaskList))) now k false
          else Some (false, k));
       p ← current_priority k;
       Some (switch || (1 <? seq_length (pxReadyTasksLists p) k.(lists)), k)
     else Some (false, set_uxPendedTicks (u32 (k.(uxPendedTicks) + 1)) k));
  Some (switch || k.(xYieldPending), k).

Definition prvAddCurrentTaskToDelayedList (xTicksToWait : Z) (xCanBlockIndefinitely : bool) (k : kernel)
    : option kernel :=
  t ← k.(pxCurrentTCB);
  let now := k.(xTickCount) in
  k ← k_remove (xStateListItem t) k;
  if (xTicksToWait =? portMAX_DELAY) && xCanBlockIndefinitely then
    k_insert_end xSuspendedTaskList (xStateListItem t) k
  else
    let xTimeToWake := u32 (now + xTicksToWait) in
    let k := k_set_value (xStateListItem t) xTimeToWake k in
    if xTimeToWake <? now then k_insert k.(pxOverflowDelayedTaskList) (xStateListItem t) k
    else
      k ← k_insert k.(pxDelayedTaskList) (xStateListItem t) k;
      Some (if xTimeToWake <? k.(xNextTaskUnblockTime) then set_xNextTaskUnblockTime xTimeToWake k else k).

(** ** Suspending the scheduler *)

Definition vTaskSuspendAll (k : kernel) : kernel :=
  set_uxSchedulerSuspended (u32 (k.(uxSchedulerSuspended) + 1)) k.

(** The tasks that were readied while the scheduler was suspended; the flag
    says that there was one. *)
Fixpoint ready_pended (fuel : nat) (k : kernel) (any : bool) : option (bool * kernel) :=
  match head_owner xPendingReadyList k with
  | None => Some (any, k)
  | Some t =>
      match fuel with
      | O => None
      | S fuel' =>
          k ← k_remove (xEventListItem t) k;
          k ← k_remove (xStateListItem t) k;
          k ← prvAddTaskToReadyList t k;
          c ← tcb t k; p ← current_priority k;
          ready_pended fuel' (if p <=? c.(uxPriority) then set_xYieldPending true k else k) true
      end
  end.

(** The ticks that were missed while the scheduler was suspended. *)
Fixpoint pended_ticks (n : nat) (k : kernel) : option kernel :=
  match n with
  | O => Some k
  | S n' => '(switch, k) ← xTaskIncrementTick k;
            pended_ticks n' (if switch : bool then set_xYieldPending true k else k)
  end.

Definition xTaskResumeAll (k : kernel) : option (bool * kernel) :=
  let k := set_uxSchedulerSuspended (u32 (k.(uxSchedulerSuspended) - 1)) k in
  if k.(uxSchedulerSuspended) =? 0 then
    if 0 <? k.(uxCurrentNumberOfTasks) then
      '(any, k) ← ready_pended (length (k.(lists).(elems) xPendingReadyList)) k false;
      let k := if any : bool then prvResetNextTaskUnblockTime k else k in
      k ← (if 0 <? k.(uxPendedTicks) then
             k ← pended_ticks (Z.to_nat k.(uxPendedTicks)) k; Some (set_uxPendedTicks 0 k)
           else Some k);
      Some (if k.(xYieldPending) then (true, portYIELD_WITHIN_API k) else (false, k))
    else Some (false, k)
  else Some (false, k).

(** ** Creating and deleting tasks *)

Fixpoint initialise_ready (n : nat) (k : kernel) : kernel :=
  match n with
  | O => k
  | S n' => k_initialise (pxReadyTasksLists (Z.of_nat n')) (initialise_ready n' k)
  end.

Definition prvInitialiseTaskLists (k : kernel) : kernel :=
  let k := initialise_ready (Z.to_nat configMAX_PRIORITIES) k in
  let k := k_initialise xDelayedTaskList1 k in
  let k := k_initialise xDelayedTaskList2 k in
  let k := k_initialise xPendingReadyList k in
  let k := k_initialise xTasksWaitingTermination k in
  let k := k_initialise xSuspendedTaskList k in
  let k := set_pxDelayedTaskList xDelayedTaskList1 k in
  set_pxOverflowDelayedTaskList xDelayedTaskList2 k.

(** The fields of the new TCB at [t]; its stack is the block [stack]. *)
Definition prvInitialiseNewTask (pcName : list Z) (uxPriority : Z) (t stack : Z) (k : kernel) : kernel :=
  let uxPriority := if configMAX_PRIORITIES <=? uxPriority then configMAX_PRIORITIES - 1 else uxPriority in
  let c := {| FrKernel.uxPriority := uxPriority; uxBasePriority := uxPriority; uxMutexesHeld := 0;
              ulNotifiedValue := 0; ucNotifyState := taskNOT_WAITING_NOTIFICATION;
              pcTaskName := take (Z.to_nat (configMAX_TASK_NAME_LEN - 1)) pcName;
              pxStack := stack; stack_guard := replicate 4 0xa5a5a5a5 |} in
  let k := set_tcbs (<[t := c]> k.(tcbs)) k in
  let k := k_initialise_item (xStateListItem t) k in
  let k := k_initialise_item (xEventListItem t) k in
  k_set_value (xEventListItem t) (configMAX_PRIORITIES - uxPriority) k.

Definition prvAddNewTaskToReadyList (t : Z) (k : kernel) : option kernel :=
  c ← tcb t k;
  let k := set_uxCurrentNumberOfTasks (u32 (k.(uxCurrentNumberOfTasks) + 1)) k in
  k ← match k.(pxCurrentTCB) with
      | None =>
          let k := set_pxCurrentTCB (Some t) k in
          Some (if k.(uxCurrentNumberOfTasks) =? 1 then prvInitialiseTaskLists k else k)
      | Some _ =>
          if k.(xSchedulerRunning) then Some k
          else p ← current_priority k;
               Some (if p <=? c.(uxPriority) then set_pxCurrentTCB (Some t) k else k)
      end;
  let k := set_uxTaskNumber (u32 (k.(uxTaskNumber) + 1)) k in
  k ← prvAddTaskToReadyList t k;
  if k.(xSchedulerRunning) then
    p ← current_priority k;
    Some (if p <? c.(uxPriority) then portYIELD_WITHIN_API k else k)
  else Some k.

(** [malloc_stack] and [malloc_tcb] are what pvPortMalloc returns for the stack
    and for the TCB.  The result is the return value and *pxCreatedTask. *)
Definition xTaskCreate (pcName : list Z) (uxPriority : Z) (malloc_stack malloc_tcb : option Z) (k : kernel)
    : option (Z * option Z * kernel) :=
  match malloc_stack with
  | None => Some (errCOULD_NOT_ALLOCATE_REQUIRED_MEMORY, None, k)
  | Some stack =>
      let k := set_blocks ({[stack]} ∪ k.(blocks)) k in
      match malloc_tcb with
      | None => Some (errCOULD_NOT_ALLOCATE_REQUIRED_MEMORY, None, set_blocks (k.(blocks) ∖ {[stack]}) k)
      | Some t =>
          let k := set_blocks ({[t]} ∪ k.(blocks)) k in
          let k := prvInitialiseNewTask pcName uxPriority t stack k in
          k ← prvAddNewTaskToReadyList t k;
          Some (pdPASS, Some t, k)
      end
  end.

Definition prvDeleteTCB (t : Z) (k : kernel) : option kernel :=
  c ← tcb t k;
  let k := set_blocks (k.(blocks) ∖ {[c.(pxStack)]}) k in
  Some (set_tcbs (delete t k.(tcbs)) (set_blocks (k.(blocks) ∖ {[t]}) k)).

Definition vTaskDelete (xTaskToDelete : option Z) (k : kernel) : option kernel :=
  t ← prvGetTCBFromHandle xTaskToDelete k;
  k ← k_remove (xStateListItem t) k;
  k ← remove_event_item t k;
  let k := set_uxTaskNumber (u32 (k.(uxTaskNumber) + 1)) k in
  k ← (if decide (k.(pxCurrentTCB) = Some t) then
         k ← k_insert_end xTasksWaitingTermination (xStateListItem t) k;
         Some (set_uxDeletedTasksWaitingCleanUp (u32 (k.(uxDeletedTasksWaitingCleanUp) + 1)) k)
       else
         let k := set_uxCurrentNumberOfTasks (u32 (k.(uxCurrentNumberOfTasks) - 1)) k in
         k ← prvDeleteTCB t k;
         Some (prvResetNextTaskUnblockTime k));
  Some (if k.(xSchedulerRunning) && bool_decide (k.(pxCurrentTCB) = Some t)
        then portYIELD_WITHIN_API k else k).

(** The loop of the idle task that frees the tasks that deleted themselves. *)
Fixpoint clean_up_loop (fuel : nat) (k : kernel) : option kernel :=
  if 0 <? k.(uxDeletedTasksWaitingCleanUp) then
    match fuel with
    | O => None
    | S fuel' =>
        let k := vTaskSuspendAll k in
        let xListIsEmpty := is_empty xTasksWaitingTermination k in
        '(_, k) ← xTaskResumeAll k;
        if xListIsEmpty : bool then clean_up_loop fuel' k
        else
          t ← head_owner xTasksWaitingTermination k;
          k ← k_remove (xStateListItem t) k;
          let k := set_uxCurrentNumberOfTasks (u32 (k.(uxCurrentNumberOfTasks) - 1)) k in
          let k := set_uxDeletedTasksWaitingCleanUp (u32 (k.(uxDeletedTasksWaitingCleanUp) - 1)) k in
          k ← prvDeleteTCB t k;
          clean_up_loop fuel' k
    end
  else Some k.

Definition prvCheckTasksWaitingTermination (k : kernel) : option kernel :=
  clean_up_loop (Z.to_nat k.(uxDeletedTasksWaitingCleanUp)) k.

(** One round of the loop of the idle task. *)
Definition prvIdleTask (k : kernel) : option kernel :=
  k ← prvCheckTasksWaitingTermination k;
  Some (if 1 <? seq_length (pxReadyTasksLists tskIDLE_PRIORITY) k.(lists)
        then portYIELD_WITHIN_API k else k).

(** ** Delays *)

Definition yield_unless (xAlreadyYielded : bool) (k : kernel) : kernel :=
  if xAlreadyYielded then k else portYIELD_WITHIN_API k.

Definition vTaskDelay (xTicksToDelay : Z) (k : kernel) : option kernel :=
  '(xAlreadyYielded, k) ←
    (if 0 <? xTicksToDelay then
       let k := vTaskSuspendAll k in
       k ← prvAddCurrentTaskToDelayedList xTicksToDelay false k;
       xTaskResumeAll k
     else Some (false, k));
  Some (yield_unless xAlreadyYielded k).

(** Is the wake time in the future?  [prev] is *pxPreviousWakeTime. *)
Definition should_delay (now prev wake : Z) : bool :=
  if now <? prev then (wake <? prev) && (now <? wake) else (wake <? prev) || (now <? wake).

(** Also returns the new *pxPreviousWakeTime. *)
Definition vTaskDelayUntil (prev xTimeIncrement : Z) (k : kernel) : option (Z * kernel) :=
  let k := vTaskSuspendAll k in
  let now := k.(xTickCount) in
  let xTimeToWake := u32 (prev + xTimeIncrement) in
  k ← (if should_delay now prev xTimeToWake
       then prvAddCurrentTaskToDelayedList (u32 (xTimeToWake - now)) false k else Some k);
  '(xAlreadyYielded, k) ← xTaskResumeAll k;
  Some (xTimeToWake, yield_unless xAlreadyYielded k).

(** ** Priorities *)

Definition uxTaskPriorityGet (xTask : option Z) (k : kernel) : option Z :=
  t ← prvGetTCBFromHandle xTask k; c ← tcb t k; Some c.(uxPriority).

Definition event_value_free (t : Z) (k : kernel) : bool :=
  Z.land (k_value (xEventListItem t) k) taskEVENT_LIST_ITEM_VALUE_IN_USE =? 0.

(** The event list item follows the priority while nobody else uses its value. *)
Definition set_event_priority (t p : Z) (k : kernel) : kernel :=
  if event_value_free t k then k_set_value (xEventListItem t) (configMAX_PRIORITIES - p) k else k.

Definition vTaskPrioritySet (xTask : option Z) (uxNewPriority : Z) (k : kernel) : option kernel :=
  let uxNewPriority := if configMAX_PRIORITIES <=? uxNewPriority then configMAX_PRIORITIES - 1 else uxNewPriority in
  t ← prvGetTCBFromHandle xTask k;
  c ← tcb t k;
  if c.(uxBasePriority) =? uxNewPriority then Some k
  else
    p ← current_priority k;
    let is_current := bool_decide (k.(pxCurrentTCB) = Some t) in
    let xYieldRequired :=
      if c.(uxBasePriority) <? uxNewPriority then negb is_current && (p <=? uxNewPriority)
      else is_current in
    let uxPriorityUsedOnEntry := c.(uxPriority) in
    k ← upd_tcb t (λ c, set_uxBasePriority uxNewPriority
          (if c.(uxBasePriority) =? c.(uxPriority) then set_uxPriority uxNewPriority c else c)) k;
    let k := set_event_priority t uxNewPriority k in
    k ← (if contained (pxReadyTasksLists uxPriorityUsedOnEntry) (xStateListItem t) k then
           k ← k_remove (xStateListItem t) k; prvAddTaskToReadyList t k
         else Some k);
    Some (if xYieldRequired : bool then portYIELD_WITHIN_API k else k).

Definition vTaskPriorityInherit (pxMutexHolder : option Z) (k : kernel) : option kernel :=
  match pxMutexHolder with
  | None => Some k
  | Some t =>
      c ← tcb t k; p ← current_priority k;
      if c.(uxPriority) <? p then
        let k := set_event_priority t p k in
        if contained (pxReadyTasksLists c.(uxPriority)) (xStateListItem t) k then
          k ← k_remove (xStateListItem t) k;
          k ← upd_tcb t (set_uxPriority p) k;
          prvAddTaskToReadyList t k
        else upd_tcb t (set_uxPriority p) k
      else Some k
  end.

Definition xTaskPriorityDisinherit (pxMutexHolder : option Z) (k : kernel) : option (bool * kernel) :=
  match pxMutexHolder with
  | None => Some (false, k)
  | Some t =>
      k ← upd_tcb t (λ c, set_uxMutexesHeld (u32 (c.(uxMutexesHeld) - 1)) c) k;
      c ← tcb t k;
      if negb (c.(uxPriority) =? c.(uxBasePriority)) && (c.(uxMutexesHeld) =? 0) then
        k ← k_remove (xStateListItem t) k;
        k ← upd_tcb t (set_uxPriority c.(uxBasePriority)) k;
        let k := k_set_value (xEventListItem t) (configMAX_PRIORITIES - c.(uxBasePriority)) k in
        k ← prvAddTaskToReadyList t k;
        Some (true, k)
      else Some (false, k)
  end.

Definition pvTaskIncrementMutexHeldCount (k : kernel) : option (option Z * kernel) :=
  match k.(pxCurrentTCB) with
  | None => Some (None, k)
  | Some t => k ← upd_tcb t (λ c, set_uxMutexesHeld (u32 (c.(uxMutexesHeld) + 1)) c) k; Some (Some t, k)
  end.

(** ** Suspending and resuming tasks *)

Definition vTaskSuspend (xTaskToSuspend : option Z) (k : kernel) : option kernel :=
  t ← prvGetTCBFromHandle xTaskToSuspend k;
  k ← k_remove (xStateListItem t) k;
  k ← remove_event_item t k;
  k ← k_insert_end xSuspendedTaskList (xStateListItem t) k;
  let k := if k.(xSchedulerRunning) then prvResetNextTaskUnblockTime k else k in
  if decide (k.(pxCurrentTCB) = Some t) then
    if k.(xSchedulerRunning) then Some (portYIELD_WITHIN_API k)
    else if seq_length xSuspendedTaskList k.(lists) =? k.(uxCurrentNumberOfTasks)
    then Some (set_pxCurrentTCB None k)
    else vTaskSwitchContext k
  else Some k.

Definition prvTaskIsTaskSuspended (t : Z) (k : kernel) : bool :=
  contained xSuspendedTaskList (xStateListItem t) k
  && negb (contained xPendingReadyList (xEventListItem t) k)
  && bool_decide (k_container (xEventListItem t) k = None).

Definition vTaskResume (xTaskToResume : option Z) (k : kernel) : option kernel :=
  match xTaskToResume with
  | None => Some k
  | Some t =>
      if decide (k.(pxCurrentTCB) = Some t) then Some k
      else if prvTaskIsTaskSuspended t k then
        k ← k_remove (xStateListItem t) k;
        k ← prvAddTaskToReadyList t k;
        c ← tcb t k; p ← current_priority k;
        Some (if p <=? c.(uxPriority) then portYIELD_WITHIN_API k else k)
      else Some k
  end.

Definition xTaskResumeFromISR (t : Z) (k : kernel) : option (bool * kernel) :=
  if prvTaskIsTaskSuspended t k then
    if k.(uxSchedulerSuspended) =? 0 then
      c ← tcb t k; p ← current_priority k;
      k ← k_remove (xStateListItem t) k;
      k ← prvAddTaskToReadyList t k;
      Some (p <=? c.(uxPriority), k)
    else
      k ← k_insert_end xPendingReadyList (xEventListItem t) k;
      Some (false, k)
  else Some (false, k).

(** ** Events *)

Definition vTaskPlaceOnEventList (pxEventList : lid) (xTicksToWait : Z) (k : kernel) : option kernel :=
  t ← k.(pxCurrentTCB);
  k ← k_insert pxEventList (xEventListItem t) k;
  prvAddCurrentTaskToDelayedList xTicksToWait true k.

Definition vTaskPlaceOnUnorderedEventList (pxEventList : lid) (xItemValue xTicksToWait : Z) (k : kernel)
    : option kernel :=
  t ← k.(pxCurrentTCB);
  let k := k_set_value (xEventListItem t) (Z.lor xItemValue taskEVENT_LIST_ITEM_VALUE_IN_USE) k in
  k ← k_insert_end pxEventList (xEventListItem t) k;
  prvAddCurrentTaskToDelayedList xTicksToWait true k.

Definition vTaskPlaceOnEventListRestricted (pxEventList : lid) (xTicksToWait : Z) (xWaitIndefinitely : bool)
    (k : kernel) : option kernel :=
  t ← k.(pxCurrentTCB);
  k ← k_insert_end pxEventList (xEventListItem t) k;
  prvAddCurrentTaskToDelayedList (if xWaitIndefinitely then portMAX_DELAY else xTicksToWait) xWaitIndefinitely k.

(** A woken task of higher priority than the current one asks for a switch. *)
Definition note_woken (t : Z) (k : kernel) : option (bool * kernel) :=
  c ← tcb t k; p ← current_priority k;
  Some (if p <? c.(uxPriority) then (true, set_xYieldPending true k) else (false, k)).

Definition xTaskRemoveFromEventList (pxEventList : lid) (k : kernel) : option (bool * kernel) :=
  t ← head_owner pxEventList k;
  k ← k_remove (xEventListItem t) k;
  k ← (if k.(uxSchedulerSuspended) =? 0 then
         k ← k_remove (xStateListItem t) k; prvAddTaskToReadyList t k
       else k_insert_end xPendingReadyList (xEventListItem t) k);
  note_woken t k.

Definition xTaskRemoveFromUnorderedEventList (t : Z) (xItemValue : Z) (k : kernel) : option (bool * kernel) :=
  let k := k_set_value (xEventListItem t) (Z.lor xItemValue taskEVENT_LIST_ITEM_VALUE_IN_USE) k in
  k ← k_remove (xEventListItem t) k;
  k ← k_remove (xStateListItem t) k;
  k ← prvAddTaskToReadyList t k;
  note_woken t k.

Definition uxTaskResetEventItemValue (k : kernel) : option (Z * kernel) :=
  t ← k.(pxCurrentTCB); p ← current_priority k;
  Some (k_value (xEventListItem t) k, k_set_value (xEventListItem t) (configMAX_PRIORITIES - p) k).

Definition vTaskMissedYield (k : kernel) : kernel := set_xYieldPending true k.

(** ** Time-outs *)

Record TimeOut_t := { xOverflowCount : Z; xTimeOnEntering : Z }.

Definition vTaskSetTimeOutState (k : kernel) : TimeOut_t :=
  {| xOverflowCount := k.(xNumOfOverflows); xTimeOnEntering := k.(xTickCount) |}.

(** Also returns the new *pxTimeOut and *pxTicksToWait. *)
Definition xTaskCheckForTimeOut (pxTimeOut : TimeOut_t) (pxTicksToWait : Z) (k : kernel)
    : bool * TimeOut_t * Z :=
  let now := k.(xTickCount) in
  if pxTicksToWait =? portMAX_DELAY then (false, pxTimeOut, pxTicksToWait)
  else if negb (k.(xNumOfOverflows) =? pxTimeOut.(xOverflowCount)) && (pxTimeOut.(xTimeOnEntering) <=? now)
  then (true, pxTimeOut, pxTicksToWait)
  else if u32 (now - pxTimeOut.(xTimeOnEntering)) <? pxTicksToWait
  then (false, vTaskSetTimeOutState k, u32 (pxTicksToWait - u32 (now - pxTimeOut.(xTimeOnEntering))))
  else (true, pxTimeOut, pxTicksToWait).

(** ** Queries *)

Definition xTaskGetTickCount (k : kernel) : Z := k.(xTickCount).
Definition uxTaskGetNumberOfTasks (k : kernel) : Z := k.(uxCurrentNumberOfTasks).
Definition pcTaskGetName (xTaskToQuery : option Z) (k : kernel) : option (list Z) :=
  t ← prvGetTCBFromHandle xTaskToQuery k; c ← tcb t k; Some c.(pcTaskName).
Definition xTaskGetIdleTaskHandle (k : kernel) : option Z := k.(xIdleTaskHandle).
Definition xTaskGetCurrentTaskHandle (k : kernel) : option Z := k.(pxCurrentTCB).

Inductive scheduler_state := taskSCHEDULER_SUSPENDED | taskSCHEDULER_NOT_STARTED | taskSCHEDULER_RUNNING.

Definition xTaskGetSchedulerState (k : kernel) : scheduler_state :=
  if negb k.(xSchedulerRunning) then taskSCHEDULER_NOT_STARTED
  else if k.(uxSchedulerSuspended) =? 0 then taskSCHEDULER_RUNNING else taskSCHEDULER_SUSPENDED.

(** ** Starting; the interrupts of port.c *)

Definition xPortStartScheduler (k : kernel) : option kernel := vTaskSwitchContext k.

(** timers.c.  [queue]: did prvCheckForValidListAndQueue create the queue of the
    timer task; the mallocs are those for the task. *)
Definition xTimerCreateTimerTask (queue : bool) (malloc_stack malloc_tcb : option Z) (k : kernel)
    : option (Z * kernel) :=
  if queue then
    '(xReturn, _, k) ← xTaskCreate [84; 109; 114; 32; 83; 118; 99] configTIMER_TASK_PRIORITY
                         malloc_stack malloc_tcb k;
    Some (xReturn, k)
  else Some (pdFAIL, k).

(** [idle] and [timer] are what malloc returns for the stack and the TCB of the
    two tasks of the kernel. *)
Definition vTaskStartScheduler (queue : bool) (idle timer : option Z * option Z) (k : kernel) : option kernel :=
  '(xReturn, h, k) ← xTaskCreate [73; 68; 76; 69] tskIDLE_PRIORITY idle.1 idle.2 k;
  let k := match h with Some t => set_xIdleTaskHandle (Some t) k | None => k end in
  '(xReturn, k) ← (if xReturn =? pdPASS then xTimerCreateTimerTask queue timer.1 timer.2 k
                   else Some (xReturn, k));
  if xReturn =? pdPASS then
    let k := set_xNextTaskUnblockTime portMAX_DELAY k in
    let k := set_xSchedulerRunning true k in
    let k := set_xTickCount 0 k in
    xPortStartScheduler k
  else Some k.

Definition vTaskEndScheduler (k : kernel) : kernel := set_xSchedulerRunning false k.

Definition xPortSysTickHandle (k : kernel) : option kernel :=
  '(switch, k) ← xTaskIncrementTick k;
  if switch : bool then vTaskSwitchContext k else Some k.

(** The soft interrupt; the MAC layer handler of the binary SDK is not called. *)
Definition SV_ISR (k : kernel) : option kernel :=
  if k.(pending_soft_sv) then k ← vTaskSwitchContext k; Some (set_pending_soft_sv false k) else Some k.
