(* ===== verification/FrTasksInv.v ===== *)
(** FrTasksInv: the invariant of the scheduler and how the list operations
    keep it.

    [kwf o k]: the kernel [k] is well formed, but for the task [o], if any,
    whose state list item is in no list at this moment. *)

From stdpp Require Import functions sorting.
From S2P Require Import Prelude FrList FrSeq FrKernel FrTasks.

(** ** What moving one item does to a store *)

Section Changed.
Context {item lid : Type} `{EqDecision item, EqDecision lid}.
Implicit Types (s : store item lid).

(** The item [x] is now in [ol]; nothing else moved. *)
Record changed (x : item) (ol : option lid) s s' : Prop := {
  ch_ok : store_ok s';
  ch_container : s'.(container) = <[x := ol]> s.(container);
  ch_value : s'.(value) = s.(value);
  ch_elems l : s.(container) x ≠ Some l → ol ≠ Some l → s'.(elems) l = s.(elems) l;
  ch_sorted l : ol ≠ Some l → sorted_list s l → sorted_list s' l;
}.

Lemma remove_changed x l s : store_ok s → s.(container) x = Some l →
  ∃ s', seq_remove x s = Some (zlength (s'.(elems) l), s') ∧ changed x None s s'
    ∧ s'.(elems) l = take_out x (s.(elems) l).
Proof.
  intros Hok Hc. assert (H : is_Some (seq_remove x s)) by (unfold seq_remove; rewrite Hc; eauto).
  destruct H as [[n s'] H]. exists s'. assert (Hok' := seq_remove_ok _ _ _ _ Hok H).
  unfold seq_remove in *. rewrite Hc in *. simpl in *. injection H as <- <-. simpl in *.
  rewrite fn_lookup_insert. split_and!; [done| |done]. split; simpl; try done.
  - intros l' Hl' _. rewrite fn_lookup_insert_ne; [done|]. congruence.
  - intros l' _. unfold sorted_list. simpl. destruct (decide (l' = l)) as [->|Hne].
    + rewrite fn_lookup_insert. apply take_out_sorted.
    + by rewrite fn_lookup_insert_ne.
Qed.

Lemma insert_end_changed l x s : store_ok s → s.(container) x = None →
  ∃ s', seq_insert_end l x s = Some s' ∧ changed x (Some l) s s'
    ∧ s'.(elems) l ≡ₚ x :: s.(elems) l.
Proof.
  intros Hok Hc. assert (H : is_Some (seq_insert_end l x s)) by (unfold seq_insert_end; rewrite Hc; eauto).
  destruct H as [s' H]. exists s'. assert (Hok' := seq_insert_end_ok _ _ _ _ Hok H).
  unfold seq_insert_end in *. rewrite Hc in *. injection H as <-.
  split_and!; [done| |simpl; rewrite fn_lookup_insert; apply put_before_perm]. split; simpl; try done.
  - intros l' _ Hl'. rewrite fn_lookup_insert_ne; [done|]. congruence.
  - intros l' Hl'. unfold sorted_list. simpl. rewrite fn_lookup_insert_ne; [done|]. congruence.
Qed.

Lemma insert_changed l x s : store_ok s → s.(container) x = None → sorted_list s l →
  ∃ s', seq_insert l x s = Some s' ∧ changed x (Some l) s s'
    ∧ s'.(elems) l ≡ₚ x :: s.(elems) l ∧ sorted_list s' l.
Proof.
  intros Hok Hc Hs. assert (H : is_Some (seq_insert l x s)) by (unfold seq_insert; rewrite Hc; eauto).
  destruct H as [s' H]. exists s'. assert (Hok' := seq_insert_ok _ _ _ _ Hok H).
  unfold seq_insert in *. rewrite Hc in *. injection H as <-.
  split_and!; [done| |simpl; rewrite fn_lookup_insert; apply put_sorted_perm|].
  - split; simpl; try done.
    + intros l' _ Hl'. rewrite fn_lookup_insert_ne; [done|]. congruence.
    + intros l' Hl'. unfold sorted_list. simpl. rewrite fn_lookup_insert_ne; [done|]. congruence.
  - unfold sorted_list. simpl. rewrite fn_lookup_insert. by apply (put_sorted_sorted (value s)).
Qed.

Lemma changed_container x ol s s' y : changed x ol s s' →
  s'.(container) y = if decide (y = x) then ol else s.(container) y.
Proof.
  intros Hc. rewrite (ch_container _ _ _ _ Hc). case_decide; subst;
    [apply fn_lookup_insert|by rewrite fn_lookup_insert_ne].
Qed.

End Changed.

(** ** The invariant *)

(** The lists that a task in state [c] can be in. *)
Definition state_list (c : TCB) (l : lid) : Prop :=
  match l with
  | pxReadyTasksLists p => p = c.(uxPriority)
  | xDelayedTaskList1 | xDelayedTaskList2 | xTasksWaitingTermination | xSuspendedTaskList => True
  | xPendingReadyList | EventList _ => False
  end.

Definition event_list (l : lid) : Prop :=
  match l with xPendingReadyList | EventList _ => True | _ => False end.

(** The two lists of delayed tasks: the current one and the one for after the
    overflow of the tick count. *)
Definition delayed_lists (d ov : lid) : Prop :=
  d = xDelayedTaskList1 ∧ ov = xDelayedTaskList2 ∨ d = xDelayedTaskList2 ∧ ov = xDelayedTaskList1.

Lemma delayed_not_event d ov : delayed_lists d ov → ¬ event_list d ∧ ¬ event_list ov.
Proof. intros [[-> ->]|[-> ->]]; simpl; tauto. Qed.

Lemma delayed_state d ov c : delayed_lists d ov → state_list c d ∧ state_list c ov.
Proof. by intros [[-> ->]|[-> ->]]. Qed.

Lemma delayed_other d ov : delayed_lists d ov →
  d ≠ ov ∧ (∀ p, d ≠ pxReadyTasksLists p ∧ ov ≠ pxReadyTasksLists p)
  ∧ d ≠ xSuspendedTaskList ∧ ov ≠ xSuspendedTaskList
  ∧ d ≠ xTasksWaitingTermination ∧ ov ≠ xTasksWaitingTermination.
Proof. by intros [[-> ->]|[-> ->]]. Qed.

Definition priority_ok (p : Z) : Prop := 0 ≤ p < configMAX_PRIORITIES.

Record wf (o : option Z) (T : gmap Z TCB) (s : store item lid) (cur : option Z) (d ov : lid)
    (tick top next num del : Z) : Prop := {
  w_store : store_ok s;
  w_live x l : s.(container) x = Some l → is_Some (T !! owner x);
  w_out t : o = Some t → s.(container) (xStateListItem t) = None;
  w_state t c : T !! t = Some c → o ≠ Some t →
    ∃ l, s.(container) (xStateListItem t) = Some l ∧ state_list c l;
  w_event t l : s.(container) (xEventListItem t) = Some l → event_list l;
  w_prio t c : T !! t = Some c → priority_ok c.(uxPriority) ∧ priority_ok c.(uxBasePriority);
  w_top t p : s.(container) (xStateListItem t) = Some (pxReadyTasksLists p) → p ≤ top;
  w_top_range : priority_ok top;
  w_pointers : delayed_lists d ov;
  w_tick : 0 ≤ tick ≤ portMAX_DELAY;
  w_sorted : sorted_list s d ∧ sorted_list s ov;
  w_delayed t : s.(container) (xStateListItem t) = Some d →
    tick ≤ s.(value) (xStateListItem t) ≤ portMAX_DELAY ∧ next ≤ s.(value) (xStateListItem t);
  w_overflow t : s.(container) (xStateListItem t) = Some ov → 0 ≤ s.(value) (xStateListItem t) < tick;
  w_current : ∃ t, cur = Some t ∧ is_Some (T !! t);
  w_number : num = Z.of_nat (size T) ∧ num < 2 ^ 32;
  w_deleted : del = zlength (s.(elems) xTasksWaitingTermination);
  w_dead t : s.(container) (xStateListItem t) = Some xTasksWaitingTermination →
    s.(container) (xEventListItem t) = None;
}.

Definition kwf (o : option Z) (k : kernel) : Prop :=
  wf o k.(tcbs) k.(lists) k.(pxCurrentTCB) k.(pxDelayedTaskList) k.(pxOverflowDelayedTaskList)
    k.(xTickCount) k.(uxTopReadyPriority) k.(xNextTaskUnblockTime) k.(uxCurrentNumberOfTasks)
    k.(uxDeletedTasksWaitingCleanUp).

Section Wf.
Context {T : gmap Z TCB} {s s' : store item lid} {cur : option Z} {d ov : lid} {tick top next num del : Z}.

Lemma state_not_event c l : state_list c l → ¬ event_list l.
Proof. destruct l; simpl; tauto. Qed.

(** Taking the state item of a task out of the list it is in. *)
Lemma wf_take_state t l : wf None T s cur d ov tick top next num del →
  s.(container) (xStateListItem t) = Some l → l ≠ xTasksWaitingTermination →
  changed (xStateListItem t) None s s' → wf (Some t) T s' cur d ov tick top next num del.
Proof.
  intros [] Hl Hne Hch. assert (Hcon := λ y, changed_container _ _ _ _ y Hch).
  split; rewrite ?(ch_value _ _ _ _ Hch); try done.
  - apply Hch.
  - intros x l'. rewrite Hcon. case_decide; [done|eauto].
  - intros t' [= ->]. rewrite Hcon. by rewrite decide_True.
  - intros t' c Hc Hn. rewrite Hcon, decide_False by congruence. by apply w_state0.
  - intros t' l'. rewrite Hcon, decide_False by done. apply w_event0.
  - intros t' p. rewrite Hcon. case_decide; [done|]. apply w_top0.
  - destruct w_sorted0. split; by apply Hch.
  - intros t'. rewrite Hcon. case_decide; [done|]. apply w_delayed0.
  - intros t'. rewrite Hcon. case_decide; [done|]. apply w_overflow0.
  - rewrite (ch_elems _ _ _ _ Hch); [done|congruence|done].
  - intros t'. rewrite !Hcon, (decide_False (P := xEventListItem _ = _)) by done.
    case_decide; [done|]. apply w_dead0.
Qed.

(** Putting the state item of a task into a list. *)
Lemma wf_put_state t c l : wf (Some t) T s cur d ov tick top next num del →
  T !! t = Some c → state_list c l → changed (xStateListItem t) (Some l) s s' →
  (∀ p, l = pxReadyTasksLists p → p ≤ top) →
  (l = d → tick ≤ s.(value) (xStateListItem t) ≤ portMAX_DELAY ∧ next ≤ s.(value) (xStateListItem t)
           ∧ sorted_list s' d) →
  (l = ov → 0 ≤ s.(value) (xStateListItem t) < tick ∧ sorted_list s' ov) →
  (l = xTasksWaitingTermination → s.(container) (xEventListItem t) = None) →
  wf None T s' cur d ov tick top next num (zlength (s'.(elems) xTasksWaitingTermination)).
Proof.
  intros [] Ht Hst Hch Hp Hd Hov Hterm. assert (Hcon := λ y, changed_container _ _ _ _ y Hch).
  split; rewrite ?(ch_value _ _ _ _ Hch); try done.
  - apply Hch.
  - intros x l'. rewrite Hcon. case_decide as D; [subst x; simpl; eauto|eauto].
  - intros t' c' Hc _. rewrite Hcon. case_decide as D; [|apply w_state0; [done|congruence]].
    injection D as ->. assert (c' = c) as -> by congruence. eauto.
  - intros t' l'. rewrite Hcon, decide_False by done. apply w_event0.
  - intros t' p. rewrite Hcon. case_decide; [|apply w_top0]. intros [= ->]. by apply Hp.
  - destruct w_sorted0. split.
    + destruct (decide (l = d)) as [->|]; [by apply Hd|]. apply Hch; [congruence|done].
    + destruct (decide (l = ov)) as [->|]; [by apply Hov|]. apply Hch; [congruence|done].
  - intros t'. rewrite Hcon. case_decide as D; [|apply w_delayed0]. injection D as ->.
    intros [= E]. destruct (Hd E) as (? & ? & _). done.
  - intros t'. rewrite Hcon. case_decide as D; [|apply w_overflow0]. injection D as ->.
    intros [= E]. by destruct (Hov E).
  - intros t'. rewrite !Hcon, (decide_False (P := xEventListItem _ = _)) by done.
    case_decide as D; [|apply w_dead0]. injection D as ->. intros [= ->]. by apply Hterm.
Qed.

(** Moving the event item of a task. *)
Lemma wf_move_event o t ol : wf o T s cur d ov tick top next num del →
  changed (xEventListItem t) ol s s' → is_Some (T !! t) →
  (∀ l, ol = Some l → event_list l ∧ s.(container) (xStateListItem t) ≠ Some xTasksWaitingTermination) →
  wf o T s' cur d ov tick top next num del.
Proof.
  intros [] Hch Ht Hol. assert (Hcon := λ y, changed_container _ _ _ _ y Hch).
  split; rewrite ?(ch_value _ _ _ _ Hch); try done.
  - apply Hch.
  - intros x l'. rewrite Hcon. case_decide as D; [by subst x|eauto].
  - intros t' Ho. rewrite Hcon, decide_False by done. auto.
  - intros t' c Hc Hn. rewrite Hcon, decide_False by done. by apply w_state0.
  - intros t' l'. rewrite Hcon. case_decide; [|apply w_event0]. intros ->. by apply Hol.
  - intros t' p. rewrite Hcon, decide_False by done. apply w_top0.
  - assert (Hne : ∀ l, ¬ event_list l → ol ≠ Some l) by (intros l Hl ->; by destruct (Hol l)).
    destruct (delayed_not_event _ _ w_pointers0), w_sorted0. split; apply Hch; auto.
  - intros t'. rewrite Hcon, decide_False by done. apply w_delayed0.
  - intros t'. rewrite Hcon, decide_False by done. apply w_overflow0.
  - rewrite (ch_elems _ _ _ _ Hch); [done| |].
    + intros E. apply w_event0 in E. done.
    + intros ->. by destruct (Hol xTasksWaitingTermination).
  - intros t'. rewrite !Hcon, (decide_False (P := xStateListItem _ = _)) by done.
    case_decide as D; [|apply w_dead0]. injection D as ->. intros E.
    destruct ol as [l|]; [|done]. by destruct (Hol l).
Qed.

(** Writing to a TCB.  The priority may change while the task is in no list, or
    in none of the ready lists. *)
Lemma wf_tcb o t c c' : wf o T s cur d ov tick top next num del → T !! t = Some c →
  priority_ok c'.(uxPriority) → priority_ok c'.(uxBasePriority) →
  (c'.(uxPriority) = c.(uxPriority) ∨ o = Some t
   ∨ (∀ p, s.(container) (xStateListItem t) ≠ Some (pxReadyTasksLists p))) →
  wf o (<[t := c']> T) s cur d ov tick top next num del.
Proof.
  intros [] Ht H1 H2 Hp.
  assert (Hdom : ∀ u, is_Some (T !! u) → is_Some (<[t := c']> T !! u)).
  { intros u Hu. destruct (decide (u = t)) as [->|]; [rewrite lookup_insert_eq; eauto|].
    by rewrite lookup_insert_ne. }
  split; try done.
  - intros x l Hx. apply Hdom. eauto.
  - intros u cu Hu Ho. destruct (decide (u = t)) as [->|].
    + rewrite lookup_insert_eq in Hu. injection Hu as <-.
      destruct (w_state0 t c Ht Ho) as (l & El & Hl). exists l. split; [done|].
      destruct l; simpl in *; try done. destruct Hp as [->|[?|Hp]]; [done|done|].
      by destruct (Hp p).
    + rewrite lookup_insert_ne in Hu by done. eauto.
  - intros u cu Hu. destruct (decide (u = t)) as [->|].
    + rewrite lookup_insert_eq in Hu. by injection Hu as <-.
    + rewrite lookup_insert_ne in Hu by done. eauto.
  - destruct w_current0 as (u & -> & Hu). exists u. auto.
  - rewrite map_size_insert, Ht. done.
Qed.

(** Writing the value of an event item, or of a state item that is in no list. *)
Lemma wf_set_value o x v : wf o T s cur d ov tick top next num del →
  (match x with xStateListItem t => o = Some t | xEventListItem _ => True end) →
  wf o T (seq_set_value x v s) cur d ov tick top next num del.
Proof.
  intros [] Hx.
  assert (Hns : ∀ t l, s.(container) (xStateListItem t) = Some l → xStateListItem t ≠ x).
  { intros t l El <-. rewrite w_out0 in El; done. }
  assert (Hin : ∀ l y, ¬ event_list l → y ∈ s.(elems) l → y ≠ x).
  { intros l y Hl Hy ->. apply w_store0 in Hy. destruct x as [t|t]; [by eapply Hns|].
    by apply w_event0 in Hy. }
  destruct (delayed_not_event _ _ w_pointers0) as [Hd1 Hd2].
  assert (Hs : ∀ l, ¬ event_list l → sorted_list s l → sorted_list (seq_set_value x v s) l).
  { intros l Hl. unfold sorted_list. simpl. apply (sorted_ext (value s)). intros y Hy. simpl.
    rewrite fn_lookup_insert_ne; [done|]. intros ->. by eapply Hin. }
  split; try done; simpl.
  - by apply seq_set_value_ok.
  - destruct w_sorted0. split; by apply Hs.
  - intros t Et. rewrite fn_lookup_insert_ne by (intros ->; by eapply Hns). auto.
  - intros t Et. rewrite fn_lookup_insert_ne by (intros ->; by eapply Hns). auto.
Qed.

(** The bounds can be moved. *)
Lemma wf_top_up o top' : wf o T s cur d ov tick top next num del → top ≤ top' → priority_ok top' →
  wf o T s cur d ov tick top' next num del.
Proof. intros [] H1 H2. split; try done. intros t p Hp. etrans; [by eapply w_top0|done]. Qed.

Lemma wf_next o next' : wf o T s cur d ov tick top next num del →
  (∀ t, s.(container) (xStateListItem t) = Some d → next' ≤ s.(value) (xStateListItem t)) →
  wf o T s cur d ov tick top next' num del.
Proof. intros [] H1. split; try done. intros t Ht. split; [by apply w_delayed0|auto]. Qed.

End Wf.
