(* ===== verification/FrTasksMove.v ===== *)
(** FrTasksMove: the moves of tasks between the lists of the kernel. *)

From stdpp Require Import functions sorting.
From S2P Require Import Prelude FrList FrSeq FrKernel FrTasks FrTasksInv.

Definition state (t : Z) (k : kernel) : option lid := k.(lists).(container) (xStateListItem t).
Definition event (t : Z) (k : kernel) : option lid := k.(lists).(container) (xEventListItem t).

(** [relisted con k k']: in [k'] the items are in the lists [con]; but for the
    lists and the bounds uxTopReadyPriority and xNextTaskUnblockTime nothing has
    changed. *)
Record relisted (con : item → option lid) (k k' : kernel) : Prop := {
  rl_kernel : k' = set_lists k'.(lists) (set_uxTopReadyPriority k'.(uxTopReadyPriority)
                     (set_xNextTaskUnblockTime k'.(xNextTaskUnblockTime) k));
  rl_container x : k'.(lists).(container) x = con x;
  rl_value : k'.(lists).(value) = k.(lists).(value);
}.

Lemma relisted_refl k : relisted k.(lists).(container) k k.
Proof. split; try done. by destruct k. Qed.

Lemma relisted_trans con con' k k' k'' :
  relisted con k k' → relisted con' k' k'' → relisted con' k k''.
Proof.
  intros [E1 _ V1] [E2 C2 V2]. split; [|done|by rewrite V2].
  rewrite E2 at 1. rewrite E1. done.
Qed.

Lemma relisted_ext con con' k k' : relisted con k k' → (∀ x, con x = con' x) → relisted con' k k'.
Proof. intros [E C V] H. split; [done| |done]. intros x. by rewrite C. Qed.

(** The fields that a move does not touch. *)
Lemma relisted_fields con k k' : relisted con k k' →
  k'.(tcbs) = k.(tcbs) ∧ k'.(pxCurrentTCB) = k.(pxCurrentTCB)
  ∧ k'.(pxDelayedTaskList) = k.(pxDelayedTaskList)
  ∧ k'.(pxOverflowDelayedTaskList) = k.(pxOverflowDelayedTaskList)
  ∧ k'.(xTickCount) = k.(xTickCount)
  ∧ k'.(xSchedulerRunning) = k.(xSchedulerRunning)
  ∧ k'.(uxSchedulerSuspended) = k.(uxSchedulerSuspended) ∧ k'.(uxPendedTicks) = k.(uxPendedTicks)
  ∧ k'.(xYieldPending) = k.(xYieldPending) ∧ k'.(pending_soft_sv) = k.(pending_soft_sv)
  ∧ k'.(xIdleTaskHandle) = k.(xIdleTaskHandle)
  ∧ k'.(uxCurrentNumberOfTasks) = k.(uxCurrentNumberOfTasks)
  ∧ k'.(uxDeletedTasksWaitingCleanUp) = k.(uxDeletedTasksWaitingCleanUp)
  ∧ k'.(blocks) = k.(blocks).
Proof. intros [-> _ _]. done. Qed.

Lemma set_top_same k : set_uxTopReadyPriority k.(uxTopReadyPriority) k = k.
Proof. by destruct k. Qed.

Lemma changed_relisted_top x ol top s' k : changed x ol k.(lists) s' →
  relisted (<[x := ol]> k.(lists).(container)) k (set_lists s' (set_uxTopReadyPriority top k)).
Proof.
  intros Hch. split; [by destruct k| |apply (ch_value _ _ _ _ Hch)].
  intros y. cbn. by rewrite (ch_container _ _ _ _ Hch).
Qed.

Lemma changed_relisted x ol s' k : changed x ol k.(lists) s' →
  relisted (<[x := ol]> k.(lists).(container)) k (set_lists s' k).
Proof.
  intros Hch. rewrite <- (set_top_same k) at 3. by apply changed_relisted_top.
Qed.

(** A well-formed kernel has a current task. *)
Lemma kwf_current o k : kwf o k → ∃ t c, k.(pxCurrentTCB) = Some t ∧ tcb t k = Some c
  ∧ current_priority k = Some c.(uxPriority).
Proof.
  intros Hk. destruct (w_current _ _ _ _ _ _ _ _ _ _ _ Hk) as (t & E & [c Ec]).
  exists t, c. unfold current_priority, tcb. rewrite E. simpl. rewrite Ec. done.
Qed.

(** ** Taking a task out of its list *)

Lemma remove_state_spec t l k : kwf None k → state t k = Some l → l ≠ xTasksWaitingTermination →
  ∃ k', k_remove (xStateListItem t) k = Some k' ∧ kwf (Some t) k'
    ∧ relisted (<[xStateListItem t := None]> k.(lists).(container)) k k'.
Proof.
  intros Hk Hl Hne. unfold k_remove.
  destruct (remove_changed _ _ _ (w_store _ _ _ _ _ _ _ _ _ _ _ Hk) Hl) as (s' & -> & Hch & _).
  eexists. split; [reflexivity|]. split.
  - unfold kwf. cbn. by eapply wf_take_state.
  - by apply changed_relisted.
Qed.

(** ** Making a task ready *)

Lemma wf_put_state_other {T s s' cur d ov tick top next num del} t c l :
  wf (Some t) T s cur d ov tick top next num del →
  T !! t = Some c → state_list c l → changed (xStateListItem t) (Some l) s s' →
  (∀ p, l = pxReadyTasksLists p → p ≤ top) →
  (l = d → tick ≤ s.(value) (xStateListItem t) ≤ portMAX_DELAY ∧ next ≤ s.(value) (xStateListItem t)
           ∧ sorted_list s' d) →
  (l = ov → 0 ≤ s.(value) (xStateListItem t) < tick ∧ sorted_list s' ov) →
  l ≠ xTasksWaitingTermination → wf None T s' cur d ov tick top next num del.
Proof.
  intros Hk Ht Hl Hch Hp Hd Ho Hne. rewrite (w_deleted _ _ _ _ _ _ _ _ _ _ _ Hk).
  rewrite <- (ch_elems _ _ _ _ Hch).
  - by eapply wf_put_state.
  - rewrite (w_out _ _ _ _ _ _ _ _ _ _ _ Hk); done.
  - congruence.
Qed.

Lemma add_ready_spec t c k : kwf (Some t) k → tcb t k = Some c →
  ∃ k', prvAddTaskToReadyList t k = Some k' ∧ kwf None k'
    ∧ relisted (<[xStateListItem t := Some (pxReadyTasksLists c.(uxPriority))]> k.(lists).(container)) k k'.
Proof.
  intros Hk Hc. unfold prvAddTaskToReadyList. rewrite Hc. cbn [mbind option_bind].
  destruct (w_prio _ _ _ _ _ _ _ _ _ _ _ Hk _ _ Hc) as [Hp _].
  assert (Htop := w_top_range _ _ _ _ _ _ _ _ _ _ _ Hk).
  set (k1 := taskRECORD_READY_PRIORITY _ k).
  assert (E1 : k1 = set_uxTopReadyPriority (Z.max k.(uxTopReadyPriority) c.(uxPriority)) k).
  { unfold k1, taskRECORD_READY_PRIORITY. destruct (Z.ltb_spec k.(uxTopReadyPriority) c.(uxPriority)).
    - by rewrite Z.max_r by lia.
    - rewrite Z.max_l by lia. by rewrite set_top_same. }
  assert (Hout := w_out _ _ _ _ _ _ _ _ _ _ _ Hk t eq_refl).
  unfold k_insert_end. rewrite E1. cbn [lists set_uxTopReadyPriority].
  destruct (insert_end_changed (pxReadyTasksLists c.(uxPriority)) _ _
              (w_store _ _ _ _ _ _ _ _ _ _ _ Hk) Hout) as (s' & -> & Hch & _).
  eexists. split; [reflexivity|]. split; [|by apply changed_relisted_top].
  unfold kwf. cbn. eapply (wf_put_state_other t c (pxReadyTasksLists (uxPriority c))); [|exact Hc|done|exact Hch|..]; try done.
  - eapply wf_top_up; [exact Hk|lia|]. unfold priority_ok in *. lia.
  - intros p [= ->]. lia.
  - intros E. by destruct (w_pointers _ _ _ _ _ _ _ _ _ _ _ Hk) as [[E' _]|[E' _]]; rewrite E' in E.
  - intros E. by destruct (w_pointers _ _ _ _ _ _ _ _ _ _ _ Hk) as [[_ E']|[_ E']]; rewrite E' in E.
Qed.

Definition make_ready (t : Z) (k : kernel) : option kernel :=
  k ← k_remove (xStateListItem t) k; prvAddTaskToReadyList t k.

Lemma make_ready_spec t c l k : kwf None k → tcb t k = Some c → state t k = Some l →
  l ≠ xTasksWaitingTermination →
  ∃ k', make_ready t k = Some k' ∧ kwf None k'
    ∧ relisted (<[xStateListItem t := Some (pxReadyTasksLists c.(uxPriority))]> k.(lists).(container)) k k'.
Proof.
  intros Hk Hc Hl Hne. unfold make_ready.
  destruct (remove_state_spec t l k Hk Hl Hne) as (k1 & -> & Hk1 & R1). simpl.
  destruct (add_ready_spec t c k1 Hk1) as (k2 & -> & Hk2 & R2).
  { unfold tcb. by destruct (relisted_fields _ _ _ R1) as (-> & _). }
  exists k2. split_and!; [done..|]. eapply relisted_trans; [exact R1|].
  eapply relisted_ext; [exact R2|]. intros x. assert (C := rl_container _ _ _ R1 x).
  unfold insert, fn_insert in *. by case_decide.
Qed.

(** ** Event items *)

Lemma remove_event_spec o t l k : kwf o k → event t k = Some l →
  ∃ k', k_remove (xEventListItem t) k = Some k' ∧ kwf o k'
    ∧ relisted (<[xEventListItem t := None]> k.(lists).(container)) k k'.
Proof.
  intros Hk Hl. unfold k_remove.
  destruct (remove_changed _ _ _ (w_store _ _ _ _ _ _ _ _ _ _ _ Hk) Hl) as (s' & -> & Hch & _).
  eexists. split; [reflexivity|]. split; [|by apply changed_relisted].
  unfold kwf. cbn. eapply wf_move_event; [exact Hk|exact Hch| |done].
  apply (w_live _ _ _ _ _ _ _ _ _ _ _ Hk _ _ Hl).
Qed.

Lemma remove_event_item_spec o t k : kwf o k →
  ∃ k', remove_event_item t k = Some k' ∧ kwf o k'
    ∧ relisted (<[xEventListItem t := None]> k.(lists).(container)) k k'.
Proof.
  intros Hk. unfold remove_event_item, k_container.
  destruct (container (lists k) (xEventListItem t)) as [l|] eqn:E.
  - by eapply remove_event_spec.
  - exists k. split_and!; [done..|]. eapply relisted_ext; [apply relisted_refl|].
    intros x. unfold insert, fn_insert. case_decide; congruence.
Qed.

(** Putting the event item of a task into a list of waiting tasks. *)
Lemma insert_end_event_spec o t l k : kwf o k → is_Some (tcb t k) → event t k = None → event_list l →
  state t k ≠ Some xTasksWaitingTermination →
  ∃ k', k_insert_end l (xEventListItem t) k = Some k' ∧ kwf o k'
    ∧ relisted (<[xEventListItem t := Some l]> k.(lists).(container)) k k'.
Proof.
  intros Hk Ht Hl He Hst. unfold k_insert_end.
  destruct (insert_end_changed l _ _ (w_store _ _ _ _ _ _ _ _ _ _ _ Hk) Hl) as (s' & -> & Hch & _).
  eexists. split; [reflexivity|]. split; [|by apply changed_relisted].
  unfold kwf. cbn. eapply wf_move_event; [exact Hk|exact Hch|exact Ht|]. by intros l' [= <-].
Qed.

(** By priority: the list need not be sorted. *)
Lemma insert_event_spec o t l k : kwf o k → is_Some (tcb t k) → event t k = None → event_list l →
  state t k ≠ Some xTasksWaitingTermination →
  ∃ k', k_insert l (xEventListItem t) k = Some k' ∧ kwf o k'
    ∧ relisted (<[xEventListItem t := Some l]> k.(lists).(container)) k k'.
Proof.
  intros Hk Ht Hl He Hst. unfold k_insert, seq_insert. unfold event in Hl. rewrite Hl.
  eexists. split; [reflexivity|]. split; [|split; [by destruct k|done..]].
  unfold kwf. cbn. eapply (wf_move_event o t (Some l)); [exact Hk| |exact Ht|by intros l' [= <-]].
  split; simpl; try done.
  - apply put_in_ok; [apply Hk|done|apply put_sorted_perm].
  - intros l' _ Hl'. rewrite fn_lookup_insert_ne; [done|]. congruence.
  - intros l' Hl'. unfold sorted_list. simpl. rewrite fn_lookup_insert_ne; [done|]. congruence.
Qed.

(** ** The time of the next wake-up *)

(** The items of a list of delayed tasks are state items. *)
Lemma delayed_items o k x l : kwf o k → x ∈ k.(lists).(elems) l → ¬ event_list l →
  ∃ t, x = xStateListItem t ∧ state t k = Some l.
Proof.
  intros Hk Hx Hl. apply (ok_in _ (w_store _ _ _ _ _ _ _ _ _ _ _ Hk)) in Hx.
  destruct x as [t|t]; [by exists t|]. by apply (w_event _ _ _ _ _ _ _ _ _ _ _ Hk) in Hx.
Qed.

(** The owner of the head of the list of delayed tasks wakes up first. *)
Lemma head_delayed o k : kwf o k →
  match head_owner k.(pxDelayedTaskList) k with
  | None => ∀ t, state t k ≠ Some k.(pxDelayedTaskList)
  | Some t => state t k = Some k.(pxDelayedTaskList) ∧
      ∀ t', state t' k = Some k.(pxDelayedTaskList) →
        k_value (xStateListItem t) k ≤ k_value (xStateListItem t') k
  end.
Proof.
  intros Hk. assert (Hok := w_store _ _ _ _ _ _ _ _ _ _ _ Hk).
  destruct (w_sorted _ _ _ _ _ _ _ _ _ _ _ Hk) as [Hs _]. unfold sorted_list in Hs.
  destruct (delayed_not_event _ _ (w_pointers _ _ _ _ _ _ _ _ _ _ _ Hk)) as [Hd _].
  unfold head_owner, seq_head, state, k_value.
  destruct (elems (lists k) (pxDelayedTaskList k)) as [|x xs] eqn:E; simpl.
  - intros t Ht%Hok. rewrite E in Ht. set_solver.
  - destruct (delayed_items o k x (pxDelayedTaskList k) Hk) as (t & -> & Ht); [rewrite E; set_solver|done|]. simpl.
    split; [exact Ht|]. intros t' Ht'%Hok. rewrite E in Ht'.
    apply elem_of_cons in Ht' as [[= ->]|Ht']; [lia|].
    apply StronglySorted_inv in Hs as [_ Hs]. rewrite Forall_forall in Hs. by apply Hs.
Qed.

Lemma set_next_spec o v k : kwf o k →
  (∀ t, state t k = Some k.(pxDelayedTaskList) → v ≤ k_value (xStateListItem t) k) →
  kwf o (set_xNextTaskUnblockTime v k) ∧ relisted k.(lists).(container) k (set_xNextTaskUnblockTime v k).
Proof. intros Hk Hv. split; [by apply (wf_next o v Hk)|]. split; [by destruct k|done..]. Qed.

Lemma reset_next_spec o k : kwf o k →
  kwf o (prvResetNextTaskUnblockTime k) ∧ relisted k.(lists).(container) k (prvResetNextTaskUnblockTime k).
Proof.
  intros Hk. assert (Hh := head_delayed o k Hk). unfold prvResetNextTaskUnblockTime.
  destruct (head_owner _ k) as [t|]; apply set_next_spec; try done.
  - apply Hh.
  - intros t Ht. by destruct (Hh t).
Qed.

(** ** Blocking the current task *)

Lemma insert_suspended_spec t k : kwf (Some t) k → is_Some (tcb t k) →
  ∃ k', k_insert_end xSuspendedTaskList (xStateListItem t) k = Some k' ∧ kwf None k'
    ∧ relisted (<[xStateListItem t := Some xSuspendedTaskList]> k.(lists).(container)) k k'.
Proof.
  intros Hk [c Hc]. unfold k_insert_end.
  destruct (insert_end_changed xSuspendedTaskList _ _ (w_store _ _ _ _ _ _ _ _ _ _ _ Hk)
              (w_out _ _ _ _ _ _ _ _ _ _ _ Hk t eq_refl)) as (s' & -> & Hch & _).
  eexists. split; [reflexivity|]. split; [|by apply changed_relisted].
  destruct (delayed_other _ _ (w_pointers _ _ _ _ _ _ _ _ _ _ _ Hk)) as (_ & _ & N1 & N2 & _).
  unfold kwf. cbn. by eapply (wf_put_state_other t c xSuspendedTaskList).
Qed.

Lemma insert_terminated_spec t k : kwf (Some t) k → is_Some (tcb t k) → event t k = None →
  0 ≤ k.(uxDeletedTasksWaitingCleanUp) + 1 < 2 ^ 32 →
  ∃ k', k_insert_end xTasksWaitingTermination (xStateListItem t) k = Some k'
    ∧ kwf None (set_uxDeletedTasksWaitingCleanUp (u32 (k'.(uxDeletedTasksWaitingCleanUp) + 1)) k')
    ∧ relisted (<[xStateListItem t := Some xTasksWaitingTermination]> k.(lists).(container)) k k'.
Proof.
  intros Hk [c Hc] He Hb. unfold k_insert_end.
  destruct (insert_end_changed xTasksWaitingTermination _ _ (w_store _ _ _ _ _ _ _ _ _ _ _ Hk)
              (w_out _ _ _ _ _ _ _ _ _ _ _ Hk t eq_refl)) as (s' & -> & Hch & Hp).
  eexists. split; [reflexivity|]. split; [|by apply changed_relisted].
  destruct (delayed_other _ _ (w_pointers _ _ _ _ _ _ _ _ _ _ _ Hk)) as (_ & _ & _ & _ & N1 & N2).
  unfold kwf. cbn. rewrite u32_small by lia.
  replace (uxDeletedTasksWaitingCleanUp k + 1) with (zlength (elems s' xTasksWaitingTermination)).
  - by eapply (wf_put_state t c xTasksWaitingTermination).
  - rewrite Hp, (w_deleted _ _ _ _ _ _ _ _ _ _ _ Hk). simpl. lia.
Qed.

(** The list a task that blocks for [n] ticks goes to, and its wake-up time. *)
Definition wake_time (n : Z) (k : kernel) : Z := u32 (k.(xTickCount) + n).
Definition wait_list (n : Z) (indefinitely : bool) (k : kernel) : lid :=
  if (n =? portMAX_DELAY) && indefinitely then xSuspendedTaskList
  else if wake_time n k <? k.(xTickCount) then k.(pxOverflowDelayedTaskList) else k.(pxDelayedTaskList).

(** Into a list of delayed tasks; [next'] bounds the wake-up times from below. *)
Lemma insert_delayed_spec next' t l k (v := k_value (xStateListItem t) k) : kwf (Some t) k →
  is_Some (tcb t k) → next' ≤ k.(xNextTaskUnblockTime) →
  l = k.(pxDelayedTaskList) ∧ k.(xTickCount) ≤ v ≤ portMAX_DELAY ∧ next' ≤ v
  ∨ l = k.(pxOverflowDelayedTaskList) ∧ 0 ≤ v < k.(xTickCount) →
  ∃ k', k_insert l (xStateListItem t) k = Some k' ∧ kwf None (set_xNextTaskUnblockTime next' k')
    ∧ k'.(xNextTaskUnblockTime) = k.(xNextTaskUnblockTime)
    ∧ relisted (<[xStateListItem t := Some l]> k.(lists).(container)) k k'.
Proof.
  intros Hk [c Hc] Hn Hl. unfold k_insert.
  assert (Hptr := w_pointers _ _ _ _ _ _ _ _ _ _ _ Hk).
  destruct (w_sorted _ _ _ _ _ _ _ _ _ _ _ Hk) as [Hs1 Hs2].
  destruct (delayed_other _ _ Hptr) as (Hne & Hr & _ & _ & Ht1 & Ht2).
  destruct (delayed_state _ _ c Hptr) as [Hc1 Hc2].
  destruct (insert_changed l _ _ (w_store _ _ _ _ _ _ _ _ _ _ _ Hk)
              (w_out _ _ _ _ _ _ _ _ _ _ _ Hk t eq_refl)) as (s' & -> & Hch & _ & Hs).
  { by destruct Hl as [[-> _]|[-> _]]. }
  eexists. split; [reflexivity|]. split; [|split; [done|by apply changed_relisted]].
  unfold kwf. cbn. eapply (wf_put_state_other t c l); [|exact Hc| |exact Hch|..].
  - apply (wf_next _ _ Hk). intros u Hu. etrans; [exact Hn|].
    apply (w_delayed _ _ _ _ _ _ _ _ _ _ _ Hk u Hu).
  - by destruct Hl as [[-> _]|[-> _]].
  - intros p ->. destruct (Hr p). by destruct Hl as [[? _]|[? _]].
  - destruct Hl as [(-> & H1 & H2)|[-> _]]; [done|]. intros E. by destruct Hne.
  - destruct Hl as [[-> _]|[-> H1]]; [|done]. intros E. by destruct Hne.
  - by destruct Hl as [[-> _]|[-> _]].
Qed.

Lemma add_delayed_spec n b t l k : kwf None k → k.(pxCurrentTCB) = Some t → state t k = Some l →
  l ≠ xTasksWaitingTermination → 0 < n ≤ portMAX_DELAY →
  ∃ k', prvAddCurrentTaskToDelayedList n b k = Some k' ∧ kwf None k'
    ∧ relisted (<[xStateListItem t := Some (wait_list n b k)]> k.(lists).(container))
        (if (n =? portMAX_DELAY) && b then k else k_set_value (xStateListItem t) (wake_time n k) k) k'.
Proof.
  intros Hk Hcur Hl Hne Hn. unfold prvAddCurrentTaskToDelayedList. rewrite Hcur. cbn [mbind option_bind].
  destruct (kwf_current _ _ Hk) as (t' & c & E & Hc & _). rewrite Hcur in E. injection E as <-.
  destruct (remove_state_spec t l k Hk Hl Hne) as (k1 & -> & Hk1 & R1). cbn [mbind option_bind].
  assert (F1 := relisted_fields _ _ _ R1). destruct F1 as (Ft & _ & Fd & Fo & Fk & _).
  assert (Hlive : is_Some (tcb t k1)) by (unfold tcb; rewrite Ft; eauto).
  assert (Hcon : ∀ m x, (<[xStateListItem t := m]> k1.(lists).(container)) x
                      = (<[xStateListItem t := m]> k.(lists).(container)) x).
  { intros m x. assert (C := rl_container _ _ _ R1 x). unfold insert, fn_insert in *. by case_decide. }
  unfold wait_list. destruct ((n =? portMAX_DELAY) && b).
  { destruct (insert_suspended_spec t k1 Hk1 Hlive) as (k2 & -> & Hk2 & R2).
    exists k2. split_and!; [done..|]. eapply relisted_trans; [exact R1|]. by eapply relisted_ext. }
  fold (wake_time n k). assert (Hw : wake_time n k ≠ k.(xTickCount) ∧ 0 ≤ wake_time n k ≤ portMAX_DELAY).
  { assert (Ht := w_tick _ _ _ _ _ _ _ _ _ _ _ Hk). unfold wake_time, portMAX_DELAY in *. zsolve. }
  set (k2 := k_set_value _ _ k1).
  assert (Hk2 : kwf (Some t) k2) by (unfold kwf, k2; cbn; by apply (wf_set_value (Some t))).
  assert (Hv : k_value (xStateListItem t) k2 = wake_time n k)
    by (unfold k_value, k2; cbn; by rewrite fn_lookup_insert).
  assert (R2 : ∀ m k3, relisted (<[xStateListItem t := Some m]> k2.(lists).(container)) k2 k3 →
    relisted (<[xStateListItem t := Some m]> k.(lists).(container))
      (k_set_value (xStateListItem t) (wake_time n k) k) k3).
  { intros m k3 [E3 C3 V3]. split.
    - rewrite E3 at 1. unfold k2. rewrite (rl_kernel _ _ _ R1). done.
    - intros x. rewrite C3. apply (Hcon (Some m)).
    - rewrite V3. unfold k2. cbn. by rewrite (rl_value _ _ _ R1). }
  destruct (Z.ltb_spec (wake_time n k) k.(xTickCount)) as [L|L].
  - destruct (insert_delayed_spec k2.(xNextTaskUnblockTime) t k2.(pxOverflowDelayedTaskList) k2)
      as (k3 & -> & Hk3 & N3 & R3); try done; [right; rewrite Hv; split; [done|]; unfold k2; cbn; lia|].
    exists k3. split; [done|]. rewrite <- N3 in Hk3. split; [by destruct k3|].
    unfold k2 in R3. cbn in R3. rewrite Fo in R3. by apply R2.
  - set (next' := if wake_time n k <? k2.(xNextTaskUnblockTime) then wake_time n k
                  else k2.(xNextTaskUnblockTime)).
    assert (Hn' : next' ≤ k2.(xNextTaskUnblockTime) ∧ next' ≤ wake_time n k)
      by (unfold next'; zbool; lia).
    destruct (insert_delayed_spec next' t k2.(pxDelayedTaskList) k2)
      as (k3 & -> & Hk3 & N3 & R3); try done; [apply Hn'|left; rewrite Hv; split; [done|]; unfold k2; cbn; lia|].
    assert (E3 : (if wake_time n k <? k3.(xNextTaskUnblockTime)
                  then set_xNextTaskUnblockTime (wake_time n k) k3 else k3)
                 = set_xNextTaskUnblockTime next' k3).
    { unfold next'. rewrite <- N3. destruct (wake_time n k <? k3.(xNextTaskUnblockTime)); [done|by destruct k3]. }
    exists (set_xNextTaskUnblockTime next' k3). split; [by rewrite <- E3|]. split; [done|]. unfold k2 in R3. cbn in R3. rewrite Fd in R3. apply R2 in R3.
    eapply relisted_trans; [exact R3|]. eapply relisted_ext; [|apply (rl_container _ _ _ R3)].
    split; [by destruct k3|done..].
Qed.
