(* ===== verification/FrTasksTick.v ===== *)
(** FrTasksTick: the selection of the running task and the tick. *)

From stdpp Require Import functions sorting.
From S2P Require Import Prelude FrList FrSeq FrKernel FrTasks FrTasksInv FrTasksMove.

(** ** Selection *)

(** The current task is ready, and no ready task has a higher priority. *)
Definition highest (k : kernel) : Prop :=
  ∃ t c, k.(pxCurrentTCB) = Some t ∧ tcb t k = Some c
    ∧ state t k = Some (pxReadyTasksLists c.(uxPriority))
    ∧ ∀ t' p, state t' k = Some (pxReadyTasksLists p) → p ≤ c.(uxPriority).

Lemma state_priority k t p : kwf None k → state t k = Some (pxReadyTasksLists p) →
  ∃ c, tcb t k = Some c ∧ c.(uxPriority) = p ∧ 0 ≤ p ≤ k.(uxTopReadyPriority).
Proof.
  intros Hk Ht. destruct (w_live _ _ _ _ _ _ _ _ _ _ _ Hk _ _ Ht) as [c Hc]. exists c.
  destruct (w_state _ _ _ _ _ _ _ _ _ _ _ Hk t c Hc) as (l & El & Hl); [done|].
  unfold state in Ht. rewrite Ht in El. injection El as <-. simpl in Hl. subst p.
  destruct (w_prio _ _ _ _ _ _ _ _ _ _ _ Hk t c Hc) as [[? ?] _].
  assert (B := w_top _ _ _ _ _ _ _ _ _ _ _ Hk _ _ Ht). done.
Qed.

Lemma is_empty_true l k : is_empty l k = true ↔ k.(lists).(elems) l = [].
Proof.
  unfold is_empty, seq_length. rewrite Z.eqb_eq. destruct (elems _ l); simpl; split; done || lia.
Qed.

Lemma find_priority_spec k : kwf None k → ∀ n,
  (∃ t p, state t k = Some (pxReadyTasksLists p) ∧ p ≤ Z.of_nat n) →
  ∃ m, find_priority n k = Some m ∧ k.(lists).(elems) (pxReadyTasksLists (Z.of_nat m)) ≠ []
    ∧ (m ≤ n)%nat
    ∧ ∀ t p, state t k = Some (pxReadyTasksLists p) → p ≤ Z.of_nat n → p ≤ Z.of_nat m.
Proof.
  intros Hk. assert (Hin := ok_in _ (w_store _ _ _ _ _ _ _ _ _ _ _ Hk)).
  induction n as [|n IH]; intros (t & p & Ht & Hp);
    destruct (state_priority k t p Hk Ht) as (c & _ & _ & Hp0); cbn [find_priority];
    match goal with |- context [is_empty ?l k] => destruct (is_empty l k) eqn:E end.
  - apply is_empty_true in E. assert (p = 0) as -> by lia. apply Hin in Ht.
    change (Z.of_nat 0) with 0 in E. rewrite E in Ht. set_solver.
  - exists 0%nat. split_and!; [done| |lia|done]. intros H. by rewrite (proj2 (is_empty_true _ k) H) in E.
  - destruct IH as (m & -> & H1 & H2 & H3).
    + exists t, p. split; [done|]. destruct (decide (p = Z.of_nat (S n))) as [->|]; [|lia].
      apply Hin in Ht. apply is_empty_true in E. rewrite E in Ht. set_solver.
    + exists m. split_and!; [done..|lia|]. intros t' p' Ht' Hp'. eapply H3; [exact Ht'|].
      destruct (decide (p' = Z.of_nat (S n))) as [->|]; [|lia].
      apply Hin in Ht'. apply is_empty_true in E. rewrite E in Ht'. set_solver.
  - exists (S n). split_and!; [done| |lia|done]. intros H. by rewrite (proj2 (is_empty_true _ k) H) in E.
Qed.

(** [rescheduled k k']: another task may be the current one, nothing else but
    the walking index of a ready list and the bound of the priorities moved. *)
Record rescheduled (k k' : kernel) : Prop := {
  rs_kernel : k' = set_pxCurrentTCB k'.(pxCurrentTCB)
                     (set_lists k'.(lists) (set_uxTopReadyPriority k'.(uxTopReadyPriority) k));
  rs_container x : k'.(lists).(container) x = k.(lists).(container) x;
  rs_value x : k'.(lists).(value) x = k.(lists).(value) x;
}.

Lemma select_spec k : kwf None k → (∃ t p, state t k = Some (pxReadyTasksLists p)) →
  ∃ k', taskSELECT_HIGHEST_PRIORITY_TASK k = Some k' ∧ kwf None k' ∧ highest k' ∧ rescheduled k k'.
Proof.
  intros Hk (t & p & Ht). unfold taskSELECT_HIGHEST_PRIORITY_TASK.
  assert (Htop := w_top_range _ _ _ _ _ _ _ _ _ _ _ Hk). unfold priority_ok in Htop.
  destruct (state_priority k t p Hk Ht) as (_ & _ & _ & Hp0).
  destruct (find_priority_spec k Hk (Z.to_nat k.(uxTopReadyPriority))) as (m & -> & Hne & Hm & Hmax).
  { exists t, p. split; [done|]. lia. }
  cbn [mbind option_bind].
  destruct (seq_next_some _ _ Hne) as [[x s'] E]. rewrite E. cbn [mbind option_bind].
  destruct (seq_next_ok _ _ _ _ (w_store _ _ _ _ _ _ _ _ _ _ _ Hk) E) as (Hok & Hx & Ee & Ec & Ev).
  destruct (delayed_items _ _ _ _ Hk Hx) as (u & -> & Hu); [simpl; tauto|].
  destruct (state_priority k u _ Hk Hu) as (c & Hc & Hcp & _).
  assert (Hall : ∀ t' p', state t' k = Some (pxReadyTasksLists p') → p' ≤ Z.of_nat m).
  { intros t' p' Ht'. eapply Hmax; [exact Ht'|].
    destruct (state_priority k t' p' Hk Ht') as (_ & _ & _ & ?). lia. }
  eexists. split; [reflexivity|]. split_and!.
  - destruct (w_sorted _ _ _ _ _ _ _ _ _ _ _ Hk) as [H1 H2].
    destruct Hk. unfold kwf. cbn. split; unfold sorted_list; rewrite ?Ee, ?Ec, ?Ev; try done.
    + unfold priority_ok. lia.
    + unfold sorted_list, by_value in *. by rewrite Ev.
    + exists u. split; [done|]. by exists c.
  - exists u, c. unfold state, tcb. cbn. rewrite Ec, Hcp. split_and!; [done..|]. exact Hall.
  - split; [by destruct k|..]; intros y; cbn; by rewrite ?Ec, ?Ev.
Qed.

(** ** Waking up *)

Definition woken (now : Z) (k : kernel) (t : Z) : bool :=
  bool_decide (state t k = Some k.(pxDelayedTaskList)) && (k_value (xStateListItem t) k <=? now).

(** Where the items are when the tasks whose time has come are awake. *)
Definition wake_lists (now : Z) (k : kernel) (x : item) : option lid :=
  match x with
  | xStateListItem t =>
      if woken now k t then (λ c, pxReadyTasksLists c.(uxPriority)) <$> tcb t k else state t k
  | xEventListItem t => if woken now k t then None else event t k
  end.

Lemma woken_spec now k t : woken now k t = true ↔
  state t k = Some k.(pxDelayedTaskList) ∧ k_value (xStateListItem t) k ≤ now.
Proof. unfold woken. by rewrite andb_true_iff, bool_decide_eq_true, Z.leb_le. Qed.

(** A list without one of its elements is shorter. *)
Lemma length_without {A} (a : A) xs ys : NoDup xs → a ∈ ys → (∀ x, x ∈ xs → x ∈ ys ∧ x ≠ a) →
  (S (length xs) ≤ length ys)%nat.
Proof.
  intros Hnd Ha H. change (S (length xs)) with (length (a :: xs)).
  apply submseteq_length, NoDup_submseteq.
  - constructor; [|done]. intros Hx. by destruct (H a Hx).
  - intros x [->|Hx]%elem_of_cons; [done|]. by apply H.
Qed.

(** One round of the loop. *)
Lemma wake_one now k t c : kwf None k → tcb t k = Some c →
  state t k = Some k.(pxDelayedTaskList) → k_value (xStateListItem t) k ≤ now →
  ∃ k', (k1 ← k_remove (xStateListItem t) k; k2 ← remove_event_item t k1; prvAddTaskToReadyList t k2)
        = Some k' ∧ kwf None k'
    ∧ relisted (<[xStateListItem t := Some (pxReadyTasksLists c.(uxPriority))]>
                 (<[xEventListItem t := None]> k.(lists).(container))) k k'
    ∧ (∀ x, wake_lists now k' x = wake_lists now k x)
    ∧ (S (length (k'.(lists).(elems) k.(pxDelayedTaskList)))
       ≤ length (k.(lists).(elems) k.(pxDelayedTaskList)))%nat.
Proof.
  intros Hk Hc Hs Hv.
  destruct (delayed_other _ _ (w_pointers _ _ _ _ _ _ _ _ _ _ _ Hk)) as (_ & Hr & _ & _ & Hne & _).
  destruct (remove_state_spec t _ k Hk Hs Hne) as (k1 & E1 & Hk1 & R1).
  destruct (remove_event_item_spec _ t k1 Hk1) as (k2 & E2 & Hk2 & R2).
  assert (R12 := relisted_trans _ _ _ _ _ R1 R2).
  destruct (add_ready_spec t c k2 Hk2) as (k3 & E3 & Hk3 & R3).
  { unfold tcb. by destruct (relisted_fields _ _ _ R12) as (-> & _). }
  assert (R : relisted (<[xStateListItem t := Some (pxReadyTasksLists c.(uxPriority))]>
                 (<[xEventListItem t := None]> k.(lists).(container))) k k3).
  { eapply relisted_ext; [eapply relisted_trans; [exact R12|exact R3]|]. intros x.
    assert (C1 := rl_container _ _ _ R1 x). assert (C2 := rl_container _ _ _ R2 x).
    unfold insert, fn_insert in *. repeat case_decide; congruence. }
  exists k3. rewrite E1. simpl. rewrite E2. simpl. split_and!; [done..| |].
  - destruct (relisted_fields _ _ _ R) as (Ft & _ & Fd & _).
    assert (Hcon := rl_container _ _ _ R). assert (Hval := rl_value _ _ _ R).
    assert (Hw : ∀ u, woken now k3 u = if decide (u = t) then false else woken now k u).
    { intros u. unfold woken, state, k_value. rewrite Fd, Hval, Hcon. case_decide as D.
      - subst u. rewrite fn_lookup_insert, bool_decide_eq_false_2; [done|].
        intros [= E]. by destruct (Hr (uxPriority c)).
      - rewrite !fn_lookup_insert_ne by congruence. done. }
    intros [u|u]; unfold wake_lists; rewrite Hw; case_decide as D.
    + subst u. unfold state. rewrite Hcon, fn_lookup_insert.
      by rewrite (proj2 (woken_spec now k t)), Hc.
    + unfold tcb. rewrite Ft. destruct (woken now k u); [done|].
      unfold state. by rewrite Hcon, !fn_lookup_insert_ne by congruence.
    + subst u. unfold event. rewrite Hcon, fn_lookup_insert_ne, fn_lookup_insert by done.
      by rewrite (proj2 (woken_spec now k t)).
    + destruct (woken now k u); [done|]. unfold event. by rewrite Hcon, !fn_lookup_insert_ne by congruence.
  - assert (Hin := ok_in _ (w_store _ _ _ _ _ _ _ _ _ _ _ Hk)).
    assert (Hok3 := w_store _ _ _ _ _ _ _ _ _ _ _ Hk3).
    eapply (length_without (xStateListItem t)); [apply Hok3|by apply Hin|].
    intros x Hx. apply (ok_in _ Hok3) in Hx. rewrite (rl_container _ _ _ R) in Hx.
    unfold insert, fn_insert in Hx. destruct (decide (xStateListItem t = x)).
    + injection Hx as E. by destruct (Hr (uxPriority c)).
    + destruct (decide (xEventListItem t = x)); [done|]. split; [by apply Hin|congruence].
Qed.

(** The result of the loop: [sw'] and [k'] when it started with [sw] in [k]. *)
Definition unblocked (now : Z) (k : kernel) (sw : bool) (k' : kernel) (sw' : bool) : Prop :=
  kwf None k' ∧ relisted (wake_lists now k) k k'
  ∧ (sw' = false → sw = false ∧ ∀ t c p, woken now k t = true → tcb t k = Some c →
      current_priority k = Some p → c.(uxPriority) < p).

(** No task wakes up: the loop ends. *)
Lemma wake_none v now k sw : kwf None k →
  (∀ t, state t k = Some k.(pxDelayedTaskList) → v ≤ k_value (xStateListItem t) k) →
  (∀ t, state t k = Some k.(pxDelayedTaskList) → now < k_value (xStateListItem t) k) →
  ∃ sw' k', Some (sw, set_xNextTaskUnblockTime v k) = Some (sw', k') ∧ unblocked now k sw k' sw'.
Proof.
  intros Hk Hv Hnow. destruct (set_next_spec None v k Hk Hv) as [Hk' R'].
  assert (Hnw : ∀ u, woken now k u = false).
  { intros u. destruct (woken now k u) eqn:E; [|done]. apply woken_spec in E as [E1 E2].
    specialize (Hnow u E1). lia. }
  eexists _, _. split; [reflexivity|]. split_and!; [done| |].
  - eapply relisted_ext; [exact R'|]. intros [u|u]; unfold wake_lists; by rewrite Hnw.
  - intros ->. split; [done|]. intros u c p E. by rewrite Hnw in E.
Qed.

(** The loop wakes exactly the tasks whose time has come, and asks for a switch
    if one of them has at least the priority of the current task. *)
Lemma unblock_loop_spec now fuel : ∀ k sw, kwf None k →
  (length (k.(lists).(elems) k.(pxDelayedTaskList)) ≤ fuel)%nat →
  ∃ sw' k', unblock_loop fuel now k sw = Some (sw', k') ∧ unblocked now k sw k' sw'.
Proof.
  induction fuel as [|fuel IH]; intros k sw Hk Hf; assert (Hh := head_delayed _ k Hk);
    cbn [unblock_loop]; destruct (head_owner k.(pxDelayedTaskList) k) as [t|] eqn:Eh.
  1: { exfalso. unfold head_owner, seq_head in Eh. destruct (elems _ _); simpl in *; [done|lia]. }
  1,3: by apply (wake_none portMAX_DELAY); [|intros t Ht; by destruct (Hh t)..].
  destruct Hh as [Ht Hmin]. destruct (Z.ltb_spec now (k_value (xStateListItem t) k)) as [L|L].
  - apply wake_none; [done|exact Hmin|]. intros u Hu. specialize (Hmin u Hu). lia.
  - destruct (w_live _ _ _ _ _ _ _ _ _ _ _ Hk _ _ Ht) as [c Hc]. cbn [owner] in Hc.
    destruct (wake_one now k t c Hk Hc Ht L) as (k1 & E1 & Hk1 & R1 & Hw & Hlen).
    destruct (relisted_fields _ _ _ R1) as (Ft & Fc & Fd & _).
    destruct (kwf_current _ _ Hk) as (u & cu & Eu & Hcu & Hp).
    assert (Hp1 : current_priority k1 = Some cu.(uxPriority)).
    { unfold current_priority, tcb in *. by rewrite Fc, Ft. }
    destruct (k_remove _ k) as [k2|]; [|done]. simpl in E1 |- *.
    destruct (remove_event_item t k2) as [k3|]; [|done]. simpl in E1 |- *. rewrite E1. simpl.
    unfold tcb. rewrite Ft. unfold tcb in Hc. rewrite Hc. simpl. rewrite Hp1. simpl.
    destruct (IH k1 (sw || (cu.(uxPriority) <=? c.(uxPriority))) Hk1) as (sw' & k' & -> & Hk' & R' & Hsw).
    { rewrite Fd. lia. }
    eexists _, _. split; [reflexivity|]. split_and!; [done| |].
    + eapply relisted_trans; [exact R1|]. by eapply relisted_ext.
    + intros ->. destruct (Hsw eq_refl) as [[-> Hle]%orb_false_iff Hall]. split; [done|].
      apply Z.leb_gt in Hle. intros v cv p Hv Hcv Hpv. rewrite Hp in Hpv. injection Hpv as <-.
      destruct (decide (v = t)) as [->|Hne].
      * unfold tcb in Hcv. assert (cv = c) as -> by congruence. done.
      * eapply (Hall v cv); [|unfold tcb in *; by rewrite Ft|by rewrite Hp1].
        apply woken_spec in Hv as [V1 V2]. apply woken_spec. unfold state, k_value in *.
        rewrite Fd, (rl_value _ _ _ R1), (rl_container _ _ _ R1).
        by rewrite !fn_lookup_insert_ne by congruence.
Qed.

(** ** The tick *)

(** Every delayed task wakes up in the future. *)
Definition strict (k : kernel) : Prop :=
  ∀ t, state t k = Some k.(pxDelayedTaskList) → k.(xTickCount) < k_value (xStateListItem t) k.

(** The tick count goes up, and on its overflow the lists are switched. *)
Definition advance (k : kernel) : kernel :=
  let now := u32 (k.(xTickCount) + 1) in
  let k := set_xTickCount now k in
  if now =? 0 then taskSWITCH_DELAYED_LISTS k else k.

Lemma advance_wf k : kwf None k → strict k → kwf None (advance k).
Proof.
  intros Hk Hs. assert (Ht := w_tick _ _ _ _ _ _ _ _ _ _ _ Hk).
  unfold advance. set (now := u32 _). destruct (Z.eqb_spec now 0) as [E|E].
  - assert (Htick : k.(xTickCount) = portMAX_DELAY) by (unfold now, portMAX_DELAY in *; zsolve).
    assert (Hnone : ∀ t, state t k ≠ Some k.(pxDelayedTaskList)).
    { intros t Et. specialize (Hs t Et). destruct (w_delayed _ _ _ _ _ _ _ _ _ _ _ Hk t Et).
      unfold k_value in Hs. lia. }
    unfold taskSWITCH_DELAYED_LISTS. set (k1 := set_xNumOfOverflows _ _).
    change (prvResetNextTaskUnblockTime k1) with (prvResetNextTaskUnblockTime (set_xNextTaskUnblockTime 0 k1)).
    apply reset_next_spec. unfold kwf, k1. cbn. rewrite E. destruct Hk. split; try done.
    + unfold delayed_lists in *. naive_solver.
    + by destruct w_sorted.
    + intros t Et. specialize (w_overflow t Et). lia.
    + intros t Et. by destruct (Hnone t).
  - assert (Hnow : now = k.(xTickCount) + 1) by (unfold now, portMAX_DELAY in *; zsolve).
    unfold kwf. cbn. rewrite Hnow. destruct Hk. split; try done.
    + unfold now, portMAX_DELAY in *. zsolve.
    + intros t Et. specialize (Hs t Et). unfold k_value in Hs. destruct (w_delayed t Et). lia.
    + intros t Et. specialize (w_overflow t Et). lia.
Qed.

(** What a tick leaves alone. *)
Record kframe (k k' : kernel) : Prop := {
  kf_tcbs : k'.(tcbs) = k.(tcbs);
  kf_current : k'.(pxCurrentTCB) = k.(pxCurrentTCB);
  kf_running : k'.(xSchedulerRunning) = k.(xSchedulerRunning);
  kf_suspended : k'.(uxSchedulerSuspended) = k.(uxSchedulerSuspended);
  kf_soft : k'.(pending_soft_sv) = k.(pending_soft_sv);
  kf_idle : k'.(xIdleTaskHandle) = k.(xIdleTaskHandle);
  kf_number : k'.(uxCurrentNumberOfTasks) = k.(uxCurrentNumberOfTasks);
  kf_deleted : k'.(uxDeletedTasksWaitingCleanUp) = k.(uxDeletedTasksWaitingCleanUp);
  kf_blocks : k'.(blocks) = k.(blocks);
  kf_ready t p : state t k = Some (pxReadyTasksLists p) → state t k' = Some (pxReadyTasksLists p);
}.

Lemma kframe_refl k : kframe k k.
Proof. by split. Qed.

Lemma kframe_trans k k' k'' : kframe k k' → kframe k' k'' → kframe k k''.
Proof. intros [] []. split; try congruence. auto. Qed.

(** The fields of [advance k]. *)
Lemma advance_fields k :
  kframe k (advance k) ∧ (advance k).(lists) = k.(lists)
  ∧ (advance k).(xTickCount) = u32 (k.(xTickCount) + 1)
  ∧ (advance k).(pxDelayedTaskList)
    = (if u32 (k.(xTickCount) + 1) =? 0 then k.(pxOverflowDelayedTaskList) else k.(pxDelayedTaskList))
  ∧ (advance k).(xYieldPending) = k.(xYieldPending) ∧ (advance k).(uxPendedTicks) = k.(uxPendedTicks).
Proof.
  unfold advance, taskSWITCH_DELAYED_LISTS, prvResetNextTaskUnblockTime.
  destruct (_ =? 0); [|done]. by destruct (head_owner _ _).
Qed.

Lemma wake_frame now k k' : kwf None k → relisted (wake_lists now k) k k' → kframe k k'.
Proof.
  intros Hk R. destruct (relisted_fields _ _ _ R) as (?&?&?&?&?&?&?&?&?&?&?&?&?&?).
  split; try done. intros t p Ht. unfold state. rewrite (rl_container _ _ _ R). simpl.
  destruct (woken now k t) eqn:E; [|done]. apply woken_spec in E as [E _]. rewrite Ht in E.
  injection E as E. destruct (delayed_other _ _ (w_pointers _ _ _ _ _ _ _ _ _ _ _ Hk)) as (_ & Hr & _).
  by destruct (Hr p) as [[] _].
Qed.

(** A task that is ready after the wake-up was ready before, or woke up. *)
Lemma wake_ready now k k' t p : relisted (wake_lists now k) k k' →
  state t k' = Some (pxReadyTasksLists p) →
  state t k = Some (pxReadyTasksLists p) ∨ woken now k t = true ∧ ∃ c, tcb t k = Some c ∧ p = c.(uxPriority).
Proof.
  intros R. unfold state at 1. rewrite (rl_container _ _ _ R). simpl.
  destruct (woken now k t); [|by left]. right. split; [done|].
  destruct (tcb t k) as [c|]; [|done]. exists c. by simplify_eq/=.
Qed.

Lemma wake_strict now k k' : kwf None k → relisted (wake_lists now k) k k' → k.(xTickCount) = now → strict k'.
Proof.
  intros Hk R Hnow t. destruct (relisted_fields _ _ _ R) as (_ & _ & Fd & _ & Ft & _).
  unfold state, k_value. rewrite Fd, Ft, (rl_container _ _ _ R), (rl_value _ _ _ R). simpl.
  destruct (woken now k t) eqn:E.
  - destruct (delayed_other _ _ (w_pointers _ _ _ _ _ _ _ _ _ _ _ Hk)) as (_ & Hr & _).
    destruct (tcb t k) as [c|]; [|done]. intros [= E']. by destruct (Hr (uxPriority c)).
  - intros Et. unfold woken in E. rewrite bool_decide_eq_true_2 in E by done. simpl in E.
    apply Z.leb_gt in E. unfold k_value in E. lia.
Qed.

Lemma wake_highest now k k' : kwf None k → relisted (wake_lists now k) k k' →
  (∀ t c p, woken now k t = true → tcb t k = Some c → current_priority k = Some p → c.(uxPriority) < p) →
  highest k → highest k'.
Proof.
  intros Hk R Hsw (t & c & Hcur & Hc & Ht & Hmax). assert (F := wake_frame now k k' Hk R).
  exists t, c. unfold tcb. rewrite (kf_current _ _ F), (kf_tcbs _ _ F). split_and!; try done.
  - by apply F.
  - intros t' p Ht'. destruct (wake_ready _ _ _ _ _ R Ht') as [H|(H1 & c' & H2 & ->)]; [by eapply Hmax|].
    enough (uxPriority c' < uxPriority c) by lia. eapply Hsw; [done..|].
    unfold current_priority. by rewrite Hcur; simpl; rewrite Hc.
Qed.

(** The loop or its absence: the tasks whose time has come are awake. *)
Lemma unblock_spec k : kwf None k →
  ∃ sw k', (if k.(xNextTaskUnblockTime) <=? k.(xTickCount)
            then unblock_loop (length (k.(lists).(elems) k.(pxDelayedTaskList))) k.(xTickCount) k false
            else Some (false, k)) = Some (sw, k') ∧ unblocked k.(xTickCount) k false k' sw.
Proof.
  intros Hk. destruct (Z.leb_spec k.(xNextTaskUnblockTime) k.(xTickCount)) as [L|L].
  - by apply unblock_loop_spec.
  - replace (Some (false, k)) with (Some (false, set_xNextTaskUnblockTime k.(xNextTaskUnblockTime) k))
      by (by destruct k).
    apply wake_none; [done|..]; intros t Ht;
      destruct (w_delayed _ _ _ _ _ _ _ _ _ _ _ Hk t Ht); unfold k_value; lia.
Qed.

(** A tick: the time goes on, exactly the tasks whose time has come become
    ready, and unless it asks for a switch the running task is still right. *)
Lemma tick_spec k : kwf None k → strict k → k.(uxSchedulerSuspended) = 0 →
  ∃ sw k', xTaskIncrementTick k = Some (sw, k') ∧ kwf None k' ∧ strict k' ∧ kframe k k'
    ∧ relisted (wake_lists (u32 (k.(xTickCount) + 1)) (advance k)) (advance k) k'
    ∧ (sw = false → k.(xYieldPending) = false ∧ (highest k → highest k')).
Proof.
  intros Hk Hs Hsus. assert (Ha := advance_wf k Hk Hs).
  destruct (advance_fields k) as (Fa & La & Ta & _ & Ya & _).
  unfold xTaskIncrementTick. rewrite Hsus. cbn [Z.eqb].
  fold (advance k). destruct (unblock_spec (advance k) Ha) as (sw & k' & E & Hk' & R & Hsw).
  rewrite Ta in E, R, Hsw. rewrite E. cbn [mbind option_bind].
  destruct (kwf_current _ _ Hk') as (t & c & _ & _ & Hp). rewrite Hp. cbn [mbind option_bind].
  eexists _, _. split; [reflexivity|]. split_and!; [done|eapply wake_strict; [exact Ha|exact R|done]| |done|].
  - eapply kframe_trans; [exact Fa|]. by eapply wake_frame.
  - intros [[-> _]%orb_false_iff Hy]%orb_false_iff.
    destruct (relisted_fields _ _ _ R) as (_&_&_&_&_&_&_&_&Fy&_). rewrite Fy, Ya in Hy.
    split; [done|]. intros Hh. destruct (Hsw eq_refl) as [_ Hall].
    eapply wake_highest; [exact Ha|exact R|exact Hall|].
    destruct Hh as (u & cu & H1 & H2 & H3 & H4). exists u, cu. unfold tcb, state.
    rewrite (kf_current _ _ Fa), (kf_tcbs _ _ Fa), La. done.
Qed.
