(* ===== verification/FrTasksSched.v ===== *)
(** FrTasksSched: the invariant of the running scheduler, and how suspending
    the scheduler, resuming it, the tick and the context switch keep it. *)

From stdpp Require Import functions sorting.
From S2P Require Import Prelude FrList FrSeq FrKernel FrTasks FrTasksInv FrTasksMove FrTasksTick.

(** ** The invariant *)

(** All of the invariant but the choice of the running task. *)
Record kcore (k : kernel) : Prop := {
  kc_wf : kwf None k;
  kc_strict : strict k;
  kc_idle : ∃ t p, k.(xIdleTaskHandle) = Some t ∧ state t k = Some (pxReadyTasksLists p);
  kc_running : k.(xSchedulerRunning) = true;
  kc_suspended : 0 ≤ k.(uxSchedulerSuspended) < 2 ^ 32;
  kc_pended : 0 ≤ k.(uxPendedTicks) < 2 ^ 32;
  kc_quiet : k.(uxSchedulerSuspended) = 0 →
    k.(uxPendedTicks) = 0 ∧ ∀ t, event t k ≠ Some xPendingReadyList;
}.

(** Whether the switches that the kernel asks for are made.  The invariant has two
    versions, of which only one says that the running task has the highest priority:
    when a mutex is given back to a waiting task, xQueueGenericSend can drop the
    switch that the loss of an inherited priority asks for (FrTasksSteps). *)
Class Urgency := prompt : Prop.
Definition loose : Urgency := False.

Section urgency.
Context {U : Urgency}.

(** The current task is ready. *)
Definition runnable (k : kernel) : Prop :=
  ∃ t c, k.(pxCurrentTCB) = Some t ∧ tcb t k = Some c
    ∧ state t k = Some (pxReadyTasksLists c.(uxPriority)).

(** The current task is a ready task of the highest priority, or a switch is
    pending: in the soft interrupt, or in xYieldPending for the next tick or the
    end of the suspension of the scheduler.  A task that blocked is current no
    longer than until the soft interrupt, and none blocks while the scheduler
    is suspended. *)
Record preempts (k : kernel) : Prop := {
  pr_highest : k.(pending_soft_sv) = false → k.(xYieldPending) = false → prompt → highest k;
  pr_runnable : k.(pending_soft_sv) = false ∨ k.(uxSchedulerSuspended) ≠ 0 → runnable k;
}.

Definition kinv (k : kernel) : Prop := kcore k ∧ preempts k.

Lemma highest_runnable k : highest k → runnable k.
Proof. intros (t & c & H1 & H2 & H3 & _). by exists t, c. Qed.

Lemma kinv_yield k : kcore k → (k.(uxSchedulerSuspended) ≠ 0 → runnable k) →
  kinv (portYIELD_WITHIN_API k).
Proof. intros [] H. split; [by split|]. split; [by intros [=]|]. intros [[=]|Hs]. by apply H. Qed.

(** A yield that is not needed does no harm. *)
Lemma kinv_yield_if (b : bool) k : kcore k → (k.(uxSchedulerSuspended) ≠ 0 → runnable k) →
  (b = false → preempts k) → kinv (if b then portYIELD_WITHIN_API k else k).
Proof. intros Hc Hr Hp. destruct b; [by apply kinv_yield|]. split; auto. Qed.

(** ** Moves under the invariant *)

(** The walk from [k] to [k'] wakes or blocks tasks as [con] says. *)
Lemma kcore_relisted con k k' : kcore k → kwf None k' → relisted con k k' →
  (∀ t p, k.(xIdleTaskHandle) = Some t → state t k = Some (pxReadyTasksLists p) →
     ∃ p', con (xStateListItem t) = Some (pxReadyTasksLists p')) →
  (∀ t, con (xStateListItem t) = Some k.(pxDelayedTaskList) →
     state t k = Some k.(pxDelayedTaskList)) →
  (k.(uxSchedulerSuspended) = 0 → ∀ t, con (xEventListItem t) = Some xPendingReadyList →
     event t k = Some xPendingReadyList) →
  kcore k'.
Proof.
  intros [Hw Hs (ti & pi & Hi & Hip) Hr Hsu Hpe Hq] Hk' R Hidle Hdel Hpend.
  destruct (relisted_fields _ _ _ R) as (_&_&Fd&_&Ft&Fr&Fs&Fp&_&_&Fi&_). assert (C := rl_container _ _ _ R).
  split; try done; rewrite ?Fr, ?Fs, ?Fp; try done.
  - intros t. unfold state, k_value. rewrite C, Fd, Ft, (rl_value _ _ _ R). intros E.
    by apply Hs, Hdel.
  - destruct (Hidle ti pi Hi Hip) as (p' & Hp'). exists ti, p'. unfold state. by rewrite Fi, C.
  - intros E. destruct (Hq E) as [H1 H2]. split; [done|]. intros t. unfold event. rewrite C.
    intros E'. by apply (H2 t), Hpend.
Qed.

(** The choice only depends on the tasks, their states and the requests. *)
Lemma preempts_same k k' : k'.(tcbs) = k.(tcbs) → k'.(pxCurrentTCB) = k.(pxCurrentTCB) →
  (∀ t, state t k' = state t k) → k'.(pending_soft_sv) = k.(pending_soft_sv) →
  k'.(uxSchedulerSuspended) = k.(uxSchedulerSuspended) → k'.(xYieldPending) = k.(xYieldPending) →
  preempts k → preempts k'.
Proof.
  intros ET EC ES Eo Eu Ey [Hp1 Hp2]. split.
  - rewrite Eo, Ey. intros H1 H2 Hu. destruct (Hp1 H1 H2 Hu) as (t & c & T1 & T2 & T3 & T4).
    exists t, c. unfold tcb. rewrite EC, ET, ES. split_and!; try done. intros t' p. rewrite ES. apply T4.
  - rewrite Eo, Eu. intros H. destruct (Hp2 H) as (t & c & T1 & T2 & T3). exists t, c.
    unfold tcb. by rewrite EC, ET, ES.
Qed.

(** The current task stays highest when the task [t] becomes ready below it. *)
Lemma highest_ready con k k' t c : highest k → relisted con k k' → tcb t k = Some c →
  con (xStateListItem t) = Some (pxReadyTasksLists c.(uxPriority)) →
  (∀ u, u ≠ t → con (xStateListItem u) = state u k) →
  (∀ p, current_priority k = Some p → c.(uxPriority) ≤ p) → highest k'.
Proof.
  intros (u & cu & Hcur & Hcu & Hu & Hmax) R Hc Ht Ho Hle.
  destruct (relisted_fields _ _ _ R) as (Ft & Fc & _). assert (C := rl_container _ _ _ R).
  assert (Hp : current_priority k = Some cu.(uxPriority)).
  { unfold current_priority. rewrite Hcur. simpl. by rewrite Hcu. }
  specialize (Hle _ Hp). exists u, cu. unfold tcb, state in *. rewrite Fc, Ft. split_and!; try done.
  - rewrite C. destruct (decide (u = t)) as [->|Hne]; [|by rewrite Ho].
    assert (cu = c) as -> by congruence. done.
  - intros t' p. rewrite C. destruct (decide (t' = t)) as [->|Hne].
    + rewrite Ht. by intros [= <-].
    + rewrite Ho by done. apply Hmax.
Qed.

(** ** The context switch *)

Lemma check_overflow_spec k : kwf None k →
  ∃ log, taskCHECK_FOR_STACK_OVERFLOW k = Some (set_overflow_hook log k).
Proof.
  intros Hk. unfold taskCHECK_FOR_STACK_OVERFLOW.
  destruct (kwf_current _ _ Hk) as (t & c & -> & Hc & _). simpl. rewrite Hc. simpl.
  case_bool_decide; [|by eexists]. exists k.(overflow_hook). by destruct k.
Qed.

(** Everything but the choice of the task is as it was. *)
Record kswitched (k k' : kernel) : Prop := {
  sw_tcbs : k'.(tcbs) = k.(tcbs);
  sw_state t : state t k' = state t k;
  sw_event t : event t k' = event t k;
  sw_soft : k'.(pending_soft_sv) = k.(pending_soft_sv);
  sw_suspended : k'.(uxSchedulerSuspended) = k.(uxSchedulerSuspended);
  sw_tick : k'.(xTickCount) = k.(xTickCount);
  sw_idle : k'.(xIdleTaskHandle) = k.(xIdleTaskHandle);
  sw_value x : k_value x k' = k_value x k;
  sw_delayed : k'.(pxDelayedTaskList) = k.(pxDelayedTaskList);
  sw_overflow : k'.(pxOverflowDelayedTaskList) = k.(pxOverflowDelayedTaskList);
}.

Lemma switch_spec k : kcore k →
  ∃ k', vTaskSwitchContext k = Some k' ∧ kcore k' ∧ kswitched k k'
    ∧ (if k.(uxSchedulerSuspended) =? 0 then k'.(xYieldPending) = false ∧ highest k'
       else k'.(xYieldPending) = true ∧ k'.(pxCurrentTCB) = k.(pxCurrentTCB)).
Proof.
  intros [Hw Hs (ti & pi & Hi & Hip) Hr Hsu Hpe Hq]. unfold vTaskSwitchContext.
  destruct (Z.eqb_spec k.(uxSchedulerSuspended) 0) as [E|E]; cbn [negb].
  2: { eexists. split; [reflexivity|]. split_and!; [|by split|done|done].
       split; try done. by exists ti, pi. }
  set (k1 := set_xYieldPending false k). assert (Hw1 : kwf None k1) by exact Hw.
  destruct (check_overflow_spec k1 Hw1) as [log ->]. cbn [mbind option_bind].
  set (k2 := set_overflow_hook log k1). assert (Hw2 : kwf None k2) by exact Hw.
  destruct (select_spec k2 Hw2) as (k' & -> & Hk' & Hh & [E' C V]); [by exists ti, pi|].
  exists k'. split; [done|].
  assert (Hst : ∀ t, state t k' = state t k) by (intros t; apply (C (xStateListItem t))).
  assert (Hev : ∀ t, event t k' = event t k) by (intros t; apply (C (xEventListItem t))).
  assert (Hf : k'.(tcbs) = k.(tcbs) ∧ k'.(pxDelayedTaskList) = k.(pxDelayedTaskList)
    ∧ k'.(xTickCount) = k.(xTickCount) ∧ k'.(xSchedulerRunning) = k.(xSchedulerRunning)
    ∧ k'.(uxSchedulerSuspended) = k.(uxSchedulerSuspended) ∧ k'.(uxPendedTicks) = k.(uxPendedTicks)
    ∧ k'.(xIdleTaskHandle) = k.(xIdleTaskHandle) ∧ k'.(pending_soft_sv) = k.(pending_soft_sv)
    ∧ k'.(xYieldPending) = false ∧ k'.(pxOverflowDelayedTaskList) = k.(pxOverflowDelayedTaskList)) by (by rewrite E').
  destruct Hf as (F1 & F2 & F3 & F4 & F5 & F6 & F7 & F8 & F9 & F10).
  split_and!; [|split; try congruence; intros x; apply V|done|done].
  split; rewrite ?F4, ?F5, ?F6; try done.
  - intros t. rewrite Hst, F2, F3. unfold k_value. rewrite V. apply Hs.
  - exists ti, pi. by rewrite F7, Hst.
  - intros H. destruct (Hq H) as [H1 H2]. split; [done|]. intros t. by rewrite Hev.
Qed.

(** Switching tasks leaves a task running that is the right one, or the one
    that was when the scheduler is suspended. *)
Lemma switched_preempts k k' : kswitched k k' → (k.(uxSchedulerSuspended) ≠ 0 → runnable k) →
  (if k.(uxSchedulerSuspended) =? 0 then k'.(xYieldPending) = false ∧ highest k'
   else k'.(xYieldPending) = true ∧ k'.(pxCurrentTCB) = k.(pxCurrentTCB)) →
  (k'.(xYieldPending) = false → highest k') ∧ runnable k'.
Proof.
  intros Hs Hr. destruct (Z.eqb_spec (uxSchedulerSuspended k) 0) as [E|E]; intros [H1 H2].
  - split; [done|by apply highest_runnable].
  - split; [congruence|]. destruct (Hr E) as (t & c & E1 & E2 & E3). exists t, c.
    unfold tcb. by rewrite H2, (sw_tcbs _ _ Hs), (sw_state _ _ Hs).
Qed.

Lemma kinv_switch k : kcore k → (k.(uxSchedulerSuspended) ≠ 0 → runnable k) →
  ∃ k', vTaskSwitchContext k = Some k' ∧ kinv k' ∧ kswitched k k'.
Proof.
  intros Hk Hr. destruct (switch_spec k Hk) as (k' & E & Hk' & Hs & H). exists k'.
  destruct (switched_preempts k k' Hs Hr H) as [H1 H2]. split_and!; [done| |done]. split; [done|]. split; [by intros _ ? _; apply H1|by intros _].
Qed.

(** The soft interrupt: afterwards no switch is pending in it, and the running
    task is right unless the scheduler is suspended. *)
Lemma sv_isr_spec k : kinv k → ∃ k', SV_ISR k = Some k' ∧ kinv k' ∧ k'.(pending_soft_sv) = false.
Proof.
  intros [Hc Hp]. unfold SV_ISR. destruct (pending_soft_sv k) eqn:E; [|by exists k].
  destruct (switch_spec k Hc) as (k' & -> & Hk' & Hs & H). eexists. split; [reflexivity|].
  destruct (switched_preempts k k' Hs) as [H1 H2]; [intros Hn; apply Hp; by right|done|].
  split_and!; [|done]. split; [by destruct Hk'|]. split; [by intros _ ? _; apply H1|done].
Qed.

(** ** The tick interrupt *)

Lemma tick_core k : kcore k →
  ∃ sw k', xTaskIncrementTick k = Some (sw, k') ∧ kcore k' ∧ (runnable k → runnable k')
    ∧ k'.(uxSchedulerSuspended) = k.(uxSchedulerSuspended) ∧ (sw = false → preempts k → preempts k').
Proof.
  intros [Hw Hs (ti & pi & Hi & Hip) Hr Hsu Hpe Hq].
  destruct (Z.eqb_spec k.(uxSchedulerSuspended) 0) as [E|E].
  - destruct (tick_spec k Hw Hs E) as (sw & k' & Et & Hk' & Hs' & F & R & Hsw).
    destruct (advance_fields k) as (Fa & La & _ & _ & Ya & Pa).
    destruct (relisted_fields _ _ _ R) as (_&_&_&_&_&_&_&Fp&Fy&_).
    assert (Hrun : runnable k → runnable k').
    { intros (t & c & H1 & H2 & H3). exists t, c. unfold tcb.
      rewrite (kf_current _ _ F), (kf_tcbs _ _ F). split_and!; try done. by apply F. }
    exists sw, k'. split_and!; [done| |done|apply F|].
    + split; try done; rewrite ?(kf_running _ _ F), ?(kf_suspended _ _ F), ?Fp, ?Pa; try done.
      * exists ti, pi. rewrite (kf_idle _ _ F). split; [done|]. by apply F.
      * intros _. split; [by apply Hq|]. intros t. unfold event. rewrite (rl_container _ _ _ R). simpl.
        destruct (woken _ _ t); [done|]. unfold event. rewrite La. by apply Hq.
    + intros -> Hp. destruct (Hsw eq_refl) as [Hy Hh]. split.
      * intros H1 H2 Hu. apply Hh, Hp; [|done..]. by rewrite <- (kf_soft _ _ F).
      * rewrite (kf_soft _ _ F), (kf_suspended _ _ F). intros H. by apply Hrun, Hp.
  - unfold xTaskIncrementTick. rewrite (proj2 (Z.eqb_neq _ _) E). simpl.
    eexists _, _. split; [reflexivity|]. split_and!; try done.
    + split; try done; [by exists ti, pi|]. cbn. zsolve.
    + intros Hy [Hp1 Hp2]. by split.
Qed.

Lemma kswitched_refl k : kswitched k k.
Proof. by split. Qed.

(** The handler is the tick and perhaps a switch. *)
Lemma tick_handler_steps k : kinv k →
  ∃ sw k1 k', xTaskIncrementTick k = Some (sw, k1) ∧ xPortSysTickHandle k = Some k' ∧ kinv k' ∧ kswitched k1 k'.
Proof.
  intros [Hc Hp]. unfold xPortSysTickHandle.
  destruct (tick_core k Hc) as (sw & k1 & -> & Hk1 & Hrun & Hsu & Hsw). simpl. exists sw, k1. destruct sw.
  - destruct (kinv_switch k1 Hk1) as (k2 & -> & Hk2 & K); [|by eauto 6].
    rewrite Hsu. intros Hn. apply Hrun, Hp. by right.
  - exists k1. split_and!; [done..|split; auto|apply kswitched_refl].
Qed.

Lemma tick_handler_spec k : kinv k → ∃ k', xPortSysTickHandle k = Some k' ∧ kinv k'.
Proof. intros Hk. destruct (tick_handler_steps k Hk) as (sw & k1 & k' & _ & E & H & _). eauto. Qed.

(** ** Suspending and resuming the scheduler *)

Lemma suspend_all_spec k : kinv k → k.(uxSchedulerSuspended) + 1 < 2 ^ 32 → runnable k →
  kinv (vTaskSuspendAll k) ∧ (vTaskSuspendAll k).(uxSchedulerSuspended) = k.(uxSchedulerSuspended) + 1.
Proof.
  intros [[Hw Hs Hi Hr Hsu Hpe Hq] [Hp1 Hp2]] Hlt Hsoft. unfold vTaskSuspendAll. rewrite u32_small by lia.
  split; [|done]. split; [split; cbn; try done; lia|]. by split.
Qed.

(** Where the items are when the pended tasks are ready. *)
Definition pended (k : kernel) (t : Z) : bool := bool_decide (event t k = Some xPendingReadyList).
Definition pend_lists (k : kernel) (x : item) : option lid :=
  match x with
  | xStateListItem t =>
      if pended k t then (λ c, pxReadyTasksLists c.(uxPriority)) <$> tcb t k else state t k
  | xEventListItem t => if pended k t then None else event t k
  end.

Lemma pended_spec k t : pended k t = true ↔ event t k = Some xPendingReadyList.
Proof. unfold pended. by rewrite bool_decide_eq_true. Qed.

(** One round of the loop. *)
Lemma ready_one k t c : kwf None k → tcb t k = Some c → event t k = Some xPendingReadyList →
  ∃ k', (k1 ← k_remove (xEventListItem t) k; k2 ← k_remove (xStateListItem t) k1; prvAddTaskToReadyList t k2)
        = Some k' ∧ kwf None k'
    ∧ relisted (<[xStateListItem t := Some (pxReadyTasksLists c.(uxPriority))]>
                 (<[xEventListItem t := None]> k.(lists).(container))) k k'
    ∧ (∀ x, pend_lists k' x = pend_lists k x)
    ∧ (S (length (k'.(lists).(elems) xPendingReadyList))
       ≤ length (k.(lists).(elems) xPendingReadyList))%nat.
Proof.
  intros Hk Hc He.
  destruct (remove_event_spec _ t _ k Hk He) as (k1 & E1 & Hk1 & R1).
  destruct (w_state _ _ _ _ _ _ _ _ _ _ _ Hk t c Hc) as (l & El & _); [done|].
  assert (Hne : l ≠ xTasksWaitingTermination).
  { intros ->. apply (w_dead _ _ _ _ _ _ _ _ _ _ _ Hk) in El. unfold event in He. congruence. }
  destruct (make_ready_spec t c l k1 Hk1) as (k2 & E2 & Hk2 & R2).
  { unfold tcb. by destruct (relisted_fields _ _ _ R1) as (-> & _). }
  { unfold state. by rewrite (rl_container _ _ _ R1), fn_lookup_insert_ne. }
  { done. }
  assert (R : relisted (<[xStateListItem t := Some (pxReadyTasksLists c.(uxPriority))]>
                 (<[xEventListItem t := None]> k.(lists).(container))) k k2).
  { eapply relisted_ext; [eapply relisted_trans; [exact R1|exact R2]|]. intros x.
    assert (C1 := rl_container _ _ _ R1 x). unfold insert, fn_insert in *. repeat case_decide; congruence. }
  exists k2. rewrite E1. simpl. split_and!; [done..| |].
  - destruct (relisted_fields _ _ _ R) as (Ft & _). assert (Hcon := rl_container _ _ _ R).
    assert (Hw : ∀ u, pended k2 u = if decide (u = t) then false else pended k u).
    { intros u. unfold pended, event. rewrite Hcon, fn_lookup_insert_ne by done. case_decide as D.
      - subst u. by rewrite fn_lookup_insert.
      - by rewrite fn_lookup_insert_ne by congruence. }
    intros [u|u]; unfold pend_lists; rewrite Hw; case_decide as D.
    + subst u. unfold state. rewrite Hcon, fn_lookup_insert. by rewrite (proj2 (pended_spec k t)), Hc.
    + unfold tcb. rewrite Ft. destruct (pended k u); [done|].
      unfold state. by rewrite Hcon, !fn_lookup_insert_ne by congruence.
    + subst u. unfold event. rewrite Hcon, fn_lookup_insert_ne, fn_lookup_insert by done.
      by rewrite (proj2 (pended_spec k t)).
    + destruct (pended k u); [done|]. unfold event. by rewrite Hcon, !fn_lookup_insert_ne by congruence.
  - assert (Hin := ok_in _ (w_store _ _ _ _ _ _ _ _ _ _ _ Hk)).
    assert (Hok2 := w_store _ _ _ _ _ _ _ _ _ _ _ Hk2).
    eapply (length_without (xEventListItem t)); [apply Hok2|by apply Hin|].
    intros x Hx. apply (ok_in _ Hok2) in Hx. rewrite (rl_container _ _ _ R) in Hx.
    unfold insert, fn_insert in Hx. destruct (decide (xStateListItem t = x)); [done|].
    destruct (decide (xEventListItem t = x)); [done|]. split; [by apply Hin|congruence].
Qed.

(** The head of the list of pended tasks. *)
Lemma head_pended k : kwf None k →
  match head_owner xPendingReadyList k with
  | None => ∀ t, event t k ≠ Some xPendingReadyList
  | Some t => event t k = Some xPendingReadyList
  end.
Proof.
  intros Hk. assert (Hok := w_store _ _ _ _ _ _ _ _ _ _ _ Hk). unfold head_owner, seq_head, event.
  destruct (elems (lists k) xPendingReadyList) as [|x xs] eqn:E; simpl.
  - intros t Ht%Hok. rewrite E in Ht. set_solver.
  - assert (Hx : container (lists k) x = Some xPendingReadyList) by (apply Hok; rewrite E; set_solver).
    destruct x as [t|t]; [|done]. simpl.
    destruct (w_live _ _ _ _ _ _ _ _ _ _ _ Hk _ _ Hx) as [c Hc].
    destruct (w_state _ _ _ _ _ _ _ _ _ _ _ Hk _ c Hc) as (l & El & Hl); [done|].
    simpl in El. rewrite Hx in El. injection El as <-. done.
Qed.

Lemma ready_pended_spec fuel : ∀ k any, kwf None k →
  (length (k.(lists).(elems) xPendingReadyList) ≤ fuel)%nat →
  ∃ any' k', ready_pended fuel k any = Some (any', k') ∧ kwf None k'
    ∧ relisted (pend_lists k) (set_xYieldPending k'.(xYieldPending) k) k'
    ∧ (k'.(xYieldPending) = false → k.(xYieldPending) = false ∧ ∀ t c p, pended k t = true →
        tcb t k = Some c → current_priority k = Some p → c.(uxPriority) < p).
Proof.
  induction fuel as [|fuel IH]; intros k any Hk Hf; assert (Hh := head_pended k Hk);
    cbn [ready_pended]; destruct (head_owner xPendingReadyList k) as [t|] eqn:Eh.
  1: { exfalso. unfold head_owner, seq_head in Eh. destruct (elems _ _); simpl in *; [done|lia]. }
  1,3: assert (Hno : ∀ u, pended k u = false) by (intros u; unfold pended; by rewrite bool_decide_eq_false_2);
    eexists _, k; split; [reflexivity|]; split_and!; [done| |];
    [split; [by destruct k| |done]; intros [u|u]; simpl; by rewrite Hno
    |intros ->; split; [done|]; intros u c p E; by rewrite Hno in E].
  destruct (w_live _ _ _ _ _ _ _ _ _ _ _ Hk _ _ Hh) as [c Hc]. cbn [owner] in Hc.
  destruct (ready_one k t c Hk Hc Hh) as (k1 & E1 & Hk1 & R1 & Hw & Hlen).
  destruct (relisted_fields _ _ _ R1) as (Ft & Fc & _ & _ & _ & _ & _ & _ & Fy & _).
  destruct (kwf_current _ _ Hk) as (u & cu & Eu & Hcu & Hp).
  assert (Hp1 : current_priority k1 = Some cu.(uxPriority)).
  { unfold current_priority, tcb in *. by rewrite Fc, Ft. }
  destruct (k_remove _ k) as [k2|]; [|done]. simpl in E1 |- *.
  destruct (k_remove _ k2) as [k3|]; [|done]. simpl in E1 |- *. rewrite E1. simpl.
  unfold tcb. rewrite Ft. rewrite Hc. simpl. rewrite Hp1. simpl.
  set (k4 := if uxPriority cu <=? uxPriority c then set_xYieldPending true k1 else k1).
  assert (H4 : k4 = set_xYieldPending k4.(xYieldPending) k1) by (unfold k4; destruct (_ <=? _); [done|by destruct k1]).
  assert (Hk4 : kwf None k4) by (rewrite H4; exact Hk1).
  destruct (IH k4 true Hk4) as (any' & k' & -> & Hk' & R' & Hy); [rewrite H4; cbn; lia|].
  eexists _, k'. split; [reflexivity|]. split_and!; [done| |].
  - destruct R' as [K C V]. split.
    + rewrite K at 1. rewrite H4. cbn. rewrite (rl_kernel _ _ _ R1) at 1. done.
    + intros x. rewrite C, <- Hw. by rewrite H4.
    + rewrite V. rewrite H4. cbn. apply (rl_value _ _ _ R1).
  - intros E. destruct (Hy E) as [Hy4 Hall]. unfold k4 in Hy4.
    destruct (Z.leb_spec (uxPriority cu) (uxPriority c)) as [L|L]; [done|]. rewrite Fy in Hy4.
    split; [done|]. intros v cv p Hv Hcv Hpv. rewrite Hp in Hpv. injection Hpv as <-.
    destruct (decide (v = t)) as [->|Hne].
    + unfold tcb in Hcv. assert (cv = c) as -> by congruence. done.
    + eapply (Hall v cv); [|rewrite H4; unfold tcb in *; cbn; by rewrite Ft|rewrite H4; exact Hp1].
      rewrite H4. apply pended_spec in Hv. apply pended_spec. unfold event in *. cbn.
      rewrite (rl_container _ _ _ R1). by rewrite !fn_lookup_insert_ne by congruence.
Qed.

(** The missed ticks. *)
Lemma pended_ticks_spec n : ∀ k, kwf None k → strict k → k.(uxSchedulerSuspended) = 0 →
  (∀ t, event t k ≠ Some xPendingReadyList) →
  ∃ k', pended_ticks n k = Some k' ∧ kwf None k' ∧ strict k' ∧ kframe k k'
    ∧ k'.(xTickCount) = u32 (k.(xTickCount) + Z.of_nat n)
    ∧ (∀ t, event t k' ≠ Some xPendingReadyList)
    ∧ (k'.(xYieldPending) = false → k.(xYieldPending) = false ∧ (highest k → highest k')).
Proof.
  induction n as [|n IH]; intros k Hk Hs Hsu Hq; cbn [pended_ticks].
  { exists k. assert (T := w_tick _ _ _ _ _ _ _ _ _ _ _ Hk). unfold portMAX_DELAY in T.
    split_and!; [done..|apply kframe_refl|zsolve|done|done]. }
  destruct (tick_spec k Hk Hs Hsu) as (sw & k1 & -> & Hk1 & Hs1 & F1 & R1 & Hsw). simpl.
  set (k2 := if sw then set_xYieldPending true k1 else k1).
  assert (H2 : k2 = set_xYieldPending k2.(xYieldPending) k1) by (unfold k2; destruct sw; [done|by destruct k1]).
  assert (F2 : kframe k k2) by (rewrite H2; destruct F1; by split).
  destruct (IH k2) as (k' & -> & Hk' & Hs' & F' & Hti & Hq' & Hy).
  - rewrite H2. exact Hk1.
  - rewrite H2. exact Hs1.
  - by rewrite (kf_suspended _ _ F2).
  - rewrite H2. intros t. unfold event. cbn. rewrite (rl_container _ _ _ R1). simpl.
    destruct (woken _ _ t); [done|]. unfold event. destruct (advance_fields k) as (_ & -> & _). apply Hq.
  - assert (T1 : k2.(xTickCount) = u32 (k.(xTickCount) + 1)).
    { rewrite H2. cbn. destruct (relisted_fields _ _ _ R1) as (_&_&_&_&->&_). apply advance_fields. }
    exists k'. split_and!; try done; [by eapply kframe_trans|rewrite Hti, T1; zsolve|].
    intros E. destruct (Hy E) as [Hy2 Hh]. unfold k2 in Hy2. destruct sw; [done|].
    destruct (Hsw eq_refl) as [Hy0 Hh0]. split; [done|]. auto.
Qed.

(** What resuming the scheduler leaves alone. *)
Record kkeep (k k' : kernel) : Prop := {
  kk_tcbs : k'.(tcbs) = k.(tcbs);
  kk_current : k'.(pxCurrentTCB) = k.(pxCurrentTCB);
  kk_running : k'.(xSchedulerRunning) = k.(xSchedulerRunning);
  kk_idle : k'.(xIdleTaskHandle) = k.(xIdleTaskHandle);
  kk_number : k'.(uxCurrentNumberOfTasks) = k.(uxCurrentNumberOfTasks);
  kk_deleted : k'.(uxDeletedTasksWaitingCleanUp) = k.(uxDeletedTasksWaitingCleanUp);
  kk_blocks : k'.(blocks) = k.(blocks);
  kk_ready t p : state t k = Some (pxReadyTasksLists p) → state t k' = Some (pxReadyTasksLists p);
}.

Lemma kkeep_refl k : kkeep k k.
Proof. by split. Qed.

Lemma kkeep_trans k k' k'' : kkeep k k' → kkeep k' k'' → kkeep k k''.
Proof. intros [] []. split; try congruence. auto. Qed.

Lemma runnable_keep k k' : kkeep k k' → runnable k → runnable k'.
Proof.
  intros F (t & c & H1 & H2 & H3). exists t, c. unfold tcb. rewrite (kk_current _ _ F), (kk_tcbs _ _ F).
  split_and!; try done. by apply F.
Qed.

Lemma kframe_keep k k' : kframe k k' → kkeep k k'.
Proof. intros []. by split. Qed.

(** The tasks and the time are the same. *)
Record same_tasks (k k' : kernel) : Prop := {
  st_container x : k'.(lists).(container) x = k.(lists).(container) x;
  st_value x : k'.(lists).(value) x = k.(lists).(value) x;
  st_tick : k'.(xTickCount) = k.(xTickCount);
  st_delayed : k'.(pxDelayedTaskList) = k.(pxDelayedTaskList);
  st_overflow : k'.(pxOverflowDelayedTaskList) = k.(pxOverflowDelayedTaskList);
}.

(** The first half: the pended tasks are ready. *)
Lemma resume_pended k : kcore k → let k1 := set_uxSchedulerSuspended 0 k in
  ∃ any k2, ready_pended (length (k1.(lists).(elems) xPendingReadyList)) k1 false = Some (any, k2)
    ∧ let k3 := if any : bool then prvResetNextTaskUnblockTime k2 else k2 in
      kwf None k3 ∧ strict k3 ∧ kkeep k k3 ∧ k3.(pending_soft_sv) = k.(pending_soft_sv)
      ∧ k3.(uxSchedulerSuspended) = 0 ∧ k3.(uxPendedTicks) = k.(uxPendedTicks)
      ∧ k3.(xTickCount) = k.(xTickCount)
      ∧ (∀ t, event t k = Some xPendingReadyList → ∃ p, state t k3 = Some (pxReadyTasksLists p))
      ∧ (∀ t, event t k3 ≠ Some xPendingReadyList)
      ∧ (k3.(xYieldPending) = false → k.(xYieldPending) = false ∧ (highest k → highest k3))
      ∧ ((∀ t, event t k ≠ Some xPendingReadyList) → same_tasks k k3).
Proof.
  intros [Hw Hs (ti & pi & Hi & Hip) Hr Hsu Hpe Hq] k1. assert (Hw1 : kwf None k1) by exact Hw.
  destruct (ready_pended_spec _ k1 false Hw1 (le_n _)) as (any & k2 & E2 & Hk2 & R2 & Hy2).
  exists any, k2. split; [done|]. intros k3.
  assert (R3 : kwf None k3 ∧ relisted (pend_lists k1) (set_xYieldPending k2.(xYieldPending) k1) k3).
  { unfold k3. destruct any; [|done]. destruct (reset_next_spec None k2 Hk2) as [H1 H2].
    split; [done|]. eapply relisted_ext; [by eapply relisted_trans|apply (rl_container _ _ _ R2)]. }
  destruct R3 as [Hk3 R3].
  destruct (relisted_fields _ _ _ R3) as (F1&F2&F3&F4&F5&F6&F7&F8&F9&F10&F11&F12&F13&F14).
  cbn in F1,F2,F3,F4,F5,F6,F7,F8,F9,F10,F11,F12,F13,F14.
  assert (C := rl_container _ _ _ R3). assert (V := rl_value _ _ _ R3). cbn in V.
  assert (Hd := delayed_other _ _ (w_pointers _ _ _ _ _ _ _ _ _ _ _ Hw)).
  assert (Hready : ∀ t p, state t k = Some (pxReadyTasksLists p) → state t k3 = Some (pxReadyTasksLists p)).
  { intros t p Ht. unfold state. rewrite C. simpl. destruct (pended k1 t) eqn:E; [|exact Ht].
    destruct (state_priority k t p Hw Ht) as (c & Hc & Hcp & _).
    assert (Hc1 : tcb t k1 = Some c) by exact Hc. rewrite Hc1. simpl. by rewrite Hcp. }
  split_and!; try done.
  - intros t. unfold state, k_value. rewrite C, V, F3, F5. simpl. destruct (pended k1 t).
    + destruct (tcb t k1) as [c|]; [|done]. intros [= E]. destruct Hd as (_ & Hd & _). by destruct (Hd (uxPriority c)).
    + apply Hs.
  - intros t Ht. destruct (w_live _ _ _ _ _ _ _ _ _ _ _ Hw _ _ Ht) as [c Ec]. cbn [owner] in Ec.
    exists c.(uxPriority). unfold state. rewrite C. simpl. rewrite (proj2 (pended_spec k1 t) Ht).
    change (tcb t k1) with (tcbs k !! t). by rewrite Ec.
  - intros t. unfold event. rewrite C. simpl. destruct (pended k1 t) eqn:E; [done|].
    intros H. by apply pended_spec in H; rewrite H in E.
  - rewrite F9. intros Hy. destruct (Hy2 Hy) as [Hy1 Hall]. split; [done|].
    intros (t & c & H1 & H2 & H3 & H4). exists t, c. unfold tcb. rewrite F1, F2. split_and!; try done; [auto|].
    intros t' p. unfold state. rewrite C. simpl. destruct (pended k1 t') eqn:E; [|apply H4].
    destruct (tcb t' k1) as [c'|] eqn:Ec; [|done]. intros [= <-].
    enough (uxPriority c' < uxPriority c) by lia. eapply (Hall t'); [done..|].
    change (current_priority k = Some (uxPriority c)). unfold current_priority. rewrite H1. simpl. by rewrite H2.
  - intros Hno. assert (Hnp : ∀ t, pended k1 t = false).
    { intros t. unfold pended. by apply bool_decide_eq_false_2, Hno. }
    split; try done.
    + intros [t|t]; rewrite C; simpl; by rewrite Hnp.
    + intros x. by rewrite V.
Qed.

Lemma number_positive k : kwf None k → 0 < k.(uxCurrentNumberOfTasks).
Proof.
  intros Hk. destruct (kwf_current _ _ Hk) as (t & c & _ & Hc & _).
  destruct (w_number _ _ _ _ _ _ _ _ _ _ _ Hk) as [-> _].
  enough (size (tcbs k) ≠ 0%nat) by lia. intros H. apply map_size_empty_inv in H.
  unfold tcb in Hc. rewrite H in Hc. done.
Qed.

Lemma resume_all_spec k : kcore k → 0 < k.(uxSchedulerSuspended) →
  ∃ ay k', xTaskResumeAll k = Some (ay, k') ∧ kcore k' ∧ kkeep k k'
    ∧ k'.(uxSchedulerSuspended) = k.(uxSchedulerSuspended) - 1
    ∧ (ay = true → k'.(pending_soft_sv) = true)
    ∧ (preempts k → preempts k')
    ∧ (k'.(uxSchedulerSuspended) = 0 → k'.(xTickCount) = u32 (k.(xTickCount) + k.(uxPendedTicks))
       ∧ ∀ t, event t k = Some xPendingReadyList → ∃ p, state t k' = Some (pxReadyTasksLists p))
    ∧ (k.(uxPendedTicks) = 0 → (∀ t, event t k ≠ Some xPendingReadyList) → same_tasks k k').
Proof.
  intros Hk Hpos. assert (Hsu := kc_suspended _ Hk). unfold xTaskResumeAll.
  rewrite u32_small by lia. cbn [uxSchedulerSuspended set_uxSchedulerSuspended].
  destruct (Z.eqb_spec (k.(uxSchedulerSuspended) - 1) 0) as [E|E].
  2: { eexists _, _. split; [reflexivity|]. destruct Hk as [Hw Hs Hi Hr _ Hpe Hq].
       split_and!; try done; [split; cbn; try done; lia|].
       intros [Hp1 Hp2]. split; [done|]. intros _. apply Hp2. right. lia. }
  rewrite E. cbn [uxCurrentNumberOfTasks set_uxSchedulerSuspended].
  rewrite (proj2 (Z.ltb_lt _ _) (number_positive k (kc_wf _ Hk))).
  destruct (resume_pended k Hk) as (any & k2 & -> & H). cbn [mbind option_bind].
  set (k3 := if any : bool then prvResetNextTaskUnblockTime k2 else k2) in *.
  destruct H as (Hk3 & Hs3 & K3 & Hso3 & Hsu3 & Hpe3 & Hti3 & Hrd3 & Hq3 & Hy3 & Hst3).
  assert (H4 : ∃ k4, (if 0 <? k3.(uxPendedTicks) then
             k ← pended_ticks (Z.to_nat k3.(uxPendedTicks)) k3; Some (set_uxPendedTicks 0 k)
           else Some k3) = Some k4 ∧ kwf None k4 ∧ strict k4 ∧ kframe k3 k4 ∧ k4.(uxPendedTicks) = 0
      ∧ k4.(xTickCount) = u32 (k.(xTickCount) + k.(uxPendedTicks))
      ∧ (∀ t, event t k4 ≠ Some xPendingReadyList)
      ∧ (k4.(xYieldPending) = false → k3.(xYieldPending) = false ∧ (highest k3 → highest k4))
      ∧ (k3.(uxPendedTicks) = 0 → k4 = k3)).
  { destruct (Z.ltb_spec 0 k3.(uxPendedTicks)) as [L|L].
    - destruct (pended_ticks_spec (Z.to_nat k3.(uxPendedTicks)) k3 Hk3 Hs3 Hsu3 Hq3)
        as (k' & -> & Hk' & Hs' & F' & Ht' & Hq' & Hy'). cbn [mbind option_bind].
      eexists. split; [reflexivity|]. split_and!; try done; [by destruct F'| |intros H; lia].
      cbn [xTickCount set_uxPendedTicks]. rewrite Ht', Hti3, Hpe3, Z2Nat.id by lia. done.
    - exists k3. assert (P := kc_pended _ Hk). split_and!; try done; [lia|].
      assert (T := w_tick _ _ _ _ _ _ _ _ _ _ _ (kc_wf _ Hk)). unfold portMAX_DELAY in T. rewrite Hti3. zsolve. }
  destruct H4 as (k4 & -> & Hk4 & Hs4 & F4 & Hpe4 & Hti4 & Hq4 & Hy4 & Heq4). cbn [mbind option_bind].
  assert (Hc4 : kcore k4).
  { destruct (kc_idle _ Hk) as (ti & pi & Hi & Hip).
    split; try done; rewrite ?(kf_running _ _ F4), ?(kf_suspended _ _ F4), ?Hsu3, ?Hpe4; try lia; try done.
    - exists ti, pi. rewrite (kf_idle _ _ F4), (kk_idle _ _ K3). split; [done|]. by apply F4, K3.
    - rewrite (kk_running _ _ K3). by apply Hk. }
  assert (K4 : kkeep k k4) by (eapply kkeep_trans; [exact K3|by apply kframe_keep]).
  assert (S4 : k4.(uxSchedulerSuspended) = 0) by (by rewrite (kf_suspended _ _ F4)).
  assert (T4 : k.(uxPendedTicks) = 0 → (∀ t, event t k ≠ Some xPendingReadyList) → same_tasks k k4).
  { intros H1 H2. rewrite Heq4 by congruence. by apply Hst3. }
  assert (Hrd4 : ∀ t, event t k = Some xPendingReadyList → ∃ p, state t k4 = Some (pxReadyTasksLists p)).
  { intros t Ht. destruct (Hrd3 t Ht) as [p Hp]. exists p. by apply F4. }
  assert (Hsoft4 : k4.(pending_soft_sv) = k.(pending_soft_sv)) by (by rewrite (kf_soft _ _ F4)).
  destruct (xYieldPending k4) eqn:Ey.
  - eexists _, _. split; [reflexivity|].
    assert (HY : kinv (portYIELD_WITHIN_API k4)) by (by apply kinv_yield).
    split_and!; try done; [apply HY|by destruct K4|intros _; apply HY|].
    intros H1 H2. by destruct (T4 H1 H2).
  - eexists _, _. split; [reflexivity|]. split_and!; try done.
    intros [Hp1 Hp2]. destruct (Hy4 eq_refl) as [Hy Hh]. destruct (Hy3 Hy) as [Hy0 Hh0]. split.
    + intros H1 _ Hu. apply Hh, Hh0, Hp1; [|done..]. by rewrite <- Hsoft4.
    + intros [H|H]; [|done]. apply (runnable_keep k); [done|]. apply Hp2. left. by rewrite <- Hsoft4.
Qed.
End urgency.
