(* ===== verification/FrTasksApi.v ===== *)
(** FrTasksApi: the functions that tasks call keep the invariant. *)

From stdpp Require Import functions sorting.
From S2P Require Import Prelude FrList FrSeq FrKernel FrTasks FrTasksInv FrTasksMove FrTasksTick FrTasksSched.

Section urgency.
Context {U : Urgency}.

(** ** Blocking *)

(** A move under the invariant; [T] and [s] are what the move started from. *)
Lemma kcore_move con T s k k' : kcore k → kwf None k' → relisted con (set_lists s (set_tcbs T k)) k' →
  strict k' →
  (∀ t p, k.(xIdleTaskHandle) = Some t → state t k = Some (pxReadyTasksLists p) →
     ∃ p', con (xStateListItem t) = Some (pxReadyTasksLists p')) →
  (k.(uxSchedulerSuspended) = 0 → ∀ t, con (xEventListItem t) = Some xPendingReadyList →
     event t k = Some xPendingReadyList) →
  kcore k'.
Proof.
  intros [Hw Hs (ti & pi & Hi & Hip) Hr Hsu Hpe Hq] Hk' R Hs' Hidle Hpend.
  destruct (relisted_fields _ _ _ R) as (_&_&_&_&_&Fr&Fs&Fp&_&_&Fi&_). assert (C := rl_container _ _ _ R).
  cbn in Fr, Fs, Fp, Fi. split; try done; rewrite ?Fr, ?Fs, ?Fp; try done.
  - destruct (Hidle ti pi Hi Hip) as (p' & Hp'). exists ti, p'. unfold state. by rewrite Fi, C.
  - intros E. destruct (Hq E) as [H1 H2]. split; [done|]. intros t. unfold event. rewrite C.
    intros E'. by apply (H2 t), Hpend.
Qed.

Lemma wait_list_state n b k : kwf None k → ∀ p, wait_list n b k ≠ pxReadyTasksLists p.
Proof.
  intros Hk p. destruct (delayed_other _ _ (w_pointers _ _ _ _ _ _ _ _ _ _ _ Hk)) as (_ & Hr & _).
  unfold wait_list. destruct (_ && _); [done|]. destruct (_ <? _); apply Hr.
Qed.

(** The current task blocks for [n] ticks. *)
Lemma block_spec n b t l k : kcore k → k.(pxCurrentTCB) = Some t → state t k = Some l →
  l ≠ xTasksWaitingTermination → 0 < n ≤ portMAX_DELAY → k.(xIdleTaskHandle) ≠ Some t →
  ∃ k', prvAddCurrentTaskToDelayedList n b k = Some k' ∧ kcore k'
    ∧ (∀ x, k'.(lists).(container) x = (<[xStateListItem t := Some (wait_list n b k)]> k.(lists).(container)) x)
    ∧ (wait_list n b k ≠ xSuspendedTaskList → k_value (xStateListItem t) k' = wake_time n k)
    ∧ (∀ x, x ≠ xStateListItem t → k_value x k' = k_value x k)
    ∧ relisted (<[xStateListItem t := Some (wait_list n b k)]> k.(lists).(container))
        (set_lists k'.(lists) k) k'.
Proof.
  intros Hk Hcur Hl Hne Hn Hidle. assert (Hw := kc_wf _ Hk).
  destruct (add_delayed_spec n b t l k Hw Hcur Hl Hne Hn) as (k' & E & Hk' & R).
  exists k'. split; [done|]. assert (C := rl_container _ _ _ R).
  set (k0 := if (n =? portMAX_DELAY) && b then k else k_set_value (xStateListItem t) (wake_time n k) k) in R.
  assert (E0 : k0 = set_lists k0.(lists) k) by (unfold k0; destruct (_ && _); [by destruct k|done]).
  assert (E1 : k = set_tcbs k.(tcbs) k) by (by destruct k).
  rewrite E0, E1 in R.
  assert (Hval : ∀ x, x ≠ xStateListItem t → k_value x k' = k_value x k).
  { intros x Hx. unfold k_value. rewrite (rl_value _ _ _ R). cbn. unfold k0. destruct (_ && _); [done|].
    cbn. by rewrite fn_lookup_insert_ne by congruence. }
  assert (Hvt : wait_list n b k ≠ xSuspendedTaskList → k_value (xStateListItem t) k' = wake_time n k).
  { intros Hsus. unfold wait_list in Hsus. unfold k_value. rewrite (rl_value _ _ _ R). cbn. unfold k0.
    destruct (_ && _); [done|]. cbn. by rewrite fn_lookup_insert. }
  destruct (relisted_fields _ _ _ R) as (_&_&Fd&_&Ft&_). cbn in Fd, Ft.
  destruct (delayed_other _ _ (w_pointers _ _ _ _ _ _ _ _ _ _ _ Hw)) as (Hdo & Hr & Hds & Hos & _).
  split_and!; try done.
  - eapply (kcore_move _ _ _ k k' Hk Hk' R).
    + intros u Hu. unfold state in Hu. rewrite C, Fd in Hu. rewrite Ft.
      destruct (decide (u = t)) as [->|Hut].
      * rewrite fn_lookup_insert in Hu. injection Hu as Hu.
        rewrite Hvt by (by rewrite Hu). unfold wait_list in Hu. destruct (_ && _); [by destruct Hds|].
        destruct (Z.ltb_spec (wake_time n k) k.(xTickCount)) as [L|L]; [by destruct Hdo|].
        assert (T := w_tick _ _ _ _ _ _ _ _ _ _ _ Hw). unfold wake_time, portMAX_DELAY in *. zsolve.
      * rewrite fn_lookup_insert_ne in Hu by congruence. rewrite Hval by congruence.
        by apply (kc_strict _ Hk).
    + intros u p Hu Hp. exists p. rewrite fn_lookup_insert_ne; [done|]. intros [= <-]. congruence.
    + intros _ u. rewrite fn_lookup_insert_ne by done. done.
  - destruct R as [K C' V]. split; [|done|done]. rewrite K at 1. done.
Qed.

(** ** vTaskDelay, vTaskDelayUntil *)

(** Blocking between vTaskSuspendAll and xTaskResumeAll, and the yield. *)
Lemma block_and_yield n t c k : kinv k → k.(pending_soft_sv) = false → k.(uxSchedulerSuspended) = 0 →
  k.(pxCurrentTCB) = Some t → tcb t k = Some c → 0 < n ≤ portMAX_DELAY → k.(xIdleTaskHandle) ≠ Some t →
  ∃ k1 ay k2, prvAddCurrentTaskToDelayedList n false (vTaskSuspendAll k) = Some k1
    ∧ xTaskResumeAll k1 = Some (ay, k2) ∧ kinv (yield_unless ay k2)
    ∧ (yield_unless ay k2).(pending_soft_sv) = true ∧ k2.(pxCurrentTCB) = Some t
    ∧ k2.(uxSchedulerSuspended) = 0
    ∧ (∀ x, k2.(lists).(container) x
            = (<[xStateListItem t := Some (wait_list n false k)]> k.(lists).(container)) x)
    ∧ k_value (xStateListItem t) k2 = wake_time n k
    ∧ (∀ x, x ≠ xStateListItem t → k_value x k2 = k_value x k)
    ∧ k2.(tcbs) = k.(tcbs) ∧ k2.(xTickCount) = k.(xTickCount)
    ∧ k2.(pxDelayedTaskList) = k.(pxDelayedTaskList)
    ∧ k2.(pxOverflowDelayedTaskList) = k.(pxOverflowDelayedTaskList).
Proof.
  intros [Hc Hp] Hsoft Hsus Hcur Ht Hn Hidle.
  assert (Hrun := pr_runnable _ Hp (or_introl Hsoft)).
  destruct (suspend_all_spec k) as [[Hc0 Hp0] Hs0]; [by split|lia|done|]. set (k0 := vTaskSuspendAll k) in *.
  destruct Hrun as (t' & c' & E1 & E2 & E3).
  assert (t' = t) as -> by congruence. assert (c' = c) as -> by congruence.
  destruct (block_spec n false t _ k0 Hc0 Hcur E3) as (k1 & Hk1 & Hc1 & C1 & V1 & V1' & R1); [done..|].
  destruct (relisted_fields _ _ _ R1) as (F1&F2&F3&F4&F5&_&F7&F8&_). cbn in F1, F2, F3, F4, F5, F7, F8.
  destruct (kc_quiet _ Hc Hsus) as [Hq1 Hq2].
  destruct (resume_all_spec k1 Hc1) as (ay & k2 & Hk2 & Hc2 & K2 & S2 & Y2 & _ & _ & T2).
  { rewrite F7. rewrite u32_small; lia. }
  assert (S2' : k2.(uxSchedulerSuspended) = 0).
  { rewrite S2, F7. rewrite u32_small; lia. }
  assert (HT : same_tasks k1 k2).
  { apply T2; [by rewrite F8|]. intros u. unfold event. rewrite C1, fn_lookup_insert_ne by done. apply Hq2. }
  assert (Hwl : wait_list n false k = wait_list n false k0) by done.
  assert (Hns : wait_list n false k0 ≠ xSuspendedTaskList).
  { destruct (delayed_other _ _ (w_pointers _ _ _ _ _ _ _ _ _ _ _ (kc_wf _ Hc))) as (_ & _ & N1 & N2 & _).
    unfold wait_list. rewrite andb_false_r. by destruct (_ <? _). }
  exists k1, ay, k2. split_and!; try done.
  - unfold yield_unless. destruct ay.
    + split; [done|]. split; [rewrite Y2 by done; by intros [=]|]. intros [H|H]; [by rewrite Y2 in H|done].
    + by apply kinv_yield.
  - unfold yield_unless. destruct ay; [by apply Y2|done].
  - by rewrite (kk_current _ _ K2), F2.
  - intros x. rewrite (st_container _ _ HT), C1. done.
  - unfold k_value. rewrite (st_value _ _ HT). by apply V1.
  - intros x Hx. unfold k_value. rewrite (st_value _ _ HT). by apply V1'.
  - by rewrite (kk_tcbs _ _ K2), F1.
  - by rewrite (st_tick _ _ HT), F5.
  - by rewrite (st_delayed _ _ HT), F3.
  - by rewrite (st_overflow _ _ HT), F4.
Qed.

Lemma delay_spec n t c k : kinv k → k.(pending_soft_sv) = false → k.(uxSchedulerSuspended) = 0 →
  k.(pxCurrentTCB) = Some t → tcb t k = Some c → 0 < n ≤ portMAX_DELAY → k.(xIdleTaskHandle) ≠ Some t →
  ∃ k', vTaskDelay n k = Some k' ∧ kinv k' ∧ k'.(pending_soft_sv) = true
    ∧ state t k' = Some (wait_list n false k) ∧ k_value (xStateListItem t) k' = wake_time n k
    ∧ (∀ u, u ≠ t → state u k' = state u k)
    ∧ (∀ x, x ≠ xStateListItem t → k_value x k' = k_value x k)
    ∧ k'.(tcbs) = k.(tcbs) ∧ k'.(xTickCount) = k.(xTickCount)
    ∧ k'.(pxDelayedTaskList) = k.(pxDelayedTaskList)
    ∧ k'.(pxOverflowDelayedTaskList) = k.(pxOverflowDelayedTaskList)
    ∧ k'.(uxSchedulerSuspended) = 0.
Proof.
  intros Hk H1 H2 H3 H4 H5 H6. unfold vTaskDelay. rewrite (proj2 (Z.ltb_lt 0 n)) by lia.
  destruct (block_and_yield n t c k Hk H1 H2 H3 H4 H5 H6)
    as (k1 & ay & k2 & -> & E2 & Hk' & Hs' & Hcur & Hsu & C & V & V' & F1 & F2 & F3 & F4).
  cbn [mbind option_bind]. rewrite E2. cbn [mbind option_bind]. eexists. split; [reflexivity|].
  assert (Hf : ∃ b, yield_unless ay k2 = set_pending_soft_sv b k2).
  { unfold yield_unless. destruct ay; [exists k2.(pending_soft_sv); by destruct k2|by eexists]. }
  destruct Hf as [b Hf]. rewrite Hf in *. split_and!; try done.
  - unfold state. cbn. by rewrite C, fn_lookup_insert.
  - intros u Hu. unfold state. cbn. by rewrite C, fn_lookup_insert_ne by congruence.
Qed.

(** A wake-up time in the future is not the present. *)
Lemma should_delay_later now prev wake : should_delay now prev wake = true → wake ≠ now.
Proof. unfold should_delay. zbool; simpl; intros; lia. Qed.

(** ** Making a task ready *)

Lemma ready_core t c l k : kcore k → tcb t k = Some c → state t k = Some l → l ≠ xTasksWaitingTermination →
  ∃ k', make_ready t k = Some k' ∧ kcore k'
    ∧ relisted (<[xStateListItem t := Some (pxReadyTasksLists c.(uxPriority))]> k.(lists).(container)) k k'
    ∧ (runnable k → runnable k')
    ∧ ((∀ p, current_priority k = Some p → c.(uxPriority) ≤ p) → highest k → highest k').
Proof.
  intros Hk Hc Hl Hne. destruct (make_ready_spec t c l k (kc_wf _ Hk) Hc Hl Hne) as (k' & E & Hk' & R).
  destruct (delayed_other _ _ (w_pointers _ _ _ _ _ _ _ _ _ _ _ (kc_wf _ Hk))) as (_ & Hr & _).
  destruct (relisted_fields _ _ _ R) as (Ft & Fc & _).
  exists k'. split_and!; [done| |done|..].
  - eapply (kcore_relisted _ _ _ Hk Hk' R).
    + intros u p _ Hu. destruct (decide (u = t)) as [->|]; [rewrite fn_lookup_insert; eauto|].
      rewrite fn_lookup_insert_ne by congruence. eauto.
    + intros u. destruct (decide (u = t)) as [->|].
      * rewrite fn_lookup_insert. intros [= E']. by destruct (Hr (uxPriority c)).
      * by rewrite fn_lookup_insert_ne by congruence.
    + intros _ u. by rewrite fn_lookup_insert_ne.
  - intros (u & cu & H1 & H2 & H3). exists u, cu. unfold tcb, state. rewrite Fc, Ft, (rl_container _ _ _ R).
    split_and!; try done. destruct (decide (u = t)) as [->|].
    + rewrite fn_lookup_insert. assert (cu = c) as -> by congruence. done.
    + by rewrite fn_lookup_insert_ne by congruence.
  - intros Hle Hh. eapply (highest_ready _ k k' t c Hh R Hc); [by rewrite fn_lookup_insert| |done].
    intros u Hu. by rewrite fn_lookup_insert_ne by congruence.
Qed.

(** A task is made ready and a switch is requested when it should run. *)
Lemma preempts_ready k k' (b : bool) : kcore k → preempts k → kcore k' →
  k'.(pending_soft_sv) = k.(pending_soft_sv) → k'.(uxSchedulerSuspended) = k.(uxSchedulerSuspended) →
  k'.(xYieldPending) = k.(xYieldPending) → (runnable k → runnable k') →
  (b = false → highest k → highest k') → kinv (if b then portYIELD_WITHIN_API k' else k').
Proof.
  intros Hk [Hp1 Hp2] Hk' Es Eu Ey Hr Hh. apply kinv_yield_if; [done|..].
  - intros Hn. apply Hr, Hp2. right. congruence.
  - intros ->. split; [rewrite Es, Ey; auto|]. rewrite Es, Eu. auto.
Qed.

Lemma suspended_state t k : prvTaskIsTaskSuspended t k = true →
  state t k = Some xSuspendedTaskList ∧ event t k = None.
Proof.
  unfold prvTaskIsTaskSuspended, contained. intros [[H1 _]%andb_true_iff H2]%andb_true_iff.
  by apply bool_decide_eq_true in H1, H2.
Qed.

Lemma make_ready_unfold {A} t k (f : kernel → option A) :
  (k ← k_remove (xStateListItem t) k; k ← prvAddTaskToReadyList t k; f k)
  = (k ← make_ready t k; f k).
Proof. unfold make_ready. by destruct (k_remove (xStateListItem t) k). Qed.

Lemma resume_spec h k : kinv k → ∃ k', vTaskResume h k = Some k' ∧ kinv k'.
Proof.
  intros [Hc Hp]. unfold vTaskResume. destruct h as [t|]; [|by exists k].
  destruct (decide _); [by exists k|]. destruct (prvTaskIsTaskSuspended t k) eqn:E; [|by exists k].
  apply suspended_state in E as [Hs _]. destruct (w_live _ _ _ _ _ _ _ _ _ _ _ (kc_wf _ Hc) _ _ Hs) as [c Ec].
  rewrite make_ready_unfold. destruct (ready_core t c _ k Hc Ec Hs) as (k' & -> & Hk' & R & Hr & Hh); [done|].
  destruct (relisted_fields _ _ _ R) as (Ft & Fc & _ & _ & _ & _ & Fs & _ & Fy & Fo & _).
  cbn [mbind option_bind]. unfold tcb. rewrite Ft. cbn [owner] in Ec. rewrite Ec. cbn [mbind option_bind].
  destruct (kwf_current _ _ (kc_wf _ Hc)) as (u & cu & Eu & Ecu & Ep).
  assert (Ep' : current_priority k' = current_priority k) by (unfold current_priority, tcb; by rewrite Fc, Ft).
  rewrite Ep', Ep. cbn [mbind option_bind]. eexists. split; [reflexivity|].
  apply (preempts_ready k); try done.
  intros L%Z.leb_gt Hhi. apply Hh; [|done]. rewrite Ep. intros p [= <-]. lia.
Qed.

(** While the scheduler is suspended a task is only noted to become ready. *)
Lemma pend_spec t c k : kinv k → tcb t k = Some c → event t k = None →
  state t k ≠ Some xTasksWaitingTermination → k.(uxSchedulerSuspended) ≠ 0 →
  ∃ k', k_insert_end xPendingReadyList (xEventListItem t) k = Some k' ∧ kinv k'
    ∧ relisted (<[xEventListItem t := Some xPendingReadyList]> k.(lists).(container)) k k'.
Proof.
  intros [Hc Hp] Ec He Hst Hn.
  destruct (insert_end_event_spec None t xPendingReadyList k (kc_wf _ Hc)) as (k' & E & Hk' & R); [by exists c|done..|].
  destruct (relisted_fields _ _ _ R) as (F1&F2&_&_&_&_&F7&_&F9&F10&_).
  exists k'. split_and!; [done| |done]. split.
  - eapply (kcore_relisted _ _ _ Hc Hk' R); [|intros u; by rewrite fn_lookup_insert_ne|done].
    intros u p _ Hu. rewrite fn_lookup_insert_ne by done. eauto.
  - eapply preempts_same; [done..| | | | |done]; try done.
    intros u. unfold state. by rewrite (rl_container _ _ _ R), fn_lookup_insert_ne.
Qed.

(** From an interrupt: the handler switches the context when it is told to. *)
Lemma resume_from_isr_spec t k : kinv k →
  ∃ b k', xTaskResumeFromISR t k = Some (b, k') ∧ kinv (if b : bool then portYIELD_WITHIN_API k' else k').
Proof.
  intros [Hc Hp]. unfold xTaskResumeFromISR. destruct (prvTaskIsTaskSuspended t k) eqn:E; [|by exists false, k].
  apply suspended_state in E as [Hs He].
  destruct (w_live _ _ _ _ _ _ _ _ _ _ _ (kc_wf _ Hc) _ _ Hs) as [c Ec]. cbn [owner] in Ec.
  destruct (kwf_current _ _ (kc_wf _ Hc)) as (u & cu & Eu & Ecu & Ep).
  destruct (Z.eqb_spec k.(uxSchedulerSuspended) 0) as [E0|E0].
  - unfold tcb at 1. rewrite Ec. cbn [mbind option_bind]. rewrite Ep. cbn [mbind option_bind].
    rewrite make_ready_unfold. destruct (ready_core t c _ k Hc Ec Hs) as (k' & -> & Hk' & R & Hr & Hh); [done|].
    destruct (relisted_fields _ _ _ R) as (Ft & Fc & _ & _ & _ & _ & Fs & _ & Fy & Fo & _).
    cbn [mbind option_bind]. eexists _, _. split; [reflexivity|]. apply (preempts_ready k); try done.
    intros L%Z.leb_gt Hhi. apply Hh; [|done]. rewrite Ep. intros p [= <-]. lia.
  - destruct (pend_spec t c k (conj Hc Hp) Ec He) as (k' & -> & Hk' & _); [by rewrite Hs|done|].
    cbn [mbind option_bind]. by exists false, k'.
Qed.

(** ** Taking a task out of scheduling *)

(** The state item of [t] moved to a list that is not a ready list, and its
    event item to no list. *)
Lemma away_preempts k k' t l : preempts k → k'.(tcbs) !! t = k.(tcbs) !! t ∨ k.(pxCurrentTCB) ≠ Some t →
  (∀ u, u ≠ t → k'.(tcbs) !! u = k.(tcbs) !! u) → k'.(pxCurrentTCB) = k.(pxCurrentTCB) →
  k'.(pending_soft_sv) = k.(pending_soft_sv) → k'.(uxSchedulerSuspended) = k.(uxSchedulerSuspended) →
  k'.(xYieldPending) = k.(xYieldPending) →
  (∀ u, u ≠ t → state u k' = state u k) → state t k' = l → (∀ p, l ≠ Some (pxReadyTasksLists p)) →
  k.(pxCurrentTCB) ≠ Some t → preempts k'.
Proof.
  intros [Hp1 Hp2] _ HT EC Eo Eu Ey Hu Ht Hl Hcur. split.
  - rewrite Eo, Ey. intros H1 H2 Hpr. destruct (Hp1 H1 H2 Hpr) as (u & c & T1 & T2 & T3 & T4).
    assert (u ≠ t) by congruence. exists u, c. unfold tcb. rewrite EC, HT, Hu by done.
    split_and!; try done. intros t' p. destruct (decide (t' = t)) as [->|].
    + rewrite Ht. intros E. by destruct (Hl p).
    + rewrite Hu by done. apply T4.
  - rewrite Eo, Eu. intros H. destruct (Hp2 H) as (u & c & T1 & T2 & T3). assert (u ≠ t) by congruence.
    exists u, c. unfold tcb. by rewrite EC, HT, Hu.
Qed.

(** Out of the state list and out of the event list. *)
Lemma take_out_spec t l k : kwf None k → state t k = Some l → l ≠ xTasksWaitingTermination →
  ∃ k', (k ← k_remove (xStateListItem t) k; remove_event_item t k) = Some k' ∧ kwf (Some t) k'
    ∧ relisted (<[xStateListItem t := None]> (<[xEventListItem t := None]> k.(lists).(container))) k k'.
Proof.
  intros Hk Hl Hne. destruct (remove_state_spec t l k Hk Hl Hne) as (k1 & -> & Hk1 & R1). simpl.
  destruct (remove_event_item_spec _ t k1 Hk1) as (k2 & E2 & Hk2 & R2). exists k2. split_and!; [done..|].
  eapply relisted_ext; [by eapply relisted_trans|]. intros x.
  assert (C1 := rl_container _ _ _ R1 x). unfold insert, fn_insert in *. repeat case_decide; congruence.
Qed.

Lemma take_out_unfold {A} t k (f : kernel → option A) :
  (k ← k_remove (xStateListItem t) k; k ← remove_event_item t k; f k)
  = (k ← (k ← k_remove (xStateListItem t) k; remove_event_item t k); f k).
Proof. by destruct (k_remove (xStateListItem t) k). Qed.

Lemma suspend_spec h t l k : kinv k → prvGetTCBFromHandle h k = Some t → state t k = Some l →
  l ≠ xTasksWaitingTermination → k.(xIdleTaskHandle) ≠ Some t →
  (k.(pxCurrentTCB) = Some t → k.(uxSchedulerSuspended) = 0) →
  ∃ k', vTaskSuspend h k = Some k' ∧ kinv k' ∧ state t k' = Some xSuspendedTaskList.
Proof.
  intros [Hc Hp] Hh Hl Hne Hidle Hsus. unfold vTaskSuspend. rewrite Hh. cbn [mbind option_bind].
  rewrite take_out_unfold.
  destruct (take_out_spec t l k (kc_wf _ Hc) Hl Hne) as (k1 & -> & Hk1 & R1). cbn [mbind option_bind].
  destruct (relisted_fields _ _ _ R1) as (Ft1 & _).
  destruct (insert_suspended_spec t k1 Hk1) as (k2 & -> & Hk2 & R2).
  { unfold tcb. rewrite Ft1. apply (w_live _ _ _ _ _ _ _ _ _ _ _ (kc_wf _ Hc) _ _ Hl). }
  cbn [mbind option_bind].
  assert (R12 : relisted (<[xStateListItem t := Some xSuspendedTaskList]>
                  (<[xEventListItem t := None]> k.(lists).(container))) k k2).
  { eapply relisted_ext; [eapply relisted_trans; [exact R1|exact R2]|]. intros x.
    assert (C1 := rl_container _ _ _ R1 x). unfold insert, fn_insert in *. repeat case_decide; congruence. }
  destruct (relisted_fields _ _ _ R12) as (_&_&_&_&_&Fr&_). rewrite Fr, (kc_running _ Hc).
  destruct (reset_next_spec None k2 Hk2) as [Hk3 R3]. set (k3 := prvResetNextTaskUnblockTime k2) in *.
  assert (R : relisted (<[xStateListItem t := Some xSuspendedTaskList]>
                  (<[xEventListItem t := None]> k.(lists).(container))) k k3).
  { eapply relisted_ext; [eapply relisted_trans; [exact R12|exact R3]|]. apply (rl_container _ _ _ R12). }
  clear R1 R2 R12 R3 Hk1 Hk2 Ft1 Fr.
  destruct (relisted_fields _ _ _ R) as (Ft & Fc & Fd & _ & _ & Fr & Fs & _ & Fy & Fo & _).
  destruct (delayed_other _ _ (w_pointers _ _ _ _ _ _ _ _ _ _ _ (kc_wf _ Hc))) as (_ & _ & Hds & _).
  assert (Hst : ∀ u, state u k3 = if decide (u = t) then Some xSuspendedTaskList else state u k).
  { intros u. unfold state. rewrite (rl_container _ _ _ R). case_decide as D.
    - subst. by rewrite fn_lookup_insert.
    - by rewrite !fn_lookup_insert_ne by congruence. }
  assert (Hc3 : kcore k3).
  { eapply (kcore_relisted _ _ _ Hc Hk3 R).
    - intros u p Hu Hu'. exists p. rewrite !fn_lookup_insert_ne by congruence. done.
    - intros u. destruct (decide (u = t)) as [->|].
      + rewrite fn_lookup_insert. by intros [= E].
      + by rewrite !fn_lookup_insert_ne by congruence.
    - intros _ u. rewrite fn_lookup_insert_ne by done. unfold insert, fn_insert. by case_decide. }
  rewrite Fc, Fr, (kc_running _ Hc).
  destruct (decide (pxCurrentTCB k = Some t)) as [E|E].
  - eexists. split; [reflexivity|]. split.
    + apply kinv_yield; [done|]. rewrite Fs. intros H. by destruct H; apply Hsus.
    + change (state t k3 = Some xSuspendedTaskList). by rewrite Hst, decide_True.
  - exists k3. split; [done|]. split; [|by rewrite Hst, decide_True]. split; [done|].
    eapply (away_preempts k k3 t (Some xSuspendedTaskList)); try done; [right; done|by rewrite Ft|..].
    + intros u Hu. by rewrite Hst, decide_False.
    + by rewrite Hst, decide_True.
Qed.

(** ** Events *)

(** The wait for an event in a list of waiting tasks. *)
Lemma place_core n (unordered : bool) b l0 t k : kcore k → k.(pxCurrentTCB) = Some t → runnable k →
  event t k = None → event_list l0 → l0 ≠ xPendingReadyList → 0 < n ≤ portMAX_DELAY →
  k.(xIdleTaskHandle) ≠ Some t →
  ∃ k', (k ← (if unordered then k_insert_end l0 (xEventListItem t) k else k_insert l0 (xEventListItem t) k);
         prvAddCurrentTaskToDelayedList n b k) = Some k' ∧ kcore k'
    ∧ (∀ x, k'.(lists).(container) x
        = (<[xStateListItem t := Some (wait_list n b k)]> (<[xEventListItem t := Some l0]> k.(lists).(container))) x)
    ∧ relisted (<[xStateListItem t := Some (wait_list n b k)]> (<[xEventListItem t := Some l0]> k.(lists).(container)))
        (set_lists k'.(lists) k) k'
    ∧ (wait_list n b k ≠ xSuspendedTaskList → k_value (xStateListItem t) k' = wake_time n k).
Proof.
  intros Hk Hcur (t' & c & E1 & E2 & E3) He Hl Hlp Hn Hidle. assert (t' = t) as -> by congruence.
  assert (Hins : ∃ k1, (if unordered then k_insert_end l0 (xEventListItem t) k else k_insert l0 (xEventListItem t) k)
    = Some k1 ∧ kwf None k1 ∧ relisted (<[xEventListItem t := Some l0]> k.(lists).(container)) k k1).
  { destruct unordered; [eapply insert_end_event_spec|eapply insert_event_spec]; try done; try apply Hk;
      (by exists c) || by rewrite E3. }
  destruct Hins as (k1 & -> & Hk1 & R1). cbn [mbind option_bind].
  destruct (relisted_fields _ _ _ R1) as (F1&F2&F3&F4&F5&F6&F7&F8&F9&F10&F11&_).
  assert (Hc1 : kcore k1).
  { eapply (kcore_relisted _ _ _ Hk Hk1 R1).
    - intros u p _ Hu. rewrite fn_lookup_insert_ne by done. eauto.
    - intros u. by rewrite fn_lookup_insert_ne.
    - intros _ u. unfold insert, fn_insert. case_decide; [by intros [= ->]|done]. }
  assert (Hs1 : state t k1 = Some (pxReadyTasksLists (uxPriority c)))
    by (unfold state; by rewrite (rl_container _ _ _ R1), fn_lookup_insert_ne).
  destruct (block_spec n b t (pxReadyTasksLists (uxPriority c)) k1 Hc1) as (k2 & -> & Hc2 & C2 & V2 & _ & R2);
    [congruence|exact Hs1|done|done|congruence|].
  assert (Hwl : wait_list n b k1 = wait_list n b k) by (unfold wait_list, wake_time; by rewrite F3, F4, F5).
  assert (C : ∀ x, k2.(lists).(container) x
        = (<[xStateListItem t := Some (wait_list n b k)]> (<[xEventListItem t := Some l0]> k.(lists).(container))) x).
  { intros x. rewrite C2, Hwl. assert (C1 := rl_container _ _ _ R1 x).
    unfold insert, fn_insert in *. repeat case_decide; congruence. }
  exists k2. split_and!; [done|done|done| |].
  - split; [|done|done]. destruct R2 as [K2 _ _]. destruct R1 as [K1 _ _]. rewrite K2 at 1. rewrite K1 at 1. done.
  - rewrite <- Hwl. intros H. rewrite V2 by done. unfold wake_time. by rewrite F5.
Qed.

(** Waking the first task that waits for an event. *)
Lemma note_woken_spec t c k : kwf None k → tcb t k = Some c →
  ∃ p, current_priority k = Some p
    ∧ note_woken t k = Some (if p <? c.(uxPriority) then (true, set_xYieldPending true k) else (false, k)).
Proof.
  intros Hk Hc. destruct (kwf_current _ _ Hk) as (u & cu & _ & _ & Ep). exists cu.(uxPriority).
  split; [done|]. unfold note_woken. rewrite Hc. simpl. by rewrite Ep.
Qed.

Lemma remove_from_event_list_spec l0 t k : kinv k → head_owner l0 k = Some t →
  event t k = Some l0 → l0 ≠ xPendingReadyList →
  ∃ b k', xTaskRemoveFromEventList l0 k = Some (b, k')
    ∧ kinv (if b : bool then portYIELD_WITHIN_API k' else k') ∧ kinv k'
    ∧ event t k' = (if k.(uxSchedulerSuspended) =? 0 then None else Some xPendingReadyList)
    ∧ (k.(uxSchedulerSuspended) = 0 → ∃ p, state t k' = Some (pxReadyTasksLists p)).
Proof.
  intros [Hc Hp] Hh He Hlp. unfold xTaskRemoveFromEventList. rewrite Hh. cbn [mbind option_bind].
  destruct (w_live _ _ _ _ _ _ _ _ _ _ _ (kc_wf _ Hc) _ _ He) as [c Ec]. cbn [owner] in Ec.
  destruct (w_state _ _ _ _ _ _ _ _ _ _ _ (kc_wf _ Hc) t c Ec) as (l & El & _); [done|].
  assert (Hne : l ≠ xTasksWaitingTermination).
  { intros ->. apply (w_dead _ _ _ _ _ _ _ _ _ _ _ (kc_wf _ Hc)) in El. unfold event in He. congruence. }
  destruct (remove_event_spec None t l0 k (kc_wf _ Hc) He) as (k1 & -> & Hk1 & R1). cbn [mbind option_bind].
  destruct (relisted_fields _ _ _ R1) as (F1&F2&F3&F4&F5&F6&F7&F8&F9&F10&F11&_).
  assert (Hst1 : ∀ u, state u k1 = state u k) by (intros u; unfold state; by rewrite (rl_container _ _ _ R1), fn_lookup_insert_ne).
  assert (Hc1 : kcore k1).
  { eapply (kcore_relisted _ _ _ Hc Hk1 R1).
    - intros u p _ Hu. rewrite fn_lookup_insert_ne by done. eauto.
    - intros u. by rewrite fn_lookup_insert_ne.
    - intros _ u. unfold insert, fn_insert. by case_decide. }
  assert (Hp1 : preempts k1) by (by eapply preempts_same).
  assert (Hev1 : event t k1 = None) by (unfold event; by rewrite (rl_container _ _ _ R1), fn_lookup_insert).
  assert (Ec1 : tcb t k1 = Some c) by (unfold tcb; by rewrite F1).
  rewrite F7. destruct (Z.eqb_spec k.(uxSchedulerSuspended) 0) as [E0|E0].
  - fold (make_ready t k1).
    destruct (ready_core t c l k1 Hc1 Ec1) as (k2 & -> & Hc2 & R2 & Hr2 & Hh2); [by rewrite Hst1|done|].
    cbn [mbind option_bind]. destruct (relisted_fields _ _ _ R2) as (G1&G2&_&_&_&_&G7&_&G9&G10&_).
    destruct (note_woken_spec t c k2 (kc_wf _ Hc2)) as (p & Ep & ->); [unfold tcb; by rewrite G1|].
    assert (Ep1 : current_priority k1 = Some p) by (rewrite <- Ep; unfold current_priority, tcb; by rewrite G1, G2).
    assert (Hev2 : event t k2 = None) by (unfold event; by rewrite (rl_container _ _ _ R2), fn_lookup_insert_ne).
    assert (Hsr : state t k2 = Some (pxReadyTasksLists (uxPriority c)))
      by (unfold state; by rewrite (rl_container _ _ _ R2), fn_lookup_insert).
    destruct (Z.ltb_spec p (uxPriority c)) as [L|L].
    + assert (HY : kcore (set_xYieldPending true k2)) by (by destruct Hc2).
      eexists _, _. split; [reflexivity|]. split_and!; [| |done|by eauto].
      * apply kinv_yield; [done|]. intros H. apply Hr2, Hp1. right. by rewrite <- G7.
      * split; [done|]. split; [by intros _ [=]|]. intros H. apply Hr2, Hp1. by rewrite <- G10, <- G7.
    + eexists _, _. split; [reflexivity|].
      assert (HK : kinv k2) by (apply (preempts_ready k1 k2 false); try done; intros _ ?; apply Hh2; [|done];
        rewrite Ep1; intros ? [= <-]; lia).
      split_and!; [done|done|done|by eauto].
  - destruct (pend_spec t c k1 (conj Hc1 Hp1) Ec1 Hev1) as (k2 & -> & [Hc2 Hp2] & R2);
      [rewrite Hst1; unfold state; rewrite El; congruence|congruence|]. cbn [mbind option_bind].
    destruct (relisted_fields _ _ _ R2) as (G1&_&_&_&_&_&G7&_).
    destruct (note_woken_spec t c k2 (kc_wf _ Hc2)) as (p & Ep & ->); [unfold tcb; by rewrite G1|].
    assert (Hev2 : event t k2 = Some xPendingReadyList)
      by (unfold event; by rewrite (rl_container _ _ _ R2), fn_lookup_insert).
    destruct (p <? uxPriority c).
    + assert (HY : kcore (set_xYieldPending true k2)) by (by destruct Hc2).
      eexists _, _. split; [reflexivity|]. split_and!; [| |done|done].
      * apply kinv_yield; [done|]. intros H. apply Hp2. by right.
      * split; [done|]. split; [by intros _ [=]|]. apply Hp2.
    + eexists _, _. split; [reflexivity|]. split_and!; [by split|by split|done|done].
Qed.
End urgency.
