(* ===== verification/FrTasksLife.v ===== *)
(** FrTasksLife: creating and deleting tasks, priorities, and the idle task. *)

From stdpp Require Import functions sorting.
From S2P Require Import Prelude FrList FrSeq FrSeqRefine FrKernel FrTasks FrTasksInv FrTasksMove FrTasksTick FrTasksSched FrTasksApi.

Section urgency.
Context {U : Urgency}.

Section Wf.
Context {T : gmap Z TCB} {s s' : store item lid} {cur : option Z} {d ov : lid} {tick top next num del : Z}.

(** The invariant sees the container of an item only by its value. *)
Lemma wf_ext o : wf o T s cur d ov tick top next num del → store_ok s' →
  (∀ x, s'.(container) x = s.(container) x) → s'.(value) = s.(value) →
  (∀ l, s'.(elems) l = s.(elems) l) → wf o T s' cur d ov tick top next num del.
Proof.
  intros [] Hok C V E. split; unfold sorted_list, by_value in *; rewrite ?V, ?E; try done;
    intros *; rewrite ?C; eauto.
Qed.

Lemma wf_free t x : wf None T s cur d ov tick top next num del → T !! t = None → owner x = t →
  s.(container) x = None.
Proof.
  intros Hk Ht Hx. destruct (container s x) as [l|] eqn:E; [|done].
  apply (w_live _ _ _ _ _ _ _ _ _ _ _ Hk) in E. rewrite Hx, Ht in E. by destruct E.
Qed.

(** A new task, in no list yet. *)
Lemma wf_new t c : wf None T s cur d ov tick top next num del → T !! t = None →
  priority_ok c.(uxPriority) → priority_ok c.(uxBasePriority) → num + 1 < 2 ^ 32 →
  wf (Some t) (<[t := c]> T) s cur d ov tick top next (num + 1) del.
Proof.
  intros Hk Ht Hp Hb Hn. assert (Hfree := λ x, wf_free t x Hk Ht). destruct Hk. split; try done.
  - intros x l Hx. destruct (decide (owner x = t)) as [<-|]; [rewrite lookup_insert_eq; eauto|].
    rewrite lookup_insert_ne by done. eauto.
  - intros u [= <-]. by apply Hfree.
  - intros u cu Hu Hne. rewrite lookup_insert_ne in Hu by congruence. by apply w_state.
  - intros u cu Hu. destruct (decide (u = t)) as [->|].
    + rewrite lookup_insert_eq in Hu. by injection Hu as <-.
    + rewrite lookup_insert_ne in Hu by done. by apply (w_prio u).
  - destruct w_current as (u & -> & Hu). exists u. split; [done|].
    destruct (decide (u = t)) as [->|]; [rewrite lookup_insert_eq; eauto|by rewrite lookup_insert_ne].
  - rewrite map_size_insert, Ht. destruct w_number as [-> _]. lia.
Qed.

(** A task that is in no list is freed. *)
Lemma wf_delete t : wf (Some t) T s cur d ov tick top next num del → is_Some (T !! t) →
  s.(container) (xEventListItem t) = None → cur ≠ Some t →
  wf None (delete t T) s cur d ov tick top next (num - 1) del.
Proof.
  intros [] Ht He Hcur.
  assert (Hne : ∀ x l, s.(container) x = Some l → owner x ≠ t).
  { intros [u|u] l Hx <-; simpl in *; [rewrite w_out in Hx|]; congruence. }
  split; try done.
  - intros x l Hx. rewrite lookup_delete_ne by (apply not_eq_sym; by eapply Hne). eauto.
  - intros u cu Hu _. rewrite lookup_delete_Some in Hu. destruct Hu. apply w_state; [done|congruence].
  - intros u cu Hu. rewrite lookup_delete_Some in Hu. destruct Hu. by apply (w_prio u).
  - destruct w_current as (u & -> & Hu). exists u. split; [done|]. rewrite lookup_delete_ne by congruence. done.
  - rewrite map_size_delete. destruct Ht as [c ->]. destruct w_number as [-> ?].
    assert (size T ≠ 0%nat); [|lia]. intros HT. apply map_size_empty_inv in HT. subst T.
    destruct w_current as (u & _ & [? Hu]). by rewrite lookup_empty in Hu.
Qed.

(** A task that deleted itself leaves the list of those. *)
Lemma wf_reap t : wf None T s cur d ov tick top next num del →
  s.(container) (xStateListItem t) = Some xTasksWaitingTermination →
  changed (xStateListItem t) None s s' → s'.(elems) xTasksWaitingTermination
    = take_out (xStateListItem t) (s.(elems) xTasksWaitingTermination) →
  wf (Some t) T s' cur d ov tick top next num (del - 1) ∧ 0 < del.
Proof.
  intros Hk Ht Hch Eel.
  assert (Hdel : zlength (s'.(elems) xTasksWaitingTermination) = del - 1 ∧ 0 < del).
  { rewrite Eel, (w_deleted _ _ _ _ _ _ _ _ _ _ _ Hk).
    apply (ok_in _ (w_store _ _ _ _ _ _ _ _ _ _ _ Hk)) in Ht.
    assert (Hnd := ok_nodup _ (w_store _ _ _ _ _ _ _ _ _ _ _ Hk) xTasksWaitingTermination).
    apply list_elem_of_split in Ht as (l1 & l2 & El). rewrite El in *.
    rewrite <- Permutation_middle in Hnd. apply NoDup_cons in Hnd as [Hx _].
    rewrite take_out_split, !length_app by done. simpl. lia. }
  split; [|apply Hdel]. destruct Hdel as [Hdel _].
  assert (Hcon := λ y, changed_container _ _ _ _ y Hch).
  destruct Hk. split; rewrite ?(ch_value _ _ _ _ Hch), ?Hdel; try done.
  - apply Hch.
  - intros x l'. rewrite Hcon. case_decide; [done|eauto].
  - intros u [= ->]. rewrite Hcon. by rewrite decide_True.
  - intros u c Hc Hn. rewrite Hcon, decide_False by congruence. by apply w_state.
  - intros u l'. rewrite Hcon, decide_False by done. apply w_event.
  - intros u p. rewrite Hcon. case_decide; [done|]. apply w_top.
  - destruct w_sorted. split; by apply Hch.
  - intros u. rewrite Hcon. case_decide; [done|]. apply w_delayed.
  - intros u. rewrite Hcon. case_decide; [done|]. apply w_overflow.
  - intros u. rewrite !Hcon, (decide_False (P := xEventListItem _ = _)) by done.
    case_decide; [done|]. apply w_dead.
Qed.
End Wf.

(** ** Creating a task *)

(** The new TCB. *)
Definition new_tcb (pcName : list Z) (p stack : Z) : TCB :=
  {| uxPriority := p; uxBasePriority := p; uxMutexesHeld := 0;
     ulNotifiedValue := 0; ucNotifyState := taskNOT_WAITING_NOTIFICATION;
     pcTaskName := take (Z.to_nat (configMAX_TASK_NAME_LEN - 1)) pcName;
     pxStack := stack; stack_guard := replicate 4 0xa5a5a5a5 |}.

Definition clamp (p : Z) : Z := if configMAX_PRIORITIES <=? p then configMAX_PRIORITIES - 1 else p.

Lemma clamp_ok p : 0 ≤ p → priority_ok (clamp p).
Proof. unfold clamp, priority_ok, configMAX_PRIORITIES. zbool; lia. Qed.

(** prvInitialiseNewTask makes the new TCB; its items are in no list. *)
Lemma initialise_new_spec name p t stack k : kwf None k → tcbs k !! t = None → 0 ≤ p →
  k.(uxCurrentNumberOfTasks) + 1 < 2 ^ 32 →
  let k1 := prvInitialiseNewTask name p t stack k in
  k1 = set_lists k1.(lists) (set_tcbs (<[t := new_tcb name (clamp p) stack]> k.(tcbs)) k)
  ∧ kwf (Some t) (set_uxCurrentNumberOfTasks (k.(uxCurrentNumberOfTasks) + 1) k1)
  ∧ (∀ x, k1.(lists).(container) x = k.(lists).(container) x)
  ∧ (∀ u, k_value (xStateListItem u) k1 = k_value (xStateListItem u) k).
Proof.
  intros Hk Ht Hp Hn k1. assert (Hfree := λ x, wf_free t x Hk Ht).
  assert (C : ∀ x, (<[xEventListItem t := None]> (<[xStateListItem t := None]> k.(lists).(container))) x
                   = k.(lists).(container) x).
  { intros x. unfold insert, fn_insert. repeat case_decide; subst; try done; by rewrite Hfree. }
  split_and!; try done.
  - unfold kwf, k1, prvInitialiseNewTask. cbn. apply wf_set_value; [|done].
    eapply wf_ext; [apply (wf_new t (new_tcb name (clamp p) stack));
      [exact Hk|done|by apply clamp_ok..|done]|..]; try done.
    destruct (w_store _ _ _ _ _ _ _ _ _ _ _ Hk) as [H1 H2 H3]. split; cbn; [done| |done].
    intros x l. by rewrite C.
Qed.

Lemma create_spec name p stack t k : kinv k → tcbs k !! t = None → 0 ≤ p →
  k.(uxCurrentNumberOfTasks) + 1 < 2 ^ 32 →
  ∃ k', xTaskCreate name p (Some stack) (Some t) k = Some (pdPASS, Some t, k') ∧ kinv k'
    ∧ k'.(tcbs) = <[t := new_tcb name (clamp p) stack]> k.(tcbs)
    ∧ state t k' = Some (pxReadyTasksLists (clamp p)) ∧ (∀ u, u ≠ t → state u k' = state u k)
    ∧ k'.(blocks) = {[t]} ∪ ({[stack]} ∪ k.(blocks)).
Proof.
  intros [Hc Hp] Ht Hp0 Hn. unfold xTaskCreate. assert (Hw := kc_wf _ Hc).
  set (k0 := set_blocks _ (set_blocks _ k)). assert (Hw0 : kwf None k0) by exact Hw.
  destruct (initialise_new_spec name p t stack k0 Hw0 Ht Hp0 Hn) as (E1 & Hk1 & C1 & V1).
  set (k1 := prvInitialiseNewTask name p t stack k0) in *. set (c := new_tcb name (clamp p) stack) in *.
  clearbody k1. assert (Ec : tcb t k1 = Some c) by (unfold tcb; rewrite E1; cbn; by rewrite lookup_insert_eq).
  destruct (kwf_current _ _ Hw) as (u & cu & Eu & Ecu & Ep).
  assert (Hut : u ≠ t) by (intros ->; unfold tcb in Ecu; congruence).
  assert (F1 : k1.(pxCurrentTCB) = Some u ∧ k1.(xSchedulerRunning) = true
    ∧ k1.(uxCurrentNumberOfTasks) = k.(uxCurrentNumberOfTasks)
    ∧ k1.(tcbs) = <[t := c]> k.(tcbs) ∧ k1.(pxDelayedTaskList) = k.(pxDelayedTaskList)
    ∧ k1.(xTickCount) = k.(xTickCount)).
  { rewrite E1. cbn. split_and!; try done. apply Hc. }
  destruct F1 as (Fc & Fr & Fn & Ft & Fd & Fk).
  assert (Hnum := proj2 (w_number _ _ _ _ _ _ _ _ _ _ _ Hw)).
  assert (Hpos := number_positive k Hw).
  unfold prvAddNewTaskToReadyList. rewrite Ec. cbn [mbind option_bind pxCurrentTCB set_uxCurrentNumberOfTasks].
  rewrite Fc. cbn [xSchedulerRunning set_uxCurrentNumberOfTasks]. rewrite Fr. cbn [mbind option_bind].
  set (k2 := set_uxTaskNumber _ _).
  assert (Hk2 : kwf (Some t) k2).
  { unfold kwf, k2. cbn. rewrite Fn, u32_small by lia. exact Hk1. }
  destruct (add_ready_spec t c k2 Hk2 Ec) as (k3 & -> & Hk3 & R3). cbn [mbind option_bind].
  destruct (relisted_fields _ _ _ R3) as (G1&G2&G3&_&G5&G6&G7&G8&G9&G10&G11&_&_&G14).
  unfold k2 in G1, G2, G3, G5, G6, G7, G8, G9, G10, G11, G14. rewrite E1 in G7, G8, G9, G10, G11, G14.
  cbn in G1, G2, G3, G5, G6, G7, G8, G9, G10, G11, G14.
  assert (Hst : ∀ v, state v k3 = if decide (v = t) then Some (pxReadyTasksLists (clamp p)) else state v k).
  { intros v. unfold state. rewrite (rl_container _ _ _ R3). case_decide as D.
    - subst v. by rewrite fn_lookup_insert.
    - rewrite fn_lookup_insert_ne by congruence. apply C1. }
  assert (Hev : ∀ v, event v k3 = event v k).
  { intros v. unfold event. rewrite (rl_container _ _ _ R3), fn_lookup_insert_ne by done. apply C1. }
  assert (Hd := delayed_other _ _ (w_pointers _ _ _ _ _ _ _ _ _ _ _ Hw)).
  assert (Hc3 : kcore k3).
  { destruct Hc as [_ Hs (ti & pi & Hi & Hip) _ Hsu Hpe Hq]. split; try done.
    - intros v. rewrite Hst, G3, G5, Fd, Fk. case_decide as D.
      + intros [= E]. by destruct Hd as (_ & Hd & _); destruct (Hd (clamp p)).
      + intros E. replace (k_value (xStateListItem v) k3) with (k_value (xStateListItem v) k); [by apply Hs|].
        etrans; [symmetry; apply (V1 v)|]. unfold k_value. by rewrite (rl_value _ _ _ R3).
    - exists ti. rewrite Hst. case_decide; [exists (clamp p); split; [congruence|done]|exists pi; split; [congruence|done]].
    - by rewrite G6.
    - by rewrite G7.
    - by rewrite G8.
    - rewrite G7, G8. intros H. destruct (Hq H). split; [done|]. intros v. by rewrite Hev. }
  assert (Ecu3 : tcb u k3 = Some cu) by (unfold tcb; rewrite G1, Ft; by rewrite lookup_insert_ne).
  assert (Ep3 : current_priority k3 = Some cu.(uxPriority)).
  { unfold current_priority. rewrite G2, Fc. simpl. by rewrite Ecu3. }
  rewrite G6, Fr, Ep3. cbn [mbind option_bind].
  assert (Hrun : runnable k → runnable k3).
  { intros (v & cv & H1 & H2 & H3). assert (v = u) as -> by congruence. assert (cv = cu) as -> by congruence.
    exists u, cu. rewrite G2, Fc, Hst, decide_False by done. done. }
  eexists. split; [reflexivity|]. split_and!.
  - apply (preempts_ready k); try done.
    intros L%Z.ltb_ge (v & cv & H1 & H2 & H3 & H4). assert (v = u) as -> by congruence.
    assert (cv = cu) as -> by congruence. exists u, cu. rewrite G2, Fc, Hst, decide_False by done.
    split_and!; try done. intros v q. rewrite Hst. case_decide; [|apply H4]. intros [= <-]. done.
  - destruct (_ <? _); cbn; by rewrite G1, Ft.
  - destruct (_ <? _); change (state t k3 = Some (pxReadyTasksLists (clamp p))); by rewrite Hst, decide_True.
  - intros v Hv. destruct (_ <? _); change (state v k3 = state v k); by rewrite Hst, decide_False.
  - destruct (_ <? _); cbn; by rewrite G14.
Qed.

(** ** Deleting a task *)

(** There are no more tasks in a list than tasks. *)
Lemma terminated_bound t l k : kwf None k → state t k = Some l → l ≠ xTasksWaitingTermination →
  k.(uxDeletedTasksWaitingCleanUp) + 1 ≤ k.(uxCurrentNumberOfTasks).
Proof.
  intros Hk Ht Hne. destruct (w_number _ _ _ _ _ _ _ _ _ _ _ Hk) as [-> _].
  rewrite (w_deleted _ _ _ _ _ _ _ _ _ _ _ Hk).
  set (xs := elems (lists k) xTasksWaitingTermination). assert (Hok := w_store _ _ _ _ _ _ _ _ _ _ _ Hk).
  assert (Hst : ∀ x, x ∈ xs → ∃ u, x = xStateListItem u ∧ state u k = Some xTasksWaitingTermination).
  { intros x Hx. eapply delayed_items; [exact Hk|exact Hx|simpl; tauto]. }
  assert (Hnd : NoDup (t :: (owner <$> xs))).
  { constructor.
    - intros (x & -> & Hx)%list_elem_of_fmap. destruct (Hst x Hx) as (u & -> & Hu). simpl in Ht. congruence.
    - apply NoDup_fmap_2_strong; [|apply Hok]. intros x y Hx Hy E.
      destruct (Hst x Hx) as (u & -> & _), (Hst y Hy) as (v & -> & _). simpl in E. by subst. }
  assert (Hsub : (list_to_set (t :: (owner <$> xs)) : gset Z) ⊆ dom k.(tcbs)).
  { intros u Hu. apply elem_of_list_to_set in Hu. apply elem_of_dom.
    apply elem_of_cons in Hu as [->|(x & -> & Hx)%list_elem_of_fmap].
    - apply (w_live _ _ _ _ _ _ _ _ _ _ _ Hk _ _ Ht).
    - destruct (Hst x Hx) as (u & -> & Hu). apply (w_live _ _ _ _ _ _ _ _ _ _ _ Hk _ _ Hu). }
  apply subseteq_size in Hsub. rewrite size_list_to_set, size_dom in Hsub by done.
  simpl in Hsub. rewrite length_fmap in Hsub. lia.
Qed.

(** Out of all lists: what is left of the invariant for the rest of the tasks. *)
Lemma kcore_away t con k k' : kcore k → kwf None k' → k.(xIdleTaskHandle) ≠ Some t →
  (∀ u, u ≠ t → con (xStateListItem u) = state u k) → con (xStateListItem t) ≠ Some k.(pxDelayedTaskList) →
  (∀ u, con (xEventListItem u) = None ∨ con (xEventListItem u) = event u k) →
  (∀ x, k'.(lists).(container) x = con x) → k'.(lists).(value) = k.(lists).(value) →
  k'.(pxDelayedTaskList) = k.(pxDelayedTaskList) → k'.(xTickCount) = k.(xTickCount) →
  k'.(xSchedulerRunning) = k.(xSchedulerRunning) → k'.(uxSchedulerSuspended) = k.(uxSchedulerSuspended) →
  k'.(uxPendedTicks) = k.(uxPendedTicks) → k'.(xIdleTaskHandle) = k.(xIdleTaskHandle) → kcore k'.
Proof.
  intros [Hw Hs (ti & pi & Hi & Hip) Hr Hsu Hpe Hq] Hk' Hne Hu Ht He C V Fd Fk Fr Fs Fp Fi.
  split; rewrite ?Fr, ?Fs, ?Fp; try done.
  - intros u. unfold state, k_value. rewrite C, V, Fd, Fk. destruct (decide (u = t)) as [->|]; [done|].
    rewrite Hu by done. apply Hs.
  - exists ti, pi. unfold state. rewrite Fi, C, Hu by congruence. done.
  - intros H. destruct (Hq H) as [H1 H2]. split; [done|]. intros u. unfold event. rewrite C.
    destruct (He u) as [->| ->]; [done|apply H2].
Qed.

(** What vTaskDelete does once the task is out of its lists. *)
Definition delete_rest (t : Z) (k : kernel) : option kernel :=
  let k := set_uxTaskNumber (u32 (k.(uxTaskNumber) + 1)) k in
  k ← (if decide (k.(pxCurrentTCB) = Some t) then
         k ← k_insert_end xTasksWaitingTermination (xStateListItem t) k;
         Some (set_uxDeletedTasksWaitingCleanUp (u32 (k.(uxDeletedTasksWaitingCleanUp) + 1)) k)
       else
         let k := set_uxCurrentNumberOfTasks (u32 (k.(uxCurrentNumberOfTasks) - 1)) k in
         k ← prvDeleteTCB t k;
         Some (prvResetNextTaskUnblockTime k));
  Some (if k.(xSchedulerRunning) && bool_decide (k.(pxCurrentTCB) = Some t)
        then portYIELD_WITHIN_API k else k).

Section Delete.
Context (t : Z) (k k1 : kernel).
Hypothesis (Hk : kinv k) (Hidle : k.(xIdleTaskHandle) ≠ Some t).
Hypothesis (Hb : k.(uxDeletedTasksWaitingCleanUp) + 1 ≤ k.(uxCurrentNumberOfTasks)).
Hypothesis (Hk1 : kwf (Some t) k1) (Hlive : is_Some (tcb t k1)) (Hev1 : event t k1 = None).
Hypothesis R1 : relisted (<[xStateListItem t := None]> (<[xEventListItem t := None]> k.(lists).(container))) k k1.

Lemma delete_self : k.(pxCurrentTCB) = Some t → k.(uxSchedulerSuspended) = 0 →
  ∃ k', delete_rest t k1 = Some k' ∧ kinv k' ∧ event t k' = None ∧ state t k' = Some xTasksWaitingTermination.
Proof.
  intros E Hsus. destruct Hk as [Hc Hp]. unfold delete_rest.
  destruct (relisted_fields _ _ _ R1) as (F1&F2&F3&F4&F5&F6&F7&F8&F9&F10&F11&F12&F13&_).
  destruct (w_number _ _ _ _ _ _ _ _ _ _ _ (kc_wf _ Hc)) as [_ Hnum].
  assert (Hdel0 : 0 ≤ uxDeletedTasksWaitingCleanUp k) by (rewrite (w_deleted _ _ _ _ _ _ _ _ _ _ _ (kc_wf _ Hc)); lia).
  destruct (delayed_other _ _ (w_pointers _ _ _ _ _ _ _ _ _ _ _ (kc_wf _ Hc))) as (_ & Hr & _ & _ & Hdt & _).
  set (k2 := set_uxTaskNumber _ k1). change (pxCurrentTCB k2) with (pxCurrentTCB k1). rewrite F2, decide_True by done.
  destruct (insert_terminated_spec t k2 Hk1 Hlive Hev1) as (k3 & -> & Hk3 & R3).
  { change (uxDeletedTasksWaitingCleanUp k2) with (uxDeletedTasksWaitingCleanUp k1). rewrite F13. lia. }
  cbn [mbind option_bind]. destruct (relisted_fields _ _ _ R3) as (G1&G2&G3&G4&G5&G6&G7&G8&G9&G10&G11&_).
  cbn in G1, G2, G3, G5, G6, G7, G8, G11.
  set (k4 := set_uxDeletedTasksWaitingCleanUp _ k3) in *.
  set (con := <[xStateListItem t := Some xTasksWaitingTermination]> (<[xEventListItem t := None]> k.(lists).(container))).
  assert (C : ∀ x, k4.(lists).(container) x = con x).
  { intros x. change (lists k4) with (lists k3). rewrite (rl_container _ _ _ R3).
    assert (C1 := rl_container _ _ _ R1 x). change (lists k2) with (lists k1).
    unfold con, insert, fn_insert in *. repeat case_decide; congruence. }
  assert (Hc4 : kcore k4).
  { eapply (kcore_away t con k); try done; try (cbn; congruence).
    - intros u Hu. unfold con. by rewrite !fn_lookup_insert_ne by congruence.
    - unfold con. rewrite fn_lookup_insert. congruence.
    - intros u. unfold con. rewrite fn_lookup_insert_ne by done. unfold insert, fn_insert.
      case_decide; [by left|by right].
    - change (lists k4) with (lists k3). rewrite (rl_value _ _ _ R3). apply (rl_value _ _ _ R1). }
  change (xSchedulerRunning k4) with (xSchedulerRunning k3). change (pxCurrentTCB k4) with (pxCurrentTCB k3).
  rewrite G6, F6, (kc_running _ Hc), G2, F2, E, bool_decide_eq_true_2 by done. cbn [andb].
  eexists. split; [reflexivity|]. split_and!.
  - apply kinv_yield; [done|]. intros H. destruct H. cbn. by rewrite G7, F7.
  - change (event t k4 = None). unfold event. rewrite C. unfold con.
    rewrite fn_lookup_insert_ne by done. by rewrite fn_lookup_insert.
  - change (state t k4 = Some xTasksWaitingTermination). unfold state. rewrite C. unfold con.
    by rewrite fn_lookup_insert.
Qed.

Lemma delete_other c : tcb t k1 = Some c → k.(pxCurrentTCB) ≠ Some t →
  ∃ k', delete_rest t k1 = Some k' ∧ kinv k' ∧ event t k' = None ∧ tcb t k' = None ∧ state t k' = None
    ∧ k'.(blocks) = (k.(blocks) ∖ {[c.(pxStack)]}) ∖ {[t]}.
Proof.
  intros Ec E. destruct Hk as [Hc Hp]. unfold delete_rest, prvDeleteTCB.
  destruct (relisted_fields _ _ _ R1) as (F1&F2&F3&F4&F5&F6&F7&F8&F9&F10&F11&F12&F13&F14).
  destruct (w_number _ _ _ _ _ _ _ _ _ _ _ (kc_wf _ Hc)) as [_ Hnum].
  assert (Hdel0 : 0 ≤ uxDeletedTasksWaitingCleanUp k) by (rewrite (w_deleted _ _ _ _ _ _ _ _ _ _ _ (kc_wf _ Hc)); lia).
  set (k2 := set_uxTaskNumber _ k1). change (pxCurrentTCB k2) with (pxCurrentTCB k1). rewrite F2, decide_False by done.
  set (k3 := set_uxCurrentNumberOfTasks _ k2). change (tcb t k3) with (tcb t k1). rewrite Ec.
  cbn [mbind option_bind]. set (k4 := set_tcbs _ _).
  assert (Hk4 : kwf None k4).
  { unfold kwf, k4, k3. cbn. rewrite F12, u32_small by lia.
    assert (Hn : uxCurrentNumberOfTasks k1 = uxCurrentNumberOfTasks k) by done. rewrite <- Hn.
    eapply wf_delete; [exact Hk1|by exists c|exact Hev1|congruence]. }
  destruct (reset_next_spec None k4 Hk4) as [Hk5 R5]. set (k5 := prvResetNextTaskUnblockTime k4) in *.
  destruct (relisted_fields _ _ _ R5) as (G1&G2&G3&_&G5&G6&G7&G8&G9&G10&G11&_&_&G14).
  cbn in G1, G2, G3, G5, G6, G7, G8, G9, G10, G11, G14.
  assert (C : ∀ x, k5.(lists).(container) x
    = (<[xStateListItem t := None]> (<[xEventListItem t := None]> k.(lists).(container))) x).
  { intros x. rewrite (rl_container _ _ _ R5). apply (rl_container _ _ _ R1). }
  assert (Hst : ∀ u, u ≠ t → state u k5 = state u k).
  { intros u Hu. unfold state. by rewrite C, !fn_lookup_insert_ne by congruence. }
  assert (Hstt : state t k5 = None) by (unfold state; by rewrite C, fn_lookup_insert).
  assert (Hc5 : kcore k5).
  { eapply (kcore_away t _ k); [done..| | | |exact C| | | | | | |]; try congruence.
    - intros u Hu. by rewrite !fn_lookup_insert_ne by congruence.
    - by rewrite fn_lookup_insert.
    - intros u. rewrite fn_lookup_insert_ne by done. unfold insert, fn_insert. case_decide; [by left|by right].
    - rewrite (rl_value _ _ _ R5). apply (rl_value _ _ _ R1). }
  cbn [mbind option_bind]. rewrite G6, F6, (kc_running _ Hc), G2, F2, bool_decide_eq_false_2 by done. cbn [andb].
  eexists. split; [reflexivity|]. split_and!.
  - split; [done|]. eapply (away_preempts k k5 t None); try done; try congruence; [by right|].
    intros u Hu. rewrite G1, lookup_delete_ne, F1 by done. done.
  - unfold event. rewrite C, fn_lookup_insert_ne by done. by rewrite fn_lookup_insert.
  - unfold tcb. by rewrite G1, lookup_delete_eq.
  - done.
  - rewrite G14. by rewrite F14.
Qed.
End Delete.

Lemma delete_spec h t l c k : kinv k → prvGetTCBFromHandle h k = Some t → state t k = Some l → tcb t k = Some c →
  l ≠ xTasksWaitingTermination → k.(xIdleTaskHandle) ≠ Some t →
  (k.(pxCurrentTCB) = Some t → k.(uxSchedulerSuspended) = 0) →
  ∃ k', vTaskDelete h k = Some k' ∧ kinv k' ∧ event t k' = None
    ∧ (if decide (k.(pxCurrentTCB) = Some t) then state t k' = Some xTasksWaitingTermination
       else tcb t k' = None ∧ state t k' = None ∧ k'.(blocks) = (k.(blocks) ∖ {[c.(pxStack)]}) ∖ {[t]}).
Proof.
  intros Hk Hh Hl Ec Hne Hidle Hsus. assert (Hw := kc_wf _ (proj1 Hk)).
  unfold vTaskDelete. rewrite Hh. cbn [mbind option_bind].
  rewrite take_out_unfold. assert (Hb := terminated_bound t l k Hw Hl Hne).
  destruct (take_out_spec t l k Hw Hl Hne) as (k1 & -> & Hk1 & R1). cbn [mbind option_bind].
  fold (delete_rest t k1). destruct (relisted_fields _ _ _ R1) as (F1&_).
  assert (Ec1 : tcb t k1 = Some c) by (unfold tcb; by rewrite F1).
  assert (Hev1 : event t k1 = None).
  { unfold event. rewrite (rl_container _ _ _ R1), fn_lookup_insert_ne by done. by rewrite fn_lookup_insert. }
  destruct (decide (pxCurrentTCB k = Some t)) as [E|E].
  - apply (delete_self t k k1); auto; by exists c.
  - apply (delete_other t k k1); auto; by exists c.
Qed.

(** ** The idle task, which frees the tasks that deleted themselves, and the start of the
    scheduler *)

(** The idle task is running. *)
Definition idle_runs (k : kernel) : Prop := k.(pxCurrentTCB) = k.(xIdleTaskHandle).

Lemma idle_runnable k : kcore k → idle_runs k → runnable k.
Proof.
  intros Hc Hi. destruct (kc_idle _ Hc) as (t & p & Et & Hp).
  destruct (state_priority k t p (kc_wf _ Hc) Hp) as (c & Ec & <- & _).
  exists t, c. by rewrite Hi.
Qed.

(** Suspending and resuming an undisturbed scheduler. *)
Lemma suspend_resume k : kinv k → k.(uxSchedulerSuspended) = 0 → runnable k →
  ∃ ay k', xTaskResumeAll (vTaskSuspendAll k) = Some (ay, k') ∧ kinv k' ∧ kkeep k k' ∧ same_tasks k k'
    ∧ k'.(uxSchedulerSuspended) = 0.
Proof.
  intros Hk Hs Hr. destruct (suspend_all_spec k Hk ltac:(lia) Hr) as [[Hc0 Hp0] Hs0].
  destruct (kc_quiet _ (proj1 Hk) Hs) as [Hq1 Hq2].
  destruct (resume_all_spec (vTaskSuspendAll k) Hc0) as (ay & k' & E & Hc' & K & S & _ & Hp & _ & T); [lia|].
  exists ay, k'. split_and!; [done|by split; auto| | |lia].
  - by destruct K.
  - by destruct (T Hq1 Hq2).
Qed.

Lemma head_terminated k : kwf None k → 0 < k.(uxDeletedTasksWaitingCleanUp) →
  ∃ t, head_owner xTasksWaitingTermination k = Some t ∧ state t k = Some xTasksWaitingTermination
    ∧ is_empty xTasksWaitingTermination k = false.
Proof.
  intros Hk Hd. rewrite (w_deleted _ _ _ _ _ _ _ _ _ _ _ Hk) in Hd.
  unfold head_owner, seq_head, is_empty, seq_length.
  destruct (elems (lists k) xTasksWaitingTermination) as [|x xs] eqn:E; [simpl in Hd; lia|].
  destruct (delayed_items None k x xTasksWaitingTermination Hk) as (t & -> & Ht); [rewrite E; set_solver|simpl; tauto|].
  exists t. split_and!; [done..|]. simpl. lia.
Qed.

(** One dead task is freed. *)
Lemma reap_spec t c k : kinv k → state t k = Some xTasksWaitingTermination → tcb t k = Some c →
  k.(xIdleTaskHandle) ≠ Some t → k.(pxCurrentTCB) ≠ Some t →
  ∃ k1, k_remove (xStateListItem t) k = Some k1
    ∧ let k2 := set_uxCurrentNumberOfTasks (u32 (k1.(uxCurrentNumberOfTasks) - 1)) k1 in
      let k3 := set_uxDeletedTasksWaitingCleanUp (u32 (k2.(uxDeletedTasksWaitingCleanUp) - 1)) k2 in
      ∃ k4, prvDeleteTCB t k3 = Some k4 ∧ kinv k4 ∧ k4.(tcbs) = delete t k.(tcbs)
        ∧ k4.(uxSchedulerSuspended) = k.(uxSchedulerSuspended)
        ∧ k4.(uxDeletedTasksWaitingCleanUp) = k.(uxDeletedTasksWaitingCleanUp) - 1
        ∧ k4.(pxCurrentTCB) = k.(pxCurrentTCB) ∧ k4.(xIdleTaskHandle) = k.(xIdleTaskHandle)
        ∧ k4.(blocks) = k.(blocks) ∖ {[c.(pxStack)]} ∖ {[t]}
        ∧ ∀ u, u ≠ t → state u k4 = state u k.
Proof.
  intros [Hc Hp] Ht Ec Hi Hcur. assert (Hw := kc_wf _ Hc). unfold k_remove.
  destruct (remove_changed _ _ _ (w_store _ _ _ _ _ _ _ _ _ _ _ Hw) Ht) as (s & -> & Hch & Eel).
  exists (set_lists s k). split; [done|]. set (k2 := set_uxCurrentNumberOfTasks _ _). set (k3 := set_uxDeletedTasksWaitingCleanUp _ _).
  destruct (wf_reap t Hw Ht Hch Eel) as [Hw1 Hpos].
  destruct (w_number _ _ _ _ _ _ _ _ _ _ _ Hw) as [En Hn]. assert (Hnp := number_positive k Hw).
  assert (Hdl : uxDeletedTasksWaitingCleanUp k < 2 ^ 32).
  { destruct (kwf_current _ _ Hw) as (u & cu & Eu & Ecu & _).
    destruct (kc_idle _ Hc) as (ti & pi & _ & Hpi).
    assert (B := terminated_bound ti _ k Hw Hpi ltac:(done)). lia. }
  unfold prvDeleteTCB. change (tcb t k3) with (tcb t k). rewrite Ec. cbn [mbind option_bind].
  set (k4 := set_tcbs _ _). exists k4. split; [done|].
  assert (Hdead := w_dead _ _ _ _ _ _ _ _ _ _ _ Hw t Ht).
  assert (C : ∀ x, s.(container) x = (<[xStateListItem t := None]> k.(lists).(container)) x)
    by (intros x; by rewrite (ch_container _ _ _ _ Hch)).
  assert (Hk4 : kwf None k4).
  { unfold kwf, k4, k3, k2. cbn. rewrite !u32_small by lia.
    eapply wf_delete; [exact Hw1|by exists c| |done]. by rewrite C, fn_lookup_insert_ne. }
  assert (Hst : ∀ u, u ≠ t → state u k4 = state u k).
  { intros u Hu. unfold state, k4. cbn. by rewrite C, fn_lookup_insert_ne by congruence. }
  assert (Hstt : state t k4 = None) by (unfold state, k4; cbn; by rewrite C, fn_lookup_insert).
  assert (Hc4 : kcore k4).
  { eapply (kcore_away t _ k); [done..| | | |exact C| | | | | | |]; try done.
    - intros u Hu. by rewrite fn_lookup_insert_ne by congruence.
    - by rewrite fn_lookup_insert.
    - intros u. right. by rewrite fn_lookup_insert_ne.
    - apply (ch_value _ _ _ _ Hch). }
  split_and!; try done.
  - split; [done|]. eapply (away_preempts k k4 t None); try done; [by right|].
    intros u Hu. unfold k4. cbn. by rewrite lookup_delete_ne.
  - unfold k4, k3, k2. cbn. rewrite u32_small; lia.
Qed.

(** The dead tasks were freed and nothing else. *)
Record reaped (k k' : kernel) : Prop := {
  re_dead t c : tcb t k = Some c → state t k = Some xTasksWaitingTermination →
    tcb t k' = None ∧ t ∉ k'.(blocks) ∧ c.(pxStack) ∉ k'.(blocks);
  re_alive t : state t k ≠ Some xTasksWaitingTermination → tcb t k' = tcb t k ∧ state t k' = state t k;
  re_blocks : k'.(blocks) ⊆ k.(blocks);
}.

Lemma reaped_none k : kwf None k → k.(uxDeletedTasksWaitingCleanUp) ≤ 0 → reaped k k.
Proof.
  intros Hw Hd. split; [|done|done]. intros t c _ Ht. exfalso. rewrite (w_deleted _ _ _ _ _ _ _ _ _ _ _ Hw) in Hd.
  apply (ok_in _ (w_store _ _ _ _ _ _ _ _ _ _ _ Hw)) in Ht.
  destruct (elems _ _) as [|x xs]; [set_solver|simpl in Hd; lia].
Qed.

Lemma reaped_step k k1 k2 t c : kinv k1 → reaped k1 k2 → tcb t k = Some c →
  state t k = Some xTasksWaitingTermination → k1.(tcbs) = delete t k.(tcbs) →
  k1.(blocks) = k.(blocks) ∖ {[c.(pxStack)]} ∖ {[t]} → (∀ u, u ≠ t → state u k1 = state u k) → reaped k k2.
Proof.
  intros Hk1 [D A B] Ec Ht Et Eb Hs. assert (N : tcb t k1 = None) by (unfold tcb; by rewrite Et, lookup_delete_eq).
  assert (St : state t k1 ≠ Some xTasksWaitingTermination).
  { intros E. destruct (w_live _ _ _ _ _ _ _ _ _ _ _ (kc_wf _ (proj1 Hk1)) _ _ E) as [x Hx]. cbn [owner] in Hx.
    unfold tcb in N. congruence. }
  assert (T : ∀ u, u ≠ t → tcb u k1 = tcb u k) by (intros u Hu; unfold tcb; by rewrite Et, lookup_delete_ne).
  split.
  - intros u cu Hu Su. destruct (decide (u = t)) as [->|Hne].
    + rewrite Ec in Hu. injection Hu as <-. destruct (A t St) as [-> _]. set_solver.
    + apply D; [by rewrite T|by rewrite Hs].
  - intros u Su. destruct (decide (u = t)) as [->|Hne]; [done|]. rewrite <- T, <- Hs by done. apply A. by rewrite Hs.
  - set_solver.
Qed.

Lemma clean_up_spec fuel : ∀ k, kinv k → k.(uxSchedulerSuspended) = 0 → idle_runs k →
  k.(uxDeletedTasksWaitingCleanUp) ≤ Z.of_nat fuel →
  ∃ k', clean_up_loop fuel k = Some k' ∧ kinv k' ∧ k'.(uxDeletedTasksWaitingCleanUp) = 0
    ∧ k'.(uxSchedulerSuspended) = 0 ∧ idle_runs k' ∧ reaped k k'.
Proof.
  induction fuel as [|fuel IH]; intros k Hk Hs Hi Hd;
    assert (Hw := kc_wf _ (proj1 Hk)); assert (Hd0 := w_deleted _ _ _ _ _ _ _ _ _ _ _ Hw); cbn [clean_up_loop];
    destruct (Z.ltb_spec 0 (uxDeletedTasksWaitingCleanUp k)) as [L|L]; try lia;
    try (exists k; split_and!; [done..|lia|done|done|by apply reaped_none]).
  destruct (suspend_resume k Hk Hs (idle_runnable k (proj1 Hk) Hi)) as (ay & k1 & E1 & Hk1 & K1 & T1 & S1).
  destruct (head_terminated (vTaskSuspendAll k) Hw L) as (_ & _ & _ & ->). rewrite E1. cbn [mbind option_bind].
  assert (Hw1 := kc_wf _ (proj1 Hk1)).
  assert (L1 : 0 < uxDeletedTasksWaitingCleanUp k1) by (by rewrite (kk_deleted _ _ K1)).
  destruct (head_terminated k1 Hw1 L1) as (t & -> & Ht & _). cbn [mbind option_bind].
  destruct (w_live _ _ _ _ _ _ _ _ _ _ _ Hw1 _ _ Ht) as [c Ec]. cbn [owner] in Ec.
  assert (Hi1 : idle_runs k1) by (unfold idle_runs; by rewrite (kk_current _ _ K1), (kk_idle _ _ K1)).
  assert (Hit : xIdleTaskHandle k1 ≠ Some t).
  { destruct (kc_idle _ (proj1 Hk1)) as (ti & pi & Eti & Hpi). rewrite Eti. intros [= ->].
    unfold state in *. congruence. }
  destruct (reap_spec t c k1 Hk1 Ht Ec Hit) as (k2 & -> & k3 & E3 & Hk3 & T3 & S3 & D3 & C3 & I3 & B3 & St3);
    [by rewrite Hi1|]. cbn [mbind option_bind]. rewrite E3. cbn [mbind option_bind].
  destruct (IH k3) as (k' & -> & Hk' & D' & S' & I' & R'); [done|by rewrite S3|unfold idle_runs; by rewrite C3, I3| |].
  { rewrite D3, (kk_deleted _ _ K1). lia. }
  exists k'. split_and!; try done. eapply (reaped_step k k3 k' t c); try done.
  - unfold tcb. by rewrite <- (kk_tcbs _ _ K1).
  - unfold state. by rewrite <- (st_container _ _ T1).
  - by rewrite T3, (kk_tcbs _ _ K1).
  - by rewrite B3, (kk_blocks _ _ K1).
  - intros u Hu. rewrite St3 by done. apply (st_container _ _ T1).
Qed.

(** One round of the idle task. *)
Lemma idle_spec k : kinv k → k.(uxSchedulerSuspended) = 0 → idle_runs k →
  ∃ k', prvIdleTask k = Some k' ∧ kinv k' ∧ k'.(uxDeletedTasksWaitingCleanUp) = 0 ∧ reaped k k'.
Proof.
  intros Hk Hs Hi. unfold prvIdleTask, prvCheckTasksWaitingTermination.
  assert (Hd0 := w_deleted _ _ _ _ _ _ _ _ _ _ _ (kc_wf _ (proj1 Hk))).
  destruct (clean_up_spec (Z.to_nat (uxDeletedTasksWaitingCleanUp k)) k Hk Hs Hi) as (k' & -> & Hk' & D & S & _ & R); [lia|].
  cbn [mbind option_bind]. eexists. split; [reflexivity|].
  destruct (1 <? _); [|done]. split_and!; [|done|by destruct R]. apply kinv_yield; [apply Hk'|]. by rewrite S.
Qed.
End urgency.
