(* ===== verification/FrTasksPrio.v ===== *)
(** FrTasksPrio: changing priorities, and the priority inheritance of mutexes. *)

From stdpp Require Import functions sorting.
From S2P Require Import Prelude FrList FrSeq FrKernel FrTasks FrTasksInv FrTasksMove FrTasksTick FrTasksSched FrTasksApi FrTasksLife.

Section urgency.
Context {U : Urgency}.

Lemma upd_tcb_some t c f k : tcb t k = Some c →
  upd_tcb t f k = Some (set_tcbs (<[t := f c]> k.(tcbs)) k).
Proof. unfold upd_tcb. by intros ->. Qed.

(** Taking an item out of its list does not look at TCBs and values. *)
Lemma k_remove_tcbs x T k k1 : k_remove x k = Some k1 → k_remove x (set_tcbs T k) = Some (set_tcbs T k1).
Proof.
  unfold k_remove. cbn. destruct (seq_remove x (lists k)) as [[n s]|]; [|done]. simpl. by intros [= <-].
Qed.

Lemma k_remove_value x y v k k1 : k_remove x k = Some k1 →
  k_remove x (k_set_value y v k) = Some (k_set_value y v k1).
Proof.
  unfold k_remove, seq_remove. cbn. destruct (container (lists k) x) as [l|]; [|done]. simpl. by intros [= <-].
Qed.

Lemma k_remove_event_priority x t p k k1 : k_remove x k = Some k1 →
  k_remove x (set_event_priority t p k) = Some (set_event_priority t p k1).
Proof.
  intros H. unfold set_event_priority.
  replace (event_value_free t k1) with (event_value_free t k).
  - destruct (event_value_free t k); [by apply k_remove_value|done].
  - unfold k_remove, seq_remove in H. destruct (container (lists k) x) as [l|]; [|done].
    simpl in H. injection H as <-. done.
Qed.

Lemma event_priority_spec o t p k : kwf o k →
  kwf o (set_event_priority t p k)
  ∧ ∃ s, set_event_priority t p k = set_lists s k ∧ s.(container) = k.(lists).(container)
    ∧ ∀ u, s.(value) (xStateListItem u) = k.(lists).(value) (xStateListItem u).
Proof.
  intros Hk. unfold set_event_priority. destruct (event_value_free t k).
  - split; [unfold kwf; cbn; by apply wf_set_value|]. eexists. split; [reflexivity|]. split; [done|].
    intros u. cbn. by rewrite fn_lookup_insert_ne.
  - split; [done|]. exists k.(lists). split; [by destruct k|done].
Qed.

(** [k'] is [k] with the TCB of [t] replaced by [c'], [t] in the ready list of its
    new priority if it was ready, and other values of event items. *)
Record repriorised (t : Z) (c c' : TCB) (k k' : kernel) : Prop := {
  rp_core : kcore k';
  rp_tcbs : k'.(tcbs) = <[t := c']> k.(tcbs);
  rp_current : k'.(pxCurrentTCB) = k.(pxCurrentTCB);
  rp_soft : k'.(pending_soft_sv) = k.(pending_soft_sv);
  rp_suspended : k'.(uxSchedulerSuspended) = k.(uxSchedulerSuspended);
  rp_yield : k'.(xYieldPending) = k.(xYieldPending);
  rp_idle : k'.(xIdleTaskHandle) = k.(xIdleTaskHandle);
  rp_event u : event u k' = event u k;
  rp_other u : u ≠ t → state u k' = state u k;
  rp_state : state t k' = if decide (state t k = Some (pxReadyTasksLists c.(uxPriority)))
                          then Some (pxReadyTasksLists c'.(uxPriority)) else state t k;
}.

(** From the TCB write and the move between the ready lists. *)
Lemma repriorise_intro t c c' k k1 s k' : kcore k → tcb t k = Some c →
  k1 = set_lists s (set_tcbs (<[t := c']> k.(tcbs)) k) →
  (∀ x, s.(container) x = k.(lists).(container) x) →
  (∀ u, s.(value) (xStateListItem u) = k.(lists).(value) (xStateListItem u)) →
  kwf None k' →
  relisted (if decide (state t k = Some (pxReadyTasksLists c.(uxPriority)))
            then <[xStateListItem t := Some (pxReadyTasksLists c'.(uxPriority))]> k.(lists).(container)
            else k.(lists).(container)) k1 k' →
  repriorised t c c' k k'.
Proof.
  intros Hc Ec E1 C1 V1 Hk' R. rewrite E1 in R.
  destruct (relisted_fields _ _ _ R) as (F1&F2&F3&F4&F5&F6&F7&F8&F9&F10&F11&_).
  cbn in F1, F2, F3, F5, F6, F7, F8, F9, F10, F11. assert (C := rl_container _ _ _ R).
  assert (Hdec : ∀ (P Q : item → option lid) x, (if decide (state t k = Some (pxReadyTasksLists c.(uxPriority)))
     then P else Q) x = if decide (state t k = Some (pxReadyTasksLists c.(uxPriority))) then P x else Q x)
    by (intros; by case_decide).
  assert (Hev : ∀ u, event u k' = event u k).
  { intros u. unfold event. rewrite C, Hdec. case_decide; [by rewrite fn_lookup_insert_ne|done]. }
  assert (Hoth : ∀ u, u ≠ t → state u k' = state u k).
  { intros u Hu. unfold state at 1. rewrite C, Hdec. case_decide; [by rewrite fn_lookup_insert_ne by congruence|done]. }
  assert (Hst : state t k' = if decide (state t k = Some (pxReadyTasksLists c.(uxPriority)))
                          then Some (pxReadyTasksLists c'.(uxPriority)) else state t k).
  { unfold state at 1. rewrite C, Hdec. case_decide; [by rewrite fn_lookup_insert|done]. }
  split; try done.
  destruct (delayed_other _ _ (w_pointers _ _ _ _ _ _ _ _ _ _ _ (kc_wf _ Hc))) as (_ & Hr & _).
  destruct Hc as [Hw Hs (ti & pi & Hi & Hip) Hru Hsu Hpe Hq]. split; rewrite ?F6, ?F7, ?F8; try done.
  - intros u. rewrite F3, F5. unfold k_value. rewrite (rl_value _ _ _ R). cbn. rewrite V1.
    destruct (decide (u = t)) as [->|Hne]; [|rewrite Hoth by done; apply Hs].
    rewrite Hst. case_decide; [|apply Hs]. intros [= E]. by destruct (Hr (uxPriority c')).
  - rewrite F11. destruct (decide (ti = t)) as [->|Hne]; [|exists ti, pi; by rewrite Hoth].
    destruct (state_priority k t pi Hw Hip) as (c1 & Ec1 & <- & _). assert (c1 = c) as -> by congruence.
    exists t, (uxPriority c'). by rewrite Hst, decide_True.
  - intros H. destruct (Hq H). split; [done|]. intros u. by rewrite Hev.
Qed.

(** The running task after the priority of [t] changed: a yield is due unless
    the current task still is a highest one. *)
Lemma repriorised_kinv t c c' k k' (b : bool) : kinv k → tcb t k = Some c → repriorised t c c' k k' →
  (∀ p, current_priority k = Some p → b = false →
     (k.(pxCurrentTCB) = Some t → c.(uxPriority) ≤ c'.(uxPriority))
     ∧ (k.(pxCurrentTCB) ≠ Some t → c'.(uxPriority) ≤ Z.max p c.(uxPriority))) →
  kinv (if b then portYIELD_WITHIN_API k' else k').
Proof.
  intros [Hc Hp] Ec HR Hb. destruct HR as [Hc' RT RC RS RU RY _ RE RO RST].
  assert (Hrun : runnable k → runnable k').
  { intros (u & cu & H1 & H2 & H3). destruct (decide (u = t)) as [->|Hne].
    - assert (cu = c) as -> by congruence. exists t, c'. unfold tcb. rewrite RC, RT, RST, lookup_insert_eq.
      split_and!; try done. by rewrite decide_True.
    - exists u, cu. unfold tcb. rewrite RC, RT, RO, lookup_insert_ne by done. done. }
  apply (preempts_ready k); try done.
  intros -> (u & cu & H1 & H2 & H3 & H4).
  assert (Ep : current_priority k = Some cu.(uxPriority)) by (unfold current_priority; rewrite H1; simpl; by rewrite H2).
  destruct (Hb _ Ep eq_refl) as [B1 B2].
  assert (Hprio : ∀ v p, state v k' = Some (pxReadyTasksLists p) →
    v ≠ t ∧ p ≤ cu.(uxPriority) ∨ v = t ∧ (p = c'.(uxPriority) ∧ c.(uxPriority) ≤ cu.(uxPriority)
       ∨ p ≤ cu.(uxPriority) ∧ state t k ≠ Some (pxReadyTasksLists c.(uxPriority)))).
  { intros v p Hv. destruct (decide (v = t)) as [->|Hne].
    - right. split; [done|]. rewrite RST in Hv. case_decide as D.
      + injection Hv as <-. left. split; [done|]. by eapply H4.
      + right. split; [by eapply H4|done].
    - left. rewrite RO in Hv by done. split; [done|]. by eapply H4. }
  destruct (decide (u = t)) as [->|Hne].
  - assert (cu = c) as -> by congruence. exists t, c'. unfold tcb. rewrite RC, RT, RST, lookup_insert_eq.
    split_and!; try done; [by rewrite decide_True|]. specialize (B1 H1).
    intros v p Hv. destruct (Hprio v p Hv) as [[_ ?]|[_ [[? ?]|[? ?]]]]; lia || done.
  - exists u, cu. unfold tcb. rewrite RC, RT, RO, lookup_insert_ne by done. split_and!; try done.
    assert (B2' := B2 ltac:(congruence)).
    intros v p Hv. destruct (Hprio v p Hv) as [[_ ?]|[_ [[? ?]|[? ?]]]]; lia.
Qed.

(** The move between the ready lists after the TCB of [t] was written, with
    [t] taken out first. *)
Lemma reready_spec t c c' k1 k2 : kwf (Some t) k1 → tcb t k1 = Some c →
  priority_ok c'.(uxPriority) → priority_ok c'.(uxBasePriority) →
  k2 = set_tcbs (<[t := c']> k1.(tcbs)) k1 →
  ∃ k', prvAddTaskToReadyList t k2 = Some k' ∧ kwf None k'
    ∧ relisted (<[xStateListItem t := Some (pxReadyTasksLists c'.(uxPriority))]> k2.(lists).(container)) k2 k'.
Proof.
  intros Hk1 Ec Hp Hb ->. apply add_ready_spec.
  - unfold kwf. cbn. eapply wf_tcb; [exact Hk1|exact Ec|done..|]. right. by left.
  - unfold tcb. cbn. by rewrite lookup_insert_eq.
Qed.

(** A task that is not in the ready list of its priority is in none. *)
Lemma not_ready t c k : kwf None k → tcb t k = Some c → state t k ≠ Some (pxReadyTasksLists c.(uxPriority)) →
  ∀ p, state t k ≠ Some (pxReadyTasksLists p).
Proof. intros Hk Ec H p E. destruct (state_priority k t p Hk E) as (c' & Ec' & <- & _). congruence. Qed.

Lemma state_some t c k : kwf None k → tcb t k = Some c → ∃ l, state t k = Some l.
Proof. intros Hk Ec. destruct (w_state _ _ _ _ _ _ _ _ _ _ _ Hk t c Ec) as (l & El & _); [done|]. by exists l. Qed.

Lemma contained_spec p t k : contained (pxReadyTasksLists p) (xStateListItem t) k
  = bool_decide (state t k = Some (pxReadyTasksLists p)).
Proof. done. Qed.

(** ** vTaskPrioritySet *)

Definition new_priorities (p : Z) (c : TCB) : TCB :=
  set_uxBasePriority p (if c.(uxBasePriority) =? c.(uxPriority) then set_uxPriority p c else c).

Lemma set_priority_move t c c' p k : kcore k → tcb t k = Some c →
  priority_ok c'.(uxPriority) → priority_ok c'.(uxBasePriority) →
  let k2 := set_event_priority t p (set_tcbs (<[t := c']> k.(tcbs)) k) in
  ∃ k', (if contained (pxReadyTasksLists c.(uxPriority)) (xStateListItem t) k2 then
           k ← k_remove (xStateListItem t) k2; prvAddTaskToReadyList t k
         else Some k2) = Some k' ∧ repriorised t c c' k k'.
Proof.
  intros Hc Ec Hp Hb k2. assert (Hw := kc_wf _ Hc).
  set (T := <[t := c']> k.(tcbs)) in *.
  assert (HE : ∃ s, k2 = set_lists s (set_tcbs T k) ∧ s.(container) = k.(lists).(container)
    ∧ ∀ u, s.(value) (xStateListItem u) = k.(lists).(value) (xStateListItem u)).
  { unfold k2, set_event_priority. destruct (event_value_free _ _).
    - eexists. split; [reflexivity|]. split; [done|]. intros u. cbn. by rewrite fn_lookup_insert_ne.
    - exists k.(lists). split; [by destruct k|done]. }
  destruct HE as (s & E2 & Cs & Vs).
  replace (contained _ _ k2) with (bool_decide (state t k = Some (pxReadyTasksLists c.(uxPriority)))).
  2: { rewrite contained_spec. unfold state. rewrite E2. cbn. by rewrite Cs. }
  case_bool_decide as D.
  - destruct (remove_state_spec t _ k Hw D) as (kr & Er & Hkr & Rr); [done|].
    destruct (relisted_fields _ _ _ Rr) as (Ft & _).
    unfold k2. rewrite (k_remove_event_priority _ _ _ _ _ (k_remove_tcbs _ T _ _ Er)). cbn [mbind option_bind].
    assert (Hkt : kwf (Some t) (set_tcbs T kr)).
    { unfold kwf, T. cbn. rewrite <- Ft. eapply (wf_tcb _ t c); [exact Hkr|by rewrite Ft|done..|]. right. by left. }
    destruct (event_priority_spec _ t p _ Hkt) as [Hkx (sx & Ex & Cx & Vx)].
    set (kx := set_event_priority t p (set_tcbs T kr)) in *.
    destruct (add_ready_spec t c' kx Hkx) as (k' & -> & Hk' & R').
    { unfold tcb. rewrite Ex. cbn. unfold T. by rewrite lookup_insert_eq. }
    exists k'. split; [done|].
    eapply (repriorise_intro t c c' k _ (Store k.(lists).(elems) k.(lists).(index) kx.(lists).(value) k.(lists).(container)));
      [done|done|reflexivity|done| |done|].
    + intros u. cbn. rewrite Ex. cbn. rewrite Vx. cbn. by rewrite (rl_value _ _ _ Rr).
    + rewrite decide_True by done. destruct R' as [K' C' V']. split.
      * rewrite K' at 1. rewrite Ex. rewrite (rl_kernel _ _ _ Rr). done.
      * intros x. rewrite C', Ex. cbn. rewrite Cx. cbn. assert (C1 := rl_container _ _ _ Rr x).
        unfold insert, fn_insert in *. by case_decide.
      * by rewrite V'.
  - exists k2. split; [done|].
    eapply (repriorise_intro t c c' k k2 s); [done..|by rewrite Cs|done| |].
    + apply event_priority_spec. unfold kwf. cbn. eapply wf_tcb; [exact Hw|exact Ec|done..|].
      right. right. by apply (not_ready t c).
    + rewrite decide_False by done. eapply relisted_ext; [apply relisted_refl|].
      intros x. rewrite E2. cbn. by rewrite Cs.
Qed.

Lemma priority_set_spec h p t c k : kinv k → prvGetTCBFromHandle h k = Some t → tcb t k = Some c → 0 ≤ p →
  ∃ k', vTaskPrioritySet h p k = Some k' ∧ kinv k'
    ∧ tcb t k' = Some (if c.(uxBasePriority) =? clamp p then c else new_priorities (clamp p) c).
Proof.
  intros Hk Hh Ec Hp. unfold vTaskPrioritySet. fold (clamp p). rewrite Hh. cbn [mbind option_bind].
  rewrite Ec. cbn [mbind option_bind].
  destruct (Z.eqb_spec c.(uxBasePriority) (clamp p)) as [E|E]; [by exists k|].
  destruct Hk as [Hc Hpr]. destruct (kwf_current _ _ (kc_wf _ Hc)) as (u & cu & Eu & Ecu & Ep).
  rewrite Ep. cbn [mbind option_bind]. unfold upd_tcb at 1. rewrite Ec. cbn [mbind option_bind].
  fold (new_priorities (clamp p) c).
  destruct (w_prio _ _ _ _ _ _ _ _ _ _ _ (kc_wf _ Hc) t c Ec) as [Hp1 Hp2].
  assert (Hcl := clamp_ok p Hp).
  assert (Hn1 : priority_ok (new_priorities (clamp p) c).(uxPriority)) by (unfold new_priorities; cbn; destruct (_ =? _); done).
  assert (Hn2 : priority_ok (new_priorities (clamp p) c).(uxBasePriority)) by done.
  destruct (set_priority_move t c _ (clamp p) k Hc Ec Hn1 Hn2) as (k' & -> & HR). cbn [mbind option_bind].
  eexists. split; [reflexivity|]. split.
  - eapply (repriorised_kinv t c); [by split|done|exact HR|].
    rewrite Ep. intros q [= <-] Hy. unfold new_priorities. cbn.
    split; intros Hcur.
    + rewrite bool_decide_eq_true_2 in Hy by done. destruct (Z.ltb_spec (uxBasePriority c) (clamp p)); [|done].
      destruct (Z.eqb_spec (uxBasePriority c) (uxPriority c)); cbn; lia.
    + rewrite bool_decide_eq_false_2 in Hy by done.
      destruct (Z.ltb_spec (uxBasePriority c) (clamp p)); cbn in Hy; zbool; cbn; try done; lia.
  - assert (Ht' : ∀ b : bool, tcb t (if b then portYIELD_WITHIN_API k' else k') = tcb t k') by (by intros []).
    rewrite Ht'. unfold tcb. by rewrite (rp_tcbs _ _ _ _ _ HR), lookup_insert_eq.
Qed.

(** ** Mutexes *)

Lemma inherit_spec t c k : kinv k → tcb t k = Some c →
  ∃ k' p, vTaskPriorityInherit (Some t) k = Some k' ∧ kinv k' ∧ current_priority k = Some p
    ∧ repriorised t c (set_uxPriority (Z.max c.(uxPriority) p) c) k k'.
Proof.
  intros [Hc Hpr] Ec. destruct (kwf_current _ _ (kc_wf _ Hc)) as (u & cu & Eu & Ecu & Ep).
  assert (Hw := kc_wf _ Hc). destruct (w_prio _ _ _ _ _ _ _ _ _ _ _ Hw t c Ec) as [Hp1 Hp2].
  destruct (w_prio _ _ _ _ _ _ _ _ _ _ _ Hw u cu Ecu) as [Hq1 _].
  unfold vTaskPriorityInherit. rewrite Ec. cbn [mbind option_bind]. rewrite Ep. cbn [mbind option_bind].
  destruct (Z.ltb_spec c.(uxPriority) cu.(uxPriority)) as [L|L].
  2: { exists k, cu.(uxPriority). rewrite Z.max_l by lia. split_and!; [done|by split|done|].
       replace (set_uxPriority (uxPriority c) c) with c by (by destruct c).
       split; try done; [by rewrite insert_id|by case_decide]. }
  set (c' := set_uxPriority cu.(uxPriority) c).
  destruct (event_priority_spec None t cu.(uxPriority) k Hw) as [Hk1 (s & E1 & Cs & Vs)].
  set (k1 := set_event_priority t cu.(uxPriority) k) in *.
  assert (Ec1 : tcb t k1 = Some c) by (unfold tcb; rewrite E1; exact Ec).
  replace (contained _ _ k1) with (bool_decide (state t k = Some (pxReadyTasksLists c.(uxPriority)))).
  2: { rewrite contained_spec. unfold state. rewrite E1. cbn. by rewrite Cs. }
  assert (HR : ∃ k', (if bool_decide (state t k = Some (pxReadyTasksLists c.(uxPriority))) then
      k ← k_remove (xStateListItem t) k1; k ← upd_tcb t (set_uxPriority cu.(uxPriority)) k; prvAddTaskToReadyList t k
      else upd_tcb t (set_uxPriority cu.(uxPriority)) k1) = Some k' ∧ repriorised t c c' k k').
  { case_bool_decide as D.
    - destruct (remove_state_spec t (pxReadyTasksLists c.(uxPriority)) k1 Hk1) as (kr & -> & Hkr & Rr);
        [unfold state; rewrite E1; cbn; by rewrite Cs|done|]. cbn [mbind option_bind].
      destruct (relisted_fields _ _ _ Rr) as (Ft & _).
      unfold upd_tcb. unfold tcb at 1. rewrite Ft. unfold tcb in Ec1. rewrite Ec1. cbn [mbind option_bind]. fold c'.
      destruct (reready_spec t c c' kr (set_tcbs (<[t := c']> (tcbs k1)) kr) Hkr) as (k' & -> & Hk' & R');
        [unfold tcb; by rewrite Ft|done|done|by rewrite Ft|].
      exists k'. split; [done|].
      eapply (repriorise_intro t c c' k _ (Store k.(lists).(elems) k.(lists).(index) k1.(lists).(value) k.(lists).(container)));
        [done|done|reflexivity|done| |done|].
      + intros v. cbn. rewrite E1. cbn. apply Vs.
      + rewrite decide_True by done. destruct R' as [K' C' V']. split.
        * rewrite K' at 1. rewrite (rl_kernel _ _ _ Rr), E1. done.
        * intros x. rewrite C'. cbn. assert (C1 := rl_container _ _ _ Rr x). rewrite E1 in C1. cbn in C1. rewrite Cs in C1.
          unfold insert, fn_insert in *. by case_decide.
        * rewrite V'. cbn. by rewrite (rl_value _ _ _ Rr).
    - unfold upd_tcb. rewrite Ec1. cbn [mbind option_bind]. fold c'. eexists. split; [reflexivity|].
      eapply (repriorise_intro t c c' k _ s); [done|done|reflexivity|by rewrite Cs|done| |].
      + unfold kwf. cbn. eapply wf_tcb; [exact Hk1|exact Ec1|done..|]. right. right.
        intros p. unfold state in D. rewrite E1. cbn. rewrite Cs. by apply (not_ready t c).
      + rewrite decide_False by done. rewrite E1. eapply relisted_ext; [apply relisted_refl|].
        intros x. cbn. by rewrite Cs. }
  destruct HR as (k' & -> & HR). exists k', cu.(uxPriority). rewrite Z.max_r by lia. split_and!; try done.
  eapply (repriorised_kinv t c c' k k' false); [by split|done|exact HR|].
  rewrite Ep. intros q [= <-] _. cbn. split; [|lia]. intros Hcur. lia.
Qed.

(** The TCB of a task that gave back a mutex. *)
Definition disinherited (c : TCB) : TCB :=
  let c1 := set_uxMutexesHeld (u32 (c.(uxMutexesHeld) - 1)) c in
  if negb (c.(uxPriority) =? c.(uxBasePriority)) && (c1.(uxMutexesHeld) =? 0)
  then set_uxPriority c.(uxBasePriority) c1 else c1.

Lemma disinherit_spec t c k : kinv k → tcb t k = Some c → k.(pxCurrentTCB) = Some t → runnable k →
  ∃ b k', xTaskPriorityDisinherit (Some t) k = Some (b, k')
    ∧ kinv (if b : bool then portYIELD_WITHIN_API k' else k')
    ∧ repriorised t c (disinherited c) k k'.
Proof.
  intros [Hc Hpr] Ec Hcur Hrun. assert (Hw := kc_wf _ Hc).
  destruct (w_prio _ _ _ _ _ _ _ _ _ _ _ Hw t c Ec) as [Hp1 Hp2].
  destruct Hrun as (t' & c0 & H1 & H2 & H3). assert (t' = t) as -> by congruence.
  assert (c0 = c) as -> by congruence. clear H1 H2.
  unfold xTaskPriorityDisinherit. rewrite (upd_tcb_some t c) by done. cbn [mbind option_bind].
  unfold disinherited. set (c1 := set_uxMutexesHeld _ c).
  set (k1 := set_tcbs (<[t := c1]> k.(tcbs)) k).
  assert (Ec1 : tcb t k1 = Some c1) by (unfold tcb; cbn; by rewrite lookup_insert_eq).
  rewrite Ec1. cbn [mbind option_bind].
  assert (Hk1 : kwf None k1) by (unfold kwf; cbn; eapply wf_tcb; [exact Hw|exact Ec|done..|by left]).
  change (uxPriority c1) with (uxPriority c). change (uxBasePriority c1) with (uxBasePriority c).
  destruct (negb (uxPriority c =? uxBasePriority c) && (uxMutexesHeld c1 =? 0)) eqn:E.
  - destruct (remove_state_spec t _ k1 Hk1 H3) as (kr & -> & Hkr & Rr); [done|]. cbn [mbind option_bind].
    destruct (relisted_fields _ _ _ Rr) as (Ft & _).
    rewrite (upd_tcb_some t c1) by (unfold tcb in *; by rewrite Ft). cbn [mbind option_bind].
    set (c2 := set_uxPriority (uxBasePriority c) c1).
    set (k2 := k_set_value _ _ _).
    assert (Hk2 : kwf (Some t) k2).
    { unfold kwf, k2. cbn. apply wf_set_value; [|done].
      eapply (wf_tcb _ t c1); [exact Hkr|by rewrite Ft|done..|]. right. by left. }
    destruct (add_ready_spec t c2 k2 Hk2) as (k' & -> & Hk' & R').
    { unfold tcb, k2. cbn. by rewrite lookup_insert_eq. }
    cbn [mbind option_bind]. exists true, k'. split; [done|].
    assert (HR : repriorised t c c2 k k').
    { eapply (repriorise_intro t c c2 k _ (Store k.(lists).(elems) k.(lists).(index) k2.(lists).(value) k.(lists).(container)));
        [done|done|reflexivity|done| |done|].
      - intros v. cbn. rewrite fn_lookup_insert_ne by done. by rewrite (rl_value _ _ _ Rr).
      - rewrite decide_True by done. destruct R' as [K' C' V']. split.
        + rewrite K' at 1. unfold k2. rewrite (rl_kernel _ _ _ Rr). unfold k1. cbn.
          unfold set_tcbs. cbn. by rewrite insert_insert_eq.
        + intros x. rewrite C'. cbn. assert (C1 := rl_container _ _ _ Rr x). cbn in C1.
          unfold insert, fn_insert in *. by case_decide.
        + by rewrite V'. }
    split; [|done]. apply (repriorised_kinv t c c2 k k' true); [by split|done|done|]. by intros ? _ [=].
  - exists false, k1. split; [done|].
    assert (HR : repriorised t c c1 k k1).
    { eapply (repriorise_intro t c c1 k k1 k.(lists)); [done|done|by destruct k|done|done|done|].
      rewrite decide_True by done. eapply relisted_ext; [apply relisted_refl|]. intros x. cbn.
      unfold insert, fn_insert. case_decide; [subst x; exact H3|done]. }
    split; [|done]. apply (repriorised_kinv t c c1 k k1 false); [by split|done|done|].
    intros p _ _. cbn. lia.
Qed.

(** A write to a TCB that keeps the priorities. *)
Lemma rewrite_tcb_spec t c c' k : kinv k → tcb t k = Some c → c'.(uxPriority) = c.(uxPriority) →
  c'.(uxBasePriority) = c.(uxBasePriority) → let k' := set_tcbs (<[t := c']> k.(tcbs)) k in
  kinv k' ∧ repriorised t c c' k k'.
Proof.
  intros [Hc Hpr] Ec Hp Hb k'. assert (Hw := kc_wf _ Hc). destruct (w_prio _ _ _ _ _ _ _ _ _ _ _ Hw t c Ec) as [Hp1 Hp2].
  assert (HR : repriorised t c c' k k').
  { eapply (repriorise_intro t c c' k k' k.(lists)); [done|done|by destruct k|done|done| |].
    - unfold kwf; cbn. eapply wf_tcb; [exact Hw|exact Ec|by rewrite Hp|by rewrite Hb|by left].
    - case_decide as D; eapply relisted_ext; try apply relisted_refl; [|done].
      intros x; cbn; unfold insert, fn_insert; case_decide; [subst x; by rewrite Hp|done]. }
  split; [|done]. apply (repriorised_kinv t c c' k k' false); [by split|done|done|]. intros p _ _. lia.
Qed.

Lemma held_count_spec k : kinv k →
  ∃ t c k', k.(pxCurrentTCB) = Some t ∧ tcb t k = Some c
    ∧ pvTaskIncrementMutexHeldCount k = Some (Some t, k') ∧ kinv k'
    ∧ repriorised t c (set_uxMutexesHeld (u32 (c.(uxMutexesHeld) + 1)) c) k k'.
Proof.
  intros Hk. destruct (kwf_current _ _ (kc_wf _ (proj1 Hk))) as (t & c & Et & Ec & Ep).
  destruct (rewrite_tcb_spec t c (set_uxMutexesHeld (u32 (uxMutexesHeld c + 1)) c) k Hk Ec) as [Hk' R]; [done..|].
  unfold pvTaskIncrementMutexHeldCount. rewrite Et, (upd_tcb_some t c) by done. cbn [mbind option_bind]. by eexists t, c, _.
Qed.

(** The first task of an event list. *)
Lemma head_event a k : kwf None k →
  if is_empty (EventList a) k then ∀ t, event t k ≠ Some (EventList a)
  else ∃ t, head_owner (EventList a) k = Some t ∧ event t k = Some (EventList a).
Proof.
  intros Hw. unfold is_empty, head_owner, seq_head, seq_length.
  assert (Hin := ok_in _ (w_store _ _ _ _ _ _ _ _ _ _ _ Hw)).
  destruct (elems (lists k) (EventList a)) as [|x xs] eqn:E.
  - cbn. intros t Ht. apply Hin in Ht. rewrite E in Ht. by apply not_elem_of_nil in Ht.
  - replace (zlength (x :: xs) =? 0) with false by (symmetry; apply Z.eqb_neq; cbn [length]; lia). cbn [head fmap option_fmap option_map].
    assert (Hx : container (lists k) x = Some (EventList a)) by (apply Hin; rewrite E; apply elem_of_cons; by left).
    destruct x as [t|t]; [|by exists t]. exfalso.
    destruct (w_live _ _ _ _ _ _ _ _ _ _ _ Hw _ _ Hx) as [c Hc]. cbn [owner] in Hc.
    destruct (w_state _ _ _ _ _ _ _ _ _ _ _ Hw t c Hc) as (l & Hl & Hs); [done|].
    rewrite Hx in Hl. injection Hl as <-. done.
Qed.

(** ** Waking tasks from an unordered list *)

(** The tasks [P] are ready and out of their event lists, with the value [v] in
    their event items; nothing else has changed for the tasks. *)
Record readied (P : Z → Prop) (v : Z) (k k' : kernel) : Prop := {
  wk_tcbs : k'.(tcbs) = k.(tcbs);
  wk_current : k'.(pxCurrentTCB) = k.(pxCurrentTCB);
  wk_suspended : k'.(uxSchedulerSuspended) = k.(uxSchedulerSuspended);
  wk_pended : k'.(uxPendedTicks) = k.(uxPendedTicks);
  wk_idle : k'.(xIdleTaskHandle) = k.(xIdleTaskHandle);
  wk_in t : P t → event t k' = None ∧ (∃ p, state t k' = Some (pxReadyTasksLists p)) ∧ k_value (xEventListItem t) k' = v;
  wk_out t : ¬ P t → event t k' = event t k ∧ state t k' = state t k
    ∧ k_value (xEventListItem t) k' = k_value (xEventListItem t) k;
}.

Lemma woken_none (P : Z → Prop) v k : (∀ t, ¬ P t) → readied P v k k.
Proof. intros H. split; try done. intros t Ht. by destruct (H t). Qed.

Lemma woken_trans (P Q : Z → Prop) v k k1 k2 : (∀ t, P t → ¬ Q t) → (∀ t, Q t ∨ ¬ Q t) →
  readied P v k k1 → readied Q v k1 k2 → readied (λ t, P t ∨ Q t) v k k2.
Proof.
  intros D Dec [] []. split; try congruence.
  - intros t Ht. destruct (Dec t) as [HQ|HQ]; [by apply wk_in1|]. destruct Ht as [HP|HQ']; [|done].
    destruct (wk_out1 t HQ) as (-> & -> & ->). by apply wk_in0.
  - intros t Ht. destruct (wk_out1 t ltac:(tauto)) as (-> & -> & ->). apply wk_out0. tauto.
Qed.

Lemma woken_ext (P Q : Z → Prop) v k k' : (∀ t, P t ↔ Q t) → readied P v k k' → readied Q v k k'.
Proof. intros E []. split; try done; intros t Ht; rewrite <- E in Ht; auto. Qed.

(** The value of an event item is no part of the invariant. *)
Lemma event_value_kinv t v k : kinv k → kinv (k_set_value (xEventListItem t) v k).
Proof.
  intros [[Hw Hs Hi Hr Hsu Hpe Hq] Hp]. split.
  - split; try done. unfold kwf; cbn; by apply wf_set_value.
  - destruct Hp as [H1 H2]. by split.
Qed.

Lemma k_remove_elems x l k k' : container k.(lists) x = Some l → k_remove x k = Some k' →
  k'.(lists).(elems) l = take_out x (k.(lists).(elems) l) ∧ ∀ l', l' ≠ l → k'.(lists).(elems) l' = k.(lists).(elems) l'.
Proof.
  intros E. unfold k_remove, seq_remove. rewrite E. cbn. intros [= <-]. cbn. split; [by rewrite fn_lookup_insert|].
  intros l' Hl. by rewrite fn_lookup_insert_ne.
Qed.

(** Making a task ready leaves the event lists alone. *)
Lemma make_ready_elems t c k k' a : kcore k → tcb t k = Some c → make_ready t k = Some k' →
  k'.(lists).(elems) (EventList a) = k.(lists).(elems) (EventList a).
Proof.
  intros Hk Hc. unfold make_ready. destruct (state_some t c k (kc_wf _ Hk) Hc) as [l El].
  destruct (k_remove (xStateListItem t) k) as [k1|] eqn:E1; [|done]. cbn [mbind option_bind].
  destruct (k_remove_elems _ l k k1 El E1) as [_ H1].
  assert (Hl : EventList a ≠ l).
  { intros <-. destruct (w_state _ _ _ _ _ _ _ _ _ _ _ (kc_wf _ Hk) t c Hc) as (l' & El' & Hs); [done|].
    unfold state in El. rewrite El in El'. by injection El' as <-. }
  unfold prvAddTaskToReadyList. destruct (tcb t k1) as [c1|]; [|done]. cbn [mbind option_bind].
  unfold k_insert_end, seq_insert_end, taskRECORD_READY_PRIORITY. rewrite <- (H1 _ Hl).
  destruct (uxTopReadyPriority k1 <? uxPriority c1); cbn; (destruct (container (lists k1) _); [done|]); cbn; by intros [= <-].
Qed.

Lemma remove_unordered_spec t v a k : kinv k → event t k = Some (EventList a) →
  ∃ b k', xTaskRemoveFromUnorderedEventList t v k = Some (b, k') ∧ kinv k'
    ∧ readied (λ u, u = t) (Z.lor v taskEVENT_LIST_ITEM_VALUE_IN_USE) k k'
    ∧ k'.(lists).(elems) (EventList a) = take_out (xEventListItem t) (k.(lists).(elems) (EventList a)).
Proof.
  intros Hk He. unfold xTaskRemoveFromUnorderedEventList. set (v' := Z.lor v _). assert (Hk0 := event_value_kinv t v' k Hk).
  set (k0 := k_set_value _ v' k) in *. destruct Hk0 as [Hc0 Hp0]. assert (He0 : event t k0 = Some (EventList a)) by done.
  destruct (w_live _ _ _ _ _ _ _ _ _ _ _ (kc_wf _ Hc0) _ _ He0) as [c Ec]. cbn [owner] in Ec.
  destruct (w_state _ _ _ _ _ _ _ _ _ _ _ (kc_wf _ Hc0) t c Ec) as (l & El & _); [done|].
  assert (Hne : l ≠ xTasksWaitingTermination).
  { intros ->. apply (w_dead _ _ _ _ _ _ _ _ _ _ _ (kc_wf _ Hc0)) in El. unfold event in He0. congruence. }
  destruct (remove_event_spec None t _ k0 (kc_wf _ Hc0) He0) as (k1 & E1 & Hk1 & R1). rewrite E1. cbn [mbind option_bind].
  destruct (k_remove_elems _ _ k0 k1 He0 E1) as [L1 _]. change (lists k0).(elems) with (lists k).(elems) in L1.
  destruct (relisted_fields _ _ _ R1) as (F1&F2&F3&F4&F5&F6&F7&F8&F9&F10&F11&_).
  assert (Hst1 : ∀ u, state u k1 = state u k0) by (intros u; unfold state; by rewrite (rl_container _ _ _ R1), fn_lookup_insert_ne).
  assert (Hc1 : kcore k1).
  { eapply (kcore_relisted _ _ _ Hc0 Hk1 R1).
    - intros u p _ Hu. rewrite fn_lookup_insert_ne by done. eauto.
    - intros u. by rewrite fn_lookup_insert_ne.
    - intros _ u. unfold insert, fn_insert. by case_decide. }
  assert (Hp1 : preempts k1) by (by eapply preempts_same). rewrite make_ready_unfold.
  assert (Ec1 : tcb t k1 = Some c) by (unfold tcb; by rewrite F1).
  destruct (ready_core t c l k1 Hc1 Ec1) as (k2 & E2 & Hc2 & R2 & Hr2 & Hh2); [by rewrite Hst1|done|].
  rewrite E2. cbn [mbind option_bind]. assert (L2 := make_ready_elems t c k1 k2 a Hc1 Ec1 E2). rewrite L1 in L2.
  destruct (relisted_fields _ _ _ R2) as (G1&G2&_&_&_&_&G7&G8&G9&G10&G11&_).
  destruct (note_woken_spec t c k2 (kc_wf _ Hc2)) as (p & Ep & ->); [unfold tcb; by rewrite G1|].
  assert (Ep1 : current_priority k1 = Some p) by (rewrite <- Ep; unfold current_priority, tcb; by rewrite G1, G2).
  assert (W : readied (λ u, u = t) v' k k2).
  { split; try congruence.
    - by rewrite G1, F1.
    - by rewrite G2, F2.
    - by rewrite G7, F7.
    - by rewrite G8, F8.
    - by rewrite G11, F11.
    - intros u ->. unfold event, state, k_value. rewrite (rl_container _ _ _ R2), (rl_container _ _ _ R2), (rl_value _ _ _ R2), (rl_value _ _ _ R1).
      rewrite fn_lookup_insert_ne, fn_lookup_insert by done. rewrite (rl_container _ _ _ R1), fn_lookup_insert.
      split_and!; [done|by eexists|]. cbn. by rewrite fn_lookup_insert.
    - intros u Hu. unfold event, state, k_value. rewrite (rl_container _ _ _ R2), (rl_container _ _ _ R2), (rl_value _ _ _ R2), (rl_value _ _ _ R1).
      rewrite !fn_lookup_insert_ne, !(rl_container _ _ _ R1) by congruence. rewrite !fn_lookup_insert_ne by congruence.
      split_and!; [done|done|]. cbn. by rewrite fn_lookup_insert_ne by congruence. }
  destruct (Z.ltb_spec p (uxPriority c)) as [L|L]; eexists _, _; (split; [reflexivity|]).
  - split_and!; [|by destruct W|done]. split; [by destruct Hc2|]. split; [by intros _ [=]|]. intros H.
    apply Hr2, Hp1. cbn in H. by rewrite <- G10, <- G7.
  - split_and!; [|done|done]. apply (preempts_ready k1 k2 false); try done. intros _ ?. apply Hh2; [|done].
    rewrite Ep1. intros ? [= <-]. lia.
Qed.

(** ** Running tasks *)

Lemma kinv_runnable k : kinv k → k.(pending_soft_sv) = false → runnable k.
Proof. intros [_ Hp] Hs. apply (pr_runnable _ Hp). by left. Qed.

Lemma kinv_yield_unless ay k : kinv k → (k.(uxSchedulerSuspended) ≠ 0 → runnable k) → kinv (yield_unless ay k).
Proof. intros Hk Hr. destruct ay; [done|]. apply kinv_yield; [apply Hk|done]. Qed.

(** vTaskDelayUntil: the task waits for its wake time if that is in the future. *)
Lemma delay_until_spec prev inc t c k : kinv k → k.(pending_soft_sv) = false → k.(uxSchedulerSuspended) = 0 →
  k.(pxCurrentTCB) = Some t → tcb t k = Some c → k.(xIdleTaskHandle) ≠ Some t →
  let wake := u32 (prev + inc) in
  ∃ k', vTaskDelayUntil prev inc k = Some (wake, k') ∧ kinv k'
    ∧ if should_delay k.(xTickCount) prev wake
      then state t k' = Some (wait_list (u32 (wake - k.(xTickCount))) false k)
           ∧ k_value (xStateListItem t) k' = wake
      else state t k' = state t k.
Proof.
  intros Hk Hs Hsu Hcur Hc Hi wake. assert (Hr := kinv_runnable k Hk Hs).
  assert (T := w_tick _ _ _ _ _ _ _ _ _ _ _ (kc_wf _ (proj1 Hk))). unfold portMAX_DELAY in T.
  unfold vTaskDelayUntil. change (xTickCount (vTaskSuspendAll k)) with (xTickCount k). fold wake.
  destruct (should_delay (xTickCount k) prev wake) eqn:D.
  - apply should_delay_later in D.
    destruct (block_and_yield (u32 (wake - xTickCount k)) t c k Hk Hs Hsu Hcur Hc) as
      (k1 & ay & k2 & E1 & E2 & Hk' & _ & _ & _ & C & V & _); [unfold wake, portMAX_DELAY in *; zsolve|done|].
    rewrite E1. cbn [mbind option_bind]. rewrite E2. cbn [mbind option_bind].
    eexists. split; [reflexivity|]. split; [done|].
    replace wake with (wake_time (u32 (wake - xTickCount k)) k) at 2 by (unfold wake_time, wake in *; zsolve).
    split; [|by destruct ay].
    assert (S : state t k2 = Some (wait_list (u32 (wake - xTickCount k)) false k))
      by (unfold state; by rewrite C, fn_lookup_insert). by destruct ay.
  - cbn [mbind option_bind]. destruct (suspend_resume k Hk Hsu Hr) as (ay & k' & -> & Hk' & K & ST & S).
    cbn [mbind option_bind]. eexists. split; [reflexivity|]. split.
    + by apply kinv_yield_unless.
    + transitivity (state t k'); [by destruct ay|]. unfold state. apply (st_container _ _ ST).
Qed.
End urgency.
