(* ===== verification/FrNotify.v ===== *)
(** FrNotify: task notifications, and the free stack of a task (FreeRTOS/Source/tasks.c).

    A wait for a notification has two critical sections; between them the task
    is blocked or interrupted and the rest of the system runs.  Each section is a
    definition, and the function is their composition with an environment. *)

From stdpp Require Import functions sorting.
From S2P Require Import Prelude FrList FrSeq FrKernel FrTasks FrTasksInv FrTasksMove FrTasksTick FrTasksSched FrTasksApi FrTasksLife FrTasksPrio.

(** ** The functions *)

Inductive eNotifyAction := eNoAction | eSetBits | eIncrement | eSetValueWithOverwrite | eSetValueWithoutOverwrite.

(** The switch over the action: xReturn and the new value. *)
Definition notify_action (eAction : eNotifyAction) (ulValue : Z) (c : TCB) : Z * Z :=
  match eAction with
  | eSetBits => (pdPASS, Z.lor c.(ulNotifiedValue) ulValue)
  | eIncrement => (pdPASS, u32 (c.(ulNotifiedValue) + 1))
  | eSetValueWithOverwrite => (pdPASS, ulValue)
  | eSetValueWithoutOverwrite =>
      if negb (c.(ucNotifyState) =? taskNOTIFICATION_RECEIVED) then (pdPASS, ulValue)
      else (pdFAIL, c.(ulNotifiedValue))
  | eNoAction => (pdPASS, c.(ulNotifiedValue))
  end.

Definition notified (v : Z) (c : TCB) : TCB := set_ulNotifiedValue v (set_ucNotifyState taskNOTIFICATION_RECEIVED c).

(** Returns xReturn and *pulPreviousNotificationValue. *)
Definition xTaskGenericNotify (xTaskToNotify ulValue : Z) (eAction : eNotifyAction) (k : kernel)
    : option (Z * Z * kernel) :=
  c ← tcb xTaskToNotify k;
  let '(xReturn, v) := notify_action eAction ulValue c in
  k ← upd_tcb xTaskToNotify (notified v) k;
  if c.(ucNotifyState) =? taskWAITING_NOTIFICATION then
    k ← k_remove (xStateListItem xTaskToNotify) k;
    k ← prvAddTaskToReadyList xTaskToNotify k;
    p ← current_priority k;
    Some (xReturn, c.(ulNotifiedValue), if p <? c.(uxPriority) then portYIELD_WITHIN_API k else k)
  else Some (xReturn, c.(ulNotifiedValue), k).

(** The end of the functions for interrupts.  [has_flag]: the caller passes
    pxHigherPriorityTaskWoken; the result says whether it was set. *)
Definition notify_wake_from_isr (t : Z) (has_flag : bool) (k : kernel) : option (bool * kernel) :=
  k ← (if k.(uxSchedulerSuspended) =? 0 then
         k ← k_remove (xStateListItem t) k; prvAddTaskToReadyList t k
       else k_insert_end xPendingReadyList (xEventListItem t) k);
  c ← tcb t k; p ← current_priority k;
  Some (if p <? c.(uxPriority) then
          if has_flag then (true, k) else (false, set_xYieldPending true k)
        else (false, k)).

Definition xTaskGenericNotifyFromISR (xTaskToNotify ulValue : Z) (eAction : eNotifyAction) (has_flag : bool) (k : kernel)
    : option (Z * Z * bool * kernel) :=
  c ← tcb xTaskToNotify k;
  let '(xReturn, v) := notify_action eAction ulValue c in
  k ← upd_tcb xTaskToNotify (notified v) k;
  '(woken, k) ← (if c.(ucNotifyState) =? taskWAITING_NOTIFICATION
                 then notify_wake_from_isr xTaskToNotify has_flag k else Some (false, k));
  Some (xReturn, c.(ulNotifiedValue), woken, k).

Definition vTaskNotifyGiveFromISR (xTaskToNotify : Z) (has_flag : bool) (k : kernel) : option (bool * kernel) :=
  c ← tcb xTaskToNotify k;
  k ← upd_tcb xTaskToNotify (notified (u32 (c.(ulNotifiedValue) + 1))) k;
  if c.(ucNotifyState) =? taskWAITING_NOTIFICATION
  then notify_wake_from_isr xTaskToNotify has_flag k else Some (false, k).

(** The first and the second critical section of ulTaskNotifyTake. *)
Definition wait_section (t xTicksToWait : Z) (f : TCB → TCB) (k : kernel) : option kernel :=
  k ← upd_tcb t (λ c, set_ucNotifyState taskWAITING_NOTIFICATION (f c)) k;
  if 0 <? xTicksToWait then
    k ← prvAddCurrentTaskToDelayedList xTicksToWait true k; Some (portYIELD_WITHIN_API k)
  else Some k.

Definition take_enter (xTicksToWait : Z) (k : kernel) : option kernel :=
  t ← k.(pxCurrentTCB); c ← tcb t k;
  if c.(ulNotifiedValue) =? 0 then wait_section t xTicksToWait id k else Some k.

Definition take_leave (xClearCountOnExit : bool) (k : kernel) : option (Z * kernel) :=
  t ← k.(pxCurrentTCB); c ← tcb t k;
  let ulReturn := c.(ulNotifiedValue) in
  let v := if negb (ulReturn =? 0) then if xClearCountOnExit then 0 else u32 (ulReturn - 1) else ulReturn in
  k ← upd_tcb t (λ c, set_ucNotifyState taskNOT_WAITING_NOTIFICATION (set_ulNotifiedValue v c)) k;
  Some (ulReturn, k).

Definition ulTaskNotifyTake (env : kernel → option kernel) (xClearCountOnExit : bool) (xTicksToWait : Z) (k : kernel)
    : option (Z * kernel) :=
  k ← take_enter xTicksToWait k; k ← env k; take_leave xClearCountOnExit k.

(** The critical sections of xTaskNotifyWait. *)
Definition wait_enter (ulBitsToClearOnEntry xTicksToWait : Z) (k : kernel) : option kernel :=
  t ← k.(pxCurrentTCB); c ← tcb t k;
  if negb (c.(ucNotifyState) =? taskNOTIFICATION_RECEIVED)
  then wait_section t xTicksToWait (λ c, set_ulNotifiedValue (andnot c.(ulNotifiedValue) ulBitsToClearOnEntry) c) k
  else Some k.

(** Returns xReturn and *pulNotificationValue. *)
Definition wait_leave (ulBitsToClearOnExit : Z) (k : kernel) : option (Z * Z * kernel) :=
  t ← k.(pxCurrentTCB); c ← tcb t k;
  let received := negb (c.(ucNotifyState) =? taskWAITING_NOTIFICATION) in
  let v := if received then andnot c.(ulNotifiedValue) ulBitsToClearOnExit else c.(ulNotifiedValue) in
  k ← upd_tcb t (λ c, set_ucNotifyState taskNOT_WAITING_NOTIFICATION (set_ulNotifiedValue v c)) k;
  Some (if received then pdTRUE else pdFALSE, c.(ulNotifiedValue), k).

Definition xTaskNotifyWait (env : kernel → option kernel) (ulBitsToClearOnEntry ulBitsToClearOnExit xTicksToWait : Z)
    (k : kernel) : option (Z * Z * kernel) :=
  k ← wait_enter ulBitsToClearOnEntry xTicksToWait k; k ← env k; wait_leave ulBitsToClearOnExit k.

Definition xTaskNotifyStateClear (xTask : option Z) (k : kernel) : option (Z * kernel) :=
  t ← prvGetTCBFromHandle xTask k; c ← tcb t k;
  if c.(ucNotifyState) =? taskNOTIFICATION_RECEIVED then
    k ← upd_tcb t (set_ucNotifyState taskNOT_WAITING_NOTIFICATION) k; Some (pdPASS, k)
  else Some (pdFAIL, k).

(** prvTaskCheckFreeStackSpace on the bytes from the end of the stack on; the
    stack grows down.  [None]: the loop leaves the memory that is given. *)
Fixpoint free_stack_bytes (bytes : list Z) (ulCount : Z) : option Z :=
  match bytes with
  | [] => None
  | b :: bytes => if b =? 0xa5 then free_stack_bytes bytes (u32 (ulCount + 1)) else Some ulCount
  end.

Definition prvTaskCheckFreeStackSpace (bytes : list Z) : option Z :=
  n ← free_stack_bytes bytes 0; Some (u16 (n / 4)).

(** [memory a]: the bytes from the address [a] on. *)
Definition uxTaskGetStackHighWaterMark (memory : Z → list Z) (xTask : option Z) (k : kernel) : option Z :=
  t ← prvGetTCBFromHandle xTask k; c ← tcb t k; prvTaskCheckFreeStackSpace (memory c.(pxStack)).

Section urgency.
Context {U : Urgency}.

(** ** Notifying keeps the invariant *)

(** What a notification leaves: the TCB, and for a waiting task its place. *)
Record noted (t : Z) (c' : TCB) (k k' : kernel) : Prop := {
  nt_tcbs : k'.(tcbs) = <[t := c']> k.(tcbs);
  nt_current : k'.(pxCurrentTCB) = k.(pxCurrentTCB);
  nt_suspended : k'.(uxSchedulerSuspended) = k.(uxSchedulerSuspended);
  nt_state u : u ≠ t → state u k' = state u k;
  nt_event u : u ≠ t → event u k' = event u k;
}.

(** A task that can be notified: it is live, and if it waits for a notification
    it is in no event list. *)
Definition notifiable (t : Z) (k : kernel) : Prop :=
  ∃ c l, tcb t k = Some c ∧ state t k = Some l ∧ l ≠ xTasksWaitingTermination
    ∧ (c.(ucNotifyState) = taskWAITING_NOTIFICATION → event t k = None).

Lemma upd_notified t c v k : kinv k → tcb t k = Some c →
  let k1 := set_tcbs (<[t := notified v c]> k.(tcbs)) k in
  upd_tcb t (notified v) k = Some k1 ∧ kinv k1 ∧ noted t (notified v c) k k1.
Proof.
  intros Hk Hc k1. destruct (rewrite_tcb_spec t c (notified v c) k Hk Hc) as [Hk1 R]; [done..|].
  split; [by rewrite (upd_tcb_some t c)|]. split; [done|]. by split.
Qed.

(** The target of a task's own notification becomes ready. *)
Lemma wake_noted t c' k k1 : kinv k1 → noted t c' k k1 → state t k1 ≠ None → state t k1 ≠ Some xTasksWaitingTermination →
  ∃ k2 p, make_ready t k1 = Some k2 ∧ current_priority k2 = Some p ∧ noted t c' k k2
    ∧ state t k2 = Some (pxReadyTasksLists c'.(uxPriority)) ∧ event t k2 = event t k1
    ∧ (p < c'.(uxPriority) → kinv (PendSV k2) ∧ kinv (set_xYieldPending true k2))
    ∧ (c'.(uxPriority) ≤ p → kinv k2).
Proof.
  intros [Hc Hp] N Hs1 Hs2. destruct (state t k1) as [l|] eqn:El; [|done].
  assert (Ec : tcb t k1 = Some c') by (unfold tcb; by rewrite (nt_tcbs _ _ _ _ N), lookup_insert_eq).
  destruct (ready_core t c' l k1 Hc Ec El) as (k2 & E & Hc2 & R2 & Hr2 & Hh2); [congruence|].
  destruct (relisted_fields _ _ _ R2) as (G1&G2&_&_&_&_&G7&_&G9&G10&_).
  destruct (kwf_current _ _ (kc_wf _ Hc2)) as (u & cu & _ & _ & Ep).
  assert (Ep1 : current_priority k1 = Some (uxPriority cu)) by (rewrite <- Ep; unfold current_priority, tcb; by rewrite G1, G2).
  exists k2, (uxPriority cu). split_and!; [done|done| | | | |].
  - destruct N as [N1 N2 N3 N4 N5]. split; rewrite ?G1, ?G2, ?G7; try done; intros v Hv;
      unfold state, event in *; rewrite (rl_container _ _ _ R2), fn_lookup_insert_ne by congruence; auto.
  - unfold state. by rewrite (rl_container _ _ _ R2), fn_lookup_insert.
  - unfold event. by rewrite (rl_container _ _ _ R2), fn_lookup_insert_ne.
  - intros L. split.
    + apply kinv_yield; [done|]. intros H. apply Hr2, Hp. right. congruence.
    + split; [by destruct Hc2|]. split; [by intros _ [=]|]. intros H. apply Hr2, Hp. cbn in H. by rewrite <- G10, <- G7.
  - intros L. apply (preempts_ready k1 k2 false); try done. intros _ ?. apply Hh2; [|done]. rewrite Ep1. intros ? [= <-]. lia.
Qed.

Lemma notify_spec t c v a k : kinv k → notifiable t k → tcb t k = Some c →
  let '(r, v') := notify_action a v c in
  ∃ k', xTaskGenericNotify t v a k = Some (r, c.(ulNotifiedValue), k') ∧ kinv k' ∧ noted t (notified v' c) k k'
    ∧ (c.(ucNotifyState) = taskWAITING_NOTIFICATION → state t k' = Some (pxReadyTasksLists c.(uxPriority)))
    ∧ (c.(ucNotifyState) ≠ taskWAITING_NOTIFICATION → state t k' = state t k).
Proof.
  intros Hk (c0 & l & Hc0 & Hl & Hd & He) Hc. assert (c0 = c) as -> by congruence. unfold xTaskGenericNotify.
  rewrite Hc. cbn [mbind option_bind]. destruct (notify_action a v c) as [r v'].
  destruct (upd_notified t c v' k Hk Hc) as (-> & Hk1 & N). cbn [mbind option_bind]. set (k1 := set_tcbs _ k) in *.
  assert (Hs1 : state t k1 = Some l) by done.
  destruct (Z.eqb_spec (ucNotifyState c) taskWAITING_NOTIFICATION) as [E|E]; [|by exists k1].
  rewrite make_ready_unfold.
  destruct (wake_noted t (notified v' c) k k1 Hk1 N) as (k2 & p & -> & Ep & N2 & S2 & _ & HY & HN); [congruence..|].
  cbn [mbind option_bind]. rewrite Ep. cbn [mbind option_bind]. change (uxPriority (notified v' c)) with (uxPriority c) in *.
  destruct (Z.ltb_spec p (uxPriority c)) as [L|L]; eexists; (split; [reflexivity|]).
  - split_and!; [by apply HY| |done|done]. by destruct N2.
  - split_and!; [by apply HN|done..].
Qed.

Lemma notify_wake_isr_spec t c' b k k1 : kinv k1 → noted t c' k k1 → state t k1 ≠ None →
  state t k1 ≠ Some xTasksWaitingTermination → event t k1 = None →
  ∃ w k', notify_wake_from_isr t b k1 = Some (w, k') ∧ kinv (if w : bool then PendSV k' else k') ∧ noted t c' k k'
    ∧ (k.(uxSchedulerSuspended) = 0 → state t k' = Some (pxReadyTasksLists c'.(uxPriority)))
    ∧ (k.(uxSchedulerSuspended) ≠ 0 → event t k' = Some xPendingReadyList ∧ state t k' = state t k1).
Proof.
  intros Hk N Hs1 Hs2 He. unfold notify_wake_from_isr. rewrite (nt_suspended _ _ _ _ N).
  assert (Ec : tcb t k1 = Some c') by (unfold tcb; by rewrite (nt_tcbs _ _ _ _ N), lookup_insert_eq).
  destruct (Z.eqb_spec (uxSchedulerSuspended k) 0) as [E|E].
  - fold (make_ready t k1).
    destruct (wake_noted t c' k k1 Hk N Hs1 Hs2) as (k2 & p & -> & Ep & N2 & S2 & _ & HY & HN). cbn [mbind option_bind].
    unfold tcb. rewrite (nt_tcbs _ _ _ _ N2), lookup_insert_eq, Ep. cbn [mbind option_bind].
    destruct (Z.ltb_spec p (uxPriority c')) as [L|L]; [destruct b|]; eexists _, _; (split; [reflexivity|]); split_and!; try done.
    + by apply HY.
    + by apply HY.
    + by destruct N2.
    + by apply HN.
  - destruct (pend_spec t c' k1 Hk Ec He Hs2) as (k2 & -> & [Hc2 Hp2] & R2); [by rewrite (nt_suspended _ _ _ _ N)|].
    cbn [mbind option_bind]. destruct (relisted_fields _ _ _ R2) as (G1&G2&_&_&_&_&G7&_).
    destruct (kwf_current _ _ (kc_wf _ Hc2)) as (u & cu & _ & _ & Ep).
    assert (N2 : noted t c' k k2).
    { destruct N as [N1 N2 N3 N4 N5]. split; rewrite ?G1, ?G2, ?G7; try done; intros v Hv;
        unfold state, event in *; rewrite (rl_container _ _ _ R2), fn_lookup_insert_ne by congruence; auto. }
    assert (Ev : event t k2 = Some xPendingReadyList ∧ state t k2 = state t k1).
    { unfold event, state. by rewrite !(rl_container _ _ _ R2), fn_lookup_insert, fn_lookup_insert_ne. }
    unfold tcb. rewrite (nt_tcbs _ _ _ _ N2), lookup_insert_eq, Ep. cbn [mbind option_bind].
    destruct (uxPriority cu <? uxPriority c'); [destruct b|]; eexists _, _; (split; [reflexivity|]); split_and!; try done.
    + apply kinv_yield; [done|]. intros H. apply Hp2. by right.
    + split; [by destruct Hc2|]. split; [by intros _ [=]|]. apply Hp2.
    + by destruct N2.
Qed.

Lemma notify_isr_spec t c b k : kinv k → notifiable t k → tcb t k = Some c →
  ∃ w k', vTaskNotifyGiveFromISR t b k = Some (w, k') ∧ kinv (if w : bool then PendSV k' else k')
    ∧ noted t (notified (u32 (c.(ulNotifiedValue) + 1)) c) k k'
    ∧ (c.(ucNotifyState) = taskWAITING_NOTIFICATION → k.(uxSchedulerSuspended) = 0 →
       state t k' = Some (pxReadyTasksLists c.(uxPriority)))
    ∧ (c.(ucNotifyState) ≠ taskWAITING_NOTIFICATION → state t k' = state t k)
    ∧ (c.(ucNotifyState) = taskWAITING_NOTIFICATION → k.(uxSchedulerSuspended) ≠ 0 →
       event t k' = Some xPendingReadyList ∧ state t k' = state t k).
Proof.
  intros Hk (c0 & l & Hc0 & Hl & Hd & He) Hc. assert (c0 = c) as -> by congruence. unfold vTaskNotifyGiveFromISR.
  rewrite Hc. cbn [mbind option_bind]. set (v' := u32 _).
  destruct (upd_notified t c v' k Hk Hc) as (-> & Hk1 & N). cbn [mbind option_bind]. set (k1 := set_tcbs _ k) in *.
  assert (Hs1 : state t k1 = Some l) by done.
  destruct (Z.eqb_spec (ucNotifyState c) taskWAITING_NOTIFICATION) as [E|E]; [|by exists false, k1].
  destruct (notify_wake_isr_spec t (notified v' c) b k k1 Hk1 N) as (w & k' & -> & Hk' & N' & S' & P');
    [congruence..|by apply He|]. exists w, k'. by split_and!.
Qed.

Lemma generic_notify_isr_spec t c v a b k : kinv k → notifiable t k → tcb t k = Some c →
  ∃ r p w k', xTaskGenericNotifyFromISR t v a b k = Some (r, p, w, k') ∧ kinv (if w : bool then PendSV k' else k').
Proof.
  intros Hk (c0 & l & Hc0 & Hl & Hd & He) Hc. assert (c0 = c) as -> by congruence. unfold xTaskGenericNotifyFromISR.
  rewrite Hc. cbn [mbind option_bind]. destruct (notify_action a v c) as [r v'].
  destruct (upd_notified t c v' k Hk Hc) as (-> & Hk1 & N). cbn [mbind option_bind]. set (k1 := set_tcbs _ k) in *.
  assert (Hs1 : state t k1 = Some l) by done.
  destruct (Z.eqb_spec (ucNotifyState c) taskWAITING_NOTIFICATION) as [E|E]; [|by eexists _, _, _, k1].
  destruct (notify_wake_isr_spec t (notified v' c) b k k1 Hk1 N) as (w & k' & -> & Hk' & _); [congruence..|by apply He|]. by eexists _, _, w, k'.
Qed.

Lemma generic_notify_isr_give t v b k : (∃ r p w k', xTaskGenericNotifyFromISR t v eIncrement b k = Some (r, p, w, k')
    ∧ vTaskNotifyGiveFromISR t b k = Some (w, k'))
  ∨ xTaskGenericNotifyFromISR t v eIncrement b k = None ∧ vTaskNotifyGiveFromISR t b k = None.
Proof.
  unfold xTaskGenericNotifyFromISR, vTaskNotifyGiveFromISR. destruct (tcb t k) as [c|]; [|by right]. cbn.
  destruct (upd_tcb t _ k) as [k1|]; [|by right]. cbn. destruct (ucNotifyState c =? _); [|left; by eexists _, _, _, _].
  destruct (notify_wake_from_isr t b k1) as [[w k']|]; [|by right]. left. by eexists _, _, _, _.
Qed.

(** ** Waiting *)

Lemma wait_section_spec t n f c k : kinv k → k.(pending_soft_sv) = false → k.(pxCurrentTCB) = Some t → tcb t k = Some c →
  (f c).(uxPriority) = c.(uxPriority) → (f c).(uxBasePriority) = c.(uxBasePriority) → 0 ≤ n ≤ portMAX_DELAY →
  (0 < n → k.(uxSchedulerSuspended) = 0 ∧ k.(xIdleTaskHandle) ≠ Some t) →
  ∃ k', wait_section t n f k = Some k' ∧ kinv k' ∧ k'.(pxCurrentTCB) = Some t
    ∧ tcb t k' = Some (set_ucNotifyState taskWAITING_NOTIFICATION (f c)) ∧ event t k' = event t k
    ∧ (0 < n → state t k' = Some (wait_list n true k)) ∧ (n = 0 → state t k' = state t k).
Proof.
  intros Hk Hsoft Ht Hc Hp Hb Hn H0. set (c' := set_ucNotifyState taskWAITING_NOTIFICATION (f c)).
  destruct (rewrite_tcb_spec t c c' k Hk Hc Hp Hb) as [Hk1 R1]. set (k1 := set_tcbs _ k) in *.
  unfold wait_section. rewrite (upd_tcb_some t c) by done. fold c' k1. cbn [mbind option_bind].
  assert (Ec1 : tcb t k1 = Some c') by (unfold tcb, k1; cbn; by rewrite lookup_insert_eq).
  destruct (Z.ltb_spec 0 n) as [L|L]; [|exists k1; split_and!; try done; lia].
  destruct (H0 L) as [Hs Hi]. destruct (kinv_runnable k Hk Hsoft) as (t' & c0 & E1 & E2 & E3).
  assert (t' = t) as -> by congruence.
  destruct (block_spec n true t _ k1 (proj1 Hk1) Ht E3) as (k2 & -> & Hc2 & C2 & _ & _ & R2); [done|lia|done|].
  destruct (relisted_fields _ _ _ R2) as (F1&F2&_&_&_&_&F7&_). cbn in F1, F2, F7. cbn [mbind option_bind].
  eexists. split; [reflexivity|]. split_and!.
  - apply kinv_yield; [done|]. rewrite F7. by rewrite Hs.
  - cbn. by rewrite F2.
  - unfold tcb. cbn. rewrite F1. by rewrite lookup_insert_eq.
  - unfold event. cbn. by rewrite C2, fn_lookup_insert_ne.
  - intros _. unfold state. cbn. by rewrite C2, fn_lookup_insert.
  - lia.
Qed.
End urgency.
