(* ===== verification/FrTasksSteps.v ===== *)
(** FrTasksSteps: the start of the scheduler and the kernel as a transition system.

    The steps are the interrupts of the port, what an interrupt of the application may
    call, and the calls of the running task, with the waits of queue.c, event_groups.c
    and timers.c and the give of a mutex in queue.c, each with the condition that its
    documentation or an assertion of the code puts on the caller. *)

From stdpp Require Import functions sorting.
From S2P Require Import Prelude FrList FrSeq FrKernel FrTasks FrTasksInv FrTasksMove FrTasksTick FrTasksSched FrTasksApi FrTasksLife FrTasksPrio FrNotify.

(** ** Creating the first tasks and starting the scheduler *)

Section urgency.
Context {U : Urgency}.

(** The kernel after reset: the static variables as they are initialised. *)
Definition boot : kernel := {|
  tcbs := ∅;
  lists := Store (λ _, []) (λ _, None) (λ _, 0) (λ _, None);
  pxCurrentTCB := None;
  pxDelayedTaskList := xDelayedTaskList1; pxOverflowDelayedTaskList := xDelayedTaskList1;
  uxDeletedTasksWaitingCleanUp := 0; uxCurrentNumberOfTasks := 0; xTickCount := 0;
  uxTopReadyPriority := tskIDLE_PRIORITY; xSchedulerRunning := false; uxPendedTicks := 0;
  xYieldPending := false; xNumOfOverflows := 0; uxTaskNumber := 0; xNextTaskUnblockTime := 0;
  xIdleTaskHandle := None; uxSchedulerSuspended := 0; pending_soft_sv := false;
  blocks := ∅; overflow_hook := [] |}.

(** Tasks were created, but the scheduler does not run yet. *)
Record kready (k : kernel) : Prop := {
  kr_wf : kwf None k;
  kr_highest : highest k;
  kr_running : k.(xSchedulerRunning) = false;
  kr_suspended : k.(uxSchedulerSuspended) = 0;
  kr_pended : k.(uxPendedTicks) = 0;
  kr_state t c : tcb t k = Some c → state t k = Some (pxReadyTasksLists c.(uxPriority));
  kr_event t : event t k = None;
}.

Lemma initialise_ready_lists n : ∀ k, (∀ l, k.(lists).(elems) l = []) →
  ∃ s, initialise_ready n k = set_lists s k ∧ (∀ l, s.(elems) l = []) ∧ s.(container) = k.(lists).(container)
    ∧ s.(value) = k.(lists).(value) ∧ ((∀ l, k.(lists).(index) l = None) → ∀ l, s.(index) l = None).
Proof.
  induction n as [|n IH]; intros k He; simpl.
  - exists k.(lists). split; [by destruct k|done].
  - destruct (IH k He) as (s & -> & E & C & V & I). eexists. split; [reflexivity|]. cbn. split_and!; try done.
    + intros l. unfold insert, fn_insert. by case_decide.
    + intros Hi l. unfold insert, fn_insert. case_decide; [done|by apply I].
Qed.

Lemma initialise_lists_spec k : (∀ l, k.(lists).(elems) l = []) → (∀ l, k.(lists).(index) l = None) →
  ∃ s, prvInitialiseTaskLists k = set_pxOverflowDelayedTaskList xDelayedTaskList2
         (set_pxDelayedTaskList xDelayedTaskList1 (set_lists s k))
    ∧ (∀ l, s.(elems) l = []) ∧ (∀ l, s.(index) l = None) ∧ s.(container) = k.(lists).(container)
    ∧ s.(value) = k.(lists).(value).
Proof.
  intros He Hi. unfold prvInitialiseTaskLists.
  destruct (initialise_ready_lists (Z.to_nat configMAX_PRIORITIES) k He) as (s & -> & E & C & V & I).
  eexists. split; [reflexivity|]. cbn. split_and!; try done.
  - intros l. unfold insert, fn_insert. by repeat case_decide.
  - intros l. unfold insert, fn_insert. repeat case_decide; try done. by apply I.
Qed.

(** The first task. *)
Lemma create_first name p stack t : 0 ≤ p →
  ∃ k, xTaskCreate name p (Some stack) (Some t) boot = Some (pdPASS, Some t, k) ∧ kready k
    ∧ k.(tcbs) = {[t := new_tcb name (clamp p) stack]} ∧ k.(xIdleTaskHandle) = None
    ∧ k.(uxCurrentNumberOfTasks) = 1.
Proof.
  intros Hp. unfold xTaskCreate. set (k0 := set_blocks _ (set_blocks _ boot)).
  set (k1 := prvInitialiseNewTask name p t stack k0). set (c := new_tcb name (clamp p) stack).
  assert (Ec : tcb t k1 = Some c) by (unfold tcb, k1; cbn; by rewrite lookup_insert_eq).
  unfold prvAddNewTaskToReadyList. rewrite Ec. cbn [mbind option_bind].
  set (k2 := set_pxCurrentTCB _ _).
  assert (C2 : ∀ x, k2.(lists).(container) x = None).
  { intros x. cbn. unfold insert, fn_insert. repeat case_decide; done. }
  destruct (initialise_lists_spec k2) as (s & E3 & Es & Is & Cs & Vs); [done..|].
  change (match pxCurrentTCB (set_uxCurrentNumberOfTasks _ k1) with Some _ => _ | None => _ end)
    with (Some (prvInitialiseTaskLists k2)). rewrite E3. cbn [mbind option_bind].
  set (k3 := set_uxTaskNumber _ _).
  assert (Hw3 : kwf (Some t) k3).
  { unfold kwf, k3. cbn. split; try done.
    - split; [intros l; rewrite Es; constructor| |intros l y; by rewrite Is].
      intros x l. rewrite Es, Cs, C2. split; [set_solver|done].
    - intros x l. by rewrite Cs, C2.
    - intros u _. by rewrite Cs, C2.
    - intros u cu Hu Hne. rewrite lookup_insert_ne in Hu by congruence. done.
    - intros u l. by rewrite Cs, C2.
    - intros u cu Hu. destruct (decide (u = t)) as [->|]; [|by rewrite lookup_insert_ne in Hu].
      rewrite lookup_insert_eq in Hu. injection Hu as <-. split; by apply clamp_ok.
    - intros u q. by rewrite Cs, C2.
    - by left.
    - split; unfold sorted_list; rewrite Es; constructor.
    - intros u. by rewrite Cs, C2.
    - intros u. by rewrite Cs, C2.
    - exists t. split; [done|]. by rewrite lookup_insert_eq.
    - by rewrite map_size_insert, lookup_empty.
    - by rewrite Es.
    - intros u. by rewrite Cs, C2. }
  destruct (add_ready_spec t c k3 Hw3 Ec) as (k4 & -> & Hw4 & R4). cbn [mbind option_bind].
  destruct (relisted_fields _ _ _ R4) as (F1&F2&_&_&_&F6&F7&F8&_&_&F11&F12&_).
  assert (Hst : ∀ u, state u k4 = if decide (u = t) then Some (pxReadyTasksLists (clamp p)) else None).
  { intros u. unfold state. rewrite (rl_container _ _ _ R4). case_decide as D; [subst; by rewrite fn_lookup_insert|].
    rewrite fn_lookup_insert_ne by congruence. cbn. by rewrite Cs, C2. }
  rewrite F6. cbn [xSchedulerRunning k3]. eexists. split; [reflexivity|]. split_and!; try done.
  - split; try done.
    + exists t, c. unfold tcb. rewrite F1, F2, Hst, decide_True by done. split_and!; try done.
      intros u q. rewrite Hst. case_decide; [|done]. by intros [= <-].
    + intros u cu. unfold tcb. rewrite F1. cbn. intros Hu. destruct (decide (u = t)) as [->|].
      * rewrite lookup_insert_eq in Hu. injection Hu as <-. by rewrite Hst, decide_True.
      * by rewrite lookup_insert_ne in Hu.
    + intros u. unfold event. rewrite (rl_container _ _ _ R4), fn_lookup_insert_ne by done. cbn. by rewrite Cs, C2.
Qed.

(** A further task before the start. *)
Lemma create_before name p stack t k : kready k → tcbs k !! t = None → 0 ≤ p →
  k.(uxCurrentNumberOfTasks) + 1 < 2 ^ 32 →
  ∃ k', xTaskCreate name p (Some stack) (Some t) k = Some (pdPASS, Some t, k') ∧ kready k'
    ∧ k'.(tcbs) = <[t := new_tcb name (clamp p) stack]> k.(tcbs) ∧ k'.(xIdleTaskHandle) = k.(xIdleTaskHandle)
    ∧ k'.(uxCurrentNumberOfTasks) = k.(uxCurrentNumberOfTasks) + 1.
Proof.
  intros [Hw (u & cu & Eu & Ecu & Hu & Hmax) Hr Hs Hpd Hst He] Ht Hp0 Hn. unfold xTaskCreate.
  set (k0 := set_blocks _ (set_blocks _ k)). assert (Hw0 : kwf None k0) by exact Hw.
  destruct (initialise_new_spec name p t stack k0 Hw0 Ht Hp0 Hn) as (E1 & Hk1 & C1 & V1).
  set (k1 := prvInitialiseNewTask name p t stack k0) in *. set (c := new_tcb name (clamp p) stack) in *.
  clearbody k1. assert (Ec : tcb t k1 = Some c) by (unfold tcb; rewrite E1; cbn; by rewrite lookup_insert_eq).
  assert (Hut : u ≠ t) by (intros ->; unfold tcb in Ecu; congruence).
  assert (F1 : k1.(pxCurrentTCB) = Some u ∧ k1.(xSchedulerRunning) = false
    ∧ k1.(uxCurrentNumberOfTasks) = k.(uxCurrentNumberOfTasks) ∧ k1.(tcbs) = <[t := c]> k.(tcbs)
    ∧ k1.(uxSchedulerSuspended) = 0 ∧ k1.(uxPendedTicks) = 0 ∧ k1.(xIdleTaskHandle) = k.(xIdleTaskHandle)).
  { rewrite E1. cbn. done. }
  destruct F1 as (Fc & Fr & Fn & Ft & Fs & Fp & Fi). assert (Hpos := number_positive k Hw).
  unfold prvAddNewTaskToReadyList. rewrite Ec. cbn [mbind option_bind pxCurrentTCB set_uxCurrentNumberOfTasks].
  rewrite Fc. cbn [xSchedulerRunning set_uxCurrentNumberOfTasks]. rewrite Fr.
  assert (Ep : current_priority (set_uxCurrentNumberOfTasks (u32 (uxCurrentNumberOfTasks k1 + 1)) k1) = Some cu.(uxPriority)).
  { unfold current_priority, tcb in *. cbn. rewrite Fc. simpl. rewrite Ft, lookup_insert_ne by done. by rewrite Ecu. }
  rewrite Ep. cbn [mbind option_bind].
  set (k2 := set_uxTaskNumber _ _).
  assert (E2 : k2 = set_pxCurrentTCB (if uxPriority cu <=? uxPriority c then Some t else Some u)
    (set_uxTaskNumber k2.(uxTaskNumber) (set_uxCurrentNumberOfTasks (k.(uxCurrentNumberOfTasks) + 1) k1))).
  { unfold k2. rewrite Fn, (u32_small (uxCurrentNumberOfTasks k + 1)) by lia.
    destruct (uxPriority cu <=? uxPriority c); [done|]. rewrite <- Fc. by destruct k1. }
  assert (Hk2 : kwf (Some t) k2).
  { rewrite E2. unfold kwf. cbn. destruct Hk1. split; try done. rewrite Ft.
    destruct (_ <=? _); eexists; (split; [done|]); [rewrite lookup_insert_eq; eauto|rewrite lookup_insert_ne by done; by exists cu]. }
  destruct (add_ready_spec t c k2 Hk2) as (k3 & -> & Hk3 & R3); [rewrite E2; exact Ec|]. cbn [mbind option_bind].
  destruct (relisted_fields _ _ _ R3) as (G1&G2&_&_&_&G6&G7&G8&_&_&G11&G12&_). rewrite E2 in G1, G2, G6, G7, G8, G11, G12.
  cbn in G1, G2, G6, G7, G8, G11, G12.
  assert (Hst3 : ∀ v, state v k3 = if decide (v = t) then Some (pxReadyTasksLists (clamp p)) else state v k).
  { intros v. unfold state. rewrite (rl_container _ _ _ R3). case_decide as D.
    - subst v. by rewrite fn_lookup_insert.
    - rewrite fn_lookup_insert_ne by congruence. rewrite E2. apply C1. }
  rewrite G6, Fr. eexists. split; [reflexivity|]. split_and!; try congruence.
  split; try done; try congruence.
  - revert G2. change (uxPriority c) with (clamp p).
    destruct (Z.leb_spec (uxPriority cu) (clamp p)) as [L|L]; intros G2.
    + exists t, c. unfold tcb. rewrite G1, G2, Ft, lookup_insert_eq, Hst3, decide_True by done. split_and!; try done.
      intros v q. rewrite Hst3. case_decide; [by intros [= <-]|]. intros Hv. specialize (Hmax v q Hv). change (q ≤ clamp p). lia.
    + exists u, cu. unfold tcb. rewrite G1, G2, Ft, lookup_insert_ne, Hst3, decide_False by done. split_and!; try done.
      intros v q. rewrite Hst3. case_decide; [|apply Hmax]. intros [= <-]. lia.
  - intros v cv. unfold tcb. rewrite G1, Ft. destruct (decide (v = t)) as [->|].
    + rewrite lookup_insert_eq. intros [= <-]. by rewrite Hst3, decide_True.
    + rewrite lookup_insert_ne by done. intros Hv. rewrite Hst3, decide_False by done. by apply Hst.
  - intros v. unfold event. rewrite (rl_container _ _ _ R3), fn_lookup_insert_ne by done. rewrite E2. cbn.
    rewrite C1. apply He.
Qed.

(** The state in which the first task is selected. *)
Definition started (k : kernel) : kernel :=
  set_xTickCount 0 (set_xSchedulerRunning true (set_xNextTaskUnblockTime portMAX_DELAY k)).

Lemma started_core ti c k : kready k → k.(xIdleTaskHandle) = Some ti → tcb ti k = Some c → kcore (started k).
Proof.
  intros [Hw _ Hr Hs Hpd Hst He] Hi Hti.
  destruct (delayed_other _ _ (w_pointers _ _ _ _ _ _ _ _ _ _ _ Hw)) as (_ & Hrd & _).
  assert (Hnd : ∀ t l, state t k = Some l → l ≠ k.(pxDelayedTaskList) ∧ l ≠ k.(pxOverflowDelayedTaskList)).
  { intros t l Ht. destruct (w_live _ _ _ _ _ _ _ _ _ _ _ Hw _ _ Ht) as [ct Ec].
    apply Hst in Ec. cbn [owner] in Ec. rewrite Ht in Ec. injection Ec as ->.
    destruct (Hrd (uxPriority ct)). split; congruence. }
  split.
  - unfold kwf, started. cbn. destruct Hw. split; try done;
      intros t Ht; by destruct (Hnd t _ Ht).
  - intros t Ht. by destruct (Hnd t _ Ht).
  - exists ti, c.(uxPriority). split; [exact Hi|]. by apply Hst.
  - done.
  - change (0 ≤ uxSchedulerSuspended k < 2 ^ 32). lia.
  - change (0 ≤ uxPendedTicks k < 2 ^ 32). lia.
  - intros _. split; [exact Hpd|]. intros t. change (event t k ≠ Some xPendingReadyList). by rewrite He.
Qed.

Lemma bind_some {A B} (x : option A) (f : A → option B) a r : x = Some a → f a = r → x ≫= f = r.
Proof. by intros ->. Qed.

#[local] Strategy opaque [xTaskCreate vTaskSwitchContext].

Lemma start_unfold ti tt si st k k1 k3 :
  xTaskCreate [73; 68; 76; 69] tskIDLE_PRIORITY (Some si) (Some ti) k = Some (pdPASS, Some ti, k1) →
  xTaskCreate [84; 109; 114; 32; 83; 118; 99] configTIMER_TASK_PRIORITY (Some st) (Some tt)
    (set_xIdleTaskHandle (Some ti) k1) = Some (pdPASS, Some tt, k3) →
  vTaskStartScheduler true (Some si, Some ti) (Some st, Some tt) k = vTaskSwitchContext (started k3).
Proof.
  intros E1 E2. unfold vTaskStartScheduler, xTimerCreateTimerTask. eapply bind_some; [exact E1|].
  eapply bind_some; [eapply bind_some; [exact E2|]|]; reflexivity.
Qed.

(** Starting the scheduler, when there is memory for its two tasks. *)
Lemma start_spec ti tt si st k : kready k → tcbs k !! ti = None → tcbs k !! tt = None → ti ≠ tt →
  k.(uxCurrentNumberOfTasks) + 2 < 2 ^ 32 →
  ∃ k', vTaskStartScheduler true (Some si, Some ti) (Some st, Some tt) k = Some k' ∧ kinv k' ∧ highest k'
    ∧ k'.(xIdleTaskHandle) = Some ti ∧ k'.(xTickCount) = 0.
Proof.
  intros Hk Hti Htt Hne Hn.
  destruct (create_before [73; 68; 76; 69] tskIDLE_PRIORITY si ti k Hk Hti) as (k1 & E1 & Hk1 & T1 & I1 & N1);
    [done|lia|].
  assert (Hk2 : kready (set_xIdleTaskHandle (Some ti) k1)) by (by destruct Hk1).
  destruct (create_before [84; 109; 114; 32; 83; 118; 99] configTIMER_TASK_PRIORITY st tt _ Hk2)
    as (k3 & E3 & Hk3 & T3 & I3 & N3);
    [change (tcbs k1 !! tt = None); by rewrite T1, lookup_insert_ne|done|change (uxCurrentNumberOfTasks k1 + 1 < 2 ^ 32); lia|].
  rewrite (start_unfold ti tt si st k k1 k3 E1 E3).
  assert (Hc : kcore (started k3)).
  { eapply (started_core ti); [exact Hk3|exact I3|]. unfold tcb. rewrite T3, lookup_insert_ne by done.
    cbn [tcbs set_xIdleTaskHandle].
    by rewrite T1, lookup_insert_eq. }
  destruct (switch_spec (started k3) Hc) as (k' & -> & Hc' & Hsw & H).
  assert (Hsus : uxSchedulerSuspended (started k3) = 0) by apply Hk3. rewrite Hsus in H. change (0 =? 0) with true in H.
  destruct H as [Hy Hh]. exists k'. split_and!; try done.
  - split; [done|]. split; [done|]. intros _. by apply highest_runnable.
  - rewrite (sw_idle _ _ Hsw). exact I3.
  - apply (sw_tick _ _ Hsw).
Qed.

(** ** The steps *)

(** How a task is put into the list [EventList a] of an object. *)
Inductive place_kind := OnList (a n : Z) | OnUnordered (a v n : Z) | OnRestricted (a n : Z) (b : bool).

Definition place (w : place_kind) (k : kernel) : option kernel :=
  match w with
  | OnList a n => vTaskPlaceOnEventList (EventList a) n k
  | OnUnordered a v n => vTaskPlaceOnUnorderedEventList (EventList a) v n k
  | OnRestricted a n b => vTaskPlaceOnEventListRestricted (EventList a) n b k
  end.

Inductive kcall :=
  | Tick | SoftInterrupt                             (* the interrupts of port.c *)
  | ResumeFromISR (t : Z)                            (* an interrupt of the application *)
  | NotifyFromISR (t v : Z) (a : eNotifyAction) | GiveFromISR (t : Z)
  | Signal (l : lid)                                 (* a task or an interrupt wakes the first task of an event list *)
  | Yield | SuspendAll | ResumeAll                   (* the running task calls *)
  | Delay (n : Z) | DelayUntil (prev inc : Z)
  | Create (name : list Z) (p stack t : Z)
  | Delete (h : option Z) | Suspend (h : option Z) | Resume (h : option Z)
  | PrioritySet (h : option Z) (p : Z)
  | WaitOn (w : place_kind)                          (* it waits for an event *)
  | SignalUnordered (t v : Z)                        (* under the suspended scheduler, as event_groups.c *)
  | MutexTaken | Inherit (t : Z) | GiveMutex (l : lid)
  | Notify (t v : Z) (a : eNotifyAction)
  | TakeEnter (n : Z) | TakeLeave (clear : bool) | WaitEnter (bits n : Z) | WaitLeave (bits : Z)
  | IdleRound.

Definition yield_if (r : option (bool * kernel)) : option kernel :=
  '(b, k) ← r; Some (if b : bool then portYIELD_WITHIN_API k else k).

(** The scheduler's part of xQueueGenericSend on a mutex: the switch that the loss of
    an inherited priority asks for is only made when no task waits. *)
Definition give_mutex (l : lid) (k : kernel) : option kernel :=
  '(b, k) ← xTaskPriorityDisinherit k.(pxCurrentTCB) k;
  if is_empty l k then Some (if b : bool then portYIELD_WITHIN_API k else k) else yield_if (xTaskRemoveFromEventList l k).

Definition exec (c : kcall) (k : kernel) : option kernel :=
  match c with
  | Tick => xPortSysTickHandle k
  | SoftInterrupt => SV_ISR k
  | ResumeFromISR t => yield_if (xTaskResumeFromISR t k)
  | NotifyFromISR t v a => '(_, _, w, k) ← xTaskGenericNotifyFromISR t v a true k; yield_if (Some (w, k))
  | GiveFromISR t => yield_if (vTaskNotifyGiveFromISR t true k)
  | Signal l => yield_if (xTaskRemoveFromEventList l k)
  | Yield => Some (portYIELD_WITHIN_API k)
  | SuspendAll => Some (vTaskSuspendAll k)
  | ResumeAll => snd <$> xTaskResumeAll k
  | Delay n => vTaskDelay n k
  | DelayUntil prev inc => snd <$> vTaskDelayUntil prev inc k
  | Create name p stack t => snd <$> xTaskCreate name p (Some stack) (Some t) k
  | Delete h => vTaskDelete h k
  | Suspend h => vTaskSuspend h k
  | Resume h => vTaskResume h k
  | PrioritySet h p => vTaskPrioritySet h p k
  | WaitOn w => k ← place w (vTaskSuspendAll k); '(ay, k) ← xTaskResumeAll k; Some (yield_unless ay k)
  | SignalUnordered t v => snd <$> xTaskRemoveFromUnorderedEventList t v k
  | MutexTaken => snd <$> pvTaskIncrementMutexHeldCount k
  | Inherit t => vTaskPriorityInherit (Some t) k
  | GiveMutex l => give_mutex l k
  | Notify t v a => snd <$> xTaskGenericNotify t v a k
  | TakeEnter n => take_enter n k
  | TakeLeave clear => snd <$> take_leave clear k
  | WaitEnter bits n => wait_enter bits n k
  | WaitLeave bits => snd <$> wait_leave bits k
  | IdleRound => prvIdleTask k
  end.

(** A task runs: no context switch is pending. *)
Definition task_runs (k : kernel) : Prop := k.(pending_soft_sv) = false.

(** The target of a call is a task that was not deleted and not the idle task. *)
Definition target (h : option Z) (k : kernel) : Prop :=
  ∃ t l, prvGetTCBFromHandle h k = Some t ∧ state t k = Some l ∧ l ≠ xTasksWaitingTermination
    ∧ k.(xIdleTaskHandle) ≠ Some t.

(** The first task of an event list of an object. *)
Definition waiting (l : lid) (k : kernel) : Prop :=
  l ≠ xPendingReadyList ∧ ∃ t, head_owner l k = Some t ∧ event t k = Some l.

(** The running task may block: the scheduler is not suspended and it is not the idle task. *)
Definition may_block (k : kernel) : Prop := k.(uxSchedulerSuspended) = 0 ∧ k.(pxCurrentTCB) ≠ k.(xIdleTaskHandle).

Definition place_ok (w : place_kind) : Prop :=
  match w with OnList _ n | OnUnordered _ _ n => 0 < n ≤ portMAX_DELAY | OnRestricted _ n b => b = false → 0 < n ≤ portMAX_DELAY end.

(** What the documentation and the assertions of the code ask of the caller. *)
Definition pre (c : kcall) (k : kernel) : Prop :=
  match c with
  | Tick | SoftInterrupt | ResumeFromISR _ => True
  | NotifyFromISR t _ _ | GiveFromISR t => notifiable t k
  | Signal l => waiting l k
  | Yield | Resume _ | MutexTaken | TakeLeave _ | WaitLeave _ => task_runs k
  | SuspendAll => task_runs k ∧ k.(uxSchedulerSuspended) + 1 < 2 ^ 32
  | ResumeAll => task_runs k ∧ 0 < k.(uxSchedulerSuspended)
  | Delay n => task_runs k ∧ k.(uxSchedulerSuspended) = 0 ∧ 0 ≤ n ≤ portMAX_DELAY
      ∧ k.(pxCurrentTCB) ≠ k.(xIdleTaskHandle)
  | DelayUntil _ _ => task_runs k ∧ k.(uxSchedulerSuspended) = 0 ∧ k.(pxCurrentTCB) ≠ k.(xIdleTaskHandle)
  | Create _ p stack t => task_runs k ∧ tcbs k !! t = None ∧ 0 ≤ p ∧ k.(uxCurrentNumberOfTasks) + 1 < 2 ^ 32
  | Delete h | Suspend h => task_runs k ∧ k.(uxSchedulerSuspended) = 0 ∧ target h k
  | PrioritySet h p => task_runs k ∧ 0 ≤ p ∧ ∃ t, prvGetTCBFromHandle h k = Some t ∧ is_Some (tcb t k)
  | WaitOn w => task_runs k ∧ may_block k ∧ place_ok w ∧ ∀ t, k.(pxCurrentTCB) = Some t → event t k = None
  | SignalUnordered t _ => task_runs k ∧ 0 < k.(uxSchedulerSuspended) ∧ ∃ a, event t k = Some (EventList a)
  | Inherit t => task_runs k ∧ is_Some (tcb t k)
  | GiveMutex l => task_runs k ∧ ∃ a, l = EventList a
  | Notify t _ _ => task_runs k ∧ notifiable t k
  | TakeEnter n | WaitEnter _ n => task_runs k ∧ 0 ≤ n ≤ portMAX_DELAY ∧ (0 < n → may_block k)
  | IdleRound => task_runs k ∧ k.(uxSchedulerSuspended) = 0 ∧ idle_runs k
  end.

(** A give of a mutex that takes an inherited priority back and wakes a task makes a
    switch, since the woken task has a higher priority. *)
Definition keeps_switch (c : kcall) (k : kernel) : Prop :=
  match c with
  | GiveMutex l => ∀ k1 b k2, xTaskPriorityDisinherit k.(pxCurrentTCB) k = Some (true, k1) → is_empty l k1 = false →
      xTaskRemoveFromEventList l k1 = Some (b, k2) → b = true
  | _ => True
  end.

Lemma current_live k : kinv k → ∃ t c, k.(pxCurrentTCB) = Some t ∧ tcb t k = Some c.
Proof. intros Hk. destruct (kwf_current _ _ (kc_wf _ (proj1 Hk))) as (t & c & ? & ? & _). eauto. Qed.

(** The wait for an event, and the switch after it. *)
Lemma place_spec w t k : kinv k → k.(pxCurrentTCB) = Some t → runnable k → event t k = None → place_ok w → k.(xIdleTaskHandle) ≠ Some t →
  ∃ k1, place w k = Some k1 ∧ kcore k1 ∧ k1.(uxSchedulerSuspended) = k.(uxSchedulerSuspended).
Proof.
  intros Hk Ht Hr He Hw Hi. destruct w as [a n|a v n|a n b]; cbn [place place_ok] in *.
  - unfold vTaskPlaceOnEventList. rewrite Ht. cbn [mbind option_bind].
    destruct (place_core n false true (EventList a) t k (proj1 Hk) Ht Hr He) as (k1 & E1 & Hc1 & _ & R1 & _); [done..|].
    exists k1. split; [exact E1|]. split; [done|]. by destruct (relisted_fields _ _ _ R1) as (_&_&_&_&_&_&F7&_).
  - unfold vTaskPlaceOnUnorderedEventList. rewrite Ht. cbn [mbind option_bind]. set (v' := Z.lor v _).
    assert (Hk0 := event_value_kinv t v' k Hk). set (k0 := k_set_value _ v' k) in *.
    destruct (place_core n true true (EventList a) t k0 (proj1 Hk0) Ht Hr He) as (k1 & E1 & Hc1 & _ & R1 & _); [done..|].
    exists k1. split; [exact E1|]. split; [done|]. by destruct (relisted_fields _ _ _ R1) as (_&_&_&_&_&_&F7&_).
  - unfold vTaskPlaceOnEventListRestricted. rewrite Ht. cbn [mbind option_bind].
    destruct (place_core (if b then portMAX_DELAY else n) true b (EventList a) t k (proj1 Hk) Ht Hr He) as (k1 & E1 & Hc1 & _ & R1 & _); [done|done|destruct b; [by vm_compute|auto]|done|].
    exists k1. split; [exact E1|]. split; [done|]. by destruct (relisted_fields _ _ _ R1) as (_&_&_&_&_&_&F7&_).
Qed.

Lemma wait_on_spec w k : kinv k → pre (WaitOn w) k → ∃ k', exec (WaitOn w) k = Some k' ∧ kinv k'.
Proof.
  intros Hk (H1 & [H2 H3] & H4 & H5). destruct (current_live k Hk) as (t & c & Ht & Hc). assert (Hr := kinv_runnable k Hk H1).
  destruct (suspend_all_spec k Hk) as [Hk0 Hs0]; [lia|done|].
  destruct (place_spec w t (vTaskSuspendAll k) Hk0 Ht Hr) as (k1 & E1 & Hc1 & S1); [by apply H5|done|cbn; congruence|].
  destruct (resume_all_spec k1 Hc1) as (ay & k2 & E2 & Hc2 & _ & S2 & Y2 & _); [lia|].
  exists (yield_unless ay k2). cbn [exec]. rewrite E1. cbn [mbind option_bind]. rewrite E2. split; [done|].
  destruct ay; [|apply kinv_yield; [done|lia]]. split; [done|]. cbn. split; rewrite Y2 by done; [by intros [=]|]. intros [[=]|]. lia.
Qed.

(** The first critical section of a wait for a notification. *)
Lemma wait_part_spec t n f c k : kinv k → task_runs k → k.(pxCurrentTCB) = Some t → tcb t k = Some c →
  (f c).(uxPriority) = c.(uxPriority) → (f c).(uxBasePriority) = c.(uxBasePriority) → 0 ≤ n ≤ portMAX_DELAY → (0 < n → may_block k) →
  ∃ k', wait_section t n f k = Some k' ∧ kinv k'.
Proof.
  intros Hk Hr Ht Hc H1 H2 Hn H0. destruct (wait_section_spec t n f c k Hk Hr Ht Hc H1 H2 Hn) as (k' & E & Hk' & _); [|eauto].
  intros L. destruct (H0 L) as [? ?]. split; [done|congruence].
Qed.

(** Giving a mutex back: the invariant holds, in the version for prompt switches when
    the give keeps the switch. *)
Lemma give_mutex_kinv a k : kinv k → task_runs k → (prompt → keeps_switch (GiveMutex (EventList a)) k) →
  ∃ k', give_mutex (EventList a) k = Some k' ∧ kinv k'.
Proof.
  intros Hk Hr Hkeep. destruct (current_live k Hk) as (t & c & Ht & Hc). unfold give_mutex. cbn [keeps_switch] in Hkeep. rewrite Ht in *.
  destruct (disinherit_spec t c k Hk Hc Ht) as (b & k1 & E1 & Hk1 & R); [by apply kinv_runnable|]. rewrite E1. cbn [mbind option_bind].
  assert (Hd := head_event a k1 (kc_wf _ (rp_core _ _ _ _ _ R))). destruct (is_empty (EventList a) k1) eqn:Em; [eauto|].
  destruct Hd as (w & Hw & Ew). destruct b.
  2: { destruct (remove_from_event_list_spec _ w k1 Hk1 Hw Ew) as (b2 & k2 & -> & Hk2 & _); [done|]. eexists. split; [reflexivity|done]. }
  assert (Hrun1 : runnable k1).
  { destruct (kinv_runnable k Hk Hr) as (t' & c' & X1 & X2 & X3). assert (t' = t) as -> by congruence. assert (c' = c) as -> by congruence.
    exists t, (disinherited c). rewrite (rp_current _ _ _ _ _ R), (rp_state _ _ _ _ _ R), decide_True by done. split; [done|]. split; [|done].
    unfold tcb. by rewrite (rp_tcbs _ _ _ _ _ R), lookup_insert_eq. }
  assert (Hl1 : @kinv loose k1) by (split; [apply R|split; [by intros _ _ []|done]]).
  destruct (@remove_from_event_list_spec loose _ w k1 Hl1 Hw Ew) as (b2 & k2 & E2 & _ & [Hc2 Hp2] & _); [done|].
  rewrite E2. eexists. split; [reflexivity|]. destruct b2.
  - apply kinv_yield; [done|]. intros H. apply Hp2. by right.
  - split; [done|]. split; [|apply Hp2]. intros _ _ Hu. specialize (Hkeep Hu k1 false k2 E1 Em E2). done.
Qed.

(** Every allowed step succeeds and keeps the invariant. *)
Lemma exec_kinv c k : kinv k → pre c k → (prompt → keeps_switch c k) → ∃ k', exec c k = Some k' ∧ kinv k'.
Proof.
  intros Hk Hp Hkeep. destruct (current_live k Hk) as (t & ct & Ht & Hc).
  destruct c; cbn [exec pre] in *; unfold task_runs in Hp.
  - by apply tick_handler_spec.
  - destruct (sv_isr_spec k Hk) as (k' & E & H & _). eauto.
  - destruct (resume_from_isr_spec t0 k Hk) as (b & k' & -> & H). simpl. eauto.
  - assert (Hp' := Hp). destruct Hp' as (c & _ & E & _). destruct (generic_notify_isr_spec t0 c v a true k Hk Hp E) as (r & p & w & k' & -> & H). simpl. eauto.
  - assert (Hp' := Hp). destruct Hp' as (c & _ & E & _). destruct (notify_isr_spec t0 c true k Hk Hp E) as (w & k' & -> & H & _). simpl. eauto.
  - destruct Hp as (H2 & u & Hh & He). destruct (remove_from_event_list_spec l u k Hk Hh He H2) as (b & k' & -> & H & _). simpl. eauto.
  - eexists. split; [done|]. apply kinv_yield; [apply Hk|]. intros _. by apply kinv_runnable.
  - destruct Hp as [H1 H2]. eexists. split; [done|]. by apply suspend_all_spec; [..|apply kinv_runnable].
  - destruct Hp as [H1 H2]. destruct (resume_all_spec k (proj1 Hk) H2) as (ay & k' & -> & Hc' & _ & _ & _ & Hp' & _).
    simpl. eexists. split; [done|]. split; [done|apply Hp', Hk].
  - destruct Hp as (H1 & H2 & H3 & H4). destruct (decide (n = 0)) as [->|Hn].
    + eexists. split; [done|]. apply kinv_yield; [apply Hk|]. intros _. by apply kinv_runnable.
    + destruct (delay_spec n t ct k Hk H1 H2 Ht Hc) as (k' & E & H & _); [lia|congruence|]. eauto.
  - destruct Hp as (H1 & H2 & H4).
    destruct (delay_until_spec prev inc t ct k Hk H1 H2 Ht Hc) as (k' & -> & H & _); [congruence|]. simpl. eauto.
  - destruct Hp as (H1 & H2 & H3 & H4). destruct (create_spec name p stack t0 k Hk H2 H3 H4) as (k' & -> & H & _).
    simpl. eauto.
  - destruct Hp as (H1 & H2 & u & l & E & Hl & Hn & Hi).
    destruct (w_live _ _ _ _ _ _ _ _ _ _ _ (kc_wf _ (proj1 Hk)) _ _ Hl) as [cu Hu].
    destruct (delete_spec h u l cu k Hk E Hl Hu Hn Hi) as (k' & E' & H & _); [done|]. eauto.
  - destruct Hp as (H1 & H2 & u & l & E & Hl & Hn & Hi).
    destruct (suspend_spec h u l k Hk E Hl Hn Hi) as (k' & E' & H & _); [done|]. eauto.
  - by apply resume_spec.
  - destruct Hp as (H1 & H2 & u & E & [cu Hu]).
    destruct (priority_set_spec h p u cu k Hk E Hu H2) as (k' & E' & H & _). eauto.
  - by apply (wait_on_spec w).
  - destruct Hp as (H1 & _ & a & He). destruct (remove_unordered_spec t0 v a k Hk He) as (b & k' & -> & H & _). simpl. eauto.
  - destruct (held_count_spec k Hk) as (u & cu & k' & _ & _ & -> & H & _). simpl. eauto.
  - destruct Hp as [H1 [cu Hu]]. destruct (inherit_spec t0 cu k Hk Hu) as (k' & q & E & H & _). eauto.
  - destruct Hp as [H1 [a ->]]. by apply give_mutex_kinv.
  - destruct Hp as [H1 Hn]. assert (Hn' := Hn). destruct Hn' as (c & _ & E & _).
    assert (H := notify_spec t0 c v a k Hk Hn E). destruct (notify_action a v c) as [r v']. destruct H as (k' & -> & H & _). simpl. eauto.
  - destruct Hp as (H1 & H2 & H3). unfold take_enter. rewrite Ht. cbn [mbind option_bind]. rewrite Hc. cbn [mbind option_bind].
    destruct (_ =? 0); [by apply (wait_part_spec t n id ct k)|eauto].
  - unfold take_leave. rewrite Ht. cbn [mbind option_bind]. rewrite Hc. cbn [mbind option_bind]. rewrite (upd_tcb_some t _ _ _ Hc). cbn.
    eexists. split; [reflexivity|]. by apply (rewrite_tcb_spec t _ _ k Hk Hc).
  - destruct Hp as (H1 & H2 & H3). unfold wait_enter. rewrite Ht. cbn [mbind option_bind]. rewrite Hc. cbn [mbind option_bind].
    destruct (negb _); [by eapply (wait_part_spec t n _ ct k)|eauto].
  - unfold wait_leave. rewrite Ht. cbn [mbind option_bind]. rewrite Hc. cbn [mbind option_bind]. rewrite (upd_tcb_some t _ _ _ Hc). cbn.
    eexists. split; [reflexivity|]. by apply (rewrite_tcb_spec t _ _ k Hk Hc).
  - destruct Hp as (H1 & H2 & H3). destruct (idle_spec k Hk H2 H3) as (k' & E & H & _). eauto.
Qed.

(** ** Reachable states *)

(** The tasks that the application creates before the scheduler starts: name,
    priority and the addresses of stack and TCB. *)
Fixpoint create_all (ts : list (list Z * Z * Z * Z)) (k : kernel) : option kernel :=
  match ts with
  | [] => Some k
  | (name, p, stack, t) :: ts =>
      '(_, _, k) ← xTaskCreate name p (Some stack) (Some t) k; create_all ts k
  end.

Definition start_system (ts : list (list Z * Z * Z * Z)) (idle timer : Z * Z) : option kernel :=
  k ← create_all ts boot;
  vTaskStartScheduler true (Some idle.1, Some idle.2) (Some timer.1, Some timer.2) k.

(** The memory allocator returns distinct blocks. *)
Definition fresh_tasks (ts : list (list Z * Z * Z * Z)) (idle timer : Z * Z) : Prop :=
  ts ≠ [] ∧ Forall (λ '(_, p, _, _), 0 ≤ p) ts ∧ NoDup (map snd ts ++ [idle.2; timer.2])
  ∧ Z.of_nat (length ts) + 2 < 2 ^ 32.

(** The states that the steps in [allowed] lead to from the start of the scheduler. *)
Inductive reachable (allowed : kcall → kernel → Prop) : kernel → Prop :=
  | reach_start ts idle timer k : fresh_tasks ts idle timer → start_system ts idle timer = Some k → reachable allowed k
  | reach_step c k k' : reachable allowed k → pre c k → allowed c k → exec c k = Some k' → reachable allowed k'.

Definition any_step (c : kcall) (k : kernel) : Prop := True.

#[local] Strategy opaque [xTaskCreate vTaskStartScheduler].

Lemma create_all_spec ts : ∀ k, kready k → Forall (λ '(_, p, _, _), 0 ≤ p) ts → NoDup (map snd ts) →
  (∀ t, t ∈ map snd ts → k.(tcbs) !! t = None) →
  k.(uxCurrentNumberOfTasks) + Z.of_nat (length ts) < 2 ^ 32 →
  ∃ k', create_all ts k = Some k' ∧ kready k'
    ∧ k'.(uxCurrentNumberOfTasks) = k.(uxCurrentNumberOfTasks) + Z.of_nat (length ts)
    ∧ ∀ t, t ∉ map snd ts → k'.(tcbs) !! t = k.(tcbs) !! t.
Proof.
  induction ts as [|[[[name p] stack] t] ts IH]; intros k Hk Hp Hnd Hf Hn; [exists k; simpl in *; split_and!; [done..|lia|done]|].
  inversion Hp as [|?? Hp0 Hps]; subst. cbn [map snd] in *. apply NoDup_cons in Hnd as [Hnt Hnd].
  assert (Hpos := number_positive k (kr_wf _ Hk)). cbn [length] in Hn.
  destruct (create_before name p stack t k Hk) as (k1 & E1 & Hk1 & T1 & _ & N1); [apply Hf; set_solver|done|lia|].
  destruct (IH k1 Hk1 Hps Hnd) as (k' & E' & Hk' & N' & T').
  - intros u Hu. rewrite T1, lookup_insert_ne; [apply Hf; set_solver|]. by intros ->.
  - lia.
  - exists k'. split_and!; [|done|simpl; lia|].
    + cbn [create_all]. eapply bind_some; [exact E1|]. exact E'.
    + intros u Hu. rewrite T' by set_solver. rewrite T1, lookup_insert_ne; [done|]. set_solver.
Qed.

(** The scheduler starts. *)
Lemma start_system_spec ts idle timer : fresh_tasks ts idle timer →
  ∃ k, start_system ts idle timer = Some k ∧ kinv k ∧ highest k ∧ k.(xTickCount) = 0
    ∧ k.(xIdleTaskHandle) = Some idle.2.
Proof.
  intros (Hne & Hp & Hnd & Hn). destruct ts as [|[[[name p] stack] t] ts]; [done|]. destruct idle as [si ti], timer as [st tt].
  inversion Hp as [|?? Hp0 Hps]; subst. cbn [map fst snd] in *. rewrite <- app_comm_cons in Hnd.
  apply NoDup_cons in Hnd as [Hnt Hnd]. apply NoDup_app in Hnd as (Hnd & Hdis & Hnd2).
  apply NoDup_cons in Hnd2 as [Hit _].
  destruct (create_first name p stack t Hp0) as (k1 & E1 & Hk1 & T1 & _ & N1). cbn [length] in Hn.
  destruct (create_all_spec ts k1 Hk1 Hps Hnd) as (k2 & E2 & Hk2 & N2 & T2).
  { intros u Hu. rewrite T1, lookup_singleton_ne; [done|]. set_solver. }
  { lia. }
  assert (Hfree : ∀ u, u ≠ t → u ∉ map snd ts → k2.(tcbs) !! u = None).
  { intros u H1 H2. rewrite T2, T1 by done. by rewrite lookup_singleton_ne. }
  destruct (start_spec ti tt si st k2 Hk2) as (k & E & Hk & Hh & Hid & Htk).
  { apply Hfree; set_solver. }
  { apply Hfree; set_solver. }
  { set_solver. }
  { lia. }
  exists k. split_and!; try done. unfold start_system. eapply bind_some; [|exact E].
  cbn [create_all]. eapply bind_some; [exact E1|]. exact E2.
Qed.

Lemma reachable_kinv allowed k : (prompt → ∀ c k, allowed c k → keeps_switch c k) → reachable allowed k → kinv k.
Proof.
  intros Hall. induction 1 as [ts idle timer k Hf E|c k k' Hr IH Hp Ha E].
  - destruct (start_system_spec ts idle timer Hf) as (k' & E' & Hk & _). congruence.
  - destruct (exec_kinv c k IH Hp) as (k'' & E' & Hk); [|congruence]. intros Hu. by apply Hall.
Qed.
End urgency.

(** The version of the invariant for the calls that are studied from here on: their
    switches are prompt. *)
#[export] Instance prompt_switches : Urgency := True.
