(* ===== verification/FrTasksTime.v ===== *)
(** FrTasksTime: delays.  How many ticks a blocked task still has to wait, over
    the overflow of the tick count, and ticks under a suspended scheduler. *)

From stdpp Require Import functions sorting.
From S2P Require Import Prelude FrList FrSeq FrKernel FrTasks FrTasksInv FrTasksMove FrTasksTick FrTasksSched FrTasksApi FrTasksLife FrTasksPrio FrNotify FrTasksSteps.

(** The ticks until a delayed task wakes. *)
Definition remaining (t : Z) (k : kernel) : option Z :=
  if decide (state t k = Some k.(pxDelayedTaskList)) then Some (k_value (xStateListItem t) k - k.(xTickCount))
  else if decide (state t k = Some k.(pxOverflowDelayedTaskList))
  then Some (k_value (xStateListItem t) k + 2 ^ 32 - k.(xTickCount))
  else None.

Lemma remaining_cases t j k : kwf None k → remaining t k = Some j →
  state t k = Some k.(pxDelayedTaskList) ∧ k_value (xStateListItem t) k = k.(xTickCount) + j
  ∨ state t k = Some k.(pxOverflowDelayedTaskList) ∧ k_value (xStateListItem t) k + 2 ^ 32 = k.(xTickCount) + j.
Proof.
  intros Hw. unfold remaining. destruct (decide (state t k = Some (pxDelayedTaskList k))) as [E|E].
  - intros [= <-]. left. split; [done|]. lia.
  - destruct (decide (state t k = Some (pxOverflowDelayedTaskList k))) as [E'|E']; [|done].
    intros [= <-]. right. split; [done|]. lia.
Qed.

Lemma remaining_intro t j k : kwf None k →
  state t k = Some k.(pxDelayedTaskList) ∧ k_value (xStateListItem t) k = k.(xTickCount) + j
  ∨ state t k = Some k.(pxOverflowDelayedTaskList) ∧ k_value (xStateListItem t) k + 2 ^ 32 = k.(xTickCount) + j →
  remaining t k = Some j.
Proof.
  intros Hw. destruct (delayed_other _ _ (w_pointers _ _ _ _ _ _ _ _ _ _ _ Hw)) as (Hdo & _).
  unfold remaining. intros [[-> V]|[-> V]].
  - rewrite decide_True by done. f_equal. lia.
  - rewrite decide_False, decide_True by (done || congruence). f_equal. lia.
Qed.

(** A waiting task is not ready. *)
Lemma remaining_not_ready t j k p : kwf None k → remaining t k = Some j → state t k ≠ Some (pxReadyTasksLists p).
Proof.
  intros Hw H. destruct (delayed_other _ _ (w_pointers _ _ _ _ _ _ _ _ _ _ _ Hw)) as (_ & Hr & _).
  destruct (Hr p). destruct (remaining_cases t j k Hw H) as [[-> _]|[-> _]]; congruence.
Qed.

Lemma remaining_positive t j k : kcore k → remaining t k = Some j → 0 < j.
Proof.
  intros [Hw Hs _ _ _ _ _] H. assert (T := w_tick _ _ _ _ _ _ _ _ _ _ _ Hw). unfold portMAX_DELAY in T.
  destruct (remaining_cases t j k Hw H) as [[E V]|[E V]].
  - specialize (Hs t E). lia.
  - destruct (w_overflow _ _ _ _ _ _ _ _ _ _ _ Hw t E). unfold k_value in V. lia.
Qed.

Lemma advance_overflow k : (advance k).(pxOverflowDelayedTaskList)
  = if u32 (k.(xTickCount) + 1) =? 0 then k.(pxDelayedTaskList) else k.(pxOverflowDelayedTaskList).
Proof.
  unfold advance. destruct (_ =? 0); [|done]. unfold taskSWITCH_DELAYED_LISTS, prvResetNextTaskUnblockTime.
  by destruct (head_owner _ _).
Qed.

(** One tick: a task that has one tick left becomes ready, the others have one
    tick less to wait. *)
Lemma increment_remaining k sw k' t j : kcore k → k.(uxSchedulerSuspended) = 0 →
  xTaskIncrementTick k = Some (sw, k') → remaining t k = Some j →
  if j =? 1 then (∃ c, tcb t k = Some c ∧ state t k' = Some (pxReadyTasksLists c.(uxPriority)))
  else remaining t k' = Some (j - 1).
Proof.
  intros Hc Hsu E H. assert (Hj := remaining_positive t j k Hc H). destruct Hc as [Hw Hs _ _ _ _ _].
  destruct (tick_spec k Hw Hs Hsu) as (sw' & k1 & E' & Hk' & _ & _ & R & _).
  rewrite E in E'. injection E' as <- <-. destruct (advance_fields k) as (F & L & Tk & Dl & _). assert (Ov := advance_overflow k).
  destruct (relisted_fields _ _ _ R) as (_&_&Fd&Fo&Ft&_). rewrite Dl in Fd. rewrite Ov in Fo. rewrite Tk in Ft.
  assert (V : ∀ x, k_value x k' = k_value x k) by (intros x; unfold k_value; by rewrite (rl_value _ _ _ R), L).
  assert (S : state t k' = if woken (u32 (xTickCount k + 1)) (advance k) t
     then (λ c, pxReadyTasksLists c.(uxPriority)) <$> tcb t k else state t k).
  { unfold state. rewrite (rl_container _ _ _ R). cbn. destruct (woken _ _ _); unfold tcb, state; [by rewrite (kf_tcbs _ _ F)|by rewrite L]. }
  assert (W := woken_spec (u32 (xTickCount k + 1)) (advance k) t). rewrite Dl in W.
  assert (Sa : state t (advance k) = state t k) by (unfold state; by rewrite L).
  assert (Va : k_value (xStateListItem t) (advance k) = k_value (xStateListItem t) k) by (unfold k_value; by rewrite L).
  rewrite Sa, Va in W. assert (T := w_tick _ _ _ _ _ _ _ _ _ _ _ Hw). unfold portMAX_DELAY in T.
  destruct (delayed_other _ _ (w_pointers _ _ _ _ _ _ _ _ _ _ _ Hw)) as (Hdo & _).
  assert (C : tcb t k ≠ None).
  { intros Hn. destruct (remaining_cases t j k Hw H) as [[Ht _]|[Ht _]];
      destruct (w_live _ _ _ _ _ _ _ _ _ _ _ Hw _ _ Ht) as [c Hx]; unfold tcb in Hn; cbn [owner] in Hx; congruence. }
  destruct (tcb t k) as [c|] eqn:Ec; [|done]. clear C. cbn [fmap option_fmap option_map] in S.
  assert (Hready : woken (u32 (xTickCount k + 1)) (advance k) t = true →
    ∃ c0, Some c = Some c0 ∧ state t k' = Some (pxReadyTasksLists c0.(uxPriority))).
  { intros Hwk. rewrite Hwk in S. eauto. }
  assert (Hstay : woken (u32 (xTickCount k + 1)) (advance k) t = false → state t k' = state t k).
  { intros Hwk. by rewrite Hwk in S. }
  assert (Hv := w_delayed _ _ _ _ _ _ _ _ _ _ _ Hw t). assert (Ho := w_overflow _ _ _ _ _ _ _ _ _ _ _ Hw t).
  fold (state t k) in Hv, Ho. fold (k_value (xStateListItem t) k) in Hv, Ho. unfold portMAX_DELAY in Hv.
  clear S Sa Va. destruct (woken _ _ t).
  - destruct (proj1 W eq_refl) as [Ht Hle]. rewrite (proj2 (Z.eqb_eq j 1)); [by auto|].
    destruct (remaining_cases t j k Hw H) as [[E1 E2]|[E1 E2]]; rewrite Ht in E1; revert Hle E1;
      destruct (Z.eqb_spec (u32 (xTickCount k + 1)) 0); intros Hle E1.
    + injection E1 as E1. congruence.
    + zsolve.
    + zsolve.
    + injection E1 as E1. congruence.
  - assert (Hnw : ¬ (state t k = Some (if u32 (xTickCount k + 1) =? 0 then pxOverflowDelayedTaskList k else pxDelayedTaskList k)
        ∧ k_value (xStateListItem t) k ≤ u32 (xTickCount k + 1))) by (intros Hx; by apply W in Hx).
    specialize (Hstay eq_refl). clear W Hready.
    destruct (remaining_cases t j k Hw H) as [[E1 E2]|[E1 E2]]; revert Hnw Fd Fo;
      destruct (Z.eqb_spec (u32 (xTickCount k + 1)) 0); intros Hnw Fd Fo.
    + destruct (Hv E1). specialize (Hs t E1). zsolve.
    + rewrite (proj2 (Z.eqb_neq j 1)); [|intros ->; apply Hnw; split; [done|zsolve]].
      apply remaining_intro; [done|]. left. rewrite Hstay, Fd, V, Ft. split; [done|zsolve].
    + rewrite (proj2 (Z.eqb_neq j 1)); [|intros ->; apply Hnw; split; [done|zsolve]].
      apply remaining_intro; [done|]. left. rewrite Hstay, Fd, V, Ft. split; [done|zsolve].
    + rewrite (proj2 (Z.eqb_neq j 1)); [|intros ->; specialize (Ho E1); zsolve].
      apply remaining_intro; [done|]. right. rewrite Hstay, Fo, V, Ft. split; [done|zsolve].
Qed.

(** ** Time passes *)

Lemma remaining_ext t k k' : state t k' = state t k → k_value (xStateListItem t) k' = k_value (xStateListItem t) k →
  k'.(xTickCount) = k.(xTickCount) → k'.(pxDelayedTaskList) = k.(pxDelayedTaskList) →
  k'.(pxOverflowDelayedTaskList) = k.(pxOverflowDelayedTaskList) → remaining t k' = remaining t k.
Proof. intros E1 E2 E3 E4 E5. unfold remaining. by rewrite E1, E2, E3, E4, E5. Qed.

Lemma switched_remaining t k k' : kswitched k k' → remaining t k' = remaining t k.
Proof. intros K. apply remaining_ext; apply K. Qed.

(** The tick interrupt. *)
Lemma tick_remaining k k' t j : kinv k → k.(uxSchedulerSuspended) = 0 → xPortSysTickHandle k = Some k' →
  remaining t k = Some j →
  kinv k' ∧ k'.(uxSchedulerSuspended) = 0
  ∧ if j =? 1 then (∃ c, tcb t k = Some c ∧ state t k' = Some (pxReadyTasksLists c.(uxPriority)))
    else remaining t k' = Some (j - 1).
Proof.
  intros Hk Hsu E H. destruct (tick_handler_steps k Hk) as (sw & k1 & k2 & E1 & E2 & Hk' & K).
  rewrite E in E2. injection E2 as <-. split; [done|].
  destruct (tick_spec k (kc_wf _ (proj1 Hk)) (kc_strict _ (proj1 Hk)) Hsu) as (sw' & k1' & E1' & _ & _ & F & _).
  rewrite E1 in E1'. injection E1' as <- <-.
  split; [by rewrite (sw_suspended _ _ K), (kf_suspended _ _ F)|].
  assert (G := increment_remaining k sw k1 t j (proj1 Hk) Hsu E1 H).
  destruct (j =? 1); [by rewrite (sw_state _ _ K)|by rewrite (switched_remaining t _ _ K)].
Qed.

(** The soft interrupt. *)
Lemma soft_remaining k k' t : kinv k → k.(uxSchedulerSuspended) = 0 → SV_ISR k = Some k' →
  kinv k' ∧ k'.(uxSchedulerSuspended) = 0 ∧ remaining t k' = remaining t k.
Proof.
  intros Hk Hsu E. destruct (sv_isr_spec k Hk) as (k1 & E1 & Hk1 & _). rewrite E in E1. injection E1 as <-.
  split; [done|]. unfold SV_ISR in E. destruct (pending_soft_sv k); [|by injection E as <-].
  destruct (switch_spec k (proj1 Hk)) as (k2 & E2 & _ & K & _). rewrite E2 in E. cbn [mbind option_bind] in E.
  injection E as <-. split; [by rewrite <- Hsu, <- (sw_suspended _ _ K)|]. by rewrite <- (switched_remaining t _ _ K).
Qed.

(** vTaskDelay. *)
Lemma delay_remaining n k k' t : kinv k → pre (Delay n) k → 0 < n → k.(pxCurrentTCB) = Some t → vTaskDelay n k = Some k' →
  kinv k' ∧ k'.(uxSchedulerSuspended) = 0 ∧ remaining t k' = Some n
  ∧ ∀ u, u ≠ t → remaining u k' = remaining u k.
Proof.
  intros Hk (Hs & Hsu & Hn & Hi) Hpos Ht E. destruct (current_live k Hk) as (t' & c & Ht' & Hc).
  rewrite Ht in Ht'. injection Ht' as <-. rewrite Ht in Hi.
  destruct (delay_spec n t c k Hk Hs Hsu Ht Hc) as (k1 & E1 & Hk1 & _ & S & V & S' & V' & _ & T & D & O & Su); [lia|congruence|].
  rewrite E in E1. injection E1 as <-. split_and!; [done..| |].
  - apply remaining_intro; [apply Hk1|]. rewrite S, V, T, D, O.
    assert (Tk := w_tick _ _ _ _ _ _ _ _ _ _ _ (kc_wf _ (proj1 Hk))). unfold wait_list, wake_time, portMAX_DELAY in *.
    rewrite andb_false_r. destruct (Z.ltb_spec (u32 (xTickCount k + n)) (xTickCount k)); [right|left]; (split; [done|zsolve]).
  - intros u Hu. apply remaining_ext; auto. apply V'. congruence.
Qed.

(** [passes n k k']: [n] tick interrupts happen between [k] and [k'], and in
    between context switches and calls of vTaskDelay and taskYIELD by whichever
    task is running. *)
Inductive passes : nat → kernel → kernel → Prop :=
  | pass_refl k : passes 0 k k
  | pass_tick n k k1 k2 : passes n k k1 → exec Tick k1 = Some k2 → passes (S n) k k2
  | pass_call n c k k1 k2 : passes n k k1 → c = SoftInterrupt ∨ c = Yield ∨ (∃ m, c = Delay m) →
      pre c k1 → exec c k1 = Some k2 → passes n k k2.

(** The running task is not one that waits. *)
Lemma current_not_waiting k t j : kinv k → task_runs k → remaining t k = Some j → k.(pxCurrentTCB) ≠ Some t.
Proof.
  intros Hk Hr H E. destruct (kinv_runnable k Hk Hr) as (u & c & Eu & _ & Su). rewrite E in Eu. injection Eu as <-.
  by apply (remaining_not_ready t j k c.(uxPriority) (kc_wf _ (proj1 Hk)) H).
Qed.

Lemma passes_remaining n k k' t j : passes n k k' → kinv k → k.(uxSchedulerSuspended) = 0 →
  remaining t k = Some j → Z.of_nat n < j →
  kinv k' ∧ k'.(uxSchedulerSuspended) = 0 ∧ remaining t k' = Some (j - Z.of_nat n).
Proof.
  intros Hp Hk Hsu Hj. induction Hp as [k|n k k1 k2 Hp IH E|n c k k1 k2 Hp IH Hcs Hpre E]; intros Hn.
  - by rewrite Z.sub_0_r.
  - destruct (IH Hk Hsu Hj) as (Hk1 & Hs1 & R1); [lia|].
    destruct (tick_remaining k1 k2 t _ Hk1 Hs1 E R1) as (Hk2 & Hs2 & R2). split_and!; [done..|].
    rewrite (proj2 (Z.eqb_neq _ _)) in R2 by lia. rewrite R2. f_equal. lia.
  - destruct (IH Hk Hsu Hj Hn) as (Hk1 & Hs1 & R1).
    destruct Hcs as [->|[->|[m ->]]]; cbn [exec pre] in *.
    + destruct (soft_remaining k1 k2 t Hk1 Hs1 E) as (H1 & H2 & ->). done.
    + destruct (exec_kinv Yield k1 Hk1 Hpre (λ _, I)) as (k2' & E' & Hk2). cbn [exec] in E'. rewrite E in E'. injection E' as <-.
      injection E as <-. done.
    + destruct (decide (m = 0)) as [->|Hm].
      * destruct (exec_kinv Yield k1 Hk1 (proj1 Hpre) (λ _, I)) as (k2' & E' & Hk2). injection E' as <-. injection E as <-. done.
      * destruct (current_live k1 Hk1) as (u & cu & Eu & _).
        destruct (delay_remaining m k1 k2 u Hk1 Hpre ltac:(destruct Hpre as (_&_&?&_); lia) Eu E) as (H1 & H2 & _ & H3).
        split_and!; [done..|]. rewrite H3; [done|]. intros ->.
        by apply (current_not_waiting k1 u _ Hk1 (proj1 Hpre) R1).
Qed.

(** ** Counting ticks *)

(** [n] tick interrupts. *)
Fixpoint ticks (n : nat) (k : kernel) : option kernel :=
  match n with O => Some k | S n => k ← xPortSysTickHandle k; ticks n k end.

(** With a running scheduler the tick and overflow counts follow the time. *)
Definition clock (k : kernel) : Z := k.(xNumOfOverflows) * 2 ^ 32 + k.(xTickCount).

Lemma advance_clock k : 0 ≤ k.(xTickCount) < 2 ^ 32 → k.(xNumOfOverflows) < 2 ^ 31 - 1 → - 2 ^ 31 ≤ k.(xNumOfOverflows) →
  clock (advance k) = clock k + 1.
Proof.
  intros T O1 O2. unfold clock, advance. destruct (Z.eqb_spec (u32 (xTickCount k + 1)) 0) as [E|E].
  - unfold taskSWITCH_DELAYED_LISTS, prvResetNextTaskUnblockTime. destruct (head_owner _ _); cbn -[s32 u32 Z.mul]; rewrite s32_small by lia; zsolve.
  - cbn -[u32 Z.mul]. zsolve.
Qed.

Lemma select_overflows k k' : taskSELECT_HIGHEST_PRIORITY_TASK k = Some k' → k'.(xNumOfOverflows) = k.(xNumOfOverflows).
Proof.
  unfold taskSELECT_HIGHEST_PRIORITY_TASK. destruct (find_priority _ _) as [n|]; [|done]. cbn [mbind option_bind].
  destruct (seq_next _ _) as [[x s]|]; [|done]. by intros [= <-].
Qed.

Lemma switch_overflows k k' : vTaskSwitchContext k = Some k' → k'.(xNumOfOverflows) = k.(xNumOfOverflows).
Proof.
  unfold vTaskSwitchContext. destruct (negb _); [by intros [= <-]|]. unfold taskCHECK_FOR_STACK_OVERFLOW. cbn [pxCurrentTCB set_xYieldPending].
  destruct (pxCurrentTCB k) as [t|]; [|done]. cbn [mbind option_bind]. destruct (tcb t _) as [c|]; [|done]. cbn [mbind option_bind].
  intros E. apply select_overflows in E. rewrite E. by destruct (bool_decide _).
Qed.

Lemma tick_clock k k' : kinv k → k.(uxSchedulerSuspended) = 0 → - 2 ^ 31 ≤ k.(xNumOfOverflows) < 2 ^ 31 - 1 →
  xPortSysTickHandle k = Some k' → kinv k' ∧ k'.(uxSchedulerSuspended) = 0 ∧ clock k' = clock k + 1.
Proof.
  intros Hk Hsu Ho E. destruct (tick_handler_steps k Hk) as (sw & k1 & k2 & E1 & E2 & Hk' & K).
  rewrite E in E2. injection E2 as <-. split; [done|].
  destruct (tick_spec k (kc_wf _ (proj1 Hk)) (kc_strict _ (proj1 Hk)) Hsu) as (sw' & k1' & E1' & _ & _ & F & R & _).
  rewrite E1 in E1'. injection E1' as <- <-. split; [by rewrite (sw_suspended _ _ K), (kf_suspended _ _ F)|].
  assert (T := w_tick _ _ _ _ _ _ _ _ _ _ _ (kc_wf _ (proj1 Hk))). unfold portMAX_DELAY in T.
  rewrite <- advance_clock by lia. unfold clock. rewrite (sw_tick _ _ K).
  assert (N : k'.(xNumOfOverflows) = k1.(xNumOfOverflows)).
  { unfold xPortSysTickHandle in E. rewrite E1 in E. cbn [mbind option_bind] in E. destruct sw; [by apply switch_overflows|by injection E as <-]. }
  rewrite N, (rl_kernel _ _ _ R). done.
Qed.

Lemma ticks_clock n : ∀ k, kinv k → k.(uxSchedulerSuspended) = 0 → 0 ≤ k.(xNumOfOverflows) →
  clock k + Z.of_nat n < 2 ^ 63 - 2 ^ 32 →
  ∃ k', ticks n k = Some k' ∧ kinv k' ∧ k'.(uxSchedulerSuspended) = 0 ∧ clock k' = clock k + Z.of_nat n.
Proof.
  induction n as [|n IH]; intros k Hk Hs Ho Hb; [exists k; rewrite Z.add_0_r; done|].
  assert (T := w_tick _ _ _ _ _ _ _ _ _ _ _ (kc_wf _ (proj1 Hk))). unfold portMAX_DELAY in T.
  destruct (tick_handler_spec k Hk) as (k1 & E & _).
  destruct (tick_clock k k1 Hk Hs) as (Hk1 & Hs1 & C1); [unfold clock in Hb; lia|done|].
  assert (T1 := w_tick _ _ _ _ _ _ _ _ _ _ _ (kc_wf _ (proj1 Hk1))). unfold portMAX_DELAY in T1.
  destruct (IH k1 Hk1 Hs1) as (k' & E' & Hk' & Hs' & C'); [unfold clock in *; lia|lia|].
  exists k'. split_and!; [|done..|lia]. cbn [ticks]. by rewrite E.
Qed.

(** Ticks under a suspended scheduler are only counted. *)
Lemma ticks_suspended n : ∀ k, kinv k → k.(uxSchedulerSuspended) ≠ 0 → k.(uxPendedTicks) + Z.of_nat n < 2 ^ 32 →
  ∃ k', ticks n k = Some k' ∧ kinv k' ∧ k'.(uxPendedTicks) = k.(uxPendedTicks) + Z.of_nat n
    ∧ k'.(xTickCount) = k.(xTickCount) ∧ k'.(uxSchedulerSuspended) = k.(uxSchedulerSuspended)
    ∧ k'.(pxCurrentTCB) = k.(pxCurrentTCB) ∧ k'.(lists) = k.(lists).
Proof.
  induction n as [|n IH]; intros k Hk Hs Hb; [exists k; rewrite Z.add_0_r; done|].
  destruct (tick_handler_spec k Hk) as (k1 & E & Hk1).
  assert (F : ∃ b, k1 = set_xYieldPending b (set_uxPendedTicks (k.(uxPendedTicks) + 1) k)).
  { assert (P := kc_pended _ (proj1 Hk)). revert E. unfold xPortSysTickHandle, xTaskIncrementTick.
    rewrite (proj2 (Z.eqb_neq _ _) Hs). cbn [mbind option_bind]. rewrite (u32_small (uxPendedTicks k + 1)) by lia.
    destruct (false || _); [|intros [= <-]; exists k.(xYieldPending); by destruct k].
    unfold vTaskSwitchContext. cbn [uxSchedulerSuspended set_uxPendedTicks].
    rewrite (proj2 (Z.eqb_neq _ _) Hs). intros [= <-]. by eexists. }
  destruct F as [b ->].
  destruct (IH _ Hk1) as (k' & E' & Hk' & P' & T' & S' & C' & L'); [done|cbn; lia|].
  exists k'. split_and!; try done; [cbn [ticks]; by rewrite E|rewrite P'; cbn [uxPendedTicks set_xYieldPending set_uxPendedTicks]; lia].
Qed.

(** xTaskCheckForTimeOut measures the time since vTaskSetTimeOutState. *)
Lemma check_time_out n w k k' : 0 ≤ k.(xTickCount) < 2 ^ 32 → 0 ≤ k'.(xTickCount) < 2 ^ 32 →
  clock k' = clock k + n → 0 ≤ n → k.(xTickCount) + n < 2 ^ 33 → 0 ≤ w < portMAX_DELAY →
  xTaskCheckForTimeOut (vTaskSetTimeOutState k) w k'
  = if w <=? n then (true, vTaskSetTimeOutState k, w) else (false, vTaskSetTimeOutState k', w - n).
Proof.
  intros T T' C Hn Hb Hw. unfold xTaskCheckForTimeOut, portMAX_DELAY, clock in *.
  rewrite (proj2 (Z.eqb_neq w _)) by lia. cbn [xOverflowCount xTimeOnEntering vTaskSetTimeOutState].
  assert (Hcase : k'.(xNumOfOverflows) = k.(xNumOfOverflows) ∨ k'.(xNumOfOverflows) = k.(xNumOfOverflows) + 1) by lia.
  destruct (Z.eqb_spec (xNumOfOverflows k') (xNumOfOverflows k)) as [E|E]; cbn [negb andb].
  - assert (D : u32 (xTickCount k' - xTickCount k) = n) by zsolve. rewrite D.
    destruct (Z.ltb_spec n w), (Z.leb_spec w n); try lia; [|done]. by rewrite u32_small by lia.
  - destruct (Z.leb_spec (xTickCount k) (xTickCount k')) as [L|L].
    + destruct (Z.leb_spec w n); [done|lia].
    + assert (D : u32 (xTickCount k' - xTickCount k) = n) by zsolve. rewrite D.
      destruct (Z.ltb_spec n w), (Z.leb_spec w n); try lia; [|done]. by rewrite u32_small by lia.
Qed.
