(* ===== verification/FrTasksTheorems.v ===== *)
(** FrTasksTheorems: the correctness of the scheduler. *)

From stdpp Require Import functions sorting.
From S2P Require Import Prelude FrList FrSeq FrKernel FrTasks FrTasksInv FrTasksMove FrTasksTick FrTasksSched FrTasksApi FrTasksLife FrTasksPrio FrNotify FrTasksSteps FrTasksTime.

(** ** A system for the witnesses: two tasks of priority 3 and one of priority 1. *)

Definition demo_tasks : list (list Z * Z * Z * Z) :=
  [([65], 3, 101, 100); ([66], 3, 111, 110); ([67], 1, 121, 120)].

Definition demo_kernel : kernel := default boot (start_system demo_tasks (200, 201) (210, 211)).

Definition demo_after (cs : list kcall) : kernel :=
  default boot (foldl (λ k c, k ≫= exec c) (Some demo_kernel) cs).

Lemma demo_fresh : fresh_tasks demo_tasks (200, 201) (210, 211).
Proof.
  split_and!; [done|repeat constructor; simpl; lia| |simpl; lia].
  apply (bool_decide_unpack (NoDup [100; 110; 120; 201; 211])). reflexivity.
Qed.

Lemma demo_start : start_system demo_tasks (200, 201) (210, 211) = Some demo_kernel.
Proof.
  destruct (start_system_spec _ _ _ demo_fresh) as (k & E & _). unfold demo_kernel. by rewrite E.
Qed.

Lemma demo_reachable allowed : reachable allowed demo_kernel.
Proof. exact (reach_start allowed _ _ _ _ demo_fresh demo_start). Qed.

Lemma demo_kinv : kinv demo_kernel.
Proof. by apply (reachable_kinv keeps_switch), demo_reachable. Qed.

(** Task 100 waits for an event of the object at address 5000, and the next task runs. *)
Definition demo_event : kernel := default boot (exec SoftInterrupt (default boot (exec (WaitOn (OnList 5000 9)) demo_kernel))).

Lemma reach_exec c k : reachable keeps_switch k → pre c k → keeps_switch c k → reachable keeps_switch (default boot (exec c k)).
Proof.
  intros Hr Hp Ha. destruct (exec_kinv c k) as (k' & E & _); [by apply (reachable_kinv keeps_switch)|done|done|].
  rewrite E. by eapply reach_step.
Qed.

Lemma reachable_any allowed k : reachable allowed k → reachable any_step k.
Proof. induction 1 as [|c k k' _ IH Hp _ E]; [by eapply reach_start|by eapply (reach_step _ c k)]. Qed.

Lemma demo_event_reachable : reachable keeps_switch demo_event.
Proof.
  unfold demo_event. apply reach_exec; [|done|done]. apply reach_exec; [apply demo_reachable| |done].
  split; [vm_compute; reflexivity|]. split; [split; [vm_compute; reflexivity|vm_compute; discriminate]|]. split; [by vm_compute|].
  intros t Ht. vm_compute in Ht. injection Ht as <-. vm_compute. reflexivity.
Qed.

Lemma delay_succeeds n k : kinv k → pre (Delay n) k → ∃ k', vTaskDelay n k = Some k' ∧ kinv k'.
Proof. intros Hk Hp. by apply (exec_kinv (Delay n)). Qed.

(** Whatever tasks (at least one, with any priorities)
    the application creates before it starts the scheduler, when memory is
    available creation and start succeed; the scheduler runs at tick 0 with its
    invariant, the idle task of vTaskStartScheduler is recorded, and the task
    that runs is ready and no ready task has a higher priority. *)
Theorem scheduler_starts ts idle timer : fresh_tasks ts idle timer →
  ∃ k, start_system ts idle timer = Some k ∧ kinv k ∧ highest k ∧ k.(xTickCount) = 0
    ∧ k.(xIdleTaskHandle) = Some idle.2.
Proof. apply start_system_spec. Qed.

Lemma scheduler_starts_witness : ∃ k, start_system demo_tasks (200, 201) (210, 211) = Some k ∧ kinv k ∧ highest k
  ∧ k.(xTickCount) = 0 ∧ k.(xIdleTaskHandle) = Some 201.
Proof. exact (scheduler_starts demo_tasks (200, 201) (210, 211) demo_fresh). Defined.

(** C1: in every state that is reached from the start of the
    scheduler by the interrupts and calls of kcall in any order (the ticks and switches;
    creating, deleting, delaying, suspending and resuming tasks, setting and inheriting
    priorities; putting the running task into an event list and waking the first task of
    one, from tasks and interrupts; notifications from tasks and interrupts, and the
    give of a mutex as xQueueGenericSend makes it), the invariant of the
    kernel holds (every task is in exactly one of the lists that fit its state
    and priority, the delayed lists are ordered by wake time, no wake time is
    missed, all counts are right, the idle task is ready, a task that runs is ready), and every one
    of them that is allowed there succeeds: no list is
    corrupted, no dangling TCB is used and the search for a ready task ends.  Allowed is
    what the documentation and the assertions of tasks.c ask for (pre); among these that
    a task that is notified while it waits for a notification is in no event list, which does not
    hold after vTaskResumeFromISR moved it (notification_after_resume_faults).  That the
    running task has the highest priority is not part of this. *)
Theorem scheduler_safe k : reachable any_step k →
  @kinv loose k ∧ ∀ c, pre c k → ∃ k', exec c k = Some k' ∧ @kinv loose k' ∧ reachable any_step k'.
Proof.
  intros Hr. assert (Hk : @kinv loose k) by (apply (reachable_kinv any_step); [intros []|done]). split; [done|]. intros c Hp.
  destruct (@exec_kinv loose c k Hk Hp) as (k' & E & Hk'); [intros []|]. exists k'. split_and!; [done..|by eapply reach_step].
Qed.

Lemma scheduler_safe_witness : ∃ k', exec (Signal (EventList 5000)) demo_event = Some k' ∧ @kinv loose k' ∧ reachable any_step k'.
Proof.
  apply (proj2 (scheduler_safe demo_event (reachable_any _ _ demo_event_reachable))).
  split; [done|]. exists 100. split; vm_compute; reflexivity.
Defined.

(** C9: in every state that is reached by the steps of kcall, as
    long as each give of a mutex that takes an inherited priority back and wakes a task
    makes a switch (keeps_switch; xQueueGenericSend can drop it, give_without_switch), when no context
    switch is pending the task that runs is in the ready list of its priority
    and no ready task has a higher priority; where a switch is pending and the
    scheduler is not suspended, the soft interrupt brings this about. *)
Theorem highest_priority_runs k : reachable keeps_switch k →
  (k.(pending_soft_sv) = false → k.(xYieldPending) = false → highest k)
  ∧ (k.(pending_soft_sv) = true → k.(uxSchedulerSuspended) = 0 →
     ∃ k', SV_ISR k = Some k' ∧ k'.(pending_soft_sv) = false ∧ k'.(xYieldPending) = false ∧ highest k'
       ∧ k'.(tcbs) = k.(tcbs) ∧ ∀ t, state t k' = state t k).
Proof.
  intros Hr. assert (Hk : kinv k) by by apply (reachable_kinv keeps_switch). split; [intros H1 H2; by apply (pr_highest _ (proj2 Hk))|]. intros Hs Hu.
  destruct (switch_spec k (proj1 Hk)) as (k1 & E & _ & K & H). rewrite Hu in H. destruct H as [Hy Hh].
  exists (set_pending_soft_sv false k1). split_and!; try done; [|apply K..].
  unfold SV_ISR. by rewrite Hs, E.
Qed.

Lemma highest_priority_runs_witness : highest demo_event.
Proof. apply (proj1 (highest_priority_runs demo_event demo_event_reachable)); vm_compute; reflexivity. Defined.

(** C13: a task that calls vTaskDelay(n) is not ready in
    any state of the following n - 1 ticks, whatever context switches, yields
    and delays of other tasks happen in between, and the n-th tick interrupt
    makes it ready at its priority.  This includes the overflow of the tick
    count and the switch of the two delayed lists. *)
Theorem delay_wakes_on_time n t k k1 m k2 : kinv k → pre (Delay n) k → 0 < n → k.(pxCurrentTCB) = Some t →
  vTaskDelay n k = Some k1 → passes m k1 k2 → Z.of_nat m < n →
  (∀ p, state t k2 ≠ Some (pxReadyTasksLists p))
  ∧ (Z.of_nat m + 1 = n → ∃ k3 c, xPortSysTickHandle k2 = Some k3 ∧ tcb t k2 = Some c
       ∧ state t k3 = Some (pxReadyTasksLists c.(uxPriority))).
Proof.
  intros Hk Hp Hn Ht E Hps Hm. destruct (delay_remaining n k k1 t Hk Hp Hn Ht E) as (Hk1 & Hs1 & R1 & _).
  destruct (passes_remaining m k1 k2 t n Hps Hk1 Hs1 R1 Hm) as (Hk2 & Hs2 & R2). split.
  - intros p. eapply remaining_not_ready; [apply Hk2|exact R2].
  - intros Hlast. destruct (tick_handler_spec k2 Hk2) as (k3 & E3 & _).
    destruct (tick_remaining k2 k3 t _ Hk2 Hs2 E3 R2) as (_ & _ & H).
    rewrite (proj2 (Z.eqb_eq _ 1)) in H by lia. destruct H as (c & Ec & Hst). by exists k3, c.
Qed.

(** The demo at its last tick before the overflow. *)
Definition demo_late : kernel := set_xTickCount (2 ^ 32 - 1) demo_kernel.

Lemma not_in_empty t l k : kinv k → k.(lists).(elems) l = [] → state t k ≠ Some l.
Proof.
  intros [Hc _] E H. apply (ok_in _ (w_store _ _ _ _ _ _ _ _ _ _ _ (kc_wf _ Hc))) in H. rewrite E in H.
  by apply not_elem_of_nil in H.
Qed.

(** The clock may be set while nobody waits. *)
Lemma set_clock_kinv v k : kinv k → 0 ≤ v ≤ portMAX_DELAY → k.(lists).(elems) xDelayedTaskList1 = [] →
  k.(lists).(elems) xDelayedTaskList2 = [] → kinv (set_xTickCount v k).
Proof.
  intros Hk Hv E1 E2.
  assert (D : ∀ t, state t k ≠ Some k.(pxDelayedTaskList) ∧ state t k ≠ Some k.(pxOverflowDelayedTaskList)).
  { intros t. assert (N1 := not_in_empty t _ k Hk E1). assert (N2 := not_in_empty t _ k Hk E2).
    destruct (w_pointers _ _ _ _ _ _ _ _ _ _ _ (kc_wf _ (proj1 Hk))) as [[-> ->]|[-> ->]]; done. }
  destruct Hk as [[Hw Hs Hi Hr Hsu Hpe Hq] [P1 P2]]. split; [|by split].
  split; try done; [|intros t E; by destruct (D t)].
  destruct Hw. unfold kwf. split; try done; intros t E; by destruct (D t).
Qed.

Lemma demo_late_kinv : kinv demo_late.
Proof. apply set_clock_kinv; [exact demo_kinv|unfold portMAX_DELAY; lia|vm_compute; reflexivity..]. Qed.

Lemma delay_wakes_on_time_witness : ∃ k1 k2 k3 c, vTaskDelay 2 demo_late = Some k1
  ∧ xPortSysTickHandle k1 = Some k2 ∧ xPortSysTickHandle k2 = Some k3 ∧ tcb 100 k2 = Some c
  ∧ state 100 k3 = Some (pxReadyTasksLists c.(uxPriority)).
Proof.
  assert (Hp : pre (Delay 2) demo_late).
  { refine (conj _ (conj _ (conj _ _))); [vm_compute; reflexivity..|unfold portMAX_DELAY; lia|vm_compute; discriminate]. }
  assert (Hc : demo_late.(pxCurrentTCB) = Some 100) by (vm_compute; reflexivity).
  destruct (delay_succeeds 2 demo_late demo_late_kinv Hp) as (k1 & E1 & Hk1).
  destruct (tick_handler_spec k1 Hk1) as (k2 & E2 & _).
  destruct (proj2 (delay_wakes_on_time 2 100 demo_late k1 1 k2 demo_late_kinv Hp ltac:(lia) Hc E1
    (pass_tick 0 k1 k1 k2 (pass_refl k1) E2) ltac:(lia)) ltac:(lia)) as (k3 & c & E3 & Ec & S).
  exists k1, k2, k3, c. exact (conj E1 (conj E2 (conj E3 (conj Ec S)))).
Defined.

(** While the scheduler is suspended, tick
    interrupts neither switch tasks nor move one between lists nor count on;
    they are kept, and resuming the scheduler adds all of them to the tick count
    (modulo 2^32) and leaves a kernel that satisfies its invariant. *)
Theorem suspended_ticks_are_kept n k : kinv k → k.(uxSchedulerSuspended) = 1 →
  k.(uxPendedTicks) + Z.of_nat n < 2 ^ 32 →
  ∃ k1 ay k2, ticks n k = Some k1
    ∧ k1.(pxCurrentTCB) = k.(pxCurrentTCB) ∧ k1.(xTickCount) = k.(xTickCount) ∧ k1.(lists) = k.(lists)
    ∧ xTaskResumeAll k1 = Some (ay, k2) ∧ kinv k2 ∧ k2.(uxSchedulerSuspended) = 0
    ∧ k2.(uxPendedTicks) = 0
    ∧ k2.(xTickCount) = u32 (k.(xTickCount) + k.(uxPendedTicks) + Z.of_nat n).
Proof.
  intros Hk Hs Hb. destruct (ticks_suspended n k Hk ltac:(lia) Hb) as (k1 & E1 & Hk1 & P1 & T1 & S1 & C1 & L1).
  destruct (resume_all_spec k1 (proj1 Hk1) ltac:(lia)) as (ay & k2 & E2 & Hc2 & _ & S2 & _ & Hp2 & T2 & _).
  exists k1, ay, k2. assert (S0 : k2.(uxSchedulerSuspended) = 0) by lia. split_and!; try done.
  - split; [done|apply Hp2, Hk1].
  - by apply (kc_quiet _ Hc2).
  - rewrite (proj1 (T2 S0)), T1, P1. f_equal. lia.
Qed.

Lemma suspend_kinv k : kinv k → k.(uxSchedulerSuspended) = 0 → k.(pending_soft_sv) = false →
  kinv (vTaskSuspendAll k) ∧ (vTaskSuspendAll k).(uxSchedulerSuspended) = 1.
Proof.
  intros Hk Hs Hp. destruct (suspend_all_spec k Hk) as [H E]; [lia|by apply kinv_runnable|]. split; [done|]. rewrite E. lia.
Qed.

Lemma demo_suspended : kinv (vTaskSuspendAll demo_kernel) ∧ (vTaskSuspendAll demo_kernel).(uxSchedulerSuspended) = 1.
Proof. apply suspend_kinv; [exact demo_kinv|vm_compute; reflexivity..]. Qed.

Lemma suspended_ticks_are_kept_witness : ∃ k1 ay k2, ticks 3 (vTaskSuspendAll demo_kernel) = Some k1
  ∧ xTaskResumeAll k1 = Some (ay, k2)
  ∧ k2.(xTickCount) = u32 ((vTaskSuspendAll demo_kernel).(xTickCount) + (vTaskSuspendAll demo_kernel).(uxPendedTicks) + 3).
Proof.
  destruct (suspended_ticks_are_kept 3 _ (proj1 demo_suspended) (proj2 demo_suspended)) as
    (k1 & ay & k2 & E1 & _ & _ & _ & E2 & _ & _ & _ & T); [vm_compute; reflexivity|].
  exists k1, ay, k2. exact (conj E1 (conj E2 T)).
Defined.

(** C35: a time-out that is set at one moment and checked n
    ticks later, over an overflow of the tick count, reports that w ticks have
    passed exactly when n is at least w; otherwise it restarts with w - n ticks
    left.  (The reach of the counters is less than two overflows.) *)
Theorem time_out_is_exact n w k : kinv k → k.(uxSchedulerSuspended) = 0 → 0 ≤ k.(xNumOfOverflows) →
  clock k + Z.of_nat n < 2 ^ 63 - 2 ^ 32 → k.(xTickCount) + Z.of_nat n < 2 ^ 33 → 0 ≤ w < portMAX_DELAY →
  ∃ k', ticks n k = Some k' ∧ kinv k'
    ∧ xTaskCheckForTimeOut (vTaskSetTimeOutState k) w k'
      = if w <=? Z.of_nat n then (true, vTaskSetTimeOutState k, w)
        else (false, vTaskSetTimeOutState k', w - Z.of_nat n).
Proof.
  intros Hk Hs Ho Hb Hb' Hw. destruct (ticks_clock n k Hk Hs Ho Hb) as (k' & E & Hk' & _ & C).
  assert (T := w_tick _ _ _ _ _ _ _ _ _ _ _ (kc_wf _ (proj1 Hk))).
  assert (T' := w_tick _ _ _ _ _ _ _ _ _ _ _ (kc_wf _ (proj1 Hk'))). unfold portMAX_DELAY in T, T'.
  exists k'. split_and!; [done..|]. apply check_time_out; try done; lia.
Qed.

Lemma time_out_is_exact_witness : ∃ k', ticks 5 demo_late = Some k'
  ∧ xTaskCheckForTimeOut (vTaskSetTimeOutState demo_late) 7 k' = (false, vTaskSetTimeOutState k', 2).
Proof.
  destruct (time_out_is_exact 5 7 demo_late demo_late_kinv) as (k' & E & _ & C);
    [vm_compute; reflexivity|vm_compute; discriminate|vm_compute; reflexivity..|unfold portMAX_DELAY; lia|].
  exists k'. exact (conj E C).
Defined.

(** When the running task waits for a mutex, the
    holder gets the larger of its own and the running task's priority, keeps
    its base priority, and moves to the ready list of the new priority if it
    was ready; no other task changes its list, and the invariant holds, so the
    scheduler goes by the inherited priority. *)
Theorem priority_inheritance t c k : kinv k → tcb t k = Some c →
  ∃ k' p, vTaskPriorityInherit (Some t) k = Some k' ∧ kinv k' ∧ current_priority k = Some p
    ∧ k'.(tcbs) = <[t := set_uxPriority (Z.max c.(uxPriority) p) c]> k.(tcbs)
    ∧ (state t k = Some (pxReadyTasksLists c.(uxPriority)) →
       state t k' = Some (pxReadyTasksLists (Z.max c.(uxPriority) p)))
    ∧ (state t k ≠ Some (pxReadyTasksLists c.(uxPriority)) → state t k' = state t k)
    ∧ ∀ u, u ≠ t → state u k' = state u k.
Proof.
  intros Hk Hc. destruct (inherit_spec t c k Hk Hc) as (k' & p & E & Hk' & Hp & R).
  exists k', p. assert (S := rp_state _ _ _ _ _ R).
  split_and!; [done..|apply R| | |apply R]; intros Hs; rewrite S; case_decide; done.
Qed.

Lemma priority_inheritance_witness : ∃ k' p, vTaskPriorityInherit (Some 120) demo_kernel = Some k' ∧ kinv k'
  ∧ current_priority demo_kernel = Some p ∧ state 120 k' = Some (pxReadyTasksLists (Z.max 1 p)).
Proof.
  assert (Hc : tcb 120 demo_kernel = Some (new_tcb [67] 1 121)) by (vm_compute; reflexivity).
  destruct (priority_inheritance 120 _ demo_kernel demo_kinv Hc) as (k' & p & E & Hk' & Hp & _ & S & _).
  exists k', p. refine (conj E (conj Hk' (conj Hp (S _)))). vm_compute. reflexivity.
Defined.

(** When the running task gives back its last
    mutex, its priority falls back to its base priority; with other mutexes
    still held it keeps the inherited one.  A context switch is asked for when
    the priority fell, and with it the invariant holds. *)
Theorem priority_disinheritance t c k : kinv k → tcb t k = Some c → k.(pxCurrentTCB) = Some t →
  k.(pending_soft_sv) = false →
  ∃ b k', xTaskPriorityDisinherit (Some t) k = Some (b, k')
    ∧ kinv (if b : bool then portYIELD_WITHIN_API k' else k')
    ∧ tcb t k' = Some (let c1 := set_uxMutexesHeld (u32 (c.(uxMutexesHeld) - 1)) c in
        if negb (c.(uxPriority) =? c.(uxBasePriority)) && (c1.(uxMutexesHeld) =? 0)
        then set_uxPriority c.(uxBasePriority) c1 else c1)
    ∧ ∀ u, u ≠ t → tcb u k' = tcb u k ∧ state u k' = state u k.
Proof.
  intros Hk Hc Ht Hs. destruct (disinherit_spec t c k Hk Hc Ht) as (b & k' & E & Hk' & R); [by apply kinv_runnable|].
  exists b, k'. split_and!; [done..| |].
  - unfold tcb. by rewrite (rp_tcbs _ _ _ _ _ R), lookup_insert_eq.
  - intros u Hu. split; [|by apply R]. unfold tcb. by rewrite (rp_tcbs _ _ _ _ _ R), lookup_insert_ne.
Qed.

Lemma priority_disinheritance_witness : ∃ b k', xTaskPriorityDisinherit (Some 100) demo_kernel = Some (b, k')
  ∧ kinv (if b : bool then portYIELD_WITHIN_API k' else k').
Proof.
  assert (Hc : tcb 100 demo_kernel = Some (new_tcb [65] 3 101)) by (vm_compute; reflexivity).
  destruct (priority_disinheritance 100 _ demo_kernel demo_kinv Hc) as (b & k' & E & Hk' & _);
    [vm_compute; reflexivity..|]. exists b, k'. exact (conj E Hk').
Defined.


