(* ===== verification/FrQueue.v ===== *)
(** FrQueue: queues, semaphores and mutexes, FreeRTOS/Source/queue.c.

    A queue is the Queue_t structure and the bytes behind it, at the address
    [self].  An access outside of those bytes is a fault, [None].  A call that
    may block is a loop of two phases: a critical section that tries, and the
    blocking phase under the suspended scheduler.  The blocking phase has gaps
    in which interrupts happen; what other tasks do happens between phases. *)

From stdpp Require Import functions.
From S2P Require Import Prelude FrList FrSeq FrKernel FrTasks.

Definition queueUNLOCKED : Z := -1.
Definition queueLOCKED_UNMODIFIED : Z := 0.
Definition queueSEND_TO_BACK : Z := 0.
Definition queueSEND_TO_FRONT : Z := 1.
Definition queueOVERWRITE : Z := 2.
Definition errQUEUE_EMPTY : Z := 0.
Definition errQUEUE_FULL : Z := 0.
Definition sizeof_Queue_t : Z := 72.

(** [pcHead] is also uxQueueType and [pcTail] is also pxMutexHolder; [u] is
    pcReadFrom or uxRecursiveCallCount.  Null is 0. *)
Record Queue_t := {
  self : Z;
  pcHead : Z;
  pcTail : Z;
  pcWriteTo : Z;
  u : Z;
  uxMessagesWaiting : Z;
  uxLength : Z;
  uxItemSize : Z;
  cRxLock : Z;
  cTxLock : Z;
  storage : list Z;
}.

Definition eta_Queue_t (q : Queue_t) : Queue_t := {|
  self := q.(self); pcHead := q.(pcHead); pcTail := q.(pcTail); pcWriteTo := q.(pcWriteTo); u := q.(u);
  uxMessagesWaiting := q.(uxMessagesWaiting); uxLength := q.(uxLength); uxItemSize := q.(uxItemSize);
  cRxLock := q.(cRxLock); cTxLock := q.(cTxLock); storage := q.(storage) |}.

Definition set_pcHead : Z → Queue_t → Queue_t := ltac:(field_setter eta_Queue_t pcHead).
Definition set_pcTail : Z → Queue_t → Queue_t := ltac:(field_setter eta_Queue_t pcTail).
Definition set_pcWriteTo : Z → Queue_t → Queue_t := ltac:(field_setter eta_Queue_t pcWriteTo).
Definition set_u : Z → Queue_t → Queue_t := ltac:(field_setter eta_Queue_t u).
Definition set_uxMessagesWaiting : Z → Queue_t → Queue_t := ltac:(field_setter eta_Queue_t uxMessagesWaiting).
Definition set_cRxLock : Z → Queue_t → Queue_t := ltac:(field_setter eta_Queue_t cRxLock).
Definition set_cTxLock : Z → Queue_t → Queue_t := ltac:(field_setter eta_Queue_t cTxLock).
Definition set_storage : list Z → Queue_t → Queue_t := ltac:(field_setter eta_Queue_t storage).

(** The two event lists inside of the structure, at their offsets. *)
Definition xTasksWaitingToSend (q : Queue_t) : lid := EventList (q.(self) + 16).
Definition xTasksWaitingToReceive (q : Queue_t) : lid := EventList (q.(self) + 36).

Definition is_mutex (q : Queue_t) : bool := q.(pcHead) =? 0.

(** The task handle that a pointer is. *)
Definition handle (p : Z) : option Z := if p =? 0 then None else Some p.

(** memcpy to and from the bytes behind the structure. *)
Definition copy_in (p : Z) (bs : list Z) (n : Z) (q : Queue_t) : option Queue_t :=
  let o := p - (q.(self) + sizeof_Queue_t) in
  if (0 <=? o) && (o + n <=? zlength q.(storage)) && (n <=? zlength bs)
  then Some (set_storage (take (Z.to_nat o) q.(storage) ++ take (Z.to_nat n) bs
                          ++ drop (Z.to_nat (o + n)) q.(storage)) q)
  else None.

Definition copy_out (p n : Z) (q : Queue_t) : option (list Z) :=
  let o := p - (q.(self) + sizeof_Queue_t) in
  if (0 <=? o) && (o + n <=? zlength q.(storage)) then Some (sub_list q.(storage) o n) else None.

(** The queue and the kernel. *)
Abbreviation qk := (Queue_t * kernel)%type.

(** ** Moving data *)

(** Returns whether a priority was disinherited. *)
Definition prvCopyDataToQueue (pvItemToQueue : list Z) (xPosition : Z) (s : qk) : option (bool * qk) :=
  let '(q, k) := s in
  let uxMessagesWaiting := q.(uxMessagesWaiting) in
  '(xReturn, uxMessagesWaiting, q, k) ←
    (if q.(uxItemSize) =? 0 then
       if is_mutex q then
         '(r, k) ← xTaskPriorityDisinherit (handle q.(pcTail)) k;
         Some (r, uxMessagesWaiting, set_pcTail 0 q, k)
       else Some (false, uxMessagesWaiting, q, k)
     else if xPosition =? queueSEND_TO_BACK then
       q ← copy_in q.(pcWriteTo) pvItemToQueue q.(uxItemSize) q;
       let q := set_pcWriteTo (u32 (q.(pcWriteTo) + q.(uxItemSize))) q in
       let q := if q.(pcTail) <=? q.(pcWriteTo) then set_pcWriteTo q.(pcHead) q else q in
       Some (false, uxMessagesWaiting, q, k)
     else
       q ← copy_in q.(u) pvItemToQueue q.(uxItemSize) q;
       let q := set_u (u32 (q.(u) - q.(uxItemSize))) q in
       let q := if q.(u) <? q.(pcHead) then set_u (u32 (q.(pcTail) - q.(uxItemSize))) q else q in
       Some (false, (if (xPosition =? queueOVERWRITE) && (0 <? uxMessagesWaiting)
                     then u32 (uxMessagesWaiting - 1) else uxMessagesWaiting), q, k));
  Some (xReturn, (set_uxMessagesWaiting (u32 (uxMessagesWaiting + 1)) q, k)).

Definition prvCopyDataFromQueue (q : Queue_t) : option (list Z * Queue_t) :=
  if negb (q.(uxItemSize) =? 0) then
    let q := set_u (u32 (q.(u) + q.(uxItemSize))) q in
    let q := if q.(pcTail) <=? q.(u) then set_u q.(pcHead) q else q in
    bs ← copy_out q.(u) q.(uxItemSize) q;
    Some (bs, q)
  else Some ([], q).

(** ** Locks *)

Definition prvLockQueue (q : Queue_t) : Queue_t :=
  let q := if q.(cRxLock) =? queueUNLOCKED then set_cRxLock queueLOCKED_UNMODIFIED q else q in
  if q.(cTxLock) =? queueUNLOCKED then set_cTxLock queueLOCKED_UNMODIFIED q else q.

(** Wake up to [n] tasks of an event list; the loop of prvUnlockQueue. *)
Fixpoint unlock_loop (n : nat) (l : lid) (k : kernel) : option kernel :=
  match n with
  | O => Some k
  | S n' =>
      if is_empty l k then Some k
      else
        '(b, k) ← xTaskRemoveFromEventList l k;
        unlock_loop n' l (if b : bool then vTaskMissedYield k else k)
  end.

(** The two critical sections of prvUnlockQueue. *)
Definition unlock_tx (s : qk) : option qk :=
  let '(q, k) := s in
  k ← unlock_loop (Z.to_nat q.(cTxLock)) (xTasksWaitingToReceive q) k;
  Some (set_cTxLock queueUNLOCKED q, k).

Definition unlock_rx (s : qk) : option qk :=
  let '(q, k) := s in
  k ← unlock_loop (Z.to_nat q.(cRxLock)) (xTasksWaitingToSend q) k;
  Some (set_cRxLock queueUNLOCKED q, k).

(** ** Creating and deleting *)

Definition xQueueGenericReset (xNewQueue : bool) (s : qk) : option (Z * qk) :=
  let '(q, k) := s in
  let q := set_pcTail (u32 (q.(pcHead) + u32 (q.(uxLength) * q.(uxItemSize)))) q in
  let q := set_uxMessagesWaiting 0 q in
  let q := set_pcWriteTo q.(pcHead) q in
  let q := set_u (u32 (q.(pcHead) + u32 (u32 (q.(uxLength) - 1) * q.(uxItemSize)))) q in
  let q := set_cRxLock queueUNLOCKED q in
  let q := set_cTxLock queueUNLOCKED q in
  if xNewQueue then
    let k := k_initialise (xTasksWaitingToSend q) k in
    let k := k_initialise (xTasksWaitingToReceive q) k in
    Some (pdPASS, (q, k))
  else if is_empty (xTasksWaitingToSend q) k then Some (pdPASS, (q, k))
  else
    '(b, k) ← xTaskRemoveFromEventList (xTasksWaitingToSend q) k;
    Some (pdPASS, (q, if b : bool then portYIELD_WITHIN_API k else k)).

(** The structure at [a]; what malloc left in the storage is [junk]. *)
Definition prvInitialiseNewQueue (uxQueueLength uxItemSize a : Z) (junk : list Z) (k : kernel) : option qk :=
  let q := {| self := a; pcHead := if uxItemSize =? 0 then a else a + sizeof_Queue_t; pcTail := 0; pcWriteTo := 0;
              u := 0; uxMessagesWaiting := 0; uxLength := uxQueueLength; uxItemSize := uxItemSize;
              cRxLock := 0; cTxLock := 0; storage := junk |} in
  '(_, s) ← xQueueGenericReset true (q, k); Some s.

(** The number of bytes that xQueueGenericCreate asks malloc for. *)
Definition queue_bytes (uxQueueLength uxItemSize : Z) : Z :=
  u32 (sizeof_Queue_t + if uxItemSize =? 0 then 0 else u32 (uxQueueLength * uxItemSize)).

(** [malloc] is the block that pvPortMalloc returns and its content behind the
    structure.  A block that does not hold the structure is a fault. *)
Definition xQueueGenericCreate (uxQueueLength uxItemSize : Z) (malloc : option (Z * list Z)) (k : kernel)
    : option (option Queue_t * kernel) :=
  match malloc with
  | None => Some (None, k)
  | Some (a, junk) =>
      if queue_bytes uxQueueLength uxItemSize <? sizeof_Queue_t then None
      else
        let k := set_blocks ({[a]} ∪ k.(blocks)) k in
        '(q, k) ← prvInitialiseNewQueue uxQueueLength uxItemSize a junk k;
        Some (Some q, k)
  end.

Definition vQueueDelete (s : qk) : kernel := set_blocks (s.2.(blocks) ∖ {[s.1.(self)]}) s.2.

(** ** Sending: the critical section *)

(** A phase of a blocking call returns, or goes on with the time-out. *)
Inductive phase (A : Type) := Return (v : A) | GoOn (xTimeOut : TimeOut_t) (xTicksToWait : Z).
Arguments Return {_} _.
Arguments GoOn {_} _ _.

(** Wake the first task of an event list, if there is one, and yield to it if
    it has a higher priority. *)
Definition wake_first (l : lid) (k : kernel) : option (bool * kernel) :=
  if is_empty l k then Some (false, k) else xTaskRemoveFromEventList l k.

Definition yield_when (b : bool) (k : kernel) : kernel := if b then portYIELD_WITHIN_API k else k.

(** The first critical section of the loop of xQueueGenericSend.  [timeout] is
    xTimeOut once xEntryTimeSet. *)
Definition send_try (pvItemToQueue : list Z) (xTicksToWait xCopyPosition : Z) (timeout : option TimeOut_t) (s : qk)
    : option (phase Z * qk) :=
  let '(q, k) := s in
  if (q.(uxMessagesWaiting) <? q.(uxLength)) || (xCopyPosition =? queueOVERWRITE) then
    '(xYieldRequired, (q, k)) ← prvCopyDataToQueue pvItemToQueue xCopyPosition (q, k);
    if is_empty (xTasksWaitingToReceive q) k then
      Some (Return pdPASS, (q, yield_when xYieldRequired k))
    else
      '(b, k) ← xTaskRemoveFromEventList (xTasksWaitingToReceive q) k;
      Some (Return pdPASS, (q, yield_when b k))
  else if xTicksToWait =? 0 then Some (Return errQUEUE_FULL, (q, k))
  else Some (GoOn (default (vTaskSetTimeOutState k) timeout) xTicksToWait, (q, k)).

Definition prvInitialiseMutex (s : qk) : option qk :=
  let '(q, k) := s in
  let q := set_u 0 (set_pcHead 0 (set_pcTail 0 q)) in
  '(_, s) ← send_try [] 0 queueSEND_TO_BACK None (q, k); Some s.

Definition xQueueCreateMutex (malloc : option (Z * list Z)) (k : kernel) : option (option Queue_t * kernel) :=
  '(oq, k) ← xQueueGenericCreate 1 0 malloc k;
  match oq with
  | None => Some (None, k)
  | Some q => '(q, k) ← prvInitialiseMutex (q, k); Some (Some q, k)
  end.

(** ** Receiving: the critical section *)

Definition receive_try (xTicksToWait : Z) (xJustPeeking : bool) (timeout : option TimeOut_t) (s : qk)
    : option (phase (Z * list Z) * qk) :=
  let '(q, k) := s in
  let uxMessagesWaiting := q.(uxMessagesWaiting) in
  if 0 <? uxMessagesWaiting then
    let pcOriginalReadPosition := q.(u) in
    '(data, q) ← prvCopyDataFromQueue q;
    if xJustPeeking then
      let q := set_u pcOriginalReadPosition q in
      '(b, k) ← wake_first (xTasksWaitingToReceive q) k;
      Some (Return (pdPASS, data), (q, yield_when b k))
    else
      let q := set_uxMessagesWaiting (u32 (uxMessagesWaiting - 1)) q in
      '(q, k) ← (if is_mutex q then
                   '(holder, k) ← pvTaskIncrementMutexHeldCount k; Some (set_pcTail (default 0 holder) q, k)
                 else Some (q, k));
      '(b, k) ← wake_first (xTasksWaitingToSend q) k;
      Some (Return (pdPASS, data), (q, yield_when b k))
  else if xTicksToWait =? 0 then Some (Return (errQUEUE_EMPTY, []), (q, k))
  else Some (GoOn (default (vTaskSetTimeOutState k) timeout) xTicksToWait, (q, k)).

(** ** Interrupts

    The flag that a function returns is *pxHigherPriorityTaskWoken. *)

Definition xQueueGenericSendFromISR (pvItemToQueue : list Z) (xCopyPosition : Z) (s : qk)
    : option (Z * bool * qk) :=
  let '(q, k) := s in
  if (q.(uxMessagesWaiting) <? q.(uxLength)) || (xCopyPosition =? queueOVERWRITE) then
    let lock := q.(cTxLock) in
    '(_, (q, k)) ← prvCopyDataToQueue pvItemToQueue xCopyPosition (q, k);
    if lock =? queueUNLOCKED then
      '(b, k) ← wake_first (xTasksWaitingToReceive q) k; Some (pdPASS, b, (q, k))
    else Some (pdPASS, false, (set_cTxLock (s8 (lock + 1)) q, k))
  else Some (errQUEUE_FULL, false, (q, k)).

Definition xQueueGiveFromISR (s : qk) : option (Z * bool * qk) :=
  let '(q, k) := s in
  if q.(uxMessagesWaiting) <? q.(uxLength) then
    let lock := q.(cTxLock) in
    let q := set_uxMessagesWaiting (u32 (q.(uxMessagesWaiting) + 1)) q in
    if lock =? queueUNLOCKED then
      '(b, k) ← wake_first (xTasksWaitingToReceive q) k; Some (pdPASS, b, (q, k))
    else Some (pdPASS, false, (set_cTxLock (s8 (lock + 1)) q, k))
  else Some (errQUEUE_FULL, false, (q, k)).

Definition xQueueReceiveFromISR (s : qk) : option (Z * list Z * bool * qk) :=
  let '(q, k) := s in
  let uxMessagesWaiting := q.(uxMessagesWaiting) in
  if 0 <? uxMessagesWaiting then
    let lock := q.(cRxLock) in
    '(data, q) ← prvCopyDataFromQueue q;
    let q := set_uxMessagesWaiting (u32 (uxMessagesWaiting - 1)) q in
    if lock =? queueUNLOCKED then
      '(b, k) ← wake_first (xTasksWaitingToSend q) k; Some (pdPASS, data, b, (q, k))
    else Some (pdPASS, data, false, (set_cRxLock (s8 (lock + 1)) q, k))
  else Some (pdFAIL, [], false, (q, k)).

Definition xQueuePeekFromISR (q : Queue_t) : option (Z * list Z * Queue_t) :=
  if 0 <? q.(uxMessagesWaiting) then
    let pcOriginalReadPosition := q.(u) in
    '(data, q) ← prvCopyDataFromQueue q;
    Some (pdPASS, data, set_u pcOriginalReadPosition q)
  else Some (pdFAIL, [], q).

(** ** Queries *)

Definition uxQueueMessagesWaiting (q : Queue_t) : Z := q.(uxMessagesWaiting).
Definition uxQueueSpacesAvailable (q : Queue_t) : Z := u32 (q.(uxLength) - q.(uxMessagesWaiting)).
Definition uxQueueMessagesWaitingFromISR (q : Queue_t) : Z := q.(uxMessagesWaiting).
Definition prvIsQueueEmpty (q : Queue_t) : bool := q.(uxMessagesWaiting) =? 0.
Definition prvIsQueueFull (q : Queue_t) : bool := q.(uxMessagesWaiting) =? q.(uxLength).
Definition xQueueIsQueueEmptyFromISR (q : Queue_t) : bool := q.(uxMessagesWaiting) =? 0.
Definition xQueueIsQueueFullFromISR (q : Queue_t) : bool := q.(uxMessagesWaiting) =? q.(uxLength).

(** ** Blocking *)

(** What interrupts do: the tick, the soft interrupt, and handlers that use the
    queue and ask for a switch when told to. *)
Inductive isr :=
  | IsrTick | IsrSoft
  | IsrSend (item : list Z) (pos : Z) | IsrGive | IsrReceive | IsrPeek.

Definition run_isr (i : isr) (s : qk) : option qk :=
  match i with
  | IsrTick => k ← xPortSysTickHandle s.2; Some (s.1, k)
  | IsrSoft => k ← SV_ISR s.2; Some (s.1, k)
  | IsrSend item pos => '(_, b, (q, k)) ← xQueueGenericSendFromISR item pos s; Some (q, yield_when b k)
  | IsrGive => '(_, b, (q, k)) ← xQueueGiveFromISR s; Some (q, yield_when b k)
  | IsrReceive => '(_, _, b, (q, k)) ← xQueueReceiveFromISR s; Some (q, yield_when b k)
  | IsrPeek => '(_, _, q) ← xQueuePeekFromISR s.1; Some (q, s.2)
  end.

Fixpoint run_isrs (evs : list isr) (s : qk) : option qk :=
  match evs with [] => Some s | i :: evs => s ← run_isr i s; run_isrs evs s end.

(** prvUnlockQueue with interrupts between and behind its critical sections. *)
Definition prvUnlockQueue (gap : nat → list isr) (s : qk) : option qk :=
  s ← unlock_tx s; s ← run_isrs (gap 0%nat) s;
  s ← unlock_rx s; run_isrs (gap 1%nat) s.

(** The end of the blocking phase. *)
Definition unlock_and_resume (gap : nat → list isr) (s : qk) : option (bool * qk) :=
  '(q, k) ← prvUnlockQueue gap s;
  '(b, k) ← xTaskResumeAll k; Some (b, (q, k)).

(** The start of the blocking phase. *)
Definition suspend_and_lock (gap : nat → list isr) (s : qk) : option qk :=
  '(q, k) ← run_isrs (gap 2%nat) (s.1, vTaskSuspendAll s.2);
  run_isrs (gap 3%nat) (prvLockQueue q, k).

(** The task goes into an event list and yields. *)
Definition send_wait (gap : nat → list isr) (xTicksToWait : Z) (s : qk) : option qk :=
  '(q, k) ← run_isrs (gap 5%nat) s;
  k ← vTaskPlaceOnEventList (xTasksWaitingToSend q) xTicksToWait k;
  s ← run_isrs (gap 7%nat) (q, k);
  '(b, (q, k)) ← unlock_and_resume gap s;
  Some (q, yield_unless b k).

Definition receive_wait (gap : nat → list isr) (xTicksToWait : Z) (s : qk) : option qk :=
  '(q, k) ← run_isrs (gap 5%nat) s;
  k ← (if is_mutex q then vTaskPriorityInherit (handle q.(pcTail)) k else Some k);
  '(q, k) ← run_isrs (gap 6%nat) (q, k);
  k ← vTaskPlaceOnEventList (xTasksWaitingToReceive q) xTicksToWait k;
  s ← run_isrs (gap 7%nat) (q, k);
  '(b, (q, k)) ← unlock_and_resume gap s;
  Some (q, yield_unless b k).

(** The blocking phase of xQueueGenericSend. *)
Definition send_block (gap : nat → list isr) (xTimeOut : TimeOut_t) (xTicksToWait : Z) (s : qk)
    : option (phase Z * qk) :=
  s ← suspend_and_lock gap s;
  let '(expired, xTimeOut, xTicksToWait) := xTaskCheckForTimeOut xTimeOut xTicksToWait s.2 in
  s ← run_isrs (gap 4%nat) s;
  if expired : bool then
    '(_, s) ← unlock_and_resume gap s; Some (Return errQUEUE_FULL, s)
  else if prvIsQueueFull s.1 then
    s ← send_wait gap xTicksToWait s; Some (GoOn xTimeOut xTicksToWait, s)
  else
    s ← run_isrs (gap 5%nat) s;
    '(_, s) ← unlock_and_resume gap s; Some (GoOn xTimeOut xTicksToWait, s).

(** The blocking phase of xQueueGenericReceive. *)
Definition receive_block (gap : nat → list isr) (xTimeOut : TimeOut_t) (xTicksToWait : Z) (s : qk)
    : option (phase (Z * list Z) * qk) :=
  s ← suspend_and_lock gap s;
  let '(expired, xTimeOut, xTicksToWait) := xTaskCheckForTimeOut xTimeOut xTicksToWait s.2 in
  s ← run_isrs (gap 4%nat) s;
  if expired : bool then
    '(_, s) ← unlock_and_resume gap s;
    Some (if prvIsQueueEmpty s.1 then Return (errQUEUE_EMPTY, []) else GoOn xTimeOut xTicksToWait, s)
  else if prvIsQueueEmpty s.1 then
    s ← receive_wait gap xTicksToWait s; Some (GoOn xTimeOut xTicksToWait, s)
  else
    s ← run_isrs (gap 5%nat) s;
    '(_, s) ← unlock_and_resume gap s; Some (GoOn xTimeOut xTicksToWait, s).

(** The loops.  [env n] is what the rest of the system does before the n-th
    phase from the end; [None]: the call has not returned within [fuel] rounds. *)
Fixpoint xQueueGenericSend (fuel : nat) (env : nat → qk → option qk) (gaps : nat → nat → list isr)
    (pvItemToQueue : list Z) (xTicksToWait xCopyPosition : Z) (timeout : option TimeOut_t) (s : qk)
    : option (Z * qk) :=
  match fuel with
  | O => None
  | S n =>
      '(r, s) ← send_try pvItemToQueue xTicksToWait xCopyPosition timeout s;
      match r with
      | Return v => Some (v, s)
      | GoOn to ticks =>
          s ← env (2 * n + 1)%nat s;
          '(r, s) ← send_block (gaps n) to ticks s;
          match r with
          | Return v => Some (v, s)
          | GoOn to ticks => s ← env (2 * n)%nat s; xQueueGenericSend n env gaps pvItemToQueue ticks xCopyPosition (Some to) s
          end
      end
  end.

Fixpoint xQueueGenericReceive (fuel : nat) (env : nat → qk → option qk) (gaps : nat → nat → list isr)
    (xTicksToWait : Z) (xJustPeeking : bool) (timeout : option TimeOut_t) (s : qk) : option (Z * list Z * qk) :=
  match fuel with
  | O => None
  | S n =>
      '(r, s) ← receive_try xTicksToWait xJustPeeking timeout s;
      match r with
      | Return (v, data) => Some (v, data, s)
      | GoOn to ticks =>
          s ← env (2 * n + 1)%nat s;
          '(r, s) ← receive_block (gaps n) to ticks s;
          match r with
          | Return (v, data) => Some (v, data, s)
          | GoOn to ticks => s ← env (2 * n)%nat s; xQueueGenericReceive n env gaps ticks xJustPeeking (Some to) s
          end
      end
  end.

Definition vQueueWaitForMessageRestricted (gap : nat → list isr) (xTicksToWait : Z) (xWaitIndefinitely : bool) (s : qk)
    : option qk :=
  '(q, k) ← run_isrs (gap 2%nat) (prvLockQueue s.1, s.2);
  k ← (if q.(uxMessagesWaiting) =? 0
       then vTaskPlaceOnEventListRestricted (xTasksWaitingToReceive q) xTicksToWait xWaitIndefinitely k
       else Some k);
  s ← run_isrs (gap 3%nat) (q, k);
  prvUnlockQueue gap s.
