(* ===== verification/FrQueueData.v ===== *)
(** FrQueueData: the ring buffer of a queue is a sequence of items.

    [contents q] is the sequence; copying in and out refine appending,
    prepending and taking the first item, inside of the storage. *)

From S2P Require Import Prelude FrList FrSeq FrKernel FrTasks FrQueue.

(** ** The ring *)

(** One turn around a ring of [n] places. *)
Definition wrap (n x : Z) : Z := if x <? n then x else x - n.

(** The place of the item read last, and of the first item. *)
Definition read_place (q : Queue_t) : Z := (q.(u) - q.(pcHead)) / q.(uxItemSize).
Definition first_place (q : Queue_t) : Z := wrap q.(uxLength) (read_place q + 1).

Definition slot (q : Queue_t) (i : Z) : list Z := sub_list q.(storage) (i * q.(uxItemSize)) q.(uxItemSize).

Definition contents (q : Queue_t) : list (list Z) :=
  (λ i, slot q (wrap q.(uxLength) (first_place q + i))) <$> seqZ 0 q.(uxMessagesWaiting).

(** Storage, pointers and count agree. *)
Record ring_ok (q : Queue_t) (r w : Z) : Prop := {
  ri_head : q.(pcHead) = q.(self) + sizeof_Queue_t;
  ri_tail : q.(pcTail) = q.(pcHead) + q.(uxLength) * q.(uxItemSize);
  ri_space : 0 < q.(pcHead) ∧ q.(uxItemSize) ≤ q.(pcHead) ∧ q.(pcTail) < 2 ^ 32;
  ri_storage : zlength q.(storage) = q.(uxLength) * q.(uxItemSize);
  ri_read : q.(u) = q.(pcHead) + r * q.(uxItemSize) ∧ 0 ≤ r < q.(uxLength);
  ri_write : q.(pcWriteTo) = q.(pcHead) + w * q.(uxItemSize);
  ri_places : w = wrap q.(uxLength) (wrap q.(uxLength) (r + 1) + q.(uxMessagesWaiting));
}.

Record queue_ok (q : Queue_t) : Prop := {
  qo_length : 0 < q.(uxLength) < 2 ^ 32;
  qo_size : 0 ≤ q.(uxItemSize);
  qo_count : 0 ≤ q.(uxMessagesWaiting) ≤ q.(uxLength);
  qo_ring : 0 < q.(uxItemSize) → ∃ r w, ring_ok q r w;
}.

(** The fields that moving data leaves alone. *)
Record same_queue (q q' : Queue_t) : Prop := {
  sq_self : q'.(self) = q.(self);
  sq_head : q'.(pcHead) = q.(pcHead);
  sq_tail : q.(pcHead) ≠ 0 → q'.(pcTail) = q.(pcTail);
  sq_length : q'.(uxLength) = q.(uxLength);
  sq_size : q'.(uxItemSize) = q.(uxItemSize);
  sq_rx : q'.(cRxLock) = q.(cRxLock);
  sq_tx : q'.(cTxLock) = q.(cTxLock);
}.

Lemma slot_apart i j n : 0 ≤ n → i < j → i * n + n ≤ j * n.
Proof. nia. Qed.

Lemma places_le i n k : 0 ≤ i < k → 0 ≤ n → 0 ≤ i * n ∧ i * n + n ≤ k * n.
Proof. nia. Qed.

Lemma sub_list_lookup l o n (k : nat) : 0 ≤ o → 0 ≤ n →
  sub_list l o n !! k = if Z.of_nat k <? n then l !! (Z.to_nat o + k)%nat else None.
Proof.
  intros Ho Hn. unfold sub_list. destruct (Z.ltb_spec (Z.of_nat k) n).
  - rewrite lookup_take_lt, lookup_drop by lia. done.
  - apply lookup_take_ge. lia.
Qed.

(** The bytes of a splice at [o], seen at [o'], inside and outside of it. *)
Lemma splice_inside l bs o n : 0 ≤ o → 0 ≤ n → o + n ≤ zlength l → n ≤ zlength bs →
  sub_list (take (Z.to_nat o) l ++ take (Z.to_nat n) bs ++ drop (Z.to_nat (o + n)) l) o n = take (Z.to_nat n) bs.
Proof.
  intros Ho Hn Hl Hb. unfold sub_list. rewrite drop_app_length' by (rewrite length_take; lia).
  rewrite take_app_length' by (rewrite length_take; lia). done.
Qed.

Lemma splice_outside l bs o n o' : 0 ≤ o → 0 ≤ n → o + n ≤ zlength l → n ≤ zlength bs → 0 ≤ o' →
  o' + n ≤ o ∨ o + n ≤ o' →
  sub_list (take (Z.to_nat o) l ++ take (Z.to_nat n) bs ++ drop (Z.to_nat (o + n)) l) o' n = sub_list l o' n.
Proof.
  intros Ho Hn Hl Hb Ho' Hd. apply list_eq. intros k. rewrite !sub_list_lookup by done.
  destruct (Z.ltb_spec (Z.of_nat k) n); [|done]. destruct Hd.
  - rewrite lookup_app_l by (rewrite length_take; lia). apply lookup_take_lt. lia.
  - rewrite app_assoc, lookup_app_r by (rewrite length_app, !length_take; lia).
    rewrite lookup_drop. f_equal. rewrite length_app, !length_take. lia.
Qed.

Lemma splice_length (l bs : list Z) o n : 0 ≤ o → 0 ≤ n → o + n ≤ zlength l → n ≤ zlength bs →
  zlength (take (Z.to_nat o) l ++ take (Z.to_nat n) bs ++ drop (Z.to_nat (o + n)) l) = zlength l.
Proof. intros. rewrite !length_app, !length_take, length_drop. lia. Qed.

(** ** Copying to a place *)

Lemma copy_in_slot q r w i item : queue_ok q → ring_ok q r w → 0 < q.(uxItemSize) → 0 ≤ i < q.(uxLength) →
  q.(uxItemSize) ≤ zlength item →
  ∃ s, copy_in (q.(pcHead) + i * q.(uxItemSize)) item q.(uxItemSize) q = Some (set_storage s q)
    ∧ zlength s = zlength q.(storage)
    ∧ slot (set_storage s q) i = take (Z.to_nat q.(uxItemSize)) item
    ∧ ∀ j, 0 ≤ j < q.(uxLength) → j ≠ i → slot (set_storage s q) j = slot q j.
Proof.
  intros Hq Hr Hs Hi Hit. unfold copy_in. rewrite (ri_head _ _ _ Hr).
  destruct (places_le i (uxItemSize q) (uxLength q) Hi ltac:(lia)). assert (Hst := ri_storage _ _ _ Hr).
  replace (self q + sizeof_Queue_t + i * uxItemSize q - (self q + sizeof_Queue_t)) with (i * uxItemSize q) by lia.
  rewrite !(proj2 (Z.leb_le _ _)) by lia. cbn [andb]. eexists. split; [reflexivity|]. split_and!.
  - apply splice_length; lia.
  - unfold slot. cbn [storage set_storage uxItemSize]. apply splice_inside; lia.
  - intros j Hj Hne. unfold slot. cbn [storage set_storage uxItemSize].
    destruct (places_le j (uxItemSize q) (uxLength q) Hj ltac:(lia)).
    apply splice_outside; try lia. destruct (Z.lt_ge_cases j i).
    + left. apply slot_apart; lia.
    + right. apply slot_apart; lia.
Qed.

Lemma read_place_ring q r w : ring_ok q r w → 0 < q.(uxItemSize) → read_place q = r.
Proof.
  intros H Hs. unfold read_place. destruct (ri_read _ _ _ H) as [-> _].
  replace (pcHead q + r * uxItemSize q - pcHead q) with (r * uxItemSize q) by lia. apply Z.div_mul. lia.
Qed.

(** Two queues whose slots agree at the places of the items. *)
Lemma contents_ext q q' : q'.(uxLength) = q.(uxLength) → q'.(uxMessagesWaiting) = q.(uxMessagesWaiting) →
  first_place q' = first_place q →
  (∀ i, 0 ≤ i < q.(uxMessagesWaiting) → slot q' (wrap q.(uxLength) (first_place q + i)) = slot q (wrap q.(uxLength) (first_place q + i))) →
  contents q' = contents q.
Proof.
  intros E1 E2 E3 H. unfold contents. rewrite E1, E2, E3. apply list_fmap_ext. intros i x Hx.
  apply lookup_seqZ in Hx as [-> Hx]. apply H. lia.
Qed.

Lemma seqZ_snoc n : 0 ≤ n → seqZ 0 (n + 1) = seqZ 0 n ++ [n].
Proof. intros Hn. rewrite seqZ_app by lia. done. Qed.

Lemma seqZ_shift n : 0 ≤ n → seqZ 0 (n + 1) = 0 :: ((λ i, i + 1) <$> seqZ 0 n).
Proof.
  intros Hn. rewrite seqZ_cons by lia. f_equal. replace (Z.pred (n + 1)) with n by lia.
  replace (Z.succ 0) with (1 + 0) by lia. rewrite <- fmap_add_seqZ. apply list_fmap_ext. intros. lia.
Qed.

(** ** Appending, prepending, overwriting *)

Lemma set_storage_ring s q r w : ring_ok q r w → zlength s = zlength q.(storage) → ring_ok (set_storage s q) r w.
Proof. intros [] E. split; try done. cbn [storage set_storage uxLength uxItemSize]. lia. Qed.

Lemma copy_back q k item : queue_ok q → 0 < q.(uxItemSize) → q.(uxMessagesWaiting) < q.(uxLength) →
  q.(uxItemSize) ≤ zlength item →
  ∃ q', prvCopyDataToQueue item queueSEND_TO_BACK (q, k) = Some (false, (q', k)) ∧ queue_ok q' ∧ same_queue q q'
    ∧ q'.(uxMessagesWaiting) = q.(uxMessagesWaiting) + 1
    ∧ contents q' = contents q ++ [take (Z.to_nat q.(uxItemSize)) item].
Proof.
  intros Hq Hs Hm Hit. destruct (qo_ring _ Hq Hs) as (r & w & Hr). destruct (qo_count _ Hq), (qo_length _ Hq).
  destruct (ri_read _ _ _ Hr) as [Eu Hrr]. destruct (ri_space _ _ _ Hr) as (Hh & Hhs & Ht).
  assert (Ep := ri_places _ _ _ Hr). assert (Et := ri_tail _ _ _ Hr). assert (Ew := ri_write _ _ _ Hr).
  assert (Hw : 0 ≤ w < q.(uxLength)) by (rewrite Ep; unfold wrap; zbool; lia).
  destruct (copy_in_slot q r w w item Hq Hr Hs Hw Hit) as (s & E & Hl & Hin & Hout).
  unfold prvCopyDataToQueue. rewrite (proj2 (Z.eqb_neq (uxItemSize q) 0)) by lia.
  change (queueSEND_TO_BACK =? queueSEND_TO_BACK) with true. cbn match. rewrite Ew, E. cbn [mbind option_bind].
  set (q1 := set_storage s q). cbn [pcWriteTo uxItemSize set_storage q1]. rewrite Ew.
  destruct (places_le w (uxItemSize q) (uxLength q) Hw ltac:(lia)).
  rewrite (u32_small (_ + _ + _)) by lia. set (q2 := set_pcWriteTo _ q1). cbn [pcTail pcWriteTo set_pcWriteTo q2 q1 set_storage].
  set (w' := wrap q.(uxLength) (w + 1)).
  assert (Hif : (if pcTail q <=? pcHead q + w * uxItemSize q + uxItemSize q then set_pcWriteTo (pcHead q2) q2 else q2)
    = set_pcWriteTo (pcHead q + w' * uxItemSize q) q1).
  { unfold w', wrap. destruct (Z.leb_spec (pcTail q) (pcHead q + w * uxItemSize q + uxItemSize q)), (Z.ltb_spec (w + 1) (uxLength q)).
    - assert (w * uxItemSize q + uxItemSize q < uxLength q * uxItemSize q) by nia. lia.
    - change (set_pcWriteTo (pcHead q2) q2) with (set_pcWriteTo (pcHead q) q1). f_equal.
      replace (w + 1 - uxLength q) with 0 by lia. lia.
    - unfold q2. f_equal. lia.
    - replace (uxLength q) with (w + 1) in * by lia. lia. }
  rewrite Hif. cbn [mbind option_bind]. eexists. split; [reflexivity|].
  set (q' := set_uxMessagesWaiting _ _). assert (Em : q'.(uxMessagesWaiting) = uxMessagesWaiting q + 1).
  { unfold q'. cbn. rewrite u32_small; lia. }
  assert (Hr1 := set_storage_ring s q r w Hr Hl).
  assert (Hr' : ring_ok q' r w').
  { destruct Hr1. split; try done. rewrite Em. change (uxLength q') with (uxLength q). unfold w'. rewrite Ep.
    unfold wrap in *. zbool; lia. }
  assert (Hfp : first_place q' = first_place q).
  { unfold first_place. rewrite (read_place_ring q' r w' Hr' Hs), (read_place_ring q r w Hr Hs). done. }
  assert (Hf : first_place q = wrap (uxLength q) (r + 1)) by (unfold first_place; by rewrite (read_place_ring q r w Hr Hs)).
  split_and!; [|by split|done|].
  - constructor; [apply Hq..|change (uxLength q') with (uxLength q); lia|]. intros _. by exists r, w'.
  - unfold contents. rewrite Em, Hfp, seqZ_snoc by lia. rewrite fmap_app. change (uxLength q') with (uxLength q). f_equal.
    + apply list_fmap_ext. intros i x Hx. apply lookup_seqZ in Hx as [-> Hx]. apply Hout; rewrite Hf in *; unfold wrap in *; zbool; lia.
    + cbn [fmap list_fmap]. f_equal. rewrite Hf, <- Ep. exact Hin.
Qed.

(** Writing in front of the first item. *)
Lemma copy_front_move q k item pos r w : queue_ok q → ring_ok q r w → 0 < q.(uxItemSize) → pos ≠ queueSEND_TO_BACK →
  q.(uxItemSize) ≤ zlength item → let r' := if r =? 0 then q.(uxLength) - 1 else r - 1 in
  ∃ s, prvCopyDataToQueue item pos (q, k)
       = Some (false, (set_uxMessagesWaiting (u32 ((if (pos =? queueOVERWRITE) && (0 <? q.(uxMessagesWaiting))
                        then u32 (q.(uxMessagesWaiting) - 1) else q.(uxMessagesWaiting)) + 1))
                      (set_u (q.(pcHead) + r' * q.(uxItemSize)) (set_storage s q)), k))
    ∧ zlength s = zlength q.(storage)
    ∧ slot (set_storage s q) r = take (Z.to_nat q.(uxItemSize)) item
    ∧ ∀ j, 0 ≤ j < q.(uxLength) → j ≠ r → slot (set_storage s q) j = slot q j.
Proof.
  intros Hq Hr Hs Hpos Hit r'. destruct (qo_length _ Hq).
  destruct (ri_read _ _ _ Hr) as [Eu Hrr]. destruct (ri_space _ _ _ Hr) as (Hh & Hhs & Ht). assert (Et := ri_tail _ _ _ Hr).
  assert (Hh' := ri_head _ _ _ Hr). destruct (copy_in_slot q r w r item Hq Hr Hs Hrr Hit) as (s & E & Hl & Hin & Hout).
  exists s. split; [|done]. unfold prvCopyDataToQueue.
  rewrite (proj2 (Z.eqb_neq (uxItemSize q) 0)), (proj2 (Z.eqb_neq pos _)) by lia. rewrite Eu, E. cbn [mbind option_bind].
  set (q1 := set_storage s q). cbn [u uxItemSize set_storage q1]. rewrite Eu. set (q2 := set_u _ q1).
  cbn [pcHead u set_u q2 q1 set_storage].
  destruct (places_le r (uxItemSize q) (uxLength q) Hrr ltac:(lia)).
  assert (Hif : (if u32 (pcHead q + r * uxItemSize q - uxItemSize q) <? pcHead q
                 then set_u (u32 (pcTail q2 - uxItemSize q2)) q2 else q2)
    = set_u (pcHead q + r' * uxItemSize q) q1).
  { change (set_u (u32 (pcTail q2 - uxItemSize q2)) q2) with (set_u (u32 (pcTail q - uxItemSize q)) q1).
    unfold r'. destruct (Z.eqb_spec r 0) as [->|Hne].
    - destruct (places_le 0 (uxItemSize q) (uxLength q) ltac:(lia) ltac:(lia)). cbn [Z.mul] in *. rewrite Z.add_0_r.
      assert (Hsz : uxItemSize q ≤ uxLength q * uxItemSize q) by nia.
      rewrite (u32_small (pcHead q - _)) by lia. destruct (Z.ltb_spec (pcHead q - uxItemSize q) (pcHead q)); [|lia].
      f_equal. rewrite u32_small; lia.
    - assert (uxItemSize q ≤ r * uxItemSize q) by nia.
      rewrite u32_small by lia. destruct (Z.ltb_spec (pcHead q + r * uxItemSize q - uxItemSize q) (pcHead q)); [lia|].
      unfold q2. f_equal. rewrite u32_small; lia. }
  rewrite Hif. cbn [mbind option_bind]. reflexivity.
Qed.

(** The ring after the read place moved from [r] to [r'] and the count to [m]. *)
Lemma ring_move q r w s r' m : ring_ok q r w → zlength s = zlength q.(storage) → 0 ≤ r' < q.(uxLength) →
  w = wrap q.(uxLength) (wrap q.(uxLength) (r' + 1) + m) →
  ring_ok (set_uxMessagesWaiting m (set_u (q.(pcHead) + r' * q.(uxItemSize)) (set_storage s q))) r' w.
Proof. intros [] Hl Hr' Hw. split; try done. cbn. lia. Qed.

Lemma copy_front q k item : queue_ok q → 0 < q.(uxItemSize) → q.(uxMessagesWaiting) < q.(uxLength) →
  q.(uxItemSize) ≤ zlength item →
  ∃ q', prvCopyDataToQueue item queueSEND_TO_FRONT (q, k) = Some (false, (q', k)) ∧ queue_ok q' ∧ same_queue q q'
    ∧ q'.(uxMessagesWaiting) = q.(uxMessagesWaiting) + 1
    ∧ contents q' = take (Z.to_nat q.(uxItemSize)) item :: contents q.
Proof.
  intros Hq Hs Hm Hit. destruct (qo_ring _ Hq Hs) as (r & w & Hr). destruct (qo_count _ Hq), (qo_length _ Hq).
  destruct (ri_read _ _ _ Hr) as [Eu Hrr]. assert (Ep := ri_places _ _ _ Hr).
  destruct (copy_front_move q k item queueSEND_TO_FRONT r w Hq Hr Hs ltac:(done) Hit) as (s & E & Hl & Hin & Hout).
  rewrite E. change (queueSEND_TO_FRONT =? queueOVERWRITE) with false. cbn [andb]. rewrite u32_small by lia.
  set (r' := if r =? 0 then _ else _). set (q' := set_uxMessagesWaiting _ _).
  assert (Hr' : ring_ok q' r' w).
  { apply (ring_move q r); try done; unfold r'; [zbool; lia|]. rewrite Ep. unfold wrap. zbool; lia. }
  assert (Hfp : first_place q' = r).
  { unfold first_place. rewrite (read_place_ring q' r' w Hr' Hs). unfold r', wrap. change (uxLength q') with (uxLength q). zbool; lia. }
  assert (Hf : first_place q = wrap (uxLength q) (r + 1)) by (unfold first_place; by rewrite (read_place_ring q r w Hr Hs)).
  exists q'. split_and!; [done| |by split|done|].
  - constructor; [apply Hq..|change (uxLength q') with (uxLength q); cbn; lia|]. intros _. by exists r', w.
  - unfold contents. change (uxMessagesWaiting q') with (uxMessagesWaiting q + 1). rewrite Hfp, seqZ_shift by lia.
    rewrite fmap_cons. change (uxLength q') with (uxLength q). f_equal.
    + replace (wrap (uxLength q) (r + 0)) with r by (unfold wrap; zbool; lia). exact Hin.
    + rewrite <- list_fmap_compose. apply list_fmap_ext. intros i x Hx. apply lookup_seqZ in Hx as [-> Hx].
      unfold compose. replace (wrap (uxLength q) (r + (0 + Z.of_nat i + 1)))
        with (wrap (uxLength q) (first_place q + (0 + Z.of_nat i))) by (rewrite Hf; unfold wrap; zbool; lia).
      apply Hout; rewrite Hf; unfold wrap; zbool; lia.
Qed.

(** Overwriting the item of a queue of length one. *)
Lemma copy_overwrite q k item : queue_ok q → 0 < q.(uxItemSize) → q.(uxLength) = 1 → q.(uxItemSize) ≤ zlength item →
  ∃ q', prvCopyDataToQueue item queueOVERWRITE (q, k) = Some (false, (q', k)) ∧ queue_ok q' ∧ same_queue q q'
    ∧ q'.(uxMessagesWaiting) = 1
    ∧ contents q' = [take (Z.to_nat q.(uxItemSize)) item].
Proof.
  intros Hq Hs Hn Hit. destruct (qo_ring _ Hq Hs) as (r & w & Hr). destruct (qo_count _ Hq).
  destruct (ri_read _ _ _ Hr) as [Eu Hrr]. assert (Ep := ri_places _ _ _ Hr). assert (r = 0) as -> by lia.
  destruct (copy_front_move q k item queueOVERWRITE 0 w Hq Hr Hs ltac:(done) Hit) as (s & E & Hl & Hin & Hout).
  rewrite E. change (queueOVERWRITE =? queueOVERWRITE) with true. cbn [andb]. change (0 =? 0) with true. cbn match.
  set (m := u32 _). assert (Em : m = 1) by (unfold m; destruct (Z.ltb_spec 0 (uxMessagesWaiting q)); [rewrite (u32_small (_ - 1)) by lia|]; rewrite u32_small; lia).
  clearbody m. subst m. rewrite Hn. set (q' := set_uxMessagesWaiting _ _).
  assert (Hr' : ring_ok q' 0 w).
  { apply (ring_move q 0 w s 0 1); try done. rewrite Ep, Hn. unfold wrap. zbool; lia. }
  assert (Hfp : first_place q' = 0).
  { unfold first_place. rewrite (read_place_ring q' 0 w Hr' Hs). change (uxLength q') with (uxLength q). by rewrite Hn. }
  exists q'. split_and!; [done| |by split|done|].
  - constructor; [apply Hq..|change (uxLength q') with (uxLength q); cbn; lia|]. intros _. by exists 0, w.
  - unfold contents. change (uxMessagesWaiting q') with 1. rewrite Hfp. change (uxLength q') with (uxLength q). rewrite Hn.
    change (seqZ 0 1) with [0]. cbn [fmap list_fmap]. change (wrap 1 (0 + 0)) with 0. f_equal. exact Hin.
Qed.

(** ** Taking the first item *)

Lemma copy_from q : queue_ok q → 0 < q.(uxMessagesWaiting) →
  ∃ x v, prvCopyDataFromQueue q = Some (x, set_u v q) ∧ contents q = x :: drop 1 (contents q)
    ∧ let q' := set_uxMessagesWaiting (u32 (q.(uxMessagesWaiting) - 1)) (set_u v q) in
      queue_ok q' ∧ same_queue q q' ∧ q'.(uxMessagesWaiting) = q.(uxMessagesWaiting) - 1
      ∧ contents q' = drop 1 (contents q).
Proof.
  intros Hq Hm. destruct (qo_count _ Hq), (qo_length _ Hq). assert (Hsz := qo_size _ Hq).
  assert (Hc : contents q = slot q (wrap (uxLength q) (first_place q + 0))
    :: ((λ i, slot q (wrap (uxLength q) (first_place q + (i + 1)))) <$> seqZ 0 (uxMessagesWaiting q - 1))).
  { unfold contents. replace (uxMessagesWaiting q) with (uxMessagesWaiting q - 1 + 1) at 1 by lia.
    rewrite seqZ_shift by lia. rewrite fmap_cons, <- list_fmap_compose. done. }
  unfold prvCopyDataFromQueue. destruct (Z.eqb_spec (uxItemSize q) 0) as [E0|E0]; cbn [negb].
  { assert (Hslot : ∀ p i, sub_list p i (uxItemSize q) = []) by (intros; unfold sub_list; rewrite E0; done).
    exists [], q.(u). assert (Eq : set_u q.(u) q = q) by (by destruct q). rewrite Eq.
    replace (slot q (wrap (uxLength q) (first_place q + 0))) with (@nil Z) in Hc by (unfold slot; by rewrite Hslot).
    rewrite Hc. cbn [drop]. rewrite drop_0. split; [done|]. split; [done|].
    set (q' := set_uxMessagesWaiting _ _). assert (Em : q'.(uxMessagesWaiting) = uxMessagesWaiting q - 1) by (unfold q'; cbn; rewrite u32_small; lia).
    split_and!; [| |done|].
    - constructor; [apply Hq..|change (uxLength q') with (uxLength q); lia|]. change (uxItemSize q') with (uxItemSize q). lia.
    - by split.
    - unfold contents. rewrite Em. apply list_fmap_ext. intros i x _. unfold slot. change (uxItemSize q') with (uxItemSize q).
      by rewrite !Hslot. }
  assert (Hs : 0 < uxItemSize q) by lia. destruct (qo_ring _ Hq Hs) as (r & w & Hr).
  destruct (ri_read _ _ _ Hr) as [Eu Hrr]. destruct (ri_space _ _ _ Hr) as (Hh & _ & Ht). assert (Ep := ri_places _ _ _ Hr).
  assert (Et := ri_tail _ _ _ Hr). assert (Hst := ri_storage _ _ _ Hr). assert (Hhd := ri_head _ _ _ Hr).
  set (f := wrap (uxLength q) (r + 1)). assert (Hf : 0 ≤ f < uxLength q) by (unfold f, wrap; zbool; lia).
  assert (Hff : first_place q = f) by (unfold first_place; by rewrite (read_place_ring q r w Hr Hs)).
  destruct (places_le r (uxItemSize q) (uxLength q) Hrr ltac:(lia)), (places_le f (uxItemSize q) (uxLength q) Hf ltac:(lia)).
  set (q1 := set_u (u32 _) q).
  assert (Hif : (if pcTail q1 <=? q1.(u) then set_u (pcHead q1) q1 else q1) = set_u (pcHead q + f * uxItemSize q) q).
  { unfold q1. rewrite Eu, u32_small by lia. cbn [pcTail u set_u].
    unfold f, wrap. destruct (Z.leb_spec (pcTail q) (pcHead q + r * uxItemSize q + uxItemSize q)), (Z.ltb_spec (r + 1) (uxLength q)).
    - assert (r * uxItemSize q + uxItemSize q < uxLength q * uxItemSize q) by nia. lia.
    - change (set_u (pcHead q) q = set_u (pcHead q + (r + 1 - uxLength q) * uxItemSize q) q). f_equal.
      replace (r + 1 - uxLength q) with 0 by lia. lia.
    - f_equal. lia.
    - replace (uxLength q) with (r + 1) in * by lia. lia. }
  rewrite Hif. cbn [u set_u uxItemSize]. unfold copy_out. cbn [self storage set_u].
  replace (pcHead q + f * uxItemSize q - (self q + sizeof_Queue_t)) with (f * uxItemSize q) by lia.
  rewrite !(proj2 (Z.leb_le _ _)) by lia. cbn [andb mbind option_bind].
  exists (slot q f), (pcHead q + f * uxItemSize q). split; [done|]. rewrite Hc. cbn [drop]. rewrite drop_0.
  replace (wrap (uxLength q) (first_place q + 0)) with f by (rewrite Hff; unfold wrap; zbool; lia).
  split; [done|]. set (q' := set_uxMessagesWaiting _ _). assert (Em : q'.(uxMessagesWaiting) = uxMessagesWaiting q - 1) by (unfold q'; cbn; rewrite u32_small; lia).
  assert (Hr' : ring_ok q' f w).
  { assert (X := ring_move q r w q.(storage) f (u32 (uxMessagesWaiting q - 1)) Hr eq_refl Hf). destruct q. apply X. clear X.
    cbn in *. rewrite Ep. fold f. rewrite u32_small by lia. unfold wrap. zbool; lia. }
  assert (Hf' : first_place q' = wrap (uxLength q) (f + 1)) by (unfold first_place; by rewrite (read_place_ring q' f w Hr' Hs)).
  split_and!; [|by split|done|].
  - constructor; [apply Hq..|change (uxLength q') with (uxLength q); lia|]. intros _. by exists f, w.
  - unfold contents. rewrite Em, Hf', Hff. change (uxLength q') with (uxLength q). apply list_fmap_ext.
    intros i x Hx. apply lookup_seqZ in Hx as [-> Hx]. change (slot q' _) with (slot q (wrap (uxLength q) (wrap (uxLength q) (f + 1) + (0 + Z.of_nat i)))).
    f_equal. unfold wrap. zbool; lia.
Qed.

(** ** Any position *)

Lemma length_contents q : queue_ok q → zlength (contents q) = q.(uxMessagesWaiting).
Proof. intros Hq. destruct (qo_count _ Hq). unfold contents. rewrite length_fmap, length_seqZ. lia. Qed.

(** What a send does to the sequence. *)
Definition put_in (pos : Z) (x : list Z) (xs : list (list Z)) : list (list Z) :=
  if pos =? queueSEND_TO_BACK then xs ++ [x] else if pos =? queueSEND_TO_FRONT then x :: xs else [x].

(** There is room for an item, or it may be overwritten. *)
Definition room (pos : Z) (q : Queue_t) : Prop :=
  q.(uxMessagesWaiting) < q.(uxLength) ∧ (pos = queueSEND_TO_BACK ∨ pos = queueSEND_TO_FRONT)
  ∨ pos = queueOVERWRITE ∧ q.(uxLength) = 1 ∧ 0 < q.(uxItemSize).

Lemma contents_semaphore q : queue_ok q → q.(uxItemSize) = 0 →
  contents q = replicate (Z.to_nat q.(uxMessagesWaiting)) [].
Proof.
  intros Hq E. unfold contents. apply list_eq. intros i. rewrite list_lookup_fmap.
  destruct (decide (Z.of_nat i < uxMessagesWaiting q)).
  - rewrite lookup_seqZ_lt, lookup_replicate_2 by lia. cbn. unfold slot, sub_list. by rewrite E.
  - rewrite lookup_seqZ_ge by lia. symmetry. apply lookup_replicate_None. lia.
Qed.

Lemma copy_semaphore q k item pos : queue_ok q → q.(uxItemSize) = 0 → is_mutex q = false →
  q.(uxMessagesWaiting) < q.(uxLength) →
  ∃ q', prvCopyDataToQueue item pos (q, k) = Some (false, (q', k)) ∧ queue_ok q' ∧ same_queue q q'
    ∧ q'.(uxMessagesWaiting) = q.(uxMessagesWaiting) + 1
    ∧ contents q' = contents q ++ [[]] ∧ contents q' = [] :: contents q.
Proof.
  intros Hq E0 Hmu Hm. destruct (qo_count _ Hq), (qo_length _ Hq).
  unfold prvCopyDataToQueue. rewrite E0, Hmu. change (0 =? 0) with true. cbn [mbind option_bind].
  eexists. split; [reflexivity|]. set (q' := set_uxMessagesWaiting _ _).
  assert (Em : q'.(uxMessagesWaiting) = uxMessagesWaiting q + 1) by (unfold q'; cbn; rewrite u32_small; lia).
  assert (Hq' : queue_ok q').
  { constructor; [apply Hq..|change (uxLength q') with (uxLength q); lia|]. change (uxItemSize q') with (uxItemSize q). lia. }
  split_and!; [done|by split|done| |]; rewrite !contents_semaphore by done; rewrite Em, Z2Nat.inj_add by lia.
  - by rewrite replicate_add.
  - by rewrite Nat.add_comm.
Qed.

Lemma copy_to q k item pos : queue_ok q → is_mutex q = false → room pos q → q.(uxItemSize) ≤ zlength item →
  ∃ q', prvCopyDataToQueue item pos (q, k) = Some (false, (q', k)) ∧ queue_ok q' ∧ same_queue q q'
    ∧ 0 < q'.(uxMessagesWaiting)
    ∧ contents q' = put_in pos (take (Z.to_nat q.(uxItemSize)) item) (contents q).
Proof.
  intros Hq Hmu Hroom Hit. assert (Hsz := qo_size _ Hq). destruct (qo_count _ Hq).
  destruct (decide (uxItemSize q = 0)) as [E0|E0].
  { destruct Hroom as [[Hm Hpos]|(_ & _ & ?)]; [|lia].
    destruct (copy_semaphore q k item pos Hq E0 Hmu Hm) as (q' & E & Hq' & S & Em & C1 & C2).
    exists q'. split_and!; [done..|lia|]. rewrite E0. change (take (Z.to_nat 0) item) with (@nil Z).
    by destruct Hpos as [-> | ->]. }
  destruct Hroom as [[Hm [-> | ->]]|(-> & Hn & Hs)].
  - destruct (copy_back q k item) as (q' & E & Hq' & S & Em & C); [done|lia|done..|]. exists q'. split_and!; [done..|lia|done].
  - destruct (copy_front q k item) as (q' & E & Hq' & S & Em & C); [done|lia|done..|]. exists q'. split_and!; [done..|lia|done].
  - destruct (copy_overwrite q k item) as (q' & E & Hq' & S & Em & C); [done..|]. exists q'. split_and!; [done..|lia|done].
Qed.

(** ** A new queue *)

(** The block that malloc returned holds the structure and the storage. *)
Definition good_block (n size a : Z) (junk : list Z) : Prop :=
  0 < a ∧ size ≤ a ∧ a + sizeof_Queue_t + n * size < 2 ^ 32
  ∧ zlength junk = queue_bytes n size - sizeof_Queue_t.

Lemma queue_bytes_small n size : 0 ≤ n → 0 ≤ size → sizeof_Queue_t + n * size < 2 ^ 32 →
  queue_bytes n size = sizeof_Queue_t + n * size.
Proof.
  intros Hn Hs Hb. unfold queue_bytes, sizeof_Queue_t in *. assert (0 ≤ n * size) by nia.
  destruct (Z.eqb_spec size 0) as [->|]; rewrite ?(u32_small (n * size)) by lia; rewrite u32_small; lia.
Qed.

(** What a fresh structure is reset to. *)
Definition fresh_queue (n size a : Z) (junk : list Z) : Queue_t :=
  let head := if size =? 0 then a else a + sizeof_Queue_t in
  {| self := a; pcHead := head; pcTail := head + n * size; pcWriteTo := head; u := head + (n - 1) * size;
     uxMessagesWaiting := 0; uxLength := n; uxItemSize := size; cRxLock := queueUNLOCKED; cTxLock := queueUNLOCKED;
     storage := junk |}.

Lemma reset_queue n size a junk k : 0 < n < 2 ^ 32 → 0 ≤ size → good_block n size a junk →
  prvInitialiseNewQueue n size a junk k
  = Some (fresh_queue n size a junk,
          k_initialise (EventList (a + 36)) (k_initialise (EventList (a + 16)) k)).
Proof.
  intros Hn Hs (Ha & Has & Hb & Hj). assert (0 ≤ n * size) by nia. assert (0 ≤ (n - 1) * size) by nia.
  assert (n * size = (n - 1) * size + size) by lia.
  unfold prvInitialiseNewQueue, xQueueGenericReset, fresh_queue, sizeof_Queue_t in *.
  cbn -[u32 Z.mul Z.add k_initialise]. set (head := if size =? 0 then a else a + 72).
  assert (Hh : a ≤ head ≤ a + 72) by (unfold head; destruct (size =? 0); lia). clearbody head.
  rewrite (u32_small (n * size)), (u32_small (n - 1)), (u32_small ((n - 1) * size)) by lia.
  rewrite !u32_small by lia. done.
Qed.

Lemma fresh_queue_ok n size a junk : 0 < n < 2 ^ 32 → 0 ≤ size → good_block n size a junk →
  let q := fresh_queue n size a junk in queue_ok q ∧ is_mutex q = false ∧ contents q = [].
Proof.
  intros Hn Hs (Ha & Has & Hb & Hj). assert (0 ≤ n * size) by nia.
  rewrite queue_bytes_small in Hj by (unfold sizeof_Queue_t in *; lia). unfold fresh_queue, sizeof_Queue_t in *.
  destruct (Z.eqb_spec size 0) as [E|E].
  - split_and!; [|unfold is_mutex; cbn; lia|done]. split; cbn -[Z.mul]; lia.
  - split_and!; [|unfold is_mutex; cbn; lia|done]. split; cbn -[Z.mul]; try lia. intros _. exists (n - 1), 0.
    split; cbn -[Z.mul]; unfold sizeof_Queue_t, wrap; try lia. zbool; lia.
Qed.
