(* ===== verification/FrQueueSched.v ===== *)
(** FrQueueSched: queue operations and the scheduler.  The critical sections of
    sending and receiving keep both the sequence of the queue and the invariant
    of the kernel. *)

From stdpp Require Import functions sorting.
From S2P Require Import Prelude FrList FrSeq FrKernel FrTasks FrTasksInv FrTasksMove FrTasksTick FrTasksSched FrTasksApi FrTasksLife FrTasksPrio FrNotify FrTasksSteps FrQueue FrQueueData.

(** Waking the first waiting task keeps the invariant, with and without the
    context switch that it may ask for. *)
Lemma wake_first_spec a k : kinv k →
  ∃ b k', wake_first (EventList a) k = Some (b, k') ∧ kinv (yield_when b k') ∧ kinv k'
    ∧ (is_empty (EventList a) k = true → b = false ∧ k' = k)
    ∧ (is_empty (EventList a) k = false → ∃ t, head_owner (EventList a) k = Some t
        ∧ event t k' = (if k.(uxSchedulerSuspended) =? 0 then None else Some xPendingReadyList)
        ∧ (k.(uxSchedulerSuspended) = 0 → ∃ p, state t k' = Some (pxReadyTasksLists p))).
Proof.
  intros Hk. unfold wake_first. assert (H := head_event a k (kc_wf _ (proj1 Hk))).
  destruct (is_empty (EventList a) k).
  - exists false, k. by split_and!.
  - destruct H as (t & Hh & He).
    destruct (remove_from_event_list_spec (EventList a) t k Hk Hh He) as (b & k' & E & H1 & H2 & H3 & H4); [done|].
    exists b, k'. split_and!; [done..|]. intros _. by exists t.
Qed.

(** What [send_try] promises on a queue that is not a mutex. *)
Definition sent (item : list Z) (pos : Z) (q q' : Queue_t) : Prop :=
  queue_ok q' ∧ same_queue q q' ∧ contents q' = put_in pos (take (Z.to_nat q.(uxItemSize)) item) (contents q).

Lemma send_try_room item ticks pos to q k : kinv k → queue_ok q → is_mutex q = false → room pos q →
  q.(uxItemSize) ≤ zlength item →
  ∃ q' k', send_try item ticks pos to (q, k) = Some (Return pdPASS, (q', k')) ∧ sent item pos q q' ∧ kinv k'
    ∧ (is_empty (xTasksWaitingToReceive q) k = true → k' = k)
    ∧ (is_empty (xTasksWaitingToReceive q) k = false → k.(uxSchedulerSuspended) = 0 →
       ∃ t p, head_owner (xTasksWaitingToReceive q) k = Some t ∧ event t k' = None
         ∧ state t k' = Some (pxReadyTasksLists p)).
Proof.
  intros Hk Hq Hmu Hr Hit. unfold send_try.
  assert (Hc : (uxMessagesWaiting q <? uxLength q) || (pos =? queueOVERWRITE) = true).
  { destruct Hr as [[Hm _]|(-> & _)]; [by rewrite (proj2 (Z.ltb_lt _ _) Hm)|apply orb_true_r]. }
  rewrite Hc. destruct (copy_to q k item pos Hq Hmu Hr Hit) as (q' & -> & Hq' & S & _ & C). cbn [mbind option_bind].
  assert (El : xTasksWaitingToReceive q' = xTasksWaitingToReceive q) by (unfold xTasksWaitingToReceive; by rewrite (sq_self _ _ S)).
  rewrite El. destruct (wake_first_spec (self q + 36) k Hk) as (b & k' & E & Hy & Hk' & He & Hw).
  fold (xTasksWaitingToReceive q) in E, He, Hw. unfold wake_first in E.
  destruct (is_empty (xTasksWaitingToReceive q) k).
  - exists q', k. cbn [yield_when]. by split_and!.
  - rewrite E. cbn [mbind option_bind]. exists q', (yield_when b k'). split_and!; [done..|].
    intros _ Hs. destruct (Hw eq_refl) as (t & Ht & Hev & Hst). destruct (Hst Hs) as [p Hp]. rewrite Hs in Hev.
    exists t, p. by destruct b.
Qed.

Lemma send_try_full item ticks to q k : q.(uxMessagesWaiting) = q.(uxLength) → ∀ pos, pos ≠ queueOVERWRITE →
  send_try item ticks pos to (q, k)
  = Some (if ticks =? 0 then Return errQUEUE_FULL else GoOn (default (vTaskSetTimeOutState k) to) ticks, (q, k)).
Proof.
  intros E pos Hp. unfold send_try. rewrite E, Z.ltb_irrefl, (proj2 (Z.eqb_neq _ _) Hp). cbn [orb]. by destruct (ticks =? 0).
Qed.

(** Receiving; for a mutex the caller becomes the holder. *)
Definition received (q q' : Queue_t) (x : list Z) : Prop :=
  queue_ok q' ∧ same_queue q q' ∧ contents q = x :: contents q'.

Lemma mutex_size q : queue_ok q → is_mutex q = true → q.(uxItemSize) = 0.
Proof.
  intros Hq Hm. assert (Hs := qo_size _ Hq). destruct (decide (0 < uxItemSize q)) as [H|H]; [|lia].
  destruct (qo_ring _ Hq H) as (r & w & Hr). destruct (ri_space _ _ _ Hr). unfold is_mutex in Hm. lia.
Qed.

(** The record of the holder does not matter to the sequence. *)
Lemma set_holder_ok v q : queue_ok q → is_mutex q = true →
  queue_ok (set_pcTail v q) ∧ same_queue q (set_pcTail v q) ∧ contents (set_pcTail v q) = contents q.
Proof.
  intros Hq Hm. assert (Hs := mutex_size q Hq Hm). split_and!; [|split; try done|done].
  - destruct Hq. split; try done. cbn. lia.
  - unfold is_mutex in Hm. lia.
Qed.

Lemma same_queue_trans q q1 q2 : same_queue q q1 → same_queue q1 q2 → same_queue q q2.
Proof.
  intros S1 S2. split; try (destruct S1, S2; congruence).
  intros H. rewrite (sq_tail _ _ S2); [by apply S1|]. by rewrite (sq_head _ _ S1).
Qed.

(** The part of [receive_try] that takes the item and records the holder. *)
Lemma take_item q k : kinv k → queue_ok q → 0 < q.(uxMessagesWaiting) →
  ∃ x v q' k', prvCopyDataFromQueue q = Some (x, set_u v q)
    ∧ (let q1 := set_uxMessagesWaiting (u32 (q.(uxMessagesWaiting) - 1)) (set_u v q) in
       if is_mutex q1 then
         '(holder, k) ← pvTaskIncrementMutexHeldCount k; Some (set_pcTail (default 0 holder) q1, k)
       else Some (q1, k)) = Some (q', k')
    ∧ received q q' x ∧ kinv k' ∧ (is_mutex q = false → k' = k)
    ∧ (is_mutex q = true → Some q'.(pcTail) = k.(pxCurrentTCB))
    ∧ k'.(lists) = k.(lists) ∧ k'.(uxSchedulerSuspended) = k.(uxSchedulerSuspended).
Proof.
  intros Hk Hq Hm. destruct (copy_from q Hq Hm) as (x & v & E & Hx & Hq1 & S1 & _ & C1).
  set (q1 := set_uxMessagesWaiting _ _) in *. assert (Hmu1 : is_mutex q1 = is_mutex q) by done.
  destruct (is_mutex q) eqn:Hmu.
  - destruct (held_count_spec k Hk) as (t & c & k' & Ht & Hc & E' & Hk' & R).
    exists x, v, (set_pcTail t q1), k'. rewrite E'. fold q1. cbn zeta. rewrite Hmu1. cbn [mbind option_bind default].
    destruct (set_holder_ok t q1 Hq1 Hmu) as (Hq2 & S2 & C2).
    split_and!; try done; [split_and!; [done|by eapply same_queue_trans|by rewrite C2, C1]| |].
    + unfold pvTaskIncrementMutexHeldCount in E'. rewrite Ht in E'. unfold upd_tcb in E'. rewrite Hc in E'. cbn in E'.
      by injection E' as <-.
    + apply (rp_suspended _ _ _ _ _ R).
  - exists x, v, q1, k. fold q1. cbn zeta. rewrite Hmu1. split_and!; try done. split_and!; [done..|by rewrite C1].
Qed.

Lemma receive_try_some ticks peek to q k : kinv k → queue_ok q → 0 < q.(uxMessagesWaiting) →
  ∃ x q' k', receive_try ticks peek to (q, k) = Some (Return (pdPASS, x), (q', k')) ∧ kinv k'
    ∧ (if peek : bool then q' = q ∧ head (contents q) = Some x else received q q' x)
    ∧ (peek = false → is_mutex q = true → Some q'.(pcTail) = k.(pxCurrentTCB)).
Proof.
  intros Hk Hq Hm. unfold receive_try. rewrite (proj2 (Z.ltb_lt _ _) Hm).
  destruct (take_item q k Hk Hq Hm) as (x & v & q1 & k1 & E1 & E2 & R & Hk1 & _ & Hh & _ & _).
  rewrite E1. cbn [mbind option_bind]. exists x. destruct peek.
  - assert (Eq : set_u (u q) (set_u v q) = q) by (by destruct q). rewrite Eq.
    destruct (wake_first_spec (self q + 36) k Hk) as (b & k' & E & Hy & _).
    fold (xTasksWaitingToReceive q) in E. rewrite E. cbn [mbind option_bind].
    exists q, (yield_when b k'). split_and!; [done..| |done]. destruct R as (_ & _ & ->). done.
  - cbn zeta in E2 |- *. rewrite E2. cbn [mbind option_bind].
    destruct (wake_first_spec (self q1 + 16) k1 Hk1) as (b & k' & E & Hy & _).
    fold (xTasksWaitingToSend q1) in E. rewrite E. cbn [mbind option_bind].
    exists q1, (yield_when b k'). by split_and!.
Qed.

Lemma receive_try_empty ticks peek to q k : q.(uxMessagesWaiting) = 0 →
  receive_try ticks peek to (q, k)
  = Some (if ticks =? 0 then Return (errQUEUE_EMPTY, []) else GoOn (default (vTaskSetTimeOutState k) to) ticks, (q, k)).
Proof. intros E. unfold receive_try. rewrite E. cbn. by destruct (ticks =? 0). Qed.

(** ** A new queue *)

(** Initialising an event list that nobody waits in. *)
Lemma initialise_kinv a k : kinv k → (∀ t, event t k ≠ Some (EventList a)) →
  kinv (k_initialise (EventList a) k) ∧ ∀ x, (k_initialise (EventList a) k).(lists).(container) x = k.(lists).(container) x.
Proof.
  intros [Hc Hp] Hno. split; [|done]. assert (Hw := kc_wf _ Hc). assert (Hst := w_store _ _ _ _ _ _ _ _ _ _ _ Hw).
  assert (He : k.(lists).(elems) (EventList a) = []).
  { assert (H := head_event a k Hw). unfold is_empty, seq_length in H.
    destruct (elems (lists k) (EventList a)) as [|x xs]; [done|].
    replace (zlength (x :: xs) =? 0) with false in H by (symmetry; apply Z.eqb_neq; cbn [length]; lia).
    destruct H as (t & _ & Ht). by destruct (Hno t). }
  assert (El : ∀ l, (seq_initialise (EventList a) k.(lists)).(elems) l = k.(lists).(elems) l).
  { intros l. cbn. unfold insert, fn_insert. case_decide; [subst; by rewrite He|done]. }
  assert (Hw' : kwf None (k_initialise (EventList a) k)).
  { eapply (wf_ext None); [exact Hw| |done|done|exact El]. destruct Hst as [H1 H2 H3]. split.
    - intros l. rewrite El. apply H1.
    - intros x l. rewrite El. apply H2.
    - intros l y. rewrite El. cbn. unfold insert, fn_insert. case_decide; [done|apply H3]. }
  split; [|by destruct Hp]. destruct Hc as [_ Hs Hi Hr Hsu Hpe Hq]. by split.
Qed.

Lemma create_queue_spec n size a junk k : kinv k → 0 < n < 2 ^ 32 → 0 ≤ size → good_block n size a junk →
  (∀ t, event t k ≠ Some (EventList (a + 16)) ∧ event t k ≠ Some (EventList (a + 36))) →
  ∃ k', xQueueGenericCreate n size (Some (a, junk)) k = Some (Some (fresh_queue n size a junk), k') ∧ kinv k'
    ∧ k'.(blocks) = {[a]} ∪ k.(blocks).
Proof.
  intros Hk Hn Hs Hb Hno. unfold xQueueGenericCreate. assert (0 ≤ n * size) by nia.
  rewrite queue_bytes_small by (destruct Hb as (? & _ & ? & _); lia).
  destruct (Z.ltb_spec (sizeof_Queue_t + n * size) sizeof_Queue_t); [lia|].
  rewrite reset_queue by done. cbn [mbind option_bind]. eexists. split; [reflexivity|]. split; [|done].
  set (k0 := set_blocks _ k). assert (Hk0 : kinv k0) by (destruct Hk as [[] []]; by split; split).
  destruct (initialise_kinv (a + 16) k0 Hk0) as [Hk1 C1]; [intros t; apply Hno|].
  apply initialise_kinv; [exact Hk1|]. intros t. unfold event. rewrite C1. apply Hno.
Qed.

(** ** Giving a mutex back *)

(** Whether the woken task has a higher priority than the current one. *)
Lemma remove_flag l t ct p k b k' : head_owner l k = Some t → tcb t k = Some ct → current_priority k = Some p →
  xTaskRemoveFromEventList l k = Some (b, k') → b = (p <? ct.(uxPriority)).
Proof.
  intros Hh Hc Hp. unfold xTaskRemoveFromEventList. rewrite Hh. cbn [mbind option_bind].
  assert (Hrem : ∀ x y y', k_remove x y = Some y' → y'.(tcbs) = y.(tcbs) ∧ y'.(pxCurrentTCB) = y.(pxCurrentTCB)).
  { intros x y y'. unfold k_remove. destruct (seq_remove x (lists y)) as [[? s]|]; [|done]. by intros [= <-]. }
  assert (Hins : ∀ x z y y', k_insert_end z x y = Some y' → y'.(tcbs) = y.(tcbs) ∧ y'.(pxCurrentTCB) = y.(pxCurrentTCB)).
  { intros x z y y'. unfold k_insert_end. destruct (seq_insert_end z x (lists y)) as [s|]; [|done]. by intros [= <-]. }
  destruct (k_remove (xEventListItem t) k) as [k1|] eqn:E1; [|done]. cbn [mbind option_bind].
  destruct (Hrem _ _ _ E1) as [T1 C1].
  assert (Hnote : ∀ k2, k2.(tcbs) = k.(tcbs) → k2.(pxCurrentTCB) = k.(pxCurrentTCB) →
    note_woken t k2 = Some (b, k') → b = (p <? uxPriority ct)).
  { intros k2 T2 C2. unfold note_woken, current_priority, tcb in *. rewrite T2, C2, Hc. cbn [mbind option_bind].
    rewrite Hp. cbn [mbind option_bind]. destruct (p <? uxPriority ct); intros H; by injection H. }
  destruct (uxSchedulerSuspended k1 =? 0).
  - destruct (k_remove (xStateListItem t) k1) as [k2|] eqn:E2; [|done]. cbn [mbind option_bind].
    destruct (Hrem _ _ _ E2) as [T2 C2]. unfold prvAddTaskToReadyList. destruct (tcb t k2) as [c|]; [|done]. cbn [mbind option_bind].
    set (k2' := taskRECORD_READY_PRIORITY _ k2).
    assert (R2 : k2'.(tcbs) = k2.(tcbs) ∧ k2'.(pxCurrentTCB) = k2.(pxCurrentTCB))
      by (unfold k2', taskRECORD_READY_PRIORITY; by destruct (uxTopReadyPriority k2 <? uxPriority c)).
    destruct (k_insert_end _ _ k2') as [k3|] eqn:E3; [|done]. cbn [mbind option_bind].
    destruct (Hins _ _ _ _ E3) as [T3 C3]. apply Hnote; destruct R2; congruence.
  - destruct (k_insert_end _ _ k1) as [k3|] eqn:E3; [|done]. cbn [mbind option_bind].
    destruct (Hins _ _ _ _ E3) as [T3 C3]. apply Hnote; congruence.
Qed.

(** Waking does not look at the pending switch. *)
Lemma remove_pend l k : xTaskRemoveFromEventList l (PendSV k) = prod_map id PendSV <$> xTaskRemoveFromEventList l k.
Proof.
  unfold xTaskRemoveFromEventList. change (head_owner l (PendSV k)) with (head_owner l k).
  destruct (head_owner l k) as [t|]; [|done]. cbn [mbind option_bind].
  unfold k_remove. change (lists (PendSV k)) with (lists k).
  destruct (seq_remove (xEventListItem t) (lists k)) as [[n s]|]; [|done]. cbn [mbind option_bind].
  cbn [uxSchedulerSuspended PendSV set_pending_soft_sv set_lists lists].
  destruct (uxSchedulerSuspended k =? 0).
  - destruct (seq_remove (xStateListItem t) s) as [[n2 s2]|]; [|done]. cbn [mbind option_bind].
    unfold prvAddTaskToReadyList, tcb. cbn [tcbs PendSV set_pending_soft_sv set_lists].
    destruct (tcbs k !! t) as [c|] eqn:Ec; [|done]. cbn [mbind option_bind]. unfold taskRECORD_READY_PRIORITY.
    cbn [uxTopReadyPriority PendSV set_pending_soft_sv set_lists]. unfold k_insert_end.
    destruct (uxTopReadyPriority k <? uxPriority c); cbn [lists set_uxTopReadyPriority set_lists];
      (destruct (seq_insert_end _ _ s2) as [s3|]; [|done]); cbn [mbind option_bind];
      unfold note_woken, current_priority, tcb; cbn; rewrite Ec; cbn;
      (destruct (pxCurrentTCB k) as [cur|]; [|done]); cbn; (destruct (tcbs k !! cur) as [cc|]; [|done]); cbn;
      by destruct (_ <? _).
  - unfold k_insert_end. cbn [lists set_lists]. destruct (seq_insert_end _ _ s) as [s3|]; [|done]. cbn [mbind option_bind].
    unfold note_woken, current_priority, tcb. cbn. destruct (tcbs k !! t) as [c|]; [|done]. cbn.
    destruct (pxCurrentTCB k) as [cur|]; [|done]. cbn. destruct (tcbs k !! cur) as [cc|]; [|done]. cbn.
    by destruct (_ <? _).
Qed.

(** Without an inherited priority nothing changes but the count of mutexes. *)
Lemma disinherit_none t c k b k' : tcb t k = Some c → c.(uxPriority) = c.(uxBasePriority) →
  xTaskPriorityDisinherit (Some t) k = Some (b, k') → b = false.
Proof.
  intros Ec Ep. unfold xTaskPriorityDisinherit. rewrite (upd_tcb_some t c) by done. cbn [mbind option_bind].
  unfold tcb. cbn [tcbs set_tcbs]. rewrite lookup_insert_eq. cbn. rewrite Ep, Z.eqb_refl. cbn. by intros [= <- _].
Qed.

(** The running task gives back the mutex that it holds.  The waiting tasks must
    not be such that the giver stays at a priority below a ready task: nobody
    waits, no priority was inherited, or every waiting task has a higher priority
    than the one the giver falls back to. *)
Definition gives_well (q : Queue_t) (c : TCB) (k : kernel) : Prop :=
  is_empty (xTasksWaitingToReceive q) k = true ∨ c.(uxPriority) = c.(uxBasePriority)
  ∨ ∀ w cw, event w k = Some (xTasksWaitingToReceive q) → tcb w k = Some cw → (disinherited c).(uxPriority) < cw.(uxPriority).

(** The wake-up after the priority fell, with the switch that it asks for. *)
Lemma wake_after_disinherit L t c k1 : kinv (PendSV k1) → L ≠ xPendingReadyList → k1.(pxCurrentTCB) = Some t → tcb t k1 = Some c →
  (∀ w cw, event w k1 = Some L → tcb w k1 = Some cw → c.(uxPriority) < cw.(uxPriority)) →
  ∀ w, head_owner L k1 = Some w → event w k1 = Some L →
  ∃ k', xTaskRemoveFromEventList L k1 = Some (true, k') ∧ kinv (PendSV k').
Proof.
  intros Hk HL Hcur Hc Hall w Hh He.
  destruct (w_live _ _ _ _ _ _ _ _ _ _ _ (kc_wf _ (proj1 Hk)) _ _ He) as [cw Hcw]. cbn [owner] in Hcw.
  destruct (remove_from_event_list_spec L w (PendSV k1) Hk Hh He HL) as (b & k' & E & _ & Hk' & _).
  rewrite remove_pend in E. destruct (xTaskRemoveFromEventList L k1) as [[b1 k2]|] eqn:E1; [|done].
  cbn in E. injection E as -> <-. exists k2. split; [|done].
  assert (b = true) as ->; [|done].
  rewrite (remove_flag L w cw (uxPriority c) k1 b k2 Hh Hcw); [|unfold current_priority; rewrite Hcur; cbn; unfold tcb in *; by rewrite Hc|done].
  apply Z.ltb_lt. by eapply Hall.
Qed.

Lemma give_mutex_spec item t c q k : kinv k → queue_ok q → is_mutex q = true → q.(uxMessagesWaiting) < q.(uxLength) →
  k.(pxCurrentTCB) = Some t → k.(pending_soft_sv) = false → event t k = None → tcb t k = Some c → handle q.(pcTail) = Some t →
  gives_well q c k →
  ∃ q' k', send_try item 0 queueSEND_TO_BACK None (q, k) = Some (Return pdPASS, (q', k')) ∧ queue_ok q' ∧ kinv k'
    ∧ q'.(uxMessagesWaiting) = q.(uxMessagesWaiting) + 1 ∧ handle q'.(pcTail) = None ∧ is_mutex q' = true.
Proof.
  intros Hk Hq Hmu Hm Ht Hso Het Hc Hh Hgw. destruct (qo_count _ Hq), (qo_length _ Hq). assert (Hs := mutex_size q Hq Hmu).
  unfold send_try. rewrite (proj2 (Z.ltb_lt _ _) Hm). cbn [orb]. unfold prvCopyDataToQueue.
  rewrite Hs, Hmu, Hh. change (0 =? 0) with true. cbn match.
  destruct (disinherit_spec t c k Hk Hc Ht) as (b & k1 & E & Hy & R); [by apply kinv_runnable|]. rewrite E. cbn [mbind option_bind].
  rewrite u32_small by lia. set (q' := set_uxMessagesWaiting _ _).
  assert (Hq' : queue_ok q').
  { constructor; [apply Hq..|change (uxLength q') with (uxLength q); cbn; lia|]. change (uxItemSize q') with (uxItemSize q). lia. }
  change (xTasksWaitingToReceive q') with (xTasksWaitingToReceive q). unfold gives_well in Hgw.
  set (L := xTasksWaitingToReceive q) in *. assert (Hcore := rp_core _ _ _ _ _ R). assert (Hd1 := head_event (self q + 36) k1 (kc_wf _ Hcore)).
  assert (Hd := head_event (self q + 36) k (kc_wf _ (proj1 Hk))). fold (xTasksWaitingToReceive q) L in Hd, Hd1.
  destruct (is_empty L k1) eqn:Em.
  { exists q', (yield_when b k1). by split_and!. }
  destruct Hd1 as (w & Hw & Hew).
  destruct b.
  - destruct (wake_after_disinherit L t (disinherited c) k1) with (w := w) as (k' & -> & Hk'); try done.
    + by rewrite (rp_current _ _ _ _ _ R).
    + unfold tcb. rewrite (rp_tcbs _ _ _ _ _ R). by rewrite lookup_insert_eq.
    + intros u cu Hu Hcu. rewrite (rp_event _ _ _ _ _ R) in Hu. destruct Hgw as [Hem|[Hp|Hall]].
      * rewrite Hem in Hd. by destruct (Hd u).
      * exfalso. assert (X := disinherit_none t c k true k1 Hc Hp E). discriminate X.
      * unfold tcb in Hcu. rewrite (rp_tcbs _ _ _ _ _ R) in Hcu. rewrite lookup_insert_ne in Hcu by congruence. by apply (Hall u).
    + exists q', (yield_when true k'). by split_and!.
  - destruct (remove_from_event_list_spec L w k1 Hy Hw Hew) as (b & k' & -> & Hy' & _); [done|].
    exists q', (yield_when b k'). by split_and!.
Qed.

(** ** A new mutex *)

Lemma create_mutex_spec a junk k : kinv k → good_block 1 0 a junk →
  (∀ t, event t k ≠ Some (EventList (a + 16)) ∧ event t k ≠ Some (EventList (a + 36))) →
  ∃ q k', xQueueCreateMutex (Some (a, junk)) k = Some (Some q, k') ∧ kinv k' ∧ k'.(blocks) = {[a]} ∪ k.(blocks)
    ∧ queue_ok q ∧ q.(self) = a ∧ is_mutex q = true ∧ q.(uxLength) = 1 ∧ q.(uxMessagesWaiting) = 1 ∧ handle q.(pcTail) = None.
Proof.
  intros Hk Hb Hno. destruct (create_queue_spec 1 0 a junk k Hk ltac:(lia) ltac:(lia) Hb Hno) as (k1 & E & Hk1 & Bl).
  unfold xQueueCreateMutex. rewrite E. cbn [mbind option_bind]. unfold prvInitialiseMutex, send_try, fresh_queue, prvCopyDataToQueue, yield_when. cbn.
  destruct (wake_first_spec (a + 36) k1 Hk1) as (b & k2 & E2 & Hy & _ & He & _). unfold wake_first in E2.
  assert (Em : is_empty (EventList (a + 36)) k1 = true).
  { assert (Hd := head_event (a + 36) k1 (kc_wf _ (proj1 Hk1))). destruct (is_empty (EventList (a + 36)) k1); [done|].
    destruct Hd as (t & _ & Ht). exfalso. apply (proj2 (Hno t)). rewrite <- Ht. unfold event.
    unfold xQueueGenericCreate in E. rewrite reset_queue in E by (done || lia).
    destruct (queue_bytes 1 0 <? sizeof_Queue_t); [done|]. cbn in E.
    apply (f_equal (fmap snd)) in E. cbn in E. injection E as <-. reflexivity. }
  unfold xTasksWaitingToReceive. cbn. rewrite Em. cbn. eexists _, k1. split; [reflexivity|]. by split_and!.
Qed.

(** The give of a mutex by the task that holds it: the kernel makes the step give_mutex. *)
Lemma give_mutex_is_send item t q k : is_mutex q = true → q.(uxItemSize) = 0 → q.(uxMessagesWaiting) < q.(uxLength) →
  k.(pxCurrentTCB) = Some t → handle q.(pcTail) = Some t →
  (λ r, r.2.2) <$> send_try item 0 queueSEND_TO_BACK None (q, k) = give_mutex (xTasksWaitingToReceive q) k.
Proof.
  intros Hmu Hs Hm Ht Hh. unfold send_try, give_mutex. rewrite (proj2 (Z.ltb_lt _ _) Hm). cbn [orb]. unfold prvCopyDataToQueue.
  rewrite Hs, Hmu, Hh, Ht. change (0 =? 0) with true. cbn match. destruct (xTaskPriorityDisinherit (Some t) k) as [[b k1]|]; [|done].
  cbn [mbind option_bind]. change (xTasksWaitingToReceive (set_uxMessagesWaiting _ _)) with (xTasksWaitingToReceive q).
  destruct (is_empty (xTasksWaitingToReceive q) k1); [done|]. unfold yield_if. by destruct (xTaskRemoveFromEventList (xTasksWaitingToReceive q) k1) as [[b2 k2]|].
Qed.
