(* ===== verification/FrQueueBlock.v ===== *)
(** FrQueueBlock: the blocking phase of a queue call, with interrupts.

    While a task blocks, the scheduler is suspended, the queue is locked for
    some of the time and the calling task is in no ready list for some of the
    time.  Interrupts run in every gap. *)

From stdpp Require Import functions sorting.
From S2P Require Import Prelude FrList FrSeq FrKernel FrTasks FrTasksInv FrTasksMove FrTasksTick FrTasksSched FrTasksApi FrTasksPrio FrNotify FrTasksSteps FrQueue FrQueueData FrQueueSched.

(** ** Under the suspended scheduler *)

Definition kmid (k : kernel) : Prop := kcore k ∧ k.(uxSchedulerSuspended) ≠ 0.

(** What an interrupt leaves alone there: no task changes its state list, and a
    task only leaves an event list for the pending ready list. *)
Record kmeanwhile (k k' : kernel) : Prop := {
  mw_tcbs : k'.(tcbs) = k.(tcbs);
  mw_current : k'.(pxCurrentTCB) = k.(pxCurrentTCB);
  mw_idle : k'.(xIdleTaskHandle) = k.(xIdleTaskHandle);
  mw_suspended : k'.(uxSchedulerSuspended) = k.(uxSchedulerSuspended);
  mw_state t : state t k' = state t k;
  mw_event t : event t k' = event t k
    ∨ (∃ a, event t k = Some (EventList a)) ∧ event t k' = Some xPendingReadyList;
  mw_switch : k'.(pending_soft_sv) = false → k'.(xYieldPending) = false →
    k.(pending_soft_sv) = false ∧ k.(xYieldPending) = false;
}.

Lemma meanwhile_refl k : kmeanwhile k k.
Proof. split; auto. Qed.

Lemma meanwhile_trans k k1 k2 : kmeanwhile k k1 → kmeanwhile k1 k2 → kmeanwhile k k2.
Proof.
  intros A B. split; [destruct A, B; congruence..| | |].
  - intros t. rewrite (mw_state _ _ B). apply A.
  - intros t. destruct (mw_event _ _ A t) as [EA|[HA EA]], (mw_event _ _ B t) as [EB|[[a HB] EB]].
    + left. congruence.
    + right. rewrite EA in HB. eauto.
    + right. split; congruence.
    + congruence.
  - intros H1 H2. destruct (mw_switch _ _ B H1 H2). by apply A.
Qed.

#[export] Instance meanwhile_preorder : PreOrder kmeanwhile.
Proof. split; [exact meanwhile_refl|exact meanwhile_trans]. Qed.

Lemma meanwhile_runnable k k' : kmeanwhile k k' → runnable k → runnable k'.
Proof.
  intros M (t & c & H1 & H2 & H3). exists t, c. unfold tcb. by rewrite (mw_current _ _ M), (mw_tcbs _ _ M), (mw_state _ _ M).
Qed.

Lemma meanwhile_kinv k k' : kmeanwhile k k' → kinv k → kmid k' → kinv k'.
Proof.
  intros M [Hc [P1 P2]] [Hc' Hs]. split; [done|]. split.
  - intros H1 H2 Hpr. destruct (mw_switch _ _ M H1 H2) as [H3 H4]. destruct (P1 H3 H4 Hpr) as (t & c & E1 & E2 & E3 & E4).
    exists t, c. unfold tcb. rewrite (mw_current _ _ M), (mw_tcbs _ _ M), (mw_state _ _ M). split_and!; try done.
    intros u p. rewrite (mw_state _ _ M). apply E4.
  - intros _. apply (meanwhile_runnable k); [done|]. apply P2. right. by rewrite <- (mw_suspended _ _ M).
Qed.

(** Setting the flags of the port and of the scheduler. *)
Lemma meanwhile_flags k (y s : bool) n : kmid k → 0 ≤ n < 2 ^ 32 →
  (s = false → y = false → k.(pending_soft_sv) = false ∧ k.(xYieldPending) = false) →
  let k' := set_xYieldPending y (set_pending_soft_sv s (set_uxPendedTicks n k)) in kmid k' ∧ kmeanwhile k k'.
Proof.
  intros [[Hw Hs Hi Hr Hsu Hpe Hq] Hn] Hrange Hf. split; [|by split; auto].
  split; [|done]. by split.
Qed.

Lemma yield_when_mid b k : kmid k → kmid (yield_when b k) ∧ kmeanwhile k (yield_when b k).
Proof.
  intros Hk. destruct b; [|by split; [|reflexivity]]. destruct k.
  apply (meanwhile_flags _ _ true _ Hk); [apply (kc_pended _ (proj1 Hk))|done].
Qed.

Lemma missed_yield_mid (b : bool) k : kmid k →
  let k' := if b then vTaskMissedYield k else k in kmid k' ∧ kmeanwhile k k'.
Proof.
  intros Hk. destruct b; [|by split; [|reflexivity]]. destruct k.
  apply (meanwhile_flags _ true _ _ Hk); [apply (kc_pended _ (proj1 Hk))|done].
Qed.

Lemma switch_mid k : kmid k → vTaskSwitchContext k = Some (set_xYieldPending true k).
Proof. intros [_ Hn]. unfold vTaskSwitchContext. by rewrite (proj2 (Z.eqb_neq _ _) Hn). Qed.

Lemma soft_mid k : kmid k → ∃ k', SV_ISR k = Some k' ∧ kmid k' ∧ kmeanwhile k k'.
Proof.
  intros Hk. unfold SV_ISR. rewrite (switch_mid k Hk). destruct (pending_soft_sv k) eqn:E; [|by exists k; split_and!; [..|reflexivity]].
  eexists. split; [reflexivity|]. destruct k.
  apply (meanwhile_flags _ true false _ Hk); [apply (kc_pended _ (proj1 Hk))|done].
Qed.

Lemma tick_mid k : kmid k → ∃ k', xPortSysTickHandle k = Some k' ∧ kmid k' ∧ kmeanwhile k k'.
Proof.
  intros Hk. unfold xPortSysTickHandle, xTaskIncrementTick. rewrite (proj2 (Z.eqb_neq _ _) (proj2 Hk)).
  cbn [mbind option_bind]. set (n := u32 _). assert (Hn : 0 ≤ n < 2 ^ 32) by (unfold n; zsolve).
  assert (Hk1 : kmid (set_uxPendedTicks n k) ∧ kmeanwhile k (set_uxPendedTicks n k)).
  { destruct k. by apply (meanwhile_flags _ _ _ n Hk). }
  destruct Hk1 as [Hk1 M1]. destruct (false || _); [|by eexists].
  rewrite switch_mid by done. eexists. split; [reflexivity|]. destruct k.
  by apply (meanwhile_flags _ true _ n Hk).
Qed.

(** ** Waking tasks under the suspended scheduler *)

(** The first task of an event list moves to the pending ready list. *)
Lemma remove_mid a t k : kmid k → head_owner (EventList a) k = Some t → event t k = Some (EventList a) →
  ∃ b k', xTaskRemoveFromEventList (EventList a) k = Some (b, k') ∧ kmid k' ∧ kmeanwhile k k'
    ∧ event t k' = Some xPendingReadyList ∧ ∀ v, v ≠ t → event v k' = event v k.
Proof.
  intros [Hc Hn] Hh He. assert (Hw := kc_wf _ Hc). unfold xTaskRemoveFromEventList. rewrite Hh. cbn [mbind option_bind].
  destruct (w_live _ _ _ _ _ _ _ _ _ _ _ Hw _ _ He) as [c Ec]. cbn [owner] in Ec.
  assert (Hne : state t k ≠ Some xTasksWaitingTermination).
  { intros E. apply (w_dead _ _ _ _ _ _ _ _ _ _ _ Hw) in E. unfold event in He. congruence. }
  destruct (remove_event_spec None t (EventList a) k Hw He) as (k1 & -> & Hk1 & R1). cbn [mbind option_bind].
  destruct (relisted_fields _ _ _ R1) as (F1&F2&_&_&_&_&F7&_&F9&F10&F11&_).
  assert (C1 := rl_container _ _ _ R1).
  rewrite F7, (proj2 (Z.eqb_neq _ _) Hn).
  destruct (insert_end_event_spec None t xPendingReadyList k1 Hk1) as (k2 & -> & Hk2 & R2);
    [unfold tcb; rewrite F1; by exists c|unfold event; by rewrite C1, fn_lookup_insert|done|
     unfold state; by rewrite C1, fn_lookup_insert_ne|]. cbn [mbind option_bind].
  destruct (relisted_fields _ _ _ R2) as (G1&G2&_&_&_&_&G7&_&G9&G10&G11&_).
  assert (R : relisted (<[xEventListItem t := Some xPendingReadyList]> k.(lists).(container)) k k2).
  { eapply relisted_ext; [by eapply relisted_trans|]. intros x. unfold insert, fn_insert.
    case_decide; [done|]. rewrite C1. unfold insert, fn_insert. by rewrite decide_False. }
  assert (Hc2 : kcore k2).
  { eapply (kcore_relisted _ _ _ Hc Hk2 R); [|intros v; by rewrite fn_lookup_insert_ne|done].
    intros v p _ Hv. rewrite fn_lookup_insert_ne by done. eauto. }
  assert (Hev : ∀ v, event v k2 = if decide (v = t) then Some xPendingReadyList else event v k).
  { intros v. unfold event. rewrite (rl_container _ _ _ R). unfold insert, fn_insert. repeat case_decide; congruence. }
  assert (M2 : kmeanwhile k k2).
  { split; try congruence.
    - intros v. unfold state. by rewrite (rl_container _ _ _ R), fn_lookup_insert_ne.
    - intros v. rewrite Hev. case_decide; subst; eauto.
    - rewrite G10, G9, F10, F9. done. }
  destruct (note_woken_spec t c k2 Hk2) as (p & _ & ->); [unfold tcb; by rewrite G1, F1|].
  assert (Hm2 : kmid k2) by (split; [done|congruence]).
  destruct (missed_yield_mid (p <? uxPriority c) k2 Hm2) as [Hm3 M3]. unfold vTaskMissedYield in Hm3, M3.
  assert (H3 : kmid (if p <? uxPriority c then set_xYieldPending true k2 else k2)
    ∧ kmeanwhile k (if p <? uxPriority c then set_xYieldPending true k2 else k2)) by (split; [done|by etrans]).
  destruct (p <? uxPriority c); eexists _, _; (split; [reflexivity|]); destruct H3 as [H3 M]; split_and!; try done;
    [change (event t k2 = Some xPendingReadyList)|intros v Hv; change (event v k2 = event v k)| |intros v Hv];
    rewrite Hev; by case_decide.
Qed.

Lemma wake_mid a k : kmid k →
  ∃ b k', wake_first (EventList a) k = Some (b, k') ∧ kmid k' ∧ kmeanwhile k k'
    ∧ if is_empty (EventList a) k then k' = k
      else ∃ t, event t k = Some (EventList a) ∧ event t k' = Some xPendingReadyList
             ∧ ∀ v, v ≠ t → event v k' = event v k.
Proof.
  intros Hk. unfold wake_first. assert (H := head_event a k (kc_wf _ (proj1 Hk))).
  destruct (is_empty (EventList a) k).
  - exists false, k. by split_and!; [..|reflexivity|].
  - destruct H as (t & Hh & He). destruct (remove_mid a t k Hk Hh He) as (b & k' & E & H1 & H2 & H3 & H4).
    exists b, k'. split_and!; [done..|]. by exists t.
Qed.

(** A task that is the only one in an event list. *)
Definition only (a t : Z) (k : kernel) : Prop := ∀ v, event v k = Some (EventList a) → v = t.

Lemma meanwhile_only a t k k' : kmeanwhile k k' → only a t k → only a t k'.
Proof. intros M O v Hv. destruct (mw_event _ _ M v) as [E|[_ E]]; [apply O; congruence|congruence]. Qed.

Lemma meanwhile_gone a t k k' : kmeanwhile k k' → event t k ≠ Some (EventList a) → event t k' ≠ Some (EventList a).
Proof. intros M H. destruct (mw_event _ _ M t) as [->|[_ ->]]; done. Qed.

(** Waking takes the only waiting task out. *)
Lemma wake_only a t k : kmid k → only a t k →
  ∃ b k', wake_first (EventList a) k = Some (b, k') ∧ kmid k' ∧ kmeanwhile k k' ∧ event t k' ≠ Some (EventList a).
Proof.
  intros Hk O. assert (Hh := head_event a k (kc_wf _ (proj1 Hk))).
  destruct (wake_mid a k Hk) as (b & k' & E & H1 & H2 & H3). exists b, k'. split_and!; [done..|].
  destruct (is_empty (EventList a) k); [subst k'; apply Hh|]. destruct H3 as (v & Hv & Hp & _).
  rewrite <- (O v Hv). congruence.
Qed.

Lemma unlock_loop_mid a n : ∀ k, kmid k →
  ∃ k', unlock_loop n (EventList a) k = Some k' ∧ kmid k' ∧ kmeanwhile k k'
    ∧ (∀ t, only a t k → (0 < n)%nat → event t k' ≠ Some (EventList a)).
Proof.
  induction n as [|n IH]; intros k Hk; cbn [unlock_loop]; [exists k; by split_and!; [..|reflexivity|lia]|].
  assert (Hh := head_event a k (kc_wf _ (proj1 Hk))).
  destruct (wake_mid a k Hk) as (b & k1 & E & Hk1 & M1 & H1). unfold wake_first in E.
  destruct (is_empty (EventList a) k).
  - exists k. split_and!; [done..|reflexivity|]. intros t _ _. apply Hh.
  - rewrite E. cbn [mbind option_bind]. destruct (missed_yield_mid b k1 Hk1) as [Hk2 M2].
    destruct (IH _ Hk2) as (k' & E' & Hk' & M' & _). exists k'. split_and!; [done..|by do 2 (etrans; [eassumption|])|].
    intros t O _. destruct H1 as (v & Hv & Hp & _). rewrite <- (O v Hv).
    eapply meanwhile_gone; [exact M'|]. eapply meanwhile_gone; [exact M2|]. congruence.
Qed.

(** ** Interrupts that use the queue *)

(** What an interrupt handler may do with the queue. *)
Definition isr_ok (q : Queue_t) (i : isr) : Prop :=
  match i with
  | IsrTick | IsrSoft => True
  | IsrSend item pos => is_mutex q = false ∧ q.(uxItemSize) ≤ zlength item
      ∧ (pos = queueSEND_TO_BACK ∨ pos = queueSEND_TO_FRONT ∨ pos = queueOVERWRITE ∧ q.(uxLength) = 1 ∧ 0 < q.(uxItemSize))
  | IsrGive => is_mutex q = false ∧ q.(uxItemSize) = 0
  | IsrReceive | IsrPeek => is_mutex q = false
  end.

Record same_shape (q q' : Queue_t) : Prop := {
  sh_self : q'.(self) = q.(self);
  sh_head : q'.(pcHead) = q.(pcHead);
  sh_length : q'.(uxLength) = q.(uxLength);
  sh_size : q'.(uxItemSize) = q.(uxItemSize);
  sh_holder : is_mutex q = true → q'.(pcTail) = q.(pcTail);
}.

#[export] Instance same_shape_preorder : PreOrder same_shape.
Proof.
  split; [by split|]. intros q q1 q2 A B. split; [destruct A, B; congruence..|].
  intros H. rewrite (sh_holder _ _ B); [by apply A|]. unfold is_mutex. by rewrite (sh_head _ _ A).
Qed.

Lemma same_queue_shape q q' : is_mutex q = false → same_queue q q' → same_shape q q'.
Proof. intros H []. split; congruence. Qed.

Lemma isr_ok_shape q q' i : same_shape q q' → isr_ok q i → isr_ok q' i.
Proof.
  intros [_ E1 E2 E3 _]. assert (Em : is_mutex q' = is_mutex q) by (unfold is_mutex; by rewrite E1).
  destruct i; cbn; rewrite ?Em, ?E2, ?E3; done.
Qed.

(** An operation of an interrupt at the end [lock] of a queue with [count]: while
    the end is locked it is counted, otherwise it wakes a task that waits. *)
Record at_end (lock lock' : Z) (more : Prop) (a : Z) (k k' : kernel) : Prop := {
  ae_locked : lock ≠ queueUNLOCKED → lock' = lock ∧ ¬ more ∨ lock' = s8 (lock + 1);
  ae_unlocked : lock = queueUNLOCKED → lock' = queueUNLOCKED
    ∧ (more → ∀ t, only a t k → event t k' ≠ Some (EventList a));
}.

Record isr_step (q : Queue_t) (k : kernel) (q' : Queue_t) (k' : kernel) : Prop := {
  is_queue : queue_ok q';
  is_shape : same_shape q q';
  is_kernel : kmid k';
  is_meanwhile : kmeanwhile k k';
  is_tx : at_end q.(cTxLock) q'.(cTxLock) (q.(uxMessagesWaiting) < q'.(uxMessagesWaiting)) (q.(self) + 36) k k';
  is_rx : at_end q.(cRxLock) q'.(cRxLock) (q'.(uxMessagesWaiting) < q.(uxMessagesWaiting)) (q.(self) + 16) k k';
}.

Lemma at_end_still lock (more : Prop) a k k' : ¬ more → at_end lock lock more a k k'.
Proof. intros H. split; [by left|done]. Qed.

(** Only the kernel moves. *)
Lemma isr_kernel q k k' : queue_ok q → kmid k' → kmeanwhile k k' → isr_step q k q k'.
Proof. intros Hq Hk M. split; try done; apply at_end_still; lia. Qed.

(** The lock counts do not matter to the sequence. *)
Lemma set_locks_ok q r t : queue_ok q → let q' := set_cRxLock r (set_cTxLock t q) in
  queue_ok q' ∧ same_shape q q' ∧ contents q' = contents q.
Proof.
  intros Hq. split_and!; [|by split|done]. destruct Hq. split; try done. intros H. destruct (qo_ring H) as (x & y & []).
  by exists x, y.
Qed.

(** The end of a send: the waiting task is woken or the send is counted. *)
Lemma isr_tx_end q k q1 : queue_ok q1 → same_shape q q1 → q1.(cTxLock) = q.(cTxLock) → q1.(cRxLock) = q.(cRxLock) →
  q.(uxMessagesWaiting) ≤ q1.(uxMessagesWaiting) → kmid k →
  ∃ b q' k', (if q.(cTxLock) =? queueUNLOCKED then
            '(b, k) ← wake_first (xTasksWaitingToReceive q1) k; Some (pdPASS, b, (q1, k))
          else Some (pdPASS, false, (set_cTxLock (s8 (q.(cTxLock) + 1)) q1, k))) = Some (pdPASS, b, (q', k'))
    ∧ isr_step q k q' (yield_when b k').
Proof.
  intros Hq1 Sh Ht Hr Hm Hk. unfold xTasksWaitingToReceive. rewrite (sh_self _ _ Sh).
  destruct (Z.eqb_spec (cTxLock q) queueUNLOCKED) as [E|E].
  - destruct (wake_mid (self q + 36) k Hk) as (b & k' & Ew & Hk' & M & _). rewrite Ew. cbn [mbind option_bind].
    exists b, q1, k'. split; [done|]. destruct (yield_when_mid b k' Hk') as [Hy My].
    split; [done..|by etrans| |rewrite Hr; apply at_end_still; lia]. split; [done|]. intros _. split; [congruence|].
    intros _ t O. destruct (wake_only (self q + 36) t k Hk O) as (b2 & k2 & E2 & _ & _ & G).
    rewrite Ew in E2. injection E2 as <- <-. by eapply meanwhile_gone.
  - exists false, (set_cTxLock (s8 (cTxLock q + 1)) q1), k. split; [done|].
    destruct (set_locks_ok q1 (cRxLock q1) (s8 (cTxLock q + 1)) Hq1) as (Hq2 & S2 & _).
    assert (Eq : set_cRxLock (cRxLock q1) (set_cTxLock (s8 (cTxLock q + 1)) q1) = set_cTxLock (s8 (cTxLock q + 1)) q1)
      by (by destruct q1). rewrite Eq in *.
    split; [done|by etrans|done|reflexivity| |cbn; rewrite Hr; apply at_end_still; lia].
    split; [by right|done].
Qed.

Lemma isr_rx_end q k q1 data : queue_ok q1 → same_shape q q1 → q1.(cTxLock) = q.(cTxLock) → q1.(cRxLock) = q.(cRxLock) →
  q1.(uxMessagesWaiting) ≤ q.(uxMessagesWaiting) → kmid k →
  ∃ b q' k', (if q.(cRxLock) =? queueUNLOCKED then
            '(b, k) ← wake_first (xTasksWaitingToSend q1) k; Some (pdPASS, data, b, (q1, k))
          else Some (pdPASS, data, false, (set_cRxLock (s8 (q.(cRxLock) + 1)) q1, k))) = Some (pdPASS, data : list Z, b, (q', k'))
    ∧ isr_step q k q' (yield_when b k').
Proof.
  intros Hq1 Sh Ht Hr Hm Hk. unfold xTasksWaitingToSend. rewrite (sh_self _ _ Sh).
  destruct (Z.eqb_spec (cRxLock q) queueUNLOCKED) as [E|E].
  - destruct (wake_mid (self q + 16) k Hk) as (b & k' & Ew & Hk' & M & _). rewrite Ew. cbn [mbind option_bind].
    exists b, q1, k'. split; [done|]. destruct (yield_when_mid b k' Hk') as [Hy My].
    split; [done..|by etrans|rewrite Ht; apply at_end_still; lia|]. split; [done|]. intros _. split; [congruence|].
    intros _ t O. destruct (wake_only (self q + 16) t k Hk O) as (b2 & k2 & E2 & _ & _ & G).
    rewrite Ew in E2. injection E2 as <- <-. by eapply meanwhile_gone.
  - exists false, (set_cRxLock (s8 (cRxLock q + 1)) q1), k. split; [done|].
    destruct (set_locks_ok q1 (s8 (cRxLock q + 1)) (cTxLock q1) Hq1) as (Hq2 & S2 & _).
    assert (Eq : set_cRxLock (s8 (cRxLock q + 1)) (set_cTxLock (cTxLock q1) q1) = set_cRxLock (s8 (cRxLock q + 1)) q1)
      by (by destruct q1). rewrite Eq in *.
    split; [done|by etrans|done|reflexivity|cbn; rewrite Ht; apply at_end_still; lia|].
    split; [by right|done].
Qed.

Lemma put_in_length pos x xs n : (pos = queueSEND_TO_BACK ∨ pos = queueSEND_TO_FRONT ∨ pos = queueOVERWRITE ∧ n = 1) →
  zlength xs ≤ n → zlength xs ≤ zlength (put_in pos x xs).
Proof.
  intros [->|[->|[-> ->]]] Hn.
  - change (put_in queueSEND_TO_BACK x xs) with (xs ++ [x]). rewrite length_app. lia.
  - change (put_in queueSEND_TO_FRONT x xs) with (x :: xs). cbn [length]. lia.
  - change (put_in queueOVERWRITE x xs) with [x]. cbn [length]. lia.
Qed.

Lemma isr_send item pos q k : queue_ok q → kmid k → isr_ok q (IsrSend item pos) →
  ∃ q' k', run_isr (IsrSend item pos) (q, k) = Some (q', k') ∧ isr_step q k q' k'.
Proof.
  intros Hq Hk (Hmu & Hit & Hpos). cbn [run_isr]. unfold xQueueGenericSendFromISR. destruct (qo_count _ Hq).
  destruct ((uxMessagesWaiting q <? uxLength q) || (pos =? queueOVERWRITE)) eqn:E.
  2: { cbn [mbind option_bind yield_when]. exists q, k. split; [done|]. by apply isr_kernel. }
  assert (Hroom : room pos q).
  { destruct Hpos as [->|[->|(-> & ? & ?)]]; [left|left|by right]; (split; [|auto]);
      rewrite orb_false_r in E; apply Z.ltb_lt in E; done. }
  destruct (copy_to q k item pos Hq Hmu Hroom Hit) as (q1 & -> & Hq1 & S & _ & C). cbn [mbind option_bind].
  destruct (isr_tx_end q k q1 Hq1 (same_queue_shape _ _ Hmu S) (sq_tx _ _ S) (sq_rx _ _ S)) as (b & q' & k' & -> & St); [|done|].
  - rewrite <- (length_contents q), <- (length_contents q1), C by done. apply (put_in_length _ _ _ (uxLength q)); [naive_solver|].
    rewrite length_contents by done. lia.
  - cbn [mbind option_bind]. by exists q', (yield_when b k').
Qed.

Lemma isr_give q k : queue_ok q → kmid k → isr_ok q IsrGive →
  ∃ q' k', run_isr IsrGive (q, k) = Some (q', k') ∧ isr_step q k q' k'.
Proof.
  intros Hq Hk (Hmu & Hs). cbn [run_isr]. unfold xQueueGiveFromISR. destruct (qo_count _ Hq), (qo_length _ Hq).
  destruct (Z.ltb_spec (uxMessagesWaiting q) (uxLength q)) as [E|E].
  2: { cbn [mbind option_bind yield_when]. exists q, k. split; [done|]. by apply isr_kernel. }
  set (q1 := set_uxMessagesWaiting _ q).
  assert (Em : uxMessagesWaiting q1 = uxMessagesWaiting q + 1) by (unfold q1; cbn; rewrite u32_small; lia).
  assert (Hq1 : queue_ok q1).
  { constructor; [apply Hq..|change (uxLength q1) with (uxLength q); lia|]. change (uxItemSize q1) with (uxItemSize q). lia. }
  destruct (isr_tx_end q k q1 Hq1) as (b & q' & k' & -> & St); [by split|done|done|lia|done|].
  cbn [mbind option_bind]. by exists q', (yield_when b k').
Qed.

Lemma isr_receive q k : queue_ok q → kmid k → isr_ok q IsrReceive →
  ∃ q' k', run_isr IsrReceive (q, k) = Some (q', k') ∧ isr_step q k q' k'.
Proof.
  intros Hq Hk Hmu. cbn [run_isr]. unfold xQueueReceiveFromISR. destruct (Z.ltb_spec 0 (uxMessagesWaiting q)) as [E|E].
  2: { cbn [mbind option_bind yield_when]. exists q, k. split; [done|]. by apply isr_kernel. }
  destruct (copy_from q Hq E) as (x & v & -> & _ & Hq1 & S & Em & _). cbn [mbind option_bind].
  set (q1 := set_uxMessagesWaiting _ _) in *.
  destruct (isr_rx_end q k q1 x Hq1 (same_queue_shape _ _ Hmu S) (sq_tx _ _ S) (sq_rx _ _ S)) as (b & q' & k' & -> & St); [lia|done|].
  cbn [mbind option_bind]. by exists q', (yield_when b k').
Qed.

Lemma isr_peek q k : queue_ok q → kmid k → ∃ q' k', run_isr IsrPeek (q, k) = Some (q', k') ∧ isr_step q k q' k'.
Proof.
  intros Hq Hk. cbn [run_isr fst snd]. unfold xQueuePeekFromISR. exists q, k. split; [|by apply isr_kernel].
  destruct (Z.ltb_spec 0 (uxMessagesWaiting q)) as [E|E]; [|done].
  destruct (copy_from q Hq E) as (x & v & -> & _). cbn [mbind option_bind]. by destruct q.
Qed.

(** One interrupt under the suspended scheduler. *)
Lemma isr_mid i q k : queue_ok q → kmid k → isr_ok q i →
  ∃ q' k', run_isr i (q, k) = Some (q', k') ∧ isr_step q k q' k'.
Proof.
  intros Hq Hk Hi. destruct i.
  - cbn [run_isr fst snd]. destruct (tick_mid k Hk) as (k' & -> & H1 & H2). exists q, k'. split; [done|]. by apply isr_kernel.
  - cbn [run_isr fst snd]. destruct (soft_mid k Hk) as (k' & -> & H1 & H2). exists q, k'. split; [done|]. by apply isr_kernel.
  - by apply isr_send.
  - by apply isr_give.
  - by apply isr_receive.
  - by apply isr_peek.
Qed.

(** Any number of interrupts, under an invariant [P] of the queue and the kernel
    that each interrupt keeps; [P n]: at most [n] interrupts are to come. *)
Lemma isrs_mid (P : nat → Queue_t → kernel → Prop) m evs :
  (∀ n q k q' k', queue_ok q → kmid k → P (S n) q k → isr_step q k q' k' → P n q' k') →
  ∀ q k, queue_ok q → kmid k → Forall (isr_ok q) evs → P (length evs + m)%nat q k →
  ∃ q' k', run_isrs evs (q, k) = Some (q', k') ∧ queue_ok q' ∧ kmid k' ∧ same_shape q q' ∧ kmeanwhile k k' ∧ P m q' k'.
Proof.
  intros Hstep. induction evs as [|i evs IH]; intros q k Hq Hk Hi HP; cbn [run_isrs].
  { exists q, k. by split_and!; [..|reflexivity|reflexivity|]. }
  apply Forall_cons in Hi as [Hi His]. destruct (isr_mid i q k Hq Hk Hi) as (q1 & k1 & -> & St). cbn [mbind option_bind].
  destruct (IH q1 k1) as (q' & k' & -> & Hq' & Hk' & S' & M' & HP'); [apply St..| |by eapply Hstep|].
  - eapply Forall_impl; [exact His|]. intros j Hj. by eapply isr_ok_shape; [apply St|].
  - exists q', k'. split_and!; try done; [etrans; [apply St|done]..].
Qed.
