(* ===== verification/FrQueueWait.v ===== *)
(** FrQueueWait: a task that blocks on a queue is woken when its turn comes. *)

From stdpp Require Import functions sorting.
From S2P Require Import Prelude FrList FrSeq FrKernel FrTasks FrTasksInv FrTasksMove FrTasksTick FrTasksSched FrTasksApi FrTasksPrio FrNotify FrTasksSteps FrQueue FrQueueData FrQueueSched FrQueueBlock.


(** ** Unlocking *)

Definition unlocked (q : Queue_t) : Prop := q.(cTxLock) = queueUNLOCKED ∧ q.(cRxLock) = queueUNLOCKED.

(** Messages that came while the end was locked are counted. *)
Definition counted (q : Queue_t) : Prop := 0 < q.(uxMessagesWaiting) → 0 < q.(cTxLock).

(** A message that is there does not leave the only waiting task in the list. *)
Definition noticed (a t : Z) (q : Queue_t) (k : kernel) : Prop :=
  only a t k ∧ (0 < q.(uxMessagesWaiting) → event t k ≠ Some (EventList a)).

Lemma noticed_step a t q k q' k' : a = q.(self) + 36 → q.(cTxLock) = queueUNLOCKED → noticed a t q k →
  isr_step q k q' k' → noticed a t q' k'.
Proof.
  intros -> Ht [O N] St. split; [by eapply meanwhile_only; [apply St|]|]. intros Hm.
  destruct (decide (uxMessagesWaiting q < uxMessagesWaiting q')) as [D|D].
  - by apply (ae_unlocked _ _ _ _ _ _ (is_tx _ _ _ _ St)).
  - eapply meanwhile_gone; [apply St|]. apply N. lia.
Qed.

Lemma unlock_tx_mid q k : queue_ok q → kmid k →
  ∃ k', unlock_tx (q, k) = Some (set_cTxLock queueUNLOCKED q, k') ∧ kmid k' ∧ kmeanwhile k k'
    ∧ ∀ t, only (q.(self) + 36) t k → counted q → noticed (q.(self) + 36) t (set_cTxLock queueUNLOCKED q) k'.
Proof.
  intros Hq Hk. unfold unlock_tx. destruct (unlock_loop_mid (self q + 36) (Z.to_nat (cTxLock q)) k Hk) as (k' & E & Hk' & M & G).
  fold (xTasksWaitingToReceive q) in E. rewrite E. cbn [mbind option_bind]. exists k'. split_and!; [done..|].
  intros t O C. split; [by eapply meanwhile_only|]. intros Hm. apply G; [done|]. specialize (C Hm). lia.
Qed.

Lemma unlock_rx_mid q k : queue_ok q → kmid k →
  ∃ k', unlock_rx (q, k) = Some (set_cRxLock queueUNLOCKED q, k') ∧ kmid k' ∧ kmeanwhile k k'.
Proof.
  intros Hq Hk. unfold unlock_rx. destruct (unlock_loop_mid (self q + 16) (Z.to_nat (cRxLock q)) k Hk) as (k' & E & Hk' & M & _).
  fold (xTasksWaitingToSend q) in E. rewrite E. cbn [mbind option_bind]. by exists k'.
Qed.

Lemma set_tx_ok v q : queue_ok q → queue_ok (set_cTxLock v q) ∧ same_shape q (set_cTxLock v q).
Proof.
  intros Hq. destruct (set_locks_ok q q.(cRxLock) v Hq) as (H1 & H2 & _).
  assert (E : set_cRxLock (cRxLock q) (set_cTxLock v q) = set_cTxLock v q) by (by destruct q). by rewrite E in *.
Qed.

Lemma set_rx_ok v q : queue_ok q → queue_ok (set_cRxLock v q) ∧ same_shape q (set_cRxLock v q).
Proof.
  intros Hq. destruct (set_locks_ok q v q.(cTxLock) Hq) as (H1 & H2 & _).
  assert (E : set_cRxLock v (set_cTxLock (cTxLock q) q) = set_cRxLock v q) by (by destruct q). by rewrite E in *.
Qed.

Lemma isr_ok_all q q' evs : same_shape q q' → Forall (isr_ok q) evs → Forall (isr_ok q') evs.
Proof. intros S H. eapply Forall_impl; [exact H|]. intros i. by apply isr_ok_shape. Qed.

Lemma unlock_mid gap q k : queue_ok q → kmid k → Forall (isr_ok q) (gap 0%nat) → Forall (isr_ok q) (gap 1%nat) →
  ∃ q' k', prvUnlockQueue gap (q, k) = Some (q', k') ∧ queue_ok q' ∧ kmid k' ∧ same_shape q q' ∧ kmeanwhile k k'
    ∧ unlocked q' ∧ ∀ t, only (q.(self) + 36) t k → counted q → noticed (q.(self) + 36) t q' k'.
Proof.
  intros Hq Hk H0 H1. unfold prvUnlockQueue. set (a := self q + 36).
  destruct (unlock_tx_mid q k Hq Hk) as (k1 & -> & Hk1 & M1 & N1). cbn [mbind option_bind]. fold a in N1.
  destruct (set_tx_ok queueUNLOCKED q Hq) as [Hq1 S1]. set (q1 := set_cTxLock queueUNLOCKED q) in *.
  set (W := λ t, only a t k ∧ counted q).
  set (P := λ (_ : nat) q' k', q'.(cTxLock) = queueUNLOCKED ∧ q'.(self) = q.(self) ∧ ∀ t, W t → noticed a t q' k').
  assert (HP : ∀ n q k q' k', queue_ok q → kmid k → P (S n) q k → isr_step q k q' k' → P n q' k').
  { intros n x y x' y' _ _ (A1 & A2 & A3) St. split_and!.
    - by apply (ae_unlocked _ _ _ _ _ _ (is_tx _ _ _ _ St)).
    - by rewrite (sh_self _ _ (is_shape _ _ _ _ St)).
    - intros t Ht. eapply (noticed_step a t x y); [by rewrite A2|done|by apply A3|done]. }
  destruct (isrs_mid P 0 (gap 0%nat) HP q1 k1 Hq1 Hk1) as (q2 & k2 & -> & Hq2 & Hk2 & S2 & M2 & P2);
    [by eapply isr_ok_all|split_and!; [done..|]; intros t [A B]; by apply N1|]. cbn [mbind option_bind].
  destruct (unlock_rx_mid q2 k2 Hq2 Hk2) as (k3 & -> & Hk3 & M3). cbn [mbind option_bind].
  destruct (set_rx_ok queueUNLOCKED q2 Hq2) as [Hq3 S3]. set (q3 := set_cRxLock queueUNLOCKED q2) in *.
  assert (P3 : P (length (gap 1%nat) + 0)%nat q3 k3).
  { destruct P2 as (A1 & A2 & A3). split_and!; [done|done|]. intros t Ht. destruct (A3 t Ht) as [O N].
    split; [by eapply meanwhile_only|]. intros Hm. eapply meanwhile_gone; [exact M3|]. by apply N. }
  set (P' := λ n q k, P n q k ∧ q.(cRxLock) = queueUNLOCKED).
  destruct (isrs_mid P' 0 (gap 1%nat)) with (q := q3) (k := k3) as (q4 & k4 & -> & Hq4 & Hk4 & S4 & M4 & P4 & R4); try done.
  - intros n x y x' y' Hx Hy [A B] St. split; [by eapply HP|]. by apply (ae_unlocked _ _ _ _ _ _ (is_rx _ _ _ _ St)).
  - eapply isr_ok_all; [|exact H1]. etrans; [exact S1|]. by etrans.
  - exists q4, k4. destruct P4 as (A1 & A2 & A3). split_and!; try done.
    + do 3 (etrans; [eassumption|]). done.
    + do 3 (etrans; [eassumption|]). done.
    + intros t O C. apply A3. by split.
Qed.

(** ** Resuming *)

Lemma resume_mid k : kmid k → k.(uxSchedulerSuspended) = 1 →
  ∃ b k', xTaskResumeAll k = Some (b, k') ∧ kinv (yield_unless b k') ∧ (kinv k → kinv k')
    ∧ k'.(uxSchedulerSuspended) = 0 ∧ kkeep k k'
    ∧ ∀ t, event t k = Some xPendingReadyList → ∃ p, state t k' = Some (pxReadyTasksLists p).
Proof.
  intros [Hc _] Hs. destruct (resume_all_spec k Hc ltac:(lia)) as (b & k' & E & Hc' & K & S & Y & Hp & R & _).
  assert (S0 : k'.(uxSchedulerSuspended) = 0) by lia. exists b, k'. split_and!; [done| | |done|done|by apply R].
  - unfold yield_unless. destruct b; [|by apply kinv_yield]. split; [done|]. split; [rewrite Y by done; by intros [=]|].
    intros [H|H]; [by rewrite Y in H|done].
  - intros [_ P]. split; [done|]. by apply Hp.
Qed.

(** ** The time-out *)

Lemma check_ticks to w k to' w' : 0 < w ≤ portMAX_DELAY → xTaskCheckForTimeOut to w k = (false, to', w') →
  0 < w' ≤ portMAX_DELAY.
Proof.
  intros Hw. unfold xTaskCheckForTimeOut. destruct (w =? portMAX_DELAY); [by intros [= <- <-]|].
  destruct (_ && _); [done|]. destruct (Z.ltb_spec (u32 (xTickCount k - xTimeOnEntering to)) w); [|done].
  intros [= <- <-]. unfold portMAX_DELAY in *. zsolve.
Qed.

(** ** Waiting for a message *)

(** The 8-bit lock counts do not overflow in the interrupts that are to come. *)
Definition lock_bound (n : nat) (q : Queue_t) : Prop :=
  0 ≤ q.(cTxLock) ∧ q.(cTxLock) + Z.of_nat n ≤ 127 ∧ 0 ≤ q.(cRxLock) ∧ q.(cRxLock) + Z.of_nat n ≤ 127.

Lemma s8_small x : - 2 ^ 7 ≤ x < 2 ^ 7 → s8 x = x.
Proof. intros; zsolve. Qed.

Lemma lock_step n q k q' k' : lock_bound (S n) q → isr_step q k q' k' → lock_bound n q' ∧ (counted q → counted q').
Proof.
  intros (H1 & H2 & H3 & H4) St. unfold queueUNLOCKED in *.
  assert (T := ae_locked _ _ _ _ _ _ (is_tx _ _ _ _ St)). assert (R := ae_locked _ _ _ _ _ _ (is_rx _ _ _ _ St)).
  unfold queueUNLOCKED in T, R. specialize (T ltac:(lia)). specialize (R ltac:(lia)).
  rewrite s8_small in T, R by lia. unfold lock_bound, counted. split; [lia|]. intros C. destruct T as [[T1 T2]|T]; lia.
Qed.

Definition quiet (n : nat) (q : Queue_t) (_ : kernel) : Prop := lock_bound n q ∧ counted q.

Lemma quiet_step n q k q' k' : queue_ok q → kmid k → quiet (S n) q k → isr_step q k q' k' → quiet n q' k'.
Proof. intros _ _ [B C] St. destruct (lock_step n q k q' k' B St). split; auto. Qed.

Lemma bound_step n q k q' k' : queue_ok q → kmid k → lock_bound (S n) q → isr_step q k q' k' → lock_bound n q'.
Proof. intros _ _ B St. by destruct (lock_step n q k q' k' B St). Qed.

(** A gap under the locks. *)
Lemma gap_quiet m evs q k : queue_ok q → kmid k → Forall (isr_ok q) evs → quiet (length evs + m)%nat q k →
  ∃ q' k', run_isrs evs (q, k) = Some (q', k') ∧ queue_ok q' ∧ kmid k' ∧ same_shape q q' ∧ kmeanwhile k k' ∧ quiet m q' k'.
Proof. apply (isrs_mid quiet m evs). apply quiet_step. Qed.

Lemma gap_bound m evs q k : queue_ok q → kmid k → Forall (isr_ok q) evs → lock_bound (length evs + m)%nat q →
  ∃ q' k', run_isrs evs (q, k) = Some (q', k') ∧ queue_ok q' ∧ kmid k' ∧ same_shape q q' ∧ kmeanwhile k k' ∧ lock_bound m q'.
Proof. apply (isrs_mid (λ n q _, lock_bound n q) m evs). apply bound_step. Qed.

(** Putting the calling task into an event list. *)
Lemma place_mid a n t k : kinv k → k.(uxSchedulerSuspended) ≠ 0 → k.(pxCurrentTCB) = Some t → event t k = None →
  k.(xIdleTaskHandle) ≠ Some t → 0 < n ≤ portMAX_DELAY →
  ∃ k', vTaskPlaceOnEventList (EventList a) n k = Some k' ∧ kmid k'
    ∧ k'.(uxSchedulerSuspended) = k.(uxSchedulerSuspended)
    ∧ (∀ v, event v k' = if decide (v = t) then Some (EventList a) else event v k).
Proof.
  intros [Hc Hp] Hn Ht He Hi Hw. unfold vTaskPlaceOnEventList. rewrite Ht. cbn [mbind option_bind].
  destruct (place_core n false true (EventList a) t k Hc Ht) as (k' & E & Hc' & C & R & _); try done.
  { apply (pr_runnable _ Hp). by right. }
  cbn [mbind option_bind] in E. rewrite E. destruct (relisted_fields _ _ _ R) as (_&_&_&_&_&_&F7&_). cbn in F7.
  exists k'. split_and!; [done|by split; [|rewrite F7]|done|].
  intros v. unfold event. rewrite C. unfold insert, fn_insert. repeat case_decide; congruence.
Qed.

(** The holder of a mutex inherits the priority of the task that waits. *)
Lemma inherit_mid q k : kinv k → k.(uxSchedulerSuspended) ≠ 0 →
  (is_mutex q = true → ∀ h, handle q.(pcTail) = Some h → is_Some (tcb h k)) →
  ∃ k', (if is_mutex q then vTaskPriorityInherit (handle q.(pcTail)) k else Some k) = Some k' ∧ kinv k'
    ∧ k'.(uxSchedulerSuspended) = k.(uxSchedulerSuspended) ∧ k'.(pxCurrentTCB) = k.(pxCurrentTCB)
    ∧ k'.(xIdleTaskHandle) = k.(xIdleTaskHandle) ∧ ∀ v, event v k' = event v k.
Proof.
  intros Hk Hs Hh. destruct (is_mutex q); [|by exists k].
  destruct (handle (pcTail q)) as [h|] eqn:E; [|by exists k]. destruct (Hh eq_refl h eq_refl) as [c Hc].
  destruct (inherit_spec h c k Hk Hc) as (k' & p & E' & Hk' & _ & R). exists k'. by split_and!; [..|apply R|apply R|apply R|apply R].
Qed.

(** The end: what unlocking and resuming give. *)
Lemma unlock_and_resume_spec gap q k : queue_ok q → kmid k → k.(uxSchedulerSuspended) = 1 →
  Forall (isr_ok q) (gap 0%nat) → Forall (isr_ok q) (gap 1%nat) →
  ∃ b q' k', unlock_and_resume gap (q, k) = Some (b, (q', k')) ∧ queue_ok q' ∧ same_shape q q' ∧ unlocked q'
    ∧ kinv (yield_unless b k') ∧ (kinv k → kinv k') ∧ k'.(uxSchedulerSuspended) = 0
    ∧ (∀ t p, state t k = Some (pxReadyTasksLists p) → state t k' = Some (pxReadyTasksLists p))
    ∧ (∀ t, only (q.(self) + 36) t k → counted q →
         event t k = Some (EventList (q.(self) + 36)) ∨ event t k = Some xPendingReadyList →
         0 < q'.(uxMessagesWaiting) → ∃ p, state t k' = Some (pxReadyTasksLists p)).
Proof.
  intros Hq Hk Hs H0 H1. unfold unlock_and_resume.
  destruct (unlock_mid gap q k Hq Hk H0 H1) as (q1 & k1 & -> & Hq1 & Hk1 & S1 & M1 & U1 & N1). cbn [mbind option_bind].
  destruct (resume_mid k1 Hk1) as (b & k2 & -> & Y2 & I2 & S2 & K2 & R2); [by rewrite (mw_suspended _ _ M1)|].
  cbn [mbind option_bind]. exists b, q1, k2. split_and!; try done.
  - intros Hi. by apply I2, (meanwhile_kinv k).
  - intros t p Ht. apply (kk_ready _ _ K2). by rewrite (mw_state _ _ M1).
  - intros t O C E Hm. apply R2. destruct (N1 t O C) as [_ N]. specialize (N Hm).
    destruct (mw_event _ _ M1 t) as [E'|[_ E']]; [destruct E; congruence|done].
Qed.

(** The mutex holder, if there is one, is a task. *)
Definition holder_ok (q : Queue_t) (k : kernel) : Prop :=
  is_mutex q = true → ∀ h, handle q.(pcTail) = Some h → is_Some (tcb h k).

Lemma holder_ok_mid q q' k k' : same_shape q q' → kmeanwhile k k' → holder_ok q k → holder_ok q' k'.
Proof.
  intros S M H Hm. assert (Hm' : is_mutex q = true) by (unfold is_mutex in *; by rewrite <- (sh_head _ _ S)).
  rewrite (sh_holder _ _ S Hm'). unfold tcb. rewrite (mw_tcbs _ _ M). by apply H.
Qed.

(** The calling task: it runs, is not the idle task and is in no event list. *)
Record caller (t : Z) (k : kernel) : Prop := {
  ca_current : k.(pxCurrentTCB) = Some t;
  ca_idle : k.(xIdleTaskHandle) ≠ Some t;
  ca_event : event t k = None;
}.

Lemma caller_mid t k k' : kmeanwhile k k' → caller t k → caller t k'.
Proof.
  intros M [C1 C2 C3]. split; [by rewrite (mw_current _ _ M)|by rewrite (mw_idle _ _ M)|].
  destruct (mw_event _ _ M t) as [->|[[a E] _]]; congruence.
Qed.

Lemma receive_wait_spec gap n t q k : queue_ok q → kinv k → k.(uxSchedulerSuspended) = 1 → caller t k → holder_ok q k →
  (∀ i, Forall (isr_ok q) (gap i)) → quiet (length (gap 5%nat) + length (gap 6%nat) + length (gap 7%nat)) q k →
  0 < n ≤ portMAX_DELAY →
  ∃ q' k', receive_wait gap n (q, k) = Some (q', k') ∧ queue_ok q' ∧ same_shape q q' ∧ unlocked q' ∧ kinv k'
    ∧ k'.(uxSchedulerSuspended) = 0
    ∧ ((∀ v, event v k ≠ Some (xTasksWaitingToReceive q)) → 0 < q'.(uxMessagesWaiting) →
       ∃ p, state t k' = Some (pxReadyTasksLists p)).
Proof.
  intros Hq Hk Hs Hca Hh Hg Hqu Hn. unfold receive_wait. set (a := self q + 36).
  destruct (gap_quiet (length (gap 6%nat) + length (gap 7%nat)) (gap 5%nat) q k Hq) as (q1 & k1 & -> & Hq1 & Hk1 & S1 & M1 & Q1);
    [by split; [apply Hk|lia]|apply Hg|by rewrite Nat.add_assoc|]. cbn [mbind option_bind].
  assert (Hi1 : kinv k1) by (by apply (meanwhile_kinv k)). assert (Hc1 := caller_mid t k k1 M1 Hca).
  assert (Hs1 : uxSchedulerSuspended k1 = 1) by (by rewrite (mw_suspended _ _ M1)).
  destruct (inherit_mid q1 k1 Hi1) as (k2 & -> & Hi2 & Su2 & Cu2 & Id2 & Ev2); [lia|by eapply holder_ok_mid|]. cbn [mbind option_bind].
  destruct (gap_quiet (length (gap 7%nat)) (gap 6%nat) q1 k2 Hq1) as (q3 & k3 & -> & Hq3 & Hk3 & S3 & M3 & Q3);
    [by split; [apply Hi2|lia]|by eapply isr_ok_all|done|]. cbn [mbind option_bind].
  assert (Hi3 : kinv k3) by (by apply (meanwhile_kinv k2)).
  assert (Hc3 : caller t k3).
  { apply (caller_mid t k2 k3 M3). destruct Hc1. split; congruence. }
  assert (Hs3 : uxSchedulerSuspended k3 = 1) by (rewrite (mw_suspended _ _ M3); congruence).
  assert (S03 : same_shape q q3) by (by etrans).
  assert (Ea : xTasksWaitingToReceive q3 = EventList a) by (unfold xTasksWaitingToReceive, a; by rewrite (sh_self _ _ S03)).
  rewrite Ea. destruct Hc3 as [Hct Hid Hev].
  destruct (place_mid a n t k3 Hi3 ltac:(lia) Hct Hev Hid Hn) as (k4 & -> & Hk4 & Su4 & Ev4). cbn [mbind option_bind].
  destruct (gap_quiet 0 (gap 7%nat) q3 k4 Hq3 Hk4) as (q5 & k5 & -> & Hq5 & Hk5 & S5 & M5 & Q5);
    [by eapply isr_ok_all|by rewrite Nat.add_0_r|]. cbn [mbind option_bind].
  assert (S05 : same_shape q q5) by (by etrans).
  destruct (unlock_and_resume_spec gap q5 k5 Hq5 Hk5) as (b & q6 & k6 & -> & Hq6 & S6 & U6 & Y6 & _ & Su6 & _ & W6);
    [rewrite (mw_suspended _ _ M5); congruence|by eapply isr_ok_all..|]. cbn [mbind option_bind].
  exists q6, (yield_unless b k6). split_and!; try done; [by etrans|by destruct b|].
  intros Hno Hm. assert (Hno3 : ∀ v, event v k3 ≠ Some (EventList a)).
  { intros v. eapply meanwhile_gone; [exact M3|]. rewrite Ev2. eapply meanwhile_gone; [exact M1|]. apply Hno. }
  assert (Ea5 : self q5 + 36 = a) by (unfold a; by rewrite (sh_self _ _ S05)). rewrite Ea5 in W6.
  assert (Hev5 : event t k5 = Some (EventList a) ∨ event t k5 = Some xPendingReadyList).
  { destruct (mw_event _ _ M5 t) as [->|[_ ->]]; [|by right]. left. by rewrite Ev4, decide_True. }
  assert (O5 : only a t k5).
  { eapply meanwhile_only; [exact M5|]. intros v. rewrite Ev4. case_decide; [done|]. intros Hv. by destruct (Hno3 v). }
  assert (Hst : ∃ p, state t k6 = Some (pxReadyTasksLists p)); [|by destruct b].
  apply (W6 t O5); [apply Q5|done|done].
Qed.

(** Suspending the scheduler and locking the queue. *)
Lemma suspend_and_lock_spec gap m t q k : queue_ok q → unlocked q → kinv k → k.(pending_soft_sv) = false →
  k.(uxSchedulerSuspended) = 0 → caller t k → (∀ i, Forall (isr_ok q) (gap i)) →
  Z.of_nat (length (gap 3%nat) + m) ≤ 127 →
  ∃ q' k', suspend_and_lock gap (q, k) = Some (q', k') ∧ queue_ok q' ∧ kinv k' ∧ k'.(uxSchedulerSuspended) = 1
    ∧ same_shape q q' ∧ kmeanwhile (vTaskSuspendAll k) k' ∧ lock_bound m q'.
Proof.
  intros Hq [Ut Ur] Hk Hsoft Hs Hca Hg Hm. unfold suspend_and_lock. cbn [fst snd].
  destruct (suspend_all_spec k Hk) as [Hk0 Hs0]; [lia|by apply kinv_runnable|]. set (k0 := vTaskSuspendAll k) in *.
  rewrite Hs in Hs0. change (0 + 1) with 1 in Hs0.
  set (P := λ (_ : nat) q' (_ : kernel), unlocked q').
  destruct (isrs_mid P 0 (gap 2%nat)) with (q := q) (k := k0) as (q1 & k1 & -> & Hq1 & Hk1 & S1 & M1 & U1); try done.
  { intros n x y x' y' _ _ [A B] St. split; [by apply (ae_unlocked _ _ _ _ _ _ (is_tx _ _ _ _ St))|
      by apply (ae_unlocked _ _ _ _ _ _ (is_rx _ _ _ _ St))]. }
  { split; [apply Hk0|lia]. }
  cbn [mbind option_bind]. destruct U1 as [Ut1 Ur1].
  assert (El : prvLockQueue q1 = set_cRxLock 0 (set_cTxLock 0 q1)).
  { unfold prvLockQueue. rewrite Ur1. cbn. rewrite Ut1. by destruct q1. }
  rewrite El. destruct (set_locks_ok q1 0 0 Hq1) as (Hq2 & S2 & _). set (q2 := set_cRxLock 0 _) in *.
  destruct (gap_bound m (gap 3%nat) q2 k1 Hq2 Hk1) as (q3 & k3 & -> & Hq3 & Hk3 & S3 & M3 & B3);
    [eapply isr_ok_all; [|apply Hg]; by etrans|split_and!; cbn; lia|].
  assert (M03 : kmeanwhile k0 k3) by (by etrans).
  exists q3, k3. split_and!; try done.
  - by apply (meanwhile_kinv k0).
  - by rewrite (mw_suspended _ _ M03).
  - etrans; [exact S1|]. by etrans.
Qed.

(** ** The blocking phases *)

Lemma suspend_caller t k : caller t k → caller t (vTaskSuspendAll k).
Proof. intros []. by split. Qed.

(** Leaving the blocking phase without having waited. *)
Lemma leave_spec gap t q k : queue_ok q → kinv k → k.(uxSchedulerSuspended) = 1 → k.(pxCurrentTCB) = Some t →
  (∀ i, Forall (isr_ok q) (gap i)) →
  ∃ b q' k', unlock_and_resume gap (q, k) = Some (b, (q', k')) ∧ queue_ok q' ∧ same_shape q q' ∧ unlocked q' ∧ kinv k'
    ∧ k'.(uxSchedulerSuspended) = 0 ∧ ∃ p, state t k' = Some (pxReadyTasksLists p).
Proof.
  intros Hq Hk Hs Ht Hg.
  destruct (unlock_and_resume_spec gap q k Hq) as (b & q' & k' & E & Hq' & S' & U' & _ & I' & Su' & R' & _);
    [by split; [apply Hk|lia]|done|apply Hg..|].
  exists b, q', k'. split_and!; try done; [by apply I'|].
  destruct (pr_runnable _ (proj2 Hk)) as (t' & c & E1 & _ & E3); [right; lia|]. assert (t' = t) as -> by congruence. eauto.
Qed.

Definition gap_events (gap : nat → list isr) : nat :=
  length (gap 3%nat) + length (gap 4%nat) + length (gap 5%nat) + length (gap 6%nat) + length (gap 7%nat).

Lemma receive_block_spec gap to n t q k : queue_ok q → unlocked q → kinv k → k.(pending_soft_sv) = false →
  k.(uxSchedulerSuspended) = 0 → caller t k → holder_ok q k → (∀ i, Forall (isr_ok q) (gap i)) →
  Z.of_nat (gap_events gap) ≤ 127 → 0 < n ≤ portMAX_DELAY →
  ∃ r q' k', receive_block gap to n (q, k) = Some (r, (q', k')) ∧ queue_ok q' ∧ same_shape q q' ∧ unlocked q' ∧ kinv k'
    ∧ k'.(uxSchedulerSuspended) = 0
    ∧ ((∀ v, event v k ≠ Some (xTasksWaitingToReceive q)) → 0 < q'.(uxMessagesWaiting) →
       ∃ p, state t k' = Some (pxReadyTasksLists p)).
Proof.
  intros Hq Hu Hk Hsoft Hs Hca Hh Hg Hb Hn. unfold receive_block, gap_events in *.
  set (m := (length (gap 4%nat) + (length (gap 5%nat) + length (gap 6%nat) + length (gap 7%nat)))%nat).
  destruct (suspend_and_lock_spec gap m t q k) as (q1 & k1 & -> & Hq1 & Hk1 & Hs1 & S1 & M1 & B1); try done; [unfold m; lia|].
  cbn [mbind option_bind snd]. destruct (xTaskCheckForTimeOut to n k1) as [[expired to'] n'] eqn:Et.
  destruct (gap_bound (length (gap 5%nat) + length (gap 6%nat) + length (gap 7%nat)) (gap 4%nat) q1 k1 Hq1)
    as (q2 & k2 & -> & Hq2 & Hk2 & S2 & M2 & B2); [by split; [apply Hk1|lia]|by eapply isr_ok_all|done|].
  cbn [mbind option_bind fst snd].
  assert (Hi2 : kinv k2) by (by apply (meanwhile_kinv k1)). assert (S02 : same_shape q q2) by (by etrans).
  assert (M02 : kmeanwhile (vTaskSuspendAll k) k2) by (by etrans).
  assert (Hs2 : uxSchedulerSuspended k2 = 1) by (by rewrite (mw_suspended _ _ M2)).
  assert (Hc2 : caller t k2) by (by eapply caller_mid; [exact M02|apply suspend_caller]).
  assert (Hg2 : ∀ i, Forall (isr_ok q2) (gap i)) by (intros i; by eapply isr_ok_all).
  destruct expired.
  { destruct (leave_spec gap t q2 k2 Hq2 Hi2 Hs2 (ca_current _ _ Hc2) Hg2) as (b & q3 & k3 & -> & Hq3 & S3 & U3 & I3 & Su3 & R3).
    cbn [mbind option_bind]. eexists _, q3, k3. split; [reflexivity|]. split_and!; try done. by etrans. }
  apply check_ticks in Et; [|done].
  destruct (prvIsQueueEmpty q2) eqn:Ee.
  - assert (C2 : counted q2) by (intros H; unfold prvIsQueueEmpty in Ee; lia).
    destruct (receive_wait_spec gap n' t q2 k2) as (q3 & k3 & -> & Hq3 & S3 & U3 & I3 & Su3 & W3); try done.
    { eapply holder_ok_mid; [exact S02|exact M02|exact Hh]. }
    cbn [mbind option_bind]. eexists _, q3, k3. split; [reflexivity|]. split_and!; try done; [by etrans|].
    intros Hno. apply W3. intros v. unfold xTasksWaitingToReceive. rewrite (sh_self _ _ S02).
    eapply meanwhile_gone; [exact M02|]. apply Hno.
  - destruct (gap_bound (length (gap 6%nat) + length (gap 7%nat)) (gap 5%nat) q2 k2 Hq2 Hk2)
      as (q3 & k3 & -> & Hq3 & Hk3 & S3 & M3 & _); [apply Hg2|by rewrite Nat.add_assoc|]. cbn [mbind option_bind].
    destruct (leave_spec gap t q3 k3 Hq3) as (b & q4 & k4 & -> & Hq4 & S4 & U4 & I4 & Su4 & R4).
    { by apply (meanwhile_kinv k2). }
    { by rewrite (mw_suspended _ _ M3). }
    { rewrite (mw_current _ _ M3). apply Hc2. }
    { intros i. by eapply isr_ok_all. }
    cbn [mbind option_bind]. eexists _, q4, k4. split; [reflexivity|]. split_and!; try done.
    etrans; [exact S02|]. by etrans.
Qed.

Lemma send_wait_spec gap n t q k : queue_ok q → kinv k → k.(uxSchedulerSuspended) = 1 → caller t k →
  (∀ i, Forall (isr_ok q) (gap i)) → lock_bound (length (gap 5%nat) + length (gap 7%nat)) q → 0 < n ≤ portMAX_DELAY →
  ∃ q' k', send_wait gap n (q, k) = Some (q', k') ∧ queue_ok q' ∧ same_shape q q' ∧ unlocked q' ∧ kinv k'
    ∧ k'.(uxSchedulerSuspended) = 0.
Proof.
  intros Hq Hk Hs Hca Hg Hqu Hn. unfold send_wait.
  destruct (gap_bound (length (gap 7%nat)) (gap 5%nat) q k Hq) as (q1 & k1 & -> & Hq1 & Hk1 & S1 & M1 & Q1);
    [by split; [apply Hk|lia]|apply Hg|done|]. cbn [mbind option_bind].
  assert (Hi1 : kinv k1) by (by apply (meanwhile_kinv k)).
  assert (Hs1 : uxSchedulerSuspended k1 = 1) by (by rewrite (mw_suspended _ _ M1)).
  destruct (caller_mid t k k1 M1 Hca) as [Hct Hid Hev].
  destruct (place_mid (self q1 + 16) n t k1 Hi1 ltac:(lia) Hct Hev Hid Hn) as (k2 & E & Hk2 & Su2 & _).
  fold (xTasksWaitingToSend q1) in E. rewrite E. cbn [mbind option_bind].
  destruct (gap_bound 0 (gap 7%nat) q1 k2 Hq1 Hk2) as (q3 & k3 & -> & Hq3 & Hk3 & S3 & M3 & _);
    [by eapply isr_ok_all|by rewrite Nat.add_0_r|]. cbn [mbind option_bind]. assert (S03 : same_shape q q3) by (by etrans).
  destruct (unlock_and_resume_spec gap q3 k3 Hq3 Hk3) as (b & q4 & k4 & -> & Hq4 & S4 & U4 & Y4 & _ & Su4 & _);
    [rewrite (mw_suspended _ _ M3); congruence|by eapply isr_ok_all..|]. cbn [mbind option_bind].
  exists q4, (yield_unless b k4). split_and!; try done; [by etrans|by destruct b].
Qed.

Lemma send_block_spec gap to n t q k : queue_ok q → unlocked q → kinv k → k.(pending_soft_sv) = false →
  k.(uxSchedulerSuspended) = 0 → caller t k → (∀ i, Forall (isr_ok q) (gap i)) →
  Z.of_nat (gap_events gap) ≤ 127 → 0 < n ≤ portMAX_DELAY →
  ∃ r q' k', send_block gap to n (q, k) = Some (r, (q', k')) ∧ queue_ok q' ∧ same_shape q q' ∧ unlocked q' ∧ kinv k'
    ∧ k'.(uxSchedulerSuspended) = 0.
Proof.
  intros Hq Hu Hk Hsoft Hs Hca Hg Hb Hn. unfold send_block, gap_events in *.
  set (m := (length (gap 4%nat) + (length (gap 5%nat) + length (gap 7%nat)))%nat).
  destruct (suspend_and_lock_spec gap m t q k) as (q1 & k1 & -> & Hq1 & Hk1 & Hs1 & S1 & M1 & B1); try done; [unfold m; lia|].
  cbn [mbind option_bind snd]. destruct (xTaskCheckForTimeOut to n k1) as [[expired to'] n'] eqn:Et.
  destruct (gap_bound (length (gap 5%nat) + length (gap 7%nat)) (gap 4%nat) q1 k1 Hq1)
    as (q2 & k2 & -> & Hq2 & Hk2 & S2 & M2 & B2); [by split; [apply Hk1|lia]|by eapply isr_ok_all|done|].
  cbn [mbind option_bind fst snd].
  assert (Hi2 : kinv k2) by (by apply (meanwhile_kinv k1)). assert (S02 : same_shape q q2) by (by etrans).
  assert (M02 : kmeanwhile (vTaskSuspendAll k) k2) by (by etrans).
  assert (Hs2 : uxSchedulerSuspended k2 = 1) by (by rewrite (mw_suspended _ _ M2)).
  assert (Hc2 : caller t k2) by (by eapply caller_mid; [exact M02|apply suspend_caller]).
  assert (Hg2 : ∀ i, Forall (isr_ok q2) (gap i)) by (intros i; by eapply isr_ok_all).
  destruct expired.
  { destruct (leave_spec gap t q2 k2 Hq2 Hi2 Hs2 (ca_current _ _ Hc2) Hg2) as (b & q3 & k3 & -> & Hq3 & S3 & U3 & I3 & Su3 & _).
    cbn [mbind option_bind]. eexists _, q3, k3. split; [reflexivity|]. split_and!; try done. by etrans. }
  apply check_ticks in Et; [|done].
  destruct (prvIsQueueFull q2).
  - destruct (send_wait_spec gap n' t q2 k2) as (q3 & k3 & -> & Hq3 & S3 & U3 & I3 & Su3); try done.
    cbn [mbind option_bind]. eexists _, q3, k3. split; [reflexivity|]. split_and!; try done. by etrans.
  - destruct (gap_bound (length (gap 7%nat)) (gap 5%nat) q2 k2 Hq2 Hk2)
      as (q3 & k3 & -> & Hq3 & Hk3 & S3 & M3 & _); [apply Hg2|done|]. cbn [mbind option_bind].
    destruct (leave_spec gap t q3 k3 Hq3) as (b & q4 & k4 & -> & Hq4 & S4 & U4 & I4 & Su4 & _).
    { by apply (meanwhile_kinv k2). }
    { by rewrite (mw_suspended _ _ M3). }
    { rewrite (mw_current _ _ M3). apply Hc2. }
    { intros i. by eapply isr_ok_all. }
    cbn [mbind option_bind]. eexists _, q4, k4. split; [reflexivity|]. split_and!; try done.
    etrans; [exact S02|]. by etrans.
Qed.
