(* ===== verification/FrQueueTheorems.v ===== *)
(** FrQueueTheorems: the correctness of queues, semaphores and mutexes. *)

From stdpp Require Import functions sorting.
From S2P Require Import Prelude FrList FrSeq FrKernel FrTasks FrTasksInv FrTasksMove FrTasksTick FrTasksSched FrTasksApi FrTasksLife FrTasksPrio FrNotify FrTasksSteps FrTasksTheorems FrQueue FrQueueData FrQueueSched FrQueueBlock FrQueueWait.

(** ** Programs of queue calls that do not wait *)

Inductive qop := QSend (item : list Z) (pos : Z) | QReceive | QPeek.

(** The outcome of a call: its return value and the received bytes. *)
Definition run_op (o : qop) (s : qk) : option (Z * list Z * qk) :=
  match o with
  | QSend item pos =>
      '(r, s) ← send_try item 0 pos None s; match r with Return v => Some (v, [], s) | GoOn _ _ => None end
  | QReceive =>
      '(r, s) ← receive_try 0 false None s; match r with Return (v, x) => Some (v, x, s) | GoOn _ _ => None end
  | QPeek =>
      '(r, s) ← receive_try 0 true None s; match r with Return (v, x) => Some (v, x, s) | GoOn _ _ => None end
  end.

Fixpoint run_ops (os : list qop) (s : qk) : option (list (Z * list Z) * qk) :=
  match os with
  | [] => Some ([], s)
  | o :: os => '(v, x, s) ← run_op o s; '(rs, s) ← run_ops os s; Some ((v, x) :: rs, s)
  end.

(** The same on a sequence of at most [n] items. *)
Definition spec_op (n size : Z) (o : qop) (xs : list (list Z)) : (Z * list Z) * list (list Z) :=
  match o with
  | QSend item pos =>
      if (zlength xs <? n) || (pos =? queueOVERWRITE) then (pdPASS, [], put_in pos (take (Z.to_nat size) item) xs)
      else (errQUEUE_FULL, [], xs)
  | QReceive => match xs with [] => (errQUEUE_EMPTY, [], []) | x :: xs => (pdPASS, x, xs) end
  | QPeek => match xs with [] => (errQUEUE_EMPTY, [], []) | x :: _ => (pdPASS, x, xs) end
  end.

Fixpoint spec_ops (n size : Z) (os : list qop) (xs : list (list Z)) : list (Z * list Z) * list (list Z) :=
  match os with
  | [] => ([], xs)
  | o :: os => let '(r, xs) := spec_op n size o xs in let '(rs, xs) := spec_ops n size os xs in (r :: rs, xs)
  end.

Definition qop_ok (n size : Z) (o : qop) : Prop :=
  match o with
  | QSend item pos => size ≤ zlength item
      ∧ (pos = queueSEND_TO_BACK ∨ pos = queueSEND_TO_FRONT ∨ pos = queueOVERWRITE ∧ n = 1 ∧ 0 < size)
  | _ => True
  end.

Lemma run_op_spec o q k : kinv k → queue_ok q → is_mutex q = false → qop_ok q.(uxLength) q.(uxItemSize) o →
  ∃ q' k', run_op o (q, k) = Some ((spec_op q.(uxLength) q.(uxItemSize) o (contents q)).1, (q', k'))
    ∧ queue_ok q' ∧ kinv k' ∧ same_queue q q' ∧ contents q' = (spec_op q.(uxLength) q.(uxItemSize) o (contents q)).2.
Proof.
  intros Hk Hq Hmu Ho. assert (Hl := length_contents q Hq). destruct (qo_count _ Hq).
  destruct o as [item pos| |]; cbn [run_op spec_op].
  - destruct Ho as [Hit Hpos]. rewrite Hl.
    destruct ((uxMessagesWaiting q <? uxLength q) || (pos =? queueOVERWRITE)) eqn:E.
    + assert (Hroom : room pos q).
      { destruct Hpos as [->|[->|(-> & ? & ?)]]; [left|left|by right]; (split; [|auto]);
          rewrite orb_false_r in E; apply Z.ltb_lt in E; done. }
      destruct (send_try_room item 0 pos None q k Hk Hq Hmu Hroom Hit) as (q' & k' & -> & (Hq' & S & C) & Hk' & _).
      cbn [mbind option_bind]. by exists q', k'.
    + apply orb_false_iff in E as [E1 E2]. apply Z.eqb_neq in E2. apply Z.ltb_ge in E1.
      rewrite (send_try_full item 0 None q k ltac:(lia) pos E2). cbn [mbind option_bind].
      exists q, k. by split_and!.
  - destruct (contents q) as [|x xs] eqn:Ec; cbn [length] in Hl.
    + rewrite receive_try_empty by lia. cbn [mbind option_bind]. exists q, k. by split_and!.
    + destruct (receive_try_some 0 false None q k Hk Hq ltac:(lia)) as (y & q' & k' & -> & Hk' & (Hq' & S & C) & _).
      cbn [mbind option_bind]. rewrite Ec in C. injection C as -> ->. by exists q', k'.
  - destruct (contents q) as [|x xs] eqn:Ec; cbn [length] in Hl.
    + rewrite receive_try_empty by lia. cbn [mbind option_bind]. exists q, k. by split_and!.
    + destruct (receive_try_some 0 true None q k Hk Hq ltac:(lia)) as (y & q' & k' & -> & Hk' & [-> C] & _).
      cbn [mbind option_bind]. rewrite Ec in C. injection C as ->. exists q, k'. by split_and!.
Qed.

(** C3: any program of xQueueSendToBack, xQueueSendToFront,
    xQueueOverwrite, xQueueReceive and xQueuePeek without waiting gives on the
    ring buffer of a queue (or on a semaphore) the return values and the bytes
    that it gives on a bounded sequence of items; the storage is never left,
    the pointers and the count stay consistent, and the scheduler keeps its
    invariant whatever tasks are woken on the way. *)
Theorem queue_is_fifo os : ∀ q k, kinv k → queue_ok q → is_mutex q = false →
  Forall (qop_ok q.(uxLength) q.(uxItemSize)) os →
  ∃ q' k', run_ops os (q, k) = Some ((spec_ops q.(uxLength) q.(uxItemSize) os (contents q)).1, (q', k'))
    ∧ queue_ok q' ∧ kinv k' ∧ contents q' = (spec_ops q.(uxLength) q.(uxItemSize) os (contents q)).2.
Proof.
  induction os as [|o os IH]; intros q k Hk Hq Hmu Hos; [by exists q, k|].
  apply Forall_cons in Hos as [Ho Hos]. destruct (run_op_spec o q k Hk Hq Hmu Ho) as (q1 & k1 & E & Hq1 & Hk1 & S & C).
  cbn [run_ops spec_ops]. rewrite E. destruct (spec_op _ _ o (contents q)) as [[v x] ys]. cbn [fst snd mbind option_bind] in *.
  destruct (IH q1 k1 Hk1 Hq1) as (q' & k' & -> & Hq' & Hk' & C').
  { unfold is_mutex. by rewrite (sq_head _ _ S). }
  { by rewrite (sq_length _ _ S), (sq_size _ _ S). }
  rewrite (sq_length _ _ S), (sq_size _ _ S), C in *. destruct (spec_ops _ _ os ys) as [rs zs].
  exists q', k'. by split_and!.
Qed.

(** A queue of two items of three bytes. *)
Definition demo_queue : Queue_t := fresh_queue 2 3 4096 [9; 9; 9; 9; 9; 9].

Lemma demo_queue_ok : queue_ok demo_queue ∧ is_mutex demo_queue = false ∧ contents demo_queue = [].
Proof. apply (fresh_queue_ok 2 3 4096); [lia..|]. split_and!; vm_compute; (reflexivity || discriminate). Qed.

Lemma queue_is_fifo_witness : ∃ q' k',
  run_ops [QSend [1; 2; 3] 0; QSend [4; 5; 6] 1; QSend [7; 7; 7] 0; QReceive; QPeek] (demo_queue, demo_kernel)
  = Some ([(1, []); (1, []); (0, []); (1, [4; 5; 6]); (1, [1; 2; 3])], (q', k')) ∧ contents q' = [[1; 2; 3]].
Proof.
  destruct demo_queue_ok as (H1 & H2 & H3).
  destruct (queue_is_fifo [QSend [1; 2; 3] 0; QSend [4; 5; 6] 1; QSend [7; 7; 7] 0; QReceive; QPeek]
    demo_queue demo_kernel demo_kinv H1 H2) as (q' & k' & E & _ & _ & C).
  { repeat constructor; cbn; lia. }
  rewrite H3 in E, C. exists q', k'. exact (conj E C).
Defined.

(** ** Creating queues and mutexes *)

(** XQueueGenericCreate on a block of the heap makes an
    empty, unlocked queue of the given size whose storage lies within the block,
    and xQueueCreateMutex a mutex that is free; the block is the only one that is
    taken, and tasks that wait elsewhere go on waiting under the invariant. *)
Theorem queue_created n size a junk k : kinv k → 0 < n < 2 ^ 32 → 0 ≤ size → good_block n size a junk →
  (∀ t, event t k ≠ Some (EventList (a + 16)) ∧ event t k ≠ Some (EventList (a + 36))) →
  (∃ q k', xQueueGenericCreate n size (Some (a, junk)) k = Some (Some q, k') ∧ kinv k' ∧ k'.(blocks) = {[a]} ∪ k.(blocks)
    ∧ queue_ok q ∧ unlocked q ∧ is_mutex q = false ∧ contents q = [] ∧ q.(uxLength) = n ∧ q.(uxItemSize) = size)
  ∧ (n = 1 → size = 0 → ∃ q k', xQueueCreateMutex (Some (a, junk)) k = Some (Some q, k') ∧ kinv k'
    ∧ queue_ok q ∧ is_mutex q = true ∧ q.(uxMessagesWaiting) = 1 ∧ handle q.(pcTail) = None).
Proof.
  intros Hk Hn Hs Hb Hno. split.
  - destruct (create_queue_spec n size a junk k Hk Hn Hs Hb Hno) as (k' & E & Hk' & B).
    destruct (fresh_queue_ok n size a junk Hn Hs Hb) as (H1 & H2 & H3). eexists _, k'. by split_and!.
  - intros -> ->. destruct (create_mutex_spec a junk k Hk Hb Hno) as (q & k' & ? & ? & ? & ? & ? & ? & ? & ? & ?).
    by exists q, k'.
Qed.

Lemma demo_events t : event t demo_kernel = None.
Proof. vm_compute. destruct t as [|p|p]; try reflexivity; repeat (destruct p as [p|p|]; try reflexivity). Qed.

Lemma queue_created_witness : ∃ q k', xQueueGenericCreate 2 3 (Some (4096, [9; 9; 9; 9; 9; 9])) demo_kernel = Some (Some q, k')
  ∧ contents q = [].
Proof.
  destruct (queue_created 2 3 4096 [9; 9; 9; 9; 9; 9] demo_kernel demo_kinv ltac:(lia) ltac:(lia)) as [(q & k' & E & _ & _ & _ & _ & _ & C & _) _].
  - split_and!; vm_compute; (reflexivity || discriminate).
  - intros t. rewrite demo_events. split; discriminate.
  - exists q, k'. exact (conj E C).
Defined.

(** ** Waiting *)

(** C6: the blocking phase of xQueueGenericReceive, with
    interrupts (ticks, sends, gives and receives) in every gap between its
    critical sections, always completes: queue and scheduler keep their
    invariants, the locks are released and the scheduler runs again.  If no other
    task waits and there is a message at the end, the caller is ready: no message
    that arrives on the way to the waiting list is missed.  At most 127
    interrupts may fall into the locked part, the range of the lock counts. *)
Theorem queue_no_lost_wakeup gap to n t q k : queue_ok q → unlocked q → kinv k → k.(pending_soft_sv) = false →
  k.(uxSchedulerSuspended) = 0 → caller t k → holder_ok q k → (∀ i, Forall (isr_ok q) (gap i)) →
  Z.of_nat (gap_events gap) ≤ 127 → 0 < n ≤ portMAX_DELAY →
  ∃ r q' k', receive_block gap to n (q, k) = Some (r, (q', k')) ∧ queue_ok q' ∧ unlocked q' ∧ kinv k'
    ∧ k'.(uxSchedulerSuspended) = 0
    ∧ ((∀ v, event v k ≠ Some (xTasksWaitingToReceive q)) → 0 < q'.(uxMessagesWaiting) →
       ∃ p, state t k' = Some (pxReadyTasksLists p)).
Proof.
  intros Hq Hu Hk Hp Hs Hc Hh Hg Hb Hn.
  destruct (receive_block_spec gap to n t q k Hq Hu Hk Hp Hs Hc Hh Hg Hb Hn) as (r & q' & k' & E & ? & _ & ? & ? & ? & ?).
  by exists r, q', k'.
Qed.

(** A send in the gap after the task went into the waiting list. *)
Definition demo_gap (i : nat) : list isr := if decide (i = 7%nat) then [IsrSend [1; 2; 3] 0] else [].

Lemma demo_gap_ok i : Forall (isr_ok demo_queue) (demo_gap i).
Proof.
  unfold demo_gap. case_decide; [|constructor]. apply Forall_singleton. split_and!; [reflexivity|vm_compute; discriminate|by left].
Qed.

Lemma demo_caller : caller 100 demo_kernel.
Proof. split; [vm_compute; reflexivity|vm_compute; discriminate|apply demo_events]. Qed.

Lemma queue_no_lost_wakeup_witness : ∃ r q' k',
  receive_block demo_gap (vTaskSetTimeOutState demo_kernel) 5 (demo_queue, demo_kernel) = Some (r, (q', k'))
  ∧ kinv k' ∧ (0 < q'.(uxMessagesWaiting) → ∃ p, state 100 k' = Some (pxReadyTasksLists p)).
Proof.
  destruct (queue_no_lost_wakeup demo_gap (vTaskSetTimeOutState demo_kernel) 5 100 demo_queue demo_kernel
    (proj1 demo_queue_ok) (conj eq_refl eq_refl) demo_kinv) as (r & q' & k' & E & _ & _ & Hk & _ & W).
  - vm_compute; reflexivity.
  - vm_compute; reflexivity.
  - exact demo_caller.
  - intros H. vm_compute in H. discriminate H.
  - exact demo_gap_ok.
  - vm_compute; discriminate.
  - vm_compute; split; [reflexivity|discriminate].
  - exists r, q', k'. refine (conj E (conj Hk (W _))). intros v H. rewrite demo_events in H. discriminate H.
Defined.

(** The same for the blocking phase of
    xQueueGenericSend on a full queue: with interrupts in every gap it completes,
    with both invariants kept, the locks released and the scheduler running. *)
Theorem queue_send_waits_safely gap to n t q k : queue_ok q → unlocked q → kinv k → k.(pending_soft_sv) = false →
  k.(uxSchedulerSuspended) = 0 → caller t k → (∀ i, Forall (isr_ok q) (gap i)) →
  Z.of_nat (gap_events gap) ≤ 127 → 0 < n ≤ portMAX_DELAY →
  ∃ r q' k', send_block gap to n (q, k) = Some (r, (q', k')) ∧ queue_ok q' ∧ unlocked q' ∧ kinv k'
    ∧ k'.(uxSchedulerSuspended) = 0.
Proof.
  intros Hq Hu Hk Hp Hs Hc Hg Hb Hn.
  destruct (send_block_spec gap to n t q k Hq Hu Hk Hp Hs Hc Hg Hb Hn) as (r & q' & k' & E & ? & _ & ? & ? & ?).
  by exists r, q', k'.
Qed.

Lemma queue_send_waits_safely_witness : ∃ r q' k',
  send_block demo_gap (vTaskSetTimeOutState demo_kernel) 5 (demo_queue, demo_kernel) = Some (r, (q', k')) ∧ kinv k'.
Proof.
  destruct (queue_send_waits_safely demo_gap (vTaskSetTimeOutState demo_kernel) 5 100 demo_queue demo_kernel
    (proj1 demo_queue_ok) (conj eq_refl eq_refl) demo_kinv) as (r & q' & k' & E & _ & _ & Hk & _).
  - vm_compute; reflexivity.
  - vm_compute; reflexivity.
  - exact demo_caller.
  - exact demo_gap_ok.
  - vm_compute; discriminate.
  - vm_compute; split; [reflexivity|discriminate].
  - exists r, q', k'. exact (conj E Hk).
Defined.

(** ** Mutexes *)

(** C33: a task that takes a free mutex becomes its holder;
    until it gives the mutex back nobody else gets it; when it does, whatever the
    scheduler did meanwhile, the mutex is free again and the invariant of the
    scheduler holds, provided that no waiting task has a priority that is as low
    as the one the holder falls back to. *)
Theorem mutex_is_exclusive t q k : kinv k → queue_ok q → is_mutex q = true → q.(uxLength) = 1 → q.(uxMessagesWaiting) = 1 →
  k.(pxCurrentTCB) = Some t → t ≠ 0 →
  ∃ q1 k1, receive_try 0 false None (q, k) = Some (Return (pdPASS, []), (q1, k1)) ∧ kinv k1 ∧ queue_ok q1
    ∧ handle q1.(pcTail) = Some t
    ∧ (∀ k2, receive_try 0 false None (q1, k2) = Some (Return (errQUEUE_EMPTY, []), (q1, k2)))
    ∧ (∀ k2 c, kinv k2 → k2.(pxCurrentTCB) = Some t → k2.(pending_soft_sv) = false → event t k2 = None →
       tcb t k2 = Some c → gives_well q1 c k2 →
       ∃ q3 k3, send_try [] 0 queueSEND_TO_BACK None (q1, k2) = Some (Return pdPASS, (q3, k3)) ∧ kinv k3 ∧ queue_ok q3
         ∧ handle q3.(pcTail) = None ∧ q3.(uxMessagesWaiting) = 1).
Proof.
  intros Hk Hq Hmu Hl Hm Ht Hz. destruct (receive_try_some 0 false None q k Hk Hq ltac:(lia)) as (x & q1 & k1 & E & Hk1 & (Hq1 & S & C) & Hh).
  assert (Hmu1 : is_mutex q1 = true) by (unfold is_mutex; by rewrite (sq_head _ _ S)).
  assert (Hc0 := length_contents q Hq). assert (Hc1 := length_contents q1 Hq1).
  assert (Hm1 : uxMessagesWaiting q1 = 0) by (rewrite C in Hc0; cbn [length] in Hc0; lia).
  assert (x = []) as ->.
  { rewrite (contents_semaphore q Hq (mutex_size q Hq Hmu)), Hm in C. by injection C. }
  assert (Hh1 : handle (pcTail q1) = Some t).
  { specialize (Hh eq_refl Hmu). rewrite Ht in Hh. injection Hh as ->. unfold handle. by rewrite (proj2 (Z.eqb_neq _ _) Hz). }
  exists q1, k1. split_and!; [done..| |].
  - intros k2. by rewrite receive_try_empty.
  - intros k2 c Hk2 Ht2 Hs2 He2 Hc2 Hgw.
    destruct (give_mutex_spec [] t c q1 k2) as (q3 & k3 & E3 & Hq3 & Hk3 & Hm3 & Hh3 & _); try done.
    { rewrite (sq_length _ _ S). lia. }
    exists q3, k3. split_and!; try done. lia.
Qed.

Definition demo_mutex : Queue_t :=
  set_uxMessagesWaiting 1 (set_u 0 (set_pcHead 0 (set_pcTail 0 (fresh_queue 1 0 4096 [])))).

Lemma mutex_is_exclusive_witness : ∃ q1 k1,
  receive_try 0 false None (demo_mutex, demo_kernel) = Some (Return (pdPASS, []), (q1, k1))
  ∧ handle q1.(pcTail) = Some 100
  ∧ ∃ q3 k3, send_try [] 0 queueSEND_TO_BACK None (q1, demo_kernel) = Some (Return pdPASS, (q3, k3)) ∧ kinv k3 ∧ handle q3.(pcTail) = None.
Proof.
  assert (Hq : queue_ok demo_mutex) by (split; vm_compute; try split; (reflexivity || discriminate)).
  destruct (mutex_is_exclusive 100 demo_mutex demo_kernel demo_kinv Hq eq_refl eq_refl eq_refl) as
    (q1 & k1 & E & _ & _ & H1 & _ & G); [vm_compute; reflexivity|discriminate|].
  exists q1, k1. refine (conj E (conj H1 _)).
  destruct (G demo_kernel (new_tcb [65] 3 101) demo_kinv) as (q3 & k3 & E3 & H3 & _ & H4 & _).
  - vm_compute; reflexivity.
  - vm_compute; reflexivity.
  - apply demo_events.
  - vm_compute; reflexivity.
  - right. left. reflexivity.
  - exists q3, k3. exact (conj E3 (conj H3 H4)).
Defined.

(** ** Three limits of the code, computed *)

(** The size of a queue is computed in 32 bits: 2^30 items of 8 bytes get a block
    without storage, and the first send leaves it. *)
Lemma queue_size_overflows : queue_bytes (2 ^ 30) 8 = sizeof_Queue_t
  ∧ match xQueueGenericCreate (2 ^ 30) 8 (Some (4096, [])) demo_kernel with
    | Some (Some q, k) => send_try [1; 2; 3; 4; 5; 6; 7; 8] 0 queueSEND_TO_BACK None (q, k) = None
    | _ => False
    end.
Proof. split; vm_compute; reflexivity. Qed.

(** A task that waits for a semaphore of length 200 while [n] gives come from
    interrupts in the last gap: where it is afterwards. *)
Definition gives_in_gap (n i : nat) : list isr := if decide (i = 7%nat) then replicate n IsrGive else [].

Definition wait_for_semaphore (n : nat) : option (Z * option lid * option lid) :=
  '(_, (q, k)) ← receive_block (gives_in_gap n) (vTaskSetTimeOutState demo_kernel) 5 (fresh_queue 200 0 4096 [], demo_kernel);
  Some (q.(uxMessagesWaiting), event 100 k, state 100 k).

(** The lock counts are signed bytes: 128 gives wrap the count to -128, and the
    unlocking wakes nobody. *)
Lemma lock_count_overflows :
  wait_for_semaphore 127 = Some (127, None, Some (pxReadyTasksLists 3))
  ∧ wait_for_semaphore 128 = Some (128, Some (EventList (4096 + 36)), Some xDelayedTaskList1).
Proof. split; vm_compute; reflexivity. Qed.

(** Kernel calls of the running task and calls on one mutex. *)
Inductive mutex_step := Call (c : kcall) | Take | Wait (n : Z) | Give.

Definition run_mutex_step (s : qk) (m : mutex_step) : option qk :=
  match m with
  | Call c => k ← exec c s.2; Some (s.1, k)
  | Take => snd <$> receive_try 0 false None s
  | Wait n => snd <$> receive_block (λ _, []) (vTaskSetTimeOutState s.2) n s
  | Give => snd <$> send_try [] 0 queueSEND_TO_BACK None s
  end.

(** Tasks 100, 110, 120 and 130 of the priorities 3, 2, 1 and 0.  Task 120 takes
    the mutex, 130 waits for it, 100 waits three ticks for it and gives up, 110
    is resumed. *)
Definition inversion_system : kernel :=
  default boot (start_system [([87], 3, 101, 100); ([77], 2, 111, 110); ([72], 1, 121, 120); ([76], 0, 131, 130)] (200, 201) (210, 211)).

Definition inversion_steps : list mutex_step :=
  let soft := Call SoftInterrupt in
  let ticks n := concat (replicate n [Call Tick; soft]) in
  [Call (Suspend (Some 211)); Call (Delay 10); soft; Call (Suspend None); soft; Take; Call (Delay 5); soft;
   Wait portMAX_DELAY; soft] ++ ticks 10%nat ++ [Wait 3; soft] ++ ticks 3%nat
  ++ [Call (Resume (Some 110)); Call (Delay 9); soft].

Definition inversion_view (ms : list mutex_step) : option (option Z * bool * list (option lid)) :=
  '(_, k) ← foldl (λ s m, s ≫= λ s, run_mutex_step s m) (Some (demo_mutex, inversion_system)) ms;
  Some (k.(pxCurrentTCB), k.(pending_soft_sv), (λ t, state t k) <$> [110; 120; 130]).

(** The give drops the priority of task 120 to 1 and wakes task 130; the switch
    that the lost priority asks for is not made, and task 120 goes on before the
    ready task 110 of priority 2. *)
Lemma give_without_switch :
  inversion_view inversion_steps
    = Some (Some 120, false, [Some (pxReadyTasksLists 2); Some (pxReadyTasksLists 3); Some xSuspendedTaskList])
  ∧ inversion_view (inversion_steps ++ [Give])
    = Some (Some 120, false, [Some (pxReadyTasksLists 2); Some (pxReadyTasksLists 1); Some (pxReadyTasksLists 0)]).
Proof. split; vm_compute; reflexivity. Qed.
