(* ===== verification/FrNotifyTheorems.v ===== *)
(** FrNotifyTheorems: the correctness of task notifications. *)

From stdpp Require Import functions sorting.
From S2P Require Import Prelude FrList FrSeq FrKernel FrTasks FrTasksInv FrTasksMove FrTasksTick FrTasksSched FrTasksApi FrTasksLife FrTasksPrio FrNotify FrTasksSteps FrTasksTheorems.

(** ** Gives *)













(** XTaskGenericNotify keeps the invariant for
    every action, makes a waiting task ready, changes the notification value as
    the action says and reports failure exactly when a value that was not read
    yet would be overwritten; xTaskNotifyWait then returns the value and clears
    exactly the bits it is told to clear. *)
Theorem notify_actions_deliver t c v a bits k : kinv k → notifiable t k → tcb t k = Some c →
  0 ≤ v < 2 ^ 32 → 0 ≤ c.(ulNotifiedValue) < 2 ^ 32 → 0 ≤ bits < 2 ^ 32 →
  ∃ r k' c', xTaskGenericNotify t v a k = Some (r, c.(ulNotifiedValue), k') ∧ kinv k' ∧ tcb t k' = Some c'
    ∧ (c.(ucNotifyState) = taskWAITING_NOTIFICATION → state t k' = Some (pxReadyTasksLists c.(uxPriority)))
    ∧ (r = pdFAIL ↔ a = eSetValueWithoutOverwrite ∧ c.(ucNotifyState) = taskNOTIFICATION_RECEIVED)
    ∧ 0 ≤ c'.(ulNotifiedValue) < 2 ^ 32
    ∧ (r = pdFAIL → c'.(ulNotifiedValue) = c.(ulNotifiedValue))
    ∧ ∀ k2, k2.(pxCurrentTCB) = Some t → tcb t k2 = Some c' → kinv k2 →
        ∃ k3, wait_leave bits k2 = Some (pdTRUE, c'.(ulNotifiedValue), k3) ∧ kinv k3
          ∧ ∃ c3, tcb t k3 = Some c3
            ∧ ∀ i, 0 ≤ i → Z.testbit c3.(ulNotifiedValue) i = Z.testbit c'.(ulNotifiedValue) i && negb (Z.testbit bits i).
Proof.
  intros Hk Hn Hc Hv H0 Hb. assert (H := notify_spec t c v a k Hk Hn Hc).
  assert (HA : let '(r, v') := notify_action a v c in
    (r = pdFAIL ↔ a = eSetValueWithoutOverwrite ∧ c.(ucNotifyState) = taskNOTIFICATION_RECEIVED)
    ∧ 0 ≤ v' < 2 ^ 32 ∧ (r = pdFAIL → v' = c.(ulNotifiedValue))).
  { unfold notify_action. destruct a; try (split_and!; [split; [done|by intros [[=] _]]|lia..|done]).
    - destruct (lor_range 32 (ulNotifiedValue c) v) as [??]; [lia..|]. split_and!; [split; [done|by intros [[=] _]]|done..].
    - split_and!; [split; [done|by intros [[=] _]]| | |done]; zsolve.
    - destruct (Z.eqb_spec (ucNotifyState c) taskNOTIFICATION_RECEIVED); cbn; split_and!; try done; try lia.
      split; [done|]. by intros [_ ?]. }
  destruct (notify_action a v c) as [r v']. destruct H as (k' & E & Hk' & N & S1 & _). destruct HA as (A1 & A2 & A3).
  exists r, k', (notified v' c). split_and!; try done; try (cbn; lia).
  { unfold tcb. by rewrite (nt_tcbs _ _ _ _ N), lookup_insert_eq. }
  intros k2 Ht2 T2 Hk2. unfold wait_leave. rewrite Ht2. cbn [mbind option_bind]. rewrite T2. cbn [mbind option_bind].
  rewrite (upd_tcb_some t _ _ _ T2). cbn [mbind option_bind]. eexists. split; [reflexivity|].
  split; [by apply (rewrite_tcb_spec t _ _ k2 Hk2 T2)|]. eexists. split; [unfold tcb; cbn; by rewrite lookup_insert_eq|].
  intros i Hi. by apply testbit_andnot.
Qed.

Lemma demo_notifiable : notifiable 110 demo_kernel.
Proof.
  exists (new_tcb [66] 3 111), (pxReadyTasksLists 3). refine (conj _ (conj _ (conj _ _))).
  - vm_compute; reflexivity.
  - vm_compute; reflexivity.
  - discriminate.
  - intros H. vm_compute in H. discriminate H.
Qed.

Lemma notify_actions_deliver_witness : ∃ r k', xTaskGenericNotify 110 6 eSetBits demo_kernel = Some (r, 0, k') ∧ kinv k'.
Proof.
  destruct (notify_actions_deliver 110 (new_tcb [66] 3 111) 6 eSetBits 2 demo_kernel demo_kinv demo_notifiable)
    as (r & k' & c' & E & Hk & _).
  - vm_compute; reflexivity.
  - split; [discriminate|reflexivity].
  - split; [discriminate|reflexivity].
  - split; [discriminate|reflexivity].
  - exists r, k'. exact (conj E Hk).
Defined.

(** ** Indefinite waits and vTaskResume

    A task that waits for a notification without a limit is in the list of
    suspended tasks and in no event list, just as one that vTaskSuspend took. *)

(** vTaskResume takes it for suspended: the wait without a limit ends and
    ulTaskNotifyTake returns 0. *)
Lemma resume_ends_notification_wait :
  (k ← take_enter portMAX_DELAY demo_kernel; k ← SV_ISR k;
   k ← vTaskResume (Some 100) k; Some (k.(pxCurrentTCB), state 100 k, ulNotifiedValue <$> tcb 100 k))
  = Some (Some 110, Some (pxReadyTasksLists 3), Some 0).
Proof. vm_compute. reflexivity. Qed.

(** Under a suspended scheduler xTaskResumeFromISR puts it into the list of tasks
    that are to become ready; a notification from an interrupt then puts the same
    list item in once more, a fault. *)
Lemma notification_after_resume_faults :
  let waiting := (k ← take_enter portMAX_DELAY demo_kernel; k ← SV_ISR k; Some (vTaskSuspendAll k)) in
  (k ← waiting; '(_, k) ← xTaskResumeFromISR 100 k; Some (event 100 k)) = Some (Some xPendingReadyList)
  ∧ (k ← waiting; '(_, k) ← xTaskResumeFromISR 100 k; vTaskNotifyGiveFromISR 100 true k) = None
  ∧ (k ← waiting; '(w, k) ← vTaskNotifyGiveFromISR 100 true k; Some (w, event 100 k)) = Some (false, Some xPendingReadyList).
Proof. split_and!; vm_compute; reflexivity. Qed.
