(* ===== verification/FrEvent.v ===== *)
(** FrEvent: event groups, FreeRTOS/Source/event_groups.c.

    An event group is its bits and, at its address, the list of the tasks that
    wait for bits.  A waiting task keeps what it waits for in the value of its
    event list item: the bits, control bits and the mark that the value is in
    use.  A call that blocks has two parts, before and after the wait; the rest of
    the system runs between them.  The functions for interrupts that defer to the
    timer task need configUSE_TRACE_FACILITY and are configured out. *)

From stdpp Require Import functions sorting.
From S2P Require Import Prelude FrList FrSeq FrKernel FrTasks.

Definition eventCLEAR_EVENTS_ON_EXIT_BIT : Z := 0x01000000.
Definition eventUNBLOCKED_DUE_TO_BIT_SET : Z := 0x02000000.
Definition eventWAIT_FOR_ALL_BITS : Z := 0x04000000.
Definition eventEVENT_BITS_CONTROL_BYTES : Z := 0xff000000.

Record EventGroup_t := { eg_self : Z; uxEventBits : Z }.

Definition set_uxEventBits (v : Z) (g : EventGroup_t) : EventGroup_t := {| eg_self := g.(eg_self); uxEventBits := v |}.

Definition xTasksWaitingForBits (g : EventGroup_t) : lid := EventList (g.(eg_self) + 4).

(** The group and the kernel. *)
Abbreviation gk := (EventGroup_t * kernel)%type.

(** [malloc]: the block that pvPortMalloc returns. *)
Definition xEventGroupCreate (malloc : option Z) (k : kernel) : option EventGroup_t * kernel :=
  match malloc with
  | None => (None, k)
  | Some a =>
      let g := {| eg_self := a; uxEventBits := 0 |} in
      (Some g, k_initialise (xTasksWaitingForBits g) (set_blocks ({[a]} ∪ k.(blocks)) k))
  end.

Definition prvTestWaitCondition (uxCurrentEventBits uxBitsToWaitFor : Z) (xWaitForAllBits : bool) : bool :=
  if negb xWaitForAllBits then negb (Z.land uxCurrentEventBits uxBitsToWaitFor =? 0)
  else Z.land uxCurrentEventBits uxBitsToWaitFor =? uxBitsToWaitFor.

Definition xEventGroupClearBits (uxBitsToClear : Z) (g : EventGroup_t) : Z * EventGroup_t :=
  (g.(uxEventBits), set_uxEventBits (andnot g.(uxEventBits) uxBitsToClear) g).

Definition xEventGroupGetBitsFromISR (g : EventGroup_t) : Z := g.(uxEventBits).

(** Does the value of the list item of a waiting task match the bits? *)
Definition item_matches (bits v : Z) : bool :=
  let uxControlBits := Z.land v eventEVENT_BITS_CONTROL_BYTES in
  let uxBitsWaitedFor := andnot v eventEVENT_BITS_CONTROL_BYTES in
  if Z.land uxControlBits eventWAIT_FOR_ALL_BITS =? 0 then negb (Z.land uxBitsWaitedFor bits =? 0)
  else Z.land uxBitsWaitedFor bits =? uxBitsWaitedFor.

(** The bits that a match clears. *)
Definition item_clears (v : Z) : Z :=
  if negb (Z.land (Z.land v eventEVENT_BITS_CONTROL_BYTES) eventCLEAR_EVENTS_ON_EXIT_BIT =? 0)
  then andnot v eventEVENT_BITS_CONTROL_BYTES else 0.

(** The loop of xEventGroupSetBits over the waiting tasks; [x]: pxListItem. *)
Fixpoint set_bits_loop (fuel : nat) (l : lid) (bits : Z) (x : option item) (uxBitsToClear : Z) (k : kernel)
    : option (Z * kernel) :=
  match x with
  | None => Some (uxBitsToClear, k)
  | Some x =>
      match fuel with
      | O => None
      | S n =>
          let pxNext := item_after x (k.(lists).(elems) l) in
          let v := k_value x k in
          if item_matches bits v then
            '(_, k) ← xTaskRemoveFromUnorderedEventList (owner x) (Z.lor bits eventUNBLOCKED_DUE_TO_BIT_SET) k;
            set_bits_loop n l bits pxNext (Z.lor uxBitsToClear (item_clears v)) k
          else set_bits_loop n l bits pxNext uxBitsToClear k
      end
  end.

(** xEventGroupSetBits up to the end of the suspension. *)
Definition set_bits (uxBitsToSet : Z) (s : gk) : option gk :=
  let '(g, k) := s in
  let l := xTasksWaitingForBits g in
  let k := vTaskSuspendAll k in
  let g := set_uxEventBits (Z.lor g.(uxEventBits) uxBitsToSet) g in
  '(uxBitsToClear, k) ← set_bits_loop (length (k.(lists).(elems) l)) l g.(uxEventBits) (seq_head l k.(lists)) 0 k;
  let g := set_uxEventBits (andnot g.(uxEventBits) uxBitsToClear) g in
  '(_, k) ← xTaskResumeAll k;
  Some (g, k).

(** The returned value is read afterwards, when woken tasks may have run. *)
Definition xEventGroupSetBits (env : gk → option gk) (uxBitsToSet : Z) (s : gk) : option (Z * gk) :=
  s ← set_bits uxBitsToSet s; s ← env s; Some (s.1.(uxEventBits), s).

Definition vEventGroupSetBitsCallback (ulBitsToSet : Z) (s : gk) : option gk := set_bits ulBitsToSet s.
Definition vEventGroupClearBitsCallback (ulBitsToClear : Z) (g : EventGroup_t) : EventGroup_t :=
  snd (xEventGroupClearBits ulBitsToClear g).

(** The loop of vEventGroupDelete. *)
Fixpoint delete_loop (fuel : nat) (l : lid) (k : kernel) : option kernel :=
  if 0 <? seq_length l k.(lists) then
    match fuel with
    | O => None
    | S n =>
        x ← seq_head l k.(lists);
        '(_, k) ← xTaskRemoveFromUnorderedEventList (owner x) eventUNBLOCKED_DUE_TO_BIT_SET k;
        delete_loop n l k
    end
  else Some k.

Definition vEventGroupDelete (s : gk) : option kernel :=
  let '(g, k) := s in
  let l := xTasksWaitingForBits g in
  let k := vTaskSuspendAll k in
  k ← delete_loop (length (k.(lists).(elems) l)) l k;
  '(_, k) ← xTaskResumeAll (set_blocks (k.(blocks) ∖ {[g.(eg_self)]}) k);
  Some k.

(** ** Waiting *)

(** What the first part of a waiting call leads to: it returns, or the task is
    blocked. *)
Inductive waits := Returns (uxReturn : Z) | Blocks.

(** The end of the first part: resume, and yield if the task is to wait. *)
Definition resume_and_wait (r : waits) (g : EventGroup_t) (k : kernel) : option (waits * gk) :=
  '(xAlreadyYielded, k) ← xTaskResumeAll k;
  Some (r, (g, match r with Blocks => yield_unless xAlreadyYielded k | Returns _ => k end)).

Definition wait_bits_enter (uxBitsToWaitFor : Z) (xClearOnExit xWaitForAllBits : bool) (xTicksToWait : Z) (s : gk)
    : option (waits * gk) :=
  let '(g, k) := s in
  let k := vTaskSuspendAll k in
  let uxCurrentEventBits := g.(uxEventBits) in
  if prvTestWaitCondition uxCurrentEventBits uxBitsToWaitFor xWaitForAllBits then
    resume_and_wait (Returns uxCurrentEventBits)
      (if xClearOnExit then set_uxEventBits (andnot g.(uxEventBits) uxBitsToWaitFor) g else g) k
  else if xTicksToWait =? 0 then resume_and_wait (Returns uxCurrentEventBits) g k
  else
    let uxControlBits := if xClearOnExit then eventCLEAR_EVENTS_ON_EXIT_BIT else 0 in
    let uxControlBits := if xWaitForAllBits then Z.lor uxControlBits eventWAIT_FOR_ALL_BITS else uxControlBits in
    k ← vTaskPlaceOnUnorderedEventList (xTasksWaitingForBits g) (Z.lor uxBitsToWaitFor uxControlBits) xTicksToWait k;
    resume_and_wait Blocks g k.

(** The second part.  [xClearOnExit] and [xWaitForAllBits] matter after a time-out. *)
Definition wait_bits_leave (uxBitsToWaitFor : Z) (xClearOnExit xWaitForAllBits : bool) (s : gk) : option (Z * gk) :=
  let '(g, k) := s in
  '(uxReturn, k) ← uxTaskResetEventItemValue k;
  let '(uxReturn, g) :=
    if Z.land uxReturn eventUNBLOCKED_DUE_TO_BIT_SET =? 0 then
      let uxReturn := g.(uxEventBits) in
      (uxReturn, if prvTestWaitCondition uxReturn uxBitsToWaitFor xWaitForAllBits && xClearOnExit
                 then set_uxEventBits (andnot g.(uxEventBits) uxBitsToWaitFor) g else g)
    else (uxReturn, g) in
  Some (andnot uxReturn eventEVENT_BITS_CONTROL_BYTES, (g, k)).

Definition xEventGroupWaitBits (env : gk → option gk) (uxBitsToWaitFor : Z) (xClearOnExit xWaitForAllBits : bool)
    (xTicksToWait : Z) (s : gk) : option (Z * gk) :=
  '(r, s) ← wait_bits_enter uxBitsToWaitFor xClearOnExit xWaitForAllBits xTicksToWait s;
  match r with
  | Returns v => Some (v, s)
  | Blocks => s ← env s; wait_bits_leave uxBitsToWaitFor xClearOnExit xWaitForAllBits s
  end.

(** A rendezvous: set bits and wait for all bits of all parties. *)
Definition sync_enter (uxBitsToSet uxBitsToWaitFor xTicksToWait : Z) (s : gk) : option (waits * gk) :=
  let '(g, k) := s in
  let k := vTaskSuspendAll k in
  let uxOriginalBitValue := g.(uxEventBits) in
  '(g, k) ← set_bits uxBitsToSet (g, k);
  if Z.land (Z.lor uxOriginalBitValue uxBitsToSet) uxBitsToWaitFor =? uxBitsToWaitFor then
    resume_and_wait (Returns (Z.lor uxOriginalBitValue uxBitsToSet))
      (set_uxEventBits (andnot g.(uxEventBits) uxBitsToWaitFor) g) k
  else if negb (xTicksToWait =? 0) then
    k ← vTaskPlaceOnUnorderedEventList (xTasksWaitingForBits g)
          (Z.lor (Z.lor uxBitsToWaitFor eventCLEAR_EVENTS_ON_EXIT_BIT) eventWAIT_FOR_ALL_BITS) xTicksToWait k;
    resume_and_wait Blocks g k
  else resume_and_wait (Returns g.(uxEventBits)) g k.

(** After the wait the rendezvous is the wait for all bits, which clears them. *)
Definition sync_leave (uxBitsToWaitFor : Z) (s : gk) : option (Z * gk) :=
  let '(g, k) := s in
  '(uxReturn, k) ← uxTaskResetEventItemValue k;
  let '(uxReturn, g) :=
    if Z.land uxReturn eventUNBLOCKED_DUE_TO_BIT_SET =? 0 then
      let uxReturn := g.(uxEventBits) in
      (uxReturn, if Z.land uxReturn uxBitsToWaitFor =? uxBitsToWaitFor
                 then set_uxEventBits (andnot g.(uxEventBits) uxBitsToWaitFor) g else g)
    else (uxReturn, g) in
  Some (andnot uxReturn eventEVENT_BITS_CONTROL_BYTES, (g, k)).

Definition xEventGroupSync (env : gk → option gk) (uxBitsToSet uxBitsToWaitFor xTicksToWait : Z) (s : gk)
    : option (Z * gk) :=
  '(r, s) ← sync_enter uxBitsToSet uxBitsToWaitFor xTicksToWait s;
  match r with
  | Returns v => Some (v, s)
  | Blocks => s ← env s; sync_leave uxBitsToWaitFor s
  end.
