(* ===== verification/FrEventSpec.v ===== *)
(** FrEventSpec: what setting bits, deleting a group and waiting do to the tasks. *)

From stdpp Require Import functions sorting.
From S2P Require Import Prelude FrList FrSeq FrSeqRefine FrKernel FrTasks FrTasksInv FrTasksMove FrTasksTick FrTasksSched FrTasksApi FrTasksPrio FrNotify FrTasksSteps FrQueueSched FrQueueBlock FrQueueWait FrEvent.

(** ** Waking tasks *)

(** No memory is allocated or freed. *)
Lemma unordered_blocks t v k b k' : xTaskRemoveFromUnorderedEventList t v k = Some (b, k') → k'.(blocks) = k.(blocks).
Proof.
  unfold xTaskRemoveFromUnorderedEventList, k_remove. cbn [lists k_set_value set_lists].
  destruct (seq_remove (xEventListItem t) (seq_set_value (xEventListItem t) (Z.lor v taskEVENT_LIST_ITEM_VALUE_IN_USE) (lists k))) as [[n1 s1]|]; [|done]. cbn.
  destruct (seq_remove (xStateListItem t) s1) as [[n2 s2]|]; [|done]. cbn. unfold prvAddTaskToReadyList, tcb. cbn.
  destruct (tcbs k !! t) as [c|] eqn:Ec; [|done]. cbn. unfold k_insert_end, taskRECORD_READY_PRIORITY. cbn.
  destruct (uxTopReadyPriority k <? uxPriority c); cbn; (destruct (seq_insert_end _ _ s2) as [s3|]; [|done]); cbn;
    unfold note_woken, current_priority, tcb; cbn; rewrite Ec; cbn; (destruct (pxCurrentTCB k) as [u|]; [|done]); cbn;
    (destruct (tcbs k !! u) as [cu|]; [|done]); cbn; destruct (_ <? _); by intros [= _ <-].
Qed.

(** ** The loop of xEventGroupSetBits *)

Lemma waiting_item a k x : kwf None k → x ∈ k.(lists).(elems) (EventList a) →
  ∃ t, x = xEventListItem t ∧ event t k = Some (EventList a).
Proof.
  intros Hw Hx. apply (ok_in _ (w_store _ _ _ _ _ _ _ _ _ _ _ Hw)) in Hx. destruct x as [t|t]; [|by exists t]. exfalso.
  destruct (w_live _ _ _ _ _ _ _ _ _ _ _ Hw _ _ Hx) as [c Hc]. cbn [owner] in Hc.
  destruct (w_state _ _ _ _ _ _ _ _ _ _ _ Hw t c Hc) as (l & Hl & Hs); [done|].
  rewrite Hx in Hl. injection Hl as <-. done.
Qed.

(** The tasks of the list [xs] whose values match. *)
Definition matching (bits : Z) (xs : list item) (k : kernel) (t : Z) : Prop :=
  xEventListItem t ∈ xs ∧ item_matches bits (k_value (xEventListItem t) k) = true.

#[export] Instance matching_dec bits xs k t : Decision (matching bits xs k t).
Proof. unfold matching. apply _. Qed.

Lemma set_bits_loop_spec a bits rest : ∀ n front clear k, kinv k → k.(lists).(elems) (EventList a) = front ++ rest →
  (length rest ≤ n)%nat →
  ∃ clear' k', set_bits_loop n (EventList a) bits (head rest) clear k = Some (clear', k') ∧ kinv k'
    ∧ readied (matching bits rest k) (Z.lor (Z.lor bits eventUNBLOCKED_DUE_TO_BIT_SET) taskEVENT_LIST_ITEM_VALUE_IN_USE) k k'
    ∧ (∀ i, Z.testbit clear' i = true ↔ Z.testbit clear i = true
         ∨ ∃ t, matching bits rest k t ∧ Z.testbit (item_clears (k_value (xEventListItem t) k)) i = true).
Proof.
  induction rest as [|x rest IH]; intros n front clear k Hk El Hn.
  { exists clear, k. destruct n; (split_and!; [done|done|apply woken_none; by intros t [[]%not_elem_of_nil _]|]);
      intros i; (split; [by left|intros [H|(t & [[]%not_elem_of_nil _] & _)]; done]). }
  destruct n as [|n]; [cbn in Hn; lia|]. cbn [head set_bits_loop length] in *.
  assert (Hnd := ok_nodup _ (w_store _ _ _ _ _ _ _ _ _ _ _ (kc_wf _ (proj1 Hk))) (EventList a)). rewrite El in Hnd.
  apply NoDup_app in Hnd as (Hn1 & Hn2 & Hn3). apply NoDup_cons in Hn3 as [Hx Hn3].
  assert (Hxf : x ∉ front) by (intros H; apply (Hn2 x H), elem_of_cons; by left).
  destruct (waiting_item a k x (kc_wf _ (proj1 Hk))) as (t & -> & He); [rewrite El; apply elem_of_app; right; apply elem_of_cons; by left|].
  rewrite El, item_after_split by done. set (v := k_value (xEventListItem t) k).
  destruct (item_matches bits v) eqn:Em.
  - destruct (remove_unordered_spec t (Z.lor bits eventUNBLOCKED_DUE_TO_BIT_SET) a k Hk He) as (b & k1 & E1 & Hk1 & W1 & L1).
    cbn [owner]. rewrite E1. cbn [mbind option_bind]. rewrite El, take_out_split in L1
      by (intros [?|?]%elem_of_app; done).
    destruct (IH n front (Z.lor clear (item_clears v)) k1 Hk1 L1) as (clear' & k' & E' & Hk' & W' & C'); [lia|].
    assert (Hv : ∀ u, xEventListItem u ∈ rest → k_value (xEventListItem u) k1 = k_value (xEventListItem u) k).
    { intros u Hu. apply (wk_out _ _ _ _ W1). intros ->. done. }
    exists clear', k'. split_and!; [done|done| |].
    + eapply woken_ext; [|eapply woken_trans; [| |exact W1|exact W']].
      * intros u. unfold matching. split.
        -- intros [->|[H1 H2]]; [split; [apply elem_of_cons; by left|done]|]. rewrite Hv in H2 by done.
           split; [apply elem_of_cons; by right|done].
        -- intros [[[= ->]|H1]%elem_of_cons H2]; [by left|]. right. by rewrite Hv.
      * intros u -> [H _]. done.
      * intros u. destruct (decide (matching bits rest k1 u)); auto.
    + intros i. rewrite C', Z.lor_spec, orb_true_iff. split.
      * intros [[H|H]|(u & [H1 H2] & H3)]; [by left|right; exists t; split; [split; [apply elem_of_cons; by left|done]|done]|].
        rewrite Hv in H2, H3 by done. right. exists u. split; [split; [apply elem_of_cons; by right|done]|done].
      * intros [H|(u & [[[= ->]|H1]%elem_of_cons H2] & H3)]; [by left; left|by left; right|].
        right. exists u. unfold matching. by rewrite Hv.
  - destruct (IH n (front ++ [xEventListItem t]) clear k Hk) as (clear' & k' & E' & Hk' & W' & C');
      [by rewrite <- app_assoc|lia|].
    assert (Hm : ∀ u, matching bits rest k u ↔ matching bits (xEventListItem t :: rest) k u).
    { intros u. unfold matching. rewrite elem_of_cons. split; [tauto|]. intros [[[= ->]|H] H2]; [|done].
      unfold v in Em. congruence. }
    exists clear', k'. split_and!; [done|done|by eapply woken_ext|].
    intros i. rewrite C'. setoid_rewrite Hm. done.
Qed.

(** ** Suspending and resuming around the loop *)

(** Nothing came in while the scheduler was suspended. *)
Definition undisturbed (k : kernel) : Prop := k.(uxPendedTicks) = 0 ∧ ∀ t, event t k ≠ Some xPendingReadyList.

Lemma resume_same k : kinv k → 0 < k.(uxSchedulerSuspended) → (k.(uxSchedulerSuspended) = 1 → undisturbed k) →
  ∃ ay k', xTaskResumeAll k = Some (ay, k') ∧ kinv k' ∧ same_tasks k k' ∧ kkeep k k'
    ∧ k'.(uxSchedulerSuspended) = k.(uxSchedulerSuspended) - 1 ∧ k'.(uxPendedTicks) = k.(uxPendedTicks).
Proof.
  intros [Hc Hp] Hs Hu. destruct (resume_all_spec k Hc Hs) as (ay & k' & E & Hc' & K & S & _ & Hp' & _ & T).
  exists ay, k'. destruct (decide (uxSchedulerSuspended k = 1)) as [D|D].
  - destruct (Hu D) as [U1 U2]. split_and!; [done|split; auto|by apply T|done|done|].
    rewrite U1. apply (kc_quiet _ Hc'). lia.
  - assert (Hr := kc_suspended _ Hc). assert (E' := E). unfold xTaskResumeAll in E. rewrite u32_small in E by lia.
    cbn [uxSchedulerSuspended set_uxSchedulerSuspended] in E.
    rewrite (proj2 (Z.eqb_neq _ _)) in E by lia. injection E as <- <-. split_and!; [done|split; auto|by split|done|done|done].
Qed.

Lemma same_tasks_events k k' : same_tasks k k' → ∀ t, event t k' = event t k ∧ state t k' = state t k
  ∧ k_value (xEventListItem t) k' = k_value (xEventListItem t) k.
Proof. intros [C V _ _ _] t. unfold event, state, k_value. by rewrite !C, V. Qed.

(** Waking between suspending and resuming. *)
Lemma woken_resumed (P : Z → Prop) v k k1 k2 : readied P v (vTaskSuspendAll k) k1 → same_tasks k1 k2 → kkeep k1 k2 →
  (∀ t, P t → event t k2 = None ∧ (∃ p, state t k2 = Some (pxReadyTasksLists p)) ∧ k_value (xEventListItem t) k2 = v)
  ∧ (∀ t, ¬ P t → event t k2 = event t k ∧ state t k2 = state t k
      ∧ k_value (xEventListItem t) k2 = k_value (xEventListItem t) k)
  ∧ k2.(tcbs) = k.(tcbs) ∧ k2.(pxCurrentTCB) = k.(pxCurrentTCB) ∧ k2.(xIdleTaskHandle) = k.(xIdleTaskHandle).
Proof.
  intros W ST K. assert (H := same_tasks_events k1 k2 ST). split_and!.
  - intros t Ht. destruct (H t) as (-> & -> & ->). by apply (wk_in _ _ _ _ W).
  - intros t Ht. destruct (H t) as (-> & -> & ->). by apply (wk_out _ _ _ _ W).
  - by rewrite (kk_tcbs _ _ K), (wk_tcbs _ _ _ _ W).
  - by rewrite (kk_current _ _ K), (wk_current _ _ _ _ W).
  - by rewrite (kk_idle _ _ K), (wk_idle _ _ _ _ W).
Qed.

(** The task waits in the group and its condition holds for [bits]. *)
Definition satisfied (g : EventGroup_t) (bits : Z) (k : kernel) (t : Z) : Prop :=
  event t k = Some (xTasksWaitingForBits g) ∧ item_matches bits (k_value (xEventListItem t) k) = true.

#[export] Instance satisfied_dec g bits k t : Decision (satisfied g bits k t).
Proof. unfold satisfied. apply _. Qed.

(** What a woken task finds in its event item. *)
Definition woken_value (bits : Z) : Z :=
  Z.lor (Z.lor bits eventUNBLOCKED_DUE_TO_BIT_SET) taskEVENT_LIST_ITEM_VALUE_IN_USE.

Record bits_set (bits : Z) (g g' : EventGroup_t) (k k' : kernel) : Prop := {
  bs_self : g'.(eg_self) = g.(eg_self);
  bs_woken t : satisfied g bits k t → event t k' = None ∧ (∃ p, state t k' = Some (pxReadyTasksLists p))
    ∧ k_value (xEventListItem t) k' = woken_value bits;
  bs_other t : ¬ satisfied g bits k t → event t k' = event t k ∧ state t k' = state t k
    ∧ k_value (xEventListItem t) k' = k_value (xEventListItem t) k;
  bs_bits i : 0 ≤ i → Z.testbit g'.(uxEventBits) i = true ↔ Z.testbit bits i = true
    ∧ ¬ ∃ t, satisfied g bits k t ∧ Z.testbit (item_clears (k_value (xEventListItem t) k)) i = true;
  bs_tcbs : k'.(tcbs) = k.(tcbs);
  bs_current : k'.(pxCurrentTCB) = k.(pxCurrentTCB);
  bs_idle : k'.(xIdleTaskHandle) = k.(xIdleTaskHandle);
  bs_pended : k'.(uxPendedTicks) = k.(uxPendedTicks);
}.

Lemma suspended_start k : kinv k → runnable k → k.(uxSchedulerSuspended) + 1 < 2 ^ 32 →
  kinv (vTaskSuspendAll k) ∧ (vTaskSuspendAll k).(uxSchedulerSuspended) = k.(uxSchedulerSuspended) + 1
  ∧ ((vTaskSuspendAll k).(uxSchedulerSuspended) = 1 → undisturbed (vTaskSuspendAll k)).
Proof.
  intros Hk Hr Hs. destruct (suspend_all_spec k Hk Hs Hr) as [Hk0 Hs0]. split_and!; [done|done|].
  rewrite Hs0. intros E. apply (kc_quiet _ (proj1 Hk)). lia.
Qed.

Lemma set_bits_spec set g k : kinv k → runnable k → k.(uxSchedulerSuspended) + 1 < 2 ^ 32 →
  0 ≤ Z.lor g.(uxEventBits) set < 2 ^ 32 →
  ∃ g' k', set_bits set (g, k) = Some (g', k') ∧ kinv k' ∧ bits_set (Z.lor g.(uxEventBits) set) g g' k k'
    ∧ k'.(uxSchedulerSuspended) = k.(uxSchedulerSuspended).
Proof.
  intros Hk Hr Hs Hb. unfold set_bits. destruct (suspended_start k Hk Hr Hs) as (Hk0 & Hs0 & Hu0).
  set (k0 := vTaskSuspendAll k) in *. set (bits := Z.lor _ set) in *. cbn [uxEventBits set_uxEventBits].
  destruct (set_bits_loop_spec (eg_self g + 4) bits (k0.(lists).(elems) (EventList (eg_self g + 4)))
    (length (k0.(lists).(elems) (EventList (eg_self g + 4)))) [] 0 k0 Hk0) as (clear & k1 & E1 & Hk1 & W1 & C1); [done..|].
  unfold seq_head, xTasksWaitingForBits. cbn [eg_self set_uxEventBits]. rewrite E1. cbn [mbind option_bind].
  assert (Hm : ∀ t, matching bits (k0.(lists).(elems) (EventList (eg_self g + 4))) k0 t ↔ satisfied g bits k t).
  { intros t. unfold matching, satisfied. by rewrite (ok_in _ (w_store _ _ _ _ _ _ _ _ _ _ _ (kc_wf _ (proj1 Hk0)))). }
  destruct (resume_same k1 Hk1) as (ay & k2 & -> & Hk2 & ST & K & S2 & P2).
  { rewrite (wk_suspended _ _ _ _ W1). assert (H := kc_suspended _ (proj1 Hk)). lia. }
  { rewrite (wk_suspended _ _ _ _ W1). intros E. destruct (Hu0 E) as [U1 U2]. split; [by rewrite (wk_pended _ _ _ _ W1)|].
    intros t. destruct (decide (matching bits (k0.(lists).(elems) (EventList (eg_self g + 4))) k0 t)) as [D|D].
    - destruct (wk_in _ _ _ _ W1 t D) as [-> _]. done.
    - destruct (wk_out _ _ _ _ W1 t D) as [-> _]. apply U2. }
  cbn [mbind option_bind]. eexists _, k2. split; [reflexivity|]. split; [done|].
  apply (woken_ext _ _ _ _ _ Hm) in W1.
  destruct (woken_resumed _ _ k k1 k2 W1 ST K) as (A1 & A2 & A3 & A4 & A5).
  split; [split; try done|].
  - intros i Hi. cbn [uxEventBits set_uxEventBits]. rewrite testbit_andnot, andb_true_iff, negb_true_iff by done.
    rewrite <- not_true_iff_false, C1, Z.testbit_0_l. setoid_rewrite Hm. split; [|naive_solver].
    intros [H1 H2]. split; [done|]. intros H3. apply H2. by right.
  - by rewrite P2, (wk_pended _ _ _ _ W1).
  - rewrite S2, (wk_suspended _ _ _ _ W1), Hs0. lia.
Qed.

(** ** Blocking *)

(** The calling task goes into the list of the group, and the scheduler switches. *)
Lemma place_and_resume a v n t k : kinv k → runnable k → k.(uxSchedulerSuspended) = 1 → undisturbed k → k.(pxCurrentTCB) = Some t →
  event t k = None → k.(xIdleTaskHandle) ≠ Some t → 0 < n ≤ portMAX_DELAY →
  ∃ k1 ay k2, vTaskPlaceOnUnorderedEventList (EventList a) v n k = Some k1 ∧ xTaskResumeAll k1 = Some (ay, k2)
    ∧ kinv (yield_unless ay k2) ∧ (yield_unless ay k2).(pending_soft_sv) = true ∧ k2.(pxCurrentTCB) = Some t
    ∧ k2.(uxSchedulerSuspended) = 0 ∧ k2.(tcbs) = k.(tcbs) ∧ k2.(xIdleTaskHandle) = k.(xIdleTaskHandle)
    ∧ event t k2 = Some (EventList a) ∧ state t k2 = Some (wait_list n true k)
    ∧ k_value (xEventListItem t) k2 = Z.lor v taskEVENT_LIST_ITEM_VALUE_IN_USE
    ∧ (∀ u, u ≠ t → event u k2 = event u k ∧ state u k2 = state u k).
Proof.
  intros Hk Hr Hs [Hu1 Hu2] Ht He Hi Hn. unfold vTaskPlaceOnUnorderedEventList. rewrite Ht. cbn [mbind option_bind].
  set (v' := Z.lor v _). assert (Hk0 := event_value_kinv t v' k Hk). set (k0 := k_set_value _ v' k) in *.
  destruct (place_core n true true (EventList a) t k0 (proj1 Hk0) Ht Hr He) as (k1 & E1 & Hc1 & C1 & R1 & _); [done..|].
  cbn match in E1. rewrite E1. destruct (relisted_fields _ _ _ R1) as (F1&F2&_&_&_&_&F7&F8&_&_&F11&_). cbn in F1, F2, F7, F8, F11.
  destruct (resume_all_spec k1 Hc1) as (ay & k2 & E2 & Hc2 & K2 & S2 & Y2 & _ & _ & T2); [lia|].
  assert (ST : same_tasks k1 k2).
  { apply T2; [by rewrite F8|]. intros u. unfold event. rewrite C1, fn_lookup_insert_ne by done. unfold insert, fn_insert.
    case_decide; [done|]. apply Hu2. }
  assert (S2' : k2.(uxSchedulerSuspended) = 0) by lia.
  exists k1, ay, k2. split_and!; try done.
  - unfold yield_unless. destruct ay.
    + split; [done|]. split; [rewrite Y2 by done; by intros [=]|]. intros [H|H]; [by rewrite Y2 in H|done].
    + by apply kinv_yield.
  - unfold yield_unless. destruct ay; [by apply Y2|done].
  - by rewrite (kk_current _ _ K2), F2.
  - by rewrite (kk_tcbs _ _ K2), F1.
  - by rewrite (kk_idle _ _ K2), F11.
  - unfold event. rewrite (st_container _ _ ST), C1, fn_lookup_insert_ne, fn_lookup_insert by done. done.
  - unfold state. rewrite (st_container _ _ ST), C1, fn_lookup_insert. done.
  - unfold k_value. rewrite (st_value _ _ ST), (rl_value _ _ _ R1). cbn.
    assert (V : k1.(lists).(value) (xEventListItem t) = v'); [|done].
    unfold k_insert_end, seq_insert_end in E1. unfold event in He. cbn in E1. rewrite He in E1. cbn in E1.
    unfold prvAddCurrentTaskToDelayedList, k_remove, seq_remove, k_insert, k_insert_end, seq_insert, seq_insert_end in E1. cbn in E1.
    destruct (pxCurrentTCB k) as [t0|]; [|done]. cbn in E1. rewrite fn_lookup_insert_ne in E1 by done.
    destruct (container (lists k) (xStateListItem t0)) as [l|]; [|done]. cbn in E1.
    destruct ((n =? portMAX_DELAY) && true); [rewrite fn_lookup_insert in E1; injection E1 as <-; cbn; by rewrite fn_lookup_insert|].
    destruct (_ <? _); rewrite fn_lookup_insert in E1; [injection E1 as <-|cbn in E1; injection E1 as <-; destruct (_ <? _)];
      cbn; rewrite fn_lookup_insert_ne by done; by rewrite fn_lookup_insert.
  - intros u Hu. unfold event, state. rewrite !(st_container _ _ ST), !C1. rewrite !fn_lookup_insert_ne by congruence. done.
Qed.

(** ** Bits and control bits *)

Lemma testbit_control i : 0 ≤ i → Z.testbit eventEVENT_BITS_CONTROL_BYTES i = (24 <=? i) && (i <? 32).
Proof.
  intros Hi. change eventEVENT_BITS_CONTROL_BYTES with (Z.shiftl (Z.ones 8) 24). rewrite Z.shiftl_spec by done.
  destruct (Z.leb_spec 24 i), (Z.ltb_spec i 32); cbn [andb].
  - by rewrite Z.ones_spec_low by lia.
  - by rewrite Z.ones_spec_high by lia.
  - by rewrite Z.testbit_neg_r by lia.
  - lia.
Qed.

Lemma split_control x c : 0 ≤ x < 2 ^ 24 → 0 ≤ c < 2 ^ 8 →
  andnot (Z.lor x (Z.shiftl c 24)) eventEVENT_BITS_CONTROL_BYTES = x
  ∧ Z.land (Z.lor x (Z.shiftl c 24)) eventEVENT_BITS_CONTROL_BYTES = Z.shiftl c 24.
Proof.
  intros Hx Hc. assert (Hs : 0 ≤ Z.shiftl c 24 < 2 ^ 32) by (rewrite Z.shiftl_mul_pow2 by lia; lia).
  assert (Hr := lor_range 32 x (Z.shiftl c 24) ltac:(lia) ltac:(lia) Hs).
  split; apply Z.bits_inj'; intros i Hi; [rewrite testbit_andnot by done|rewrite Z.land_spec];
    rewrite Z.lor_spec, testbit_control, Z.shiftl_spec by done;
    (destruct (Z.leb_spec 24 i);
      [rewrite (testbit_above 24 x) by lia|rewrite (Z.testbit_neg_r c) by lia]);
    (destruct (Z.ltb_spec i 32);
      [|try rewrite (testbit_above 8 c) by lia]); cbn [andb orb negb]; rewrite ?andb_true_r, ?andb_false_r, ?orb_false_r; done || lia.
Qed.

Definition control_bits (xClearOnExit xWaitForAllBits : bool) : Z :=
  let c := if xClearOnExit then eventCLEAR_EVENTS_ON_EXIT_BIT else 0 in
  if xWaitForAllBits then Z.lor c eventWAIT_FOR_ALL_BITS else c.

(** The value that a waiting task leaves in its event item. *)
Definition wait_value (bits : Z) (xClearOnExit xWaitForAllBits : bool) : Z :=
  Z.lor (Z.lor bits (control_bits xClearOnExit xWaitForAllBits)) taskEVENT_LIST_ITEM_VALUE_IN_USE.

Lemma wait_value_matches b bits clear all : 0 ≤ bits < 2 ^ 24 →
  item_matches b (wait_value bits clear all) = prvTestWaitCondition b bits all
  ∧ item_clears (wait_value bits clear all) = if clear then bits else 0.
Proof.
  intros Hb. unfold wait_value, item_matches, item_clears, prvTestWaitCondition. rewrite <- Z.lor_assoc.
  set (c := (if clear then 1 else 0) + (if all then 4 else 0) + 128).
  replace (Z.lor (control_bits clear all) taskEVENT_LIST_ITEM_VALUE_IN_USE) with (Z.shiftl c 24) by (by destruct clear, all).
  destruct (split_control bits c Hb) as [-> ->]; [destruct clear, all; cbn; lia|]. rewrite (Z.land_comm bits b).
  by destruct clear, all.
Qed.

Lemma woken_value_read b : 0 ≤ b < 2 ^ 24 →
  Z.land (woken_value b) eventUNBLOCKED_DUE_TO_BIT_SET ≠ 0 ∧ andnot (woken_value b) eventEVENT_BITS_CONTROL_BYTES = b.
Proof.
  intros Hb. unfold woken_value. rewrite <- Z.lor_assoc.
  change (Z.lor eventUNBLOCKED_DUE_TO_BIT_SET taskEVENT_LIST_ITEM_VALUE_IN_USE) with (Z.shiftl 130 24).
  destruct (split_control b 130 Hb) as [H1 _]; [lia|]. split; [|done]. intros H.
  apply (f_equal (λ x, Z.testbit x 25)) in H. rewrite Z.land_spec, Z.lor_spec, (testbit_above 24 b) in H by lia. by vm_compute in H.
Qed.

(** ** What a waiting task asks for, independently of its encoding *)

(** The bits, whether all of them must be set, and whether they are cleared on exit. *)
Record request := { rq_bits : Z; rq_all : bool; rq_clear : bool }.

(** What event_groups.c asserts: some event bits, no control bits. *)
Definition request_ok (r : request) : Prop := 0 < r.(rq_bits) < 2 ^ 24.

Definition condition (r : request) (b : Z) : Prop :=
  if r.(rq_all) then ∀ i, 0 ≤ i → Z.testbit r.(rq_bits) i = true → Z.testbit b i = true
  else ∃ i, 0 ≤ i ∧ Z.testbit r.(rq_bits) i = true ∧ Z.testbit b i = true.

(** Its encoding in the event item: the bits, bit 24 to clear, bit 26 for all, bit 31 in use. *)
Definition request_value (r : request) : Z :=
  r.(rq_bits) + (if r.(rq_clear) then 2 ^ 24 else 0) + (if r.(rq_all) then 2 ^ 26 else 0) + 2 ^ 31.

(** The task waits in the group with this request. *)
Definition waits_for (r : request) (g : EventGroup_t) (t : Z) (k : kernel) : Prop :=
  event t k = Some (xTasksWaitingForBits g) ∧ k_value (xEventListItem t) k = request_value r.

Lemma lor_control x c : 0 ≤ x < 2 ^ 24 → 0 ≤ c → Z.lor x (Z.shiftl c 24) = x + c * 2 ^ 24.
Proof.
  intros Hx Hc. assert (E : Z.land x (Z.shiftl c 24) = 0).
  { apply Z.bits_inj'. intros i Hi. rewrite Z.land_spec, Z.shiftl_spec, Z.testbit_0_l by done.
    destruct (Z.ltb_spec i 24); [by rewrite (Z.testbit_neg_r c), andb_false_r by lia|by rewrite (testbit_above 24 x) by lia]. }
  rewrite <- Z.lxor_lor, <- Z.add_nocarry_lxor, Z.shiftl_mul_pow2 by done || lia. done.
Qed.

Lemma request_value_eq r : request_ok r → request_value r = wait_value r.(rq_bits) r.(rq_clear) r.(rq_all).
Proof.
  destruct r as [bits all clear]. unfold request_ok, request_value, wait_value. cbn [rq_bits rq_clear rq_all]. intros Hb. rewrite <- Z.lor_assoc.
  replace (Z.lor (control_bits clear all) taskEVENT_LIST_ITEM_VALUE_IN_USE) with (Z.shiftl ((if clear then 1 else 0) + (if all then 4 else 0) + 128) 24) by (by destruct clear, all).
  rewrite lor_control by (destruct clear, all; lia). destruct clear, all; lia.
Qed.

Lemma woken_value_eq b : 0 ≤ b < 2 ^ 24 → woken_value b = b + 2 ^ 25 + 2 ^ 31.
Proof.
  intros Hb. unfold woken_value. rewrite <- Z.lor_assoc. change (Z.lor eventUNBLOCKED_DUE_TO_BIT_SET _) with (Z.shiftl 130 24). rewrite lor_control by lia. lia.
Qed.

Lemma condition_test r b : prvTestWaitCondition b r.(rq_bits) r.(rq_all) = true ↔ condition r b.
Proof.
  unfold prvTestWaitCondition, condition. destruct (rq_all r); cbn [negb].
  - rewrite Z.eqb_eq. split.
    + intros E i Hi H. apply (f_equal (λ x, Z.testbit x i)) in E. rewrite Z.land_spec, H in E. by apply andb_true_iff in E as [? _].
    + intros H. apply Z.bits_inj'. intros i Hi. rewrite Z.land_spec. destruct (Z.testbit (rq_bits r) i) eqn:E; [by rewrite (H i Hi E)|by rewrite andb_false_r].
  - rewrite negb_true_iff, Z.eqb_neq. split.
    + intros H. assert (Hbit : ∃ i, 0 ≤ i ∧ Z.testbit (Z.land b (rq_bits r)) i = true).
      { destruct (Z.lt_gt_cases (Z.land b (rq_bits r)) 0) as [D _]. destruct (D H) as [Hneg|Hpos].
        - eexists. split; [|by apply Z.bits_above_log2_neg, Z.lt_succ_diag_r]. assert (H0 := Z.log2_nonneg (Z.pred (- Z.land b (rq_bits r)))). lia.
        - eexists. split; [|by apply Z.bit_log2]. apply Z.log2_nonneg. }
      destruct Hbit as (i & Hi & Hb). rewrite Z.land_spec in Hb. apply andb_true_iff in Hb as [H1 H2]. eauto.
    + intros (i & Hi & H1 & H2) E. apply (f_equal (λ x, Z.testbit x i)) in E. by rewrite Z.land_spec, H1, H2, Z.testbit_0_l in E.
Qed.

#[export] Instance condition_dec r b : Decision (condition r b).
Proof. refine (cast_if (decide (prvTestWaitCondition b r.(rq_bits) r.(rq_all) = true))); by rewrite <- condition_test. Defined.

Lemma test_condition r b : prvTestWaitCondition b r.(rq_bits) r.(rq_all) = bool_decide (condition r b).
Proof. apply eq_true_iff_eq. by rewrite condition_test, bool_decide_eq_true. Qed.

(** What the loop of xEventGroupSetBits makes of a request. *)
Lemma waits_for_satisfied r g t b k : request_ok r → waits_for r g t k →
  (satisfied g b k t ↔ condition r b) ∧ item_clears (k_value (xEventListItem t) k) = if r.(rq_clear) then r.(rq_bits) else 0.
Proof.
  intros Hr [He Hv]. destruct (wait_value_matches b r.(rq_bits) r.(rq_clear) r.(rq_all)) as [M C]; [unfold request_ok in Hr; lia|].
  rewrite <- request_value_eq in M, C by done. rewrite <- Hv in M, C. split; [|done]. rewrite <- condition_test, <- M. unfold satisfied. naive_solver.
Qed.

(** ** Deleting a group *)

Lemma delete_loop_spec a rest : ∀ n k, kinv k → k.(lists).(elems) (EventList a) = rest → (length rest ≤ n)%nat →
  ∃ k', delete_loop n (EventList a) k = Some k' ∧ kinv k' ∧ k'.(blocks) = k.(blocks)
    ∧ readied (λ t, xEventListItem t ∈ rest) (Z.lor eventUNBLOCKED_DUE_TO_BIT_SET taskEVENT_LIST_ITEM_VALUE_IN_USE) k k'.
Proof.
  induction rest as [|x rest IH]; intros n k Hk El Hn.
  { exists k. destruct n; cbn [delete_loop]; unfold seq_length; rewrite El; cbn;
      (split_and!; [done|done|done|apply woken_none; by intros t ?%not_elem_of_nil]). }
  destruct n as [|n]; [cbn in Hn; lia|]. cbn [delete_loop length] in *. unfold seq_length, seq_head. rewrite El. cbn [length head].
  rewrite (proj2 (Z.ltb_lt _ _)) by lia. cbn [mbind option_bind].
  assert (Hnd := ok_nodup _ (w_store _ _ _ _ _ _ _ _ _ _ _ (kc_wf _ (proj1 Hk))) (EventList a)). rewrite El in Hnd.
  apply NoDup_cons in Hnd as [Hx Hnd].
  destruct (waiting_item a k x (kc_wf _ (proj1 Hk))) as (t & -> & He); [rewrite El; apply elem_of_cons; by left|].
  destruct (remove_unordered_spec t eventUNBLOCKED_DUE_TO_BIT_SET a k Hk He) as (b & k1 & E1 & Hk1 & W1 & L1).
  cbn [owner]. rewrite E1. cbn [mbind option_bind]. rewrite El, (take_out_split _ [] rest Hx) in L1.
  destruct (IH n k1 Hk1 L1) as (k' & E' & Hk' & B' & W'); [lia|]. exists k'. split_and!; [done|done| |].
  - rewrite B'. eapply unordered_blocks. exact E1.
  - eapply woken_ext; [|eapply woken_trans; [| |exact W1|exact W']].
    + intros u. rewrite elem_of_cons. naive_solver.
    + by intros u ->.
    + intros u. destruct (decide (xEventListItem u ∈ rest)); auto.
Qed.
