(* ===== verification/FrEventTheorems.v ===== *)
(** FrEventTheorems: the correctness of event groups. *)

From stdpp Require Import functions sorting.
From S2P Require Import Prelude FrList FrSeq FrKernel FrTasks FrTasksInv FrTasksMove FrTasksTick FrTasksSched FrTasksApi FrTasksLife FrTasksPrio FrNotify FrTasksSteps FrTasksTheorems FrQueueSched FrQueueBlock FrQueueWait FrQueueTheorems FrEvent FrEventSpec.

(** The tasks that wait in the group, with what they asked for. *)
Definition waiters (W : Z → option request) (g : EventGroup_t) (k : kernel) : Prop :=
  ∀ t, match W t with Some r => request_ok r ∧ waits_for r g t k | None => event t k ≠ Some (xTasksWaitingForBits g) end.

(** C8: of the tasks that wait in the group, each for all or for
    any of its bits, xEventGroupSetBits makes exactly those ready whose condition the
    new bits satisfy; each finds the new bits in its event item; every other task is where
    it was, with what it waits for; and exactly those of the bits are cleared that a woken
    task asked to clear.  The scheduler keeps its invariant. *)
Theorem event_set_wakes_exactly W set g k : kinv k → k.(pending_soft_sv) = false → k.(uxSchedulerSuspended) = 0 →
  waiters W g k → let b := Z.lor g.(uxEventBits) set in 0 ≤ b < 2 ^ 24 →
  ∃ g' k', set_bits set (g, k) = Some (g', k') ∧ kinv k' ∧ k'.(uxSchedulerSuspended) = 0 ∧ g'.(eg_self) = g.(eg_self)
    ∧ (∀ t r, W t = Some r → condition r b → event t k' = None ∧ (∃ p, state t k' = Some (pxReadyTasksLists p))
        ∧ k_value (xEventListItem t) k' = b + 2 ^ 25 + 2 ^ 31)
    ∧ (∀ t, (∀ r, W t = Some r → ¬ condition r b) → event t k' = event t k ∧ state t k' = state t k
        ∧ k_value (xEventListItem t) k' = k_value (xEventListItem t) k)
    ∧ ∀ i, 0 ≤ i → Z.testbit g'.(uxEventBits) i = true ↔ Z.testbit b i = true
        ∧ ¬ ∃ t r, W t = Some r ∧ condition r b ∧ r.(rq_clear) = true ∧ Z.testbit r.(rq_bits) i = true.
Proof.
  intros Hk Hsoft Hs HW b Hb. destruct (set_bits_spec set g k Hk) as (g' & k' & E & Hk' & B & S); [by apply kinv_runnable|lia|fold b; lia|]. fold b in B.
  assert (Sat : ∀ t, satisfied g b k t ↔ ∃ r, W t = Some r ∧ condition r b).
  { intros t. specialize (HW t). destruct (W t) as [r|]; [destruct HW as [Hr Hw]; rewrite (proj1 (waits_for_satisfied r g t b k Hr Hw)); naive_solver|].
    split; [by intros [? _]|naive_solver]. }
  exists g', k'. split_and!; [done|done|lia|apply B| | |].
  - intros t r Hr Hc. rewrite <- woken_value_eq by done. apply (bs_woken _ _ _ _ _ B). rewrite Sat. eauto.
  - intros t Ht. apply (bs_other _ _ _ _ _ B). rewrite Sat. naive_solver.
  - intros i Hi. rewrite (bs_bits _ _ _ _ _ B i Hi).
    assert (Hcl : ∀ t r, W t = Some r → item_clears (k_value (xEventListItem t) k) = if r.(rq_clear) then r.(rq_bits) else 0).
    { intros t r Hr. specialize (HW t). rewrite Hr in HW. destruct HW as [Ho Hw]. by apply (waits_for_satisfied r g t b k). }
    setoid_rewrite Sat. split; intros [H1 H2]; (split; [done|]); intros H3; apply H2.
    + destruct H3 as (t & r & Hr & Hc & Hcr & Hi'). exists t. split; [eauto|]. by rewrite (Hcl t r Hr), Hcr.
    + destruct H3 as (t & (r & Hr & Hc) & Hi'). rewrite (Hcl t r Hr) in Hi'. exists t, r. destruct (rq_clear r); [done|by rewrite Z.testbit_0_l in Hi'].
Qed.

(** A group at address 5000. *)
Definition demo_group : EventGroup_t := {| eg_self := 5000; uxEventBits := 0 |}.

(** A task that does not run an interrupt is current and ready. *)
Lemma wait_bits_spec bits clear all n t g k : kinv k → k.(pending_soft_sv) = false → k.(uxSchedulerSuspended) = 0 →
  k.(pxCurrentTCB) = Some t → event t k = None → k.(xIdleTaskHandle) ≠ Some t → 0 ≤ n ≤ portMAX_DELAY →
  if prvTestWaitCondition g.(uxEventBits) bits all || (n =? 0) then
    ∃ k', wait_bits_enter bits clear all n (g, k)
        = Some (Returns g.(uxEventBits), (if prvTestWaitCondition g.(uxEventBits) bits all && clear
                                          then set_uxEventBits (andnot g.(uxEventBits) bits) g else g, k')) ∧ kinv k'
  else ∃ k', wait_bits_enter bits clear all n (g, k) = Some (Blocks, (g, k')) ∧ kinv k'
    ∧ event t k' = Some (xTasksWaitingForBits g) ∧ state t k' = Some (wait_list n true k)
    ∧ k_value (xEventListItem t) k' = wait_value bits clear all ∧ k'.(uxSchedulerSuspended) = 0 ∧ k'.(tcbs) = k.(tcbs).
Proof.
  intros Hk Hsoft Hs Ht He Hi Hn. assert (Hr := kinv_runnable k Hk Hsoft).
  destruct (suspended_start k Hk Hr) as (Hk0 & Hs0 & Hu0); [lia|]. rewrite Hs in Hs0. change (0 + 1) with 1 in Hs0.
  unfold wait_bits_enter, resume_and_wait.
  destruct (resume_same (vTaskSuspendAll k) Hk0) as (ay & k' & E & Hk' & _); [lia|done|].
  destruct (prvTestWaitCondition (uxEventBits g) bits all); cbn [orb andb].
  { rewrite E. cbn [mbind option_bind]. exists k'. by destruct clear. }
  destruct (Z.eqb_spec n 0) as [En|En].
  { rewrite E. cbn [mbind option_bind]. by exists k'. }
  destruct (place_and_resume (eg_self g + 4) (Z.lor bits (control_bits clear all)) n t (vTaskSuspendAll k) Hk0 Hr Hs0 (Hu0 Hs0) Ht He Hi)
    as (k1 & ay1 & k2 & E1 & E2 & Hk2 & Sf & _ & S2 & T2 & _ & Ev & St & V & _); [lia|].
  unfold control_bits in E1. fold (xTasksWaitingForBits g) in E1. rewrite E1. cbn [mbind option_bind]. rewrite E2.
  cbn [mbind option_bind]. eexists. split; [reflexivity|]. split; [done|]. by destruct ay1.
Qed.

(** The group without the bits that the request clears. *)
Definition cleared (r : request) (g : EventGroup_t) : EventGroup_t :=
  if r.(rq_clear) then set_uxEventBits (andnot g.(uxEventBits) r.(rq_bits)) g else g.

(** The end of the call in a task that a set of bits woke, and in one whose time is up. *)
Lemma leave_woken r b t g k : request_ok r → 0 ≤ b < 2 ^ 24 → kinv k → k.(pxCurrentTCB) = Some t → k_value (xEventListItem t) k = b + 2 ^ 25 + 2 ^ 31 →
  ∃ k', wait_bits_leave r.(rq_bits) r.(rq_clear) r.(rq_all) (g, k) = Some (b, (g, k')) ∧ kinv k'.
Proof.
  intros Hr Hb Hk Ht V. rewrite <- woken_value_eq in V by done. unfold wait_bits_leave, uxTaskResetEventItemValue. rewrite Ht. cbn [mbind option_bind].
  destruct (kwf_current _ _ (kc_wf _ (proj1 Hk))) as (u & cu & _ & _ & ->). cbn [mbind option_bind].
  rewrite V. destruct (woken_value_read b Hb) as [W1 W2]. rewrite (proj2 (Z.eqb_neq _ _) W1), W2.
  eexists. split; [reflexivity|]. by apply event_value_kinv.
Qed.

Lemma leave_timed_out r t g k : request_ok r → 0 ≤ g.(uxEventBits) < 2 ^ 24 → kinv k → k.(pxCurrentTCB) = Some t → k_value (xEventListItem t) k = request_value r →
  ∃ k', wait_bits_leave r.(rq_bits) r.(rq_clear) r.(rq_all) (g, k)
      = Some (g.(uxEventBits), (if decide (condition r g.(uxEventBits)) then cleared r g else g, k')) ∧ kinv k'.
Proof.
  intros Hr Hg Hk Ht V. unfold wait_bits_leave, uxTaskResetEventItemValue. rewrite Ht. cbn [mbind option_bind].
  destruct (kwf_current _ _ (kc_wf _ (proj1 Hk))) as (u & cu & _ & _ & ->). cbn [mbind option_bind].
  assert (E : Z.land (request_value r) eventUNBLOCKED_DUE_TO_BIT_SET = 0).
  { rewrite request_value_eq by done. unfold wait_value. rewrite <- Z.lor_assoc, Z.land_lor_distr_l.
    replace (Z.land (Z.lor (control_bits _ _) _) _) with 0 by (by destruct (rq_clear r), (rq_all r)). rewrite Z.lor_0_r. apply Z.bits_inj'. intros i Hi.
    rewrite Z.land_spec, Z.testbit_0_l. change eventUNBLOCKED_DUE_TO_BIT_SET with (2 ^ 25). rewrite Z.pow2_bits_eqb by lia.
    destruct (Z.eqb_spec 25 i) as [<-|]; [|by rewrite andb_false_r]. by rewrite (testbit_above 24) by (unfold request_ok in Hr; lia). }
  rewrite V, E. cbn [Z.eqb]. rewrite test_condition.
  assert (Hc : ∀ x, 0 ≤ x < 2 ^ 24 → andnot x eventEVENT_BITS_CONTROL_BYTES = x).
  { intros x Hx. destruct (split_control x 0 Hx) as [H _]; [lia|]. by rewrite Z.shiftl_0_l, Z.lor_0_r in H. }
  rewrite Hc by done. eexists. split; [|by apply event_value_kinv].
  unfold cleared. by destruct (decide (condition r (uxEventBits g))) as [D|D]; [rewrite bool_decide_true by done|rewrite bool_decide_false by done]; destruct (rq_clear r).
Qed.

(** C31: a task that calls xEventGroupWaitBits when its condition
    holds gets the bits at once, cleared from the group if it asked for that; without time
    to wait it gets them as they are.  Otherwise it blocks in the group for that time,
    and goes on waiting through every xEventGroupSetBits that does not satisfy the
    condition; one that does makes it ready, and whatever happens to the group until it runs,
    the call returns the bits that satisfied it.  If its time is up first, and the value of
    its event item is still its request when it runs, the call returns the bits of that
    moment, and clears them if the condition holds then. *)
Theorem event_wait_delivers r n t g k : kinv k → k.(pending_soft_sv) = false → k.(uxSchedulerSuspended) = 0 →
  k.(pxCurrentTCB) = Some t → event t k = None → k.(xIdleTaskHandle) ≠ Some t → 0 ≤ n ≤ portMAX_DELAY → request_ok r →
  let call env := xEventGroupWaitBits env r.(rq_bits) r.(rq_clear) r.(rq_all) n (g, k) in
  if decide (condition r g.(uxEventBits)) then ∃ k', kinv k' ∧ ∀ env, call env = Some (g.(uxEventBits), (cleared r g, k'))
  else if decide (n = 0) then ∃ k', kinv k' ∧ ∀ env, call env = Some (g.(uxEventBits), (g, k'))
  else ∃ k1, wait_bits_enter r.(rq_bits) r.(rq_clear) r.(rq_all) n (g, k) = Some (Blocks, (g, k1)) ∧ kinv k1
    ∧ waits_for r g t k1 ∧ state t k1 = Some (wait_list n true k)
    ∧ (∀ g2 k2 set, g2.(eg_self) = g.(eg_self) → kinv k2 → k2.(pending_soft_sv) = false → k2.(uxSchedulerSuspended) = 0 → waits_for r g2 t k2 →
        let b := Z.lor g2.(uxEventBits) set in 0 ≤ b < 2 ^ 24 →
        ∃ g3 k3, set_bits set (g2, k2) = Some (g3, k3) ∧ kinv k3
          ∧ if decide (condition r b) then
              (∃ p, state t k3 = Some (pxReadyTasksLists p)) ∧ (r.(rq_clear) = true → Z.land g3.(uxEventBits) r.(rq_bits) = 0)
              ∧ ∀ env g4 k4, env (g, k1) = Some (g4, k4) → kinv k4 → k4.(pxCurrentTCB) = Some t →
                  k_value (xEventListItem t) k4 = k_value (xEventListItem t) k3 → ∃ k5, call env = Some (b, (g4, k5)) ∧ kinv k5
            else waits_for r g3 t k3)
    ∧ ∀ env g4 k4, env (g, k1) = Some (g4, k4) → kinv k4 → k4.(pxCurrentTCB) = Some t → k_value (xEventListItem t) k4 = request_value r →
        0 ≤ g4.(uxEventBits) < 2 ^ 24 →
        ∃ k5, call env = Some (g4.(uxEventBits), (if decide (condition r g4.(uxEventBits)) then cleared r g4 else g4, k5)) ∧ kinv k5.
Proof.
  intros Hk Hsoft Hs Ht He Hi Hn Hr call. unfold xEventGroupWaitBits in call.
  assert (H := wait_bits_spec r.(rq_bits) r.(rq_clear) r.(rq_all) n t g k Hk Hsoft Hs Ht He Hi Hn). rewrite test_condition in H.
  destruct (decide (condition r (uxEventBits g))) as [D|D].
  { rewrite bool_decide_true in H by done. destruct H as (k' & E & Hk'). exists k'. split; [done|]. intros env. unfold call. rewrite E. done. }
  rewrite bool_decide_false in H by done. cbn [orb andb] in H. destruct (decide (n = 0)) as [Hn0|Hn0].
  { rewrite (proj2 (Z.eqb_eq n 0) Hn0) in H. destruct H as (k' & E & Hk'). exists k'. split; [done|]. intros env. unfold call. by rewrite E. }
  rewrite (proj2 (Z.eqb_neq n 0) Hn0) in H. destruct H as (k1 & E1 & Hk1 & Ev1 & St1 & V1 & _).
  assert (Hcall : ∀ env g4 k4, env (g, k1) = Some (g4, k4) → call env = wait_bits_leave r.(rq_bits) r.(rq_clear) r.(rq_all) (g4, k4)).
  { intros env g4 k4 E. unfold call. rewrite E1. cbn [mbind option_bind]. by rewrite E. }
  exists k1. split; [done|]. split; [done|]. split; [split; [done|by rewrite request_value_eq]|]. split; [done|]. split.
  - intros g2 k2 set Hg2 Hk2 Hsoft2 Hs2 W2 b Hb2.
    destruct (set_bits_spec set g2 k2 Hk2) as (g3 & k3 & E3 & Hk3 & B3 & _); [by apply kinv_runnable|lia|fold b; lia|]. fold b in B3.
    destruct (waits_for_satisfied r g2 t b k2 Hr W2) as [Sat Cl]. exists g3, k3. split; [done|]. split; [done|].
    destruct (decide (condition r b)) as [Db|Db].
    + destruct (bs_woken _ _ _ _ _ B3 t (proj2 Sat Db)) as (_ & St & V3). split_and!; [done| |].
      * intros Hcl. rewrite Hcl in Cl. apply Z.bits_inj'. intros i Hi'. rewrite Z.land_spec, Z.testbit_0_l.
        destruct (Z.testbit (rq_bits r) i) eqn:Eb; [|by rewrite andb_false_r]. rewrite andb_true_r. apply not_true_iff_false.
        intros H3. apply (bs_bits _ _ _ _ _ B3 i Hi') in H3 as [_ H3]. apply H3. exists t. split; [by apply Sat|]. by rewrite Cl.
      * intros env g4 k4 E4 Hk4 Ht4 V4. rewrite (Hcall _ _ _ E4). apply (leave_woken r b t); [done..|]. by rewrite V4, V3, woken_value_eq.
    + destruct W2 as [W2 W3]. destruct (bs_other _ _ _ _ _ B3 t) as (X1 & _ & X2); [by rewrite Sat|]. split; [|by rewrite X2].
      rewrite X1, W2. unfold xTasksWaitingForBits. by rewrite (bs_self _ _ _ _ _ B3).
  - intros env g4 k4 E4 Hk4 Ht4 V4 Hg4. rewrite (Hcall _ _ _ E4). by apply (leave_timed_out r t).
Qed.

(** XEventGroupSync makes every task ready that waits in
    the group for bits that are now set.  If with the new bits all bits of the
    rendezvous are set, the caller returns at once with them and they are cleared;
    otherwise, given time, it waits for all of them, to be woken by the party that
    comes last. *)
Theorem event_rendezvous set bits n t g k : kinv k → k.(pending_soft_sv) = false → k.(uxSchedulerSuspended) = 0 →
  k.(pxCurrentTCB) = Some t → event t k = None → k.(xIdleTaskHandle) ≠ Some t → 0 < n ≤ portMAX_DELAY →
  let b := Z.lor g.(uxEventBits) set in 0 ≤ b < 2 ^ 32 →
  ∃ r g' k', sync_enter set bits n (g, k) = Some (r, (g', k')) ∧ kinv k' ∧ k'.(uxSchedulerSuspended) = 0
    ∧ (∀ u, satisfied g b k u → event u k' = None ∧ ∃ p, state u k' = Some (pxReadyTasksLists p))
    ∧ if Z.land b bits =? bits then r = Returns b ∧ (0 ≤ bits → Z.land g'.(uxEventBits) bits = 0)
      else r = Blocks ∧ event t k' = Some (xTasksWaitingForBits g) ∧ k_value (xEventListItem t) k' = wait_value bits true true.
Proof.
  intros Hk Hsoft Hs Ht He Hi Hn b Hb. assert (Hr := kinv_runnable k Hk Hsoft).
  destruct (suspended_start k Hk Hr) as (Hk0 & Hs0 & Hu0); [lia|]. rewrite Hs in Hs0. change (0 + 1) with 1 in Hs0.
  unfold sync_enter. set (k0 := vTaskSuspendAll k) in *.
  destruct (set_bits_spec set g k0 Hk0 Hr) as (g1 & k1 & -> & Hk1 & B1 & S1); [lia|done|]. cbn [mbind option_bind]. fold b in B1 |- *.
  assert (Hsat : ∀ u, satisfied g b k u ↔ satisfied g b k0 u) by done.
  assert (Hu1 : undisturbed k1).
  { destruct (Hu0 Hs0) as [U1 U2]. split; [by rewrite (bs_pended _ _ _ _ _ B1)|]. intros u.
    destruct (decide (satisfied g b k0 u)) as [D|D]; [by destruct (bs_woken _ _ _ _ _ B1 u D) as [-> _]|].
    destruct (bs_other _ _ _ _ _ B1 u D) as [-> _]. apply U2. }
  assert (He1 : event t k1 = None).
  { destruct (bs_other _ _ _ _ _ B1 t) as [-> _]; [|done]. intros [H _]. change (event t k0) with (event t k) in H. congruence. }
  destruct (Z.land b bits =? bits) eqn:E.
  - unfold resume_and_wait. destruct (resume_same k1 Hk1) as (ay & k2 & -> & Hk2 & ST & _ & S2 & _); [lia|done|].
    cbn [mbind option_bind]. eexists _, _, k2. split; [reflexivity|]. split_and!; [done|lia| |done|].
    + intros u Hu. destruct (same_tasks_events k1 k2 ST u) as (-> & -> & _). by destruct (bs_woken _ _ _ _ _ B1 u Hu) as (? & ? & _).
    + intros Hbits. cbn. apply Z.bits_inj'. intros i Hi'. rewrite Z.land_spec, Z.testbit_0_l.
      rewrite testbit_andnot; [by destruct (Z.testbit _ i), (Z.testbit bits i)| |done].
      apply bits_below; [lia| |].
      * apply Z.bits_iff_nonneg_ex. exists 32. intros i' Hi2. apply not_true_iff_false. intros H.
        apply (bs_bits _ _ _ _ _ B1) in H as [H _]; [|lia]. by rewrite (testbit_above 32 b) in H by lia.
      * intros i' Hi2. apply not_true_iff_false. intros H.
        apply (bs_bits _ _ _ _ _ B1) in H as [H _]; [|lia]. by rewrite (testbit_above 32 b) in H by lia.
  - rewrite (proj2 (Z.eqb_neq n 0)) by lia. cbn [negb].
    assert (Ht1 : pxCurrentTCB k1 = Some t) by (by rewrite (bs_current _ _ _ _ _ B1)).
    assert (Hr1 : runnable k1) by (apply (pr_runnable _ (proj2 Hk1)); right; lia).
    destruct (place_and_resume (eg_self g + 4) (Z.lor (Z.lor bits eventCLEAR_EVENTS_ON_EXIT_BIT) eventWAIT_FOR_ALL_BITS) n t k1
      Hk1 Hr1 ltac:(lia) Hu1 Ht1 He1) as (k2 & ay & k3 & E2 & E3 & Hk3 & _ & _ & S3 & _ & _ & Ev & _ & V & Oth);
      [by rewrite (bs_idle _ _ _ _ _ B1)|done|].
    unfold xTasksWaitingForBits at 1. rewrite (bs_self _ _ _ _ _ B1), E2. cbn [mbind option_bind]. unfold resume_and_wait.
    rewrite E3. cbn [mbind option_bind]. eexists _, g1, _. split; [reflexivity|].
    split_and!; [done|by destruct ay| |done|by destruct ay|].
    + intros u Hu. assert (Hne : u ≠ t) by (intros ->; destruct Hu as [H _]; congruence).
      destruct (bs_woken _ _ _ _ _ B1 u Hu) as (W1 & W2 & _). destruct (Oth u Hne) as [O1 O2]. rewrite <- O1 in W1.
      rewrite <- O2 in W2. by destruct ay.
    + assert (Ev' : k_value (xEventListItem t) k3 = wait_value bits true true); [|by destruct ay].
      rewrite V. unfold wait_value. by rewrite <- (Z.lor_assoc bits).
Qed.

(** The second part of the rendezvous is that of a wait for all bits. *)
Lemma sync_leave_waits bits s : sync_leave bits s = wait_bits_leave bits true true s.
Proof.
  destruct s as [g k]. unfold sync_leave, wait_bits_leave. destruct (uxTaskResetEventItemValue k) as [[v k']|]; [|done].
  cbn [mbind option_bind]. unfold prvTestWaitCondition. cbn [negb]. by rewrite andb_true_r.
Qed.

(** VEventGroupDelete makes every task ready that
    waits in the group, with no event bits in its event item, leaves all other
    tasks alone and frees exactly the block of the group. *)
Theorem event_delete_releases g k : kinv k → k.(pending_soft_sv) = false → k.(uxSchedulerSuspended) = 0 →
  ∃ k', vEventGroupDelete (g, k) = Some k' ∧ kinv k' ∧ k'.(blocks) = k.(blocks) ∖ {[g.(eg_self)]}
    ∧ (∀ t, event t k = Some (xTasksWaitingForBits g) → event t k' = None ∧ (∃ p, state t k' = Some (pxReadyTasksLists p))
        ∧ andnot (k_value (xEventListItem t) k') eventEVENT_BITS_CONTROL_BYTES = 0)
    ∧ (∀ t, event t k ≠ Some (xTasksWaitingForBits g) → event t k' = event t k ∧ state t k' = state t k).
Proof.
  intros Hk Hsoft Hs. destruct (suspended_start k Hk (kinv_runnable k Hk Hsoft)) as (Hk0 & Hs0 & Hu0); [lia|].
  rewrite Hs in Hs0. change (0 + 1) with 1 in Hs0. unfold vEventGroupDelete. set (k0 := vTaskSuspendAll k) in *.
  destruct (delete_loop_spec (eg_self g + 4) _ _ k0 Hk0 eq_refl (le_n _)) as (k1 & E1 & Hk1 & B1 & W1).
  unfold xTasksWaitingForBits. rewrite E1. cbn [mbind option_bind]. set (k2 := set_blocks _ k1).
  assert (Hk2 : kinv k2) by (destruct Hk1 as [[] []]; by split; split).
  assert (Hm : ∀ t, xEventListItem t ∈ k0.(lists).(elems) (EventList (eg_self g + 4)) ↔ event t k = Some (xTasksWaitingForBits g))
    by (intros t; apply (ok_in _ (w_store _ _ _ _ _ _ _ _ _ _ _ (kc_wf _ (proj1 Hk0))))).
  apply (woken_ext _ _ _ _ _ Hm) in W1.
  destruct (resume_same k2 Hk2) as (ay & k3 & -> & Hk3 & ST & K & _).
  { cbn. rewrite (wk_suspended _ _ _ _ W1). lia. }
  { intros _. destruct (Hu0 Hs0) as [U1 U2]. split; [cbn; by rewrite (wk_pended _ _ _ _ W1)|]. intros t.
    change (event t k2) with (event t k1).
    destruct (decide (event t k = Some (xTasksWaitingForBits g))) as [D|D].
    - by destruct (wk_in _ _ _ _ W1 t D) as [-> _].
    - destruct (wk_out _ _ _ _ W1 t D) as [-> _]. apply U2. }
  cbn [mbind option_bind]. exists k3. assert (H := same_tasks_events k2 k3 ST). split_and!; [done|done| | |].
  - rewrite (kk_blocks _ _ K). cbn. by rewrite B1.
  - intros t Ht. destruct (H t) as (-> & -> & ->). destruct (wk_in _ _ _ _ W1 t Ht) as (E & St & V).
    change (event t k2) with (event t k1). change (state t k2) with (state t k1).
    change (k_value (xEventListItem t) k2) with (k_value (xEventListItem t) k1). rewrite V. by split_and!.
  - intros t Ht. destruct (H t) as (-> & -> & _). by destruct (wk_out _ _ _ _ W1 t Ht) as (? & ? & _).
Qed.

Lemma event_delete_releases_witness : ∃ k', vEventGroupDelete (demo_group, demo_kernel) = Some k' ∧ kinv k'.
Proof.
  destruct (event_delete_releases demo_group demo_kernel demo_kinv) as (k' & E & Hk & _).
  - vm_compute; reflexivity.
  - vm_compute; reflexivity.
  - exists k'. exact (conj E Hk).
Defined.

(** ** Witnesses *)

(** The next context switch, and a call that blocks up to it. *)
Definition switch (s : gk) : option gk := k ← SV_ISR s.2; Some (s.1, k).
Definition wait_and_switch (r : request) (s : gk) : option gk :=
  '(_, s) ← wait_bits_enter r.(rq_bits) r.(rq_clear) r.(rq_all) 9 s; switch s.

Lemma wait_and_switch_kinv r t s : kinv s.2 → s.2.(pending_soft_sv) = false → s.2.(uxSchedulerSuspended) = 0 →
  s.2.(pxCurrentTCB) = Some t → event t s.2 = None → s.2.(xIdleTaskHandle) ≠ Some t →
  ∃ s', wait_and_switch r s = Some s' ∧ kinv s'.2 ∧ s'.2.(pending_soft_sv) = false.
Proof.
  destruct s as [g k]. cbn [fst snd]. intros Hk Hsoft Hs Ht He Hi. unfold wait_and_switch, switch.
  assert (H := wait_bits_spec r.(rq_bits) r.(rq_clear) r.(rq_all) 9 t g k Hk Hsoft Hs Ht He Hi ltac:(done)).
  destruct (_ || _); [destruct H as (k1 & -> & Hk1)|destruct H as (k1 & -> & Hk1 & _)]; cbn [mbind option_bind fst snd];
    destruct (sv_isr_spec k1 Hk1) as (k2 & -> & Hk2 & S2); cbn [mbind option_bind]; eexists; (split; [reflexivity|]); done.
Qed.

(** Task 100 waits for all of the bits 5 and is to clear them, and then task 110 for any
    of the bits 6, to clear them too. *)
Definition all_of_5 : request := {| rq_bits := 5; rq_all := true; rq_clear := true |}.
Definition any_of_6 : request := {| rq_bits := 6; rq_all := false; rq_clear := true |}.

Definition demo_waiting : gk := default (demo_group, demo_kernel) (wait_and_switch all_of_5 (demo_group, demo_kernel)).
Definition demo_two : gk := default demo_waiting (wait_and_switch any_of_6 demo_waiting).

Lemma demo_waiting_kinv : kinv demo_waiting.2 ∧ demo_waiting.2.(pending_soft_sv) = false.
Proof.
  destruct (wait_and_switch_kinv all_of_5 100 (demo_group, demo_kernel) demo_kinv) as (s & E & H);
    [vm_compute; reflexivity|vm_compute; reflexivity|vm_compute; reflexivity|apply demo_events|vm_compute; discriminate|].
  unfold demo_waiting. rewrite E. exact H.
Qed.

Lemma demo_two_kinv : kinv demo_two.2 ∧ demo_two.2.(pending_soft_sv) = false.
Proof.
  destruct (wait_and_switch_kinv any_of_6 110 demo_waiting (proj1 demo_waiting_kinv) (proj2 demo_waiting_kinv)) as (s & E & H);
    [vm_compute; reflexivity|vm_compute; reflexivity|vm_compute; reflexivity|vm_compute; discriminate|].
  unfold demo_two. rewrite E. exact H.
Qed.

Lemma event_elem l t k : kinv k → event t k = Some l → xEventListItem t ∈ k.(lists).(elems) l.
Proof. intros [Hc _] H. by apply (ok_in _ (w_store _ _ _ _ _ _ _ _ _ _ _ (kc_wf _ Hc))). Qed.

(** Who waits in [demo_two]. *)
Definition demo_requests (t : Z) : option request := if t =? 100 then Some all_of_5 else if t =? 110 then Some any_of_6 else None.

Lemma demo_waiters : waiters demo_requests demo_two.1 demo_two.2.
Proof.
  intros t. unfold demo_requests. destruct (Z.eqb_spec t 100) as [->|H1]; [split; [done|split; vm_compute; reflexivity]|].
  destruct (Z.eqb_spec t 110) as [->|H2]; [split; [done|split; vm_compute; reflexivity]|]. intros H.
  assert (Hin := event_elem _ _ _ (proj1 demo_two_kinv) H). clear H.
  assert (E : (lists demo_two.2).(elems) (xTasksWaitingForBits demo_two.1) = [xEventListItem 100; xEventListItem 110]) by (vm_compute; reflexivity).
  rewrite E in Hin. clear E. rewrite !elem_of_cons in Hin. destruct Hin as [Hin|[Hin|Hin]]; [by injection Hin|by injection Hin|by apply not_elem_of_nil in Hin].
Qed.

(** The bits 3 wake the task that waits for any of 6, not the one that waits for all of 5. *)
Lemma event_set_wakes_exactly_witness : ∃ g' k', set_bits 3 demo_two = Some (g', k') ∧ kinv k'
  ∧ event 110 k' = None ∧ k_value (xEventListItem 110) k' = 3 + 2 ^ 25 + 2 ^ 31 ∧ event 100 k' = Some (EventList 5004).
Proof.
  assert (E1 : demo_two.1.(uxEventBits) = 0) by (vm_compute; reflexivity). assert (E2 : event 100 demo_two.2 = Some (EventList 5004)) by (vm_compute; reflexivity).
  assert (E3 : demo_two.2.(uxSchedulerSuspended) = 0) by (vm_compute; reflexivity).
  assert (Hw := demo_waiters). assert (Hk := demo_two_kinv). generalize dependent demo_two. intros [g k]. cbn [fst snd]. intros E1 E2 E3 Hw [Hk Hsoft].
  destruct (event_set_wakes_exactly demo_requests 3 g k Hk Hsoft E3 Hw) as (g' & k' & E & Hk' & _ & _ & W & O & _); [by rewrite E1|].
  exists g', k'. rewrite E1 in W, O. destruct (W 110 any_of_6 eq_refl) as (W1 & _ & W2); [by exists 1|].
  destruct (O 100) as [O1 _]; [intros r [= <-] H; by specialize (H 2 ltac:(done) eq_refl)|]. by rewrite O1.
Defined.

(** While task 100 waits, another task sets the bits 13 and yields. *)
Definition set_13 (s : gk) : option gk := s ← set_bits 13 s; switch (s.1, portYIELD_WITHIN_API s.2).

Lemma wait_and_switch_eq r s s1 : wait_bits_enter r.(rq_bits) r.(rq_clear) r.(rq_all) 9 s = Some (Blocks, s1) → kinv s1.2 →
  ∀ d, switch s1 = Some (default d (wait_and_switch r s)).
Proof.
  intros E Hk d. unfold wait_and_switch. rewrite E. cbn [mbind option_bind]. unfold switch. destruct (sv_isr_spec _ Hk) as (k2 & -> & _). done.
Qed.

Lemma set_13_results s g3 k3 k4 : set_bits 13 s = Some (g3, k3) → SV_ISR (portYIELD_WITHIN_API k3) = Some k4 →
  option_map (λ s, k_value (xEventListItem 100) s.2) (set_bits 13 s) = Some 2181038093 →
  option_map (λ s, (s.2.(pxCurrentTCB), k_value (xEventListItem 100) s.2, s.1.(uxEventBits))) (set_13 s) = Some (Some 100, 2181038093, 8) →
  set_13 s = Some (g3, k4) ∧ k4.(pxCurrentTCB) = Some 100 ∧ k_value (xEventListItem 100) k4 = k_value (xEventListItem 100) k3 ∧ g3.(uxEventBits) = 8.
Proof.
  intros E3 E4. unfold set_13, switch. rewrite E3. cbn [mbind option_bind fst snd option_map]. rewrite E4. cbn [mbind option_bind fst snd option_map].
  intros [= V3] [= C4 V4 B4]. by rewrite V3, V4.
Qed.

Lemma event_wait_delivers_witness : ∃ g' k', xEventGroupWaitBits (λ s, s ← switch s; set_13 s) 5 true true 9 (demo_group, demo_kernel) = Some (13, (g', k'))
  ∧ kinv k' ∧ g'.(uxEventBits) = 8.
Proof.
  assert (H := event_wait_delivers all_of_5 9 100 demo_group demo_kernel demo_kinv). cbv zeta in H.
  destruct H as (k1 & E1 & Hk1 & _ & _ & Hset & _);
    [vm_compute; reflexivity|vm_compute; reflexivity|vm_compute; reflexivity|apply demo_events|vm_compute; discriminate|done|done|].
  assert (Esw : switch (demo_group, k1) = Some demo_waiting) by exact (wait_and_switch_eq all_of_5 _ _ E1 Hk1 (demo_group, demo_kernel)). clear E1.
  assert (R1 : option_map (λ s, k_value (xEventListItem 100) s.2) (set_bits 13 demo_waiting) = Some 2181038093) by (vm_compute; reflexivity).
  assert (R2 : option_map (λ s, (s.2.(pxCurrentTCB), k_value (xEventListItem 100) s.2, s.1.(uxEventBits))) (set_13 demo_waiting) = Some (Some 100, 2181038093, 8)) by (vm_compute; reflexivity).
  assert (W : waits_for all_of_5 demo_waiting.1 100 demo_waiting.2) by (split; vm_compute; reflexivity).
  assert (F : eg_self demo_waiting.1 = 5000 ∧ uxEventBits demo_waiting.1 = 0 ∧ uxSchedulerSuspended demo_waiting.2 = 0) by (split_and!; vm_compute; reflexivity).
  assert (Hw := demo_waiting_kinv). generalize dependent demo_waiting. intros [g2 k2] Esw R1 R2 W (F1 & F2 & F3) [Hk2 Hsoft2]. cbn [fst snd] in *.
  destruct (Hset g2 k2 13 F1 Hk2 Hsoft2 F3 W) as (g3 & k3 & E3 & Hk3 & D); [by rewrite F2|]. rewrite F2 in D. change (Z.lor 0 13) with 13 in D.
  destruct (sv_isr_spec _ (kinv_yield k3 (proj1 Hk3) (λ H, pr_runnable _ (proj2 Hk3) (or_intror H)))) as (k4 & E4 & Hk4 & _). destruct (set_13_results _ _ _ _ E3 E4 R1 R2) as (E5 & Ht4 & V4 & B3).
  destruct (decide (condition all_of_5 13)) as [_|Dn]; [|by destruct Dn; apply condition_test].
  destruct D as (_ & _ & D). destruct (D (λ s, s ← switch s; set_13 s) g3 k4) as (k5 & E6 & Hk5); [rewrite Esw; exact E5|done|done|done|].
  exists g3, k5. split; [exact E6|]. by split.
Defined.

Lemma event_rendezvous_witness : ∃ r g' k', sync_enter 1 3 9 (demo_group, demo_kernel) = Some (r, (g', k')) ∧ kinv k' ∧ r = Blocks.
Proof.
  destruct (event_rendezvous 1 3 9 100 demo_group demo_kernel demo_kinv) as (r & g' & k' & E & Hk & _ & _ & R & _).
  - vm_compute; reflexivity.
  - vm_compute; reflexivity.
  - vm_compute; reflexivity.
  - apply demo_events.
  - vm_compute; discriminate.
  - vm_compute; split; [reflexivity|discriminate].
  - split; [discriminate|reflexivity].
  - exists r, g', k'. exact (conj E (conj Hk R)).
Defined.
