(* ===== verification/FrTimer.v ===== *)
(** FrTimer: software timers, FreeRTOS/Source/timers.c.

    The timers and the two lists of active timers belong to the timer task; other
    tasks and interrupts reach it through a queue of commands, the queue of
    FrQueue with messages of 12 bytes.  [callback] is the function of the
    application that a timer calls; [calls] records the calls.  One round of the
    timer task is one call of each definition; the wait in its middle goes through
    the scheduler.  xTimerPendFunctionCall is configured out. *)

From stdpp Require Import functions sorting.
From S2P Require Import Prelude FrList FrSeq FrKernel FrTasks FrQueue.

Definition tmrCOMMAND_START_DONT_TRACE : Z := 0.
Definition tmrCOMMAND_START : Z := 1.
Definition tmrCOMMAND_RESET : Z := 2.
Definition tmrCOMMAND_STOP : Z := 3.
Definition tmrCOMMAND_CHANGE_PERIOD : Z := 4.
Definition tmrCOMMAND_DELETE : Z := 5.
Definition tmrFIRST_FROM_ISR_COMMAND : Z := 6.
Definition tmrCOMMAND_START_FROM_ISR : Z := 6.
Definition tmrCOMMAND_RESET_FROM_ISR : Z := 7.
Definition tmrCOMMAND_STOP_FROM_ISR : Z := 8.
Definition tmrCOMMAND_CHANGE_PERIOD_FROM_ISR : Z := 9.
Definition tmrNO_DELAY : Z := 0.
Definition configTIMER_QUEUE_LENGTH : Z := 10.

Record Timer_t := {
  pcTimerName : list Z;
  xTimerPeriodInTicks : Z;
  uxAutoReload : bool;
  pvTimerID : Z;
}.

Definition set_period (v : Z) (x : Timer_t) : Timer_t := {|
  pcTimerName := x.(pcTimerName); xTimerPeriodInTicks := v; uxAutoReload := x.(uxAutoReload); pvTimerID := x.(pvTimerID) |}.
Definition set_id (v : Z) (x : Timer_t) : Timer_t := {|
  pcTimerName := x.(pcTimerName); xTimerPeriodInTicks := x.(xTimerPeriodInTicks); uxAutoReload := x.(uxAutoReload);
  pvTimerID := v |}.

Inductive tlid := xActiveTimerList1 | xActiveTimerList2.
#[export] Instance tlid_eq_dec : EqDecision tlid.
Proof. solve_decision. Defined.

(** The static variables of timers.c, the timers, and the kernel.  A timer is
    named by its address; its list item is the item of that address. *)
Record tstate := {
  timers : gmap Z Timer_t;
  tlists : store Z tlid;
  pxCurrentTimerList : tlid;
  pxOverflowTimerList : tlid;
  xTimerQueue : option Queue_t;
  xLastTime : Z;
  kern : kernel;
  calls : list Z;
}.

Definition eta_tstate (s : tstate) : tstate := {|
  timers := s.(timers); tlists := s.(tlists); pxCurrentTimerList := s.(pxCurrentTimerList);
  pxOverflowTimerList := s.(pxOverflowTimerList); xTimerQueue := s.(xTimerQueue); xLastTime := s.(xLastTime);
  kern := s.(kern); calls := s.(calls) |}.

Definition set_timers : gmap Z Timer_t → tstate → tstate := ltac:(field_setter eta_tstate timers).
Definition set_tlists : store Z tlid → tstate → tstate := ltac:(field_setter eta_tstate tlists).
Definition set_pxCurrentTimerList : tlid → tstate → tstate := ltac:(field_setter eta_tstate pxCurrentTimerList).
Definition set_pxOverflowTimerList : tlid → tstate → tstate := ltac:(field_setter eta_tstate pxOverflowTimerList).
Definition set_xTimerQueue : option Queue_t → tstate → tstate := ltac:(field_setter eta_tstate xTimerQueue).
Definition set_xLastTime : Z → tstate → tstate := ltac:(field_setter eta_tstate xLastTime).
Definition set_kern : kernel → tstate → tstate := ltac:(field_setter eta_tstate kern).
Definition set_calls : list Z → tstate → tstate := ltac:(field_setter eta_tstate calls).

(** DaemonTaskMessage_t: xMessageID, xMessageValue and pxTimer. *)
Record message := { xMessageID : Z; xMessageValue : Z; pxTimer : Z }.

Definition encode (m : message) : list Z := le32 m.(xMessageID) ++ le32 m.(xMessageValue) ++ le32 m.(pxTimer).
Definition decode (bs : list Z) : message :=
  {| xMessageID := s32 (get32 bs 0); xMessageValue := get32 bs 4; pxTimer := get32 bs 8 |}.

(** ** Creation *)

(** [malloc]: the block for the queue, should it be needed. *)
Definition prvCheckForValidListAndQueue (malloc : option (Z * list Z)) (s : tstate) : option tstate :=
  match s.(xTimerQueue) with
  | None =>
      let s := set_tlists (seq_initialise xActiveTimerList2 (seq_initialise xActiveTimerList1 s.(tlists))) s in
      let s := set_pxOverflowTimerList xActiveTimerList2 (set_pxCurrentTimerList xActiveTimerList1 s) in
      '(q, k) ← xQueueGenericCreate configTIMER_QUEUE_LENGTH 12 malloc s.(kern);
      Some (set_kern k (set_xTimerQueue q s))
  | Some _ => Some s
  end.

Definition prvInitialiseNewTimer (name : list Z) (period : Z) (reload : bool) (id : Z) (t : Z)
    (malloc : option (Z * list Z)) (s : tstate) : option tstate :=
  s ← prvCheckForValidListAndQueue malloc s;
  let x := {| pcTimerName := name; xTimerPeriodInTicks := period; uxAutoReload := reload; pvTimerID := id |} in
  Some (set_tlists (seq_initialise_item t s.(tlists)) (set_timers (<[t := x]> s.(timers)) s)).

Definition xTimerCreate (name : list Z) (period : Z) (reload : bool) (id : Z) (block : option Z)
    (malloc : option (Z * list Z)) (s : tstate) : option (option Z * tstate) :=
  match block with
  | None => Some (None, s)
  | Some t =>
      let s := set_kern (set_blocks ({[t]} ∪ s.(kern).(blocks)) s.(kern)) s in
      s ← prvInitialiseNewTimer name period reload id t malloc s; Some (Some t, s)
  end.

(** ** Commands *)

(** [fuel], [env] and [gaps]: as for xQueueGenericSend.  Also returns whether an
    interrupt woke a task of a higher priority. *)
Definition xTimerGenericCommand (fuel : nat) (env : nat → Queue_t * kernel → option (Queue_t * kernel))
    (gaps : nat → nat → list isr) (xTimer xCommandID xOptionalValue xTicksToWait : Z) (s : tstate)
    : option (Z * bool * tstate) :=
  match s.(xTimerQueue) with
  | Some q =>
      let xMessage := encode {| xMessageID := xCommandID; xMessageValue := xOptionalValue; pxTimer := xTimer |} in
      if xCommandID <? tmrFIRST_FROM_ISR_COMMAND then
        let ticks := match xTaskGetSchedulerState s.(kern) with taskSCHEDULER_RUNNING => xTicksToWait | _ => tmrNO_DELAY end in
        '(r, (q, k)) ← xQueueGenericSend fuel env gaps xMessage ticks queueSEND_TO_BACK None (q, s.(kern));
        Some (r, false, set_kern k (set_xTimerQueue (Some q) s))
      else
        '(r, woken, (q, k)) ← xQueueGenericSendFromISR xMessage queueSEND_TO_BACK (q, s.(kern));
        Some (r, woken, set_kern k (set_xTimerQueue (Some q) s))
  | None => Some (pdFAIL, false, s)
  end.

(** A command that the timer task sends to itself, without waiting. *)
Definition send_command (xTimer xCommandID xOptionalValue : Z) (s : tstate) : option (Z * tstate) :=
  '(r, _, s) ← xTimerGenericCommand 1 (λ _ qk, Some qk) (λ _ _, []) xTimer xCommandID xOptionalValue tmrNO_DELAY s;
  Some (r, s).

(** ** Queries *)

Definition xTimerGetPeriod (t : Z) (s : tstate) : option Z := x ← s.(timers) !! t; Some x.(xTimerPeriodInTicks).
Definition xTimerGetExpiryTime (t : Z) (s : tstate) : Z := s.(tlists).(value) t.
Definition pcTimerGetName (t : Z) (s : tstate) : option (list Z) := x ← s.(timers) !! t; Some x.(pcTimerName).
Definition xTimerIsTimerActive (t : Z) (s : tstate) : bool :=
  match s.(tlists).(container) t with Some _ => true | None => false end.
Definition pvTimerGetTimerID (t : Z) (s : tstate) : option Z := x ← s.(timers) !! t; Some x.(pvTimerID).
Definition vTimerSetTimerID (t id : Z) (s : tstate) : option tstate :=
  x ← s.(timers) !! t; Some (set_timers (<[t := set_id id x]> s.(timers)) s).

(** ** The timer task *)

Section Daemon.
Context (callback : Z → tstate → option tstate).

Definition t_insert (l : tlid) (t : Z) (s : tstate) : option tstate :=
  st ← seq_insert l t s.(tlists); Some (set_tlists st s).
Definition t_remove (t : Z) (s : tstate) : option tstate :=
  '(_, st) ← seq_remove t s.(tlists); Some (set_tlists st s).
Definition t_set_value (t v : Z) (s : tstate) : tstate := set_tlists (seq_set_value t v s.(tlists)) s.

Definition prvInsertTimerInActiveList (t xNextExpiryTime xTimeNow xCommandTime : Z) (s : tstate) : option (bool * tstate) :=
  x ← s.(timers) !! t;
  let s := t_set_value t xNextExpiryTime s in
  if xNextExpiryTime <=? xTimeNow then
    if x.(xTimerPeriodInTicks) <=? u32 (xTimeNow - xCommandTime) then Some (true, s)
    else s ← t_insert s.(pxOverflowTimerList) t s; Some (false, s)
  else if (xTimeNow <? xCommandTime) && (xCommandTime <=? xNextExpiryTime) then Some (true, s)
  else s ← t_insert s.(pxCurrentTimerList) t s; Some (false, s).

(** An auto-reload timer of prvProcessExpiredTimer goes back into a list. *)
Definition reload_expired (t xNextExpireTime xTimeNow : Z) (x : Timer_t) (s : tstate) : option tstate :=
  if x.(uxAutoReload) then
    '(expired, s) ← prvInsertTimerInActiveList t (u32 (xNextExpireTime + x.(xTimerPeriodInTicks))) xTimeNow xNextExpireTime s;
    if expired : bool then '(_, s) ← send_command t tmrCOMMAND_START_DONT_TRACE xNextExpireTime s; Some s
    else Some s
  else Some s.

Definition prvProcessExpiredTimer (xNextExpireTime xTimeNow : Z) (s : tstate) : option tstate :=
  t ← seq_head s.(pxCurrentTimerList) s.(tlists);
  s ← t_remove t s;
  x ← s.(timers) !! t;
  s ← reload_expired t xNextExpireTime xTimeNow x s;
  callback t s.

(** The body of the loop of prvSwitchTimerLists, for the timer at the head. *)
Definition switch_one (t : Z) (s : tstate) : option tstate :=
  let xNextExpireTime := s.(tlists).(value) t in
  s ← t_remove t s;
  s ← callback t s;
  x ← s.(timers) !! t;
  if x.(uxAutoReload) then
    let xReloadTime := u32 (xNextExpireTime + x.(xTimerPeriodInTicks)) in
    if xNextExpireTime <? xReloadTime then
      t_insert s.(pxCurrentTimerList) t (t_set_value t xReloadTime s)
    else '(_, s) ← send_command t tmrCOMMAND_START_DONT_TRACE xNextExpireTime s; Some s
  else Some s.

Fixpoint switch_loop (fuel : nat) (s : tstate) : option tstate :=
  match seq_head s.(pxCurrentTimerList) s.(tlists) with
  | None => Some s
  | Some t =>
      match fuel with
      | O => None
      | S n => s ← switch_one t s; switch_loop n s
      end
  end.

Definition prvSwitchTimerLists (fuel : nat) (s : tstate) : option tstate :=
  s ← switch_loop fuel s;
  let pxTemp := s.(pxCurrentTimerList) in
  let s := set_pxCurrentTimerList s.(pxOverflowTimerList) s in
  Some (set_pxOverflowTimerList pxTemp s).

(** Returns the time and whether the lists were switched. *)
Definition prvSampleTimeNow (fuel : nat) (s : tstate) : option (Z * bool * tstate) :=
  let xTimeNow := xTaskGetTickCount s.(kern) in
  '(switched, s) ← (if xTimeNow <? s.(xLastTime) then s ← prvSwitchTimerLists fuel s; Some (true, s) else Some (false, s));
  Some (xTimeNow, switched, set_xLastTime xTimeNow s).

(** The time and whether the list is empty. *)
Definition prvGetNextExpireTime (s : tstate) : Z * bool :=
  match seq_head s.(pxCurrentTimerList) s.(tlists) with
  | Some t => (s.(tlists).(value) t, false)
  | None => (0, true)
  end.

Definition in_kernel (f : kernel → option (bool * kernel)) (s : tstate) : option (bool * tstate) :=
  '(b, k) ← f s.(kern); Some (b, set_kern k s).

Definition prvProcessTimerOrBlockTask (fuel : nat) (gap : nat → list isr) (xNextExpireTime : Z) (xListWasEmpty : bool)
    (s : tstate) : option tstate :=
  let s := set_kern (vTaskSuspendAll s.(kern)) s in
  '(xTimeNow, xTimerListsWereSwitched, s) ← prvSampleTimeNow fuel s;
  if xTimerListsWereSwitched : bool then '(_, s) ← in_kernel xTaskResumeAll s; Some s
  else if negb xListWasEmpty && (xNextExpireTime <=? xTimeNow) then
    '(_, s) ← in_kernel xTaskResumeAll s;
    prvProcessExpiredTimer xNextExpireTime xTimeNow s
  else
    let xListWasEmpty := if xListWasEmpty then seq_length s.(pxOverflowTimerList) s.(tlists) =? 0 else xListWasEmpty in
    q ← s.(xTimerQueue);
    '(q, k) ← vQueueWaitForMessageRestricted gap (u32 (xNextExpireTime - xTimeNow)) xListWasEmpty (q, s.(kern));
    let s := set_kern k (set_xTimerQueue (Some q) s) in
    '(b, s) ← in_kernel xTaskResumeAll s;
    Some (set_kern (yield_unless b s.(kern)) s).

(** The command in [m], for the timer [x]. *)
Definition process_command (m : message) (xTimeNow : Z) (s : tstate) : option tstate :=
  let t := m.(pxTimer) in
  x ← s.(timers) !! t;
  let c := m.(xMessageID) in
  if (c =? tmrCOMMAND_START) || (c =? tmrCOMMAND_START_FROM_ISR) || (c =? tmrCOMMAND_RESET)
     || (c =? tmrCOMMAND_RESET_FROM_ISR) || (c =? tmrCOMMAND_START_DONT_TRACE) then
    let xNextExpiryTime := u32 (m.(xMessageValue) + x.(xTimerPeriodInTicks)) in
    '(expired, s) ← prvInsertTimerInActiveList t xNextExpiryTime xTimeNow m.(xMessageValue) s;
    if expired : bool then
      s ← callback t s;
      x ← s.(timers) !! t;
      if x.(uxAutoReload) then
        '(_, s) ← send_command t tmrCOMMAND_START_DONT_TRACE (u32 (m.(xMessageValue) + x.(xTimerPeriodInTicks))) s; Some s
      else Some s
    else Some s
  else if (c =? tmrCOMMAND_STOP) || (c =? tmrCOMMAND_STOP_FROM_ISR) then Some s
  else if (c =? tmrCOMMAND_CHANGE_PERIOD) || (c =? tmrCOMMAND_CHANGE_PERIOD_FROM_ISR) then
    let s := set_timers (<[t := set_period m.(xMessageValue) x]> s.(timers)) s in
    '(_, s) ← prvInsertTimerInActiveList t (u32 (xTimeNow + m.(xMessageValue))) xTimeNow xTimeNow s; Some s
  else if c =? tmrCOMMAND_DELETE then
    Some (set_kern (set_blocks (s.(kern).(blocks) ∖ {[t]}) s.(kern)) (set_timers (delete t s.(timers)) s))
  else Some s.

(** One message of the loop of prvProcessReceivedCommands. *)
Definition handle_message (fuel : nat) (m : message) (s : tstate) : option tstate :=
  if 0 <=? m.(xMessageID) then
    _ ← s.(timers) !! m.(pxTimer);
    s ← (if xTimerIsTimerActive m.(pxTimer) s then t_remove m.(pxTimer) s else Some s);
    '(xTimeNow, _, s) ← prvSampleTimeNow fuel s;
    process_command m xTimeNow s
  else Some s.

Fixpoint prvProcessReceivedCommands (rounds fuel : nat) (s : tstate) : option tstate :=
  match rounds with
  | O => None
  | S n =>
      q ← s.(xTimerQueue);
      '(r, (q, k)) ← receive_try tmrNO_DELAY false None (q, s.(kern));
      let s := set_kern k (set_xTimerQueue (Some q) s) in
      match r with
      | Return (v, bs) =>
          if v =? pdFAIL then Some s
          else s ← handle_message fuel (decode bs) s; prvProcessReceivedCommands n fuel s
      | GoOn _ _ => None
      end
  end.

(** One round of the loop of prvTimerTask.  [env]: the rest of the system while
    the task waits. *)
Definition prvTimerTask (rounds fuel : nat) (gap : nat → list isr) (env : tstate → option tstate) (s : tstate) : option tstate :=
  let '(xNextExpireTime, xListWasEmpty) := prvGetNextExpireTime s in
  s ← prvProcessTimerOrBlockTask fuel gap xNextExpireTime xListWasEmpty s;
  s ← env s;
  prvProcessReceivedCommands rounds fuel s.

End Daemon.
