(* ===== verification/FrTimerSpec.v ===== *)
(** FrTimerSpec: the deadlines of the software timers.

    The tick count overflows; an absolute time does not.  [deadline L s t] is the
    absolute time at which the timer [t] expires, read off the two lists of active
    timers and the absolute time [L] of the last sample of the tick count. *)

From stdpp Require Import functions sorting.
From S2P Require Import Prelude FrList FrSeq FrKernel FrTasks FrTasksInv FrTasksMove FrTasksTick FrTasksSched FrTasksPrio FrTasksSteps FrQueue FrQueueData FrQueueSched FrQueueTheorems FrTimer.

(** ** Absolute times *)

Definition epoch (x : Z) : Z := x / 2 ^ 32.

Lemma epoch_split x : x = 2 ^ 32 * epoch x + u32 x ∧ 0 ≤ u32 x < 2 ^ 32.
Proof. unfold epoch, u32. split; [apply Z.div_mod; lia|apply Z.mod_pos_bound; lia]. Qed.

Lemma u32_diff x y : y ≤ x < y + 2 ^ 32 → u32 (u32 x - u32 y) = x - y.
Proof.
  intros H. unfold u32. rewrite <- Zminus_mod. apply Z.mod_small. lia.
Qed.

Lemma u32_plus x y : u32 (u32 x + y) = u32 (x + y).
Proof. unfold u32. by rewrite Zplus_mod_idemp_l. Qed.

Ltac epochs := repeat match goal with
  | |- context [u32 ?x] => lazymatch goal with H : x = 2 ^ 32 * epoch x + u32 x ∧ _ |- _ => fail | _ => pose proof (epoch_split x) end
  | H0 : context [u32 ?x] |- _ => lazymatch goal with H : x = 2 ^ 32 * epoch x + u32 x ∧ _ |- _ => fail | _ => pose proof (epoch_split x) end
  | |- context [epoch ?x] => lazymatch goal with H : x = 2 ^ 32 * epoch x + u32 x ∧ _ |- _ => fail | _ => pose proof (epoch_split x) end
  end.

(** The three answers of prvInsertTimerInActiveList. *)
Lemma expiry_cases C N p : C ≤ N < C + 2 ^ 32 → 0 < p < 2 ^ 32 →
  if u32 (C + p) <=? u32 N then
    if p <=? u32 (u32 N - u32 C) then C + p ≤ N
    else N < C + p ∧ epoch (C + p) = epoch N + 1 ∧ u32 (C + p) < u32 N
  else if (u32 N <? u32 C) && (u32 C <=? u32 (C + p)) then C + p ≤ N
  else N < C + p ∧ epoch (C + p) = epoch N.
Proof.
  intros H1 H2. rewrite u32_diff by done.
  destruct (epoch_split C), (epoch_split N), (epoch_split (C + p)).
  destruct (Z.leb_spec (u32 (C + p)) (u32 N)); [destruct (Z.leb_spec p (N - C)); lia|].
  destruct (Z.ltb_spec (u32 N) (u32 C)), (Z.leb_spec (u32 C) (u32 (C + p))); cbn [andb]; lia.
Qed.

(** ** Deadlines *)

Definition deadline (L : Z) (s : tstate) (t : Z) : option Z :=
  l ← s.(tlists).(container) t;
  Some (2 ^ 32 * (epoch L + if decide (l = s.(pxCurrentTimerList)) then 0 else 1) + s.(tlists).(value) t).

(** The lists of timers, after a sample at the absolute time [L]. *)
Record lists_ok (L : Z) (s : tstate) : Prop := {
  lo_store : store_ok s.(tlists);
  lo_sorted : ∀ l, sorted_list s.(tlists) l;
  lo_apart : s.(pxCurrentTimerList) ≠ s.(pxOverflowTimerList);
  lo_value : ∀ t l, s.(tlists).(container) t = Some l → 0 ≤ s.(tlists).(value) t < 2 ^ 32;
  lo_overflow : ∀ t, s.(tlists).(container) t = Some s.(pxOverflowTimerList) → s.(tlists).(value) t < u32 L;
  lo_last : s.(xLastTime) = u32 L;
  lo_timer : ∀ t l, s.(tlists).(container) t = Some l → is_Some (s.(timers) !! t);
  lo_period : ∀ t x, s.(timers) !! t = Some x → 0 < x.(xTimerPeriodInTicks) < 2 ^ 32;
}.

Lemma other_list s l : s.(pxCurrentTimerList) ≠ s.(pxOverflowTimerList) → l ≠ s.(pxCurrentTimerList) →
  l = s.(pxOverflowTimerList).
Proof. destruct (pxCurrentTimerList s), (pxOverflowTimerList s), l; congruence. Qed.

(** The command queue and the kernel behind it. *)
Definition queue_ready (s : tstate) : Prop :=
  ∃ q, s.(xTimerQueue) = Some q ∧ queue_ok q ∧ is_mutex q = false ∧ q.(uxItemSize) = 12 ∧ kinv s.(kern).

Definition daemon_ok (L : Z) (s : tstate) : Prop := lists_ok L s ∧ queue_ready s.

(** The commands that wait. *)
Definition commands (s : tstate) : list (list Z) := match s.(xTimerQueue) with Some q => contents q | None => [] end.
Definition queue_full (s : tstate) : Prop :=
  match s.(xTimerQueue) with Some q => q.(uxMessagesWaiting) = q.(uxLength) | None => False end.

(** ** Putting timers into lists *)

Lemma sorted_put (s : store Z tlid) l x v : store_ok s → s.(container) x = None → (∀ l', sorted_list s l') →
  ∀ l', StronglySorted (λ a b, (<[x := v]> s.(value)) a ≤ (<[x := v]> s.(value)) b)
    ((<[l := put_sorted (<[x := v]> s.(value)) x (s.(elems) l)]> s.(elems)) l').
Proof.
  intros Hok Hc Hs l'.
  assert (Hx : ∀ l'', StronglySorted (λ a b, (<[x := v]> s.(value)) a ≤ (<[x := v]> s.(value)) b) (s.(elems) l'')).
  { intros l''. eapply sorted_ext; [|apply Hs]. intros y Hy. unfold insert, fn_insert. case_decide; [|done].
    subst. apply (ok_in _ Hok) in Hy. congruence. }
  unfold insert at 3, fn_insert. case_decide; [|apply Hx]. subst. by apply put_sorted_sorted.
Qed.

Definition same_but_lists (s s' : tstate) : Prop := s' = set_tlists s'.(tlists) s.

Lemma t_insert_spec L l t v s : lists_ok L s → s.(tlists).(container) t = None → is_Some (s.(timers) !! t) →
  l = s.(pxCurrentTimerList) ∨ l = s.(pxOverflowTimerList) ∧ v < u32 L → 0 ≤ v < 2 ^ 32 →
  ∃ s', t_insert l t (t_set_value t v s) = Some s' ∧ lists_ok L s' ∧ same_but_lists s s'
    ∧ s'.(tlists).(container) = <[t := Some l]> s.(tlists).(container) ∧ s'.(tlists).(value) = <[t := v]> s.(tlists).(value)
    ∧ s'.(tlists).(elems) l ≡ₚ t :: s.(tlists).(elems) l ∧ (∀ l', l' ≠ l → s'.(tlists).(elems) l' = s.(tlists).(elems) l').
Proof.
  intros [H1 H2 H3 H4 H5 H6 H7 H8] Hc Ht Hl Hv. unfold t_insert, t_set_value, seq_insert. cbn. rewrite Hc. cbn.
  eexists. split; [reflexivity|]. split_and!; try done; cbn.
  - split; cbn; try done.
    + apply (seq_insert_ok l t (seq_set_value t v s.(tlists))); [by apply seq_set_value_ok|]. unfold seq_insert. cbn. by rewrite Hc.
    + intros l'. apply sorted_put; done.
    + intros u lu. unfold insert, fn_insert. case_decide; [done|apply H4].
    + intros u. unfold insert, fn_insert. case_decide; [|apply H5].
      intros [= E]. destruct Hl as [?|[_ ?]]; congruence.
    + intros u lu. unfold insert, fn_insert. case_decide; subst; [done|apply H7].
  - unfold insert at 1, fn_insert. rewrite decide_True by done. apply put_sorted_perm.
  - intros l' Hl'. unfold insert, fn_insert. by rewrite decide_False.
Qed.

Lemma t_remove_spec L l t s : lists_ok L s → s.(tlists).(container) t = Some l →
  ∃ s', t_remove t s = Some s' ∧ lists_ok L s' ∧ same_but_lists s s'
    ∧ s'.(tlists).(container) = <[t := None]> s.(tlists).(container) ∧ s'.(tlists).(value) = s.(tlists).(value)
    ∧ s'.(tlists).(elems) l = take_out t (s.(tlists).(elems) l) ∧ (∀ l', l' ≠ l → s'.(tlists).(elems) l' = s.(tlists).(elems) l').
Proof.
  intros [H1 H2 H3 H4 H5 H6 H7 H8] Hc. unfold t_remove. destruct (seq_remove t (tlists s)) as [[n st]|] eqn:E;
    [|unfold seq_remove in E; by rewrite Hc in E].
  cbn. assert (Hst := seq_remove_ok _ _ _ _ H1 E). unfold seq_remove in E. rewrite Hc in E. cbn in E.
  injection E as <- <-. eexists. split; [reflexivity|]. split_and!; try done; cbn.
  - split; cbn; try done.
    + intros l'. change (StronglySorted (by_value s.(tlists)) ((<[l := take_out t (s.(tlists).(elems) l)]> s.(tlists).(elems)) l')).
      clear Hst. unfold insert, fn_insert. case_decide; [subst; apply take_out_sorted|]; apply H2.
    + intros u lu. clear Hst. unfold insert, fn_insert. case_decide; [done|apply H4].
    + intros u. clear Hst. unfold insert, fn_insert. case_decide; [done|apply H5].
    + intros u lu. clear Hst. unfold insert, fn_insert. case_decide; [done|apply H7].
  - unfold insert, fn_insert. by rewrite decide_True.
  - intros l' Hl'. unfold insert, fn_insert. by rewrite decide_False.
Qed.

(** Only the deadline of [t] changes. *)
Definition redated (L : Z) (t : Z) (d : option Z) (s s' : tstate) : Prop :=
  ∀ u, deadline L s' u = if decide (u = t) then d else deadline L s u.

Lemma insert_redated L l t v s s' : same_but_lists s s' →
  s'.(tlists).(container) = <[t := Some l]> s.(tlists).(container) → s'.(tlists).(value) = <[t := v]> s.(tlists).(value) →
  redated L t (Some (2 ^ 32 * (epoch L + if decide (l = s.(pxCurrentTimerList)) then 0 else 1) + v)) s s'.
Proof.
  intros Hb Hc Hv u. unfold deadline. rewrite Hc, Hv, Hb. cbn -[Z.mul Z.pow]. unfold insert, fn_insert.
  destruct (decide (u = t)) as [->|D]; [by rewrite !(decide_True (P := t = t))|by rewrite !(decide_False (P := t = u))].
Qed.

Lemma remove_redated L t s s' : same_but_lists s s' →
  s'.(tlists).(container) = <[t := None]> s.(tlists).(container) → s'.(tlists).(value) = s.(tlists).(value) →
  redated L t None s s'.
Proof.
  intros Hb Hc Hv u. unfold deadline. rewrite Hc, Hv, Hb. cbn -[Z.mul Z.pow]. unfold insert, fn_insert.
  destruct (decide (u = t)) as [->|D]; [by rewrite !(decide_True (P := t = t))|by rewrite !(decide_False (P := t = u))].
Qed.

(** A command of the absolute time [C] for a timer of the period [p]: expired by
    now, or active with the deadline [C + p]. *)
Lemma insert_timer_spec C N t x s : lists_ok N s → s.(tlists).(container) t = None → s.(timers) !! t = Some x →
  C ≤ N < C + 2 ^ 32 → let X := C + x.(xTimerPeriodInTicks) in
  ∃ s', prvInsertTimerInActiveList t (u32 X) (u32 N) (u32 C) s = Some (X <=? N, s') ∧ lists_ok N s' ∧ same_but_lists s s'
    ∧ redated N t (if X <=? N then None else Some X) s s'
    ∧ (X ≤ N → s'.(tlists).(container) = s.(tlists).(container) ∧ s'.(tlists).(elems) = s.(tlists).(elems)).
Proof.
  intros Hok Hc Hx HN X. assert (Hp := lo_period _ _ Hok _ _ Hx). assert (Hcases := expiry_cases C N _ HN Hp). fold X in Hcases.
  destruct (epoch_split X) as [EX RX], (epoch_split N) as [EN RN].
  unfold prvInsertTimerInActiveList. rewrite Hx. cbn [mbind option_bind].
  change (timers (t_set_value t (u32 X) s)) with (timers s).
  change (pxOverflowTimerList (t_set_value t (u32 X) s)) with (pxOverflowTimerList s).
  change (pxCurrentTimerList (t_set_value t (u32 X) s)) with (pxCurrentTimerList s).
  assert (Hnow : X ≤ N → ∃ s', Some (true, t_set_value t (u32 X) s) = Some (X <=? N, s') ∧ lists_ok N s' ∧ same_but_lists s s'
    ∧ redated N t (if X <=? N then None else Some X) s s'
    ∧ (X ≤ N → s'.(tlists).(container) = s.(tlists).(container) ∧ s'.(tlists).(elems) = s.(tlists).(elems))).
  { intros H. rewrite (proj2 (Z.leb_le X N) H). eexists. split; [reflexivity|]. split; [|split; [done|split]].
    - destruct Hok as [H1 H2 H3 H4 H5 H6 H7 H8].
      assert (Hne : ∀ u l, s.(tlists).(container) u = Some l → (<[t := u32 X]> s.(tlists).(value)) u = s.(tlists).(value) u).
      { intros u l Hu. unfold insert, fn_insert. case_decide; congruence. }
      split; cbn; try done.
      + by apply seq_set_value_ok.
      + intros l. eapply sorted_ext; [|apply H2]. intros y Hy. apply (Hne _ l). by apply (ok_in _ H1).
      + intros u l Hu. rewrite (Hne u l Hu). by apply (H4 u l).
      + intros u Hu. rewrite (Hne u _ Hu). by apply H5.
    - intros u. unfold deadline. cbn -[Z.mul Z.pow]. unfold insert, fn_insert. destruct (decide (u = t)) as [->|D]; [by rewrite Hc|].
      by rewrite (decide_False (P := t = u)).
    - done. }
  assert (Hlater : ∀ l, N < X → l = s.(pxCurrentTimerList) ∧ epoch X = epoch N
      ∨ l = s.(pxOverflowTimerList) ∧ epoch X = epoch N + 1 ∧ u32 X < u32 N →
    ∃ s', (s0 ← t_insert l t (t_set_value t (u32 X) s); Some (false, s0)) = Some (X <=? N, s') ∧ lists_ok N s' ∧ same_but_lists s s'
    ∧ redated N t (if X <=? N then None else Some X) s s'
    ∧ (X ≤ N → s'.(tlists).(container) = s.(tlists).(container) ∧ s'.(tlists).(elems) = s.(tlists).(elems))).
  { intros l H Hl. rewrite (proj2 (Z.leb_gt X N) H).
    destruct (t_insert_spec N l t (u32 X) s Hok Hc ltac:(by eexists)) as (s' & E & Hok' & Hb & Hc' & Hv' & _); [|done|].
    { destruct Hl as [[? _]|(? & _ & ?)]; [by left|by right]. }
    rewrite E. cbn [mbind option_bind]. exists s'. split_and!; [done..| |lia].
    assert (R := insert_redated N l t (u32 X) s s' Hb Hc' Hv'). intros u. rewrite R. destruct (decide (u = t)); [|done]. f_equal.
    destruct Hl as [[-> ?]|(-> & ? & ?)]; [rewrite decide_True by done; lia|].
    rewrite decide_False by (symmetry; apply (lo_apart _ _ Hok)). lia. }
  destruct (u32 X <=? u32 N); [|destruct (_ && _)].
  - destruct (_ <=? u32 _); [by apply Hnow|]. apply Hlater; [lia|right; split; [done|lia]].
  - by apply Hnow.
  - apply Hlater; [lia|left; split; [done|lia]].
Qed.

(** ** Commands *)

Lemma get32_skip x l i : 4 ≤ i → get32 (le32 x ++ l) i = get32 l (i - 4).
Proof.
  intros. unfold get32, le32. rewrite <- (assoc_L (++)), !get16_skip by lia.
  by replace (i - 2 - 2) with (i - 4) by lia; replace (i + 2 - 2 - 2) with (i - 4 + 2) by lia.
Qed.

Lemma le32_mod x : le32 x = le32 (u32 x).
Proof.
  destruct (epoch_split x) as [E _]. rewrite E at 1. generalize (epoch x) (u32 x). intros e r. unfold le32, le16, u8.
  replace (2 ^ 32 * e + r) with (r + e * 2 ^ 24 * 256) by lia. rewrite Z_mod_plus_full, !Z_div_plus_full by lia.
  replace (e * 2 ^ 24) with (e * 2 ^ 16 * 2 ^ 8) by lia. rewrite Z_mod_plus_full.
  replace (e * 2 ^ 16 * 2 ^ 8 * 256) with (e * 2 ^ 16 * 65536) by lia. rewrite Z_div_plus_full by lia.
  replace (e * 2 ^ 16) with (e * 2 ^ 8 * 256) by lia. rewrite Z_mod_plus_full, Z_div_plus_full by lia.
  change (2 ^ 8) with 256. by rewrite Z_mod_plus_full.
Qed.

Lemma get32_le32_mod x l : get32 (le32 x ++ l) 0 = u32 x.
Proof. rewrite le32_mod. apply get32_le32. apply epoch_split. Qed.

Lemma message_roundtrip m : - 2 ^ 31 ≤ m.(xMessageID) < 2 ^ 31 → 0 ≤ m.(xMessageValue) < 2 ^ 32 → 0 ≤ m.(pxTimer) < 2 ^ 32 →
  decode (encode m) = m.
Proof.
  intros H1 H2 H3. unfold decode, encode. destruct m as [a b c]. cbn [xMessageID xMessageValue pxTimer] in *.
  rewrite (get32_skip _ _ 4), (get32_skip _ _ 8), (get32_skip _ _ (8 - 4)) by lia. change (4 - 4) with 0. change (8 - 4 - 4) with 0.
  rewrite <- (app_nil_r (le32 c)). rewrite !get32_le32_mod. f_equal; [|by apply u32_small..].
  unfold s32, u32. rewrite Zplus_mod_idemp_l. rewrite Z.mod_small; lia.
Qed.

(** What waking a task does not touch. *)
Definition kstill (k k' : kernel) : Prop :=
  k'.(uxSchedulerSuspended) = k.(uxSchedulerSuspended) ∧ k'.(xTickCount) = k.(xTickCount)
  ∧ k'.(xSchedulerRunning) = k.(xSchedulerRunning) ∧ k'.(pxCurrentTCB) = k.(pxCurrentTCB).

#[export] Instance kstill_preorder : PreOrder kstill.
Proof. split; [by intros k|]. intros k1 k2 k3 (?&?&?&?) (?&?&?&?). split_and!; congruence. Qed.

Lemma remove_still l k b k' : xTaskRemoveFromEventList l k = Some (b, k') → kstill k k'.
Proof.
  unfold xTaskRemoveFromEventList, prvAddTaskToReadyList, taskRECORD_READY_PRIORITY, note_woken, k_remove, k_insert_end.
  intros H. destruct (head_owner l k) as [t|]; [|done]. cbn [mbind option_bind] in H.
  destruct (seq_remove _ _) as [[n s]|]; [|done]. cbn [mbind option_bind] in H. destruct (_ =? 0).
  - destruct (seq_remove _ _) as [[n2 s2]|]; [|done]. cbn [mbind option_bind] in H.
    destruct (tcb t _) as [c|]; [|done]. cbn [mbind option_bind] in H.
    destruct (seq_insert_end _ _ _) as [s3|]; [|done]. cbn [mbind option_bind] in H.
    destruct (tcb t _) as [c'|]; [|done]. cbn [mbind option_bind] in H.
    destruct (current_priority _) as [p|]; [|done]. cbn [mbind option_bind] in H.
    destruct (_ <? _), (_ <? _); by injection H as <- <-.
  - destruct (seq_insert_end _ _ _) as [s3|]; [|done]. cbn [mbind option_bind] in H.
    destruct (tcb t _) as [c'|]; [|done]. cbn [mbind option_bind] in H.
    destruct (current_priority _) as [p|]; [|done]. cbn [mbind option_bind] in H.
    destruct (_ <? _); by injection H as <- <-.
Qed.

Lemma wake_still l k b k' : wake_first l k = Some (b, k') → kstill k (yield_when b k').
Proof.
  unfold wake_first. destruct (is_empty l k); [by intros [= <- <-]|]. intros H%remove_still.
  etrans; [exact H|]. by destruct b.
Qed.
