(* ===== verification/FrTimerDaemon.v ===== *)
(** FrTimerDaemon: what the timer task does to the deadlines. *)

From stdpp Require Import functions sorting.
From S2P Require Import Prelude FrList FrSeq FrKernel FrTasks FrTasksInv FrTasksMove FrTasksTick FrTasksSched FrTasksPrio FrTasksSteps FrQueue FrQueueData FrQueueSched FrQueueTheorems FrTimer FrTimerSpec.

(** ** Callbacks *)

Definition shape (x : Timer_t) : Z * bool := (x.(xTimerPeriodInTicks), x.(uxAutoReload)).

(** What commands and callbacks leave as it is: they only add to the queue. *)
Record tkept (s s' : tstate) : Prop := {
  tk_lists : s'.(tlists) = s.(tlists);
  tk_current : s'.(pxCurrentTimerList) = s.(pxCurrentTimerList);
  tk_overflow : s'.(pxOverflowTimerList) = s.(pxOverflowTimerList);
  tk_last : s'.(xLastTime) = s.(xLastTime);
  tk_timers : ∀ t, shape <$> s'.(timers) !! t = shape <$> s.(timers) !! t;
  tk_suspended : s'.(kern).(uxSchedulerSuspended) = s.(kern).(uxSchedulerSuspended);
  tk_commands : ∃ more, commands s' = commands s ++ more;
  tk_full : queue_full s → queue_full s';
}.

#[export] Instance tkept_preorder : PreOrder tkept.
Proof.
  split.
  - intros s. split; try done. exists []. by rewrite app_nil_r.
  - intros s1 s2 s3 H1 H2. split; try (destruct H1, H2; congruence).
    + destruct (tk_commands _ _ H1) as [m1 E1], (tk_commands _ _ H2) as [m2 E2]. exists (m1 ++ m2). by rewrite E2, E1, (assoc_L (++)).
    + intros. by apply H2, H1.
Qed.

Lemma kept_timer s s' t x : tkept s s' → s'.(timers) !! t = Some x → ∃ y, s.(timers) !! t = Some y ∧ shape y = shape x.
Proof. intros K E. assert (H := tk_timers _ _ K t). rewrite E in H. destruct (timers s !! t) as [y|]; [|done]. exists y. cbn in H. split; congruence. Qed.

Lemma kept_timer' s s' t x : tkept s s' → s.(timers) !! t = Some x → ∃ y, s'.(timers) !! t = Some y ∧ shape y = shape x.
Proof. intros K E. assert (H := tk_timers _ _ K t). rewrite E in H. destruct (timers s' !! t) as [y|]; [|done]. exists y. cbn in H. split; congruence. Qed.

Lemma kept_lists_ok L s s' : tkept s s' → lists_ok L s → lists_ok L s'.
Proof.
  intros K [H1 H2 H3 H4 H5 H6 H7 H8]. split; rewrite ?(tk_lists _ _ K), ?(tk_current _ _ K), ?(tk_overflow _ _ K), ?(tk_last _ _ K); try done.
  - intros t l Hc. destruct (H7 t l Hc) as [x Hx]. destruct (kept_timer' _ _ _ _ K Hx) as (y & Hy & _). by eexists.
  - intros t x Hx. destruct (kept_timer _ _ _ _ K Hx) as (y & Hy & E). injection E as <- _. by apply (H8 t).
Qed.

Lemma kept_deadline L s s' t : tkept s s' → deadline L s' t = deadline L s t.
Proof. intros K. unfold deadline. by rewrite (tk_lists _ _ K), (tk_current _ _ K). Qed.

(** The function of the application: it may send commands, but the timers and
    their lists belong to the timer task. *)
Class TimerCallback (callback : Z → tstate → option tstate) : Prop :=
  callback_spec : ∀ t s, queue_ready s → is_Some (s.(timers) !! t) →
    ∃ s', callback t s = Some s' ∧ queue_ready s' ∧ tkept s s' ∧ s'.(calls) = s.(calls) ++ [t].

Lemma length_encode m : zlength (encode m) = 12.
Proof. done. Qed.

Lemma send_command_spec t c v s : queue_ready s → c < tmrFIRST_FROM_ISR_COMMAND →
  ∃ r s', send_command t c v s = Some (r, s') ∧ queue_ready s' ∧ tkept s s' ∧ s'.(calls) = s.(calls) ∧ s'.(timers) = s.(timers)
    ∧ kstill s.(kern) s'.(kern)
    ∧ (queue_full s ∧ r = pdFAIL ∧ s' = s
       ∨ r = pdPASS ∧ commands s' = commands s ++ [encode {| xMessageID := c; xMessageValue := v; pxTimer := t |}]).
Proof.
  intros (q & Eq & Hq & Hmu & Hs & Hk) Hc. unfold send_command, xTimerGenericCommand. rewrite Eq, (proj2 (Z.ltb_lt _ _) Hc).
  set (ticks := match xTaskGetSchedulerState _ with taskSCHEDULER_RUNNING => tmrNO_DELAY | _ => _ end).
  assert (ticks = 0) as -> by (unfold ticks; by destruct (xTaskGetSchedulerState _)). cbn [xQueueGenericSend].
  set (item := encode _). destruct (qo_count _ Hq). unfold commands, queue_full. rewrite Eq.
  destruct (decide (uxMessagesWaiting q = uxLength q)) as [E|E].
  - rewrite (send_try_full item 0 None q s.(kern) E) by done. change (0 =? 0) with true. cbn -[item encode].
    assert (Es : set_kern s.(kern) (set_xTimerQueue (Some q) s) = s) by (destruct s; cbn in *; by subst). rewrite Es.
    exists pdFAIL, s. split_and!; try done; [by exists q|by left].
  - destruct (send_try_room item 0 queueSEND_TO_BACK None q s.(kern) Hk Hq Hmu) as (q' & k' & Et & (Hq' & S & C) & Hk' & _);
      [left; split; [lia|by left]|by rewrite Hs|].
    rewrite Et. cbn -[item encode]. eexists pdPASS, _. split; [reflexivity|].
    assert (Ht : take (Z.to_nat (uxItemSize q)) item = item) by (rewrite Hs; reflexivity). rewrite Ht in C.
    assert (St : kstill s.(kern) k').
    { unfold send_try in Et. rewrite (proj2 (Z.ltb_lt _ _)) in Et by lia. cbn [orb] in Et.
      destruct (prvCopyDataToQueue item queueSEND_TO_BACK (q, kern s)) as [[y [q1 k1]]|] eqn:Ec; [|done]. cbn [mbind option_bind] in Et.
      destruct (copy_to q s.(kern) item queueSEND_TO_BACK Hq Hmu) as (q2 & Ec2 & _); [left; split; [lia|by left]|by rewrite Hs|].
      rewrite Ec in Ec2. injection Ec2 as -> -> ->. destruct (is_empty _ _); [by injection Et as _ <-|].
      destruct (xTaskRemoveFromEventList _ _) as [[b k2]|] eqn:Er; [|done]. cbn [mbind option_bind] in Et. injection Et as _ <-.
      etrans; [by eapply remove_still|]. by destruct b. }
    split_and!; try done.
    + exists q'. split_and!; try done; [unfold is_mutex in *; by rewrite (sq_head _ _ S)|by rewrite (sq_size _ _ S)].
    + split; try done; [apply St|unfold commands; cbn -[item encode]; rewrite Eq, C; by eexists|].
      unfold queue_full. cbn. rewrite Eq. lia.
    + right. split; [done|]. cbn -[item encode]. by rewrite C.
Qed.

(** A callback that only notes the call, and one that also stops its timer. *)
Definition note_call (t : Z) (s : tstate) : option tstate := Some (set_calls (s.(calls) ++ [t]) s).
Definition stop_itself (t : Z) (s : tstate) : option tstate :=
  '(_, s) ← send_command t tmrCOMMAND_STOP 0 s; note_call t s.

Lemma note_kept t s : tkept s (set_calls (s.(calls) ++ [t]) s).
Proof. split; try done. exists []. by rewrite app_nil_r. Qed.

#[export] Instance note_call_ok : TimerCallback note_call.
Proof. intros t s Hq _. eexists. split; [reflexivity|]. split_and!; [done|apply note_kept|done]. Qed.

#[export] Instance stop_itself_ok : TimerCallback stop_itself.
Proof.
  intros t s Hq _. unfold stop_itself.
  destruct (send_command_spec t tmrCOMMAND_STOP 0 s Hq) as (r & s1 & -> & Hq1 & K1 & C1 & _); [done|]. cbn [mbind option_bind].
  eexists. split; [reflexivity|]. split_and!; [done| |cbn; by rewrite C1]. etrans; [exact K1|apply note_kept].
Qed.

(** ** The overflow of the tick count *)

(** The times of this epoch at which a timer with the next time [v] expires. *)
Definition occurrences (x : Timer_t) (v : Z) : list Z :=
  if x.(uxAutoReload) then (λ i, v + i * x.(xTimerPeriodInTicks)) <$> seqZ 0 ((2 ^ 32 - 1 - v) / x.(xTimerPeriodInTicks) + 1)
  else [v].

Lemma occurrences_unfold x v : 0 < x.(xTimerPeriodInTicks) → 0 ≤ v < 2 ^ 32 →
  occurrences x v = v :: (if x.(uxAutoReload) && (v + x.(xTimerPeriodInTicks) <? 2 ^ 32)
                          then occurrences x (v + x.(xTimerPeriodInTicks)) else []).
Proof.
  intros Hp Hv. unfold occurrences. destruct (uxAutoReload x); cbn [andb]; [|done].
  set (p := xTimerPeriodInTicks x) in *. set (n := (2 ^ 32 - 1 - v) / p).
  assert (Hn : 0 ≤ n) by (apply Z.div_pos; lia). rewrite seqZ_shift by done. cbn [fmap list_fmap]. f_equal; [lia|].
  rewrite <- list_fmap_compose. destruct (Z.ltb_spec (v + p) (2 ^ 32)) as [H|H].
  - replace ((2 ^ 32 - 1 - (v + p)) / p + 1) with n.
    + apply list_fmap_ext. intros i y _. cbn. lia.
    + unfold n. replace (2 ^ 32 - 1 - v) with (2 ^ 32 - 1 - (v + p) + 1 * p) by lia. rewrite Z.div_add by lia. lia.
  - replace n with 0; [done|]. symmetry. apply Z.div_small. lia.
Qed.

Lemma occurrences_ge x v w : 0 < x.(xTimerPeriodInTicks) → w ∈ occurrences x v → v ≤ w.
Proof.
  intros Hp. unfold occurrences. destruct (uxAutoReload x); [|intros ->%list_elem_of_singleton; lia].
  intros (i & -> & [? _]%elem_of_seqZ)%list_elem_of_fmap. nia.
Qed.

(** The calls that the timers of the current list are due before the overflow. *)
Definition due_of (s : tstate) (t : Z) : list (Z * Z) :=
  match s.(timers) !! t with Some x => (λ w, (t, w)) <$> occurrences x (s.(tlists).(value) t) | None => [] end.
Definition due (s : tstate) : list (Z * Z) := s.(tlists).(elems) s.(pxCurrentTimerList) ≫= due_of s.

Lemma due_ext (f g : Z → list (Z * Z)) xs : (∀ t, t ∈ xs → f t = g t) → xs ≫= f = xs ≫= g.
Proof.
  intros H. induction xs as [|x xs IH]; [done|]. cbn. rewrite (H x) by set_solver. f_equal. apply IH. set_solver.
Qed.

Lemma due_of_shape s s' t : shape <$> s'.(timers) !! t = shape <$> s.(timers) !! t →
  s'.(tlists).(value) t = s.(tlists).(value) t → due_of s' t = due_of s t.
Proof.
  intros H1 H2. unfold due_of. rewrite H2. destruct (timers s' !! t) as [y|], (timers s !! t) as [x|]; try done.
  cbn in H1. injection H1 as Ep Er. unfold occurrences. by rewrite Ep, Er.
Qed.

(** What the loop over the current list leaves as it is. *)
Record switched (s s' : tstate) : Prop := {
  sw_current : s'.(pxCurrentTimerList) = s.(pxCurrentTimerList);
  sw_overflow : s'.(pxOverflowTimerList) = s.(pxOverflowTimerList);
  sw_timers : ∀ t, shape <$> s'.(timers) !! t = shape <$> s.(timers) !! t;
  sw_suspended : s'.(kern).(uxSchedulerSuspended) = s.(kern).(uxSchedulerSuspended);
  sw_commands : ∃ more, commands s' = commands s ++ more;
  sw_full : queue_full s → queue_full s';
  sw_later t : s.(tlists).(container) t = Some s.(pxOverflowTimerList) →
    s'.(tlists).(container) t = Some s.(pxOverflowTimerList) ∧ s'.(tlists).(value) t = s.(tlists).(value) t;
  sw_only t l : s'.(tlists).(container) t = Some l → s.(tlists).(container) t = Some l;
}.

#[export] Instance switched_preorder : PreOrder switched.
Proof.
  split.
  - intros s. split; try done. exists []. by rewrite app_nil_r.
  - intros s1 s2 s3 H1 H2. split; try (destruct H1, H2; congruence).
    + destruct (sw_commands _ _ H1) as [m1 E1], (sw_commands _ _ H2) as [m2 E2]. exists (m1 ++ m2). by rewrite E2, E1, (assoc_L (++)).
    + intros. by apply H2, H1.
    + intros t Ht. destruct (sw_later _ _ H1 t Ht) as [A1 B1]. rewrite <- (sw_overflow _ _ H1) in A1.
      destruct (sw_later _ _ H2 t A1) as [A2 B2]. rewrite (sw_overflow _ _ H1) in A2. split; congruence.
    + intros t l Ht. by apply H1, H2.
Qed.

Lemma kept_switched s s' : tkept s s' → switched s s'.
Proof.
  intros K. split; rewrite ?(tk_lists _ _ K); try (by destruct K); done.
Qed.

Lemma take_out_id (t : Z) xs : t ∉ xs → take_out t xs = xs.
Proof.
  intros H. unfold take_out. induction xs as [|y xs IH]; [done|]. rewrite filter_cons, decide_True by set_solver. f_equal. apply IH. set_solver.
Qed.

Lemma take_out_head (t : Z) xs : t ∉ xs → take_out t (t :: xs) = xs.
Proof. intros H. unfold take_out. rewrite filter_cons, decide_False by (intros []; done). by apply take_out_id. Qed.

(** The command that a reloaded timer needs is in the queue, or the queue is full. *)
Definition restarted (s : tstate) (t v : Z) : Prop :=
  queue_full s ∨ encode {| xMessageID := tmrCOMMAND_START_DONT_TRACE; xMessageValue := v; pxTimer := t |} ∈ commands s.

Lemma restarted_switched s s' t v : switched s s' → restarted s t v → restarted s' t v.
Proof.
  intros K [H|H]; [left; by apply K|right]. destruct (sw_commands _ _ K) as [m ->]. set_solver.
Qed.

Lemma but_lists_fields s s' : same_but_lists s s' →
  s'.(timers) = s.(timers) ∧ s'.(kern) = s.(kern) ∧ s'.(xTimerQueue) = s.(xTimerQueue) ∧ s'.(calls) = s.(calls)
  ∧ s'.(pxCurrentTimerList) = s.(pxCurrentTimerList) ∧ s'.(pxOverflowTimerList) = s.(pxOverflowTimerList)
  ∧ s'.(xLastTime) = s.(xLastTime).
Proof. intros ->. done. Qed.

Lemma but_lists_queue s s' : same_but_lists s s' →
  commands s' = commands s ∧ (queue_full s' ↔ queue_full s) ∧ (queue_ready s → queue_ready s').
Proof. intros ->. done. Qed.

(** Moving a timer within or out of the current list. *)
Lemma but_lists_switched s s' t : same_but_lists s s' → s.(tlists).(container) t ≠ Some s.(pxOverflowTimerList) →
  (∀ u, u ≠ t → s'.(tlists).(container) u = s.(tlists).(container) u ∧ s'.(tlists).(value) u = s.(tlists).(value) u) →
  (∀ l, s'.(tlists).(container) t = Some l → s.(tlists).(container) t = Some l) → switched s s'.
Proof.
  intros Hb Ht Hu Hl. destruct (but_lists_fields s s' Hb) as (B1&B2&B3&B4&B5&B6&_), (but_lists_queue s s' Hb) as (Q1 & Q2 & _).
  split; rewrite ?B1, ?B2, ?B5, ?B6, ?Q1; try done; [exists []; by rewrite app_nil_r|by rewrite Q2| |].
  - intros u E. assert (Hne : u ≠ t) by congruence. destruct (Hu u Hne) as [-> ->]. done.
  - intros u l. destruct (decide (u = t)) as [->|D]; [apply Hl|]. by rewrite (proj1 (Hu u D)).
Qed.

Section Switch.
Context (callback : Z → tstate → option tstate) `{!TimerCallback callback}.

(** The timer at the head of the current list leaves it and its callback runs. *)
Lemma take_and_call L t rest x s : lists_ok L s → queue_ready s → s.(tlists).(elems) s.(pxCurrentTimerList) = t :: rest →
  s.(timers) !! t = Some x →
  ∃ s1 s2 y, t_remove t s = Some s1 ∧ callback t s1 = Some s2 ∧ lists_ok L s2 ∧ queue_ready s2 ∧ switched s s2
    ∧ s2.(calls) = s.(calls) ++ [t] ∧ s2.(timers) !! t = Some y ∧ shape y = shape x ∧ s2.(tlists).(container) t = None
    ∧ s2.(tlists).(elems) s2.(pxCurrentTimerList) = rest
    ∧ ∀ u, u ≠ t → s2.(tlists).(container) u = s.(tlists).(container) u ∧ s2.(tlists).(value) u = s.(tlists).(value) u.
Proof.
  intros Hok Hq He Hx. assert (Hst := lo_store _ _ Hok).
  assert (Hc : s.(tlists).(container) t = Some s.(pxCurrentTimerList)) by (apply (ok_in _ Hst); rewrite He; set_solver).
  assert (Hnd := ok_nodup _ Hst (pxCurrentTimerList s)). rewrite He in Hnd. apply NoDup_cons in Hnd as [Hnt Hnd].
  destruct (t_remove_spec L _ t s Hok Hc) as (s1 & E1 & Hok1 & Hb1 & Hc1 & Hv1 & He1 & Ho1).
  rewrite He, take_out_head in He1 by done. destruct (but_lists_fields s s1 Hb1) as (B1&_&_&B4&B5&_&_).
  destruct (callback_spec t s1) as (s2 & E2 & Hq2 & K2 & C2); [by apply (but_lists_queue s s1 Hb1)|rewrite B1; by eexists|].
  destruct (kept_timer' s1 s2 t x K2) as (y & Hy & Esh); [by rewrite B1|].
  assert (S1 : switched s s1).
  { apply (but_lists_switched s s1 t Hb1); [rewrite Hc; injection 1; apply (lo_apart _ _ Hok)| |]; rewrite ?Hc1, ?Hv1; unfold insert, fn_insert.
    - intros u Hu. by rewrite decide_False.
    - by rewrite decide_True. }
  exists s1, s2, y. split_and!; try done.
  - by apply (kept_lists_ok L s1 s2).
  - etrans; [exact S1|by apply kept_switched].
  - by rewrite C2, B4.
  - rewrite (tk_lists _ _ K2), Hc1. unfold insert, fn_insert. by rewrite decide_True.
  - by rewrite (tk_lists _ _ K2), (tk_current _ _ K2), B5.
  - intros u Hu. rewrite (tk_lists _ _ K2), Hc1, Hv1. unfold insert, fn_insert. by rewrite decide_False.
Qed.

Lemma switch_one_spec L t rest s : lists_ok L s → queue_ready s → s.(tlists).(elems) s.(pxCurrentTimerList) = t :: rest →
  ∃ s', switch_one callback t s = Some s' ∧ lists_ok L s' ∧ queue_ready s' ∧ switched s s' ∧ s'.(calls) = s.(calls) ++ [t]
    ∧ due s ≡ₚ (t, s.(tlists).(value) t) :: due s'
    ∧ (∀ x, s.(timers) !! t = Some x → x.(uxAutoReload) = true → 2 ^ 32 ≤ s.(tlists).(value) t + x.(xTimerPeriodInTicks) →
       restarted s' t (s.(tlists).(value) t))
    ∧ (∀ x, s.(timers) !! t = Some x → x.(uxAutoReload) = true → s.(tlists).(value) t + x.(xTimerPeriodInTicks) < 2 ^ 32 →
       s'.(tlists).(container) t = Some s.(pxCurrentTimerList) ∧ s'.(tlists).(value) t = s.(tlists).(value) t + x.(xTimerPeriodInTicks))
    ∧ (∀ u, u ≠ t → s'.(tlists).(container) u = s.(tlists).(container) u ∧ s'.(tlists).(value) u = s.(tlists).(value) u).
Proof.
  intros Hok Hq He. assert (Hst := lo_store _ _ Hok).
  assert (Hc : s.(tlists).(container) t = Some s.(pxCurrentTimerList)) by (apply (ok_in _ Hst); rewrite He; set_solver).
  assert (Hnt := ok_nodup _ Hst (pxCurrentTimerList s)). rewrite He in Hnt. apply NoDup_cons in Hnt as [Hnt _].
  destruct (lo_timer _ _ Hok _ _ Hc) as [x Hx]. assert (Hp := lo_period _ _ Hok _ _ Hx). assert (Hv := lo_value _ _ Hok _ _ Hc).
  destruct (take_and_call L t rest x s Hok Hq He Hx) as (s1 & s2 & y & E1 & E2 & Hok2 & Hq2 & S2 & Hcalls & Hy & Esh & Hc2 & He2 & Hoth2).
  assert (Hcur := sw_current _ _ S2). set (v := value (tlists s) t) in *. unfold switch_one. fold v.
  rewrite E1. cbn [mbind option_bind]. rewrite E2. cbn [mbind option_bind]. rewrite Hy. cbn [mbind option_bind]. injection Esh as Ep Er. rewrite Ep, Er.
  assert (Hrest : ∀ s3, (∀ u, shape <$> s3.(timers) !! u = shape <$> s.(timers) !! u) → (∀ u, u ≠ t → s3.(tlists).(value) u = s.(tlists).(value) u) →
    rest ≫= due_of s3 = rest ≫= due_of s).
  { intros s3 Hsh Hval. apply due_ext. intros u Hu. apply due_of_shape; [apply Hsh|]. apply Hval. by intros ->. }
  assert (Hdue : due s = ((λ w, (t, w)) <$> occurrences x v) ++ (rest ≫= due_of s)).
  { unfold due. rewrite He. cbn. f_equal. unfold due_of. by rewrite Hx. }
  rewrite (occurrences_unfold x v) in Hdue by lia.
  assert (Hx' : ∀ z, s.(timers) !! t = Some z → z = x) by (intros; congruence).
  destruct (uxAutoReload x) eqn:Ea; cbn [andb] in Hdue.
  2: { exists s2. split_and!; try done; [|intros z ->%Hx'; congruence..].
       rewrite Hdue. cbn. f_equiv. unfold due. rewrite He2, (Hrest s2); [done|apply S2|]. intros u Hu. by apply Hoth2. }
  set (p := xTimerPeriodInTicks x) in *.
  destruct (Z.ltb_spec (v + p) (2 ^ 32)) as [Hlt|Hge].
  - rewrite u32_small by lia. rewrite (proj2 (Z.ltb_lt _ _)) by lia.
    destruct (t_insert_spec L s2.(pxCurrentTimerList) t (v + p) s2 Hok2 Hc2 ltac:(by eexists)) as (s3 & -> & Hok3 & Hb3 & Hc3 & Hv3 & He3 & _);
      [by left|lia|].
    assert (Hval3 : s3.(tlists).(value) t = v + p) by (rewrite Hv3; unfold insert, fn_insert; by rewrite decide_True).
    assert (Hoth3 : ∀ u, u ≠ t → s3.(tlists).(container) u = s.(tlists).(container) u ∧ s3.(tlists).(value) u = s.(tlists).(value) u).
    { intros u Hu. rewrite Hc3, Hv3. unfold insert, fn_insert. rewrite !(decide_False (P := t = u)) by done. by apply Hoth2. }
    assert (Hcon3 : s3.(tlists).(container) t = Some s.(pxCurrentTimerList)).
    { rewrite Hc3, Hcur. unfold insert, fn_insert. by rewrite decide_True. }
    destruct (but_lists_fields s2 s3 Hb3) as (Bt&Bk&Bq&Bc&Bcur&Bovf&_).
    exists s3. split_and!; try done.
    + by apply (but_lists_queue s2 s3 Hb3).
    + split; rewrite ?Bcur, ?Bovf, ?Bk, ?Bt, ?(proj1 (but_lists_queue s2 s3 Hb3)); try apply S2.
      * intros Hf. by apply (but_lists_queue s2 s3 Hb3), S2.
      * intros u Hu. destruct (decide (u = t)) as [->|D]; [destruct (lo_apart _ _ Hok); congruence|]. destruct (Hoth3 u D) as [-> ->]. done.
      * intros u l. destruct (decide (u = t)) as [->|D]; [congruence|]. by rewrite (proj1 (Hoth3 u D)).
    + congruence.
    + rewrite Hdue. cbn. f_equiv. unfold due. rewrite Bcur.
      assert (P : elems (tlists s3) (pxCurrentTimerList s2) ≡ₚ t :: rest) by (rewrite He3, He2; done).
      rewrite P. cbn. rewrite (Hrest s3); [|rewrite Bt; apply S2|intros u Hu; by apply Hoth3].
      apply Permutation_app_tail. unfold due_of. rewrite Bt, Hy, Hval3. unfold occurrences. rewrite Ep, Er, Ea. done.
    + intros z ->%Hx'. lia.
    + intros z ->%Hx'. done.
  - replace (u32 (v + p)) with (v + p - 2 ^ 32) by (unfold u32; rewrite <- (Z_mod_plus_full _ (-1)); symmetry; apply Z.mod_small; lia).
    rewrite (proj2 (Z.ltb_ge _ _)) by lia.
    destruct (send_command_spec t tmrCOMMAND_START_DONT_TRACE v s2 Hq2) as (r & s3 & -> & Hq3 & K3 & C3 & T3 & _ & Hr); [done|].
    cbn [mbind option_bind]. exists s3. split_and!; try done.
    + by apply (kept_lists_ok L s2).
    + etrans; [exact S2|by apply kept_switched].
    + congruence.
    + rewrite Hdue. cbn. f_equiv. unfold due. rewrite (tk_lists _ _ K3), (tk_current _ _ K3), He2.
      rewrite (Hrest s3); [done|rewrite T3; apply S2|]. intros u Hu. rewrite (tk_lists _ _ K3). by apply Hoth2.
    + intros _ _ _ _. destruct Hr as [(Hf & _ & ->)|[_ Hr]]; [by left|right]. rewrite Hr. set_solver.
    + intros z ->%Hx'. lia.
    + rewrite (tk_lists _ _ K3). done.
Qed.

Lemma due_ge L t rest s e : lists_ok L s → s.(tlists).(elems) s.(pxCurrentTimerList) = t :: rest → e ∈ due s →
  s.(tlists).(value) t ≤ e.2.
Proof.
  intros Hok He Hin. unfold due in Hin. apply list_elem_of_bind in Hin as (u & Hin & Hu). unfold due_of in Hin.
  destruct (timers s !! u) as [x|] eqn:Hx; [|by apply not_elem_of_nil in Hin].
  apply list_elem_of_fmap in Hin as (w & -> & Hw). apply occurrences_ge in Hw; [|by eapply (lo_period _ _ Hok)]. cbn.
  assert (Hs := lo_sorted _ _ Hok (pxCurrentTimerList s)). unfold sorted_list in Hs. rewrite He in Hs, Hu.
  apply StronglySorted_inv in Hs as [_ Hs]. apply elem_of_cons in Hu as [->|Hu]; [done|].
  rewrite Forall_forall in Hs. specialize (Hs u Hu). unfold by_value in Hs. lia.
Qed.

Definition by_time : relation (Z * Z) := λ a b, a.2 ≤ b.2.

(** Every reloaded timer of the current list goes on after its last expiry. *)
Definition all_restarted (s s' : tstate) : Prop := ∀ t x w, s.(tlists).(container) t = Some s.(pxCurrentTimerList) →
  s.(timers) !! t = Some x → x.(uxAutoReload) = true → last (occurrences x (s.(tlists).(value) t)) = Some w → restarted s' t w.

Lemma switch_loop_spec L n : ∀ s, lists_ok L s → queue_ready s → (length (due s) ≤ n)%nat →
  ∃ s' trace, switch_loop callback n s = Some s' ∧ lists_ok L s' ∧ queue_ready s' ∧ switched s s'
    ∧ s'.(tlists).(elems) s'.(pxCurrentTimerList) = [] ∧ s'.(calls) = s.(calls) ++ trace.*1
    ∧ trace ≡ₚ due s ∧ StronglySorted by_time trace ∧ all_restarted s s'.
Proof.
  induction n as [|n IH]; intros s Hok Hq Hn; cbn [switch_loop]; unfold seq_head;
    (destruct (elems (tlists s) (pxCurrentTimerList s)) as [|t rest] eqn:He; cbn [head];
    [exists s, []; split_and!; try done; [by rewrite app_nil_r|unfold due; by rewrite He|constructor|];
       intros t x w Hc; apply (ok_in _ (lo_store _ _ Hok)) in Hc; rewrite He in Hc; by apply not_elem_of_nil in Hc|]);
    destruct (switch_one_spec L t rest s Hok Hq He) as (s1 & E1 & Hok1 & Hq1 & S1 & C1 & P1 & R1 & I1 & O1).
  { apply Permutation_length in P1. cbn in P1. lia. }
  rewrite E1. cbn [mbind option_bind].
  destruct (IH s1 Hok1 Hq1) as (s' & tr & E & Hok' & Hq' & S' & He' & C' & P' & T' & R').
  { apply Permutation_length in P1. cbn in P1. lia. }
  exists s', ((t, s.(tlists).(value) t) :: tr). split_and!; try done.
  - by etrans.
  - rewrite C', C1. cbn. by rewrite <- (assoc_L (++)).
  - by rewrite P', P1.
  - constructor; [done|]. apply Forall_forall. intros e Hin. unfold by_time. cbn. apply (due_ge L t rest s e Hok He).
    rewrite P1. apply elem_of_cons. right. by rewrite <- P'.
  - intros u x w Hc Hx Ha Hw. assert (Hp := lo_period _ _ Hok _ _ Hx). assert (Hv := lo_value _ _ Hok _ _ Hc).
    assert (Hsh := sw_timers _ _ S1 u). rewrite Hx in Hsh. destruct (timers s1 !! u) as [y|] eqn:Hy; [|done].
    cbn in Hsh. injection Hsh as Ep Er.
    assert (Hocc : ∀ v, occurrences y v = occurrences x v) by (intros; unfold occurrences; by rewrite Ep, Er).
    destruct (decide (u = t)) as [->|D].
    + rewrite occurrences_unfold in Hw by lia. rewrite Ha in Hw. cbn [andb] in Hw.
      destruct (Z.ltb_spec (s.(tlists).(value) t + xTimerPeriodInTicks x) (2 ^ 32)) as [Hlt|Hge].
      * destruct (I1 x Hx Ha Hlt) as [Hc1 Hv1]. apply (R' t y); [by rewrite (sw_current _ _ S1)|done|congruence|].
        rewrite Hocc, Hv1. rewrite (occurrences_unfold x (_ + _)) in Hw |- * by lia. exact Hw.
      * cbn in Hw. injection Hw as <-. apply (restarted_switched s1); [done|]. by apply (R1 x).
    + destruct (O1 u D) as [Hc1 Hv1]. apply (R' u y); [rewrite Hc1, Hc; by rewrite (sw_current _ _ S1)|done|congruence|].
      by rewrite Hocc, Hv1.
Qed.

(** ** Sampling the time *)

(** The deadlines before this epoch are served. *)
Definition surviving (N : Z) (d : option Z) : option Z :=
  D ← d; if D <? 2 ^ 32 * epoch N then None else Some D.

(** What a sample at [N] after one at [L] leaves and does. *)
Record sampled (L N : Z) (s s' : tstate) (trace : list (Z * Z)) : Prop := {
  sa_deadline t : deadline N s' t = surviving N (deadline L s t);
  sa_timers t : shape <$> s'.(timers) !! t = shape <$> s.(timers) !! t;
  sa_calls : s'.(calls) = s.(calls) ++ trace.*1;
  sa_due : trace ≡ₚ if decide (epoch N = epoch L) then [] else due s;
  sa_order : StronglySorted by_time trace;
  sa_restarted : epoch N ≠ epoch L → all_restarted s s';
  sa_suspended : s'.(kern).(uxSchedulerSuspended) = s.(kern).(uxSchedulerSuspended);
  sa_commands : ∃ more, commands s' = commands s ++ more;
  sa_same : epoch N = epoch L → s' = set_xLastTime (u32 N) s;
}.

Lemma sample_same L N s : daemon_ok L s → L ≤ N → epoch N = epoch L →
  daemon_ok N (set_xLastTime (u32 N) s) ∧ sampled L N s (set_xLastTime (u32 N) s) [].
Proof.
  intros [[H1 H2 H3 H4 H5 H6 H7 H8] Hq] HN HE. destruct (epoch_split L), (epoch_split N). split.
  - split; [|done]. split; cbn; try done. intros t Ht. specialize (H5 t Ht). lia.
  - split; try done; cbn [calls set_xLastTime fmap list_fmap].
    + intros t. unfold deadline, surviving. cbn -[Z.mul Z.pow]. destruct (container (tlists s) t) as [l|] eqn:Hc; [|done]. cbn [mbind option_bind].
      specialize (H4 t l Hc). destruct (decide (l = pxCurrentTimerList s));
        (rewrite (proj2 (Z.ltb_ge _ _)) by lia); f_equal; lia.
    + by rewrite app_nil_r.
    + by rewrite decide_True.
    + constructor.
    + exists []. by rewrite app_nil_r.
Qed.

Lemma sample_spec fuel L N s : daemon_ok L s → L ≤ N < L + 2 ^ 32 → s.(kern).(xTickCount) = u32 N →
  (epoch N ≠ epoch L → (length (due s) ≤ fuel)%nat) →
  ∃ s' trace, prvSampleTimeNow callback fuel s = Some (u32 N, bool_decide (epoch N ≠ epoch L), s') ∧ daemon_ok N s'
    ∧ sampled L N s s' trace.
Proof.
  intros Hd HN Ht Hf. unfold prvSampleTimeNow, xTaskGetTickCount. rewrite Ht, (lo_last _ _ (proj1 Hd)).
  destruct (epoch_split L) as [EL RL], (epoch_split N) as [EN RN]. destruct (decide (epoch N = epoch L)) as [E|E].
  { rewrite (proj2 (Z.ltb_ge _ _)) by lia. rewrite bool_decide_false by (intros ?; done). cbn [mbind option_bind].
    destruct (sample_same L N s Hd ltac:(lia) E). by exists (set_xLastTime (u32 N) s), []. }
  rewrite (proj2 (Z.ltb_lt _ _)) by lia. rewrite bool_decide_true by done. destruct Hd as [Hok Hq].
  unfold prvSwitchTimerLists. destruct (switch_loop_spec L fuel s Hok Hq (Hf E)) as (s1 & tr & -> & Hok1 & Hq1 & S1 & He1 & C1 & P1 & T1 & R1).
  cbn [mbind option_bind]. eexists _, tr. split; [reflexivity|].
  assert (Hno : ∀ t, container (tlists s1) t ≠ Some (pxCurrentTimerList s1)).
  { intros t Hc. apply (ok_in _ (lo_store _ _ Hok1)) in Hc. rewrite He1 in Hc. by apply not_elem_of_nil in Hc. }
  split.
  - split; [|done]. destruct Hok1 as [H1 H2 H3 H4 H5 H6 H7 H8]. split; cbn; try done. intros t Hc. by destruct (Hno t).
  - split; try done; [|apply S1|by rewrite decide_False|apply S1|apply S1].
    intros t. unfold deadline, surviving. cbn -[Z.mul Z.pow]. destruct (container (tlists s1) t) as [l|] eqn:Hc; cbn [mbind option_bind].
    + assert (Hl : l = pxOverflowTimerList s1) by (apply other_list; [apply (lo_apart _ _ Hok1)|intros ->; by destruct (Hno t)]).
      assert (Hcs := sw_only _ _ S1 t l Hc). rewrite Hcs. cbn [mbind option_bind]. assert (Hl' : l = pxOverflowTimerList s) by (rewrite Hl; apply S1).
      assert (Hcs' := Hcs). rewrite Hl' in Hcs'. rewrite (proj2 (sw_later _ _ S1 t Hcs')). assert (Hv := lo_value _ _ Hok t l Hcs).
      rewrite decide_True by done. rewrite decide_False by (rewrite Hl'; symmetry; apply (lo_apart _ _ Hok)).
      rewrite (proj2 (Z.ltb_ge _ _)) by lia. f_equal. lia.
    + destruct (container (tlists s) t) as [l|] eqn:Hcs; [|done]. cbn [mbind option_bind]. assert (Hv := lo_value _ _ Hok t l Hcs).
      destruct (decide (l = pxCurrentTimerList s)) as [D|D].
      * by rewrite (proj2 (Z.ltb_lt _ _)) by lia.
      * apply other_list in D; [|apply (lo_apart _ _ Hok)]. subst. destruct (sw_later _ _ S1 t Hcs). congruence.
Qed.

End Switch.
