(* ===== verification/FrTimerCommands.v ===== *)
(** FrTimerCommands: what a command does to the deadlines. *)

From stdpp Require Import functions sorting.
From S2P Require Import Prelude FrList FrSeq FrKernel FrTasks FrTasksInv FrTasksMove FrTasksTick FrTasksSched FrTasksPrio FrTasksSteps FrQueue FrQueueData FrQueueSched FrQueueTheorems FrTimer FrTimerSpec FrTimerDaemon.

(** ** The commands, on deadlines *)

Definition is_start (c : Z) : bool :=
  (c =? tmrCOMMAND_START) || (c =? tmrCOMMAND_START_FROM_ISR) || (c =? tmrCOMMAND_RESET)
  || (c =? tmrCOMMAND_RESET_FROM_ISR) || (c =? tmrCOMMAND_START_DONT_TRACE).
Definition is_stop (c : Z) : bool := (c =? tmrCOMMAND_STOP) || (c =? tmrCOMMAND_STOP_FROM_ISR).
Definition is_change (c : Z) : bool := (c =? tmrCOMMAND_CHANGE_PERIOD) || (c =? tmrCOMMAND_CHANGE_PERIOD_FROM_ISR).

(** The deadline of a timer of the period [p] after the command [c] with the value [v] that was
    given at [C] and is handled at [N], and whether the timer expires at once. *)
Definition command_effect (C N p c v : Z) : option Z * bool :=
  let X := C + p in
  if is_start c then if X <=? N then (None, true) else (Some X, false)
  else if is_change c then (Some (N + v), false) else (None, false).

(** Its period and whether it reloads; [None]: it is gone. *)
Definition command_shape (sh : Z * bool) (c v : Z) : option (Z * bool) :=
  if is_change c then Some (v, sh.2) else if c =? tmrCOMMAND_DELETE then None else Some sh.

Lemma start_not_change c : is_start c = true → is_change c = false ∧ (c =? tmrCOMMAND_DELETE) = false.
Proof. unfold is_start, is_change. rewrite !orb_true_iff, !Z.eqb_eq. naive_solver. Qed.

(** What a command leaves behind, apart from the deadlines. *)
Record command_handled (t : Z) (fires : bool) (sh : option (Z * bool)) (next : Z) (s s' : tstate) : Prop := {
  ha_calls : s'.(calls) = s.(calls) ++ (if fires then [t] else []);
  ha_timers u : shape <$> s'.(timers) !! u = if decide (u = t) then sh else shape <$> s.(timers) !! u;
  ha_restarted x : s.(timers) !! t = Some x → x.(uxAutoReload) = true → fires = true → restarted s' t next;
  ha_commands : ∃ more, commands s' = commands s ++ more;
  ha_quiet : fires = false → kstill s.(kern) s'.(kern) ∧ commands s' = commands s;
}.

Section Commands.
Context (callback : Z → tstate → option tstate) `{!TimerCallback callback}.

Lemma same_lists_handled t x nx s s' : same_but_lists s s' → s.(timers) !! t = Some x → command_handled t false (Some (shape x)) nx s s'.
Proof.
  intros Hb Hx. destruct (but_lists_fields s s' Hb) as (B1&B2&_&B4&_). split; rewrite ?B1, ?B2, ?B4, ?(proj1 (but_lists_queue s s' Hb)); try done.
  - by rewrite app_nil_r.
  - intros u. case_decide; [by subst; rewrite Hx|done].
  - exists []. by rewrite app_nil_r.
Qed.

Lemma timer_start_spec C N m x s : daemon_ok N s → s.(tlists).(container) m.(pxTimer) = None → s.(timers) !! m.(pxTimer) = Some x →
  C ≤ N < C + 2 ^ 32 → m.(xMessageValue) = u32 C → is_start m.(xMessageID) = true →
  let e := command_effect C N x.(xTimerPeriodInTicks) m.(xMessageID) m.(xMessageValue) in
  ∃ s', process_command callback m (u32 N) s = Some s' ∧ daemon_ok N s' ∧ redated N m.(pxTimer) e.1 s s'
    ∧ command_handled m.(pxTimer) e.2 (command_shape (shape x) m.(xMessageID) m.(xMessageValue)) (u32 (C + x.(xTimerPeriodInTicks))) s s'.
Proof.
  intros [Hok Hq] Hc Hx HC Hv Hid. cbn zeta. unfold process_command, command_effect, command_shape. rewrite Hx. cbn [mbind option_bind]. cbn zeta.
  fold (is_start m.(xMessageID)). destruct (start_not_change _ Hid) as [-> ->]. rewrite Hid, Hv, !u32_plus.
  set (t := pxTimer m) in *.
  destruct (insert_timer_spec C N t x s Hok Hc Hx HC) as (s1 & -> & Hok1 & Hb1 & R1 & _).
  set (X := C + xTimerPeriodInTicks x) in *. cbn [mbind option_bind].
  destruct (but_lists_queue s s1 Hb1) as (Q1 & Q2 & Q3), (but_lists_fields s s1 Hb1) as (B1&_&_&B4&_).
  destruct (X <=? N); cbn [fst snd].
  2: { exists s1. split_and!; try done; [by split; [|apply Q3]|]. by apply same_lists_handled. }
  destruct (callback_spec t s1 (Q3 Hq)) as (s2 & -> & Hq2 & K2 & C2); [rewrite B1; by eexists|]. cbn [mbind option_bind].
  destruct (kept_timer' s1 s2 t x K2) as (y & Hy & Esh); [by rewrite B1|]. rewrite Hy. cbn [mbind option_bind].
  assert (Hsh : ∀ s3, tkept s2 s3 → ∀ u, shape <$> s3.(timers) !! u = if decide (u = t) then Some (shape x) else shape <$> s.(timers) !! u).
  { intros s3 K3 u. rewrite (tk_timers _ _ K3), (tk_timers _ _ K2), B1. case_decide; [by subst; rewrite Hx|done]. }
  assert (Hmore : ∀ s3, tkept s2 s3 → ∃ more, commands s3 = commands s ++ more).
  { intros s3 K3. rewrite <- Q1. apply (tk_commands s1 s3). by etrans. }
  injection Esh as Ep Er. rewrite Er, Ep. destruct (uxAutoReload x) eqn:Ea.
  - destruct (send_command_spec t tmrCOMMAND_START_DONT_TRACE (u32 X) s2 Hq2) as (r & s3 & E3 & Hq3 & K3 & C3 & T3 & _ & Hr); [done|].
    rewrite u32_plus. fold X. rewrite E3. cbn [mbind option_bind]. exists s3. split_and!; try done.
    + split; [|done]. apply (kept_lists_ok N s2); [done|]. by apply (kept_lists_ok N s1).
    + intros u. rewrite (kept_deadline N s2 s3), (kept_deadline N s1 s2) by done. apply R1.
    + split; [by rewrite C3, C2, B4|by apply Hsh| |by apply Hmore|done]. intros _ _ _ _.
      destruct Hr as [(Hf & _ & ->)|[_ Hr]]; [by left|right]. rewrite Hr. set_solver.
  - exists s2. split_and!; try done.
    + split; [|done]. by apply (kept_lists_ok N s1).
    + intros u. rewrite (kept_deadline N s1 s2) by done. apply R1.
    + split; [by rewrite C2, B4|by apply Hsh|intros; congruence|by apply Hmore|done].
Qed.

Lemma idle_redated N t s : s.(tlists).(container) t = None → redated N t None s s.
Proof. intros Hc u. case_decide; [|done]. subst. unfold deadline. by rewrite Hc. Qed.

Lemma timer_change_spec C N m x s : daemon_ok N s → s.(tlists).(container) m.(pxTimer) = None → s.(timers) !! m.(pxTimer) = Some x →
  is_start m.(xMessageID) = false → is_change m.(xMessageID) = true → 0 < m.(xMessageValue) < 2 ^ 32 →
  let e := command_effect C N x.(xTimerPeriodInTicks) m.(xMessageID) m.(xMessageValue) in
  ∃ s', process_command callback m (u32 N) s = Some s' ∧ daemon_ok N s' ∧ redated N m.(pxTimer) e.1 s s'
    ∧ ∀ nx, command_handled m.(pxTimer) e.2 (command_shape (shape x) m.(xMessageID) m.(xMessageValue)) nx s s'.
Proof.
  intros [Hok Hq] Hc Hx Hid Hch Hv. cbn zeta. unfold process_command, command_effect, command_shape. rewrite Hx. cbn [mbind option_bind]. cbn zeta.
  fold (is_start m.(xMessageID)) (is_stop m.(xMessageID)) (is_change m.(xMessageID)). rewrite Hid, Hch. cbn [fst snd].
  assert (is_stop m.(xMessageID) = false) as ->.
  { revert Hch. unfold is_stop, is_change. rewrite !orb_true_iff, !Z.eqb_eq. by intros [-> | ->]. }
  set (t := pxTimer m) in *. set (v := xMessageValue m) in *. set (x' := set_period v x).
  set (s1 := set_timers (<[t := x']> s.(timers)) s).
  assert (Hok1 : lists_ok N s1).
  { destruct Hok as [H1 H2 H3 H4 H5 H6 H7 H8]. split; cbn; try done.
    - intros u l Hu. apply lookup_insert_is_Some'. right. by apply (H7 u l).
    - intros u z. rewrite lookup_insert_Some. intros [[<- <-]|[_ ?]]; [done|by apply (H8 u)]. }
  destruct (insert_timer_spec N N t x' s1 Hok1 Hc) as (s2 & E2 & Hok2 & Hb2 & R2 & _); [by apply lookup_insert_eq|lia|].
  change (xTimerPeriodInTicks x') with v in E2, R2. rewrite u32_plus, E2. cbn [mbind option_bind].
  rewrite (proj2 (Z.leb_gt _ _)) in R2 by lia. exists s2.
  destruct (but_lists_fields s1 s2 Hb2) as (B1&B2&_&B4&_), (but_lists_queue s1 s2 Hb2) as (Q1 & _ & Q3).
  split_and!; try done; [by split; [|apply Q3]|]. intros nx. split; rewrite ?B1, ?B2, ?B4, ?Q1; try done.
  - by rewrite app_nil_r.
  - intros u. cbn. case_decide; [subst; by rewrite lookup_insert_eq|by rewrite lookup_insert_ne].
  - exists []. by rewrite app_nil_r.
Qed.

Lemma timer_delete_spec N m x s : daemon_ok N s → s.(tlists).(container) m.(pxTimer) = None → s.(timers) !! m.(pxTimer) = Some x →
  m.(xMessageID) = tmrCOMMAND_DELETE →
  ∃ s', process_command callback m (u32 N) s = Some s' ∧ daemon_ok N s' ∧ redated N m.(pxTimer) None s s'
    ∧ ∀ nx, command_handled m.(pxTimer) false None nx s s'.
Proof.
  intros [Hok Hq] Hc Hx Hid. unfold process_command. rewrite Hx, Hid. cbn [mbind option_bind].
  eexists. split; [reflexivity|]. set (t := pxTimer m) in *. split_and!.
  - split.
    + destruct Hok as [H1 H2 H3 H4 H5 H6 H7 H8]. split; cbn; try done.
      * intros u l Hu. rewrite lookup_delete_ne by congruence. by apply (H7 u l).
      * intros u z [_ Hz]%lookup_delete_Some. by apply (H8 u).
    + destruct Hq as (q & H1 & H2 & H3 & H4 & Hk). exists q. split_and!; try done. destruct Hk as [[] []]; by split; split.
  - apply (idle_redated N t s Hc).
  - intros nx. split; try done; [by rewrite app_nil_r| |exists []; by rewrite app_nil_r].
    intros u. cbn. case_decide; [subst; by rewrite lookup_delete_eq|by rewrite lookup_delete_ne].
Qed.

(** Any command that is not negative. *)
Lemma process_spec C N m x s : daemon_ok N s → s.(tlists).(container) m.(pxTimer) = None → s.(timers) !! m.(pxTimer) = Some x →
  (is_start m.(xMessageID) = true → C ≤ N < C + 2 ^ 32 ∧ m.(xMessageValue) = u32 C) →
  (is_change m.(xMessageID) = true → 0 < m.(xMessageValue) < 2 ^ 32) →
  let e := command_effect C N x.(xTimerPeriodInTicks) m.(xMessageID) m.(xMessageValue) in
  ∃ s', process_command callback m (u32 N) s = Some s' ∧ daemon_ok N s' ∧ redated N m.(pxTimer) e.1 s s'
    ∧ command_handled m.(pxTimer) e.2 (command_shape (shape x) m.(xMessageID) m.(xMessageValue)) (u32 (C + x.(xTimerPeriodInTicks))) s s'.
Proof.
  intros Hd Hc Hx Hst Hch. cbn zeta. destruct (is_start m.(xMessageID)) eqn:Es.
  { destruct (Hst eq_refl). by apply timer_start_spec. }
  destruct (is_change m.(xMessageID)) eqn:Ec.
  { destruct (timer_change_spec C N m x s Hd Hc Hx Es Ec (Hch eq_refl)) as (s' & ? & ? & ? & H). exists s'. split_and!; done || apply H. }
  unfold command_effect, command_shape. rewrite Es, Ec. cbn [fst snd].
  destruct (Z.eqb_spec m.(xMessageID) tmrCOMMAND_DELETE) as [Ed|Ed].
  { destruct (timer_delete_spec N m x s Hd Hc Hx Ed) as (s' & ? & ? & ? & H). exists s'. split_and!; done || apply H. }
  unfold process_command. rewrite Hx. cbn [mbind option_bind]. cbn zeta.
  fold (is_start m.(xMessageID)) (is_stop m.(xMessageID)) (is_change m.(xMessageID)).
  rewrite Es, Ec, (proj2 (Z.eqb_neq _ _) Ed). exists s. split_and!; try done; [by destruct (is_stop _)|by apply idle_redated|apply same_lists_handled; [by destruct s|done]].
Qed.

(** ** A message, with the sample of the time *)

Lemma due_without s s' t : s'.(timers) = s.(timers) → s'.(pxCurrentTimerList) = s.(pxCurrentTimerList) →
  s'.(tlists).(value) = s.(tlists).(value) →
  s'.(tlists).(elems) s.(pxCurrentTimerList) = take_out t (s.(tlists).(elems) s.(pxCurrentTimerList)) →
  due s' = filter (λ e, e.1 ≠ t) (due s).
Proof.
  intros H1 H2 H3 H4. unfold due. rewrite H2, H4.
  assert (Hd : ∀ u, due_of s' u = due_of s u) by (intros u; unfold due_of; by rewrite H1, H3).
  assert (Hf : ∀ u, filter (λ e : Z * Z, e.1 ≠ t) (due_of s u) = if decide (u = t) then [] else due_of s u).
  { intros u. unfold due_of. destruct (timers s !! u) as [x|]; [|by case_decide].
    induction (occurrences x _) as [|w ws IH]; [by case_decide|]. rewrite fmap_cons, filter_cons. cbn [fst].
    rewrite IH. destruct (decide (u = t)) as [->|D]; [by rewrite decide_False by (intros []; done)|by rewrite decide_True]. }
  clear H4. induction (elems (tlists s) (pxCurrentTimerList s)) as [|u us IH]; [done|]. unfold take_out in *.
  rewrite filter_cons, bind_cons, filter_app, Hf. destruct (decide (u = t)) as [->|D].
  - rewrite decide_False by (intros []; done). exact IH.
  - rewrite decide_True by done. rewrite bind_cons, Hd. f_equal. exact IH.
Qed.

(** The timer is taken out of its list first. *)
Lemma take_first L t s : daemon_ok L s →
  ∃ s', (if xTimerIsTimerActive t s then t_remove t s else Some s) = Some s' ∧ daemon_ok L s' ∧ same_but_lists s s'
    ∧ s'.(tlists).(container) t = None ∧ redated L t None s s' ∧ due s' = filter (λ e, e.1 ≠ t) (due s).
Proof.
  intros [Hok Hq]. unfold xTimerIsTimerActive. destruct (container (tlists s) t) as [l|] eqn:Hc.
  - destruct (t_remove_spec L l t s Hok Hc) as (s' & -> & Hok' & Hb & Hc' & Hv' & He' & Ho').
    destruct (but_lists_fields s s' Hb) as (B1&_&_&_&B5&_). exists s'. split_and!; try done.
    + split; [done|by apply (but_lists_queue s s' Hb)].
    + rewrite Hc'. unfold insert, fn_insert. by rewrite decide_True.
    + by apply remove_redated.
    + apply due_without; try done. destruct (decide (l = pxCurrentTimerList s)) as [->|D]; [done|].
      rewrite Ho' by done. rewrite take_out_id; [done|]. intros Hin%(ok_in _ (lo_store _ _ Hok)). congruence.
  - exists s. split_and!; try done; [by destruct s|by apply idle_redated|]. apply due_without; try done.
    rewrite take_out_id; [done|]. intros Hin%(ok_in _ (lo_store _ _ Hok)). congruence.
Qed.

Lemma handle_message_spec fuel C L N m x s : daemon_ok L s → L ≤ N < L + 2 ^ 32 → s.(kern).(xTickCount) = u32 N →
  (epoch N ≠ epoch L → (length (due s) ≤ fuel)%nat) → 0 ≤ m.(xMessageID) → s.(timers) !! m.(pxTimer) = Some x →
  (is_start m.(xMessageID) = true → C ≤ N < C + 2 ^ 32 ∧ m.(xMessageValue) = u32 C) →
  (is_change m.(xMessageID) = true → 0 < m.(xMessageValue) < 2 ^ 32) →
  let t := m.(pxTimer) in let e := command_effect C N x.(xTimerPeriodInTicks) m.(xMessageID) m.(xMessageValue) in
  ∃ s' trace, handle_message callback fuel m s = Some s' ∧ daemon_ok N s'
    ∧ (∀ u, deadline N s' u = if decide (u = t) then e.1 else surviving N (deadline L s u))
    ∧ trace ≡ₚ (if decide (epoch N = epoch L) then [] else filter (λ e, e.1 ≠ t) (due s)) ∧ StronglySorted by_time trace
    ∧ s'.(calls) = s.(calls) ++ trace.*1 ++ (if e.2 then [t] else [])
    ∧ (∀ u, shape <$> s'.(timers) !! u = if decide (u = t) then command_shape (shape x) m.(xMessageID) m.(xMessageValue) else shape <$> s.(timers) !! u)
    ∧ (x.(uxAutoReload) = true → e.2 = true → restarted s' t (u32 (C + x.(xTimerPeriodInTicks))))
    ∧ (∃ more, commands s' = commands s ++ more)
    ∧ (epoch N = epoch L → e.2 = false → kstill s.(kern) s'.(kern) ∧ commands s' = commands s).
Proof.
  intros Hd HN Ht Hf Hid Hx Hst Hch. cbn zeta. unfold handle_message. rewrite (proj2 (Z.leb_le _ _) Hid), Hx. cbn [mbind option_bind].
  set (t := pxTimer m) in *. destruct (take_first L t s Hd) as (s1 & -> & Hd1 & Hb1 & Hc1 & R1 & D1). cbn [mbind option_bind].
  destruct (but_lists_fields s s1 Hb1) as (B1&B2&_&B4&_).
  destruct (sample_spec callback fuel L N s1 Hd1 HN) as (s2 & tr & -> & Hd2 & Sa); [by rewrite B2| |].
  { intros E. rewrite D1. etrans; [apply length_filter|]. by apply Hf. }
  cbn [mbind option_bind]. assert (Hsh := sa_timers _ _ _ _ _ Sa). rewrite B1 in Hsh.
  assert (Hsx := Hsh t). rewrite Hx in Hsx. destruct (timers s2 !! t) as [y|] eqn:Hy; [|done]. cbn in Hsx. injection Hsx as Ep Er.
  assert (Hdl := sa_deadline _ _ _ _ _ Sa).
  assert (Hc2 : container (tlists s2) t = None).
  { assert (H := Hdl t). rewrite (R1 t), decide_True in H by done. unfold deadline in H. by destruct (container (tlists s2) t). }
  destruct (process_spec C N m y s2 Hd2 Hc2 Hy Hst Hch) as (s3 & -> & Hd3 & R3 & H3). fold t in R3, H3.
  assert (Ee : command_effect C N y.(xTimerPeriodInTicks) m.(xMessageID) m.(xMessageValue) = command_effect C N x.(xTimerPeriodInTicks) m.(xMessageID) m.(xMessageValue))
    by (unfold command_effect; by rewrite Ep).
  assert (Es : command_shape (shape y) m.(xMessageID) m.(xMessageValue) = command_shape (shape x) m.(xMessageID) m.(xMessageValue))
    by (unfold command_shape, shape; by rewrite Ep, Er).
  rewrite Ee in R3, H3. rewrite Es, Ep in H3. exists s3, tr. split_and!; try done.
  - intros u. rewrite (R3 u), (Hdl u), (R1 u). by destruct (decide (u = t)).
  - rewrite <- D1. apply (sa_due _ _ _ _ _ Sa).
  - apply (sa_order _ _ _ _ _ Sa).
  - by rewrite (ha_calls _ _ _ _ _ _ H3), (sa_calls _ _ _ _ _ Sa), B4, (assoc_L (++)).
  - intros u. rewrite (ha_timers _ _ _ _ _ _ H3). by rewrite Hsh.
  - intros Ha. apply (ha_restarted _ _ _ _ _ _ H3 y Hy). congruence.
  - destruct (ha_commands _ _ _ _ _ _ H3) as [m2 E2], (sa_commands _ _ _ _ _ Sa) as [m1 E1]. exists (m1 ++ m2).
    by rewrite E2, E1, (proj1 (but_lists_queue s s1 Hb1)), (assoc_L (++)).
  - intros HE Hfi. destruct (ha_quiet _ _ _ _ _ _ H3 Hfi) as [K3 M3]. rewrite (sa_same _ _ _ _ _ Sa HE) in K3, M3.
    rewrite <- B2. split; [exact K3|]. rewrite M3. apply (but_lists_queue s s1 Hb1).
Qed.

(** ** Emptying the queue *)

Lemma receive_command_spec bs rest s : queue_ready s → commands s = bs :: rest →
  ∃ q q' k', s.(xTimerQueue) = Some q
    ∧ receive_try tmrNO_DELAY false None (q, s.(kern)) = Some (Return (pdPASS, bs), (q', k'))
    ∧ let s' := set_kern k' (set_xTimerQueue (Some q') s) in queue_ready s' ∧ commands s' = rest ∧ kstill s.(kern) k'.
Proof.
  intros (q & Eq & Hq & Hmu & Hs & Hk) Hc. unfold commands in Hc. rewrite Eq in Hc. exists q.
  assert (Hm : 0 < uxMessagesWaiting q) by (rewrite <- (length_contents q Hq), Hc; cbn [length]; lia).
  destruct (receive_try_some tmrNO_DELAY false None q s.(kern) Hk Hq Hm) as (x & q' & k' & E & Hk' & (Hq' & S & C) & _).
  rewrite Hc in C. injection C as <- Er. exists q', k'. split; [done|]. split; [done|]. cbn zeta. split_and!; [|done|].
  - exists q'. split_and!; try done; [unfold is_mutex in *; by rewrite (sq_head _ _ S)|by rewrite (sq_size _ _ S)].
  - destruct (take_item q s.(kern) Hk Hq Hm) as (y & v & q1 & k1 & E1 & E2 & _ & _ & Hk1 & _). specialize (Hk1 Hmu). subst k1.
    unfold receive_try in E. rewrite (proj2 (Z.ltb_lt _ _) Hm), E1 in E. cbn [mbind option_bind] in E. cbn zeta in E, E2. rewrite E2 in E.
    cbn [mbind option_bind] in E. destruct (wake_first _ (kern s)) as [[b k2]|] eqn:Ew; [|done]. cbn [mbind option_bind] in E.
    injection E as _ _ <-. by eapply wake_still.
Qed.

Lemma receive_nothing s : queue_ready s → commands s = [] →
  ∃ q, s.(xTimerQueue) = Some q ∧ receive_try tmrNO_DELAY false None (q, s.(kern)) = Some (Return (errQUEUE_EMPTY, []), (q, s.(kern))).
Proof.
  intros (q & Eq & Hq & Hmu & Hs & Hk) Hc. unfold commands in Hc. rewrite Eq in Hc. exists q. split; [done|].
  rewrite receive_try_empty; [done|]. by rewrite <- (length_contents q Hq), Hc.
Qed.

(** Commands on deadlines and on shapes; a command has the absolute time at
    which it was given.  [None]: a command that is not allowed here, or that
    expires at once. *)
Definition timer_view : Type := (Z → option Z) * (Z → option (Z * bool)).

Definition run_command (N : Z) (cm : Z * message) (d : timer_view) : option timer_view :=
  let '(C, m) := cm in
  sh ← d.2 m.(pxTimer);
  let e := command_effect C N sh.1 m.(xMessageID) m.(xMessageValue) in
  if bool_decide (- 2 ^ 31 ≤ m.(xMessageID) < 2 ^ 31 ∧ 0 ≤ m.(xMessageValue) < 2 ^ 32 ∧ 0 ≤ m.(pxTimer) < 2 ^ 32)
     && (0 <=? m.(xMessageID)) && negb e.2
     && (negb (is_start m.(xMessageID)) || bool_decide (C ≤ N < C + 2 ^ 32 ∧ m.(xMessageValue) = u32 C))
     && (negb (is_change m.(xMessageID)) || bool_decide (0 < m.(xMessageValue) < 2 ^ 32))
  then Some (<[m.(pxTimer) := e.1]> d.1, <[m.(pxTimer) := command_shape sh m.(xMessageID) m.(xMessageValue)]> d.2)
  else None.

Fixpoint run_commands (N : Z) (cms : list (Z * message)) (d : timer_view) : option timer_view :=
  match cms with [] => Some d | cm :: cms => d ← run_command N cm d; run_commands N cms d end.

(** The lists and the timers of [s] are those of the view. *)
Definition shows (N : Z) (s : tstate) (d : timer_view) : Prop :=
  ∀ u, deadline N s u = d.1 u ∧ shape <$> s.(timers) !! u = d.2 u.

Lemma shows_epoch L N s d : epoch L = epoch N → shows L s d → shows N s d.
Proof. intros E V u. specialize (V u). unfold deadline in *. by rewrite <- E. Qed.

Lemma run_command_spec L N cm d d' s fuel : run_command N cm d = Some d' → daemon_ok L s → L ≤ N → epoch N = epoch L →
  s.(kern).(xTickCount) = u32 N → shows N s d →
  decode (encode cm.2) = cm.2
  ∧ ∃ s', handle_message callback fuel cm.2 s = Some s' ∧ daemon_ok N s' ∧ shows N s' d' ∧ s'.(calls) = s.(calls)
    ∧ kstill s.(kern) s'.(kern) ∧ commands s' = commands s.
Proof.
  destruct cm as [C m]. unfold run_command. intros E Hd HL HE Ht V. destruct (epoch_split L) as [EL RL], (epoch_split N) as [EN RN]. destruct (V m.(pxTimer)) as [_ Vs].
  destruct (d.2 m.(pxTimer)) as [sh|]; [|done]. cbn [mbind option_bind] in E.
  destruct (timers s !! pxTimer m) as [x|] eqn:Hx; [|done]. cbn in Vs. injection Vs as <-. cbn [shape fst] in E.
  destruct (_ && _) eqn:Eb in E; [|done]. injection E as <-. rewrite !andb_true_iff, !orb_true_iff, !negb_true_iff, !bool_decide_eq_true in Eb.
  destruct Eb as ((((HB & Hid) & Hfire) & Hst) & Hch). cbn [snd]. split; [by destruct HB as (? & ? & ?); apply message_roundtrip|].
  destruct (handle_message_spec fuel C L N m x s Hd ltac:(lia) Ht ltac:(done) ltac:(lia) Hx) as (s' & tr & E' & Hd' & D' & P' & _ & C' & T' & _ & _ & M').
  { intros H. destruct Hst as [Hst|Hst]; [congruence|done]. }
  { intros H. destruct Hch as [Hch|Hch]; [congruence|done]. }
  exists s'. rewrite decide_True in P' by done. apply Permutation_nil_r in P'. subst tr. rewrite Hfire in C'. cbn in C'. rewrite app_nil_r in C'.
  destruct (M' HE Hfire) as [K' M'']. split_and!; try done. intros u. cbn [fst snd]. rewrite D', T'.
  unfold insert, fn_insert. destruct (V u) as [V1 V2]. destruct (decide (u = pxTimer m)) as [->|D]; [by rewrite !(decide_True (P := pxTimer m = pxTimer m))|].
  rewrite !(decide_False (P := pxTimer m = u)) by done. split; [|done]. rewrite <- V1.
  by rewrite <- (sa_deadline _ _ _ _ _ (proj2 (sample_same L N s Hd HL HE)) u).
Qed.

End Commands.
