(* ===== verification/FrTimerExpiry.v ===== *)
(** FrTimerExpiry: what the timer task does when a timer expires and when it waits. *)

From stdpp Require Import functions sorting.
From S2P Require Import Prelude FrList FrSeq FrKernel FrTasks FrTasksInv FrTasksMove FrTasksTick FrTasksSched FrTasksApi FrTasksLife FrTasksPrio FrNotify FrTasksSteps FrTasksTime FrQueue FrQueueData FrQueueSched FrQueueBlock FrQueueWait FrQueueTheorems FrTimer FrTimerSpec FrTimerDaemon.

(** ** The scheduler around it *)

(** The timer task runs and nothing is suspended. *)
Definition running (k : kernel) : Prop := k.(pending_soft_sv) = false ∧ k.(uxSchedulerSuspended) = 0.

Lemma daemon_ok_kern L k s : daemon_ok L s → kinv k → daemon_ok L (set_kern k s).
Proof. intros [[] (q & H1 & H2 & H3 & H4 & _)] Hk. split; [by split|]. by exists q. Qed.

Lemma suspend_daemon L s : daemon_ok L s → running s.(kern) →
  daemon_ok L (set_kern (vTaskSuspendAll s.(kern)) s) ∧ (vTaskSuspendAll s.(kern)).(uxSchedulerSuspended) = 1.
Proof.
  intros Hd [H1 H2]. assert (Hk : kinv s.(kern)) by (by destruct Hd as [_ (q & _ & _ & _ & _ & ?)]).
  destruct (suspend_all_spec s.(kern) Hk) as [Hk1 Hs1]; [lia|by apply kinv_runnable|]. split; [by apply daemon_ok_kern|lia].
Qed.

Lemma resume_daemon L s : daemon_ok L s → s.(kern).(uxSchedulerSuspended) = 1 →
  ∃ b k', in_kernel xTaskResumeAll s = Some (b, set_kern k' s) ∧ daemon_ok L (set_kern k' s) ∧ k'.(uxSchedulerSuspended) = 0.
Proof.
  intros Hd Hs. assert (Hk : kinv s.(kern)) by (by destruct Hd as [_ (q & _ & _ & _ & _ & ?)]).
  destruct (resume_mid s.(kern)) as (b & k' & E & _ & Hk' & Hs' & _); [split; [apply Hk|lia]|done|].
  exists b, k'. unfold in_kernel. rewrite E. cbn [mbind option_bind]. split_and!; try done. apply daemon_ok_kern; auto.
Qed.

Lemma deadline_kern L k s t : deadline L (set_kern k s) t = deadline L s t.
Proof. done. Qed.

(** ** The next timer *)

(** The earliest deadline is at the head of the current list, if it is of this
    epoch. *)
Lemma head_first L s t rest : lists_ok L s → s.(tlists).(elems) s.(pxCurrentTimerList) = t :: rest →
  deadline L s t = Some (2 ^ 32 * epoch L + s.(tlists).(value) t) ∧ 0 ≤ s.(tlists).(value) t < 2 ^ 32
  ∧ s.(tlists).(container) t = Some s.(pxCurrentTimerList)
  ∧ ∀ u D, deadline L s u = Some D → 2 ^ 32 * epoch L + s.(tlists).(value) t ≤ D.
Proof.
  intros Hok He.
  assert (Hc : s.(tlists).(container) t = Some s.(pxCurrentTimerList)) by (apply (ok_in _ (lo_store _ _ Hok)); rewrite He; set_solver).
  assert (Hv := lo_value _ _ Hok _ _ Hc). split_and!; try lia; try done.
  - unfold deadline. rewrite Hc. cbn [mbind option_bind]. rewrite decide_True by done. f_equal. lia.
  - intros u D Hu. unfold deadline in Hu. destruct (container (tlists s) u) as [l|] eqn:Hl; [|done]. cbn [mbind option_bind] in Hu.
    injection Hu as <-. assert (Hvu := lo_value _ _ Hok _ _ Hl). destruct (decide (l = pxCurrentTimerList s)) as [->|D]; [|lia].
    apply (ok_in _ (lo_store _ _ Hok)) in Hl. rewrite He in Hl. apply elem_of_cons in Hl as [->|Hl]; [lia|].
    assert (Hs := lo_sorted _ _ Hok (pxCurrentTimerList s)). unfold sorted_list in Hs. rewrite He in Hs.
    apply StronglySorted_inv in Hs as [_ Hs]. rewrite Forall_forall in Hs. specialize (Hs u Hl). unfold by_value in Hs. lia.
Qed.

Lemma none_current L s u D : lists_ok L s → s.(tlists).(elems) s.(pxCurrentTimerList) = [] → deadline L s u = Some D →
  s.(tlists).(container) u = Some s.(pxOverflowTimerList) ∧ D = 2 ^ 32 * (epoch L + 1) + s.(tlists).(value) u
  ∧ 0 ≤ s.(tlists).(value) u.
Proof.
  intros Hok He Hu. unfold deadline in Hu. destruct (container (tlists s) u) as [l|] eqn:Hl; [|done]. cbn [mbind option_bind] in Hu.
  injection Hu as <-. assert (Hv := lo_value _ _ Hok _ _ Hl). destruct (decide (l = pxCurrentTimerList s)) as [->|D].
  - apply (ok_in _ (lo_store _ _ Hok)) in Hl. rewrite He in Hl. by apply not_elem_of_nil in Hl.
  - apply other_list in D; [|apply (lo_apart _ _ Hok)]. subst. split_and!; [done|lia..].
Qed.

(** ** A timer expires *)

Section Expiry.
Context (callback : Z → tstate → option tstate) `{!TimerCallback callback}.

Definition reload_deadline (N D : Z) (x : Timer_t) : option Z :=
  if x.(uxAutoReload) && negb (D + x.(xTimerPeriodInTicks) <=? N) then Some (D + x.(xTimerPeriodInTicks)) else None.

Lemma reload_expired_spec N D t x s : daemon_ok N s → s.(tlists).(container) t = None → s.(timers) !! t = Some x →
  D ≤ N < D + 2 ^ 32 →
  ∃ s', reload_expired t (u32 D) (u32 N) x s = Some s' ∧ daemon_ok N s' ∧ s'.(calls) = s.(calls) ∧ s'.(timers) = s.(timers)
    ∧ redated N t (reload_deadline N D x) s s' ∧ (x.(uxAutoReload) = true → D + x.(xTimerPeriodInTicks) ≤ N → restarted s' t (u32 D)).
Proof.
  intros [Hok Hq] Hc Hx HD. unfold reload_expired, reload_deadline. destruct (uxAutoReload x); cbn [andb].
  2: { exists s. split_and!; try done. intros u. case_decide; [|done]. subst. unfold deadline. by rewrite Hc. }
  rewrite u32_plus. destruct (insert_timer_spec D N t x s Hok Hc Hx HD) as (s3 & -> & Hok3 & Hb3 & R3 & _).
  destruct (but_lists_fields s s3 Hb3) as (C1&_&_&C4&_). cbn [mbind option_bind].
  assert (Hq3 : queue_ready s3) by (by apply (but_lists_queue s s3 Hb3)).
  destruct (Z.leb_spec (D + xTimerPeriodInTicks x) N); cbn [negb].
  - destruct (send_command_spec t tmrCOMMAND_START_DONT_TRACE (u32 D) s3 Hq3) as (r & s4 & -> & Hq4 & K4 & C5 & T4 & _ & Hr); [done|].
    cbn [mbind option_bind]. exists s4. split_and!; try congruence.
    + split; [by apply (kept_lists_ok N s3)|done].
    + intros u. rewrite (kept_deadline N s3 s4) by done. apply R3.
    + intros _ _. destruct Hr as [(Hf & _ & ->)|[_ Hr]]; [by left|right]. rewrite Hr. set_solver.
  - exists s3. split_and!; try congruence; [by split|done|intros; lia].
Qed.

Lemma process_expired_spec N t rest x s : daemon_ok N s → s.(tlists).(elems) s.(pxCurrentTimerList) = t :: rest →
  s.(timers) !! t = Some x → let D := 2 ^ 32 * epoch N + s.(tlists).(value) t in D ≤ N →
  ∃ s', prvProcessExpiredTimer callback (s.(tlists).(value) t) (u32 N) s = Some s' ∧ daemon_ok N s' ∧ s'.(calls) = s.(calls) ++ [t]
    ∧ redated N t (reload_deadline N D x) s s'
    ∧ (x.(uxAutoReload) = true → D + x.(xTimerPeriodInTicks) ≤ N → restarted s' t (u32 D)).
Proof.
  intros [Hok Hq] He Hx D HD. destruct (head_first N s t rest Hok He) as (_ & Hv & Hc & _). destruct (epoch_split N) as [EN RN].
  assert (EvD : s.(tlists).(value) t = u32 D).
  { unfold D, u32. rewrite Z.add_comm, (Z.mul_comm (2 ^ 32)), Z_mod_plus_full. by rewrite Z.mod_small. }
  unfold prvProcessExpiredTimer, seq_head. rewrite He. cbn [head mbind option_bind].
  destruct (t_remove_spec N _ t s Hok Hc) as (s1 & -> & Hok1 & Hb1 & Hc1 & Hv1 & _). cbn [mbind option_bind].
  destruct (but_lists_fields s s1 Hb1) as (B1&_&_&B4&_). rewrite B1, Hx. cbn [mbind option_bind].
  assert (R1 := remove_redated N t s s1 Hb1 Hc1 Hv1). rewrite EvD.
  destruct (reload_expired_spec N D t x s1) as (s2 & -> & [Hok2 Hq2] & C2 & T2 & R2 & S2);
    [split; [done|by apply (but_lists_queue s s1 Hb1)]|rewrite Hc1; unfold insert, fn_insert; by rewrite decide_True|by rewrite B1|unfold D in *; lia|].
  cbn [mbind option_bind].
  destruct (callback_spec t s2 Hq2) as (s' & E' & Hq' & K' & C'); [rewrite T2, B1; by eexists|]. exists s'. split_and!; try done.
  - split; [by apply (kept_lists_ok N s2)|done].
  - by rewrite C', C2, B4.
  - intros u. rewrite (kept_deadline N s2 s') by done. rewrite (R2 u), (R1 u). by case_decide.
  - intros Ha HX. apply (restarted_switched s2); [by apply kept_switched|auto].
Qed.

(** The sample at the start of a round, under the suspended scheduler. *)
Lemma round_sample fuel L N s : daemon_ok L s → running s.(kern) → L ≤ N < L + 2 ^ 32 → s.(kern).(xTickCount) = u32 N →
  (epoch N ≠ epoch L → (length (due s) ≤ fuel)%nat) →
  ∃ s' trace, prvSampleTimeNow callback fuel (set_kern (vTaskSuspendAll s.(kern)) s) = Some (u32 N, bool_decide (epoch N ≠ epoch L), s')
    ∧ daemon_ok N s' ∧ sampled L N (set_kern (vTaskSuspendAll s.(kern)) s) s' trace ∧ s'.(kern).(uxSchedulerSuspended) = 1.
Proof.
  intros Hd Hr HN Ht Hf. destruct (suspend_daemon L s Hd Hr) as [Hd0 Hs0].
  destruct (sample_spec callback fuel L N _ Hd0 HN Ht Hf) as (s' & tr & E & Hd' & Sa). exists s', tr. split_and!; try done.
  by rewrite (sa_suspended _ _ _ _ _ Sa).
Qed.

End Expiry.

(** ** Waiting for the next command or deadline *)

Lemma lock_unlock q : unlocked q → set_cRxLock queueUNLOCKED (set_cTxLock queueUNLOCKED (prvLockQueue q)) = q.
Proof.
  intros [H1 H2]. unfold prvLockQueue. rewrite H2. cbn. rewrite H1. destruct q. cbn in *. by subst.
Qed.

Lemma locked_counts q : unlocked q → (prvLockQueue q).(cTxLock) = 0 ∧ (prvLockQueue q).(cRxLock) = 0.
Proof. intros [H1 H2]. unfold prvLockQueue. rewrite H2. cbn. by rewrite H1. Qed.

(** Without interrupts on the way. *)
Lemma wait_quietly n (b : bool) t q k : unlocked q → q.(uxMessagesWaiting) = 0 → kinv k → k.(uxSchedulerSuspended) = 1 →
  k.(uxPendedTicks) = 0 → (∀ u, event u k ≠ Some xPendingReadyList) → caller t k → (b = false → 0 < n ≤ portMAX_DELAY) →
  ∃ k1 ay k', vQueueWaitForMessageRestricted (λ _, []) n b (q, k) = Some (q, k1) ∧ xTaskResumeAll k1 = Some (ay, k')
    ∧ kinv (yield_unless ay k') ∧ k'.(uxSchedulerSuspended) = 0
    ∧ if b then state t k' = Some xSuspendedTaskList else remaining t k' = Some n.
Proof.
  intros Hu Hm [Hc Hp] Hs Hpe Hne [Ca Ci Ce] Hn. unfold vQueueWaitForMessageRestricted. cbn [run_isrs fst snd mbind option_bind].
  assert (Em : uxMessagesWaiting (prvLockQueue q) = 0) by (unfold prvLockQueue; by repeat case_match). rewrite Em. change (0 =? 0) with true. cbn match.
  assert (El : xTasksWaitingToReceive (prvLockQueue q) = EventList (self q + 36)) by (unfold prvLockQueue; by repeat case_match). rewrite El.
  unfold vTaskPlaceOnEventListRestricted. rewrite Ca. cbn [mbind option_bind].
  set (n' := if b then portMAX_DELAY else n).
  assert (Hn' : 0 < n' ≤ portMAX_DELAY) by (unfold n'; destruct b; [done|auto]).
  destruct (place_core n' true b (EventList (self q + 36)) t k Hc Ca) as (k1 & E & Hc1 & C1 & R1 & V1); try done.
  { apply (pr_runnable _ Hp). right. lia. }
  cbn [mbind option_bind] in E. rewrite E. cbn [mbind option_bind]. unfold prvUnlockQueue, unlock_tx, unlock_rx.
  destruct (locked_counts q Hu) as [-> Lr]. change (Z.to_nat 0) with 0%nat. cbn [unlock_loop mbind option_bind run_isrs].
  change (cRxLock (set_cTxLock queueUNLOCKED (prvLockQueue q))) with (cRxLock (prvLockQueue q)). rewrite Lr.
  change (Z.to_nat 0) with 0%nat. cbn [unlock_loop mbind option_bind run_isrs].
  rewrite lock_unlock by done. destruct (relisted_fields _ _ _ R1) as (_&_&F3&F4&F5&_&F7&F8&_). cbn in F3, F4, F5, F7, F8.
  assert (Hs1 : uxSchedulerSuspended k1 = 1) by congruence.
  assert (Hne1 : ∀ u, event u k1 ≠ Some xPendingReadyList).
  { intros u. unfold event. rewrite C1. unfold insert, fn_insert. repeat case_decide; try done. apply Hne. }
  destruct (resume_all_spec k1 Hc1 ltac:(lia)) as (ay & k' & E' & Hc' & _ & S' & Y' & _ & _ & T').
  destruct (T' ltac:(congruence) Hne1) as [TC TV Tt Td To].
  exists k1, ay, k'. split_and!; [done|done| |lia|].
  { unfold yield_unless. destruct ay; [|by apply kinv_yield; [|lia]]. split; [done|]. split; [rewrite Y' by done; by intros [=]|].
    intros [H|H]; [by rewrite Y' in H|lia]. }
  assert (St : state t k' = Some (wait_list n' b k)).
  { unfold state. rewrite TC, C1. unfold insert, fn_insert. by rewrite decide_True. }
  unfold n' in *. destruct b; [exact St|]. apply remaining_intro; [apply Hc'|].
  assert (Tk := w_tick _ _ _ _ _ _ _ _ _ _ _ (kc_wf _ Hc)). unfold k_value in *. rewrite St, TV, Tt, Td, To, F3, F4, F5.
  destruct (delayed_other _ _ (w_pointers _ _ _ _ _ _ _ _ _ _ _ (kc_wf _ Hc))) as (_ & _ & Hd1 & Hd2 & _).
  rewrite V1; unfold wait_list, wake_time, portMAX_DELAY in *; rewrite andb_false_r.
  - destruct (Z.ltb_spec (u32 (xTickCount k + n)) (xTickCount k)); [right|left]; (split; [done|zsolve]).
  - destruct (_ <? _); congruence.
Qed.

Lemma lock_spec q : queue_ok q → unlocked q →
  queue_ok (prvLockQueue q) ∧ same_shape q (prvLockQueue q) ∧ (prvLockQueue q).(cTxLock) = 0 ∧ (prvLockQueue q).(cRxLock) = 0.
Proof.
  intros Hq Hu. assert (Hl := locked_counts q Hu). destruct Hu as [H1 H2].
  assert (El : prvLockQueue q = set_cRxLock 0 (set_cTxLock 0 q)).
  { unfold prvLockQueue. rewrite H2. cbn. rewrite H1. by destruct q. }
  rewrite El in Hl |- *. destruct (set_locks_ok q 0 0 Hq) as (Hq2 & S2 & _). by split_and!.
Qed.

(** The task goes into the event list, or a message is there and it stays ready. *)
Lemma place_restricted a n (b : bool) t q k : kinv k → k.(uxSchedulerSuspended) = 1 → caller t k → (b = false → 0 < n ≤ portMAX_DELAY) →
  (∀ v, event v k ≠ Some (EventList a)) →
  ∃ k', (if q.(uxMessagesWaiting) =? 0 then vTaskPlaceOnEventListRestricted (EventList a) n b k else Some k) = Some k'
    ∧ kmid k' ∧ k'.(uxSchedulerSuspended) = 1
    ∧ (counted q ∧ only a t k' ∧ event t k' = Some (EventList a) ∨ ∃ p, state t k' = Some (pxReadyTasksLists p)).
Proof.
  intros Hk Hs [Ca Ci Ce] Hn Hno. destruct (Z.eqb_spec (uxMessagesWaiting q) 0) as [E0|E0].
  - unfold vTaskPlaceOnEventListRestricted. rewrite Ca. cbn [mbind option_bind].
    destruct (place_core (if b then portMAX_DELAY else n) true b (EventList a) t k (proj1 Hk) Ca) as (k3 & E3 & Hc3 & C3 & R3 & _); try done.
    { apply (pr_runnable _ (proj2 Hk)). right. lia. }
    { destruct b; [done|auto]. }
    cbn [mbind option_bind] in E3. rewrite E3. destruct (relisted_fields _ _ _ R3) as (_&_&_&_&_&_&F7&_). cbn in F7.
    exists k3. split_and!; [done|by split; [|lia]|congruence|left].
    assert (Ev : ∀ v, event v k3 = if decide (v = t) then Some (EventList a) else event v k).
    { intros v. unfold event. rewrite C3. unfold insert, fn_insert. repeat case_decide; congruence. }
    split_and!; [intros ?; lia| |by rewrite Ev, decide_True]. intros v. rewrite Ev. case_decide; [done|]. intros ?. by destruct (Hno v).
  - exists k. split_and!; try done; [by split; [apply Hk|lia]|right]. destruct (pr_runnable _ (proj2 Hk)) as (t' & c & E1 & _ & E3); [right; lia|].
    assert (t' = t) as -> by congruence. eauto.
Qed.

(** With interrupts in every gap: a command that comes in wakes the timer task. *)
Lemma wait_safely gap n (b : bool) t q k : queue_ok q → unlocked q → kinv k → k.(uxSchedulerSuspended) = 1 → caller t k →
  (∀ i, Forall (isr_ok q) (gap i)) → Z.of_nat (length (gap 2%nat) + length (gap 3%nat)) ≤ 127 →
  (b = false → 0 < n ≤ portMAX_DELAY) → (∀ v, event v k ≠ Some (xTasksWaitingToReceive q)) →
  ∃ q' k1 ay k', vQueueWaitForMessageRestricted gap n b (q, k) = Some (q', k1) ∧ xTaskResumeAll k1 = Some (ay, k')
    ∧ queue_ok q' ∧ same_shape q q' ∧ unlocked q' ∧ kinv (yield_unless ay k') ∧ k'.(uxSchedulerSuspended) = 0
    ∧ (0 < q'.(uxMessagesWaiting) → ∃ p, state t k' = Some (pxReadyTasksLists p)).
Proof.
  intros Hq Hu Hk Hs Hca Hg Hb Hn Hno. unfold vQueueWaitForMessageRestricted. cbn [fst snd].
  destruct (lock_spec q Hq Hu) as (Hq0 & S0 & L1 & L2).
  destruct (gap_bound (length (gap 3%nat)) (gap 2%nat) (prvLockQueue q) k Hq0) as (q2 & k2 & -> & Hq2 & Hk2 & S2 & M2 & B2);
    [by split; [apply Hk|lia]|by eapply isr_ok_all|split_and!; lia|]. cbn [mbind option_bind].
  assert (Hi2 : kinv k2) by (by apply (meanwhile_kinv k)). assert (Hs2 : uxSchedulerSuspended k2 = 1) by (by rewrite (mw_suspended _ _ M2)).
  assert (S02 : same_shape q q2) by (by etrans). set (a := self q + 36).
  assert (Ea : xTasksWaitingToReceive q2 = EventList a) by (unfold xTasksWaitingToReceive, a; by rewrite (sh_self _ _ S02)). rewrite Ea.
  assert (Hno2 : ∀ v, event v k2 ≠ Some (EventList a)) by (intros v; eapply meanwhile_gone; [exact M2|apply Hno]).
  destruct (place_restricted a n b t q2 k2 Hi2 Hs2) as (k3 & -> & Hk3 & Hs3 & Hw3); [by eapply caller_mid|done|done|]. cbn [mbind option_bind].
  set (P := λ m x (_ : kernel), lock_bound m x ∧ (counted q2 → counted x)).
  destruct (isrs_mid P 0 (gap 3%nat)) with (q := q2) (k := k3) as (q4 & k4 & -> & Hq4 & Hk4 & S4 & M4 & _ & C4); try done.
  { intros m x y x' y' _ _ [B C] St. destruct (lock_step m x y x' y' B St). split; auto. }
  { by eapply isr_ok_all. }
  { split; [by rewrite Nat.add_0_r|done]. }
  cbn [mbind option_bind]. assert (S04 : same_shape q q4) by (by etrans).
  destruct (unlock_mid gap q4 k4 Hq4 Hk4) as (q5 & k5 & -> & Hq5 & Hk5 & S5 & M5 & U5 & N5); [by eapply isr_ok_all..|].
  assert (M35 : kmeanwhile k3 k5) by (by etrans).
  destruct (resume_mid k5 Hk5) as (ay & k6 & E6 & Y6 & _ & S6 & K6 & R6); [by rewrite (mw_suspended _ _ M35)|].
  exists q5, k5, ay, k6. split_and!; try done; [by etrans|]. intros Hm. destruct Hw3 as [(Hcnt & Ho3 & He3)|[p Hst]].
  - apply R6. assert (Ea4 : self q4 + 36 = a) by (unfold a; by rewrite (sh_self _ _ S04)). rewrite Ea4 in N5.
    destruct (N5 t) as [_ N]; [by eapply meanwhile_only|by apply C4|]. specialize (N Hm).
    destruct (mw_event _ _ M35 t) as [E'|[_ E']]; congruence.
  - exists p. apply (kk_ready _ _ K6). by rewrite (mw_state _ _ M35).
Qed.

(** How long the task waits when no deadline has come: until the earliest
    deadline, or until the overflow if that is later. *)
Definition wakes_at (N : Z) (s : tstate) (W : Z) : Prop :=
  N < W ∧ (∀ u D, deadline N s u = Some D → W ≤ D) ∧ (W = 2 ^ 32 * (epoch N + 1) ∨ ∃ u, deadline N s u = Some W).

Lemma next_wait N s : lists_ok N s → (∀ u D, deadline N s u = Some D → N < D) →
  let e := (prvGetNextExpireTime s).1 in let empty := (prvGetNextExpireTime s).2 in
  let b := if empty then seq_length s.(pxOverflowTimerList) s.(tlists) =? 0 else empty in
  negb empty && (e <=? u32 N) = false
  ∧ (b = true → ∀ u, deadline N s u = None)
  ∧ (b = false → 0 < u32 (e - u32 N) ≤ portMAX_DELAY ∧ wakes_at N s (N + u32 (e - u32 N))).
Proof.
  intros Hok Hlate. destruct (epoch_split N) as [EN RN]. unfold prvGetNextExpireTime, seq_head, seq_length, wakes_at, portMAX_DELAY. cbn zeta.
  destruct (elems (tlists s) (pxCurrentTimerList s)) as [|t rest] eqn:He; cbn [head fst snd negb andb].
  - split; [done|]. destruct (elems (tlists s) (pxOverflowTimerList s)) as [|v vs] eqn:Ho.
    + split; [|done]. intros _ u. destruct (deadline N s u) as [D|] eqn:Hu; [|done].
      destruct (none_current N s u D Hok He Hu) as (Hc & _). apply (ok_in _ (lo_store _ _ Hok)) in Hc. rewrite Ho in Hc. by apply not_elem_of_nil in Hc.
    + replace (zlength (v :: vs) =? 0) with false by (symmetry; apply Z.eqb_neq; cbn [length]; lia). split; [done|]. intros _.
      assert (Hv : container (tlists s) v = Some (pxOverflowTimerList s)) by (apply (ok_in _ (lo_store _ _ Hok)); rewrite Ho; set_solver).
      assert (H1 := lo_value _ _ Hok _ _ Hv). assert (H2 := lo_overflow _ _ Hok _ Hv).
      assert (Eu : u32 (0 - u32 N) = 2 ^ 32 - u32 N) by (unfold u32 at 1; rewrite <- (Z_mod_plus_full _ 1), Z.mod_small; lia).
      rewrite Eu. split_and!; try lia. intros u D Hu. destruct (none_current N s u D Hok He Hu) as (_ & -> & ?). lia.
  - destruct (head_first N s t rest Hok He) as (Hdl & Hv & _ & Hmin). assert (HD := Hlate t _ Hdl).
    rewrite (proj2 (Z.leb_gt _ _)) by lia. split; [done|]. split; [done|]. intros _.
    rewrite u32_small by lia. split_and!; try lia.
    + intros u D Hu. specialize (Hmin u D Hu). lia.
    + right. exists t. rewrite Hdl. f_equal. lia.
Qed.
