(* ===== verification/FrTimerTheorems.v ===== *)
(** FrTimerTheorems: the correctness of the software timers. *)

From stdpp Require Import functions sorting.
From S2P Require Import Prelude FrList FrSeq FrKernel FrTasks FrTasksInv FrTasksMove FrTasksTick FrTasksSched FrTasksApi FrTasksLife FrTasksPrio FrNotify FrTasksSteps FrTasksTheorems FrQueue FrQueueData FrQueueSched FrQueueBlock FrQueueWait FrQueueTheorems FrTimer FrTimerSpec FrTimerDaemon FrTimerCommands FrTimerExpiry.

(** ** Commands *)

(** C7: the loop over the command queue decodes
    the commands in the order in which they were sent, ends with the queue empty,
    and does to the timers what the commands do to a table of absolute deadlines:
    start and reset give the time of the command plus the period, changing the
    period the present plus the new period, stop and delete none; the other timers
    keep theirs, no callback runs, and the two sorted lists stay consistent,
    wherever the 32-bit tick count overflows in the future. *)
Theorem timer_commands_refine callback `{!TimerCallback callback} L N fuel cms : ∀ rounds d d' s,
  daemon_ok L s → L ≤ N → epoch N = epoch L → s.(kern).(xTickCount) = u32 N → commands s = (encode ∘ snd) <$> cms →
  shows N s d → run_commands N cms d = Some d' → (length cms < rounds)%nat →
  ∃ M s', prvProcessReceivedCommands callback rounds fuel s = Some s' ∧ L ≤ M ≤ N ∧ daemon_ok M s' ∧ commands s' = []
    ∧ shows N s' d' ∧ s'.(calls) = s.(calls).
Proof.
  revert L. induction cms as [|cm cms IH]; intros L rounds d d' s Hd HL HE Ht Hc V Hr Hn; destruct rounds as [|n]; cbn [length] in Hn; try lia;
    cbn [prvProcessReceivedCommands].
  - injection Hr as <-. destruct (receive_nothing s (proj2 Hd) Hc) as (q & Eq & E). rewrite Eq. cbn [mbind option_bind]. rewrite E. cbn [mbind option_bind].
    assert (Es : set_kern s.(kern) (set_xTimerQueue (Some q) s) = s) by (destruct s; cbn in *; by subst). rewrite Es.
    change (errQUEUE_EMPTY =? pdFAIL) with true. cbn match. exists L, s. split_and!; done || lia.
  - destruct (receive_command_spec (encode cm.2) (fmap (M := list) (encode ∘ snd) cms) s (proj2 Hd) Hc) as (q & q' & k' & -> & E & Hq1 & C1 & K1).
    cbn [mbind option_bind]. rewrite E. cbn [mbind option_bind]. change (pdPASS =? pdFAIL) with false. cbn match.
    set (s1 := set_kern k' _) in *. cbn [run_commands] in Hr. destruct (run_command N cm d) as [d1|] eqn:E1; [|done]. cbn [mbind option_bind] in Hr.
    assert (Hd1 : daemon_ok L s1) by (split; [by destruct (proj1 Hd)|done]).
    assert (Ht1 : s1.(kern).(xTickCount) = u32 N) by (destruct K1 as (_ & T & _); cbn; congruence).
    destruct (run_command_spec callback L N cm d d1 s1 fuel E1 Hd1 HL HE Ht1 V) as (Edec & s2 & E2 & Hd2 & V2 & C2 & K2 & M2).
    rewrite Edec, E2. cbn [mbind option_bind].
    destruct (IH N n d1 d' s2 Hd2 ltac:(lia) eq_refl) as (M & s' & E' & HM & Hd' & M' & V' & C'); try done; [|congruence|lia|].
    { destruct K2 as (_ & T & _). congruence. }
    exists M, s'. split_and!; try done; [lia..|]. by rewrite C', C2.
Qed.

(** Two timers shortly before the overflow of the tick count: one reloads every
    10 ticks, one waits once for 2^32 - 1. *)
Definition demo_timer (p : Z) (reload : bool) : Timer_t :=
  {| pcTimerName := [84]; xTimerPeriodInTicks := p; uxAutoReload := reload; pvTimerID := 0 |}.

(** A command queue in which [ms] wait. *)
Definition demo_commands_queue (ms : list message) : Queue_t :=
  let n := zlength ms in
  {| self := 8192; pcHead := 8192 + sizeof_Queue_t; pcTail := 8192 + sizeof_Queue_t + 120;
     pcWriteTo := 8192 + sizeof_Queue_t + 12 * n; u := 8192 + sizeof_Queue_t + 108; uxMessagesWaiting := n; uxLength := 10;
     uxItemSize := 12; cRxLock := queueUNLOCKED; cTxLock := queueUNLOCKED;
     storage := concat (encode <$> ms) ++ replicate (120 - 12 * length ms) 0 |}.

Lemma demo_commands_queue_ok ms : (length ms < 10)%nat →
  queue_ok (demo_commands_queue ms) ∧ is_mutex (demo_commands_queue ms) = false.
Proof.
  intros Hm. split; [|done]. unfold demo_commands_queue, sizeof_Queue_t. split; cbn -[Z.mul encode]; try lia. intros _.
  exists 9, (zlength ms). split; cbn -[Z.mul encode]; unfold sizeof_Queue_t, wrap; try lia; [|zbool; lia].
  rewrite length_app, length_replicate. assert (H : length (concat (encode <$> ms)) = (12 * length ms)%nat); [|lia].
  clear Hm. induction ms as [|m ms IH]; [done|]. rewrite fmap_cons. cbn [concat]. rewrite length_app, IH. cbn. lia.
Qed.

Definition demo_daemon (ms : list message) : tstate := {|
  timers := <[500 := demo_timer 10 true]> (<[600 := demo_timer (2 ^ 32 - 1) false]> ∅);
  tlists := Store (λ _, []) (λ _, None) (λ _, 0) (λ _, None);
  pxCurrentTimerList := xActiveTimerList1; pxOverflowTimerList := xActiveTimerList2;
  xTimerQueue := Some (demo_commands_queue ms); xLastTime := 2 ^ 32 - 3; kern := demo_late; calls := [] |}.

Lemma demo_daemon_ok ms : (length ms < 10)%nat → daemon_ok (2 ^ 32 - 3) (demo_daemon ms).
Proof.
  intros Hm. split.
  - split; cbn; try done; [split; cbn; try done; [intros l; constructor|intros x l; split; [intros []%not_elem_of_nil|done]]|intros l; constructor|].
    intros t x. rewrite !lookup_insert_Some. intros [[_ <-]|[_ [[_ <-]|[_ ?]]]]; [cbn; lia..|done].
  - destruct (demo_commands_queue_ok ms Hm) as [H1 H2]. exists (demo_commands_queue ms).
    exact (conj eq_refl (conj H1 (conj H2 (conj eq_refl demo_late_kinv)))).
Qed.

(** Start the first timer, stop the second, which starts again with a new period. *)
Definition demo_commands : list (Z * message) :=
  [(2 ^ 32 - 2, {| xMessageID := tmrCOMMAND_START; xMessageValue := 2 ^ 32 - 2; pxTimer := 500 |});
   (2 ^ 32 - 1, {| xMessageID := tmrCOMMAND_STOP; xMessageValue := 0; pxTimer := 600 |});
   (2 ^ 32 - 1, {| xMessageID := tmrCOMMAND_CHANGE_PERIOD; xMessageValue := 20; pxTimer := 600 |})].

Lemma timer_commands_refine_witness : ∃ M s',
  prvProcessReceivedCommands note_call 4 0 (demo_daemon (demo_commands.*2)) = Some s' ∧ daemon_ok M s' ∧ commands s' = []
  ∧ deadline (2 ^ 32 - 1) s' 500 = Some (2 ^ 32 + 8) ∧ deadline (2 ^ 32 - 1) s' 600 = Some (2 ^ 32 + 19).
Proof.
  set (s := demo_daemon (demo_commands.*2)). set (d := (deadline (2 ^ 32 - 1) s, λ u, shape <$> s.(timers) !! u) : timer_view).
  destruct (run_commands (2 ^ 32 - 1) demo_commands d) as [d'|] eqn:E; [|exfalso; revert E; vm_compute; discriminate].
  destruct (timer_commands_refine note_call (2 ^ 32 - 3) (2 ^ 32 - 1) 0 demo_commands 4 d d' s) as (M & s' & E' & _ & Hd & Hc & V & _).
  { apply demo_daemon_ok. cbn. lia. }
  { lia. } { reflexivity. } { reflexivity. } { vm_compute. reflexivity. } { done. } { exact E. } { cbn. lia. }
  exists M, s'. assert (X : d'.1 500 = Some (2 ^ 32 + 8) ∧ d'.1 600 = Some (2 ^ 32 + 19)).
  { apply (f_equal (fmap (λ d, (d.1 500, d.1 600)))) in E. vm_compute in E. injection E as E1 E2. exact (conj (eq_sym E1) (eq_sym E2)). }
  rewrite (proj1 (V 500)), (proj1 (V 600)). exact (conj E' (conj Hd (conj Hc X))).
Defined.

(** ** Expiry *)

(** One round of the timer task up to the commands. *)
Definition timer_round (callback : Z → tstate → option tstate) (fuel : nat) (gap : nat → list isr) (s : tstate) : option tstate :=
  prvProcessTimerOrBlockTask callback fuel gap (prvGetNextExpireTime s).1 (prvGetNextExpireTime s).2 s.

(** C10: when a deadline has come, a round of the
    timer task calls the callback of exactly one timer, one with the earliest
    deadline of all, never before that deadline; an auto-reload timer gets its old
    deadline plus its period, without drift, or, if that has passed too, a start
    command for the old deadline (unless the command queue is full); all other
    timers keep their deadlines. *)
Theorem timer_expires_in_order callback `{!TimerCallback callback} L N fuel gap t0 D0 s : daemon_ok L s → running s.(kern) →
  L ≤ N → epoch N = epoch L → s.(kern).(xTickCount) = u32 N → deadline L s t0 = Some D0 → D0 ≤ N →
  ∃ t x D s', timer_round callback fuel gap s = Some s' ∧ daemon_ok N s' ∧ s.(timers) !! t = Some x
    ∧ deadline L s t = Some D ∧ D ≤ N ∧ (∀ u D', deadline L s u = Some D' → D ≤ D')
    ∧ s'.(calls) = s.(calls) ++ [t]
    ∧ (∀ u, deadline N s' u = if decide (u = t) then reload_deadline N D x else deadline L s u)
    ∧ (x.(uxAutoReload) = true → D + x.(xTimerPeriodInTicks) ≤ N → restarted s' t (u32 D)).
Proof.
  intros Hd Hr HL HE Ht H0 HD0. destruct (epoch_split L) as [EL RL], (epoch_split N) as [EN RN]. unfold timer_round, prvProcessTimerOrBlockTask.
  destruct (round_sample callback fuel L N s Hd Hr ltac:(lia) Ht ltac:(done)) as (s1 & tr & -> & Hd1 & Sa & Hs1). cbn [mbind option_bind].
  rewrite bool_decide_false by (intros ?; done). assert (Es := sa_same _ _ _ _ _ Sa HE).
  destruct (s.(tlists).(elems) s.(pxCurrentTimerList)) as [|t rest] eqn:He.
  { destruct (none_current L s t0 D0 (proj1 Hd) He H0) as (_ & -> & ?). lia. }
  destruct (head_first L s t rest (proj1 Hd) He) as (Hdl & Hv & Hc & Hmin). destruct (lo_timer _ _ (proj1 Hd) _ _ Hc) as [x Hx].
  assert (HD := Hmin t0 D0 H0). unfold prvGetNextExpireTime, seq_head. rewrite He. cbn [head fst snd negb andb].
  rewrite (proj2 (Z.leb_le (value (tlists s) t) (u32 N))) by lia.
  destruct (resume_daemon N s1 Hd1 Hs1) as (b & k' & -> & Hd2 & _). cbn [mbind option_bind]. rewrite Es in Hd2 |- *.
  destruct (process_expired_spec callback N t rest x _ Hd2 He Hx) as (s' & E' & Hd' & C' & R' & S'); [cbn -[Z.mul Z.pow]; lia|].
  cbn [tlists set_kern set_xLastTime] in E', R', S'. rewrite HE in R', S'.
  exists t, x, (2 ^ 32 * epoch L + value (tlists s) t), s'. split_and!; try done; [lia|].
  intros u. rewrite (R' u). unfold deadline. cbn [tlists set_kern set_xLastTime pxCurrentTimerList]. by rewrite HE.
Qed.

(** The first timer of the demo is active; [v]: its value in the list. *)
Definition demo_active (v : Z) : tstate :=
  set_tlists (default (tlists (demo_daemon [])) (seq_insert xActiveTimerList1 500 (seq_set_value 500 v (tlists (demo_daemon []))))) (demo_daemon []).

Lemma demo_active_ok v : 0 ≤ v < 2 ^ 32 → daemon_ok (2 ^ 32 - 3) (demo_active v).
Proof.
  intros Hv. destruct (demo_daemon_ok [] ltac:(cbn; lia)) as [Hok Hq].
  destruct (t_insert_spec (2 ^ 32 - 3) xActiveTimerList1 500 v (demo_daemon []) Hok) as (s' & E & Hok' & Hb & _);
    [done|by eexists|by left|done|].
  assert (s' = demo_active v) as <-.
  { unfold t_insert, t_set_value in E. cbn in E. injection E as <-. done. }
  split; [done|]. by apply (but_lists_queue _ _ Hb).
Qed.

Lemma demo_running : running demo_late.
Proof. exact (conj eq_refl eq_refl). Qed.

Lemma timer_expires_in_order_witness : ∃ s', timer_round note_call 0 (λ _, []) (demo_active (2 ^ 32 - 2)) = Some s'
  ∧ s'.(calls) = [500] ∧ deadline (2 ^ 32 - 1) s' 500 = Some (2 ^ 32 + 8).
Proof.
  destruct (timer_expires_in_order note_call (2 ^ 32 - 3) (2 ^ 32 - 1) 0 (λ _, []) 500 (2 ^ 32 - 2) (demo_active (2 ^ 32 - 2)))
    as (t & x & D & s' & E & _ & Hx & Ht & HD & Hmin & C & V & _).
  { apply demo_active_ok. lia. } { exact demo_running. } { lia. } { reflexivity. } { reflexivity. } { reflexivity. } { lia. }
  assert (t = 500) as ->.
  { destruct (decide (500 = t)) as [|H]; [done|exfalso]. unfold deadline in Ht. cbn [demo_active tlists set_tlists] in Ht.
    change (container _ t) with ((<[500 := Some xActiveTimerList1]> ((λ _, None) : Z → option tlid)) t) in Ht. unfold insert, fn_insert in Ht.
    rewrite decide_False in Ht by done. discriminate Ht. }
  assert (D = 2 ^ 32 - 2) as -> by (revert Ht; vm_compute; congruence).
  assert (x = demo_timer 10 true) as -> by (revert Hx; vm_compute; congruence).
  exists s'. exact (conj E (conj C (V 500))).
Defined.

(** C30: when the tick count has overflowed since
    the last sample, a round serves the old list before it switches the lists:
    every expiry before the overflow is called, repeatedly for the short periods
    of auto-reload timers, in the order of the expiry times; auto-reload timers
    have a start command for their last expiry in the queue (unless it is full),
    and the timers of the overflow list keep their deadlines.  The loop ends
    after as many turns as there are expiries. *)
Theorem timer_overflow_serves_all callback `{!TimerCallback callback} L N fuel gap s : daemon_ok L s → running s.(kern) →
  epoch N = epoch L + 1 → N < L + 2 ^ 32 → s.(kern).(xTickCount) = u32 N → (length (due s) ≤ fuel)%nat →
  ∃ s' trace, timer_round callback fuel gap s = Some s' ∧ daemon_ok N s' ∧ s'.(kern).(uxSchedulerSuspended) = 0
    ∧ s'.(calls) = s.(calls) ++ trace.*1 ∧ trace ≡ₚ due s ∧ StronglySorted by_time trace
    ∧ (∀ t, deadline N s' t = surviving N (deadline L s t)) ∧ all_restarted s s'.
Proof.
  intros Hd Hr HE HN Ht Hf. destruct (epoch_split L) as [EL RL], (epoch_split N) as [EN RN]. unfold timer_round, prvProcessTimerOrBlockTask.
  destruct (round_sample callback fuel L N s Hd Hr ltac:(lia) Ht ltac:(done)) as (s1 & tr & -> & Hd1 & Sa & Hs1). cbn [mbind option_bind].
  rewrite bool_decide_true by lia. destruct (resume_daemon N s1 Hd1 Hs1) as (b & k' & -> & Hd2 & S2). cbn [mbind option_bind].
  assert (P := sa_due _ _ _ _ _ Sa). rewrite decide_False in P by lia.
  exists (set_kern k' s1), tr. split_and!; try done.
  - apply (sa_calls _ _ _ _ _ Sa).
  - apply (sa_order _ _ _ _ _ Sa).
  - apply (sa_deadline _ _ _ _ _ Sa).
  - apply (sa_restarted _ _ _ _ _ Sa). lia.
Qed.

(** Three expiries of the first timer before the overflow, seen 5 ticks after it. *)
Definition demo_overflow : tstate := set_kern (set_xTickCount 5 demo_kernel) (demo_active (2 ^ 32 - 25)).

Lemma timer_overflow_serves_all_witness : ∃ s', timer_round note_call 3 (λ _, []) demo_overflow = Some s'
  ∧ s'.(calls) = [500; 500; 500] ∧ deadline (2 ^ 32 + 5) s' 500 = None.
Proof.
  destruct (timer_overflow_serves_all note_call (2 ^ 32 - 3) (2 ^ 32 + 5) 3 (λ _, []) demo_overflow)
    as (s' & tr & E & _ & _ & C & P & _ & V & _).
  { apply daemon_ok_kern; [apply demo_active_ok; lia|]. apply set_clock_kinv; [exact demo_kinv|unfold portMAX_DELAY; lia|vm_compute; reflexivity..]. }
  { exact (conj eq_refl eq_refl). } { reflexivity. } { lia. } { reflexivity. } { apply Nat.leb_le. vm_compute. reflexivity. }
  exists s'. refine (conj E (conj _ (V 500))). rewrite C.
  assert (P1 : tr.*1 ≡ₚ [500; 500; 500]) by (rewrite P; vm_compute; reflexivity). cbn [app].
  change [500; 500; 500] with (replicate 3 500) in *. symmetry. by apply replicate_Permutation.
Defined.

(** ** Waiting *)

(** Without a due deadline the round is a wait on the command queue. *)
Lemma round_waits callback `{!TimerCallback callback} L N fuel gap q s : daemon_ok L s → running s.(kern) →
  L ≤ N → epoch N = epoch L → s.(kern).(xTickCount) = u32 N → s.(xTimerQueue) = Some q → (∀ u D, deadline L s u = Some D → N < D) →
  let s1 := set_xLastTime (u32 N) s in
  ∃ b n, timer_round callback fuel gap s
      = ('(q', k1) ← vQueueWaitForMessageRestricted gap n b (q, vTaskSuspendAll s.(kern));
         '(ay, k') ← xTaskResumeAll k1; Some (set_kern (yield_unless ay k') (set_xTimerQueue (Some q') s1)))
    ∧ daemon_ok N s1 ∧ (∀ u, deadline N s1 u = deadline L s u)
    ∧ (b = true → ∀ u, deadline N s1 u = None) ∧ (b = false → 0 < n ≤ portMAX_DELAY ∧ wakes_at N s1 (N + n)).
Proof.
  intros Hd Hr HL HE Ht Eq Hlate. destruct (epoch_split L) as [EL RL], (epoch_split N) as [EN RN]. cbn zeta.
  set (s1 := set_xLastTime (u32 N) s). unfold timer_round, prvProcessTimerOrBlockTask.
  destruct (round_sample callback fuel L N s Hd Hr ltac:(lia) Ht ltac:(done)) as (s2 & tr & -> & Hd2 & Sa & _). cbn [mbind option_bind].
  rewrite bool_decide_false by (intros ?; done). assert (Es := sa_same _ _ _ _ _ Sa HE). subst s2.
  destruct (sample_same L N s Hd HL HE) as [Hd1 _]. fold s1 in Hd1.
  assert (Hdl : ∀ u, deadline N s1 u = deadline L s u) by (intros u; unfold deadline; cbn -[Z.mul Z.pow]; by rewrite HE).
  destruct (next_wait N s1 (proj1 Hd1)) as (E1 & E2 & E3); [intros u D; rewrite Hdl; apply Hlate|].
  change (prvGetNextExpireTime s1) with (prvGetNextExpireTime s) in E1, E2, E3. rewrite E1.
  cbn [xTimerQueue set_xLastTime set_kern tlists pxOverflowTimerList]. rewrite Eq. cbn [mbind option_bind].
  eexists _, _. split; [|split; [exact Hd1|split; [exact Hdl|split; [exact E2|exact E3]]]].
  cbn [kern set_xLastTime set_kern tlists pxOverflowTimerList s1]. destruct (vQueueWaitForMessageRestricted _ _ _ _) as [[q' k1]|]; [|done].
  cbn [mbind option_bind]. unfold in_kernel. cbn [kern set_kern]. destruct (xTaskResumeAll k1) as [[ay k']|]; done.
Qed.

Lemma daemon_ok_queue N q q' k s : daemon_ok N s → s.(xTimerQueue) = Some q → queue_ok q' → q'.(pcHead) = q.(pcHead) →
  q'.(uxItemSize) = q.(uxItemSize) → kinv k → daemon_ok N (set_kern k (set_xTimerQueue (Some q') s)).
Proof.
  intros [[] (q0 & H1 & H2 & H3 & H4 & _)] Eq Hq Hh Hs Hk. rewrite Eq in H1. injection H1 as <-.
  split; [by split|]. exists q'. split_and!; try done; [|congruence]. unfold is_mutex in *. congruence.
Qed.

(** C29: when no deadline has come and no
    command waits, a round calls no callback and blocks the timer task; the
    scheduler wakes it after exactly as many ticks as there are to the earliest
    deadline, or to the overflow of the tick count if that comes first, and
    without active timers the task waits for a command only. *)
Theorem timer_task_sleeps_until_deadline callback `{!TimerCallback callback} L N fuel t q s : daemon_ok L s → running s.(kern) →
  L ≤ N → epoch N = epoch L → s.(kern).(xTickCount) = u32 N → caller t s.(kern) →
  s.(xTimerQueue) = Some q → unlocked q → commands s = [] → (∀ u D, deadline L s u = Some D → N < D) →
  ∃ s', timer_round callback fuel (λ _, []) s = Some s' ∧ daemon_ok N s' ∧ s'.(calls) = s.(calls) ∧ commands s' = []
    ∧ (∀ u, deadline N s' u = deadline L s u)
    ∧ ((∀ u, deadline L s u = None) ∧ state t s'.(kern) = Some xSuspendedTaskList
       ∨ ∃ W, wakes_at N s' W ∧ FrTasksTime.remaining t s'.(kern) = Some (W - N)).
Proof.
  intros Hd Hr HL HE Ht Hca Eq Hu Hcm Hlate.
  destruct (round_waits callback L N fuel (λ _, []) q s Hd Hr HL HE Ht Eq Hlate) as (b & n & -> & Hd1 & Hdl & E2 & E3).
  destruct (suspend_daemon L s Hd Hr) as [[_ (q1 & _ & _ & _ & _ & Hk1)] Hs1].
  assert (Hk := proj2 Hd). destruct Hk as (q0 & Eq0 & Hq & _ & _ & Hk). rewrite Eq in Eq0. injection Eq0 as <-.
  destruct (kc_quiet _ (proj1 Hk) (proj2 Hr)) as [Hp0 Hp1].
  assert (Hm : uxMessagesWaiting q = 0) by (unfold commands in Hcm; rewrite Eq in Hcm; by rewrite <- (length_contents q Hq), Hcm).
  destruct (wait_quietly n b t q (vTaskSuspendAll s.(kern)) Hu Hm Hk1 Hs1 Hp0 Hp1 (suspend_caller t _ Hca)) as (k1 & ay & k' & -> & E' & Hk' & Hs' & HW);
    [intros Hb; by apply E3|].
  cbn [mbind option_bind]. rewrite E'. cbn [mbind option_bind]. eexists. split; [reflexivity|].
  split_and!; [by apply (daemon_ok_queue N q q)|done|unfold commands in *; cbn; by rewrite Eq in Hcm|exact Hdl|].
  destruct b.
  - left. split; [intros u; rewrite <- Hdl; by apply E2|]. by destruct ay.
  - right. destruct (E3 eq_refl) as [_ HWN]. exists (N + n). split; [done|]. replace (N + n - N) with n by lia. by destruct ay.
Qed.

(** The first timer of the demo has a deadline in two ticks. *)
Definition demo_timer_waiting : tstate := set_kern (set_xTickCount (2 ^ 32 - 3) demo_kernel) (demo_active (2 ^ 32 - 1)).

Lemma demo_timer_waiting_ok : daemon_ok (2 ^ 32 - 3) demo_timer_waiting.
Proof.
  apply daemon_ok_kern; [apply demo_active_ok; lia|]. apply set_clock_kinv; [exact demo_kinv|unfold portMAX_DELAY; lia|vm_compute; reflexivity..].
Qed.

Lemma clock_caller t v k : caller t k → caller t (set_xTickCount v k).
Proof. intros []. by split. Qed.

Lemma clock_event t v k : event t (set_xTickCount v k) = event t k.
Proof. done. Qed.

Lemma demo_timer_waiting_caller : caller 100 demo_timer_waiting.(kern).
Proof. exact (clock_caller 100 (2 ^ 32 - 3) demo_kernel demo_caller). Qed.

Lemma demo_timer_waiting_late u D : deadline (2 ^ 32 - 3) demo_timer_waiting u = Some D → D = 2 ^ 32 - 1.
Proof.
  unfold deadline. change (container (tlists demo_timer_waiting) u) with ((<[500 := Some xActiveTimerList1]> ((λ _, None) : Z → option tlid)) u).
  change (value (tlists demo_timer_waiting) u) with ((<[500 := 2 ^ 32 - 1]> (λ _ : Z, 0)) u). unfold insert, fn_insert.
  destruct (decide (500 = u)); [|done]. intros H. injection H as <-. reflexivity.
Qed.

Lemma timer_task_sleeps_until_deadline_witness : ∃ s', timer_round note_call 0 (λ _, []) demo_timer_waiting = Some s'
  ∧ FrTasksTime.remaining 100 s'.(kern) = Some 2.
Proof.
  destruct (timer_task_sleeps_until_deadline note_call (2 ^ 32 - 3) (2 ^ 32 - 3) 0 100 (demo_commands_queue []) demo_timer_waiting)
    as (s' & E & _ & _ & _ & V & HW).
  { exact demo_timer_waiting_ok. } { exact (conj eq_refl eq_refl). } { lia. } { reflexivity. } { reflexivity. } { exact demo_timer_waiting_caller. }
  { reflexivity. } { split; reflexivity. } { reflexivity. } { intros u D ->%demo_timer_waiting_late. lia. }
  exists s'. refine (conj E _). destruct HW as [[H _]|(W & (H1 & H2 & H3) & R)]; [specialize (H 500); vm_compute in H; discriminate H|].
  assert (W = 2 ^ 32 - 1) as ->; [|exact R]. destruct H3 as [->|[u Hu]].
  - assert (H := H2 500 (2 ^ 32 - 1)). rewrite V in H. specialize (H eq_refl). revert H. vm_compute. congruence.
  - rewrite V in Hu. by apply demo_timer_waiting_late in Hu.
Defined.

(** While the timer task goes to wait,
    interrupts may happen in every gap, send commands (up to 127 under the lock)
    and end ticks: the wait completes, both invariants hold, the deadlines stay,
    and if a command is in the queue afterwards the timer task is ready to
    handle it. *)
Theorem timer_task_misses_no_command callback `{!TimerCallback callback} L N fuel gap t q s : daemon_ok L s → running s.(kern) →
  L ≤ N → epoch N = epoch L → s.(kern).(xTickCount) = u32 N → caller t s.(kern) →
  s.(xTimerQueue) = Some q → unlocked q → (∀ u D, deadline L s u = Some D → N < D) →
  (∀ i, Forall (isr_ok q) (gap i)) → Z.of_nat (length (gap 2%nat) + length (gap 3%nat)) ≤ 127 →
  (∀ v, event v s.(kern) ≠ Some (xTasksWaitingToReceive q)) →
  ∃ s' q', timer_round callback fuel gap s = Some s' ∧ daemon_ok N s' ∧ s'.(calls) = s.(calls) ∧ s'.(xTimerQueue) = Some q' ∧ unlocked q'
    ∧ (∀ u, deadline N s' u = deadline L s u)
    ∧ (commands s' ≠ [] → ∃ p, state t s'.(kern) = Some (pxReadyTasksLists p)).
Proof.
  intros Hd Hr HL HE Ht Hca Eq Hu Hlate Hg Hb Hno.
  destruct (round_waits callback L N fuel gap q s Hd Hr HL HE Ht Eq Hlate) as (b & n & -> & Hd1 & Hdl & _ & E3).
  destruct (suspend_daemon L s Hd Hr) as [[_ (q1 & _ & _ & _ & _ & Hk1)] Hs1].
  assert (Hk := proj2 Hd). destruct Hk as (q0 & Eq0 & Hq & _ & _ & Hk). rewrite Eq in Eq0. injection Eq0 as <-.
  destruct (wait_safely gap n b t q (vTaskSuspendAll s.(kern)) Hq Hu Hk1 Hs1 (suspend_caller t _ Hca) Hg Hb) as
    (q' & k1 & ay & k' & -> & E' & Hq' & S' & U' & Hk' & Hs' & HW); [intros; by apply E3|exact Hno|].
  cbn [mbind option_bind]. rewrite E'. cbn [mbind option_bind]. eexists _, q'. split; [reflexivity|].
  split_and!; [apply (daemon_ok_queue N q q'); try done; apply S'|done|done|exact U'|exact Hdl|].
  intros Hc. assert (Hst : ∃ p, state t k' = Some (pxReadyTasksLists p)); [|by destruct ay]. apply HW.
  rewrite <- (length_contents q' Hq'). unfold commands in Hc. cbn in Hc. destruct (contents q'); [done|]. cbn [length]. lia.
Qed.

(** An interrupt sends a command between the time-out and the switch. *)
Definition demo_command_gap (i : nat) : list isr :=
  if decide (i = 3%nat) then [IsrSend (encode {| xMessageID := tmrCOMMAND_STOP_FROM_ISR; xMessageValue := 0; pxTimer := 500 |}) 0] else [].

Lemma timer_task_misses_no_command_witness : ∃ s', timer_round note_call 0 demo_command_gap demo_timer_waiting = Some s'
  ∧ commands s' = [encode {| xMessageID := tmrCOMMAND_STOP_FROM_ISR; xMessageValue := 0; pxTimer := 500 |}]
  ∧ ∃ p, state 100 s'.(kern) = Some (pxReadyTasksLists p).
Proof.
  destruct (timer_task_misses_no_command note_call (2 ^ 32 - 3) (2 ^ 32 - 3) 0 demo_command_gap 100 (demo_commands_queue []) demo_timer_waiting)
    as (s' & q' & E & _ & _ & _ & _ & _ & HW).
  { exact demo_timer_waiting_ok. } { exact (conj eq_refl eq_refl). } { lia. } { reflexivity. } { reflexivity. } { exact demo_timer_waiting_caller. }
  { reflexivity. } { split; reflexivity. } { intros u D ->%demo_timer_waiting_late. lia. }
  { intros i. unfold demo_command_gap. destruct (decide (i = 3%nat)); repeat constructor; cbn; lia. }
  { vm_compute. discriminate. } { intros v. unfold demo_timer_waiting. cbn [kern set_kern]. rewrite clock_event, demo_events. discriminate. }
  exists s'. refine (conj E _).
  assert (C : commands s' = [encode {| xMessageID := tmrCOMMAND_STOP_FROM_ISR; xMessageValue := 0; pxTimer := 500 |}]).
  { assert (X : commands <$> timer_round note_call 0 demo_command_gap demo_timer_waiting
      = Some [encode {| xMessageID := tmrCOMMAND_STOP_FROM_ISR; xMessageValue := 0; pxTimer := 500 |}]) by (vm_compute; reflexivity).
    rewrite E in X. apply (inj Some) in X. exact X. }
  refine (conj C (HW _)). rewrite C. discriminate.
Defined.

(** ** Where commands get lost *)

(** An auto-reload timer that is two periods late when the command queue is full
    stops for good: the result of the start command is only asserted. *)
Lemma reload_is_lost :
  let full := replicate 10 {| xMessageID := tmrCOMMAND_STOP; xMessageValue := 0; pxTimer := 600 |} in
  let s := set_xTimerQueue (Some (demo_commands_queue full)) (demo_active (2 ^ 32 - 30)) in
  (λ s', (s'.(calls), deadline (2 ^ 32 - 1) s' 500, bool_decide (commands s' = encode <$> full))) <$> timer_round note_call 0 (λ _, []) s
  = Some ([500], None, true).
Proof. vm_compute. reflexivity. Qed.

Definition delete_itself (t : Z) (s : tstate) : option tstate :=
  '(_, s) ← send_command t tmrCOMMAND_DELETE 0 s; note_call t s.

(** A start command that is handled after the timer expired. *)
Definition demo_late_start : tstate :=
  demo_daemon [{| xMessageID := tmrCOMMAND_START; xMessageValue := 2 ^ 32 - 15; pxTimer := 500 |}].

(** The callback runs before the start command for the next period is sent: the
    stop of the callback is handled first and the timer goes on. *)
Lemma stop_in_callback_is_lost :
  (λ s, (s.(calls), commands s, deadline (2 ^ 32 - 1) s 500)) <$> prvProcessReceivedCommands stop_itself 4 0 demo_late_start
  = Some ([500], [], Some (2 ^ 32 + 5)).
Proof. vm_compute. reflexivity. Qed.

(** In the same way a timer that its callback deletes is started after its memory
    was freed. *)
Lemma delete_in_callback_faults : prvProcessReceivedCommands delete_itself 20 0 demo_late_start = None
  ∧ is_Some (prvProcessReceivedCommands stop_itself 20 0 demo_late_start).
Proof. split; [vm_compute; reflexivity|]. eexists. vm_compute. reflexivity. Qed.
