(* ===== verification/OneWire.v ===== *)
(** OneWire: the temperature sensor, extras/onewire/onewire.c, its timer,
    extras/hw_timer/hw_timer.c, and the checksum, extras/crc/crc.c.

    The driver is a state machine that the timer interrupt steps every 10 us.
    [log] records what it does to the pin and when, the last event first: an
    interrupt is a [Tick].
    [inputs] are the values that the calls of gpio_read will return; a bus without
    an answer is pulled up and reads 1.  Parasite power is configured out. *)

From S2P Require Import Prelude CString.

(** ** The checksum *)

Definition dscrc_table : list Z := [
    0; 94;188;226; 97; 63;221;131;194;156;126; 32;163;253; 31; 65;
  157;195; 33;127;252;162; 64; 30; 95;  1;227;189; 62; 96;130;220;
   35;125;159;193; 66; 28;254;160;225;191; 93;  3;128;222; 60; 98;
  190;224;  2; 92;223;129; 99; 61;124; 34;192;158; 29; 67;161;255;
   70; 24;250;164; 39;121;155;197;132;218; 56;102;229;187; 89;  7;
  219;133;103; 57;186;228;  6; 88; 25; 71;165;251;120; 38;196;154;
  101; 59;217;135;  4; 90;184;230;167;249; 27; 69;198;152;122; 36;
  248;166; 68; 26;153;199; 37;123; 58;100;134;216; 91;  5;231;185;
  140;210; 48;110;237;179; 81; 15; 78; 16;242;172; 47;113;147;205;
   17; 79;173;243;112; 46;204;146;211;141;111; 49;178;236; 14; 80;
  175;241; 19; 77;206;144;114; 44;109; 51;209;143; 12; 82;176;238;
   50;108;142;208; 83; 13;239;177;240;174; 76; 18;145;207; 45;115;
  202;148;118; 40;171;245; 23; 73;  8; 86;180;234;105; 55;213;139;
   87;  9;235;181; 54;104;138;212;149;203; 41;119;244;170; 72; 22;
  233;183; 85; 11;136;214; 52;106; 43;117;151;201; 74; 20;246;168;
  116; 42;200;150; 21; 75;169;247;182;232; 10; 84;215;137;107; 53 ].

(** The loop; [None]: a read outside of the buffer or of the table. *)
Fixpoint crc8_loop (len : nat) (crc : Z) (addr : list Z) : option Z :=
  match len with
  | O => Some crc
  | S n =>
      match addr with
      | [] => None
      | b :: addr => crc ← dscrc_table !! Z.to_nat (Z.lxor crc b); crc8_loop n crc addr
      end
  end.

Definition onewire_crc8 (addr : list Z) (len : Z) : option Z := crc8_loop (Z.to_nat len) 0 addr.

(** ** Data *)

Definition OW_SPAD_SIZE : Z := 9.
Definition OW_UUID_LEN : Z := 8.

Definition OW_SEQ_STATE_INVALID : Z := 0.
Definition OW_SEQ_STATE_LOAD : Z := 1.
Definition OW_SEQ_STATE_INIT : Z := 2.
Definition OW_SEQ_STATE_STARTED : Z := 3.
Definition OW_SEQ_STATE_TRANSITION : Z := 4.
Definition OW_SEQ_STATE_DONE : Z := 5.

Definition OW_OP_RESET : Z := 1.
Definition OW_OP_READ : Z := 2.
Definition OW_OP_WRITE : Z := 3.
Definition OW_OP_END : Z := 4.
Definition OW_OP_MAX : Z := 5.

Definition OW_READ_OP_INIT : Z := 1.
Definition OW_READ_OP_LINE_LOW : Z := 2.
Definition OW_READ_OP_SAMPLE : Z := 3.
Definition OW_READ_OP_WAIT_50 : Z := 4.
Definition OW_READ_OP_DONE : Z := 5.

Definition OW_WRITE_OP_INIT : Z := 1.
Definition OW_WRITE_OP_LINE_LOW : Z := 2.
Definition OW_WRITE_OP_WRITE_FIRST : Z := 3.
Definition OW_WRITE_OP_WAIT_FIRST : Z := 4.
Definition OW_WRITE_OP_FINALLY : Z := 5.
Definition OW_WRITE_OP_DONE : Z := 6.

Definition OW_RESET_OP_INIT : Z := 1.
Definition OW_RESET_OP_WAIT_480_LOW : Z := 2.
Definition OW_RESET_OP_WAIT_60_RESP : Z := 3.
Definition OW_RESET_OP_WAIT_480 : Z := 4.
Definition OW_RESET_OP_DONE : Z := 5.

Definition OW_ERROR_NONE : Z := 0.
Definition OW_ERROR_INVALID_OP : Z := 2.
Definition OW_ERROR_RESET_RESP_TIMEOUT : Z := 3.

Definition OW_STATE_READY : Z := 3.

Definition DS_SEQ_INVALID : Z := 0.
Definition DS_SEQ_UUID_T : Z := 1.
Definition DS_SEQ_CONV_T : Z := 2.
Definition DS_SEQ_READ_T : Z := 3.
Definition DS_SEQ_NEXT_READ_T : Z := 4.

Definition DS_READ_SPAD : Z := 0xBE.
Definition DS_SKIPROM : Z := 0xCC.
Definition DS_READROM : Z := 0x33.
Definition DS_CONVERT_T : Z := 0x44.
Definition DS_FAMILY_CODE : Z := 0x28.

(** The sequences of maxim28.h: their operations, arguments and lengths. *)
Definition ds_seqs : list (list Z) :=
  [ []; [OW_OP_RESET; OW_OP_WRITE; OW_OP_WRITE; OW_OP_READ; OW_OP_END]; [OW_OP_RESET; OW_OP_WRITE; OW_OP_WRITE; OW_OP_END];
    [OW_OP_RESET; OW_OP_WRITE; OW_OP_WRITE; OW_OP_READ; OW_OP_END] ].
Definition ds_seq_args : list (list Z) :=
  [ []; [0; DS_READROM; DS_READ_SPAD; 9; 0]; [0; DS_SKIPROM; DS_CONVERT_T; 0]; [0; DS_SKIPROM; DS_READ_SPAD; 9; 0] ].
Definition ds_seq_lens : list Z := [0; 5; 4; 5].

Inductive OW_cb_t := read_uuid_done | conv_t_done | read_temp_done.

Record Temperature := { sign : Z; val : Z; fract : Z; available : Z }.
#[export] Instance Temperature_eq_dec : EqDecision Temperature.
Proof. solve_decision. Defined.
Definition no_temperature : Temperature := {| sign := 0; val := 0; fract := 0; available := 0 |}.

Inductive pin_event := Tick | Enable | Disable | Write (b : bool) | Read (b : bool) | DelayUs (n : Z).
#[export] Instance pin_event_eq_dec : EqDecision pin_event.
Proof. solve_decision. Defined.

Definition HW_TIMER_DISABLED : Z := 0.
Definition HW_TIMER_READY : Z := 2.
Definition HW_TIMER_ACTIVE : Z := 3.
Definition HW_TIMER_STOPPED : Z := 4.
Definition DIV16_LOADVAL : Z := 44.

(** onewire_driver, the static variables of onewire.c and of its functions, the
    timer FRC1, and the outside: pin, queue and delays. *)
Record ow := {
  seq_arr : list Z;
  arg_arr : list Z;
  seq_len : Z;
  seq_state : Z;
  seq_pos : Z;
  error : Z;
  op_type : Z;
  cur_op : Z;
  delay_count : Z;
  spad_buf : list Z;
  UUID : list Z;
  have_uuid : Z;
  ow_state : Z;
  callback : option OW_cb_t;
  r_bitMask : Z;
  r_readsLeft : Z;
  r_readCount : Z;
  r_data : Z;
  w_bitMask : Z;
  w_data : Z;
  ow_task_arg : Z;
  latest_temp : Temperature;
  prev_temp : Temperature;
  hw_timer_state : Z;
  frc1_on : bool;   (** interrupts enabled and running *)
  frc1_load : Z;
  hw_running : Z;   (** ow_hw.running *)
  inputs : list bool;
  log : list pin_event;
  published : list (list Z);   (** what was handed to xQueueSendToBack; the allocation of the 7 bytes succeeds *)
}.

Definition eta_ow (s : ow) : ow := {|
  seq_arr := s.(seq_arr); arg_arr := s.(arg_arr); seq_len := s.(seq_len); seq_state := s.(seq_state); seq_pos := s.(seq_pos);
  error := s.(error); op_type := s.(op_type); cur_op := s.(cur_op); delay_count := s.(delay_count); spad_buf := s.(spad_buf);
  UUID := s.(UUID); have_uuid := s.(have_uuid); ow_state := s.(ow_state); callback := s.(callback); r_bitMask := s.(r_bitMask);
  r_readsLeft := s.(r_readsLeft); r_readCount := s.(r_readCount); r_data := s.(r_data); w_bitMask := s.(w_bitMask);
  w_data := s.(w_data); ow_task_arg := s.(ow_task_arg); latest_temp := s.(latest_temp); prev_temp := s.(prev_temp);
  hw_timer_state := s.(hw_timer_state); frc1_on := s.(frc1_on); frc1_load := s.(frc1_load); hw_running := s.(hw_running); inputs := s.(inputs);
  log := s.(log); published := s.(published) |}.

Definition set_seq_arr : list Z → ow → ow := ltac:(field_setter eta_ow seq_arr).
Definition set_arg_arr : list Z → ow → ow := ltac:(field_setter eta_ow arg_arr).
Definition set_seq_len : Z → ow → ow := ltac:(field_setter eta_ow seq_len).
Definition set_seq_state : Z → ow → ow := ltac:(field_setter eta_ow seq_state).
Definition set_seq_pos : Z → ow → ow := ltac:(field_setter eta_ow seq_pos).
Definition set_error : Z → ow → ow := ltac:(field_setter eta_ow error).
Definition set_op_type : Z → ow → ow := ltac:(field_setter eta_ow op_type).
Definition set_cur_op : Z → ow → ow := ltac:(field_setter eta_ow cur_op).
Definition set_delay_count : Z → ow → ow := ltac:(field_setter eta_ow delay_count).
Definition set_spad_buf : list Z → ow → ow := ltac:(field_setter eta_ow spad_buf).
Definition set_UUID : list Z → ow → ow := ltac:(field_setter eta_ow UUID).
Definition set_have_uuid : Z → ow → ow := ltac:(field_setter eta_ow have_uuid).
Definition set_ow_state : Z → ow → ow := ltac:(field_setter eta_ow ow_state).
Definition set_callback : option OW_cb_t → ow → ow := ltac:(field_setter eta_ow callback).
Definition set_r_bitMask : Z → ow → ow := ltac:(field_setter eta_ow r_bitMask).
Definition set_r_readsLeft : Z → ow → ow := ltac:(field_setter eta_ow r_readsLeft).
Definition set_r_readCount : Z → ow → ow := ltac:(field_setter eta_ow r_readCount).
Definition set_r_data : Z → ow → ow := ltac:(field_setter eta_ow r_data).
Definition set_w_bitMask : Z → ow → ow := ltac:(field_setter eta_ow w_bitMask).
Definition set_w_data : Z → ow → ow := ltac:(field_setter eta_ow w_data).
Definition set_ow_task_arg : Z → ow → ow := ltac:(field_setter eta_ow ow_task_arg).
Definition set_latest_temp : Temperature → ow → ow := ltac:(field_setter eta_ow latest_temp).
Definition set_prev_temp : Temperature → ow → ow := ltac:(field_setter eta_ow prev_temp).
Definition set_hw_timer_state : Z → ow → ow := ltac:(field_setter eta_ow hw_timer_state).
Definition set_frc1_on : bool → ow → ow := ltac:(field_setter eta_ow frc1_on).
Definition set_frc1_load : Z → ow → ow := ltac:(field_setter eta_ow frc1_load).
Definition set_hw_running : Z → ow → ow := ltac:(field_setter eta_ow hw_running).
Definition set_inputs : list bool → ow → ow := ltac:(field_setter eta_ow inputs).
Definition set_log : list pin_event → ow → ow := ltac:(field_setter eta_ow log).
Definition set_published : list (list Z) → ow → ow := ltac:(field_setter eta_ow published).

(** ** The pin *)

Definition note (e : pin_event) (s : ow) : ow := set_log (e :: s.(log)) s.
Definition gpio_enable (s : ow) : ow := note Enable s.
Definition gpio_disable (s : ow) : ow := note Disable s.
Definition gpio_write (b : bool) (s : ow) : ow := note (Write b) s.
Definition sdk_os_delay_us (n : Z) (s : ow) : ow := note (DelayUs n) s.
Definition gpio_read (s : ow) : bool * ow :=
  match s.(inputs) with
  | [] => (true, note (Read true) s)
  | b :: bs => (b, note (Read b) (set_inputs bs s))
  end.

(** ** The timer *)

Definition hw_timer_init (s : ow) : ow := set_hw_timer_state HW_TIMER_READY (set_hw_running 0 s).
Definition hw_timer_start (s : ow) : ow :=
  if s.(hw_timer_state) =? HW_TIMER_ACTIVE then s
  else set_hw_timer_state HW_TIMER_ACTIVE (set_frc1_on true (set_frc1_load DIV16_LOADVAL s)).
Definition hw_timer_stop (s : ow) : ow := set_hw_running HW_TIMER_STOPPED (set_frc1_on false s).
Definition hw_timer_restart (s : ow) : ow :=
  if negb (s.(hw_running) =? 0) then hw_timer_start (hw_timer_stop s) else s.

(** ** The three state machines *)

(** --one_driver->delay_count *)
Definition count_down (s : ow) : ow := set_delay_count (u8 (s.(delay_count) - 1)) s.

Definition OW_doit_reset (s : ow) : ow :=
  let op := s.(cur_op) in
  if op =? OW_RESET_OP_INIT then
    gpio_write false (gpio_enable (set_cur_op OW_RESET_OP_WAIT_480_LOW (set_delay_count 48 s)))
  else if op =? OW_RESET_OP_WAIT_480_LOW then
    let s := count_down s in
    if s.(delay_count) =? 0 then set_delay_count 6 (set_cur_op OW_RESET_OP_WAIT_60_RESP (gpio_disable s)) else s
  else if op =? OW_RESET_OP_WAIT_60_RESP then
    let s := count_down s in
    let '(level, s) := gpio_read s in
    if negb level then set_cur_op OW_RESET_OP_WAIT_480 (set_delay_count 47 s)
    else if s.(delay_count) =? 0 then
      set_seq_state OW_SEQ_STATE_DONE (set_error OW_ERROR_RESET_RESP_TIMEOUT (gpio_disable s))
    else s
  else if op =? OW_RESET_OP_WAIT_480 then
    let s := count_down s in
    if s.(delay_count) =? 0 then set_cur_op OW_RESET_OP_DONE s else s
  else if op =? OW_RESET_OP_DONE then
    set_seq_state OW_SEQ_STATE_TRANSITION (set_seq_pos (u8 (s.(seq_pos) + 1)) s)
  else set_error OW_ERROR_INVALID_OP s.

Definition read_line_low (s : ow) : ow :=
  set_cur_op OW_READ_OP_SAMPLE (gpio_disable (sdk_os_delay_us 2 (gpio_write false (gpio_enable s)))).

(** The switch of OW_doit_read; [None]: an access outside of an array. *)
Definition read_switch (s : ow) : option ow :=
  let op := s.(cur_op) in
  if op =? OW_READ_OP_INIT then
    arg ← s.(arg_arr) !! Z.to_nat s.(seq_pos);
    let s := set_r_readsLeft arg (set_r_data 0 (set_r_readCount 0 (set_r_bitMask 1 s))) in
    Some (read_line_low (set_cur_op OW_READ_OP_LINE_LOW s))
  else if op =? OW_READ_OP_LINE_LOW then Some (read_line_low s)
  else if op =? OW_READ_OP_SAMPLE then
    let '(sample, s) := gpio_read s in
    let s := if sample : bool then set_r_data (Z.lor s.(r_data) s.(r_bitMask)) s else s in
    let s := set_r_bitMask (u8 (Z.shiftl s.(r_bitMask) 1)) s in
    Some (set_cur_op OW_READ_OP_WAIT_50 (set_delay_count 4 s))
  else if op =? OW_READ_OP_WAIT_50 then
    let s := count_down s in
    if s.(delay_count) =? 0 then
      if s.(r_bitMask) =? 0 then
        if s.(r_readCount) <? zlength s.(spad_buf) then
          let s := set_spad_buf (<[Z.to_nat s.(r_readCount) := s.(r_data)]> s.(spad_buf)) s in
          let s := set_r_bitMask 1 (set_r_data 0 (set_r_readCount (u8 (s.(r_readCount) + 1)) s)) in
          let s := set_r_readsLeft (u8 (s.(r_readsLeft) - 1)) s in
          if s.(r_readsLeft) =? 0 then Some (set_cur_op OW_READ_OP_DONE s)
          else Some (read_line_low (set_cur_op OW_READ_OP_LINE_LOW s))
        else None
      else Some (read_line_low (set_cur_op OW_READ_OP_LINE_LOW s))
    else Some s
  else Some s.

Definition OW_doit_read (s : ow) : option ow :=
  s ← read_switch s;
  Some (if s.(cur_op) =? OW_READ_OP_DONE
        then set_seq_pos (u8 (s.(seq_pos) + 1)) (set_seq_state OW_SEQ_STATE_TRANSITION s) else s).

Definition write_line_low (s : ow) : ow :=
  let s := if negb (Z.land s.(w_bitMask) s.(w_data) =? 0) then set_delay_count 6 (set_cur_op OW_WRITE_OP_WRITE_FIRST s)
           else set_delay_count 6 (set_cur_op OW_WRITE_OP_WAIT_FIRST s) in
  gpio_enable (gpio_write false s).

(** The switch of OW_doit_write. *)
Definition write_switch (s : ow) : option ow :=
  let op := s.(cur_op) in
  if op =? OW_WRITE_OP_INIT then
    arg ← s.(arg_arr) !! Z.to_nat s.(seq_pos);
    Some (set_cur_op OW_WRITE_OP_LINE_LOW (set_w_bitMask 1 (set_w_data arg s)))
  else if op =? OW_WRITE_OP_LINE_LOW then Some (write_line_low s)
  else if op =? OW_WRITE_OP_WRITE_FIRST then
    let s := if s.(delay_count) =? 6 then gpio_write true s else s in
    let s := count_down s in
    Some (if s.(delay_count) =? 0 then set_cur_op OW_WRITE_OP_FINALLY s else s)
  else if op =? OW_WRITE_OP_WAIT_FIRST then
    let s := count_down s in
    Some (if s.(delay_count) =? 0 then set_cur_op OW_WRITE_OP_FINALLY (gpio_write true s) else s)
  else if op =? OW_WRITE_OP_FINALLY then
    let s := set_w_bitMask (u8 (Z.shiftl s.(w_bitMask) 1)) s in
    if s.(w_bitMask) =? 0 then Some (set_cur_op OW_WRITE_OP_DONE s)
    else Some (write_line_low (set_cur_op OW_WRITE_OP_LINE_LOW s))
  else Some s.

Definition OW_doit_write (s : ow) : option ow :=
  s ← write_switch s;
  Some (if s.(cur_op) =? OW_WRITE_OP_DONE
        then set_seq_pos (u8 (s.(seq_pos) + 1)) (set_seq_state OW_SEQ_STATE_TRANSITION s) else s).

(** ** The ends of the sequences *)

Definition OW_handle_error (s : ow) : ow := set_ow_state OW_STATE_READY (set_error OW_ERROR_NONE (hw_timer_stop s)).

Definition is_blank (b : Z) : bool := (b =? 0) || (b =? 0xff).

Definition read_uuid_done_cb (s : ow) : ow :=
  if negb (s.(error) =? 0) then OW_handle_error s
  else
    let s := set_ow_task_arg DS_SEQ_CONV_T (hw_timer_stop s) in
    let s := set_UUID (DS_FAMILY_CODE :: take 7 s.(spad_buf)) s in
    let j := zlength (filter (λ b, is_blank b = true) (drop 1 s.(UUID))) in
    let s := set_have_uuid (if j =? OW_UUID_LEN - 1 then 0 else 1) s in
    set_seq_state OW_SEQ_STATE_INIT s.

Definition conv_t_done_cb (s : ow) : ow :=
  if negb (s.(error) =? 0) then OW_handle_error s
  else set_seq_state OW_SEQ_STATE_INIT (set_ow_task_arg DS_SEQ_READ_T (hw_timer_stop s)).

(** sprintf(buf, "%c%d.%02d", ..) *)
Definition format_temperature (t : Temperature) : list Z :=
  t.(sign) :: print_nat t.(val) ++ [46] ++ (if t.(fract) <? 10 then [48] else []) ++ print_nat t.(fract).

(** What memcpy takes of [buf] into the block of 7 bytes, of which the last is the
    terminator.  Behind the text there is its terminator; what an earlier text
    left behind that is not part of the string. *)
Definition publish_buffer (text : list Z) : list Z := take 6 (text ++ [0]) ++ [0].

Definition OW_queue_temperature (s : ow) : ow :=
  if negb (s.(latest_temp).(available) =? 0) then
    if decide (s.(prev_temp) = s.(latest_temp)) then s
    else
      let s := set_prev_temp s.(latest_temp) s in
      set_published (s.(published) ++ [publish_buffer (format_temperature s.(latest_temp))]) s
  else s.

(** The temperature in the first two bytes of the scratchpad. *)
Definition temperature_of (lo hi : Z) : Temperature :=
  let reading := Z.lor (Z.shiftl hi 8) lo in
  let neg := negb (Z.land reading 0x8000 =? 0) in
  let reading := if neg then u16 (Z.lxor reading 0xffff + 1) else reading in
  {| sign := if neg then 45 else 43; val := Z.shiftr reading 4; fract := Z.land reading 0xf * 100 / 16; available := 1 |}.

Definition read_temp_done_cb (s : ow) : option ow :=
  if negb (s.(error) =? 0) then Some (OW_handle_error s)
  else
    let s := hw_timer_stop s in
    crc ← onewire_crc8 s.(spad_buf) 8;
    let s := if crc =? at_ s.(spad_buf) 8
             then OW_queue_temperature (set_latest_temp (temperature_of (at_ s.(spad_buf) 0) (at_ s.(spad_buf) 1)) s) else s in
    Some (set_ow_task_arg DS_SEQ_NEXT_READ_T (set_spad_buf (replicate (Z.to_nat OW_SPAD_SIZE) 0) s)).

Definition run_callback (s : ow) : option ow :=
  match s.(callback) with
  | None => Some s
  | Some read_uuid_done => Some (read_uuid_done_cb s)
  | Some conv_t_done => Some (conv_t_done_cb s)
  | Some read_temp_done => read_temp_done_cb s
  end.

(** ** The interrupt *)

(** A new operation starts with its first step [INIT], which is 1 for each. *)
Definition start_op (s : ow) : ow :=
  if s.(seq_state) =? OW_SEQ_STATE_TRANSITION then set_cur_op 1 (set_seq_state OW_SEQ_STATE_STARTED s) else s.

(** The first switch of OW_doit. *)
Definition doit_op (s : ow) : option ow :=
  let type := s.(op_type) in
  if type =? OW_OP_READ then OW_doit_read (start_op s)
  else if type =? OW_OP_WRITE then OW_doit_write (start_op s)
  else if type =? OW_OP_RESET then Some (OW_doit_reset (start_op s))
  else Some (set_seq_state OW_SEQ_STATE_DONE s).

(** The second switch of OW_doit. *)
Definition doit_state (s : ow) : option ow :=
  let state := s.(seq_state) in
  if state =? OW_SEQ_STATE_INIT then Some (set_seq_state OW_SEQ_STATE_STARTED s)
  else if state =? OW_SEQ_STATE_TRANSITION then
    if s.(seq_len) <=? s.(seq_pos) then Some (set_seq_state OW_SEQ_STATE_DONE (set_op_type OW_OP_END s))
    else op ← s.(seq_arr) !! Z.to_nat s.(seq_pos); Some (set_cur_op 0 (set_op_type op s))
  else if state =? OW_SEQ_STATE_DONE then run_callback s
  else Some s.

Definition OW_doit (s : ow) : option ow := s ← doit_op s; doit_state s.

Definition frc1_interrupt_handler (s : ow) : option ow :=
  s ← OW_doit (note Tick s); Some (set_frc1_load DIV16_LOADVAL s).

(** ** The tasks *)

Definition OW_init_seq (seq : Z) (s : ow) : option ow :=
  sa ← ds_seqs !! Z.to_nat seq; aa ← ds_seq_args !! Z.to_nat seq; sl ← ds_seq_lens !! Z.to_nat seq;
  let s := set_seq_len sl (set_arg_arr aa (set_seq_arr sa s)) in
  let s := set_ow_task_arg seq (set_error OW_ERROR_NONE (set_seq_state OW_SEQ_STATE_TRANSITION s)) in
  if seq =? DS_SEQ_UUID_T then Some (hw_timer_start (hw_timer_init (set_callback (Some read_uuid_done) s)))
  else if seq =? DS_SEQ_CONV_T then Some (hw_timer_start (hw_timer_init (set_callback (Some conv_t_done) s)))
  else if seq =? DS_SEQ_READ_T then Some (hw_timer_start (hw_timer_init (set_callback (Some read_temp_done) s)))
  else Some (set_callback None (set_ow_task_arg 0 s)).

(** One turn of the loop of OW_init_seq_task, up to its delays; the milliseconds
    before and after OW_init_seq. *)
Definition OW_init_seq_task (s : ow) : option (Z * Z * ow) :=
  if s.(seq_state) =? OW_SEQ_STATE_INIT then
    op ← head s.(seq_arr);
    let s := set_seq_pos 0 (set_cur_op 0 (set_op_type op s)) in
    let arg := s.(ow_task_arg) in
    if arg =? DS_SEQ_UUID_T then s ← OW_init_seq DS_SEQ_UUID_T s; Some (0, 1, s)
    else if arg =? DS_SEQ_CONV_T then s ← OW_init_seq DS_SEQ_CONV_T s; Some (15, 1, s)
    else if arg =? DS_SEQ_READ_T then s ← OW_init_seq DS_SEQ_READ_T s; Some (750, 1, s)
    else if arg =? DS_SEQ_NEXT_READ_T then s ← OW_init_seq DS_SEQ_CONV_T s; Some (0, 2431 + 1, s)
    else Some (0, 2512 + 1, set_seq_state 0 s)
  else Some (0, 25, s).

(** memset with sizeof(OW_SPAD_SIZE), the size of an int. *)
Definition OW_request_new_temp (s : ow) : option (bool * ow) :=
  let s := set_spad_buf (replicate 4 0 ++ drop 4 s.(spad_buf)) s in
  if negb (s.(ow_state) =? OW_STATE_READY) then Some (false, s)
  else
    let s := gpio_enable s in
    let seq := if negb (s.(have_uuid) =? 0) then DS_SEQ_CONV_T else DS_SEQ_UUID_T in
    sa ← ds_seqs !! Z.to_nat seq; aa ← ds_seq_args !! Z.to_nat seq; sl ← ds_seq_lens !! Z.to_nat seq;
    let s := set_seq_len sl (set_arg_arr aa (set_seq_arr sa s)) in
    let s := set_callback (Some (if negb (s.(have_uuid) =? 0) then conv_t_done else read_uuid_done)) (set_ow_task_arg seq s) in
    Some (true, set_seq_state OW_SEQ_STATE_INIT (set_error OW_ERROR_NONE s)).

Definition OW_init (s : ow) : ow :=
  let s := {| seq_arr := []; arg_arr := []; seq_len := 0; seq_state := 0; seq_pos := 0; error := 0; op_type := 0; cur_op := 0;
              delay_count := 0; spad_buf := replicate (Z.to_nat OW_SPAD_SIZE) 0; UUID := replicate 8 0; have_uuid := 0;
              ow_state := 0; callback := None; r_bitMask := s.(r_bitMask); r_readsLeft := s.(r_readsLeft);
              r_readCount := s.(r_readCount); r_data := s.(r_data); w_bitMask := s.(w_bitMask); w_data := s.(w_data);
              ow_task_arg := s.(ow_task_arg); latest_temp := no_temperature; prev_temp := s.(prev_temp);
              hw_timer_state := s.(hw_timer_state); frc1_on := s.(frc1_on); frc1_load := s.(frc1_load);
              hw_running := s.(hw_running); inputs := s.(inputs); log := s.(log); published := s.(published) |} in
  set_ow_state OW_STATE_READY (hw_timer_init (gpio_enable s)).
