(* ===== verification/OneWireSpec.v ===== *)
(** OneWireSpec: the waveforms of the bus and what the state machines do. *)

From S2P Require Import Prelude CString OneWire.

(** [n] periods of the timer; it interrupts while it is on. *)
Fixpoint run (n : nat) (s : ow) : option ow :=
  match n with
  | O => Some s
  | S n => if s.(frc1_on) then s ← frc1_interrupt_handler s; run n s else Some s
  end.

Lemma run_add n m s : run (n + m) s = run n s ≫= run m.
Proof.
  revert s. induction n as [|n IH]; intros s; [done|]. cbn. destruct (frc1_on s) eqn:E.
  - destruct (frc1_interrupt_handler s); cbn; [apply IH|done].
  - destruct m; cbn; [done|]. by rewrite E.
Qed.

(** Evaluates the comparisons of constants. *)
Ltac eval_ops := repeat match goal with
  | |- context [?a =? ?b] =>
      let r := eval vm_compute in (a =? b) in
      lazymatch r with true => change (a =? b) with true | false => change (a =? b) with false end; cbn match
  end.

(** ** Reset *)

(** The pin during the reset pulse, the last event first. *)
Definition reset_pulse : list pin_event := Disable :: replicate 48 Tick ++ [Write false; Enable; Tick].

Lemma run_reset_pulse s : s.(op_type) = OW_OP_RESET → s.(seq_state) = OW_SEQ_STATE_TRANSITION → s.(frc1_on) = true →
  run 49 s = Some (set_cur_op OW_RESET_OP_WAIT_60_RESP (set_delay_count 6 (set_seq_state OW_SEQ_STATE_STARTED
    (set_frc1_load DIV16_LOADVAL (set_log (reset_pulse ++ s.(log)) s))))).
Proof. intros E1 E2 E3. destruct s. cbn in E1, E2, E3. subst. vm_compute. reflexivity. Qed.

(** Presence: the line is high for [k] samples and then low. *)
Definition presence_log (k : nat) : list pin_event :=
  replicate 48 Tick ++ [Read false; Tick] ++ concat (replicate k [Read true; Tick]).

(** The next operation of the sequence, or its end. *)
Definition next_op (s : ow) : option ow :=
  doit_state (set_seq_state OW_SEQ_STATE_TRANSITION (set_seq_pos (u8 (s.(seq_pos) + 1)) s)).

(** The state after the reset pulse. *)
Definition awaiting (d : Z) (s : ow) : ow :=
  set_cur_op OW_RESET_OP_WAIT_60_RESP (set_delay_count d (set_seq_state OW_SEQ_STATE_STARTED (set_frc1_load DIV16_LOADVAL s))).

Lemma run_presence bs s : s.(op_type) = OW_OP_RESET → s.(frc1_on) = true → s.(inputs) = false :: bs → ∀ d, 1 ≤ d ≤ 6 →
  run 48 (awaiting d s) = Some (set_cur_op OW_RESET_OP_DONE (set_delay_count 0 (set_seq_state OW_SEQ_STATE_STARTED
    (set_inputs bs (set_frc1_load DIV16_LOADVAL (set_log (replicate 47 Tick ++ [Read false; Tick] ++ s.(log)) s)))))).
Proof.
  intros E1 E2 E3 d Hd. destruct s. cbn in E1, E2, E3. subst.
  assert (d = 1 ∨ d = 2 ∨ d = 3 ∨ d = 4 ∨ d = 5 ∨ d = 6) as [->|[->|[->|[->|[->| ->]]]]] by lia; vm_compute; reflexivity.
Qed.

Lemma run_silence bs s : s.(op_type) = OW_OP_RESET → s.(frc1_on) = true → s.(inputs) = true :: bs → ∀ d, 2 ≤ d ≤ 6 →
  run 1 (awaiting d s) = Some (awaiting (d - 1) (set_inputs bs (set_log (Read true :: Tick :: s.(log)) s))).
Proof.
  intros E1 E2 E3 d Hd. destruct s. cbn in E1, E2, E3. subst.
  assert (d = 2 ∨ d = 3 ∨ d = 4 ∨ d = 5 ∨ d = 6) as [->|[->|[->|[->| ->]]]] by lia; vm_compute; reflexivity.
Qed.

(** ** Writing a byte *)

(** The pin in the slot of a bit, in the order of time: the line goes low; for a 1
    it is released after 10 us, for a 0 after 60 us; the next slot may start after
    70 us. *)
Definition write_slot (bit : bool) : list pin_event :=
  [Write false; Enable] ++ (if bit then Tick :: Write true :: replicate 5 Tick else replicate 6 Tick ++ [Write true]) ++ [Tick].

Definition bits (b : Z) : list bool := (λ i, Z.testbit b i) <$> seqZ 0 8.

Definition write_wave (b : Z) : list pin_event := [Tick; Tick] ++ concat (write_slot <$> bits b).

(** The line is low for the bit [i] of [b]. *)
Definition in_slot (bit : bool) (b i : Z) (s : ow) : ow :=
  set_cur_op (if bit then OW_WRITE_OP_WRITE_FIRST else OW_WRITE_OP_WAIT_FIRST) (set_delay_count 6 (set_w_bitMask (2 ^ i) (set_w_data b
    (set_seq_state OW_SEQ_STATE_STARTED (set_frc1_load DIV16_LOADVAL (set_log (Enable :: Write false :: s.(log)) s)))))).

Lemma mask_bit b i : 0 ≤ i → (Z.land (2 ^ i) b =? 0) = negb (Z.testbit b i).
Proof.
  intros Hi. rewrite Z.land_comm. destruct (Z.testbit b i) eqn:E; cbn.
  - apply Z.eqb_neq. intros H. apply (f_equal (λ x, Z.testbit x i)) in H. rewrite Z.land_spec, E, Z.pow2_bits_true, Z.bits_0 in H by done. done.
  - apply Z.eqb_eq. apply Z.bits_inj'. intros n Hn. rewrite Z.land_spec, Z.bits_0, Z.pow2_bits_eqb by done.
    destruct (Z.eqb_spec i n) as [->|]; [by rewrite E|by rewrite andb_false_r].
Qed.

Lemma line_low_slot b i s : 0 ≤ i → s.(w_bitMask) = 2 ^ i → s.(w_data) = b → s.(seq_state) = OW_SEQ_STATE_STARTED →
  set_frc1_load DIV16_LOADVAL (write_line_low s) = in_slot (Z.testbit b i) b i s.
Proof.
  intros Hi E1 E2 E3. unfold write_line_low. rewrite E1, E2, mask_bit by done. destruct s. cbn in E1, E2, E3. subst.
  by destruct (Z.testbit b i).
Qed.

(** The six interrupts of a slot before its last one. *)
Lemma run_slot_wait bit b i s : s.(op_type) = OW_OP_WRITE → s.(frc1_on) = true →
  run 6 (in_slot bit b i s) = Some (set_cur_op OW_WRITE_OP_FINALLY (set_delay_count 0 (set_w_bitMask (2 ^ i) (set_w_data b
    (set_seq_state OW_SEQ_STATE_STARTED (set_frc1_load DIV16_LOADVAL (set_log (drop 1 (reverse (write_slot bit)) ++ s.(log)) s))))))).
Proof.
  intros E1 E2. unfold in_slot. set (m := 2 ^ i). clearbody m. destruct s. cbn in E1, E2. subst. destruct bit; vm_compute; reflexivity.
Qed.

Lemma shift_mask i : 0 ≤ i < 7 → u8 (Z.shiftl (2 ^ i) 1) = 2 ^ (i + 1) ∧ 2 ^ (i + 1) ≠ 0.
Proof.
  intros Hi. rewrite Z.shiftl_mul_pow2, <- Z.pow_add_r by lia. assert (2 ^ (i + 1) < 2 ^ 8) by (apply Z.pow_lt_mono_r; lia).
  assert (0 < 2 ^ (i + 1)) by (apply Z.pow_pos_nonneg; lia). split; [|lia]. unfold u8. apply Z.mod_small. lia.
Qed.

(** One interrupt of a running operation. *)
Lemma run_write_step s s' : s.(op_type) = OW_OP_WRITE → s.(seq_state) = OW_SEQ_STATE_STARTED → s.(frc1_on) = true →
  OW_doit_write (note Tick s) = Some s' → run 1 s = set_frc1_load DIV16_LOADVAL <$> doit_state s'.
Proof.
  intros E1 E2 E3 E. cbn [run]. rewrite E3. unfold frc1_interrupt_handler, OW_doit, doit_op.
  change (op_type (note Tick s)) with (op_type s). rewrite E1. eval_ops. unfold start_op.
  change (seq_state (note Tick s)) with (seq_state s). rewrite E2. eval_ops. rewrite E. cbn [mbind option_bind].
  by destruct (doit_state s').
Qed.

Lemma write_more m s : s.(cur_op) = OW_WRITE_OP_FINALLY → u8 (Z.shiftl s.(w_bitMask) 1) = m → m ≠ 0 →
  OW_doit_write s = Some (write_line_low (set_cur_op OW_WRITE_OP_LINE_LOW (set_w_bitMask m s))).
Proof.
  intros E Em Hm. unfold OW_doit_write, write_switch. rewrite E, Em. eval_ops. change (w_bitMask (set_w_bitMask m s)) with m.
  rewrite (proj2 (Z.eqb_neq m 0) Hm). cbn [mbind option_bind]. unfold write_line_low. destruct (negb _); reflexivity.
Qed.

Lemma write_last s : s.(cur_op) = OW_WRITE_OP_FINALLY → s.(w_bitMask) = 2 ^ 7 →
  OW_doit_write s = Some (set_seq_pos (u8 (s.(seq_pos) + 1)) (set_seq_state OW_SEQ_STATE_TRANSITION
    (set_cur_op OW_WRITE_OP_DONE (set_w_bitMask 0 s)))).
Proof. intros E Em. unfold OW_doit_write, write_switch. rewrite E, Em. reflexivity. Qed.

Lemma run_slot bit b i s : s.(op_type) = OW_OP_WRITE → s.(frc1_on) = true → 0 ≤ i < 7 →
  run 7 (in_slot bit b i s) = Some (in_slot (Z.testbit b (i + 1)) b (i + 1) (set_log (reverse (write_slot bit) ++ s.(log)) s)).
Proof.
  intros E1 E2 Hi. change 7%nat with (6 + 1)%nat. rewrite run_add, run_slot_wait by done. cbn [mbind option_bind].
  destruct (shift_mask i Hi) as [Em Hm].
  erewrite run_write_step; [|done..|apply (write_more (2 ^ (i + 1))); done].
  set (s1 := set_cur_op OW_WRITE_OP_LINE_LOW _). assert (Hl := line_low_slot b (i + 1) s1 ltac:(lia) eq_refl eq_refl eq_refl).
  assert (Hd : doit_state (write_line_low s1) = Some (write_line_low s1)).
  { unfold doit_state, write_line_low. by destruct (negb _). }
  rewrite Hd. cbn [fmap option_fmap option_map]. rewrite Hl. f_equal. unfold s1. destruct s. by destruct bit.
Qed.

(** The last bit; the next operation is set up in the same interrupt. *)
Lemma run_last_slot bit b s : s.(op_type) = OW_OP_WRITE → s.(frc1_on) = true →
  run 7 (in_slot bit b 7 s) = set_frc1_load DIV16_LOADVAL <$> next_op (set_cur_op OW_WRITE_OP_DONE (set_delay_count 0 (set_w_bitMask 0 (set_w_data b
    (set_frc1_load DIV16_LOADVAL (set_log (reverse (write_slot bit) ++ s.(log)) s)))))).
Proof.
  intros E1 E2. change 7%nat with (6 + 1)%nat. rewrite run_add, run_slot_wait by done. cbn [mbind option_bind].
  erewrite run_write_step; [|done..|by apply write_last]. unfold next_op. f_equal. f_equal. destruct s. by destruct bit.
Qed.

Lemma run_slots b n : ∀ i s, s.(op_type) = OW_OP_WRITE → s.(frc1_on) = true → 0 ≤ i → i + Z.of_nat n = 7 →
  run (n * 7) (in_slot (Z.testbit b i) b i s) = Some (in_slot (Z.testbit b 7) b 7
    (set_log (reverse (concat ((λ j, write_slot (Z.testbit b j)) <$> seqZ i (Z.of_nat n))) ++ s.(log)) s)).
Proof.
  induction n as [|n IH]; intros i s E1 E2 Hi Hn.
  - replace i with 7 by lia. reflexivity.
  - change (S n * 7)%nat with (7 + n * 7)%nat. rewrite run_add, run_slot by (done || lia). cbn [mbind option_bind].
    rewrite IH by (done || lia). f_equal. rewrite (seqZ_cons i) by lia.
    replace (Z.pred (Z.of_nat (S n))) with (Z.of_nat n) by lia. cbn [fmap list_fmap concat]. rewrite reverse_app.
    unfold in_slot. cbn [log set_log]. rewrite <- (assoc_L (++)). replace (Z.succ i) with (i + 1) by lia. reflexivity.
Qed.

(** The two interrupts before the first bit. *)
Lemma run_write_start b s : s.(op_type) = OW_OP_WRITE → s.(seq_state) = OW_SEQ_STATE_TRANSITION → s.(frc1_on) = true →
  s.(arg_arr) !! Z.to_nat s.(seq_pos) = Some b →
  run 2 s = Some (in_slot (Z.testbit b 0) b 0 (set_log (Tick :: Tick :: s.(log)) s)).
Proof.
  intros E1 E2 E3 E4. change 2%nat with (1 + 1)%nat. rewrite run_add.
  set (s1 := set_cur_op OW_WRITE_OP_LINE_LOW (set_w_bitMask 1 (set_w_data b (set_seq_state OW_SEQ_STATE_STARTED
    (set_frc1_load DIV16_LOADVAL (note Tick s)))))).
  assert (H1 : run 1 s = Some s1).
  { cbn [run]. rewrite E3. unfold frc1_interrupt_handler, OW_doit, doit_op. change (op_type (note Tick s)) with (op_type s). rewrite E1. eval_ops.
    unfold start_op. change (seq_state (note Tick s)) with (seq_state s). rewrite E2. eval_ops. unfold OW_doit_write, write_switch.
    set (s2 := set_cur_op 1 _). change (cur_op s2) with 1. eval_ops. change (arg_arr s2) with (arg_arr s). change (seq_pos s2) with (seq_pos s).
    rewrite E4. cbn [mbind option_bind]. unfold s1, s2. destruct s. reflexivity. }
  rewrite H1. cbn [mbind option_bind].
  assert (H2 : OW_doit_write (note Tick s1) = Some (write_line_low (note Tick s1))).
  { unfold OW_doit_write, write_switch. change (cur_op (note Tick s1)) with OW_WRITE_OP_LINE_LOW. eval_ops. cbn [mbind option_bind].
    unfold write_line_low. by destruct (negb _). }
  erewrite run_write_step; [|done..|exact H2].
  assert (Hd : doit_state (write_line_low (note Tick s1)) = Some (write_line_low (note Tick s1))).
  { unfold doit_state, write_line_low. by destruct (negb _). }
  rewrite Hd. cbn [fmap option_fmap option_map].
  rewrite (line_low_slot b 0 (note Tick s1) ltac:(lia) eq_refl eq_refl eq_refl). reflexivity.
Qed.

Lemma run_write b s : s.(op_type) = OW_OP_WRITE → s.(seq_state) = OW_SEQ_STATE_TRANSITION → s.(frc1_on) = true →
  s.(arg_arr) !! Z.to_nat s.(seq_pos) = Some b →
  run 58 s = set_frc1_load DIV16_LOADVAL <$> next_op (set_cur_op OW_WRITE_OP_DONE (set_delay_count 0 (set_w_bitMask 0 (set_w_data b
    (set_frc1_load DIV16_LOADVAL (set_log (reverse (write_wave b) ++ s.(log)) s)))))).
Proof.
  intros E1 E2 E3 E4. change 58%nat with (2 + (7 * 7 + 7))%nat. rewrite run_add, (run_write_start b) by done. cbn [mbind option_bind].
  rewrite run_add, (run_slots b 7 0) by done. cbn [mbind option_bind]. rewrite run_last_slot by done. f_equal. f_equal.
  assert (El : reverse (write_slot (Z.testbit b 7)) ++ reverse (concat ((λ j, write_slot (Z.testbit b j)) <$> seqZ 0 (Z.of_nat 7))) ++ Tick :: Tick :: s.(log)
    = reverse (write_wave b) ++ s.(log)).
  { unfold write_wave, bits. rewrite <- list_fmap_compose. change (seqZ 0 8) with (seqZ 0 (Z.of_nat 7) ++ [7]).
    rewrite fmap_app, concat_app, !reverse_app. cbn [fmap list_fmap concat]. rewrite app_nil_r. rewrite <- !(assoc_L (++)). reflexivity. }
  cbn [log set_log]. rewrite El. reflexivity.
Qed.
