(* ===== verification/OneWireRead.v ===== *)
(** OneWireRead: what the state machine for reading does. *)

From S2P Require Import Prelude CString OneWire OneWireSpec.

(** The pin in the slot of a bit, in the order of time: a pulse of 2 us, the
    sample after 10 us; the next slot starts after 50 us. *)
Definition read_slot (bit : bool) : list pin_event :=
  [Enable; Write false; DelayUs 2; Disable; Tick; Read bit] ++ replicate 4 Tick.

Definition read_wave (bs : list bool) : list pin_event := Tick :: concat (read_slot <$> bs).

Definition add_bit (d i : Z) (bit : bool) : Z := if bit then Z.lor d (2 ^ i) else d.

(** The slot of bit [i] has begun; [d], [c], [l]: the data so far, the bytes that
    were read and those that are left. *)
Definition reading (i d c l : Z) (s : ow) : ow :=
  set_cur_op OW_READ_OP_SAMPLE (set_r_bitMask (2 ^ i) (set_r_data d (set_r_readCount c (set_r_readsLeft l
    (set_seq_state OW_SEQ_STATE_STARTED (set_frc1_load DIV16_LOADVAL
      (set_log (Disable :: DelayUs 2 :: Write false :: Enable :: s.(log)) s))))))).

Lemma run_read_step s s' : s.(op_type) = OW_OP_READ → s.(seq_state) = OW_SEQ_STATE_STARTED → s.(frc1_on) = true →
  OW_doit_read (note Tick s) = Some s' → run 1 s = set_frc1_load DIV16_LOADVAL <$> doit_state s'.
Proof.
  intros E1 E2 E3 E. cbn [run]. rewrite E3. unfold frc1_interrupt_handler, OW_doit, doit_op.
  change (op_type (note Tick s)) with (op_type s). rewrite E1. eval_ops. unfold start_op.
  change (seq_state (note Tick s)) with (seq_state s). rewrite E2. eval_ops. rewrite E. cbn [mbind option_bind].
  by destruct (doit_state s').
Qed.

(** The first four interrupts of a slot. *)
Lemma run_slot_sample bit bs i d c l s : s.(op_type) = OW_OP_READ → s.(frc1_on) = true → s.(inputs) = bit :: bs →
  run 4 (reading i d c l s) = Some (set_cur_op OW_READ_OP_WAIT_50 (set_delay_count 1 (set_r_bitMask (u8 (Z.shiftl (2 ^ i) 1))
    (set_r_data (add_bit d i bit) (set_r_readCount c (set_r_readsLeft l (set_seq_state OW_SEQ_STATE_STARTED (set_frc1_load DIV16_LOADVAL
      (set_inputs bs (set_log (drop 1 (reverse (read_slot bit)) ++ s.(log)) s)))))))))).
Proof.
  intros E1 E2 E3. unfold reading, add_bit. generalize (2 ^ i) as m. intros m. destruct s. cbn in E1, E2, E3. subst.
  destruct bit; vm_compute; reflexivity.
Qed.


Lemma run_read_bit bit bs i d c l s : s.(op_type) = OW_OP_READ → s.(frc1_on) = true → s.(inputs) = bit :: bs → 0 ≤ i < 7 →
  run 5 (reading i d c l s) = Some (reading (i + 1) (add_bit d i bit) c l
    (set_delay_count 0 (set_inputs bs (set_log (reverse (read_slot bit) ++ s.(log)) s)))).
Proof.
  intros E1 E2 E3 Hi. change 5%nat with (4 + 1)%nat. rewrite run_add, (run_slot_sample bit bs) by done. cbn [mbind option_bind].
  destruct (shift_mask i Hi) as [-> Hm]. set (s1 := set_cur_op OW_READ_OP_WAIT_50 _).
  assert (H : OW_doit_read (note Tick s1) = Some (read_line_low (set_cur_op OW_READ_OP_LINE_LOW (count_down (note Tick s1))))).
  { unfold OW_doit_read, read_switch. change (cur_op (note Tick s1)) with OW_READ_OP_WAIT_50. eval_ops.
    change (delay_count (count_down (note Tick s1))) with 0. eval_ops. change (r_bitMask (count_down (note Tick s1))) with (2 ^ (i + 1)).
    rewrite (proj2 (Z.eqb_neq _ _) Hm). reflexivity. }
  erewrite run_read_step; [|done..|exact H]. reflexivity.
Qed.

(** The value that the samples [bs] give from bit [i] on. *)
Fixpoint gather (i d : Z) (bs : list bool) : Z :=
  match bs with [] => d | b :: bs => gather (i + 1) (add_bit d i b) bs end.

Lemma gather_bits b : 0 ≤ b < 256 → gather 0 0 (bits b) = b.
Proof.
  intros Hb. assert (H : Forall (λ b, gather 0 0 (bits b) = b) (seqZ 0 256)).
  { apply (bool_decide_unpack _). vm_compute. exact I. }
  rewrite Forall_forall in H. apply H, elem_of_seqZ. lia.
Qed.

Lemma run_read_bits bs : ∀ i d c l rest s, s.(op_type) = OW_OP_READ → s.(frc1_on) = true → s.(inputs) = bs ++ rest →
  0 ≤ i → i + zlength bs = 7 →
  run (length bs * 5) (reading i d c l s) = Some (reading 7 (gather i d bs) c l (set_delay_count (match bs with [] => s.(delay_count) | _ => 0 end)
    (set_inputs rest (set_log (reverse (concat (read_slot <$> bs)) ++ s.(log)) s)))).
Proof.
  induction bs as [|b bs IH]; intros i d c l rest s E1 E2 E3 Hi Hl; try rewrite length_cons in Hl.
  - cbn in Hl. replace i with 7 by lia. cbn in E3. subst rest. by destruct s.
  - change (length (b :: bs) * 5)%nat with (5 + length bs * 5)%nat. rewrite run_add, (run_read_bit b (bs ++ rest)) by (done || lia).
    cbn [mbind option_bind]. rewrite (IH (i + 1) _ c l rest) by (done || (lia)).
    cbn [fmap list_fmap concat gather]. rewrite reverse_app, <- (assoc_L (++)). by destruct s, bs.
Qed.

(** A byte and another one after it. *)
Lemma run_read_more bit bs d c l s : s.(op_type) = OW_OP_READ → s.(frc1_on) = true → s.(inputs) = bit :: bs →
  0 ≤ c < zlength s.(spad_buf) → c < 255 → 1 < l < 256 →
  run 5 (reading 7 d c l s) = Some (reading 0 0 (c + 1) (l - 1) (set_delay_count 0 (set_inputs bs
    (set_spad_buf (<[Z.to_nat c := add_bit d 7 bit]> s.(spad_buf)) (set_log (reverse (read_slot bit) ++ s.(log)) s))))).
Proof.
  intros E1 E2 E3 Hc Hc' Hl. change 5%nat with (4 + 1)%nat. rewrite run_add, (run_slot_sample bit bs) by done. cbn [mbind option_bind].
  change (u8 (Z.shiftl (2 ^ 7) 1)) with 0. set (s1 := set_cur_op OW_READ_OP_WAIT_50 _).
  assert (H : OW_doit_read (note Tick s1) = Some (read_line_low (set_cur_op OW_READ_OP_LINE_LOW (set_r_readsLeft (l - 1) (set_r_bitMask 1
    (set_r_data 0 (set_r_readCount (c + 1) (set_spad_buf (<[Z.to_nat c := add_bit d 7 bit]> s.(spad_buf)) (count_down (note Tick s1)))))))))).
  { unfold OW_doit_read, read_switch. change (cur_op (note Tick s1)) with OW_READ_OP_WAIT_50. eval_ops.
    change (delay_count (count_down (note Tick s1))) with 0. eval_ops. change (r_bitMask (count_down (note Tick s1))) with 0. eval_ops.
    change (r_readCount (count_down (note Tick s1))) with c. change (spad_buf (count_down (note Tick s1))) with s.(spad_buf).
    rewrite (proj2 (Z.ltb_lt c _)) by lia. set (s2 := count_down (note Tick s1)). change (r_data s2) with (add_bit d 7 bit).
    cbn [r_readCount set_spad_buf r_readsLeft set_r_bitMask set_r_data set_r_readCount]. change (r_readCount s2) with c. change (r_readsLeft s2) with l.
    rewrite (u8_small (c + 1)), (u8_small (l - 1)) by (unfold is_byte; lia). cbn [r_readsLeft set_r_readsLeft]. rewrite (proj2 (Z.eqb_neq (l - 1) 0)) by lia. reflexivity. }
  erewrite run_read_step; [|done..|exact H]. reflexivity.
Qed.

(** The last byte was read. *)
Definition read_end (c : Z) (s : ow) : ow :=
  set_cur_op OW_READ_OP_DONE (set_r_bitMask 1 (set_r_data 0 (set_r_readCount c (set_r_readsLeft 0 (set_delay_count 0
    (set_frc1_load DIV16_LOADVAL s)))))).

Lemma run_read_last bit bs d c s : s.(op_type) = OW_OP_READ → s.(frc1_on) = true → s.(inputs) = bit :: bs →
  0 ≤ c < zlength s.(spad_buf) → c < 255 →
  run 5 (reading 7 d c 1 s) = set_frc1_load DIV16_LOADVAL <$> next_op (read_end (c + 1) (set_inputs bs
    (set_spad_buf (<[Z.to_nat c := add_bit d 7 bit]> s.(spad_buf)) (set_log (reverse (read_slot bit) ++ s.(log)) s)))).
Proof.
  intros E1 E2 E3 Hc Hc'. change 5%nat with (4 + 1)%nat. rewrite run_add, (run_slot_sample bit bs) by done. cbn [mbind option_bind].
  change (u8 (Z.shiftl (2 ^ 7) 1)) with 0. set (s1 := set_cur_op OW_READ_OP_WAIT_50 _).
  set (s3 := set_cur_op OW_READ_OP_DONE (set_r_readsLeft 0 (set_r_bitMask 1
    (set_r_data 0 (set_r_readCount (c + 1) (set_spad_buf (<[Z.to_nat c := add_bit d 7 bit]> s.(spad_buf)) (count_down (note Tick s1)))))))).
  assert (H : OW_doit_read (note Tick s1) = Some (set_seq_pos (u8 (s.(seq_pos) + 1)) (set_seq_state OW_SEQ_STATE_TRANSITION s3))).
  { unfold OW_doit_read, read_switch. change (cur_op (note Tick s1)) with OW_READ_OP_WAIT_50. eval_ops.
    change (delay_count (count_down (note Tick s1))) with 0. eval_ops. change (r_bitMask (count_down (note Tick s1))) with 0. eval_ops.
    change (r_readCount (count_down (note Tick s1))) with c. change (spad_buf (count_down (note Tick s1))) with s.(spad_buf).
    rewrite (proj2 (Z.ltb_lt c _)) by lia. unfold s3. set (s2 := count_down (note Tick s1)). change (r_data s2) with (add_bit d 7 bit).
    cbn [r_readCount set_spad_buf r_readsLeft set_r_bitMask set_r_data set_r_readCount]. change (r_readCount s2) with c. change (r_readsLeft s2) with 1.
    rewrite (u8_small (c + 1)) by (unfold is_byte; lia). reflexivity. }
  erewrite run_read_step; [|done..|exact H]. unfold next_op. f_equal.
Qed.

(** The slots of one byte but for the last interrupts. *)
Lemma run_read_byte b rest c l s : 0 ≤ b < 256 → s.(op_type) = OW_OP_READ → s.(frc1_on) = true → s.(inputs) = bits b ++ rest →
  ∃ d bit, add_bit d 7 bit = b ∧ run 35 (reading 0 0 c l s) = Some (reading 7 d c l (set_delay_count 0 (set_inputs (bit :: rest)
    (set_log (reverse (concat (read_slot <$> take 7 (bits b))) ++ s.(log)) s)))) ∧ bits b = take 7 (bits b) ++ [bit].
Proof.
  intros Hb E1 E2 E3. exists (gather 0 0 (take 7 (bits b))), (Z.testbit b 7). split_and!.
  - rewrite <- (gather_bits b Hb) at 3. reflexivity.
  - change 35%nat with (length (take 7 (bits b)) * 5)%nat. rewrite (run_read_bits _ 0 0 c l (Z.testbit b 7 :: rest)) by done. reflexivity.
  - reflexivity.
Qed.

Definition read_log (data : list Z) : list pin_event := reverse (concat (read_slot <$> (data ≫= bits))).

Lemma run_read_bytes data : data ≠ [] → Forall is_byte data → ∀ c rest s, s.(op_type) = OW_OP_READ → s.(frc1_on) = true →
  s.(inputs) = (data ≫= bits) ++ rest → 0 ≤ c → c + zlength data ≤ zlength s.(spad_buf) → zlength s.(spad_buf) < 256 →
  run (length data * 40) (reading 0 0 c (zlength data) s) = set_frc1_load DIV16_LOADVAL <$> next_op (read_end (c + zlength data)
    (set_inputs rest (set_spad_buf (list_inserts (Z.to_nat c) data s.(spad_buf)) (set_log (read_log data ++ s.(log)) s)))).
Proof.
  induction data as [|b data IH]; [done|]. intros _ [Hb Hd]%Forall_cons c rest s E1 E2 E3 Hc Hl Hs. rewrite length_cons in *.
  rewrite bind_cons, <- (assoc_L (++)) in E3. destruct (run_read_byte b ((data ≫= bits) ++ rest) c (Z.of_nat (S (length data))) s) as (d & bit & Ed & Er & Eb); [done..|].
  assert (El : reverse (read_slot bit) ++ reverse (concat (read_slot <$> take 7 (bits b))) ++ s.(log) = read_log [b] ++ s.(log)).
  { unfold read_log. rewrite bind_cons. cbn [mbind list_bind]. rewrite app_nil_r, (assoc_L (++)), <- reverse_app. f_equal. f_equal.
    rewrite Eb at 2. rewrite fmap_app, concat_app. reflexivity. }
  change (S (length data) * 40)%nat with (35 + (5 + length data * 40))%nat. rewrite run_add, Er. cbn [mbind option_bind]. clear Er.
  destruct data as [|b' data].
  - change (5 + length [] * 40)%nat with 5%nat. change (Z.of_nat (S (length []))) with 1.
    rewrite (run_read_last bit ([] ++ rest)) by (done || cbn in *; lia). cbn [log set_log set_inputs set_delay_count spad_buf]. rewrite Ed, El. by destruct s.
  - rewrite run_add, (run_read_more bit (((b' :: data) ≫= bits) ++ rest)) by (done || cbn in *; lia).
    cbn [mbind option_bind log set_log set_inputs set_delay_count spad_buf]. rewrite Ed, El.
    replace (Z.of_nat (S (length (b' :: data))) - 1) with (zlength (b' :: data)) by lia.
    rewrite (IH ltac:(done) Hd (c + 1) rest); [|done..|lia| |]; cbn [spad_buf set_delay_count set_inputs set_spad_buf]; rewrite ?length_insert; [|lia..].
    f_equal. f_equal. replace (c + 1 + zlength (b' :: data)) with (c + Z.of_nat (S (length (b' :: data)))) by lia.
    assert (Ei : ∀ k, list_inserts (Z.to_nat (c + 1)) (b' :: data) (<[Z.to_nat c := b]> k) = list_inserts (Z.to_nat c) (b :: b' :: data) k).
    { intros k. rewrite <- list_insert_inserts_lt by lia. by replace (Z.to_nat (c + 1)) with (S (Z.to_nat c)) by lia. }
    cbn [log set_log set_inputs set_delay_count set_spad_buf]. rewrite Ei, (assoc_L (++)).
    assert (Ea : read_log (b' :: data) ++ read_log [b] = read_log (b :: b' :: data)).
    { unfold read_log. rewrite <- reverse_app, <- concat_app, <- fmap_app, <- bind_app. reflexivity. }
    rewrite Ea. by destruct s.
Qed.

Lemma run_read_start n s : s.(op_type) = OW_OP_READ → s.(seq_state) = OW_SEQ_STATE_TRANSITION → s.(frc1_on) = true →
  s.(arg_arr) !! Z.to_nat s.(seq_pos) = Some n → run 1 s = Some (reading 0 0 0 n (set_log (Tick :: s.(log)) s)).
Proof.
  intros E1 E2 E3 E4. cbn [run]. rewrite E3. unfold frc1_interrupt_handler, OW_doit, doit_op.
  change (op_type (note Tick s)) with (op_type s). rewrite E1. eval_ops.
  unfold start_op. change (seq_state (note Tick s)) with (seq_state s). rewrite E2. eval_ops. unfold OW_doit_read, read_switch.
  set (s2 := set_cur_op 1 _). change (cur_op s2) with 1. eval_ops. change (arg_arr s2) with (arg_arr s). change (seq_pos s2) with (seq_pos s).
  rewrite E4. cbn [mbind option_bind]. unfold s2. destruct s. reflexivity.
Qed.

Lemma read_wave_log data : read_log data ++ [Tick] = reverse (read_wave (data ≫= bits)).
Proof. unfold read_wave, read_log. by rewrite reverse_cons. Qed.

(** Reading [data] takes an interrupt to begin and 40 for each byte. *)
Lemma run_read data rest s : data ≠ [] → Forall is_byte data → s.(op_type) = OW_OP_READ → s.(seq_state) = OW_SEQ_STATE_TRANSITION →
  s.(frc1_on) = true → s.(arg_arr) !! Z.to_nat s.(seq_pos) = Some (zlength data) → s.(inputs) = (data ≫= bits) ++ rest →
  length s.(spad_buf) = length data → zlength data < 256 →
  run (1 + length data * 40) s = set_frc1_load DIV16_LOADVAL <$> next_op (read_end (zlength data) (set_inputs rest (set_spad_buf data
    (set_log (reverse (read_wave (data ≫= bits)) ++ s.(log)) s)))).
Proof.
  intros Hn Hd E1 E2 E3 E4 E5 Hl Hs. rewrite run_add, (run_read_start _ _ E1 E2 E3 E4). cbn [mbind option_bind].
  rewrite (run_read_bytes data Hn Hd 0 rest) by (done || cbn in *; lia).
  assert (Ei : list_inserts 0 data s.(spad_buf) = data).
  { rewrite <- (app_nil_r s.(spad_buf)), list_inserts_0_r by done. apply app_nil_r. }
  cbn [spad_buf set_log log]. change (Z.to_nat 0) with 0%nat. rewrite Ei. change (Tick :: s.(log)) with ([Tick] ++ s.(log)).
  rewrite (assoc_L (++)), read_wave_log. by destruct s.
Qed.
