(* ===== verification/OneWireData.v ===== *)
(** OneWireData: the table-driven checksum and the shift register it stands for; the
    temperature of a scratchpad and its text. *)

From S2P Require Import Prelude CString OneWire OneWireSpec.

(** ** The shift register

    The Dallas checksum: the polynomial x^8 + x^5 + x^4 + 1, the least significant
    bit first. *)

Definition crc_bit (crc : Z) (bit : bool) : Z :=
  let out := xorb (Z.testbit crc 0) bit in
  let crc := Z.shiftr crc 1 in
  if out then Z.lxor crc 0x8C else crc.

Definition crc_bits (crc : Z) (bs : list bool) : Z := foldl crc_bit crc bs.

Lemma crc_bits_app crc a b : crc_bits crc (a ++ b) = crc_bits (crc_bits crc a) b.
Proof. apply foldl_app. Qed.

(** ** The table *)

Definition all_bytes : list Z := seqZ 0 256.

Lemma all_bytes_spec (P : Z → Prop) : Forall P all_bytes → ∀ b, is_byte b → P b.
Proof. intros H b Hb. rewrite Forall_forall in H. apply H, elem_of_seqZ. unfold is_byte in Hb. lia. Qed.

Lemma lxor_byte a b : is_byte a → is_byte b → is_byte (Z.lxor a b).
Proof.
  intros Ha Hb. apply (bits_below 8); [done|apply Z.lxor_nonneg; unfold is_byte in *; lia|]. intros n Hn.
  by rewrite Z.lxor_spec, !(testbit_above 8) by done.
Qed.

(** The entry [x] is the register after eight zeros from [x]. *)
Lemma table_register x : is_byte x → dscrc_table !! Z.to_nat x = Some (crc_bits x (replicate 8 false)).
Proof.
  apply (all_bytes_spec (λ x, dscrc_table !! Z.to_nat x = Some (crc_bits x (replicate 8 false)))).
  apply (bool_decide_unpack _). vm_compute. exact I.
Qed.

(** The register is linear. *)
Lemma crc_bit_xor a b x y : crc_bit (Z.lxor a b) (xorb x y) = Z.lxor (crc_bit a x) (crc_bit b y).
Proof.
  unfold crc_bit. rewrite Z.lxor_spec, Z.shiftr_lxor.
  replace (xorb (xorb (Z.testbit a 0) (Z.testbit b 0)) (xorb x y)) with (xorb (xorb (Z.testbit a 0) x) (xorb (Z.testbit b 0) y))
    by (by destruct (Z.testbit a 0), (Z.testbit b 0), x, y).
  generalize (Z.shiftr a 1), (Z.shiftr b 1). intros p q. destruct (xorb (Z.testbit a 0) x), (xorb (Z.testbit b 0) y); cbn [xorb]; idtac. all: apply Z.bits_inj; intros n; rewrite ?Z.lxor_spec. all: by destruct (Z.testbit p n), (Z.testbit q n), (Z.testbit 140 n).
Qed.

Lemma crc_bits_xor x : ∀ y a b, length x = length y →
  crc_bits (Z.lxor a b) (zip_with xorb x y) = Z.lxor (crc_bits a x) (crc_bits b y).
Proof.
  induction x as [|p x IH]; intros [|q y] a b Hl; try done. cbn. rewrite crc_bit_xor. apply IH. by injection Hl.
Qed.

Lemma bits_length b : length (bits b) = 8%nat.
Proof. reflexivity. Qed.

(** A table look-up feeds the eight bits of [b] to the register. *)
Lemma table_step crc b : is_byte crc → is_byte b → dscrc_table !! Z.to_nat (Z.lxor crc b) = Some (crc_bits crc (bits b)).
Proof.
  intros Hc Hb. rewrite table_register by (by apply lxor_byte). f_equal. change (replicate 8 false) with (zip_with xorb (replicate 8 false) (replicate 8 false)).
  rewrite crc_bits_xor by done. replace (crc_bits b (replicate 8 false)) with (crc_bits 0 (bits b)).
  - rewrite <- crc_bits_xor by done. by rewrite Z.lxor_0_r.
  - revert b Hb. apply all_bytes_spec. apply (bool_decide_unpack _). vm_compute. exact I.
Qed.

Lemma crc_bits_byte crc bs : is_byte crc → is_byte (crc_bits crc bs).
Proof.
  revert crc. induction bs as [|b bs IH]; intros crc Hc; [done|]. cbn. apply IH. unfold crc_bit.
  assert (is_byte (Z.shiftr crc 1)). { rewrite Z.shiftr_div_pow2 by done. unfold is_byte in *. zsolve. }
  destruct (xorb _ _); [by apply lxor_byte|done].
Qed.

Lemma crc8_loop_register bs rest : ∀ crc, is_byte crc → Forall is_byte bs →
  crc8_loop (length bs) crc (bs ++ rest) = Some (crc_bits crc (bs ≫= bits)).
Proof.
  induction bs as [|b bs IH]; intros crc Hc Hf; [done|]. apply Forall_cons in Hf as [Hb Hf]. cbn [length crc8_loop app].
  rewrite table_step by done. cbn [mbind option_bind]. rewrite IH by (done || by apply crc_bits_byte). by rewrite bind_cons, crc_bits_app.
Qed.

(** ** What the checksum detects *)

Lemma zeros_injective n : ∀ crc, is_byte crc → crc_bits crc (replicate n false) = 0 → crc = 0.
Proof.
  induction n as [|n IH]; intros crc Hc E; [done|]. cbn in E. apply IH in E; [|by apply (crc_bits_byte crc [false])].
  revert crc Hc E. apply (all_bytes_spec (λ crc, crc_bit crc false = 0 → crc = 0)). apply (bool_decide_unpack _). vm_compute. exact I.
Qed.

Lemma zeros_zero n : crc_bits 0 (replicate n false) = 0.
Proof. induction n as [|n IH]; [done|apply IH]. Qed.

(** Eight bits, not all of them 0, change the register. *)
Lemma window_changes w : length w = 8%nat → crc_bits 0 w = 0 → w = replicate 8 false.
Proof.
  intros Hl. do 8 (destruct w as [|[] w]; [done| |]). all: destruct w; [|done]. all: vm_compute; intros E; done || reflexivity.
Qed.

(** An error that is confined to eight consecutive bits. *)
Definition burst (i : nat) (w : list bool) (j : nat) : list bool := replicate i false ++ w ++ replicate j false.

Lemma burst_changes i w j : length w = 8%nat → w ≠ replicate 8 false → crc_bits 0 (burst i w j) ≠ 0.
Proof.
  intros Hl Hw E. unfold burst in E. rewrite !crc_bits_app, zeros_zero in E. apply zeros_injective in E; [|by apply crc_bits_byte].
  by apply Hw, window_changes.
Qed.

(** The nine bytes of a scratchpad whose last one is the checksum of the others. *)
Definition valid (data : list Z) : Prop := crc_bits 0 (data ≫= bits) = 0.
#[export] Instance valid_dec data : Decision (valid data).
Proof. unfold valid. apply _. Defined.

Lemma valid_snoc data c : Forall is_byte data → is_byte c → valid (data ++ [c]) ↔ crc_bits 0 (data ≫= bits) = c.
Proof.
  intros Hd Hc. unfold valid. rewrite bind_app, crc_bits_app. cbn [mbind list_bind]. rewrite app_nil_r.
  set (C := crc_bits 0 (data ≫= bits)). assert (HC : is_byte C) by (by apply crc_bits_byte).
  assert (Ht := table_step C c HC Hc). rewrite table_register in Ht by (by apply lxor_byte). apply (inj Some) in Ht. rewrite <- Ht. split; intros E.
  - apply zeros_injective in E; [|by apply lxor_byte]. by apply Z.lxor_eq.
  - subst c. rewrite Z.lxor_nilpotent. reflexivity.
Qed.

(** The test of read_temp_done_cb. *)
Lemma crc_test data : length data = 9%nat → Forall is_byte data →
  ∃ crc, onewire_crc8 data 8 = Some crc ∧ (crc =? at_ data 8) = bool_decide (valid data).
Proof.
  intros Hl Hf. assert (∃ d c, data = d ++ [c] ∧ length d = 8%nat) as (d & c & -> & Hd).
  { destruct (lookup_lt_is_Some_2 data 8) as [c Hc]; [lia|]. exists (take 8 data), c. rewrite length_take. split; [|lia].
    rewrite <- (take_drop_middle data 8 c Hc) at 1. by rewrite (drop_ge data) by lia. }
  apply Forall_app in Hf as [Hf [Hc _]%Forall_cons].
  exists (crc_bits 0 (d ≫= bits)). split.
  - unfold onewire_crc8. change (Z.to_nat 8) with 8%nat. rewrite <- Hd. by apply crc8_loop_register.
  - assert (Ea : at_ (d ++ [c]) 8 = c) by (unfold at_; change (Z.to_nat 8) with 8%nat; by rewrite lookup_app_r, Hd by lia).
    rewrite Ea. apply eq_true_iff_eq. rewrite Z.eqb_eq, bool_decide_eq_true. by rewrite valid_snoc.
Qed.

Lemma burst_detected data data' i w j : valid data → length w = 8%nat → w ≠ replicate 8 false → length (burst i w j) = length (data ≫= bits) →
  (data' ≫= bits) = zip_with xorb (data ≫= bits) (burst i w j) → ¬ valid data'.
Proof.
  unfold valid. intros Hv Hl Hw Hb -> E. change 0 with (Z.lxor 0 0) in E at 1. rewrite crc_bits_xor, Hv, Z.lxor_0_l in E by done.
  by apply (burst_changes i w j).
Qed.

(** ** The temperature *)

(** The first two bytes of the scratchpad: a signed number of sixteenths of a
    degree. *)
Definition sixteenths (lo hi : Z) : Z := if lo + 256 * hi <? 2 ^ 15 then lo + 256 * hi else lo + 256 * hi - 2 ^ 16.

(** The decimal text, rounded towards 0 to two places. *)
Definition degrees_text (t : Z) : list Z :=
  let hundredths := Z.abs t `mod` 16 * 100 / 16 in
  (if t <? 0 then chr_minus else chr_plus) :: print_nat (Z.abs t / 16) ++ [46; chr_0 + hundredths / 10; chr_0 + hundredths `mod` 10].

Lemma lor_bytes lo hi : is_byte lo → 0 ≤ hi → Z.lor (Z.shiftl hi 8) lo = lo + 256 * hi.
Proof.
  intros Hl Hh. assert (H : Z.land (Z.shiftl hi 8) lo = 0).
  { apply Z.bits_inj'. intros n Hn. rewrite Z.land_spec, Z.bits_0. destruct (Z.lt_ge_cases n 8).
    - by rewrite Z.shiftl_spec_low.
    - rewrite (testbit_above 8 lo) by (unfold is_byte in Hl; lia). apply andb_false_r. }
  rewrite <- Z.lxor_lor, <- Z.add_nocarry_lxor by done. rewrite Z.shiftl_mul_pow2 by done. lia.
Qed.

Lemma lxor_ones16 r : 0 ≤ r < 2 ^ 16 → Z.lxor r 0xffff = 0xffff - r.
Proof.
  intros Hr. change 0xffff with (Z.ones 16). rewrite Z.sub_nocarry_ldiff.
  - apply Z.bits_inj'. intros n Hn. rewrite Z.lxor_spec, Z.ldiff_spec. destruct (Z.lt_ge_cases n 16).
    + rewrite Z.ones_spec_low by lia. by destruct (Z.testbit r n).
    + by rewrite Z.ones_spec_high, (testbit_above 16 r) by lia.
  - apply Z.bits_inj'. intros n Hn. rewrite Z.ldiff_spec, Z.bits_0. destruct (Z.lt_ge_cases n 16).
    + rewrite Z.ones_spec_low by lia. apply andb_false_r.
    + by rewrite (testbit_above 16 r) by lia.
Qed.

Lemma sign_bit r : 0 ≤ r < 2 ^ 16 → negb (Z.land r 0x8000 =? 0) = (2 ^ 15 <=? r).
Proof.
  intros Hr. rewrite Z.land_comm. change 0x8000 with (2 ^ 15). rewrite mask_bit, negb_involutive, Z.testbit_eqb by done.
  apply eq_true_iff_eq. rewrite Z.eqb_eq, Z.leb_le. zsolve.
Qed.

Lemma temperature_of_spec lo hi : is_byte lo → is_byte hi → let t := sixteenths lo hi in
  temperature_of lo hi = {| sign := if t <? 0 then chr_minus else chr_plus; val := Z.abs t / 16; fract := Z.abs t `mod` 16 * 100 / 16; available := 1 |}.
Proof.
  intros Hl Hh. cbn zeta. unfold temperature_of, sixteenths. unfold is_byte in *. rewrite lor_bytes by (unfold is_byte; lia).
  set (r := lo + 256 * hi). assert (Hr : 0 ≤ r < 2 ^ 16) by (unfold r; lia). clearbody r. rewrite sign_bit by done.
  destruct (Z.leb_spec (2 ^ 15) r) as [H|H].
  - rewrite (proj2 (Z.ltb_ge r (2 ^ 15)) H). rewrite (proj2 (Z.ltb_lt (r - 2 ^ 16) 0)) by lia. rewrite lxor_ones16 by done.
    unfold u16. rewrite Z.mod_small by lia. replace (65535 - r + 1) with (Z.abs (r - 2 ^ 16)) by lia.
    rewrite Z.shiftr_div_pow2 by done. change 15 with (Z.ones 4). rewrite Z.land_ones by done. reflexivity.
  - rewrite (proj2 (Z.ltb_lt r (2 ^ 15)) H). rewrite (proj2 (Z.ltb_ge r 0)) by lia. rewrite Z.abs_eq by lia.
    rewrite Z.shiftr_div_pow2 by done. change 15 with (Z.ones 4). rewrite Z.land_ones by done. reflexivity.
Qed.

(** %02d of a number below 100. *)
Lemma two_digits n : 0 ≤ n < 100 → (if n <? 10 then [48] else []) ++ print_nat n = [chr_0 + n / 10; chr_0 + n `mod` 10].
Proof.
  intros Hn. assert (H : Forall (λ n, (if n <? 10 then [48] else []) ++ print_nat n = [chr_0 + n / 10; chr_0 + n `mod` 10]) (seqZ 0 100)).
  { apply (bool_decide_unpack _). vm_compute. exact I. }
  rewrite Forall_forall in H. apply H, elem_of_seqZ. lia.
Qed.

Lemma format_text lo hi : is_byte lo → is_byte hi → format_temperature (temperature_of lo hi) = degrees_text (sixteenths lo hi).
Proof.
  intros Hl Hh. rewrite temperature_of_spec by done. unfold format_temperature, degrees_text. cbn [sign val fract].
  rewrite two_digits by zsolve. reflexivity.
Qed.

Lemma degrees_text_nonzero t : Forall (λ c, c ≠ 0) (degrees_text t).
Proof.
  unfold degrees_text. constructor; [by destruct (t <? 0)|]. apply Forall_app. split.
  - destruct (print_nat_aux_shape 20 (Z.abs t / 16) []) as [H _]; [zsolve|constructor|]. eapply Forall_impl; [exact H|]. cbn. lia.
  - set (h := _ * 100 / 16). assert (0 ≤ h) by (unfold h; zsolve). unfold chr_0. repeat constructor; zsolve.
Qed.

Lemma cstring_app a b : Forall (λ c, c ≠ 0) a → cstring (a ++ 0 :: b) = a.
Proof. induction 1 as [|c s Hc _ IH]; [done|]. cbn. rewrite (proj2 (Z.eqb_neq c 0)) by done. by rewrite IH. Qed.

(** The string that is published: at most six characters of the text. *)
Lemma publish_buffer_string text : Forall (λ c, c ≠ 0) text → cstring (publish_buffer text) = take 6 text.
Proof.
  intros H. unfold publish_buffer. destruct (decide (length text < 6)%nat) as [Hl|Hl].
  - rewrite take_ge by (rewrite length_app; cbn; lia). rewrite <- (assoc_L (++)). rewrite take_ge by lia. by apply cstring_app.
  - rewrite take_app_le by lia. apply cstring_app. by apply Forall_take.
Qed.

Lemma degrees_text_short t : - 1600 < t < 1600 → (length (degrees_text t) ≤ 6)%nat.
Proof.
  intros Ht. unfold degrees_text. cbn [length]. rewrite length_app. cbn [length].
  assert (H : Forall (λ n, (length (print_nat n) ≤ 2)%nat) (seqZ 0 100)) by (apply (bool_decide_unpack _); vm_compute; exact I).
  rewrite Forall_forall in H. specialize (H (Z.abs t / 16)). rewrite elem_of_seqZ in H. specialize (H ltac:(zsolve)). lia.
Qed.
