(* ===== verification/OneWireSeq.v ===== *)
(** OneWireSeq: whole sequences of operations on the bus, from the request of the
    application to the published temperature. *)

From S2P Require Import Prelude CString OneWire OneWireSpec OneWireRead OneWireData.

(** The pin in a reset that a device answers after [k] samples, in the order of
    time: low for 480 us, released, sampled every 10 us, and 480 us until the next
    operation. *)
Definition reset_wave (k : nat) : list pin_event :=
  [Tick; Enable; Write false] ++ replicate 48 Tick ++ [Disable] ++ concat (replicate k [Tick; Read true]) ++ [Tick; Read false] ++ replicate 48 Tick.

(** The next operation is [op], at position [pos]. *)
Definition at_op (pos op : Z) (s : ow) : ow :=
  set_cur_op 0 (set_op_type op (set_seq_state OW_SEQ_STATE_TRANSITION (set_seq_pos pos s))).

Lemma next_op_at op s : s.(seq_arr) !! Z.to_nat (u8 (s.(seq_pos) + 1)) = Some op → u8 (s.(seq_pos) + 1) < s.(seq_len) →
  next_op s = Some (at_op (u8 (s.(seq_pos) + 1)) op s).
Proof.
  intros E Hl. unfold next_op, doit_state. set (s1 := set_seq_state _ _). change (seq_state s1) with OW_SEQ_STATE_TRANSITION. eval_ops.
  change (seq_len s1) with (seq_len s). change (seq_pos s1) with (u8 (seq_pos s + 1)). rewrite (proj2 (Z.leb_gt _ _) Hl).
  change (seq_arr s1) with (seq_arr s). rewrite E. reflexivity.
Qed.

(** [k] samples without an answer. *)
Lemma run_silences k : ∀ d bs s, s.(op_type) = OW_OP_RESET → s.(frc1_on) = true → s.(inputs) = replicate k true ++ bs →
  Z.of_nat k < d ≤ 6 →
  run k (awaiting d s) = Some (awaiting (d - Z.of_nat k) (set_inputs bs (set_log (reverse (concat (replicate k [Tick; Read true])) ++ s.(log)) s))).
Proof.
  induction k as [|k IH]; intros d bs s E1 E2 E3 Hk.
  - cbn in E3. subst bs. rewrite Z.sub_0_r. by destruct s.
  - change (S k) with (1 + k)%nat at 1. rewrite run_add, (run_silence (replicate k true ++ bs)) by (done || lia). cbn [mbind option_bind].
    rewrite (IH (d - 1) bs) by (done || lia). replace (d - 1 - Z.of_nat k) with (d - Z.of_nat (S k)) by lia.
    cbn [replicate concat]. rewrite reverse_app, <- (assoc_L (++)). by destruct s.
Qed.

Lemma run_reset_step s : s.(op_type) = OW_OP_RESET → s.(seq_state) = OW_SEQ_STATE_STARTED → s.(frc1_on) = true →
  run 1 s = set_frc1_load DIV16_LOADVAL <$> doit_state (OW_doit_reset (note Tick s)).
Proof.
  intros E1 E2 E3. cbn [run]. rewrite E3. unfold frc1_interrupt_handler, OW_doit, doit_op, start_op.
  change (op_type (note Tick s)) with (op_type s). change (seq_state (note Tick s)) with (seq_state s). rewrite E1, E2. eval_ops.
  cbn [mbind option_bind]. by destruct (doit_state _).
Qed.

(** The interrupt that ends a reset. *)
Lemma run_reset_done s : s.(op_type) = OW_OP_RESET → s.(seq_state) = OW_SEQ_STATE_STARTED → s.(frc1_on) = true → s.(cur_op) = OW_RESET_OP_DONE →
  run 1 s = set_frc1_load DIV16_LOADVAL <$> next_op (set_log (Tick :: s.(log)) s).
Proof.
  intros E1 E2 E3 E4. rewrite run_reset_step by done.
  unfold OW_doit_reset. change (cur_op (note Tick s)) with (cur_op s). rewrite E4. reflexivity.
Qed.

Lemma run_reset_timeout bs s : s.(op_type) = OW_OP_RESET → s.(frc1_on) = true → s.(inputs) = true :: bs →
  run 1 (awaiting 1 s) = set_frc1_load DIV16_LOADVAL <$> run_callback (set_seq_state OW_SEQ_STATE_DONE (set_error OW_ERROR_RESET_RESP_TIMEOUT
    (set_cur_op OW_RESET_OP_WAIT_60_RESP (set_delay_count 0 (set_inputs bs (set_frc1_load DIV16_LOADVAL (set_log (Disable :: Read true :: Tick :: s.(log)) s))))))).
Proof. intros E1 E2 E3. rewrite run_reset_step by done. f_equal. destruct s. cbn in E1, E2, E3. subst. reflexivity. Qed.

Lemma run_reset k bs s : s.(op_type) = OW_OP_RESET → s.(seq_state) = OW_SEQ_STATE_TRANSITION → s.(frc1_on) = true →
  s.(inputs) = replicate k true ++ false :: bs → (k < 6)%nat →
  run (49 + (k + (48 + 1))) s = set_frc1_load DIV16_LOADVAL <$> next_op (set_cur_op OW_RESET_OP_DONE (set_delay_count 0
    (set_inputs bs (set_frc1_load DIV16_LOADVAL (set_log (reverse (reset_wave k) ++ s.(log)) s))))).
Proof.
  intros E1 E2 E3 E4 Hk. rewrite run_add, run_reset_pulse by done. cbn [mbind option_bind].
  rewrite run_add. set (s1 := set_log (reset_pulse ++ log s) s).
  change (run k _) with (run k (awaiting 6 s1)). rewrite (run_silences k 6 (false :: bs)) by (done || lia). cbn [mbind option_bind].
  rewrite run_add, (run_presence bs) by (done || lia). cbn [mbind option_bind].
  set (l := replicate 47 Tick ++ _). assert (El : Tick :: l = reverse (reset_wave k) ++ s.(log)).
  { unfold l, s1, reset_wave. rewrite !reverse_app, !reverse_replicate, <- !(assoc_L (++)). reflexivity. }
  rewrite <- El. rewrite run_reset_done by done. f_equal.
Qed.

(** No device answers: the error ends the sequence. *)
Lemma run_no_presence bs s : s.(op_type) = OW_OP_RESET → s.(seq_state) = OW_SEQ_STATE_TRANSITION → s.(frc1_on) = true →
  s.(inputs) = replicate 6 true ++ bs →
  ∃ l, run (49 + 6) s = set_frc1_load DIV16_LOADVAL <$> run_callback (set_seq_state OW_SEQ_STATE_DONE (set_error OW_ERROR_RESET_RESP_TIMEOUT
    (set_cur_op OW_RESET_OP_WAIT_60_RESP (set_delay_count 0 (set_inputs bs (set_frc1_load DIV16_LOADVAL (set_log (Disable :: l ++ s.(log)) s)))))))
  ∧ (Write true ∉ l).
Proof.
  intros E1 E2 E3 E4. exists ([Read true; Tick] ++ reverse (concat (replicate 5 [Tick; Read true])) ++ reset_pulse). split.
  - rewrite run_add, run_reset_pulse by done. cbn [mbind option_bind]. set (s1 := set_log (reset_pulse ++ log s) s).
    change 6%nat with (5 + 1)%nat. rewrite run_add. change (run 5 _) with (run 5 (awaiting 6 s1)).
    rewrite (run_silences 5 6 (true :: bs)) by (done || lia). cbn [mbind option_bind].
    change (6 - Z.of_nat 5) with 1. rewrite (run_reset_timeout bs) by done. f_equal.
  - apply (bool_decide_unpack _). vm_compute. exact I.
Qed.

(** The reset and the two bytes that each sequence sends. *)
Definition command_wave (k : nat) (c1 c2 : Z) : list pin_event := reset_wave k ++ write_wave c1 ++ write_wave c2.

Definition command_ticks (k : nat) : nat := (49 + (k + (48 + 1))) + (58 + 58).

(** The state at the start of a sequence [seq] after OW_init_seq_task. *)
Record at_start (seq : list Z) (args : list Z) (s : ow) : Prop := {
  st_seq : s.(seq_arr) = seq;
  st_args : s.(arg_arr) = args;
  st_len : s.(seq_len) = zlength seq;
  st_pos : s.(seq_pos) = 0;
  st_state : s.(seq_state) = OW_SEQ_STATE_TRANSITION;
  st_op : s.(op_type) = OW_OP_RESET;
  st_error : s.(error) = OW_ERROR_NONE;
  st_on : s.(frc1_on) = true;
}.

(** After the command. *)
Definition commanded (k : nat) (c1 c2 op : Z) (bs : list bool) (s : ow) : ow :=
  at_op 3 op (set_delay_count 0 (set_w_bitMask 0 (set_w_data c2 (set_inputs bs (set_frc1_load DIV16_LOADVAL
    (set_log (reverse (command_wave k c1 c2) ++ s.(log)) s)))))).

Lemma run_two_writes k c1 c2 op seq a args bs s : at_start (OW_OP_RESET :: OW_OP_WRITE :: OW_OP_WRITE :: op :: seq) (a :: c1 :: c2 :: args) s →
  s.(inputs) = replicate k true ++ false :: bs → (k < 6)%nat → zlength seq < 100 →
  run (command_ticks k) s = Some (commanded k c1 c2 op bs s).
Proof.
  intros [E1 E2 E3 E4 E5 E6 E7 E8] Ei Hk Hl. unfold command_ticks. rewrite run_add, (run_reset k bs) by done.
  assert (Hlen : 3 < s.(seq_len)) by (rewrite E3; cbn; lia).
  rewrite (next_op_at OW_OP_WRITE); cbn [seq_arr seq_pos seq_len set_cur_op set_delay_count set_inputs set_frc1_load set_log]; rewrite ?E4; [|by rewrite E1|change (1 < s.(seq_len)); lia].
  change (u8 (0 + 1)) with 1. cbn [fmap option_fmap option_map mbind option_bind].
  rewrite run_add, (run_write c1); [|done..|].
  2: { change (arg_arr _) with (arg_arr s). by rewrite E2. }
  rewrite (next_op_at OW_OP_WRITE); cbn [seq_arr seq_pos seq_len set_cur_op set_delay_count set_inputs set_frc1_load set_log set_w_bitMask set_w_data at_op set_op_type set_seq_state set_seq_pos]; [|by rewrite E1|change (2 < s.(seq_len)); lia].
  change (u8 (1 + 1)) with 2. cbn [fmap option_fmap option_map mbind option_bind].
  rewrite (run_write c2); [|done..|].
  2: { change (arg_arr _) with (arg_arr s). by rewrite E2. }
  rewrite (next_op_at op); cbn [seq_arr seq_pos seq_len set_cur_op set_delay_count set_inputs set_frc1_load set_log set_w_bitMask set_w_data at_op set_op_type set_seq_state set_seq_pos]; [|by rewrite E1|change (3 < s.(seq_len)); lia].
  change (u8 (2 + 1)) with 3. cbn [fmap option_fmap option_map]. f_equal. unfold commanded, command_wave. rewrite !reverse_app, <- !(assoc_L (++)).
  destruct s. reflexivity.
Qed.

(** The end of a sequence. *)
Lemma run_end s : s.(frc1_on) = true → s.(op_type) = OW_OP_END →
  run 1 s = set_frc1_load DIV16_LOADVAL <$> run_callback (set_seq_state OW_SEQ_STATE_DONE (note Tick s)).
Proof.
  intros E1 E2. cbn [run]. rewrite E1. unfold frc1_interrupt_handler, OW_doit, doit_op.
  change (op_type (note Tick s)) with (op_type s). rewrite E2. eval_ops. cbn [mbind option_bind].
  change (doit_state (set_seq_state OW_SEQ_STATE_DONE (note Tick s))) with (run_callback (set_seq_state OW_SEQ_STATE_DONE (note Tick s))).
  by destruct (run_callback _).
Qed.

(** Once the timer is off, nothing more happens. *)
Lemma run_stop n m s s' : run n s = Some s' → s'.(frc1_on) = false → (n ≤ m)%nat → run m s = Some s'.
Proof.
  intros E E' Hm. replace m with (n + (m - n))%nat by lia. rewrite run_add, E. cbn [mbind option_bind]. destruct (m - n)%nat; cbn; [done|by rewrite E'].
Qed.

(** ** The sequences *)

(** What a sequence leaves of the state it began with. *)
Record seq_ended (log' : list pin_event) (rest : list bool) (s s' : ow) : Prop := {
  se_off : s'.(frc1_on) = false;
  se_log : s'.(log) = reverse log' ++ s.(log);
  se_inputs : s'.(inputs) = rest;
  se_error : s'.(error) = OW_ERROR_NONE;
  se_ready : s'.(ow_state) = s.(ow_state);
}.

Lemma run_conv_t k rest s : at_start [OW_OP_RESET; OW_OP_WRITE; OW_OP_WRITE; OW_OP_END] [0; DS_SKIPROM; DS_CONVERT_T; 0] s →
  s.(callback) = Some conv_t_done → s.(inputs) = replicate k true ++ false :: rest → (k < 6)%nat →
  ∃ s', run (command_ticks k + 1) s = Some s' ∧ seq_ended (command_wave k DS_SKIPROM DS_CONVERT_T ++ [Tick]) rest s s'
    ∧ s'.(seq_state) = OW_SEQ_STATE_INIT ∧ s'.(ow_task_arg) = DS_SEQ_READ_T ∧ s'.(seq_arr) = s.(seq_arr)
    ∧ s'.(spad_buf) = s.(spad_buf) ∧ s'.(published) = s.(published) ∧ s'.(latest_temp) = s.(latest_temp) ∧ s'.(prev_temp) = s.(prev_temp).
Proof.
  intros Hs Ec Ei Hk. rewrite run_add, (run_two_writes _ _ _ _ _ _ _ _ _ Hs Ei Hk) by done. cbn [mbind option_bind]. unfold commanded.
  rewrite run_end by (done || apply Hs). set (s1 := set_seq_state OW_SEQ_STATE_DONE _).
  assert (Er : run_callback s1 = Some (conv_t_done_cb s1)) by (unfold run_callback; change (callback s1) with (callback s); by rewrite Ec).
  rewrite Er. cbn [fmap option_fmap option_map].
  assert (Eg : conv_t_done_cb s1 = set_seq_state OW_SEQ_STATE_INIT (set_ow_task_arg DS_SEQ_READ_T (hw_timer_stop s1))).
  { unfold conv_t_done_cb. change (error s1) with (error s). by rewrite (st_error _ _ _ Hs). }
  rewrite Eg. eexists. split; [done|]. split; [|done].
  split; [done| |done|apply Hs|done]. rewrite reverse_app. reflexivity.
Qed.

(** The scratchpad was read and the sequence ends with [cb]. *)
Lemma run_scratchpad k c1 c2 data rest s :
  at_start [OW_OP_RESET; OW_OP_WRITE; OW_OP_WRITE; OW_OP_READ; OW_OP_END] [0; c1; c2; 9; 0] s →
  s.(inputs) = replicate k true ++ false :: (data ≫= bits) ++ rest → (k < 6)%nat → length s.(spad_buf) = 9%nat → length data = 9%nat → Forall is_byte data →
  run (command_ticks k + (361 + 1)) s = set_frc1_load DIV16_LOADVAL <$> run_callback (set_seq_state OW_SEQ_STATE_DONE (note Tick
    (set_frc1_load DIV16_LOADVAL (at_op 4 OW_OP_END (read_end 9 (set_inputs rest (set_spad_buf data
      (set_log (reverse (read_wave (data ≫= bits)) ++ reverse (command_wave k c1 c2) ++ s.(log)) (commanded k c1 c2 OW_OP_READ ((data ≫= bits) ++ rest) s))))))))).
Proof.
  intros Hs Ei Hk Hb Hd Hf. rewrite run_add, (run_two_writes _ _ _ _ _ _ _ _ _ Hs Ei Hk) by done. cbn [mbind option_bind].
  assert (Hz : Z.of_nat (length data) = 9) by lia.
  rewrite run_add. change 361%nat with (1 + 9 * 40)%nat. rewrite <- Hd at 1. rewrite (run_read data rest); [|by destruct data|done|done|done|apply Hs| |done| |lia].
  2: { change (arg_arr _) with (arg_arr s). rewrite (st_args _ _ _ Hs). by rewrite Hz. }
  2: { change (spad_buf _) with (spad_buf s). lia. }
  rewrite Hz. set (s1 := read_end 9 _). assert (En : next_op s1 = Some (at_op 4 OW_OP_END s1)).
  { apply (next_op_at OW_OP_END).
    - change (seq_arr s1) with (seq_arr s). by rewrite (st_seq _ _ _ Hs).
    - change (seq_len s1) with (seq_len s). by rewrite (st_len _ _ _ Hs). }
  rewrite En. cbn [fmap option_fmap option_map mbind option_bind]. rewrite run_end by (done || apply Hs). reflexivity.
Qed.

(** What the published queue gets for the scratchpad [data]. *)
Definition report (data : list Z) (s : ow) : list (list Z) :=
  let t := temperature_of (at_ data 0) (at_ data 1) in
  if decide (valid data ∧ s.(prev_temp) ≠ t) then [publish_buffer (format_temperature t)] else [].

Lemma queue_temperature t s : available t = 1 →
  OW_queue_temperature (set_latest_temp t s) = if decide (s.(prev_temp) = t) then set_latest_temp t s else
    set_published (s.(published) ++ [publish_buffer (format_temperature t)]) (set_prev_temp t (set_latest_temp t s)).
Proof.
  intros Ht. unfold OW_queue_temperature. cbn [latest_temp set_latest_temp prev_temp]. rewrite Ht. cbn [negb Z.eqb]. by destruct (decide _).
Qed.

Lemma read_temp_done_spec data s : s.(error) = OW_ERROR_NONE → s.(spad_buf) = data → length data = 9%nat → Forall is_byte data →
  ∃ s', read_temp_done_cb s = Some s' ∧ seq_ended [] s.(inputs) s s' ∧ s'.(published) = s.(published) ++ report data s
    ∧ s'.(latest_temp) = (if decide (valid data) then temperature_of (at_ data 0) (at_ data 1) else s.(latest_temp)).
Proof.
  intros He Hs Hd Hf. unfold read_temp_done_cb. rewrite He. change (negb (OW_ERROR_NONE =? 0)) with false. cbn match.
  change (spad_buf (hw_timer_stop s)) with (spad_buf s). rewrite Hs. destruct (crc_test data Hd Hf) as (crc & -> & Hcrc). cbn [mbind option_bind]. rewrite Hcrc.
  unfold report. set (t := temperature_of _ _). assert (Ht : available t = 1) by done. clearbody t.
  eexists. split; [reflexivity|]. destruct (decide (valid data)) as [Hv|Hv].
  - rewrite bool_decide_true, queue_temperature by done. change (prev_temp (hw_timer_stop s)) with (prev_temp s).
    destruct (decide (prev_temp s = t)) as [Et|Et]; [rewrite decide_False by tauto; rewrite app_nil_r|rewrite decide_True by done]; by repeat split.
  - rewrite bool_decide_false, decide_False by tauto. rewrite app_nil_r. by repeat split.
Qed.

Lemma run_read_t k data rest s :
  at_start [OW_OP_RESET; OW_OP_WRITE; OW_OP_WRITE; OW_OP_READ; OW_OP_END] [0; DS_SKIPROM; DS_READ_SPAD; 9; 0] s → s.(callback) = Some read_temp_done →
  s.(inputs) = replicate k true ++ false :: (data ≫= bits) ++ rest → (k < 6)%nat → length s.(spad_buf) = 9%nat → length data = 9%nat → Forall is_byte data →
  ∃ s', run (command_ticks k + (361 + 1)) s = Some s'
    ∧ seq_ended (command_wave k DS_SKIPROM DS_READ_SPAD ++ read_wave (data ≫= bits) ++ [Tick]) rest s s'
    ∧ s'.(published) = s.(published) ++ report data s
    ∧ s'.(latest_temp) = (if decide (valid data) then temperature_of (at_ data 0) (at_ data 1) else s.(latest_temp)).
Proof.
  intros Hs Ec Ei Hk Hb Hd Hf. rewrite (run_scratchpad k _ _ data rest) by done. set (s1 := set_seq_state OW_SEQ_STATE_DONE _).
  assert (Er : run_callback s1 = read_temp_done_cb s1) by (unfold run_callback; change (callback s1) with (callback s); by rewrite Ec).
  assert (Hlog : log s1 = reverse (command_wave k DS_SKIPROM DS_READ_SPAD ++ read_wave (data ≫= bits) ++ [Tick]) ++ log s).
  { rewrite !reverse_app, <- !(assoc_L (++)). reflexivity. }
  destruct (read_temp_done_spec data s1) as (s' & Es & [F1 F2 F3 F4 F5] & F6 & F7); [apply Hs|reflexivity|done..|].
  rewrite Er, Es. eexists. split; [reflexivity|]. split; [|done]. split; [done| |done..]. etrans; [apply F2|]. exact Hlog.
Qed.

(** ** A measurement *)

(** The request of the application, the turn of OW_init_seq_task that starts the
    conversion, its interrupts, the turn of the task 750 ms later and the
    interrupts of the reading: no sequence needs 600 of them. *)
Definition measurement (s : ow) : option ow :=
  '(_, s) ← OW_request_new_temp s;
  '(_, _, s) ← OW_init_seq_task s;
  s ← run 600 s;
  '(_, _, s) ← OW_init_seq_task s;
  run 600 s.

Lemma request_spec s : s.(ow_state) = OW_STATE_READY → s.(have_uuid) ≠ 0 →
  ∃ s', OW_request_new_temp s = Some (true, s') ∧ s'.(seq_state) = OW_SEQ_STATE_INIT ∧ s'.(ow_task_arg) = DS_SEQ_CONV_T
    ∧ s'.(seq_arr) = [OW_OP_RESET; OW_OP_WRITE; OW_OP_WRITE; OW_OP_END] ∧ s'.(inputs) = s.(inputs) ∧ s'.(log) = Enable :: s.(log)
    ∧ s'.(published) = s.(published) ∧ s'.(spad_buf) = replicate 4 0 ++ drop 4 s.(spad_buf) ∧ s'.(ow_state) = s.(ow_state) ∧ s'.(prev_temp) = s.(prev_temp).
Proof.
  intros E1 E2. unfold OW_request_new_temp. set (s1 := set_spad_buf _ s). change (ow_state s1) with (ow_state s). rewrite E1. eval_ops. cbn [negb].
  change (have_uuid (gpio_enable s1)) with (have_uuid s). rewrite (proj2 (Z.eqb_neq _ _) E2). eexists. split; [reflexivity|]. done.
Qed.

(** The turn of the task that starts the sequence [seq] of ds_seqs. *)
Lemma init_task_spec (seq : nat) cb sa aa sl rest s :
  (seq = 2%nat ∧ cb = conv_t_done) ∨ (seq = 3%nat ∧ cb = read_temp_done) →
  s.(seq_state) = OW_SEQ_STATE_INIT → s.(seq_arr) = OW_OP_RESET :: rest → s.(ow_task_arg) = Z.of_nat seq →
  ds_seqs !! seq = Some sa → ds_seq_args !! seq = Some aa → ds_seq_lens !! seq = Some sl →
  ∃ ms s', OW_init_seq_task s = Some (ms, 1, s') ∧ ms = (if decide (seq = 2%nat) then 15 else 750) ∧ at_start sa aa s' ∧ s'.(callback) = Some cb
    ∧ s'.(inputs) = s.(inputs) ∧ s'.(log) = s.(log) ∧ s'.(published) = s.(published) ∧ s'.(spad_buf) = s.(spad_buf) ∧ s'.(ow_state) = s.(ow_state)
    ∧ s'.(prev_temp) = s.(prev_temp).
Proof.
  intros Hseq E1 E2 E3 E4 E5 E6. unfold OW_init_seq_task. rewrite E1, E2. eval_ops. cbn [head mbind option_bind].
  set (s1 := set_seq_pos 0 _). change (ow_task_arg s1) with (ow_task_arg s). rewrite E3.
  destruct Hseq as [[-> ->]|[-> ->]]; cbn in E4, E5, E6; simplify_eq; cbn [Z.of_nat Pos.of_succ_nat Pos.succ]; eval_ops;
    unfold OW_init_seq; cbn [lookup list_lookup mbind option_bind ds_seqs ds_seq_args ds_seq_lens Z.to_nat DS_SEQ_CONV_T DS_SEQ_READ_T];
    (eexists _, _; split; [reflexivity|]; split; [done|]; split; [by split|done]).
Qed.
