(* ===== verification/OneWireTheorems.v ===== *)
(** OneWireTheorems: the correctness of the temperature sensor. *)

From S2P Require Import Prelude CString OneWire OneWireSpec OneWireRead OneWireData OneWireSeq.

(** ** A device on the bus

    It knows the level that the driver puts on the line, how long the line is low,
    and the bits it got: it takes a bit 30 us after the line has fallen, and forgets
    them after a reset pulse, 480 us of low. *)

Record device := { d_enabled : bool; d_level : bool; d_since : option nat; d_bits : list bool }.

Definition d_low (d : device) : bool := d.(d_enabled) && negb d.(d_level).

(** The pin was changed: the line falls, rises or stays as it is. *)
Definition d_pin (enabled level : bool) (d : device) : device :=
  let low := enabled && negb level in
  if negb (d_low d) && low then {| d_enabled := enabled; d_level := level; d_since := Some 0%nat; d_bits := d.(d_bits) |}
  else if d_low d && negb low then
    let reset := match d.(d_since) with Some n => bool_decide (48 ≤ n)%nat | None => false end in
    {| d_enabled := enabled; d_level := level; d_since := if reset then None else d.(d_since); d_bits := if reset then [] else d.(d_bits) |}
  else {| d_enabled := enabled; d_level := level; d_since := d.(d_since); d_bits := d.(d_bits) |}.

Definition d_tick (d : device) : device :=
  match d.(d_since) with
  | None => d
  | Some n => {| d_enabled := d.(d_enabled); d_level := d.(d_level); d_since := Some (S n);
                 d_bits := if bool_decide (n = 2%nat) then d.(d_bits) ++ [negb (d_low d)] else d.(d_bits) |}
  end.

Definition d_event (d : device) (e : pin_event) : device :=
  match e with
  | Tick => d_tick d
  | Enable => d_pin true d.(d_level) d
  | Disable => d_pin false d.(d_level) d
  | Write b => d_pin d.(d_enabled) b d
  | Read _ | DelayUs _ => d
  end.

Definition hears (d : device) (l : list pin_event) : device := foldl d_event d l.

Lemma hears_app d a b : hears d (a ++ b) = hears (hears d a) b.
Proof. apply foldl_app. Qed.

(** After a slot. *)
Definition slot_end (l : list bool) : device := {| d_enabled := true; d_level := true; d_since := Some 7%nat; d_bits := l |}.

Lemma hears_slot bit d : d_low d = false → hears d (write_slot bit) = slot_end (d.(d_bits) ++ [bit]).
Proof. destruct d as [[] [] since l]; intros E; try discriminate E; destruct bit; reflexivity. Qed.

Lemma hears_slots bs b : ∀ d, d_low d = false → hears d (concat (write_slot <$> b :: bs)) = slot_end (d.(d_bits) ++ b :: bs).
Proof.
  revert b. induction bs as [|b' bs IH]; intros b d Hd; cbn [fmap list_fmap concat]; rewrite hears_app, (hears_slot b d Hd); [done|].
  etrans; [apply IH; done|]. cbn [d_bits slot_end]. by rewrite <- (assoc_L (++)).
Qed.

(** The line is high and no bit is about to be taken. *)
Definition d_quiet (d : device) : Prop := d_low d = false ∧ (d.(d_since) = None ∨ d.(d_since) = Some 7%nat).

Lemma hears_ticks d : d_quiet d → d_bits (hears d [Tick; Tick]) = d_bits d ∧ d_low (hears d [Tick; Tick]) = false.
Proof. intros [Hl Hs]. destruct d as [e l since bs]. cbn in Hs. by destruct Hs as [-> | ->]. Qed.

Lemma hears_bits bs d : d_quiet d → bs ≠ [] → hears d ([Tick; Tick] ++ concat (write_slot <$> bs)) = slot_end (d.(d_bits) ++ bs).
Proof.
  intros Hd Hb. rewrite hears_app. destruct (hears_ticks d Hd) as [Eb El]. rewrite <- Eb. destruct bs; [done|]. by apply hears_slots.
Qed.

Lemma hears_byte b d : d_quiet d → hears d (write_wave b) = slot_end (d.(d_bits) ++ bits b).
Proof.
  intros Hd. assert (Eb : write_wave b = [Tick; Tick] ++ concat (write_slot <$> bits b)) by reflexivity. rewrite Eb.
  assert (Hb : bits b ≠ []) by discriminate. generalize dependent (bits b). intros bs _ Hb. by apply hears_bits.
Qed.

Definition after_reset : device := {| d_enabled := false; d_level := false; d_since := None; d_bits := [] |}.

Lemma hears_reset k d : d_low d = false → hears d (reset_wave k) = after_reset.
Proof.
  intros Hd. unfold reset_wave. rewrite !hears_app.
  assert (E1 : ∃ bs, hears d [Tick; Enable; Write false] = {| d_enabled := true; d_level := false; d_since := Some 0%nat; d_bits := bs |}).
  { destruct d as [[] [] [n|] bs]; try discriminate Hd; eexists; reflexivity. }
  destruct E1 as [bs ->]. replace (hears (hears _ (replicate 48 Tick)) [Disable]) with after_reset by (vm_compute; reflexivity).
  assert (E2 : hears after_reset (concat (replicate k [Tick; Read true])) = after_reset).
  { induction k as [|k IH]; [done|]. cbn [replicate concat]. by rewrite hears_app. }
  by rewrite E2.
Qed.

Lemma hears_command k c1 c2 d : d_low d = false → d_bits (hears d (command_wave k c1 c2)) = bits c1 ++ bits c2.
Proof.
  intros Hd. unfold command_wave. rewrite !hears_app, hears_reset by done. rewrite (hears_byte c1); [|split; [done|by left]].
  rewrite (hears_byte c2); [done|]. split; [done|by right].
Qed.

(** ** The theorems *)

(** Whenever a sequence of reset, write, write, .. starts and a device
    answers the reset within 60 us, the driver takes at most 220 timer interrupts
    for the reset and the two writes and goes on to the operation after them, and a device that is
    reset by 480 us of low and samples the line 30 us after each falling edge has
    then received exactly the bits of the two bytes, the least significant bit of each
    first. *)
Theorem ow_command_is_received (s : ow) (k : nat) (c1 c2 op a : Z) (seq args : list Z) (bs : list bool) :
  at_start (OW_OP_RESET :: OW_OP_WRITE :: OW_OP_WRITE :: op :: seq) (a :: c1 :: c2 :: args) s →
  s.(inputs) = replicate k true ++ false :: bs → (k < 6)%nat → zlength seq < 100 →
  ∃ n s' wave, (n ≤ 220)%nat ∧ run n s = Some s' ∧ s'.(op_type) = op ∧ s'.(seq_pos) = 3 ∧ s'.(inputs) = bs ∧ s'.(log) = reverse wave ++ s.(log)
    ∧ ∀ d, d_low d = false → d_bits (hears d wave) = bits c1 ++ bits c2.
Proof.
  intros Hs Hi Hk Hl. exists (command_ticks k), (commanded k c1 c2 op bs s), (command_wave k c1 c2).
  split; [unfold command_ticks; lia|]. split; [by eapply run_two_writes|]. do 4 (split; [done|]). intros d. apply hears_command.
Qed.

(** A driver that was started and has the number of its device. *)
Definition demo_ow (bs : list bool) : ow :=
  set_inputs bs (set_have_uuid 1 (OW_init {| seq_arr := []; arg_arr := []; seq_len := 0; seq_state := 0; seq_pos := 0; error := 0; op_type := 0; cur_op := 0;
    delay_count := 0; spad_buf := []; UUID := []; have_uuid := 0; ow_state := 0; callback := None; r_bitMask := 1; r_readsLeft := 0; r_readCount := 0;
    r_data := 0; w_bitMask := 1; w_data := 0; ow_task_arg := 0; latest_temp := no_temperature; prev_temp := no_temperature; hw_timer_state := 0;
    frc1_on := false; frc1_load := 0; hw_running := 0; inputs := []; log := []; published := [] |})).

(** The first sequence of a measurement has been set up. *)
Definition demo_started (bs : list bool) : ow :=
  match OW_request_new_temp (demo_ow bs) with
  | Some (_, s) => match OW_init_seq_task s with Some (_, _, s) => s | None => s end
  | None => demo_ow bs
  end.

Lemma ow_command_is_received_witness :
  at_start [OW_OP_RESET; OW_OP_WRITE; OW_OP_WRITE; OW_OP_END] [0; DS_SKIPROM; DS_CONVERT_T; 0] (demo_started [true; true; false]) ∧
  ∃ n s' wave, (n ≤ 220)%nat ∧ run n (demo_started [true; true; false]) = Some s' ∧ s'.(op_type) = OW_OP_END ∧ s'.(seq_pos) = 3 ∧ s'.(inputs) = []
    ∧ s'.(log) = reverse wave ++ (demo_started [true; true; false]).(log)
    ∧ ∀ d, d_low d = false → d_bits (hears d wave) = bits 0xCC ++ bits 0x44.
Proof.
  assert (H : at_start [OW_OP_RESET; OW_OP_WRITE; OW_OP_WRITE; OW_OP_END] [0; DS_SKIPROM; DS_CONVERT_T; 0] (demo_started [true; true; false])).
  { split; vm_compute; reflexivity. }
  split; [exact H|]. apply (ow_command_is_received (demo_started [true; true; false]) 2 0xCC 0x44 OW_OP_END 0 [] [0] []).
  - exact H.
  - vm_compute. reflexivity.
  - lia.
  - cbn. lia.
Defined.

(** For every buffer of bytes the table-driven checksum returns, without
    a read outside of the table or the buffer, what the shift register of the Dallas
    polynomial x^8 + x^5 + x^4 + 1 holds after all bits, least significant first. *)
Theorem crc8_is_the_shift_register (data rest : list Z) : Forall is_byte data → zlength data < 256 →
  onewire_crc8 (data ++ rest) (zlength data) = Some (crc_bits 0 (data ≫= bits)).
Proof. intros Hd _. unfold onewire_crc8. rewrite Nat2Z.id. by apply crc8_loop_register. Qed.

Lemma crc8_is_the_shift_register_witness : onewire_crc8 ([0x02; 0x1C; 0xB8; 0x01; 0; 0; 0] ++ [0xA2]) 7 = Some 0xA2.
Proof.
  assert (E : crc_bits 0 ([0x02; 0x1C; 0xB8; 0x01; 0; 0; 0] ≫= bits) = 0xA2) by (vm_compute; reflexivity). rewrite <- E.
  apply (crc8_is_the_shift_register [0x02; 0x1C; 0xB8; 0x01; 0; 0; 0] [0xA2]).
  - repeat constructor; discriminate.
  - cbn. lia.
Defined.

(** What the device answers: the presence pulses after [k1] and [k2] samples and
    the scratchpad. *)
Definition answers (k1 k2 : nat) (data : list Z) (rest : list bool) : list bool :=
  replicate k1 true ++ false :: replicate k2 true ++ false :: (data ≫= bits) ++ rest.

Lemma bind_bits_length data : length (data ≫= bits) = (length data * 8)%nat.
Proof. induction data as [|b data IH]; [done|]. rewrite bind_cons, length_app, IH, length_cons, bits_length. lia. Qed.

Lemma valid_of_test data : length data = 9%nat → Forall is_byte data → onewire_crc8 data 8 = data !! 8%nat → valid data.
Proof.
  intros Hd Hf Hc. destruct (crc_test data Hd Hf) as (crc & Ec & Hcrc). rewrite Ec in Hc. apply (bool_decide_unpack _).
  rewrite <- Hcrc. apply Is_true_true, Z.eqb_eq. unfold at_. change (Z.to_nat 8) with 8%nat. by rewrite <- Hc.
Qed.

(** A driver that is ready and has read the number of its device. *)
Definition ready (s : ow) : Prop := s.(ow_state) = OW_STATE_READY ∧ s.(have_uuid) ≠ 0 ∧ length s.(spad_buf) = 9%nat.

Lemma measurement_spec s k1 k2 data rest : ready s → (k1 < 6)%nat → (k2 < 6)%nat → length data = 9%nat → Forall is_byte data →
  s.(inputs) = answers k1 k2 data rest →
  ∃ s', measurement s = Some s' ∧ s'.(frc1_on) = false ∧ s'.(error) = OW_ERROR_NONE ∧ s'.(ow_state) = OW_STATE_READY ∧ s'.(inputs) = rest
    ∧ s'.(log) = reverse (Enable :: command_wave k1 DS_SKIPROM DS_CONVERT_T ++ [Tick] ++ command_wave k2 DS_SKIPROM DS_READ_SPAD
        ++ read_wave (data ≫= bits) ++ [Tick]) ++ s.(log)
    ∧ s'.(published) = s.(published) ++ report data s.
Proof.
  intros (E1 & E2 & E3) Hk1 Hk2 Hd Hf Ei. unfold measurement.
  destruct (request_spec s E1 E2) as (s1 & -> & A1 & A2 & A3 & A4 & A5 & A6 & A7 & A8 & A9). cbn [mbind option_bind].
  destruct (init_task_spec 2 conv_t_done _ _ _ _ s1 (or_introl (conj eq_refl eq_refl)) A1 A3 A2 eq_refl eq_refl eq_refl)
    as (ms & s2 & -> & _ & B1 & B2 & B3 & B4 & B5 & B6 & B7 & B8). cbn [mbind option_bind].
  destruct (run_conv_t k1 (replicate k2 true ++ false :: (data ≫= bits) ++ rest) s2 B1 B2) as (s3 & C1 & [C2 C3 C4 C5 C6] & C7 & C8 & C9 & C10 & C11 & C12 & C13);
    [by rewrite B3, A4, Ei|done|].
  rewrite (run_stop _ 600 _ _ C1 C2) by (unfold command_ticks; lia). cbn [mbind option_bind].
  assert (Es : seq_arr s3 = [OW_OP_RESET; OW_OP_WRITE; OW_OP_WRITE; OW_OP_END]) by (rewrite C9; apply B1).
  destruct (init_task_spec 3 read_temp_done _ _ _ _ s3 (or_intror (conj eq_refl eq_refl)) C7 Es C8 eq_refl eq_refl eq_refl)
    as (ms' & s4 & -> & _ & D1 & D2 & D3 & D4 & D5 & D6 & D7 & D8). cbn [mbind option_bind].
  assert (Hb : length s4.(spad_buf) = 9%nat) by (rewrite D6, C10, B6, A7, length_app, length_drop, length_replicate; lia).
  destruct (run_read_t k2 data rest s4 D1 D2) as (s5 & F1 & [F2 F3 F4 F5 F6] & F7 & F8); [by rewrite D3, C4|done..|].
  exists s5. split; [apply (run_stop _ 600 _ _ F1 F2); unfold command_ticks; lia|]. split; [done|]. split; [done|].
  split; [by rewrite F6, D7, C6, B7, A8|]. split; [done|]. split.
  - rewrite F3, D4, C3, B4, A5, reverse_cons, (assoc_L (++) (command_wave k1 _ _)), (reverse_app (command_wave k1 _ _ ++ [Tick])), <- !(assoc_L (++)). reflexivity.
  - rewrite F7, D5, C11, B5, A6. unfold report. by rewrite D8, C13, B8, A9.
Qed.

(** C20: from the request of the application to the published text.  When the
    device answers both resets and sends a scratchpad with a valid checksum and a
    new temperature below 100 degrees, then after the request, the two turns of the task and the
    interrupts of both sequences the driver has published exactly one string, the signed decimal
    text of the two's complement number of sixteenths in the first two bytes, with two places;
    the timer is off and the driver ready for the next request. *)
Theorem ow_publishes_the_temperature (s : ow) (k1 k2 : nat) (data : list Z) (rest : list bool) :
  let t := sixteenths (at_ data 0) (at_ data 1) in
  ready s → (k1 < 6)%nat → (k2 < 6)%nat → length data = 9%nat → Forall is_byte data → s.(inputs) = answers k1 k2 data rest →
  onewire_crc8 data 8 = data !! 8%nat → s.(prev_temp) ≠ temperature_of (at_ data 0) (at_ data 1) → - 1600 < t < 1600 →
  ∃ s' buf, measurement s = Some s' ∧ s'.(published) = s.(published) ++ [buf] ∧ cstring buf = degrees_text t
    ∧ s'.(frc1_on) = false ∧ s'.(ow_state) = OW_STATE_READY.
Proof.
  intros t Hr Hk1 Hk2 Hd Hf Hi Hc Hp Ht.
  destruct (measurement_spec s k1 k2 data rest Hr Hk1 Hk2 Hd Hf Hi) as (s' & E & E1 & _ & E2 & _ & _ & E3).
  assert (Hv : valid data) by (by apply valid_of_test).
  assert (Hb : is_byte (at_ data 0) ∧ is_byte (at_ data 1)).
  { destruct data as [|a [|b data]]; try done. apply Forall_cons in Hf as [? [? _]%Forall_cons]. done. }
  exists s', (publish_buffer (format_temperature (temperature_of (at_ data 0) (at_ data 1)))). split; [done|]. split.
  - rewrite E3. unfold report. by rewrite decide_True by done.
  - split; [|done]. rewrite format_text, publish_buffer_string by (apply Hb || apply degrees_text_nonzero). apply take_ge. by apply degrees_text_short.
Qed.

(** -10.125 degrees. *)
Definition demo_data : list Z := [0x5E; 0xFF; 0x4B; 0x46; 0x7F; 0xFF; 0x02; 0x10; 0xB6].

Lemma ow_publishes_the_temperature_witness :
  let s := demo_ow (answers 2 3 demo_data []) in
  ∃ s' buf, measurement s = Some s' ∧ s'.(published) = [] ++ [buf] ∧ cstring buf = [45; 49; 48; 46; 49; 50]
    ∧ s'.(frc1_on) = false ∧ s'.(ow_state) = OW_STATE_READY.
Proof.
  intros s. assert (Et : degrees_text (sixteenths (at_ demo_data 0) (at_ demo_data 1)) = [45; 49; 48; 46; 49; 50]) by (vm_compute; reflexivity).
  rewrite <- Et. apply (ow_publishes_the_temperature s 2 3 demo_data []).
  - split; [vm_compute; reflexivity|]. split; [discriminate|reflexivity].
  - lia.
  - lia.
  - reflexivity.
  - repeat constructor; discriminate.
  - vm_compute. reflexivity.
  - vm_compute. reflexivity.
  - discriminate.
  - vm_compute. split; reflexivity.
Defined.

(** C28: the checksum covers the line.  When what the driver samples differs from a
    valid scratchpad in any non-empty pattern of errors within eight consecutive bits, wherever
    it lies in the 72 bits, the measurement ends the same way, with the timer off and the
    driver ready, but publishes nothing and keeps the last temperature. *)
Theorem ow_corruption_is_not_published (s : ow) (k1 k2 i j : nat) (data data' : list Z) (w rest : list bool) :
  ready s → (k1 < 6)%nat → (k2 < 6)%nat → length data' = 9%nat → Forall is_byte data' → s.(inputs) = answers k1 k2 data' rest →
  length data = 9%nat → Forall is_byte data → onewire_crc8 data 8 = data !! 8%nat →
  length w = 8%nat → w ≠ replicate 8 false → (i + 8 + j = 72)%nat → (data' ≫= bits) = zip_with xorb (data ≫= bits) (burst i w j) →
  ∃ s', measurement s = Some s' ∧ s'.(published) = s.(published) ∧ s'.(frc1_on) = false ∧ s'.(ow_state) = OW_STATE_READY.
Proof.
  intros Hr Hk1 Hk2 Hd' Hf' Hi Hd Hf Hc Hw Hn Hij Ed.
  destruct (measurement_spec s k1 k2 data' rest Hr Hk1 Hk2 Hd' Hf' Hi) as (s' & E & E1 & _ & E2 & _ & _ & E3).
  exists s'. split; [done|]. split; [|done]. rewrite E3. unfold report. rewrite decide_False; [by rewrite app_nil_r|].
  intros [Hv _]. revert Hv. eapply burst_detected; [by apply valid_of_test| | | |exact Ed]; [done..|].
  unfold burst. rewrite !length_app, !length_replicate, Hw, (bind_bits_length data), Hd. lia.
Qed.

(** The fourth byte of [demo_data] has three bits wrong, across its border. *)
Definition demo_corrupted : list Z := [0x5E; 0xFF; 0x4B; 0xC6; 0x7C; 0xFF; 0x02; 0x10; 0xB6].

Lemma ow_corruption_is_not_published_witness :
  let s := demo_ow (answers 0 5 demo_corrupted []) in
  ∃ s', measurement s = Some s' ∧ s'.(published) = [] ∧ s'.(frc1_on) = false ∧ s'.(ow_state) = OW_STATE_READY.
Proof.
  intros s. apply (ow_corruption_is_not_published s 0 5 31 33 demo_data demo_corrupted [true; true; true; false; false; false; false; false] []).
  - split; [vm_compute; reflexivity|]. split; [discriminate|reflexivity].
  - lia.
  - lia.
  - reflexivity.
  - repeat constructor; discriminate.
  - vm_compute. reflexivity.
  - reflexivity.
  - repeat constructor; discriminate.
  - vm_compute. reflexivity.
  - reflexivity.
  - discriminate.
  - reflexivity.
  - vm_compute. reflexivity.
Defined.

Lemma callback_error s : s.(error) ≠ 0 → is_Some s.(callback) → run_callback s = Some (OW_handle_error s).
Proof.
  intros He [cb Hc]. unfold run_callback. rewrite Hc. assert (En : negb (error s =? 0) = true) by (by rewrite (proj2 (Z.eqb_neq _ _) He)).
  destruct cb; unfold read_uuid_done_cb, conv_t_done_cb, read_temp_done_cb; by rewrite En.
Qed.

Lemma init_task_idle s : s.(seq_state) = OW_SEQ_STATE_DONE → OW_init_seq_task s = Some (0, 25, s).
Proof. intros E. unfold OW_init_seq_task. by rewrite E. Qed.

Lemma request_accepted s : s.(ow_state) = OW_STATE_READY → ∃ s', OW_request_new_temp s = Some (true, s').
Proof.
  intros E. unfold OW_request_new_temp. set (s1 := set_spad_buf _ _). change (ow_state s1) with (ow_state s). rewrite E. eval_ops. cbn [negb].
  destruct (negb (have_uuid (gpio_enable s1) =? 0)); eexists; reflexivity.
Qed.

(** C40: a sequence on a bus where no device pulls the line low after the reset ends
    after 550 us: the callback clears the error, stops the timer and leaves the driver
    ready, nothing is published and no byte was sent; the task does nothing until the next
    request, which is accepted. *)
Theorem ow_without_device (s : ow) (seq args : list Z) (bs : list bool) :
  at_start (OW_OP_RESET :: seq) args s → is_Some s.(callback) → s.(inputs) = replicate 6 true ++ bs →
  ∃ s' wave, run 55 s = Some s' ∧ s'.(frc1_on) = false ∧ s'.(error) = OW_ERROR_NONE ∧ s'.(ow_state) = OW_STATE_READY ∧ s'.(published) = s.(published)
    ∧ s'.(log) = reverse wave ++ s.(log) ∧ (Write true ∉ wave)
    ∧ OW_init_seq_task s' = Some (0, 25, s') ∧ (∃ s'', OW_request_new_temp s' = Some (true, s'')).
Proof.
  intros Hs Hcb Hi. destruct (run_no_presence bs s) as (l & E & Hl); [apply Hs|apply Hs|apply Hs|done|].
  change (49 + 6)%nat with 55%nat in E. rewrite callback_error in E by done. cbn [fmap option_fmap option_map] in E.
  eexists _, (reverse (Disable :: l)). split; [exact E|]. clear E.
  do 4 (split; [reflexivity|]). split; [by rewrite reverse_involutive|]. split; [rewrite elem_of_reverse; by rewrite not_elem_of_cons|].
  split; [by apply init_task_idle|]. by apply request_accepted.
Qed.

Lemma ow_without_device_witness :
  let s := demo_started (replicate 8 true) in
  ∃ s' wave, run 55 s = Some s' ∧ s'.(frc1_on) = false ∧ s'.(error) = OW_ERROR_NONE ∧ s'.(ow_state) = OW_STATE_READY ∧ s'.(published) = s.(published)
    ∧ s'.(log) = reverse wave ++ s.(log) ∧ (Write true ∉ wave)
    ∧ OW_init_seq_task s' = Some (0, 25, s') ∧ (∃ s'', OW_request_new_temp s' = Some (true, s'')).
Proof.
  intros s. apply (ow_without_device s [OW_OP_WRITE; OW_OP_WRITE; OW_OP_END] [0; DS_SKIPROM; DS_CONVERT_T; 0] [true; true]).
  - split; vm_compute; reflexivity.
  - exists conv_t_done. vm_compute. reflexivity.
  - vm_compute. reflexivity.
Defined.

(** ** What the driver does not promise *)

(** The driver 110 interrupts into its first sequence. *)
Definition demo_running : option ow := run 110 (demo_started (answers 2 3 demo_data [])).

(** Nothing marks a sequence as running: a request in the middle of one is accepted
    and takes the state machine out of its operation. *)
Theorem ow_request_during_sequence :
  (λ s, (s.(frc1_on), s.(seq_state), fst <$> OW_request_new_temp s, (λ r, r.2.(seq_state)) <$> OW_request_new_temp s)) <$> demo_running
  = Some (true, OW_SEQ_STATE_STARTED, Some true, Some OW_SEQ_STATE_INIT).
Proof. vm_compute. reflexivity. Qed.

(** From 100 degrees on, the last digit is cut off: 125.06 is published as 125.0. *)
Theorem ow_text_is_cut : cstring (publish_buffer (format_temperature (temperature_of 0xD1 0x07))) = [43; 49; 50; 53; 46; 48].
Proof. vm_compute. reflexivity. Qed.

(** hw_timer_restart cannot start the timer: before the first stop it does nothing,
    and afterwards the stop inside it leaves the state ACTIVE, so that
    hw_timer_start returns at once. *)
Theorem hw_timer_restart_stops s : s.(hw_timer_state) = HW_TIMER_ACTIVE → s.(hw_running) ≠ 0 → frc1_on (hw_timer_restart s) = false.
Proof.
  intros E1 E2. unfold hw_timer_restart. rewrite (proj2 (Z.eqb_neq _ _) E2). cbn [negb]. unfold hw_timer_start.
  change (hw_timer_state (hw_timer_stop s)) with (hw_timer_state s). by rewrite E1.
Qed.

(** The request clears four bytes of the scratchpad, not nine. *)
Theorem ow_request_clears_four s : s.(ow_state) = OW_STATE_READY → s.(have_uuid) ≠ 0 → s.(spad_buf) = replicate 9 0xAA →
  (λ r, r.2.(spad_buf)) <$> OW_request_new_temp s = Some (replicate 4 0 ++ replicate 5 0xAA).
Proof. intros E1 E2 E3. destruct (request_spec s E1 E2) as (s' & -> & _ & _ & _ & _ & _ & _ & E & _). cbn. by rewrite E, E3. Qed.
