(* ===== verification/Rboot.v ===== *)
(** Rboot: the boot configuration and the update API, extras/rboot-ota/rboot-api.c,
    and the boot loader that reads what they leave, bootloader/rboot/rboot.c.

    The flash is the interface [FlashDev] of the driver; the boot loader calls the
    functions of the boot ROM, which have the same contract.  The options are those of
    bootloader/rboot/rboot.h: checksums on, RTC data on, GPIO boot off.  A struct is
    a record with its layout written out; padding bytes are kept. *)

From S2P Require Import Prelude Flash.

(** ** Constants *)

Definition CHKSUM_INIT : Z := 0xef.
Definition SECTOR_SIZE : Z := 0x1000.
Definition BOOT_CONFIG_SECTOR : Z := 1.
Definition BOOT_CONFIG_MAGIC : Z := 0xe1.
Definition BOOT_CONFIG_VERSION : Z := 0x01.
Definition MODE_STANDARD : Z := 0x00.
Definition MODE_TEMP_ROM : Z := 0x02.
Definition RBOOT_RTC_MAGIC : Z := 0x2334ae68.
Definition RBOOT_RTC_ADDR : Z := 64.
Definition ROM_MAGIC_OLD : Z := 0xe9.
Definition ROM_MAGIC_NEW : Z := 0xea.
Definition ROM_MAGIC_NEW2 : Z := 0x04.
Definition BUFFER_SIZE : Z := 0x100.

(** ** Data *)

Record rboot_config := {
  magic : Z;
  version : Z;
  mode : Z;
  current_rom : Z;
  gpio_rom : Z;
  count : Z;
  last_main_rom : Z;
  last_setup_rom : Z;
  roms : list Z;       (** MAX_ROMS = 4 addresses *)
  chksum : Z;
  cpadding : list Z;   (** 3 bytes up to the size of 28 *)
}.

(** The bytes of the struct before chksum, and all of it. *)
Definition config_head (c : rboot_config) : list Z :=
  [c.(magic); c.(version); c.(mode); c.(current_rom); c.(gpio_rom); c.(count); c.(last_main_rom); c.(last_setup_rom)]
  ++ (c.(roms) ≫= le32).
Definition config_bytes (c : rboot_config) : list Z := config_head c ++ [c.(chksum)] ++ c.(cpadding).

Definition parse_config (bs : list Z) : rboot_config := {|
  magic := at_ bs 0; version := at_ bs 1; mode := at_ bs 2; current_rom := at_ bs 3; gpio_rom := at_ bs 4; count := at_ bs 5;
  last_main_rom := at_ bs 6; last_setup_rom := at_ bs 7; roms := [get32 bs 8; get32 bs 12; get32 bs 16; get32 bs 20];
  chksum := at_ bs 24; cpadding := [at_ bs 25; at_ bs 26; at_ bs 27] |}.

Definition SIZEOF_CONFIG : Z := 28.

Definition set_chksum (x : Z) (c : rboot_config) : rboot_config := {|
  magic := c.(magic); version := c.(version); mode := c.(mode); current_rom := c.(current_rom); gpio_rom := c.(gpio_rom);
  count := c.(count); last_main_rom := c.(last_main_rom); last_setup_rom := c.(last_setup_rom); roms := c.(roms);
  chksum := x; cpadding := c.(cpadding) |}.
Definition set_current_rom (x : Z) (c : rboot_config) : rboot_config := {|
  magic := c.(magic); version := c.(version); mode := c.(mode); current_rom := x; gpio_rom := c.(gpio_rom);
  count := c.(count); last_main_rom := c.(last_main_rom); last_setup_rom := c.(last_setup_rom); roms := c.(roms);
  chksum := c.(chksum); cpadding := c.(cpadding) |}.

Record rboot_rtc_data := {
  rtc_magic : Z;
  next_mode : Z;
  last_mode : Z;
  last_rom : Z;
  temp_rom : Z;
  rtc_chksum : Z;
  rpadding : list Z;   (** 3 bytes up to the size of 12 *)
}.

Definition rtc_head (r : rboot_rtc_data) : list Z :=
  le32 r.(rtc_magic) ++ [r.(next_mode); r.(last_mode); r.(last_rom); r.(temp_rom)].
Definition rtc_bytes (r : rboot_rtc_data) : list Z := rtc_head r ++ [r.(rtc_chksum)] ++ r.(rpadding).
Definition parse_rtc (bs : list Z) : rboot_rtc_data := {|
  rtc_magic := get32 bs 0; next_mode := at_ bs 4; last_mode := at_ bs 5; last_rom := at_ bs 6; temp_rom := at_ bs 7;
  rtc_chksum := at_ bs 8; rpadding := [at_ bs 9; at_ bs 10; at_ bs 11] |}.

Definition SIZEOF_RTC : Z := 12.

Record rboot_write_status := {
  start_addr : Z;
  start_sector : Z;
  last_sector_erased : Z;   (** int32 *)
  extra_count : Z;
  extra_bytes : list Z;     (** 4 bytes *)
}.

(** calc_chksum over the bytes between its two pointers *)
Definition calc_chksum (bs : list Z) : Z := foldl Z.lxor CHKSUM_INIT bs.

(** ** The state: flash, RTC memory (the 768 bytes from 0x60001100) and heap *)

Record board (D : Type) := { bd_dev : D; bd_rtc : list Z; bd_nalloc : nat; bd_live : Z }.
Arguments bd_dev {_} _.
Arguments bd_rtc {_} _.
Arguments bd_nalloc {_} _.
Arguments bd_live {_} _.
Arguments Build_board {_} _ _ _ _.

Definition set_dev {D} (d : D) (b : board D) : board D := Build_board d b.(bd_rtc) b.(bd_nalloc) b.(bd_live).
Definition set_rtc {D} (r : list Z) (b : board D) : board D := Build_board b.(bd_dev) r b.(bd_nalloc) b.(bd_live).

Section rboot.
  Context {D : Type} {Dev : FlashDev D} {Hp : Heap}.

Definition flash_read (a n : Z) : ST (board D) (sdk_SpiFlashOpResult * list Z) := λ b,
  let '(r, d) := spi_flash_read a n b.(bd_dev) in (r, set_dev d b).
Definition flash_write (a : Z) (data : list Z) (n : Z) : ST (board D) sdk_SpiFlashOpResult := λ b,
  let '(r, d) := spi_flash_write a data n b.(bd_dev) in (r, set_dev d b).
Definition flash_erase (s : Z) : ST (board D) sdk_SpiFlashOpResult := λ b,
  let '(r, d) := spi_flash_erase_sector s b.(bd_dev) in (r, set_dev d b).
Definition os_malloc (n : Z) : ST (board D) bool := λ b,
  let ok := malloc_ok b.(bd_nalloc) n in
  (ok, Build_board b.(bd_dev) b.(bd_rtc) (S b.(bd_nalloc)) (if ok then b.(bd_live) + 1 else b.(bd_live))).
Definition os_free : ST (board D) unit := λ b, (tt, Build_board b.(bd_dev) b.(bd_rtc) b.(bd_nalloc) (b.(bd_live) - 1)).

Definition failed (r : sdk_SpiFlashOpResult) : bool := bool_decide (r ≠ SPI_FLASH_RESULT_OK).

(** ** The boot configuration *)

Definition rboot_get_config : ST (board D) rboot_config :=
  '(_, conf) ← flash_read (BOOT_CONFIG_SECTOR * SECTOR_SIZE) SIZEOF_CONFIG;
  mret (parse_config conf).

(** The result and what [*conf] is afterwards.  The critical sections keep other
    tasks out while the sector is erased and while it is written. *)
Definition rboot_set_config (conf : rboot_config) : ST (board D) (bool * rboot_config) :=
  buffer ← os_malloc SECTOR_SIZE;
  if negb buffer then mret (false, conf)
  else
    let conf := set_chksum (calc_chksum (config_head conf)) conf in
    '(_, buffer) ← flash_read (BOOT_CONFIG_SECTOR * SECTOR_SIZE) SECTOR_SIZE;
    let buffer := config_bytes conf ++ drop (Z.to_nat SIZEOF_CONFIG) buffer in
    _ ← flash_erase BOOT_CONFIG_SECTOR;
    _ ← flash_write (BOOT_CONFIG_SECTOR * SECTOR_SIZE) buffer SECTOR_SIZE;
    _ ← os_free;
    mret (true, conf).

Definition rboot_get_current_rom : ST (board D) Z := conf ← rboot_get_config; mret conf.(current_rom).

Definition rboot_set_current_rom (rom : Z) : ST (board D) bool :=
  conf ← rboot_get_config;
  if conf.(count) <=? rom then mret false
  else '(ok, _) ← rboot_set_config (set_current_rom rom conf); mret ok.

Definition rboot_get_slot_offset (slot : Z) : ST (board D) Z :=
  conf ← rboot_get_config;
  if conf.(count) <=? slot then mret (u32 (-1)) else mret (at_ conf.(roms) slot).

(** ** Writing an image *)

Definition rboot_write_init (start_addr : Z) : rboot_write_status :=
  let start_sector := start_addr / SECTOR_SIZE in
  {| start_addr := start_addr; start_sector := start_sector; last_sector_erased := s32 (start_sector - 1);
     extra_count := 0; extra_bytes := [0; 0; 0; 0] |}.

(** The loop that erases the sectors up to [lastsect]; the last one erased. *)
Fixpoint erase_loop (fuel : nat) (lastsect last : Z) : ST (board D) Z :=
  match fuel with
  | O => mret last
  | S fuel =>
      if last <? lastsect then _ ← flash_erase (last + 1); erase_loop fuel lastsect (last + 1)
      else mret last
  end.

Definition rboot_write_flash (status : rboot_write_status) (data : option (list Z)) (len : Z)
  : ST (board D) (bool * rboot_write_status) :=
  match data with
  | None => mret (true, status)
  | Some data =>
      if len =? 0 then mret (true, status)
      else
        buffer ← os_malloc (len + status.(extra_count));
        if negb buffer then mret (false, status)
        else
          let buffer := take (Z.to_nat status.(extra_count)) status.(extra_bytes) ++ take (Z.to_nat len) data in
          let len := u16 (len + status.(extra_count)) in
          let extra := len `mod` 4 in
          let len := len - extra in
          let bytes := sub_list buffer len extra ++ drop (Z.to_nat extra) status.(extra_bytes) in
          let lastsect := s32 (u32 (status.(start_addr) + len - 1) / SECTOR_SIZE) in
          last ← erase_loop (Z.to_nat (lastsect - status.(last_sector_erased))) lastsect status.(last_sector_erased);
          r ← flash_write status.(start_addr) buffer len;
          let ok := negb (failed r) in
          let addr := if ok then u32 (status.(start_addr) + len) else status.(start_addr) in
          _ ← os_free;
          mret (ok, {| start_addr := addr; start_sector := status.(start_sector); last_sector_erased := last;
                       extra_count := extra; extra_bytes := bytes |})
  end.

(** ** Verifying an image *)

(** The error messages of rboot_verify_image. *)
Inductive verify_error :=
  | Unaligned_flash_offset
  | Flash_fail
  | Missing_initial_magic
  | Header_length_not_modulo_4
  | Bad_second_magic
  | Image_truncated
  | Invalid_checksum.

(** The loop over the bytes of a section, a chunk of 16 at a time; the status of the
    reads is ignored. *)
Fixpoint section_checksum (fuel : nat) (offset i length checksum : Z) : ST (board D) Z :=
  match fuel with
  | O => mret checksum
  | S fuel =>
      if i <? length then
        '(_, chunk) ← flash_read (u32 (offset + i)) 16;
        section_checksum fuel offset (i + 16) length (foldl Z.lxor checksum (take (Z.to_nat (length - i)) (take 16 chunk)))
      else mret checksum
  end.

Definition align4 (x : Z) : Z := Z.land (u32 (x + 3)) 0xfffffffc.
Definition align16 (x : Z) : Z := Z.land (u32 (x + 15)) 0xfffffff0.

(** The loop over the sections; the error if any, and [offset], [remaining_sections]
    and [checksum].  The count of sections can be set once more, by the second
    header: 512 rounds are enough. *)
Fixpoint verify_loop (fuel : nat) (end_limit offset remaining : Z) (is_new_header : bool) (checksum : Z)
  : ST (board D) (option verify_error * Z * Z * Z) :=
  match fuel with
  | O => mret (None, offset, remaining, checksum)
  | S fuel =>
      if (0 <? remaining) && (offset <? end_limit) then
        '(r, header) ← flash_read offset 8;
        if failed r then mret (Some Flash_fail, offset, remaining, checksum)
        else
          let length := get32 header 4 in
          let offset := u32 (offset + 8) in
          if end_limit <? u32 (length + offset) then mret (None, offset, remaining, checksum)
          else if negb (length `mod` 4 =? 0) then mret (Some Header_length_not_modulo_4, offset, remaining, checksum)
          else
            checksum ← (if is_new_header then mret checksum
                        else section_checksum (Z.to_nat ((length + 15) / 16)) offset 0 length checksum);
            let offset := align4 (u32 (offset + length)) in
            let remaining := remaining - 1 in
            if is_new_header then
              let offset := align16 offset in
              '(_, image_header) ← flash_read offset 8;
              let offset := u32 (offset + 8) in
              if negb (at_ image_header 0 =? ROM_MAGIC_OLD) then mret (Some Bad_second_magic, offset, remaining, checksum)
              else verify_loop fuel end_limit offset (at_ image_header 1) false checksum
            else verify_loop fuel end_limit offset remaining false checksum
      else mret (None, offset, remaining, checksum)
  end.

(** The error, if any, and [*image_length]. *)
Definition rboot_verify_image (initial_offset : Z) : ST (board D) (option verify_error * Z) :=
  let offset := initial_offset in
  let fail e offset := mret (Some e, u32 (offset - initial_offset)) in
  if negb (offset `mod` 4 =? 0) then fail Unaligned_flash_offset offset
  else
    let end_limit := u32 (offset + 0x100000) in
    '(r, image_header) ← flash_read offset 8;
    if failed r then fail Flash_fail offset
    else
      let offset := u32 (offset + 8) in
      let magic := at_ image_header 0 in
      if negb (magic =? ROM_MAGIC_OLD) && negb (magic =? ROM_MAGIC_NEW) then fail Missing_initial_magic offset
      else
        '(err, offset, remaining, checksum) ← verify_loop 512 end_limit offset (at_ image_header 1) (magic =? ROM_MAGIC_NEW) CHKSUM_INIT;
        match err with
        | Some e => fail e offset
        | None =>
            if 0 <? remaining then fail Image_truncated offset
            else
              let offset := align16 (u32 (offset + 1)) in
              '(_, read_checksum) ← flash_read (u32 (offset - 1)) 1;
              if negb (u8 (at_ read_checksum 0) =? checksum) then fail Invalid_checksum offset
              else mret (None, u32 (offset - initial_offset))
        end.

(** The pieces that are handed to the digest function, and the result. *)
Fixpoint digest_loop (fuel : nat) (offset image_length i : Z) (pieces : list (list Z)) : ST (board D) (bool * list (list Z)) :=
  match fuel with
  | O => mret (true, pieces)
  | S fuel =>
      if i <? image_length then
        '(r, buf) ← flash_read (u32 (offset + i)) 32;
        if failed r then mret (false, pieces)
        else
          let digest_len := if image_length <? i + 32 then image_length - i else 32 in
          digest_loop fuel offset image_length (i + 32) (pieces ++ [take (Z.to_nat digest_len) buf])
      else mret (true, pieces)
  end.

Definition rboot_digest_image (offset image_length : Z) : ST (board D) (bool * list (list Z)) :=
  digest_loop (Z.to_nat ((image_length + 31) / 32)) offset image_length 0 [].

(** ** RTC memory *)

(** sdk_system_rtc_mem_write and _read of open_esplibs/libmain/user_interface.c: they
    copy to and from the start of the memory, whatever the address is.  The structs
    are aligned. *)
Definition rtc_size (save_size : Z) : Z := if negb (Z.land save_size 3 =? 0) then Z.land save_size 0xfffc + 4 else save_size.
Definition sdk_system_rtc_mem_write (des_addr : Z) (src : list Z) (save_size : Z) : ST (board D) bool := λ b,
  if 191 <? des_addr then (false, b)
  else if 768 - des_addr * 4 <? save_size then (false, b)
  else
    let n := Z.to_nat (rtc_size save_size) in
    (true, set_rtc (take n src ++ drop n b.(bd_rtc)) b).
Definition sdk_system_rtc_mem_read (src_addr save_size : Z) : ST (board D) (option (list Z)) := λ b,
  if 191 <? src_addr then (None, b)
  else if 768 - src_addr * 4 <? save_size then (None, b)
  else (Some (take (Z.to_nat (rtc_size save_size)) b.(bd_rtc)), b).

(** The data if they are valid; otherwise what is in [*rtc]. *)
Definition rboot_get_rtc_data : ST (board D) (bool * rboot_rtc_data) :=
  data ← sdk_system_rtc_mem_read RBOOT_RTC_ADDR SIZEOF_RTC;
  match data with
  | Some bs => let rtc := parse_rtc bs in mret (rtc.(rtc_chksum) =? calc_chksum (rtc_head rtc), rtc)
  | None => mret (false, parse_rtc [])
  end.

Definition set_rtc_chksum (r : rboot_rtc_data) : rboot_rtc_data := {|
  rtc_magic := r.(rtc_magic); next_mode := r.(next_mode); last_mode := r.(last_mode); last_rom := r.(last_rom);
  temp_rom := r.(temp_rom); rtc_chksum := calc_chksum (rtc_head r); rpadding := r.(rpadding) |}.

Definition rboot_set_rtc_data (rtc : rboot_rtc_data) : ST (board D) bool :=
  sdk_system_rtc_mem_write RBOOT_RTC_ADDR (rtc_bytes (set_rtc_chksum rtc)) SIZEOF_RTC.

Definition rboot_set_temp_rom (rom : Z) : ST (board D) bool :=
  '(ok, rtc) ← rboot_get_rtc_data;
  let rtc := {| rtc_magic := if ok : bool then rtc.(rtc_magic) else RBOOT_RTC_MAGIC; next_mode := MODE_TEMP_ROM;
                last_mode := if ok then rtc.(last_mode) else MODE_STANDARD; last_rom := if ok then rtc.(last_rom) else 0;
                temp_rom := rom; rtc_chksum := rtc.(rtc_chksum); rpadding := rtc.(rpadding) |} in
  rboot_set_rtc_data rtc.

Definition rboot_get_last_boot_rom : ST (board D) (option Z) :=
  '(ok, rtc) ← rboot_get_rtc_data; mret (if ok : bool then Some rtc.(last_rom) else None).
Definition rboot_get_last_boot_mode : ST (board D) (option Z) :=
  '(ok, rtc) ← rboot_get_rtc_data; mret (if ok : bool then Some rtc.(last_mode) else None).

End rboot.
