(* ===== verification/RbootLoader.v ===== *)
(** RbootLoader: the boot loader, bootloader/rboot/rboot.c.

    It runs before the system, from the boot ROM's functions SPIRead, SPIEraseSector and
    SPIWrite, here the interface [FlashDev].  Its output and delays have no effect;
    copying the second stage to RAM is the last thing it does. *)

From S2P Require Import Prelude Flash Rboot.

Section loader.
  Context {D : Type} {Dev : FlashDev D}.

(** ** Checking an image *)

(** The loop that reads the [remaining] bytes of a section; the new [readpos] and
    [chksum], or nothing when a read fails. *)
Fixpoint read_section (fuel : nat) (readpos remaining chksum : Z) : ST (board D) (option (Z * Z)) :=
  match fuel with
  | O => mret (Some (readpos, chksum))
  | S fuel =>
      if 0 <? remaining then
        let readlen := if remaining <? BUFFER_SIZE then remaining else BUFFER_SIZE in
        '(r, buffer) ← flash_read readpos readlen;
        if failed r then mret None
        else read_section fuel (u32 (readpos + readlen)) (remaining - readlen) (foldl Z.lxor chksum (take (Z.to_nat readlen) buffer))
      else mret (Some (readpos, chksum))
  end.

(** The loop over the sections.  [sectcount] is 0xff until the header behind the irom
    section was read. *)
Fixpoint check_sections (fuel : nat) (readpos sectcurrent sectcount chksum : Z) : ST (board D) (option (Z * Z)) :=
  match fuel with
  | O => mret (Some (readpos, chksum))
  | S fuel =>
      if sectcurrent <? sectcount then
        '(r, section) ← flash_read readpos 8;
        if failed r then mret None
        else
          let readpos := u32 (readpos + 8) in
          let remaining := get32 section 4 in
          res ← read_section (Z.to_nat (remaining / BUFFER_SIZE + 1)) readpos remaining chksum;
          match res with
          | None => mret None
          | Some (readpos, chksum) =>
              if sectcount =? 0xff then
                '(r, header) ← flash_read readpos 8;
                if failed r then mret None
                else check_sections fuel (u32 (readpos + 8)) (sectcurrent + 1) (u8 (at_ header 1 + 1)) chksum
              else check_sections fuel readpos (sectcurrent + 1) sectcount chksum
          end
      else mret (Some (readpos, chksum))
  end.

(** The address to load from; 0: the image is bad.  [sectcurrent] is below a count of
    eight bits: 256 rounds are enough. *)
Definition check_image (readpos : Z) : ST (board D) Z :=
  if (readpos =? 0) || (readpos =? 0xffffffff) then mret 0
  else
    '(r, header) ← flash_read readpos 16;
    if failed r then mret 0
    else
      let magic := at_ header 0 in
      let count := at_ header 1 in
      let start :=
        if magic =? ROM_MAGIC_OLD then Some (readpos, count)
        else if (magic =? ROM_MAGIC_NEW) && (count =? ROM_MAGIC_NEW2)
        then Some (u32 (readpos + get32 header 12 + 16), 0xff)
        else None in
      match start with
      | None => mret 0
      | Some (romaddr, sectcount) =>
          res ← check_sections 256 (u32 (readpos + 8)) 0 sectcount CHKSUM_INIT;
          match res with
          | None => mret 0
          | Some (readpos, chksum) =>
              '(r, buffer) ← flash_read (Z.lor readpos 0x0f) 1;
              if failed r then mret 0
              else if negb (at_ buffer 0 =? chksum) then mret 0
              else mret romaddr
          end
      end.

(** ** RTC memory *)

(** system_rtc_mem of the loader: the word [addr] of the memory. *)
Definition system_rtc_mem_read (addr length : Z) : ST (board D) (option (list Z)) := λ b,
  if addr <? 64 then (None, b)
  else if negb (Z.land length 3 =? 0) then (None, b)
  else if 0x300 - addr * 4 <? length then (None, b)
  else (Some (sub_list b.(bd_rtc) (addr * 4) length), b).
Definition system_rtc_mem_write (addr : Z) (buff : list Z) (length : Z) : ST (board D) bool := λ b,
  if addr <? 64 then (false, b)
  else if negb (Z.land length 3 =? 0) then (false, b)
  else if 0x300 - addr * 4 <? length then (false, b)
  else (true, set_rtc (take (Z.to_nat (addr * 4)) b.(bd_rtc) ++ take (Z.to_nat length) buff
                         ++ drop (Z.to_nat (addr * 4 + length)) b.(bd_rtc)) b).

(** ** The choice of the rom *)

(** The size that the header of the loader itself announces. *)
Definition flash_size (flags2 : Z) : Z :=
  let flag := Z.shiftr flags2 4 in
  if flag =? 0 then 0x80000 else if flag =? 1 then 0x40000 else if flag =? 2 then 0x100000
  else if flag =? 3 then 0x200000 else if flag =? 4 then 0x400000 else 0x80000.

(** The configuration that is written when there is none: zeros but for these. *)
Definition default_config (flashsize : Z) : rboot_config := {|
  magic := BOOT_CONFIG_MAGIC; version := BOOT_CONFIG_VERSION; mode := 0; current_rom := 0; gpio_rom := 0; count := 2;
  last_main_rom := 0; last_setup_rom := 0;
  roms := [SECTOR_SIZE * (BOOT_CONFIG_SECTOR + 1); flashsize / 2 + SECTOR_SIZE * (BOOT_CONFIG_SECTOR + 1); 0; 0];
  chksum := 0; cpadding := [0; 0; 0] |}.

(** The sector buffer with the configuration [c] at its start. *)
Definition put_config (c : rboot_config) (buffer : list Z) : list Z := config_bytes c ++ drop (Z.to_nat SIZEOF_CONFIG) buffer.

Definition with_chksum (c : rboot_config) : rboot_config := set_chksum (calc_chksum (config_head c)) c.

Definition config_valid (c : rboot_config) : bool :=
  (c.(magic) =? BOOT_CONFIG_MAGIC) && (c.(version) =? BOOT_CONFIG_VERSION) && (c.(chksum) =? calc_chksum (config_head c)).

Definition write_config (buffer : list Z) : ST (board D) unit :=
  _ ← flash_erase BOOT_CONFIG_SECTOR;
  _ ← flash_write (BOOT_CONFIG_SECTOR * SECTOR_SIZE) buffer SECTOR_SIZE;
  mret tt.

(** The sector buffer with a valid configuration, the default one if need be. *)
Definition load_config (flashsize : Z) : ST (board D) (list Z) :=
  '(_, buffer) ← flash_read (BOOT_CONFIG_SECTOR * SECTOR_SIZE) SECTOR_SIZE;
  if config_valid (parse_config buffer) then mret buffer
  else
    let buffer := put_config (with_chksum (default_config flashsize)) buffer in
    _ ← write_config buffer;
    mret buffer.

(** romconf->roms[i]: the words of the sector buffer from offset 8. *)
Definition rom_addr (buffer : list Z) (i : Z) : Z := get32 buffer (8 + 4 * i).

(** The loop over the previous roms; [None] in the result: all are bad.  [None] of the
    option: the loop does not end. *)
Fixpoint previous_roms (fuel : nat) (buffer : list Z) (romToBoot : Z) (b : board D) : option (option (Z * Z) * board D) :=
  match fuel with
  | O => None
  | S fuel =>
      let conf := parse_config buffer in
      let romToBoot := romToBoot - 1 in
      let romToBoot := if romToBoot <? 0 then conf.(count) - 1 else romToBoot in
      if romToBoot =? conf.(current_rom) then Some (None, b)
      else
        let '(runAddr, b) := check_image (rom_addr buffer romToBoot) b in
        if runAddr =? 0 then previous_roms fuel buffer romToBoot b else Some (Some (romToBoot, runAddr), b)
  end.

(** The rom that RTC data ask for, if they are valid: [None]: an invalid number. *)
Definition temp_boot_rom (rtc : rboot_rtc_data) (count : Z) : option (option Z) :=
  if (rtc.(rtc_chksum) =? calc_chksum (rtc_head rtc)) && negb (Z.land rtc.(next_mode) MODE_TEMP_ROM =? 0) then
    if count <=? rtc.(temp_rom) then None else Some (Some rtc.(temp_rom))
  else Some None.

(** romconf->chksum = calc_chksum(..) on the sector buffer *)
Definition buffer_chksum (buffer : list Z) : list Z := <[24%nat := calc_chksum (take 24 buffer)]> buffer.

Definition rtc_standard (rtc : rboot_rtc_data) : rboot_rtc_data := set_rtc_chksum {|
  rtc_magic := rtc.(rtc_magic); next_mode := MODE_STANDARD; last_mode := rtc.(last_mode); last_rom := rtc.(last_rom);
  temp_rom := rtc.(temp_rom); rtc_chksum := rtc.(rtc_chksum); rpadding := rtc.(rpadding) |}.

Definition rtc_booted (rtc : rboot_rtc_data) (temp_boot : bool) (rom : Z) : rboot_rtc_data := set_rtc_chksum {|
  rtc_magic := RBOOT_RTC_MAGIC; next_mode := MODE_STANDARD; last_mode := if temp_boot then Z.lor MODE_STANDARD MODE_TEMP_ROM else MODE_STANDARD;
  last_rom := u8 rom; temp_rom := 0; rtc_chksum := rtc.(rtc_chksum); rpadding := rtc.(rpadding) |}.

(** What follows when the rom to boot is known: the configuration is written again if
    it changed, and the application is told. *)
Definition boot_rom (buffer : list Z) (updateConfig : bool) (rtc : rboot_rtc_data) (temp_boot : bool) (romToBoot runAddr : Z) : ST (board D) Z :=
  _ ← (if updateConfig then write_config (buffer_chksum (<[3%nat := u8 romToBoot]> buffer)) else mret tt);
  _ ← system_rtc_mem_write RBOOT_RTC_ADDR (rtc_bytes (rtc_booted rtc temp_boot romToBoot)) SIZEOF_RTC;
  mret runAddr.

(** Everything up to the configuration and the RTC data. *)
Definition boot_inputs : ST (board D) (list Z * rboot_rtc_data) :=
  '(_, header) ← flash_read 0 8;
  buffer ← load_config (flash_size (at_ header 3));
  data ← system_rtc_mem_read RBOOT_RTC_ADDR SIZEOF_RTC;
  mret (buffer, parse_rtc (default [] data)).

(** The address of the code to load, 0 if there is none; [None]: the loop over the roms
    does not end within [fuel] rounds. *)
Definition find_image (fuel : nat) (b : board D) : option (Z * board D) :=
  let '((buffer, rtc), b) := boot_inputs b in
  let conf := parse_config buffer in
  match temp_boot_rom rtc conf.(count) with
  | None => Some (0, b)
  | Some temp =>
      let temp_boot := bool_decide (is_Some temp) in
      let invalid := conf.(count) <=? conf.(current_rom) in
      let romToBoot := if invalid then 0 else default conf.(current_rom) temp in
      let buffer := if invalid then <[7%nat := 0]> (<[3%nat := 0]> buffer) else buffer in
      let '(runAddr, b) := check_image (rom_addr buffer romToBoot) b in
      if negb (runAddr =? 0) then Some (boot_rom buffer invalid rtc temp_boot romToBoot runAddr b)
      else if temp_boot then
        let '(_, b) := system_rtc_mem_write RBOOT_RTC_ADDR (rtc_bytes (rtc_standard rtc)) SIZEOF_RTC b in Some (0, b)
      else
        '(res, b) ← previous_roms fuel buffer romToBoot b;
        match res with
        | None => Some (0, b)
        | Some (romToBoot, runAddr) => Some (boot_rom buffer true rtc false romToBoot runAddr b)
        end
  end.

(** ** The second stage, rboot-stage2a.c: copying the sections to RAM *)

(** ets_memcpy to the address [a] *)
Fixpoint ram_copy (a : Z) (bs : list Z) (ram : gmap Z Z) : gmap Z Z :=
  match bs with [] => ram | x :: bs => ram_copy (a + 1) bs (<[a := x]> ram) end.

(** The loop over the blocks of a section; the new [readpos] and the memory. *)
Fixpoint load_blocks (fuel : nat) (readpos writepos remaining : Z) (ram : gmap Z Z) : ST (board D) (Z * gmap Z Z) :=
  match fuel with
  | O => mret (readpos, ram)
  | S fuel =>
      if 0 <? remaining then
        let readlen := if remaining <? BUFFER_SIZE then remaining else BUFFER_SIZE in
        '(_, buffer) ← flash_read readpos readlen;
        load_blocks fuel (u32 (readpos + readlen)) (writepos + readlen) (remaining - readlen) (ram_copy writepos (take (Z.to_nat readlen) buffer) ram)
      else mret (readpos, ram)
  end.

Fixpoint load_sections (sectcount : nat) (readpos : Z) (ram : gmap Z Z) : ST (board D) (gmap Z Z) :=
  match sectcount with
  | O => mret ram
  | S sectcount =>
      '(_, section) ← flash_read readpos 8;
      let readpos := u32 (readpos + 8) in
      let remaining := get32 section 4 in
      '(readpos, ram) ← load_blocks (Z.to_nat (remaining / BUFFER_SIZE + 1)) readpos (get32 section 0) remaining ram;
      load_sections sectcount readpos ram
  end.

(** The entry point and the memory. *)
Definition load_rom (readpos : Z) (ram : gmap Z Z) : ST (board D) (Z * gmap Z Z) :=
  '(_, header) ← flash_read readpos 8;
  ram ← load_sections (Z.to_nat (at_ header 1)) (u32 (readpos + 8)) ram;
  mret (get32 header 4, ram).

End loader.
