(* ===== verification/RbootSpec.v ===== *)
(** RbootSpec: the layout of the boot configuration, and the flash operations on
    the cells of the chip. *)

From S2P Require Import Prelude Flash Rboot RbootLoader.

(** ** Layout *)

Record wf_config (c : rboot_config) : Prop := {
  wf_bytes : Forall is_byte [c.(magic); c.(version); c.(mode); c.(current_rom); c.(gpio_rom); c.(count); c.(last_main_rom); c.(last_setup_rom); c.(chksum)];
  wf_roms : ∃ r0 r1 r2 r3, c.(roms) = [r0; r1; r2; r3] ∧ Forall (λ r, 0 ≤ r < 2 ^ 32) [r0; r1; r2; r3];
  wf_pad : ∃ p0 p1 p2, c.(cpadding) = [p0; p1; p2] ∧ Forall is_byte [p0; p1; p2];
}.

Lemma le32_bytes x : Forall is_byte (le32 x).
Proof. unfold le32, le16. repeat constructor; apply u8_byte || unfold u8, is_byte; zsolve. Qed.

Lemma length_le32 x : length (le32 x) = 4%nat.
Proof. reflexivity. Qed.

Lemma config_bytes_length c : wf_config c → length (config_bytes c) = 28%nat ∧ length (config_head c) = 24%nat.
Proof. intros [_ (r0 & r1 & r2 & r3 & E & _) (p0 & p1 & p2 & E' & _)]. unfold config_bytes, config_head. rewrite E, E'. done. Qed.

Lemma config_bytes_bytes c : wf_config c → Forall is_byte (config_bytes c).
Proof.
  intros [H (r0 & r1 & r2 & r3 & E & _) (p0 & p1 & p2 & E' & Hp)]. unfold config_bytes, config_head. rewrite E, E'.
  repeat match goal with H : Forall _ (_ :: _) |- _ => apply Forall_cons in H as [? H] end. cbn [mbind list_bind]. rewrite !Forall_app.
  split_and!; first [apply le32_bytes | repeat (apply Forall_cons_2; [done|]); apply Forall_nil_2].
Qed.

Lemma get32_app pre post : get32 (pre ++ post) (zlength pre) = get32 post 0.
Proof. unfold get32, get16. rewrite !at_app_r by lia. repeat f_equal; lia. Qed.

Lemma get32_le32_at x pre post : 0 ≤ x < 2 ^ 32 → get32 (pre ++ le32 x ++ post) (zlength pre) = x.
Proof. intros Hx. rewrite get32_app. by apply get32_le32. Qed.

Lemma parse_config_bytes c rest : wf_config c → parse_config (config_bytes c ++ rest) = c.
Proof.
  intros [_ (r0 & r1 & r2 & r3 & E & Hr) (p0 & p1 & p2 & E' & _)]. destruct c as [f0 f1 f2 f3 f4 f5 f6 f7 rs ck pd]. cbn in E, E'. subst rs pd.
  repeat match goal with H : Forall _ (_ :: _) |- _ => apply Forall_cons in H as [? H] end.
  unfold config_bytes, config_head. cbn [magic version mode current_rom gpio_rom count last_main_rom last_setup_rom roms chksum cpadding mbind list_bind].
  set (pre := [f0; f1; f2; f3; f4; f5; f6; f7]). rewrite <- !(assoc_L (++)). set (post := [] ++ [ck] ++ [p0; p1; p2] ++ rest).
  unfold parse_config. f_equal; try reflexivity.
  assert (G0 : get32 (pre ++ le32 r0 ++ le32 r1 ++ le32 r2 ++ le32 r3 ++ post) 8 = r0) by (by apply (get32_le32_at r0 pre)).
  assert (G1 : get32 (pre ++ le32 r0 ++ le32 r1 ++ le32 r2 ++ le32 r3 ++ post) 12 = r1)
    by (rewrite (assoc_L (++) pre); by apply (get32_le32_at r1 (pre ++ le32 r0))).
  assert (G2 : get32 (pre ++ le32 r0 ++ le32 r1 ++ le32 r2 ++ le32 r3 ++ post) 16 = r2)
    by (rewrite (assoc_L (++) (le32 r0)), (assoc_L (++) pre); by apply (get32_le32_at r2 (pre ++ le32 r0 ++ le32 r1))).
  assert (G3 : get32 (pre ++ le32 r0 ++ le32 r1 ++ le32 r2 ++ le32 r3 ++ post) 20 = r3)
    by (rewrite (assoc_L (++) (le32 r1)), (assoc_L (++) (le32 r0)), (assoc_L (++) pre); by apply (get32_le32_at r3 (pre ++ le32 r0 ++ le32 r1 ++ le32 r2))).
  by rewrite G0, G1, G2, G3.
Qed.

Lemma le32_get32 bs i : Forall is_byte bs → 0 ≤ i → le32 (get32 bs i) = [at_ bs i; at_ bs (i + 1); at_ bs (i + 2); at_ bs (i + 3)].
Proof.
  intros Hb Hi. unfold le32, le16, get32, get16. replace (i + 2 + 1) with (i + 3) by lia.
  assert (H0 := at_byte bs i Hb). assert (H1 := at_byte bs (i + 1) Hb). assert (H2 := at_byte bs (i + 2) Hb). assert (H3 := at_byte bs (i + 3) Hb).
  generalize dependent (at_ bs i). generalize dependent (at_ bs (i + 1)). generalize dependent (at_ bs (i + 2)). generalize dependent (at_ bs (i + 3)).
  intros d Hd c Hc b' Hb' a Ha. unfold u8, is_byte in *. cbn [app]. repeat f_equal; zsolve.
Qed.

Lemma config_bytes_parse bs : length bs = 28%nat → Forall is_byte bs → config_bytes (parse_config bs) = bs.
Proof.
  intros Hl Hb. unfold config_bytes, config_head, parse_config. cbn [magic version mode current_rom gpio_rom count last_main_rom last_setup_rom roms chksum cpadding mbind list_bind].
  rewrite !le32_get32 by (done || lia). do 28 (destruct bs as [|? bs]; [done|]). destruct bs; [|done]. reflexivity.
Qed.

Lemma get32_range bs i : Forall is_byte bs → 0 ≤ get32 bs i < 2 ^ 32.
Proof.
  intros Hb. unfold get32, get16. assert (H0 := at_byte bs i Hb). assert (H1 := at_byte bs (i + 1) Hb). assert (H2 := at_byte bs (i + 2) Hb).
  assert (H3 := at_byte bs (i + 2 + 1) Hb). unfold is_byte in *. lia.
Qed.

Lemma parse_config_wf bs : Forall is_byte bs → wf_config (parse_config bs).
Proof.
  intros Hb. split.
  - repeat (constructor; [by apply at_byte|]). constructor.
  - eexists _, _, _, _. split; [reflexivity|]. repeat (constructor; [by apply get32_range|]). constructor.
  - eexists _, _, _. split; [reflexivity|]. repeat (constructor; [by apply at_byte|]). constructor.
Qed.

(** Runs an operation of the flash that succeeds. *)
Ltac flash_ok E := erewrite ST_bind_eq by exact E; cbn match; change (failed SPI_FLASH_RESULT_OK) with false; cbn match; cbv zeta.

(** ** The chip *)

Section chip.
  Context {D : Type} {Dev : FlashDev D} {Spec : FlashSpec D} {Hp : Heap}.

(** The byte at address [x] of the chip. *)
Definition cells (b : board D) (x : Z) : Z := cell b.(bd_dev) x.

(** Two boards that differ in the chip only. *)
Definition same_board (b b' : board D) : Prop := b'.(bd_rtc) = b.(bd_rtc) ∧ b'.(bd_nalloc) = b.(bd_nalloc) ∧ b'.(bd_live) = b.(bd_live).

#[export] Instance same_board_preorder : PreOrder same_board.
Proof. split; [by intros b|]. intros b1 b2 b3 (? & ? & ?) (? & ? & ?). unfold same_board. split_and!; congruence. Qed.

Lemma same_set_dev d b : same_board b (set_dev d b).
Proof. done. Qed.

Lemma flash_read_cells a n b : 0 ≤ a → 0 ≤ n → a `mod` 4 = 0 → a + n ≤ chip_size sdk_flashchip →
  ∃ b', flash_read a n b = ((SPI_FLASH_RESULT_OK, range (cells b) a n), b') ∧ same_board b b' ∧ ∀ x, cells b' x = cells b x.
Proof.
  intros Ha Hn Hm Hs. destruct (read_spec b.(bd_dev) a n Ha Hn Hm Hs) as (d' & E & H).
  exists (set_dev d' b). unfold flash_read. rewrite E. split; [done|]. split; [done|]. done.
Qed.

Lemma flash_write_cells a src n b : 0 ≤ a → 0 ≤ n ≤ zlength src → a `mod` 4 = 0 → n `mod` 4 = 0 → a + n ≤ chip_size sdk_flashchip → Forall is_byte src →
  ∃ b', flash_write a src n b = (SPI_FLASH_RESULT_OK, b') ∧ same_board b b'
    ∧ ∀ x, cells b' x = if decide (a ≤ x < a + n) then Z.land (cells b x) (at_ src (x - a)) else cells b x.
Proof.
  intros Ha Hn Hm Hm' Hs Hb. destruct (write_spec b.(bd_dev) a src n Ha Hn Hm Hs Hb) as (d' & E & H1 & H2).
  exists (set_dev d' b). unfold flash_write. rewrite E. split; [done|]. split; [done|]. intros x. unfold cells.
  change (chip_size sdk_flashchip) with 4194304 in Hs. assert (round4 n = n) by (rewrite round4_spec by lia; zsolve).
  case_decide; [by apply H1|]. apply H2. lia.
Qed.

Lemma flash_erase_cells s b : 0 ≤ s < 1024 →
  ∃ b', flash_erase s b = (SPI_FLASH_RESULT_OK, b') ∧ same_board b b'
    ∧ ∀ x, cells b' x = if decide (s * SECTOR_SIZE ≤ x < (s + 1) * SECTOR_SIZE) then 0xff else cells b x.
Proof.
  intros Hs. destruct (erase_spec b.(bd_dev) s Hs) as (d' & E & H).
  exists (set_dev d' b). unfold flash_erase. rewrite E. split; [done|]. split; [done|]. intros x. unfold cells. cbn [bd_dev set_dev]. rewrite H.
  change (sector_size sdk_flashchip) with SECTOR_SIZE. zbool; case_decide; cbn [andb]; done || lia.
Qed.

Lemma cells_byte b x : is_byte (cells b x).
Proof. apply cell_byte. Qed.

Lemma land_erased x : is_byte x → Z.land 0xff x = x.
Proof. intros Hx. rewrite Z.land_comm. change 0xff with (Z.ones 8). rewrite Z.land_ones by done. apply Z.mod_small. exact Hx. Qed.

(** Erasing the configuration sector and writing [buffer] to it. *)
Lemma write_config_cells buffer b : length buffer = 4096%nat → Forall is_byte buffer →
  ∃ b', write_config buffer b = (tt, b') ∧ same_board b b'
    ∧ ∀ x, cells b' x = if decide (0x1000 ≤ x < 0x2000) then at_ buffer (x - 0x1000) else cells b x.
Proof.
  intros Hl Hb. destruct (flash_erase_cells BOOT_CONFIG_SECTOR b) as (b1 & E1 & S1 & C1); [by vm_compute|].
  destruct (flash_write_cells 0x1000 buffer 4096 b1) as (b2 & E2 & S2 & C2); [lia|lia|done|done|by vm_compute|done|].
  exists b2. split; [|split; [by etrans|]].
  - unfold write_config. erewrite ST_bind_eq by exact E1. by erewrite ST_bind_eq by exact E2.
  - intros x. rewrite C2, C1. unfold BOOT_CONFIG_SECTOR, SECTOR_SIZE. repeat case_decide; try lia.
    apply land_erased. by apply at_byte.
Qed.

(** The sector of the configuration as a buffer. *)
Definition config_sector (b : board D) : list Z := range (cells b) 0x1000 0x1000.

Lemma config_sector_length b : length (config_sector b) = 4096%nat.
Proof. unfold config_sector. by rewrite length_range. Qed.

Lemma config_sector_bytes b : Forall is_byte (config_sector b).
Proof. apply range_bytes, cells_byte. Qed.

(** The configuration on the chip. *)
Definition stored_config (b : board D) : rboot_config := parse_config (config_sector b).

Lemma parse_take bs n : (28 ≤ n)%nat → parse_config (take n bs) = parse_config bs.
Proof.
  intros Hn. assert (H : ∀ i, 0 ≤ i < 28 → at_ (take n bs) i = at_ bs i).
  { intros i Hi. unfold at_. rewrite lookup_take_lt by lia. done. }
  unfold parse_config, get32, get16. by rewrite !H by lia.
Qed.

Lemma get_config_stored b : ∃ b', rboot_get_config b = (stored_config b, b') ∧ same_board b b' ∧ ∀ x, cells b' x = cells b x.
Proof.
  destruct (flash_read_cells 0x1000 28 b) as (b' & E & Sb & C); [lia|lia|done|by vm_compute|].
  exists b'. split; [|done]. unfold rboot_get_config. erewrite ST_bind_eq by exact E. unfold mret, ST_ret. f_equal.
Qed.

Lemma stored_config_wf b : wf_config (stored_config b).
Proof. apply parse_config_wf, config_sector_bytes. Qed.

Lemma foldl_lxor_byte bs : ∀ x, is_byte x → Forall is_byte bs → is_byte (foldl Z.lxor x bs).
Proof.
  induction bs as [|b bs IH]; intros x Hx Hf; [done|]. apply Forall_cons in Hf as [Hb Hf]. apply IH; [|done].
  apply (bits_below 8); [done|apply Z.lxor_nonneg; unfold is_byte in *; lia|]. intros n Hn. by rewrite Z.lxor_spec, !(testbit_above 8) by done.
Qed.

Lemma with_chksum_wf c : wf_config c → wf_config (with_chksum c).
Proof.
  intros Hc. assert (Hb := config_bytes_bytes c Hc). destruct Hc as [H1 H2 H3]. split; [|done|done].
  repeat match goal with H : Forall _ (_ :: _) |- _ => apply Forall_cons in H as [? H] end.
  do 8 (apply Forall_cons_2; [done|]). apply Forall_cons_2; [|apply Forall_nil_2]. cbn [chksum with_chksum set_chksum].
  apply foldl_lxor_byte; [by vm_compute|]. unfold config_bytes in Hb. by apply Forall_app in Hb as [Hb _].
Qed.

(** The sector with the configuration [c] and the rest of it as it is. *)
Lemma put_config_spec c buffer : wf_config c → length buffer = 4096%nat → Forall is_byte buffer →
  length (put_config c buffer) = 4096%nat ∧ Forall is_byte (put_config c buffer) ∧ parse_config (put_config c buffer) = c
  ∧ ∀ i, 28 ≤ i → at_ (put_config c buffer) i = at_ buffer i.
Proof.
  intros Hc Hl Hb. destruct (config_bytes_length c Hc) as [Hlc _]. unfold put_config. split_and!.
  - rewrite length_app, length_drop, Hlc, Hl. reflexivity.
  - apply Forall_app. split; [by apply config_bytes_bytes|by apply Forall_drop].
  - by apply parse_config_bytes.
  - intros i Hi. rewrite at_app_r by lia. unfold at_. rewrite lookup_drop. do 2 f_equal. unfold SIZEOF_CONFIG. lia.
Qed.

(** rboot_set_config with memory for its buffer. *)
Lemma set_config_spec c b : wf_config c → malloc_ok b.(bd_nalloc) SECTOR_SIZE = true →
  ∃ b', rboot_set_config c b = ((true, with_chksum c), b') ∧ stored_config b' = with_chksum c
    ∧ (∀ x, ¬ (0x1000 ≤ x < 0x1000 + 28) → cells b' x = cells b x) ∧ b'.(bd_live) = b.(bd_live) ∧ b'.(bd_rtc) = b.(bd_rtc).
Proof.
  intros Hc Hm. unfold rboot_set_config.
  assert (E0 : os_malloc SECTOR_SIZE b = (true, Build_board b.(bd_dev) b.(bd_rtc) (S b.(bd_nalloc)) (b.(bd_live) + 1))).
  { unfold os_malloc. by rewrite Hm. }
  erewrite ST_bind_eq by exact E0. cbn [negb]. set (b0 := Build_board _ _ _ _). change (set_chksum _ c) with (with_chksum c).
  destruct (flash_read_cells 0x1000 0x1000 b0) as (b1 & E1 & S1 & C1); [lia|lia|done|by vm_compute|].
  erewrite ST_bind_eq by exact E1. change (range (cells b0) 4096 4096) with (config_sector b).
  cbv zeta. fold (put_config (with_chksum c) (config_sector b)).
  destruct (put_config_spec (with_chksum c) (config_sector b)) as (P1 & P2 & P3 & P4); [by apply with_chksum_wf|apply config_sector_length|apply config_sector_bytes|].
  destruct (write_config_cells (put_config (with_chksum c) (config_sector b)) b1 P1 P2) as (b2 & E2 & S2 & C2).
  exists (Build_board b2.(bd_dev) b2.(bd_rtc) b2.(bd_nalloc) (b2.(bd_live) - 1)).
  unfold write_config, mbind, ST_bind in E2 |- *. destruct (flash_erase BOOT_CONFIG_SECTOR b1) as [r1 b1'].
  destruct (flash_write (BOOT_CONFIG_SECTOR * SECTOR_SIZE) _ SECTOR_SIZE b1') as [r2 b2'] eqn:E3. cbn in E2. injection E2 as ->.
  split; [done|]. split; [|split].
  - unfold stored_config. rewrite <- P3. f_equal. unfold config_sector at 1. replace 0x1000 with (zlength (put_config (with_chksum c) (config_sector b))) at 2 by (by rewrite P1).
    apply range_eq. rewrite P1. intros i Hi. change (cells (Build_board _ _ _ _)) with (cells b2). rewrite C2, decide_True by lia. f_equal. lia.
  - intros x Hx. change (cells (Build_board _ _ _ _)) with (cells b2). rewrite C2. case_decide as Hd; [|by rewrite C1].
    rewrite P4 by lia. unfold config_sector. rewrite at_range by lia. f_equal. lia.
  - destruct S1 as (A1 & A2 & A3), S2 as (B1 & B2 & B3). cbn [bd_live bd_rtc]. rewrite B3, A3, B1, A1. cbn. split; [lia|done].
Qed.
End chip.
