(* ===== verification/RbootWrite.v ===== *)
(** RbootWrite: an image that comes in chunks is written word by word, and the sectors
    it needs are erased before it reaches them. *)

From S2P Require Import Prelude Flash Rboot RbootLoader RbootSpec.

Section write.
  Context {D : Type} {Dev : FlashDev D} {Spec : FlashSpec D} {Hp : Heap}.

Lemma erase_loop_cells fuel : ∀ last lastsect b, -1 ≤ last → lastsect < 1024 → lastsect - last ≤ Z.of_nat fuel →
  ∃ b', erase_loop fuel lastsect last b = (Z.max last lastsect, b') ∧ same_board b b'
    ∧ ∀ x, cells b' x = if decide ((last + 1) * SECTOR_SIZE ≤ x < (lastsect + 1) * SECTOR_SIZE) then 0xff else cells b x.
Proof.
  induction fuel as [|fuel IH]; intros last lastsect b Hl Hs Hf; cbn [erase_loop].
  - exists b. split; [unfold mret, ST_ret; f_equal; lia|]. split; [done|]. intros x. rewrite decide_False; [done|]. unfold SECTOR_SIZE. lia.
  - destruct (Z.ltb_spec last lastsect) as [H|H].
    + destruct (flash_erase_cells (last + 1) b) as (b1 & E1 & S1 & C1); [lia|]. erewrite ST_bind_eq by exact E1.
      destruct (IH (last + 1) lastsect b1) as (b2 & E2 & S2 & C2); [lia|lia|lia|]. exists b2. split; [rewrite E2; f_equal; lia|].
      split; [by etrans|]. intros x. rewrite C2, C1. unfold SECTOR_SIZE. repeat case_decide; done || lia.
    + exists b. split; [unfold mret, ST_ret; f_equal; lia|]. split; [done|]. intros x. rewrite decide_False; [done|]. unfold SECTOR_SIZE. lia.
Qed.

(** The bytes that are on the chip after [n] bytes came in. *)
Definition whole (n : Z) : Z := 4 * (n / 4).

(** The data [w] were written from [a] on, on a chip that was [b0] before. *)
Record written (a : Z) (w : list Z) (b0 : board D) (st : rboot_write_status) (b : board D) : Prop := {
  w_addr : st.(start_addr) = a + whole (zlength w);
  w_count : st.(extra_count) = zlength w `mod` 4;
  w_extra : take (Z.to_nat st.(extra_count)) st.(extra_bytes) = drop (Z.to_nat (whole (zlength w))) w;
  w_extra_len : length st.(extra_bytes) = 4%nat;
  w_extra_bytes : Forall is_byte st.(extra_bytes);
  w_erased : a / SECTOR_SIZE - 1 ≤ st.(last_sector_erased) ∧ (0 < whole (zlength w) → (a + whole (zlength w) - 1) / SECTOR_SIZE ≤ st.(last_sector_erased))
    ∧ (st.(last_sector_erased) = a / SECTOR_SIZE - 1 ∨ st.(last_sector_erased) ≤ (a + whole (zlength w) - 1) / SECTOR_SIZE);
  w_data : ∀ x, a ≤ x < a + whole (zlength w) → cells b x = at_ w (x - a);
  w_blank : ∀ x, a + whole (zlength w) ≤ x < (st.(last_sector_erased) + 1) * SECTOR_SIZE → cells b x = 0xff;
  w_rest : ∀ x, ¬ (a / SECTOR_SIZE * SECTOR_SIZE ≤ x < (st.(last_sector_erased) + 1) * SECTOR_SIZE) → cells b x = cells b0 x;
  w_live : b.(bd_live) = b0.(bd_live) ∧ b.(bd_rtc) = b0.(bd_rtc);
}.

Lemma written_init a b : 0 < a < chip_size sdk_flashchip → written a [] b (rboot_write_init a) b.
Proof.
  change (chip_size sdk_flashchip) with 4194304. intros Ha.
  assert (E : s32 (a / SECTOR_SIZE - 1) = a / SECTOR_SIZE - 1) by (unfold s32, SECTOR_SIZE; zsolve).
  split; cbn [rboot_write_init start_addr extra_count extra_bytes last_sector_erased]; rewrite ?E; try done.
  - change (whole (zlength [])) with 0. lia.
  - repeat (apply Forall_cons_2; [done|]). apply Forall_nil_2.
  - change (whole (zlength [])) with 0. split_and!; [lia|lia|by left].
  - change (whole (zlength [])) with 0. intros x Hx. lia.
  - change (whole (zlength [])) with 0. intros x Hx. unfold SECTOR_SIZE in *. zsolve.
Qed.

Lemma whole_spec n : 0 ≤ n → 0 ≤ whole n ≤ n ∧ whole n + n `mod` 4 = n ∧ whole n `mod` 4 = 0.
Proof. intros Hn. unfold whole. zsolve. Qed.

Lemma whole_aligned a n : a `mod` 4 = 0 → (a + whole n) `mod` 4 = 0.
Proof. intros Ha. unfold whole. rewrite (Z.mul_comm 4), Z.mod_add by done. done. Qed.

Lemma last_sector_bound a n : 0 < a + n ≤ 4194304 → (a + n - 1) / SECTOR_SIZE < 1024 ∧ s32 (u32 (a + n - 1) / SECTOR_SIZE) = (a + n - 1) / SECTOR_SIZE.
Proof. intros H. unfold s32, u32, SECTOR_SIZE. zsolve. Qed.

(** What is left of the old data, and the new data: the bytes from the last whole word on. *)
Lemma pending_app (w data : list Z) : drop (Z.to_nat (whole (zlength w))) w ++ data = drop (Z.to_nat (whole (zlength w))) (w ++ data).
Proof. rewrite drop_app_le; [done|]. destruct (whole_spec (zlength w)) as (H1 & H2 & H3); [lia|]. zsolve. Qed.

Lemma whole_app n m : 0 ≤ n → 0 ≤ m → whole (n + m) = whole n + whole (n `mod` 4 + m) ∧ (n + m) `mod` 4 = (n `mod` 4 + m) `mod` 4.
Proof. intros Hn Hm. unfold whole. zsolve. Qed.

Lemma sector_le x q : x / SECTOR_SIZE ≤ q ↔ x < (q + 1) * SECTOR_SIZE.
Proof. unfold SECTOR_SIZE. zsolve. Qed.

(** The last sector that the first [m] bytes from [a] on reach. *)
Definition reach (a m : Z) : Z := (a + m - 1) / SECTOR_SIZE.

(** What the call for one chunk does: the new status, and every cell of the chip. *)
Lemma write_flash_cells a w b0 st b data len : written a w b0 st b → 0 < a → a `mod` 4 = 0 → 0 < len ≤ zlength data → len + 3 < 65536 →
  a + zlength w + len ≤ chip_size sdk_flashchip → Forall is_byte data → Forall is_byte w → malloc_ok b.(bd_nalloc) (len + st.(extra_count)) = true →
  let all := w ++ take (Z.to_nat len) data in let E := st.(last_sector_erased) in let L := reach a (whole (zlength all)) in
  let blank x := if decide ((E + 1) * SECTOR_SIZE ≤ x < (L + 1) * SECTOR_SIZE) then 0xff else cells b x in
  ∃ b', rboot_write_flash st (Some data) len b = ((true, {| start_addr := a + whole (zlength all); start_sector := st.(start_sector);
      last_sector_erased := E `max` L; extra_count := zlength all `mod` 4;
      extra_bytes := drop (Z.to_nat (whole (zlength all))) all ++ drop (Z.to_nat (zlength all `mod` 4)) st.(extra_bytes) |}), b')
    ∧ b'.(bd_live) = b.(bd_live) ∧ b'.(bd_rtc) = b.(bd_rtc)
    ∧ ∀ x, cells b' x = if decide (a + whole (zlength w) ≤ x < a + whole (zlength all)) then Z.land (blank x) (at_ all (x - a)) else blank x.
Proof.
  intros W Ha Ham Hlen Hu Hc Hb Hbw Hm all E L blank. change (chip_size sdk_flashchip) with 4194304 in Hc.
  assert (Hn : zlength all = zlength w + len) by (unfold all; rewrite length_app, length_take; lia).
  destruct (whole_spec (zlength w)) as (N1 & N2 & N3); [lia|]. destruct (whole_app (zlength w) len) as [A1 A2]; [lia|lia|].
  subst blank L. unfold reach. cbn beta. rewrite !Hn. set (n := zlength w) in *. set (e := n `mod` 4) in *.
  assert (He : 0 ≤ e < 4) by (apply Z.mod_pos_bound; done). destruct (whole_spec (e + len)) as (K1 & K2 & K3); [lia|]. set (k := whole (e + len)) in *.
  unfold rboot_write_flash. rewrite (proj2 (Z.eqb_neq len 0)) by lia.
  erewrite ST_bind_eq by (unfold os_malloc; rewrite Hm; reflexivity). cbn [negb]. rewrite (w_extra _ _ _ _ _ W), (w_count _ _ _ _ _ W), pending_app.
  fold n e all. set (buffer := drop (Z.to_nat (whole n)) all).
  assert (Hlb : zlength buffer = e + len) by (unfold buffer; rewrite length_drop; lia).
  assert (Hbb : Forall is_byte buffer) by (apply Forall_drop, Forall_app; split; [done|by apply Forall_take]).
  rewrite (u16_small (len + e)) by (unfold is_u16; lia). replace (len + e) with (e + len) by lia.
  replace (e + len - (e + len) `mod` 4) with k by lia. rewrite (w_addr _ _ _ _ _ W). fold n.
  replace (a + whole n + k - 1) with (a + whole (n + len) - 1) by lia. destruct (last_sector_bound a (whole (n + len))) as [Hls ->]; [lia|].
  destruct (w_erased _ _ _ _ _ W) as (R1 & _ & _). fold E in R1. assert (Ha0 : 0 ≤ a / SECTOR_SIZE) by (apply Z.div_pos; [lia|done]).
  set (b1 := Build_board _ _ _ _). set (L := (a + whole (n + len) - 1) / SECTOR_SIZE) in *.
  destruct (erase_loop_cells (Z.to_nat (L - E)) E L b1) as (b2 & E2 & S2 & C2); [lia|lia|lia|].
  erewrite ST_bind_eq by exact E2.
  destruct (flash_write_cells (a + whole n) buffer k b2) as (b3 & E3 & S3 & C3); [lia|lia|by apply whole_aligned|done|change (chip_size sdk_flashchip) with 4194304; lia|done|].
  erewrite ST_bind_eq by exact E3. change (negb (failed SPI_FLASH_RESULT_OK)) with true. cbn match. rewrite A2.
  assert (Hsub : sub_list buffer k ((e + len) `mod` 4) = drop (Z.to_nat (whole (n + len))) all).
  { unfold sub_list. rewrite take_ge by (rewrite length_drop; lia). unfold buffer. rewrite drop_drop. f_equal. lia. }
  rewrite Hsub. eexists. split_and!.
  - rewrite u32_small by lia. replace (a + whole n + k) with (a + whole (n + len)) by lia. reflexivity.
  - destruct S2 as (_ & _ & B2), S3 as (_ & _ & B3). cbn [bd_live]. rewrite B3, B2. cbn [bd_live b1]. lia.
  - destruct S2 as (B2 & _), S3 as (B3 & _). cbn [bd_rtc]. by rewrite B3, B2.
  - intros x. change (cells (Build_board _ _ _ _)) with (cells b3). rewrite C3, C2. replace (a + whole n + k) with (a + whole (n + len)) by lia.
    change (cells b1 x) with (cells b x). case_decide; [|done]. f_equal. unfold buffer, at_. rewrite lookup_drop. do 2 f_equal. lia.
Qed.

(** One chunk. *)
Lemma written_step a w b0 st b data len : written a w b0 st b → 0 < a → a `mod` 4 = 0 → 0 < len ≤ zlength data → len + 3 < 65536 →
  a + zlength w + len ≤ chip_size sdk_flashchip → Forall is_byte data → Forall is_byte w → malloc_ok b.(bd_nalloc) (len + st.(extra_count)) = true →
  ∃ st' b', rboot_write_flash st (Some data) len b = ((true, st'), b') ∧ written a (w ++ take (Z.to_nat len) data) b0 st' b'.
Proof.
  intros W Ha Ham Hlen Hu Hc Hb Hbw Hm. destruct (write_flash_cells a w b0 st b data len W Ha Ham Hlen Hu Hc Hb Hbw Hm) as (b' & Er & Hlive & Hrtc & C).
  eexists _, b'. split; [exact Er|]. clear Er. change (chip_size sdk_flashchip) with 4194304 in Hc.
  set (all := w ++ take (Z.to_nat len) data) in *. assert (Hba : Forall is_byte all) by (apply Forall_app; split; [done|by apply Forall_take]).
  assert (Hn : zlength all = zlength w + len) by (unfold all; rewrite length_app, length_take; lia).
  destruct (whole_spec (zlength w)) as (N1 & _ & _); [lia|]. destruct (whole_spec (zlength all)) as (M1 & M2 & _); [lia|].
  assert (Hwm : whole (zlength w) ≤ whole (zlength all)) by (rewrite Hn; unfold whole; zsolve).
  destruct (w_erased _ _ _ _ _ W) as (R1 & R2 & R3). set (E := st.(last_sector_erased)) in *. set (L := reach a (whole (zlength all))) in *.
  assert (Hr : 0 ≤ zlength all `mod` 4 < 4) by (apply Z.mod_pos_bound; done).
  assert (HL : ∀ x, x < a + whole (zlength all) → x < (L + 1) * SECTOR_SIZE) by (intros x Hx; apply sector_le, Z.div_le_mono; [done|lia]).
  assert (HE : ∀ x, a ≤ x < a + whole (zlength w) → x < (E + 1) * SECTOR_SIZE).
  { intros x Hx. apply sector_le. etrans; [apply Z.div_le_mono; [done|]|apply R2; lia]. lia. }
  assert (Hmono : reach a (whole (zlength w)) ≤ L) by (apply Z.div_le_mono; [done|lia]). unfold reach in Hmono.
  assert (Hdiv : a / SECTOR_SIZE * SECTOR_SIZE ≤ a) by (rewrite Z.mul_comm; by apply Z.mul_div_le).
  assert (Hmax : ∀ x, x < (E `max` L + 1) * SECTOR_SIZE ↔ x < (E + 1) * SECTOR_SIZE ∨ x < (L + 1) * SECTOR_SIZE) by (unfold SECTOR_SIZE; lia).
  assert (HE' : a / SECTOR_SIZE * SECTOR_SIZE ≤ (E + 1) * SECTOR_SIZE) by (unfold SECTOR_SIZE in *; lia).
  assert (Hdl : length (drop (Z.to_nat (whole (zlength all))) all) = Z.to_nat (zlength all `mod` 4)) by (rewrite length_drop; lia).
  split; cbn [start_addr extra_count extra_bytes last_sector_erased]; try done.
  - by rewrite take_app_length'.
  - rewrite length_app, Hdl, length_drop, (w_extra_len _ _ _ _ _ W). lia.
  - apply Forall_app. split; [by apply Forall_drop|apply Forall_drop, (w_extra_bytes _ _ _ _ _ W)].
  - change ((a + whole (zlength all) - 1) / SECTOR_SIZE) with L. lia.
  - intros x Hx. rewrite C. case_decide as H3.
    + assert (Hff : (if decide ((E + 1) * SECTOR_SIZE ≤ x < (L + 1) * SECTOR_SIZE) then 255 else cells b x) = 255).
      { case_decide as H2; [done|]. apply (w_blank _ _ _ _ _ W). fold E. split; [lia|]. assert (x < (L + 1) * SECTOR_SIZE) by (apply HL; lia). lia. }
      rewrite Hff. by apply land_erased, at_byte.
    + assert (x < (E + 1) * SECTOR_SIZE) by (apply HE; lia). rewrite decide_False by lia. unfold all. rewrite at_app_l by lia. apply (w_data _ _ _ _ _ W). lia.
  - intros x Hx. rewrite C, decide_False by lia. case_decide as H2; [done|]. apply (w_blank _ _ _ _ _ W). fold E. destruct Hx as [Hx1 Hx2]. apply Hmax in Hx2. lia.
  - intros x Hx. assert (Hx' : ¬ (a / SECTOR_SIZE * SECTOR_SIZE ≤ x ∧ (x < (E + 1) * SECTOR_SIZE ∨ x < (L + 1) * SECTOR_SIZE))).
    { intros [? ?]. apply Hx. split; [done|]. by apply Hmax. }
    rewrite C, decide_False, decide_False.
    + apply (w_rest _ _ _ _ _ W). fold E. tauto.
    + intros [? ?]. apply Hx'. split; [lia|by right].
    + intros [? ?]. apply Hx'. split; [lia|right]. apply HL. lia.
  - rewrite Hlive, Hrtc. apply (w_live _ _ _ _ _ W).
Qed.

(** The image in chunks, as an updater receives it, until a call fails. *)
Fixpoint write_chunks (st : rboot_write_status) (chunks : list (list Z)) (b : board D) : (bool * rboot_write_status) * board D :=
  match chunks with
  | [] => ((true, st), b)
  | c :: chunks =>
      let '((ok, st), b) := rboot_write_flash st (Some c) (zlength c) b in
      if ok then write_chunks st chunks b else ((false, st), b)
  end.

Context (Hheap : ∀ k n, malloc_ok k n = true).

Lemma write_chunks_spec chunks : ∀ a w b0 st b, written a w b0 st b → 0 < a → a `mod` 4 = 0 → Forall is_byte w →
  Forall (λ c, Forall is_byte c ∧ zlength c ≤ 65532) chunks → a + zlength w + zlength (concat chunks) ≤ chip_size sdk_flashchip →
  ∃ st' b', write_chunks st chunks b = ((true, st'), b') ∧ written a (w ++ concat chunks) b0 st' b'.
Proof.
  induction chunks as [|c chunks IH]; intros a w b0 st b W Ha Hm Hb Hc Hs; cbn [write_chunks concat].
  - exists st, b. rewrite app_nil_r. done.
  - apply Forall_cons in Hc as [[Hcb Hcl] Hc]. cbn [concat] in Hs. rewrite length_app in Hs. destruct c as [|x c'] eqn:Ec.
    { change (rboot_write_flash st (Some []) (zlength []) b) with ((true, st), b). cbn match. apply (IH a w b0 st b); done || (cbn in Hs; lia). }
    rewrite <- Ec in *. assert (Hcz : 0 < zlength c) by (subst c; cbn; lia). clear Ec.
    destruct (written_step a w b0 st b c (zlength c)) as (st1 & b1 & E1 & W1); [done..|lia|lia|lia|done|done|apply Hheap|].
    rewrite E1. rewrite Nat2Z.id, firstn_all in W1.
    destruct (IH a (w ++ c) b0 st1 b1 W1) as (st2 & b2 & E2 & W2); [done|done|by apply Forall_app|done|rewrite length_app; lia|].
    exists st2, b2. split; [done|]. by rewrite (assoc_L (++)).
Qed.
End write.
