(* ===== verification/RbootImage.v ===== *)
(** RbootImage: what rboot_verify_image of the API and check_image of the boot loader
    say about an image on the chip. *)

From S2P Require Import Prelude Flash Rboot RbootLoader RbootSpec.

(** ** Images on a chip [f] *)

Definition word (f : Z → Z) (p : Z) : Z := f p + 256 * f (p + 1) + 65536 * (f (p + 2) + 256 * f (p + 3)).

Lemma get32_word f a n i : 0 ≤ i → i + 4 ≤ n → get32 (range f a n) i = word f (a + i).
Proof.
  intros Hi Hn. unfold get32, get16, word. rewrite !at_range by lia.
  replace (a + (i + 1)) with (a + i + 1) by lia. replace (a + (i + 2)) with (a + i + 2) by lia. by replace (a + (i + 2 + 1)) with (a + i + 3) by lia.
Qed.

Section image.
  Context (f : Z → Z).

(** The length of the section whose header is at [p]. *)
Definition section_length (p : Z) : Z := word f (p + 4).

(** The end of [n] sections from [p] on, and their bytes. *)
Fixpoint sections_end (n : nat) (p : Z) : Z :=
  match n with O => p | S n => sections_end n (p + 8 + section_length p) end.
Fixpoint sections_data (n : nat) (p : Z) : list Z :=
  match n with O => [] | S n => range f (p + 8) (section_length p) ++ sections_data n (p + 8 + section_length p) end.

(** Each section begins before [limit], ends by it, and is made of whole words. *)
Fixpoint sections_fit (n : nat) (p limit : Z) : Prop :=
  match n with
  | O => True
  | S n => p < limit ∧ p + 8 + section_length p ≤ limit ∧ section_length p `mod` 4 = 0 ∧ sections_fit n (p + 8 + section_length p) limit
  end.

#[export] Instance sections_fit_dec n p limit : Decision (sections_fit n p limit).
Proof. revert p. induction n as [|n IH]; intros p; cbn; apply _. Defined.

(** No section has a length that wraps around the end of a 32-bit address. *)
Fixpoint sections_sane (n : nat) (p : Z) : Prop :=
  match n with O => True | S n => p + 8 + section_length p < 2 ^ 32 ∧ sections_sane n (p + 8 + section_length p) end.

(** The memory when the [n] sections from [p] on were copied to their addresses. *)
Fixpoint sections_ram (n : nat) (p : Z) (ram : gmap Z Z) : gmap Z Z :=
  match n with O => ram | S n => sections_ram n (p + 8 + section_length p) (ram_copy (word f p) (range f (p + 8) (section_length p)) ram) end.

(** The checksum byte of sections that end at [p]. *)
Definition checksum_at (p : Z) : Z := f (Z.lor p 0xf).

(** An image has a plain header, or it begins with a header and an irom section that is
    run from the flash; a plain header follows then.  The plain header, the irom
    section, and the sections that are copied to RAM. *)
Definition image_start (a : Z) : Z := if f a =? ROM_MAGIC_NEW then a + 16 + section_length (a + 8) else a.
Definition image_irom (a : Z) : list Z := if f a =? ROM_MAGIC_NEW then range f (a + 16) (section_length (a + 8)) else [].
Definition image_count (a : Z) : nat := Z.to_nat (f (image_start a + 1)).
Definition image_stop (a : Z) : Z := sections_end (image_count a) (image_start a + 8).
Definition image_data (a : Z) : list Z := sections_data (image_count a) (image_start a + 8).

(** Up to the next multiple of 16 behind the checksum. *)
Definition image_size (a : Z) : Z := 16 * (image_stop a / 16) + 16 - a.

(** The headers are those of one of the two formats; the irom section is padded to 16 bytes. *)
Definition headers_ok (a : Z) : Prop :=
  f a = ROM_MAGIC_OLD ∧ f (a + 1) < 255
  ∨ f a = ROM_MAGIC_NEW ∧ f (a + 1) = ROM_MAGIC_NEW2 ∧ image_start a `mod` 16 = 0 ∧ image_start a ≤ a + 0x100000
    ∧ f (image_start a) = ROM_MAGIC_OLD ∧ f (image_start a + 1) < 254.

(** The sections fit into 1 MB from the beginning of the image. *)
Definition image_fits (a : Z) : Prop := sections_fit (image_count a) (image_start a + 8) (a + 0x100000).

(** An image that both checks accept: rboot_verify_image leaves the irom section out of
    the checksum and check_image does not, so its bytes must not change the sum. *)
Definition image_valid (a : Z) : Prop :=
  headers_ok a ∧ image_fits a ∧ checksum_at (image_stop a) = calc_chksum (image_data a) ∧ foldl Z.lxor 0 (image_irom a) = 0.

Context (Hf : ∀ x, is_byte (f x)).

Lemma word_range p : 0 ≤ word f p < 2 ^ 32.
Proof.
  assert (H0 := Hf p). assert (H1 := Hf (p + 1)). assert (H2 := Hf (p + 2)). assert (H3 := Hf (p + 3)). unfold word, is_byte in *. lia.
Qed.

Lemma section_length_range p : 0 ≤ section_length p < 2 ^ 32.
Proof. apply word_range. Qed.

Lemma sections_end_ge n : ∀ p, p ≤ sections_end n p.
Proof. induction n as [|n IH]; intros p; [done|]. cbn. etrans; [|apply IH]. assert (H := section_length_range p). lia. Qed.

Lemma sections_fit_sane n : ∀ p limit, limit < 2 ^ 32 → sections_fit n p limit → sections_sane n p.
Proof. induction n as [|n IH]; intros p limit Hl H; [done|]. destruct H as (H1 & H2 & _ & H4). split; [lia|]. by eapply IH. Qed.

Lemma sections_fit_end n : ∀ p limit, p ≤ limit → sections_fit n p limit → sections_end n p ≤ limit.
Proof. induction n as [|n IH]; intros p limit Hp H; [done|]. destruct H as (H1 & H2 & _ & H4). cbn. by apply IH. Qed.

Lemma image_start_ge a : a ≤ image_start a.
Proof. unfold image_start. assert (H := section_length_range (a + 8)). destruct (_ =? _); lia. Qed.

Lemma image_stop_ge a : image_start a + 8 ≤ image_stop a.
Proof. apply sections_end_ge. Qed.

(** The checksum block ends at most 16 bytes behind the megabyte. *)
Lemma image_stop_le a : headers_ok a → image_fits a → 16 * (image_stop a / 16) + 16 ≤ a + 0x100010.
Proof.
  unfold image_fits, image_stop. intros Hh Hf0. set (p := image_start a) in *.
  assert (Hp : p = a ∨ p `mod` 16 = 0 ∧ p ≤ a + 0x100000).
  { destruct Hh as [[E _]|(_ & _ & H1 & H2 & _)]; [left; unfold p, image_start; by rewrite E|by right]. }
  destruct (image_count a) as [|n]; [cbn; zsolve|].
  assert (H := sections_fit_end (S n) (p + 8) (a + 0x100000) ltac:(destruct Hf0; lia) Hf0). zsolve.
Qed.
End image.

(** The byte before the next multiple of 16. *)
Lemma lor_15 p : 0 ≤ p → Z.lor p 0xf = 16 * (p / 16) + 15.
Proof.
  intros Hp. assert (H : Z.lor p 0xf = Z.ldiff p 0xf + 0xf).
  { rewrite Z.add_nocarry_lxor. 2: { apply Z.bits_inj'. intros n Hn. rewrite Z.land_spec, Z.ldiff_spec, Z.bits_0. by destruct (Z.testbit p n), (Z.testbit 15 n). }
    apply Z.bits_inj'. intros n Hn. rewrite Z.lor_spec, Z.lxor_spec, Z.ldiff_spec. by destruct (Z.testbit p n), (Z.testbit 15 n). }
  rewrite H. change 0xf with (Z.ones 4) at 1. rewrite Z.ldiff_ones_r, Z.shiftr_div_pow2, Z.shiftl_mul_pow2 by lia. change (2 ^ 4) with 16. lia.
Qed.

Section chip.
  Context {D : Type} {Dev : FlashDev D} {Spec : FlashSpec D} {Rd : FlashReadSpec D}.
  Implicit Types b : board D.

(** Nothing but the internal state of the flash interface changes. *)
Definition unchanged b b' : Prop := same_board b b' ∧ ∀ x, cells b' x = cells b x.

#[export] Instance unchanged_preorder : PreOrder unchanged.
Proof.
  split; [done|]. intros b1 b2 b3 [S1 C1] [S2 C2]. split; [by etrans|]. intros x. by rewrite C2, C1.
Qed.

Lemma flash_read_any a n b : 0 ≤ a → 0 ≤ n → a + n ≤ 4194304 →
  ∃ b', flash_read a n b = ((SPI_FLASH_RESULT_OK, range (cells b) a n), b') ∧ unchanged b b'.
Proof.
  intros Ha Hn Hs. destruct (read_any_spec b.(bd_dev) a n Ha Hn Hs) as (d' & E & H).
  exists (set_dev d' b). unfold flash_read. rewrite E. done.
Qed.

Lemma unchanged_range b b' a n : unchanged b b' → range (cells b') a n = range (cells b) a n.
Proof. intros [_ C]. by apply range_ext. Qed.

Lemma range_app f a n m : 0 ≤ n → 0 ≤ m → range f a n ++ range f (a + n) m = range f a (n + m).
Proof. intros Hn Hm. unfold range. by rewrite <- fmap_app, seqZ_app. Qed.

Lemma read_section_spec fuel : ∀ pos rem chk b, 0 ≤ pos → 0 ≤ rem → pos + rem ≤ 4194304 → rem / 256 < Z.of_nat fuel →
  ∃ b', read_section fuel pos rem chk b = (Some (pos + rem, foldl Z.lxor chk (range (cells b) pos rem)), b') ∧ unchanged b b'.
Proof.
  induction fuel as [|fuel IH]; intros pos rem chk b Hp Hr Hs Hf; [zsolve|]. cbn [read_section].
  destruct (Z.ltb_spec 0 rem) as [H|H].
  - set (len := if rem <? BUFFER_SIZE then rem else BUFFER_SIZE).
    assert (Hlen : 0 < len ≤ rem ∧ (len = rem ∨ len = 256)) by (unfold len, BUFFER_SIZE; destruct (Z.ltb_spec rem 256); lia).
    destruct (flash_read_any pos len b) as (b1 & E1 & U1); [lia..|]. flash_ok E1.
    rewrite u32_small by lia. rewrite take_ge by (rewrite length_range; lia).
    destruct (decide (len = rem)) as [->|Hne].
    + rewrite Z.sub_diag. exists b1. split; [|done]. destruct fuel; cbn [read_section]; [done|]. reflexivity.
    + destruct (IH (pos + len) (rem - len) (foldl Z.lxor chk (range (cells b) pos len)) b1) as (b2 & E2 & U2); [lia|lia|lia|assert (len = 256) by lia; zsolve|].
      exists b2. split; [|by etrans]. rewrite E2. f_equal. f_equal. f_equal; [lia|]. rewrite (unchanged_range b b1) by done. rewrite <- foldl_app, range_app by lia.
      do 2 f_equal. lia.
  - assert (rem = 0) as -> by lia. exists b. split; [|done]. unfold mret, ST_ret. rewrite Z.add_0_r. reflexivity.
Qed.

Lemma word_ext f g p : (∀ x, f x = g x) → word f p = word g p.
Proof. intros H. unfold word. by rewrite !H. Qed.

Lemma sections_ext f g n : (∀ x, f x = g x) → ∀ p, sections_end f n p = sections_end g n p ∧ sections_data f n p = sections_data g n p.
Proof.
  intros H. induction n as [|n IH]; intros p; [done|]. cbn. unfold section_length. rewrite (word_ext f g) by done.
  destruct (IH (p + 8 + word g (p + 4))) as [-> ->]. split; [done|]. f_equal. by apply range_ext.
Qed.

(** The header and the data of one section. *)
Lemma check_sections_old n : ∀ fuel pos cur count chk b, 0 ≤ pos → Z.of_nat n = count - cur → count < 255 → (n < fuel)%nat →
  sections_end (cells b) n pos ≤ 4194304 →
  ∃ b', check_sections fuel pos cur count chk b
      = (Some (sections_end (cells b) n pos, foldl Z.lxor chk (sections_data (cells b) n pos)), b') ∧ unchanged b b'.
Proof.
  induction n as [|n IH]; intros fuel pos cur count chk b Hp Hn Hc Hf Hs; (destruct fuel as [|fuel]; [lia|]); cbn [check_sections].
  - rewrite (proj2 (Z.ltb_ge _ _)) by lia. by exists b.
  - rewrite (proj2 (Z.ltb_lt _ _)) by lia. cbn [sections_end sections_data] in Hs |- *.
    assert (Hl := section_length_range (cells b) (cells_byte b) pos). assert (Hge := sections_end_ge (cells b) (cells_byte b) n (pos + 8 + section_length (cells b) pos)).
    destruct (flash_read_any pos 8 b) as (b1 & E1 & U1); [lia..|]. flash_ok E1.
    rewrite get32_word by lia. change (word (cells b) (pos + 4)) with (section_length (cells b) pos). set (len := section_length (cells b) pos) in *.
    rewrite u32_small by lia. destruct (read_section_spec (Z.to_nat (len / BUFFER_SIZE + 1)) (pos + 8) len chk b1) as (b2 & E2 & U2); [lia|lia|lia|unfold BUFFER_SIZE; zsolve|].
    cbv zeta. erewrite ST_bind_eq by exact E2. rewrite (proj2 (Z.eqb_neq count 255)) by lia.
    assert (U : unchanged b b2) by (by etrans). destruct (sections_ext (cells b2) (cells b) n (proj2 U) (pos + 8 + len)) as [X1 X2].
    destruct (IH fuel (pos + 8 + len) (cur + 1) count (foldl Z.lxor chk (range (cells b1) (pos + 8) len)) b2) as (b3 & E3 & U3); [lia|lia|lia|lia|by rewrite X1|].
    exists b3. split; [|by etrans]. rewrite E3, X1, X2. rewrite (unchanged_range b b1) by done. by rewrite foldl_app.
Qed.

(** The first section of an image with an irom section. *)
Lemma check_sections_new fuel m pos chk b : (m < fuel)%nat → 0 ≤ pos → let len := section_length (cells b) pos in let e := pos + 8 + len in
  Z.of_nat m = cells b (e + 1) → Z.of_nat m < 254 → sections_end (cells b) m (e + 8) ≤ 4194304 →
  ∃ b', check_sections (S fuel) pos 0 0xff chk b
      = (Some (sections_end (cells b) m (e + 8), foldl Z.lxor chk (range (cells b) (pos + 8) len ++ sections_data (cells b) m (e + 8))), b') ∧ unchanged b b'.
Proof.
  intros Hfuel Hp len e Hm Hm' Hs. cbn [check_sections]. rewrite (proj2 (Z.ltb_lt _ _)) by lia.
  assert (Hl := section_length_range (cells b) (cells_byte b) pos). fold len in Hl. assert (Hge := sections_end_ge (cells b) (cells_byte b) m (e + 8)).
  destruct (flash_read_any pos 8 b) as (b1 & E1 & U1); [lia..|]. flash_ok E1.
  rewrite get32_word by lia. change (word (cells b) (pos + 4)) with len. rewrite u32_small by lia.
  destruct (read_section_spec (Z.to_nat (len / BUFFER_SIZE + 1)) (pos + 8) len chk b1) as (b2 & E2 & U2); [lia|lia|lia|unfold BUFFER_SIZE; zsolve|].
  flash_ok E2. rewrite Z.eqb_refl. fold e. destruct (flash_read_any e 8 b2) as (b3 & E3 & U3); [lia..|]. flash_ok E3.
  rewrite at_range by lia. rewrite (proj2 U2), (proj2 U1), <- Hm. rewrite u32_small by lia.
  rewrite (u8_small (Z.of_nat m + 1)) by (unfold is_byte; lia). assert (U : unchanged b b3) by (by repeat (etrans; [eassumption|])).
  destruct (sections_ext (cells b3) (cells b) m (proj2 U) (e + 8)) as [X1 X2].
  destruct (check_sections_old m fuel (e + 8) (0 + 1) (Z.of_nat m + 1) (foldl Z.lxor chk (range (cells b1) (pos + 8) len)) b3) as (b4 & E4 & U4); [lia|lia|lia|lia|by rewrite X1|].
  exists b4. split; [|by etrans]. rewrite E4, X1, X2. rewrite (unchanged_range b b1) by done. by rewrite foldl_app.
Qed.

(** What check_image does with the end of the sections. *)
Lemma check_end chk p romaddr b : 0 ≤ p < 4194304 →
  ∃ b', ('(r, buffer) ← flash_read (Z.lor p 0x0f) 1; if failed r then mret 0 else if negb (at_ buffer 0 =? chk) then mret 0 else mret romaddr) b
      = (if checksum_at (cells b) p =? chk then romaddr else 0, b') ∧ unchanged b b'.
Proof.
  intros Hp. rewrite lor_15 by lia. destruct (flash_read_any (16 * (p / 16) + 15) 1 b) as (b1 & E1 & U1); [zsolve..|]. flash_ok E1.
  rewrite at_range by lia. rewrite Z.add_0_r. unfold checksum_at. rewrite lor_15 by lia. exists b1. split; [|done]. by destruct (_ =? chk).
Qed.

(** An image without irom section. *)
Lemma check_image_old a n b : 0 < a → cells b a = ROM_MAGIC_OLD → cells b (a + 1) = Z.of_nat n → Z.of_nat n < 255 →
  a + 16 ≤ 4194304 → sections_end (cells b) n (a + 8) < 4194304 →
  ∃ b', check_image a b = (if checksum_at (cells b) (sections_end (cells b) n (a + 8)) =? calc_chksum (sections_data (cells b) n (a + 8)) then a else 0, b') ∧ unchanged b b'.
Proof.
  intros Ha Hm Hc Hn Hs He. unfold check_image. rewrite (proj2 (Z.eqb_neq a 0)), (proj2 (Z.eqb_neq a 0xffffffff)) by lia. cbn [orb].
  destruct (flash_read_any a 16 b) as (b1 & E1 & U1); [lia..|]. flash_ok E1. rewrite !at_range by lia. rewrite Z.add_0_r, Hm, Hc, Z.eqb_refl.
  rewrite u32_small by lia. destruct (sections_ext (cells b1) (cells b) n (proj2 U1) (a + 8)) as [X1 X2].
  destruct (check_sections_old n 256 (a + 8) 0 (Z.of_nat n) CHKSUM_INIT b1) as (b2 & E2 & U2); [lia|lia|lia|lia|rewrite X1; lia|].
  flash_ok E2. rewrite X1, X2. assert (Hge := sections_end_ge (cells b) (cells_byte b) n (a + 8)).
  destruct (check_end (calc_chksum (sections_data (cells b) n (a + 8))) (sections_end (cells b) n (a + 8)) a b2) as (b3 & E3 & U3); [lia|].
  exists b3. split; [|by repeat (etrans; [eassumption|])]. etrans; [exact E3|]. unfold checksum_at. by rewrite (proj2 U2), (proj2 U1).
Qed.

(** An image with irom section: it is loaded from the header behind it. *)
Lemma check_image_new a m b : 0 < a → cells b a = ROM_MAGIC_NEW → cells b (a + 1) = ROM_MAGIC_NEW2 →
  let len := section_length (cells b) (a + 8) in let e := a + 16 + len in
  Z.of_nat m = cells b (e + 1) → Z.of_nat m < 254 → sections_end (cells b) m (e + 8) < 4194304 →
  ∃ b', check_image a b = (if checksum_at (cells b) (sections_end (cells b) m (e + 8))
      =? calc_chksum (range (cells b) (a + 16) len ++ sections_data (cells b) m (e + 8)) then e else 0, b') ∧ unchanged b b'.
Proof.
  intros Ha Hm Hc len e He Hm' Hs. unfold check_image. assert (Hl := section_length_range (cells b) (cells_byte b) (a + 8)). fold len in Hl.
  assert (Hge := sections_end_ge (cells b) (cells_byte b) m (e + 8)).
  rewrite (proj2 (Z.eqb_neq a 0)), (proj2 (Z.eqb_neq a 0xffffffff)) by lia. cbn [orb].
  destruct (flash_read_any a 16 b) as (b1 & E1 & U1); [lia..|]. flash_ok E1. rewrite !at_range by lia. rewrite Z.add_0_r, Hm, Hc.
  change (ROM_MAGIC_NEW =? ROM_MAGIC_OLD) with false. change ((ROM_MAGIC_NEW =? ROM_MAGIC_NEW) && (ROM_MAGIC_NEW2 =? ROM_MAGIC_NEW2)) with true. cbn match.
  rewrite get32_word by lia. replace (a + 12) with (a + 8 + 4) by lia. change (word (cells b) (a + 8 + 4)) with len.
  rewrite !u32_small by lia. replace (a + len + 16) with e by lia.
  assert (Hl1 : section_length (cells b1) (a + 8) = len) by (apply word_ext, U1).
  destruct (check_sections_new 255 m (a + 8) CHKSUM_INIT b1) as (b2 & E2 & U2); rewrite ?Hl1 in *; try replace (a + 8 + 8 + len) with e in * by lia; [lia|lia|by rewrite (proj2 U1)|lia| |].
  { destruct (sections_ext (cells b1) (cells b) m (proj2 U1) (e + 8)) as [-> _]. lia. }
  flash_ok E2. destruct (sections_ext (cells b1) (cells b) m (proj2 U1) (e + 8)) as [-> ->].
  replace (a + 8 + 8) with (a + 16) by lia. rewrite (unchanged_range b b1) by done.
  destruct (check_end (calc_chksum (range (cells b) (a + 16) len ++ sections_data (cells b) m (e + 8))) (sections_end (cells b) m (e + 8)) e b2) as (b3 & E3 & U3); [lia|].
  exists b3. split; [|by repeat (etrans; [eassumption|])]. etrans; [exact E3|]. unfold checksum_at. by rewrite (proj2 U2), (proj2 U1).
Qed.

(** ** rboot_verify_image *)

Lemma take_range f a n m : 0 ≤ m → take (Z.to_nat m) (range f a n) = range f a (m `min` n).
Proof.
  intros Hm. destruct (decide (n ≤ 0)) as [Hn|Hn].
  - assert (E : ∀ k, k ≤ 0 → range f a k = []) by (intros k Hk; unfold range; by rewrite seqZ_nil). rewrite !E by lia. apply take_nil.
  - replace n with (m `min` n + (n - m `min` n)) at 1 by lia. rewrite <- range_app by lia.
    destruct (decide (m ≤ n)); [|rewrite (Z.min_r m n) by lia; rewrite take_ge; [replace (n - n) with 0 by lia; by rewrite app_nil_r|rewrite length_app, !length_range; lia]].
    rewrite Z.min_l by lia. apply take_app_length'. by rewrite length_range.
Qed.

Lemma section_checksum_spec fuel : ∀ off i len chk b, 0 ≤ off → 0 ≤ i → off + len + 16 ≤ 4194304 → len - i ≤ 16 * Z.of_nat fuel →
  ∃ b', section_checksum fuel off i len chk b = (foldl Z.lxor chk (range (cells b) (off + i) (len - i)), b') ∧ unchanged b b'.
Proof.
  assert (E : ∀ f a k, k ≤ 0 → range f a k = []) by (intros f a k Hk; unfold range; by rewrite seqZ_nil).
  induction fuel as [|fuel IH]; intros off i len chk b Ho Hi Hs Hf; cbn [section_checksum].
  - exists b. split; [|done]. rewrite E by lia. done.
  - destruct (Z.ltb_spec i len) as [H|H]; [|exists b; split; [by rewrite E by lia|done]].
    rewrite u32_small by lia. destruct (flash_read_any (off + i) 16 b) as (b1 & E1 & U1); [lia..|]. flash_ok E1.
    rewrite (take_ge (range _ _ 16)) by (rewrite length_range; lia). rewrite take_range by lia.
    destruct (IH off (i + 16) len (foldl Z.lxor chk (range (cells b) (off + i) ((len - i) `min` 16))) b1) as (b2 & E2 & U2); [lia..|].
    exists b2. split; [|by etrans]. rewrite E2. f_equal. rewrite (unchanged_range b b1) by done.
    destruct (decide (len - i ≤ 16)) as [Hl|Hl].
    + rewrite (E _ _ (len - (i + 16))), Z.min_l by lia. done.
    + rewrite Z.min_r, <- foldl_app by lia. replace (off + (i + 16)) with (off + i + 16) by lia. rewrite range_app by lia. do 2 f_equal. lia.
Qed.

Lemma align4_id x : x `mod` 4 = 0 → 0 ≤ x < 2 ^ 32 - 4 → align4 x = x.
Proof.
  intros Hm Hx. unfold align4. rewrite u32_small by lia. change (Z.land (x + 3) 0xfffffffc) with (round4 x). rewrite round4_spec by lia. zsolve.
Qed.

Lemma align16_spec x : 0 ≤ x < 2 ^ 32 - 16 → align16 x = 16 * ((x + 15) / 16).
Proof.
  intros Hx. unfold align16. rewrite u32_small by lia. assert (E : Z.land (x + 15) 0xfffffff0 = Z.ldiff (x + 15) (Z.ones 4)).
  { apply Z.bits_inj'. intros n Hn. rewrite Z.land_spec, Z.ldiff_spec. change 0xfffffff0 with (Z.ldiff (Z.ones 32) (Z.ones 4)). rewrite Z.ldiff_spec.
    destruct (Z.lt_ge_cases n 32); [rewrite (Z.ones_spec_low 32 n) by lia; done|]. by rewrite (testbit_above 32 (x + 15)) by lia. }
  rewrite E, Z.ldiff_ones_r, Z.shiftr_div_pow2, Z.shiftl_mul_pow2 by lia. change (2 ^ 4) with 16. lia.
Qed.

Lemma sections_pred_ext f g n : (∀ x, f x = g x) → ∀ p limit,
  (sections_fit f n p limit ↔ sections_fit g n p limit) ∧ (sections_sane f n p ↔ sections_sane g n p).
Proof.
  intros H. induction n as [|n IH]; intros p limit; [done|]. cbn. unfold section_length. rewrite !(word_ext f g) by done.
  destruct (IH (p + 8 + word g (p + 4)) limit) as [-> ->]. done.
Qed.

(** The sections of an image without irom section, or behind it. *)
Lemma verify_loop_old n : ∀ fuel limit off chk b, 0 ≤ off → off `mod` 4 = 0 → limit + 16 ≤ 4194304 → (n < fuel)%nat → sections_sane (cells b) n off →
  ∃ err off' rem chk' b', verify_loop fuel limit off (Z.of_nat n) false chk b = ((err, off', rem, chk'), b') ∧ unchanged b b' ∧
    if decide (sections_fit (cells b) n off limit)
    then err = None ∧ off' = sections_end (cells b) n off ∧ rem = 0 ∧ chk' = foldl Z.lxor chk (sections_data (cells b) n off)
    else is_Some err ∨ 0 < rem.
Proof.
  induction n as [|n IH]; intros fuel limit off chk b Ho Hm Hl Hf Hs; (destruct fuel as [|fuel]; [lia|]); cbn [verify_loop].
  { eexists _, _, _, _, _. split; [reflexivity|]. split; [done|]. by rewrite decide_True. }
  rewrite (proj2 (Z.ltb_lt 0 (Z.of_nat (S n)))) by lia. cbn [andb]. destruct Hs as [Hs Hs'].
  destruct (Z.ltb_spec off limit) as [H1|H1].
  2: { eexists _, _, _, _, _. split; [reflexivity|]. split; [done|]. rewrite decide_False; [right; lia|]. intros [? _]. lia. }
  destruct (flash_read_any off 8 b) as (b1 & E1 & U1); [lia..|]. flash_ok E1. rewrite get32_word by lia.
  change (word (cells b) (off + 4)) with (section_length (cells b) off). assert (Hr := section_length_range (cells b) (cells_byte b) off).
  set (len := section_length (cells b) off) in *. rewrite (u32_small (off + 8)), (u32_small (len + (off + 8))) by lia.
  destruct (Z.ltb_spec limit (len + (off + 8))) as [H2|H2].
  { eexists _, _, _, _, _. split; [reflexivity|]. split; [done|]. rewrite decide_False; [right; lia|]. intros (_ & Hx & _). fold len in Hx. lia. }
  destruct (Z.eqb_spec (len `mod` 4) 0) as [H3|H3]; cbn [negb].
  2: { eexists _, _, _, _, _. split; [reflexivity|]. split; [done|]. rewrite decide_False; [left; eauto|]. by intros (_ & _ & ? & _). }
  destruct (section_checksum_spec (Z.to_nat ((len + 15) / 16)) (off + 8) 0 len chk b1) as (b2 & E2 & U2); [lia|lia|lia|zsolve|].
  flash_ok E2. rewrite (u32_small (off + 8 + len)), align4_id by (lia || zsolve).
  replace (Z.of_nat (S n) - 1) with (Z.of_nat n) by lia. assert (U : unchanged b b2) by (by etrans).
  destruct (sections_pred_ext (cells b2) (cells b) n (proj2 U) (off + 8 + len) limit) as [X1 X2].
  destruct (sections_ext (cells b2) (cells b) n (proj2 U) (off + 8 + len)) as [X3 X4].
  edestruct (IH fuel limit (off + 8 + len)) as (err & off' & rem & chk' & b3 & E3 & U3 & H4); [lia|zsolve|done|lia|by apply X2|].
  exists err, off', rem, chk', b3. split; [exact E3|]. split; [by etrans|]. cbn [sections_end sections_data]. fold len.
  destruct (decide (sections_fit (cells b2) n (off + 8 + len) limit)) as [Hfit|Hfit].
  - rewrite decide_True by (cbn; fold len; split_and!; [done|lia|done|by apply X1]). destruct H4 as (-> & -> & -> & ->). rewrite X3, X4.
    rewrite (unchanged_range b b1) by done. rewrite Z.add_0_r, Z.sub_0_r, foldl_app. done.
  - rewrite decide_False; [done|]. intros (_ & _ & _ & ?). by apply Hfit, X1.
Qed.

(** The first section of an image with two headers. *)
Lemma verify_loop_new fuel a limit chk b : let p := a + 16 + section_length (cells b) (a + 8) in
  0 ≤ a → a `mod` 4 = 0 → p `mod` 16 = 0 → a + 8 < limit → p ≤ limit → limit + 16 ≤ 4194304 → cells b p = ROM_MAGIC_OLD →
  ∃ b', verify_loop (S fuel) limit (a + 8) ROM_MAGIC_NEW2 true chk b = verify_loop fuel limit (p + 8) (cells b (p + 1)) false chk b' ∧ unchanged b b'.
Proof.
  intros p Ha Hm Hp Hl Hpl Hc Hmag. cbn [verify_loop]. change (0 <? ROM_MAGIC_NEW2) with true. rewrite (proj2 (Z.ltb_lt _ _) Hl). cbn [andb].
  destruct (flash_read_any (a + 8) 8 b) as (b1 & E1 & U1); [lia..|]. flash_ok E1. rewrite get32_word by lia.
  change (word (cells b) (a + 8 + 4)) with (section_length (cells b) (a + 8)). assert (Hr := section_length_range (cells b) (cells_byte b) (a + 8)).
  set (len := section_length (cells b) (a + 8)) in *. rewrite (u32_small (a + 8 + 8)), (u32_small (len + (a + 8 + 8))) by lia.
  rewrite (proj2 (Z.ltb_ge _ _)) by lia. rewrite (proj2 (Z.eqb_eq (len `mod` 4) 0)) by (unfold p in Hp; zsolve). cbn [negb].
  erewrite ST_bind_eq by reflexivity. replace (a + 8 + 8 + len) with p by lia. rewrite (u32_small p), align4_id, align16_spec by (lia || zsolve).
  replace (16 * ((p + 15) / 16)) with p by zsolve. destruct (flash_read_any p 8 b1) as (b2 & E2 & U2); [lia..|]. flash_ok E2.
  rewrite !at_range by lia. rewrite Z.add_0_r, !(proj2 U1), Hmag, u32_small by lia. change (negb (ROM_MAGIC_OLD =? ROM_MAGIC_OLD)) with false. cbn match.
  exists b2. split; [done|by etrans].
Qed.

(** The end of rboot_verify_image, when the loop is done with the sections. *)
Lemma verify_tail a n p err off rem chk b b2 : 0 ≤ a → unchanged b b2 → let e := sections_end (cells b) n p in
  (sections_fit (cells b) n p (a + 0x100000) → a ≤ e ∧ 16 * (e / 16) + 16 ≤ 4194304) →
  (if decide (sections_fit (cells b) n p (a + 0x100000))
   then err = None ∧ off = e ∧ rem = 0 ∧ chk = foldl Z.lxor CHKSUM_INIT (sections_data (cells b) n p) else is_Some err ∨ 0 < rem) →
  ∃ err' len b', (match err with
      | Some e => mret (Some e, u32 (off - a))
      | None => if 0 <? rem then mret (Some Image_truncated, u32 (off - a))
                else let offset := align16 (u32 (off + 1)) in
                     '(_, read_checksum) ← flash_read (u32 (offset - 1)) 1;
                     if negb (u8 (at_ read_checksum 0) =? chk) then mret (Some Invalid_checksum, u32 (offset - a)) else mret (None, u32 (offset - a))
      end) b2 = ((err', len), b') ∧ unchanged b b'
    ∧ (err' = None ↔ sections_fit (cells b) n p (a + 0x100000) ∧ checksum_at (cells b) e = calc_chksum (sections_data (cells b) n p))
    ∧ (err' = None → len = 16 * (e / 16) + 16 - a).
Proof.
  intros Ha U e He H. case_decide as Hfit.
  - destruct H as (-> & -> & -> & ->). destruct (He Hfit) as [He1 He2]. change (0 <? 0) with false. cbv zeta. cbn match.
    assert (Hdiv : e - 15 ≤ 16 * (e / 16) ≤ e) by zsolve. rewrite (u32_small (e + 1)), align16_spec by lia.
    replace (16 * ((e + 1 + 15) / 16)) with (16 * (e / 16) + 16) by zsolve. rewrite !u32_small by lia.
    destruct (flash_read_any (16 * (e / 16) + 16 - 1) 1 b2) as (b3 & E3 & U3); [lia..|]. flash_ok E3. rewrite at_range by lia.
    rewrite Z.add_0_r, u8_small by apply cells_byte. rewrite (proj2 U). unfold checksum_at. rewrite (lor_15 e) by lia.
    replace (16 * (e / 16) + 16 - 1) with (16 * (e / 16) + 15) by lia. unfold calc_chksum.
    destruct (Z.eqb_spec (cells b (16 * (e / 16) + 15)) (foldl Z.lxor CHKSUM_INIT (sections_data (cells b) n p))) as [Hc|Hc]; cbn [negb];
      (eexists _, _, b3; split; [reflexivity|]; split; [by etrans|]; split; [|done]); [done|]. split; [done|]. by intros [_ ?].
  - assert (Hno : ¬ (sections_fit (cells b) n p (a + 0x100000) ∧ checksum_at (cells b) e = calc_chksum (sections_data (cells b) n p))) by (by intros [? _]).
    destruct err as [x|]; [|destruct H as [[? ?]|H]; [done|]; rewrite (proj2 (Z.ltb_lt _ _) H)];
      (eexists _, _, b2; split; [reflexivity|]; split; [done|]; split; [split; [done|intros ?; by exfalso; apply Hno]|done]).
Qed.

(** rboot_verify_image of an image with headers of one of the two formats. *)
Lemma verify_image_spec a b : 0 ≤ a → a `mod` 4 = 0 → a + 0x100010 ≤ 4194304 → headers_ok (cells b) a →
  sections_sane (cells b) (image_count (cells b) a) (image_start (cells b) a + 8) →
  ∃ err len b', rboot_verify_image a b = ((err, len), b') ∧ unchanged b b'
    ∧ (err = None ↔ image_fits (cells b) a ∧ checksum_at (cells b) (image_stop (cells b) a) = calc_chksum (image_data (cells b) a))
    ∧ (err = None → len = image_size (cells b) a).
Proof.
  intros Ha Hm Hs Hh Hsane. assert (Hstop := image_stop_le (cells b) a Hh). assert (Hge := image_stop_ge (cells b) (cells_byte b) a).
  assert (Hsg := image_start_ge (cells b) (cells_byte b) a). unfold image_fits, image_stop, image_data, image_size in *.
  set (p := image_start (cells b) a) in *. assert (Hcnt := cells_byte b (p + 1)). set (n := image_count (cells b) a) in *.
  assert (Hn : cells b (p + 1) = Z.of_nat n ∧ Z.of_nat n < 256) by (unfold n, image_count, is_byte in *; fold p; lia). destruct Hn as [Hn Hn'].
  assert (Hp4 : p `mod` 4 = 0) by (destruct Hh as [[E _]|(_ & _ & H1 & _)]; [unfold p, image_start; by rewrite E|fold p in H1; zsolve]).
  unfold rboot_verify_image. rewrite (proj2 (Z.eqb_eq _ _) Hm). cbn [negb].
  destruct (flash_read_any a 8 b) as (b1 & E1 & U1); [lia..|]. flash_ok E1. rewrite !at_range by lia. rewrite Z.add_0_r, (u32_small (a + 8)), (u32_small (a + 1048576)) by lia.
  (** The loop over the sections. *)
  assert (Hloop : ∀ fuel b0, unchanged b b0 → (n < fuel)%nat → ∃ err off rem chk b2, verify_loop fuel (a + 0x100000) (p + 8) (Z.of_nat n) false CHKSUM_INIT b0 = ((err, off, rem, chk), b2)
    ∧ unchanged b b2 ∧ if decide (sections_fit (cells b) n (p + 8) (a + 0x100000))
      then err = None ∧ off = sections_end (cells b) n (p + 8) ∧ rem = 0 ∧ chk = foldl Z.lxor CHKSUM_INIT (sections_data (cells b) n (p + 8)) else is_Some err ∨ 0 < rem).
  { intros fuel b0 U0 Hf. destruct (sections_pred_ext (cells b0) (cells b) n (proj2 U0) (p + 8) (a + 0x100000)) as [X1 X2].
    destruct (sections_ext (cells b0) (cells b) n (proj2 U0) (p + 8)) as [X3 X4].
    destruct (verify_loop_old n fuel (a + 0x100000) (p + 8) CHKSUM_INIT b0) as (err & off & rem & chk & b2 & E2 & U2 & H); [lia|zsolve|lia|done|by apply X2|].
    exists err, off, rem, chk, b2. split; [done|]. split; [by etrans|]. rewrite X3, X4 in H. by rewrite (decide_ext _ _ _ _ X1) in H. }
  assert (Hend : ∃ err off rem chk b2, verify_loop 512 (a + 0x100000) (a + 8) (cells b (a + 1)) (cells b a =? ROM_MAGIC_NEW) CHKSUM_INIT b1 = ((err, off, rem, chk), b2)
    ∧ unchanged b b2 ∧ if decide (sections_fit (cells b) n (p + 8) (a + 0x100000))
      then err = None ∧ off = sections_end (cells b) n (p + 8) ∧ rem = 0 ∧ chk = foldl Z.lxor CHKSUM_INIT (sections_data (cells b) n (p + 8)) else is_Some err ∨ 0 < rem).
  { destruct Hh as [[E _]|(E & E' & H1 & H2 & H3 & _)].
    - assert (Ep : p = a) by (unfold p, image_start; by rewrite E). rewrite E. change (ROM_MAGIC_OLD =? ROM_MAGIC_NEW) with false. rewrite Ep in Hn, Hloop |- *. rewrite Hn.
      apply Hloop; [done|lia].
    - fold p in H1, H2, H3. assert (Ep : p = a + 16 + section_length (cells b) (a + 8)) by (unfold p, image_start; by rewrite E).
      assert (Ep1 : a + 16 + section_length (cells b1) (a + 8) = p) by (rewrite Ep; f_equal; apply word_ext, U1).
      destruct (verify_loop_new 511 a (a + 0x100000) CHKSUM_INIT b1) as (b2 & E2 & U2); rewrite ?Ep1; [done|done|done|lia|lia|lia|by rewrite (proj2 U1)|].
      rewrite E, E'. change (ROM_MAGIC_NEW =? ROM_MAGIC_NEW) with true. rewrite Ep1 in E2. rewrite E2, (proj2 U1), Hn. apply Hloop; [by etrans|lia]. }
  destruct Hend as (err & off & rem & chk & b2 & E2 & U2 & H).
  assert (Hmag : negb (cells b a =? ROM_MAGIC_OLD) && negb (cells b a =? ROM_MAGIC_NEW) = false) by (destruct Hh as [[-> _]|[-> _]]; done). rewrite Hmag.
  flash_ok E2. apply (verify_tail a n (p + 8) err off rem chk b b2 Ha U2); [|done]. intros Hfit. specialize (Hstop Hfit). lia.
Qed.

Lemma foldl_lxor c bs : foldl Z.lxor c bs = Z.lxor c (foldl Z.lxor 0 bs).
Proof.
  revert c. induction bs as [|x bs IH]; intros c; cbn [foldl]; [by rewrite Z.lxor_0_r|]. rewrite IH, (IH (Z.lxor 0 x)), Z.lxor_0_l. by rewrite Z.lxor_assoc.
Qed.

(** Bytes in front change a checksum unless their exclusive or is 0. *)
Lemma calc_chksum_app irom data : calc_chksum (irom ++ data) = calc_chksum data ↔ foldl Z.lxor 0 irom = 0.
Proof.
  unfold calc_chksum. rewrite foldl_app, foldl_lxor, (foldl_lxor CHKSUM_INIT irom), (foldl_lxor CHKSUM_INIT data).
  set (x := foldl Z.lxor 0 irom). set (y := foldl Z.lxor 0 data). rewrite Z.lxor_assoc. split.
  - intros H. apply (f_equal (Z.lxor CHKSUM_INIT)) in H. rewrite <- !Z.lxor_assoc, !Z.lxor_nilpotent, !Z.lxor_0_l in H.
    apply (f_equal (λ z, Z.lxor z y)) in H. by rewrite Z.lxor_assoc, Z.lxor_nilpotent, Z.lxor_0_r in H.
  - intros ->. by rewrite Z.lxor_0_l.
Qed.

(** check_image of such an image whose sections fit. *)
Lemma check_image_spec a b : 0 < a → a + 0x100010 ≤ 4194304 → headers_ok (cells b) a → image_fits (cells b) a →
  (check_image a b).1 = if checksum_at (cells b) (image_stop (cells b) a) =? calc_chksum (image_irom (cells b) a ++ image_data (cells b) a)
                        then image_start (cells b) a else 0.
Proof.
  intros Ha Hs Hh Hfit. assert (Hstop := image_stop_le (cells b) a Hh Hfit).
  assert (Hlt : image_stop (cells b) a < 4194304) by zsolve. clear Hstop Hfit. unfold image_stop, image_data, image_irom, image_count in *. destruct Hh as [[E Hc]|(E & E' & H1 & H2 & H3 & Hc)].
  - assert (Ep : image_start (cells b) a = a) by (unfold image_start; by rewrite E). rewrite Ep, E in *. change (ROM_MAGIC_OLD =? ROM_MAGIC_NEW) with false. cbn match.
    assert (Hb := cells_byte b (a + 1)). unfold is_byte in Hb.
    destruct (check_image_old a (Z.to_nat (cells b (a + 1))) b) as (b' & -> & _); [done|done|lia|lia|lia|done|]. done.
  - assert (Hb := cells_byte b (image_start (cells b) a + 1)). unfold is_byte in Hb. assert (Ep : image_start (cells b) a = a + 16 + section_length (cells b) (a + 8)) by (unfold image_start; by rewrite E).
    rewrite E. change (ROM_MAGIC_NEW =? ROM_MAGIC_NEW) with true. cbn match. rewrite Ep in *.
    destruct (check_image_new a (Z.to_nat (cells b (a + 16 + section_length (cells b) (a + 8) + 1))) b) as (b' & -> & _); [done|done|done|lia|lia|done|]. done.
Qed.

(** ** Loading an image *)

Lemma ram_copy_app bs bs' : ∀ a ram, ram_copy (a + zlength bs) bs' (ram_copy a bs ram) = ram_copy a (bs ++ bs') ram.
Proof. induction bs as [|x bs IH]; intros a ram; cbn [ram_copy app]; [by rewrite Z.add_0_r|]. rewrite <- IH. f_equal. cbn [length]. lia. Qed.

Lemma load_blocks_spec fuel : ∀ pos wp rem ram b, 0 ≤ pos → 0 ≤ rem → pos + rem ≤ 4194304 → rem / 256 < Z.of_nat fuel →
  ∃ b', load_blocks fuel pos wp rem ram b = ((pos + rem, ram_copy wp (range (cells b) pos rem) ram), b') ∧ unchanged b b'.
Proof.
  induction fuel as [|fuel IH]; intros pos wp rem ram b Hp Hr Hs Hf; [zsolve|]. cbn [load_blocks].
  destruct (Z.ltb_spec 0 rem) as [H|H].
  - set (len := if rem <? BUFFER_SIZE then rem else BUFFER_SIZE).
    assert (Hlen : 0 < len ≤ rem ∧ (len = rem ∨ len = 256)) by (unfold len, BUFFER_SIZE; destruct (Z.ltb_spec rem 256); lia).
    destruct (flash_read_any pos len b) as (b1 & E1 & U1); [lia..|]. erewrite ST_bind_eq by exact E1. cbn match.
    rewrite u32_small by lia. rewrite take_ge by (rewrite length_range; lia).
    destruct (decide (len = rem)) as [->|Hne].
    + rewrite Z.sub_diag. exists b1. split; [|done]. destruct fuel; cbn [load_blocks]; reflexivity.
    + destruct (IH (pos + len) (wp + len) (rem - len) (ram_copy wp (range (cells b) pos len) ram) b1) as (b2 & E2 & U2); [lia|lia|lia|assert (len = 256) by lia; zsolve|].
      exists b2. split; [|by etrans]. rewrite E2. f_equal. f_equal; [lia|]. rewrite (unchanged_range b b1) by done.
      replace (wp + len) with (wp + zlength (range (cells b) pos len)) by (rewrite length_range; lia). rewrite ram_copy_app, range_app by lia. do 2 f_equal. lia.
  - assert (rem = 0) as -> by lia. exists b. split; [|done]. unfold mret, ST_ret. rewrite Z.add_0_r. reflexivity.
Qed.

Lemma sections_ram_ext f g n : (∀ x, f x = g x) → ∀ p ram, sections_ram f n p ram = sections_ram g n p ram.
Proof. intros H. induction n as [|n IH]; intros p ram; [done|]. cbn. unfold section_length. rewrite !(word_ext f g), (range_ext f g) by done. apply IH. Qed.

Lemma load_sections_spec n : ∀ pos ram b, 0 ≤ pos → sections_end (cells b) n pos ≤ 4194304 →
  ∃ b', load_sections n pos ram b = (sections_ram (cells b) n pos ram, b') ∧ unchanged b b'.
Proof.
  induction n as [|n IH]; intros pos ram b Hp Hs; cbn [load_sections sections_ram]; [by exists b|]. cbn [sections_end] in Hs.
  assert (Hl := section_length_range (cells b) (cells_byte b) pos). assert (Hge := sections_end_ge (cells b) (cells_byte b) n (pos + 8 + section_length (cells b) pos)).
  destruct (flash_read_any pos 8 b) as (b1 & E1 & U1); [lia..|]. erewrite ST_bind_eq by exact E1. cbn match. cbv zeta. rewrite !get32_word by lia.
  change (word (cells b) (pos + 4)) with (section_length (cells b) pos). rewrite Z.add_0_r. set (len := section_length (cells b) pos) in *.
  rewrite u32_small by lia. destruct (load_blocks_spec (Z.to_nat (len / BUFFER_SIZE + 1)) (pos + 8) (word (cells b) pos) len ram b1) as (b2 & E2 & U2); [lia|lia|lia|unfold BUFFER_SIZE; zsolve|].
  erewrite ST_bind_eq by exact E2. cbn match. assert (U : unchanged b b2) by (by etrans). destruct (sections_ext (cells b2) (cells b) n (proj2 U) (pos + 8 + len)) as [X1 _].
  destruct (IH (pos + 8 + len) (ram_copy (word (cells b) pos) (range (cells b1) (pos + 8) len) ram) b2) as (b3 & E3 & U3); [lia|by rewrite X1|].
  exists b3. split; [|by etrans]. rewrite E3, (sections_ram_ext (cells b2) (cells b)) by apply U. by rewrite (unchanged_range b b1) by done.
Qed.

Lemma load_rom_spec a ram b : 0 ≤ a → let n := Z.to_nat (cells b (a + 1)) in sections_end (cells b) n (a + 8) ≤ 4194304 →
  ∃ b', load_rom a ram b = ((word (cells b) (a + 4), sections_ram (cells b) n (a + 8) ram), b') ∧ unchanged b b'.
Proof.
  intros Ha n Hs. assert (Hge := sections_end_ge (cells b) (cells_byte b) n (a + 8)). unfold load_rom.
  destruct (flash_read_any a 8 b) as (b1 & E1 & U1); [lia..|]. erewrite ST_bind_eq by exact E1. cbn match. rewrite at_range, get32_word, u32_small by lia. fold n.
  destruct (sections_ext (cells b1) (cells b) n (proj2 U1) (a + 8)) as [X1 _].
  destruct (load_sections_spec n (a + 8) ram b1) as (b2 & E2 & U2); [lia|by rewrite X1|]. erewrite ST_bind_eq by exact E2.
  exists b2. split; [|by etrans]. by rewrite (sections_ram_ext (cells b1) (cells b)) by apply U1.
Qed.
End chip.
