(* ===== verification/RbootBoot.v ===== *)
(** RbootBoot: which rom the boot loader starts. *)

From S2P Require Import Prelude Flash Rboot RbootLoader RbootSpec RbootImage.

Section boot.
  Context {D : Type} {Dev : FlashDev D} {Spec : FlashSpec D} {Rd : FlashReadSpec D}.
  Implicit Types b : board D.

(** ** Computations that only read the chip *)

Class Reads {A} (m : ST (board D) A) : Prop := {
  reads_keeps : ∀ b, unchanged b (m b).2;
  reads_same : ∀ b b', (∀ x, cells b x = cells b' x) → (m b).1 = (m b').1;
}.
Arguments reads_keeps {A} m {_} b.
Arguments reads_same {A} m {_} b b'.

#[export] Instance reads_ret {A} (a : A) : Reads (mret a).
Proof. by split. Qed.

#[export] Instance reads_bind {A B} (m : ST (board D) A) (k : A → ST (board D) B) : Reads m → (∀ a, Reads (k a)) → Reads (m ≫= k).
Proof.
  intros Hm Hk. split.
  - intros b. unfold mbind, ST_bind. assert (H := reads_keeps m b). destruct (m b) as [a b1]. etrans; [exact H|apply (Hk a)].
  - intros b b' Hb. unfold mbind, ST_bind. assert (H1 := reads_keeps m b). assert (H2 := reads_keeps m b'). assert (H3 := reads_same m b b' Hb).
    destruct (m b) as [a b1], (m b') as [a' b1']. cbn in H1, H2, H3. subst a'. apply (Hk a). intros x. by rewrite (proj2 H1), (proj2 H2).
Qed.

#[export] Instance reads_flash a n : Reads (flash_read a n).
Proof.
  split.
  - intros b. unfold flash_read. assert (H := read_keeps b.(bd_dev) a n). destruct (spi_flash_read a n b.(bd_dev)) as [r d]. split; [done|exact H].
  - intros b b' Hb. unfold flash_read. assert (H := read_same b.(bd_dev) b'.(bd_dev) a n Hb).
    destruct (spi_flash_read a n b.(bd_dev)), (spi_flash_read a n b'.(bd_dev)). exact H.
Qed.

Ltac reads := repeat first [apply _ | apply reads_bind; [|intros] | progress case_match].

#[export] Instance reads_section fuel pos rem chk : Reads (read_section fuel pos rem chk).
Proof. revert pos rem chk. induction fuel as [|fuel IH]; intros pos rem chk; cbn [read_section]; reads. Qed.

#[export] Instance reads_sections fuel pos cur count chk : Reads (check_sections fuel pos cur count chk).
Proof. revert pos cur count chk. induction fuel as [|fuel IH]; intros pos cur count chk; cbn [check_sections]; reads. Qed.

#[export] Instance reads_check_image a : Reads (check_image a).
Proof. unfold check_image. reads. Qed.

(** ** The configuration and the RTC data *)

(** The RTC data that the boot loader sees. *)
Definition boot_rtc b : rboot_rtc_data := parse_rtc (sub_list b.(bd_rtc) 256 12).

Lemma boot_inputs_spec b : config_valid (stored_config b) = true →
  ∃ b', boot_inputs b = ((config_sector b, boot_rtc b), b') ∧ unchanged b b'.
Proof.
  intros Hv. unfold boot_inputs. destruct (flash_read_any 0 8 b) as (b1 & E1 & U1); [lia..|]. flash_ok E1.
  destruct (flash_read_any 0x1000 0x1000 b1) as (b2 & E2 & U2); [lia..|].
  assert (Es : range (cells b1) 0x1000 0x1000 = config_sector b) by (by apply (unchanged_range b b1)).
  assert (El : load_config (flash_size (at_ (range (cells b) 0 8) 3)) b1 = (config_sector b, b2)).
  { unfold load_config. erewrite ST_bind_eq by exact E2. cbn match. rewrite Es. change (parse_config (config_sector b)) with (stored_config b). by rewrite Hv. }
  flash_ok El. exists b2. split; [|by etrans]. unfold boot_rtc. destruct (proj1 U2) as (R2 & _ & _). destruct (proj1 U1) as (R1 & _ & _).
  change (system_rtc_mem_read RBOOT_RTC_ADDR SIZEOF_RTC) with (λ b : board D, (Some (sub_list b.(bd_rtc) 256 12), b)).
  unfold mbind, ST_bind. cbn beta match. by rewrite R2, R1.
Qed.

(** The address that the rom [i] is run from; 0: it is bad. *)
Definition run_addr b (i : Z) : Z := (check_image (rom_addr (config_sector b) i) b).1.

Lemma rom_addr_insert buffer k v i : 0 ≤ i → (k < 8)%nat → rom_addr (<[k := v]> buffer) i = rom_addr buffer i.
Proof.
  intros Hi Hk. unfold rom_addr, get32, get16. assert (E : ∀ j, 8 ≤ j → at_ (<[k := v]> buffer) j = at_ buffer j).
  { intros j Hj. unfold at_. by rewrite list_lookup_insert_ne by lia. }
  by rewrite !E by lia.
Qed.

(** ** Looking for another rom *)

(** The roms that are tried after [cur]: [cur] - 1, [cur] - 2, .., around the end. *)
Definition rom_before (count cur k : Z) : Z := (cur - k) `mod` count.
Definition others (count cur : Z) : list Z := rom_before count cur <$> seqZ 1 (count - 1).

Lemma rom_before_step count cur k : 0 ≤ cur < count → 0 ≤ k → let r := rom_before count cur k in
  (if r - 1 <? 0 then count - 1 else r - 1) = rom_before count cur (k + 1).
Proof.
  intros Hc Hk. cbn zeta. unfold rom_before. replace (cur - (k + 1)) with (cur - k - 1) by lia. set (x := cur - k). clearbody x.
  assert (Hr : 0 ≤ x `mod` count < count) by (apply Z.mod_pos_bound; lia). rewrite <- (Zminus_mod_idemp_l x 1 count).
  destruct (Z.ltb_spec (x `mod` count - 1) 0); [|by rewrite (Z.mod_small (x `mod` count - 1)) by lia]. replace (x `mod` count - 1) with (-1) by lia.
  rewrite <- (Z.mod_add (-1) 1 count) by lia. rewrite Z.mod_small; lia.
Qed.

Lemma rom_before_end count cur : 0 ≤ cur < count → rom_before count cur count = cur.
Proof. intros Hc. unfold rom_before. rewrite <- (Z.mod_add (cur - count) 1) by lia. rewrite Z.mod_small; lia. Qed.

Lemma rom_before_ne count cur k : 0 ≤ cur < count → 0 < k < count → rom_before count cur k ≠ cur.
Proof.
  intros Hc Hk. unfold rom_before. destruct (decide (k ≤ cur)); [rewrite Z.mod_small; lia|].
  rewrite <- (Z.mod_add (cur - k) 1) by lia. rewrite Z.mod_small; lia.
Qed.

(** The first good rom of a list. *)
Fixpoint first_good (run : Z → Z) (l : list Z) : option (Z * Z) :=
  match l with [] => None | i :: l => if run i =? 0 then first_good run l else Some (i, run i) end.

Lemma first_good_ext run run' l : (∀ i, run i = run' i) → first_good run l = first_good run' l.
Proof. intros H. induction l as [|i l IH]; [done|]. cbn. rewrite H, IH. done. Qed.

Lemma previous_roms_spec m : ∀ fuel buffer k b, let c := parse_config buffer in
  0 ≤ c.(current_rom) < c.(count) → 0 ≤ k → k + Z.of_nat m = c.(count) - 1 → (m < fuel)%nat →
  ∃ b', previous_roms fuel buffer (rom_before c.(count) c.(current_rom) k) b
      = Some (first_good (λ i, (check_image (rom_addr buffer i) b).1) (rom_before c.(count) c.(current_rom) <$> seqZ (k + 1) (Z.of_nat m)), b') ∧ unchanged b b'.
Proof.
  induction m as [|m IH]; intros fuel buffer k b c Hc Hk Hm Hf; (destruct fuel as [|fuel]; [lia|]); cbn [previous_roms]; fold c;
    rewrite rom_before_step by done.
  - exists b. split; [|done]. replace (k + 1) with c.(count) by lia. rewrite rom_before_end by done. by rewrite Z.eqb_refl.
  - rewrite (proj2 (Z.eqb_neq _ _)) by (apply rom_before_ne; [done|lia]).
    rewrite (seqZ_cons (k + 1)) by lia. cbn [fmap list_fmap first_good]. set (r := rom_before c.(count) c.(current_rom) (k + 1)).
    assert (U := reads_keeps (check_image (rom_addr buffer r)) b). destruct (check_image (rom_addr buffer r) b) as [a b1] eqn:Ec. cbn [fst snd] in *.
    destruct (Z.eqb_spec a 0) as [->|Ha]; [|by exists b1].
    destruct (IH fuel buffer (k + 1) b1) as (b2 & E2 & U2); [done|lia|fold c; lia|lia|].
    exists b2. split; [|by etrans]. fold c r in E2. rewrite E2. do 2 f_equal.
    rewrite (first_good_ext _ (λ i, (check_image (rom_addr buffer i) b).1)).
    + by replace (Z.pred (Z.of_nat (S m))) with (Z.of_nat m) by lia.
    + intros i. apply (reads_same (check_image (rom_addr buffer i))). apply U.
Qed.

(** ** Booting *)

Lemma rtc_write_spec (r : rboot_rtc_data) b : ∃ b', system_rtc_mem_write RBOOT_RTC_ADDR (rtc_bytes r) SIZEOF_RTC b = (true, b')
  ∧ (∀ x, cells b' x = cells b x) ∧ b'.(bd_rtc) = take 256 b.(bd_rtc) ++ take 12 (rtc_bytes r) ++ drop 268 b.(bd_rtc).
Proof. eexists. split; [reflexivity|]. done. Qed.

(** A buffer whose checksum is written is the buffer with the configuration of the
    right checksum. *)
Lemma buffer_chksum_spec buf : (28 ≤ length buf)%nat → Forall is_byte buf → buffer_chksum buf = put_config (with_chksum (parse_config buf)) buf.
Proof.
  intros Hl Hb. unfold buffer_chksum, put_config. do 28 (destruct buf as [|? buf]; [cbn in Hl; lia|]).
  set (bs := z :: _) in *. assert (Eh : config_head (parse_config bs) = take 24 bs).
  { unfold config_head, parse_config. cbn [magic version mode current_rom gpio_rom count last_main_rom last_setup_rom roms mbind list_bind].
    rewrite !le32_get32 by (done || lia). reflexivity. }
  unfold with_chksum, config_bytes. change (config_head (set_chksum ?x ?c)) with (config_head c). rewrite Eh.
  cbn [chksum cpadding set_chksum]. generalize (calc_chksum (take 24 bs)). intros ck. unfold bs. reflexivity.
Qed.

Lemma parse_set_current buf i : (28 ≤ length buf)%nat → parse_config (<[3%nat := i]> buf) = set_current_rom i (parse_config buf).
Proof. intros Hl. do 28 (destruct buf as [|? buf]; [cbn in Hl; lia|]). reflexivity. Qed.

(** The rom that is started, and what is left on the chip. *)
Lemma boot_rom_update b i r rtc t : 0 ≤ i < 256 →
  ∃ b', boot_rom (config_sector b) true rtc t i r b = (r, b') ∧ stored_config b' = with_chksum (set_current_rom i (stored_config b))
    ∧ ∀ x, ¬ (0x1000 ≤ x < 0x1000 + 28) → cells b' x = cells b x.
Proof.
  intros Hi. unfold boot_rom. rewrite (u8_small i) by done. set (buf := <[3%nat := i]> (config_sector b)).
  assert (Hl : length buf = 4096%nat) by (unfold buf; rewrite length_insert; apply config_sector_length).
  assert (Hb : Forall is_byte buf) by (apply Forall_insert; [apply config_sector_bytes|done]).
  rewrite buffer_chksum_spec by (done || lia). unfold buf at 1. rewrite parse_set_current by (rewrite config_sector_length; lia).
  change (parse_config (config_sector b)) with (stored_config b). set (c := with_chksum _).
  assert (Hw : wf_config c).
  { apply with_chksum_wf. assert (H := parse_config_wf buf Hb). unfold buf in H. by rewrite parse_set_current in H by (rewrite config_sector_length; lia). }
  destruct (put_config_spec c buf Hw Hl Hb) as (P1 & P2 & P3 & P4). destruct (write_config_cells (put_config c buf) b P1 P2) as (b1 & E1 & S1 & C1).
  flash_ok E1. destruct (rtc_write_spec (rtc_booted rtc t i) b1) as (b2 & E2 & C2 & _). flash_ok E2. exists b2. split; [reflexivity|]. split.
  - unfold stored_config at 1. rewrite <- P3. f_equal. unfold config_sector. change 0x1000 with (Z.of_nat 4096) at 2. rewrite <- P1. apply range_eq.
    rewrite P1. intros k Hk. rewrite C2, C1, decide_True by lia. f_equal. lia.
  - intros x Hx. rewrite C2, C1. case_decide as Hd; [|done]. rewrite P4 by lia. unfold buf, at_. rewrite list_lookup_insert_ne by lia.
    change (default 0 (config_sector b !! Z.to_nat (x - 4096))) with (at_ (config_sector b) (x - 4096)). unfold config_sector. rewrite at_range by lia. f_equal. lia.
Qed.

(** A change of the configuration sector's buffer is made on the chip that it was read from. *)
Lemma config_sector_unchanged b b' : unchanged b b' → config_sector b' = config_sector b.
Proof. apply unchanged_range. Qed.

Lemma others_range count cur i : 0 < count → i ∈ others count cur → 0 ≤ i < count.
Proof. intros Hc. unfold others. rewrite list_elem_of_fmap. intros (k & -> & _). apply Z.mod_pos_bound. lia. Qed.

Lemma first_good_elem run l i r : first_good run l = Some (i, r) → i ∈ l ∧ r = run i ∧ r ≠ 0.
Proof.
  induction l as [|j l IH]; cbn; [done|]. destruct (Z.eqb_spec (run j) 0); [intros H; destruct (IH H); split; [by right|done]|].
  intros [= <- <-]. split; [by left|done].
Qed.

Lemma find_image_spec fuel b : config_valid (stored_config b) = true → let c := stored_config b in
  c.(current_rom) < c.(count) → temp_boot_rom (boot_rtc b) c.(count) = Some None → (Z.to_nat c.(count) ≤ fuel)%nat →
  ∃ b', if decide (run_addr b c.(current_rom) = 0) then
      match first_good (run_addr b) (others c.(count) c.(current_rom)) with
      | None => find_image fuel b = Some (0, b') ∧ ∀ x, cells b' x = cells b x
      | Some (i, r) => find_image fuel b = Some (r, b') ∧ stored_config b' = with_chksum (set_current_rom i c)
          ∧ ∀ x, ¬ (0x1000 ≤ x < 0x1000 + 28) → cells b' x = cells b x
      end
    else find_image fuel b = Some (run_addr b c.(current_rom), b') ∧ ∀ x, cells b' x = cells b x.
Proof.
  intros Hv c Hc Ht Hf. destruct (boot_inputs_spec b Hv) as (b1 & E1 & U1).
  assert (Hwf := stored_config_wf b). destruct Hwf as [Hby _ _]. fold c in Hby.
  repeat match goal with H : Forall _ (_ :: _) |- _ => apply Forall_cons in H as [? H] end.
  assert (Hcur : 0 ≤ c.(current_rom) < c.(count)) by (unfold is_byte in *; lia).
  set (r0 := rom_addr (config_sector b) c.(current_rom)).
  assert (Er : (check_image r0 b1).1 = run_addr b c.(current_rom)) by (symmetry; apply (reads_same (check_image r0)); intros x; symmetry; apply U1).
  assert (U2 := reads_keeps (check_image r0) b1).
  assert (Ef : find_image fuel b = let '(runAddr, b) := check_image r0 b1 in
     if negb (runAddr =? 0) then Some (boot_rom (config_sector b1) false (boot_rtc b1) false c.(current_rom) runAddr b)
     else '(res, b) ← previous_roms fuel (config_sector b1) c.(current_rom) b;
       match res with None => Some (0, b) | Some (romToBoot, runAddr) => Some (boot_rom (config_sector b1) true (boot_rtc b1) false romToBoot runAddr b) end).
  { unfold find_image. rewrite E1. change (parse_config (config_sector b)) with c. rewrite Ht. rewrite bool_decide_false by (by intros [? ?]).
    rewrite (proj2 (Z.leb_gt _ _) Hc), (config_sector_unchanged b b1) by done. cbn [default]. fold r0. destruct (proj1 U1) as (R & _). unfold boot_rtc. by rewrite R. }
  rewrite Ef. clear Ef E1. destruct (check_image r0 b1) as [a b2]. cbn [fst snd] in Er, U2. subst a.
  assert (U : unchanged b b2) by (by etrans). destruct (decide (run_addr b c.(current_rom) = 0)) as [Hz|Hz].
  - rewrite Hz. cbn [Z.eqb negb]. assert (Es : config_sector b1 = config_sector b) by (by apply config_sector_unchanged).
    assert (Ep : parse_config (config_sector b1) = c) by (by rewrite Es).
    destruct (previous_roms_spec (Z.to_nat (c.(count) - 1)) fuel (config_sector b1) 0 b2) as (b3 & E3 & U3); rewrite ?Ep in *; [done|lia|lia|lia|].
    unfold rom_before at 1 in E3. rewrite Z.sub_0_r, Z.mod_small in E3 by done. rewrite E3. cbn [mbind option_bind]. clear E3.
    rewrite Z2Nat.id by lia. change (rom_before (count c) (current_rom c) <$> seqZ (0 + 1) (count c - 1)) with (others c.(count) c.(current_rom)).
    rewrite (first_good_ext (λ i, (check_image (rom_addr (config_sector b1) i) b2).1) (run_addr b)).
    2: { intros i. rewrite Es. apply (reads_same (check_image _)). apply U. }
    assert (U' : unchanged b b3) by (by etrans). destruct (first_good _ _) as [[i r]|] eqn:Eg; [|exists b3; split; [done|apply U']].
    apply first_good_elem in Eg as (Hin & _ & _). apply others_range in Hin; [|lia].
    destruct (boot_rom_update b3 i r (boot_rtc b1) false) as (b4 & E4 & F4 & C4); [unfold is_byte in *; lia|]. exists b4.
    assert (Es3 : config_sector b3 = config_sector b) by (by apply config_sector_unchanged). split; [by rewrite Es, <- Es3, E4|].
    split; [rewrite F4; unfold stored_config at 1; by rewrite Es3|]. intros x Hx. rewrite C4 by done. apply U'.
  - rewrite (proj2 (Z.eqb_neq _ _) Hz). cbn [negb]. unfold boot_rom. destruct (rtc_write_spec (rtc_booted (boot_rtc b1) false c.(current_rom)) b2) as (b3 & E3 & C3 & _).
    exists b3. split; [|intros x; rewrite C3; apply U]. f_equal. erewrite ST_bind_eq by reflexivity. flash_ok E3. reflexivity.
Qed.
End boot.
