(* ===== verification/RbootTheorems.v ===== *)
(** RbootTheorems: an update over the air from its first chunk to the next boot, and
    what the boot loader starts when it is cut off or the image is bad. *)

From S2P Require Import Prelude Flash Rboot RbootLoader RbootSpec RbootWrite RbootImage RbootBoot.

(** ** Images that lie in a part of the chip *)

Lemma word_local f g p lo hi : (∀ x, lo ≤ x < hi → f x = g x) → lo ≤ p → p + 4 ≤ hi → word g p = word f p.
Proof. intros H Hp Hh. unfold word. by rewrite !H by lia. Qed.

Lemma range_local (f g : Z → Z) p n lo hi : (∀ x, lo ≤ x < hi → f x = g x) → lo ≤ p → p + n ≤ hi → range g p n = range f p n.
Proof.
  intros H Hp Hh. unfold range. apply list_fmap_ext. intros i x Hx.
  apply lookup_seqZ in Hx as [-> Hi]. symmetry. apply H. lia.
Qed.

Lemma sections_local f g lo hi : (∀ x, lo ≤ x < hi → f x = g x) → (∀ x, is_byte (f x)) →
  ∀ n p limit, lo ≤ p → sections_end f n p ≤ hi →
  sections_end g n p = sections_end f n p ∧ sections_data g n p = sections_data f n p
  ∧ (sections_fit g n p limit ↔ sections_fit f n p limit) ∧ (sections_sane g n p ↔ sections_sane f n p).
Proof.
  intros H Hf. induction n as [|n IH]; intros p limit Hp Hh; [done|]. cbn in Hh |- *.
  assert (Hge := sections_end_ge f Hf n (p + 8 + section_length f p)). assert (Hl := section_length_range f Hf p).
  assert (E : section_length g p = section_length f p) by (apply (word_local f g (p + 4) lo hi H); lia).
  rewrite E. destruct (IH (p + 8 + section_length f p) limit) as (-> & -> & -> & ->); [lia|done|].
  rewrite (range_local f g (p + 8) (section_length f p) lo hi H) by lia. done.
Qed.

Lemma sections_ram_local f g lo hi : (∀ x, lo ≤ x < hi → f x = g x) → (∀ x, is_byte (f x)) →
  ∀ n p ram, lo ≤ p → sections_end f n p ≤ hi → sections_ram g n p ram = sections_ram f n p ram.
Proof.
  intros H Hf. induction n as [|n IH]; intros p ram Hp Hh; [done|]. cbn in Hh |- *.
  assert (Hge := sections_end_ge f Hf n (p + 8 + section_length f p)). assert (Hl := section_length_range f Hf p).
  unfold section_length at 1 2. rewrite !(word_local f g _ lo hi H) by lia. fold (section_length f p).
  rewrite (range_local f g (p + 8) (section_length f p) lo hi H) by lia. apply IH; lia.
Qed.

(** The chip [g] holds the image that [f] has at [a]. *)
Definition holds_image (f g : Z → Z) (a : Z) : Prop := ∀ x, a ≤ x < a + image_size f a → f x = g x.

Lemma image_size_stop f a : (∀ x, is_byte (f x)) → image_start f a + 8 ≤ image_stop f a < a + image_size f a ∧ a ≤ image_start f a.
Proof.
  intros Hf. assert (H1 := image_stop_ge f Hf a). assert (H2 := image_start_ge f Hf a). unfold image_size. split; [|done]. zsolve.
Qed.

Lemma image_local f g a : (∀ x, is_byte (f x)) → holds_image f g a → headers_ok f a →
  image_start g a = image_start f a ∧ image_irom g a = image_irom f a ∧ image_count g a = image_count f a ∧ headers_ok g a.
Proof.
  intros Hf H Hh. destruct (image_size_stop f a Hf) as [H1 H2]. unfold holds_image in H.
  assert (Es : section_length f (a + 8) = section_length g (a + 8) ∨ f a ≠ ROM_MAGIC_NEW).
  { destruct (decide (f a = ROM_MAGIC_NEW)) as [E|]; [left|by right]. symmetry. assert (Hl := section_length_range f Hf (a + 8)).
    unfold image_start in H1. rewrite E in H1. change (ROM_MAGIC_NEW =? ROM_MAGIC_NEW) with true in H1. cbn match in H1. apply (word_local f g _ a _ H); lia. }
  assert (E0 : g a = f a) by (symmetry; apply H; lia). assert (E1 : g (a + 1) = f (a + 1)) by (symmetry; apply H; lia).
  assert (Est : image_start g a = image_start f a).
  { unfold image_start. rewrite E0. destruct (Z.eqb_spec (f a) ROM_MAGIC_NEW) as [E|]; [|done]. by destruct Es as [->|?]. }
  split; [done|]. split; [|split].
  - unfold image_irom. rewrite E0. destruct (Z.eqb_spec (f a) ROM_MAGIC_NEW) as [E|]; [|done]. destruct Es as [Es|?]; [|done]. rewrite <- Es.
    unfold image_start in H1. rewrite E in H1. change (ROM_MAGIC_NEW =? ROM_MAGIC_NEW) with true in H1. cbn match in H1. apply (range_local f g _ _ a _ H); lia.
  - unfold image_count. rewrite Est. by rewrite <- H by lia.
  - unfold headers_ok. rewrite Est, E0, E1, <- !(H (image_start f a)), <- (H (image_start f a + 1)) by lia. done.
Qed.

Lemma holds_image_valid f g a : 0 < a → (∀ x, is_byte (f x)) → holds_image f g a → image_valid f a →
  image_valid g a ∧ image_size g a = image_size f a.
Proof.
  intros Ha Hf H (V1 & V2 & V3 & V4). destruct (image_local f g a Hf H V1) as (L1 & L2 & L3 & L4).
  destruct (image_size_stop f a Hf) as [H1 H2]. unfold image_valid, image_fits, image_size, image_stop, image_data in *. rewrite L1, L2, L3.
  destruct (sections_local f g a _ H Hf (image_count f a) (image_start f a + 8) (a + 0x100000)) as (-> & -> & -> & _); [lia|unfold image_size, image_stop; lia|].
  split; [|done]. split; [done|]. split; [done|]. split; [|done]. rewrite <- V3. unfold checksum_at. rewrite lor_15 by lia. symmetry. apply H.
  unfold image_size, image_stop. zsolve.
Qed.

(** The first good rom in the order of the search, by its distance. *)
Lemma first_good_map run (g : Z → Z) n : ∀ k, 
  match first_good run (g <$> seqZ k (Z.of_nat n)) with
  | Some (i, r) => ∃ m, k ≤ m < k + Z.of_nat n ∧ i = g m ∧ r = run i ∧ r ≠ 0 ∧ ∀ j, k ≤ j < m → run (g j) = 0
  | None => ∀ j, k ≤ j < k + Z.of_nat n → run (g j) = 0
  end.
Proof.
  induction n as [|n IH]; intros k; [intros j Hj; lia|]. rewrite seqZ_cons by lia. replace (Z.pred (Z.of_nat (S n))) with (Z.of_nat n) by lia.
  cbn [fmap list_fmap first_good]. destruct (Z.eqb_spec (run (g k)) 0) as [E|E].
  - specialize (IH (k + 1)). change (Z.succ k) with (k + 1). destruct (first_good _ _) as [[i r]|].
    + destruct IH as (m & Hm & -> & -> & Hne & Hall). exists m. split_and!; [lia|lia|done|done|done|].
      intros j Hj. destruct (decide (j = k)) as [->|]; [done|]. apply Hall. lia.
    + intros j Hj. destruct (decide (j = k)) as [->|]; [done|]. apply IH. lia.
  - exists k. split_and!; [lia|lia|done|done|done|]. intros j Hj. lia.
Qed.

Lemma first_good_split run count cur i r : 0 ≤ cur < count → first_good run (others count cur) = Some (i, r) →
  ∃ k, 0 < k < count ∧ i = rom_before count cur k ∧ r = run i ∧ r ≠ 0 ∧ ∀ j, 0 < j < k → run (rom_before count cur j) = 0.
Proof.
  intros Hc E. assert (H := first_good_map run (rom_before count cur) (Z.to_nat (count - 1)) 1). rewrite Z2Nat.id in H by lia.
  unfold others in E. rewrite E in H. destruct H as (m & Hm & -> & -> & Hne & Hall). exists m. split_and!; [lia|lia|done|done|done|].
  intros j Hj. apply Hall. lia.
Qed.

Lemma first_good_none run count cur : 0 ≤ cur < count → run cur = 0 → first_good run (others count cur) = None → ∀ j, 0 ≤ j < count → run j = 0.
Proof.
  intros Hc Hz E j Hj. assert (H := first_good_map run (rom_before count cur) (Z.to_nat (count - 1)) 1). rewrite Z2Nat.id in H by lia.
  unfold others in E. rewrite E in H. destruct (decide (j = cur)) as [->|Hne]; [done|].
  assert (Ej : j = rom_before count cur (rom_before count cur j)).
  { unfold rom_before. rewrite Zminus_mod_idemp_r. replace (cur - (cur - j)) with j by lia. by rewrite Z.mod_small. }
  rewrite Ej. apply H. assert (Hr : 0 ≤ rom_before count cur j < count) by (apply Z.mod_pos_bound; lia).
  assert (rom_before count cur j ≠ 0); [|lia]. intros H0. rewrite H0 in Ej. unfold rom_before in Ej. rewrite Z.sub_0_r, Z.mod_small in Ej; lia.
Qed.

(** What the second stage makes of the image. *)
Lemma holds_image_ram f g a ram : (∀ x, is_byte (f x)) → holds_image f g a → headers_ok f a → let p := image_start f a in
  word g (p + 4) = word f (p + 4) ∧ sections_ram g (Z.to_nat (g (p + 1))) (p + 8) ram = sections_ram f (Z.to_nat (f (p + 1))) (p + 8) ram.
Proof.
  intros Hf H Hh p. destruct (image_size_stop f a Hf) as [H1 H2]. fold p in H1, H2. rewrite <- (H (p + 1)) by lia.
  split; [apply (word_local f g _ a _ H); lia|]. apply (sections_ram_local f g a _ H Hf); [lia|].
  change (sections_end f (Z.to_nat (f (p + 1))) (p + 8)) with (image_stop f a). lia.
Qed.


Section boot.
  Context {D : Type} {Dev : FlashDev D} {Spec : FlashSpec D} {Rd : FlashReadSpec D} {Hp : Heap}.
  Implicit Types b : board D.

Lemma image_end f a : image_valid f a → image_stop f a ≤ a + 0x100010.
Proof. intros (H1 & H2 & _). assert (H := image_stop_le f a H1 H2). zsolve. Qed.

(** The boot loader accepts a valid image. *)
Lemma check_image_valid a b : 0 < a → a + 0x100010 ≤ chip_size sdk_flashchip → image_valid (cells b) a →
  (check_image a b).1 = image_start (cells b) a.
Proof.
  change (chip_size sdk_flashchip) with 4194304. intros Ha Hs (V1 & V2 & V3 & V4). rewrite check_image_spec by done.
  by rewrite V3, (proj2 (calc_chksum_app _ _) V4), Z.eqb_refl.
Qed.

(** The words of the sector from offset 8 are the addresses of the configuration. *)
Lemma rom_addr_roms b r : 0 ≤ r < 4 → rom_addr (config_sector b) r = at_ (stored_config b).(roms) r.
Proof. intros Hr. unfold stored_config. generalize (config_sector b). intros buf. assert (r = 0 ∨ r = 1 ∨ r = 2 ∨ r = 3) as [-> | [-> | [-> | ->]]] by lia; reflexivity. Qed.

Lemma with_chksum_valid c : c.(magic) = BOOT_CONFIG_MAGIC → c.(version) = BOOT_CONFIG_VERSION → config_valid (with_chksum c) = true.
Proof.
  intros E1 E2. unfold config_valid. change (config_head (with_chksum c)) with (config_head c).
  cbn [magic version chksum with_chksum set_chksum]. by rewrite E1, E2, !Z.eqb_refl.
Qed.

Lemma config_valid_magic c : config_valid c = true → c.(magic) = BOOT_CONFIG_MAGIC ∧ c.(version) = BOOT_CONFIG_VERSION.
Proof. unfold config_valid. rewrite !andb_true_iff, !Z.eqb_eq. tauto. Qed.

Lemma set_current_wf r c : is_byte r → wf_config c → wf_config (set_current_rom r c).
Proof.
  intros Hr [H1 H2 H3]. split; [|done|done]. repeat match goal with H : Forall _ (_ :: _) |- _ => apply Forall_cons in H as [? H] end.
  repeat (apply Forall_cons_2; [done|]). apply Forall_nil_2.
Qed.

(** The configuration on a chip that agrees with another one on its sector. *)
Lemma stored_config_local b b' : (∀ x, 0x1000 ≤ x < 0x2000 → cells b' x = cells b x) → stored_config b' = stored_config b.
Proof. intros H. unfold stored_config, config_sector. f_equal. by apply (range_local (cells b) (cells b') 0x1000 0x1000 0x1000 0x2000 (λ x Hx, eq_sym (H x Hx))). Qed.

(** rboot_set_current_rom with memory for its buffer. *)
Lemma set_current_rom_spec r b : malloc_ok b.(bd_nalloc) SECTOR_SIZE = true → 0 ≤ r < (stored_config b).(count) →
  ∃ b', rboot_set_current_rom r b = (true, b') ∧ stored_config b' = with_chksum (set_current_rom r (stored_config b))
    ∧ (∀ x, ¬ (0x1000 ≤ x < 0x1000 + 28) → cells b' x = cells b x) ∧ b'.(bd_live) = b.(bd_live) ∧ b'.(bd_rtc) = b.(bd_rtc).
Proof.
  intros Hm Hr. assert (Hwf := stored_config_wf b). destruct (get_config_stored b) as (b1 & E1 & (R1 & R2 & R3) & C1).
  assert (Hc : is_byte (stored_config b).(count)).
  { destruct Hwf as [Hby _ _]. repeat match goal with H : Forall _ (_ :: _) |- _ => apply Forall_cons in H as [? H] end. done. }
  destruct (set_config_spec (set_current_rom r (stored_config b)) b1) as (b2 & E2 & S2 & C2 & L2 & T2);
    [apply set_current_wf; [unfold is_byte in *; lia|done]|by rewrite R2|].
  exists b2. unfold rboot_set_current_rom. erewrite ST_bind_eq by exact E1. rewrite (proj2 (Z.leb_gt _ _)) by lia.
  erewrite ST_bind_eq by exact E2. split; [reflexivity|]. split; [done|]. split; [intros x Hx; by rewrite C2 by done|]. by rewrite L2, T2, R3, R1.
Qed.

(** The image of the current rom, when it is good. *)
Lemma find_image_current fuel b c a p : stored_config b = c → at_ c.(roms) c.(current_rom) = a → config_valid c = true →
  c.(current_rom) < c.(count) → c.(current_rom) < 4 → temp_boot_rom (boot_rtc b) c.(count) = Some None → (Z.to_nat c.(count) ≤ fuel)%nat →
  p ≠ 0 → (check_image a b).1 = p → ∃ b', find_image fuel b = Some (p, b') ∧ ∀ x, cells b' x = cells b x.
Proof.
  intros Ec Ea Hv H1 H2 Ht Hf Ha Hi. subst c. destruct (find_image_spec fuel b Hv H1 Ht Hf) as (b' & H). set (c := stored_config b) in *.
  assert (Hc : 0 ≤ c.(current_rom)).
  { destruct (stored_config_wf b) as [Hby _ _]. fold c in Hby. repeat match goal with H : Forall _ (_ :: _) |- _ => apply Forall_cons in H as [? H] end. unfold is_byte in *. lia. }
  assert (E : run_addr b c.(current_rom) = p) by (unfold run_addr; rewrite rom_addr_roms by lia; fold c; by rewrite Ea). rewrite E in H.
  rewrite decide_False in H by done. by exists b'.
Qed.

(** The image of a rom that was made the current one. *)
Lemma find_image_selected fuel b c r a p : stored_config b = with_chksum (set_current_rom r c) → at_ c.(roms) r = a → config_valid c = true →
  r < c.(count) → r < 4 → temp_boot_rom (boot_rtc b) c.(count) = Some None → (Z.to_nat c.(count) ≤ fuel)%nat →
  p ≠ 0 → (check_image a b).1 = p → ∃ b', find_image fuel b = Some (p, b') ∧ ∀ x, cells b' x = cells b x.
Proof.
  intros Ec Ea Hv. destruct (config_valid_magic c Hv) as [M1 M2].
  exact (find_image_current fuel b _ a p Ec Ea (with_chksum_valid (set_current_rom r c) M1 M2)).
Qed.

(** ** Verifying, storing and booting *)


(** C26: a configuration that rboot_set_config stores is the one that
    rboot_get_config then reads, with its checksum set, so the boot loader accepts it;
    the rest of the sector, the rest of the chip and the heap are as before.  Without
    memory for the sector nothing changes and the result is false. *)
Theorem rboot_config_roundtrip c b :
  wf_config c → c.(magic) = BOOT_CONFIG_MAGIC → c.(version) = BOOT_CONFIG_VERSION →
  if malloc_ok b.(bd_nalloc) SECTOR_SIZE then
    ∃ b1 b2, rboot_set_config c b = ((true, with_chksum c), b1) ∧ rboot_get_config b1 = (with_chksum c, b2)
      ∧ config_valid (with_chksum c) = true ∧ (∀ x, ¬ (0x1000 ≤ x < 0x1000 + SIZEOF_CONFIG) → cells b2 x = cells b x) ∧ b2.(bd_live) = b.(bd_live)
  else
    ∃ b1, rboot_set_config c b = ((false, c), b1) ∧ (∀ x, cells b1 x = cells b x) ∧ b1.(bd_live) = b.(bd_live).
Proof.
  intros Hc E1 E2. destruct (malloc_ok b.(bd_nalloc) SECTOR_SIZE) eqn:Hm.
  - destruct (set_config_spec c b Hc Hm) as (b1 & Es & S1 & C1 & L1 & _). destruct (get_config_stored b1) as (b2 & Eg & (_ & _ & L2) & C2).
    exists b1, b2. rewrite Eg, S1. split; [done|]. split; [done|]. split; [by apply with_chksum_valid|].
    split; [intros x Hx; rewrite C2; by apply C1|]. by rewrite L2.
  - eexists. split; [unfold rboot_set_config, mbind, ST_bind, os_malloc; rewrite Hm; reflexivity|]. done.
Qed.

(** C24: with a valid configuration and no temporary rom, the search of
    the boot loader ends within one round per rom: it starts the current rom if that is
    good, otherwise the first good one of those before it, around the end of the table,
    which it then makes the current one on the chip; it gives up only when all are bad. *)
Theorem boot_finds_good_rom fuel b :
  let c := stored_config b in config_valid c = true → c.(current_rom) < c.(count) →
  temp_boot_rom (boot_rtc b) c.(count) = Some None → (Z.to_nat c.(count) ≤ fuel)%nat →
  ∃ i b', find_image fuel b = Some (if decide (0 ≤ i < c.(count)) then run_addr b i else 0, b') ∧
    if decide (0 ≤ i < c.(count)) then
      run_addr b i ≠ 0 ∧ (∃ k, i = (c.(current_rom) - k) `mod` c.(count) ∧ 0 ≤ k < c.(count)
                               ∧ ∀ j, 0 ≤ j < k → run_addr b ((c.(current_rom) - j) `mod` c.(count)) = 0)
      ∧ (stored_config b').(current_rom) = i ∧ ∀ x, ¬ (0x1000 ≤ x < 0x1000 + SIZEOF_CONFIG) → cells b' x = cells b x
    else (∀ j, 0 ≤ j < c.(count) → run_addr b j = 0) ∧ ∀ x, cells b' x = cells b x.
Proof.
  intros c Hv Hc Ht Hf. destruct (find_image_spec fuel b Hv Hc Ht Hf) as (b' & H). fold c in H.
  assert (Hcur : 0 ≤ c.(current_rom) < c.(count)).
  { destruct (stored_config_wf b) as [Hby _ _]. fold c in Hby. repeat match goal with H : Forall _ (_ :: _) |- _ => apply Forall_cons in H as [? H] end. unfold is_byte in *. lia. }
  destruct (decide (run_addr b c.(current_rom) = 0)) as [Hz|Hz].
  2: { destruct H as [E C]. exists c.(current_rom), b'. rewrite !decide_True by done. split; [done|]. split; [done|]. split; [|split; [|done]].
       - exists 0. rewrite Z.sub_0_r, Z.mod_small by done. split; [done|]. split; lia.
       - f_equal. apply stored_config_local. done. }
  destruct (first_good (run_addr b) (others c.(count) c.(current_rom))) as [[i r]|] eqn:Eg.
  - destruct H as (E & S1 & C). apply (first_good_split _ _ _ _ _ Hcur) in Eg as (k & Hk & -> & Hr & Hne & Hall).
    exists (rom_before c.(count) c.(current_rom) k), b'. assert (Hi : 0 ≤ rom_before c.(count) c.(current_rom) k < c.(count)) by (apply Z.mod_pos_bound; lia).
    rewrite !decide_True by done. split; [by rewrite E, Hr|]. split; [by rewrite <- Hr|]. split; [|split; [by rewrite S1|done]].
    exists k. split; [done|]. split; [lia|]. intros j Hj. destruct (decide (j = 0)) as [->|Hj0]; [by rewrite Z.sub_0_r, Z.mod_small|]. apply Hall. lia.
  - destruct H as [E C]. exists (-1), b'. rewrite !decide_False by lia. split; [done|]. split; [|done]. by apply (first_good_none _ _ _ Hcur Hz Eg).
Qed.

(** ** An update *)

Section update.
  Context (Hheap : ∀ k n, malloc_ok k n = true).

(** The chunks of an image and the place for it: a slot that begins with a sector, past
    the configuration. *)
Definition fits_slot (a : Z) (chunks : list (list Z)) : Prop :=
  0x2000 ≤ a < chip_size sdk_flashchip ∧ a `mod` SECTOR_SIZE = 0 ∧ Forall (λ c, Forall is_byte c ∧ zlength c ≤ 65532) chunks
  ∧ a + zlength (concat chunks) ≤ chip_size sdk_flashchip.

(** Writing the chunks: the whole words of the image are on the chip, and nothing but
    the sectors they need has changed. *)
Lemma write_to_slot a chunks b : fits_slot a chunks → let img := concat chunks in
  ∃ st b', write_chunks (rboot_write_init a) chunks b = ((true, st), b')
    ∧ (∀ x, a ≤ x < a + whole (zlength img) → cells b' x = at_ img (x - a))
    ∧ (∀ x, x < a ∨ a + zlength img + SECTOR_SIZE ≤ x → cells b' x = cells b x)
    ∧ b'.(bd_live) = b.(bd_live) ∧ b'.(bd_rtc) = b.(bd_rtc).
Proof.
  intros (Ha & Hm & Hc & Hs) img.
  assert (Hn : 0 ≤ zlength img) by lia. destruct (whole_spec (zlength img) Hn) as (N1 & _ & _).
  destruct (write_chunks_spec Hheap chunks a [] b (rboot_write_init a) b) as (st & b' & E & W);
    [apply written_init; change (chip_size sdk_flashchip) with 4194304 in *; lia|lia|unfold SECTOR_SIZE in Hm; zsolve|done|done|by rewrite Z.add_0_r|].
  exists st, b'. split; [done|]. split; [apply (w_data _ _ _ _ _ W)|]. split; [|apply (w_live _ _ _ _ _ W)].
  intros x Hx. apply (w_rest _ _ _ _ _ W). destruct (w_erased _ _ _ _ _ W) as (_ & _ & R). cbn [app] in R. fold img in R.
  unfold SECTOR_SIZE in *. zsolve.
Qed.

(** C5: an image that both checks accept (one header, or two with an
    irom section whose bytes have the exclusive or 0) and that arrives in chunks of any
    length is the one that boots next: the slot's address is read, every chunk is written,
    rboot_verify_image then accepts the image with its length, rboot_set_current_rom
    selects it, and the boot loader starts it from its header (the second one, if there
    are two), without changing the configuration again: its second stage copies the
    sections of the image to their addresses and returns its entry point.  No block of the
    heap is lost. *)
Theorem ota_update_boots chunks r fuel ram b :
  let c := stored_config b in let a := at_ c.(roms) r in let img := concat chunks in let f x := at_ img (x - a) in
  config_valid c = true → 0 ≤ r < c.(count) → r < 4 → temp_boot_rom (boot_rtc b) c.(count) = Some None → (Z.to_nat c.(count) ≤ fuel)%nat →
  fits_slot a chunks → a + 0x100010 ≤ chip_size sdk_flashchip →
  image_valid f a → zlength img = image_size f a → let p := image_start f a in
  ∃ b0 st b1 b2 b3 b4 b5,
    rboot_get_slot_offset r b = (a, b0)
    ∧ write_chunks (rboot_write_init a) chunks b0 = ((true, st), b1)
    ∧ rboot_verify_image a b1 = ((None, zlength img), b2)
    ∧ rboot_set_current_rom r b2 = (true, b3)
    ∧ find_image fuel b3 = Some (p, b4)
    ∧ load_rom p ram b4 = ((word f (p + 4), sections_ram f (Z.to_nat (f (p + 1))) (p + 8) ram), b5)
    ∧ stored_config b4 = with_chksum (set_current_rom r c) ∧ b3.(bd_live) = b.(bd_live).
Proof.
  intros c a img f Hv Hr Hr4 Ht Hfuel Hslot Hchip Hval Hlen p. assert (Hslot' := Hslot). destruct Hslot as (Ha & Hm & Hc & Hs).
  assert (Hbytes : Forall is_byte img) by (apply Forall_concat; eapply Forall_impl; [exact Hc|by intros ? [? _]]).
  assert (Hf : ∀ x, is_byte (f x)) by (intros x; by apply at_byte).
  assert (Ef : ∀ x, f x = at_ img (x - a)) by done. clearbody f. change (chip_size sdk_flashchip) with 4194304 in Hchip.
  assert (Ea : at_ c.(roms) r = a) by done. clearbody a. assert (Ec : stored_config b = c) by done. clearbody c.
  assert (Hm16 : a `mod` 16 = 0) by (unfold SECTOR_SIZE in Hm; zsolve). assert (Hm4 : a `mod` 4 = 0) by zsolve.
  assert (Hwhole : whole (zlength img) = zlength img) by (rewrite Hlen; unfold whole, image_size; zsolve).
  destruct (get_config_stored b) as (b0 & E0 & (R1 & R2 & R3) & C0).
  destruct (write_to_slot a chunks b0) as (st & b1 & E1 & W1 & W2 & W3 & W4); [exact Hslot'|]. fold img in W1, W2. clearbody img. rewrite Hwhole in W1.
  assert (Hh : holds_image f (cells b1) a) by (unfold holds_image; intros x Hx; by rewrite W1, Ef by lia).
  destruct (holds_image_valid f (cells b1) a) as ((V1 & V2 & V3 & _) & V4); [lia|done..|].
  destruct (verify_image_spec a b1) as (err & len & b2 & E2 & U2 & Verr & L2); [lia|done|exact Hchip|exact V1| |].
  { apply (sections_fit_sane _ _ _ (a + 0x100000)); [lia|exact V2]. }
  assert (Herr : err = None) by (by apply Verr). rewrite (L2 Herr), V4, <- Hlen in E2. rewrite Herr in E2. clear L2 Verr Herr.
  assert (C2 : ∀ x, x < a → cells b2 x = cells b x) by (intros x Hx; rewrite (proj2 U2), W2, C0 by lia; done).
  assert (Es2 : stored_config b2 = c) by (rewrite <- Ec; apply stored_config_local; intros x Hx; apply C2; lia).
  destruct (set_current_rom_spec r b2) as (b3 & E3 & S3 & C3 & L3 & T3); [apply Hheap|by rewrite Es2|]. rewrite Es2 in S3.
  destruct (proj1 U2) as (Q1 & _ & Q3).
  assert (Hh3 : holds_image f (cells b3) a) by (intros x Hx; rewrite C3 by lia; rewrite (proj2 U2); by apply Hh).
  destruct (holds_image_valid f (cells b3) a) as (X1 & _); [lia|done..|].
  destruct (image_local f (cells b3) a Hf Hh3 (proj1 Hval)) as (P3 & _). assert (Hpa := image_start_ge f Hf a). fold p in P3, Hpa.
  assert (Er : boot_rtc b3 = boot_rtc b) by (unfold boot_rtc; by rewrite T3, Q1, W4, R1).
  destruct (find_image_selected fuel b3 c r a p S3 Ea Hv) as (b4 & E4 & C4);
    [apply Hr|exact Hr4|by rewrite Er|exact Hfuel|lia|rewrite <- P3; apply check_image_valid; [lia|exact Hchip|exact X1]|].
  assert (Hh4 : holds_image f (cells b4) a) by (intros x Hx; rewrite C4; by apply Hh3).
  destruct (holds_image_ram f (cells b4) a ram Hf Hh4 (proj1 Hval)) as [Y1 Y2]. destruct (holds_image_valid f (cells b4) a) as (Z1 & _); [lia|done..|].
  destruct (image_local f (cells b4) a Hf Hh4 (proj1 Hval)) as (P4 & _). fold p in P4, Y1, Y2.
  assert (He := image_end _ _ Z1). unfold image_stop, image_count in He. rewrite P4 in He. destruct (load_rom_spec p ram b4) as (b5 & E5 & _); [lia|lia|].
  rewrite Y1, Y2 in E5. { exists b0, st, b1, b2, b3, b4, b5. split_and!; [|done..| |].
    - unfold rboot_get_slot_offset. erewrite ST_bind_eq by exact E0. by rewrite Ec, (proj2 (Z.leb_gt _ _)), Ea by lia.
    - rewrite <- S3. by apply stored_config_local.
    - by rewrite L3, Q3, W3, R3. }
Qed.

End update.

(** ** Departures *)

(** rboot_set_temp_rom succeeds, but the boot loader does not see it: the address is
    ignored by sdk_system_rtc_mem_write, so the data go to the first words of the RTC
    memory instead of the word 64 where the boot loader looks. *)
Theorem temp_rom_is_lost r b : length b.(bd_rtc) = 768%nat →
  ∃ b', rboot_set_temp_rom r b = (true, b') ∧ boot_rtc b' = boot_rtc b ∧ sub_list b'.(bd_rtc) 7 1 = [r].
Proof.
  intros Hl. unfold rboot_set_temp_rom, rboot_get_rtc_data.
  erewrite (ST_bind_eq _ _ b) by (erewrite ST_bind_eq by (cbv [sdk_system_rtc_mem_read]; cbn; reflexivity); cbv zeta; reflexivity).
  set (ok := _ =? _). set (rtc := parse_rtc _). unfold rboot_set_rtc_data, sdk_system_rtc_mem_write. cbn -[take drop rtc_bytes set_rtc_chksum rtc].
  eexists. split; [reflexivity|]. cbn [bd_rtc set_rtc]. unfold boot_rtc. cbn [bd_rtc set_rtc].
  assert (Hs : ∀ l, length l = 12%nat → sub_list (l ++ drop 12 b.(bd_rtc)) 256 12 = sub_list b.(bd_rtc) 256 12).
  { intros l E. unfold sub_list. rewrite drop_app_ge, drop_drop by (rewrite E; lia). by rewrite E. }
  rewrite Hs by (destruct ok; done). split; [done|]. by destruct ok.
Qed.

(** A valid configuration without roms whose first address is bad makes the boot
    loader read roms[-1] for ever. *)
Lemma previous_roms_zero fuel buffer : (parse_config buffer).(count) = 0 → (parse_config buffer).(current_rom) = 0 → rom_addr buffer (-1) = 0 →
  ∀ r b, r = 0 ∨ r = -1 → previous_roms fuel buffer r b = None.
Proof.
  intros H1 H2 H3. induction fuel as [|fuel IH]; intros r b Hr; [done|]. cbn [previous_roms]. rewrite H1, H2.
  assert (E : (if r - 1 <? 0 then 0 - 1 else r - 1) = -1) by (destruct (Z.ltb_spec (r - 1) 0); lia). rewrite E. change (-1 =? 0) with false. cbn match.
  rewrite H3. change (check_image 0 b) with (0, b). cbn match. change (0 =? 0) with true. cbn match. apply IH. by right.
Qed.

Lemma zero_count_loops fuel buf rtc c b b1 : boot_inputs b = ((buf, rtc), b1) → Forall is_byte buf → (28 ≤ length buf)%nat → parse_config buf = c →
  c.(count) = 0 → c.(gpio_rom) = 0 → c.(last_main_rom) = 0 → temp_boot_rom rtc 0 = Some None → (check_image (rom_addr buf 0) b1).1 = 0 →
  find_image fuel b = None.
Proof.
  intros E1 Hb Hl Ec H1 H2 H3 Ht Er. unfold find_image. rewrite E1, Ec, H1, Ht.
  assert (Hc : 0 ≤ c.(current_rom)) by (rewrite <- Ec; apply (at_byte buf 3 Hb)). rewrite bool_decide_false by (by intros [? ?]).
  rewrite (proj2 (Z.leb_le _ _) Hc). cbn match. rewrite !rom_addr_insert by lia.
  destruct (check_image (rom_addr buf 0) b1) as [a b2]. cbn in Er. subst a. change (negb (0 =? 0)) with false. cbn match.
  rewrite previous_roms_zero; [done| | | |by left]; clear -Ec H1 H2 H3 Hl; subst c; do 28 (destruct buf as [|? buf]; [cbn in Hl; lia|]); [exact H1|done|].
  vm_compute in H1, H2, H3. subst. reflexivity.
Qed.

Theorem zero_count_never_boots b : let c := stored_config b in config_valid c = true →
  c.(count) = 0 → c.(gpio_rom) = 0 → c.(last_main_rom) = 0 → temp_boot_rom (boot_rtc b) 0 = Some None → (check_image (at_ c.(roms) 0) b).1 = 0 →
  ∀ fuel, find_image fuel b = None.
Proof.
  intros c Hv H1 H2 H3 Ht Hr fuel. destruct (boot_inputs_spec b Hv) as (b1 & E1 & U1).
  apply (zero_count_loops fuel _ _ c _ _ E1); [apply config_sector_bytes|rewrite config_sector_length; lia|reflexivity|exact H1|exact H2|exact H3|exact Ht|].
  subst c. rewrite rom_addr_roms by lia. by rewrite <- (reads_same (m := check_image (at_ (stored_config b).(roms) 0)) b b1 (λ x, eq_sym (proj2 U1 x))).
Qed.
End boot.

(** ** Witnesses *)

#[local] Program Instance zero_ram : Memory := {| beyond := λ _ _, 0 |}.
Next Obligation. intros. unfold is_byte. lia. Qed.
#[local] Instance large_heap : Heap := {| malloc_ok := λ _ _, true |}.

(** A configuration with two roms, 1 MB apart. *)
Definition two_roms : rboot_config := with_chksum {|
  magic := BOOT_CONFIG_MAGIC; version := BOOT_CONFIG_VERSION; mode := 0; current_rom := 0; gpio_rom := 0; count := 2;
  last_main_rom := 0; last_setup_rom := 0; roms := [0x2000; 0x102000; 0; 0]; chksum := 0; cpadding := [0; 0; 0] |}.

Lemma two_roms_wf : wf_config two_roms.
Proof.
  apply with_chksum_wf. split; cbn [magic version mode current_rom gpio_rom count last_main_rom last_setup_rom chksum roms cpadding].
  - by repeat (apply Forall_cons_2; [done|]); apply Forall_nil_2.
  - eexists _, _, _, _. split; [reflexivity|]. repeat (apply Forall_cons_2; [done|]). apply Forall_nil_2.
  - eexists _, _, _. split; [reflexivity|]. repeat (apply Forall_cons_2; [done|]). apply Forall_nil_2.
Qed.

(** An image of one section of four bytes, and one whose checksum is wrong. *)
Definition small_image (sum : Z) : list Z :=
  [0xe9; 1; 0; 0; 0; 0; 0x10; 0x40] ++ [0; 0; 0x10; 0x40; 4; 0; 0; 0] ++ [1; 2; 4; 8] ++ replicate 11 0 ++ [sum].

(** A device with the image in the first rom. *)
Definition boot_device (image : list Z) : board (spi_state (gmap Z Z)) :=
  Build_board (Build_spi_state (rom_program (rom_program ∅ 0x1000 (config_bytes two_roms)) 0x2000 image) 0 true) (replicate 768 0) 0 0.

Definition good_sum : Z := Z.lxor CHKSUM_INIT 0x0f.

(** The same image behind an irom section of 16 bytes whose exclusive or is 0. *)
Definition twin_image : list Z :=
  [0xea; 4; 0; 0; 0; 0; 0x10; 0x40] ++ [0; 0; 0; 0; 16; 0; 0; 0] ++ [7; 7] ++ replicate 14 0 ++ small_image good_sum.

(** Whether a concrete image is valid, by computation. *)
Ltac image_check := vm_compute; split_and!; try reflexivity; try discriminate; try exact I; first [left; split_and!; (reflexivity || discriminate) | right; split_and!; (reflexivity || discriminate)].




Lemma update_valid : image_valid (λ x, at_ twin_image (x - 0x102000)) 0x102000.
Proof. image_check. Qed.

(** An image with an irom section of 16 bytes whose checksum covers that section, as the
    boot loader computes it. *)
Definition irom_image : list Z :=
  [0xea; 4; 0; 0; 0; 0; 0x10; 0x40] ++ [0; 0; 0; 0; 16; 0; 0; 0] ++ [1] ++ replicate 15 0 ++ small_image (Z.lxor good_sum 1).

(** rboot_verify_image leaves the irom section out of the checksum: it refuses an image
    that the boot loader starts. *)
Theorem irom_checksum_differs : (check_image 0x2000 (boot_device irom_image)).1 = 0x2020
  ∧ (rboot_verify_image 0x2000 (boot_device irom_image)).1 = (Some Invalid_checksum, zlength irom_image).
Proof. split; vm_compute; reflexivity. Qed.

Lemma boot_device_config img : img = small_image good_sum → stored_config (boot_device img) = two_roms.
Proof. intros ->. vm_compute. reflexivity. Qed.

(** The image with two headers in three chunks. *)
Definition three_chunks : list (list Z) := [take 3 twin_image; take 11 (drop 3 twin_image); drop 14 twin_image].

Lemma three_chunks_fit : fits_slot 0x102000 three_chunks.
Proof.
  split; [split; vm_compute; done|]. split; [done|]. split; [|vm_compute; done].
  unfold three_chunks. repeat (apply Forall_cons_2; [split; [vm_compute; repeat constructor; done|vm_compute; done]|]). apply Forall_nil_2.
Qed.


Lemma rboot_config_roundtrip_witness :
  ∃ b1 b2, rboot_set_config (set_current_rom 1 two_roms) (boot_device []) = ((true, with_chksum (set_current_rom 1 two_roms)), b1)
    ∧ rboot_get_config b1 = (with_chksum (set_current_rom 1 two_roms), b2)
    ∧ config_valid (with_chksum (set_current_rom 1 two_roms)) = true
    ∧ (∀ x, ¬ (0x1000 ≤ x < 0x1000 + SIZEOF_CONFIG) → cells b2 x = cells (boot_device []) x) ∧ b2.(bd_live) = (boot_device []).(bd_live).
Proof.
  assert (Hw : wf_config (set_current_rom 1 two_roms)) by (apply set_current_wf; [done|apply two_roms_wf]).
  assert (H := rboot_config_roundtrip (set_current_rom 1 two_roms) (boot_device []) Hw eq_refl eq_refl).
  change (malloc_ok (boot_device []).(bd_nalloc) SECTOR_SIZE) with true in H. exact H.
Defined.

Lemma boot_device_good : stored_config (boot_device (small_image good_sum)) = two_roms.
Proof. by apply boot_device_config. Qed.

Lemma boot_finds_good_rom_witness : let b := boot_device (small_image good_sum) in let c := stored_config b in
  ∃ i b', find_image 2 b = Some (if decide (0 ≤ i < c.(count)) then run_addr b i else 0, b') ∧
    if decide (0 ≤ i < c.(count)) then
      run_addr b i ≠ 0 ∧ (∃ k, i = (c.(current_rom) - k) `mod` c.(count) ∧ 0 ≤ k < c.(count)
                               ∧ ∀ j, 0 ≤ j < k → run_addr b ((c.(current_rom) - j) `mod` c.(count)) = 0)
      ∧ (stored_config b').(current_rom) = i ∧ ∀ x, ¬ (0x1000 ≤ x < 0x1000 + SIZEOF_CONFIG) → cells b' x = cells b x
    else (∀ j, 0 ≤ j < c.(count) → run_addr b j = 0) ∧ ∀ x, cells b' x = cells b x.
Proof.
  refine (boot_finds_good_rom 2 (boot_device (small_image good_sum)) _ _ _ _); rewrite boot_device_good; [done|done| |done]. vm_compute. reflexivity.
Defined.

Lemma large_heap_ok : ∀ k n, malloc_ok k n = true.
Proof. done. Qed.

Lemma ota_update_boots_witness : let b := boot_device (small_image good_sum) in
  ∃ b0 st b1 b2 b3 b4 b5,
    rboot_get_slot_offset 1 b = (0x102000, b0)
    ∧ write_chunks (rboot_write_init 0x102000) three_chunks b0 = ((true, st), b1)
    ∧ rboot_verify_image 0x102000 b1 = ((None, zlength (concat three_chunks)), b2)
    ∧ rboot_set_current_rom 1 b2 = (true, b3)
    ∧ find_image 2 b3 = Some (0x102020, b4)
    ∧ load_rom 0x102020 ∅ b4 = ((0x40100000, ram_copy 0x40100000 [1; 2; 4; 8] ∅), b5)
    ∧ stored_config b4 = with_chksum (set_current_rom 1 two_roms) ∧ b3.(bd_live) = b.(bd_live).
Proof.
  assert (H := ota_update_boots large_heap_ok three_chunks 1 2 ∅ (boot_device (small_image good_sum))). cbv zeta in H |- *.
  rewrite boot_device_good in H. change (at_ two_roms.(roms) 1) with 0x102000 in H.
  apply H; [done|done|done|vm_compute; reflexivity|done|apply three_chunks_fit|done|exact update_valid|vm_compute; reflexivity].
Defined.

