(* ===== verification/Tftp.v ===== *)
(** Tftp: updates over TFTP, extras/rboot-ota/ota-tftp.c.

    What lwIP answers is in the state: [w_events] are the results that netconn_recv will
    give, in order; the other results are the class [Lwip].  A call that waits when no
    event is left is [Blocked]; a read or write outside of an object, or through a null
    pointer, is [Overrun]; sdk_system_restart is [Restarted]. *)

From stdpp Require Import strings.
From S2P Require Import Prelude CString Flash Rboot.

(** ** Constants *)

Definition TFTP_OP_RRQ : Z := 1.
Definition TFTP_OP_WRQ : Z := 2.
Definition TFTP_OP_DATA : Z := 3.
Definition TFTP_OP_ACK : Z := 4.
Definition TFTP_OP_ERROR : Z := 5.
Definition TFTP_ERR_FILENOTFOUND : Z := 1.
Definition TFTP_ERR_FULL : Z := 3.
Definition TFTP_ERR_ILLEGAL : Z := 4.
Definition MAX_IMAGE_SIZE : Z := 0x100000.
Definition TFTP_TIMEOUT_RETRANSMITS : Z := 10.
Definition DATA_PACKET_SZ : Z := 512 + 4.
Definition MAX_ROMS : Z := 4.

Definition ERR_OK : Z := 0.
Definition ERR_TIMEOUT : Z := -3.
Definition ERR_VAL : Z := -6.
Definition ERR_USE : Z := -8.
Definition ERR_IF : Z := -15.

(** The characters of a literal. *)
Fixpoint chars_of (s : string) : list Z :=
  match s with EmptyString => [] | String a s => Z.of_nat (Ascii.nat_of_ascii a) :: chars_of s end.

Definition TFTP_FIRMWARE_FILE : list Z := chars_of "firmware.bin".
Definition TFTP_OCTET_MODE : list Z := chars_of "octet".

(** htons of a word, as its bytes *)
Definition htons (x : Z) : list Z := [u16 x / 256; u16 x `mod` 256].

(** ** Packets *)

(** A pbuf: the address of its data and the data. *)
Record segment := { payload : Z; bytes : list Z }.

(** A packet has at least one segment. *)
Record netbuf := { segments : list segment; from_addr : Z; from_port : Z }.

Definition netbuf_bytes (nb : netbuf) : list Z := concat (bytes <$> nb.(segments)).
Definition netbuf_len (nb : netbuf) : Z := u16 (zlength (netbuf_bytes nb)).

Fixpoint pbuf_copy_partial (segs : list segment) (len offset : Z) : list Z :=
  match segs with
  | [] => []
  | p :: segs =>
      if len =? 0 then []
      else if negb (offset =? 0) && (zlength p.(bytes) <=? offset) then pbuf_copy_partial segs len (offset - zlength p.(bytes))
      else
        let buf_copy_len := zlength p.(bytes) - offset in
        let buf_copy_len := if len <? buf_copy_len then len else buf_copy_len in
        sub_list p.(bytes) offset buf_copy_len ++ pbuf_copy_partial segs (len - buf_copy_len) 0
  end.

(** ** The network *)

Class Lwip := {
  netconn_new_ok : bool;
  netconn_bind_err : Z → Z;                      (** by port *)
  netconn_gethostbyname_res : list Z → Z * Z;    (** error and address *)
  netconn_send_err : nat → Z;                    (** by the number of the call *)
  stack_junk : Z → Z;                            (** an uninitialised local variable *)
}.

Record tftp_world (D : Type) := {
  w_board : board D;
  w_events : list (Z * option netbuf);
  w_nsend : nat;
  w_sent : list (list Z);       (** the datagrams that were sent *)
  w_netbufs : Z;                (** netbufs that were received and not deleted *)
  w_peer : option (Z * Z);      (** what the netconn is connected to *)
  w_timeout : Z;                (** its receive timeout *)
  w_progress : list Z;          (** the arguments of the calls of receive_cb *)
}.
Arguments w_board {_} _.
Arguments w_events {_} _.
Arguments w_nsend {_} _.
Arguments w_sent {_} _.
Arguments w_netbufs {_} _.
Arguments w_peer {_} _.
Arguments w_timeout {_} _.
Arguments w_progress {_} _.
Arguments Build_tftp_world {_} _ _ _ _ _ _ _ _.

Inductive outcome (A : Type) := Done (a : A) | Blocked | Overrun | Restarted.
Arguments Done {_} _.
Arguments Blocked {_}.
Arguments Overrun {_}.
Arguments Restarted {_}.

Definition TM (D A : Type) : Type := tftp_world D → outcome A * tftp_world D.

#[export] Instance TM_ret D : MRet (TM D) := λ A a w, (Done a, w).
#[export] Instance TM_bind D : MBind (TM D) := λ A B f m w,
  match m w with
  | (Done a, w) => f a w
  | (Blocked, w) => (Blocked, w)
  | (Overrun, w) => (Overrun, w)
  | (Restarted, w) => (Restarted, w)
  end.

Section tftp.
  Context {D : Type} {Dev : FlashDev D} {Hp : Heap} {Net : Lwip}.

Definition stop {A} (o : outcome A) : TM D A := λ w, (o, w).

Definition on_board {A} (m : ST (board D) A) : TM D A := λ w,
  let '(a, b) := m w.(w_board) in
  (Done a, Build_tftp_world b w.(w_events) w.(w_nsend) w.(w_sent) w.(w_netbufs) w.(w_peer) w.(w_timeout) w.(w_progress)).

Definition netconn_recv : TM D (Z * option netbuf) := λ w,
  match w.(w_events) with
  | [] => (Blocked, w)
  | (err, nb) :: evs =>
      (Done (err, nb), Build_tftp_world w.(w_board) evs w.(w_nsend) w.(w_sent) (if nb then w.(w_netbufs) + 1 else w.(w_netbufs)) w.(w_peer) w.(w_timeout) w.(w_progress))
  end.
Definition netbuf_delete : TM D unit := λ w,
  (Done tt, Build_tftp_world w.(w_board) w.(w_events) w.(w_nsend) w.(w_sent) (w.(w_netbufs) - 1) w.(w_peer) w.(w_timeout) w.(w_progress)).
Definition set_peer (p : option (Z * Z)) : TM D unit := λ w,
  (Done tt, Build_tftp_world w.(w_board) w.(w_events) w.(w_nsend) w.(w_sent) w.(w_netbufs) p w.(w_timeout) w.(w_progress)).
Definition netconn_connect (addr port : Z) : TM D unit := set_peer (Some (addr, port)).
Definition netconn_disconnect : TM D unit := set_peer None.
Definition netconn_set_recvtimeout (t : Z) : TM D unit := λ w,
  (Done tt, Build_tftp_world w.(w_board) w.(w_events) w.(w_nsend) w.(w_sent) w.(w_netbufs) w.(w_peer) t w.(w_progress)).
Definition netconn_send (data : list Z) : TM D Z := λ w,
  (Done (netconn_send_err w.(w_nsend)),
   Build_tftp_world w.(w_board) w.(w_events) (S w.(w_nsend)) (w.(w_sent) ++ [data]) w.(w_netbufs) w.(w_peer) w.(w_timeout) w.(w_progress)).
Definition receive_cb (n : Z) : TM D unit := λ w,
  (Done tt, Build_tftp_world w.(w_board) w.(w_events) w.(w_nsend) w.(w_sent) w.(w_netbufs) w.(w_peer) w.(w_timeout) (w.(w_progress) ++ [n])).

(** What netbuf_copy_partial does not fill is not initialised. *)
Definition netbuf_read (nb : netbuf) (n offs : Z) : list Z :=
  let copied := pbuf_copy_partial nb.(segments) n (u16 offs) in
  copied ++ (stack_junk <$> seqZ (zlength copied) (n - zlength copied)).
Definition netbuf_read_u16_n (nb : netbuf) (offs : Z) : Z :=
  let raw := netbuf_read nb 2 offs in 256 * at_ raw 0 + at_ raw 1.
Definition netbuf_read_u8 (nb : netbuf) (offs : Z) : Z := at_ (netbuf_read nb 1 offs) 0.

(** ** Sending *)

(** netbuf_new, netbuf_alloc of the packet's size, filling it, netconn_send and netbuf_delete.
    The results of the two allocations are not checked. *)
Definition tftp_send (data : list Z) : TM D Z :=
  new ← on_board (os_malloc 0);
  alloc ← on_board (os_malloc (zlength data));
  if negb (new && alloc) then stop Overrun
  else
    err ← netconn_send data;
    _ ← on_board os_free;
    _ ← on_board os_free;
    mret err.

Definition tftp_send_ack (block : Z) : TM D Z := tftp_send (htons TFTP_OP_ACK ++ htons block).
Definition tftp_send_error (err_code : Z) (err_msg : list Z) : TM D unit :=
  _ ← tftp_send (htons TFTP_OP_ERROR ++ htons err_code ++ err_msg ++ [0]);
  mret tt.
Definition tftp_send_rrq (filename : list Z) : TM D Z :=
  tftp_send (htons TFTP_OP_RRQ ++ filename ++ [0] ++ TFTP_OCTET_MODE ++ [0]).

(** ** Fields of a request *)

Fixpoint field_loop (fuel : nat) (nb : netbuf) (field offs field_offs field_len : Z) : Z * Z * Z :=
  match fuel with
  | O => (field, field_offs, field_len)
  | S fuel =>
      if (0 <=? field) && (offs <? netbuf_len nb) then
        let c := netbuf_read_u8 nb offs in
        let offs := offs + 1 in
        let field_len := if field =? 0 then field_len + 1 else field_len in
        if c =? 0 then
          let field := field - 1 in
          field_loop fuel nb field offs (if field =? 0 then offs else field_offs) field_len
        else field_loop fuel nb field offs field_offs field_len
      else (field, field_offs, field_len)
  end.

(** The malloced string, or NULL. *)
Definition tftp_get_field (field : Z) (nb : netbuf) : TM D (option (list Z)) :=
  let '(field, field_offs, field_len) := field_loop (Z.to_nat (netbuf_len nb)) nb field 2 2 0 in
  if negb (field =? -1) then mret None
  else
    ok ← on_board (os_malloc field_len);
    if ok : bool then mret (Some (netbuf_read nb field_len field_offs)) else mret None.

Definition free_field (s : option (list Z)) : TM D unit :=
  match s with Some _ => on_board os_free | None => mret tt end.

(** Is the field the expected string? *)
Definition field_is (s : option (list Z)) (expected : list Z) : bool :=
  match s with Some s => streq (cstring s) expected | None => false end.

(** ** Receiving the data *)

(** The loop over the segments of a packet: [offset] at its end.  The header of four bytes
    is skipped in the first.  Data at an unaligned address are written in two parts, the
    first word from the stack and the rest when it was moved to an aligned address. *)
Fixpoint write_segments (first_chunk : bool) (segs : list segment) (write_offs offset : Z) : TM D Z :=
  match segs with
  | [] => mret offset
  | s :: segs =>
      if first_chunk && (zlength s.(bytes) <? 4) then stop Overrun
      else
        let chunk := if first_chunk then s.(payload) + 4 else s.(payload) in
        let data := if first_chunk then drop 4 s.(bytes) else s.(bytes) in
        let chunk_len := zlength data in
        if negb (chunk_len =? 0) && negb (chunk `mod` 4 =? 0) then
          if chunk_len <? 4 then stop Overrun
          else
            _ ← on_board (flash_write (u32 (write_offs + offset)) (take 4 data) 4);
            _ ← on_board (flash_write (u32 (write_offs + (offset + 4))) (drop 4 data) (chunk_len - 4));
            write_segments false segs write_offs (offset + 4 + (chunk_len - 4))
        else
          _ ← on_board (flash_write (u32 (write_offs + offset)) data chunk_len);
          write_segments false segs write_offs (offset + chunk_len)
  end.

Definition verify_message (e : verify_error) : list Z := chars_of
  match e with
  | Unaligned_flash_offset => "Unaligned flash offset"
  | Flash_fail => "Flash fail"
  | Missing_initial_magic => "Missing initial magic"
  | Header_length_not_modulo_4 => "Header length not modulo 4"
  | Bad_second_magic => "Bad second magic"
  | Image_truncated => "Image truncated"
  | Invalid_checksum => "Invalid checksum"
  end.

(** The check of the image when its last block has come: the message if it is bad. *)
Definition verify_received (start_offs received_len : Z) : TM D (option (list Z)) :=
  '(err, image_length) ← on_board (rboot_verify_image start_offs);
  match err with
  | Some e => mret (Some (verify_message e))
  | None => if negb (image_length =? received_len) then mret (Some (chars_of "Unknown validation error")) else mret None
  end.

(** Waiting for a packet: the error, the packet and what is left of [peer_addr].  A client
    does not know the port of the server before its first packet. *)
Definition receive_packet (peer : option (Z * Z)) : TM D (Z * option netbuf * option (Z * Z)) :=
  _ ← (if peer then netconn_disconnect else mret tt);
  '(err, nb) ← netconn_recv;
  match peer, nb with
  | Some _, Some p => _ ← netconn_connect p.(from_addr) p.(from_port); mret (err, nb, None)
  | Some (addr, port), None => _ ← netconn_connect addr port; mret (err, nb, peer)
  | None, _ => mret (err, nb, None)
  end.

(** What is done with the expected block up to its acknowledgement: the error to return,
    if any, and [*received_len]. *)
Definition store_block (start_offs limit_offs write_offs received_len : Z) (nb : netbuf) : TM D (option Z * Z) :=
  _ ← (if write_offs `mod` SECTOR_SIZE =? 0 then _ ← on_board (flash_erase (write_offs / SECTOR_SIZE)); mret tt else mret tt);
  let len := netbuf_len nb in
  if limit_offs <=? u32 (write_offs + len) then
    _ ← tftp_send_error TFTP_ERR_FULL (chars_of "Image too large");
    mret (Some ERR_VAL, received_len)
  else
    _ ← write_segments true nb.(segments) write_offs 0;
    _ ← netbuf_delete;
    let received_len := u32 (received_len + (len - 4)) in
    bad ← (if len <? DATA_PACKET_SZ then verify_received start_offs received_len else mret None);
    match bad with
    | Some msg => _ ← tftp_send_error TFTP_ERR_ILLEGAL msg; mret (Some ERR_VAL, received_len)
    | None => mret (None, received_len)
    end.

(** The loop: the result and [*received_len].  Each round takes one event. *)
Fixpoint receive_loop (fuel : nat) (start_offs limit_offs : Z) (has_cb : bool)
    (write_offs received_len block retries : Z) (peer : option (Z * Z)) : TM D (Z * Z) :=
  match fuel with
  | O => stop Blocked
  | S fuel =>
      '(err, nb, peer) ← receive_packet peer;
      if err =? ERR_TIMEOUT then
        if (0 <? retries) && (1 <? block) then
          _ ← tftp_send_ack (block - 1);
          receive_loop fuel start_offs limit_offs has_cb write_offs received_len block (retries - 1) peer
        else
          _ ← tftp_send_error TFTP_ERR_ILLEGAL (chars_of "Timeout");
          mret (ERR_TIMEOUT, received_len)
      else if negb (err =? ERR_OK) then
        _ ← tftp_send_error TFTP_ERR_ILLEGAL (chars_of "Failed to receive packet");
        mret (err, received_len)
      else
        match nb with
        | None => stop Overrun
        | Some nb =>
            if negb (netbuf_read_u16_n nb 0 =? TFTP_OP_DATA) then
              _ ← tftp_send_error TFTP_ERR_ILLEGAL (chars_of "Unknown opcode");
              _ ← netbuf_delete;
              mret (ERR_VAL, received_len)
            else
              let client_block := netbuf_read_u16_n nb 2 in
              if negb (client_block =? block) then
                _ ← netbuf_delete;
                if client_block =? block - 1 then
                  _ ← tftp_send_ack (block - 1);
                  receive_loop fuel start_offs limit_offs has_cb write_offs received_len block retries peer
                else
                  _ ← tftp_send_error TFTP_ERR_ILLEGAL (chars_of "Block# out of order");
                  mret (ERR_VAL, received_len)
              else
                '(err, received_len) ← store_block start_offs limit_offs write_offs received_len nb;
                match err with
                | Some err => mret (err, received_len)
                | None =>
                    ack_err ← tftp_send_ack block;
                    if negb (ack_err =? ERR_OK) then mret (ack_err, received_len)
                    else
                      _ ← (if has_cb then receive_cb received_len else mret tt);
                      if netbuf_len nb <? DATA_PACKET_SZ then mret (ERR_OK, received_len)
                      else receive_loop fuel start_offs limit_offs has_cb (u32 (write_offs + 512)) received_len (block + 1) TFTP_TIMEOUT_RETRANSMITS peer
                end
        end
  end.

Definition tftp_receive_data (write_offs limit_offs : Z) (peer : option (Z * Z)) (has_cb : bool) : TM D (Z * Z) := λ w,
  receive_loop (S (length w.(w_events))) write_offs limit_offs has_cb write_offs 0 1 TFTP_TIMEOUT_RETRANSMITS peer w.

(** ** The client *)

(** The loop over the local ports. *)
Fixpoint bind_loop (fuel : nat) (port local_port : Z) : Z :=
  let local_port := local_port + 1 in
  let err := netconn_bind_err local_port in
  match fuel with
  | O => err
  | S fuel => if (err =? ERR_USE) && (local_port <? port + 10) then bind_loop fuel port local_port else err
  end.

Definition ota_tftp_download (server : list Z) (port : Z) (filename : list Z) (timeout ota_slot : Z) (has_cb : bool) : TM D Z :=
  conf ← on_board rboot_get_config;
  if (conf.(current_rom) =? ota_slot) || (conf.(count) <=? ota_slot) then mret ERR_VAL
  else if negb ((0 <=? ota_slot) && (ota_slot <? MAX_ROMS)) then stop Overrun
  else
    let flash_offset := at_ conf.(roms) ota_slot in
    if negb netconn_new_ok then mret ERR_IF
    else
      _ ← netconn_set_recvtimeout timeout;
      let err := bind_loop 10 port (port - 1) in
      if negb (err =? ERR_OK) then mret err
      else
        let '(err, addr) := netconn_gethostbyname_res server in
        if negb (err =? ERR_OK) then mret err
        else
          _ ← netconn_connect addr port;
          err ← tftp_send_rrq filename;
          if negb (err =? ERR_OK) then mret err
          else
            '(err, _) ← tftp_receive_data flash_offset (u32 (flash_offset + MAX_IMAGE_SIZE)) (Some (addr, port)) has_cb;
            mret err.

(** ** The server *)

(** Receiving the write request: is it one for the firmware, in octet mode? *)
Definition wrq_phase : TM D bool :=
  _ ← netconn_set_recvtimeout 0;
  '(err, nb) ← netconn_recv;
  if negb (err =? ERR_OK) then mret false
  else
    match nb with
    | None => stop Overrun
    | Some nb =>
        if netbuf_len nb <? 6 then _ ← netbuf_delete; mret false
        else if negb (netbuf_read_u16_n nb 0 =? TFTP_OP_WRQ) then _ ← netbuf_delete; mret false
        else
          filename ← tftp_get_field 0 nb;
          if negb (field_is filename TFTP_FIRMWARE_FILE) then
            _ ← tftp_send_error TFTP_ERR_FILENOTFOUND (chars_of "File must be firmware.bin");
            _ ← free_field filename;
            _ ← netbuf_delete;
            mret false
          else
            _ ← free_field filename;
            mode ← tftp_get_field 1 nb;
            if negb (field_is mode TFTP_OCTET_MODE) then
              _ ← tftp_send_error TFTP_ERR_ILLEGAL (chars_of "Mode must be octet/binary");
              _ ← free_field mode;
              _ ← netbuf_delete;
              mret false
            else
              _ ← free_field mode;
              _ ← netconn_connect nb.(from_addr) nb.(from_port);
              _ ← netbuf_delete;
              mret true
    end.

(** One pass of the loop of tftp_task. *)
Definition tftp_round : TM D unit :=
  ok ← wrq_phase;
  if negb ok then mret tt
  else
    conf ← on_board rboot_get_config;
    if conf.(count) =? 0 then stop Overrun
    else
      let slot := (conf.(current_rom) + 1) `mod` conf.(count) in
      if slot =? conf.(current_rom) then
        _ ← tftp_send_error TFTP_ERR_ILLEGAL (chars_of "Only one OTA slot!");
        netconn_disconnect
      else
        ack_err ← tftp_send_ack 0;
        if negb (ack_err =? 0) then netconn_disconnect
        else if negb (slot <? MAX_ROMS) then stop Overrun
        else
          _ ← netconn_set_recvtimeout 10000;
          let addr := at_ conf.(roms) slot in
          '(recv_err, _) ← tftp_receive_data addr (u32 (addr + MAX_IMAGE_SIZE)) None false;
          _ ← netconn_disconnect;
          if recv_err =? ERR_OK then
            _ ← on_board (rboot_set_current_rom slot);
            stop Restarted
          else mret tt.

(** The loop; each pass takes an event. *)
Fixpoint tftp_loop (fuel : nat) : TM D unit :=
  match fuel with
  | O => stop Blocked
  | S fuel => _ ← tftp_round; tftp_loop fuel
  end.

Definition tftp_task : TM D unit := λ w,
  if negb netconn_new_ok then (Done tt, w) else tftp_loop (S (length w.(w_events))) w.

End tftp.
