(* ===== verification/TftpSpec.v ===== *)
(** TftpSpec: reading packets, sending, what a transfer may touch, and that a transfer in
    blocks of 512 bytes, over lost acknowledgements and late packets, puts the image on
    the chip. *)

From S2P Require Import Prelude CString Flash Rboot RbootLoader RbootSpec RbootImage RbootBoot Tftp.

(** ** Packets *)

Lemma sub_list_nil l off : sub_list l off 0 = [].
Proof. done. Qed.

Lemma sub_list_app_r l k off n : zlength l ≤ off → sub_list (l ++ k) off n = sub_list k (off - zlength l) n.
Proof. intros H. unfold sub_list. rewrite drop_app_ge by lia. do 2 f_equal. lia. Qed.

Lemma sub_list_app_l l k off n : 0 ≤ off ≤ zlength l → 0 ≤ n →
  sub_list (l ++ k) off n = sub_list l off (n `min` (zlength l - off)) ++ sub_list k 0 (n - n `min` (zlength l - off)).
Proof.
  intros Ho Hn. unfold sub_list. rewrite drop_app_le by lia. rewrite take_app, length_drop. change (drop (Z.to_nat 0) k) with k. f_equal.
  - destruct (decide (n ≤ zlength l - off)); [by rewrite Z.min_l by lia|]. rewrite Z.min_r by lia. rewrite !take_ge by (rewrite length_drop; lia). done.
  - f_equal. lia.
Qed.

(** pbuf_copy_partial copies from the chain as if it were one block. *)
Lemma pbuf_copy_partial_spec segs : ∀ len offset, 0 ≤ len → 0 ≤ offset → pbuf_copy_partial segs len offset = sub_list (concat (bytes <$> segs)) offset len.
Proof.
  induction segs as [|p segs IH]; intros len offset Hl Ho; cbn [pbuf_copy_partial fmap list_fmap concat].
  - unfold sub_list. by rewrite drop_nil, take_nil.
  - destruct (Z.eqb_spec len 0) as [->|Hne]; [done|]. destruct (decide (offset ≠ 0 ∧ zlength p.(bytes) ≤ offset)) as [[H1 H2]|H].
    + rewrite (proj2 (Z.eqb_neq _ _) H1), (proj2 (Z.leb_le _ _) H2). cbn [negb andb]. rewrite IH by lia. by rewrite sub_list_app_r.
    + assert (E : negb (offset =? 0) && (zlength p.(bytes) <=? offset) = false).
      { destruct (Z.eqb_spec offset 0), (Z.leb_spec (zlength p.(bytes)) offset); cbn; try done. exfalso. apply H. lia. }
      rewrite E. assert (Hb : (if len <? zlength p.(bytes) - offset then len else zlength p.(bytes) - offset) = len `min` (zlength p.(bytes) - offset)).
      { destruct (Z.ltb_spec len (zlength p.(bytes) - offset)); lia. }
      rewrite Hb. rewrite IH by (destruct (decide (offset = 0)); lia). rewrite sub_list_app_l by (destruct (decide (offset = 0)); lia). done.
Qed.

Lemma at_sub_list l off n i : 0 ≤ i < n → 0 ≤ off → at_ (sub_list l off n) i = at_ l (off + i).
Proof.
  intros Hi Ho. unfold sub_list, at_. rewrite lookup_take_lt by lia. rewrite lookup_drop. do 2 f_equal. lia.
Qed.

Lemma length_sub_list l off n : 0 ≤ off → 0 ≤ n → off + n ≤ zlength l → zlength (sub_list l off n) = n.
Proof. intros Ho Hn H. unfold sub_list. rewrite length_take, length_drop. lia. Qed.

Section tftp.
  Context {D : Type} {Dev : FlashDev D} {Spec : FlashSpec D} {Rd : FlashReadSpec D} {Hp : Heap} {Net : Lwip}.
  Implicit Types w : tftp_world D.

Lemma netbuf_read_spec nb n offs : 0 ≤ n → 0 ≤ offs < 65536 → offs + n ≤ zlength (netbuf_bytes nb) → netbuf_read nb n offs = sub_list (netbuf_bytes nb) offs n.
Proof.
  intros Hn Ho H. unfold netbuf_read. rewrite u16_small by (unfold is_u16; lia). rewrite pbuf_copy_partial_spec by lia. fold (netbuf_bytes nb).
  rewrite length_sub_list by lia. rewrite Z.sub_diag. by rewrite seqZ_nil, app_nil_r by lia.
Qed.

Lemma netbuf_read_u16_spec nb offs : 0 ≤ offs < 65536 → offs + 2 ≤ zlength (netbuf_bytes nb) →
  netbuf_read_u16_n nb offs = 256 * at_ (netbuf_bytes nb) offs + at_ (netbuf_bytes nb) (offs + 1).
Proof. intros Ho H. unfold netbuf_read_u16_n. rewrite netbuf_read_spec by lia. rewrite !at_sub_list by lia. by rewrite Z.add_0_r. Qed.

Lemma netbuf_read_u8_spec nb offs : 0 ≤ offs < 65536 → offs < zlength (netbuf_bytes nb) → netbuf_read_u8 nb offs = at_ (netbuf_bytes nb) offs.
Proof. intros Ho H. unfold netbuf_read_u8. rewrite netbuf_read_spec by lia. rewrite at_sub_list by lia. by rewrite Z.add_0_r. Qed.

(** ** Running *)

Lemma TM_bind_eq {A B} (f : A → TM D B) (m : TM D A) w a w' : m w = (Done a, w') → (m ≫= f) w = f a w'.
Proof. intros E. unfold mbind, TM_bind. by rewrite E. Qed.

Lemma on_board_eq {A} (m : ST (board D) A) w a b : m w.(w_board) = (a, b) → on_board m w
  = (Done a, Build_tftp_world b w.(w_events) w.(w_nsend) w.(w_sent) w.(w_netbufs) w.(w_peer) w.(w_timeout) w.(w_progress)).
Proof. intros E. unfold on_board. by rewrite E. Qed.

Context (Hheap : ∀ k n, malloc_ok k n = true).

Definition set_board (b : board D) w : tftp_world D := Build_tftp_world b w.(w_events) w.(w_nsend) w.(w_sent) w.(w_netbufs) w.(w_peer) w.(w_timeout) w.(w_progress).

(** A datagram is sent; the heap is as before but for the count of the calls. *)
Lemma tftp_send_spec data w : ∃ k, tftp_send data w = (Done (netconn_send_err w.(w_nsend)),
  Build_tftp_world (Build_board w.(w_board).(bd_dev) w.(w_board).(bd_rtc) k w.(w_board).(bd_live)) w.(w_events) (S w.(w_nsend)) (w.(w_sent) ++ [data])
    w.(w_netbufs) w.(w_peer) w.(w_timeout) w.(w_progress)).
Proof.
  exists (S (S w.(w_board).(bd_nalloc))). unfold tftp_send.
  erewrite TM_bind_eq by (apply on_board_eq; unfold os_malloc; rewrite Hheap; reflexivity).
  erewrite TM_bind_eq by (apply on_board_eq; unfold os_malloc; rewrite Hheap; reflexivity). cbn [andb negb].
  erewrite TM_bind_eq by reflexivity. erewrite TM_bind_eq by reflexivity. erewrite TM_bind_eq by reflexivity. unfold mret, TM_ret. cbn. do 3 f_equal. lia.
Qed.

(** ** Safety: what a computation may do to the chip *)

(** The chip outside of [lo, hi), the RTC memory and the blocks of the heap are the same. *)
Definition within (lo hi : Z) w w' : Prop :=
  (∀ x, ¬ (lo ≤ x < hi) → cells w'.(w_board) x = cells w.(w_board) x) ∧ w'.(w_board).(bd_rtc) = w.(w_board).(bd_rtc) ∧ w'.(w_board).(bd_live) = w.(w_board).(bd_live).

#[export] Instance within_preorder lo hi : PreOrder (within lo hi).
Proof.
  split; [done|]. intros w1 w2 w3 (A1 & A2 & A3) (B1 & B2 & B3). split; [intros x Hx; by rewrite B1, A1|]. by rewrite B2, B3.
Qed.

(** A packet whose segments are made of words, with the header in the first: what the
    code assumes. *)
Definition words_packet (nb : netbuf) : Prop :=
  Forall (λ s, zlength s.(bytes) `mod` 4 = 0 ∧ Forall is_byte s.(bytes)) nb.(segments) ∧ zlength (netbuf_bytes nb) < 65536
  ∧ ∃ s segs, nb.(segments) = s :: segs ∧ 4 ≤ zlength s.(bytes).

(** netconn_recv gives such a packet, or an error and no packet. *)
Definition words_event (e : Z * option netbuf) : Prop :=
  (e.1 = ERR_OK → ∃ nb, e.2 = Some nb ∧ words_packet nb) ∧ (e.1 ≠ ERR_OK → e.2 = None).

(** From a state in which only such packets come and [n] of them are not deleted, [m]
    stays within the range, does not overrun, and its result and the number of
    packets have [Q]; when it waits for ever, there are [N] packets. *)
Definition Stays {A} (lo hi N n : Z) (m : TM D A) (Q : A → Z → Prop) : Prop := ∀ w, Forall words_event w.(w_events) → w.(w_netbufs) = n →
  let '(o, w') := m w in within lo hi w w' ∧ Forall words_event w'.(w_events)
    ∧ match o with Done a => Q a w'.(w_netbufs) | Overrun => False | _ => w'.(w_netbufs) = N end.

Section stays.
  Context (lo hi N : Z).

Lemma stays_ret {A} n (a : A) (Q : A → Z → Prop) : Q a n → Stays lo hi N n (mret a) Q.
Proof. intros H w Hw <-. done. Qed.

Lemma stays_bind {A B} n (m : TM D A) (k : A → TM D B) (P : A → Z → Prop) (Q : B → Z → Prop) :
  Stays lo hi N n m P → (∀ a n', P a n' → Stays lo hi N n' (k a) Q) → Stays lo hi N n (m ≫= k) Q.
Proof.
  intros Hm Hk w Hw Hn. unfold mbind, TM_bind. specialize (Hm w Hw Hn). destruct (m w) as [[a| | |] w1]; destruct Hm as (H1 & H2 & H3); [|done..].
  specialize (Hk a _ H3 w1 H2 eq_refl). destruct (k a w1) as [o w2]. destruct Hk as (K1 & K2 & K3). split; [by etrans|done].
Qed.

(** A step that deletes no packet, without a result that matters. *)
Abbreviation keeps_count n := (λ _ n', n' = n).

Lemma stays_then {A B} n (m : TM D A) (k : A → TM D B) (Q : B → Z → Prop) : Stays lo hi N n m (keeps_count n) → (∀ a, Stays lo hi N n (k a) Q) → Stays lo hi N n (m ≫= k) Q.
Proof. intros Hm Hk. apply (stays_bind n m k (keeps_count n)); [done|]. intros a n' ->. apply Hk. Qed.

Lemma stays_send n data : Stays lo hi N n (tftp_send data) (keeps_count n).
Proof. intros w Hw Hn. destruct (tftp_send_spec data w) as [k ->]. done. Qed.

Lemma stays_ack n block : Stays lo hi N n (tftp_send_ack block) (keeps_count n).
Proof. apply stays_send. Qed.

Lemma stays_error n code msg : Stays lo hi N n (tftp_send_error code msg) (keeps_count n).
Proof. apply stays_then; [apply stays_send|]. intros ?. by apply stays_ret. Qed.

Lemma stays_recv : Stays lo hi N N netconn_recv (λ e n', words_event e ∧ n' = if e.2 is Some _ then N + 1 else N).
Proof.
  intros w Hw Hn. unfold netconn_recv. destruct (w.(w_events)) as [|[err nb] evs] eqn:E; [rewrite E; done|].
  apply Forall_cons in Hw as [H1 H2]. split; [done|]. split; [done|]. split; [done|]. cbn. by rewrite Hn.
Qed.

Lemma stays_quiet n (m : TM D unit) : (∀ w, ∃ w', m w = (Done tt, w') ∧ w'.(w_board) = w.(w_board) ∧ w'.(w_events) = w.(w_events) ∧ w'.(w_netbufs) = w.(w_netbufs)) →
  Stays lo hi N n m (keeps_count n).
Proof. intros H w Hw Hn. destruct (H w) as (w' & -> & E1 & E2 & E3). unfold within. by rewrite E1, E2, E3. Qed.

Lemma stays_delete n : Stays lo hi N n netbuf_delete (λ _ n', n' = n - 1).
Proof. intros w Hw <-. done. Qed.

(** A computation that only reads the flash. *)
Lemma stays_reads {A} n (m : ST (board D) A) : Reads m → Stays lo hi N n (on_board m) (keeps_count n).
Proof.
  intros Hm w Hw Hn. assert (U := reads_keeps (m := m) w.(w_board)). unfold on_board. destruct (m w.(w_board)) as [a b]. cbn in U.
  destruct U as ((R1 & R2 & R3) & C). split; [|done]. split; [intros x _; apply C|done].
Qed.

Lemma stays_erase n s : 0 ≤ s < 1024 → lo ≤ s * SECTOR_SIZE → (s + 1) * SECTOR_SIZE ≤ hi → Stays lo hi N n (on_board (flash_erase s)) (keeps_count n).
Proof.
  intros Hs Hl Hh w Hw Hn. destruct (flash_erase_cells s w.(w_board)) as (b & E & (R1 & R2 & R3) & C); [done|].
  rewrite (on_board_eq _ _ _ _ E). split; [|done]. split; [|done]. intros x Hx. cbn. rewrite C. case_decide; [lia|done].
Qed.

Lemma stays_write k a src n : lo ≤ a → 0 ≤ a → a `mod` 4 = 0 → n `mod` 4 = 0 → 0 ≤ n ≤ zlength src → a + n ≤ hi → hi ≤ chip_size sdk_flashchip → Forall is_byte src →
  Stays lo hi N k (on_board (flash_write a src n)) (keeps_count k).
Proof.
  intros Hl Ha Hm Hn Hs Hh Hc Hb w Hw Hk. destruct (flash_write_cells a src n w.(w_board)) as (b & E & (R1 & R2 & R3) & C); [done..|lia|done|].
  rewrite (on_board_eq _ _ _ _ E). split; [|done]. split; [|done]. intros x Hx. cbn. rewrite C. case_decide; [lia|done].
Qed.
End stays.

(** ** The image check only reads *)

Ltac reads := repeat first [apply _ | apply reads_bind; [|intros] | progress case_match].

#[export] Instance reads_section_checksum fuel off i len chk : Reads (section_checksum fuel off i len chk).
Proof. revert i chk. induction fuel as [|fuel IH]; intros i chk; cbn [section_checksum]; reads. Qed.

#[export] Instance reads_verify_loop fuel limit off rem new chk : Reads (verify_loop fuel limit off rem new chk).
Proof. revert off rem new chk. induction fuel as [|fuel IH]; intros off rem new chk; cbn [verify_loop]; reads. Qed.

#[export] Instance reads_verify a : Reads (rboot_verify_image a).
Proof. unfold rboot_verify_image. reads. Qed.

(** ** The loop over the segments *)

Lemma stays_segments lo hi N n segs : ∀ (first : bool) wo off,
  Forall (λ s, zlength s.(bytes) `mod` 4 = 0 ∧ Forall is_byte s.(bytes)) segs → (first = true → ∃ s segs', segs = s :: segs' ∧ 4 ≤ zlength s.(bytes)) →
  0 ≤ lo → lo ≤ wo + off → (wo + off) `mod` 4 = 0 → hi ≤ chip_size sdk_flashchip →
  wo + off + zlength (concat (bytes <$> segs)) - (if first then 4 else 0) ≤ hi → Stays lo hi N n (write_segments first segs wo off) (λ _ n', n' = n).
Proof.
  induction segs as [|s segs IH]; intros first wo off Hs Hf Hlo Hl Hm Hc Hh; cbn [write_segments]; [by apply stays_ret|].
  apply Forall_cons in Hs as [[Hs1 Hs2] Hs]. cbn [fmap list_fmap concat] in Hh. rewrite length_app in Hh.
  assert (Hfs : first = true → 4 ≤ zlength s.(bytes)) by (intros E; destruct (Hf E) as (s' & segs' & [= <- <-] & H); done).
  assert (E : first && (zlength s.(bytes) <? 4) = false) by (destruct first; [|done]; cbn; apply Z.ltb_ge; by apply Hfs). rewrite E.
  set (data := if first then drop 4 s.(bytes) else s.(bytes)).
  assert (Hd : zlength data = zlength s.(bytes) - (if first then 4 else 0)) by (unfold data; destruct first; [rewrite length_drop; specialize (Hfs eq_refl); lia|lia]).
  assert (Hdm : zlength data `mod` 4 = 0) by (rewrite Hd; destruct first; zsolve).
  assert (Hdb : Forall is_byte data) by (unfold data; destruct first; [by apply Forall_drop|done]).
  change (chip_size sdk_flashchip) with 4194304 in *. assert (Hz : 0 ≤ zlength (concat (bytes <$> segs))) by lia.
  destruct (negb (zlength data =? 0) && _) eqn:Eu.
  - destruct (Z.eqb_spec (zlength data) 0) as [H0|H0]; [done|]. assert (Hd4 : 4 ≤ zlength data) by zsolve. rewrite (proj2 (Z.ltb_ge _ _)) by lia.
    rewrite !u32_small by lia. apply stays_then; [|intros _; apply stays_then; [|intros _; apply IH]]; try done; try lia; try zsolve.
    + apply stays_write; try done; try lia; [rewrite length_take; lia|by apply Forall_take].
    + apply stays_write; try done; try lia; try zsolve; [rewrite length_drop; lia|by apply Forall_drop].
  - rewrite u32_small by lia. apply stays_then; [|intros _; apply IH]; try done; try lia; try zsolve. apply stays_write; done || lia.
Qed.

(** ** The loop over the packets *)

Lemma stays_packet lo hi N peer : Stays lo hi N N (receive_packet peer) (λ '(err, nb, _) n', words_event (err, nb) ∧ n' = if nb is Some _ then N + 1 else N).
Proof.
  unfold receive_packet. apply stays_then; [destruct peer; [apply stays_quiet; intros w; eexists; split; [reflexivity|done]|by apply stays_ret]|intros _].
  eapply stays_bind; [apply stays_recv|]. intros [err nb] n' Hev. cbn in Hev. destruct peer as [[addr port]|]; [|by apply stays_ret].
  destruct nb; (apply stays_then; [apply stays_quiet; intros w; eexists; split; [reflexivity|done]|intros _; by apply stays_ret]).
Qed.

Section loop.
  Context (lo : Z) (Hlo : 0 ≤ lo) (Hlm : lo `mod` SECTOR_SIZE = 0) (Hc : lo + MAX_IMAGE_SIZE ≤ chip_size sdk_flashchip).
Context (N : Z).
Let hi := lo + MAX_IMAGE_SIZE.

Lemma stays_store wo rl nb : lo ≤ wo < hi → wo `mod` 512 = 0 → words_packet nb →
  Stays lo hi N (N + 1) (store_block lo hi wo rl nb) (λ '(err, _) n', (err = None → wo + netbuf_len nb < hi) ∧ (n' = N ∨ err = Some ERR_VAL ∧ n' = N + 1)).
Proof.
  intros Hw Hm (Hseg & Hl16 & s & segs & Es & Hs4). unfold store_block.
  assert (Hlm' : lo `mod` 4096 = 0) by exact Hlm. assert (Hc' : lo + 0x100000 ≤ 4194304) by exact Hc. change hi with (lo + 0x100000) in *.
  apply stays_then.
  { destruct (Z.eqb_spec (wo `mod` SECTOR_SIZE) 0); [|by apply stays_ret]. apply stays_then; [|intros _; by apply stays_ret]. apply stays_erase; unfold SECTOR_SIZE in *; zsolve. }
  intros _. assert (Hlen : netbuf_len nb = zlength (netbuf_bytes nb)) by (unfold netbuf_len; apply u16_small; unfold is_u16; lia). rewrite !Hlen.
  set (len := zlength (netbuf_bytes nb)) in *. assert (Hlen0 : 0 ≤ len) by lia. rewrite (u32_small (wo + len)) by lia.
  destruct (Z.leb_spec (lo + 0x100000) (wo + len)) as [Hbig|Hfit]; [apply stays_then; [apply stays_error|intros _; apply stays_ret; split; [done|auto]]|].
  apply stays_then.
  { apply stays_segments; change (chip_size sdk_flashchip) with 4194304; try done; try lia; [intros _; eauto|zsolve|fold (netbuf_bytes nb); fold len; lia]. }
  intros _. eapply stays_bind; [apply stays_delete|intros _ n' ->]. replace (N + 1 - 1) with N by lia. apply stays_then.
  { case_match; [|by apply stays_ret]. apply stays_then; [apply stays_reads, _|]. intros [[e|] il]; [by apply stays_ret|]. case_match; by apply stays_ret. }
  intros [msg|]; [apply stays_then; [apply stays_error|intros _; apply stays_ret; split; [done|auto]]|]. apply stays_ret. auto.
Qed.

Lemma stays_receive fuel : ∀ cb wo rl block retries peer, lo ≤ wo < hi → wo `mod` 512 = 0 →
  Stays lo hi N N (receive_loop fuel lo hi cb wo rl block retries peer) (λ '(err, _) n', n' = N ∨ err = ERR_VAL ∧ n' = N + 1).
Proof.
  intros cb. induction fuel as [|fuel IH]; intros wo rl block retries peer Hw Hm; cbn [receive_loop]; [intros w Hev Hn; done|].
  eapply stays_bind; [apply stays_packet|]. clear peer. intros [[err nb] peer] n' [[Hev1 Hev2] ->]. cbn in Hev1, Hev2.
  destruct (Z.eqb_spec err ERR_TIMEOUT) as [->|_].
  { rewrite Hev2 by done. case_match; (apply stays_then; [apply stays_ack || apply stays_error|intros _; by apply IH || (apply stays_ret; auto)]). }
  destruct (Z.eqb_spec err ERR_OK) as [->|He]; cbn [negb]; [|rewrite Hev2 by done; apply stays_then; [apply stays_error|intros _; apply stays_ret; auto]].
  destruct (Hev1 eq_refl) as (nb' & -> & Hpk). assert (EN : N + 1 - 1 = N) by lia.
  case_match; [apply stays_then; [apply stays_error|intros _; eapply stays_bind; [apply stays_delete|intros _ n' ->; apply stays_ret; auto]]|].
  case_match. { eapply stays_bind; [apply stays_delete|intros _ n' ->]. rewrite EN. case_match; (apply stays_then; [apply stays_ack || apply stays_error|intros _; by apply IH || (apply stays_ret; auto)]). }
  eapply stays_bind; [apply (stays_store wo rl nb' Hw Hm Hpk)|]. intros [[e|] rl'] n' [Hfit Hn]; [apply stays_ret; destruct Hn as [->|[[= ->] ->]]; auto|]. specialize (Hfit eq_refl).
  destruct Hn as [->|[? _]]; [|done].
  apply stays_then; [apply stays_ack|intros ack]. case_match; [apply stays_ret; auto|].
  apply stays_then; [destruct cb; [apply stays_quiet; intros w; eexists; split; [reflexivity|done]|by apply stays_ret]|intros _].
  destruct (Z.ltb_spec (netbuf_len nb') DATA_PACKET_SZ) as [Hl|Hl]; [apply stays_ret; auto|]. unfold DATA_PACKET_SZ in Hl. assert (Hc' : hi ≤ 4194304) by exact Hc.
  rewrite u32_small by lia. apply IH; [lia|zsolve].
Qed.
End loop.
End tftp.

(** ** Programming *)

(** The chip [f] when [data] are written from [p] on. *)
Definition prog (f : Z → Z) (p : Z) (data : list Z) (x : Z) : Z := if decide (p ≤ x < p + zlength data) then Z.land (f x) (at_ data (x - p)) else f x.

Lemma prog_app f p d1 d2 x : prog (prog f p d1) (p + zlength d1) d2 x = prog f p (d1 ++ d2) x.
Proof.
  unfold prog. rewrite length_app, Nat2Z.inj_add. repeat case_decide; try lia; try done.
  - rewrite at_app_r by lia. do 2 f_equal. lia.
  - by rewrite at_app_l by lia.
Qed.

Lemma prog_ext f g p d x : f x = g x → prog f p d x = prog g p d x.
Proof. intros H. unfold prog. by rewrite H. Qed.

Section tftp.
  Context {D : Type} {Dev : FlashDev D} {Spec : FlashSpec D} {Rd : FlashReadSpec D} {Hp : Heap} {Net : Lwip}.
  Implicit Types w : tftp_world D.

Lemma flash_write_prog a data w : 0 ≤ a → a `mod` 4 = 0 → zlength data `mod` 4 = 0 → a + zlength data ≤ 4194304 → Forall is_byte data →
  ∃ b, on_board (flash_write (u32 a) data (zlength data)) w = (Done SPI_FLASH_RESULT_OK, set_board b w) ∧ same_board w.(w_board) b
    ∧ ∀ x, cells b x = prog (cells w.(w_board)) a data x.
Proof.
  intros Ha Hm Hn Hs Hb. rewrite u32_small by lia. destruct (flash_write_cells a data (zlength data) w.(w_board)) as (b & E & S & C); [lia|lia|done|done|exact Hs|done|].
  exists b. split; [exact (on_board_eq _ _ _ _ E)|]. split; [done|exact C].
Qed.

(** The segments of a packet are written one behind the other. *)
Lemma segments_cells segs : ∀ (first : bool) wo off w,
  Forall (λ s, zlength s.(bytes) `mod` 4 = 0 ∧ Forall is_byte s.(bytes)) segs → (first = true → ∃ s segs', segs = s :: segs' ∧ 4 ≤ zlength s.(bytes)) →
  0 ≤ wo + off → (wo + off) `mod` 4 = 0 → let data := drop (if first then 4 else 0) (concat (bytes <$> segs)) in wo + off + zlength data ≤ 4194304 →
  ∃ b, write_segments first segs wo off w = (Done (off + zlength data), set_board b w) ∧ same_board w.(w_board) b
    ∧ ∀ x, cells b x = prog (cells w.(w_board)) (wo + off) data x.
Proof.
  induction segs as [|s segs IH]; intros first wo off w Hs Hf H0 Hm data Hc; cbn [write_segments].
  { destruct first; [by destruct (Hf eq_refl) as (? & ? & ? & ?)|]. exists w.(w_board). split; [unfold mret, TM_ret; cbn; rewrite Z.add_0_r; by destruct w|]. split; [done|].
    intros x. unfold prog. rewrite decide_False; [done|]. cbn. lia. }
  apply Forall_cons in Hs as [[Hs1 Hs2] Hs].
  assert (Hfs : first = true → 4 ≤ zlength s.(bytes)) by (intros E; destruct (Hf E) as (s' & segs' & [= <- <-] & H); done).
  assert (E : first && (zlength s.(bytes) <? 4) = false) by (destruct first; [|done]; cbn; apply Z.ltb_ge; by apply Hfs). rewrite E.
  set (d := if first then drop 4 s.(bytes) else s.(bytes)).
  assert (Ed : data = d ++ concat (bytes <$> segs)).
  { unfold data, d. cbn [fmap list_fmap concat]. destruct first; [|done]. rewrite drop_app_le; [done|]. specialize (Hfs eq_refl). lia. }
  assert (Hdm : zlength d `mod` 4 = 0) by (unfold d; destruct first; [rewrite length_drop; specialize (Hfs eq_refl); zsolve|done]).
  assert (Hdb : Forall is_byte d) by (unfold d; destruct first; [by apply Forall_drop|done]).
  rewrite Ed, length_app in Hc. rewrite Ed. clear Ed data.
  assert (Hrest : ∀ w1 b1, w1 = set_board b1 w → same_board w.(w_board) b1 → (∀ x, cells b1 x = prog (cells w.(w_board)) (wo + off) d x) →
    ∃ b, write_segments false segs wo (off + zlength d) w1 = (Done (off + zlength (d ++ concat (bytes <$> segs))), set_board b w) ∧ same_board w.(w_board) b
      ∧ ∀ x, cells b x = prog (cells w.(w_board)) (wo + off) (d ++ concat (bytes <$> segs)) x).
  { intros w1 b1 -> S1 C1. destruct (IH false wo (off + zlength d) (set_board b1 w)) as (b2 & E2 & S2 & C2); [done|done|lia|zsolve|rewrite drop_0; lia|].
    rewrite drop_0 in E2, C2. exists b2. rewrite E2. split; [by rewrite length_app, Nat2Z.inj_add, Z.add_assoc|]. split; [by etrans|]. intros x. rewrite C2, <- prog_app.
    replace (wo + (off + zlength d)) with (wo + off + zlength d) by lia. by apply prog_ext. }
  destruct (negb (zlength d =? 0) && _) eqn:Eu.
  - destruct (Z.eqb_spec (zlength d) 0) as [Hd0|Hd0]; [done|]. assert (Hd4 : 4 ≤ zlength d) by zsolve. rewrite (proj2 (Z.ltb_ge _ _)) by lia.
    assert (L1 : zlength (take 4 d) = 4) by (rewrite length_take; lia). assert (L2 : zlength (drop 4 d) = zlength d - 4) by (rewrite length_drop; lia).
    destruct (flash_write_prog (wo + off) (take 4 d) w) as (b1 & E1 & S1 & C1); [lia|done|by rewrite L1|lia|by apply Forall_take|].
    rewrite L1 in E1. erewrite TM_bind_eq by exact E1.
    destruct (flash_write_prog (wo + (off + 4)) (drop 4 d) (set_board b1 w)) as (b2 & E2 & S2 & C2); [lia|zsolve|rewrite L2; zsolve|lia|by apply Forall_drop|].
    rewrite L2 in E2. erewrite TM_bind_eq by exact E2. replace (off + 4 + (zlength d - 4)) with (off + zlength d) by lia. apply (Hrest _ b2); [done|by etrans|].
    intros x. rewrite C2. replace (wo + (off + 4)) with (wo + off + zlength (take 4 d)) by lia. rewrite <- (take_drop 4 d) at 3. rewrite <- prog_app. by apply prog_ext.
  - destruct (flash_write_prog (wo + off) d w) as (b1 & E1 & S1 & C1); [lia|done|done|lia|done|]. erewrite TM_bind_eq by exact E1. by apply (Hrest _ b1).
Qed.

(** ** One block *)

(** A DATA packet. *)
Definition carries (nb : netbuf) (block : Z) (data : list Z) : Prop := words_packet nb ∧ netbuf_bytes nb = htons TFTP_OP_DATA ++ htons block ++ data.

Lemma carries_read nb block data : carries nb block data → 0 ≤ block < 65536 →
  netbuf_read_u16_n nb 0 = TFTP_OP_DATA ∧ netbuf_read_u16_n nb 2 = block ∧ netbuf_len nb = 4 + zlength data.
Proof.
  intros [(_ & Hl & _) E] Hb. assert (L : zlength (netbuf_bytes nb) = 4 + zlength data) by (rewrite E; cbn; lia).
  rewrite !netbuf_read_u16_spec by lia. unfold netbuf_len. rewrite u16_small by (unfold is_u16; lia). rewrite L, E. unfold htons. rewrite (u16_small block) by (unfold is_u16; lia). split_and!; [done|change (256 * (block / 256) + block `mod` 256 = block); zsolve|done].
Qed.

(** The first bytes of an image are at [lo], and the rest of the sector is blank. *)
Record stored (lo : Z) (recv : list Z) (f : Z → Z) : Prop := {
  st_data : ∀ x, lo ≤ x < lo + zlength recv → f x = at_ recv (x - lo);
  st_blank : (lo + zlength recv) `mod` SECTOR_SIZE ≠ 0 → ∀ x, lo + zlength recv ≤ x → x / SECTOR_SIZE = (lo + zlength recv) / SECTOR_SIZE → f x = 0xff;
}.

(** The chip [f] when the sector at [p] was erased, if [p] is its begin. *)
Definition erased_at (p : Z) (f : Z → Z) (x : Z) : Z := if decide (p `mod` SECTOR_SIZE = 0 ∧ x / SECTOR_SIZE = p / SECTOR_SIZE) then 0xff else f x.

Lemma stored_block lo recv f data : 0 ≤ lo → stored lo recv f → (lo + zlength recv) `mod` 512 = 0 → zlength data ≤ 512 → Forall is_byte data →
  let p := lo + zlength recv in stored lo (recv ++ data) (prog (erased_at p f) p data).
Proof.
  intros Hlo [S1 S2] Hm Hl Hb p. unfold SECTOR_SIZE in *. assert (Hz : 0 ≤ zlength recv ∧ 0 ≤ zlength data) by lia.
  assert (Hsec : ∀ x, p ≤ x < p + 512 → x / 0x1000 = p / 0x1000) by (intros x Hx; zsolve).
  assert (Hff : ∀ x, p ≤ x → x / 0x1000 = p / 0x1000 → erased_at p f x = 0xff).
  { intros x Hx Hq. unfold erased_at, SECTOR_SIZE. case_decide as Hd; [done|]. apply S2; [|done|done]. intros H0. apply Hd. done. }
  split; rewrite length_app, Nat2Z.inj_add.
  - intros x Hx. unfold prog. case_decide as Hd.
    + rewrite Hff by (lia || apply Hsec; lia). rewrite at_app_r by lia. replace (x - lo - zlength recv) with (x - p) by lia. by apply land_erased, at_byte.
    + rewrite at_app_l by lia. unfold erased_at. rewrite decide_False; [apply S1; lia|]. intros [H1 H2]. unfold SECTOR_SIZE in *. assert (x < p) by lia. zsolve.
  - intros Hne x Hx Hq. fold p in Hne, Hx, Hq. unfold prog. rewrite decide_False by lia. apply Hff; [lia|]. rewrite Z.add_assoc in Hq. fold p in Hq. unfold SECTOR_SIZE in *. rewrite Hq.
    destruct (decide (zlength data = 512)) as [E|E]; [|apply Hsec; lia]. rewrite Z.add_assoc in Hne. fold p in Hne. rewrite E in *. zsolve.
Qed.

(** ** A transfer *)

(** The events that bring the block [k] and the following ones, with the data [rest],
    when [r] timeouts are left: the blocks in order, repetitions of the block before the
    expected one, and timeouts after the first block. *)
Inductive delivers : Z → list Z → Z → list (Z * option netbuf) → Prop :=
  | d_last nb k rest r evs : zlength rest < 512 → carries nb k rest → delivers k rest r ((ERR_OK, Some nb) :: evs)
  | d_block nb k rest r evs : 512 ≤ zlength rest → carries nb k (take 512 rest) →
      delivers (k + 1) (drop 512 rest) TFTP_TIMEOUT_RETRANSMITS evs → delivers k rest r ((ERR_OK, Some nb) :: evs)
  | d_again nb k rest r data evs : carries nb (k - 1) data → delivers k rest r evs → delivers k rest r ((ERR_OK, Some nb) :: evs)
  | d_late k rest r evs : 1 < k → 0 < r → delivers k rest (r - 1) evs → delivers k rest r ((ERR_TIMEOUT, None) :: evs).

Lemma receive_packet_eq peer w err nb evs : w.(w_events) = (err, nb) :: evs →
  ∃ w1 peer1, receive_packet peer w = (Done (err, nb, peer1), w1) ∧ w1.(w_board) = w.(w_board) ∧ w1.(w_events) = evs.
Proof.
  intros E. unfold receive_packet. destruct w as [b ev ns sent nbs pr to pg]. cbn in E. subst ev.
  destruct peer as [[addr port]|]; [|eexists _, _; split; [reflexivity|done]]. destruct nb; (eexists _, _; split; [reflexivity|done]).
Qed.

Section transfer.
  Context (Hheap : ∀ k n, malloc_ok k n = true) (Hsend : ∀ n, netconn_send_err n = ERR_OK).
  Context (lo : Z) (Hlo : 0 ≤ lo) (Hlm : lo `mod` SECTOR_SIZE = 0) (Hc : lo + MAX_IMAGE_SIZE ≤ chip_size sdk_flashchip).
  Context (img : list Z) (Hfit : zlength img + 4 < MAX_IMAGE_SIZE) (Himg : Forall is_byte img).
  Context (Hverify : ∀ b : board D, (∀ x, lo ≤ x < lo + zlength img → cells b x = at_ img (x - lo)) → (rboot_verify_image lo b).1 = (None, zlength img)).
Context (N : Z).
Let hi := lo + MAX_IMAGE_SIZE.

Lemma erase_step p w : 0 ≤ p < 4194304 →
  ∃ b, (if p `mod` SECTOR_SIZE =? 0 then _ ← on_board (flash_erase (p / SECTOR_SIZE)); mret tt else mret tt) w = (Done tt, set_board b w)
    ∧ ∀ x, cells b x = erased_at p (cells w.(w_board)) x.
Proof.
  intros Hpr. unfold erased_at. destruct (Z.eqb_spec (p `mod` SECTOR_SIZE) 0) as [E|E].
  - destruct (flash_erase_cells (p / SECTOR_SIZE) w.(w_board)) as (b & Eb & _ & C); [unfold SECTOR_SIZE; zsolve|]. exists b.
    split; [by erewrite TM_bind_eq by exact (on_board_eq _ _ _ _ Eb)|]. intros x. rewrite C. unfold SECTOR_SIZE in *. repeat case_decide; try done; exfalso; zsolve.
  - exists w.(w_board). split; [by destruct w|]. intros x. rewrite decide_False; [done|]. tauto.
Qed.

(** The expected block is stored; the last one is accepted when the image is complete. *)
Lemma store_block_ok recv rest nb block data w : img = recv ++ rest → (zlength recv) `mod` 512 = 0 → stored lo recv (cells w.(w_board)) →
  data = take 512 rest → carries nb block data → 0 ≤ block < 65536 →
  ∃ w', store_block lo hi (lo + zlength recv) (zlength recv) nb w = (Done (None, zlength recv + zlength data), w') ∧ stored lo (recv ++ data) (cells w'.(w_board))
    ∧ w'.(w_events) = w.(w_events).
Proof.
  intros Ei Hm St Ed Hcar Hb. assert (Hlm' : lo `mod` 4096 = 0) by exact Hlm. assert (Hc' : lo + 0x100000 ≤ 4194304) by exact Hc. assert (Hf' : zlength img + 4 < 0x100000) by exact Hfit.
  destruct (carries_read nb block data Hcar Hb) as (_ & _ & Hlen). destruct Hcar as [(Hseg & Hl16 & Hfirst) Enb].
  assert (Hd : zlength data ≤ 512 ∧ zlength data ≤ zlength rest) by (subst data; rewrite length_take; lia).
  assert (Hi : zlength img = zlength recv + zlength rest) by (rewrite Ei, length_app; lia).
  assert (Hrest : Forall is_byte rest) by (rewrite Ei in Himg; by apply Forall_app in Himg as [_ ?]).
  assert (Hdb : Forall is_byte data) by (subst data; by apply Forall_take). set (p := lo + zlength recv).
  assert (Hp512 : p `mod` 512 = 0) by (unfold p; zsolve). assert (Hdr : drop 4 (netbuf_bytes nb) = data) by (by rewrite Enb).
  unfold store_block. destruct (erase_step p w) as (b1 & E1 & C1); [unfold p; lia|]. erewrite TM_bind_eq by exact E1. rewrite Hlen.
  rewrite u32_small by (unfold p; lia). change hi with (lo + 0x100000). rewrite (proj2 (Z.leb_gt _ _)) by (unfold p; lia).
  destruct (segments_cells nb.(segments) true p 0 (set_board b1 w)) as (b2 & E2 & _ & C2); [done|intros _; destruct Hfirst as (s & ss & ? & ?); eauto|unfold p; lia|zsolve| |].
  { fold (netbuf_bytes nb). rewrite Hdr. unfold p. lia. }
  fold (netbuf_bytes nb) in E2, C2. rewrite Hdr in E2, C2. erewrite TM_bind_eq by exact E2. erewrite TM_bind_eq by reflexivity.
  assert (Hst : stored lo (recv ++ data) (cells b2)).
  { assert (H := stored_block lo recv (cells w.(w_board)) data Hlo St Hp512 (proj1 Hd) Hdb). fold p in H. destruct H as [T1 T2].
    assert (C : ∀ x, cells b2 x = prog (erased_at p (cells w.(w_board))) p data x) by (intros x; rewrite C2, Z.add_0_r; by apply prog_ext).
    split; [intros x Hx; rewrite C; by apply T1|intros Hne x Hx Hq; rewrite C; by apply T2]. }
  rewrite (u32_small (zlength recv + (4 + zlength data - 4))) by lia. replace (zlength recv + (4 + zlength data - 4)) with (zlength recv + zlength data) by lia.
  set (w2 := Build_tftp_world _ _ _ _ _ _ _ _). destruct (Z.ltb_spec (4 + zlength data) DATA_PACKET_SZ) as [Hl|Hl].
  - unfold DATA_PACKET_SZ in Hl. assert (Hall : data = rest) by (subst data; rewrite length_take in Hl; apply take_ge; lia). subst rest.
    assert (V : (rboot_verify_image lo b2).1 = (None, zlength img)) by (apply Hverify; rewrite Ei; apply Hst).
    assert (U := reads_keeps (m := rboot_verify_image lo) b2). destruct (rboot_verify_image lo b2) as [r b3] eqn:Ev. cbn in V, U. subst r.
    assert (Ev' : verify_received lo (zlength recv + zlength data) w2 = (Done None, set_board b3 w2)).
    { unfold verify_received. erewrite TM_bind_eq by exact (on_board_eq (rboot_verify_image lo) w2 _ _ Ev). by rewrite Hi, Z.eqb_refl. }
    erewrite TM_bind_eq by exact Ev'. eexists. split; [reflexivity|]. split; [|done].
    split; [intros x Hx; cbn; rewrite (proj2 U); by apply (st_data _ _ _ Hst)|intros Hne x Hx Hq; cbn; rewrite (proj2 U); by apply (st_blank _ _ _ Hst)].
  - erewrite TM_bind_eq by reflexivity. eexists. split; [reflexivity|]. done.
Qed.

Lemma send_ack_eq block w : ∃ w', tftp_send_ack block w = (Done ERR_OK, w') ∧ w'.(w_events) = w.(w_events) ∧ ∀ x, cells w'.(w_board) x = cells w.(w_board) x.
Proof. unfold tftp_send_ack. destruct (tftp_send_spec Hheap (htons TFTP_OP_ACK ++ htons block) w) as [k ->]. rewrite Hsend. eexists. split; [reflexivity|done]. Qed.

Lemma stored_ext recv f g : (∀ x, f x = g x) → stored lo recv g → stored lo recv f.
Proof. intros H [S1 S2]. split; [intros x Hx; rewrite H; by apply S1|intros Hn x Hx Hq; rewrite H; by apply S2]. Qed.

Lemma receive_delivers k rest r evs : delivers k rest r evs → ∀ fuel recv cb peer w, w.(w_events) = evs → (length evs ≤ fuel)%nat →
  img = recv ++ rest → 1 ≤ k → zlength recv = 512 * (k - 1) → stored lo recv (cells w.(w_board)) →
  ∃ w', receive_loop fuel lo hi cb (lo + zlength recv) (zlength recv) k r peer w = (Done (ERR_OK, zlength img), w') ∧ stored lo img (cells w'.(w_board)).
Proof.
  assert (Hf' : zlength img + 4 < 0x100000) by exact Hfit. assert (Hc' : lo + 0x100000 ≤ 4194304) by exact Hc.
  induction 1 as [nb k rest r evs Hl Hcar|nb k rest r evs Hl Hcar Hdel IH|nb k rest r data evs Hcar Hdel IH|k rest r evs Hk Hr Hdel IH];
    intros fuel recv cb peer w Hev Hfu Ei Hk1 Hrv St; (destruct fuel as [|fuel]; [cbn in Hfu; lia|]); cbn [receive_loop];
    destruct (receive_packet_eq peer w _ _ _ Hev) as (w1 & peer1 & E1 & B1 & V1); erewrite TM_bind_eq by exact E1; cbn match; rewrite <- B1 in St;
    assert (Hi : zlength img = zlength recv + zlength rest) by (rewrite Ei, length_app; lia); assert (Hz : 0 ≤ zlength rest) by lia; cbn in Hfu.
  - (* the last block *)
    change (ERR_OK =? ERR_TIMEOUT) with false. change (negb (ERR_OK =? ERR_OK)) with false. cbn match.
    destruct (carries_read nb k rest Hcar) as (R1 & R2 & R3); [lia|]. rewrite R1, R2, R3, !Z.eqb_refl. cbn [negb]. cbv zeta.
    assert (Et : rest = take 512 rest) by (symmetry; apply take_ge; lia).
    destruct (store_block_ok recv rest nb k rest w1) as (w2 & E2 & S2 & V2); [done|zsolve|done|done|done|lia|].
    erewrite TM_bind_eq by exact E2. cbn match. destruct (send_ack_eq k w2) as (w3 & E3 & V3 & C3). erewrite TM_bind_eq by exact E3. cbn match. change (negb (ERR_OK =? ERR_OK)) with false. cbn match.
    assert (Ecb : ∃ w4, (if cb then receive_cb (zlength recv + zlength rest) else mret tt) w3 = (Done tt, w4) ∧ w4.(w_board) = w3.(w_board)) by (destruct cb; eexists; split; reflexivity).
    destruct Ecb as (w4 & E4 & B4). erewrite TM_bind_eq by exact E4. rewrite (proj2 (Z.ltb_lt _ _)) by (unfold DATA_PACKET_SZ; lia).
    exists w4. split; [by rewrite Hi|]. rewrite B4, Ei. by apply (stored_ext _ _ (cells w2.(w_board))).
  - (* a full block *)
    change (ERR_OK =? ERR_TIMEOUT) with false. change (negb (ERR_OK =? ERR_OK)) with false. cbn match.
    assert (Ht : zlength (take 512 rest) = 512) by (rewrite length_take; lia).
    destruct (carries_read nb k (take 512 rest) Hcar) as (R1 & R2 & R3); [lia|]. rewrite R1, R2, R3, !Z.eqb_refl. cbn [negb]. cbv zeta.
    destruct (store_block_ok recv rest nb k (take 512 rest) w1) as (w2 & E2 & S2 & V2); [done|zsolve|done|done|done|lia|].
    erewrite TM_bind_eq by exact E2. cbn match. destruct (send_ack_eq k w2) as (w3 & E3 & V3 & C3). erewrite TM_bind_eq by exact E3. cbn match. change (negb (ERR_OK =? ERR_OK)) with false. cbn match.
    assert (Ecb : ∃ w4, (if cb then receive_cb (zlength recv + zlength (take 512 rest)) else mret tt) w3 = (Done tt, w4) ∧ w4.(w_board) = w3.(w_board) ∧ w4.(w_events) = w3.(w_events))
      by (destruct cb; eexists; split; reflexivity || done).
    destruct Ecb as (w4 & E4 & B4 & V4). erewrite TM_bind_eq by exact E4. rewrite Ht. change (4 + 512 <? DATA_PACKET_SZ) with false. cbn match. rewrite u32_small by lia.
    destruct (IH fuel (recv ++ take 512 rest) cb peer1 w4) as (w5 & E5 & S5); [congruence|lia|rewrite <- (assoc_L (++)), take_drop; done|lia|rewrite length_app; lia| |].
    { rewrite B4. by apply (stored_ext _ _ (cells w2.(w_board))). }
    exists w5. split; [|done]. rewrite <- E5. rewrite length_app. f_equal; lia.
  - (* a repetition *)
    change (ERR_OK =? ERR_TIMEOUT) with false. change (negb (ERR_OK =? ERR_OK)) with false. cbn match.
    destruct (carries_read nb (k - 1) data Hcar) as (R1 & R2 & R3); [lia|]. rewrite R1, R2, Z.eqb_refl. cbn [negb]. cbv zeta.
    rewrite (proj2 (Z.eqb_neq (k - 1) k)) by lia. rewrite Z.eqb_refl. cbn [negb]. erewrite TM_bind_eq by reflexivity.
    set (w2 := Build_tftp_world _ _ _ _ _ _ _ _). destruct (send_ack_eq (k - 1) w2) as (w3 & E3 & V3 & C3). erewrite TM_bind_eq by exact E3.
    apply IH; [by rewrite V3|lia|done|done|done|]. by apply (stored_ext _ _ (cells w1.(w_board))).
  - (* a timeout *)
    change (ERR_TIMEOUT =? ERR_TIMEOUT) with true. cbn match. rewrite (proj2 (Z.ltb_lt 0 r)), (proj2 (Z.ltb_lt 1 k)) by lia. cbn [andb].
    destruct (send_ack_eq (k - 1) w1) as (w3 & E3 & V3 & C3). erewrite TM_bind_eq by exact E3.
    apply IH; [by rewrite V3|lia|done|done|done|]. by apply (stored_ext _ _ (cells w1.(w_board))).
Qed.
End transfer.
End tftp.
