(* ===== verification/TftpTheorems.v ===== *)
(** TftpTheorems: an update over TFTP from the write request to the next boot; the transfer
    touches nothing but its slot. *)

From stdpp Require Import strings.
From S2P Require Import Prelude CString Flash Rboot RbootLoader RbootSpec RbootWrite RbootImage RbootBoot RbootTheorems Tftp TftpSpec.

Section tftp.
  Context {D : Type} {Dev : FlashDev D} {Spec : FlashSpec D} {Rd : FlashReadSpec D} {Hp : Heap} {Net : Lwip}.
  Implicit Types w : tftp_world D.

(** ** The request *)

(** At the end of the field that is looked for, and of one before it. *)
Lemma field_loop_found nb s : ∀ fuel pre rest fo fl, netbuf_bytes nb = pre ++ s ++ 0 :: rest → Forall (λ c, c ≠ 0) s → zlength (netbuf_bytes nb) < 65536 → (length s < fuel)%nat →
  field_loop fuel nb 0 (zlength pre) fo fl = (-1, fo, fl + zlength s + 1).
Proof.
  induction s as [|c s IH]; intros fuel pre rest fo fl E Hs Hl Hf; (destruct fuel as [|fuel]; [lia|]); cbn [field_loop];
    assert (L := f_equal length E); rewrite !length_app in L; cbn [length] in L;
    (assert (Hlen : netbuf_len nb = zlength (netbuf_bytes nb)) by (apply u16_small; unfold is_u16; lia));
    rewrite Hlen, (proj2 (Z.ltb_lt (zlength pre) _)), netbuf_read_u8_spec by lia; cbn [andb Z.leb Z.compare]; rewrite E, at_app_r, Z.sub_diag by lia.
  - change (at_ ([] ++ 0 :: rest) 0) with 0. cbn [Z.eqb]. replace (fl + zlength [] + 1) with (fl + 1) by (cbn; lia). destruct fuel; reflexivity.
  - change (at_ ((c :: s) ++ 0 :: rest) 0) with c. apply Forall_cons in Hs as [Hc Hs]. rewrite (proj2 (Z.eqb_neq _ _) Hc). cbn [Z.eqb].
    replace (zlength pre + 1) with (zlength (pre ++ [c])) by (rewrite length_app; cbn; lia).
    rewrite (IH fuel (pre ++ [c]) rest) by (done || (rewrite <- (assoc_L (++)); done) || (cbn in Hf; lia)). f_equal. cbn [length]. lia.
Qed.

Lemma field_loop_skip nb s : ∀ fuel pre rest fo fl, netbuf_bytes nb = pre ++ s ++ 0 :: rest → Forall (λ c, c ≠ 0) s → zlength (netbuf_bytes nb) < 65536 → (length s < fuel)%nat →
  ∃ fuel', fuel = (fuel' + length s + 1)%nat ∧ field_loop fuel nb 1 (zlength pre) fo fl = field_loop fuel' nb 0 (zlength (pre ++ s ++ [0])) (zlength (pre ++ s ++ [0])) fl.
Proof.
  induction s as [|c s IH]; intros fuel pre rest fo fl E Hs Hl Hf; (destruct fuel as [|fuel]; [lia|]); cbn [field_loop];
    assert (L := f_equal length E); rewrite !length_app in L; cbn [length] in L;
    (assert (Hlen : netbuf_len nb = zlength (netbuf_bytes nb)) by (apply u16_small; unfold is_u16; lia));
    rewrite Hlen, (proj2 (Z.ltb_lt (zlength pre) _)), netbuf_read_u8_spec by lia; cbn [andb Z.leb Z.compare]; rewrite E, at_app_r, Z.sub_diag by lia.
  - change (at_ ([] ++ 0 :: rest) 0) with 0. cbn [Z.eqb]. exists fuel. split; [cbn; lia|]. change (1 - 1) with 0. cbn [Z.eqb].
    by replace (zlength (pre ++ [] ++ [0])) with (zlength pre + 1) by (rewrite !length_app; cbn; lia).
  - change (at_ ((c :: s) ++ 0 :: rest) 0) with c. apply Forall_cons in Hs as [Hc Hs]. rewrite (proj2 (Z.eqb_neq _ _) Hc). cbn [Z.eqb].
    replace (zlength pre + 1) with (zlength (pre ++ [c])) by (rewrite length_app; cbn; lia).
    destruct (IH fuel (pre ++ [c]) rest fo fl) as (fuel' & E1 & E2); [rewrite <- (assoc_L (++)); done|done|done|cbn in Hf; lia|].
    exists fuel'. split; [cbn [length]; lia|]. change (1 =? 0) with false. cbn match. rewrite E2. rewrite <- !(assoc_L (++)). done.
Qed.

(** A write request for the firmware, with any options behind it. *)
Definition firmware_request (nb : netbuf) : Prop := zlength (netbuf_bytes nb) < 65536 ∧
  ∃ options, netbuf_bytes nb = htons TFTP_OP_WRQ ++ TFTP_FIRMWARE_FILE ++ [0] ++ TFTP_OCTET_MODE ++ [0] ++ options.

Context (Hheap : ∀ k n, malloc_ok k n = true).

(** Reading a field. *)
Lemma get_field_eq field nb s pre rest w : netbuf_bytes nb = pre ++ s ++ 0 :: rest → Forall (λ c, c ≠ 0) s → zlength (netbuf_bytes nb) < 65536 →
  field_loop (Z.to_nat (netbuf_len nb)) nb field 2 2 0 = (-1, zlength pre, zlength s + 1) →
  ∃ w', tftp_get_field field nb w = (Done (Some (s ++ [0])), w') ∧ w'.(w_events) = w.(w_events) ∧ (∀ x, cells w'.(w_board) x = cells w.(w_board) x)
    ∧ w'.(w_board).(bd_rtc) = w.(w_board).(bd_rtc) ∧ w'.(w_board).(bd_live) = w.(w_board).(bd_live) + 1.
Proof.
  intros E Hs Hl El. assert (L := f_equal length E). rewrite !length_app in L. cbn [length] in L. unfold tftp_get_field. rewrite El. change (negb (-1 =? -1)) with false. cbn match.
  assert (Er : netbuf_read nb (zlength s + 1) (zlength pre) = s ++ [0]).
  { rewrite netbuf_read_spec by lia. unfold sub_list. rewrite E, drop_app_length' by lia. replace (s ++ 0 :: rest) with ((s ++ [0]) ++ rest) by (by rewrite <- (assoc_L (++))).
    apply take_app_length'. rewrite length_app. cbn. lia. }
  erewrite TM_bind_eq by (apply on_board_eq; unfold os_malloc; rewrite Hheap; reflexivity). cbn match. rewrite Er. eexists. split; [reflexivity|]. done.
Qed.

Lemma wrq_phase_ok w nb evs : w.(w_events) = (ERR_OK, Some nb) :: evs → firmware_request nb →
  ∃ w', wrq_phase w = (Done true, w') ∧ w'.(w_events) = evs ∧ (∀ x, cells w'.(w_board) x = cells w.(w_board) x)
    ∧ w'.(w_board).(bd_rtc) = w.(w_board).(bd_rtc) ∧ w'.(w_board).(bd_live) = w.(w_board).(bd_live).
Proof.
  intros Hev (Hl & options & E). unfold wrq_phase. erewrite TM_bind_eq by reflexivity. set (w1 := Build_tftp_world _ _ _ _ _ _ _ _).
  assert (E1 : netconn_recv w1 = (Done (ERR_OK, Some nb), Build_tftp_world w.(w_board) evs w.(w_nsend) w.(w_sent) (w.(w_netbufs) + 1) w.(w_peer) 0 w.(w_progress))).
  { unfold netconn_recv, w1. cbn. by rewrite Hev. }
  erewrite TM_bind_eq by exact E1. cbn match. change (negb (ERR_OK =? ERR_OK)) with false. cbn match. set (w2 := Build_tftp_world _ _ _ _ _ _ _ _).
  assert (Hlen : netbuf_len nb = zlength (netbuf_bytes nb)) by (apply u16_small; unfold is_u16; lia).
  assert (L : zlength (netbuf_bytes nb) = 21 + zlength options) by (rewrite E; cbn; lia).
  rewrite (proj2 (Z.ltb_ge _ _)) by lia. 
  assert (Eop : netbuf_read_u16_n nb 0 = TFTP_OP_WRQ) by (rewrite netbuf_read_u16_spec by lia; by rewrite E). rewrite Eop. change (negb (TFTP_OP_WRQ =? TFTP_OP_WRQ)) with false. cbn match.
  assert (Hf : Forall (λ c, c ≠ 0) TFTP_FIRMWARE_FILE) by (repeat (apply Forall_cons_2; [done|]); apply Forall_nil_2).
  assert (Ho : Forall (λ c, c ≠ 0) TFTP_OCTET_MODE) by (repeat (apply Forall_cons_2; [done|]); apply Forall_nil_2).
  assert (EA : netbuf_bytes nb = htons TFTP_OP_WRQ ++ TFTP_FIRMWARE_FILE ++ 0 :: (TFTP_OCTET_MODE ++ [0] ++ options)) by exact E.
  assert (EB : netbuf_bytes nb = (htons TFTP_OP_WRQ ++ TFTP_FIRMWARE_FILE ++ [0]) ++ TFTP_OCTET_MODE ++ 0 :: options) by (rewrite E; by rewrite <- !(assoc_L (++))).
  assert (LA := field_loop_found nb TFTP_FIRMWARE_FILE (Z.to_nat (netbuf_len nb)) (htons TFTP_OP_WRQ) _ 2 0 EA Hf Hl).
  destruct (field_loop_skip nb TFTP_FIRMWARE_FILE (Z.to_nat (netbuf_len nb)) (htons TFTP_OP_WRQ) _ 2 0 EA Hf Hl) as (fuel' & F1 & F2); [cbn; lia|].
  rewrite (field_loop_found nb TFTP_OCTET_MODE fuel' _ options _ 0 EB Ho Hl) in F2 by (cbn in F1 |- *; lia).
  destruct (get_field_eq 0 nb TFTP_FIRMWARE_FILE (htons TFTP_OP_WRQ) _ w2 EA Hf Hl) as (w3 & E3 & V3 & C3 & R3 & L3); [apply LA; cbn; lia|].
  erewrite TM_bind_eq by exact E3. change (negb (field_is (Some (TFTP_FIRMWARE_FILE ++ [0])) TFTP_FIRMWARE_FILE)) with false. cbn match. erewrite TM_bind_eq by reflexivity.
  set (w4 := Build_tftp_world _ _ _ _ _ _ _ _). destruct (get_field_eq 1 nb TFTP_OCTET_MODE _ _ w4 EB Ho Hl F2) as (w5 & E5 & V5 & C5 & R5 & L5).
  erewrite TM_bind_eq by exact E5. change (negb (field_is (Some (TFTP_OCTET_MODE ++ [0])) TFTP_OCTET_MODE)) with false. cbn match.
  eexists. split; [reflexivity|]. split_and!; cbn.
  - by rewrite V5.
  - intros x. change (cells (Build_board ?d _ _ _) x) with (cell d x). etrans; [apply C5|]. apply C3.
  - by rewrite R5.
  - rewrite L5. cbn. rewrite L3. cbn. lia.
Qed.

(** ** The transfer *)


(** The complete image is accepted. *)
Lemma image_verifies a img (b : board D) : let f x := at_ img (x - a) in 0 < a → a `mod` 16 = 0 → a + 0x100010 ≤ chip_size sdk_flashchip → Forall is_byte img →
  image_valid f a → zlength img = image_size f a → (∀ x, a ≤ x < a + zlength img → cells b x = at_ img (x - a)) →
  (rboot_verify_image a b).1 = (None, zlength img) ∧ holds_image f (cells b) a.
Proof.
  intros f Ha Hm Hc Hb Hv Hl H. assert (Hf : ∀ x, is_byte (f x)) by (intros x; by apply at_byte).
  assert (Hh : holds_image f (cells b) a) by (intros x Hx; symmetry; apply H; lia). split; [|done].
  destruct (holds_image_valid f (cells b) a) as ((V1 & V2 & V3 & _) & V4); [done..|]. change (chip_size sdk_flashchip) with 4194304 in Hc.
  destruct (verify_image_spec a b) as (err & len & b2 & E2 & U2 & Verr & L2); [lia|zsolve|exact Hc|exact V1| |].
  { apply (sections_fit_sane _ _ _ (a + 0x100000)); [lia|exact V2]. }
  assert (Herr : err = None) by (by apply Verr). rewrite E2, (L2 Herr), V4, Hl, Herr. done.
Qed.

Context (Hsend : ∀ n, netconn_send_err n = ERR_OK).

(** The data of a transfer that delivers the image. *)
Lemma transfer_stores a img peer cb w : let f x := at_ img (x - a) in 0 < a → a `mod` SECTOR_SIZE = 0 → a + 0x100010 ≤ chip_size sdk_flashchip → Forall is_byte img →
  image_valid f a → zlength img = image_size f a → zlength img + 4 < MAX_IMAGE_SIZE →
  Forall words_event w.(w_events) → delivers 1 img TFTP_TIMEOUT_RETRANSMITS w.(w_events) →
  ∃ w', tftp_receive_data a (u32 (a + MAX_IMAGE_SIZE)) peer cb w = (Done (ERR_OK, zlength img), w') ∧ holds_image f (cells w'.(w_board)) a
    ∧ within a (a + MAX_IMAGE_SIZE) w w'.
Proof.
  intros f Ha Hm Hc Hb Hv Hl Hfit Hev Hdel. change (chip_size sdk_flashchip) with 4194304 in Hc. assert (Hm16 : a `mod` 16 = 0) by (unfold SECTOR_SIZE in Hm; zsolve).
  assert (Hver : ∀ b : board D, (∀ x, a ≤ x < a + zlength img → cells b x = at_ img (x - a)) → (rboot_verify_image a b).1 = (None, zlength img)).
  { intros b H. by apply (image_verifies a img b). }
  assert (Hc' : a + MAX_IMAGE_SIZE ≤ chip_size sdk_flashchip) by (unfold MAX_IMAGE_SIZE; change (chip_size sdk_flashchip) with 4194304; lia).
  unfold tftp_receive_data. rewrite u32_small by (unfold MAX_IMAGE_SIZE; lia).
  destruct (receive_delivers Hheap Hsend a ltac:(lia) Hm Hc' img Hfit Hb Hver 1 img TFTP_TIMEOUT_RETRANSMITS w.(w_events) Hdel (S (length w.(w_events))) [] cb peer w)
    as (w' & E & St); [done|lia|done|lia|done|split; [intros x Hx; cbn in Hx; lia|intros Hne; by rewrite Z.add_0_r in Hne]|].
  cbn [length] in E. change (Z.of_nat 0) with 0 in E. rewrite Z.add_0_r in E. exists w'. split; [done|]. split.
  - apply (image_verifies a img w'.(w_board)); try done. apply St.
  - assert (H := stays_receive Hheap a ltac:(lia) Hm Hc' w.(w_netbufs) (S (length w.(w_events))) cb a 0 1 TFTP_TIMEOUT_RETRANSMITS peer).
    specialize (H ltac:(unfold MAX_IMAGE_SIZE; lia) ltac:(unfold SECTOR_SIZE in Hm; zsolve) w Hev eq_refl). rewrite E in H. apply H.
Qed.

(** The image that an update has to bring to the slot at [a]. *)
Record good_update (a : Z) (img : list Z) : Prop := {
  gu_place : 0x2000 ≤ a ∧ a `mod` SECTOR_SIZE = 0 ∧ a + 0x100010 ≤ chip_size sdk_flashchip;
  gu_bytes : Forall is_byte img;
  gu_fits : zlength img + 4 < MAX_IMAGE_SIZE;
  gu_valid : let f x := at_ img (x - a) in image_valid f a ∧ zlength img = image_size f a;
}.

(** The server's round for a request and a transfer that delivers a good image. *)
Lemma tftp_round_ok c slot a img nb evs w : stored_config w.(w_board) = c → slot = (c.(current_rom) + 1) `mod` c.(count) → at_ c.(roms) slot = a →
  c.(current_rom) < c.(count) → 2 ≤ c.(count) ≤ MAX_ROMS → good_update a img → w.(w_events) = (ERR_OK, Some nb) :: evs → firmware_request nb →
  Forall words_event evs → delivers 1 img TFTP_TIMEOUT_RETRANSMITS evs →
  ∃ w', tftp_round w = (Restarted, w') ∧ stored_config w'.(w_board) = with_chksum (set_current_rom slot c) ∧ holds_image (λ x, at_ img (x - a)) (cells w'.(w_board)) a
    ∧ w'.(w_board).(bd_rtc) = w.(w_board).(bd_rtc) ∧ (∀ x, ¬ (a ≤ x < a + MAX_IMAGE_SIZE) → ¬ (0x1000 ≤ x < 0x1000 + SIZEOF_CONFIG) → cells w'.(w_board) x = cells w.(w_board) x)
    ∧ w'.(w_board).(bd_live) = w.(w_board).(bd_live).
Proof.
  intros Ec Es Ea Hcur Hcnt [(G1 & G2 & G3) Gb Gf (V1 & V2)] Hev Hreq Hwords Hdel. unfold tftp_round.
  assert (Hc0 : 0 ≤ c.(current_rom)).
  { destruct (stored_config_wf w.(w_board)) as [Hby _ _]. rewrite Ec in Hby. repeat match goal with H : Forall _ (_ :: _) |- _ => apply Forall_cons in H as [? H] end. unfold is_byte in *. lia. }
  assert (Hslot : 0 ≤ slot < c.(count) ∧ slot ≠ c.(current_rom)).
  { subst slot. split; [apply Z.mod_pos_bound; lia|]. destruct (decide (c.(current_rom) + 1 = c.(count))) as [E|E]; [rewrite E, Z_mod_same_full; lia|rewrite Z.mod_small; lia]. }
  destruct (wrq_phase_ok w nb evs Hev Hreq) as (w1 & E1 & X1 & C1 & R1 & L1). erewrite TM_bind_eq by exact E1. cbn [negb].
  assert (Ec1 : stored_config w1.(w_board) = c) by (rewrite <- Ec; apply stored_config_local; intros x _; apply C1).
  destruct (get_config_stored w1.(w_board)) as (b2 & E2 & (T1 & T2 & T3) & C2). erewrite TM_bind_eq by exact (on_board_eq _ _ _ _ E2). rewrite Ec1. clear E2.
  rewrite (proj2 (Z.eqb_neq c.(count) 0)) by lia. rewrite <- Es. rewrite (proj2 (Z.eqb_neq slot c.(current_rom))) by lia. cbv zeta.
  set (w2 := Build_tftp_world b2 _ _ _ _ _ _ _). destruct (tftp_send_spec Hheap (htons TFTP_OP_ACK ++ htons 0) w2) as (k & E3). rewrite Hsend in E3. unfold tftp_send_ack.
  erewrite TM_bind_eq by exact E3. change (negb (ERR_OK =? 0)) with false. cbn match. rewrite (proj2 (Z.ltb_lt slot MAX_ROMS)) by lia. cbn [negb].
  erewrite TM_bind_eq by reflexivity. set (w4 := Build_tftp_world _ _ _ _ _ _ 10000 _). rewrite Ea.
  destruct (transfer_stores a img None false w4) as (w5 & E5 & H5 & (W1 & W2 & W3)); [lia|done|exact G3|done|done|done|done|cbn; by rewrite X1|cbn; by rewrite X1|].
  erewrite TM_bind_eq by exact E5. cbn match. erewrite TM_bind_eq by reflexivity. change (ERR_OK =? ERR_OK) with true. cbn match. set (w6 := Build_tftp_world _ _ _ _ _ _ _ _).
  assert (C6 : ∀ x, ¬ (a ≤ x < a + MAX_IMAGE_SIZE) → cells w5.(w_board) x = cells w.(w_board) x) by (intros x Hx; rewrite W1 by done; rewrite <- C1, <- C2; done).
  assert (Ec6 : stored_config w6.(w_board) = c) by (rewrite <- Ec; apply stored_config_local; intros x Hx; apply C6; lia).
  destruct (set_current_rom_spec slot w6.(w_board)) as (b7 & E7 & S7 & C7 & L7 & T7); [apply Hheap|rewrite Ec6; lia|]. rewrite Ec6 in S7.
  erewrite TM_bind_eq by exact (on_board_eq _ _ _ _ E7). eexists. split; [reflexivity|]. cbn [w_board]. split; [done|]. split; [|split; [|split]].
  - intros x Hx. rewrite C7 by lia. by apply H5.
  - rewrite T7. etrans; [exact W2|]. etrans; [exact T1|exact R1].
  - intros x Hx Hy. rewrite C7 by done. by apply C6.
  - rewrite L7. etrans; [exact W3|]. etrans; [exact T3|exact L1].
Qed.

(** C4: a write request for the firmware followed by the blocks of an
    image that both checks accept (one header, or two with an irom section whose bytes have
    the exclusive or 0), with repetitions of blocks and up to ten timeouts before each, makes the
    server store the image in the slot after the current one, select it and restart; the
    boot loader then starts the new image from its header (the second one, if there are
    two).  Nothing outside of the slot and the configuration changes. *)
Theorem tftp_update_boots fuel img nb evs w :
  let c := stored_config w.(w_board) in let slot := (c.(current_rom) + 1) `mod` c.(count) in let a := at_ c.(roms) slot in
  config_valid c = true → c.(current_rom) < c.(count) → 2 ≤ c.(count) ≤ MAX_ROMS → netconn_new_ok = true → good_update a img →
  w.(w_events) = (ERR_OK, Some nb) :: evs → firmware_request nb → Forall words_event evs → delivers 1 img TFTP_TIMEOUT_RETRANSMITS evs →
  temp_boot_rom (boot_rtc w.(w_board)) c.(count) = Some None → (Z.to_nat c.(count) ≤ fuel)%nat →
  ∃ w' b', tftp_task w = (Restarted, w') ∧ find_image fuel w'.(w_board) = Some (image_start (λ x, at_ img (x - a)) a, b') ∧ stored_config b' = with_chksum (set_current_rom slot c)
    ∧ (∀ x, ¬ (a ≤ x < a + MAX_IMAGE_SIZE) → ¬ (0x1000 ≤ x < 0x1000 + SIZEOF_CONFIG) → cells b' x = cells w.(w_board) x)
    ∧ w'.(w_board).(bd_live) = w.(w_board).(bd_live).
Proof.
  intros c slot a Hv Hcur Hcnt Hnew Hgood Hev Hreq Hwords Hdel Ht Hfuel.
  destruct (tftp_round_ok c slot a img nb evs w) as (w' & E & S & H & R & C & L); [done..|].
  assert (Hgood' := Hgood). destruct Hgood' as [(G1 & G2 & G3) Gb Gf (V1 & V2)].
  assert (Hf : ∀ x, is_byte (at_ img (x - a))) by (intros x; by apply at_byte).
  destruct (holds_image_valid (λ x, at_ img (x - a)) (cells w'.(w_board)) a) as (X1 & _); [lia|done..|].
  destruct (image_local (λ x, at_ img (x - a)) (cells w'.(w_board)) a Hf H (proj1 V1)) as (P1 & _). assert (Hge := image_start_ge (λ x, at_ img (x - a)) Hf a).
  assert (Hslot : 0 ≤ slot < c.(count)) by (apply Z.mod_pos_bound; lia).
  destruct (find_image_selected fuel w'.(w_board) c slot a (image_start (λ x, at_ img (x - a)) a) S eq_refl Hv) as (b' & Ef & Cf); [lia|unfold MAX_ROMS in Hcnt; lia|by unfold boot_rtc; rewrite R|done|lia| |].
  { rewrite <- P1. apply check_image_valid; [lia|exact G3|exact X1]. }
  exists w', b'. split; [|split; [done|split; [rewrite <- S; by apply stored_config_local|split; [intros x Hx Hy; rewrite Cf; by apply C|done]]]].
  unfold tftp_task. rewrite Hnew, Hev. cbn [negb length tftp_loop]. unfold mbind, TM_bind. by rewrite E.
Qed.

(** ** Departures *)

(** An image that is too large: the packet that shows it is never deleted. *)
Theorem too_large_leaks start hi wo rl nb w : wo `mod` SECTOR_SIZE ≠ 0 → hi ≤ u32 (wo + netbuf_len nb) →
  ∃ w', store_block start hi wo rl nb w = (Done (Some ERR_VAL, rl), w') ∧ w'.(w_netbufs) = w.(w_netbufs).
Proof.
  intros Hm Hh. unfold store_block. rewrite (proj2 (Z.eqb_neq _ _) Hm). erewrite TM_bind_eq by reflexivity. rewrite (proj2 (Z.leb_le _ _) Hh).
  unfold tftp_send_error. destruct (tftp_send_spec Hheap (htons TFTP_OP_ERROR ++ htons TFTP_ERR_FULL ++ chars_of "Image too large"%string ++ [0]) w) as [k E].
  eexists. split; [erewrite TM_bind_eq by (erewrite TM_bind_eq by exact E; reflexivity); reflexivity|done].
Qed.

(** One to three bytes of data at an unaligned address: memmove with a negative length. *)
Theorem odd_packet_overruns s wo w : (s.(payload) + 4) `mod` 4 ≠ 0 → 4 < zlength s.(bytes) < 8 → write_segments true [s] wo 0 w = (Overrun, w).
Proof.
  intros Hm Hl. cbn [write_segments]. rewrite (proj2 (Z.ltb_ge _ 4)) by lia. cbn [andb]. rewrite length_drop.
  rewrite (proj2 (Z.eqb_neq _ 0)), (proj2 (Z.eqb_neq _ _) Hm), (proj2 (Z.ltb_lt _ 4)) by lia. done.
Qed.
End tftp.

(** ** Witnesses *)

#[local] Existing Instance zero_ram.
#[local] Existing Instance large_heap.
#[local] Instance good_net : Lwip := {|
  netconn_new_ok := true; netconn_bind_err := λ _, ERR_OK; netconn_gethostbyname_res := λ _, (ERR_OK, 0x0a000001);
  netconn_send_err := λ _, ERR_OK; stack_junk := λ _, 0 |}.

(** A packet in one segment, and one in two segments, the first at an odd address. *)
Definition one_segment (bs : list Z) : netbuf := {| segments := [ {| payload := 0; bytes := bs |} ]; from_addr := 0x0a000001; from_port := 69 |}.
Definition two_segments (n : nat) (bs : list Z) : netbuf :=
  {| segments := [ {| payload := 1; bytes := take n bs |}; {| payload := 0; bytes := drop n bs |} ]; from_addr := 0x0a000001; from_port := 69 |}.

Definition request : netbuf := one_segment (htons TFTP_OP_WRQ ++ TFTP_FIRMWARE_FILE ++ [0] ++ TFTP_OCTET_MODE ++ [0]).
Definition data_block (k : Z) (data : list Z) : list Z := htons TFTP_OP_DATA ++ htons k ++ data.

(** A block that comes too early is answered as a repetition, then the image comes. *)
Definition image_events : list (Z * option netbuf) :=
  [(ERR_OK, Some (one_segment (data_block 0 []))); (ERR_OK, Some (two_segments 12 (data_block 1 twin_image)))].

Definition server_world (evs : list (Z * option netbuf)) : tftp_world (spi_state (gmap Z Z)) :=
  Build_tftp_world (boot_device (small_image good_sum)) evs 0 [] 0 None 0 [].

Lemma image_events_words : Forall words_event image_events.
Proof.
  apply Forall_cons_2; [split; [intros _|done]; eexists; split; [reflexivity|]|apply Forall_cons_2; [split; [intros _|done]; eexists; split; [reflexivity|]|apply Forall_nil_2]].
  - split; [repeat (apply Forall_cons_2; [split; [done|vm_compute; repeat constructor; done]|]); apply Forall_nil_2|]. split; [by vm_compute|]. eexists _, _. split; [reflexivity|by vm_compute].
  - split; [repeat (apply Forall_cons_2; [split; [by vm_compute|vm_compute; repeat constructor; done]|]); apply Forall_nil_2|]. split; [by vm_compute|]. eexists _, _. split; [reflexivity|by vm_compute].
Qed.

Lemma image_events_deliver : delivers 1 twin_image TFTP_TIMEOUT_RETRANSMITS image_events.
Proof.
  assert (H := image_events_words). apply Forall_cons in H as [[H1 _] H]. apply Forall_cons in H as [[H2 _] _].
  apply (d_again _ _ _ _ []).
  - destruct (H1 eq_refl) as (nb & [= <-] & Hw). split; [exact Hw|]. by vm_compute.
  - apply d_last; [by vm_compute|]. destruct (H2 eq_refl) as (nb & [= <-] & Hw). split; [exact Hw|]. by vm_compute.
Qed.


Lemma update_is_good : good_update 0x102000 twin_image.
Proof.
  split; [done|vm_compute; repeat constructor; done|by vm_compute|]. split; [exact update_valid|by vm_compute].
Qed.

Lemma tftp_update_boots_witness : let w := server_world ((ERR_OK, Some request) :: image_events) in
  ∃ w' b', tftp_task w = (Restarted, w') ∧ find_image 2 w'.(w_board) = Some (0x102020, b') ∧ stored_config b' = with_chksum (set_current_rom 1 two_roms)
    ∧ (∀ x, ¬ (0x102000 ≤ x < 0x102000 + MAX_IMAGE_SIZE) → ¬ (0x1000 ≤ x < 0x1000 + SIZEOF_CONFIG) → cells b' x = cells w.(w_board) x)
    ∧ w'.(w_board).(bd_live) = w.(w_board).(bd_live).
Proof.
  assert (H := tftp_update_boots large_heap_ok (λ _, eq_refl) 2 twin_image request image_events (server_world ((ERR_OK, Some request) :: image_events))).
  cbv zeta in H |- *. change (w_board (server_world ((ERR_OK, Some request) :: image_events))) with (boot_device (small_image good_sum)) in *.
  rewrite boot_device_good in H. change ((two_roms.(current_rom) + 1) `mod` two_roms.(count)) with 1 in H. change (at_ two_roms.(roms) 1) with 0x102000 in H.
  apply H; [done|done|done|done|apply update_is_good|reflexivity| |apply image_events_words|apply image_events_deliver|vm_compute; reflexivity|done].
  split; [by vm_compute|]. by exists [].
Defined.
