(* ===== verification/Dhcp.v ===== *)
(** Dhcp: the DHCP server, extras/dhcpserver/dhcpserver.c.

    A message is the struct dhcp_msg of lwIP with options of 312 bytes.  The packets that
    netconn_recv gives are arguments, with the tick count when they come; a null pointer
    that is used is [None].  Output is left out. *)

From S2P Require Import Prelude Flash Tftp.

(** ** Constants *)

Definition DHCP_OPTIONS_LEN : Z := 312.
Definition DHCP_OPTIONS_OFS : Z := 240.
Definition SIZEOF_DHCP_MSG : Z := DHCP_OPTIONS_OFS + DHCP_OPTIONS_LEN.
Definition NETIF_MAX_HWADDR_LEN : Z := 6.
Definition DHCP_HTYPE_ETH : Z := 1.
Definition DHCP_BOOTREPLY : Z := 2.
Definition DHCP_DISCOVER : Z := 1.
Definition DHCP_OFFER : Z := 2.
Definition DHCP_REQUEST : Z := 3.
Definition DHCP_ACK : Z := 5.
Definition DHCP_NAK : Z := 6.
Definition DHCP_RELEASE : Z := 7.
Definition DHCP_OPTION_SUBNET_MASK : Z := 1.
Definition DHCP_OPTION_REQUESTED_IP : Z := 50.
Definition DHCP_OPTION_LEASE_TIME : Z := 51.
Definition DHCP_OPTION_MESSAGE_TYPE : Z := 53.
Definition DHCP_OPTION_MESSAGE_TYPE_LEN : Z := 1.
Definition DHCP_OPTION_SERVER_ID : Z := 54.
Definition DHCP_OPTION_END : Z := 255.
Definition DHCPSERVER_LEASE_TIME : Z := 3600.
Definition configTICK_RATE_HZ : Z := 100.

(** ** Data *)

Record dhcp_msg := {
  op : Z;
  htype : Z;
  hlen : Z;
  middle : list Z;    (** hops, xid, secs and flags: 9 bytes *)
  ciaddr : list Z;    (** 4 bytes in network order, as all addresses *)
  yiaddr : list Z;
  sgaddr : list Z;    (** siaddr and giaddr *)
  chaddr : list Z;    (** 16 bytes *)
  names : list Z;     (** sname, file and cookie: 196 bytes *)
  options : list Z;   (** 312 bytes *)
}.

Definition parse_msg (bs : list Z) : dhcp_msg := {|
  op := at_ bs 0; htype := at_ bs 1; hlen := at_ bs 2; middle := sub_list bs 3 9; ciaddr := sub_list bs 12 4; yiaddr := sub_list bs 16 4;
  sgaddr := sub_list bs 20 8; chaddr := sub_list bs 28 16; names := sub_list bs 44 196; options := sub_list bs 240 312 |}.

Record dhcp_lease_t := { hwaddr : list Z; expires : Z }.

Record server_state_t := {
  max_leases : Z;
  first_client_addr : list Z;
  server_ip : list Z;       (** ip_addr of server_if *)
  server_mask : list Z;     (** netmask of server_if *)
  leases : list dhcp_lease_t;
}.

Definition set_leases (l : list dhcp_lease_t) (s : server_state_t) : server_state_t := {|
  max_leases := s.(max_leases); first_client_addr := s.(first_client_addr); server_ip := s.(server_ip); server_mask := s.(server_mask); leases := l |}.
Definition set_lease (i : Z) (l : dhcp_lease_t) (s : server_state_t) : server_state_t := set_leases (<[Z.to_nat i := l]> s.(leases)) s.
Definition set_expires (e : Z) (l : dhcp_lease_t) : dhcp_lease_t := {| hwaddr := l.(hwaddr); expires := e |}.

(** ** Options *)

(** find_dhcp_option: the offset of the data in the options and their length. *)
Fixpoint find_option_loop (fuel : nat) (opts : list Z) (p option_num min_length : Z) : option (Z * Z) :=
  match fuel with
  | O => None
  | S fuel =>
      if p <? DHCP_OPTIONS_LEN - 2 then
        let type := at_ opts p in
        let len := at_ opts (p + 1) in
        let p := p + 2 in
        if type =? DHCP_OPTION_END then None
        else if DHCP_OPTIONS_LEN <=? p + len then None
        else if type =? option_num then if len <? min_length then None else Some (p, len)
        else find_option_loop fuel opts (p + len) option_num min_length
      else None
  end.
Definition find_dhcp_option (msg : dhcp_msg) (option_num min_length : Z) : option (Z * Z) := find_option_loop 156 msg.(options) 0 option_num min_length.

(** Writing to the options at the pointer [opt]; the new pointer. *)
Definition poke_options (opt : Z) (bs opts : list Z) : list Z := take (Z.to_nat opt) opts ++ bs ++ drop (Z.to_nat (opt + zlength bs)) opts.
Definition add_dhcp_option_byte (type value : Z) (o : list Z * Z) : list Z * Z :=
  let '(opts, opt) := o in (poke_options opt [type; 1; value] opts, opt + 3).
Definition add_dhcp_option_bytes (type : Z) (value : list Z) (o : list Z * Z) : list Z * Z :=
  let '(opts, opt) := o in
  let len := zlength value in
  let bs := if len =? 0 then [type] else [type; len] ++ value in
  (poke_options opt bs opts, opt + zlength bs).

(** The message as a reply, with cleared options. *)
Definition reply_options (build : list Z * Z → list Z * Z) : list Z := (build (replicate 312 0, 0)).1.
Definition reply (m : dhcp_msg) (y opts : list Z) : dhcp_msg := {|
  op := DHCP_BOOTREPLY; htype := m.(htype); hlen := m.(hlen); middle := m.(middle); ciaddr := m.(ciaddr); yiaddr := y; sgaddr := m.(sgaddr);
  chaddr := m.(chaddr); names := m.(names); options := opts |}.

(** ** Leases *)

(** find_lease_slot: a lease of this client, otherwise the first free one. *)
Fixpoint find_slot_loop (ls : list dhcp_lease_t) (i : Z) (hw : list Z) (empty_lease : option Z) : option Z :=
  match ls with
  | [] => empty_lease
  | l :: ls =>
      if (l.(expires) =? 0) && negb (bool_decide (is_Some empty_lease)) then find_slot_loop ls (i + 1) hw (Some i)
      else if bool_decide (take 6 hw = l.(hwaddr)) then Some i
      else find_slot_loop ls (i + 1) hw empty_lease
  end.
Definition find_lease_slot (s : server_state_t) (hw : list Z) : option Z := find_slot_loop s.(leases) 0 hw None.

(** Leases that have passed. *)
Definition expire_leases (now : Z) (s : server_state_t) : server_state_t :=
  set_leases ((λ l, if negb (l.(expires) =? 0) && (l.(expires) <? now) then set_expires 0 l else l) <$> s.(leases)) s.

(** ** Replies *)

Record dhcp_world := { dw_state : server_state_t; dw_nalloc : nat; dw_sent : list dhcp_msg }.

Section dhcp.
  Context {Hp : Heap}.

(** netbuf_new, netbuf_alloc, netbuf_take, netconn_sendto to 255.255.255.255:68, netbuf_delete; the results
    of the allocations are not checked. *)
Definition send_msg (m : dhcp_msg) (w : dhcp_world) : option dhcp_world :=
  if malloc_ok w.(dw_nalloc) 0 && malloc_ok (S w.(dw_nalloc)) SIZEOF_DHCP_MSG
  then Some {| dw_state := w.(dw_state); dw_nalloc := S (S w.(dw_nalloc)); dw_sent := w.(dw_sent) ++ [m] |}
  else None.

Definition with_state (s : server_state_t) (w : dhcp_world) : dhcp_world := {| dw_state := s; dw_nalloc := w.(dw_nalloc); dw_sent := w.(dw_sent) |}.

Definition send_dhcp_nak (m : dhcp_msg) (w : dhcp_world) : option dhcp_world :=
  let s := w.(dw_state) in
  send_msg (reply m m.(yiaddr) (reply_options (λ o,
    add_dhcp_option_bytes DHCP_OPTION_END []
      (add_dhcp_option_bytes DHCP_OPTION_SERVER_ID s.(server_ip)
        (add_dhcp_option_byte DHCP_OPTION_MESSAGE_TYPE DHCP_NAK o))))) w.

Definition handle_dhcp_discover (m : dhcp_msg) (w : dhcp_world) : option dhcp_world :=
  let s := w.(dw_state) in
  if negb (m.(htype) =? DHCP_HTYPE_ETH) then Some w
  else if NETIF_MAX_HWADDR_LEN <? m.(hlen) then Some w
  else
    match find_lease_slot s m.(chaddr) with
    | None => Some w
    | Some i =>
        let y := take 3 s.(first_client_addr) ++ [u8 (at_ s.(first_client_addr) 3 + i)] in
        send_msg (reply m y (reply_options (λ o,
          add_dhcp_option_bytes DHCP_OPTION_END []
            (add_dhcp_option_bytes DHCP_OPTION_SUBNET_MASK s.(server_mask)
              (add_dhcp_option_bytes DHCP_OPTION_SERVER_ID s.(server_ip)
                (add_dhcp_option_byte DHCP_OPTION_MESSAGE_TYPE DHCP_OFFER o)))))) w
    end.

(** The address that is asked for.  Without the option the code compares an uninitialised
    variable, [junk], with 0.0.0.0. *)
Definition requested_addr (junk : list Z) (m : dhcp_msg) : option (list Z) :=
  match find_dhcp_option m DHCP_OPTION_REQUESTED_IP 4 with
  | Some (p, _) => Some (sub_list m.(options) p 4)
  | None => if bool_decide (junk = [0; 0; 0; 0]) then Some m.(ciaddr) else None
  end.

Definition handle_dhcp_request (junk : list Z) (m : dhcp_msg) (w : dhcp_world) : option dhcp_world :=
  let s := w.(dw_state) in
  if negb (m.(htype) =? DHCP_HTYPE_ETH) then Some w
  else if NETIF_MAX_HWADDR_LEN <? m.(hlen) then Some w
  else
    match requested_addr junk m with
    | None => send_dhcp_nak m w
    | Some ip =>
        if negb (bool_decide (take 3 ip = take 3 s.(first_client_addr))) then send_dhcp_nak m w
        else
          let octet_offs := at_ ip 3 - at_ s.(first_client_addr) 3 in
          if (octet_offs <? 0) || (s.(max_leases) <=? octet_offs) then send_dhcp_nak m w
          else
            match s.(leases) !! Z.to_nat octet_offs with
            | None => None
            | Some l =>
                let n := Z.to_nat m.(hlen) in
                if negb (l.(expires) =? 0) && negb (bool_decide (take n l.(hwaddr) = take n m.(chaddr))) then send_dhcp_nak m w
                else
                  let l := {| hwaddr := take n m.(chaddr) ++ drop n l.(hwaddr); expires := u32 (DHCPSERVER_LEASE_TIME * configTICK_RATE_HZ) |} in
                  send_msg (reply m ip (reply_options (λ o,
                    add_dhcp_option_bytes DHCP_OPTION_END []
                      (add_dhcp_option_bytes DHCP_OPTION_SUBNET_MASK s.(server_mask)
                        (add_dhcp_option_bytes DHCP_OPTION_SERVER_ID s.(server_ip)
                          (add_dhcp_option_bytes DHCP_OPTION_LEASE_TIME (rev (le32 DHCPSERVER_LEASE_TIME))
                            (add_dhcp_option_byte DHCP_OPTION_MESSAGE_TYPE DHCP_ACK o)))))))
                    (with_state (set_lease octet_offs l s) w)
            end
    end.

Definition handle_dhcp_release (m : dhcp_msg) (w : dhcp_world) : option dhcp_world :=
  let s := w.(dw_state) in
  match find_lease_slot s m.(chaddr) with
  | None => Some w
  | Some i => match s.(leases) !! Z.to_nat i with None => None | Some l => Some (with_state (set_lease i (set_expires 0 l) s) w) end
  end.

(** ** The task *)

(** The received packet in the zeroed struct. *)
Definition copy_msg (nb : netbuf) : dhcp_msg :=
  let bs := pbuf_copy_partial nb.(segments) SIZEOF_DHCP_MSG 0 in
  parse_msg (bs ++ replicate (Z.to_nat (SIZEOF_DHCP_MSG - zlength bs)) 0).

(** A message whose type was found. *)
Definition dispatch (junk : list Z) (message_type : Z) (m : dhcp_msg) (w : dhcp_world) : option dhcp_world :=
  if message_type =? DHCP_DISCOVER then handle_dhcp_discover m w
  else if message_type =? DHCP_REQUEST then handle_dhcp_request junk m w
  else if message_type =? DHCP_RELEASE then handle_dhcp_release m w
  else Some w.

(** One pass of the loop of dhcpserver_task for a packet that was received at [now]. *)
Definition dhcp_round (junk : list Z) (now : Z) (nb : netbuf) (w : dhcp_world) : option dhcp_world :=
  let w := with_state (expire_leases now w.(dw_state)) w in
  if netbuf_len nb <? DHCP_OPTIONS_OFS then Some w
  else
    let m := copy_msg nb in
    match find_dhcp_option m DHCP_OPTION_MESSAGE_TYPE DHCP_OPTION_MESSAGE_TYPE_LEN with
    | None => Some w
    | Some (p, _) => dispatch junk (at_ m.(options) p) m w
    end.

(** The loop, for the packets in the order in which they come. *)
Fixpoint dhcpserver_task (evs : list (list Z * Z * netbuf)) (w : dhcp_world) : option dhcp_world :=
  match evs with
  | [] => Some w
  | (junk, now, nb) :: evs => w ← dhcp_round junk now nb w; dhcpserver_task evs w
  end.

(** ** Start and stop *)

(** The running task, and the blocks of the heap that were allocated here. *)
Record dhcp_global := { task_handle : bool; g_nalloc : nat; g_live : Z }.

Definition dhcpserver_stop (g : dhcp_global) : dhcp_global :=
  if g.(task_handle) then {| task_handle := false; g_nalloc := g.(g_nalloc); g_live := g.(g_live) - 1 |} else g.

(** The new state and [state->leases] of calloc; the interface is set by the task. *)
Definition dhcpserver_start (addr mask ip : list Z) (n : Z) (g : dhcp_global) : option (dhcp_global * server_state_t) :=
  let g := dhcpserver_stop g in
  if malloc_ok g.(g_nalloc) 20 && malloc_ok (S g.(g_nalloc)) (n * 12) then
    Some ({| task_handle := true; g_nalloc := S (S g.(g_nalloc)); g_live := g.(g_live) + 2 |},
          {| max_leases := n; first_client_addr := addr; server_ip := ip; server_mask := mask;
             leases := replicate (Z.to_nat n) {| hwaddr := replicate 6 0; expires := 0 |} |})
  else None.

End dhcp.
