(* ===== verification/DhcpTheorems.v ===== *)
(** DhcpTheorems: options are found as they were written, and no packet takes a lease from
    the client that holds it. *)

From S2P Require Import Prelude Flash Tftp TftpSpec Dhcp.

(** ** Options *)

(** The layout of options with data, and of one of them. *)
Definition tlv (o : Z * list Z) : list Z := [o.1; zlength o.2] ++ o.2.

(** An option that can be written: a type other than the end mark, one to 255 bytes. *)
Definition option_ok (o : Z * list Z) : Prop := o.1 ≠ DHCP_OPTION_END ∧ 0 < zlength o.2 < 256.

(** Writing options one behind the other. *)
Definition add_options (ops : list (Z * list Z)) (o : list Z * Z) : list Z * Z := foldl (λ o '(type, value), add_dhcp_option_bytes type value o) o ops.

Lemma poke_app pre bs post : poke_options (zlength pre) bs (pre ++ post) = pre ++ bs ++ drop (length bs) post.
Proof.
  unfold poke_options. rewrite Nat2Z.id, take_app_length. f_equal. f_equal.
  replace (Z.to_nat (zlength pre + zlength bs)) with (length pre + length bs)%nat by lia. rewrite drop_app_add. done.
Qed.

Lemma add_options_layout ops : ∀ pre post, Forall option_ok ops →
  add_options ops (pre ++ post, zlength pre) = (pre ++ concat (tlv <$> ops) ++ drop (length (concat (tlv <$> ops))) post, zlength (pre ++ concat (tlv <$> ops))).
Proof.
  induction ops as [|[t v] ops IH]; intros pre post Ho; [cbn; by rewrite app_nil_r|]. apply Forall_cons in Ho as [[_ Hv] Ho]. cbn in Hv.
  cbn [add_options foldl]. unfold add_dhcp_option_bytes at 2. rewrite (proj2 (Z.eqb_neq (zlength v) 0)) by lia. rewrite poke_app.
  change ([t; zlength v] ++ v) with (tlv (t, v)). fold (add_options ops (pre ++ tlv (t, v) ++ drop (length (tlv (t, v))) post, zlength pre + zlength (tlv (t, v)))).
  rewrite (assoc_L (++) pre). replace (zlength pre + zlength (tlv (t, v))) with (zlength (pre ++ tlv (t, v))) by (rewrite length_app; lia).
  rewrite IH by done. cbn [fmap list_fmap concat]. rewrite <- !(assoc_L (++)), drop_drop, !length_app. done.
Qed.

(** The first option of a type. *)
Fixpoint first_option (t : Z) (ops : list (Z * list Z)) : option (list Z) :=
  match ops with [] => None | (t', v) :: ops => if t' =? t then Some v else first_option t ops end.

Lemma at_tlv pre t v post : at_ (pre ++ tlv (t, v) ++ post) (zlength pre) = t ∧ at_ (pre ++ tlv (t, v) ++ post) (zlength pre + 1) = zlength v.
Proof. split; (rewrite at_app_r by lia); [by rewrite Z.sub_diag|]. by replace (zlength pre + 1 - zlength pre) with 1 by lia. Qed.

Lemma find_option_layout ops t min : t ≠ DHCP_OPTION_END → ∀ fuel pre junk, Forall option_ok ops →
  let opts := pre ++ concat (tlv <$> ops) ++ DHCP_OPTION_END :: junk in zlength opts = DHCP_OPTIONS_LEN → 2 ≤ zlength junk → (length ops < fuel)%nat →
  let res := find_option_loop fuel opts (zlength pre) t min in
  match first_option t ops with
  | Some v => if zlength v <? min then res = None else ∃ p, res = Some (p, zlength v) ∧ sub_list opts p (zlength v) = v
  | None => res = None
  end.
Proof.
  intros Ht. induction ops as [|[t' v] ops IH]; intros fuel pre junk Ho opts Hl Hj Hf res; (destruct fuel as [|fuel]; [cbn in Hf; lia|]); subst res; cbn [find_option_loop].
  - cbn [fmap list_fmap concat app] in opts. subst opts. rewrite length_app in Hl. cbn [length] in Hl. unfold DHCP_OPTIONS_LEN in *.
    rewrite (proj2 (Z.ltb_lt _ _)) by lia. rewrite at_app_r, Z.sub_diag by lia. by change (at_ (DHCP_OPTION_END :: junk) 0) with DHCP_OPTION_END.
  - apply Forall_cons in Ho as [[H1 H2] Ho]. cbn in H1, H2. cbn [first_option]. cbn [fmap list_fmap concat] in opts.
    set (rest := concat (tlv <$> ops) ++ DHCP_OPTION_END :: junk). assert (Eo : opts = pre ++ tlv (t', v) ++ rest) by (unfold opts, rest; by rewrite <- (assoc_L (++))).
    destruct (at_tlv pre t' v rest) as [A1 A2]. clearbody opts. subst opts. rewrite A1, A2.
    assert (Hlr : zlength (pre ++ tlv (t', v) ++ rest) = zlength pre + 2 + zlength v + zlength rest) by (rewrite !length_app; cbn; lia).
    assert (Hr : 3 ≤ zlength rest) by (unfold rest; rewrite length_app; cbn [length]; lia). unfold DHCP_OPTIONS_LEN in *.
    rewrite (proj2 (Z.ltb_lt _ _)) by lia. rewrite (proj2 (Z.eqb_neq t' DHCP_OPTION_END)) by done. rewrite (proj2 (Z.leb_gt _ _)) by lia.
    destruct (Z.eqb_spec t' t) as [->|Hne].
    + destruct (zlength v <? min); [done|]. exists (zlength pre + 2). split; [done|]. unfold sub_list.
      rewrite (assoc_L (++)).
      replace (Z.to_nat (zlength pre + 2)) with (length (pre ++ [t; zlength v])) by (rewrite length_app; cbn; lia).
      replace ((pre ++ tlv (t, v)) ++ rest) with ((pre ++ [t; zlength v]) ++ v ++ rest) by (unfold tlv; cbn; rewrite <- !(assoc_L (++)); done).
      rewrite drop_app_length, Nat2Z.id. apply take_app_length.
    + replace (zlength pre + 2 + zlength v) with (zlength (pre ++ tlv (t', v))) by (rewrite length_app; cbn; lia). rewrite (assoc_L (++)).
      apply (IH fuel (pre ++ tlv (t', v)) junk); [done|rewrite <- (assoc_L (++)); fold rest; lia|done|cbn in Hf; lia].
Qed.

(** C27: options that are written one behind the other and closed with the end mark are
    found again: find_dhcp_option gives the data of the first option of the type, if they
    have the least length, and nothing for a type that was not written. *)
Theorem dhcp_options_roundtrip ops m t min :
  Forall option_ok ops → zlength (concat (tlv <$> ops)) + 3 ≤ DHCP_OPTIONS_LEN → (length ops < 156)%nat → t ≠ DHCP_OPTION_END →
  m.(options) = reply_options (λ o, add_dhcp_option_bytes DHCP_OPTION_END [] (add_options ops o)) →
  match first_option t ops with
  | Some v => if zlength v <? min then find_dhcp_option m t min = None
              else ∃ p, find_dhcp_option m t min = Some (p, zlength v) ∧ sub_list m.(options) p (zlength v) = v
  | None => find_dhcp_option m t min = None
  end.
Proof.
  intros Ho Hl Hn Ht Em. unfold find_dhcp_option. rewrite Em. unfold reply_options. clear Em. set (z := replicate 312 0). assert (Hz : length z = 312%nat) by reflexivity. clearbody z.
  assert (E := add_options_layout ops [] z Ho). cbn [app] in E. change (zlength []) with 0 in E. rewrite E. clear E. unfold add_dhcp_option_bytes. cbn [zlength length]. change (Z.of_nat 0 =? 0) with true. cbn match.
  set (enc := concat (tlv <$> ops)) in *. rewrite (poke_app enc [DHCP_OPTION_END]). cbn [fst length]. rewrite drop_drop. unfold DHCP_OPTIONS_LEN in Hl.
  apply (find_option_layout ops t min Ht 156 [] (drop (length enc + 1) z)); [done| |rewrite length_drop; lia|done].
  cbn [app]. fold enc. rewrite length_app. cbn [length]. rewrite length_drop. unfold DHCP_OPTIONS_LEN. lia.
Qed.

(** ** Leases *)

(** The time that every lease gets. *)
Definition lease_end : Z := DHCPSERVER_LEASE_TIME * configTICK_RATE_HZ.

Record wf_server (s : server_state_t) : Prop := {
  ws_count : zlength s.(leases) = s.(max_leases);
  ws_first : ∃ a b c d, s.(first_client_addr) = [a; b; c; d] ∧ is_byte d ∧ d + s.(max_leases) ≤ 256;
  ws_ip : length s.(server_ip) = 4%nat;
  ws_mask : length s.(server_mask) = 4%nat;
  ws_leases : Forall (λ l, length l.(hwaddr) = 6%nat ∧ (l.(expires) = 0 ∨ l.(expires) = lease_end)) s.(leases);
}.

(** The client of a message, the address of a slot, and the type of a message. *)
Definition client (m : dhcp_msg) : list Z := take 6 m.(chaddr).
Definition slot_addr (s : server_state_t) (i : Z) : list Z := take 3 s.(first_client_addr) ++ [at_ s.(first_client_addr) 3 + i].
Definition msg_type (m : dhcp_msg) : option Z :=
  match find_dhcp_option m DHCP_OPTION_MESSAGE_TYPE DHCP_OPTION_MESSAGE_TYPE_LEN with Some (p, _) => Some (at_ m.(options) p) | None => None end.

(** A slot that is free for a client. *)
Definition free_for (hw : list Z) (l : dhcp_lease_t) : Prop := l.(expires) = 0 ∨ l.(hwaddr) = hw.

Lemma find_slot_spec ls : ∀ i hw e, match find_slot_loop ls i hw e with
  | Some j => e = Some j ∨ ∃ l, i ≤ j ∧ ls !! Z.to_nat (j - i) = Some l ∧ free_for (take 6 hw) l
  | None => e = None ∧ Forall (λ l, ¬ free_for (take 6 hw) l) ls
  end.
Proof.
  induction ls as [|l ls IH]; intros i hw e; cbn [find_slot_loop]; [destruct e; [by left|done]|].
  assert (Hnext : ∀ e', match find_slot_loop ls (i + 1) hw e' with
    | Some j => e' = Some j ∨ ∃ l0, i ≤ j ∧ (l :: ls) !! Z.to_nat (j - i) = Some l0 ∧ free_for (take 6 hw) l0
    | None => e' = None ∧ Forall (λ l, ¬ free_for (take 6 hw) l) ls end).
  { intros e'. specialize (IH (i + 1) hw e'). destruct (find_slot_loop ls (i + 1) hw e') as [j|]; [|done]. destruct IH as [IH|(l0 & Hj & Hl & Hf)]; [by left|]. right. exists l0. split; [lia|].
    split; [|done]. replace (Z.to_nat (j - i)) with (S (Z.to_nat (j - (i + 1)))) by lia. done. }
  assert (Hhere : free_for (take 6 hw) l → ∃ l0, i ≤ i ∧ (l :: ls) !! Z.to_nat (i - i) = Some l0 ∧ free_for (take 6 hw) l0) by (intros H; exists l; rewrite Z.sub_diag; done).
  destruct (Z.eqb_spec l.(expires) 0) as [He|He]; cbn [andb].
  - destruct (decide (is_Some e)) as [[k ->]|Hne].
    + rewrite bool_decide_true by (by eexists). cbn [negb]. case_bool_decide as Hh; [right; apply Hhere; by left|]. specialize (Hnext (Some k)).
      destruct (find_slot_loop _ _ _ _); [done|]. by destruct Hnext.
    + rewrite bool_decide_false by done. cbn [negb]. specialize (Hnext (Some i)). destruct (find_slot_loop _ _ _ _) as [j|]; [|by destruct Hnext].
      destruct Hnext as [[= ->]|H]; [right; apply Hhere; by left|by right].
  - case_bool_decide as Hh; [right; apply Hhere; right; done|]. specialize (Hnext e). destruct (find_slot_loop _ _ _ _) as [j|]; [done|]. destruct Hnext as [-> H]. split; [done|].
    apply Forall_cons_2; [|done]. intros [?|?]; [done|]. apply Hh. done.
Qed.

Lemma find_lease_slot_spec s hw : match find_lease_slot s hw with
  | Some j => 0 ≤ j < zlength s.(leases) ∧ ∃ l, s.(leases) !! Z.to_nat j = Some l ∧ free_for (take 6 hw) l
  | None => Forall (λ l, ¬ free_for (take 6 hw) l) s.(leases)
  end.
Proof.
  unfold find_lease_slot. assert (H := find_slot_spec s.(leases) 0 hw None). destruct (find_slot_loop _ _ _ _) as [j|]; [|by destruct H].
  destruct H as [?|(l & Hj & Hl & Hf)]; [done|]. rewrite Z.sub_0_r in Hl. split; [|by exists l]. apply lookup_lt_Some in Hl. lia.
Qed.

(** The sizes of the fields of a received message. *)
Lemma copy_msg_sizes nb : length (copy_msg nb).(chaddr) = 16%nat ∧ length (copy_msg nb).(ciaddr) = 4%nat ∧ length (copy_msg nb).(options) = 312%nat.
Proof.
  unfold copy_msg. rewrite pbuf_copy_partial_spec by (unfold SIZEOF_DHCP_MSG, DHCP_OPTIONS_OFS, DHCP_OPTIONS_LEN; lia).
  set (bs := sub_list _ _ _). assert (Hb : (length bs ≤ 552)%nat) by (unfold bs, sub_list; rewrite length_take; change (Z.to_nat SIZEOF_DHCP_MSG) with 552%nat; lia).
  set (buf := bs ++ _). assert (Hl : zlength buf = 552) by (unfold buf; rewrite length_app, length_replicate; unfold SIZEOF_DHCP_MSG, DHCP_OPTIONS_OFS, DHCP_OPTIONS_LEN; lia).
  clearbody buf. unfold parse_msg. cbn [chaddr ciaddr options].
  assert (Hs : ∀ o n, 0 ≤ o → 0 ≤ n → o + n ≤ 552 → length (sub_list buf o n) = Z.to_nat n) by (intros o n ? ? ?; pose proof (length_sub_list buf o n); lia).
  rewrite !Hs by lia. done.
Qed.

Lemma find_option_bounds fuel : ∀ opts p t min i len, 0 ≤ p → (∀ k, 0 ≤ at_ opts k) → find_option_loop fuel opts p t min = Some (i, len) →
  0 ≤ i ∧ i + len < DHCP_OPTIONS_LEN ∧ min ≤ len.
Proof.
  induction fuel as [|fuel IH]; intros opts p t min i len Hp Hb; cbn [find_option_loop]; [done|]. destruct (_ <? _); [|done]. destruct (_ =? _); [done|].
  destruct (Z.leb_spec DHCP_OPTIONS_LEN (p + 2 + at_ opts (p + 1))); [done|]. destruct (_ =? t).
  - destruct (Z.ltb_spec (at_ opts (p + 1)) min); [done|]. intros [= <- <-]. lia.
  - apply IH; [specialize (Hb (p + 1)); lia|done].
Qed.

Lemma copy_msg_bytes nb : Forall is_byte (netbuf_bytes nb) → Forall is_byte (copy_msg nb).(options).
Proof.
  intros Hb. unfold copy_msg. rewrite pbuf_copy_partial_spec by (unfold SIZEOF_DHCP_MSG, DHCP_OPTIONS_OFS, DHCP_OPTIONS_LEN; lia). unfold parse_msg. cbn [options].
  unfold sub_list at 1. apply Forall_take, Forall_drop, Forall_app_2; [apply Forall_take, Forall_drop, Hb|]. apply Forall_replicate. unfold is_byte. lia.
Qed.

(** The requested address has four bytes. *)
Lemma requested_addr_size junk nb ip : Forall is_byte (netbuf_bytes nb) → requested_addr junk (copy_msg nb) = Some ip → length ip = 4%nat.
Proof.
  intros Hb. destruct (copy_msg_sizes nb) as (_ & Hc & Ho). assert (Hob := copy_msg_bytes nb Hb). generalize dependent (copy_msg nb). intros m Hc Ho Hob. unfold requested_addr, find_dhcp_option.
  destruct (find_option_loop _ _ _ _ _) as [[p len]|] eqn:E; [|case_bool_decide; [intros [= <-]; done|done]]. intros [= <-].
  apply find_option_bounds in E as (H1 & H2 & H3); [|lia|intros k; apply (at_byte _ k) in Hob; unfold is_byte in Hob; lia].
  unfold DHCP_OPTIONS_LEN in H2. pose proof (length_sub_list m.(options) p 4 H1). lia.
Qed.

(** The types of the three replies. *)
Lemma reply_types m y a b c d a' b' c' d' :
  msg_type (reply m y (reply_options (λ o, add_dhcp_option_bytes DHCP_OPTION_END [] (add_dhcp_option_bytes DHCP_OPTION_SERVER_ID [a; b; c; d]
    (add_dhcp_option_byte DHCP_OPTION_MESSAGE_TYPE DHCP_NAK o))))) = Some DHCP_NAK ∧
  msg_type (reply m y (reply_options (λ o, add_dhcp_option_bytes DHCP_OPTION_END [] (add_dhcp_option_bytes DHCP_OPTION_SUBNET_MASK [a'; b'; c'; d']
    (add_dhcp_option_bytes DHCP_OPTION_SERVER_ID [a; b; c; d] (add_dhcp_option_byte DHCP_OPTION_MESSAGE_TYPE DHCP_OFFER o)))))) = Some DHCP_OFFER ∧
  msg_type (reply m y (reply_options (λ o, add_dhcp_option_bytes DHCP_OPTION_END [] (add_dhcp_option_bytes DHCP_OPTION_SUBNET_MASK [a'; b'; c'; d']
    (add_dhcp_option_bytes DHCP_OPTION_SERVER_ID [a; b; c; d] (add_dhcp_option_bytes DHCP_OPTION_LEASE_TIME (rev (le32 DHCPSERVER_LEASE_TIME))
      (add_dhcp_option_byte DHCP_OPTION_MESSAGE_TYPE DHCP_ACK o))))))) = Some DHCP_ACK.
Proof. repeat split; vm_compute; reflexivity. Qed.

Lemma list_four {A} (l : list A) : length l = 4%nat → ∃ a b c d, l = [a; b; c; d].
Proof. destruct l as [|a [|b [|c [|d [|]]]]]; try done. by exists a, b, c, d. Qed.

Lemma wf_set_lease s i l : wf_server s → length l.(hwaddr) = 6%nat → l.(expires) = 0 ∨ l.(expires) = lease_end → wf_server (set_lease i l s).
Proof. intros [H1 H2 H3 H4 H5] Hl He. split; cbn; [by rewrite length_insert|done|done|done|]. by apply Forall_insert. Qed.

Lemma wf_expire now s : wf_server s → wf_server (expire_leases now s).
Proof.
  intros [H1 H2 H3 H4 H5]. split; cbn; [by rewrite length_fmap|done|done|done|]. apply Forall_fmap. eapply Forall_impl; [exact H5|]. intros l [Hl He]. cbn.
  destruct (_ && _); [|done]. split; [done|by left].
Qed.

Lemma expire_keeps now s i l : s.(leases) !! i = Some l → now ≤ l.(expires) → (expire_leases now s).(leases) !! i = Some l.
Proof. intros Hl Hn. cbn. rewrite list_lookup_fmap, Hl. cbn. rewrite (proj2 (Z.ltb_ge _ _)), andb_false_r by lia. done. Qed.

(** A lease of a client that is kept by a message: it is held, and the message is not the client's release. *)
Definition held_over (m : dhcp_msg) (l : dhcp_lease_t) : Prop := l.(expires) ≠ 0 ∧ (l.(hwaddr) = client m → msg_type m ≠ Some DHCP_RELEASE).

(** The address of a reply to [m] in a server that was in [s] and is in [s']. *)
Definition reply_ok (m : dhcp_msg) (s s' : server_state_t) (r : dhcp_msg) : Prop :=
  client r = client m ∧
  (msg_type r = Some DHCP_NAK ∧ s' = s ∨
   ∃ i l, 0 ≤ i < s.(max_leases) ∧ s.(leases) !! Z.to_nat i = Some l ∧ free_for (client m) l ∧ r.(yiaddr) = slot_addr s i ∧
     (msg_type r = Some DHCP_OFFER ∧ s' = s ∨ msg_type r = Some DHCP_ACK ∧ s' = set_lease i {| hwaddr := client m; expires := lease_end |} s)).

(** The server in [s'] with the replies [rs] after the message [m] in [s]. *)
Record served (m : dhcp_msg) (s s' : server_state_t) (rs : list dhcp_msg) : Prop := {
  sv_wf : wf_server s';
  sv_frame : s'.(first_client_addr) = s.(first_client_addr) ∧ s'.(max_leases) = s.(max_leases);
  sv_kept : ∀ i l, s.(leases) !! i = Some l → held_over m l → s'.(leases) !! i = Some l;
  sv_replies : rs = [] ∨ ∃ r, rs = [r] ∧ reply_ok m s s' r;
}.

Lemma served_still m s : wf_server s → served m s s [].
Proof. intros Hs. split; [done|done|done|by left]. Qed.

Section rounds.
  Context {Hp : Heap}.
  Hypothesis heap_ok : ∀ k n, malloc_ok k n = true.

Lemma send_msg_ok m w : ∃ w', send_msg m w = Some w' ∧ w'.(dw_state) = w.(dw_state) ∧ w'.(dw_sent) = w.(dw_sent) ++ [m].
Proof. unfold send_msg. rewrite !heap_ok. by eexists. Qed.

(** What a handler does with a message. *)
Definition handles (m : dhcp_msg) (w : dhcp_world) (o : option dhcp_world) : Prop :=
  ∃ w' rs, o = Some w' ∧ w'.(dw_sent) = w.(dw_sent) ++ rs ∧ served m w.(dw_state) w'.(dw_state) rs.

Lemma handles_nothing m w : wf_server w.(dw_state) → handles m w (Some w).
Proof. intros Hs. exists w, []. rewrite app_nil_r. split; [done|]. split; [done|]. by apply served_still. Qed.

Lemma handles_nak m w : wf_server w.(dw_state) → handles m w (send_dhcp_nak m w).
Proof.
  intros Hs. unfold send_dhcp_nak. destruct (list_four _ (ws_ip _ Hs)) as (a & b & c & d & Ei). rewrite Ei.
  set (r := reply _ _ _). assert (Hr : msg_type r = Some DHCP_NAK) by apply (reply_types m m.(yiaddr) a b c d 0 0 0 0).
  assert (Hc : client r = client m) by done. clearbody r. destruct (send_msg_ok r w) as (w' & -> & Es & ES). exists w', [r]. rewrite Es. split; [done|]. split; [done|].
  split; [done|done|done|]. right. exists r. split; [done|]. split; [done|]. by left.
Qed.

Lemma handles_discover m w : wf_server w.(dw_state) → handles m w (handle_dhcp_discover m w).
Proof.
  intros Hs. unfold handle_dhcp_discover. destruct (negb _); [by apply handles_nothing|]. destruct (_ <? _); [by apply handles_nothing|].
  assert (Hf := find_lease_slot_spec w.(dw_state) m.(chaddr)). destruct (find_lease_slot _ _) as [i|]; [|by apply handles_nothing]. destruct Hf as (Hi & l & Hl & Hf).
  destruct (list_four _ (ws_ip _ Hs)) as (a & b & c & d & Ei). destruct (list_four _ (ws_mask _ Hs)) as (a' & b' & c' & d' & Em). rewrite Ei, Em.
  set (y := take 3 _ ++ _). set (r := reply _ _ _). assert (Hr : msg_type r = Some DHCP_OFFER) by apply (reply_types m y a b c d a' b' c' d').
  assert (Hc : client r = client m) by done. assert (Hy : r.(yiaddr) = slot_addr w.(dw_state) i).
  { cbn. unfold y, slot_addr. destruct (ws_first _ Hs) as (e & f & g & h & Ef & Hh & Hm). rewrite Ef. rewrite <- (ws_count _ Hs) in Hm. change (at_ [e; f; g; h] 3) with h. unfold is_byte in Hh. rewrite u8_small by (unfold is_byte; lia). done. }
  clearbody r. destruct (send_msg_ok r w) as (w' & -> & Es & ES). exists w', [r]. rewrite Es. split; [done|]. split; [done|].
  split; [done|done|done|]. right. exists r. split; [done|]. split; [done|]. right. exists i, l. rewrite <- (ws_count _ Hs). repeat split; try done; try lia. by left.
Qed.

Lemma handles_release m w : msg_type m = Some DHCP_RELEASE → wf_server w.(dw_state) → handles m w (handle_dhcp_release m w).
Proof.
  intros Ht Hs. unfold handle_dhcp_release. assert (Hf := find_lease_slot_spec w.(dw_state) m.(chaddr)). destruct (find_lease_slot _ _) as [i|]; [|by apply handles_nothing].
  destruct Hf as (Hi & l & Hl & Hf). rewrite Hl. eexists _, []. rewrite app_nil_r. split; [done|]. split; [done|]. cbn [dw_state with_state].
  assert (Hwl := proj1 (Forall_lookup _ _) (ws_leases _ Hs) _ _ Hl). cbn in Hwl. split; [apply wf_set_lease; [done|apply Hwl|by left]|done| |by left].
  intros j k Hk [Hx Hh]. cbn. destruct (decide (j = Z.to_nat i)) as [->|Hne]; [|by rewrite list_lookup_insert_ne by done]. simplify_eq. exfalso.
  destruct Hf as [?|Hw]; [done|]. by apply Hh.
Qed.

Lemma handles_request junk nb w : let m := copy_msg nb in Forall is_byte (netbuf_bytes nb) → m.(hlen) = NETIF_MAX_HWADDR_LEN → wf_server w.(dw_state) →
  handles m w (handle_dhcp_request junk m w).
Proof.
  intros m Hb Hh Hs. destruct (copy_msg_sizes nb) as (Hca & _). assert (Hip := λ ip, requested_addr_size junk nb ip Hb). fold m in Hca, Hip. clearbody m.
  unfold handle_dhcp_request. rewrite Hh. destruct (negb _); [by apply handles_nothing|]. rewrite Z.ltb_irrefl. destruct (requested_addr junk m) as [ip|]; [|by apply handles_nak].
  destruct (list_four _ (Hip ip eq_refl)) as (a & b & c & d & ->). case_bool_decide as Hf; [|by apply handles_nak]. cbn [negb].
  set (offs := at_ [a; b; c; d] 3 - _). destruct (Z.ltb_spec offs 0); [by apply handles_nak|]. destruct (Z.leb_spec (max_leases w.(dw_state)) offs); [by apply handles_nak|]. cbn [orb].
  assert (Hcount := ws_count _ Hs). destruct (lookup_lt_is_Some_2 w.(dw_state).(leases) (Z.to_nat offs)) as [l Hl]; [lia|]. rewrite Hl.
  destruct (proj1 (Forall_lookup _ _) (ws_leases _ Hs) _ _ Hl) as [Hwl Hex]. change (Z.to_nat NETIF_MAX_HWADDR_LEN) with 6%nat. rewrite (take_ge l.(hwaddr)) by lia.
  fold (client m). rewrite (drop_ge l.(hwaddr)), app_nil_r by lia.
  destruct (negb (l.(expires) =? 0) && negb (bool_decide (l.(hwaddr) = client m))) eqn:Eg; [by apply handles_nak|].
  assert (Hfree : free_for (client m) l).
  { apply andb_false_iff in Eg as [Eg|Eg]; apply negb_false_iff in Eg; [left; by apply Z.eqb_eq|right; by apply bool_decide_eq_true in Eg]. }
  change (u32 (DHCPSERVER_LEASE_TIME * configTICK_RATE_HZ)) with lease_end. set (l' := {| hwaddr := client m; expires := lease_end |}).
  destruct (list_four _ (ws_ip _ Hs)) as (i1 & i2 & i3 & i4 & Ei). destruct (list_four _ (ws_mask _ Hs)) as (m1 & m2 & m3 & m4 & Em). rewrite Ei, Em.
  set (r := reply _ _ _). assert (Hr : msg_type r = Some DHCP_ACK) by apply (reply_types m [a; b; c; d] i1 i2 i3 i4 m1 m2 m3 m4).
  assert (Hc : client r = client m) by done. assert (Hy : r.(yiaddr) = slot_addr w.(dw_state) offs).
  { cbn. unfold slot_addr. rewrite <- Hf. cbn. do 4 f_equal. unfold offs. change (at_ [a; b; c; d] 3) with d. lia. }
  assert (Hcl : length (client m) = 6%nat) by (unfold client; rewrite length_take; lia). clearbody r. edestruct (send_msg_ok r) as (w' & -> & Es & ES). exists w', [r]. rewrite Es. split; [done|].
  split; [done|]. cbn [dw_state with_state]. split; [apply wf_set_lease; [done|done|by right]|done| |].
  - intros j k Hk [Hx _]. cbn. destruct (decide (j = Z.to_nat offs)) as [->|Hne]; [|by rewrite list_lookup_insert_ne by done]. simplify_eq.
    rewrite list_lookup_insert_eq by lia. destruct Hfree as [?|Hw]; [done|]. destruct Hex as [?|He]; [done|]. unfold l'. rewrite <- Hw, <- He. by destruct l.
  - right. exists r. split; [done|]. split; [done|]. right. exists offs, l. repeat split; try done; try lia. by right.
Qed.

(** A packet of bytes; a request has an Ethernet address of six bytes. *)
Definition packet_ok (nb : netbuf) : Prop :=
  Forall is_byte (netbuf_bytes nb) ∧ (msg_type (copy_msg nb) = Some DHCP_REQUEST → (copy_msg nb).(hlen) = NETIF_MAX_HWADDR_LEN).

Lemma handles_dispatch junk m w : wf_server w.(dw_state) → (msg_type m = Some DHCP_REQUEST → handles m w (handle_dhcp_request junk m w)) →
  handles m w (match find_dhcp_option m DHCP_OPTION_MESSAGE_TYPE DHCP_OPTION_MESSAGE_TYPE_LEN with
               | None => Some w | Some (p, _) => dispatch junk (at_ m.(options) p) m w end).
Proof.
  intros Hs Hr. assert (Hrel := handles_release m w). assert (Ht : ∀ p len, find_dhcp_option m DHCP_OPTION_MESSAGE_TYPE DHCP_OPTION_MESSAGE_TYPE_LEN = Some (p, len) →
    msg_type m = Some (at_ m.(options) p)) by (intros p len E; unfold msg_type; rewrite E; done).
  destruct (find_dhcp_option _ _ _) as [[p len]|]; [|by apply handles_nothing]. specialize (Ht p len eq_refl). generalize dependent (at_ m.(options) p). intros t Ht. rewrite Ht in Hr, Hrel.
  clear Ht. unfold dispatch.
  destruct (Z.eqb_spec t DHCP_DISCOVER); [by apply handles_discover|]. destruct (Z.eqb_spec t DHCP_REQUEST) as [->|]; [by apply Hr|].
  destruct (Z.eqb_spec t DHCP_RELEASE) as [->|]; [by apply Hrel|by apply handles_nothing].
Qed.

Lemma dhcp_round_serves junk now nb w : wf_server w.(dw_state) → packet_ok nb →
  handles (copy_msg nb) (with_state (expire_leases now w.(dw_state)) w) (dhcp_round junk now nb w).
Proof.
  intros Hs [Hb Hr]. assert (Hs' : wf_server (with_state (expire_leases now w.(dw_state)) w).(dw_state)) by (by apply wf_expire). unfold dhcp_round.
  set (w0 := with_state _ _) in *. clearbody w0. destruct (_ <? _); [by apply handles_nothing|].
  apply (handles_dispatch junk (copy_msg nb) w0 Hs'). intros Ht. by apply handles_request; [|apply Hr|].
Qed.

(** A packet that does not end the lease [l]: it comes before the end of the leases and is no release of the client. *)
Definition outlives (l : dhcp_lease_t) (ev : list Z * Z * netbuf) : Prop :=
  let '(_, now, nb) := ev in now ≤ lease_end ∧ (l.(hwaddr) = client (copy_msg nb) → msg_type (copy_msg nb) ≠ Some DHCP_RELEASE).

(** A reply that leaves the address [a] to the client [hw]. *)
Definition leaves_to (hw a : list Z) (r : dhcp_msg) : Prop :=
  msg_type r = Some DHCP_NAK ∨ (msg_type r = Some DHCP_OFFER ∨ msg_type r = Some DHCP_ACK) ∧ (r.(yiaddr) = a → client r = hw).

Lemma slot_addr_inj s i j : slot_addr s i = slot_addr s j → i = j.
Proof. unfold slot_addr. intros H. apply app_inv_head in H. assert (at_ s.(first_client_addr) 3 + i = at_ s.(first_client_addr) 3 + j) by congruence. lia. Qed.

Lemma served_leaves m s s' rs i l : 0 ≤ i → s.(leases) !! Z.to_nat i = Some l → l.(expires) ≠ 0 → served m s s' rs → Forall (leaves_to l.(hwaddr) (slot_addr s i)) rs.
Proof.
  intros Hi Hl He [_ _ _ [->|(r & -> & Hc & Hr)]]; [done|]. apply Forall_singleton. destruct Hr as [[Hr _]|(j & k & Hj & Hk & Hf & Hy & Hr)]; [by left|]. right.
  split; [naive_solver|]. rewrite Hy, Hc. intros ->%slot_addr_inj. simplify_eq. destruct Hf; [done|]. done.
Qed.

(** C25: a lease stays with its client, as long as requests give the length 6 of an Ethernet
    address and memory can be allocated.  From a well-formed state in which slot i is held by
    a client, for every sequence of packets of bytes in which each REQUEST has hlen = 6, that
    come before the end of the leases and hold no release of that client, the server
    handles all packets without a fault, stays well formed, the slot is still held by the
    client, and every reply is a NAK or an OFFER or ACK that does not give the slot's
    address to somebody else.  (short_address_takes_lease shows a request with hlen = 0 that
    is given the address of another client.) *)
Theorem dhcp_leases_are_exclusive evs w i l :
  wf_server w.(dw_state) → 0 ≤ i → w.(dw_state).(leases) !! Z.to_nat i = Some l → l.(expires) ≠ 0 →
  Forall (λ '(_, _, nb), Forall is_byte (netbuf_bytes nb)) evs →
  Forall (λ '(_, _, nb), msg_type (copy_msg nb) = Some DHCP_REQUEST → (copy_msg nb).(hlen) = 6) evs →
  Forall (outlives l) evs →
  ∃ w' rs, dhcpserver_task evs w = Some w' ∧ wf_server w'.(dw_state) ∧ w'.(dw_state).(leases) !! Z.to_nat i = Some l ∧
    w'.(dw_sent) = w.(dw_sent) ++ rs ∧ Forall (leaves_to l.(hwaddr) (slot_addr w.(dw_state) i)) rs.
Proof.
  revert w. induction evs as [|[[junk now] nb] evs IH]; intros w Hs Hi Hl He Hby Hhl Hev; [exists w, []; rewrite app_nil_r; done|].
  apply Forall_cons in Hev as [(Hn & Hrel) Hev]. apply Forall_cons in Hby as [Hb0 Hby]. apply Forall_cons in Hhl as [Hh0 Hhl]. assert (Hp0 : packet_ok nb) by (by split). destruct (dhcp_round_serves junk now nb w Hs Hp0) as (w1 & rs1 & E1 & ES1 & Hv). cbn [dw_sent dw_state with_state] in ES1, Hv.
  assert (Hx : l.(expires) = lease_end) by (destruct (proj1 (Forall_lookup _ _) (ws_leases _ Hs) _ _ Hl) as [_ [?|?]]; done).
  assert (Hl0 := expire_keeps now _ _ _ Hl ltac:(rewrite Hx; done)). assert (Hl1 := sv_kept _ _ _ _ Hv _ _ Hl0 (conj He Hrel)).
  destruct (IH w1 (sv_wf _ _ _ _ Hv) Hi Hl1 He Hby Hhl Hev) as (w' & rs & E & Hwf & Hl' & ES & Hrs). exists w', (rs1 ++ rs). cbn [dhcpserver_task]. rewrite E1. cbn. split; [done|]. split; [done|]. split; [done|].
  split; [by rewrite ES, ES1, (assoc_L (++))|]. apply Forall_app_2; [by apply (served_leaves _ _ _ _ i l Hi Hl0 He Hv)|].
  replace (slot_addr w.(dw_state) i) with (slot_addr w1.(dw_state) i); [done|]. unfold slot_addr. by rewrite (proj1 (sv_frame _ _ _ _ Hv)).
Qed.

End rounds.

(** ** Where the server departs from the protocol *)

(** [expires] is a fixed tick count, not a time from now: when the first hour has passed, every lease has ended when the next packet comes. *)
Lemma leases_end_after_first_hour now s : wf_server s → lease_end < now → Forall (λ l, l.(expires) = 0) (expire_leases now s).(leases).
Proof.
  intros Hs Hn. cbn. apply Forall_fmap. eapply Forall_impl; [apply (ws_leases _ Hs)|]. intros l [_ [He|He]]; cbn; rewrite He; [done|].
  rewrite (proj2 (Z.ltb_lt _ _)) by done. done.
Qed.

(** Restarting the server leaves the block of the leases allocated. *)
Lemma restart_leaks `{Heap} addr mask ip n g g1 s1 g2 s2 : g.(task_handle) = false →
  dhcpserver_start addr mask ip n g = Some (g1, s1) → dhcpserver_start addr mask ip n (dhcpserver_stop g1) = Some (g2, s2) → g2.(g_live) = g.(g_live) + 3.
Proof.
  intros Hg. unfold dhcpserver_start. unfold dhcpserver_stop at 1 2 3 4. rewrite Hg. destruct (_ && _); [|done]. intros [= <- <-]. cbn [dhcpserver_stop task_handle g_nalloc g_live].
  destruct (_ && _); [|done]. intros [= <- <-]. cbn. lia.
Qed.

(** ** Concrete packets *)

Definition client_packet (hl : Z) (hw opts : list Z) : netbuf := {|
  segments := [{| payload := 0; bytes := [1; 1; hl] ++ replicate 25 0 ++ hw ++ replicate 206 0 ++ opts ++ [255] |}]; from_addr := 0; from_port := 68 |}.
Definition type_option (t : Z) : list Z := [53; 1; t].
Definition request_for (ip : list Z) : list Z := type_option 3 ++ [50; 4] ++ ip.
Definition hw_a : list Z := [2; 0; 0; 0; 0; 10].
Definition hw_b : list Z := [2; 0; 0; 0; 0; 11].
Definition addr_0 : list Z := [172; 16; 0; 2].
Definition small_server (ls : list dhcp_lease_t) : dhcp_world := {|
  dw_state := {| max_leases := 2; first_client_addr := addr_0; server_ip := [172; 16; 0; 1]; server_mask := [255; 255; 0; 0]; leases := ls |}; dw_nalloc := 0; dw_sent := [] |}.
Definition no_lease : dhcp_lease_t := {| hwaddr := replicate 6 0; expires := 0 |}.
Definition lease_of (hw : list Z) : dhcp_lease_t := {| hwaddr := hw; expires := lease_end |}.
#[local] Instance roomy_heap : Heap := {| malloc_ok := λ _ _, true |}.
Definition replies (o : option dhcp_world) : list (option Z * list Z * list Z) :=
  match o with Some w => (λ r, (msg_type r, r.(yiaddr), client r)) <$> w.(dw_sent) | None => [] end.

(** After the first hour two clients get the same address, one second apart. *)
Example address_given_twice :
  replies (dhcpserver_task [([], 360100, client_packet 6 hw_a (request_for addr_0)); ([], 360200, client_packet 6 hw_b (request_for addr_0))] (small_server [no_lease; no_lease]))
  = [(Some DHCP_ACK, addr_0, hw_a); (Some DHCP_ACK, addr_0, hw_b)].
Proof. vm_compute. reflexivity. Qed.

(** A request whose address length is 0 is given the address of another client. *)
Example short_address_takes_lease :
  replies (dhcpserver_task [([], 100, client_packet 0 hw_b (request_for addr_0))] (small_server [lease_of hw_a; no_lease])) = [(Some DHCP_ACK, addr_0, hw_b)].
Proof. vm_compute. reflexivity. Qed.

(** A pad byte (RFC 2132, 3.1) is taken for an option with a length: the message that follows it is not seen. *)
Example pad_hides_message :
  replies (dhcpserver_task [([], 100, client_packet 6 hw_a (type_option 1))] (small_server [no_lease; no_lease])) = [(Some DHCP_OFFER, addr_0, hw_a)] ∧
  replies (dhcpserver_task [([], 100, client_packet 6 hw_a ([0] ++ type_option 1))] (small_server [no_lease; no_lease])) = [].
Proof. split; vm_compute; reflexivity. Qed.

Lemma client_packet_bytes hl hw opts : is_byte hl → Forall is_byte hw → Forall is_byte opts → Forall is_byte (netbuf_bytes (client_packet hl hw opts)).
Proof.
  intros H1 H2 H3. assert (H0 : ∀ n, Forall is_byte (replicate n 0)) by (intros n; apply Forall_replicate; unfold is_byte; lia). unfold netbuf_bytes, client_packet. cbn [segments fmap list_fmap bytes concat].
  rewrite app_nil_r. repeat apply Forall_app_2; try done; repeat constructor; unfold is_byte in *; lia.
Qed.

Lemma dhcp_leases_are_exclusive_witness : let w := small_server [lease_of hw_a; no_lease] in
  let evs := [([], 100, client_packet 6 hw_b (request_for addr_0)); ([], 200, client_packet 6 hw_b (type_option 1)); ([], 300, client_packet 6 hw_b (type_option 7))] in
  ∃ w' rs, dhcpserver_task evs w = Some w' ∧ wf_server w'.(dw_state) ∧ w'.(dw_state).(leases) !! Z.to_nat 0 = Some (lease_of hw_a) ∧
    w'.(dw_sent) = w.(dw_sent) ++ rs ∧ Forall (leaves_to hw_a (slot_addr w.(dw_state) 0)) rs.
Proof.
  intros w evs. apply (dhcp_leases_are_exclusive (Hp := roomy_heap) (λ _ _, eq_refl) evs w 0 (lease_of hw_a)); [|done|done|done|..].
  - split; [done| |done|done|]; [exists 172, 16, 0, 2; split; [done|]; unfold is_byte; cbn; lia|]. repeat (apply Forall_cons_2 || apply Forall_nil_2); (split; [done|cbn; auto]).
  - do 3 (apply Forall_cons_2; [apply client_packet_bytes; repeat constructor; unfold is_byte; lia|]). apply Forall_nil_2.
  - repeat (apply Forall_cons_2 || apply Forall_nil_2); by vm_compute.
  - repeat (apply Forall_cons_2 || apply Forall_nil_2); by vm_compute.
Defined.

Lemma dhcp_options_roundtrip_witness : let ops := [(53, [5]); (51, [0; 0; 14; 16])] in
  let m := reply (copy_msg (client_packet 6 hw_a (type_option 3))) addr_0 (reply_options (λ o, add_dhcp_option_bytes DHCP_OPTION_END [] (add_options ops o))) in
  ∃ p, find_dhcp_option m 51 4 = Some (p, 4) ∧ sub_list m.(options) p 4 = [0; 0; 14; 16].
Proof.
  intros ops m. apply (dhcp_options_roundtrip ops m 51 4); [|by vm_compute|cbn; lia|done|reflexivity].
  repeat (apply Forall_cons_2 || apply Forall_nil_2); split; cbn; done.
Defined.
